(* ===== verification/_CoqProject ===== *)
-Q . S2P
Prelude.v
Binary64.v
Machine.v
Hash.v
KernelScalars.v
PrintableText.v
KernelEnums.v
KernelCustody.v
StudyTypes.v
StudyCommands.v
KernelCommands.v
KernelCodes.v
Fingerprint.v
FingerprintSpec.v
SqlTable.v
StoreTables.v
StoreQueries.v
StoreFounding.v
StoreCycle.v
StoreBudget.v
StoreProject.v
StoreWork.v
StoreReview.v
StoreLedger.v
StoreSample.v
StoreLogic.v
StoreFrame.v
StoreMachine.v
StoreRefine.v
StoreLedgerSpec.v
StoreHistory.v
StoreRefineCycle.v
StoreLedgerSafety.v
StoreSafety.v
StoreProgress.v
StudyTables.v
StudyStore.v
StudyObservations.v
StudyMachine.v
StudyInvariants.v
StudyAccounts.v
StudyRefine.v
StudySample.v
StudySafety.v
StudyObservationsSpec.v
CustodyTables.v
CustodyStore.v
CustodyMachine.v
CustodyRefine.v
CustodyInvariants.v
CustodySafety.v
LatencyWorld.v
LatencyWorldSpec.v
LatencyAnalysis.v
LatencyAnalysisSpec.v
SocietydProtocol.v
SocietydProtocolSpec.v
SocietydProtocolSafety.v
Json.v
JsonReference.v
PiText.v
PiTextSpec.v
PiWire.v
PiForum.v
PiForumSpec.v
PiTypes.v
PiScanner.v
PiScannerSpec.v
PiDecode.v
PiEncode.v
PiCodecSpec.v
PiCost.v
PiPeer.v
PiEquality.v
PiPeerStep.v
PiPeerLifecycle.v
PiPeerSample.v
PiPeerHistory.v
PiPeerSpec.v
PiPeerTrace.v
