(* ===== verification/Prelude.v ===== *)
(** * Society: verification development (root file)

    Society is a Rust system that runs language-model agents as supervised,
    accounted, auditable work.  A daemon ([crates/societyd]) supervises native
    children and schedules task attempts; a kernel ([crates/society-kernel]) keeps
    the ledger in PostgreSQL; [crates/society-content] stores content-addressed
    bytes; [crates/society-product] and [crates/societyctl] are its faces; and
    [applications/correction-latency] is an experiment on top.  Every agent runs
    in a host process of the Pi SDK ([packages/society-pi-host], TypeScript), and
    the only thing between that untrusted host and the daemon is the crate
    [crates/society-pi]: a codec for closed JSONL frames and a state machine that
    fences the session on the first frame it cannot account for.

    This development models [crates/society-pi] completely; of
    [crates/society-kernel] the domain, the fingerprints, the command ledger, the
    transitions of the founding, the operating cycles, the budget, the projects, the
    work and the reviews, the custody of native children, and the whole study protocol
    with its reports; of
    [crates/societyd] the binary protocol of the daemon; and of the experiment its
    synthetic world and its analysis.

    ** The kernel and how its parts interact

    A [CommandRequest] enters [KernelStore::execute] ([store.rs]).  In one
    transaction the ledger looks for a recorded command of the same id, records the
    command with a placeholder rejection, and runs [apply_command] behind a
    savepoint: the gate (capability, generation, grant, jurisdiction, qualification
    fence), then the transition of the command's body, which reads and writes the
    tables and returns an [EventBody] or a [Rejection].  An event is numbered,
    fingerprinted and stored and the command marked accepted; a rejection rolls the
    transition back and is stored with the command.  The transitions interact through
    the tables only: a cycle fences everything coordinated in it, envelopes bound the
    reservations, cancellations and frozen costs drive a cycle out of its ordinary
    states.

    - [Machine], [Hash]: machine integers, validated newtypes, [BLAKE3] as a
      parameter.
    - [KernelScalars], [KernelEnums], [KernelCustody], [KernelCommands]
      ([domain.rs]), [StudyTypes], [StudyCommands] ([study.rs]): the data.
      [KernelCodes]: stored numbers and structured columns back to data.
    - [Fingerprint]: the byte strings that fingerprint a request and an event;
      [FingerprintSpec]: they are prefix codes, so fingerprints commit.
    - [SqlTable], [StoreTables] ([schema/postgres/kernel.sql]): a table is a finite
      map from its key to a record of its columns, with the sequence of its identity;
      CHECK and UNIQUE constraints are the class [Constraints], decided on insertion
      and update.  The end of [StoreTables] is the rows the schema inserts.
    - [StoreQueries], [StoreFounding], [StoreCycle], [StoreBudget], [StoreProject],
      [StoreWork], [StoreReview]: the transitions, a function of [store.rs] each, in
      the state and error monad [store].  [StoreLedger]: the gate, the dispatch,
      recording, [execute].
    - [StoreSample]: databases reached from the seed by accepted commands.
      [StoreLogic]: the judgement [yields] and its rules.  [StoreFrame]: what a
      transition does not touch.
    - [StoreLedgerSpec], [StoreHistory], [StoreLedgerSafety]: what executing a
      request may do, histories, and the theorems of the ledger.
    - [StoreMachine]: the abstract specification, a machine of moves on cycles,
      sessions, turns, envelopes, reservations, charges and cancellations, and its
      invariant.  [StoreRefine], [StoreRefineCycle]: every transition is a sequence of
      moves.  [StoreSafety], [StoreProgress]: the theorems.

    Statements become operations on tables: [SELECT .. WHERE key] is [select], other
    queries are [row_where] and [count_where] over the rows in the order of their
    keys, [INSERT] takes the next value of the sequence and fails when a constraint
    does, [UPDATE] rewrites rows, [ROLLBACK TO] restores the rows and keeps the
    sequences.  A query that [ORDER BY]s sorts.  The rows that hold the body of a
    command or an event are one map from its row to the body.  Foreign keys and
    triggers are not modelled: a statement of the model can succeed where PostgreSQL
    refuses a reference, never the other way, and a refused statement is a rejection
    or an error, both of which change nothing.  In the ledger the commands whose
    transition is not modelled (evidence, Pi accounting), those of custody, whose tables
    are beside those of the ledger, and those of the study, which [study::apply] of its
    own store takes, dispatch to the parameter [unmodelled]; theorems over histories of
    the ledger are about the modelled commands ([is_modelled]).

    ** The custody of native children

    A native process is admitted before it exists, recorded once it was spawned, and from
    then on only receipts speak of it: the handshake of its Pi session, the liveness of
    its process group, signals, the reap of the direct child, the seals of its streams, a
    recovery after a restart.  The store finalizes it when the receipts account for its
    end; a contradiction, such as a group that was absent and is seen again, fails its
    containment instead.  A cancellation is propagated to a snapshot of owners and
    children, each signal waits for its predecessor, and it is reconciled when no target
    is outstanding.

    - [CustodyTables] ([schema/postgres/kernel.sql]): its tables beside the database of
      the ledger, whose tables it also writes.  [CustodyStore] ([store.rs], from
      [open_supervisor_epoch] to [qualify_native_execution_profile]): the transitions, and
      [dispatch_custody], their arms in the dispatch.
    - [CustodyMachine]: the abstract specification, a rule per command on the tables of
      custody with the guards that its acceptance guarantees.  [CustodyRefine]: every
      accepted command is a move.  [CustodyInvariants]: what lasts, and the invariants.
      [CustodySafety]: histories, samples and the theorems.

    Commands are numbered upwards in a history, as the rows of the ledger are; what is
    beside custody, such as the commands of the ledger, leaves its tables.

    ** The study, its reports and its analysis

    A study runs a matched pair of episodes per seed: a source population writes to a
    Forum, its head is frozen, a successor population replaces it, in the retained arm
    with the whole thread and in the reset arm with what follows the frozen head, and
    both get the correction the protocol committed to.  [study::apply] ([study.rs])
    moves the episodes, the Forum, the obligations of actors, the measurements and the
    run; the queries report runs, pairs, episodes and the public Forum over the
    protocol of the daemon; the analysis ([analysis.rs]) checks these reports against
    a preregistered plan and estimates.  The world ([correction-latency-world]) makes
    the evidence that the actors see and judges their decisions.

    - [StudyTables], [StudyStore] ([schema/postgres/kernel.sql], [study.rs]): the
      tables and the transitions, a definition per arm of [apply], in the monad of the
      store.  [StudyObservations]: the read-only queries.  [StudySample]: studies that
      run from the admission of a protocol to the completion of a run.
    - [StudyMachine]: the abstract specification, a machine of moves of the experiment,
      the actors, the Forum and the analysis on the tables without their bookkeeping.
      [StudyInvariants], [StudyAccounts]: its invariants, kept by every move.
      [StudyRefine]: every accepted command is a sequence of moves.  [StudySafety],
      [StudyObservationsSpec]: the theorems of the transitions and of the reports.
    - [LatencyWorld], [LatencyWorldSpec] ([correction-latency-world/src/lib.rs]): cards,
      validator, evaluator, roles, actor doubles, the grammar of a public decision.
    - [Binary64]: [f64] on the Standard Library's [SpecFloat].  [PrintableText]: texts
      without control characters, and numbers and digests that read back.
      [LatencyAnalysis], [LatencyAnalysisSpec] ([analysis.rs]): plans, persisted pairs,
      estimators, the artifact and its table.

    ** The protocol of the daemon

    [SocietydProtocol] ([societyd/src/protocol.rs]): requests and responses of the
    supervisor and of the public socket, their one-byte codes, the cursor, the encoder
    and decoder of every structure, and frames over readers and writers that may end or
    break.  [SocietydProtocolSpec] and [SocietydProtocolSafety]: that they are inverse
    and canonical.

    ** The boundary crate and how its parts interact

    A line of bytes enters [BoundaryPeer] ([peer.rs]).  The peer seals its BLAKE3
    digest, requires one UTF-8 record of at most a mebibyte, and hands it to the
    codec ([protocol.rs]).  The codec first runs its own scanner, which bounds the
    nesting and refuses duplicate keys and negative zero, then lets the JSON
    library parse, then reads the value into closed types: exact key sets,
    validated identifiers, pinned models, policies and Forum contract
    ([forum.rs]).  The peer then admits the frame (commands to the host) or
    observes it (events of the host) against its state: sequence numbers,
    correlations, phases, the evidence of the current turn, the dispose chain, and
    the usage tracker ([cost.rs]), which turns cumulative snapshots into charges.

    Its files:

    - [Prelude] (this file): [result] and its notations, the Rust primitives the
      source uses on integers, bytes and text ([checked_shl], [split],
      [parse::<u64>], [from_utf8]), the [method] monad of [&mut self] methods that
      keep their writes on an error, record update, the [TextCodec] interface of
      texts that parse and print, list lemmas, hints and tactics.
    - [Json]: [miniserde]'s [Value] and ordered [Object], structural equality, and
      the interface [JsonLibrary] for the third-party parser and printer.
      [JsonReference] is an executable instance of that interface for witnesses.
    - [PiText] ([protocol.rs], the [parse] newtypes), [PiWire] (enums, [wire!],
      [closed_enum!]), [PiForum] ([forum.rs]), [PiTypes] (structs, [assert_pinned]),
      [PiScanner] ([reject_duplicate_object_keys], [is_negative_zero_number]),
      [PiDecode] (every [decode_*] function), [PiEncode] (every [encode_*]
      function), [PiCost] ([cost.rs]), [PiPeer] ([peer.rs]), [PiEquality] (the
      handwritten [PartialEq]s): the model, with the source's names.  Functions of
      several hundred lines are cut where the source has match arms.
    - [PiTextSpec], [PiForumSpec], [PiScannerSpec], [PiCodecSpec], [PiPeerStep],
      [PiPeerLifecycle], [PiPeerSample], [PiPeerHistory], [PiPeerSpec],
      [PiPeerTrace]: specifications and theorems.

    ** Correspondence

    A Rust struct is a Record [<Name>.t], an enum an Inductive [<Name>.t]; a
    [Result] is [result]; a method on [&mut self] is a [method], so an early
    return keeps what was written before it; [?] is [let?] or [let!].  [u64] and
    [u128] are [Z], with [checked_*] and the masking of shifts written out.
    [BTreeMap] and [BTreeSet] keyed by identifiers are [gmap] and [gset]; a [Vec] is
    a list in push order; [str] is its bytes.  An [f64] of a JSON value is its bit
    pattern.

    Parameters: [JsonLibrary] ([miniserde]) and [Blake3] (the [blake3] crate; its
    one law is that a hash has 32 bytes).  Nothing is assumed of the parser or the
    printer except, by name and where a theorem needs it, [reads_back v]: the
    library parses what it printed for [v].  Witnesses instantiate both with
    executable functions.

    ** What the theorems show

    - The ledger ([StoreLedgerSafety], [FingerprintSpec]): in every database that
      requests reach, events are numbered without gaps and paired with the accepted
      commands, ids are unique, bodies are sealed; execution is idempotent, an id
      names one request, a rejection changes nothing else, acceptance is authorised,
      fingerprints commit.
    - The cycles and their money ([StoreSafety], [StoreProgress]): the ledger refines the machine of [StoreMachine]; one live cycle; a cycle moves along
      its state machine and its generation grows; an ended cycle is quiescent for
      good; envelopes balance and stay under their ceiling but for observed overruns; a
      stale generation is refused; a drained cycle can close.  Two divergences: a
      cycle that leaves its reconciliation alive can never close
      ([cancelled_reconciliation_is_a_dead_end]), and nobody can close a cost
      postmortem of a qualification cycle ([qualification_fences_cost_postmortems]).
    - The custody of native children ([CustodySafety]): the transitions refine the machine
      of [CustodyMachine]; children, admissions, sessions and receipts only move forward; a
      finalized child was reaped, its group gone, its end explained, its streams retained;
      absence is final; signals escalate in order; a reconciled cancellation waits for
      nobody; live process groups are distinct, but for one divergence: the spawn of an
      evaluator is not compared with the live children
      ([live_process_groups_are_distinct] and its witness).
    - The study ([StudySafety]): its commands refine the machine; a successor of the
      reset arm is isolated from the source population; both arms get the matched
      correction; a closed episode is settled, revealed, measured and within budget;
      histories are kept; a Forum has no gaps.  Two divergences: a message that was read
      twice cannot be cited ([reread_message_is_not_citable]), and an overcharged episode
      never closes ([overcharged_episode_never_closes]).
    - Its reports ([StudyObservationsSpec]): they never find the corruptions they look
      for, and the report of a run, of its closed pairs and of a public Forum is
      complete and in order.
    - Its analysis ([LatencyAnalysisSpec]), against those reports: a completed run is
      analysed exactly when its pairs are clean, from what was recorded; the summaries
      account for every pair; the table reads back.
    - Its world ([LatencyWorldSpec]): what the validator and the grammar of a decision
      accept, what the evaluator tells, that no population sees enough to know it.
    - The protocol of the daemon ([SocietydProtocolSafety]): requests round trip but for
      one whose cycle treatment the decoder misses ([evaluator_proposal_is_never_read]),
      frames are canonical, responses fit in a frame.
    - Turn and session evidence ([PiPeerHistory]): an observed settlement and a
      disposal are accepted only at the end of their complete chains of evidence,
      and every accepted conversation is a run of the lifecycle automaton of
      [PiPeerLifecycle], the abstract specification of the peer, to which
      [PiPeerStep] relates each method.
    - Fencing and sealing ([PiPeerSpec]): every error fences, a fence is final,
      every line is sealed, digests are well formed and faithful.
    - Invariants over whole conversations ([PiPeerTrace]): sequence numbers,
      command/result pairing, one prompt per task attempt, configuration
      agreement, Forum call balance, conservation of usage.
    - The codec ([PiCodecSpec]): round trip, the exact set of frames the encoder
      emits, invariants of accepted frames, exact key sets.
    - The scanner ([PiScannerSpec]): it terminates and accepts exactly a
      declarative grammar; the exact tokens that count as negative zero.
    - Accounting ([PiCost]): the micro-USD charge is the exact integer ceiling of
      the binary64 cost, comparing bit patterns is comparing costs, deltas add up,
      and outcomes of [observe].
    - Texts and Forum arguments ([PiTextSpec], [PiForumSpec]) and handwritten
      equalities ([PiEquality]): the exact accepted sets, the path order as the
      order on components, and equality that decides Leibniz equality.
    - Divergences that modelling showed: an oversize cost is undercharged instead
      of refused ([cost_past_width_is_undercharged]); the free models' pinned rate
      is not a rate, so they can never be admitted
      ([free_models_are_never_admitted]); an absent Forum field is reported as an
      unknown one ([missing_field_is_reported_as_unknown]); a disposed peer still
      reports charges ([disposed_peer_still_reports_charges]).

    ** Fuel and bounds

    Only the scanner recurses on something else than its data.  It is given
    [2 * length + 1] units of fuel: every call reads at least one byte or is the
    single call between two reads, and [scanner_terminates] shows the fuel is
    never exhausted, whatever the input.  The source's nesting bound (128) and frame
    bound (1 MiB) are modelled as they are, not used as fuel.  Sequence counters are
    unbounded in the model; [accepted_sequences_are_consecutive] shows that they
    stay within one of the safe-integer range, far from [u64] overflow.

    The study has no recursion of its own beyond lists of rows.  The decimal printer of
    an [i64] has 20 digits of fuel, and [read_show_i64] shows that they are enough.

    ** Not modelled

    - [Display] and error message texts of most types, the [as_path] view, the accessors
      that return a field, logging.
    - The schema's foreign keys and triggers; the insertion and decoding of the rows that
      hold the bodies of commands and events, and the snapshots of the store: SQL column
      by column, whose content is the body itself.
    - The transitions of evidence (manifests, measurements, evaluations and their
      admission), Pi office turns and task attempts ([store.rs]): each records what a
      native process reported, and most of its guards compare columns of rows that only
      they write.
    - The launch profile, the study plan and the schedulers of [societyd], the content
      store, the product surface and the command line: decoders of files and drivers of
      processes, sockets and directories around the parts modelled here.
    - [choreography.rs], [live_plan.rs] and [study_program.rs]: scripts of requests.
    - The execution of SQL in PostgreSQL, the TypeScript host, generated and test code. *)

From Stdlib Require Export ZArith Lia Ascii String.
From stdpp Require Export sorting strings gmap numbers base tactics list.
Open Scope Z_scope.

(** ** The two-constructor result of fallible Rust code *)

Inductive result (A E : Type) :=
| Ok (a : A)
| Err (e : E).
Arguments Ok {A E} a.
Arguments Err {A E} e.

#[global] Instance result_eq_dec {A E} `{EqDecision A, EqDecision E} :
  EqDecision (result A E).
Proof. solve_decision. Defined.

Declare Scope rust_scope.
Delimit Scope rust_scope with rust.
Open Scope rust_scope.

(** [let? x := e in k] is [let x = e?; k]. *)
Notation "'let?' x := e 'in' k" :=
  (match e with Ok x => k | Err err => Err err end)
  (at level 10, x name, e at level 100, k at level 200)
  : rust_scope.
Notation "'let?' ' p := e 'in' k" :=
  (match e with Ok p => k | Err err => Err err end)
  (at level 10, p pattern, e at level 100, k at level 200)
  : rust_scope.
(** [check? e ; k] is [e?; k] for an [e : Result<(), _>]. *)
Notation "'check?' e ';' k" :=
  (match e with Ok _ => k | Err err => Err err end)
  (at level 10, e at level 100, k at level 200)
  : rust_scope.

Definition ok_or {A E} (o : option A) (e : E) : result A E :=
  match o with Some a => Ok a | None => Err e end.
Definition map_err {A E F} (f : E -> F) (r : result A E) : result A F :=
  match r with Ok a => Ok a | Err e => Err (f e) end.
Definition result_ok {A E} (r : result A E) : option A :=
  match r with Ok a => Some a | Err _ => None end.
Definition is_ok {A E} (r : result A E) : bool :=
  match r with Ok _ => true | Err _ => false end.

(** [iter().map(f).collect::<Result<Vec<_>, _>>()]: stops at the first error. *)
Fixpoint collect {A B E} (f : A -> result B E) (l : list A) : result (list B) E :=
  match l with
  | [] => Ok []
  | x :: l => let? y := f x in let? ys := collect f l in Ok (y :: ys)
  end.

(** [l.iter().zip(r).all(|(x, y)| f(x, y))]: stops with the shorter list. *)
Definition zip_all {A B} (f : A -> B -> bool) : list A -> list B -> bool :=
  fix go l r :=
    match l, r with
    | x :: l, y :: r => f x y && go l r
    | _, _ => true
    end.

(** ** Machine integers: values in [Z], widths as bounds *)

Definition u64_max : Z := 2 ^ 64 - 1.
Definition i64_max : Z := 2 ^ 63 - 1.
Definition u128_max : Z := 2 ^ 128 - 1.

Definition in_u64 (z : Z) : Prop := 0 <= z <= u64_max.
Definition in_i64 (z : Z) : Prop := - 2 ^ 63 <= z <= i64_max.

(** [u64::checked_add], [u128::checked_mul]: [None] outside the width. *)
Definition checked_add_u64 (a b : Z) : option Z :=
  if a + b <=? u64_max then Some (a + b) else None.
Definition checked_mul_u128 (a b : Z) : option Z :=
  if a * b <=? u128_max then Some (a * b) else None.
(** [u128::checked_shl]: [None] only when the shift reaches the width; bits
    shifted past the top are lost, as in Rust. *)
Definition checked_shl_u128 (a s : Z) : option Z :=
  if s <? 128 then Some (Z.shiftl a s mod 2 ^ 128) else None.

(** ** Bytes and strings

    A Rust [str] is its sequence of bytes; [String.length] is [str::len]. *)

Abbreviation byte := Ascii.ascii.
Definition bytes (s : string) : list byte := list_ascii_of_string s.
Definition byte_value (b : byte) : N := N_of_ascii b.

Definition is_ascii_digit (b : byte) : bool :=
  (48 <=? byte_value b)%N && (byte_value b <=? 57)%N.
Definition is_ascii_alphanumeric (b : byte) : bool :=
  is_ascii_digit b
  || ((65 <=? byte_value b)%N && (byte_value b <=? 90)%N)
  || ((97 <=? byte_value b)%N && (byte_value b <=? 122)%N).
(** The range [b'a'..=b'f']. *)
Definition is_lower_hex_letter (b : byte) : bool :=
  (97 <=? byte_value b)%N && (byte_value b <=? 102)%N.
Definition digit_value (b : byte) : Z := Z.of_N (byte_value b) - 48.

Definition str_len (s : string) : Z := Z.of_nat (String.length s).
Definition is_empty (s : string) : bool :=
  match s with EmptyString => true | _ => false end.
Definition contains_byte (b : byte) (l : list byte) : bool :=
  existsb (Ascii.eqb b) l.

(** [str::starts_with], [str::strip_prefix], [str::ends_with] on bytes. *)
Fixpoint strip_prefix_bytes (p l : list byte) : option (list byte) :=
  match p, l with
  | [], _ => Some l
  | a :: p, b :: l => if Ascii.eqb a b then strip_prefix_bytes p l else None
  | _ :: _, [] => None
  end.
Definition starts_with_bytes (p l : list byte) : bool :=
  match strip_prefix_bytes p l with Some _ => true | None => false end.
Definition ends_with_byte (b : byte) (l : list byte) : bool :=
  match list.last l with Some c => Ascii.eqb b c | None => false end.

(** [str::split(c)]: always at least one part. *)
Fixpoint split_on (c : byte) (l : list byte) : list (list byte) :=
  match l with
  | [] => [[]]
  | b :: l =>
      if Ascii.eqb b c then [] :: split_on c l
      else match split_on c l with
           | part :: parts => (b :: part) :: parts
           | [] => [[b]]
           end
  end.
(** [str::split_once(c)]: at the first occurrence. *)
Fixpoint split_once (c : byte) (l : list byte) : option (list byte * list byte) :=
  match l with
  | [] => None
  | b :: l =>
      if Ascii.eqb b c then Some ([], l)
      else match split_once c l with
           | Some (before, after) => Some (b :: before, after)
           | None => None
           end
  end.

(** [str::parse::<u64>]: an optional [+], at least one digit, no overflow. *)
Fixpoint parse_u64_digits (acc : Z) (l : list byte) : option Z :=
  match l with
  | [] => Some acc
  | b :: l =>
      if is_ascii_digit b then
        let acc := acc * 10 + digit_value b in
        if acc <=? u64_max then parse_u64_digits acc l else None
      else None
  end.
Definition parse_u64 (l : list byte) : option Z :=
  match l with
  | [] => None
  | b :: rest =>
      if Ascii.eqb b "+" then
        match rest with [] => None | _ => parse_u64_digits 0 rest end
      else parse_u64_digits 0 l
  end.

(** [std::str::from_utf8]: the well-formed byte sequences of the Unicode
    standard (no overlong form, no surrogate, nothing above U+10FFFF). *)
Definition between (lo hi : N) (b : byte) : bool :=
  (lo <=? byte_value b)%N && (byte_value b <=? hi)%N.
Fixpoint utf8_valid (l : list byte) : bool :=
  match l with
  | [] => true
  | b :: l1 =>
    if between 0 127 b then utf8_valid l1 else
    match l1 with
    | [] => false
    | c1 :: l2 =>
      if between 194 223 b then between 128 191 c1 && utf8_valid l2 else
      match l2 with
      | [] => false
      | c2 :: l3 =>
        if between 224 239 b then
          (if between 224 224 b then between 160 191 c1
           else if between 237 237 b then between 128 159 c1
           else between 128 191 c1)
          && between 128 191 c2 && utf8_valid l3
        else
        match l3 with
        | [] => false
        | c3 :: l4 =>
          between 240 244 b
          && (if between 240 240 b then between 144 191 c1
              else if between 244 244 b then between 128 143 c1
              else between 128 191 c1)
          && between 128 191 c2 && between 128 191 c3 && utf8_valid l4
        end
      end
    end
  end.

Lemma utf8_valid_ascii l : forallb (between 0 127) l = true -> utf8_valid l = true.
Proof. induction l as [|b l IH]; [done|]. cbn. destruct (between 0 127 b); [exact IH|done]. Qed.

(** ** Splitting at a separator *)

(** The parts of a text, each preceded by its separator. *)
Definition prefixed (sep : byte) (parts : list (list byte)) : list byte :=
  flat_map (fun part => sep :: part) parts.

Lemma split_on_nonempty c l : split_on c l <> [].
Proof.
  destruct l as [|b l]; cbn; [done|]. destruct (Ascii.eqb b c); [done|].
  by destruct (split_on c l).
Qed.

Lemma split_on_join c l : prefixed c (split_on c l) = c :: l.
Proof.
  induction l as [|b l IH]; [done|]. cbn.
  destruct (Ascii.eqb_spec b c) as [->|].
  - unfold prefixed in *. cbn. by rewrite IH.
  - pose proof (split_on_nonempty c l). destruct (split_on c l) as [|p ps]; [done|].
    unfold prefixed in *. cbn in *. by injection IH as ->.
Qed.

Lemma split_on_parts c l : Forall (fun part => c ∉ part) (split_on c l).
Proof.
  induction l as [|b l IH]; cbn; [repeat constructor; apply not_elem_of_nil|].
  destruct (Ascii.eqb_spec b c) as [->|Hne]; [by constructor; [apply not_elem_of_nil|]|].
  destruct (split_on c l) as [|p ps]; inversion IH; subst; constructor; try done.
  - rewrite list_elem_of_singleton. congruence.
  - rewrite elem_of_cons. intros [|]; [congruence|done].
Qed.

Lemma split_on_no_sep c l : c ∉ l -> split_on c l = [l].
Proof.
  induction l as [|b l IH]; cbn; [done|]. rewrite elem_of_cons. intros Hn.
  destruct (Ascii.eqb_spec b c) as [->|]; [by destruct Hn; left|].
  rewrite IH; [done|]. intros ?. destruct Hn. by right.
Qed.

Lemma split_on_app c part l : c ∉ part -> split_on c (part ++ c :: l) = part :: split_on c l.
Proof.
  induction part as [|b part IH]; cbn.
  - by rewrite Ascii.eqb_refl.
  - rewrite elem_of_cons. intros Hn.
    destruct (Ascii.eqb_spec b c) as [->|]; [by destruct Hn; left|].
    rewrite IH; [done|]. intros ?. destruct Hn. by right.
Qed.

(** [split_on] inverts [prefixed] on separator-free parts. *)
Lemma split_on_prefixed c parts :
  parts <> [] -> Forall (fun part => c ∉ part) parts ->
  split_on c (prefixed c parts) = [] :: parts.
Proof.
  intros Hne Hparts. destruct parts as [|p ps]; [done|]. unfold prefixed.
  change (flat_map (fun part => c :: part) (p :: ps)) with ([] ++ c :: (p ++ prefixed c ps)).
  rewrite split_on_app by apply not_elem_of_nil. f_equal. clear Hne.
  revert p Hparts. induction ps as [|q ps IH]; intros p Hparts;
    apply Forall_cons in Hparts as [Hp Hps].
  - rewrite app_nil_r. by apply split_on_no_sep.
  - change (prefixed c (q :: ps)) with (c :: (q ++ prefixed c ps)).
    rewrite split_on_app by done. f_equal. by apply IH.
Qed.

(** ** Methods on [&mut self] that return a [Result]

    A method reads and writes the state [S] and ends with a value or an error;
    the writes made before an error stay, as they do in Rust. *)

Definition method (S E A : Type) : Type := S -> result A E * S.

Definition m_ret {S E A} (a : A) : method S E A := fun s => (Ok a, s).
(** [return Err(e)]. *)
Definition m_fail {S E A} (e : E) : method S E A := fun s => (Err e, s).
Definition m_bind {S E A B} (m : method S E A) (k : A -> method S E B) :
  method S E B :=
  fun s => match m s with
           | (Ok a, s') => k a s'
           | (Err e, s') => (Err e, s')
           end.
(** Reading [self], and assigning to its fields. *)
Definition m_get {S E} : method S E S := fun s => (Ok s, s).
Definition m_modify {S E} (f : S -> S) : method S E unit := fun s => (Ok (), f s).
(** [e?] for a pure [Result]. *)
Definition m_lift {S E A} (r : result A E) : method S E A := fun s => (r, s).

Notation "'let!' x := m 'in' k" := (m_bind m (fun x => k))
  (at level 10, x binder, m at level 100, k at level 200) : rust_scope.
Notation "m ;! k" := (m_bind m (fun _ => k))
  (at level 100, right associativity, k at level 200) : rust_scope.

(** [if bad { self.fence(); return Err(e) }] and friends are written with the
    condition and the two arms; [m_when] is an [if] without [else]. *)
Definition m_when {S E} (c : bool) (m : method S E unit) : method S E unit :=
  if c then m else m_ret ().

(** ** Printing numbers *)

Definition hex_digit (n : N) : byte :=
  ascii_of_N (if (n <? 10)%N then 48 + n else 87 + n)%N.
(** [format!("{byte:02x}")]. *)
Definition hex_byte (b : byte) : list byte :=
  [hex_digit (byte_value b / 16)%N; hex_digit (byte_value b mod 16)%N].

(** The decimal digits of a natural number before [acc]; 20 digits are enough for 64 bits. *)
Fixpoint decimal (fuel : nat) (z : Z) (acc : list byte) : list byte :=
  match fuel with
  | O => acc
  | S fuel =>
      let acc := ascii_of_N (Z.to_N (48 + z mod 10)) :: acc in
      if z <? 10 then acc else decimal fuel (z / 10) acc
  end.
(** [format!("{value}")] of an [i64]. *)
Definition show_i64 (z : Z) : list byte :=
  if z <? 0 then "-"%char :: decimal 20 (- z) [] else decimal 20 z [].

(** ** Field assignment on records

    [r <| field := v |>] is [r.field = v].  A record declares its constructor
    applied to its projections once ([Fields]); the update of a field is found
    from it. *)

Class Fields (R : Type) := fields : R -> R.
Class Update {R T : Type} (proj : R -> T) := update : (T -> T) -> R -> R.

Ltac find_update R proj :=
  let inst := constr:(_ : Fields R) in
  let body := eval hnf in inst in
  match body with
  | context C [proj] =>
      let upd := constr:(fun f : _ -> _ => ltac:(
        let c := context C [fun r : R => f (proj r)] in exact c)) in
      let upd := eval cbv beta in upd in
      exact upd
  end.
#[global] Hint Extern 1 (@Update ?R _ ?proj) =>
  find_update R proj : typeclass_instances.
#[global] Arguments update {R T} proj {_} f r /.

Notation "r <| proj := v |>" := (update proj (fun _ => v) r)
  (at level 1, left associativity, format "r  <| proj  :=  v |>") : rust_scope.
Notation "r <| proj ::= f |>" := (update proj f r)
  (at level 1, left associativity, format "r  <| proj  ::=  f |>") : rust_scope.

(** ** Values with a text

    What a client needs of a validating [parse] and the text it came from: the
    enumerations' tables and the newtypes of the protocol are one instance each.
    [ok] is the invariant [parse] establishes. *)

Class TextCodec {A E} (parse : string -> result A E) (print : A -> string)
    (ok : A -> Prop) : Prop := {
  text_sound : forall s a, parse s = Ok a -> ok a /\ print a = s;
  text_exact : forall a, ok a -> parse (print a) = Ok a;
  text_inj : forall a b, parse (print a) = Ok b -> b = a;
}.

(** A table that reads back every value has no invariant. *)
Lemma text_codec_total {A E} (parse : string -> result A E) (print : A -> string) :
  (forall a, parse (print a) = Ok a) ->
  (forall s a, parse s = Ok a -> print a = s) ->
  TextCodec parse print (fun _ => True).
Proof.
  intros Hexact Hsound. constructor; [by eauto|done|].
  intros a b H. rewrite Hexact in H. by injection H.
Qed.

(** A newtype whose [parse] keeps the text: its invariant is that [parse]
    accepts that text. *)
Lemma text_codec_newtype {A E} (parse : string -> result A E) (print : A -> string) :
  (forall s a, parse s = Ok a -> print a = s) ->
  (forall a b, print a = print b -> a = b) ->
  TextCodec parse print (fun a => parse (print a) = Ok a).
Proof.
  intros Hsound Hinj. constructor; [|done|eauto].
  intros s a H. rewrite (Hsound s a H). by split.
Qed.

(** ** Shared automation *)

Create HintDb rust.

(** Splits every [match] of a hypothesis that ends in [Ok] or [Some], keeping
    the equations of the scrutinees. *)
Ltac inv_ok H :=
  repeat (simplify_eq/=;
    match type of H with
    | context [match ?x with _ => _ end] =>
        let E := fresh "E" in destruct x eqn:E; try discriminate H
    end);
  simplify_eq/=.

(** Splits boolean conjunctions, disjunctions and comparisons of the context. *)
Ltac bool_hyps :=
  repeat match goal with
  | H : _ && _ = true |- _ => apply andb_true_iff in H as [??]
  | H : _ || _ = false |- _ => apply orb_false_iff in H as [??]
  | H : negb _ = true |- _ => apply negb_true_iff in H
  | H : negb _ = false |- _ => apply negb_false_iff in H
  | H : bool_decide _ = true |- _ => apply bool_decide_eq_true in H
  | H : bool_decide _ = false |- _ => apply bool_decide_eq_false in H
  | H : (_ =? _)%Z = true |- _ => apply Z.eqb_eq in H
  | H : (_ =? _)%Z = false |- _ => apply Z.eqb_neq in H
  | H : (_ <=? _)%Z = true |- _ => apply Z.leb_le in H
  | H : (_ <=? _)%Z = false |- _ => apply Z.leb_gt in H
  | H : (_ <? _)%Z = true |- _ => apply Z.ltb_lt in H
  | H : (_ <? _)%Z = false |- _ => apply Z.ltb_ge in H
  | H : (_ <=? _)%N = true |- _ => apply N.leb_le in H
  | H : (_ <=? _)%N = false |- _ => apply N.leb_gt in H
  | H : (_ =? _)%string = true |- _ => apply String.eqb_eq in H
  | H : (_ =? _)%string = false |- _ => apply String.eqb_neq in H
  end.

(** Arithmetic on lengths of concatenations. *)
Ltac length_lia :=
  repeat progress (rewrite ?length_app in *; cbn [length app] in *); lia.

(** ** Generic lemmas *)

(** [injection] for results whose value should not be evaluated. *)
Lemma Ok_inj {A E} (a b : A) : Ok (E := E) a = Ok b -> a = b.
Proof. by intros [= ->]. Qed.

Lemma collect_ok_iff {A B E} (f : A -> result B E) l ys :
  collect f l = Ok ys <-> Forall2 (fun x y => f x = Ok y) l ys.
Proof.
  revert ys. induction l as [|x l IH]; intros ys; cbn.
  - split; [intros [= <-]; constructor | by inversion 1].
  - split.
    + intros H. inv_ok H. constructor; [done|]. by apply IH.
    + intros (y & ys' & Hx & Hl & ->)%Forall2_cons_inv_l. rewrite Hx.
      apply IH in Hl. by rewrite Hl.
Qed.

Lemma collect_map {A B C E} (f : B -> result C E) (g : A -> B) (h : A -> C) l :
  (forall a, f (g a) = Ok (h a)) -> collect f (map g l) = Ok (map h l).
Proof. intros Hf. induction l; cbn; [done|]. by rewrite Hf, IHl. Qed.

(** As many different numbers as there are from 1 to [n], in that range: all of them. *)
Lemma numbers_complete (l : list Z) n :
  NoDup l -> Forall (fun x => 1 <= x <= n) l -> Z.of_nat (length l) = n -> l ≡ₚ seqZ 1 n.
Proof.
  intros Hnd Hr Hlen. apply submseteq_length_Permutation.
  - apply NoDup_submseteq; [done|]. intros x Hx. rewrite Forall_forall in Hr.
    apply elem_of_seqZ. specialize (Hr x Hx). lia.
  - rewrite length_seqZ. lia.
Qed.
(** Two sorted lists of the same numbers are equal. *)
Lemma sorted_unique (l l' : list Z) :
  StronglySorted Z.le l -> StronglySorted Z.le l' -> l ≡ₚ l' -> l = l'.
Proof. apply (StronglySorted_unique Z.le). Qed.
Lemma seqZ_sorted a n : StronglySorted Z.le (seqZ a n).
Proof.
  destruct (Z.le_gt_cases 0 n) as [Hn|Hn]; [|rewrite seqZ_nil by lia; constructor].
  revert a. pattern n. apply natlike_ind; [intros a; rewrite seqZ_nil by lia; constructor| |done].
  intros m Hm IH a. rewrite seqZ_cons, Z.pred_succ by lia. constructor; [done|].
  apply Forall_forall. intros x Hx. apply elem_of_seqZ in Hx. lia.
Qed.

Lemma list_ascii_of_string_inj s t : bytes s = bytes t -> s = t.
Proof.
  intros H. rewrite <-(string_of_list_ascii_of_string s).
  rewrite <-(string_of_list_ascii_of_string t). unfold bytes in H. by rewrite H.
Qed.

Lemma zip_all_true {A B} (f : A -> B -> bool) l r :
  length l = length r ->
  zip_all f l r = true <-> Forall2 (fun x y => f x y = true) l r.
Proof.
  revert r. induction l as [|x l IH]; intros [|y r] Hlen; cbn in *; try done.
  rewrite andb_true_iff, Forall2_cons, IH by lia. done.
Qed.

Lemma bytes_length s : str_len s = Z.of_nat (length (bytes s)).
Proof. unfold str_len, bytes. f_equal. induction s; cbn; [done|]. by rewrite IHs. Qed.

(** ** Inverting the method combinators *)

Lemma bind_ok {S E A B} (m : method S E A) (k : A -> method S E B) s b s' :
  m_bind m k s = (Ok b, s') -> exists a s1, m s = (Ok a, s1) /\ k a s1 = (Ok b, s').
Proof. unfold m_bind. destruct (m s) as [[a|e] s1]; [by eauto|done]. Qed.

Lemma ret_ok {S E A} (a b : A) (s s' : S) : m_ret (E := E) a s = (Ok b, s') -> b = a /\ s' = s.
Proof. by intros [= -> ->]. Qed.

Lemma get_ok {S E} (s s' a : S) : m_get (E := E) s = (Ok a, s') -> a = s /\ s' = s.
Proof. by intros [= -> ->]. Qed.

Lemma modify_ok {S E} (f : S -> S) (s s' : S) a :
  m_modify (E := E) f s = (Ok a, s') -> s' = f s.
Proof. by intros [= <-]. Qed.

Lemma lift_ok {S E A} (r : result A E) (s s' : S) a :
  m_lift r s = (Ok a, s') -> r = Ok a /\ s' = s.
Proof. by intros [= -> ->]. Qed.

Lemma fail_not_ok {S E A} (e : E) (s s' : S) (a : A) : m_fail e s = (Ok a, s') -> False.
Proof. done. Qed.
