(* ===== verification/Binary64.v ===== *)
(** * [f64]

    The arithmetic of binary64 that the analysis uses, on the floats of the Standard Library's
    [SpecFloat]: IEEE 754 with 53 bits of precision, rounding to nearest even.  A literal is
    the quotient of two integers that are exact, correctly rounded. *)

From Stdlib Require Import SpecFloat.
From S2P Require Import Prelude.

Definition f64 : Type := spec_float.
Definition f64_prec : Z := 53.
Definition f64_emax : Z := 1024.

(** [value as f64] of an integer, and a decimal literal. *)
Definition f64_of_int (z : Z) : f64 := binary_normalize f64_prec f64_emax z 0 false.
Definition f64_lit (numerator denominator : Z) : f64 :=
  SFdiv f64_prec f64_emax (f64_of_int numerator) (f64_of_int denominator).

Definition f64_add : f64 -> f64 -> f64 := SFadd f64_prec f64_emax.
Definition f64_sub : f64 -> f64 -> f64 := SFsub f64_prec f64_emax.
Definition f64_mul : f64 -> f64 -> f64 := SFmul f64_prec f64_emax.
Definition f64_div : f64 -> f64 -> f64 := SFdiv f64_prec f64_emax.
Definition f64_sqrt : f64 -> f64 := SFsqrt f64_prec f64_emax.

(** [values.iter().sum::<f64>()]. *)
Definition f64_sum (values : list f64) : f64 := fold_left f64_add values (S754_zero true).

(** [powi]: by squaring, as the compiler's runtime does; its precision is not specified. *)
Fixpoint powi_from (r a : f64) (n : positive) : f64 :=
  match n with
  | xH => f64_mul r a
  | xO n => powi_from r (f64_mul a a) n
  | xI n => powi_from (f64_mul r a) (f64_mul a a) n
  end.
Definition f64_powi (a : f64) (n : positive) : f64 := powi_from (f64_of_int 1) a n.

(** [format!("{value:.6}")]: the exact value to six places, ties to even; a negative zero
    keeps its sign. *)
Definition half_even (numerator denominator : Z) : Z :=
  let q := numerator / denominator in
  let r := 2 * (numerator mod denominator) in
  if (denominator <? r) || ((r =? denominator) && Z.odd q) then q + 1 else q.
Definition micros_of (m : positive) (e : Z) : Z :=
  if 0 <=? e then Zpos m * 2 ^ e * 1000000 else half_even (Zpos m * 1000000) (2 ^ - e).
Definition show_nat (z : Z) : list byte := decimal (S (Z.to_nat (Z.log2 z))) z [].
Definition six_digits (z : Z) : list byte :=
  map (fun p => ascii_of_N (Z.to_N (48 + z / p mod 10))) [100000; 10000; 1000; 100; 10; 1].
Definition show_fixed6 (value : f64) : list byte :=
  let signed (negative : bool) l := if negative then "-"%char :: l else l in
  let fixed z := show_nat (z / 1000000) ++ "."%char :: six_digits (z mod 1000000) in
  match value with
  | S754_zero s => signed s (fixed 0)
  | S754_infinity s => signed s (bytes "inf")
  | S754_nan => bytes "NaN"
  | S754_finite s m e => signed s (fixed (micros_of m e))
  end.

Example fixed_third : show_fixed6 (f64_lit (-1) 3) = bytes "-0.333333".
Proof. vm_compute. reflexivity. Qed.
Example fixed_sqrt : show_fixed6 (f64_sqrt (f64_of_int 200000000)) = bytes "14142.135624".
Proof. vm_compute. reflexivity. Qed.
Example fixed_power : f64_powi (f64_of_int 3) 5 = f64_of_int 243.
Proof. vm_compute. reflexivity. Qed.
