(* ===== verification/Machine.v ===== *)
(** * Machine integers, byte order, validated newtypes

    What the kernel and the daemon use of Rust beyond [Prelude]: signed 64-bit
    arithmetic, big-endian conversions, the Unicode [trim] test of the validating
    constructors, newtypes with a private field, C-like enums with a discriminant,
    and the notion of an encoding that can be told apart from what follows it. *)

From S2P Require Import Prelude.
From Stdlib Require Import Bool.

(** ** Widths *)

Definition i64_min : Z := - 2 ^ 63.
Definition is_i64 (z : Z) : bool := (i64_min <=? z) && (z <=? i64_max).
Definition is_i32 (z : Z) : bool := (- 2 ^ 31 <=? z) && (z <=? 2 ^ 31 - 1).
Definition is_u64 (z : Z) : bool := (0 <=? z) && (z <=? u64_max).
Definition is_u16 (z : Z) : bool := (0 <=? z) && (z <=? 65535).
Definition is_u8 (z : Z) : bool := (0 <=? z) && (z <=? 255).

(** [i64::checked_add], [i64::checked_sub]. *)
Definition checked_i64 (z : Z) : option Z := if is_i64 z then Some z else None.
Definition checked_add_i64 (a b : Z) : option Z := checked_i64 (a + b).
Definition checked_sub_i64 (a b : Z) : option Z := checked_i64 (a - b).
(** [u8::try_from], [u16::try_from] and [i64::try_from], with [.ok()]. *)
Definition u8_try_from (z : Z) : option Z := if is_u8 z then Some z else None.
Definition u16_try_from (z : Z) : option Z := if is_u16 z then Some z else None.
Definition i64_try_from (z : Z) : option Z := if is_i64 z then Some z else None.

(** ** Big-endian bytes *)

(** The byte of [z] whose lowest bit is bit [k]; a negative [z] is read in two's
    complement. *)
Definition byte_at (k z : Z) : byte := ascii_of_N (Z.to_N (Z.land (Z.shiftr z k) 255)).
(** [to_be_bytes] of an [8 * n]-bit integer. *)
Fixpoint be_bytes (n : nat) (z : Z) : list byte :=
  match n with
  | O => []
  | S n => byte_at (8 * Z.of_nat n) z :: be_bytes n z
  end.
(** [from_be_bytes] of an unsigned integer. *)
Definition from_be_bytes (l : list byte) : Z :=
  fold_left (fun acc b => acc * 256 + Z.of_N (byte_value b)) l 0.
(** Reading [8 * n] bits as a signed integer. *)
Definition to_signed (bits z : Z) : Z := if z <? 2 ^ (bits - 1) then z else z - 2 ^ bits.
Definition i64_from_be_bytes (l : list byte) : Z := to_signed 64 (from_be_bytes l).

(** ** [str::trim().is_empty()]

    The code points with the Unicode property White_Space, in UTF-8. *)

Definition is_ascii_space (b : byte) : bool := between 9 13 b || between 32 32 b.
Fixpoint is_blank_bytes (l : list byte) : bool :=
  match l with
  | [] => true
  | a :: l1 =>
    if is_ascii_space a then is_blank_bytes l1 else
    match l1 with
    | [] => false
    | b :: l2 =>
      if between 194 194 a && (between 133 133 b || between 160 160 b)
      then is_blank_bytes l2
      else match l2 with
      | [] => false
      | c :: l3 =>
        if between 225 225 a && between 154 154 b && between 128 128 c
           || between 226 226 a && between 128 128 b
              && (between 128 138 c || between 168 169 c || between 175 175 c)
           || between 226 226 a && between 129 129 b && between 159 159 c
           || between 227 227 a && between 128 128 b && between 128 128 c
        then is_blank_bytes l3
        else false
      end
    end
  end.
(** [value.trim().is_empty()]. *)
Definition trims_to_empty (s : string) : bool := is_blank_bytes (bytes s).
(** [value.contains(c)] for an ASCII [c]. *)
Definition str_contains (c : byte) (s : string) : bool := contains_byte c (bytes s).
Definition NUL : byte := "000"%char.
Definition is_ascii_graphic (b : byte) : bool := between 33 126 b.
Definition is_ascii_control (b : byte) : bool := between 0 31 b || between 127 127 b.

(** ** Newtypes

    A tuple struct with one private field is built only by its constructors, which
    validate.  [newtype name A ok] carries the check that every constructor makes;
    [name] keeps two newtypes over the same check apart, as Rust does. *)

Record newtype (name : string) (A : Type) (ok : A -> bool) := Newtype {
  inner : A;
  inner_ok : ok inner = true;
}.
Arguments Newtype {name A ok} inner inner_ok.
Arguments inner {name A ok} _.
Arguments inner_ok {name A ok} _.

(** [Self(value)] under its guard. *)
Definition checked {name A ok} (a : A) : option (newtype name A ok) :=
  match bool_dec (ok a) true with
  | left H => Some (Newtype a H)
  | right _ => None
  end.

#[global] Instance inner_inj {name A ok} : Inj (=) (=) (@inner name A ok).
Proof. intros [a Ha] [b Hb]. cbn. intros ->. f_equal. apply proof_irrel. Qed.

#[global] Instance newtype_eq_dec {name A ok} `{EqDecision A} :
  EqDecision (newtype name A ok).
Proof.
  refine (fun x y => cast_if (decide (inner x = inner y))); [by apply (inj inner)|congruence].
Defined.

Lemma checked_some {name A ok} (a : A) (x : newtype name A ok) :
  checked a = Some x <-> inner x = a.
Proof.
  unfold checked. destruct (bool_dec (ok a) true) as [H|H].
  - split; [by intros [= <-]|]. intros E. f_equal. by apply (inj inner).
  - split; [done|]. intros <-. by destruct H, x.
Qed.

Lemma checked_none {name A ok} (a : A) :
  @checked name A ok a = None <-> ok a = false.
Proof.
  unfold checked. destruct (bool_dec (ok a) true) as [H|H].
  - split; [done|]. intros E. congruence.
  - split; [|done]. intros _. by apply not_true_is_false.
Qed.

Lemma checked_inner {name A ok} (x : newtype name A ok) : checked (inner x) = Some x.
Proof. by apply checked_some. Qed.

(** A plain [i64], [u8], [u16] of a struct field or a variant. *)
Definition i64 : Type := newtype "i64" Z is_i64.
Definition u8 : Type := newtype "u8" Z is_u8.
Definition u16 : Type := newtype "u16" Z is_u16.
Definition i32 : Type := newtype "i32" Z is_i32.

(** A Rust [String] is UTF-8. *)
Definition is_str (s : string) : bool := utf8_valid (bytes s).

(** ** Enums with discriminants

    [as i64] of a field-less enum with [repr(i64)]. *)

Class Code {T} (as_i64 : T -> Z) : Prop := {
  code_inj : Inj (=) (=) as_i64;
  code_is_i64 x : is_i64 (as_i64 x) = true;
}.
#[global] Existing Instance code_inj.

(** Deciding equality on discriminants, without a quadratic case analysis. *)
Definition eq_dec_by_code {T} (as_i64 : T -> Z) `{!Code as_i64} : EqDecision T :=
  fun x y => match decide (as_i64 x = as_i64 y) with
             | left H => left (inj as_i64 x y H)
             | right H => right (fun E => H (f_equal as_i64 E))
             end.

(** A table that reads stored integers back. *)
Class CodeTable {T E} (as_i64 : T -> Z) (from_i64 : Z -> result T E) : Prop := {
  table_exact x : from_i64 (as_i64 x) = Ok x;
  table_sound z x : from_i64 z = Ok x -> as_i64 x = z;
}.

Ltac code_enum :=
  split; [intros [] []; first [reflexivity | discriminate 1] | intros []; reflexivity].

Lemma code_by_table {T E} (as_i64 : T -> Z) (from_i64 : Z -> result T E) :
  CodeTable as_i64 from_i64 -> (forall x, is_i64 (as_i64 x) = true) -> Code as_i64.
Proof.
  intros Htable Hwidth. split; [|done]. intros x y Heq.
  pose proof (table_exact x) as Hx. rewrite Heq, (table_exact y) in Hx. by injection Hx as <-.
Qed.

(** Proofs of [CodeTable]: evaluate on every value, split on the stored integer. *)
Ltac code_table :=
  split; [intros []; reflexivity
         | let z := fresh "z" in let x := fresh "x" in let H := fresh "H" in
           intros z x H;
           match type of H with
           | ?l = ?r => let l' := eval hnf in l in change (l' = r) in H
           end;
           repeat match type of H with
             | context [match ?p with _ => _ end] => destruct p; try discriminate H
             end;
           first [injection H as <-; reflexivity | destruct x; reflexivity]].

(** ** Encodings that end where they end

    A writer is told apart from whatever bytes follow it: equal streams carry equal
    values and equal remainders. *)

Class Prefix {A} (put : A -> list byte) : Prop :=
  prefix_inj a b r s : put a ++ r = put b ++ s -> a = b /\ r = s.

#[global] Instance prefix_is_injective {A} (put : A -> list byte) `{!Prefix put} :
  Inj (=) (=) put.
Proof. intros a b E. apply (prefix_inj a b [] []). by rewrite E. Qed.

Lemma prefix_compose {A B} (put : B -> list byte) (f : A -> B) `{!Prefix put} `{!Inj (=) (=) f} :
  Prefix (fun a => put (f a)).
Proof. intros a b r s [E ->]%prefix_inj. split; [|done]. by apply (inj f). Qed.

(** ** Lemmas on bytes *)

Lemma byte_value_range b : 0 <= Z.of_N (byte_value b) < 256.
Proof. pose proof (N_ascii_bounded b) as H. unfold byte_value. lia. Qed.

Lemma byte_at_value k z : Z.of_N (byte_value (byte_at k z)) = Z.land (Z.shiftr z k) 255.
Proof.
  unfold byte_at, byte_value.
  assert (0 <= Z.land (Z.shiftr z k) 255 < 256) as H.
  { change 255 with (Z.ones 8). rewrite Z.land_ones by lia. apply Z.mod_pos_bound. lia. }
  rewrite N_ascii_embedding by lia. rewrite Z2N.id; lia.
Qed.

Lemma length_be_bytes n z : length (be_bytes n z) = n.
Proof. induction n; cbn; auto. Qed.

Lemma from_be_bytes_app l m :
  from_be_bytes (l ++ m) = from_be_bytes l * 256 ^ Z.of_nat (length m) + from_be_bytes m.
Proof.
  unfold from_be_bytes. rewrite fold_left_app. generalize (fold_left
    (fun acc b => acc * 256 + Z.of_N (byte_value b)) l 0).
  intros z. induction m as [|b m IH] using rev_ind; [cbn; lia|].
  rewrite !fold_left_app. cbn [fold_left]. rewrite IH, length_app. cbn [length].
  rewrite Nat.add_1_r, Nat2Z.inj_succ, Z.pow_succ_r by lia. lia.
Qed.

Lemma from_be_bytes_range l : 0 <= from_be_bytes l < 256 ^ Z.of_nat (length l).
Proof.
  induction l as [|b l IH] using rev_ind; [cbn; lia|].
  rewrite from_be_bytes_app, length_app. cbn [length].
  rewrite Nat2Z.inj_add, Z.pow_add_r by lia. change (256 ^ Z.of_nat 1) with 256.
  change (from_be_bytes [b]) with (Z.of_N (byte_value b)).
  pose proof (byte_value_range b). lia.
Qed.

(** Writing and reading back keeps the low bits. *)
Lemma from_be_bytes_be_bytes n z : from_be_bytes (be_bytes n z) = z mod 256 ^ Z.of_nat n.
Proof.
  induction n as [|n IH]; [cbn; by rewrite Z.mod_1_r|].
  change (be_bytes (S n) z) with ([byte_at (8 * Z.of_nat n) z] ++ be_bytes n z).
  rewrite from_be_bytes_app, length_be_bytes, IH.
  change (from_be_bytes [byte_at (8 * Z.of_nat n) z])
    with (Z.of_N (byte_value (byte_at (8 * Z.of_nat n) z))).
  rewrite byte_at_value. change 255 with (Z.ones 8).
  rewrite Z.land_ones, Z.shiftr_div_pow2 by lia.
  rewrite Z.pow_mul_r by lia. change (2 ^ 8) with 256.
  rewrite Nat2Z.inj_succ, Z.pow_succ_r by lia.
  pose proof (Z.pow_pos_nonneg 256 (Z.of_nat n)).
  rewrite (Z.mul_comm 256), Z.rem_mul_r by lia. lia.
Qed.

Lemma be_bytes_from_be_bytes l : be_bytes (length l) (from_be_bytes l) = l.
Proof.
  assert (forall n z k, be_bytes n (z + k * 256 ^ Z.of_nat n) = be_bytes n z) as Hlow.
  { induction n as [|n IH]; intros z k; [done|]. cbn [be_bytes]. f_equal.
    - unfold byte_at. do 2 f_equal. change 255 with (Z.ones 8).
      rewrite !Z.land_ones, !Z.shiftr_div_pow2 by lia.
      rewrite Z.pow_mul_r by lia. change (2 ^ 8) with 256.
      rewrite Nat2Z.inj_succ, Z.pow_succ_r, Z.mul_assoc by lia.
      rewrite Z.div_add by lia. by rewrite Z.mod_add by lia.
    - rewrite Nat2Z.inj_succ, Z.pow_succ_r, Z.mul_assoc by lia. apply IH. }
  induction l as [|b l IH]; [done|].
  change (b :: l) with ([b] ++ l). rewrite from_be_bytes_app.
  change (length ([b] ++ l)) with (S (length l)). cbn [be_bytes].
  change (from_be_bytes [b]) with (Z.of_N (byte_value b)).
  rewrite (Z.add_comm (_ * _)), Hlow, IH. cbn [app]. f_equal.
  unfold byte_at. change 255 with (Z.ones 8).
  rewrite Z.land_ones, Z.shiftr_div_pow2, Z.pow_mul_r by lia. change (2 ^ 8) with 256.
  rewrite Z.div_add by lia. pose proof (from_be_bytes_range l).
  rewrite Z.div_small, Z.add_0_l by lia. pose proof (byte_value_range b).
  rewrite Z.mod_small, N2Z.id by (cbn; lia). apply ascii_N_embedding.
Qed.

Lemma to_signed_mod bits z :
  0 < bits -> - 2 ^ (bits - 1) <= z < 2 ^ (bits - 1) ->
  to_signed bits (z mod 2 ^ bits) = z.
Proof.
  intros Hb Hz. unfold to_signed.
  assert (2 ^ bits = 2 * 2 ^ (bits - 1)) as E by (rewrite <-Z.pow_succ_r by lia; f_equal; lia).
  destruct (Z.neg_nonneg_cases z) as [Hneg|Hpos].
  - rewrite <-(Z.mod_unique z (2 ^ bits) (-1) (z + 2 ^ bits)) by lia.
    destruct (z + 2 ^ bits <? 2 ^ (bits - 1)) eqn:L; bool_hyps; lia.
  - rewrite Z.mod_small by lia. destruct (z <? 2 ^ (bits - 1)) eqn:L; bool_hyps; lia.
Qed.

(** [i64::from_be_bytes(value.to_be_bytes())]. *)
Lemma i64_be_bytes z : is_i64 z = true -> i64_from_be_bytes (be_bytes 8 z) = z.
Proof.
  intros H. unfold is_i64, i64_min, i64_max in H. bool_hyps.
  unfold i64_from_be_bytes. rewrite from_be_bytes_be_bytes.
  change (256 ^ Z.of_nat 8) with (2 ^ 64). apply to_signed_mod; lia.
Qed.

Lemma u_be_bytes n z :
  0 <= z < 256 ^ Z.of_nat n -> from_be_bytes (be_bytes n z) = z.
Proof. intros H. rewrite from_be_bytes_be_bytes. by apply Z.mod_small. Qed.

(** A fixed-width field is told apart from its successor. *)
Lemma be_bytes_prefix n a b r s :
  be_bytes n a ++ r = be_bytes n b ++ s -> be_bytes n a = be_bytes n b /\ r = s.
Proof. intros E. by apply app_inj_1 in E; [|rewrite !length_be_bytes]. Qed.
