(* ===== verification/Hash.v ===== *)
(** * BLAKE3 (third-party)

    [blake3::hash(bytes).as_bytes()] is an array of 32 bytes.  The crate is not part
    of the repository: its function is the field of a class, with the length of its
    result as only law.  Theorems that need more (that two given texts do not collide)
    say so by name. *)

From S2P Require Import Prelude.

Class Blake3 := {
  blake3 : list byte -> list byte;
  blake3_length : forall l, length (blake3 l) = 32%nat;
}.

(** Two byte strings that witness a collision. *)
Definition collides `{Blake3} (l m : list byte) : Prop := l <> m /\ blake3 l = blake3 m.

Lemma blake3_inj_or_collides `{Blake3} l m : blake3 l = blake3 m -> l = m \/ collides l m.
Proof. intros E. destruct (decide (l = m)); [by left|by right]. Qed.
