(* ===== verification/KernelScalars.v ===== *)
(** * Kernel scalars: identifiers, validated texts, amounts

    [society-kernel/src/domain.rs], the newtypes.  Each macro of the source is one
    module, each of its uses one type: [Identifier.t] is indexed by the name the macro
    stringifies.  The private field of a newtype is the proof field of [newtype]. *)

From S2P Require Import Prelude Machine Hash.

Module DomainValueError.
Inductive t :=
| NonPositiveIdentifier (type_name : string) (value : Z)
| InvalidCommandId
| InvalidSocietyName
| InvalidApplicationIdentity
| InvalidApplicationName
| InvalidPrincipalDisplayName
| InvalidCoordinationText (type_name : string)
| InvalidMissionText (type_name : string)
| NonPositiveApplicationRevisionOrdinal (value : Z)
| InvalidMissionPrincipleCount (count : Z)
| InvalidMissionSourceRendering
| InvalidOperationalIdentity (type_name : string)
| NegativeUsdMicros (value : Z)
| NegativePiTokenCount (value : Z)
| InvalidProviderCostBinary64
| ProviderCostMicroUsdOverflow
| NegativeAdmissionGeneration (value : Z)
| GenerationOverflow
| InvalidRejectionCode (value : Z)
| InvalidNativeProcessValue (type_name : string) (value : Z) (rule : string).
#[global] Instance eq_dec : EqDecision t.
Proof. solve_decision. Defined.
End DomainValueError.

Abbreviation domain_result A := (result A DomainValueError.t).

(** ** [identifier!] *)

Module Identifier.
Definition ok (value : Z) : bool := is_i64 value && (0 <? value).
Definition t (type_name : string) : Type := newtype type_name Z ok.
Definition new {type_name} (value : Z) : option (t type_name) := checked value.
Definition value {type_name} (self : t type_name) : Z := inner self.
Definition try_from {type_name} (value : Z) : domain_result (t type_name) :=
  ok_or (new value) (DomainValueError.NonPositiveIdentifier type_name value).

Lemma try_from_ok {type_name} (v : Z) (id : t type_name) :
  try_from v = Ok id <-> value id = v.
Proof.
  unfold try_from, new, value. split.
  - destruct (checked v) as [x|] eqn:E; [|done]. intros [=->]. by apply checked_some.
  - intros <-. by rewrite checked_inner.
Qed.
End Identifier.

Definition SocietyId : Type := Identifier.t "SocietyId".
Definition FoundingMissionId : Type := Identifier.t "FoundingMissionId".
Definition ApplicationId : Type := Identifier.t "ApplicationId".
Definition ApplicationRevisionId : Type := Identifier.t "ApplicationRevisionId".
Definition OfficeId : Type := Identifier.t "OfficeId".
Definition OfficeOccupancyId : Type := Identifier.t "OfficeOccupancyId".
Definition OperatingCycleId : Type := Identifier.t "OperatingCycleId".
Definition PrincipalId : Type := Identifier.t "PrincipalId".
Definition CapabilityGrantId : Type := Identifier.t "CapabilityGrantId".
Definition BudgetEnvelopeId : Type := Identifier.t "BudgetEnvelopeId".
Definition BudgetReservationId : Type := Identifier.t "BudgetReservationId".
Definition CancellationRequestId : Type := Identifier.t "CancellationRequestId".
Definition CostPostmortemId : Type := Identifier.t "CostPostmortemId".
Definition RootAuthorityOfficeSessionId : Type := Identifier.t "RootAuthorityOfficeSessionId".
Definition OfficeTurnId : Type := Identifier.t "OfficeTurnId".
Definition EventId : Type := Identifier.t "EventId".
Definition ProjectId : Type := Identifier.t "ProjectId".
Definition ProjectMilestoneId : Type := Identifier.t "ProjectMilestoneId".
Definition TicketId : Type := Identifier.t "TicketId".
Definition GraphObjectId : Type := Identifier.t "GraphObjectId".
Definition GraphRevisionId : Type := Identifier.t "GraphRevisionId".
Definition GraphEdgeId : Type := Identifier.t "GraphEdgeId".
Definition CausalEpisodeId : Type := Identifier.t "CausalEpisodeId".
Definition AdversarialReviewId : Type := Identifier.t "AdversarialReviewId".
Definition ReviewChallengeId : Type := Identifier.t "ReviewChallengeId".
Definition PostmortemId : Type := Identifier.t "PostmortemId".
Definition PostmortemCausalClaimId : Type := Identifier.t "PostmortemCausalClaimId".
Definition PostmortemActionProposalId : Type := Identifier.t "PostmortemActionProposalId".
Definition ActorConfigurationId : Type := Identifier.t "ActorConfigurationId".
Definition ActorConfigurationRevisionId : Type := Identifier.t "ActorConfigurationRevisionId".
Definition ActorInstanceId : Type := Identifier.t "ActorInstanceId".
Definition ExecutionProfileId : Type := Identifier.t "ExecutionProfileId".
Definition ExecutionProfileQualificationId : Type := Identifier.t "ExecutionProfileQualificationId".
Definition StudyActorTaskAttemptLaunchId : Type := Identifier.t "StudyActorTaskAttemptLaunchId".
Definition NativeExecutionProfileQualificationLaunchId : Type := Identifier.t "NativeExecutionProfileQualificationLaunchId".
Definition ContextPackId : Type := Identifier.t "ContextPackId".
Definition WorkItemId : Type := Identifier.t "WorkItemId".
Definition WorkLeaseId : Type := Identifier.t "WorkLeaseId".
Definition ActorAttemptId : Type := Identifier.t "ActorAttemptId".
Definition OutcomeObligationId : Type := Identifier.t "OutcomeObligationId".
Definition ContentSealReceiptId : Type := Identifier.t "ContentSealReceiptId".
Definition ContentObjectId : Type := Identifier.t "ContentObjectId".
Definition ForensicManifestId : Type := Identifier.t "ForensicManifestId".
Definition DeterministicExperimentId : Type := Identifier.t "DeterministicExperimentId".
Definition EvaluatorRevisionId : Type := Identifier.t "EvaluatorRevisionId".
Definition InputManifestId : Type := Identifier.t "InputManifestId".
Definition DeterministicEvaluationReceiptId : Type := Identifier.t "DeterministicEvaluationReceiptId".
Definition EvidenceAdmissionId : Type := Identifier.t "EvidenceAdmissionId".
Definition SupervisorEpochId : Type := Identifier.t "SupervisorEpochId".
Definition WorkspaceId : Type := Identifier.t "WorkspaceId".
Definition PiSessionId : Type := Identifier.t "PiSessionId".
Definition NativeChildId : Type := Identifier.t "NativeChildId".
Definition NativeChildSpawnAdmissionId : Type := Identifier.t "NativeChildSpawnAdmissionId".
Definition NativeChildLivenessObservationId : Type := Identifier.t "NativeChildLivenessObservationId".
Definition NativeChildReapReceiptId : Type := Identifier.t "NativeChildReapReceiptId".
Definition NativeChildRecoveryReceiptId : Type := Identifier.t "NativeChildRecoveryReceiptId".
Definition NativeChildStreamSealId : Type := Identifier.t "NativeChildStreamSealId".
Definition ProcessSignalReceiptId : Type := Identifier.t "ProcessSignalReceiptId".
Definition PiAbortControlReceiptId : Type := Identifier.t "PiAbortControlReceiptId".
Definition PiOfficeTurnPromptAuthorizationId : Type := Identifier.t "PiOfficeTurnPromptAuthorizationId".
Definition PiOfficeTurnUsageReceiptId : Type := Identifier.t "PiOfficeTurnUsageReceiptId".
Definition PiOfficeTurnUsageFailureId : Type := Identifier.t "PiOfficeTurnUsageFailureId".
Definition PiOfficeTurnTerminalReceiptId : Type := Identifier.t "PiOfficeTurnTerminalReceiptId".
Definition PiOfficeSessionDisposeReceiptId : Type := Identifier.t "PiOfficeSessionDisposeReceiptId".
Definition PiTaskAttemptPromptAuthorizationId : Type := Identifier.t "PiTaskAttemptPromptAuthorizationId".
Definition PiTaskAttemptUsageReceiptId : Type := Identifier.t "PiTaskAttemptUsageReceiptId".
Definition PiTaskAttemptUsageFailureId : Type := Identifier.t "PiTaskAttemptUsageFailureId".
Definition PiTaskAttemptTerminalReceiptId : Type := Identifier.t "PiTaskAttemptTerminalReceiptId".
Definition PiTaskAttemptSessionDisposeReceiptId : Type := Identifier.t "PiTaskAttemptSessionDisposeReceiptId".
Definition PiProtocolSequence : Type := Identifier.t "PiProtocolSequence".
Definition CancellationPropagationId : Type := Identifier.t "CancellationPropagationId".
Definition CancellationPropagationTargetId : Type := Identifier.t "CancellationPropagationTargetId".

(** ** [native_process_value!] *)

Module NativeProcessValue.
(** [$predicate] on an [i32]. *)
Definition t (type_name : string) (predicate : Z -> bool) : Type :=
  newtype type_name Z (fun value => is_i32 value && predicate value).
Definition new {type_name predicate} (value : Z) : option (t type_name predicate) :=
  checked value.
Definition value {type_name predicate} (self : t type_name predicate) : Z := inner self.
Definition try_from {type_name predicate} (rule : string) (value : Z) :
  domain_result (t type_name predicate) :=
  ok_or (new value) (DomainValueError.InvalidNativeProcessValue type_name value rule).
End NativeProcessValue.

Definition positive_process_value (value : Z) : bool := 0 <? value.
Definition exit_code_range (value : Z) : bool := (0 <=? value) && (value <=? 255).
Definition NativeChildPid : Type := NativeProcessValue.t "NativeChildPid" positive_process_value.
Definition OwnedProcessGroupId : Type :=
  NativeProcessValue.t "OwnedProcessGroupId" positive_process_value.
Definition ProcessExitCode : Type := NativeProcessValue.t "ProcessExitCode" exit_code_range.
Definition ProcessSignalNumber : Type :=
  NativeProcessValue.t "ProcessSignalNumber" positive_process_value.

(** ** [boundary_identity!] *)

Definition is_identity_byte (b : byte) : bool :=
  is_ascii_alphanumeric b || contains_byte b (bytes "._-").
Definition first_is_alphanumeric (l : list byte) : bool :=
  match l with [] => false | b :: _ => is_ascii_alphanumeric b end.
Definition last_is_alphanumeric (l : list byte) : bool :=
  match list.last l with None => false | Some b => is_ascii_alphanumeric b end.
(** The shared grammar: [boundary_identity!] and [ApplicationIdentity::parse]. *)
Definition is_portable_identity (value : string) : bool :=
  is_str value
  && negb (is_empty value || (128 <? str_len value)
           || negb (forallb is_identity_byte (bytes value))
           || negb (first_is_alphanumeric (bytes value))
           || negb (last_is_alphanumeric (bytes value))).

Module BoundaryIdentity.
Definition t (type_name : string) : Type := newtype type_name string is_portable_identity.
Definition parse {type_name} (value : string) : domain_result (t type_name) :=
  ok_or (checked value) (DomainValueError.InvalidOperationalIdentity type_name).
Definition as_str {type_name} (self : t type_name) : string := inner self.
End BoundaryIdentity.

Definition NativeWorkspaceId : Type := BoundaryIdentity.t "NativeWorkspaceId".
Definition PiBoundarySessionIdentity : Type := BoundaryIdentity.t "PiBoundarySessionIdentity".
Definition PiCorrelationIdentity : Type := BoundaryIdentity.t "PiCorrelationIdentity".
Definition SupervisedChildIdentity : Type := BoundaryIdentity.t "SupervisedChildIdentity".
Definition SpawnNonce : Type := BoundaryIdentity.t "SpawnNonce".
Definition SupervisorEpochIdentity : Type := BoundaryIdentity.t "SupervisorEpochIdentity".

(** ** Canonical paths *)

Definition forbidden_path_part (part : list byte) : bool :=
  match part with
  | [] => true
  | [a] => Ascii.eqb a "."
  | [a; b] => Ascii.eqb a "." && Ascii.eqb b "."
  | _ => false
  end.
Definition is_canonical_path (value : string) : bool :=
  is_str value
  && negb ((str_len value <? 2) || (4096 <? str_len value)
           || negb (starts_with_bytes (bytes "/") (bytes value))
           || str_contains NUL value
           || existsb is_ascii_control (bytes value)
           || existsb forbidden_path_part (skipn 1 (split_on "/" (bytes value)))
           || ends_with_byte "/" (bytes value)).

Module CanonicalWorkspacePath.
Definition t : Type := newtype "CanonicalWorkspacePath" string is_canonical_path.
Definition parse (value : string) : domain_result t :=
  ok_or (checked value) (DomainValueError.InvalidOperationalIdentity "CanonicalWorkspacePath").
Definition as_str (self : t) : string := inner self.
End CanonicalWorkspacePath.

Module CanonicalPiSessionTranscriptPath.
Definition t : Type := newtype "CanonicalPiSessionTranscriptPath" string is_canonical_path.
Definition parse (value : string) : domain_result t :=
  ok_or (checked value)
    (DomainValueError.InvalidOperationalIdentity "CanonicalPiSessionTranscriptPath").
Definition as_str (self : t) : string := inner self.
End CanonicalPiSessionTranscriptPath.

(** ** Texts *)

Module CommandId.
Definition ok (value : string) : bool :=
  is_str value
  && negb (is_empty value || (128 <? str_len value)
           || negb (forallb is_ascii_graphic (bytes value))).
Definition t : Type := newtype "CommandId" string ok.
Definition parse (value : string) : domain_result t :=
  ok_or (checked value) DomainValueError.InvalidCommandId.
Definition as_str (self : t) : string := inner self.
End CommandId.

(** Not blank, at most [limit] bytes, no NUL: the texts of the ledger. *)
Definition is_ledger_text (limit : Z) (value : string) : bool :=
  is_str value
  && negb (trims_to_empty value || (limit <? str_len value) || str_contains NUL value).

Module SocietyName.
Definition t : Type := newtype "SocietyName" string (is_ledger_text 160).
Definition parse (value : string) : domain_result t :=
  ok_or (checked value) DomainValueError.InvalidSocietyName.
Definition as_str (self : t) : string := inner self.
End SocietyName.

Module ApplicationIdentity.
Definition t : Type := newtype "ApplicationIdentity" string is_portable_identity.
Definition parse (value : string) : domain_result t :=
  ok_or (checked value) DomainValueError.InvalidApplicationIdentity.
Definition as_str (self : t) : string := inner self.
End ApplicationIdentity.

Module ApplicationName.
Definition t : Type := newtype "ApplicationName" string (is_ledger_text 160).
Definition parse (value : string) : domain_result t :=
  ok_or (checked value) DomainValueError.InvalidApplicationName.
Definition as_str (self : t) : string := inner self.
End ApplicationName.

Module PrincipalDisplayName.
Definition t : Type := newtype "PrincipalDisplayName" string (is_ledger_text 160).
Definition parse (value : string) : domain_result t :=
  ok_or (checked value) DomainValueError.InvalidPrincipalDisplayName.
Definition as_str (self : t) : string := inner self.
End PrincipalDisplayName.

(** [coordination_text!] *)
Module CoordinationText.
Definition t (type_name : string) : Type := newtype type_name string (is_ledger_text 1024).
Definition parse {type_name} (value : string) : domain_result (t type_name) :=
  ok_or (checked value) (DomainValueError.InvalidCoordinationText type_name).
Definition as_str {type_name} (self : t type_name) : string := inner self.
End CoordinationText.

Definition ProjectName : Type := CoordinationText.t "ProjectName".
Definition ProjectObjectiveText : Type := CoordinationText.t "ProjectObjectiveText".
Definition ProjectMilestoneName : Type := CoordinationText.t "ProjectMilestoneName".
Definition ProjectStopConditionText : Type := CoordinationText.t "ProjectStopConditionText".
Definition TicketTitle : Type := CoordinationText.t "TicketTitle".
Definition TicketAcceptanceConditionText : Type := CoordinationText.t "TicketAcceptanceConditionText".
Definition ObservationRevisionText : Type := CoordinationText.t "ObservationRevisionText".
Definition HypothesisRevisionText : Type := CoordinationText.t "HypothesisRevisionText".
Definition ReviewFailureHypothesis : Type := CoordinationText.t "ReviewFailureHypothesis".
Definition ReviewResponseText : Type := CoordinationText.t "ReviewResponseText".
Definition PostmortemCausalClaimText : Type := CoordinationText.t "PostmortemCausalClaimText".
Definition PostmortemActionProposalText : Type := CoordinationText.t "PostmortemActionProposalText".
Definition ActorConfigurationName : Type := CoordinationText.t "ActorConfigurationName".
Definition WorkAssignmentText : Type := CoordinationText.t "WorkAssignmentText".
Definition OutcomeObligationText : Type := CoordinationText.t "OutcomeObligationText".

(** [mission_text!] *)
Module MissionText.
Definition t (type_name : string) : Type := newtype type_name string (is_ledger_text 4096).
Definition parse {type_name} (value : string) : domain_result (t type_name) :=
  ok_or (checked value) (DomainValueError.InvalidMissionText type_name).
Definition as_str {type_name} (self : t type_name) : string := inner self.
End MissionText.

Definition MissionStatement : Type := MissionText.t "MissionStatement".
Definition MissionPrincipleText : Type := MissionText.t "MissionPrincipleText".
Definition NorthStarChangeQuestion : Type := MissionText.t "NorthStarChangeQuestion".
Definition NorthStarImprovementEvidenceQuestion : Type := MissionText.t "NorthStarImprovementEvidenceQuestion".
Definition NorthStarBoundaryCommitmentQuestion : Type := MissionText.t "NorthStarBoundaryCommitmentQuestion".
Definition NorthStarRevisitQuestion : Type := MissionText.t "NorthStarRevisitQuestion".
Definition ProjectNorthStarChangeAnswer : Type := MissionText.t "ProjectNorthStarChangeAnswer".
Definition ProjectNorthStarImprovementEvidenceAnswer : Type := MissionText.t "ProjectNorthStarImprovementEvidenceAnswer".
Definition ProjectNorthStarBoundaryCommitmentAnswer : Type := MissionText.t "ProjectNorthStarBoundaryCommitmentAnswer".
Definition ProjectNorthStarRevisitAnswer : Type := MissionText.t "ProjectNorthStarRevisitAnswer".

(** ** Missions *)

Module ApplicationRevisionOrdinal.
Definition ok (value : Z) : bool := is_i64 value && (0 <? value).
Definition t : Type := newtype "ApplicationRevisionOrdinal" Z ok.
Definition new (value : Z) : option t := checked value.
Definition value (self : t) : Z := inner self.
Definition try_from (value : Z) : domain_result t :=
  ok_or (new value) (DomainValueError.NonPositiveApplicationRevisionOrdinal value).
End ApplicationRevisionOrdinal.

Module MissionPrincipleKind.
Inductive t := Purpose | Evidence | Boundary | Revision.
#[global] Instance eq_dec : EqDecision t.
Proof. solve_decision. Defined.
Definition as_i64 (self : t) : Z :=
  match self with Purpose => 1 | Evidence => 2 | Boundary => 3 | Revision => 4 end.
#[global] Instance code : Code as_i64.
Proof. code_enum. Qed.
End MissionPrincipleKind.

Module MissionPrinciple.
Record t := new { kind : MissionPrincipleKind.t; text : MissionPrincipleText }.
End MissionPrinciple.

Module MissionPrinciples.
Definition MAX_COUNT : Z := 16.
Definition ok (principles : list MissionPrinciple.t) : bool :=
  negb (bool_decide (principles = [])
        || (MAX_COUNT <? Z.of_nat (length principles))).
Definition t : Type := newtype "MissionPrinciples" (list MissionPrinciple.t) ok.
Definition new (principles : list MissionPrinciple.t) : domain_result t :=
  ok_or (checked principles)
    (DomainValueError.InvalidMissionPrincipleCount (Z.of_nat (length principles))).
Definition as_slice (self : t) : list MissionPrinciple.t := inner self.
End MissionPrinciples.

Module NorthStarQuestionSet.
Record t := new {
  change : NorthStarChangeQuestion;
  improvement_evidence : NorthStarImprovementEvidenceQuestion;
  boundary_commitment : NorthStarBoundaryCommitmentQuestion;
  revisit : NorthStarRevisitQuestion;
}.
End NorthStarQuestionSet.

Module Blake3Digest.
(** [[u8; 32]] *)
Definition ok (l : list byte) : bool := (length l =? 32)%nat.
Definition t : Type := newtype "Blake3Digest" (list byte) ok.
Lemma blake3_ok `{Blake3} l : ok (blake3 l) = true.
Proof. unfold ok. by rewrite blake3_length. Qed.
Definition of_bytes `{Blake3} (l : list byte) : t := Newtype (blake3 l) (blake3_ok l).
Definition as_bytes (self : t) : list byte := inner self.
End Blake3Digest.

Module ApplicationMissionInput.
Record t := new {
  application_identity : ApplicationIdentity.t;
  application_name : ApplicationName.t;
  revision_ordinal : ApplicationRevisionOrdinal.t;
  statement : MissionStatement;
  principles : MissionPrinciples.t;
  north_star_questions : NorthStarQuestionSet.t;
  source_rendering_digest : Blake3Digest.t;
}.
End ApplicationMissionInput.

Module ProjectNorthStarAlignment.
Record t := new {
  application_revision_id : ApplicationRevisionId;
  change_answer : ProjectNorthStarChangeAnswer;
  improvement_evidence_answer : ProjectNorthStarImprovementEvidenceAnswer;
  boundary_commitment_answer : ProjectNorthStarBoundaryCommitmentAnswer;
  revisit_answer : ProjectNorthStarRevisitAnswer;
}.
End ProjectNorthStarAlignment.

Module MissionSourceRendering.
Definition MAX_BYTES : Z := 16384.
Definition ok (l : list byte) : bool :=
  negb ((length l =? 0)%nat || (MAX_BYTES <? Z.of_nat (length l))).
Definition t : Type := newtype "MissionSourceRendering" (list byte) ok.
Definition parse (l : list byte) : domain_result t :=
  ok_or (checked l) DomainValueError.InvalidMissionSourceRendering.
Definition as_bytes (self : t) : list byte := inner self.
Definition digest `{Blake3} (self : t) : Blake3Digest.t := Blake3Digest.of_bytes (as_bytes self).
End MissionSourceRendering.

(** ** Amounts *)

Module UsdMicros.
Definition ok (value : Z) : bool := is_i64 value && (0 <=? value).
Definition t : Type := newtype "UsdMicros" Z ok.
Definition ZERO : t := Newtype 0 eq_refl.
Definition new (value : Z) : option t := checked value.
Definition value (self : t) : Z := inner self.
Definition checked_add (self other : t) : option t :=
  match checked_add_i64 (inner self) (inner other) with Some z => new z | None => None end.
Definition checked_sub (self other : t) : option t :=
  match checked_sub_i64 (inner self) (inner other) with Some z => new z | None => None end.
Definition try_from (value : Z) : domain_result t :=
  ok_or (new value) (DomainValueError.NegativeUsdMicros value).
End UsdMicros.

Module PiTokenCount.
Definition ok (value : Z) : bool := is_i64 value && (0 <=? value).
Definition t : Type := newtype "PiTokenCount" Z ok.
Definition ZERO : t := Newtype 0 eq_refl.
Definition new (value : Z) : option t := checked value.
Definition value (self : t) : Z := inner self.
Definition try_from (value : Z) : domain_result t :=
  ok_or (new value) (DomainValueError.NegativePiTokenCount value).
End PiTokenCount.

(** The raw big-endian bytes of a binary64 that is finite and not negative. *)
Module ProviderCostBinary64.
Definition ok (l : list byte) : bool :=
  let bits := from_be_bytes l in
  (length l =? 8)%nat
  && negb (negb (Z.shiftr bits 63 =? 0) || (Z.land (Z.shiftr bits 52) 2047 =? 2047)).
Definition t : Type := newtype "ProviderCostBinary64" (list byte) ok.
Definition from_big_endian (l : list byte) : domain_result t :=
  ok_or (checked l) DomainValueError.InvalidProviderCostBinary64.
Definition as_big_endian_bytes (self : t) : list byte := inner self.
(** [i64::try_from(micro_usd).ok().and_then(UsdMicros::new)]. *)
Definition to_usd_micros (micro_usd : Z) : domain_result UsdMicros.t :=
  ok_or (match i64_try_from micro_usd with Some z => UsdMicros.new z | None => None end)
    DomainValueError.ProviderCostMicroUsdOverflow.
Definition ceil_micro_usd (self : t) : domain_result UsdMicros.t :=
  let bits := from_be_bytes (inner self) in
  let exponent := Z.land (Z.shiftr bits 52) 2047 in
  let fraction := Z.land bits (Z.shiftl 1 52 - 1) in
  if (exponent =? 0) && (fraction =? 0) then Ok UsdMicros.ZERO else
  let '(significand, binary_exponent) :=
    if exponent =? 0 then (fraction, -1074)
    else (Z.lor (Z.shiftl 1 52) fraction, exponent - 1023 - 52) in
  let? numerator :=
    ok_or (checked_mul_u128 significand 1000000)
      DomainValueError.ProviderCostMicroUsdOverflow in
  let? micro_usd :=
    if 0 <=? binary_exponent then
      ok_or (checked_shl_u128 numerator binary_exponent)
        DomainValueError.ProviderCostMicroUsdOverflow
    else
      let denominator_shift := - binary_exponent in
      if 128 <=? denominator_shift then Ok 1 else
      let denominator := Z.shiftl 1 denominator_shift in
      let quotient := numerator / denominator in
      Ok (quotient + (if numerator mod denominator =? 0 then 0 else 1)) in
  to_usd_micros micro_usd.
End ProviderCostBinary64.

Module PiCumulativeUsage.
Record t := new {
  input_tokens : PiTokenCount.t;
  output_tokens : PiTokenCount.t;
  cache_read_tokens : PiTokenCount.t;
  cache_write_tokens : PiTokenCount.t;
  total_tokens : PiTokenCount.t;
  provider_cost : ProviderCostBinary64.t;
  ceiling_micro_usd : UsdMicros.t;
}.
#[global] Instance eq_dec : EqDecision t.
Proof. solve_decision. Defined.
(** [checked_add(..).and_then(|value| value.checked_add(..))]. *)
Definition and_then_add (acc : option Z) (count : PiTokenCount.t) : option Z :=
  match acc with Some z => checked_add_i64 z (PiTokenCount.value count) | None => None end.
Definition is_internally_consistent (self : t) : bool :=
  bool_decide
    (fold_left and_then_add
       [output_tokens self; cache_read_tokens self; cache_write_tokens self]
       (Some (PiTokenCount.value (input_tokens self)))
     = Some (PiTokenCount.value (total_tokens self)))
  && bool_decide
       (result_ok (ProviderCostBinary64.ceil_micro_usd (provider_cost self))
        = Some (ceiling_micro_usd self)).
End PiCumulativeUsage.

Module AdmissionGeneration.
Definition ok (value : Z) : bool := is_i64 value && (0 <=? value).
Definition t : Type := newtype "AdmissionGeneration" Z ok.
Definition INITIAL : t := Newtype 0 eq_refl.
Definition value (self : t) : Z := inner self.
(** [.map(Self)]: a sum that fits the width is at least one. *)
Definition increment (self : t) : domain_result t :=
  ok_or (match checked_add_i64 (inner self) 1 with Some z => checked z | None => None end)
    DomainValueError.GenerationOverflow.
Definition try_from (value : Z) : domain_result t :=
  ok_or (checked value) (DomainValueError.NegativeAdmissionGeneration value).
End AdmissionGeneration.

(** ** Compiled identities *)

Definition DETERMINISTIC_PI_HOST_DOUBLE_V1 : ExecutionProfileId := Newtype 1 eq_refl.
Definition NATIVE_PINNED_PI_SDK_V1 : ExecutionProfileId := Newtype 2 eq_refl.
Definition DETERMINISTIC_EVALUATOR_PROCESS_FIXTURE_V1 : ExecutionProfileId :=
  Newtype 3 eq_refl.
Definition BOOTSTRAP : PrincipalId := Newtype 1 eq_refl.
Definition KERNEL : PrincipalId := Newtype 2 eq_refl.
