(* ===== verification/PrintableText.v ===== *)
(** * Printable text

    Texts of visible ASCII with a bound on their length: what the digests, the numbers and
    the literals that the applications write are made of, with automation for texts that are
    concatenated from them. *)

From S2P Require Import Prelude.
From S2P Require Import Machine.
From S2P Require Import KernelScalars.

(** Visible ASCII and spaces, of at most [n] bytes. *)
Definition printable (n : Z) (l : list byte) : Prop :=
  forallb (between 32 126) l = true /\ Z.of_nat (length l) <= n.

Lemma printable_app n m l k : printable n l -> printable m k -> printable (n + m) (l ++ k).
Proof. intros [H1 H2] [H3 H4]. split; [by rewrite forallb_app, H1, H3|]. rewrite length_app. lia. Qed.
Lemma printable_hex l : printable (2 * Z.of_nat (length l)) (flat_map hex_byte l).
Proof.
  induction l as [|b l [IH1 IH2]]; [done|]. cbn [flat_map]. split.
  - rewrite forallb_app, IH1. by destruct b as [[] [] [] [] [] [] [] []].
  - rewrite length_app. change (length (hex_byte b)) with 2%nat. cbn [length] in *. lia.
Qed.
Lemma printable_digest d : printable 64 (flat_map hex_byte (Blake3Digest.as_bytes d)).
Proof.
  destruct d as [l Hl]. cbn. destruct (printable_hex l) as [H1 H2].
  unfold Blake3Digest.ok in Hl. apply Nat.eqb_eq in Hl. split; [done|]. lia.
Qed.
Lemma printable_decimal fuel z n acc :
  printable n acc -> printable (Z.of_nat fuel + n) (decimal fuel z acc).
Proof.
  revert z n acc. induction fuel as [|fuel IH]; intros z n acc [H1 H2]; [done|]. cbn [decimal].
  assert (printable (n + 1) (ascii_of_N (Z.to_N (48 + z mod 10)) :: acc)) as Hp.
  { split; [|cbn [length]; lia]. cbn [forallb]. rewrite H1, andb_true_r.
    assert (0 <= z mod 10 < 10) as Hr by (apply Z.mod_pos_bound; lia).
    unfold between, byte_value. rewrite N_ascii_embedding by lia.
    rewrite andb_true_iff, !N.leb_le. lia. }
  destruct (z <? 10).
  - destruct Hp as [? ?]. split; [done|lia].
  - apply (IH (z / 10)) in Hp as [? ?]. split; [done|lia].
Qed.
Lemma printable_i64 z : printable 21 (show_i64 z).
Proof.
  unfold show_i64. destruct (z <? 0).
  - change ("-"%char :: decimal 20 (- z) []) with (["-"%char] ++ decimal 20 (- z) []).
    apply (printable_app 1 20); [by vm_compute|]. by apply (printable_decimal 20 (- z) 0 []).
  - destruct (printable_decimal 20 z 0 []) as [? ?]; [done|]. split; [done|lia].
Qed.

Create HintDb printable.
#[export] Hint Resolve printable_digest printable_i64 : printable.
Lemma printable_bytes text :
  forallb (between 32 126) (bytes text) = true ->
  printable (Z.of_nat (length (bytes text))) (bytes text).
Proof. done. Qed.
#[export] Hint Extern 1 (printable _ (bytes _)) => (apply printable_bytes; vm_compute; reflexivity) : printable.

(** Text made of parts: the parts are printable, and their bounds add up to at most [n]. *)
Lemma printable_le n m l : printable n l -> n <= m -> printable m l.
Proof. intros [? ?] ?. split; [done|lia]. Qed.
Ltac printable_parts :=
  eapply printable_le;
  [repeat match goal with |- printable _ (_ ++ _) => eapply printable_app end;
   eauto with printable|vm_compute; discriminate].

(** A byte that is not visible does not occur. *)
Lemma printable_avoids n l b : printable n l -> between 32 126 b = false -> b ∉ l.
Proof.
  intros [H _] Hb Hin. rewrite forallb_forall in H. apply list_elem_of_In, H in Hin. congruence.
Qed.
(** No NUL, and only ASCII. *)
Lemma printable_ascii n l : printable n l -> forallb (between 1 127) l = true.
Proof.
  intros [H _]. rewrite forallb_forall in H |- *. intros b Hb%H. revert Hb. unfold between.
  rewrite !andb_true_iff, !N.leb_le. lia.
Qed.

(** ** Numbers and digests read back *)

(** The byte that two hexadecimal digits name. *)
Definition unhex_digit (b : byte) : N :=
  if (byte_value b <? 58)%N then (byte_value b - 48)%N else (byte_value b - 87)%N.
Definition unhex (l : list byte) : list byte :=
  match l with
  | [high; low] => [ascii_of_N (unhex_digit high * 16 + unhex_digit low)]
  | _ => []
  end.

Lemma unhex_hex_byte b : unhex (hex_byte b) = [b].
Proof. by destruct b as [[] [] [] [] [] [] [] []]. Qed.

Lemma hex_bytes_inj l k : flat_map hex_byte l = flat_map hex_byte k -> l = k.
Proof.
  revert k. induction l as [|b l IH]; intros [|c k]; [done..|].
  cbn [flat_map]. intros Heq.
  apply app_inj_1 in Heq as [Hb Hrest]; [|done].
  apply (f_equal unhex) in Hb. rewrite !unhex_hex_byte in Hb.
  injection Hb as ->. by rewrite (IH k).
Qed.

(** The digits of a number, after those read. *)
Definition read_digits (read : Z) (l : list byte) : Z :=
  fold_left (fun n b => 10 * n + (Z.of_N (byte_value b) - 48)) l read.
Lemma decimal_digits fuel z acc :
  forallb is_ascii_digit acc = true -> forallb is_ascii_digit (decimal fuel z acc) = true.
Proof.
  revert z acc. induction fuel as [|fuel IH]; intros z acc H; [done|]. cbn [decimal].
  assert (forallb is_ascii_digit (ascii_of_N (Z.to_N (48 + z mod 10)) :: acc) = true) as Hc.
  { cbn [forallb]. rewrite H, andb_true_r. pose proof (Z.mod_pos_bound z 10).
    unfold is_ascii_digit, byte_value. rewrite N_ascii_embedding by lia.
    rewrite andb_true_iff, !N.leb_le. lia. }
  destruct (z <? 10); [done|by apply IH].
Qed.
Lemma read_decimal fuel z acc :
  0 <= z < 10 ^ Z.of_nat fuel -> read_digits 0 (decimal fuel z acc) = read_digits z acc.
Proof.
  revert z acc. induction fuel as [|fuel IH]; intros z acc Hz.
  { cbn in *. by replace z with 0 by lia. }
  cbn [decimal]. pose proof (Z.mod_pos_bound z 10 ltac:(lia)) as Hr.
  assert (forall n, read_digits n (ascii_of_N (Z.to_N (48 + z mod 10)) :: acc)
                    = read_digits (10 * n + z mod 10) acc) as Hstep.
  { intros n. unfold read_digits. cbn [fold_left]. f_equal. unfold byte_value.
    rewrite N_ascii_embedding by lia. lia. }
  destruct (Z.ltb_spec z 10).
  - rewrite Hstep. by rewrite Z.mod_small by lia.
  - rewrite IH, Hstep.
    + by rewrite <-Z.div_mod.
    + split; [by apply Z.div_pos; lia|]. apply Z.div_lt_upper_bound; [lia|].
      rewrite <-Z.pow_succ_r, <-Nat2Z.inj_succ by lia. apply Hz.
Qed.
Definition read_i64 (l : list byte) : Z :=
  match l with
  | "-"%char :: l => - read_digits 0 l
  | _ => read_digits 0 l
  end.
Lemma read_show_i64 z : is_i64 z = true -> read_i64 (show_i64 z) = z.
Proof.
  unfold is_i64, i64_min, i64_max. intros Hz. unfold show_i64.
  destruct (Z.ltb_spec z 0).
  - cbn [read_i64]. rewrite read_decimal by (change (10 ^ Z.of_nat 20) with (10 ^ 20); lia).
    cbn. lia.
  - pose proof (decimal_digits 20 z [] eq_refl) as Hd.
    transitivity (read_digits 0 (decimal 20 z []));
      [|apply read_decimal; change (10 ^ Z.of_nat 20) with (10 ^ 20); lia].
    destruct (decimal 20 z []) as [|b l]; [done|]. cbn [forallb] in Hd.
    by destruct b as [[] [] [] [] [] [] [] []].
Qed.
Lemma show_i64_inj z w : is_i64 z = true -> is_i64 w = true -> show_i64 z = show_i64 w -> z = w.
Proof. intros Hz Hw H. by rewrite <-(read_show_i64 z), <-(read_show_i64 w), H. Qed.
