(* ===== verification/KernelEnums.v ===== *)
(** * Kernel enums: cycles, projects, graph, reviews, actors

    [society-kernel/src/domain.rs], the closed vocabularies of governance and work,
    with their discriminants ([as i64], as PostgreSQL stores them) and the methods the
    source gives them.  Every discriminant function is a [Code]: injective, 64-bit. *)

From S2P Require Import Prelude Machine KernelScalars.

Module PrincipalKind.
Inductive t := Bootstrap | KernelService | Actor | User.
#[global] Instance eq_dec : EqDecision t.
Proof. solve_decision. Defined.
Definition as_i64 (self : t) : Z :=
  match self with Bootstrap => 1 | KernelService => 2 | Actor => 3 | User => 4 end.
#[global] Instance code : Code as_i64.
Proof. code_enum. Qed.
End PrincipalKind.

Module OfficeKind.
Inductive t := RootAuthorityOffice.
#[global] Instance eq_dec : EqDecision t.
Proof. solve_decision. Defined.
Definition as_i64 (self : t) : Z :=
  match self with RootAuthorityOffice => 1 end.
#[global] Instance code : Code as_i64.
Proof. code_enum. Qed.
End OfficeKind.

Module OperatingCycleState.
Inductive t :=
| Proposed | Admitted_ | Running | Quiescing | Drained | Reconciling | Closed | Cancelling
| Reaping | Cancelled | Failed.
#[global] Instance eq_dec : EqDecision t.
Proof. solve_decision. Defined.
Definition as_i64 (self : t) : Z :=
  match self with
  | Proposed => 1 | Admitted_ => 2 | Running => 3 | Quiescing => 4 | Drained => 5
  | Reconciling => 6 | Closed => 7 | Cancelling => 8 | Reaping => 9 | Cancelled => 10
  | Failed => 11
  end.
#[global] Instance code : Code as_i64.
Proof. code_enum. Qed.
Definition is_nonterminal (self : t) : bool :=
  match self with Closed | Cancelled | Failed => false | _ => true end.
Definition admits_task_work (self : t) : bool :=
  match self with Running => true | _ => false end.
End OperatingCycleState.

Module OperatingCycleTreatment.
Inductive t :=
| PiSdkQualificationV1 | PinnedPiSdkLiveV1 | DeterministicPiHostFixtureV1
| DeterministicEvaluatorFixtureV1.
#[global] Instance eq_dec : EqDecision t.
Proof. solve_decision. Defined.
Definition as_i64 (self : t) : Z :=
  match self with
  | PiSdkQualificationV1 => 1 | PinnedPiSdkLiveV1 => 2 | DeterministicPiHostFixtureV1 => 3
  | DeterministicEvaluatorFixtureV1 => 4
  end.
#[global] Instance code : Code as_i64.
Proof. code_enum. Qed.
End OperatingCycleTreatment.

Module ProjectState.
Inductive t :=
| Proposed | Challenged | Chartered | Active | Paused | Observing | Closed | Terminated
| Reopened.
#[global] Instance eq_dec : EqDecision t.
Proof. solve_decision. Defined.
Definition as_i64 (self : t) : Z :=
  match self with
  | Proposed => 1 | Challenged => 2 | Chartered => 3 | Active => 4 | Paused => 5
  | Observing => 6 | Closed => 7 | Terminated => 8 | Reopened => 9
  end.
#[global] Instance code : Code as_i64.
Proof. code_enum. Qed.
End ProjectState.

Module ProjectMilestoneState.
Inductive t := Pending | Completed.
#[global] Instance eq_dec : EqDecision t.
Proof. solve_decision. Defined.
Definition as_i64 (self : t) : Z :=
  match self with Pending => 1 | Completed => 2 end.
#[global] Instance code : Code as_i64.
Proof. code_enum. Qed.
End ProjectMilestoneState.

Module TicketState.
Inductive t :=
| Draft | Admitted_ | Ready | Claimed | Submitted | Verified | Completed | ChangesRequested
| Expired | Cancelled | Failed.
#[global] Instance eq_dec : EqDecision t.
Proof. solve_decision. Defined.
Definition as_i64 (self : t) : Z :=
  match self with
  | Draft => 1 | Admitted_ => 2 | Ready => 3 | Claimed => 4 | Submitted => 5 | Verified => 6
  | Completed => 7 | ChangesRequested => 8 | Expired => 9 | Cancelled => 10 | Failed => 11
  end.
#[global] Instance code : Code as_i64.
Proof. code_enum. Qed.
End TicketState.

Module GraphObjectKind.
Inductive t := Observation | Hypothesis_.
#[global] Instance eq_dec : EqDecision t.
Proof. solve_decision. Defined.
Definition as_i64 (self : t) : Z :=
  match self with Observation => 1 | Hypothesis_ => 2 end.
#[global] Instance code : Code as_i64.
Proof. code_enum. Qed.
End GraphObjectKind.

Module GraphRevisionBody.
Inductive t :=
| Observation (observation : ObservationRevisionText)
| Hypothesis_ (hypothesis : HypothesisRevisionText).
#[global] Instance eq_dec : EqDecision t.
Proof. solve_decision. Defined.
Definition object_kind (self : t) : GraphObjectKind.t :=
  match self with
  | Observation _ => GraphObjectKind.Observation
  | Hypothesis_ _ => GraphObjectKind.Hypothesis_
  end.
End GraphRevisionBody.

Module GraphRevisionState.
Inductive t := Draft | Committed.
#[global] Instance eq_dec : EqDecision t.
Proof. solve_decision. Defined.
Definition as_i64 (self : t) : Z :=
  match self with Draft => 1 | Committed => 2 end.
#[global] Instance code : Code as_i64.
Proof. code_enum. Qed.
End GraphRevisionState.

Module GraphEdgeKind.
Inductive t := Supports | Challenges.
#[global] Instance eq_dec : EqDecision t.
Proof. solve_decision. Defined.
Definition as_i64 (self : t) : Z :=
  match self with Supports => 1 | Challenges => 2 end.
#[global] Instance code : Code as_i64.
Proof. code_enum. Qed.
Definition allows (self : t) (from to : GraphObjectKind.t) : bool :=
  match self, from, to with
  | Supports, (GraphObjectKind.Observation | GraphObjectKind.Hypothesis_),
      GraphObjectKind.Hypothesis_ => true
  | Challenges, GraphObjectKind.Observation, GraphObjectKind.Hypothesis_ => true
  | _, _, _ => false
  end.
End GraphEdgeKind.

Module EpisodeState.
Inductive t :=
| Framed | Admitted_ | Investigating | PrototypeDeliberating | Prototyping
| CandidateValidating | DeliveryDeliberating | DeliveryAuthorized | Materializing
| Observing | Learning | Closed | ClosedNoAction | ClosedNoDelivery | Abandoned | Reverted
| Reopened.
#[global] Instance eq_dec : EqDecision t.
Proof. solve_decision. Defined.
Definition as_i64 (self : t) : Z :=
  match self with
  | Framed => 1 | Admitted_ => 2 | Investigating => 3 | PrototypeDeliberating => 4
  | Prototyping => 5 | CandidateValidating => 6 | DeliveryDeliberating => 7
  | DeliveryAuthorized => 8 | Materializing => 9 | Observing => 10 | Learning => 11
  | Closed => 12 | ClosedNoAction => 13 | ClosedNoDelivery => 14 | Abandoned => 15
  | Reverted => 16 | Reopened => 17
  end.
#[global] Instance code : Code as_i64.
Proof. code_enum. Qed.
End EpisodeState.

Module AdversarialReviewState.
Inductive t :=
| Requested | Assigned | Active | FindingsSubmitted | ResponsesDue | Resolved | AcceptedRisk
| Superseded | Escalated.
#[global] Instance eq_dec : EqDecision t.
Proof. solve_decision. Defined.
Definition as_i64 (self : t) : Z :=
  match self with
  | Requested => 1 | Assigned => 2 | Active => 3 | FindingsSubmitted => 4
  | ResponsesDue => 5 | Resolved => 6 | AcceptedRisk => 7 | Superseded => 8
  | Escalated => 9
  end.
#[global] Instance code : Code as_i64.
Proof. code_enum. Qed.
End AdversarialReviewState.

Module ActorModelPolicy.
Inductive t := PinnedDeepseekV4FlashHigh | PinnedOpenRouterLing26FlashOff.
#[global] Instance eq_dec : EqDecision t.
Proof. solve_decision. Defined.
Definition as_i64 (self : t) : Z :=
  match self with
  | PinnedDeepseekV4FlashHigh => 1 | PinnedOpenRouterLing26FlashOff => 2
  end.
#[global] Instance code : Code as_i64.
Proof. code_enum. Qed.
End ActorModelPolicy.

Module DevelopmentalAttractor.
Inductive t :=
| Explore | Build | Measure | Challenge | Synthesize | Integrate | Remember | Coordinate.
#[global] Instance eq_dec : EqDecision t.
Proof. solve_decision. Defined.
Definition as_i64 (self : t) : Z :=
  match self with
  | Explore => 1 | Build => 2 | Measure => 3 | Challenge => 4 | Synthesize => 5
  | Integrate => 6 | Remember => 7 | Coordinate => 8
  end.
#[global] Instance code : Code as_i64.
Proof. code_enum. Qed.
End DevelopmentalAttractor.

Module ActorConfigurationState.
Inductive t := Active | Retired.
#[global] Instance eq_dec : EqDecision t.
Proof. solve_decision. Defined.
Definition as_i64 (self : t) : Z :=
  match self with Active => 1 | Retired => 2 end.
#[global] Instance code : Code as_i64.
Proof. code_enum. Qed.
End ActorConfigurationState.

Module ActorInstanceState.
Inductive t := Active | Retired.
#[global] Instance eq_dec : EqDecision t.
Proof. solve_decision. Defined.
Definition as_i64 (self : t) : Z :=
  match self with Active => 1 | Retired => 2 end.
#[global] Instance code : Code as_i64.
Proof. code_enum. Qed.
End ActorInstanceState.

Module ExecutionProfileKind.
Inductive t :=
| DeterministicPiHostProcessDoubleV1 | NativePinnedPiSdkV1
| DeterministicEvaluatorProcessFixtureV1.
#[global] Instance eq_dec : EqDecision t.
Proof. solve_decision. Defined.
Definition as_i64 (self : t) : Z :=
  match self with
  | DeterministicPiHostProcessDoubleV1 => 1 | NativePinnedPiSdkV1 => 2
  | DeterministicEvaluatorProcessFixtureV1 => 3
  end.
#[global] Instance code : Code as_i64.
Proof. code_enum. Qed.
End ExecutionProfileKind.

Module ExecutionProfileReadiness.
Inductive t := DeterministicFixtureOnly | Unqualified | QualifiedForLiveUse.
#[global] Instance eq_dec : EqDecision t.
Proof. solve_decision. Defined.
Definition as_i64 (self : t) : Z :=
  match self with
  | DeterministicFixtureOnly => 1 | Unqualified => 2 | QualifiedForLiveUse => 3
  end.
#[global] Instance code : Code as_i64.
Proof. code_enum. Qed.
End ExecutionProfileReadiness.

Module CapabilityGrantOrigin.
Inductive t := CompiledBootstrap | LedgerCommand | CompiledKernelService.
#[global] Instance eq_dec : EqDecision t.
Proof. solve_decision. Defined.
Definition as_i64 (self : t) : Z :=
  match self with
  | CompiledBootstrap => 1 | LedgerCommand => 2 | CompiledKernelService => 3
  end.
#[global] Instance code : Code as_i64.
Proof. code_enum. Qed.
End CapabilityGrantOrigin.

Module ContextPackPurpose.
Inductive t := TicketExecution | IndependentReview.
#[global] Instance eq_dec : EqDecision t.
Proof. solve_decision. Defined.
Definition as_i64 (self : t) : Z :=
  match self with TicketExecution => 1 | IndependentReview => 2 end.
#[global] Instance code : Code as_i64.
Proof. code_enum. Qed.
End ContextPackPurpose.

Module WorkItemKind.
Inductive t := TicketExecution | IndependentReview.
#[global] Instance eq_dec : EqDecision t.
Proof. solve_decision. Defined.
Definition as_i64 (self : t) : Z :=
  match self with TicketExecution => 1 | IndependentReview => 2 end.
#[global] Instance code : Code as_i64.
Proof. code_enum. Qed.
Definition required_context_purpose (self : t) : ContextPackPurpose.t :=
  match self with
  | TicketExecution => ContextPackPurpose.TicketExecution
  | IndependentReview => ContextPackPurpose.IndependentReview
  end.
End WorkItemKind.

Module WorkItemState.
Inductive t := Ready | Claimed | Running | Settled | Cancelled.
#[global] Instance eq_dec : EqDecision t.
Proof. solve_decision. Defined.
Definition as_i64 (self : t) : Z :=
  match self with
  | Ready => 1 | Claimed => 2 | Running => 3 | Settled => 4 | Cancelled => 5
  end.
#[global] Instance code : Code as_i64.
Proof. code_enum. Qed.
End WorkItemState.

Module WorkLeaseState.
Inductive t := Active | Released | Expired | Cancelled.
#[global] Instance eq_dec : EqDecision t.
Proof. solve_decision. Defined.
Definition as_i64 (self : t) : Z :=
  match self with Active => 1 | Released => 2 | Expired => 3 | Cancelled => 4 end.
#[global] Instance code : Code as_i64.
Proof. code_enum. Qed.
End WorkLeaseState.
