(* ===== verification/KernelCustody.v ===== *)
(** * Kernel enums: native children, Pi turns, evidence, costs

    [society-kernel/src/domain.rs], continued: the owners and lifecycles of supervised
    processes, the terminal evidence of Pi prompts, cancellation, evidence and cost
    vocabulary, with discriminants and methods. *)

From S2P Require Import Prelude Machine KernelScalars KernelEnums.

Module PiChildOwner.
Inductive t :=
| ActorAttempt (id : ActorAttemptId)
| RootAuthorityOfficeSession (id : RootAuthorityOfficeSessionId)
| NativeExecutionProfileQualification (id : OperatingCycleId).
#[global] Instance eq_dec : EqDecision t.
Proof. solve_decision. Defined.
End PiChildOwner.

Module NativeChildOwner.
Inductive t :=
| Pi (value : PiChildOwner.t)
| DeterministicEvaluator (deterministic_experiment_id : DeterministicExperimentId)
    (evaluator_revision_id : EvaluatorRevisionId) (input_manifest_id : InputManifestId).
#[global] Instance eq_dec : EqDecision t.
Proof. solve_decision. Defined.
End NativeChildOwner.

Module NativeChildSpawnAdmissionState.
Inductive t := Admitted_ | Spawned | Invalidated.
#[global] Instance eq_dec : EqDecision t.
Proof. solve_decision. Defined.
Definition as_i64 (self : t) : Z :=
  match self with Admitted_ => 1 | Spawned => 2 | Invalidated => 3 end.
#[global] Instance code : Code as_i64.
Proof. code_enum. Qed.
End NativeChildSpawnAdmissionState.

Module ChildProcessState.
Inductive t :=
| Spawned | Running | CancellationRequested | DirectChildReaped
| RecoveryContainmentRequired | LostParentage | ContainmentFailed | Finalized.
#[global] Instance eq_dec : EqDecision t.
Proof. solve_decision. Defined.
Definition as_i64 (self : t) : Z :=
  match self with
  | Spawned => 1 | Running => 2 | CancellationRequested => 3 | DirectChildReaped => 4
  | RecoveryContainmentRequired => 5 | LostParentage => 6 | ContainmentFailed => 7
  | Finalized => 8
  end.
#[global] Instance code : Code as_i64.
Proof. code_enum. Qed.
Definition is_terminal (self : t) : bool :=
  match self with Finalized | LostParentage | ContainmentFailed => true | _ => false end.
End ChildProcessState.

Module PiChildSessionState.
Inductive t :=
| InertSpawned | AdapterReady | CreateAuthorized | CreateDelivered | SessionReady.
#[global] Instance eq_dec : EqDecision t.
Proof. solve_decision. Defined.
Definition as_i64 (self : t) : Z :=
  match self with
  | InertSpawned => 1 | AdapterReady => 2 | CreateAuthorized => 3 | CreateDelivered => 4
  | SessionReady => 5
  end.
#[global] Instance code : Code as_i64.
Proof. code_enum. Qed.
End PiChildSessionState.

Module PiOfficeTurnAssistantOutcome.
Inductive t :=
| ObservedStop | ObservedLength | ObservedError | ObservedAborted | SdkPromiseRejected
| MissingFinalAssistantOutcome.
#[global] Instance eq_dec : EqDecision t.
Proof. solve_decision. Defined.
Definition as_i64 (self : t) : Z :=
  match self with
  | ObservedStop => 1 | ObservedLength => 2 | ObservedError => 3 | ObservedAborted => 4
  | SdkPromiseRejected => 5 | MissingFinalAssistantOutcome => 6
  end.
#[global] Instance code : Code as_i64.
Proof. code_enum. Qed.
End PiOfficeTurnAssistantOutcome.

Module PiOfficeTurnDisposition.
Inductive t := Completed | Length | Error | Aborted | Failed | ProtocolFailed.
#[global] Instance eq_dec : EqDecision t.
Proof. solve_decision. Defined.
Definition as_i64 (self : t) : Z :=
  match self with
  | Completed => 1 | Length => 2 | Error => 3 | Aborted => 4 | Failed => 5
  | ProtocolFailed => 6
  end.
#[global] Instance code : Code as_i64.
Proof. code_enum. Qed.
Definition accepts (self : t) (outcome : PiOfficeTurnAssistantOutcome.t) : bool :=
  match self, outcome with
  | Completed, PiOfficeTurnAssistantOutcome.ObservedStop
  | Length, PiOfficeTurnAssistantOutcome.ObservedLength
  | Error, PiOfficeTurnAssistantOutcome.ObservedError
  | Aborted, PiOfficeTurnAssistantOutcome.ObservedAborted
  | Failed, PiOfficeTurnAssistantOutcome.SdkPromiseRejected
  | ProtocolFailed, PiOfficeTurnAssistantOutcome.MissingFinalAssistantOutcome => true
  | _, _ => false
  end.
Definition may_return_office_to_ready (self : t) : bool :=
  match self with Completed => true | _ => false end.
End PiOfficeTurnDisposition.

Module PiOfficeTurnTerminalEvidence.
Inductive t :=
| ObservedAssistant (agent_settled_sequence final_accounting_sequence : PiProtocolSequence)
| UnavailableAssistant (final_known_usage_sequence : PiProtocolSequence).
#[global] Instance eq_dec : EqDecision t.
Proof. solve_decision. Defined.
Definition final_accounting_sequence (self : t) : PiProtocolSequence :=
  match self with
  | ObservedAssistant _ final_accounting_sequence => final_accounting_sequence
  | UnavailableAssistant final_known_usage_sequence => final_known_usage_sequence
  end.
Definition agent_settled_sequence (self : t) : option PiProtocolSequence :=
  match self with
  | ObservedAssistant agent_settled_sequence _ => Some agent_settled_sequence
  | UnavailableAssistant _ => None
  end.
Definition accepts (self : t) (outcome : PiOfficeTurnAssistantOutcome.t) : bool :=
  match self, outcome with
  | ObservedAssistant _ _,
      (PiOfficeTurnAssistantOutcome.ObservedStop | PiOfficeTurnAssistantOutcome.ObservedLength | PiOfficeTurnAssistantOutcome.ObservedError | PiOfficeTurnAssistantOutcome.ObservedAborted)
  | UnavailableAssistant _,
      (PiOfficeTurnAssistantOutcome.SdkPromiseRejected | PiOfficeTurnAssistantOutcome.MissingFinalAssistantOutcome) => true
  | _, _ => false
  end.
End PiOfficeTurnTerminalEvidence.

Module PiOfficeTurnTranscriptDisposition.
Inductive t := DeferredUntilOfficeSessionDispose.
#[global] Instance eq_dec : EqDecision t.
Proof. solve_decision. Defined.
Definition as_i64 (self : t) : Z :=
  match self with DeferredUntilOfficeSessionDispose => 1 end.
#[global] Instance code : Code as_i64.
Proof. code_enum. Qed.
End PiOfficeTurnTranscriptDisposition.

Module PiOfficeSessionFirstUserPromptReceipt.
Inductive t :=
| Absent
| Verified (digest : Blake3Digest.t).
#[global] Instance eq_dec : EqDecision t.
Proof. solve_decision. Defined.
End PiOfficeSessionFirstUserPromptReceipt.

Module PiOfficeSessionTranscriptReceipt.
Inductive t :=
| Materialized (session_file : CanonicalPiSessionTranscriptPath.t)
    (session_file_digest : Blake3Digest.t) (transcript_content_object_id : ContentObjectId)
    (first_user_prompt : PiOfficeSessionFirstUserPromptReceipt.t)
| UnmaterializedNoPrompt (session_file : CanonicalPiSessionTranscriptPath.t).
#[global] Instance eq_dec : EqDecision t.
Proof. solve_decision. Defined.
End PiOfficeSessionTranscriptReceipt.

Module PiOfficeSessionDisposeBudgetDisposition.
Inductive t :=
| Reconciled (observed_cumulative_micro_usd : UsdMicros.t)
| Frozen (cancellation_request_id : CancellationRequestId)
    (postmortem_id : CostPostmortemId).
#[global] Instance eq_dec : EqDecision t.
Proof. solve_decision. Defined.
End PiOfficeSessionDisposeBudgetDisposition.

Module PiOfficeTurnUsageUnknownReason.
Inductive t :=
| MissingFinalUsageSnapshot | BoundaryStreamInterrupted | TerminalEvidenceMissing.
#[global] Instance eq_dec : EqDecision t.
Proof. solve_decision. Defined.
Definition as_i64 (self : t) : Z :=
  match self with
  | MissingFinalUsageSnapshot => 1 | BoundaryStreamInterrupted => 2
  | TerminalEvidenceMissing => 3
  end.
#[global] Instance code : Code as_i64.
Proof. code_enum. Qed.
End PiOfficeTurnUsageUnknownReason.

Module PiOfficeTurnUsageUnavailableReason.
Inductive t := InvalidSdkUsage | UsageRegressed | UsageInconsistent.
#[global] Instance eq_dec : EqDecision t.
Proof. solve_decision. Defined.
Definition as_i64 (self : t) : Z :=
  match self with
  | InvalidSdkUsage => 1 | UsageRegressed => 2 | UsageInconsistent => 3
  end.
#[global] Instance code : Code as_i64.
Proof. code_enum. Qed.
End PiOfficeTurnUsageUnavailableReason.

Module PiOfficeTurnUsageFailure.
Inductive t :=
| Unknown (reason : PiOfficeTurnUsageUnknownReason.t)
| Unavailable (reason : PiOfficeTurnUsageUnavailableReason.t).
#[global] Instance eq_dec : EqDecision t.
Proof. solve_decision. Defined.
End PiOfficeTurnUsageFailure.

Module PiTaskAttemptAssistantOutcome.
Inductive t :=
| ObservedStop | ObservedLength | ObservedError | ObservedAborted | SdkPromiseRejected
| MissingFinalAssistantOutcome.
#[global] Instance eq_dec : EqDecision t.
Proof. solve_decision. Defined.
Definition as_i64 (self : t) : Z :=
  match self with
  | ObservedStop => 1 | ObservedLength => 2 | ObservedError => 3 | ObservedAborted => 4
  | SdkPromiseRejected => 5 | MissingFinalAssistantOutcome => 6
  end.
#[global] Instance code : Code as_i64.
Proof. code_enum. Qed.
End PiTaskAttemptAssistantOutcome.

Module PiTaskAttemptDisposition.
Inductive t := Completed | Length | Error | Aborted | Failed | ProtocolFailed.
#[global] Instance eq_dec : EqDecision t.
Proof. solve_decision. Defined.
Definition as_i64 (self : t) : Z :=
  match self with
  | Completed => 1 | Length => 2 | Error => 3 | Aborted => 4 | Failed => 5
  | ProtocolFailed => 6
  end.
#[global] Instance code : Code as_i64.
Proof. code_enum. Qed.
Definition accepts (self : t) (outcome : PiTaskAttemptAssistantOutcome.t) : bool :=
  match self, outcome with
  | Completed, PiTaskAttemptAssistantOutcome.ObservedStop
  | Length, PiTaskAttemptAssistantOutcome.ObservedLength
  | Error, PiTaskAttemptAssistantOutcome.ObservedError
  | Aborted, PiTaskAttemptAssistantOutcome.ObservedAborted
  | Failed, PiTaskAttemptAssistantOutcome.SdkPromiseRejected
  | ProtocolFailed, PiTaskAttemptAssistantOutcome.MissingFinalAssistantOutcome => true
  | _, _ => false
  end.
End PiTaskAttemptDisposition.

Module PiTaskAttemptTerminalEvidence.
Inductive t :=
| ObservedAssistant (agent_settled_sequence final_accounting_sequence : PiProtocolSequence)
| UnavailableAssistant (final_known_usage_sequence : PiProtocolSequence).
#[global] Instance eq_dec : EqDecision t.
Proof. solve_decision. Defined.
Definition final_accounting_sequence (self : t) : PiProtocolSequence :=
  match self with
  | ObservedAssistant _ final_accounting_sequence => final_accounting_sequence
  | UnavailableAssistant final_known_usage_sequence => final_known_usage_sequence
  end.
Definition agent_settled_sequence (self : t) : option PiProtocolSequence :=
  match self with
  | ObservedAssistant agent_settled_sequence _ => Some agent_settled_sequence
  | UnavailableAssistant _ => None
  end.
Definition accepts (self : t) (outcome : PiTaskAttemptAssistantOutcome.t) : bool :=
  match self, outcome with
  | ObservedAssistant _ _,
      (PiTaskAttemptAssistantOutcome.ObservedStop | PiTaskAttemptAssistantOutcome.ObservedLength | PiTaskAttemptAssistantOutcome.ObservedError | PiTaskAttemptAssistantOutcome.ObservedAborted)
  | UnavailableAssistant _,
      (PiTaskAttemptAssistantOutcome.SdkPromiseRejected | PiTaskAttemptAssistantOutcome.MissingFinalAssistantOutcome) => true
  | _, _ => false
  end.
End PiTaskAttemptTerminalEvidence.

Module PiTaskAttemptTranscriptDisposition.
Inductive t := DeferredUntilTaskAttemptSessionDispose.
#[global] Instance eq_dec : EqDecision t.
Proof. solve_decision. Defined.
Definition as_i64 (self : t) : Z :=
  match self with DeferredUntilTaskAttemptSessionDispose => 1 end.
#[global] Instance code : Code as_i64.
Proof. code_enum. Qed.
End PiTaskAttemptTranscriptDisposition.

Module PiTaskAttemptFirstUserPromptReceipt.
Inductive t :=
| Absent
| Verified (digest : Blake3Digest.t).
#[global] Instance eq_dec : EqDecision t.
Proof. solve_decision. Defined.
End PiTaskAttemptFirstUserPromptReceipt.

Module PiTaskAttemptSessionTranscriptReceipt.
Inductive t :=
| Materialized (session_file : CanonicalPiSessionTranscriptPath.t)
    (session_file_digest : Blake3Digest.t) (transcript_content_object_id : ContentObjectId)
    (first_user_prompt : PiTaskAttemptFirstUserPromptReceipt.t)
| UnmaterializedNoPrompt (session_file : CanonicalPiSessionTranscriptPath.t).
#[global] Instance eq_dec : EqDecision t.
Proof. solve_decision. Defined.
End PiTaskAttemptSessionTranscriptReceipt.

Module PiTaskAttemptSessionDisposeBudgetDisposition.
Inductive t :=
| Reconciled (observed_cumulative_micro_usd : UsdMicros.t)
| Frozen (cancellation_request_id : CancellationRequestId)
    (postmortem_id : CostPostmortemId).
#[global] Instance eq_dec : EqDecision t.
Proof. solve_decision. Defined.
End PiTaskAttemptSessionDisposeBudgetDisposition.

Module PiTaskAttemptUsageUnknownReason.
Inductive t :=
| MissingFinalUsageSnapshot | BoundaryStreamInterrupted | TerminalEvidenceMissing.
#[global] Instance eq_dec : EqDecision t.
Proof. solve_decision. Defined.
Definition as_i64 (self : t) : Z :=
  match self with
  | MissingFinalUsageSnapshot => 1 | BoundaryStreamInterrupted => 2
  | TerminalEvidenceMissing => 3
  end.
#[global] Instance code : Code as_i64.
Proof. code_enum. Qed.
End PiTaskAttemptUsageUnknownReason.

Module PiTaskAttemptUsageUnavailableReason.
Inductive t := InvalidSdkUsage | UsageRegressed | UsageInconsistent.
#[global] Instance eq_dec : EqDecision t.
Proof. solve_decision. Defined.
Definition as_i64 (self : t) : Z :=
  match self with
  | InvalidSdkUsage => 1 | UsageRegressed => 2 | UsageInconsistent => 3
  end.
#[global] Instance code : Code as_i64.
Proof. code_enum. Qed.
End PiTaskAttemptUsageUnavailableReason.

Module PiTaskAttemptUsageFailure.
Inductive t :=
| Unknown (reason : PiTaskAttemptUsageUnknownReason.t)
| Unavailable (reason : PiTaskAttemptUsageUnavailableReason.t).
#[global] Instance eq_dec : EqDecision t.
Proof. solve_decision. Defined.
End PiTaskAttemptUsageFailure.

Module ChildStreamKind.
Inductive t := AdmittedControl | PhysicalStdin | Stdout | Stderr.
#[global] Instance eq_dec : EqDecision t.
Proof. solve_decision. Defined.
Definition as_i64 (self : t) : Z :=
  match self with
  | AdmittedControl => 1 | PhysicalStdin => 2 | Stdout => 3 | Stderr => 4
  end.
#[global] Instance code : Code as_i64.
Proof. code_enum. Qed.
End ChildStreamKind.

Module ChildStreamSealCompleteness.
Inductive t := Complete | PrefixBounded | CountOverflow.
#[global] Instance eq_dec : EqDecision t.
Proof. solve_decision. Defined.
Definition as_i64 (self : t) : Z :=
  match self with Complete => 1 | PrefixBounded => 2 | CountOverflow => 3 end.
#[global] Instance code : Code as_i64.
Proof. code_enum. Qed.
End ChildStreamSealCompleteness.

Module ProcessGroupLiveness.
Inductive t := Present | Absent | Inaccessible.
#[global] Instance eq_dec : EqDecision t.
Proof. solve_decision. Defined.
Definition as_i64 (self : t) : Z :=
  match self with Present => 1 | Absent => 2 | Inaccessible => 3 end.
#[global] Instance code : Code as_i64.
Proof. code_enum. Qed.
End ProcessGroupLiveness.

Module ProcessSignalAction.
Inductive t := Terminate | Kill | LingeringGroupKill.
#[global] Instance eq_dec : EqDecision t.
Proof. solve_decision. Defined.
Definition as_i64 (self : t) : Z :=
  match self with Terminate => 1 | Kill => 2 | LingeringGroupKill => 3 end.
#[global] Instance code : Code as_i64.
Proof. code_enum. Qed.
End ProcessSignalAction.

Module PiAbortControlWriteOutcome.
Inductive t := FullyWritten | PipeClosedBeforeWrite | WriteFailed | PartialWriteDiscarded.
#[global] Instance eq_dec : EqDecision t.
Proof. solve_decision. Defined.
Definition as_i64 (self : t) : Z :=
  match self with
  | FullyWritten => 1 | PipeClosedBeforeWrite => 2 | WriteFailed => 3
  | PartialWriteDiscarded => 4
  end.
#[global] Instance code : Code as_i64.
Proof. code_enum. Qed.
End PiAbortControlWriteOutcome.

Module ProcessSignalDelivery.
Inductive t := Delivered | AbsentBeforeSignal | AbsentDuringSignal | Inaccessible.
#[global] Instance eq_dec : EqDecision t.
Proof. solve_decision. Defined.
Definition as_i64 (self : t) : Z :=
  match self with
  | Delivered => 1 | AbsentBeforeSignal => 2 | AbsentDuringSignal => 3 | Inaccessible => 4
  end.
#[global] Instance code : Code as_i64.
Proof. code_enum. Qed.
End ProcessSignalDelivery.

Module ProcessSignalCause.
Inductive t :=
| CancellationPropagation (id : CancellationPropagationId)
| AutomaticBoundaryContainment.
#[global] Instance eq_dec : EqDecision t.
Proof. solve_decision. Defined.
End ProcessSignalCause.

Module DirectChildWaitStatus.
Inductive t :=
| Exited (exit_code : ProcessExitCode)
| Signaled (signal_number : ProcessSignalNumber)
| Unknown.
#[global] Instance eq_dec : EqDecision t.
Proof. solve_decision. Defined.
End DirectChildWaitStatus.

Module ChildRecoveryObservation.
Inductive t := ParentageLost.
#[global] Instance eq_dec : EqDecision t.
Proof. solve_decision. Defined.
Definition as_i64 (self : t) : Z :=
  match self with ParentageLost => 1 end.
#[global] Instance code : Code as_i64.
Proof. code_enum. Qed.
End ChildRecoveryObservation.

Module NativeChildNotSpawnedReason.
Inductive t :=
| CancelledBeforeSpawn | WorkspacePreparationFailed | ArtifactQualificationFailed
| NativeSpawnFailed.
#[global] Instance eq_dec : EqDecision t.
Proof. solve_decision. Defined.
Definition as_i64 (self : t) : Z :=
  match self with
  | CancelledBeforeSpawn => 1 | WorkspacePreparationFailed => 2
  | ArtifactQualificationFailed => 3 | NativeSpawnFailed => 4
  end.
#[global] Instance code : Code as_i64.
Proof. code_enum. Qed.
End NativeChildNotSpawnedReason.

Module ChildTerminalDisposition.
Inductive t := Exited | Terminated | Killed | SupervisionLost | ContainmentFailed.
#[global] Instance eq_dec : EqDecision t.
Proof. solve_decision. Defined.
Definition as_i64 (self : t) : Z :=
  match self with
  | Exited => 1 | Terminated => 4 | Killed => 5 | SupervisionLost => 6
  | ContainmentFailed => 7
  end.
#[global] Instance code : Code as_i64.
Proof. code_enum. Qed.
End ChildTerminalDisposition.

Module CancellationPropagationState.
Inductive t := Propagating | Reconciled | ContainmentFailed.
#[global] Instance eq_dec : EqDecision t.
Proof. solve_decision. Defined.
Definition as_i64 (self : t) : Z :=
  match self with Propagating => 1 | Reconciled => 2 | ContainmentFailed => 3 end.
#[global] Instance code : Code as_i64.
Proof. code_enum. Qed.
End CancellationPropagationState.

Module CancellationPropagationTargetDisposition.
Inductive t :=
| NotRunning | AwaitingChildReceipt | Exited | Terminated | Killed | ContainmentFailed
| SupervisionLost.
#[global] Instance eq_dec : EqDecision t.
Proof. solve_decision. Defined.
Definition as_i64 (self : t) : Z :=
  match self with
  | NotRunning => 1 | AwaitingChildReceipt => 2 | Exited => 3 | Terminated => 4
  | Killed => 5 | ContainmentFailed => 6 | SupervisionLost => 7
  end.
#[global] Instance code : Code as_i64.
Proof. code_enum. Qed.
End CancellationPropagationTargetDisposition.

Module ActorAttemptState.
Inductive t :=
| Running | CancellationRequested | Succeeded | Failed | Cancelled | Expired
| ProtocolFailed | SupervisorFailed | Validated.
#[global] Instance eq_dec : EqDecision t.
Proof. solve_decision. Defined.
Definition as_i64 (self : t) : Z :=
  match self with
  | Running => 1 | CancellationRequested => 2 | Succeeded => 3 | Failed => 4
  | Cancelled => 5 | Expired => 6 | ProtocolFailed => 7 | SupervisorFailed => 8
  | Validated => 9
  end.
#[global] Instance code : Code as_i64.
Proof. code_enum. Qed.
Definition is_live (self : t) : bool :=
  match self with Running | CancellationRequested => true | _ => false end.
End ActorAttemptState.

Module ContentMediaSchemaContract.
Inductive t :=
| DeterministicEvaluatorV1 | DeterministicInputManifestV1 | DeterministicEvaluatorOutputV1.
#[global] Instance eq_dec : EqDecision t.
Proof. solve_decision. Defined.
Definition as_i64 (self : t) : Z :=
  match self with
  | DeterministicEvaluatorV1 => 1 | DeterministicInputManifestV1 => 2
  | DeterministicEvaluatorOutputV1 => 3
  end.
#[global] Instance code : Code as_i64.
Proof. code_enum. Qed.
End ContentMediaSchemaContract.

Module EvaluatorExecutionContract.
Inductive t := DirectExecutableFixedInputManifestV1.
#[global] Instance eq_dec : EqDecision t.
Proof. solve_decision. Defined.
Definition as_i64 (self : t) : Z :=
  match self with DirectExecutableFixedInputManifestV1 => 1 end.
#[global] Instance code : Code as_i64.
Proof. code_enum. Qed.
End EvaluatorExecutionContract.

Module EvaluatorOutputContract.
Inductive t := ExitZeroCanonicalObservationV1.
#[global] Instance eq_dec : EqDecision t.
Proof. solve_decision. Defined.
Definition as_i64 (self : t) : Z :=
  match self with ExitZeroCanonicalObservationV1 => 1 end.
#[global] Instance code : Code as_i64.
Proof. code_enum. Qed.
End EvaluatorOutputContract.

Module RetentionAccessClass.
Inductive t := ForensicRestricted | ProjectScoped.
#[global] Instance eq_dec : EqDecision t.
Proof. solve_decision. Defined.
Definition as_i64 (self : t) : Z :=
  match self with ForensicRestricted => 1 | ProjectScoped => 2 end.
#[global] Instance code : Code as_i64.
Proof. code_enum. Qed.
End RetentionAccessClass.

Module ForensicManifestCapturePolicy.
Inductive t := DeterministicExperimentEvaluatorV1.
#[global] Instance eq_dec : EqDecision t.
Proof. solve_decision. Defined.
Definition as_i64 (self : t) : Z :=
  match self with DeterministicExperimentEvaluatorV1 => 1 end.
#[global] Instance code : Code as_i64.
Proof. code_enum. Qed.
End ForensicManifestCapturePolicy.

Module DeterministicExperimentState.
Inductive t := Registered | EvidenceAdmitted | Closed | Failed | Cancelled.
#[global] Instance eq_dec : EqDecision t.
Proof. solve_decision. Defined.
Definition as_i64 (self : t) : Z :=
  match self with
  | Registered => 1 | EvidenceAdmitted => 2 | Closed => 3 | Failed => 4 | Cancelled => 5
  end.
#[global] Instance code : Code as_i64.
Proof. code_enum. Qed.
End DeterministicExperimentState.

Module EvidenceSemanticRole.
Inductive t := DeterministicObservation.
#[global] Instance eq_dec : EqDecision t.
Proof. solve_decision. Defined.
Definition as_i64 (self : t) : Z :=
  match self with DeterministicObservation => 1 end.
#[global] Instance code : Code as_i64.
Proof. code_enum. Qed.
End EvidenceSemanticRole.

Module EvidenceApplicability.
Inductive t := TestsTargetHypothesis.
#[global] Instance eq_dec : EqDecision t.
Proof. solve_decision. Defined.
Definition as_i64 (self : t) : Z :=
  match self with TestsTargetHypothesis => 1 end.
#[global] Instance code : Code as_i64.
Proof. code_enum. Qed.
End EvidenceApplicability.

Module EvidenceLimitationKind.
Inductive t := ApplicationSemanticsUninterpreted.
#[global] Instance eq_dec : EqDecision t.
Proof. solve_decision. Defined.
Definition as_i64 (self : t) : Z :=
  match self with ApplicationSemanticsUninterpreted => 1 end.
#[global] Instance code : Code as_i64.
Proof. code_enum. Qed.
End EvidenceLimitationKind.

Module ActorAttemptTerminalKind.
Inductive t := Succeeded | Failed | Cancelled | Expired | ProtocolFailed | SupervisorFailed.
#[global] Instance eq_dec : EqDecision t.
Proof. solve_decision. Defined.
Definition as_i64 (self : t) : Z :=
  match self with
  | Succeeded => 1 | Failed => 2 | Cancelled => 3 | Expired => 4 | ProtocolFailed => 5
  | SupervisorFailed => 6
  end.
#[global] Instance code : Code as_i64.
Proof. code_enum. Qed.
Definition state (self : t) : ActorAttemptState.t :=
  match self with
  | Succeeded => ActorAttemptState.Succeeded
  | Failed => ActorAttemptState.Failed
  | Cancelled => ActorAttemptState.Cancelled
  | Expired => ActorAttemptState.Expired
  | ProtocolFailed => ActorAttemptState.ProtocolFailed
  | SupervisorFailed => ActorAttemptState.SupervisorFailed
  end.
Definition permits_validation (self : t) : bool :=
  match self with Succeeded => true | _ => false end.
Definition allowed_from (self : t) (state : ActorAttemptState.t) : bool :=
  match state, self with
  | ActorAttemptState.Running,
      (Succeeded | Failed | Expired | ProtocolFailed | SupervisorFailed) => true
  | ActorAttemptState.CancellationRequested, Cancelled => true
  | _, _ => false
  end.
End ActorAttemptTerminalKind.

Module ActorAttemptCancellationReason.
Inductive t := RootAuthorityRequested | CycleCancellation | LeaseContainment.
#[global] Instance eq_dec : EqDecision t.
Proof. solve_decision. Defined.
Definition as_i64 (self : t) : Z :=
  match self with
  | RootAuthorityRequested => 1 | CycleCancellation => 2 | LeaseContainment => 3
  end.
#[global] Instance code : Code as_i64.
Proof. code_enum. Qed.
End ActorAttemptCancellationReason.

Module OutcomeObligationState.
Inductive t := Scheduled | Satisfied | Waived.
#[global] Instance eq_dec : EqDecision t.
Proof. solve_decision. Defined.
Definition as_i64 (self : t) : Z :=
  match self with Scheduled => 1 | Satisfied => 2 | Waived => 3 end.
#[global] Instance code : Code as_i64.
Proof. code_enum. Qed.
End OutcomeObligationState.

Module OutcomeObligationDisposition.
Inductive t := Satisfied | Waived.
#[global] Instance eq_dec : EqDecision t.
Proof. solve_decision. Defined.
Definition as_i64 (self : t) : Z :=
  match self with Satisfied => 1 | Waived => 2 end.
#[global] Instance code : Code as_i64.
Proof. code_enum. Qed.
Definition state (self : t) : OutcomeObligationState.t :=
  match self with
  | Satisfied => OutcomeObligationState.Satisfied
  | Waived => OutcomeObligationState.Waived
  end.
End OutcomeObligationDisposition.

Module ReviewChallengeSeverity.
Inductive t := Low | Moderate | High | Critical.
#[global] Instance eq_dec : EqDecision t.
Proof. solve_decision. Defined.
Definition as_i64 (self : t) : Z :=
  match self with Low => 1 | Moderate => 2 | High => 3 | Critical => 4 end.
#[global] Instance code : Code as_i64.
Proof. code_enum. Qed.
End ReviewChallengeSeverity.

Module ReviewChallengeResponseState.
Inductive t := Pending | Responded.
#[global] Instance eq_dec : EqDecision t.
Proof. solve_decision. Defined.
Definition as_i64 (self : t) : Z :=
  match self with Pending => 1 | Responded => 2 end.
#[global] Instance code : Code as_i64.
Proof. code_enum. Qed.
End ReviewChallengeResponseState.

Module ReviewDispositionKind.
Inductive t := Addressed | RejectedWithDissentPreserved | AcceptedRisk.
#[global] Instance eq_dec : EqDecision t.
Proof. solve_decision. Defined.
Definition as_i64 (self : t) : Z :=
  match self with
  | Addressed => 1 | RejectedWithDissentPreserved => 2 | AcceptedRisk => 3
  end.
#[global] Instance code : Code as_i64.
Proof. code_enum. Qed.
End ReviewDispositionKind.

Module ReviewResolutionKind.
Inductive t := Resolved | AcceptedRisk.
#[global] Instance eq_dec : EqDecision t.
Proof. solve_decision. Defined.
Definition as_i64 (self : t) : Z :=
  match self with Resolved => 1 | AcceptedRisk => 2 end.
#[global] Instance code : Code as_i64.
Proof. code_enum. Qed.
End ReviewResolutionKind.

Module PostmortemState.
Inductive t := Triggered | Investigating | Closed.
#[global] Instance eq_dec : EqDecision t.
Proof. solve_decision. Defined.
Definition as_i64 (self : t) : Z :=
  match self with Triggered => 1 | Investigating => 2 | Closed => 3 end.
#[global] Instance code : Code as_i64.
Proof. code_enum. Qed.
End PostmortemState.

Module PostmortemCausalClaimKind.
Inductive t := ContributingCondition | Counterfactual | Containment.
#[global] Instance eq_dec : EqDecision t.
Proof. solve_decision. Defined.
Definition as_i64 (self : t) : Z :=
  match self with
  | ContributingCondition => 1 | Counterfactual => 2 | Containment => 3
  end.
#[global] Instance code : Code as_i64.
Proof. code_enum. Qed.
End PostmortemCausalClaimKind.

Module PostmortemActionKind.
Inductive t := CreateFollowUpTicket | ChangePolicyProposal.
#[global] Instance eq_dec : EqDecision t.
Proof. solve_decision. Defined.
Definition as_i64 (self : t) : Z :=
  match self with CreateFollowUpTicket => 1 | ChangePolicyProposal => 2 end.
#[global] Instance code : Code as_i64.
Proof. code_enum. Qed.
End PostmortemActionKind.

Module OfficeSessionState.
Inductive t :=
| Reserved | Starting | Ready | TurnActive | Quiescing | ProcessEnded | EvidenceSealing
| Closed | Cancelling | Cancelled | Failed.
#[global] Instance eq_dec : EqDecision t.
Proof. solve_decision. Defined.
Definition as_i64 (self : t) : Z :=
  match self with
  | Reserved => 1 | Starting => 2 | Ready => 3 | TurnActive => 4 | Quiescing => 5
  | ProcessEnded => 6 | EvidenceSealing => 7 | Closed => 8 | Cancelling => 9
  | Cancelled => 10 | Failed => 11
  end.
#[global] Instance code : Code as_i64.
Proof. code_enum. Qed.
End OfficeSessionState.

Module OfficeTurnState.
Inductive t := Active | Settled | Cancelled | Failed.
#[global] Instance eq_dec : EqDecision t.
Proof. solve_decision. Defined.
Definition as_i64 (self : t) : Z :=
  match self with Active => 1 | Settled => 2 | Cancelled => 3 | Failed => 4 end.
#[global] Instance code : Code as_i64.
Proof. code_enum. Qed.
End OfficeTurnState.

Module OfficeTurnPurpose.
Inductive t := OrdinaryWork | Recovery | Cancellation | Closure.
#[global] Instance eq_dec : EqDecision t.
Proof. solve_decision. Defined.
Definition as_i64 (self : t) : Z :=
  match self with
  | OrdinaryWork => 1 | Recovery => 2 | Cancellation => 3 | Closure => 4
  end.
#[global] Instance code : Code as_i64.
Proof. code_enum. Qed.
End OfficeTurnPurpose.

Module OfficeSessionTerminalState.
Inductive t := Closed | Cancelled | Failed.
#[global] Instance eq_dec : EqDecision t.
Proof. solve_decision. Defined.
Definition as_i64 (self : t) : Z :=
  match self with Closed => 1 | Cancelled => 2 | Failed => 3 end.
#[global] Instance code : Code as_i64.
Proof. code_enum. Qed.
End OfficeSessionTerminalState.

Module CancellationMode.
Inductive t := Quiesce | GracefulCancel | EmergencyStop.
#[global] Instance eq_dec : EqDecision t.
Proof. solve_decision. Defined.
Definition as_i64 (self : t) : Z :=
  match self with Quiesce => 1 | GracefulCancel => 2 | EmergencyStop => 3 end.
#[global] Instance code : Code as_i64.
Proof. code_enum. Qed.
End CancellationMode.

Module CancellationState.
Inductive t :=
| Requested | Accepted | Propagating | AwaitingGrace | Terminating | Killing | Reconciling
| Completed | ContainmentFailed.
#[global] Instance eq_dec : EqDecision t.
Proof. solve_decision. Defined.
Definition as_i64 (self : t) : Z :=
  match self with
  | Requested => 1 | Accepted => 2 | Propagating => 3 | AwaitingGrace => 4
  | Terminating => 5 | Killing => 6 | Reconciling => 7 | Completed => 8
  | ContainmentFailed => 9
  end.
#[global] Instance code : Code as_i64.
Proof. code_enum. Qed.
End CancellationState.

Module BudgetReservationState.
Inductive t := Reserved | Reconciled | Frozen.
#[global] Instance eq_dec : EqDecision t.
Proof. solve_decision. Defined.
Definition as_i64 (self : t) : Z :=
  match self with Reserved => 1 | Reconciled => 2 | Frozen => 3 end.
#[global] Instance code : Code as_i64.
Proof. code_enum. Qed.
End BudgetReservationState.

Module CostPostmortemCause.
Inductive t := KnownOverrun | UnknownCost | UnavailableCost.
#[global] Instance eq_dec : EqDecision t.
Proof. solve_decision. Defined.
Definition as_i64 (self : t) : Z :=
  match self with KnownOverrun => 1 | UnknownCost => 2 | UnavailableCost => 3 end.
#[global] Instance code : Code as_i64.
Proof. code_enum. Qed.
End CostPostmortemCause.

Module CostPostmortemResolution.
Inductive t := ConservativeFullReservation | ChargeObservedOverrun.
#[global] Instance eq_dec : EqDecision t.
Proof. solve_decision. Defined.
Definition as_i64 (self : t) : Z :=
  match self with ConservativeFullReservation => 1 | ChargeObservedOverrun => 2 end.
#[global] Instance code : Code as_i64.
Proof. code_enum. Qed.
End CostPostmortemResolution.

Module CostPostmortemState.
Inductive t := Open | Closed.
#[global] Instance eq_dec : EqDecision t.
Proof. solve_decision. Defined.
Definition as_i64 (self : t) : Z :=
  match self with Open => 1 | Closed => 2 end.
#[global] Instance code : Code as_i64.
Proof. code_enum. Qed.
End CostPostmortemState.

Module CostUnknownReason.
Inductive t := ProviderDidNotReport | AdapterStreamInterrupted | ReconciliationMismatch.
#[global] Instance eq_dec : EqDecision t.
Proof. solve_decision. Defined.
Definition as_i64 (self : t) : Z :=
  match self with
  | ProviderDidNotReport => 1 | AdapterStreamInterrupted => 2 | ReconciliationMismatch => 3
  end.
#[global] Instance code : Code as_i64.
Proof. code_enum. Qed.
End CostUnknownReason.

Module CostUnavailableReason.
Inductive t :=
| ProviderUnavailable | CredentialUnavailable | QualificationRejected
| AdapterAccountingUnavailable.
#[global] Instance eq_dec : EqDecision t.
Proof. solve_decision. Defined.
Definition as_i64 (self : t) : Z :=
  match self with
  | ProviderUnavailable => 1 | CredentialUnavailable => 2 | QualificationRejected => 3
  | AdapterAccountingUnavailable => 4
  end.
#[global] Instance code : Code as_i64.
Proof. code_enum. Qed.
End CostUnavailableReason.

Module CostObservation.
Inductive t :=
| Known (amount : UsdMicros.t)
| Unknown (reason : CostUnknownReason.t)
| Unavailable (reason : CostUnavailableReason.t).
#[global] Instance eq_dec : EqDecision t.
Proof. solve_decision. Defined.
End CostObservation.

Module BudgetFreezeReason.
Inductive t :=
| KnownOverrun (observed reserved : UsdMicros.t)
| Unknown (reason : CostUnknownReason.t)
| Unavailable (reason : CostUnavailableReason.t).
#[global] Instance eq_dec : EqDecision t.
Proof. solve_decision. Defined.
End BudgetFreezeReason.

Module ExpectedGeneration.
Inductive t :=
| NotApplicable
| Exact (value : AdmissionGeneration.t).
#[global] Instance eq_dec : EqDecision t.
Proof. solve_decision. Defined.
Definition exact (value : AdmissionGeneration.t) : t := Exact value.
End ExpectedGeneration.
