(* ===== verification/StudyTypes.v ===== *)
(** * Study values: identifiers, budgets, texts, lifecycles, observations

    [society-kernel/src/study.rs], the values of the generic experimental control
    plane: what its commands and events carry and what its read-only queries report. *)

From S2P Require Import Prelude Machine Hash KernelScalars KernelEnums KernelCustody.

Module StudyValueError.
Inductive t :=
| NonPositiveIdentifier (type_name : string) (value : Z)
| InvalidForumMessageBody
| InvalidForumThreadTitle
| InvalidStudyDecisionBody
| InvalidGroundTruthReveal
| NegativeBudgetUnits
| InvalidRoleOrdinal
| InvalidMeasurementSlot
| InvalidMeasurementSlotCount
| InvalidStudyRunPairCount
| InvalidStudyRunRegisteredPairCount
| InvalidStudyRunPairOrdinal
| InvalidReadBudget
| InvalidPostBudget.
#[global] Instance eq_dec : EqDecision t.
Proof. solve_decision. Defined.
End StudyValueError.

Abbreviation study_value_result A := (result A StudyValueError.t).

(** [study_identifier!] *)
Module StudyIdentifier.
Definition ok (value : Z) : bool := is_i64 value && (0 <? value).
Definition t (type_name : string) : Type := newtype type_name Z ok.
Definition new {type_name} (value : Z) : option (t type_name) := checked value.
Definition value {type_name} (self : t type_name) : Z := inner self.
Definition try_from {type_name} (value : Z) : study_value_result (t type_name) :=
  ok_or (new value) (StudyValueError.NonPositiveIdentifier type_name value).
End StudyIdentifier.

Definition StudyProtocolRevisionId : Type := StudyIdentifier.t "StudyProtocolRevisionId".
Definition StudyWorldRevisionId : Type := StudyIdentifier.t "StudyWorldRevisionId".
Definition StudyMeasurementRevisionId : Type := StudyIdentifier.t "StudyMeasurementRevisionId".
Definition StudyInstitutionRevisionId : Type := StudyIdentifier.t "StudyInstitutionRevisionId".
Definition StudyPopulationSnapshotId : Type := StudyIdentifier.t "StudyPopulationSnapshotId".
Definition StudyEpisodeId : Type := StudyIdentifier.t "StudyEpisodeId".
Definition StudyPairId : Type := StudyIdentifier.t "StudyPairId".
Definition StudyRunId : Type := StudyIdentifier.t "StudyRunId".
Definition StudyTreatmentAssignmentId : Type := StudyIdentifier.t "StudyTreatmentAssignmentId".
Definition StudyActorObligationId : Type := StudyIdentifier.t "StudyActorObligationId".
Definition ActorOccurrenceId : Type := StudyIdentifier.t "ActorOccurrenceId".
Definition EpisodeForumId : Type := StudyIdentifier.t "EpisodeForumId".
Definition ForumThreadId : Type := StudyIdentifier.t "ForumThreadId".
Definition ForumMessageId : Type := StudyIdentifier.t "ForumMessageId".
Definition ForumExposureId : Type := StudyIdentifier.t "ForumExposureId".
Definition ForumReadReceiptId : Type := StudyIdentifier.t "ForumReadReceiptId".
Definition StudyMeasurementResultId : Type := StudyIdentifier.t "StudyMeasurementResultId".
Definition ExperimentalForkId : Type := StudyIdentifier.t "ExperimentalForkId".

(** ** Budgets, counts and ordinals *)

Module StudyBudgetUnits.
Definition ok (value : Z) : bool := is_i64 value && (0 <=? value).
Definition t : Type := newtype "StudyBudgetUnits" Z ok.
Definition ZERO : t := Newtype 0 eq_refl.
Definition new (value : Z) : option t := checked value.
Definition value (self : t) : Z := inner self.
Definition try_from (value : Z) : study_value_result t :=
  ok_or (new value) StudyValueError.NegativeBudgetUnits.
End StudyBudgetUnits.

Module StudyRunPairCount.
Definition ok (value : Z) : bool := (0 <? value) && (value <=? 10000).
Definition t : Type := newtype "StudyRunPairCount" Z ok.
Definition new (value : Z) : option t := checked value.
Definition value (self : t) : Z := inner self.
Definition try_from (value : Z) : study_value_result t :=
  ok_or (match u16_try_from value with Some value => new value | None => None end)
    StudyValueError.InvalidStudyRunPairCount.
End StudyRunPairCount.

Module StudyRunRegisteredPairCount.
Definition ok (value : Z) : bool := (0 <=? value) && (value <=? 10000).
Definition t : Type := newtype "StudyRunRegisteredPairCount" Z ok.
Definition new (value : Z) : option t := checked value.
Definition value (self : t) : Z := inner self.
Definition try_from (value : Z) : study_value_result t :=
  ok_or (match u16_try_from value with Some value => new value | None => None end)
    StudyValueError.InvalidStudyRunRegisteredPairCount.
End StudyRunRegisteredPairCount.

Module StudyRunPairOrdinal.
Definition ok (value : Z) : bool := (0 <? value) && (value <=? 10000).
Definition t : Type := newtype "StudyRunPairOrdinal" Z ok.
Definition new (value : Z) : option t := checked value.
Definition value (self : t) : Z := inner self.
Definition try_from (value : Z) : study_value_result t :=
  ok_or (match u16_try_from value with Some value => new value | None => None end)
    StudyValueError.InvalidStudyRunPairOrdinal.
End StudyRunPairOrdinal.

Module StudyRoleOrdinal.
Definition ok (value : Z) : bool := (0 <? value) && (value <=? 64).
Definition t : Type := newtype "StudyRoleOrdinal" Z ok.
Definition new (value : Z) : option t := checked value.
Definition value (self : t) : Z := inner self.
Definition try_from (value : Z) : study_value_result t :=
  ok_or (match u8_try_from value with Some value => new value | None => None end)
    StudyValueError.InvalidRoleOrdinal.
End StudyRoleOrdinal.

Module StudyMeasurementSlot.
Definition ok (value : Z) : bool := (0 <? value) && (value <=? 64).
Definition t : Type := newtype "StudyMeasurementSlot" Z ok.
Definition new (value : Z) : option t := checked value.
Definition value (self : t) : Z := inner self.
Definition try_from (value : Z) : study_value_result t :=
  ok_or (match u8_try_from value with Some value => new value | None => None end)
    StudyValueError.InvalidMeasurementSlot.
End StudyMeasurementSlot.

Module StudyMeasurementSlotCount.
Definition ok (value : Z) : bool := (0 <? value) && (value <=? 64).
Definition t : Type := newtype "StudyMeasurementSlotCount" Z ok.
Definition new (value : Z) : option t := checked value.
Definition value (self : t) : Z := inner self.
Definition try_from (value : Z) : study_value_result t :=
  ok_or (match u8_try_from value with Some value => new value | None => None end)
    StudyValueError.InvalidMeasurementSlotCount.
End StudyMeasurementSlotCount.

Module ForumReadBudget.
Definition ok (value : Z) : bool := is_i64 value && (0 <? value).
Definition t : Type := newtype "ForumReadBudget" Z ok.
Definition new (value : Z) : option t := checked value.
Definition value (self : t) : Z := inner self.
Definition try_from (value : Z) : study_value_result t :=
  ok_or (new value) StudyValueError.InvalidReadBudget.
End ForumReadBudget.

Module ForumPostBudget.
Definition ok (value : Z) : bool := is_i64 value && (0 <? value).
Definition t : Type := newtype "ForumPostBudget" Z ok.
Definition new (value : Z) : option t := checked value.
Definition value (self : t) : Z := inner self.
Definition try_from (value : Z) : study_value_result t :=
  ok_or (new value) StudyValueError.InvalidPostBudget.
End ForumPostBudget.

(** ** Texts *)

Module ForumMessageBody.
Definition MAX_BYTES : Z := 8 * 1024.
Definition ok (value : string) : bool :=
  is_str value
  && negb (is_empty value || (MAX_BYTES <? str_len value) || str_contains NUL value).
Definition t : Type := newtype "ForumMessageBody" string ok.
Definition parse (value : string) : study_value_result t :=
  ok_or (checked value) StudyValueError.InvalidForumMessageBody.
Definition as_str (self : t) : string := inner self.
Definition digest `{Blake3} (self : t) : Blake3Digest.t :=
  Blake3Digest.of_bytes (bytes (inner self)).
End ForumMessageBody.

Module ForumThreadTitle.
Definition MAX_BYTES : Z := 160.
Definition ok (value : string) : bool :=
  is_str value
  && negb (trims_to_empty value || (MAX_BYTES <? str_len value) || str_contains NUL value).
Definition t : Type := newtype "ForumThreadTitle" string ok.
Definition parse (value : string) : study_value_result t :=
  ok_or (checked value) StudyValueError.InvalidForumThreadTitle.
Definition as_str (self : t) : string := inner self.
End ForumThreadTitle.

Module StudyDecisionBody.
Definition MAX_BYTES : Z := 2 * 1024.
Definition ok (value : string) : bool :=
  is_str value
  && negb (is_empty value || (MAX_BYTES <? str_len value) || str_contains NUL value).
Definition t : Type := newtype "StudyDecisionBody" string ok.
Definition parse (value : string) : study_value_result t :=
  ok_or (checked value) StudyValueError.InvalidStudyDecisionBody.
Definition as_str (self : t) : string := inner self.
Definition digest `{Blake3} (self : t) : Blake3Digest.t :=
  Blake3Digest.of_bytes (bytes (inner self)).
End StudyDecisionBody.

Module StudyGroundTruthReveal.
Definition MAX_BYTES : Z := 2 * 1024.
Definition ok (value : string) : bool :=
  is_str value
  && negb (is_empty value || (MAX_BYTES <? str_len value) || str_contains NUL value).
Definition t : Type := newtype "StudyGroundTruthReveal" string ok.
Definition parse (value : string) : study_value_result t :=
  ok_or (checked value) StudyValueError.InvalidGroundTruthReveal.
Definition as_str (self : t) : string := inner self.
Definition digest `{Blake3} (self : t) : Blake3Digest.t :=
  Blake3Digest.of_bytes (bytes (inner self)).
End StudyGroundTruthReveal.

(** ** Lifecycles and observations *)

Module StudyRunLifecycleState.
Inductive t := Pairing | Ready | Running | Completed.
#[global] Instance eq_dec : EqDecision t.
Proof. solve_decision. Defined.
Definition as_i64 (self : t) : Z :=
  match self with Pairing => 1 | Ready => 2 | Running => 3 | Completed => 4 end.
#[global] Instance code : Code as_i64.
Proof. code_enum. Qed.
End StudyRunLifecycleState.

Module StudyEpisodeState.
Inductive t :=
| Admitted_ | SourceActive | SourceReconciled | SuccessorAdmitted | CorrectionReleased
| SuccessorActive | Closed.
#[global] Instance eq_dec : EqDecision t.
Proof. solve_decision. Defined.
Definition as_i64 (self : t) : Z :=
  match self with
  | Admitted_ => 1 | SourceActive => 2 | SourceReconciled => 3 | SuccessorAdmitted => 4
  | CorrectionReleased => 5 | SuccessorActive => 6 | Closed => 7
  end.
#[global] Instance code : Code as_i64.
Proof. code_enum. Qed.
End StudyEpisodeState.

Module StudyPopulationPhase.
Inductive t := Source | Successor.
#[global] Instance eq_dec : EqDecision t.
Proof. solve_decision. Defined.
Definition as_i64 (self : t) : Z :=
  match self with Source => 1 | Successor => 2 end.
#[global] Instance code : Code as_i64.
Proof. code_enum. Qed.
End StudyPopulationPhase.

Module StudyTreatment.
Inductive t := Retained | Reset.
#[global] Instance eq_dec : EqDecision t.
Proof. solve_decision. Defined.
Definition as_i64 (self : t) : Z :=
  match self with Retained => 1 | Reset => 2 end.
#[global] Instance code : Code as_i64.
Proof. code_enum. Qed.
End StudyTreatment.

Module ForumLifecycle.
Inductive t := Open | ReadOnly | Closed.
#[global] Instance eq_dec : EqDecision t.
Proof. solve_decision. Defined.
Definition as_i64 (self : t) : Z :=
  match self with Open => 1 | ReadOnly => 2 | Closed => 3 end.
#[global] Instance code : Code as_i64.
Proof. code_enum. Qed.
End ForumLifecycle.

Module ForumThreadLifecycle.
Inductive t := Open | Locked | Closed.
#[global] Instance eq_dec : EqDecision t.
Proof. solve_decision. Defined.
Definition as_i64 (self : t) : Z :=
  match self with Open => 1 | Locked => 2 | Closed => 3 end.
#[global] Instance code : Code as_i64.
Proof. code_enum. Qed.
End ForumThreadLifecycle.

Module ForumMessageKind.
Inductive t := Finding | Question | Challenge | Correction | Synthesis.
#[global] Instance eq_dec : EqDecision t.
Proof. solve_decision. Defined.
Definition as_i64 (self : t) : Z :=
  match self with
  | Finding => 1 | Question => 2 | Challenge => 3 | Correction => 4 | Synthesis => 5
  end.
#[global] Instance code : Code as_i64.
Proof. code_enum. Qed.
End ForumMessageKind.

Module ForumPublicationState.
Inductive t := Published | Retracted.
#[global] Instance eq_dec : EqDecision t.
Proof. solve_decision. Defined.
Definition as_i64 (self : t) : Z :=
  match self with Published => 1 | Retracted => 2 end.
#[global] Instance code : Code as_i64.
Proof. code_enum. Qed.
End ForumPublicationState.

Module StudyForumPublicAuthor.
Inductive t :=
| Actor (obligation_id : StudyActorObligationId) (occurrence_id : ActorOccurrenceId)
    (phase : StudyPopulationPhase.t) (role : StudyRoleOrdinal.t)
| SocietyService.
#[global] Instance eq_dec : EqDecision t.
Proof. solve_decision. Defined.
End StudyForumPublicAuthor.

Module StudyPostActorPublicForumMessage.
Record t := new {
  message_id : ForumMessageId;
  thread_id : ForumThreadId;
  thread_message_ordinal : i64;
  author : StudyForumPublicAuthor.t;
  kind : ForumMessageKind.t;
  body : ForumMessageBody.t;
  body_digest : Blake3Digest.t;
  publication_state : ForumPublicationState.t;
}.
#[global] Instance eq_dec : EqDecision t.
Proof. solve_decision. Defined.
End StudyPostActorPublicForumMessage.

Module StudyPostActorPublicForumObservation.
Record t := new {
  episode_id : StudyEpisodeId;
  messages : list StudyPostActorPublicForumMessage.t;
}.
#[global] Instance eq_dec : EqDecision t.
Proof. solve_decision. Defined.
End StudyPostActorPublicForumObservation.

Module StudyMeasurementStatus.
Inductive t := Observed | Unavailable | Invalidated.
#[global] Instance eq_dec : EqDecision t.
Proof. solve_decision. Defined.
Definition as_i64 (self : t) : Z :=
  match self with Observed => 1 | Unavailable => 2 | Invalidated => 3 end.
#[global] Instance code : Code as_i64.
Proof. code_enum. Qed.
End StudyMeasurementStatus.

Module StudyMeasurementObservation.
Record t := new {
  measurement_slot : StudyMeasurementSlot.t;
  status : StudyMeasurementStatus.t;
  value : option i64;
  value_digest : option Blake3Digest.t;
  reason_digest : option Blake3Digest.t;
}.
#[global] Instance eq_dec : EqDecision t.
Proof. solve_decision. Defined.
End StudyMeasurementObservation.

Module StudyEpisodeObservation.
Record t := new {
  episode_id : StudyEpisodeId;
  protocol_revision_id : StudyProtocolRevisionId;
  world_revision_id : StudyWorldRevisionId;
  measurement_revision_id : StudyMeasurementRevisionId;
  measurement_slot_count : StudyMeasurementSlotCount.t;
  institution_revision_id : StudyInstitutionRevisionId;
  source_population_snapshot_id : StudyPopulationSnapshotId;
  successor_population_snapshot_id : option StudyPopulationSnapshotId;
  randomization_digest : Blake3Digest.t;
  treatment : StudyTreatment.t;
  lifecycle_state : StudyEpisodeState.t;
  source_actor_obligations : i64;
  source_terminal_actor_obligations : i64;
  successor_actor_obligations : i64;
  successor_terminal_actor_obligations : i64;
  failed_actor_obligations : i64;
  runtime_bindings : i64;
  reconciled_runtime_bindings : i64;
  frozen_forum_head : option i64;
  forum_messages : i64;
  forum_reads : i64;
  forum_returned_bytes : i64;
  decisions : i64;
  ground_truth_reveal_digest : option Blake3Digest.t;
  measurements : list StudyMeasurementObservation.t;
}.
#[global] Instance eq_dec : EqDecision t.
Proof. solve_decision. Defined.
End StudyEpisodeObservation.

Module StudyPairObservation.
Record t := new {
  pair_id : StudyPairId;
  retained : StudyEpisodeObservation.t;
  reset : StudyEpisodeObservation.t;
}.
#[global] Instance eq_dec : EqDecision t.
Proof. solve_decision. Defined.
End StudyPairObservation.

Module StudyRunPairRegistrationObservation.
Record t := new {
  pair_ordinal : StudyRunPairOrdinal.t;
  pair_id : StudyPairId;
  randomization_digest : Blake3Digest.t;
}.
#[global] Instance eq_dec : EqDecision t.
Proof. solve_decision. Defined.
End StudyRunPairRegistrationObservation.

Module StudyRunObservation.
Record t := new {
  study_run_id : StudyRunId;
  protocol_revision_id : StudyProtocolRevisionId;
  plan_content_object_id : ContentObjectId;
  plan_digest : Blake3Digest.t;
  pair_count : StudyRunPairCount.t;
  registered_pair_count : StudyRunRegisteredPairCount.t;
  lifecycle_state : StudyRunLifecycleState.t;
  pairs : list StudyRunPairRegistrationObservation.t;
}.
#[global] Instance eq_dec : EqDecision t.
Proof. solve_decision. Defined.
End StudyRunObservation.

Module StudyActorRuntimeOwner.
Inductive t :=
| TaskAttempt (id : ActorAttemptId)
| RootAuthorityOfficeSession (id : RootAuthorityOfficeSessionId).
#[global] Instance eq_dec : EqDecision t.
Proof. solve_decision. Defined.
End StudyActorRuntimeOwner.

Module StudyActorRuntimeBindingState.
Inductive t := Bound | Reconciled | RecoverySettled.
#[global] Instance eq_dec : EqDecision t.
Proof. solve_decision. Defined.
Definition as_i64 (self : t) : Z :=
  match self with Bound => 1 | Reconciled => 2 | RecoverySettled => 3 end.
#[global] Instance code : Code as_i64.
Proof. code_enum. Qed.
End StudyActorRuntimeBindingState.

Module StudyActorRuntimeBindingObservation.
Record t := new {
  obligation_id : StudyActorObligationId;
  owner : StudyActorRuntimeOwner.t;
  native_child_id : NativeChildId;
  native_child_spawn_admission_id : NativeChildSpawnAdmissionId;
  execution_profile_id : ExecutionProfileId;
  lifecycle_state : StudyActorRuntimeBindingState.t;
}.
#[global] Instance eq_dec : EqDecision t.
Proof. solve_decision. Defined.
End StudyActorRuntimeBindingObservation.

Module StudyActorObligationState.
Inductive t := Active | Completed | Failed.
#[global] Instance eq_dec : EqDecision t.
Proof. solve_decision. Defined.
Definition as_i64 (self : t) : Z :=
  match self with Active => 1 | Completed => 2 | Failed => 3 end.
#[global] Instance code : Code as_i64.
Proof. code_enum. Qed.
End StudyActorObligationState.

Module StudyActorObligationObservation.
Record t := new {
  obligation_id : StudyActorObligationId;
  actor_occurrence_id : ActorOccurrenceId;
  episode_id : StudyEpisodeId;
  population_snapshot_id : StudyPopulationSnapshotId;
  phase : StudyPopulationPhase.t;
  role : StudyRoleOrdinal.t;
  private_view_digest : Blake3Digest.t;
  prompt_digest : Blake3Digest.t;
  tool_digest : Blake3Digest.t;
  budget : StudyBudgetUnits.t;
  charged_budget : StudyBudgetUnits.t;
  read_budget : ForumReadBudget.t;
  reads_used : i64;
  post_budget : ForumPostBudget.t;
  posts_used : i64;
  lifecycle_state : StudyActorObligationState.t;
}.
#[global] Instance eq_dec : EqDecision t.
Proof. solve_decision. Defined.
End StudyActorObligationObservation.

Module StudyActorTaskAttemptRecoveryAccountingState.
Inductive t := Unknown.
#[global] Instance eq_dec : EqDecision t.
Proof. solve_decision. Defined.
Definition as_i64 (self : t) : Z :=
  match self with Unknown => 1 end.
#[global] Instance code : Code as_i64.
Proof. code_enum. Qed.
End StudyActorTaskAttemptRecoveryAccountingState.
