(* ===== verification/StudyCommands.v ===== *)
(** * Study commands and events

    [society-kernel/src/study.rs]: the closed command family of the experimental
    control plane and its events, with their kinds. *)

From S2P Require Import Prelude Machine KernelScalars KernelEnums KernelCustody StudyTypes.

Module StudyCommandKind.
Inductive t :=
| AdmitProtocolRevision | AdmitWorldRevision | AdmitMeasurementRevision
| AdmitInstitutionRevision | AdmitPopulationSnapshot | AdmitEpisode | AssignTreatment
| AdmitMatchedPair | CreateEpisodeForum | OpenForumThread | AdmitActorObligation
| CompleteActorObligation | FreezeForumHead | ReplacePopulation | AdmitForumExposure
| PublishForumMessage | ReleaseMatchedCorrection | ReadForum | RecordDecision
| RecordMeasurementResult | CloseEpisode | ForkEpisode | RetractForumMessage
| FailActorObligation | RevealGroundTruth | BindActorRuntime | ReconcileActorRuntime
| BindActorTaskAttemptRuntime | AdmitStudyRun | RegisterStudyRunPair | StartStudyRun
| SettleActorTaskAttemptAfterRecovery | CompleteStudyRun.
#[global] Instance eq_dec : EqDecision t.
Proof. solve_decision. Defined.
Definition as_i64 (self : t) : Z :=
  match self with
  | AdmitProtocolRevision => 1 | AdmitWorldRevision => 2 | AdmitMeasurementRevision => 3
  | AdmitInstitutionRevision => 4 | AdmitPopulationSnapshot => 5 | AdmitEpisode => 6
  | AssignTreatment => 7 | AdmitMatchedPair => 8 | CreateEpisodeForum => 9
  | OpenForumThread => 10 | AdmitActorObligation => 11 | CompleteActorObligation => 12
  | FreezeForumHead => 13 | ReplacePopulation => 14 | AdmitForumExposure => 15
  | PublishForumMessage => 16 | ReleaseMatchedCorrection => 17 | ReadForum => 18
  | RecordDecision => 19 | RecordMeasurementResult => 20 | CloseEpisode => 21
  | ForkEpisode => 22 | RetractForumMessage => 23 | FailActorObligation => 24
  | RevealGroundTruth => 25 | BindActorRuntime => 26 | ReconcileActorRuntime => 27
  | BindActorTaskAttemptRuntime => 28 | AdmitStudyRun => 29 | RegisterStudyRunPair => 30
  | StartStudyRun => 31 | SettleActorTaskAttemptAfterRecovery => 32
  | CompleteStudyRun => 33
  end.
#[global] Instance code : Code as_i64.
Proof. code_enum. Qed.
End StudyCommandKind.

Module StudyEventKind.
Inductive t :=
| ProtocolRevisionAdmitted | WorldRevisionAdmitted | MeasurementRevisionAdmitted
| InstitutionRevisionAdmitted | PopulationSnapshotAdmitted | EpisodeAdmitted
| TreatmentAssigned | MatchedPairAdmitted | EpisodeForumCreated | ForumThreadOpened
| ActorObligationAdmitted | ActorObligationCompleted | ForumHeadFrozen
| PopulationReplaced | ForumExposureAdmitted | ForumMessagePublished
| MatchedCorrectionReleased | ForumMessagesRead | DecisionRecorded
| MeasurementResultRecorded | EpisodeClosed | ExperimentalForkCreated
| ForumMessageRetracted | ActorObligationFailed | GroundTruthRevealed | ActorRuntimeBound
| ActorRuntimeReconciled | ActorTaskAttemptRuntimeBound | StudyRunAdmitted
| StudyRunPairRegistered | StudyRunStarted | ActorTaskAttemptRecoverySettled
| StudyRunCompleted.
#[global] Instance eq_dec : EqDecision t.
Proof. solve_decision. Defined.
Definition as_i64 (self : t) : Z :=
  match self with
  | ProtocolRevisionAdmitted => 1 | WorldRevisionAdmitted => 2
  | MeasurementRevisionAdmitted => 3 | InstitutionRevisionAdmitted => 4
  | PopulationSnapshotAdmitted => 5 | EpisodeAdmitted => 6 | TreatmentAssigned => 7
  | MatchedPairAdmitted => 8 | EpisodeForumCreated => 9 | ForumThreadOpened => 10
  | ActorObligationAdmitted => 11 | ActorObligationCompleted => 12 | ForumHeadFrozen => 13
  | PopulationReplaced => 14 | ForumExposureAdmitted => 15 | ForumMessagePublished => 16
  | MatchedCorrectionReleased => 17 | ForumMessagesRead => 18 | DecisionRecorded => 19
  | MeasurementResultRecorded => 20 | EpisodeClosed => 21 | ExperimentalForkCreated => 22
  | ForumMessageRetracted => 23 | ActorObligationFailed => 24 | GroundTruthRevealed => 25
  | ActorRuntimeBound => 26 | ActorRuntimeReconciled => 27
  | ActorTaskAttemptRuntimeBound => 28 | StudyRunAdmitted => 29
  | StudyRunPairRegistered => 30 | StudyRunStarted => 31
  | ActorTaskAttemptRecoverySettled => 32 | StudyRunCompleted => 33
  end.
#[global] Instance code : Code as_i64.
Proof. code_enum. Qed.
End StudyEventKind.

Module StudyCommand.
Inductive t :=
| AdmitProtocolRevision (application_revision_id : ApplicationRevisionId)
    (protocol_digest actor_policy_digest forum_prompt_digest forum_tool_digest evidence_digest ground_truth_commitment_digest correction_digest topology_digest : Blake3Digest.t)
    (episode_budget : StudyBudgetUnits.t)
| AdmitWorldRevision (protocol_revision_id : StudyProtocolRevisionId)
    (world_digest : Blake3Digest.t)
| AdmitMeasurementRevision (protocol_revision_id : StudyProtocolRevisionId)
    (analysis_digest : Blake3Digest.t)
    (measurement_slot_count : StudyMeasurementSlotCount.t)
| AdmitInstitutionRevision (protocol_revision_id : StudyProtocolRevisionId)
    (institution_digest : Blake3Digest.t)
| AdmitPopulationSnapshot (protocol_revision_id : StudyProtocolRevisionId)
    (population_digest : Blake3Digest.t) (population_size : i64)
| AdmitEpisode (protocol_revision_id : StudyProtocolRevisionId)
    (world_revision_id : StudyWorldRevisionId)
    (measurement_revision_id : StudyMeasurementRevisionId)
    (institution_revision_id : StudyInstitutionRevisionId)
    (population_snapshot_id : StudyPopulationSnapshotId)
    (randomization_digest : Blake3Digest.t)
| AssignTreatment (episode_id : StudyEpisodeId) (treatment : StudyTreatment.t)
| AdmitMatchedPair (retained_episode_id reset_episode_id : StudyEpisodeId)
| AdmitStudyRun (protocol_revision_id : StudyProtocolRevisionId)
    (plan_content_object_id : ContentObjectId) (plan_digest : Blake3Digest.t)
    (pair_count : StudyRunPairCount.t)
| RegisterStudyRunPair (study_run_id : StudyRunId) (pair_ordinal : StudyRunPairOrdinal.t)
    (pair_id : StudyPairId) (randomization_digest : Blake3Digest.t)
| StartStudyRun (study_run_id : StudyRunId)
| CompleteStudyRun (study_run_id : StudyRunId)
| CreateEpisodeForum (episode_id : StudyEpisodeId) (charter_digest : Blake3Digest.t)
| OpenForumThread (forum_id : EpisodeForumId) (title : ForumThreadTitle.t)
| AdmitActorObligation (episode_id : StudyEpisodeId) (phase : StudyPopulationPhase.t)
    (role : StudyRoleOrdinal.t)
    (private_view_digest prompt_digest tool_digest : Blake3Digest.t)
    (budget : StudyBudgetUnits.t) (read_budget : ForumReadBudget.t)
    (post_budget : ForumPostBudget.t)
| CompleteActorObligation (obligation_id : StudyActorObligationId)
    (charged_budget : StudyBudgetUnits.t)
| FailActorObligation (obligation_id : StudyActorObligationId)
    (reason_digest : Blake3Digest.t)
| BindActorRuntime (obligation_id : StudyActorObligationId)
    (office_session_id : RootAuthorityOfficeSessionId) (native_child_id : NativeChildId)
    (native_child_spawn_admission_id : NativeChildSpawnAdmissionId)
| BindActorTaskAttemptRuntime (obligation_id : StudyActorObligationId)
    (actor_attempt_id : ActorAttemptId) (native_child_id : NativeChildId)
    (native_child_spawn_admission_id : NativeChildSpawnAdmissionId)
| ReconcileActorRuntime (obligation_id : StudyActorObligationId)
    (native_child_id : NativeChildId)
| SettleActorTaskAttemptAfterRecovery (obligation_id : StudyActorObligationId)
    (actor_attempt_id : ActorAttemptId) (native_child_id : NativeChildId)
    (native_child_recovery_receipt_id : NativeChildRecoveryReceiptId)
| FreezeForumHead (episode_id : StudyEpisodeId) (thread_id : ForumThreadId)
| ReplacePopulation (episode_id : StudyEpisodeId)
    (successor_population_snapshot_id : StudyPopulationSnapshotId)
| AdmitForumExposure (obligation_id : StudyActorObligationId) (forum_id : EpisodeForumId)
    (visible_from_message_ordinal : i64)
| PublishForumMessage (obligation_id : StudyActorObligationId) (kind : ForumMessageKind.t)
    (body : ForumMessageBody.t)
    (in_reply_to_message_id supersedes_message_id : option ForumMessageId)
| RetractForumMessage (obligation_id : StudyActorObligationId) (message_id : ForumMessageId)
| ReleaseMatchedCorrection (pair_id : StudyPairId)
    (retained_thread_id reset_thread_id : ForumThreadId) (correction : ForumMessageBody.t)
| ReadForum (obligation_id : StudyActorObligationId)
    (first_message_ordinal through_message_ordinal : i64)
    (rendered_content_object_id : ContentObjectId)
| RecordDecision (obligation_id : StudyActorObligationId) (decision : StudyDecisionBody.t)
    (cited_message_id : option ForumMessageId)
| RevealGroundTruth (episode_id : StudyEpisodeId) (reveal : StudyGroundTruthReveal.t)
| RecordMeasurementResult (episode_id : StudyEpisodeId)
    (measurement_slot : StudyMeasurementSlot.t) (status : StudyMeasurementStatus.t)
    (value : option i64) (value_digest reason_digest : option Blake3Digest.t)
| CloseEpisode (episode_id : StudyEpisodeId)
| ForkEpisode (source_episode_id : StudyEpisodeId) (treatment_delta : StudyTreatment.t).
Definition kind (self : t) : StudyCommandKind.t :=
  match self with
  | AdmitProtocolRevision _ _ _ _ _ _ _ _ _ _ => StudyCommandKind.AdmitProtocolRevision
  | AdmitWorldRevision _ _ => StudyCommandKind.AdmitWorldRevision
  | AdmitMeasurementRevision _ _ _ => StudyCommandKind.AdmitMeasurementRevision
  | AdmitInstitutionRevision _ _ => StudyCommandKind.AdmitInstitutionRevision
  | AdmitPopulationSnapshot _ _ _ => StudyCommandKind.AdmitPopulationSnapshot
  | AdmitEpisode _ _ _ _ _ _ => StudyCommandKind.AdmitEpisode
  | AssignTreatment _ _ => StudyCommandKind.AssignTreatment
  | AdmitMatchedPair _ _ => StudyCommandKind.AdmitMatchedPair
  | AdmitStudyRun _ _ _ _ => StudyCommandKind.AdmitStudyRun
  | RegisterStudyRunPair _ _ _ _ => StudyCommandKind.RegisterStudyRunPair
  | StartStudyRun _ => StudyCommandKind.StartStudyRun
  | CompleteStudyRun _ => StudyCommandKind.CompleteStudyRun
  | CreateEpisodeForum _ _ => StudyCommandKind.CreateEpisodeForum
  | OpenForumThread _ _ => StudyCommandKind.OpenForumThread
  | AdmitActorObligation _ _ _ _ _ _ _ _ _ => StudyCommandKind.AdmitActorObligation
  | CompleteActorObligation _ _ => StudyCommandKind.CompleteActorObligation
  | FailActorObligation _ _ => StudyCommandKind.FailActorObligation
  | BindActorRuntime _ _ _ _ => StudyCommandKind.BindActorRuntime
  | BindActorTaskAttemptRuntime _ _ _ _ => StudyCommandKind.BindActorTaskAttemptRuntime
  | ReconcileActorRuntime _ _ => StudyCommandKind.ReconcileActorRuntime
  | SettleActorTaskAttemptAfterRecovery _ _ _ _ =>
      StudyCommandKind.SettleActorTaskAttemptAfterRecovery
  | RevealGroundTruth _ _ => StudyCommandKind.RevealGroundTruth
  | FreezeForumHead _ _ => StudyCommandKind.FreezeForumHead
  | ReplacePopulation _ _ => StudyCommandKind.ReplacePopulation
  | AdmitForumExposure _ _ _ => StudyCommandKind.AdmitForumExposure
  | PublishForumMessage _ _ _ _ _ => StudyCommandKind.PublishForumMessage
  | ReleaseMatchedCorrection _ _ _ _ => StudyCommandKind.ReleaseMatchedCorrection
  | ReadForum _ _ _ _ => StudyCommandKind.ReadForum
  | RecordDecision _ _ _ => StudyCommandKind.RecordDecision
  | RecordMeasurementResult _ _ _ _ _ _ => StudyCommandKind.RecordMeasurementResult
  | CloseEpisode _ => StudyCommandKind.CloseEpisode
  | ForkEpisode _ _ => StudyCommandKind.ForkEpisode
  | RetractForumMessage _ _ => StudyCommandKind.RetractForumMessage
  end.
End StudyCommand.

Module StudyEvent.
Inductive t :=
| ProtocolRevisionAdmitted (protocol_revision_id : StudyProtocolRevisionId)
| WorldRevisionAdmitted (world_revision_id : StudyWorldRevisionId)
| MeasurementRevisionAdmitted (measurement_revision_id : StudyMeasurementRevisionId)
| InstitutionRevisionAdmitted (institution_revision_id : StudyInstitutionRevisionId)
| PopulationSnapshotAdmitted (population_snapshot_id : StudyPopulationSnapshotId)
| EpisodeAdmitted (episode_id : StudyEpisodeId)
| TreatmentAssigned (treatment_assignment_id : StudyTreatmentAssignmentId)
    (episode_id : StudyEpisodeId) (treatment : StudyTreatment.t)
| MatchedPairAdmitted (pair_id : StudyPairId)
| StudyRunAdmitted (study_run_id : StudyRunId)
    (protocol_revision_id : StudyProtocolRevisionId)
    (plan_content_object_id : ContentObjectId) (plan_digest : Blake3Digest.t)
    (pair_count : StudyRunPairCount.t)
| StudyRunPairRegistered (study_run_id : StudyRunId) (pair_id : StudyPairId)
    (pair_ordinal : StudyRunPairOrdinal.t) (randomization_digest : Blake3Digest.t)
    (lifecycle_state : StudyRunLifecycleState.t)
| StudyRunStarted (study_run_id : StudyRunId)
| StudyRunCompleted (study_run_id : StudyRunId)
| EpisodeForumCreated (forum_id : EpisodeForumId) (episode_id : StudyEpisodeId)
| ForumThreadOpened (thread_id : ForumThreadId) (forum_id : EpisodeForumId)
| ActorObligationAdmitted (obligation_id : StudyActorObligationId)
    (actor_occurrence_id : ActorOccurrenceId) (episode_id : StudyEpisodeId)
    (population_snapshot_id : StudyPopulationSnapshotId) (phase : StudyPopulationPhase.t)
| ActorObligationCompleted (obligation_id : StudyActorObligationId)
| ActorObligationFailed (obligation_id : StudyActorObligationId)
    (reason_digest : Blake3Digest.t)
| ActorRuntimeBound (obligation_id : StudyActorObligationId)
    (office_session_id : RootAuthorityOfficeSessionId) (native_child_id : NativeChildId)
    (native_child_spawn_admission_id : NativeChildSpawnAdmissionId)
    (execution_profile_id : ExecutionProfileId)
| ActorTaskAttemptRuntimeBound (obligation_id : StudyActorObligationId)
    (actor_attempt_id : ActorAttemptId) (native_child_id : NativeChildId)
    (native_child_spawn_admission_id : NativeChildSpawnAdmissionId)
    (execution_profile_id : ExecutionProfileId)
| ActorRuntimeReconciled (obligation_id : StudyActorObligationId)
    (native_child_id : NativeChildId)
| ActorTaskAttemptRecoverySettled (obligation_id : StudyActorObligationId)
    (actor_attempt_id : ActorAttemptId) (native_child_id : NativeChildId)
    (native_child_recovery_receipt_id : NativeChildRecoveryReceiptId)
    (accounting_state : StudyActorTaskAttemptRecoveryAccountingState.t)
| GroundTruthRevealed (episode_id : StudyEpisodeId) (reveal_digest : Blake3Digest.t)
| ForumHeadFrozen (episode_id : StudyEpisodeId) (thread_id : ForumThreadId)
    (head_message_ordinal : i64)
| PopulationReplaced (episode_id : StudyEpisodeId)
    (successor_population_snapshot_id : StudyPopulationSnapshotId)
| ForumExposureAdmitted (exposure_id : ForumExposureId)
    (obligation_id : StudyActorObligationId)
    (visible_from_message_ordinal visible_through_message_ordinal : i64)
| ForumMessagePublished (message_id : ForumMessageId) (thread_id : ForumThreadId)
    (message_ordinal : i64) (author_occurrence_id : ActorOccurrenceId)
    (kind : ForumMessageKind.t) (body_digest : Blake3Digest.t)
| MatchedCorrectionReleased (pair_id : StudyPairId)
    (retained_message_id reset_message_id : ForumMessageId) (body_digest : Blake3Digest.t)
| ForumMessagesRead (receipt_id : ForumReadReceiptId)
    (obligation_id : StudyActorObligationId) (thread_id : ForumThreadId)
    (first_message_ordinal through_message_ordinal : i64) (rendered_digest : Blake3Digest.t)
    (rendered_content_object_id : ContentObjectId)
| DecisionRecorded (obligation_id : StudyActorObligationId)
| MeasurementResultRecorded (result_id : StudyMeasurementResultId)
    (episode_id : StudyEpisodeId) (status : StudyMeasurementStatus.t)
| EpisodeClosed (episode_id : StudyEpisodeId)
| ExperimentalForkCreated (fork_id : ExperimentalForkId)
    (episode_id source_episode_id : StudyEpisodeId) (treatment_delta : StudyTreatment.t)
| ForumMessageRetracted (message_id : ForumMessageId)
    (obligation_id : StudyActorObligationId).
Definition kind (self : t) : StudyEventKind.t :=
  match self with
  | ProtocolRevisionAdmitted _ => StudyEventKind.ProtocolRevisionAdmitted
  | WorldRevisionAdmitted _ => StudyEventKind.WorldRevisionAdmitted
  | MeasurementRevisionAdmitted _ => StudyEventKind.MeasurementRevisionAdmitted
  | InstitutionRevisionAdmitted _ => StudyEventKind.InstitutionRevisionAdmitted
  | PopulationSnapshotAdmitted _ => StudyEventKind.PopulationSnapshotAdmitted
  | EpisodeAdmitted _ => StudyEventKind.EpisodeAdmitted
  | TreatmentAssigned _ _ _ => StudyEventKind.TreatmentAssigned
  | MatchedPairAdmitted _ => StudyEventKind.MatchedPairAdmitted
  | StudyRunAdmitted _ _ _ _ _ => StudyEventKind.StudyRunAdmitted
  | StudyRunPairRegistered _ _ _ _ _ => StudyEventKind.StudyRunPairRegistered
  | StudyRunStarted _ => StudyEventKind.StudyRunStarted
  | StudyRunCompleted _ => StudyEventKind.StudyRunCompleted
  | EpisodeForumCreated _ _ => StudyEventKind.EpisodeForumCreated
  | ForumThreadOpened _ _ => StudyEventKind.ForumThreadOpened
  | ActorObligationAdmitted _ _ _ _ _ => StudyEventKind.ActorObligationAdmitted
  | ActorObligationCompleted _ => StudyEventKind.ActorObligationCompleted
  | ActorObligationFailed _ _ => StudyEventKind.ActorObligationFailed
  | ActorRuntimeBound _ _ _ _ _ => StudyEventKind.ActorRuntimeBound
  | ActorTaskAttemptRuntimeBound _ _ _ _ _ => StudyEventKind.ActorTaskAttemptRuntimeBound
  | ActorRuntimeReconciled _ _ => StudyEventKind.ActorRuntimeReconciled
  | ActorTaskAttemptRecoverySettled _ _ _ _ _ => StudyEventKind.ActorTaskAttemptRecoverySettled
  | GroundTruthRevealed _ _ => StudyEventKind.GroundTruthRevealed
  | ForumHeadFrozen _ _ _ => StudyEventKind.ForumHeadFrozen
  | PopulationReplaced _ _ => StudyEventKind.PopulationReplaced
  | ForumExposureAdmitted _ _ _ _ => StudyEventKind.ForumExposureAdmitted
  | ForumMessagePublished _ _ _ _ _ _ => StudyEventKind.ForumMessagePublished
  | MatchedCorrectionReleased _ _ _ _ => StudyEventKind.MatchedCorrectionReleased
  | ForumMessagesRead _ _ _ _ _ _ _ => StudyEventKind.ForumMessagesRead
  | DecisionRecorded _ => StudyEventKind.DecisionRecorded
  | MeasurementResultRecorded _ _ _ => StudyEventKind.MeasurementResultRecorded
  | EpisodeClosed _ => StudyEventKind.EpisodeClosed
  | ExperimentalForkCreated _ _ _ _ => StudyEventKind.ExperimentalForkCreated
  | ForumMessageRetracted _ _ => StudyEventKind.ForumMessageRetracted
  end.
End StudyEvent.
