(* ===== verification/KernelCommands.v ===== *)
(** * Kernel commands and events

    [society-kernel/src/domain.rs]: capabilities and who holds them, rejections, the
    closed command family with the kind and the capability of each command, the
    closed event family, requests, receipts and ledger events. *)

From S2P Require Import Prelude Machine KernelScalars KernelEnums KernelCustody.
From S2P Require Import StudyTypes StudyCommands.

Module Capability.
Inductive t :=
| CreateSocietyIdentity | InstallRootAuthorityOffice | InstallFoundingMission
| AppointInitialRootAuthority | SetR0HardCeiling | BootstrapSociety
| ProposeOperatingCycle | AdmitOperatingCycle | QuiesceOperatingCycle
| ResumeOperatingCycle | ReconcileOperatingCycle | CloseOperatingCycle
| StartRootAuthorityOfficeSession | OpenOfficeTurn | RequestCancellation | ReserveBudget
| ReconcileBudget | RecordCycleDrained | RecordOfficeSessionReady | SettleOfficeTurn
| ReconcileCancellation | RecordOfficeSessionTerminal | CloseCostPostmortem
| CreateProject | CharterProject | TransitionProject | CompleteProjectMilestone
| ReopenProject | CreateTicket | TransitionTicket | AddGraphObjectRevision
| CommitGraphRevision | AddGraphEdge | CreateEpisode | TransitionEpisode | ReopenEpisode
| RequestAdversarialReview | SubmitReviewChallenge | RespondToReviewChallenge
| DispositionReviewChallenge | ResolveAdversarialReview | TriggerPostmortem
| RecordPostmortemCausalClaim | ProposePostmortemAction | ClosePostmortem
| AssignAdversarialReviewer | RegisterActorConfiguration | RegisterContextPack
| AdmitActorInstance | AdmitTicket | RegisterWorkItem | ClaimWorkItem | StartActorAttempt
| AttestActorAttemptTerminal | ValidateTicketAttempt | RetryActorAttempt | CompleteTicket
| ExpireWorkLease | CancelActorAttempt | RegisterOutcomeObligation
| ResolveOutcomeObligation | RecordContentSealReceipt | RegisterContentObject
| RegisterForensicManifest | RegisterDeterministicExperiment
| RecordDeterministicEvaluationReceipt | AdmitDeterministicEvidence
| FinalizeDeterministicExperiment | AdmitPiChildSpawn | RecordInertChildSpawn
| RecordPiAdapterReady | AuthorizePiCreateSession | RecordPiCreateSessionDelivery
| RecordPiSessionReady | RecordChildStreamSeal | RecordChildProcessLiveness
| RecordProcessSignalReceipt | RecordDirectChildReap | RecordChildRecovery
| FinalizeChildProcess | BeginCancellationPropagation | ReconcileCancellationPropagation
| OpenSupervisorEpoch | RecordPiAbortControlDelivery | RecordNativeChildNotSpawned
| AuthorizePiOfficeTurnPrompt | RecordPiOfficeTurnPromptDelivery
| RecordPiOfficeTurnPromptAccepted | RecordPiOfficeTurnUsage
| RecordPiOfficeTurnUsageFailure | RecordPiOfficeTurnTerminal
| AuthorizePiOfficeSessionDispose | RecordPiOfficeSessionDisposeDelivery
| RecordPiOfficeSessionDisposeAccepted | RecordPiOfficeSessionDisposeUsage
| RecordPiOfficeSessionDisposeUsageFailure | RecordPiOfficeSessionDisposed
| AdmitDeterministicEvaluatorNativeChild | RecordDeterministicEvaluatorNativeChildSpawn
| RegisterDeterministicEvaluatorForensicManifest | RunStudyTransition
| AuthorizePiTaskAttemptPrompt | RecordPiTaskAttemptPromptDelivery
| RecordPiTaskAttemptPromptAccepted | RecordPiTaskAttemptUsage
| RecordPiTaskAttemptUsageFailure | RecordPiTaskAttemptTerminal
| AuthorizePiTaskAttemptSessionDispose | RecordPiTaskAttemptSessionDisposeDelivery
| RecordPiTaskAttemptSessionDisposeAccepted | RecordPiTaskAttemptSessionDisposeUsage
| RecordPiTaskAttemptSessionDisposeUsageFailure | RecordPiTaskAttemptSessionDisposed
| QualifyNativeExecutionProfile | StartNativeExecutionProfileQualification
| ClaimStudyActorTaskAttemptLaunch | ClaimNativeExecutionProfileQualificationLaunch
| AllocateStudyActorWork.
Definition as_i64 (self : t) : Z :=
  match self with
  | CreateSocietyIdentity => 1 | InstallRootAuthorityOffice => 2
  | InstallFoundingMission => 3 | AppointInitialRootAuthority => 4 | SetR0HardCeiling => 5
  | BootstrapSociety => 6 | ProposeOperatingCycle => 7 | AdmitOperatingCycle => 8
  | QuiesceOperatingCycle => 9 | ResumeOperatingCycle => 10
  | ReconcileOperatingCycle => 11 | CloseOperatingCycle => 12
  | StartRootAuthorityOfficeSession => 13 | OpenOfficeTurn => 14
  | RequestCancellation => 15 | ReserveBudget => 16 | ReconcileBudget => 17
  | RecordCycleDrained => 18 | RecordOfficeSessionReady => 19 | SettleOfficeTurn => 20
  | ReconcileCancellation => 21 | RecordOfficeSessionTerminal => 22
  | CloseCostPostmortem => 23 | CreateProject => 24 | CharterProject => 25
  | TransitionProject => 26 | CompleteProjectMilestone => 27 | ReopenProject => 28
  | CreateTicket => 29 | TransitionTicket => 30 | AddGraphObjectRevision => 31
  | CommitGraphRevision => 32 | AddGraphEdge => 33 | CreateEpisode => 34
  | TransitionEpisode => 35 | ReopenEpisode => 36 | RequestAdversarialReview => 37
  | SubmitReviewChallenge => 38 | RespondToReviewChallenge => 39
  | DispositionReviewChallenge => 40 | ResolveAdversarialReview => 41
  | TriggerPostmortem => 42 | RecordPostmortemCausalClaim => 43
  | ProposePostmortemAction => 44 | ClosePostmortem => 45
  | AssignAdversarialReviewer => 46 | RegisterActorConfiguration => 47
  | RegisterContextPack => 48 | AdmitActorInstance => 49 | AdmitTicket => 50
  | RegisterWorkItem => 51 | ClaimWorkItem => 52 | StartActorAttempt => 53
  | AttestActorAttemptTerminal => 54 | ValidateTicketAttempt => 55
  | RetryActorAttempt => 56 | CompleteTicket => 57 | ExpireWorkLease => 58
  | CancelActorAttempt => 59 | RegisterOutcomeObligation => 60
  | ResolveOutcomeObligation => 61 | RecordContentSealReceipt => 62
  | RegisterContentObject => 63 | RegisterForensicManifest => 64
  | RegisterDeterministicExperiment => 65 | RecordDeterministicEvaluationReceipt => 66
  | AdmitDeterministicEvidence => 67 | FinalizeDeterministicExperiment => 68
  | AdmitPiChildSpawn => 69 | RecordInertChildSpawn => 70 | RecordPiAdapterReady => 71
  | AuthorizePiCreateSession => 72 | RecordPiCreateSessionDelivery => 73
  | RecordPiSessionReady => 74 | RecordChildStreamSeal => 75
  | RecordChildProcessLiveness => 76 | RecordProcessSignalReceipt => 77
  | RecordDirectChildReap => 78 | RecordChildRecovery => 79 | FinalizeChildProcess => 80
  | BeginCancellationPropagation => 81 | ReconcileCancellationPropagation => 82
  | OpenSupervisorEpoch => 83 | RecordPiAbortControlDelivery => 84
  | RecordNativeChildNotSpawned => 85 | AuthorizePiOfficeTurnPrompt => 86
  | RecordPiOfficeTurnPromptDelivery => 87 | RecordPiOfficeTurnPromptAccepted => 88
  | RecordPiOfficeTurnUsage => 89 | RecordPiOfficeTurnUsageFailure => 90
  | RecordPiOfficeTurnTerminal => 91 | AuthorizePiOfficeSessionDispose => 92
  | RecordPiOfficeSessionDisposeDelivery => 93
  | RecordPiOfficeSessionDisposeAccepted => 94 | RecordPiOfficeSessionDisposeUsage => 95
  | RecordPiOfficeSessionDisposeUsageFailure => 96 | RecordPiOfficeSessionDisposed => 97
  | AdmitDeterministicEvaluatorNativeChild => 98
  | RecordDeterministicEvaluatorNativeChildSpawn => 99
  | RegisterDeterministicEvaluatorForensicManifest => 100 | RunStudyTransition => 101
  | AuthorizePiTaskAttemptPrompt => 102 | RecordPiTaskAttemptPromptDelivery => 103
  | RecordPiTaskAttemptPromptAccepted => 104 | RecordPiTaskAttemptUsage => 105
  | RecordPiTaskAttemptUsageFailure => 106 | RecordPiTaskAttemptTerminal => 107
  | AuthorizePiTaskAttemptSessionDispose => 108
  | RecordPiTaskAttemptSessionDisposeDelivery => 109
  | RecordPiTaskAttemptSessionDisposeAccepted => 110
  | RecordPiTaskAttemptSessionDisposeUsage => 111
  | RecordPiTaskAttemptSessionDisposeUsageFailure => 112
  | RecordPiTaskAttemptSessionDisposed => 113 | QualifyNativeExecutionProfile => 114
  | StartNativeExecutionProfileQualification => 115
  | ClaimStudyActorTaskAttemptLaunch => 116
  | ClaimNativeExecutionProfileQualificationLaunch => 117 | AllocateStudyActorWork => 118
  end.
Definition FOUNDING : list t :=
  [CreateSocietyIdentity; InstallRootAuthorityOffice; InstallFoundingMission;
   AppointInitialRootAuthority; SetR0HardCeiling; BootstrapSociety; ProposeOperatingCycle;
   AdmitOperatingCycle].
Definition ROOT_AUTHORITY : list t :=
  [ProposeOperatingCycle; AdmitOperatingCycle; QuiesceOperatingCycle; ResumeOperatingCycle;
   ReconcileOperatingCycle; CloseOperatingCycle; StartRootAuthorityOfficeSession;
   OpenOfficeTurn; RequestCancellation; ReserveBudget; CloseCostPostmortem; CreateProject;
   CharterProject; TransitionProject; CompleteProjectMilestone; ReopenProject;
   CreateTicket; TransitionTicket; AddGraphObjectRevision; CommitGraphRevision;
   AddGraphEdge; CreateEpisode; TransitionEpisode; ReopenEpisode; RequestAdversarialReview;
   RespondToReviewChallenge; DispositionReviewChallenge; ResolveAdversarialReview;
   TriggerPostmortem; RecordPostmortemCausalClaim; ProposePostmortemAction;
   ClosePostmortem; RegisterActorConfiguration; RegisterContextPack; AdmitActorInstance;
   AdmitTicket; RegisterWorkItem; StartActorAttempt; RetryActorAttempt; CompleteTicket;
   RegisterOutcomeObligation; ResolveOutcomeObligation; RegisterDeterministicExperiment;
   FinalizeDeterministicExperiment; AllocateStudyActorWork].
Definition KERNEL_SERVICE : list t :=
  [QuiesceOperatingCycle; ReconcileOperatingCycle; CloseOperatingCycle; ReserveBudget;
   RecordCycleDrained; RecordOfficeSessionReady; SettleOfficeTurn; ReconcileBudget;
   ReconcileCancellation; RecordOfficeSessionTerminal; SubmitReviewChallenge;
   AssignAdversarialReviewer; AttestActorAttemptTerminal; ValidateTicketAttempt;
   ExpireWorkLease; CancelActorAttempt; RecordContentSealReceipt; RegisterContentObject;
   RegisterForensicManifest; RecordDeterministicEvaluationReceipt;
   AdmitDeterministicEvidence; AdmitPiChildSpawn; RecordInertChildSpawn;
   RecordPiAdapterReady; AuthorizePiCreateSession; RecordPiCreateSessionDelivery;
   RecordPiSessionReady; RecordChildStreamSeal; RecordChildProcessLiveness;
   RecordProcessSignalReceipt; RecordDirectChildReap; RecordChildRecovery;
   FinalizeChildProcess; BeginCancellationPropagation; ReconcileCancellationPropagation;
   OpenSupervisorEpoch; RecordPiAbortControlDelivery; RecordNativeChildNotSpawned;
   AuthorizePiOfficeTurnPrompt; RecordPiOfficeTurnPromptDelivery;
   RecordPiOfficeTurnPromptAccepted; RecordPiOfficeTurnUsage;
   RecordPiOfficeTurnUsageFailure; RecordPiOfficeTurnTerminal;
   AuthorizePiOfficeSessionDispose; RecordPiOfficeSessionDisposeDelivery;
   RecordPiOfficeSessionDisposeAccepted; RecordPiOfficeSessionDisposeUsage;
   RecordPiOfficeSessionDisposeUsageFailure; RecordPiOfficeSessionDisposed;
   AdmitDeterministicEvaluatorNativeChild; RecordDeterministicEvaluatorNativeChildSpawn;
   RegisterDeterministicEvaluatorForensicManifest; RunStudyTransition;
   AuthorizePiTaskAttemptPrompt; RecordPiTaskAttemptPromptDelivery;
   RecordPiTaskAttemptPromptAccepted; RecordPiTaskAttemptUsage;
   RecordPiTaskAttemptUsageFailure; RecordPiTaskAttemptTerminal;
   AuthorizePiTaskAttemptSessionDispose; RecordPiTaskAttemptSessionDisposeDelivery;
   RecordPiTaskAttemptSessionDisposeAccepted; RecordPiTaskAttemptSessionDisposeUsage;
   RecordPiTaskAttemptSessionDisposeUsageFailure; RecordPiTaskAttemptSessionDisposed;
   QualifyNativeExecutionProfile; StartNativeExecutionProfileQualification;
   ClaimStudyActorTaskAttemptLaunch; ClaimNativeExecutionProfileQualificationLaunch].
Definition requires_consumption (self : t) : bool :=
  match self with
  | CreateSocietyIdentity | InstallRootAuthorityOffice | InstallFoundingMission
  | AppointInitialRootAuthority | SetR0HardCeiling | BootstrapSociety
  | ProposeOperatingCycle | AdmitOperatingCycle => true
  | _ => false
  end.
End Capability.

(** [closed_rejection_codes!] *)
Module Rejection.
Inductive t :=
| CapabilityMismatch | CapabilityNotGranted | CapabilityNoLongerActive
| InvalidExpectedGeneration | StaleAdmissionGeneration | InvalidLifecycleTransition
| FoundingInvariant | ActiveCycleAlreadyExists | ActiveOfficeOccupancyAlreadyExists
| BudgetCeilingExceeded | ReservationNotActive | CostExceedsReservation
| IncompleteCycleReconciliation | SessionTurnAlreadyActive | CancellationAlreadyTerminal
| SubjectNotFound | BudgetPolicyViolation | CostPostmortemNotOpen
| InvalidCostPostmortemResolution | ProjectCloseBlocked | TicketPrerequisiteIncomplete
| GraphRevisionNotCommitted | IllegalGraphEdgeEndpoint | ReviewSelfDispositionDenied
| ReviewDispositionIncomplete | PostmortemCloseBlocked | ReviewAssignmentNotIndependent
| ActorJurisdictionDenied | WorkLeaseUnavailable | ActorAttemptNotTerminal
| ActorAttemptNotValidatable | OutcomeObligationOpen | ReviewAssignmentEvidenceMissing
| ExecutionProfileIneligible | TicketAcceptanceConditionUnsatisfied
| QualificationTreatmentRestricted | ContentSealReceiptMissing | ContentObjectNotSealed
| ForensicManifestBindingMismatch | DeterministicExperimentBindingMismatch
| DeterministicEvaluationBindingMismatch | EvidenceAdmissionRequired
| ChildSpawnAdmissionInvalid | ChildLifecycleReceiptMissing
| ChildStreamSealBindingMismatch | ProcessContainmentFailed
| CancellationPropagationIncomplete | SupervisedTerminalReceiptRequired
| PiOfficeTurnAuthorityMissing | PiOfficeTurnPromptBindingMismatch
| PiOfficeTurnUsageNotMonotonic | PiOfficeTurnTerminalEvidenceMissing
| PiOfficeTurnNotReconciled | PiOfficeTurnTreatmentIneligible
| OfficeSessionBudgetRequiresDispose | PiOfficeTurnTerminalAlreadyRecorded
| PiOfficeTurnUsageAlreadyFrozen | ProjectNorthStarAlignmentMismatch
| PiOfficeSessionDisposeBindingMismatch | PiOfficeSessionDisposeUsageNotMonotonic
| PiOfficeSessionDisposeReceiptMissing | MissionSourceContentNotSealed
| PiTaskAttemptAuthorityMissing | PiTaskAttemptPromptBindingMismatch
| PiTaskAttemptUsageNotMonotonic | PiTaskAttemptTerminalEvidenceMissing
| PiTaskAttemptNotReconciled | PiTaskAttemptTerminalAlreadyRecorded
| PiTaskAttemptUsageAlreadyFrozen | PiTaskAttemptSessionDisposeBindingMismatch
| PiTaskAttemptSessionDisposeReceiptMissing.
Definition as_i64 (self : t) : Z :=
  match self with
  | CapabilityMismatch => 1 | CapabilityNotGranted => 2 | CapabilityNoLongerActive => 3
  | InvalidExpectedGeneration => 4 | StaleAdmissionGeneration => 5
  | InvalidLifecycleTransition => 6 | FoundingInvariant => 7
  | ActiveCycleAlreadyExists => 8 | ActiveOfficeOccupancyAlreadyExists => 9
  | BudgetCeilingExceeded => 10 | ReservationNotActive => 11
  | CostExceedsReservation => 12 | IncompleteCycleReconciliation => 13
  | SessionTurnAlreadyActive => 14 | CancellationAlreadyTerminal => 15
  | SubjectNotFound => 16 | BudgetPolicyViolation => 17 | CostPostmortemNotOpen => 18
  | InvalidCostPostmortemResolution => 19 | ProjectCloseBlocked => 20
  | TicketPrerequisiteIncomplete => 21 | GraphRevisionNotCommitted => 22
  | IllegalGraphEdgeEndpoint => 23 | ReviewSelfDispositionDenied => 24
  | ReviewDispositionIncomplete => 25 | PostmortemCloseBlocked => 26
  | ReviewAssignmentNotIndependent => 27 | ActorJurisdictionDenied => 28
  | WorkLeaseUnavailable => 29 | ActorAttemptNotTerminal => 30
  | ActorAttemptNotValidatable => 31 | OutcomeObligationOpen => 32
  | ReviewAssignmentEvidenceMissing => 33 | ExecutionProfileIneligible => 34
  | TicketAcceptanceConditionUnsatisfied => 35 | QualificationTreatmentRestricted => 36
  | ContentSealReceiptMissing => 37 | ContentObjectNotSealed => 38
  | ForensicManifestBindingMismatch => 39 | DeterministicExperimentBindingMismatch => 40
  | DeterministicEvaluationBindingMismatch => 41 | EvidenceAdmissionRequired => 42
  | ChildSpawnAdmissionInvalid => 43 | ChildLifecycleReceiptMissing => 44
  | ChildStreamSealBindingMismatch => 45 | ProcessContainmentFailed => 46
  | CancellationPropagationIncomplete => 47 | SupervisedTerminalReceiptRequired => 48
  | PiOfficeTurnAuthorityMissing => 49 | PiOfficeTurnPromptBindingMismatch => 50
  | PiOfficeTurnUsageNotMonotonic => 51 | PiOfficeTurnTerminalEvidenceMissing => 52
  | PiOfficeTurnNotReconciled => 53 | PiOfficeTurnTreatmentIneligible => 54
  | OfficeSessionBudgetRequiresDispose => 55 | PiOfficeTurnTerminalAlreadyRecorded => 56
  | PiOfficeTurnUsageAlreadyFrozen => 57 | ProjectNorthStarAlignmentMismatch => 58
  | PiOfficeSessionDisposeBindingMismatch => 59
  | PiOfficeSessionDisposeUsageNotMonotonic => 60
  | PiOfficeSessionDisposeReceiptMissing => 61 | MissionSourceContentNotSealed => 62
  | PiTaskAttemptAuthorityMissing => 63 | PiTaskAttemptPromptBindingMismatch => 64
  | PiTaskAttemptUsageNotMonotonic => 65 | PiTaskAttemptTerminalEvidenceMissing => 66
  | PiTaskAttemptNotReconciled => 67 | PiTaskAttemptTerminalAlreadyRecorded => 68
  | PiTaskAttemptUsageAlreadyFrozen => 69
  | PiTaskAttemptSessionDisposeBindingMismatch => 70
  | PiTaskAttemptSessionDisposeReceiptMissing => 71
  end.
Definition ALL : list t :=
  [CapabilityMismatch; CapabilityNotGranted; CapabilityNoLongerActive;
   InvalidExpectedGeneration; StaleAdmissionGeneration; InvalidLifecycleTransition;
   FoundingInvariant; ActiveCycleAlreadyExists; ActiveOfficeOccupancyAlreadyExists;
   BudgetCeilingExceeded; ReservationNotActive; CostExceedsReservation;
   IncompleteCycleReconciliation; SessionTurnAlreadyActive; CancellationAlreadyTerminal;
   SubjectNotFound; BudgetPolicyViolation; CostPostmortemNotOpen;
   InvalidCostPostmortemResolution; ProjectCloseBlocked; TicketPrerequisiteIncomplete;
   GraphRevisionNotCommitted; IllegalGraphEdgeEndpoint; ReviewSelfDispositionDenied;
   ReviewDispositionIncomplete; PostmortemCloseBlocked; ReviewAssignmentNotIndependent;
   ActorJurisdictionDenied; WorkLeaseUnavailable; ActorAttemptNotTerminal;
   ActorAttemptNotValidatable; OutcomeObligationOpen; ReviewAssignmentEvidenceMissing;
   ExecutionProfileIneligible; TicketAcceptanceConditionUnsatisfied;
   QualificationTreatmentRestricted; ContentSealReceiptMissing; ContentObjectNotSealed;
   ForensicManifestBindingMismatch; DeterministicExperimentBindingMismatch;
   DeterministicEvaluationBindingMismatch; EvidenceAdmissionRequired;
   ChildSpawnAdmissionInvalid; ChildLifecycleReceiptMissing;
   ChildStreamSealBindingMismatch; ProcessContainmentFailed;
   CancellationPropagationIncomplete; SupervisedTerminalReceiptRequired;
   PiOfficeTurnAuthorityMissing; PiOfficeTurnPromptBindingMismatch;
   PiOfficeTurnUsageNotMonotonic; PiOfficeTurnTerminalEvidenceMissing;
   PiOfficeTurnNotReconciled; PiOfficeTurnTreatmentIneligible;
   OfficeSessionBudgetRequiresDispose; PiOfficeTurnTerminalAlreadyRecorded;
   PiOfficeTurnUsageAlreadyFrozen; ProjectNorthStarAlignmentMismatch;
   PiOfficeSessionDisposeBindingMismatch; PiOfficeSessionDisposeUsageNotMonotonic;
   PiOfficeSessionDisposeReceiptMissing; MissionSourceContentNotSealed;
   PiTaskAttemptAuthorityMissing; PiTaskAttemptPromptBindingMismatch;
   PiTaskAttemptUsageNotMonotonic; PiTaskAttemptTerminalEvidenceMissing;
   PiTaskAttemptNotReconciled; PiTaskAttemptTerminalAlreadyRecorded;
   PiTaskAttemptUsageAlreadyFrozen; PiTaskAttemptSessionDisposeBindingMismatch;
   PiTaskAttemptSessionDisposeReceiptMissing].
(** [self as u8]: the low byte of the discriminant. *)
Definition as_u8 (self : t) : Z := as_i64 self mod 256.
Definition try_from_i64 (value : Z) : domain_result t :=
  match value with
  | 1 => Ok CapabilityMismatch
  | 2 => Ok CapabilityNotGranted
  | 3 => Ok CapabilityNoLongerActive
  | 4 => Ok InvalidExpectedGeneration
  | 5 => Ok StaleAdmissionGeneration
  | 6 => Ok InvalidLifecycleTransition
  | 7 => Ok FoundingInvariant
  | 8 => Ok ActiveCycleAlreadyExists
  | 9 => Ok ActiveOfficeOccupancyAlreadyExists
  | 10 => Ok BudgetCeilingExceeded
  | 11 => Ok ReservationNotActive
  | 12 => Ok CostExceedsReservation
  | 13 => Ok IncompleteCycleReconciliation
  | 14 => Ok SessionTurnAlreadyActive
  | 15 => Ok CancellationAlreadyTerminal
  | 16 => Ok SubjectNotFound
  | 17 => Ok BudgetPolicyViolation
  | 18 => Ok CostPostmortemNotOpen
  | 19 => Ok InvalidCostPostmortemResolution
  | 20 => Ok ProjectCloseBlocked
  | 21 => Ok TicketPrerequisiteIncomplete
  | 22 => Ok GraphRevisionNotCommitted
  | 23 => Ok IllegalGraphEdgeEndpoint
  | 24 => Ok ReviewSelfDispositionDenied
  | 25 => Ok ReviewDispositionIncomplete
  | 26 => Ok PostmortemCloseBlocked
  | 27 => Ok ReviewAssignmentNotIndependent
  | 28 => Ok ActorJurisdictionDenied
  | 29 => Ok WorkLeaseUnavailable
  | 30 => Ok ActorAttemptNotTerminal
  | 31 => Ok ActorAttemptNotValidatable
  | 32 => Ok OutcomeObligationOpen
  | 33 => Ok ReviewAssignmentEvidenceMissing
  | 34 => Ok ExecutionProfileIneligible
  | 35 => Ok TicketAcceptanceConditionUnsatisfied
  | 36 => Ok QualificationTreatmentRestricted
  | 37 => Ok ContentSealReceiptMissing
  | 38 => Ok ContentObjectNotSealed
  | 39 => Ok ForensicManifestBindingMismatch
  | 40 => Ok DeterministicExperimentBindingMismatch
  | 41 => Ok DeterministicEvaluationBindingMismatch
  | 42 => Ok EvidenceAdmissionRequired
  | 43 => Ok ChildSpawnAdmissionInvalid
  | 44 => Ok ChildLifecycleReceiptMissing
  | 45 => Ok ChildStreamSealBindingMismatch
  | 46 => Ok ProcessContainmentFailed
  | 47 => Ok CancellationPropagationIncomplete
  | 48 => Ok SupervisedTerminalReceiptRequired
  | 49 => Ok PiOfficeTurnAuthorityMissing
  | 50 => Ok PiOfficeTurnPromptBindingMismatch
  | 51 => Ok PiOfficeTurnUsageNotMonotonic
  | 52 => Ok PiOfficeTurnTerminalEvidenceMissing
  | 53 => Ok PiOfficeTurnNotReconciled
  | 54 => Ok PiOfficeTurnTreatmentIneligible
  | 55 => Ok OfficeSessionBudgetRequiresDispose
  | 56 => Ok PiOfficeTurnTerminalAlreadyRecorded
  | 57 => Ok PiOfficeTurnUsageAlreadyFrozen
  | 58 => Ok ProjectNorthStarAlignmentMismatch
  | 59 => Ok PiOfficeSessionDisposeBindingMismatch
  | 60 => Ok PiOfficeSessionDisposeUsageNotMonotonic
  | 61 => Ok PiOfficeSessionDisposeReceiptMissing
  | 62 => Ok MissionSourceContentNotSealed
  | 63 => Ok PiTaskAttemptAuthorityMissing
  | 64 => Ok PiTaskAttemptPromptBindingMismatch
  | 65 => Ok PiTaskAttemptUsageNotMonotonic
  | 66 => Ok PiTaskAttemptTerminalEvidenceMissing
  | 67 => Ok PiTaskAttemptNotReconciled
  | 68 => Ok PiTaskAttemptTerminalAlreadyRecorded
  | 69 => Ok PiTaskAttemptUsageAlreadyFrozen
  | 70 => Ok PiTaskAttemptSessionDisposeBindingMismatch
  | 71 => Ok PiTaskAttemptSessionDisposeReceiptMissing
  | _ => Err (DomainValueError.InvalidRejectionCode value)
  end.
(** [Self::try_from(i64::from(value))]. *)
Definition try_from_u8 (value : Z) : domain_result t := try_from_i64 value.
#[global] Instance table : CodeTable as_i64 try_from_i64.
Proof. code_table. Qed.
#[global] Instance code : Code as_i64.
Proof. apply (code_by_table _ _ table). by intros []. Qed.
#[global] Instance eq_dec : EqDecision t := eq_dec_by_code as_i64.
End Rejection.

Module CommandKind.
Inductive t :=
| CreateSocietyIdentity | InstallRootAuthorityOffice | InstallFoundingMission
| AppointInitialRootAuthority | SetR0HardCeiling | BootstrapSociety
| ProposeOperatingCycle | AdmitOperatingCycle | StartRootAuthorityOfficeSession
| RecordOfficeSessionReady | OpenOfficeTurn | SettleOfficeTurn | QuiesceOperatingCycle
| RecordCycleDrained | ResumeOperatingCycle | ReconcileOperatingCycle
| CloseOperatingCycle | ReserveBudget | ReconcileBudget | RequestCancellation
| ReconcileCancellation | RecordOfficeSessionTerminal | CloseCostPostmortem
| CreateProject | CharterProject | TransitionProject | CompleteProjectMilestone
| ReopenProject | CreateTicket | TransitionTicket | AddGraphObjectRevision
| CommitGraphRevision | AddGraphEdge | CreateEpisode | TransitionEpisode | ReopenEpisode
| RequestAdversarialReview | SubmitReviewChallenge | RespondToReviewChallenge
| DispositionReviewChallenge | ResolveAdversarialReview | TriggerPostmortem
| RecordPostmortemCausalClaim | ProposePostmortemAction | ClosePostmortem
| AssignAdversarialReviewer | RegisterActorConfiguration | RegisterContextPack
| AdmitActorInstance | AdmitTicket | RegisterWorkItem | ClaimWorkItem | StartActorAttempt
| AttestActorAttemptTerminal | ValidateTicketAttempt | RetryActorAttempt | CompleteTicket
| ExpireWorkLease | CancelActorAttempt | RegisterOutcomeObligation
| ResolveOutcomeObligation | RecordContentSealReceipt | RegisterContentObject
| RegisterForensicManifest | RegisterDeterministicExperiment
| RecordDeterministicEvaluationReceipt | AdmitDeterministicEvidence
| FinalizeDeterministicExperiment | AdmitPiChildSpawn | RecordInertChildSpawn
| RecordPiAdapterReady | AuthorizePiCreateSession | RecordPiCreateSessionDelivery
| RecordPiSessionReady | RecordChildStreamSeal | RecordChildProcessLiveness
| RecordProcessSignalReceipt | RecordDirectChildReap | RecordChildRecovery
| FinalizeChildProcess | BeginCancellationPropagation | ReconcileCancellationPropagation
| OpenSupervisorEpoch | RecordPiAbortControlDelivery | RecordNativeChildNotSpawned
| AuthorizePiOfficeTurnPrompt | RecordPiOfficeTurnPromptDelivery
| RecordPiOfficeTurnPromptAccepted | RecordPiOfficeTurnUsage
| RecordPiOfficeTurnUsageFailure | RecordPiOfficeTurnTerminal
| AuthorizePiOfficeSessionDispose | RecordPiOfficeSessionDisposeDelivery
| RecordPiOfficeSessionDisposeAccepted | RecordPiOfficeSessionDisposeUsage
| RecordPiOfficeSessionDisposeUsageFailure | RecordPiOfficeSessionDisposed
| AdmitDeterministicEvaluatorNativeChild | RecordDeterministicEvaluatorNativeChildSpawn
| RegisterDeterministicEvaluatorForensicManifest | StudyTransition
| AuthorizePiTaskAttemptPrompt | RecordPiTaskAttemptPromptDelivery
| RecordPiTaskAttemptPromptAccepted | RecordPiTaskAttemptUsage
| RecordPiTaskAttemptUsageFailure | RecordPiTaskAttemptTerminal
| AuthorizePiTaskAttemptSessionDispose | RecordPiTaskAttemptSessionDisposeDelivery
| RecordPiTaskAttemptSessionDisposeAccepted | RecordPiTaskAttemptSessionDisposeUsage
| RecordPiTaskAttemptSessionDisposeUsageFailure | RecordPiTaskAttemptSessionDisposed
| QualifyNativeExecutionProfile | StartNativeExecutionProfileQualification
| ClaimStudyActorTaskAttemptLaunch | ClaimNativeExecutionProfileQualificationLaunch
| AllocateStudyActorWork.
Definition as_i64 (self : t) : Z :=
  match self with
  | CreateSocietyIdentity => 1 | InstallRootAuthorityOffice => 2
  | InstallFoundingMission => 3 | AppointInitialRootAuthority => 4 | SetR0HardCeiling => 5
  | BootstrapSociety => 6 | ProposeOperatingCycle => 7 | AdmitOperatingCycle => 8
  | StartRootAuthorityOfficeSession => 9 | RecordOfficeSessionReady => 10
  | OpenOfficeTurn => 11 | SettleOfficeTurn => 12 | QuiesceOperatingCycle => 13
  | RecordCycleDrained => 14 | ResumeOperatingCycle => 15 | ReconcileOperatingCycle => 16
  | CloseOperatingCycle => 17 | ReserveBudget => 18 | ReconcileBudget => 19
  | RequestCancellation => 20 | ReconcileCancellation => 21
  | RecordOfficeSessionTerminal => 22 | CloseCostPostmortem => 23 | CreateProject => 24
  | CharterProject => 25 | TransitionProject => 26 | CompleteProjectMilestone => 27
  | ReopenProject => 28 | CreateTicket => 29 | TransitionTicket => 30
  | AddGraphObjectRevision => 31 | CommitGraphRevision => 32 | AddGraphEdge => 33
  | CreateEpisode => 34 | TransitionEpisode => 35 | ReopenEpisode => 36
  | RequestAdversarialReview => 37 | SubmitReviewChallenge => 38
  | RespondToReviewChallenge => 39 | DispositionReviewChallenge => 40
  | ResolveAdversarialReview => 41 | TriggerPostmortem => 42
  | RecordPostmortemCausalClaim => 43 | ProposePostmortemAction => 44
  | ClosePostmortem => 45 | AssignAdversarialReviewer => 46
  | RegisterActorConfiguration => 47 | RegisterContextPack => 48
  | AdmitActorInstance => 49 | AdmitTicket => 50 | RegisterWorkItem => 51
  | ClaimWorkItem => 52 | StartActorAttempt => 53 | AttestActorAttemptTerminal => 54
  | ValidateTicketAttempt => 55 | RetryActorAttempt => 56 | CompleteTicket => 57
  | ExpireWorkLease => 58 | CancelActorAttempt => 59 | RegisterOutcomeObligation => 60
  | ResolveOutcomeObligation => 61 | RecordContentSealReceipt => 62
  | RegisterContentObject => 63 | RegisterForensicManifest => 64
  | RegisterDeterministicExperiment => 65 | RecordDeterministicEvaluationReceipt => 66
  | AdmitDeterministicEvidence => 67 | FinalizeDeterministicExperiment => 68
  | AdmitPiChildSpawn => 69 | RecordInertChildSpawn => 70 | RecordPiAdapterReady => 71
  | AuthorizePiCreateSession => 72 | RecordPiCreateSessionDelivery => 73
  | RecordPiSessionReady => 74 | RecordChildStreamSeal => 75
  | RecordChildProcessLiveness => 76 | RecordProcessSignalReceipt => 77
  | RecordDirectChildReap => 78 | RecordChildRecovery => 79 | FinalizeChildProcess => 80
  | BeginCancellationPropagation => 81 | ReconcileCancellationPropagation => 82
  | OpenSupervisorEpoch => 83 | RecordPiAbortControlDelivery => 84
  | RecordNativeChildNotSpawned => 85 | AuthorizePiOfficeTurnPrompt => 86
  | RecordPiOfficeTurnPromptDelivery => 87 | RecordPiOfficeTurnPromptAccepted => 88
  | RecordPiOfficeTurnUsage => 89 | RecordPiOfficeTurnUsageFailure => 90
  | RecordPiOfficeTurnTerminal => 91 | AuthorizePiOfficeSessionDispose => 92
  | RecordPiOfficeSessionDisposeDelivery => 93
  | RecordPiOfficeSessionDisposeAccepted => 94 | RecordPiOfficeSessionDisposeUsage => 95
  | RecordPiOfficeSessionDisposeUsageFailure => 96 | RecordPiOfficeSessionDisposed => 97
  | AdmitDeterministicEvaluatorNativeChild => 98
  | RecordDeterministicEvaluatorNativeChildSpawn => 99
  | RegisterDeterministicEvaluatorForensicManifest => 100 | StudyTransition => 101
  | AuthorizePiTaskAttemptPrompt => 102 | RecordPiTaskAttemptPromptDelivery => 103
  | RecordPiTaskAttemptPromptAccepted => 104 | RecordPiTaskAttemptUsage => 105
  | RecordPiTaskAttemptUsageFailure => 106 | RecordPiTaskAttemptTerminal => 107
  | AuthorizePiTaskAttemptSessionDispose => 108
  | RecordPiTaskAttemptSessionDisposeDelivery => 109
  | RecordPiTaskAttemptSessionDisposeAccepted => 110
  | RecordPiTaskAttemptSessionDisposeUsage => 111
  | RecordPiTaskAttemptSessionDisposeUsageFailure => 112
  | RecordPiTaskAttemptSessionDisposed => 113 | QualifyNativeExecutionProfile => 114
  | StartNativeExecutionProfileQualification => 115
  | ClaimStudyActorTaskAttemptLaunch => 116
  | ClaimNativeExecutionProfileQualificationLaunch => 117 | AllocateStudyActorWork => 118
  end.
End CommandKind.

Module EventKind.
Inductive t :=
| SocietyIdentityCreated | RootAuthorityOfficeInstalled | FoundingMissionInstalled
| RootAuthorityAppointed | R0HardCeilingSet | SocietyBootstrapped | OperatingCycleProposed
| OperatingCycleStateChanged | RootAuthorityOfficeSessionStarted
| RootAuthorityOfficeSessionStateChanged | OfficeTurnOpened | OfficeTurnSettled
| BudgetReserved | BudgetReconciled | BudgetAdmissionFrozen | CancellationRequested
| CancellationReconciled | CostPostmortemClosed | ProjectCreated | ProjectChartered
| ProjectStateChanged | ProjectMilestoneCompleted | TicketCreated | TicketStateChanged
| GraphObjectRevisionAdded | GraphRevisionCommitted | GraphEdgeAdded | EpisodeCreated
| EpisodeStateChanged | AdversarialReviewRequested | ReviewChallengeSubmitted
| ReviewChallengeResponded | ReviewChallengeDispositioned | AdversarialReviewResolved
| PostmortemTriggered | PostmortemCausalClaimRecorded | PostmortemActionProposed
| PostmortemClosed | AdversarialReviewerAssigned | ActorConfigurationRegistered
| ContextPackRegistered | ActorInstanceAdmitted | TicketAdmitted | WorkItemRegistered
| WorkItemClaimed | ActorAttemptStarted | ActorAttemptTerminalAttested
| TicketAttemptValidated | ActorAttemptRetryPrepared | TicketCompleted | WorkLeaseExpired
| ActorAttemptCancellationRequested | OutcomeObligationRegistered
| OutcomeObligationResolved | ContentSealReceiptRecorded | ContentObjectRegistered
| ForensicManifestRegistered | DeterministicExperimentRegistered
| DeterministicEvaluationReceiptRecorded | DeterministicEvidenceAdmitted
| DeterministicExperimentFinalized | PiChildSpawnAdmitted | InertPiChildSpawnRecorded
| PiAdapterReadyRecorded | PiCreateSessionAuthorized | PiCreateSessionDeliveryRecorded
| PiSessionReadyRecorded | ChildStreamSealed | ChildProcessLivenessObserved
| ProcessSignalReceiptRecorded | DirectChildReaped | ChildRecoveryObserved
| ChildProcessFinalized | CancellationPropagationBegun | CancellationPropagationReconciled
| SupervisorEpochOpened | CancellationPropagationContainmentFailed
| PiAbortControlDeliveryRecorded | NativeChildSpawnInvalidated
| PiOfficeTurnPromptAuthorized | PiOfficeTurnPromptDelivered | PiOfficeTurnPromptAccepted
| PiOfficeTurnUsageRecorded | PiOfficeTurnUsageFrozen | PiOfficeTurnTerminalRecorded
| PiOfficeSessionDisposeAuthorized | PiOfficeSessionDisposeDelivered
| PiOfficeSessionDisposeAccepted | PiOfficeSessionDisposeUsageRecorded
| PiOfficeSessionDisposeUsageFrozen | PiOfficeSessionDisposed
| DeterministicEvaluatorNativeChildAdmitted
| DeterministicEvaluatorNativeChildSpawnRecorded
| DeterministicEvaluatorForensicManifestRegistered | StudyTransition
| PiTaskAttemptPromptAuthorized | PiTaskAttemptPromptDelivered
| PiTaskAttemptPromptAccepted | PiTaskAttemptUsageRecorded | PiTaskAttemptUsageFrozen
| PiTaskAttemptTerminalRecorded | PiTaskAttemptSessionDisposeAuthorized
| PiTaskAttemptSessionDisposeDelivered | PiTaskAttemptSessionDisposeAccepted
| PiTaskAttemptSessionDisposeUsageRecorded | PiTaskAttemptSessionDisposeUsageFrozen
| PiTaskAttemptSessionDisposed | NativeExecutionProfileQualified
| NativeExecutionProfileQualificationStarted | StudyActorTaskAttemptLaunchClaimed
| NativeExecutionProfileQualificationLaunchClaimed | StudyActorWorkAllocated.
Definition as_i64 (self : t) : Z :=
  match self with
  | SocietyIdentityCreated => 1 | RootAuthorityOfficeInstalled => 2
  | FoundingMissionInstalled => 3 | RootAuthorityAppointed => 4 | R0HardCeilingSet => 5
  | SocietyBootstrapped => 6 | OperatingCycleProposed => 7
  | OperatingCycleStateChanged => 8 | RootAuthorityOfficeSessionStarted => 9
  | RootAuthorityOfficeSessionStateChanged => 10 | OfficeTurnOpened => 11
  | OfficeTurnSettled => 12 | BudgetReserved => 13 | BudgetReconciled => 14
  | BudgetAdmissionFrozen => 15 | CancellationRequested => 16
  | CancellationReconciled => 17 | CostPostmortemClosed => 18 | ProjectCreated => 19
  | ProjectChartered => 20 | ProjectStateChanged => 21 | ProjectMilestoneCompleted => 22
  | TicketCreated => 23 | TicketStateChanged => 24 | GraphObjectRevisionAdded => 25
  | GraphRevisionCommitted => 26 | GraphEdgeAdded => 27 | EpisodeCreated => 28
  | EpisodeStateChanged => 29 | AdversarialReviewRequested => 30
  | ReviewChallengeSubmitted => 31 | ReviewChallengeResponded => 32
  | ReviewChallengeDispositioned => 33 | AdversarialReviewResolved => 34
  | PostmortemTriggered => 35 | PostmortemCausalClaimRecorded => 36
  | PostmortemActionProposed => 37 | PostmortemClosed => 38
  | AdversarialReviewerAssigned => 39 | ActorConfigurationRegistered => 40
  | ContextPackRegistered => 41 | ActorInstanceAdmitted => 42 | TicketAdmitted => 43
  | WorkItemRegistered => 44 | WorkItemClaimed => 45 | ActorAttemptStarted => 46
  | ActorAttemptTerminalAttested => 47 | TicketAttemptValidated => 48
  | ActorAttemptRetryPrepared => 49 | TicketCompleted => 50 | WorkLeaseExpired => 51
  | ActorAttemptCancellationRequested => 52 | OutcomeObligationRegistered => 53
  | OutcomeObligationResolved => 54 | ContentSealReceiptRecorded => 55
  | ContentObjectRegistered => 56 | ForensicManifestRegistered => 57
  | DeterministicExperimentRegistered => 58 | DeterministicEvaluationReceiptRecorded => 59
  | DeterministicEvidenceAdmitted => 60 | DeterministicExperimentFinalized => 61
  | PiChildSpawnAdmitted => 62 | InertPiChildSpawnRecorded => 63
  | PiAdapterReadyRecorded => 64 | PiCreateSessionAuthorized => 65
  | PiCreateSessionDeliveryRecorded => 66 | PiSessionReadyRecorded => 67
  | ChildStreamSealed => 68 | ChildProcessLivenessObserved => 69
  | ProcessSignalReceiptRecorded => 70 | DirectChildReaped => 71
  | ChildRecoveryObserved => 72 | ChildProcessFinalized => 73
  | CancellationPropagationBegun => 74 | CancellationPropagationReconciled => 75
  | SupervisorEpochOpened => 76 | CancellationPropagationContainmentFailed => 77
  | PiAbortControlDeliveryRecorded => 78 | NativeChildSpawnInvalidated => 79
  | PiOfficeTurnPromptAuthorized => 80 | PiOfficeTurnPromptDelivered => 81
  | PiOfficeTurnPromptAccepted => 82 | PiOfficeTurnUsageRecorded => 83
  | PiOfficeTurnUsageFrozen => 84 | PiOfficeTurnTerminalRecorded => 85
  | PiOfficeSessionDisposeAuthorized => 86 | PiOfficeSessionDisposeDelivered => 87
  | PiOfficeSessionDisposeAccepted => 88 | PiOfficeSessionDisposeUsageRecorded => 89
  | PiOfficeSessionDisposeUsageFrozen => 90 | PiOfficeSessionDisposed => 91
  | DeterministicEvaluatorNativeChildAdmitted => 92
  | DeterministicEvaluatorNativeChildSpawnRecorded => 93
  | DeterministicEvaluatorForensicManifestRegistered => 94 | StudyTransition => 95
  | PiTaskAttemptPromptAuthorized => 96 | PiTaskAttemptPromptDelivered => 97
  | PiTaskAttemptPromptAccepted => 98 | PiTaskAttemptUsageRecorded => 99
  | PiTaskAttemptUsageFrozen => 100 | PiTaskAttemptTerminalRecorded => 101
  | PiTaskAttemptSessionDisposeAuthorized => 102
  | PiTaskAttemptSessionDisposeDelivered => 103
  | PiTaskAttemptSessionDisposeAccepted => 104
  | PiTaskAttemptSessionDisposeUsageRecorded => 105
  | PiTaskAttemptSessionDisposeUsageFrozen => 106 | PiTaskAttemptSessionDisposed => 107
  | NativeExecutionProfileQualified => 108
  | NativeExecutionProfileQualificationStarted => 109
  | StudyActorTaskAttemptLaunchClaimed => 110
  | NativeExecutionProfileQualificationLaunchClaimed => 111
  | StudyActorWorkAllocated => 112
  end.
End EventKind.

Module CommandBody.
Inductive t :=
| CreateSocietyIdentity (name : SocietyName.t)
| InstallRootAuthorityOffice
| InstallFoundingMission (mission : ApplicationMissionInput.t)
| AppointInitialRootAuthority (actor_display_name : PrincipalDisplayName.t)
| SetR0HardCeiling (ceiling : UsdMicros.t)
| BootstrapSociety
| ProposeOperatingCycle (treatment : OperatingCycleTreatment.t)
    (budget_ceiling : UsdMicros.t)
| AdmitOperatingCycle (cycle_id : OperatingCycleId)
| StartRootAuthorityOfficeSession (cycle_id : OperatingCycleId)
| RecordOfficeSessionReady (session_id : RootAuthorityOfficeSessionId)
| RecordOfficeSessionTerminal (session_id : RootAuthorityOfficeSessionId)
    (terminal_state : OfficeSessionTerminalState.t)
| OpenOfficeTurn (session_id : RootAuthorityOfficeSessionId) (purpose : OfficeTurnPurpose.t)
| SettleOfficeTurn (turn_id : OfficeTurnId)
    (terminal_receipt_id : PiOfficeTurnTerminalReceiptId)
| QuiesceOperatingCycle (cycle_id : OperatingCycleId)
| RecordCycleDrained (cycle_id : OperatingCycleId)
| ResumeOperatingCycle (cycle_id : OperatingCycleId)
| ReconcileOperatingCycle (cycle_id : OperatingCycleId)
| CloseOperatingCycle (cycle_id : OperatingCycleId)
| ReserveBudget (cycle_id : OperatingCycleId) (amount : UsdMicros.t)
| ReconcileBudget (reservation_id : BudgetReservationId) (observation : CostObservation.t)
| RequestCancellation (cycle_id : OperatingCycleId) (mode : CancellationMode.t)
| ReconcileCancellation (cancellation_request_id : CancellationRequestId)
| CloseCostPostmortem (postmortem_id : CostPostmortemId)
    (resolution : CostPostmortemResolution.t)
| CreateProject (operating_cycle_id : OperatingCycleId) (project_name : ProjectName)
    (north_star_alignment : ProjectNorthStarAlignment.t)
| CharterProject (operating_cycle_id : OperatingCycleId) (project_id : ProjectId)
    (objective : ProjectObjectiveText) (initial_milestone : ProjectMilestoneName)
    (stop_condition : ProjectStopConditionText)
| TransitionProject (operating_cycle_id : OperatingCycleId) (project_id : ProjectId)
    (target : ProjectState.t)
| CompleteProjectMilestone (operating_cycle_id : OperatingCycleId)
    (project_milestone_id : ProjectMilestoneId)
| ReopenProject (operating_cycle_id : OperatingCycleId) (project_id : ProjectId)
| CreateTicket (operating_cycle_id : OperatingCycleId) (project_id : ProjectId)
    (ticket_title : TicketTitle) (acceptance_condition : TicketAcceptanceConditionText)
    (prerequisite_ticket_id : option TicketId)
| TransitionTicket (operating_cycle_id : OperatingCycleId) (ticket_id : TicketId)
    (target : TicketState.t)
| AddGraphObjectRevision (operating_cycle_id : OperatingCycleId) (project_id : ProjectId)
    (causal_episode_id : option CausalEpisodeId) (graph_object_id : option GraphObjectId)
    (body : GraphRevisionBody.t)
| CommitGraphRevision (operating_cycle_id : OperatingCycleId)
    (graph_revision_id : GraphRevisionId)
| AddGraphEdge (operating_cycle_id : OperatingCycleId) (project_id : ProjectId)
    (from_graph_revision_id to_graph_revision_id : GraphRevisionId)
    (edge_kind : GraphEdgeKind.t)
| CreateEpisode (operating_cycle_id : OperatingCycleId) (project_id : ProjectId)
| TransitionEpisode (operating_cycle_id : OperatingCycleId)
    (causal_episode_id : CausalEpisodeId) (target : EpisodeState.t)
| ReopenEpisode (operating_cycle_id : OperatingCycleId)
    (causal_episode_id : CausalEpisodeId)
| RequestAdversarialReview (operating_cycle_id : OperatingCycleId) (project_id : ProjectId)
    (target_graph_revision_id : GraphRevisionId)
| AssignAdversarialReviewer (operating_cycle_id : OperatingCycleId)
    (adversarial_review_id : AdversarialReviewId) (reviewer_principal_id : PrincipalId)
    (reviewer_actor_instance_id : ActorInstanceId)
    (reviewer_actor_attempt_id : ActorAttemptId)
| SubmitReviewChallenge (operating_cycle_id : OperatingCycleId)
    (adversarial_review_id : AdversarialReviewId)
    (target_graph_revision_id : GraphRevisionId) (author_principal_id : PrincipalId)
    (severity : ReviewChallengeSeverity.t) (failure_hypothesis : ReviewFailureHypothesis)
| RespondToReviewChallenge (operating_cycle_id : OperatingCycleId)
    (review_challenge_id : ReviewChallengeId) (response : ReviewResponseText)
| DispositionReviewChallenge (operating_cycle_id : OperatingCycleId)
    (review_challenge_id : ReviewChallengeId) (disposition : ReviewDispositionKind.t)
| ResolveAdversarialReview (operating_cycle_id : OperatingCycleId)
    (adversarial_review_id : AdversarialReviewId) (resolution : ReviewResolutionKind.t)
| TriggerPostmortem (operating_cycle_id : OperatingCycleId) (project_id : ProjectId)
    (causal_episode_id : option CausalEpisodeId)
| RecordPostmortemCausalClaim (operating_cycle_id : OperatingCycleId)
    (postmortem_id : PostmortemId) (claim_kind : PostmortemCausalClaimKind.t)
    (claim : PostmortemCausalClaimText)
| ProposePostmortemAction (operating_cycle_id : OperatingCycleId)
    (postmortem_id : PostmortemId) (action_kind : PostmortemActionKind.t)
    (action : PostmortemActionProposalText)
| ClosePostmortem (operating_cycle_id : OperatingCycleId) (postmortem_id : PostmortemId)
| RegisterActorConfiguration (configuration_name : ActorConfigurationName)
    (model_policy : ActorModelPolicy.t) (primary_attractor : DevelopmentalAttractor.t)
| RegisterContextPack (operating_cycle_id : OperatingCycleId)
    (purpose : ContextPackPurpose.t) (rendering_digest : Blake3Digest.t)
| AdmitActorInstance (operating_cycle_id : OperatingCycleId)
    (actor_configuration_revision_id : ActorConfigurationRevisionId)
    (execution_profile_id : ExecutionProfileId)
    (actor_display_name : PrincipalDisplayName.t)
| AdmitTicket (operating_cycle_id : OperatingCycleId) (ticket_id : TicketId)
| RegisterWorkItem (operating_cycle_id : OperatingCycleId) (ticket_id : TicketId)
    (actor_instance_id : ActorInstanceId) (context_pack_id : ContextPackId)
    (work_kind : WorkItemKind.t) (adversarial_review_id : option AdversarialReviewId)
    (assignment : WorkAssignmentText)
| ClaimWorkItem (operating_cycle_id : OperatingCycleId) (work_item_id : WorkItemId)
| StartActorAttempt (operating_cycle_id : OperatingCycleId) (work_item_id : WorkItemId)
    (reservation_amount : UsdMicros.t)
| AttestActorAttemptTerminal (actor_attempt_id : ActorAttemptId)
    (terminal_kind : ActorAttemptTerminalKind.t)
| ValidateTicketAttempt (operating_cycle_id : OperatingCycleId)
    (actor_attempt_id : ActorAttemptId)
| RetryActorAttempt (operating_cycle_id : OperatingCycleId)
    (actor_attempt_id : ActorAttemptId)
| CompleteTicket (operating_cycle_id : OperatingCycleId) (actor_attempt_id : ActorAttemptId)
| ExpireWorkLease (work_lease_id : WorkLeaseId)
| CancelActorAttempt (actor_attempt_id : ActorAttemptId)
    (reason : ActorAttemptCancellationReason.t)
| RegisterOutcomeObligation (operating_cycle_id : OperatingCycleId) (project_id : ProjectId)
    (obligation : OutcomeObligationText)
| ResolveOutcomeObligation (operating_cycle_id : OperatingCycleId)
    (outcome_obligation_id : OutcomeObligationId)
    (disposition : OutcomeObligationDisposition.t)
| RecordContentSealReceipt (digest : Blake3Digest.t)
| RegisterContentObject (content_seal_receipt_id : ContentSealReceiptId)
| RegisterForensicManifest (operating_cycle_id : OperatingCycleId)
    (producing_deterministic_experiment_id : DeterministicExperimentId)
    (capture_policy : ForensicManifestCapturePolicy.t)
    (retention_access_class : RetentionAccessClass.t)
    (evaluator_output_content_object_id : ContentObjectId)
| RegisterDeterministicEvaluatorForensicManifest (operating_cycle_id : OperatingCycleId)
    (native_child_spawn_admission_id : NativeChildSpawnAdmissionId)
| RegisterDeterministicExperiment (operating_cycle_id : OperatingCycleId)
    (project_id : ProjectId) (ticket_id : TicketId)
    (target_graph_revision_id : GraphRevisionId)
    (evaluator_content_object_id input_manifest_content_object_id : ContentObjectId)
| RecordDeterministicEvaluationReceipt (operating_cycle_id : OperatingCycleId)
    (deterministic_experiment_id : DeterministicExperimentId)
    (evaluator_revision_id : EvaluatorRevisionId) (input_manifest_id : InputManifestId)
    (forensic_manifest_id : ForensicManifestId)
    (evaluator_output_content_object_id : ContentObjectId)
| AdmitDeterministicEvidence (operating_cycle_id : OperatingCycleId)
    (deterministic_evaluation_receipt_id : DeterministicEvaluationReceiptId)
| FinalizeDeterministicExperiment (operating_cycle_id : OperatingCycleId)
    (deterministic_experiment_id : DeterministicExperimentId)
| AdmitDeterministicEvaluatorNativeChild (operating_cycle_id : OperatingCycleId)
    (deterministic_experiment_id : DeterministicExperimentId)
    (evaluator_revision_id : EvaluatorRevisionId) (input_manifest_id : InputManifestId)
    (execution_profile_id : ExecutionProfileId) (native_workspace_id : NativeWorkspaceId)
    (canonical_workspace_path : CanonicalWorkspacePath.t)
    (supervisor_epoch_id : SupervisorEpochId)
    (supervisor_epoch_identity : SupervisorEpochIdentity)
| RecordDeterministicEvaluatorNativeChildSpawn
    (native_child_spawn_admission_id : NativeChildSpawnAdmissionId)
    (child_identity : SupervisedChildIdentity) (direct_child_pid : NativeChildPid)
    (process_group_id : OwnedProcessGroupId)
| OpenSupervisorEpoch (supervisor_epoch_id : SupervisorEpochId)
    (supervisor_epoch_identity : SupervisorEpochIdentity)
| AdmitPiChildSpawn (operating_cycle_id : OperatingCycleId) (owner : PiChildOwner.t)
    (budget_reservation_id : BudgetReservationId)
    (execution_profile_id : ExecutionProfileId) (native_workspace_id : NativeWorkspaceId)
    (canonical_workspace_path : CanonicalWorkspacePath.t)
    (supervisor_epoch_id : SupervisorEpochId)
    (supervisor_epoch_identity : SupervisorEpochIdentity)
    (pi_session_identity : PiBoundarySessionIdentity) (spawn_nonce : SpawnNonce)
| RecordInertChildSpawn (native_child_spawn_admission_id : NativeChildSpawnAdmissionId)
    (child_identity : SupervisedChildIdentity) (direct_child_pid : NativeChildPid)
    (process_group_id : OwnedProcessGroupId)
| RecordPiAdapterReady (native_child_id : NativeChildId)
    (pi_session_identity : PiBoundarySessionIdentity) (spawn_nonce : SpawnNonce)
| AuthorizePiCreateSession (native_child_id : NativeChildId)
    (correlation_identity : PiCorrelationIdentity) (create_request_digest : Blake3Digest.t)
| RecordPiCreateSessionDelivery (native_child_id : NativeChildId)
    (correlation_identity : PiCorrelationIdentity) (create_request_digest : Blake3Digest.t)
| RecordPiSessionReady (native_child_id : NativeChildId)
    (pi_session_identity : PiBoundarySessionIdentity)
| RecordPiAbortControlDelivery (native_child_id : NativeChildId)
    (cancellation_propagation_id : CancellationPropagationId)
    (correlation_identity : PiCorrelationIdentity) (abort_command_digest : Blake3Digest.t)
    (outcome : PiAbortControlWriteOutcome.t)
| RecordChildStreamSeal (native_child_id : NativeChildId) (stream_kind : ChildStreamKind.t)
    (full_observed_digest : Blake3Digest.t) (retained_content_object_id : ContentObjectId)
    (completeness : ChildStreamSealCompleteness.t)
| RecordChildProcessLiveness (native_child_id : NativeChildId)
    (liveness : ProcessGroupLiveness.t)
| RecordProcessSignalReceipt (native_child_id : NativeChildId)
    (action : ProcessSignalAction.t) (delivery : ProcessSignalDelivery.t)
    (observed_liveness : ProcessGroupLiveness.t) (cause : ProcessSignalCause.t)
| RecordDirectChildReap (native_child_id : NativeChildId)
    (wait_status : DirectChildWaitStatus.t)
    (group_liveness_before_cleanup group_liveness_after_cleanup : ProcessGroupLiveness.t)
| RecordChildRecovery (native_child_id : NativeChildId)
    (observation : ChildRecoveryObservation.t)
    (group_liveness_after_restart : ProcessGroupLiveness.t)
| FinalizeChildProcess (native_child_id : NativeChildId)
| BeginCancellationPropagation (cancellation_request_id : CancellationRequestId)
| ReconcileCancellationPropagation (cancellation_propagation_id : CancellationPropagationId)
| RecordNativeChildNotSpawned
    (native_child_spawn_admission_id : NativeChildSpawnAdmissionId)
    (reason : NativeChildNotSpawnedReason.t)
| AuthorizePiOfficeTurnPrompt (office_turn_id : OfficeTurnId)
    (correlation_identity : PiCorrelationIdentity)
    (prompt_content_object_id : ContentObjectId) (prompt_digest : Blake3Digest.t)
    (frontier_event_id : EventId)
| RecordPiOfficeTurnPromptDelivery (office_turn_id : OfficeTurnId)
    (correlation_identity : PiCorrelationIdentity) (prompt_digest : Blake3Digest.t)
| RecordPiOfficeTurnPromptAccepted (office_turn_id : OfficeTurnId)
    (correlation_identity : PiCorrelationIdentity)
    (command_result_sequence : PiProtocolSequence)
| RecordPiOfficeTurnUsage (office_turn_id : OfficeTurnId)
    (correlation_identity : PiCorrelationIdentity) (protocol_sequence : PiProtocolSequence)
    (usage : PiCumulativeUsage.t)
| RecordPiOfficeTurnUsageFailure (office_turn_id : OfficeTurnId)
    (correlation_identity : PiCorrelationIdentity) (protocol_sequence : PiProtocolSequence)
    (failure : PiOfficeTurnUsageFailure.t)
| RecordPiOfficeTurnTerminal (office_turn_id : OfficeTurnId)
    (correlation_identity : PiCorrelationIdentity)
    (terminal_evidence : PiOfficeTurnTerminalEvidence.t)
    (settled_sequence : PiProtocolSequence) (disposition : PiOfficeTurnDisposition.t)
    (assistant_outcome : PiOfficeTurnAssistantOutcome.t)
    (transcript_disposition : PiOfficeTurnTranscriptDisposition.t)
| AuthorizePiOfficeSessionDispose (session_id : RootAuthorityOfficeSessionId)
    (correlation_identity : PiCorrelationIdentity)
| RecordPiOfficeSessionDisposeDelivery (session_id : RootAuthorityOfficeSessionId)
    (correlation_identity : PiCorrelationIdentity)
| RecordPiOfficeSessionDisposeAccepted (session_id : RootAuthorityOfficeSessionId)
    (correlation_identity : PiCorrelationIdentity)
    (command_result_sequence : PiProtocolSequence)
| RecordPiOfficeSessionDisposeUsage (session_id : RootAuthorityOfficeSessionId)
    (correlation_identity : PiCorrelationIdentity) (protocol_sequence : PiProtocolSequence)
    (usage : PiCumulativeUsage.t)
| RecordPiOfficeSessionDisposeUsageFailure (session_id : RootAuthorityOfficeSessionId)
    (correlation_identity : PiCorrelationIdentity) (protocol_sequence : PiProtocolSequence)
    (failure : PiOfficeTurnUsageFailure.t)
| RecordPiOfficeSessionDisposed (session_id : RootAuthorityOfficeSessionId)
    (correlation_identity : PiCorrelationIdentity) (disposed_sequence : PiProtocolSequence)
    (transcript_receipt : PiOfficeSessionTranscriptReceipt.t)
| AuthorizePiTaskAttemptPrompt (actor_attempt_id : ActorAttemptId)
    (correlation_identity : PiCorrelationIdentity)
    (prompt_content_object_id : ContentObjectId) (prompt_digest : Blake3Digest.t)
    (frontier_event_id : EventId)
| RecordPiTaskAttemptPromptDelivery (actor_attempt_id : ActorAttemptId)
    (correlation_identity : PiCorrelationIdentity) (prompt_digest : Blake3Digest.t)
| RecordPiTaskAttemptPromptAccepted (actor_attempt_id : ActorAttemptId)
    (correlation_identity : PiCorrelationIdentity)
    (command_result_sequence : PiProtocolSequence)
| RecordPiTaskAttemptUsage (actor_attempt_id : ActorAttemptId)
    (correlation_identity : PiCorrelationIdentity) (protocol_sequence : PiProtocolSequence)
    (usage : PiCumulativeUsage.t)
| RecordPiTaskAttemptUsageFailure (actor_attempt_id : ActorAttemptId)
    (correlation_identity : PiCorrelationIdentity) (protocol_sequence : PiProtocolSequence)
    (failure : PiTaskAttemptUsageFailure.t)
| RecordPiTaskAttemptTerminal (actor_attempt_id : ActorAttemptId)
    (correlation_identity : PiCorrelationIdentity)
    (terminal_evidence : PiTaskAttemptTerminalEvidence.t)
    (settled_sequence : PiProtocolSequence) (disposition : PiTaskAttemptDisposition.t)
    (assistant_outcome : PiTaskAttemptAssistantOutcome.t)
    (transcript_disposition : PiTaskAttemptTranscriptDisposition.t)
| AuthorizePiTaskAttemptSessionDispose (actor_attempt_id : ActorAttemptId)
    (correlation_identity : PiCorrelationIdentity)
| RecordPiTaskAttemptSessionDisposeDelivery (actor_attempt_id : ActorAttemptId)
    (correlation_identity : PiCorrelationIdentity)
| RecordPiTaskAttemptSessionDisposeAccepted (actor_attempt_id : ActorAttemptId)
    (correlation_identity : PiCorrelationIdentity)
    (command_result_sequence : PiProtocolSequence)
| RecordPiTaskAttemptSessionDisposeUsage (actor_attempt_id : ActorAttemptId)
    (correlation_identity : PiCorrelationIdentity) (protocol_sequence : PiProtocolSequence)
    (usage : PiCumulativeUsage.t)
| RecordPiTaskAttemptSessionDisposeUsageFailure (actor_attempt_id : ActorAttemptId)
    (correlation_identity : PiCorrelationIdentity) (protocol_sequence : PiProtocolSequence)
    (failure : PiTaskAttemptUsageFailure.t)
| RecordPiTaskAttemptSessionDisposed (actor_attempt_id : ActorAttemptId)
    (correlation_identity : PiCorrelationIdentity) (disposed_sequence : PiProtocolSequence)
    (transcript_receipt : PiTaskAttemptSessionTranscriptReceipt.t)
| QualifyNativeExecutionProfile (operating_cycle_id : OperatingCycleId)
    (execution_profile_id : ExecutionProfileId)
    (native_child_spawn_admission_id : NativeChildSpawnAdmissionId)
    (native_child_id : NativeChildId) (runtime_identity_digest : Blake3Digest.t)
    (runtime_identity_content_object_id : ContentObjectId)
    (adapter_report_digest : Blake3Digest.t)
    (adapter_report_content_object_id : ContentObjectId)
    (probe_request_digest probe_response_digest : Blake3Digest.t)
    (probe_response_content_object_id : ContentObjectId)
| StartNativeExecutionProfileQualification (operating_cycle_id : OperatingCycleId)
| ClaimStudyActorTaskAttemptLaunch (study_actor_obligation_id : StudyActorObligationId)
    (operating_cycle_id : OperatingCycleId) (work_item_id : WorkItemId)
    (reservation_amount : UsdMicros.t) (supervisor_epoch_id : SupervisorEpochId)
    (supervisor_epoch_identity : SupervisorEpochIdentity)
    (native_workspace_id : NativeWorkspaceId)
    (canonical_workspace_path : CanonicalWorkspacePath.t)
| ClaimNativeExecutionProfileQualificationLaunch (operating_cycle_id : OperatingCycleId)
    (reservation_amount : UsdMicros.t) (supervisor_epoch_id : SupervisorEpochId)
    (supervisor_epoch_identity : SupervisorEpochIdentity)
    (native_workspace_id : NativeWorkspaceId)
    (canonical_workspace_path : CanonicalWorkspacePath.t)
| AllocateStudyActorWork (study_run_id : StudyRunId) (pair_ordinal : StudyRunPairOrdinal.t)
    (treatment : StudyTreatment.t) (phase : StudyPopulationPhase.t)
    (role : StudyRoleOrdinal.t) (operating_cycle_id : OperatingCycleId)
    (work_item_id : WorkItemId) (reservation_amount : UsdMicros.t)
    (supervisor_epoch_id : SupervisorEpochId)
    (supervisor_epoch_identity : SupervisorEpochIdentity)
| StudyTransition (command : StudyCommand.t).
Definition kind (self : t) : CommandKind.t :=
  match self with
  | CreateSocietyIdentity _ => CommandKind.CreateSocietyIdentity
  | InstallRootAuthorityOffice => CommandKind.InstallRootAuthorityOffice
  | InstallFoundingMission _ => CommandKind.InstallFoundingMission
  | AppointInitialRootAuthority _ => CommandKind.AppointInitialRootAuthority
  | SetR0HardCeiling _ => CommandKind.SetR0HardCeiling
  | BootstrapSociety => CommandKind.BootstrapSociety
  | ProposeOperatingCycle _ _ => CommandKind.ProposeOperatingCycle
  | AdmitOperatingCycle _ => CommandKind.AdmitOperatingCycle
  | StartRootAuthorityOfficeSession _ => CommandKind.StartRootAuthorityOfficeSession
  | RecordOfficeSessionReady _ => CommandKind.RecordOfficeSessionReady
  | RecordOfficeSessionTerminal _ _ => CommandKind.RecordOfficeSessionTerminal
  | OpenOfficeTurn _ _ => CommandKind.OpenOfficeTurn
  | SettleOfficeTurn _ _ => CommandKind.SettleOfficeTurn
  | QuiesceOperatingCycle _ => CommandKind.QuiesceOperatingCycle
  | RecordCycleDrained _ => CommandKind.RecordCycleDrained
  | ResumeOperatingCycle _ => CommandKind.ResumeOperatingCycle
  | ReconcileOperatingCycle _ => CommandKind.ReconcileOperatingCycle
  | CloseOperatingCycle _ => CommandKind.CloseOperatingCycle
  | ReserveBudget _ _ => CommandKind.ReserveBudget
  | ReconcileBudget _ _ => CommandKind.ReconcileBudget
  | RequestCancellation _ _ => CommandKind.RequestCancellation
  | ReconcileCancellation _ => CommandKind.ReconcileCancellation
  | CloseCostPostmortem _ _ => CommandKind.CloseCostPostmortem
  | CreateProject _ _ _ => CommandKind.CreateProject
  | CharterProject _ _ _ _ _ => CommandKind.CharterProject
  | TransitionProject _ _ _ => CommandKind.TransitionProject
  | CompleteProjectMilestone _ _ => CommandKind.CompleteProjectMilestone
  | ReopenProject _ _ => CommandKind.ReopenProject
  | CreateTicket _ _ _ _ _ => CommandKind.CreateTicket
  | TransitionTicket _ _ _ => CommandKind.TransitionTicket
  | AddGraphObjectRevision _ _ _ _ _ => CommandKind.AddGraphObjectRevision
  | CommitGraphRevision _ _ => CommandKind.CommitGraphRevision
  | AddGraphEdge _ _ _ _ _ => CommandKind.AddGraphEdge
  | CreateEpisode _ _ => CommandKind.CreateEpisode
  | TransitionEpisode _ _ _ => CommandKind.TransitionEpisode
  | ReopenEpisode _ _ => CommandKind.ReopenEpisode
  | RequestAdversarialReview _ _ _ => CommandKind.RequestAdversarialReview
  | AssignAdversarialReviewer _ _ _ _ _ => CommandKind.AssignAdversarialReviewer
  | SubmitReviewChallenge _ _ _ _ _ _ => CommandKind.SubmitReviewChallenge
  | RespondToReviewChallenge _ _ _ => CommandKind.RespondToReviewChallenge
  | DispositionReviewChallenge _ _ _ => CommandKind.DispositionReviewChallenge
  | ResolveAdversarialReview _ _ _ => CommandKind.ResolveAdversarialReview
  | TriggerPostmortem _ _ _ => CommandKind.TriggerPostmortem
  | RecordPostmortemCausalClaim _ _ _ _ => CommandKind.RecordPostmortemCausalClaim
  | ProposePostmortemAction _ _ _ _ => CommandKind.ProposePostmortemAction
  | ClosePostmortem _ _ => CommandKind.ClosePostmortem
  | RegisterActorConfiguration _ _ _ => CommandKind.RegisterActorConfiguration
  | RegisterContextPack _ _ _ => CommandKind.RegisterContextPack
  | AdmitActorInstance _ _ _ _ => CommandKind.AdmitActorInstance
  | AdmitTicket _ _ => CommandKind.AdmitTicket
  | RegisterWorkItem _ _ _ _ _ _ _ => CommandKind.RegisterWorkItem
  | ClaimWorkItem _ _ => CommandKind.ClaimWorkItem
  | StartActorAttempt _ _ _ => CommandKind.StartActorAttempt
  | AttestActorAttemptTerminal _ _ => CommandKind.AttestActorAttemptTerminal
  | ValidateTicketAttempt _ _ => CommandKind.ValidateTicketAttempt
  | RetryActorAttempt _ _ => CommandKind.RetryActorAttempt
  | CompleteTicket _ _ => CommandKind.CompleteTicket
  | ExpireWorkLease _ => CommandKind.ExpireWorkLease
  | CancelActorAttempt _ _ => CommandKind.CancelActorAttempt
  | RegisterOutcomeObligation _ _ _ => CommandKind.RegisterOutcomeObligation
  | ResolveOutcomeObligation _ _ _ => CommandKind.ResolveOutcomeObligation
  | RecordContentSealReceipt _ => CommandKind.RecordContentSealReceipt
  | RegisterContentObject _ => CommandKind.RegisterContentObject
  | RegisterForensicManifest _ _ _ _ _ => CommandKind.RegisterForensicManifest
  | RegisterDeterministicEvaluatorForensicManifest _ _ =>
      CommandKind.RegisterDeterministicEvaluatorForensicManifest
  | RegisterDeterministicExperiment _ _ _ _ _ _ => CommandKind.RegisterDeterministicExperiment
  | RecordDeterministicEvaluationReceipt _ _ _ _ _ _ =>
      CommandKind.RecordDeterministicEvaluationReceipt
  | AdmitDeterministicEvidence _ _ => CommandKind.AdmitDeterministicEvidence
  | FinalizeDeterministicExperiment _ _ => CommandKind.FinalizeDeterministicExperiment
  | AdmitDeterministicEvaluatorNativeChild _ _ _ _ _ _ _ _ _ =>
      CommandKind.AdmitDeterministicEvaluatorNativeChild
  | RecordDeterministicEvaluatorNativeChildSpawn _ _ _ _ =>
      CommandKind.RecordDeterministicEvaluatorNativeChildSpawn
  | OpenSupervisorEpoch _ _ => CommandKind.OpenSupervisorEpoch
  | AdmitPiChildSpawn _ _ _ _ _ _ _ _ _ _ => CommandKind.AdmitPiChildSpawn
  | RecordInertChildSpawn _ _ _ _ => CommandKind.RecordInertChildSpawn
  | RecordPiAdapterReady _ _ _ => CommandKind.RecordPiAdapterReady
  | AuthorizePiCreateSession _ _ _ => CommandKind.AuthorizePiCreateSession
  | RecordPiCreateSessionDelivery _ _ _ => CommandKind.RecordPiCreateSessionDelivery
  | RecordPiSessionReady _ _ => CommandKind.RecordPiSessionReady
  | RecordPiAbortControlDelivery _ _ _ _ _ => CommandKind.RecordPiAbortControlDelivery
  | RecordChildStreamSeal _ _ _ _ _ => CommandKind.RecordChildStreamSeal
  | RecordChildProcessLiveness _ _ => CommandKind.RecordChildProcessLiveness
  | RecordProcessSignalReceipt _ _ _ _ _ => CommandKind.RecordProcessSignalReceipt
  | RecordDirectChildReap _ _ _ _ => CommandKind.RecordDirectChildReap
  | RecordChildRecovery _ _ _ => CommandKind.RecordChildRecovery
  | FinalizeChildProcess _ => CommandKind.FinalizeChildProcess
  | BeginCancellationPropagation _ => CommandKind.BeginCancellationPropagation
  | ReconcileCancellationPropagation _ => CommandKind.ReconcileCancellationPropagation
  | RecordNativeChildNotSpawned _ _ => CommandKind.RecordNativeChildNotSpawned
  | AuthorizePiOfficeTurnPrompt _ _ _ _ _ => CommandKind.AuthorizePiOfficeTurnPrompt
  | RecordPiOfficeTurnPromptDelivery _ _ _ => CommandKind.RecordPiOfficeTurnPromptDelivery
  | RecordPiOfficeTurnPromptAccepted _ _ _ => CommandKind.RecordPiOfficeTurnPromptAccepted
  | RecordPiOfficeTurnUsage _ _ _ _ => CommandKind.RecordPiOfficeTurnUsage
  | RecordPiOfficeTurnUsageFailure _ _ _ _ => CommandKind.RecordPiOfficeTurnUsageFailure
  | RecordPiOfficeTurnTerminal _ _ _ _ _ _ _ => CommandKind.RecordPiOfficeTurnTerminal
  | AuthorizePiOfficeSessionDispose _ _ => CommandKind.AuthorizePiOfficeSessionDispose
  | RecordPiOfficeSessionDisposeDelivery _ _ => CommandKind.RecordPiOfficeSessionDisposeDelivery
  | RecordPiOfficeSessionDisposeAccepted _ _ _ =>
      CommandKind.RecordPiOfficeSessionDisposeAccepted
  | RecordPiOfficeSessionDisposeUsage _ _ _ _ => CommandKind.RecordPiOfficeSessionDisposeUsage
  | RecordPiOfficeSessionDisposeUsageFailure _ _ _ _ =>
      CommandKind.RecordPiOfficeSessionDisposeUsageFailure
  | RecordPiOfficeSessionDisposed _ _ _ _ => CommandKind.RecordPiOfficeSessionDisposed
  | AuthorizePiTaskAttemptPrompt _ _ _ _ _ => CommandKind.AuthorizePiTaskAttemptPrompt
  | RecordPiTaskAttemptPromptDelivery _ _ _ => CommandKind.RecordPiTaskAttemptPromptDelivery
  | RecordPiTaskAttemptPromptAccepted _ _ _ => CommandKind.RecordPiTaskAttemptPromptAccepted
  | RecordPiTaskAttemptUsage _ _ _ _ => CommandKind.RecordPiTaskAttemptUsage
  | RecordPiTaskAttemptUsageFailure _ _ _ _ => CommandKind.RecordPiTaskAttemptUsageFailure
  | RecordPiTaskAttemptTerminal _ _ _ _ _ _ _ => CommandKind.RecordPiTaskAttemptTerminal
  | AuthorizePiTaskAttemptSessionDispose _ _ => CommandKind.AuthorizePiTaskAttemptSessionDispose
  | RecordPiTaskAttemptSessionDisposeDelivery _ _ =>
      CommandKind.RecordPiTaskAttemptSessionDisposeDelivery
  | RecordPiTaskAttemptSessionDisposeAccepted _ _ _ =>
      CommandKind.RecordPiTaskAttemptSessionDisposeAccepted
  | RecordPiTaskAttemptSessionDisposeUsage _ _ _ _ =>
      CommandKind.RecordPiTaskAttemptSessionDisposeUsage
  | RecordPiTaskAttemptSessionDisposeUsageFailure _ _ _ _ =>
      CommandKind.RecordPiTaskAttemptSessionDisposeUsageFailure
  | RecordPiTaskAttemptSessionDisposed _ _ _ _ => CommandKind.RecordPiTaskAttemptSessionDisposed
  | QualifyNativeExecutionProfile _ _ _ _ _ _ _ _ _ _ _ =>
      CommandKind.QualifyNativeExecutionProfile
  | StartNativeExecutionProfileQualification _ =>
      CommandKind.StartNativeExecutionProfileQualification
  | ClaimStudyActorTaskAttemptLaunch _ _ _ _ _ _ _ _ =>
      CommandKind.ClaimStudyActorTaskAttemptLaunch
  | ClaimNativeExecutionProfileQualificationLaunch _ _ _ _ _ _ =>
      CommandKind.ClaimNativeExecutionProfileQualificationLaunch
  | AllocateStudyActorWork _ _ _ _ _ _ _ _ _ _ => CommandKind.AllocateStudyActorWork
  | StudyTransition _ => CommandKind.StudyTransition
  end.
Definition required_capability (self : t) : Capability.t :=
  match self with
  | CreateSocietyIdentity _ => Capability.CreateSocietyIdentity
  | InstallRootAuthorityOffice => Capability.InstallRootAuthorityOffice
  | InstallFoundingMission _ => Capability.InstallFoundingMission
  | AppointInitialRootAuthority _ => Capability.AppointInitialRootAuthority
  | SetR0HardCeiling _ => Capability.SetR0HardCeiling
  | BootstrapSociety => Capability.BootstrapSociety
  | ProposeOperatingCycle _ _ => Capability.ProposeOperatingCycle
  | AdmitOperatingCycle _ => Capability.AdmitOperatingCycle
  | StartRootAuthorityOfficeSession _ => Capability.StartRootAuthorityOfficeSession
  | StartNativeExecutionProfileQualification _ =>
      Capability.StartNativeExecutionProfileQualification
  | ClaimStudyActorTaskAttemptLaunch _ _ _ _ _ _ _ _ =>
      Capability.ClaimStudyActorTaskAttemptLaunch
  | ClaimNativeExecutionProfileQualificationLaunch _ _ _ _ _ _ =>
      Capability.ClaimNativeExecutionProfileQualificationLaunch
  | AllocateStudyActorWork _ _ _ _ _ _ _ _ _ _ => Capability.AllocateStudyActorWork
  | RecordOfficeSessionReady _ => Capability.RecordOfficeSessionReady
  | RecordOfficeSessionTerminal _ _ => Capability.RecordOfficeSessionTerminal
  | OpenOfficeTurn _ _ => Capability.OpenOfficeTurn
  | SettleOfficeTurn _ _ => Capability.SettleOfficeTurn
  | QuiesceOperatingCycle _ => Capability.QuiesceOperatingCycle
  | RecordCycleDrained _ => Capability.RecordCycleDrained
  | ResumeOperatingCycle _ => Capability.ResumeOperatingCycle
  | ReconcileOperatingCycle _ => Capability.ReconcileOperatingCycle
  | CloseOperatingCycle _ => Capability.CloseOperatingCycle
  | ReserveBudget _ _ => Capability.ReserveBudget
  | ReconcileBudget _ _ => Capability.ReconcileBudget
  | RequestCancellation _ _ => Capability.RequestCancellation
  | ReconcileCancellation _ => Capability.ReconcileCancellation
  | CloseCostPostmortem _ _ => Capability.CloseCostPostmortem
  | CreateProject _ _ _ => Capability.CreateProject
  | CharterProject _ _ _ _ _ => Capability.CharterProject
  | TransitionProject _ _ _ => Capability.TransitionProject
  | CompleteProjectMilestone _ _ => Capability.CompleteProjectMilestone
  | ReopenProject _ _ => Capability.ReopenProject
  | CreateTicket _ _ _ _ _ => Capability.CreateTicket
  | TransitionTicket _ _ _ => Capability.TransitionTicket
  | AddGraphObjectRevision _ _ _ _ _ => Capability.AddGraphObjectRevision
  | CommitGraphRevision _ _ => Capability.CommitGraphRevision
  | AddGraphEdge _ _ _ _ _ => Capability.AddGraphEdge
  | CreateEpisode _ _ => Capability.CreateEpisode
  | TransitionEpisode _ _ _ => Capability.TransitionEpisode
  | ReopenEpisode _ _ => Capability.ReopenEpisode
  | RequestAdversarialReview _ _ _ => Capability.RequestAdversarialReview
  | AssignAdversarialReviewer _ _ _ _ _ => Capability.AssignAdversarialReviewer
  | SubmitReviewChallenge _ _ _ _ _ _ => Capability.SubmitReviewChallenge
  | RespondToReviewChallenge _ _ _ => Capability.RespondToReviewChallenge
  | DispositionReviewChallenge _ _ _ => Capability.DispositionReviewChallenge
  | ResolveAdversarialReview _ _ _ => Capability.ResolveAdversarialReview
  | TriggerPostmortem _ _ _ => Capability.TriggerPostmortem
  | RecordPostmortemCausalClaim _ _ _ _ => Capability.RecordPostmortemCausalClaim
  | ProposePostmortemAction _ _ _ _ => Capability.ProposePostmortemAction
  | ClosePostmortem _ _ => Capability.ClosePostmortem
  | RegisterActorConfiguration _ _ _ => Capability.RegisterActorConfiguration
  | RegisterContextPack _ _ _ => Capability.RegisterContextPack
  | AdmitActorInstance _ _ _ _ => Capability.AdmitActorInstance
  | AdmitTicket _ _ => Capability.AdmitTicket
  | RegisterWorkItem _ _ _ _ _ _ _ => Capability.RegisterWorkItem
  | ClaimWorkItem _ _ => Capability.ClaimWorkItem
  | StartActorAttempt _ _ _ => Capability.StartActorAttempt
  | AttestActorAttemptTerminal _ _ => Capability.AttestActorAttemptTerminal
  | ValidateTicketAttempt _ _ => Capability.ValidateTicketAttempt
  | RetryActorAttempt _ _ => Capability.RetryActorAttempt
  | CompleteTicket _ _ => Capability.CompleteTicket
  | ExpireWorkLease _ => Capability.ExpireWorkLease
  | CancelActorAttempt _ _ => Capability.CancelActorAttempt
  | RegisterOutcomeObligation _ _ _ => Capability.RegisterOutcomeObligation
  | ResolveOutcomeObligation _ _ _ => Capability.ResolveOutcomeObligation
  | RecordContentSealReceipt _ => Capability.RecordContentSealReceipt
  | RegisterContentObject _ => Capability.RegisterContentObject
  | RegisterForensicManifest _ _ _ _ _ => Capability.RegisterForensicManifest
  | RegisterDeterministicEvaluatorForensicManifest _ _ =>
      Capability.RegisterDeterministicEvaluatorForensicManifest
  | RegisterDeterministicExperiment _ _ _ _ _ _ => Capability.RegisterDeterministicExperiment
  | RecordDeterministicEvaluationReceipt _ _ _ _ _ _ =>
      Capability.RecordDeterministicEvaluationReceipt
  | AdmitDeterministicEvidence _ _ => Capability.AdmitDeterministicEvidence
  | FinalizeDeterministicExperiment _ _ => Capability.FinalizeDeterministicExperiment
  | AdmitDeterministicEvaluatorNativeChild _ _ _ _ _ _ _ _ _ =>
      Capability.AdmitDeterministicEvaluatorNativeChild
  | RecordDeterministicEvaluatorNativeChildSpawn _ _ _ _ =>
      Capability.RecordDeterministicEvaluatorNativeChildSpawn
  | OpenSupervisorEpoch _ _ => Capability.OpenSupervisorEpoch
  | AdmitPiChildSpawn _ _ _ _ _ _ _ _ _ _ => Capability.AdmitPiChildSpawn
  | RecordInertChildSpawn _ _ _ _ => Capability.RecordInertChildSpawn
  | RecordPiAdapterReady _ _ _ => Capability.RecordPiAdapterReady
  | AuthorizePiCreateSession _ _ _ => Capability.AuthorizePiCreateSession
  | RecordPiCreateSessionDelivery _ _ _ => Capability.RecordPiCreateSessionDelivery
  | RecordPiSessionReady _ _ => Capability.RecordPiSessionReady
  | RecordPiAbortControlDelivery _ _ _ _ _ => Capability.RecordPiAbortControlDelivery
  | RecordChildStreamSeal _ _ _ _ _ => Capability.RecordChildStreamSeal
  | RecordChildProcessLiveness _ _ => Capability.RecordChildProcessLiveness
  | RecordProcessSignalReceipt _ _ _ _ _ => Capability.RecordProcessSignalReceipt
  | RecordDirectChildReap _ _ _ _ => Capability.RecordDirectChildReap
  | RecordChildRecovery _ _ _ => Capability.RecordChildRecovery
  | FinalizeChildProcess _ => Capability.FinalizeChildProcess
  | BeginCancellationPropagation _ => Capability.BeginCancellationPropagation
  | ReconcileCancellationPropagation _ => Capability.ReconcileCancellationPropagation
  | RecordNativeChildNotSpawned _ _ => Capability.RecordNativeChildNotSpawned
  | AuthorizePiOfficeTurnPrompt _ _ _ _ _ => Capability.AuthorizePiOfficeTurnPrompt
  | RecordPiOfficeTurnPromptDelivery _ _ _ => Capability.RecordPiOfficeTurnPromptDelivery
  | RecordPiOfficeTurnPromptAccepted _ _ _ => Capability.RecordPiOfficeTurnPromptAccepted
  | RecordPiOfficeTurnUsage _ _ _ _ => Capability.RecordPiOfficeTurnUsage
  | RecordPiOfficeTurnUsageFailure _ _ _ _ => Capability.RecordPiOfficeTurnUsageFailure
  | RecordPiOfficeTurnTerminal _ _ _ _ _ _ _ => Capability.RecordPiOfficeTurnTerminal
  | AuthorizePiOfficeSessionDispose _ _ => Capability.AuthorizePiOfficeSessionDispose
  | RecordPiOfficeSessionDisposeDelivery _ _ => Capability.RecordPiOfficeSessionDisposeDelivery
  | RecordPiOfficeSessionDisposeAccepted _ _ _ =>
      Capability.RecordPiOfficeSessionDisposeAccepted
  | RecordPiOfficeSessionDisposeUsage _ _ _ _ => Capability.RecordPiOfficeSessionDisposeUsage
  | RecordPiOfficeSessionDisposeUsageFailure _ _ _ _ =>
      Capability.RecordPiOfficeSessionDisposeUsageFailure
  | RecordPiOfficeSessionDisposed _ _ _ _ => Capability.RecordPiOfficeSessionDisposed
  | AuthorizePiTaskAttemptPrompt _ _ _ _ _ => Capability.AuthorizePiTaskAttemptPrompt
  | RecordPiTaskAttemptPromptDelivery _ _ _ => Capability.RecordPiTaskAttemptPromptDelivery
  | RecordPiTaskAttemptPromptAccepted _ _ _ => Capability.RecordPiTaskAttemptPromptAccepted
  | RecordPiTaskAttemptUsage _ _ _ _ => Capability.RecordPiTaskAttemptUsage
  | RecordPiTaskAttemptUsageFailure _ _ _ _ => Capability.RecordPiTaskAttemptUsageFailure
  | RecordPiTaskAttemptTerminal _ _ _ _ _ _ _ => Capability.RecordPiTaskAttemptTerminal
  | AuthorizePiTaskAttemptSessionDispose _ _ => Capability.AuthorizePiTaskAttemptSessionDispose
  | RecordPiTaskAttemptSessionDisposeDelivery _ _ =>
      Capability.RecordPiTaskAttemptSessionDisposeDelivery
  | RecordPiTaskAttemptSessionDisposeAccepted _ _ _ =>
      Capability.RecordPiTaskAttemptSessionDisposeAccepted
  | RecordPiTaskAttemptSessionDisposeUsage _ _ _ _ =>
      Capability.RecordPiTaskAttemptSessionDisposeUsage
  | RecordPiTaskAttemptSessionDisposeUsageFailure _ _ _ _ =>
      Capability.RecordPiTaskAttemptSessionDisposeUsageFailure
  | RecordPiTaskAttemptSessionDisposed _ _ _ _ => Capability.RecordPiTaskAttemptSessionDisposed
  | QualifyNativeExecutionProfile _ _ _ _ _ _ _ _ _ _ _ =>
      Capability.QualifyNativeExecutionProfile
  | StudyTransition _ => Capability.RunStudyTransition
  end.
End CommandBody.

Module CommandRequest.
Record t := new {
  command_id : CommandId.t;
  principal_id : PrincipalId;
  capability_grant_id : CapabilityGrantId;
  capability : Capability.t;
  expected_generation : ExpectedGeneration.t;
  body : CommandBody.t;
}.
End CommandRequest.

Module EventBody.
Inductive t :=
| SocietyIdentityCreated (society_id : SocietyId)
| RootAuthorityOfficeInstalled (office_id : OfficeId)
| FoundingMissionInstalled (mission_id : FoundingMissionId)
    (application_revision_id : ApplicationRevisionId)
| RootAuthorityAppointed (occupancy_id : OfficeOccupancyId) (principal_id : PrincipalId)
| R0HardCeilingSet (society_id : SocietyId) (ceiling : UsdMicros.t)
| SocietyBootstrapped (society_id : SocietyId)
| OperatingCycleProposed (cycle_id : OperatingCycleId) (generation : AdmissionGeneration.t)
    (treatment : OperatingCycleTreatment.t) (budget_ceiling : UsdMicros.t)
| OperatingCycleStateChanged (cycle_id : OperatingCycleId) (state : OperatingCycleState.t)
    (generation : AdmissionGeneration.t)
| RootAuthorityOfficeSessionStarted (session_id : RootAuthorityOfficeSessionId)
    (cycle_id : OperatingCycleId)
| RootAuthorityOfficeSessionStateChanged (session_id : RootAuthorityOfficeSessionId)
    (state : OfficeSessionState.t)
| OfficeTurnOpened (turn_id : OfficeTurnId) (session_id : RootAuthorityOfficeSessionId)
    (purpose : OfficeTurnPurpose.t)
| OfficeTurnSettled (turn_id : OfficeTurnId) (session_id : RootAuthorityOfficeSessionId)
    (charged_delta : UsdMicros.t)
| BudgetReserved (reservation_id : BudgetReservationId) (cycle_id : OperatingCycleId)
    (amount : UsdMicros.t)
| BudgetReconciled (reservation_id : BudgetReservationId) (observed : UsdMicros.t)
| BudgetAdmissionFrozen (reservation_id : BudgetReservationId) (cycle_id : OperatingCycleId)
    (cancellation_request_id : CancellationRequestId) (postmortem_id : CostPostmortemId)
    (reason : BudgetFreezeReason.t)
| CancellationRequested (cancellation_request_id : CancellationRequestId)
    (cycle_id : OperatingCycleId) (mode : CancellationMode.t)
    (generation : AdmissionGeneration.t)
| CancellationReconciled (cancellation_request_id : CancellationRequestId)
    (cycle_id : OperatingCycleId)
| CostPostmortemClosed (postmortem_id : CostPostmortemId)
    (reservation_id : BudgetReservationId) (cycle_id : OperatingCycleId)
    (resolution : CostPostmortemResolution.t) (charged : UsdMicros.t)
| ProjectCreated (project_id : ProjectId) (application_revision_id : ApplicationRevisionId)
| ProjectChartered (project_id : ProjectId)
| ProjectStateChanged (project_id : ProjectId) (state : ProjectState.t)
| ProjectMilestoneCompleted (project_milestone_id : ProjectMilestoneId)
| TicketCreated (ticket_id : TicketId) (project_id : ProjectId)
| TicketStateChanged (ticket_id : TicketId) (state : TicketState.t)
| GraphObjectRevisionAdded (graph_object_id : GraphObjectId)
    (graph_revision_id : GraphRevisionId)
| GraphRevisionCommitted (graph_revision_id : GraphRevisionId)
| GraphEdgeAdded (graph_edge_id : GraphEdgeId)
| EpisodeCreated (causal_episode_id : CausalEpisodeId) (project_id : ProjectId)
| EpisodeStateChanged (causal_episode_id : CausalEpisodeId) (state : EpisodeState.t)
| AdversarialReviewRequested (adversarial_review_id : AdversarialReviewId)
| AdversarialReviewerAssigned (adversarial_review_id : AdversarialReviewId)
    (reviewer_principal_id : PrincipalId) (reviewer_actor_instance_id : ActorInstanceId)
    (reviewer_actor_attempt_id : ActorAttemptId)
| ReviewChallengeSubmitted (review_challenge_id : ReviewChallengeId)
    (author_principal_id : PrincipalId)
| ReviewChallengeResponded (review_challenge_id : ReviewChallengeId)
| ReviewChallengeDispositioned (review_challenge_id : ReviewChallengeId)
    (disposition : ReviewDispositionKind.t)
| AdversarialReviewResolved (adversarial_review_id : AdversarialReviewId)
    (state : AdversarialReviewState.t)
| PostmortemTriggered (postmortem_id : PostmortemId)
| PostmortemCausalClaimRecorded (postmortem_causal_claim_id : PostmortemCausalClaimId)
| PostmortemActionProposed (postmortem_action_proposal_id : PostmortemActionProposalId)
| PostmortemClosed (postmortem_id : PostmortemId)
| ActorConfigurationRegistered (actor_configuration_id : ActorConfigurationId)
    (actor_configuration_revision_id : ActorConfigurationRevisionId)
| ContextPackRegistered (context_pack_id : ContextPackId)
| ActorInstanceAdmitted (actor_instance_id : ActorInstanceId) (principal_id : PrincipalId)
| TicketAdmitted (ticket_id : TicketId)
| WorkItemRegistered (work_item_id : WorkItemId) (ticket_id : TicketId)
    (adversarial_review_id : option AdversarialReviewId)
| WorkItemClaimed (work_item_id : WorkItemId) (work_lease_id : WorkLeaseId)
    (actor_instance_id : ActorInstanceId)
| ActorAttemptStarted (actor_attempt_id : ActorAttemptId) (work_item_id : WorkItemId)
    (budget_reservation_id : BudgetReservationId)
| ActorAttemptTerminalAttested (actor_attempt_id : ActorAttemptId)
    (terminal_kind : ActorAttemptTerminalKind.t)
| TicketAttemptValidated (actor_attempt_id : ActorAttemptId) (ticket_id : TicketId)
| ActorAttemptRetryPrepared (actor_attempt_id : ActorAttemptId) (work_item_id : WorkItemId)
    (ticket_id : TicketId)
| TicketCompleted (ticket_id : TicketId) (actor_attempt_id : ActorAttemptId)
| WorkLeaseExpired (work_lease_id : WorkLeaseId) (work_item_id : WorkItemId)
| ActorAttemptCancellationRequested (actor_attempt_id : ActorAttemptId)
    (reason : ActorAttemptCancellationReason.t)
| OutcomeObligationRegistered (outcome_obligation_id : OutcomeObligationId)
    (project_id : ProjectId)
| OutcomeObligationResolved (outcome_obligation_id : OutcomeObligationId)
    (state : OutcomeObligationState.t)
| ContentSealReceiptRecorded (content_seal_receipt_id : ContentSealReceiptId)
    (digest : Blake3Digest.t)
| ContentObjectRegistered (content_object_id : ContentObjectId)
    (content_seal_receipt_id : ContentSealReceiptId)
| ForensicManifestRegistered (forensic_manifest_id : ForensicManifestId)
    (producing_deterministic_experiment_id : DeterministicExperimentId)
    (evaluator_output_content_object_id : ContentObjectId)
| DeterministicEvaluatorForensicManifestRegistered
    (forensic_manifest_id : ForensicManifestId)
    (deterministic_experiment_id : DeterministicExperimentId)
    (native_child_spawn_admission_id : NativeChildSpawnAdmissionId)
    (native_child_stream_seal_id : NativeChildStreamSealId)
    (evaluator_output_content_object_id : ContentObjectId)
| DeterministicExperimentRegistered
    (deterministic_experiment_id : DeterministicExperimentId)
    (evaluator_revision_id : EvaluatorRevisionId) (input_manifest_id : InputManifestId)
| DeterministicEvaluationReceiptRecorded
    (deterministic_evaluation_receipt_id : DeterministicEvaluationReceiptId)
    (deterministic_experiment_id : DeterministicExperimentId)
| DeterministicEvidenceAdmitted (evidence_admission_id : EvidenceAdmissionId)
    (deterministic_evaluation_receipt_id : DeterministicEvaluationReceiptId)
    (semantic_role : EvidenceSemanticRole.t) (applicability : EvidenceApplicability.t)
    (limitation_kind : EvidenceLimitationKind.t)
| DeterministicExperimentFinalized (deterministic_experiment_id : DeterministicExperimentId)
    (terminal_state : DeterministicExperimentState.t)
| DeterministicEvaluatorNativeChildAdmitted
    (native_child_spawn_admission_id : NativeChildSpawnAdmissionId)
    (owner : NativeChildOwner.t)
| DeterministicEvaluatorNativeChildSpawnRecorded (native_child_id : NativeChildId)
    (native_child_spawn_admission_id : NativeChildSpawnAdmissionId)
| PiChildSpawnAdmitted (native_child_spawn_admission_id : NativeChildSpawnAdmissionId)
    (owner : PiChildOwner.t) (budget_reservation_id : BudgetReservationId)
| InertPiChildSpawnRecorded (native_child_id : NativeChildId)
    (native_child_spawn_admission_id : NativeChildSpawnAdmissionId)
| PiAdapterReadyRecorded (native_child_id : NativeChildId) (pi_session_id : PiSessionId)
| PiCreateSessionAuthorized (native_child_id : NativeChildId)
| PiCreateSessionDeliveryRecorded (native_child_id : NativeChildId)
| PiSessionReadyRecorded (native_child_id : NativeChildId) (pi_session_id : PiSessionId)
| PiAbortControlDeliveryRecorded (pi_abort_control_receipt_id : PiAbortControlReceiptId)
    (native_child_id : NativeChildId)
    (cancellation_propagation_id : CancellationPropagationId)
    (correlation_identity : PiCorrelationIdentity) (abort_command_digest : Blake3Digest.t)
    (outcome : PiAbortControlWriteOutcome.t)
| ChildStreamSealed (native_child_stream_seal_id : NativeChildStreamSealId)
    (native_child_id : NativeChildId) (stream_kind : ChildStreamKind.t)
    (completeness : ChildStreamSealCompleteness.t)
| ChildProcessLivenessObserved
    (native_child_liveness_observation_id : NativeChildLivenessObservationId)
    (native_child_id : NativeChildId) (liveness : ProcessGroupLiveness.t)
| ProcessSignalReceiptRecorded (process_signal_receipt_id : ProcessSignalReceiptId)
    (native_child_id : NativeChildId) (action : ProcessSignalAction.t)
    (delivery : ProcessSignalDelivery.t) (observed_liveness : ProcessGroupLiveness.t)
    (cause : ProcessSignalCause.t)
| DirectChildReaped (native_child_reap_receipt_id : NativeChildReapReceiptId)
    (native_child_id : NativeChildId) (wait_status : DirectChildWaitStatus.t)
    (group_liveness_before_cleanup group_liveness_after_cleanup : ProcessGroupLiveness.t)
| ChildRecoveryObserved (native_child_recovery_receipt_id : NativeChildRecoveryReceiptId)
    (native_child_id : NativeChildId) (observation : ChildRecoveryObservation.t)
    (group_liveness_after_restart : ProcessGroupLiveness.t)
| ChildProcessFinalized (native_child_id : NativeChildId)
    (disposition : ChildTerminalDisposition.t)
| CancellationPropagationBegun (cancellation_propagation_id : CancellationPropagationId)
    (cancellation_request_id : CancellationRequestId)
| CancellationPropagationReconciled
    (cancellation_propagation_id : CancellationPropagationId)
| CancellationPropagationContainmentFailed
    (cancellation_propagation_id : CancellationPropagationId)
| NativeChildSpawnInvalidated
    (native_child_spawn_admission_id : NativeChildSpawnAdmissionId)
    (reason : NativeChildNotSpawnedReason.t)
| SupervisorEpochOpened (supervisor_epoch_id : SupervisorEpochId)
| PiOfficeTurnPromptAuthorized
    (pi_office_turn_prompt_authorization_id : PiOfficeTurnPromptAuthorizationId)
    (office_turn_id : OfficeTurnId) (native_child_id : NativeChildId)
    (correlation_identity : PiCorrelationIdentity)
    (budget_reservation_id : BudgetReservationId)
| PiOfficeTurnPromptDelivered (office_turn_id : OfficeTurnId)
    (correlation_identity : PiCorrelationIdentity)
| PiOfficeTurnPromptAccepted (office_turn_id : OfficeTurnId)
    (correlation_identity : PiCorrelationIdentity)
    (command_result_sequence : PiProtocolSequence)
| PiOfficeTurnUsageRecorded (pi_office_turn_usage_receipt_id : PiOfficeTurnUsageReceiptId)
    (office_turn_id : OfficeTurnId) (protocol_sequence : PiProtocolSequence)
    (cumulative_micro_usd : UsdMicros.t)
| PiOfficeTurnUsageFrozen (office_turn_id : OfficeTurnId)
    (budget_reservation_id : BudgetReservationId)
    (cancellation_request_id : CancellationRequestId) (postmortem_id : CostPostmortemId)
    (failure : PiOfficeTurnUsageFailure.t)
| PiOfficeTurnTerminalRecorded
    (pi_office_turn_terminal_receipt_id : PiOfficeTurnTerminalReceiptId)
    (office_turn_id : OfficeTurnId) (disposition : PiOfficeTurnDisposition.t)
    (assistant_outcome : PiOfficeTurnAssistantOutcome.t)
| PiOfficeSessionDisposeAuthorized (session_id : RootAuthorityOfficeSessionId)
    (native_child_id : NativeChildId) (correlation_identity : PiCorrelationIdentity)
    (authorized_generation : AdmissionGeneration.t)
| PiOfficeSessionDisposeDelivered (session_id : RootAuthorityOfficeSessionId)
    (native_child_id : NativeChildId) (correlation_identity : PiCorrelationIdentity)
| PiOfficeSessionDisposeAccepted (session_id : RootAuthorityOfficeSessionId)
    (correlation_identity : PiCorrelationIdentity)
    (command_result_sequence : PiProtocolSequence)
| PiOfficeSessionDisposeUsageRecorded (session_id : RootAuthorityOfficeSessionId)
    (protocol_sequence : PiProtocolSequence) (cumulative_micro_usd : UsdMicros.t)
| PiOfficeSessionDisposeUsageFrozen (session_id : RootAuthorityOfficeSessionId)
    (budget_reservation_id : BudgetReservationId)
    (cancellation_request_id : CancellationRequestId) (postmortem_id : CostPostmortemId)
    (failure : PiOfficeTurnUsageFailure.t)
| PiOfficeSessionDisposed
    (pi_office_session_dispose_receipt_id : PiOfficeSessionDisposeReceiptId)
    (session_id : RootAuthorityOfficeSessionId)
    (budget_reservation_id : BudgetReservationId)
    (observed_cumulative_micro_usd : UsdMicros.t)
    (budget_disposition : PiOfficeSessionDisposeBudgetDisposition.t)
| PiTaskAttemptPromptAuthorized
    (pi_task_attempt_prompt_authorization_id : PiTaskAttemptPromptAuthorizationId)
    (actor_attempt_id : ActorAttemptId) (native_child_id : NativeChildId)
    (correlation_identity : PiCorrelationIdentity)
    (budget_reservation_id : BudgetReservationId)
| PiTaskAttemptPromptDelivered (actor_attempt_id : ActorAttemptId)
    (correlation_identity : PiCorrelationIdentity)
| PiTaskAttemptPromptAccepted (actor_attempt_id : ActorAttemptId)
    (correlation_identity : PiCorrelationIdentity)
    (command_result_sequence : PiProtocolSequence)
| PiTaskAttemptUsageRecorded
    (pi_task_attempt_usage_receipt_id : PiTaskAttemptUsageReceiptId)
    (actor_attempt_id : ActorAttemptId) (protocol_sequence : PiProtocolSequence)
    (cumulative_micro_usd : UsdMicros.t)
| PiTaskAttemptUsageFrozen (actor_attempt_id : ActorAttemptId)
    (budget_reservation_id : BudgetReservationId)
    (cancellation_request_id : CancellationRequestId) (postmortem_id : CostPostmortemId)
    (failure : PiTaskAttemptUsageFailure.t)
| PiTaskAttemptTerminalRecorded
    (pi_task_attempt_terminal_receipt_id : PiTaskAttemptTerminalReceiptId)
    (actor_attempt_id : ActorAttemptId) (disposition : PiTaskAttemptDisposition.t)
    (assistant_outcome : PiTaskAttemptAssistantOutcome.t)
| PiTaskAttemptSessionDisposeAuthorized (actor_attempt_id : ActorAttemptId)
    (native_child_id : NativeChildId) (correlation_identity : PiCorrelationIdentity)
    (authorized_generation : AdmissionGeneration.t)
| PiTaskAttemptSessionDisposeDelivered (actor_attempt_id : ActorAttemptId)
    (native_child_id : NativeChildId) (correlation_identity : PiCorrelationIdentity)
| PiTaskAttemptSessionDisposeAccepted (actor_attempt_id : ActorAttemptId)
    (correlation_identity : PiCorrelationIdentity)
    (command_result_sequence : PiProtocolSequence)
| PiTaskAttemptSessionDisposeUsageRecorded (actor_attempt_id : ActorAttemptId)
    (protocol_sequence : PiProtocolSequence) (cumulative_micro_usd : UsdMicros.t)
| PiTaskAttemptSessionDisposeUsageFrozen (actor_attempt_id : ActorAttemptId)
    (budget_reservation_id : BudgetReservationId)
    (cancellation_request_id : CancellationRequestId) (postmortem_id : CostPostmortemId)
    (failure : PiTaskAttemptUsageFailure.t)
| PiTaskAttemptSessionDisposed
    (pi_task_attempt_session_dispose_receipt_id : PiTaskAttemptSessionDisposeReceiptId)
    (actor_attempt_id : ActorAttemptId) (budget_reservation_id : BudgetReservationId)
    (observed_cumulative_micro_usd : UsdMicros.t)
    (budget_disposition : PiTaskAttemptSessionDisposeBudgetDisposition.t)
| NativeExecutionProfileQualified (qualification_id : ExecutionProfileQualificationId)
    (operating_cycle_id : OperatingCycleId) (execution_profile_id : ExecutionProfileId)
    (native_child_spawn_admission_id : NativeChildSpawnAdmissionId)
    (native_child_id : NativeChildId)
| NativeExecutionProfileQualificationStarted (operating_cycle_id : OperatingCycleId)
    (generation : AdmissionGeneration.t)
| StudyActorTaskAttemptLaunchClaimed (launch_claim_id : StudyActorTaskAttemptLaunchId)
    (study_actor_obligation_id : StudyActorObligationId)
    (operating_cycle_id : OperatingCycleId) (work_item_id : WorkItemId)
    (actor_attempt_id : ActorAttemptId) (budget_reservation_id : BudgetReservationId)
    (execution_profile_id : ExecutionProfileId) (supervisor_epoch_id : SupervisorEpochId)
    (admission_generation : AdmissionGeneration.t)
| NativeExecutionProfileQualificationLaunchClaimed
    (launch_claim_id : NativeExecutionProfileQualificationLaunchId)
    (operating_cycle_id : OperatingCycleId) (budget_reservation_id : BudgetReservationId)
    (execution_profile_id : ExecutionProfileId) (supervisor_epoch_id : SupervisorEpochId)
    (admission_generation : AdmissionGeneration.t)
| StudyActorWorkAllocated (study_run_id : StudyRunId) (pair_ordinal : StudyRunPairOrdinal.t)
    (treatment : StudyTreatment.t) (phase : StudyPopulationPhase.t)
    (role : StudyRoleOrdinal.t) (operating_cycle_id : OperatingCycleId)
    (work_item_id : WorkItemId) (reservation_amount : UsdMicros.t)
    (supervisor_epoch_id : SupervisorEpochId) (admission_generation : AdmissionGeneration.t)
| StudyTransition (event : StudyEvent.t).
Definition kind (self : t) : EventKind.t :=
  match self with
  | SocietyIdentityCreated _ => EventKind.SocietyIdentityCreated
  | RootAuthorityOfficeInstalled _ => EventKind.RootAuthorityOfficeInstalled
  | FoundingMissionInstalled _ _ => EventKind.FoundingMissionInstalled
  | RootAuthorityAppointed _ _ => EventKind.RootAuthorityAppointed
  | R0HardCeilingSet _ _ => EventKind.R0HardCeilingSet
  | SocietyBootstrapped _ => EventKind.SocietyBootstrapped
  | OperatingCycleProposed _ _ _ _ => EventKind.OperatingCycleProposed
  | OperatingCycleStateChanged _ _ _ => EventKind.OperatingCycleStateChanged
  | RootAuthorityOfficeSessionStarted _ _ => EventKind.RootAuthorityOfficeSessionStarted
  | RootAuthorityOfficeSessionStateChanged _ _ =>
      EventKind.RootAuthorityOfficeSessionStateChanged
  | OfficeTurnOpened _ _ _ => EventKind.OfficeTurnOpened
  | OfficeTurnSettled _ _ _ => EventKind.OfficeTurnSettled
  | BudgetReserved _ _ _ => EventKind.BudgetReserved
  | BudgetReconciled _ _ => EventKind.BudgetReconciled
  | BudgetAdmissionFrozen _ _ _ _ _ => EventKind.BudgetAdmissionFrozen
  | CancellationRequested _ _ _ _ => EventKind.CancellationRequested
  | CancellationReconciled _ _ => EventKind.CancellationReconciled
  | CostPostmortemClosed _ _ _ _ _ => EventKind.CostPostmortemClosed
  | ProjectCreated _ _ => EventKind.ProjectCreated
  | ProjectChartered _ => EventKind.ProjectChartered
  | ProjectStateChanged _ _ => EventKind.ProjectStateChanged
  | ProjectMilestoneCompleted _ => EventKind.ProjectMilestoneCompleted
  | TicketCreated _ _ => EventKind.TicketCreated
  | TicketStateChanged _ _ => EventKind.TicketStateChanged
  | GraphObjectRevisionAdded _ _ => EventKind.GraphObjectRevisionAdded
  | GraphRevisionCommitted _ => EventKind.GraphRevisionCommitted
  | GraphEdgeAdded _ => EventKind.GraphEdgeAdded
  | EpisodeCreated _ _ => EventKind.EpisodeCreated
  | EpisodeStateChanged _ _ => EventKind.EpisodeStateChanged
  | AdversarialReviewRequested _ => EventKind.AdversarialReviewRequested
  | AdversarialReviewerAssigned _ _ _ _ => EventKind.AdversarialReviewerAssigned
  | ReviewChallengeSubmitted _ _ => EventKind.ReviewChallengeSubmitted
  | ReviewChallengeResponded _ => EventKind.ReviewChallengeResponded
  | ReviewChallengeDispositioned _ _ => EventKind.ReviewChallengeDispositioned
  | AdversarialReviewResolved _ _ => EventKind.AdversarialReviewResolved
  | PostmortemTriggered _ => EventKind.PostmortemTriggered
  | PostmortemCausalClaimRecorded _ => EventKind.PostmortemCausalClaimRecorded
  | PostmortemActionProposed _ => EventKind.PostmortemActionProposed
  | PostmortemClosed _ => EventKind.PostmortemClosed
  | ActorConfigurationRegistered _ _ => EventKind.ActorConfigurationRegistered
  | ContextPackRegistered _ => EventKind.ContextPackRegistered
  | ActorInstanceAdmitted _ _ => EventKind.ActorInstanceAdmitted
  | TicketAdmitted _ => EventKind.TicketAdmitted
  | WorkItemRegistered _ _ _ => EventKind.WorkItemRegistered
  | WorkItemClaimed _ _ _ => EventKind.WorkItemClaimed
  | ActorAttemptStarted _ _ _ => EventKind.ActorAttemptStarted
  | ActorAttemptTerminalAttested _ _ => EventKind.ActorAttemptTerminalAttested
  | TicketAttemptValidated _ _ => EventKind.TicketAttemptValidated
  | ActorAttemptRetryPrepared _ _ _ => EventKind.ActorAttemptRetryPrepared
  | TicketCompleted _ _ => EventKind.TicketCompleted
  | WorkLeaseExpired _ _ => EventKind.WorkLeaseExpired
  | ActorAttemptCancellationRequested _ _ => EventKind.ActorAttemptCancellationRequested
  | OutcomeObligationRegistered _ _ => EventKind.OutcomeObligationRegistered
  | OutcomeObligationResolved _ _ => EventKind.OutcomeObligationResolved
  | ContentSealReceiptRecorded _ _ => EventKind.ContentSealReceiptRecorded
  | ContentObjectRegistered _ _ => EventKind.ContentObjectRegistered
  | ForensicManifestRegistered _ _ _ => EventKind.ForensicManifestRegistered
  | DeterministicEvaluatorForensicManifestRegistered _ _ _ _ _ =>
      EventKind.DeterministicEvaluatorForensicManifestRegistered
  | DeterministicExperimentRegistered _ _ _ => EventKind.DeterministicExperimentRegistered
  | DeterministicEvaluationReceiptRecorded _ _ =>
      EventKind.DeterministicEvaluationReceiptRecorded
  | DeterministicEvidenceAdmitted _ _ _ _ _ => EventKind.DeterministicEvidenceAdmitted
  | DeterministicExperimentFinalized _ _ => EventKind.DeterministicExperimentFinalized
  | DeterministicEvaluatorNativeChildAdmitted _ _ =>
      EventKind.DeterministicEvaluatorNativeChildAdmitted
  | DeterministicEvaluatorNativeChildSpawnRecorded _ _ =>
      EventKind.DeterministicEvaluatorNativeChildSpawnRecorded
  | PiChildSpawnAdmitted _ _ _ => EventKind.PiChildSpawnAdmitted
  | InertPiChildSpawnRecorded _ _ => EventKind.InertPiChildSpawnRecorded
  | PiAdapterReadyRecorded _ _ => EventKind.PiAdapterReadyRecorded
  | PiCreateSessionAuthorized _ => EventKind.PiCreateSessionAuthorized
  | PiCreateSessionDeliveryRecorded _ => EventKind.PiCreateSessionDeliveryRecorded
  | PiSessionReadyRecorded _ _ => EventKind.PiSessionReadyRecorded
  | PiAbortControlDeliveryRecorded _ _ _ _ _ _ => EventKind.PiAbortControlDeliveryRecorded
  | ChildStreamSealed _ _ _ _ => EventKind.ChildStreamSealed
  | ChildProcessLivenessObserved _ _ _ => EventKind.ChildProcessLivenessObserved
  | ProcessSignalReceiptRecorded _ _ _ _ _ _ => EventKind.ProcessSignalReceiptRecorded
  | DirectChildReaped _ _ _ _ _ => EventKind.DirectChildReaped
  | ChildRecoveryObserved _ _ _ _ => EventKind.ChildRecoveryObserved
  | ChildProcessFinalized _ _ => EventKind.ChildProcessFinalized
  | CancellationPropagationBegun _ _ => EventKind.CancellationPropagationBegun
  | CancellationPropagationReconciled _ => EventKind.CancellationPropagationReconciled
  | SupervisorEpochOpened _ => EventKind.SupervisorEpochOpened
  | CancellationPropagationContainmentFailed _ =>
      EventKind.CancellationPropagationContainmentFailed
  | NativeChildSpawnInvalidated _ _ => EventKind.NativeChildSpawnInvalidated
  | PiOfficeTurnPromptAuthorized _ _ _ _ _ => EventKind.PiOfficeTurnPromptAuthorized
  | PiOfficeTurnPromptDelivered _ _ => EventKind.PiOfficeTurnPromptDelivered
  | PiOfficeTurnPromptAccepted _ _ _ => EventKind.PiOfficeTurnPromptAccepted
  | PiOfficeTurnUsageRecorded _ _ _ _ => EventKind.PiOfficeTurnUsageRecorded
  | PiOfficeTurnUsageFrozen _ _ _ _ _ => EventKind.PiOfficeTurnUsageFrozen
  | PiOfficeTurnTerminalRecorded _ _ _ _ => EventKind.PiOfficeTurnTerminalRecorded
  | PiOfficeSessionDisposeAuthorized _ _ _ _ => EventKind.PiOfficeSessionDisposeAuthorized
  | PiOfficeSessionDisposeDelivered _ _ _ => EventKind.PiOfficeSessionDisposeDelivered
  | PiOfficeSessionDisposeAccepted _ _ _ => EventKind.PiOfficeSessionDisposeAccepted
  | PiOfficeSessionDisposeUsageRecorded _ _ _ => EventKind.PiOfficeSessionDisposeUsageRecorded
  | PiOfficeSessionDisposeUsageFrozen _ _ _ _ _ => EventKind.PiOfficeSessionDisposeUsageFrozen
  | PiOfficeSessionDisposed _ _ _ _ _ => EventKind.PiOfficeSessionDisposed
  | PiTaskAttemptPromptAuthorized _ _ _ _ _ => EventKind.PiTaskAttemptPromptAuthorized
  | PiTaskAttemptPromptDelivered _ _ => EventKind.PiTaskAttemptPromptDelivered
  | PiTaskAttemptPromptAccepted _ _ _ => EventKind.PiTaskAttemptPromptAccepted
  | PiTaskAttemptUsageRecorded _ _ _ _ => EventKind.PiTaskAttemptUsageRecorded
  | PiTaskAttemptUsageFrozen _ _ _ _ _ => EventKind.PiTaskAttemptUsageFrozen
  | PiTaskAttemptTerminalRecorded _ _ _ _ => EventKind.PiTaskAttemptTerminalRecorded
  | PiTaskAttemptSessionDisposeAuthorized _ _ _ _ =>
      EventKind.PiTaskAttemptSessionDisposeAuthorized
  | PiTaskAttemptSessionDisposeDelivered _ _ _ => EventKind.PiTaskAttemptSessionDisposeDelivered
  | PiTaskAttemptSessionDisposeAccepted _ _ _ => EventKind.PiTaskAttemptSessionDisposeAccepted
  | PiTaskAttemptSessionDisposeUsageRecorded _ _ _ =>
      EventKind.PiTaskAttemptSessionDisposeUsageRecorded
  | PiTaskAttemptSessionDisposeUsageFrozen _ _ _ _ _ =>
      EventKind.PiTaskAttemptSessionDisposeUsageFrozen
  | PiTaskAttemptSessionDisposed _ _ _ _ _ => EventKind.PiTaskAttemptSessionDisposed
  | NativeExecutionProfileQualified _ _ _ _ _ => EventKind.NativeExecutionProfileQualified
  | NativeExecutionProfileQualificationStarted _ _ =>
      EventKind.NativeExecutionProfileQualificationStarted
  | StudyActorTaskAttemptLaunchClaimed _ _ _ _ _ _ _ _ _ =>
      EventKind.StudyActorTaskAttemptLaunchClaimed
  | NativeExecutionProfileQualificationLaunchClaimed _ _ _ _ _ _ =>
      EventKind.NativeExecutionProfileQualificationLaunchClaimed
  | StudyActorWorkAllocated _ _ _ _ _ _ _ _ _ _ => EventKind.StudyActorWorkAllocated
  | StudyTransition _ => EventKind.StudyTransition
  end.
End EventBody.

Module CommandDisposition.
Inductive t :=
| Accepted (id : EventId)
| Rejected (value : Rejection.t).
#[global] Instance eq_dec : EqDecision t.
Proof. solve_decision. Defined.
End CommandDisposition.

Module CommandReceipt.
Record t := new { disposition : CommandDisposition.t; idempotent : bool }.
#[global] Instance eq_dec : EqDecision t.
Proof. solve_decision. Defined.
End CommandReceipt.

Module LedgerEvent.
Record t := new { event_id : EventId; command_id : CommandId.t; body : EventBody.t }.
End LedgerEvent.
