(* ===== verification/KernelCodes.v ===== *)
(** * Stored codes: integers and column groups back into closed values

    [society-kernel/src/store.rs] and [study.rs], the functions that read what
    PostgreSQL stores: one table per enum ([*_from_i64]), and the column groups of the
    sum types ([*_from_sql]) with the writers next to them.  Every table is a
    [CodeTable]: it reads back each discriminant, and nothing else. *)

From S2P Require Import Prelude Machine KernelScalars KernelEnums KernelCustody.
From S2P Require Import StudyTypes StudyCommands KernelCommands.

(** [Database] and [Postgres] wrap the error of a statement and of a connection. *)
Module StoreError.
Inductive t :=
| Database
| Postgres
| UnsupportedSchemaVersion (version : Z)
| IdempotencyConflict
| DeterministicEvaluatorScheduleClaimRejected (rejection : Rejection.t)
| OperatingCycleNotFound (id : OperatingCycleId)
| LedgerEventNotFound (id : EventId)
| StudyPairNotFound (id : StudyPairId)
| StudyEpisodeNotFound (id : StudyEpisodeId)
| StudyPostActorForumNotReady (id : StudyEpisodeId)
| StudyPostActorForumTooLarge (episode_id : StudyEpisodeId) (limit : Z)
| StudyRunNotFound (id : StudyRunId)
| LedgerCorruption (what : string)
| InvalidStoredValue.
#[global] Instance eq_dec : EqDecision t.
Proof. solve_decision. Defined.
End StoreError.

Abbreviation store_result A := (result A StoreError.t).
Abbreviation rejection_result A := (result A Rejection.t).

(** ** The tables of [store.rs] *)

Definition command_kind_from_i64 (value : Z) : store_result CommandKind.t :=
  match value with
  | 1 => Ok CommandKind.CreateSocietyIdentity
  | 2 => Ok CommandKind.InstallRootAuthorityOffice
  | 3 => Ok CommandKind.InstallFoundingMission
  | 4 => Ok CommandKind.AppointInitialRootAuthority
  | 5 => Ok CommandKind.SetR0HardCeiling
  | 6 => Ok CommandKind.BootstrapSociety
  | 7 => Ok CommandKind.ProposeOperatingCycle
  | 8 => Ok CommandKind.AdmitOperatingCycle
  | 9 => Ok CommandKind.StartRootAuthorityOfficeSession
  | 10 => Ok CommandKind.RecordOfficeSessionReady
  | 11 => Ok CommandKind.OpenOfficeTurn
  | 12 => Ok CommandKind.SettleOfficeTurn
  | 13 => Ok CommandKind.QuiesceOperatingCycle
  | 14 => Ok CommandKind.RecordCycleDrained
  | 15 => Ok CommandKind.ResumeOperatingCycle
  | 16 => Ok CommandKind.ReconcileOperatingCycle
  | 17 => Ok CommandKind.CloseOperatingCycle
  | 18 => Ok CommandKind.ReserveBudget
  | 19 => Ok CommandKind.ReconcileBudget
  | 20 => Ok CommandKind.RequestCancellation
  | 21 => Ok CommandKind.ReconcileCancellation
  | 22 => Ok CommandKind.RecordOfficeSessionTerminal
  | 23 => Ok CommandKind.CloseCostPostmortem
  | 24 => Ok CommandKind.CreateProject
  | 25 => Ok CommandKind.CharterProject
  | 26 => Ok CommandKind.TransitionProject
  | 27 => Ok CommandKind.CompleteProjectMilestone
  | 28 => Ok CommandKind.ReopenProject
  | 29 => Ok CommandKind.CreateTicket
  | 30 => Ok CommandKind.TransitionTicket
  | 31 => Ok CommandKind.AddGraphObjectRevision
  | 32 => Ok CommandKind.CommitGraphRevision
  | 33 => Ok CommandKind.AddGraphEdge
  | 34 => Ok CommandKind.CreateEpisode
  | 35 => Ok CommandKind.TransitionEpisode
  | 36 => Ok CommandKind.ReopenEpisode
  | 37 => Ok CommandKind.RequestAdversarialReview
  | 38 => Ok CommandKind.SubmitReviewChallenge
  | 39 => Ok CommandKind.RespondToReviewChallenge
  | 40 => Ok CommandKind.DispositionReviewChallenge
  | 41 => Ok CommandKind.ResolveAdversarialReview
  | 42 => Ok CommandKind.TriggerPostmortem
  | 43 => Ok CommandKind.RecordPostmortemCausalClaim
  | 44 => Ok CommandKind.ProposePostmortemAction
  | 45 => Ok CommandKind.ClosePostmortem
  | 46 => Ok CommandKind.AssignAdversarialReviewer
  | 47 => Ok CommandKind.RegisterActorConfiguration
  | 48 => Ok CommandKind.RegisterContextPack
  | 49 => Ok CommandKind.AdmitActorInstance
  | 50 => Ok CommandKind.AdmitTicket
  | 51 => Ok CommandKind.RegisterWorkItem
  | 52 => Ok CommandKind.ClaimWorkItem
  | 53 => Ok CommandKind.StartActorAttempt
  | 54 => Ok CommandKind.AttestActorAttemptTerminal
  | 55 => Ok CommandKind.ValidateTicketAttempt
  | 56 => Ok CommandKind.RetryActorAttempt
  | 57 => Ok CommandKind.CompleteTicket
  | 58 => Ok CommandKind.ExpireWorkLease
  | 59 => Ok CommandKind.CancelActorAttempt
  | 60 => Ok CommandKind.RegisterOutcomeObligation
  | 61 => Ok CommandKind.ResolveOutcomeObligation
  | 62 => Ok CommandKind.RecordContentSealReceipt
  | 63 => Ok CommandKind.RegisterContentObject
  | 64 => Ok CommandKind.RegisterForensicManifest
  | 65 => Ok CommandKind.RegisterDeterministicExperiment
  | 66 => Ok CommandKind.RecordDeterministicEvaluationReceipt
  | 67 => Ok CommandKind.AdmitDeterministicEvidence
  | 68 => Ok CommandKind.FinalizeDeterministicExperiment
  | 69 => Ok CommandKind.AdmitPiChildSpawn
  | 70 => Ok CommandKind.RecordInertChildSpawn
  | 71 => Ok CommandKind.RecordPiAdapterReady
  | 72 => Ok CommandKind.AuthorizePiCreateSession
  | 73 => Ok CommandKind.RecordPiCreateSessionDelivery
  | 74 => Ok CommandKind.RecordPiSessionReady
  | 75 => Ok CommandKind.RecordChildStreamSeal
  | 76 => Ok CommandKind.RecordChildProcessLiveness
  | 77 => Ok CommandKind.RecordProcessSignalReceipt
  | 78 => Ok CommandKind.RecordDirectChildReap
  | 79 => Ok CommandKind.RecordChildRecovery
  | 80 => Ok CommandKind.FinalizeChildProcess
  | 81 => Ok CommandKind.BeginCancellationPropagation
  | 82 => Ok CommandKind.ReconcileCancellationPropagation
  | 83 => Ok CommandKind.OpenSupervisorEpoch
  | 84 => Ok CommandKind.RecordPiAbortControlDelivery
  | 85 => Ok CommandKind.RecordNativeChildNotSpawned
  | 86 => Ok CommandKind.AuthorizePiOfficeTurnPrompt
  | 87 => Ok CommandKind.RecordPiOfficeTurnPromptDelivery
  | 88 => Ok CommandKind.RecordPiOfficeTurnPromptAccepted
  | 89 => Ok CommandKind.RecordPiOfficeTurnUsage
  | 90 => Ok CommandKind.RecordPiOfficeTurnUsageFailure
  | 91 => Ok CommandKind.RecordPiOfficeTurnTerminal
  | 92 => Ok CommandKind.AuthorizePiOfficeSessionDispose
  | 93 => Ok CommandKind.RecordPiOfficeSessionDisposeDelivery
  | 94 => Ok CommandKind.RecordPiOfficeSessionDisposeAccepted
  | 95 => Ok CommandKind.RecordPiOfficeSessionDisposeUsage
  | 96 => Ok CommandKind.RecordPiOfficeSessionDisposeUsageFailure
  | 97 => Ok CommandKind.RecordPiOfficeSessionDisposed
  | 98 => Ok CommandKind.AdmitDeterministicEvaluatorNativeChild
  | 99 => Ok CommandKind.RecordDeterministicEvaluatorNativeChildSpawn
  | 100 => Ok CommandKind.RegisterDeterministicEvaluatorForensicManifest
  | 101 => Ok CommandKind.StudyTransition
  | 102 => Ok CommandKind.AuthorizePiTaskAttemptPrompt
  | 103 => Ok CommandKind.RecordPiTaskAttemptPromptDelivery
  | 104 => Ok CommandKind.RecordPiTaskAttemptPromptAccepted
  | 105 => Ok CommandKind.RecordPiTaskAttemptUsage
  | 106 => Ok CommandKind.RecordPiTaskAttemptUsageFailure
  | 107 => Ok CommandKind.RecordPiTaskAttemptTerminal
  | 108 => Ok CommandKind.AuthorizePiTaskAttemptSessionDispose
  | 109 => Ok CommandKind.RecordPiTaskAttemptSessionDisposeDelivery
  | 110 => Ok CommandKind.RecordPiTaskAttemptSessionDisposeAccepted
  | 111 => Ok CommandKind.RecordPiTaskAttemptSessionDisposeUsage
  | 112 => Ok CommandKind.RecordPiTaskAttemptSessionDisposeUsageFailure
  | 113 => Ok CommandKind.RecordPiTaskAttemptSessionDisposed
  | 114 => Ok CommandKind.QualifyNativeExecutionProfile
  | 115 => Ok CommandKind.StartNativeExecutionProfileQualification
  | 116 => Ok CommandKind.ClaimStudyActorTaskAttemptLaunch
  | 117 => Ok CommandKind.ClaimNativeExecutionProfileQualificationLaunch
  | 118 => Ok CommandKind.AllocateStudyActorWork
  | _ => Err StoreError.InvalidStoredValue
  end.
#[global] Instance command_kind_from_i64_table :
  CodeTable CommandKind.as_i64 command_kind_from_i64.
Proof. code_table. Qed.

Definition capability_from_i64 (value : Z) : store_result Capability.t :=
  match value with
  | 1 => Ok Capability.CreateSocietyIdentity
  | 2 => Ok Capability.InstallRootAuthorityOffice
  | 3 => Ok Capability.InstallFoundingMission
  | 4 => Ok Capability.AppointInitialRootAuthority
  | 5 => Ok Capability.SetR0HardCeiling
  | 6 => Ok Capability.BootstrapSociety
  | 7 => Ok Capability.ProposeOperatingCycle
  | 8 => Ok Capability.AdmitOperatingCycle
  | 9 => Ok Capability.QuiesceOperatingCycle
  | 10 => Ok Capability.ResumeOperatingCycle
  | 11 => Ok Capability.ReconcileOperatingCycle
  | 12 => Ok Capability.CloseOperatingCycle
  | 13 => Ok Capability.StartRootAuthorityOfficeSession
  | 14 => Ok Capability.OpenOfficeTurn
  | 15 => Ok Capability.RequestCancellation
  | 16 => Ok Capability.ReserveBudget
  | 17 => Ok Capability.ReconcileBudget
  | 18 => Ok Capability.RecordCycleDrained
  | 19 => Ok Capability.RecordOfficeSessionReady
  | 20 => Ok Capability.SettleOfficeTurn
  | 21 => Ok Capability.ReconcileCancellation
  | 22 => Ok Capability.RecordOfficeSessionTerminal
  | 23 => Ok Capability.CloseCostPostmortem
  | 24 => Ok Capability.CreateProject
  | 25 => Ok Capability.CharterProject
  | 26 => Ok Capability.TransitionProject
  | 27 => Ok Capability.CompleteProjectMilestone
  | 28 => Ok Capability.ReopenProject
  | 29 => Ok Capability.CreateTicket
  | 30 => Ok Capability.TransitionTicket
  | 31 => Ok Capability.AddGraphObjectRevision
  | 32 => Ok Capability.CommitGraphRevision
  | 33 => Ok Capability.AddGraphEdge
  | 34 => Ok Capability.CreateEpisode
  | 35 => Ok Capability.TransitionEpisode
  | 36 => Ok Capability.ReopenEpisode
  | 37 => Ok Capability.RequestAdversarialReview
  | 38 => Ok Capability.SubmitReviewChallenge
  | 39 => Ok Capability.RespondToReviewChallenge
  | 40 => Ok Capability.DispositionReviewChallenge
  | 41 => Ok Capability.ResolveAdversarialReview
  | 42 => Ok Capability.TriggerPostmortem
  | 43 => Ok Capability.RecordPostmortemCausalClaim
  | 44 => Ok Capability.ProposePostmortemAction
  | 45 => Ok Capability.ClosePostmortem
  | 46 => Ok Capability.AssignAdversarialReviewer
  | 47 => Ok Capability.RegisterActorConfiguration
  | 48 => Ok Capability.RegisterContextPack
  | 49 => Ok Capability.AdmitActorInstance
  | 50 => Ok Capability.AdmitTicket
  | 51 => Ok Capability.RegisterWorkItem
  | 52 => Ok Capability.ClaimWorkItem
  | 53 => Ok Capability.StartActorAttempt
  | 54 => Ok Capability.AttestActorAttemptTerminal
  | 55 => Ok Capability.ValidateTicketAttempt
  | 56 => Ok Capability.RetryActorAttempt
  | 57 => Ok Capability.CompleteTicket
  | 58 => Ok Capability.ExpireWorkLease
  | 59 => Ok Capability.CancelActorAttempt
  | 60 => Ok Capability.RegisterOutcomeObligation
  | 61 => Ok Capability.ResolveOutcomeObligation
  | 62 => Ok Capability.RecordContentSealReceipt
  | 63 => Ok Capability.RegisterContentObject
  | 64 => Ok Capability.RegisterForensicManifest
  | 65 => Ok Capability.RegisterDeterministicExperiment
  | 66 => Ok Capability.RecordDeterministicEvaluationReceipt
  | 67 => Ok Capability.AdmitDeterministicEvidence
  | 68 => Ok Capability.FinalizeDeterministicExperiment
  | 69 => Ok Capability.AdmitPiChildSpawn
  | 70 => Ok Capability.RecordInertChildSpawn
  | 71 => Ok Capability.RecordPiAdapterReady
  | 72 => Ok Capability.AuthorizePiCreateSession
  | 73 => Ok Capability.RecordPiCreateSessionDelivery
  | 74 => Ok Capability.RecordPiSessionReady
  | 75 => Ok Capability.RecordChildStreamSeal
  | 76 => Ok Capability.RecordChildProcessLiveness
  | 77 => Ok Capability.RecordProcessSignalReceipt
  | 78 => Ok Capability.RecordDirectChildReap
  | 79 => Ok Capability.RecordChildRecovery
  | 80 => Ok Capability.FinalizeChildProcess
  | 81 => Ok Capability.BeginCancellationPropagation
  | 82 => Ok Capability.ReconcileCancellationPropagation
  | 83 => Ok Capability.OpenSupervisorEpoch
  | 84 => Ok Capability.RecordPiAbortControlDelivery
  | 85 => Ok Capability.RecordNativeChildNotSpawned
  | 86 => Ok Capability.AuthorizePiOfficeTurnPrompt
  | 87 => Ok Capability.RecordPiOfficeTurnPromptDelivery
  | 88 => Ok Capability.RecordPiOfficeTurnPromptAccepted
  | 89 => Ok Capability.RecordPiOfficeTurnUsage
  | 90 => Ok Capability.RecordPiOfficeTurnUsageFailure
  | 91 => Ok Capability.RecordPiOfficeTurnTerminal
  | 92 => Ok Capability.AuthorizePiOfficeSessionDispose
  | 93 => Ok Capability.RecordPiOfficeSessionDisposeDelivery
  | 94 => Ok Capability.RecordPiOfficeSessionDisposeAccepted
  | 95 => Ok Capability.RecordPiOfficeSessionDisposeUsage
  | 96 => Ok Capability.RecordPiOfficeSessionDisposeUsageFailure
  | 97 => Ok Capability.RecordPiOfficeSessionDisposed
  | 98 => Ok Capability.AdmitDeterministicEvaluatorNativeChild
  | 99 => Ok Capability.RecordDeterministicEvaluatorNativeChildSpawn
  | 100 => Ok Capability.RegisterDeterministicEvaluatorForensicManifest
  | 101 => Ok Capability.RunStudyTransition
  | 102 => Ok Capability.AuthorizePiTaskAttemptPrompt
  | 103 => Ok Capability.RecordPiTaskAttemptPromptDelivery
  | 104 => Ok Capability.RecordPiTaskAttemptPromptAccepted
  | 105 => Ok Capability.RecordPiTaskAttemptUsage
  | 106 => Ok Capability.RecordPiTaskAttemptUsageFailure
  | 107 => Ok Capability.RecordPiTaskAttemptTerminal
  | 108 => Ok Capability.AuthorizePiTaskAttemptSessionDispose
  | 109 => Ok Capability.RecordPiTaskAttemptSessionDisposeDelivery
  | 110 => Ok Capability.RecordPiTaskAttemptSessionDisposeAccepted
  | 111 => Ok Capability.RecordPiTaskAttemptSessionDisposeUsage
  | 112 => Ok Capability.RecordPiTaskAttemptSessionDisposeUsageFailure
  | 113 => Ok Capability.RecordPiTaskAttemptSessionDisposed
  | 114 => Ok Capability.QualifyNativeExecutionProfile
  | 115 => Ok Capability.StartNativeExecutionProfileQualification
  | 116 => Ok Capability.ClaimStudyActorTaskAttemptLaunch
  | 117 => Ok Capability.ClaimNativeExecutionProfileQualificationLaunch
  | 118 => Ok Capability.AllocateStudyActorWork
  | _ => Err StoreError.InvalidStoredValue
  end.
#[global] Instance capability_from_i64_table :
  CodeTable Capability.as_i64 capability_from_i64.
Proof. code_table. Qed.

Definition study_treatment_from_i64 (value : Z) : store_result StudyTreatment.t :=
  match value with
  | 1 => Ok StudyTreatment.Retained
  | 2 => Ok StudyTreatment.Reset
  | _ => Err StoreError.InvalidStoredValue
  end.
#[global] Instance study_treatment_from_i64_table :
  CodeTable StudyTreatment.as_i64 study_treatment_from_i64.
Proof. code_table. Qed.

Definition study_population_phase_from_i64 (value : Z) : store_result StudyPopulationPhase.t :=
  match value with
  | 1 => Ok StudyPopulationPhase.Source
  | 2 => Ok StudyPopulationPhase.Successor
  | _ => Err StoreError.InvalidStoredValue
  end.
#[global] Instance study_population_phase_from_i64_table :
  CodeTable StudyPopulationPhase.as_i64 study_population_phase_from_i64.
Proof. code_table. Qed.

Definition pi_office_turn_disposition_from_i64 (value : Z) :
  store_result PiOfficeTurnDisposition.t :=
  match value with
  | 1 => Ok PiOfficeTurnDisposition.Completed
  | 2 => Ok PiOfficeTurnDisposition.Length
  | 3 => Ok PiOfficeTurnDisposition.Error
  | 4 => Ok PiOfficeTurnDisposition.Aborted
  | 5 => Ok PiOfficeTurnDisposition.Failed
  | 6 => Ok PiOfficeTurnDisposition.ProtocolFailed
  | _ => Err StoreError.InvalidStoredValue
  end.
#[global] Instance pi_office_turn_disposition_from_i64_table :
  CodeTable PiOfficeTurnDisposition.as_i64 pi_office_turn_disposition_from_i64.
Proof. code_table. Qed.

Definition pi_task_attempt_disposition_from_i64 (value : Z) :
  store_result PiTaskAttemptDisposition.t :=
  match value with
  | 1 => Ok PiTaskAttemptDisposition.Completed
  | 2 => Ok PiTaskAttemptDisposition.Length
  | 3 => Ok PiTaskAttemptDisposition.Error
  | 4 => Ok PiTaskAttemptDisposition.Aborted
  | 5 => Ok PiTaskAttemptDisposition.Failed
  | 6 => Ok PiTaskAttemptDisposition.ProtocolFailed
  | _ => Err StoreError.InvalidStoredValue
  end.
#[global] Instance pi_task_attempt_disposition_from_i64_table :
  CodeTable PiTaskAttemptDisposition.as_i64 pi_task_attempt_disposition_from_i64.
Proof. code_table. Qed.

Definition pi_office_turn_assistant_outcome_from_i64 (value : Z) :
  store_result PiOfficeTurnAssistantOutcome.t :=
  match value with
  | 1 => Ok PiOfficeTurnAssistantOutcome.ObservedStop
  | 2 => Ok PiOfficeTurnAssistantOutcome.ObservedLength
  | 3 => Ok PiOfficeTurnAssistantOutcome.ObservedError
  | 4 => Ok PiOfficeTurnAssistantOutcome.ObservedAborted
  | 5 => Ok PiOfficeTurnAssistantOutcome.SdkPromiseRejected
  | 6 => Ok PiOfficeTurnAssistantOutcome.MissingFinalAssistantOutcome
  | _ => Err StoreError.InvalidStoredValue
  end.
#[global] Instance pi_office_turn_assistant_outcome_from_i64_table :
  CodeTable PiOfficeTurnAssistantOutcome.as_i64 pi_office_turn_assistant_outcome_from_i64.
Proof. code_table. Qed.

Definition pi_task_attempt_assistant_outcome_from_i64 (value : Z) :
  store_result PiTaskAttemptAssistantOutcome.t :=
  match value with
  | 1 => Ok PiTaskAttemptAssistantOutcome.ObservedStop
  | 2 => Ok PiTaskAttemptAssistantOutcome.ObservedLength
  | 3 => Ok PiTaskAttemptAssistantOutcome.ObservedError
  | 4 => Ok PiTaskAttemptAssistantOutcome.ObservedAborted
  | 5 => Ok PiTaskAttemptAssistantOutcome.SdkPromiseRejected
  | 6 => Ok PiTaskAttemptAssistantOutcome.MissingFinalAssistantOutcome
  | _ => Err StoreError.InvalidStoredValue
  end.
#[global] Instance pi_task_attempt_assistant_outcome_from_i64_table :
  CodeTable PiTaskAttemptAssistantOutcome.as_i64 pi_task_attempt_assistant_outcome_from_i64.
Proof. code_table. Qed.

Definition pi_office_turn_transcript_disposition_from_i64 (value : Z) :
  store_result PiOfficeTurnTranscriptDisposition.t :=
  match value with
  | 1 => Ok PiOfficeTurnTranscriptDisposition.DeferredUntilOfficeSessionDispose
  | _ => Err StoreError.InvalidStoredValue
  end.
#[global] Instance pi_office_turn_transcript_disposition_from_i64_table :
  CodeTable PiOfficeTurnTranscriptDisposition.as_i64 pi_office_turn_transcript_disposition_from_i64.
Proof. code_table. Qed.

Definition pi_task_attempt_transcript_disposition_from_i64 (value : Z) :
  store_result PiTaskAttemptTranscriptDisposition.t :=
  match value with
  | 1 => Ok PiTaskAttemptTranscriptDisposition.DeferredUntilTaskAttemptSessionDispose
  | _ => Err StoreError.InvalidStoredValue
  end.
#[global] Instance pi_task_attempt_transcript_disposition_from_i64_table :
  CodeTable PiTaskAttemptTranscriptDisposition.as_i64 pi_task_attempt_transcript_disposition_from_i64.
Proof. code_table. Qed.

Definition event_kind_from_i64 (value : Z) : store_result EventKind.t :=
  match value with
  | 1 => Ok EventKind.SocietyIdentityCreated
  | 2 => Ok EventKind.RootAuthorityOfficeInstalled
  | 3 => Ok EventKind.FoundingMissionInstalled
  | 4 => Ok EventKind.RootAuthorityAppointed
  | 5 => Ok EventKind.R0HardCeilingSet
  | 6 => Ok EventKind.SocietyBootstrapped
  | 7 => Ok EventKind.OperatingCycleProposed
  | 8 => Ok EventKind.OperatingCycleStateChanged
  | 9 => Ok EventKind.RootAuthorityOfficeSessionStarted
  | 10 => Ok EventKind.RootAuthorityOfficeSessionStateChanged
  | 11 => Ok EventKind.OfficeTurnOpened
  | 12 => Ok EventKind.OfficeTurnSettled
  | 13 => Ok EventKind.BudgetReserved
  | 14 => Ok EventKind.BudgetReconciled
  | 15 => Ok EventKind.BudgetAdmissionFrozen
  | 16 => Ok EventKind.CancellationRequested
  | 17 => Ok EventKind.CancellationReconciled
  | 18 => Ok EventKind.CostPostmortemClosed
  | 19 => Ok EventKind.ProjectCreated
  | 20 => Ok EventKind.ProjectChartered
  | 21 => Ok EventKind.ProjectStateChanged
  | 22 => Ok EventKind.ProjectMilestoneCompleted
  | 23 => Ok EventKind.TicketCreated
  | 24 => Ok EventKind.TicketStateChanged
  | 25 => Ok EventKind.GraphObjectRevisionAdded
  | 26 => Ok EventKind.GraphRevisionCommitted
  | 27 => Ok EventKind.GraphEdgeAdded
  | 28 => Ok EventKind.EpisodeCreated
  | 29 => Ok EventKind.EpisodeStateChanged
  | 30 => Ok EventKind.AdversarialReviewRequested
  | 31 => Ok EventKind.ReviewChallengeSubmitted
  | 32 => Ok EventKind.ReviewChallengeResponded
  | 33 => Ok EventKind.ReviewChallengeDispositioned
  | 34 => Ok EventKind.AdversarialReviewResolved
  | 35 => Ok EventKind.PostmortemTriggered
  | 36 => Ok EventKind.PostmortemCausalClaimRecorded
  | 37 => Ok EventKind.PostmortemActionProposed
  | 38 => Ok EventKind.PostmortemClosed
  | 39 => Ok EventKind.AdversarialReviewerAssigned
  | 40 => Ok EventKind.ActorConfigurationRegistered
  | 41 => Ok EventKind.ContextPackRegistered
  | 42 => Ok EventKind.ActorInstanceAdmitted
  | 43 => Ok EventKind.TicketAdmitted
  | 44 => Ok EventKind.WorkItemRegistered
  | 45 => Ok EventKind.WorkItemClaimed
  | 46 => Ok EventKind.ActorAttemptStarted
  | 47 => Ok EventKind.ActorAttemptTerminalAttested
  | 48 => Ok EventKind.TicketAttemptValidated
  | 49 => Ok EventKind.ActorAttemptRetryPrepared
  | 50 => Ok EventKind.TicketCompleted
  | 51 => Ok EventKind.WorkLeaseExpired
  | 52 => Ok EventKind.ActorAttemptCancellationRequested
  | 53 => Ok EventKind.OutcomeObligationRegistered
  | 54 => Ok EventKind.OutcomeObligationResolved
  | 55 => Ok EventKind.ContentSealReceiptRecorded
  | 56 => Ok EventKind.ContentObjectRegistered
  | 57 => Ok EventKind.ForensicManifestRegistered
  | 58 => Ok EventKind.DeterministicExperimentRegistered
  | 59 => Ok EventKind.DeterministicEvaluationReceiptRecorded
  | 60 => Ok EventKind.DeterministicEvidenceAdmitted
  | 61 => Ok EventKind.DeterministicExperimentFinalized
  | 62 => Ok EventKind.PiChildSpawnAdmitted
  | 63 => Ok EventKind.InertPiChildSpawnRecorded
  | 64 => Ok EventKind.PiAdapterReadyRecorded
  | 65 => Ok EventKind.PiCreateSessionAuthorized
  | 66 => Ok EventKind.PiCreateSessionDeliveryRecorded
  | 67 => Ok EventKind.PiSessionReadyRecorded
  | 68 => Ok EventKind.ChildStreamSealed
  | 69 => Ok EventKind.ChildProcessLivenessObserved
  | 70 => Ok EventKind.ProcessSignalReceiptRecorded
  | 71 => Ok EventKind.DirectChildReaped
  | 72 => Ok EventKind.ChildRecoveryObserved
  | 73 => Ok EventKind.ChildProcessFinalized
  | 74 => Ok EventKind.CancellationPropagationBegun
  | 75 => Ok EventKind.CancellationPropagationReconciled
  | 76 => Ok EventKind.SupervisorEpochOpened
  | 77 => Ok EventKind.CancellationPropagationContainmentFailed
  | 78 => Ok EventKind.PiAbortControlDeliveryRecorded
  | 79 => Ok EventKind.NativeChildSpawnInvalidated
  | 80 => Ok EventKind.PiOfficeTurnPromptAuthorized
  | 81 => Ok EventKind.PiOfficeTurnPromptDelivered
  | 82 => Ok EventKind.PiOfficeTurnPromptAccepted
  | 83 => Ok EventKind.PiOfficeTurnUsageRecorded
  | 84 => Ok EventKind.PiOfficeTurnUsageFrozen
  | 85 => Ok EventKind.PiOfficeTurnTerminalRecorded
  | 86 => Ok EventKind.PiOfficeSessionDisposeAuthorized
  | 87 => Ok EventKind.PiOfficeSessionDisposeDelivered
  | 88 => Ok EventKind.PiOfficeSessionDisposeAccepted
  | 89 => Ok EventKind.PiOfficeSessionDisposeUsageRecorded
  | 90 => Ok EventKind.PiOfficeSessionDisposeUsageFrozen
  | 91 => Ok EventKind.PiOfficeSessionDisposed
  | 92 => Ok EventKind.DeterministicEvaluatorNativeChildAdmitted
  | 93 => Ok EventKind.DeterministicEvaluatorNativeChildSpawnRecorded
  | 94 => Ok EventKind.DeterministicEvaluatorForensicManifestRegistered
  | 95 => Ok EventKind.StudyTransition
  | 96 => Ok EventKind.PiTaskAttemptPromptAuthorized
  | 97 => Ok EventKind.PiTaskAttemptPromptDelivered
  | 98 => Ok EventKind.PiTaskAttemptPromptAccepted
  | 99 => Ok EventKind.PiTaskAttemptUsageRecorded
  | 100 => Ok EventKind.PiTaskAttemptUsageFrozen
  | 101 => Ok EventKind.PiTaskAttemptTerminalRecorded
  | 102 => Ok EventKind.PiTaskAttemptSessionDisposeAuthorized
  | 103 => Ok EventKind.PiTaskAttemptSessionDisposeDelivered
  | 104 => Ok EventKind.PiTaskAttemptSessionDisposeAccepted
  | 105 => Ok EventKind.PiTaskAttemptSessionDisposeUsageRecorded
  | 106 => Ok EventKind.PiTaskAttemptSessionDisposeUsageFrozen
  | 107 => Ok EventKind.PiTaskAttemptSessionDisposed
  | 108 => Ok EventKind.NativeExecutionProfileQualified
  | 109 => Ok EventKind.NativeExecutionProfileQualificationStarted
  | 110 => Ok EventKind.StudyActorTaskAttemptLaunchClaimed
  | 111 => Ok EventKind.NativeExecutionProfileQualificationLaunchClaimed
  | 112 => Ok EventKind.StudyActorWorkAllocated
  | _ => Err StoreError.InvalidStoredValue
  end.
#[global] Instance event_kind_from_i64_table :
  CodeTable EventKind.as_i64 event_kind_from_i64.
Proof. code_table. Qed.

Definition operating_cycle_state_from_i64 (value : Z) : store_result OperatingCycleState.t :=
  match value with
  | 1 => Ok OperatingCycleState.Proposed
  | 2 => Ok OperatingCycleState.Admitted_
  | 3 => Ok OperatingCycleState.Running
  | 4 => Ok OperatingCycleState.Quiescing
  | 5 => Ok OperatingCycleState.Drained
  | 6 => Ok OperatingCycleState.Reconciling
  | 7 => Ok OperatingCycleState.Closed
  | 8 => Ok OperatingCycleState.Cancelling
  | 9 => Ok OperatingCycleState.Reaping
  | 10 => Ok OperatingCycleState.Cancelled
  | 11 => Ok OperatingCycleState.Failed
  | _ => Err StoreError.InvalidStoredValue
  end.
#[global] Instance operating_cycle_state_from_i64_table :
  CodeTable OperatingCycleState.as_i64 operating_cycle_state_from_i64.
Proof. code_table. Qed.

Definition child_process_state_from_i64 (value : Z) : store_result ChildProcessState.t :=
  match value with
  | 1 => Ok ChildProcessState.Spawned
  | 2 => Ok ChildProcessState.Running
  | 3 => Ok ChildProcessState.CancellationRequested
  | 4 => Ok ChildProcessState.DirectChildReaped
  | 5 => Ok ChildProcessState.RecoveryContainmentRequired
  | 6 => Ok ChildProcessState.LostParentage
  | 7 => Ok ChildProcessState.ContainmentFailed
  | 8 => Ok ChildProcessState.Finalized
  | _ => Err StoreError.InvalidStoredValue
  end.
#[global] Instance child_process_state_from_i64_table :
  CodeTable ChildProcessState.as_i64 child_process_state_from_i64.
Proof. code_table. Qed.

Definition child_stream_kind_from_i64 (value : Z) : store_result ChildStreamKind.t :=
  match value with
  | 1 => Ok ChildStreamKind.AdmittedControl
  | 2 => Ok ChildStreamKind.PhysicalStdin
  | 3 => Ok ChildStreamKind.Stdout
  | 4 => Ok ChildStreamKind.Stderr
  | _ => Err StoreError.InvalidStoredValue
  end.
#[global] Instance child_stream_kind_from_i64_table :
  CodeTable ChildStreamKind.as_i64 child_stream_kind_from_i64.
Proof. code_table. Qed.

Definition child_stream_completeness_from_i64 (value : Z) :
  store_result ChildStreamSealCompleteness.t :=
  match value with
  | 1 => Ok ChildStreamSealCompleteness.Complete
  | 2 => Ok ChildStreamSealCompleteness.PrefixBounded
  | 3 => Ok ChildStreamSealCompleteness.CountOverflow
  | _ => Err StoreError.InvalidStoredValue
  end.
#[global] Instance child_stream_completeness_from_i64_table :
  CodeTable ChildStreamSealCompleteness.as_i64 child_stream_completeness_from_i64.
Proof. code_table. Qed.

Definition process_group_liveness_from_i64 (value : Z) : store_result ProcessGroupLiveness.t :=
  match value with
  | 1 => Ok ProcessGroupLiveness.Present
  | 2 => Ok ProcessGroupLiveness.Absent
  | 3 => Ok ProcessGroupLiveness.Inaccessible
  | _ => Err StoreError.InvalidStoredValue
  end.
#[global] Instance process_group_liveness_from_i64_table :
  CodeTable ProcessGroupLiveness.as_i64 process_group_liveness_from_i64.
Proof. code_table. Qed.

Definition process_signal_action_from_i64 (value : Z) : store_result ProcessSignalAction.t :=
  match value with
  | 1 => Ok ProcessSignalAction.Terminate
  | 2 => Ok ProcessSignalAction.Kill
  | 3 => Ok ProcessSignalAction.LingeringGroupKill
  | _ => Err StoreError.InvalidStoredValue
  end.
#[global] Instance process_signal_action_from_i64_table :
  CodeTable ProcessSignalAction.as_i64 process_signal_action_from_i64.
Proof. code_table. Qed.

Definition process_signal_delivery_from_i64 (value : Z) :
  store_result ProcessSignalDelivery.t :=
  match value with
  | 1 => Ok ProcessSignalDelivery.Delivered
  | 2 => Ok ProcessSignalDelivery.AbsentBeforeSignal
  | 3 => Ok ProcessSignalDelivery.AbsentDuringSignal
  | 4 => Ok ProcessSignalDelivery.Inaccessible
  | _ => Err StoreError.InvalidStoredValue
  end.
#[global] Instance process_signal_delivery_from_i64_table :
  CodeTable ProcessSignalDelivery.as_i64 process_signal_delivery_from_i64.
Proof. code_table. Qed.

Definition pi_abort_control_write_outcome_from_i64 (value : Z) :
  store_result PiAbortControlWriteOutcome.t :=
  match value with
  | 1 => Ok PiAbortControlWriteOutcome.FullyWritten
  | 2 => Ok PiAbortControlWriteOutcome.PipeClosedBeforeWrite
  | 3 => Ok PiAbortControlWriteOutcome.WriteFailed
  | 4 => Ok PiAbortControlWriteOutcome.PartialWriteDiscarded
  | _ => Err StoreError.InvalidStoredValue
  end.
#[global] Instance pi_abort_control_write_outcome_from_i64_table :
  CodeTable PiAbortControlWriteOutcome.as_i64 pi_abort_control_write_outcome_from_i64.
Proof. code_table. Qed.

Definition native_child_not_spawned_reason_from_i64 (value : Z) :
  store_result NativeChildNotSpawnedReason.t :=
  match value with
  | 1 => Ok NativeChildNotSpawnedReason.CancelledBeforeSpawn
  | 2 => Ok NativeChildNotSpawnedReason.WorkspacePreparationFailed
  | 3 => Ok NativeChildNotSpawnedReason.ArtifactQualificationFailed
  | 4 => Ok NativeChildNotSpawnedReason.NativeSpawnFailed
  | _ => Err StoreError.InvalidStoredValue
  end.
#[global] Instance native_child_not_spawned_reason_from_i64_table :
  CodeTable NativeChildNotSpawnedReason.as_i64 native_child_not_spawned_reason_from_i64.
Proof. code_table. Qed.

Definition deterministic_experiment_state_from_i64 (value : Z) :
  store_result DeterministicExperimentState.t :=
  match value with
  | 1 => Ok DeterministicExperimentState.Registered
  | 2 => Ok DeterministicExperimentState.EvidenceAdmitted
  | 3 => Ok DeterministicExperimentState.Closed
  | 4 => Ok DeterministicExperimentState.Failed
  | 5 => Ok DeterministicExperimentState.Cancelled
  | _ => Err StoreError.InvalidStoredValue
  end.
#[global] Instance deterministic_experiment_state_from_i64_table :
  CodeTable DeterministicExperimentState.as_i64 deterministic_experiment_state_from_i64.
Proof. code_table. Qed.

Definition child_recovery_observation_from_i64 (value : Z) :
  store_result ChildRecoveryObservation.t :=
  match value with
  | 1 => Ok ChildRecoveryObservation.ParentageLost
  | _ => Err StoreError.InvalidStoredValue
  end.
#[global] Instance child_recovery_observation_from_i64_table :
  CodeTable ChildRecoveryObservation.as_i64 child_recovery_observation_from_i64.
Proof. code_table. Qed.

Definition child_terminal_disposition_from_i64 (value : Z) :
  store_result ChildTerminalDisposition.t :=
  match value with
  | 1 => Ok ChildTerminalDisposition.Exited
  | 4 => Ok ChildTerminalDisposition.Terminated
  | 5 => Ok ChildTerminalDisposition.Killed
  | 6 => Ok ChildTerminalDisposition.SupervisionLost
  | 7 => Ok ChildTerminalDisposition.ContainmentFailed
  | _ => Err StoreError.InvalidStoredValue
  end.
#[global] Instance child_terminal_disposition_from_i64_table :
  CodeTable ChildTerminalDisposition.as_i64 child_terminal_disposition_from_i64.
Proof. code_table. Qed.

Definition operating_cycle_treatment_from_i64 (value : Z) :
  store_result OperatingCycleTreatment.t :=
  match value with
  | 1 => Ok OperatingCycleTreatment.PiSdkQualificationV1
  | 2 => Ok OperatingCycleTreatment.PinnedPiSdkLiveV1
  | 3 => Ok OperatingCycleTreatment.DeterministicPiHostFixtureV1
  | 4 => Ok OperatingCycleTreatment.DeterministicEvaluatorFixtureV1
  | _ => Err StoreError.InvalidStoredValue
  end.
#[global] Instance operating_cycle_treatment_from_i64_table :
  CodeTable OperatingCycleTreatment.as_i64 operating_cycle_treatment_from_i64.
Proof. code_table. Qed.

Definition retention_access_class_from_i64 (value : Z) : store_result RetentionAccessClass.t :=
  match value with
  | 1 => Ok RetentionAccessClass.ForensicRestricted
  | 2 => Ok RetentionAccessClass.ProjectScoped
  | _ => Err StoreError.InvalidStoredValue
  end.
#[global] Instance retention_access_class_from_i64_table :
  CodeTable RetentionAccessClass.as_i64 retention_access_class_from_i64.
Proof. code_table. Qed.

Definition forensic_manifest_capture_policy_from_i64 (value : Z) :
  store_result ForensicManifestCapturePolicy.t :=
  match value with
  | 1 => Ok ForensicManifestCapturePolicy.DeterministicExperimentEvaluatorV1
  | _ => Err StoreError.InvalidStoredValue
  end.
#[global] Instance forensic_manifest_capture_policy_from_i64_table :
  CodeTable ForensicManifestCapturePolicy.as_i64 forensic_manifest_capture_policy_from_i64.
Proof. code_table. Qed.

Definition evidence_semantic_role_from_i64 (value : Z) : store_result EvidenceSemanticRole.t :=
  match value with
  | 1 => Ok EvidenceSemanticRole.DeterministicObservation
  | _ => Err StoreError.InvalidStoredValue
  end.
#[global] Instance evidence_semantic_role_from_i64_table :
  CodeTable EvidenceSemanticRole.as_i64 evidence_semantic_role_from_i64.
Proof. code_table. Qed.

Definition evidence_limitation_kind_from_i64 (value : Z) :
  store_result EvidenceLimitationKind.t :=
  match value with
  | 1 => Ok EvidenceLimitationKind.ApplicationSemanticsUninterpreted
  | _ => Err StoreError.InvalidStoredValue
  end.
#[global] Instance evidence_limitation_kind_from_i64_table :
  CodeTable EvidenceLimitationKind.as_i64 evidence_limitation_kind_from_i64.
Proof. code_table. Qed.

Definition evidence_applicability_from_i64 (value : Z) : store_result EvidenceApplicability.t :=
  match value with
  | 1 => Ok EvidenceApplicability.TestsTargetHypothesis
  | _ => Err StoreError.InvalidStoredValue
  end.
#[global] Instance evidence_applicability_from_i64_table :
  CodeTable EvidenceApplicability.as_i64 evidence_applicability_from_i64.
Proof. code_table. Qed.

Definition office_session_state_from_i64 (value : Z) : store_result OfficeSessionState.t :=
  match value with
  | 1 => Ok OfficeSessionState.Reserved
  | 2 => Ok OfficeSessionState.Starting
  | 3 => Ok OfficeSessionState.Ready
  | 4 => Ok OfficeSessionState.TurnActive
  | 5 => Ok OfficeSessionState.Quiescing
  | 6 => Ok OfficeSessionState.ProcessEnded
  | 7 => Ok OfficeSessionState.EvidenceSealing
  | 8 => Ok OfficeSessionState.Closed
  | 9 => Ok OfficeSessionState.Cancelling
  | 10 => Ok OfficeSessionState.Cancelled
  | 11 => Ok OfficeSessionState.Failed
  | _ => Err StoreError.InvalidStoredValue
  end.
#[global] Instance office_session_state_from_i64_table :
  CodeTable OfficeSessionState.as_i64 office_session_state_from_i64.
Proof. code_table. Qed.

Definition office_session_terminal_state_from_i64 (value : Z) :
  store_result OfficeSessionTerminalState.t :=
  match value with
  | 1 => Ok OfficeSessionTerminalState.Closed
  | 2 => Ok OfficeSessionTerminalState.Cancelled
  | 3 => Ok OfficeSessionTerminalState.Failed
  | _ => Err StoreError.InvalidStoredValue
  end.
#[global] Instance office_session_terminal_state_from_i64_table :
  CodeTable OfficeSessionTerminalState.as_i64 office_session_terminal_state_from_i64.
Proof. code_table. Qed.

Definition office_turn_purpose_from_i64 (value : Z) : store_result OfficeTurnPurpose.t :=
  match value with
  | 1 => Ok OfficeTurnPurpose.OrdinaryWork
  | 2 => Ok OfficeTurnPurpose.Recovery
  | 3 => Ok OfficeTurnPurpose.Cancellation
  | 4 => Ok OfficeTurnPurpose.Closure
  | _ => Err StoreError.InvalidStoredValue
  end.
#[global] Instance office_turn_purpose_from_i64_table :
  CodeTable OfficeTurnPurpose.as_i64 office_turn_purpose_from_i64.
Proof. code_table. Qed.

Definition cancellation_mode_from_i64 (value : Z) : store_result CancellationMode.t :=
  match value with
  | 1 => Ok CancellationMode.Quiesce
  | 2 => Ok CancellationMode.GracefulCancel
  | 3 => Ok CancellationMode.EmergencyStop
  | _ => Err StoreError.InvalidStoredValue
  end.
#[global] Instance cancellation_mode_from_i64_table :
  CodeTable CancellationMode.as_i64 cancellation_mode_from_i64.
Proof. code_table. Qed.

Definition cost_postmortem_cause_from_i64 (value : Z) : store_result CostPostmortemCause.t :=
  match value with
  | 1 => Ok CostPostmortemCause.KnownOverrun
  | 2 => Ok CostPostmortemCause.UnknownCost
  | 3 => Ok CostPostmortemCause.UnavailableCost
  | _ => Err StoreError.InvalidStoredValue
  end.
#[global] Instance cost_postmortem_cause_from_i64_table :
  CodeTable CostPostmortemCause.as_i64 cost_postmortem_cause_from_i64.
Proof. code_table. Qed.

Definition cost_postmortem_resolution_from_i64 (value : Z) :
  store_result CostPostmortemResolution.t :=
  match value with
  | 1 => Ok CostPostmortemResolution.ConservativeFullReservation
  | 2 => Ok CostPostmortemResolution.ChargeObservedOverrun
  | _ => Err StoreError.InvalidStoredValue
  end.
#[global] Instance cost_postmortem_resolution_from_i64_table :
  CodeTable CostPostmortemResolution.as_i64 cost_postmortem_resolution_from_i64.
Proof. code_table. Qed.

Definition cost_unknown_reason_from_i64 (value : Z) : store_result CostUnknownReason.t :=
  match value with
  | 1 => Ok CostUnknownReason.ProviderDidNotReport
  | 2 => Ok CostUnknownReason.AdapterStreamInterrupted
  | 3 => Ok CostUnknownReason.ReconciliationMismatch
  | _ => Err StoreError.InvalidStoredValue
  end.
#[global] Instance cost_unknown_reason_from_i64_table :
  CodeTable CostUnknownReason.as_i64 cost_unknown_reason_from_i64.
Proof. code_table. Qed.

Definition cost_unavailable_reason_from_i64 (value : Z) :
  store_result CostUnavailableReason.t :=
  match value with
  | 1 => Ok CostUnavailableReason.ProviderUnavailable
  | 2 => Ok CostUnavailableReason.CredentialUnavailable
  | 3 => Ok CostUnavailableReason.QualificationRejected
  | 4 => Ok CostUnavailableReason.AdapterAccountingUnavailable
  | _ => Err StoreError.InvalidStoredValue
  end.
#[global] Instance cost_unavailable_reason_from_i64_table :
  CodeTable CostUnavailableReason.as_i64 cost_unavailable_reason_from_i64.
Proof. code_table. Qed.

Definition mission_principle_kind_from_i64 (value : Z) : store_result MissionPrincipleKind.t :=
  match value with
  | 1 => Ok MissionPrincipleKind.Purpose
  | 2 => Ok MissionPrincipleKind.Evidence
  | 3 => Ok MissionPrincipleKind.Boundary
  | 4 => Ok MissionPrincipleKind.Revision
  | _ => Err StoreError.InvalidStoredValue
  end.
#[global] Instance mission_principle_kind_from_i64_table :
  CodeTable MissionPrincipleKind.as_i64 mission_principle_kind_from_i64.
Proof. code_table. Qed.

Definition project_state_from_i64 (value : Z) : store_result ProjectState.t :=
  match value with
  | 1 => Ok ProjectState.Proposed
  | 2 => Ok ProjectState.Challenged
  | 3 => Ok ProjectState.Chartered
  | 4 => Ok ProjectState.Active
  | 5 => Ok ProjectState.Paused
  | 6 => Ok ProjectState.Observing
  | 7 => Ok ProjectState.Closed
  | 8 => Ok ProjectState.Terminated
  | 9 => Ok ProjectState.Reopened
  | _ => Err StoreError.InvalidStoredValue
  end.
#[global] Instance project_state_from_i64_table :
  CodeTable ProjectState.as_i64 project_state_from_i64.
Proof. code_table. Qed.

Definition ticket_state_from_i64 (value : Z) : store_result TicketState.t :=
  match value with
  | 1 => Ok TicketState.Draft
  | 2 => Ok TicketState.Admitted_
  | 3 => Ok TicketState.Ready
  | 4 => Ok TicketState.Claimed
  | 5 => Ok TicketState.Submitted
  | 6 => Ok TicketState.Verified
  | 7 => Ok TicketState.Completed
  | 8 => Ok TicketState.ChangesRequested
  | 9 => Ok TicketState.Expired
  | 10 => Ok TicketState.Cancelled
  | 11 => Ok TicketState.Failed
  | _ => Err StoreError.InvalidStoredValue
  end.
#[global] Instance ticket_state_from_i64_table :
  CodeTable TicketState.as_i64 ticket_state_from_i64.
Proof. code_table. Qed.

Definition actor_model_policy_from_i64 (value : Z) : store_result ActorModelPolicy.t :=
  match value with
  | 1 => Ok ActorModelPolicy.PinnedDeepseekV4FlashHigh
  | 2 => Ok ActorModelPolicy.PinnedOpenRouterLing26FlashOff
  | _ => Err StoreError.InvalidStoredValue
  end.
#[global] Instance actor_model_policy_from_i64_table :
  CodeTable ActorModelPolicy.as_i64 actor_model_policy_from_i64.
Proof. code_table. Qed.

Definition developmental_attractor_from_i64 (value : Z) :
  store_result DevelopmentalAttractor.t :=
  match value with
  | 1 => Ok DevelopmentalAttractor.Explore
  | 2 => Ok DevelopmentalAttractor.Build
  | 3 => Ok DevelopmentalAttractor.Measure
  | 4 => Ok DevelopmentalAttractor.Challenge
  | 5 => Ok DevelopmentalAttractor.Synthesize
  | 6 => Ok DevelopmentalAttractor.Integrate
  | 7 => Ok DevelopmentalAttractor.Remember
  | 8 => Ok DevelopmentalAttractor.Coordinate
  | _ => Err StoreError.InvalidStoredValue
  end.
#[global] Instance developmental_attractor_from_i64_table :
  CodeTable DevelopmentalAttractor.as_i64 developmental_attractor_from_i64.
Proof. code_table. Qed.

Definition execution_profile_kind_from_i64 (value : Z) : store_result ExecutionProfileKind.t :=
  match value with
  | 1 => Ok ExecutionProfileKind.DeterministicPiHostProcessDoubleV1
  | 2 => Ok ExecutionProfileKind.NativePinnedPiSdkV1
  | 3 => Ok ExecutionProfileKind.DeterministicEvaluatorProcessFixtureV1
  | _ => Err StoreError.InvalidStoredValue
  end.
#[global] Instance execution_profile_kind_from_i64_table :
  CodeTable ExecutionProfileKind.as_i64 execution_profile_kind_from_i64.
Proof. code_table. Qed.

Definition execution_profile_readiness_from_i64 (value : Z) :
  store_result ExecutionProfileReadiness.t :=
  match value with
  | 1 => Ok ExecutionProfileReadiness.DeterministicFixtureOnly
  | 2 => Ok ExecutionProfileReadiness.Unqualified
  | 3 => Ok ExecutionProfileReadiness.QualifiedForLiveUse
  | _ => Err StoreError.InvalidStoredValue
  end.
#[global] Instance execution_profile_readiness_from_i64_table :
  CodeTable ExecutionProfileReadiness.as_i64 execution_profile_readiness_from_i64.
Proof. code_table. Qed.

Definition actor_instance_state_from_i64 (value : Z) : store_result ActorInstanceState.t :=
  match value with
  | 1 => Ok ActorInstanceState.Active
  | 2 => Ok ActorInstanceState.Retired
  | _ => Err StoreError.InvalidStoredValue
  end.
#[global] Instance actor_instance_state_from_i64_table :
  CodeTable ActorInstanceState.as_i64 actor_instance_state_from_i64.
Proof. code_table. Qed.

Definition context_pack_purpose_from_i64 (value : Z) : store_result ContextPackPurpose.t :=
  match value with
  | 1 => Ok ContextPackPurpose.TicketExecution
  | 2 => Ok ContextPackPurpose.IndependentReview
  | _ => Err StoreError.InvalidStoredValue
  end.
#[global] Instance context_pack_purpose_from_i64_table :
  CodeTable ContextPackPurpose.as_i64 context_pack_purpose_from_i64.
Proof. code_table. Qed.

Definition work_item_kind_from_i64 (value : Z) : store_result WorkItemKind.t :=
  match value with
  | 1 => Ok WorkItemKind.TicketExecution
  | 2 => Ok WorkItemKind.IndependentReview
  | _ => Err StoreError.InvalidStoredValue
  end.
#[global] Instance work_item_kind_from_i64_table :
  CodeTable WorkItemKind.as_i64 work_item_kind_from_i64.
Proof. code_table. Qed.

Definition work_item_state_from_i64 (value : Z) : store_result WorkItemState.t :=
  match value with
  | 1 => Ok WorkItemState.Ready
  | 2 => Ok WorkItemState.Claimed
  | 3 => Ok WorkItemState.Running
  | 4 => Ok WorkItemState.Settled
  | 5 => Ok WorkItemState.Cancelled
  | _ => Err StoreError.InvalidStoredValue
  end.
#[global] Instance work_item_state_from_i64_table :
  CodeTable WorkItemState.as_i64 work_item_state_from_i64.
Proof. code_table. Qed.

Definition actor_attempt_state_from_i64 (value : Z) : store_result ActorAttemptState.t :=
  match value with
  | 1 => Ok ActorAttemptState.Running
  | 2 => Ok ActorAttemptState.CancellationRequested
  | 3 => Ok ActorAttemptState.Succeeded
  | 4 => Ok ActorAttemptState.Failed
  | 5 => Ok ActorAttemptState.Cancelled
  | 6 => Ok ActorAttemptState.Expired
  | 7 => Ok ActorAttemptState.ProtocolFailed
  | 8 => Ok ActorAttemptState.SupervisorFailed
  | 9 => Ok ActorAttemptState.Validated
  | _ => Err StoreError.InvalidStoredValue
  end.
#[global] Instance actor_attempt_state_from_i64_table :
  CodeTable ActorAttemptState.as_i64 actor_attempt_state_from_i64.
Proof. code_table. Qed.

Definition actor_attempt_terminal_kind_from_i64 (value : Z) :
  store_result ActorAttemptTerminalKind.t :=
  match value with
  | 1 => Ok ActorAttemptTerminalKind.Succeeded
  | 2 => Ok ActorAttemptTerminalKind.Failed
  | 3 => Ok ActorAttemptTerminalKind.Cancelled
  | 4 => Ok ActorAttemptTerminalKind.Expired
  | 5 => Ok ActorAttemptTerminalKind.ProtocolFailed
  | 6 => Ok ActorAttemptTerminalKind.SupervisorFailed
  | _ => Err StoreError.InvalidStoredValue
  end.
#[global] Instance actor_attempt_terminal_kind_from_i64_table :
  CodeTable ActorAttemptTerminalKind.as_i64 actor_attempt_terminal_kind_from_i64.
Proof. code_table. Qed.

Definition actor_attempt_cancellation_reason_from_i64 (value : Z) :
  store_result ActorAttemptCancellationReason.t :=
  match value with
  | 1 => Ok ActorAttemptCancellationReason.RootAuthorityRequested
  | 2 => Ok ActorAttemptCancellationReason.CycleCancellation
  | 3 => Ok ActorAttemptCancellationReason.LeaseContainment
  | _ => Err StoreError.InvalidStoredValue
  end.
#[global] Instance actor_attempt_cancellation_reason_from_i64_table :
  CodeTable ActorAttemptCancellationReason.as_i64 actor_attempt_cancellation_reason_from_i64.
Proof. code_table. Qed.

Definition outcome_obligation_state_from_i64 (value : Z) :
  store_result OutcomeObligationState.t :=
  match value with
  | 1 => Ok OutcomeObligationState.Scheduled
  | 2 => Ok OutcomeObligationState.Satisfied
  | 3 => Ok OutcomeObligationState.Waived
  | _ => Err StoreError.InvalidStoredValue
  end.
#[global] Instance outcome_obligation_state_from_i64_table :
  CodeTable OutcomeObligationState.as_i64 outcome_obligation_state_from_i64.
Proof. code_table. Qed.

Definition outcome_obligation_disposition_from_i64 (value : Z) :
  store_result OutcomeObligationDisposition.t :=
  match value with
  | 1 => Ok OutcomeObligationDisposition.Satisfied
  | 2 => Ok OutcomeObligationDisposition.Waived
  | _ => Err StoreError.InvalidStoredValue
  end.
#[global] Instance outcome_obligation_disposition_from_i64_table :
  CodeTable OutcomeObligationDisposition.as_i64 outcome_obligation_disposition_from_i64.
Proof. code_table. Qed.

Definition graph_object_kind_from_i64 (value : Z) : store_result GraphObjectKind.t :=
  match value with
  | 1 => Ok GraphObjectKind.Observation
  | 2 => Ok GraphObjectKind.Hypothesis_
  | _ => Err StoreError.InvalidStoredValue
  end.
#[global] Instance graph_object_kind_from_i64_table :
  CodeTable GraphObjectKind.as_i64 graph_object_kind_from_i64.
Proof. code_table. Qed.

Definition graph_revision_state_from_i64 (value : Z) : store_result GraphRevisionState.t :=
  match value with
  | 1 => Ok GraphRevisionState.Draft
  | 2 => Ok GraphRevisionState.Committed
  | _ => Err StoreError.InvalidStoredValue
  end.
#[global] Instance graph_revision_state_from_i64_table :
  CodeTable GraphRevisionState.as_i64 graph_revision_state_from_i64.
Proof. code_table. Qed.

Definition graph_edge_kind_from_i64 (value : Z) : store_result GraphEdgeKind.t :=
  match value with
  | 1 => Ok GraphEdgeKind.Supports
  | 2 => Ok GraphEdgeKind.Challenges
  | _ => Err StoreError.InvalidStoredValue
  end.
#[global] Instance graph_edge_kind_from_i64_table :
  CodeTable GraphEdgeKind.as_i64 graph_edge_kind_from_i64.
Proof. code_table. Qed.

Definition episode_state_from_i64 (value : Z) : store_result EpisodeState.t :=
  match value with
  | 1 => Ok EpisodeState.Framed
  | 2 => Ok EpisodeState.Admitted_
  | 3 => Ok EpisodeState.Investigating
  | 4 => Ok EpisodeState.PrototypeDeliberating
  | 5 => Ok EpisodeState.Prototyping
  | 6 => Ok EpisodeState.CandidateValidating
  | 7 => Ok EpisodeState.DeliveryDeliberating
  | 8 => Ok EpisodeState.DeliveryAuthorized
  | 9 => Ok EpisodeState.Materializing
  | 10 => Ok EpisodeState.Observing
  | 11 => Ok EpisodeState.Learning
  | 12 => Ok EpisodeState.Closed
  | 13 => Ok EpisodeState.ClosedNoAction
  | 14 => Ok EpisodeState.ClosedNoDelivery
  | 15 => Ok EpisodeState.Abandoned
  | 16 => Ok EpisodeState.Reverted
  | 17 => Ok EpisodeState.Reopened
  | _ => Err StoreError.InvalidStoredValue
  end.
#[global] Instance episode_state_from_i64_table :
  CodeTable EpisodeState.as_i64 episode_state_from_i64.
Proof. code_table. Qed.

Definition adversarial_review_state_from_i64 (value : Z) :
  store_result AdversarialReviewState.t :=
  match value with
  | 1 => Ok AdversarialReviewState.Requested
  | 2 => Ok AdversarialReviewState.Assigned
  | 3 => Ok AdversarialReviewState.Active
  | 4 => Ok AdversarialReviewState.FindingsSubmitted
  | 5 => Ok AdversarialReviewState.ResponsesDue
  | 6 => Ok AdversarialReviewState.Resolved
  | 7 => Ok AdversarialReviewState.AcceptedRisk
  | 8 => Ok AdversarialReviewState.Superseded
  | 9 => Ok AdversarialReviewState.Escalated
  | _ => Err StoreError.InvalidStoredValue
  end.
#[global] Instance adversarial_review_state_from_i64_table :
  CodeTable AdversarialReviewState.as_i64 adversarial_review_state_from_i64.
Proof. code_table. Qed.

Definition review_challenge_severity_from_i64 (value : Z) :
  store_result ReviewChallengeSeverity.t :=
  match value with
  | 1 => Ok ReviewChallengeSeverity.Low
  | 2 => Ok ReviewChallengeSeverity.Moderate
  | 3 => Ok ReviewChallengeSeverity.High
  | 4 => Ok ReviewChallengeSeverity.Critical
  | _ => Err StoreError.InvalidStoredValue
  end.
#[global] Instance review_challenge_severity_from_i64_table :
  CodeTable ReviewChallengeSeverity.as_i64 review_challenge_severity_from_i64.
Proof. code_table. Qed.

Definition review_challenge_response_state_from_i64 (value : Z) :
  store_result ReviewChallengeResponseState.t :=
  match value with
  | 1 => Ok ReviewChallengeResponseState.Pending
  | 2 => Ok ReviewChallengeResponseState.Responded
  | _ => Err StoreError.InvalidStoredValue
  end.
#[global] Instance review_challenge_response_state_from_i64_table :
  CodeTable ReviewChallengeResponseState.as_i64 review_challenge_response_state_from_i64.
Proof. code_table. Qed.

Definition review_disposition_kind_from_i64 (value : Z) :
  store_result ReviewDispositionKind.t :=
  match value with
  | 1 => Ok ReviewDispositionKind.Addressed
  | 2 => Ok ReviewDispositionKind.RejectedWithDissentPreserved
  | 3 => Ok ReviewDispositionKind.AcceptedRisk
  | _ => Err StoreError.InvalidStoredValue
  end.
#[global] Instance review_disposition_kind_from_i64_table :
  CodeTable ReviewDispositionKind.as_i64 review_disposition_kind_from_i64.
Proof. code_table. Qed.

Definition review_resolution_kind_from_i64 (value : Z) : store_result ReviewResolutionKind.t :=
  match value with
  | 1 => Ok ReviewResolutionKind.Resolved
  | 2 => Ok ReviewResolutionKind.AcceptedRisk
  | _ => Err StoreError.InvalidStoredValue
  end.
#[global] Instance review_resolution_kind_from_i64_table :
  CodeTable ReviewResolutionKind.as_i64 review_resolution_kind_from_i64.
Proof. code_table. Qed.

Definition postmortem_state_from_i64 (value : Z) : store_result PostmortemState.t :=
  match value with
  | 1 => Ok PostmortemState.Triggered
  | 2 => Ok PostmortemState.Investigating
  | 3 => Ok PostmortemState.Closed
  | _ => Err StoreError.InvalidStoredValue
  end.
#[global] Instance postmortem_state_from_i64_table :
  CodeTable PostmortemState.as_i64 postmortem_state_from_i64.
Proof. code_table. Qed.

Definition postmortem_causal_claim_kind_from_i64 (value : Z) :
  store_result PostmortemCausalClaimKind.t :=
  match value with
  | 1 => Ok PostmortemCausalClaimKind.ContributingCondition
  | 2 => Ok PostmortemCausalClaimKind.Counterfactual
  | 3 => Ok PostmortemCausalClaimKind.Containment
  | _ => Err StoreError.InvalidStoredValue
  end.
#[global] Instance postmortem_causal_claim_kind_from_i64_table :
  CodeTable PostmortemCausalClaimKind.as_i64 postmortem_causal_claim_kind_from_i64.
Proof. code_table. Qed.

Definition postmortem_action_kind_from_i64 (value : Z) : store_result PostmortemActionKind.t :=
  match value with
  | 1 => Ok PostmortemActionKind.CreateFollowUpTicket
  | 2 => Ok PostmortemActionKind.ChangePolicyProposal
  | _ => Err StoreError.InvalidStoredValue
  end.
#[global] Instance postmortem_action_kind_from_i64_table :
  CodeTable PostmortemActionKind.as_i64 postmortem_action_kind_from_i64.
Proof. code_table. Qed.

(** ** The tables of [study.rs] *)

Module Study.
Definition episode_state_from_i64 (value : Z) : rejection_result StudyEpisodeState.t :=
  match value with
  | 1 => Ok StudyEpisodeState.Admitted_
  | 2 => Ok StudyEpisodeState.SourceActive
  | 3 => Ok StudyEpisodeState.SourceReconciled
  | 4 => Ok StudyEpisodeState.SuccessorAdmitted
  | 5 => Ok StudyEpisodeState.CorrectionReleased
  | 6 => Ok StudyEpisodeState.SuccessorActive
  | 7 => Ok StudyEpisodeState.Closed
  | _ => Err Rejection.InvalidLifecycleTransition
  end.
#[global] Instance episode_state_from_i64_table :
  CodeTable StudyEpisodeState.as_i64 episode_state_from_i64.
Proof. code_table. Qed.

Definition population_phase_from_i64 (value : Z) : rejection_result StudyPopulationPhase.t :=
  match value with
  | 1 => Ok StudyPopulationPhase.Source
  | 2 => Ok StudyPopulationPhase.Successor
  | _ => Err Rejection.InvalidLifecycleTransition
  end.
#[global] Instance population_phase_from_i64_table :
  CodeTable StudyPopulationPhase.as_i64 population_phase_from_i64.
Proof. code_table. Qed.

Definition study_command_kind_from_i64 (value : Z) : store_result StudyCommandKind.t :=
  match value with
  | 1 => Ok StudyCommandKind.AdmitProtocolRevision
  | 2 => Ok StudyCommandKind.AdmitWorldRevision
  | 3 => Ok StudyCommandKind.AdmitMeasurementRevision
  | 4 => Ok StudyCommandKind.AdmitInstitutionRevision
  | 5 => Ok StudyCommandKind.AdmitPopulationSnapshot
  | 6 => Ok StudyCommandKind.AdmitEpisode
  | 7 => Ok StudyCommandKind.AssignTreatment
  | 8 => Ok StudyCommandKind.AdmitMatchedPair
  | 9 => Ok StudyCommandKind.CreateEpisodeForum
  | 10 => Ok StudyCommandKind.OpenForumThread
  | 11 => Ok StudyCommandKind.AdmitActorObligation
  | 12 => Ok StudyCommandKind.CompleteActorObligation
  | 13 => Ok StudyCommandKind.FreezeForumHead
  | 14 => Ok StudyCommandKind.ReplacePopulation
  | 15 => Ok StudyCommandKind.AdmitForumExposure
  | 16 => Ok StudyCommandKind.PublishForumMessage
  | 17 => Ok StudyCommandKind.ReleaseMatchedCorrection
  | 18 => Ok StudyCommandKind.ReadForum
  | 19 => Ok StudyCommandKind.RecordDecision
  | 20 => Ok StudyCommandKind.RecordMeasurementResult
  | 21 => Ok StudyCommandKind.CloseEpisode
  | 22 => Ok StudyCommandKind.ForkEpisode
  | 23 => Ok StudyCommandKind.RetractForumMessage
  | 24 => Ok StudyCommandKind.FailActorObligation
  | 25 => Ok StudyCommandKind.RevealGroundTruth
  | 26 => Ok StudyCommandKind.BindActorRuntime
  | 27 => Ok StudyCommandKind.ReconcileActorRuntime
  | 28 => Ok StudyCommandKind.BindActorTaskAttemptRuntime
  | 29 => Ok StudyCommandKind.AdmitStudyRun
  | 30 => Ok StudyCommandKind.RegisterStudyRunPair
  | 31 => Ok StudyCommandKind.StartStudyRun
  | 32 => Ok StudyCommandKind.SettleActorTaskAttemptAfterRecovery
  | 33 => Ok StudyCommandKind.CompleteStudyRun
  | _ => Err StoreError.InvalidStoredValue
  end.
#[global] Instance study_command_kind_from_i64_table :
  CodeTable StudyCommandKind.as_i64 study_command_kind_from_i64.
Proof. code_table. Qed.

Definition study_event_kind_from_i64 (value : Z) : store_result StudyEventKind.t :=
  match value with
  | 1 => Ok StudyEventKind.ProtocolRevisionAdmitted
  | 2 => Ok StudyEventKind.WorldRevisionAdmitted
  | 3 => Ok StudyEventKind.MeasurementRevisionAdmitted
  | 4 => Ok StudyEventKind.InstitutionRevisionAdmitted
  | 5 => Ok StudyEventKind.PopulationSnapshotAdmitted
  | 6 => Ok StudyEventKind.EpisodeAdmitted
  | 7 => Ok StudyEventKind.TreatmentAssigned
  | 8 => Ok StudyEventKind.MatchedPairAdmitted
  | 9 => Ok StudyEventKind.EpisodeForumCreated
  | 10 => Ok StudyEventKind.ForumThreadOpened
  | 11 => Ok StudyEventKind.ActorObligationAdmitted
  | 12 => Ok StudyEventKind.ActorObligationCompleted
  | 13 => Ok StudyEventKind.ForumHeadFrozen
  | 14 => Ok StudyEventKind.PopulationReplaced
  | 15 => Ok StudyEventKind.ForumExposureAdmitted
  | 16 => Ok StudyEventKind.ForumMessagePublished
  | 17 => Ok StudyEventKind.MatchedCorrectionReleased
  | 18 => Ok StudyEventKind.ForumMessagesRead
  | 19 => Ok StudyEventKind.DecisionRecorded
  | 20 => Ok StudyEventKind.MeasurementResultRecorded
  | 21 => Ok StudyEventKind.EpisodeClosed
  | 22 => Ok StudyEventKind.ExperimentalForkCreated
  | 23 => Ok StudyEventKind.ForumMessageRetracted
  | 24 => Ok StudyEventKind.ActorObligationFailed
  | 25 => Ok StudyEventKind.GroundTruthRevealed
  | 26 => Ok StudyEventKind.ActorRuntimeBound
  | 27 => Ok StudyEventKind.ActorRuntimeReconciled
  | 28 => Ok StudyEventKind.ActorTaskAttemptRuntimeBound
  | 29 => Ok StudyEventKind.StudyRunAdmitted
  | 30 => Ok StudyEventKind.StudyRunPairRegistered
  | 31 => Ok StudyEventKind.StudyRunStarted
  | 32 => Ok StudyEventKind.ActorTaskAttemptRecoverySettled
  | 33 => Ok StudyEventKind.StudyRunCompleted
  | _ => Err StoreError.InvalidStoredValue
  end.
#[global] Instance study_event_kind_from_i64_table :
  CodeTable StudyEventKind.as_i64 study_event_kind_from_i64.
Proof. code_table. Qed.

Definition treatment_from_i64 (value : Z) : store_result StudyTreatment.t :=
  match value with
  | 1 => Ok StudyTreatment.Retained
  | 2 => Ok StudyTreatment.Reset
  | _ => Err StoreError.InvalidStoredValue
  end.
#[global] Instance treatment_from_i64_table :
  CodeTable StudyTreatment.as_i64 treatment_from_i64.
Proof. code_table. Qed.

Definition study_run_lifecycle_state_from_i64 (value : Z) :
  store_result StudyRunLifecycleState.t :=
  match value with
  | 1 => Ok StudyRunLifecycleState.Pairing
  | 2 => Ok StudyRunLifecycleState.Ready
  | 3 => Ok StudyRunLifecycleState.Running
  | 4 => Ok StudyRunLifecycleState.Completed
  | _ => Err StoreError.InvalidStoredValue
  end.
#[global] Instance study_run_lifecycle_state_from_i64_table :
  CodeTable StudyRunLifecycleState.as_i64 study_run_lifecycle_state_from_i64.
Proof. code_table. Qed.

Definition study_actor_obligation_state_from_i64 (value : Z) :
  store_result StudyActorObligationState.t :=
  match value with
  | 1 => Ok StudyActorObligationState.Active
  | 2 => Ok StudyActorObligationState.Completed
  | 3 => Ok StudyActorObligationState.Failed
  | _ => Err StoreError.InvalidStoredValue
  end.
#[global] Instance study_actor_obligation_state_from_i64_table :
  CodeTable StudyActorObligationState.as_i64 study_actor_obligation_state_from_i64.
Proof. code_table. Qed.

Definition study_actor_task_attempt_recovery_accounting_state_from_i64 (value : Z) :
  store_result StudyActorTaskAttemptRecoveryAccountingState.t :=
  match value with
  | 1 => Ok StudyActorTaskAttemptRecoveryAccountingState.Unknown
  | _ => Err StoreError.InvalidStoredValue
  end.
#[global] Instance study_actor_task_attempt_recovery_accounting_state_from_i64_table :
  CodeTable StudyActorTaskAttemptRecoveryAccountingState.as_i64 study_actor_task_attempt_recovery_accounting_state_from_i64.
Proof. code_table. Qed.

Definition population_phase_from_stored (value : Z) : store_result StudyPopulationPhase.t :=
  match value with
  | 1 => Ok StudyPopulationPhase.Source
  | 2 => Ok StudyPopulationPhase.Successor
  | _ => Err StoreError.InvalidStoredValue
  end.
#[global] Instance population_phase_from_stored_table :
  CodeTable StudyPopulationPhase.as_i64 population_phase_from_stored.
Proof. code_table. Qed.

Definition message_kind_from_i64 (value : Z) : store_result ForumMessageKind.t :=
  match value with
  | 1 => Ok ForumMessageKind.Finding
  | 2 => Ok ForumMessageKind.Question
  | 3 => Ok ForumMessageKind.Challenge
  | 4 => Ok ForumMessageKind.Correction
  | 5 => Ok ForumMessageKind.Synthesis
  | _ => Err StoreError.InvalidStoredValue
  end.
#[global] Instance message_kind_from_i64_table :
  CodeTable ForumMessageKind.as_i64 message_kind_from_i64.
Proof. code_table. Qed.

Definition forum_publication_state_from_i64 (value : Z) :
  store_result ForumPublicationState.t :=
  match value with
  | 1 => Ok ForumPublicationState.Published
  | 2 => Ok ForumPublicationState.Retracted
  | _ => Err StoreError.InvalidStoredValue
  end.
#[global] Instance forum_publication_state_from_i64_table :
  CodeTable ForumPublicationState.as_i64 forum_publication_state_from_i64.
Proof. code_table. Qed.

Definition measurement_status_from_i64 (value : Z) : store_result StudyMeasurementStatus.t :=
  match value with
  | 1 => Ok StudyMeasurementStatus.Observed
  | 2 => Ok StudyMeasurementStatus.Unavailable
  | 3 => Ok StudyMeasurementStatus.Invalidated
  | _ => Err StoreError.InvalidStoredValue
  end.
#[global] Instance measurement_status_from_i64_table :
  CodeTable StudyMeasurementStatus.as_i64 measurement_status_from_i64.
Proof. code_table. Qed.
End Study.

#[global] Instance capability_code : Code Capability.as_i64.
Proof. apply (code_by_table _ _ capability_from_i64_table). by intros []. Qed.
#[global] Instance capability_eq_dec : EqDecision Capability.t := eq_dec_by_code Capability.as_i64.
#[global] Instance command_kind_code : Code CommandKind.as_i64.
Proof. apply (code_by_table _ _ command_kind_from_i64_table). by intros []. Qed.
#[global] Instance command_kind_eq_dec : EqDecision CommandKind.t := eq_dec_by_code CommandKind.as_i64.
#[global] Instance event_kind_code : Code EventKind.as_i64.
Proof. apply (code_by_table _ _ event_kind_from_i64_table). by intros []. Qed.
#[global] Instance event_kind_eq_dec : EqDecision EventKind.t := eq_dec_by_code EventKind.as_i64.

Definition rejection_from_i64 (value : Z) : store_result Rejection.t :=
  map_err (fun _ => StoreError.InvalidStoredValue) (Rejection.try_from_i64 value).

(** ** Column groups *)

(** [.map_err(|_| StoreError::InvalidStoredValue)]. *)
Definition stored {A E} (r : result A E) : store_result A :=
  map_err (fun _ => StoreError.InvalidStoredValue) r.

Definition digest_from_stored_bytes (l : list byte) : store_result Blake3Digest.t :=
  ok_or (checked l) StoreError.InvalidStoredValue.

(** [i32::try_from(value).map_err(..)?] into a process value. *)
Definition process_value_from_i64 {type_name predicate} (value : Z) :
  store_result (NativeProcessValue.t type_name predicate) :=
  if is_i32 value then stored (NativeProcessValue.try_from "" value)
  else Err StoreError.InvalidStoredValue.

Definition direct_wait_status_from_sql (kind : Z) (value : option Z) :
  store_result DirectChildWaitStatus.t :=
  match kind, value with
  | 1, Some exit_code =>
      let? exit_code := process_value_from_i64 exit_code in
      Ok (DirectChildWaitStatus.Exited exit_code)
  | 2, Some signal_number =>
      let? signal_number := process_value_from_i64 signal_number in
      Ok (DirectChildWaitStatus.Signaled signal_number)
  | 3, None => Ok DirectChildWaitStatus.Unknown
  | _, _ => Err StoreError.InvalidStoredValue
  end.

Definition signal_cause_parts (cause : ProcessSignalCause.t) : Z * option Z :=
  match cause with
  | ProcessSignalCause.CancellationPropagation propagation_id =>
      (1, Some (Identifier.value propagation_id))
  | ProcessSignalCause.AutomaticBoundaryContainment => (2, None)
  end.
Definition process_signal_cause_from_sql (kind : Z) (propagation_id : option Z) :
  store_result ProcessSignalCause.t :=
  match kind, propagation_id with
  | 1, Some propagation_id =>
      let? propagation_id := stored (Identifier.try_from propagation_id) in
      Ok (ProcessSignalCause.CancellationPropagation propagation_id)
  | 2, None => Ok ProcessSignalCause.AutomaticBoundaryContainment
  | _, _ => Err StoreError.InvalidStoredValue
  end.

Definition decode_child_owner (attempt office qualification_cycle : option Z) :
  store_result PiChildOwner.t :=
  match attempt, office, qualification_cycle with
  | Some attempt, None, None =>
      let? id := stored (Identifier.try_from attempt) in Ok (PiChildOwner.ActorAttempt id)
  | None, Some office, None =>
      let? id := stored (Identifier.try_from office) in
      Ok (PiChildOwner.RootAuthorityOfficeSession id)
  | None, None, Some cycle =>
      let? id := stored (Identifier.try_from cycle) in
      Ok (PiChildOwner.NativeExecutionProfileQualification id)
  | _, _, _ => Err (StoreError.LedgerCorruption "invalid Pi child owner union")
  end.

Definition sql_pi_office_turn_terminal_evidence (evidence : PiOfficeTurnTerminalEvidence.t) :
  Z * option Z :=
  match evidence with
  | PiOfficeTurnTerminalEvidence.ObservedAssistant agent_settled_sequence _ =>
      (1, Some (Identifier.value agent_settled_sequence))
  | PiOfficeTurnTerminalEvidence.UnavailableAssistant _ => (2, None)
  end.
Definition pi_office_turn_terminal_evidence_from_sql (kind : Z)
    (agent_settled_sequence : option Z) (final_accounting_sequence : Z) :
  store_result PiOfficeTurnTerminalEvidence.t :=
  let? final_accounting_sequence := stored (Identifier.try_from final_accounting_sequence) in
  match kind, agent_settled_sequence with
  | 1, Some agent_settled_sequence =>
      let? agent_settled_sequence := stored (Identifier.try_from agent_settled_sequence) in
      Ok (PiOfficeTurnTerminalEvidence.ObservedAssistant agent_settled_sequence
            final_accounting_sequence)
  | 2, None =>
      Ok (PiOfficeTurnTerminalEvidence.UnavailableAssistant final_accounting_sequence)
  | _, _ => Err StoreError.InvalidStoredValue
  end.

Definition sql_pi_task_attempt_terminal_evidence (evidence : PiTaskAttemptTerminalEvidence.t) :
  Z * option Z :=
  match evidence with
  | PiTaskAttemptTerminalEvidence.ObservedAssistant agent_settled_sequence _ =>
      (1, Some (Identifier.value agent_settled_sequence))
  | PiTaskAttemptTerminalEvidence.UnavailableAssistant _ => (2, None)
  end.
Definition pi_task_attempt_terminal_evidence_from_sql (kind : Z)
    (agent_settled_sequence : option Z) (final_accounting_sequence : Z) :
  store_result PiTaskAttemptTerminalEvidence.t :=
  let? final_accounting_sequence := stored (Identifier.try_from final_accounting_sequence) in
  match kind, agent_settled_sequence with
  | 1, Some agent_settled_sequence =>
      let? agent_settled_sequence := stored (Identifier.try_from agent_settled_sequence) in
      Ok (PiTaskAttemptTerminalEvidence.ObservedAssistant agent_settled_sequence
            final_accounting_sequence)
  | 2, None =>
      Ok (PiTaskAttemptTerminalEvidence.UnavailableAssistant final_accounting_sequence)
  | _, _ => Err StoreError.InvalidStoredValue
  end.

(** The columns [(kind, unknown, unavailable)]. *)
Definition sql_pi_office_turn_usage_failure (failure : PiOfficeTurnUsageFailure.t) :
  Z * option Z * option Z :=
  match failure with
  | PiOfficeTurnUsageFailure.Unknown reason =>
      (1, Some (PiOfficeTurnUsageUnknownReason.as_i64 reason), None)
  | PiOfficeTurnUsageFailure.Unavailable reason =>
      (2, None, Some (PiOfficeTurnUsageUnavailableReason.as_i64 reason))
  end.
Definition pi_office_turn_usage_failure_from_sql (kind : Z) (unknown unavailable : option Z) :
  store_result PiOfficeTurnUsageFailure.t :=
  match kind, unknown, unavailable with
  | 1, Some 1, None => Ok (PiOfficeTurnUsageFailure.Unknown
      PiOfficeTurnUsageUnknownReason.MissingFinalUsageSnapshot)
  | 1, Some 2, None => Ok (PiOfficeTurnUsageFailure.Unknown
      PiOfficeTurnUsageUnknownReason.BoundaryStreamInterrupted)
  | 1, Some 3, None => Ok (PiOfficeTurnUsageFailure.Unknown
      PiOfficeTurnUsageUnknownReason.TerminalEvidenceMissing)
  | 2, None, Some 1 => Ok (PiOfficeTurnUsageFailure.Unavailable
      PiOfficeTurnUsageUnavailableReason.InvalidSdkUsage)
  | 2, None, Some 2 => Ok (PiOfficeTurnUsageFailure.Unavailable
      PiOfficeTurnUsageUnavailableReason.UsageRegressed)
  | 2, None, Some 3 => Ok (PiOfficeTurnUsageFailure.Unavailable
      PiOfficeTurnUsageUnavailableReason.UsageInconsistent)
  | _, _, _ => Err StoreError.InvalidStoredValue
  end.

Definition sql_pi_task_attempt_usage_failure (failure : PiTaskAttemptUsageFailure.t) :
  Z * option Z * option Z :=
  match failure with
  | PiTaskAttemptUsageFailure.Unknown reason =>
      (1, Some (PiTaskAttemptUsageUnknownReason.as_i64 reason), None)
  | PiTaskAttemptUsageFailure.Unavailable reason =>
      (2, None, Some (PiTaskAttemptUsageUnavailableReason.as_i64 reason))
  end.
Definition pi_task_attempt_usage_failure_from_sql (kind : Z) (unknown unavailable : option Z) :
  store_result PiTaskAttemptUsageFailure.t :=
  match kind, unknown, unavailable with
  | 1, Some 1, None => Ok (PiTaskAttemptUsageFailure.Unknown
      PiTaskAttemptUsageUnknownReason.MissingFinalUsageSnapshot)
  | 1, Some 2, None => Ok (PiTaskAttemptUsageFailure.Unknown
      PiTaskAttemptUsageUnknownReason.BoundaryStreamInterrupted)
  | 1, Some 3, None => Ok (PiTaskAttemptUsageFailure.Unknown
      PiTaskAttemptUsageUnknownReason.TerminalEvidenceMissing)
  | 2, None, Some 1 => Ok (PiTaskAttemptUsageFailure.Unavailable
      PiTaskAttemptUsageUnavailableReason.InvalidSdkUsage)
  | 2, None, Some 2 => Ok (PiTaskAttemptUsageFailure.Unavailable
      PiTaskAttemptUsageUnavailableReason.UsageRegressed)
  | 2, None, Some 3 => Ok (PiTaskAttemptUsageFailure.Unavailable
      PiTaskAttemptUsageUnavailableReason.UsageInconsistent)
  | _, _, _ => Err StoreError.InvalidStoredValue
  end.

(** The columns [(kind, observed, reserved, unknown, unavailable)]. *)
Definition budget_freeze_reason_to_sql (reason : BudgetFreezeReason.t) :
  Z * option Z * option Z * option Z * option Z :=
  match reason with
  | BudgetFreezeReason.KnownOverrun observed reserved =>
      (1, Some (UsdMicros.value observed), Some (UsdMicros.value reserved), None, None)
  | BudgetFreezeReason.Unknown reason =>
      (2, None, None, Some (CostUnknownReason.as_i64 reason), None)
  | BudgetFreezeReason.Unavailable reason =>
      (3, None, None, None, Some (CostUnavailableReason.as_i64 reason))
  end.
Definition budget_freeze_reason_from_sql (kind : Z)
    (observed reserved unknown unavailable : option Z) : store_result BudgetFreezeReason.t :=
  match kind, observed, reserved, unknown, unavailable with
  | 1, Some observed, Some reserved, None, None =>
      let? observed := stored (UsdMicros.try_from observed) in
      let? reserved := stored (UsdMicros.try_from reserved) in
      Ok (BudgetFreezeReason.KnownOverrun observed reserved)
  | 2, None, None, Some reason, None =>
      let? reason := cost_unknown_reason_from_i64 reason in
      Ok (BudgetFreezeReason.Unknown reason)
  | 3, None, None, None, Some reason =>
      let? reason := cost_unavailable_reason_from_i64 reason in
      Ok (BudgetFreezeReason.Unavailable reason)
  | _, _, _, _, _ => Err (StoreError.LedgerCorruption "invalid budget freeze reason body")
  end.

Definition cost_observation_from_sql (kind : Z) (known unknown unavailable : option Z) :
  store_result CostObservation.t :=
  match kind, known, unknown, unavailable with
  | 1, Some amount, None, None =>
      let? amount := stored (UsdMicros.try_from amount) in Ok (CostObservation.Known amount)
  | 2, None, Some reason, None =>
      let? reason := cost_unknown_reason_from_i64 reason in
      Ok (CostObservation.Unknown reason)
  | 3, None, None, Some reason =>
      let? reason := cost_unavailable_reason_from_i64 reason in
      Ok (CostObservation.Unavailable reason)
  | _, _, _, _ => Err (StoreError.LedgerCorruption "invalid cost observation body")
  end.

Definition pi_cumulative_usage_from_sql (input output cache_read cache_write total : Z)
    (provider_cost : list byte) (ceiling : Z) : store_result PiCumulativeUsage.t :=
  check? (if (length provider_cost =? 8)%nat then Ok ()
          else Err StoreError.InvalidStoredValue);
  let? input_tokens := stored (PiTokenCount.try_from input) in
  let? output_tokens := stored (PiTokenCount.try_from output) in
  let? cache_read_tokens := stored (PiTokenCount.try_from cache_read) in
  let? cache_write_tokens := stored (PiTokenCount.try_from cache_write) in
  let? total_tokens := stored (PiTokenCount.try_from total) in
  let? provider_cost := stored (ProviderCostBinary64.from_big_endian provider_cost) in
  let? ceiling_micro_usd := stored (UsdMicros.try_from ceiling) in
  let usage := PiCumulativeUsage.new input_tokens output_tokens cache_read_tokens
                 cache_write_tokens total_tokens provider_cost ceiling_micro_usd in
  if negb (PiCumulativeUsage.is_internally_consistent usage)
  then Err StoreError.InvalidStoredValue else Ok usage.

(** ** Fixed shape of a measurement result ([study.rs]) *)

Definition measurement_result_shape_valid (status : StudyMeasurementStatus.t)
    (observed_value : option i64) (value_digest reason : option Blake3Digest.t) : bool :=
  match status with
  | StudyMeasurementStatus.Observed =>
      bool_decide (is_Some observed_value) && bool_decide (is_Some value_digest)
      && bool_decide (reason = None)
  | StudyMeasurementStatus.Unavailable | StudyMeasurementStatus.Invalidated =>
      bool_decide (observed_value = None) && bool_decide (value_digest = None)
      && bool_decide (is_Some reason)
  end.

(** The columns [(transcript_kind, session_file, session_file_digest,
    transcript_content_object_id, first_user_prompt_kind, first_user_prompt_digest)]. *)
Definition transcript_columns : Type :=
  Z * string * option (list byte) * option Z * option Z * option (list byte).

Definition transcript_receipt_sql_values (receipt : PiOfficeSessionTranscriptReceipt.t) :
  transcript_columns :=
  match receipt with
  | PiOfficeSessionTranscriptReceipt.Materialized session_file session_file_digest
      transcript_content_object_id first_user_prompt =>
      let '(first_user_prompt_kind, first_user_prompt_digest) :=
        match first_user_prompt with
        | PiOfficeSessionFirstUserPromptReceipt.Absent => (Some 1, None)
        | PiOfficeSessionFirstUserPromptReceipt.Verified digest =>
            (Some 2, Some (Blake3Digest.as_bytes digest))
        end in
      (1, CanonicalPiSessionTranscriptPath.as_str session_file,
       Some (Blake3Digest.as_bytes session_file_digest),
       Some (Identifier.value transcript_content_object_id),
       first_user_prompt_kind, first_user_prompt_digest)
  | PiOfficeSessionTranscriptReceipt.UnmaterializedNoPrompt session_file =>
      (2, CanonicalPiSessionTranscriptPath.as_str session_file, None, None, None, None)
  end.
Definition pi_office_session_transcript_receipt_from_sql (columns : transcript_columns) :
  store_result PiOfficeSessionTranscriptReceipt.t :=
  let '(transcript_kind, session_file, session_file_digest, transcript_content_object_id,
        first_user_prompt_kind, first_user_prompt_digest) := columns in
  let? session_file := stored (CanonicalPiSessionTranscriptPath.parse session_file) in
  match transcript_kind, session_file_digest, transcript_content_object_id,
        first_user_prompt_kind, first_user_prompt_digest with
  | 1, Some session_file_digest, Some content_object_id, Some 1, None =>
      let? session_file_digest := digest_from_stored_bytes session_file_digest in
      let? transcript_content_object_id := stored (Identifier.try_from content_object_id) in
      Ok (PiOfficeSessionTranscriptReceipt.Materialized session_file session_file_digest
            transcript_content_object_id PiOfficeSessionFirstUserPromptReceipt.Absent)
  | 1, Some session_file_digest, Some content_object_id, Some 2, Some prompt_digest =>
      let? session_file_digest := digest_from_stored_bytes session_file_digest in
      let? transcript_content_object_id := stored (Identifier.try_from content_object_id) in
      let? digest := digest_from_stored_bytes prompt_digest in
      Ok (PiOfficeSessionTranscriptReceipt.Materialized session_file session_file_digest
            transcript_content_object_id
            (PiOfficeSessionFirstUserPromptReceipt.Verified digest))
  | 2, None, None, None, None =>
      Ok (PiOfficeSessionTranscriptReceipt.UnmaterializedNoPrompt session_file)
  | _, _, _, _, _ => Err StoreError.InvalidStoredValue
  end.

Definition task_attempt_transcript_values (receipt : PiTaskAttemptSessionTranscriptReceipt.t) :
  transcript_columns :=
  match receipt with
  | PiTaskAttemptSessionTranscriptReceipt.Materialized session_file session_file_digest
      transcript_content_object_id first_user_prompt =>
      let '(kind, digest) :=
        match first_user_prompt with
        | PiTaskAttemptFirstUserPromptReceipt.Absent => (1, None)
        | PiTaskAttemptFirstUserPromptReceipt.Verified digest =>
            (2, Some (Blake3Digest.as_bytes digest))
        end in
      (1, CanonicalPiSessionTranscriptPath.as_str session_file,
       Some (Blake3Digest.as_bytes session_file_digest),
       Some (Identifier.value transcript_content_object_id), Some kind, digest)
  | PiTaskAttemptSessionTranscriptReceipt.UnmaterializedNoPrompt session_file =>
      (2, CanonicalPiSessionTranscriptPath.as_str session_file, None, None, None, None)
  end.
Definition pi_task_attempt_session_transcript_receipt_from_sql (columns : transcript_columns) :
  store_result PiTaskAttemptSessionTranscriptReceipt.t :=
  let '(transcript_kind, session_file, session_file_digest, transcript_content_object_id,
        first_user_prompt_kind, first_user_prompt_digest) := columns in
  let? session_file := stored (CanonicalPiSessionTranscriptPath.parse session_file) in
  match transcript_kind, session_file_digest, transcript_content_object_id,
        first_user_prompt_kind, first_user_prompt_digest with
  | 1, Some session_file_digest, Some content_object_id, Some 1, None =>
      let? session_file_digest := digest_from_stored_bytes session_file_digest in
      let? transcript_content_object_id := stored (Identifier.try_from content_object_id) in
      Ok (PiTaskAttemptSessionTranscriptReceipt.Materialized session_file session_file_digest
            transcript_content_object_id PiTaskAttemptFirstUserPromptReceipt.Absent)
  | 1, Some session_file_digest, Some content_object_id, Some 2, Some prompt_digest =>
      let? session_file_digest := digest_from_stored_bytes session_file_digest in
      let? transcript_content_object_id := stored (Identifier.try_from content_object_id) in
      let? digest := digest_from_stored_bytes prompt_digest in
      Ok (PiTaskAttemptSessionTranscriptReceipt.Materialized session_file session_file_digest
            transcript_content_object_id
            (PiTaskAttemptFirstUserPromptReceipt.Verified digest))
  | 2, None, None, None, None =>
      Ok (PiTaskAttemptSessionTranscriptReceipt.UnmaterializedNoPrompt session_file)
  | _, _, _, _, _ => Err StoreError.InvalidStoredValue
  end.

(** The columns [(kind, cancellation_request_id, postmortem_id)]; the observed amount
    has a column of its own. *)
Definition sql_pi_office_session_dispose_budget_disposition
    (disposition : PiOfficeSessionDisposeBudgetDisposition.t) : Z * option Z * option Z :=
  match disposition with
  | PiOfficeSessionDisposeBudgetDisposition.Reconciled _ => (1, None, None)
  | PiOfficeSessionDisposeBudgetDisposition.Frozen cancellation_request_id postmortem_id =>
      (2, Some (Identifier.value cancellation_request_id),
       Some (Identifier.value postmortem_id))
  end.
Definition pi_office_session_dispose_budget_disposition_from_sql (kind observed : Z)
    (cancellation_request_id postmortem_id : option Z) :
  store_result PiOfficeSessionDisposeBudgetDisposition.t :=
  match kind, cancellation_request_id, postmortem_id with
  | 1, None, None =>
      let? observed := stored (UsdMicros.try_from observed) in
      Ok (PiOfficeSessionDisposeBudgetDisposition.Reconciled observed)
  | 2, Some cancellation_request_id, Some postmortem_id =>
      let? cancellation_request_id := stored (Identifier.try_from cancellation_request_id) in
      let? postmortem_id := stored (Identifier.try_from postmortem_id) in
      Ok (PiOfficeSessionDisposeBudgetDisposition.Frozen cancellation_request_id postmortem_id)
  | _, _, _ => Err StoreError.InvalidStoredValue
  end.

Definition sql_pi_task_attempt_session_dispose_budget_disposition
    (disposition : PiTaskAttemptSessionDisposeBudgetDisposition.t) : Z * option Z * option Z :=
  match disposition with
  | PiTaskAttemptSessionDisposeBudgetDisposition.Reconciled _ => (1, None, None)
  | PiTaskAttemptSessionDisposeBudgetDisposition.Frozen cancellation_request_id postmortem_id =>
      (2, Some (Identifier.value cancellation_request_id),
       Some (Identifier.value postmortem_id))
  end.
Definition pi_task_attempt_session_dispose_budget_disposition_from_sql (kind observed : Z)
    (cancellation_request_id postmortem_id : option Z) :
  store_result PiTaskAttemptSessionDisposeBudgetDisposition.t :=
  match kind, cancellation_request_id, postmortem_id with
  | 1, None, None =>
      let? observed := stored (UsdMicros.try_from observed) in
      Ok (PiTaskAttemptSessionDisposeBudgetDisposition.Reconciled observed)
  | 2, Some cancellation_request_id, Some postmortem_id =>
      let? cancellation_request_id := stored (Identifier.try_from cancellation_request_id) in
      let? postmortem_id := stored (Identifier.try_from postmortem_id) in
      Ok (PiTaskAttemptSessionDisposeBudgetDisposition.Frozen cancellation_request_id
            postmortem_id)
  | _, _, _ => Err StoreError.InvalidStoredValue
  end.

(** ** Why a usage failure freezes a reservation *)

Definition pi_office_turn_usage_failure_freeze_reason (failure : PiOfficeTurnUsageFailure.t) :
  BudgetFreezeReason.t :=
  match failure with
  | PiOfficeTurnUsageFailure.Unknown
      PiOfficeTurnUsageUnknownReason.MissingFinalUsageSnapshot =>
      BudgetFreezeReason.Unknown CostUnknownReason.ProviderDidNotReport
  | PiOfficeTurnUsageFailure.Unknown
      PiOfficeTurnUsageUnknownReason.BoundaryStreamInterrupted =>
      BudgetFreezeReason.Unknown CostUnknownReason.AdapterStreamInterrupted
  | PiOfficeTurnUsageFailure.Unknown
      PiOfficeTurnUsageUnknownReason.TerminalEvidenceMissing =>
      BudgetFreezeReason.Unknown CostUnknownReason.ReconciliationMismatch
  | PiOfficeTurnUsageFailure.Unavailable _ =>
      BudgetFreezeReason.Unavailable CostUnavailableReason.AdapterAccountingUnavailable
  end.
Definition task_attempt_usage_failure_freeze_reason (failure : PiTaskAttemptUsageFailure.t) :
  BudgetFreezeReason.t :=
  match failure with
  | PiTaskAttemptUsageFailure.Unknown
      PiTaskAttemptUsageUnknownReason.MissingFinalUsageSnapshot =>
      BudgetFreezeReason.Unknown CostUnknownReason.ProviderDidNotReport
  | PiTaskAttemptUsageFailure.Unknown
      PiTaskAttemptUsageUnknownReason.BoundaryStreamInterrupted =>
      BudgetFreezeReason.Unknown CostUnknownReason.AdapterStreamInterrupted
  | PiTaskAttemptUsageFailure.Unknown
      PiTaskAttemptUsageUnknownReason.TerminalEvidenceMissing =>
      BudgetFreezeReason.Unknown CostUnknownReason.ReconciliationMismatch
  | PiTaskAttemptUsageFailure.Unavailable _ =>
      BudgetFreezeReason.Unavailable CostUnavailableReason.AdapterAccountingUnavailable
  end.
