(* ===== verification/Fingerprint.v ===== *)
(** * Fingerprints of commands and events

    [society-kernel/src/store.rs], [request_fingerprint] and [event_fingerprint], and
    [study.rs], [append_command_fingerprint] and [append_event_fingerprint]: the byte
    string that the ledger commits to with BLAKE3 before a command or an event is
    stored.  The source appends to a buffer; here each writer returns what it appends.
    The two big matches are cut into groups, in the order of the source, each group
    falling through to the next. *)

From S2P Require Import Prelude.
From S2P Require Import Machine.
From S2P Require Import Hash.
From S2P Require Import KernelScalars.
From S2P Require Import KernelEnums.
From S2P Require Import KernelCustody.
From S2P Require Import StudyTypes.
From S2P Require Import StudyCommands.
From S2P Require Import KernelCommands.
From S2P Require Import KernelCodes.

(** ** Fields *)

Definition put_i64 (value : Z) : list byte := be_bytes 8 value.
(** The length is written as an [i64]; a Rust allocation never exceeds [isize::MAX]
    bytes, so [as i64] and [expect] do not lose it. *)
Definition put_bytes (value : list byte) : list byte :=
  put_i64 (Z.of_nat (length value)) ++ value.
Definition put_digest (value : Blake3Digest.t) : list byte :=
  put_bytes (Blake3Digest.as_bytes value).
Definition put_optional_i64 (value : option Z) : list byte :=
  match value with Some value => put_i64 1 ++ put_i64 value | None => put_i64 0 end.
Definition put_optional_digest (value : option Blake3Digest.t) : list byte :=
  match value with Some value => put_i64 1 ++ put_digest value | None => put_i64 0 end.

(** ** Shared payloads *)

Definition put_pi_cumulative_usage (usage : PiCumulativeUsage.t) : list byte :=
  put_i64 (PiTokenCount.value (PiCumulativeUsage.input_tokens usage)) ++
  put_i64 (PiTokenCount.value (PiCumulativeUsage.output_tokens usage)) ++
  put_i64 (PiTokenCount.value (PiCumulativeUsage.cache_read_tokens usage)) ++
  put_i64 (PiTokenCount.value (PiCumulativeUsage.cache_write_tokens usage)) ++
  put_i64 (PiTokenCount.value (PiCumulativeUsage.total_tokens usage)) ++
  put_bytes (ProviderCostBinary64.as_big_endian_bytes (PiCumulativeUsage.provider_cost usage)) ++
  put_i64 (UsdMicros.value (PiCumulativeUsage.ceiling_micro_usd usage)).

Definition put_pi_office_turn_usage_failure (failure : PiOfficeTurnUsageFailure.t) :
  list byte :=
  match failure with
  | PiOfficeTurnUsageFailure.Unknown reason =>
      put_i64 1 ++ put_i64 (PiOfficeTurnUsageUnknownReason.as_i64 reason)
  | PiOfficeTurnUsageFailure.Unavailable reason =>
      put_i64 2 ++ put_i64 (PiOfficeTurnUsageUnavailableReason.as_i64 reason)
  end.

Definition put_pi_task_attempt_usage_failure (failure : PiTaskAttemptUsageFailure.t) :
  list byte :=
  match failure with
  | PiTaskAttemptUsageFailure.Unknown reason =>
      put_i64 1 ++ put_i64 (PiTaskAttemptUsageUnknownReason.as_i64 reason)
  | PiTaskAttemptUsageFailure.Unavailable reason =>
      put_i64 2 ++ put_i64 (PiTaskAttemptUsageUnavailableReason.as_i64 reason)
  end.

Definition put_pi_office_session_transcript_receipt
  (receipt : PiOfficeSessionTranscriptReceipt.t) : list byte :=
  match receipt with
  | PiOfficeSessionTranscriptReceipt.Materialized session_file session_file_digest
      transcript_content_object_id first_user_prompt =>
      put_i64 1 ++
      put_bytes (bytes (CanonicalPiSessionTranscriptPath.as_str session_file)) ++
      put_bytes (Blake3Digest.as_bytes session_file_digest) ++
      put_i64 (Identifier.value transcript_content_object_id) ++
      match first_user_prompt with
      | PiOfficeSessionFirstUserPromptReceipt.Absent => put_i64 1
      | PiOfficeSessionFirstUserPromptReceipt.Verified digest =>
          put_i64 2 ++ put_bytes (Blake3Digest.as_bytes digest)
      end
  | PiOfficeSessionTranscriptReceipt.UnmaterializedNoPrompt session_file =>
      put_i64 2 ++ put_bytes (bytes (CanonicalPiSessionTranscriptPath.as_str session_file))
  end.

Definition put_pi_task_attempt_session_transcript_receipt
  (receipt : PiTaskAttemptSessionTranscriptReceipt.t) : list byte :=
  match receipt with
  | PiTaskAttemptSessionTranscriptReceipt.Materialized session_file session_file_digest
      transcript_content_object_id first_user_prompt =>
      put_i64 1 ++
      put_bytes (bytes (CanonicalPiSessionTranscriptPath.as_str session_file)) ++
      put_bytes (Blake3Digest.as_bytes session_file_digest) ++
      put_i64 (Identifier.value transcript_content_object_id) ++
      match first_user_prompt with
      | PiTaskAttemptFirstUserPromptReceipt.Absent => put_i64 1
      | PiTaskAttemptFirstUserPromptReceipt.Verified digest =>
          put_i64 2 ++ put_bytes (Blake3Digest.as_bytes digest)
      end
  | PiTaskAttemptSessionTranscriptReceipt.UnmaterializedNoPrompt session_file =>
      put_i64 2 ++ put_bytes (bytes (CanonicalPiSessionTranscriptPath.as_str session_file))
  end.

Definition put_pi_office_session_dispose_budget_disposition
  (disposition : PiOfficeSessionDisposeBudgetDisposition.t) : list byte :=
  match disposition with
  | PiOfficeSessionDisposeBudgetDisposition.Reconciled observed_cumulative_micro_usd =>
      put_i64 1 ++ put_i64 (UsdMicros.value observed_cumulative_micro_usd)
  | PiOfficeSessionDisposeBudgetDisposition.Frozen cancellation_request_id postmortem_id =>
      put_i64 2 ++ put_i64 (Identifier.value cancellation_request_id) ++
      put_i64 (Identifier.value postmortem_id)
  end.

Definition put_pi_task_attempt_session_dispose_budget_disposition
  (disposition : PiTaskAttemptSessionDisposeBudgetDisposition.t) : list byte :=
  match disposition with
  | PiTaskAttemptSessionDisposeBudgetDisposition.Reconciled observed_cumulative_micro_usd =>
      put_i64 1 ++ put_i64 (UsdMicros.value observed_cumulative_micro_usd)
  | PiTaskAttemptSessionDisposeBudgetDisposition.Frozen cancellation_request_id
      postmortem_id =>
      put_i64 2 ++ put_i64 (Identifier.value cancellation_request_id) ++
      put_i64 (Identifier.value postmortem_id)
  end.

Definition put_pi_office_turn_terminal_evidence (evidence : PiOfficeTurnTerminalEvidence.t) :
  list byte :=
  match evidence with
  | PiOfficeTurnTerminalEvidence.ObservedAssistant agent_settled_sequence
      final_accounting_sequence =>
      put_i64 1 ++ put_i64 (Identifier.value agent_settled_sequence) ++
      put_i64 (Identifier.value final_accounting_sequence)
  | PiOfficeTurnTerminalEvidence.UnavailableAssistant final_known_usage_sequence =>
      put_i64 2 ++ put_i64 (Identifier.value final_known_usage_sequence)
  end.

Definition put_pi_task_attempt_terminal_evidence
  (evidence : PiTaskAttemptTerminalEvidence.t) : list byte :=
  match evidence with
  | PiTaskAttemptTerminalEvidence.ObservedAssistant agent_settled_sequence
      final_accounting_sequence =>
      put_i64 1 ++ put_i64 (Identifier.value agent_settled_sequence) ++
      put_i64 (Identifier.value final_accounting_sequence)
  | PiTaskAttemptTerminalEvidence.UnavailableAssistant final_known_usage_sequence =>
      put_i64 2 ++ put_i64 (Identifier.value final_known_usage_sequence)
  end.

Definition put_direct_wait_status (status : DirectChildWaitStatus.t) : list byte :=
  match status with
  | DirectChildWaitStatus.Exited exit_code =>
      put_i64 1 ++ put_i64 (NativeProcessValue.value exit_code)
  | DirectChildWaitStatus.Signaled signal_number =>
      put_i64 2 ++ put_i64 (NativeProcessValue.value signal_number)
  | DirectChildWaitStatus.Unknown => put_i64 3
  end.

Definition put_process_signal_cause (cause : ProcessSignalCause.t) : list byte :=
  match cause with
  | ProcessSignalCause.CancellationPropagation propagation_id =>
      put_i64 1 ++ put_i64 (Identifier.value propagation_id)
  | ProcessSignalCause.AutomaticBoundaryContainment => put_i64 2 ++ put_i64 0
  end.

(** The mission of [InstallFoundingMission], the principles counted first. *)
Definition put_mission_principle (principle : MissionPrinciple.t) : list byte :=
  put_i64 (MissionPrincipleKind.as_i64 (MissionPrinciple.kind principle)) ++
  put_bytes (bytes (MissionText.as_str (MissionPrinciple.text principle))).
Definition put_mission_principles (principles : list MissionPrinciple.t) : list byte :=
  put_i64 (Z.of_nat (length principles)) ++ flat_map put_mission_principle principles.
Definition put_mission (mission : ApplicationMissionInput.t) : list byte :=
  let questions := ApplicationMissionInput.north_star_questions mission in
  put_bytes (bytes (ApplicationIdentity.as_str
    (ApplicationMissionInput.application_identity mission))) ++
  put_bytes (bytes (ApplicationName.as_str
    (ApplicationMissionInput.application_name mission))) ++
  put_i64 (ApplicationRevisionOrdinal.value
    (ApplicationMissionInput.revision_ordinal mission)) ++
  put_bytes (bytes (MissionText.as_str (ApplicationMissionInput.statement mission))) ++
  put_mission_principles
    (MissionPrinciples.as_slice (ApplicationMissionInput.principles mission)) ++
  put_bytes (bytes (MissionText.as_str (NorthStarQuestionSet.change questions))) ++
  put_bytes (bytes (MissionText.as_str
    (NorthStarQuestionSet.improvement_evidence questions))) ++
  put_bytes (bytes (MissionText.as_str
    (NorthStarQuestionSet.boundary_commitment questions))) ++
  put_bytes (bytes (MissionText.as_str (NorthStarQuestionSet.revisit questions))) ++
  put_bytes (Blake3Digest.as_bytes (ApplicationMissionInput.source_rendering_digest mission)).

(** The four answers of [CreateProject]. *)
Definition put_north_star_alignment (alignment : ProjectNorthStarAlignment.t) : list byte :=
  put_i64 (Identifier.value (ProjectNorthStarAlignment.application_revision_id alignment)) ++
  put_bytes (bytes (MissionText.as_str
    (ProjectNorthStarAlignment.change_answer alignment))) ++
  put_bytes (bytes (MissionText.as_str
    (ProjectNorthStarAlignment.improvement_evidence_answer alignment))) ++
  put_bytes (bytes (MissionText.as_str
    (ProjectNorthStarAlignment.boundary_commitment_answer alignment))) ++
  put_bytes (bytes (MissionText.as_str (ProjectNorthStarAlignment.revisit_answer alignment))).

(** ** [append_command_fingerprint], the study's commands *)

(** Populations, messages, decisions, closing. *)
Definition put_study_outcome (command : StudyCommand.t) : list byte :=
  match command with
  | StudyCommand.ReplacePopulation episode_id successor_population_snapshot_id =>
      put_i64 (StudyIdentifier.value episode_id) ++
      put_i64 (StudyIdentifier.value successor_population_snapshot_id)
  | StudyCommand.AdmitForumExposure obligation_id forum_id visible_from_message_ordinal =>
      put_i64 (StudyIdentifier.value obligation_id) ++
      put_i64 (StudyIdentifier.value forum_id) ++ put_i64 (inner visible_from_message_ordinal)
  | StudyCommand.PublishForumMessage obligation_id kind body in_reply_to_message_id
      supersedes_message_id =>
      put_i64 (StudyIdentifier.value obligation_id) ++
      put_i64 (ForumMessageKind.as_i64 kind) ++
      put_bytes (bytes (ForumMessageBody.as_str body)) ++
      put_optional_i64 (option_map StudyIdentifier.value in_reply_to_message_id) ++
      put_optional_i64 (option_map StudyIdentifier.value supersedes_message_id)
  | StudyCommand.RetractForumMessage obligation_id message_id =>
      put_i64 (StudyIdentifier.value obligation_id) ++
      put_i64 (StudyIdentifier.value message_id)
  | StudyCommand.ReleaseMatchedCorrection pair_id retained_thread_id reset_thread_id
      correction =>
      put_i64 (StudyIdentifier.value pair_id) ++
      put_i64 (StudyIdentifier.value retained_thread_id) ++
      put_i64 (StudyIdentifier.value reset_thread_id) ++
      put_bytes (bytes (ForumMessageBody.as_str correction))
  | StudyCommand.ReadForum obligation_id first_message_ordinal through_message_ordinal
      rendered_content_object_id =>
      put_i64 (StudyIdentifier.value obligation_id) ++
      put_i64 (inner first_message_ordinal) ++ put_i64 (inner through_message_ordinal) ++
      put_i64 (Identifier.value rendered_content_object_id)
  | StudyCommand.RecordDecision obligation_id decision cited_message_id =>
      put_i64 (StudyIdentifier.value obligation_id) ++
      put_bytes (bytes (StudyDecisionBody.as_str decision)) ++
      put_optional_i64 (option_map StudyIdentifier.value cited_message_id)
  | StudyCommand.RevealGroundTruth episode_id reveal =>
      put_i64 (StudyIdentifier.value episode_id) ++
      put_bytes (bytes (StudyGroundTruthReveal.as_str reveal))
  | StudyCommand.RecordMeasurementResult episode_id measurement_slot status value
      value_digest reason_digest =>
      put_i64 (StudyIdentifier.value episode_id) ++
      put_i64 (StudyMeasurementSlot.value measurement_slot) ++
      put_i64 (StudyMeasurementStatus.as_i64 status) ++
      put_optional_i64 (option_map inner value) ++ put_optional_digest value_digest ++
      put_optional_digest reason_digest
  | StudyCommand.CloseEpisode episode_id => put_i64 (StudyIdentifier.value episode_id)
  | StudyCommand.ForkEpisode source_episode_id treatment_delta =>
      put_i64 (StudyIdentifier.value source_episode_id) ++
      put_i64 (StudyTreatment.as_i64 treatment_delta)
  | _ => []
  end.

(** Actors and the forum head. *)
Definition put_study_actor (command : StudyCommand.t) : list byte :=
  match command with
  | StudyCommand.CreateEpisodeForum episode_id charter_digest =>
      put_i64 (StudyIdentifier.value episode_id) ++ put_digest charter_digest
  | StudyCommand.OpenForumThread forum_id title =>
      put_i64 (StudyIdentifier.value forum_id) ++
      put_bytes (bytes (ForumThreadTitle.as_str title))
  | StudyCommand.AdmitActorObligation episode_id phase role private_view_digest
      prompt_digest tool_digest budget read_budget post_budget =>
      put_i64 (StudyIdentifier.value episode_id) ++
      put_i64 (StudyPopulationPhase.as_i64 phase) ++ put_i64 (StudyRoleOrdinal.value role) ++
      flat_map put_digest [private_view_digest; prompt_digest; tool_digest] ++
      put_i64 (StudyBudgetUnits.value budget) ++
      put_i64 (ForumReadBudget.value read_budget) ++
      put_i64 (ForumPostBudget.value post_budget)
  | StudyCommand.CompleteActorObligation obligation_id charged_budget =>
      put_i64 (StudyIdentifier.value obligation_id) ++
      put_i64 (StudyBudgetUnits.value charged_budget)
  | StudyCommand.FailActorObligation obligation_id reason_digest =>
      put_i64 (StudyIdentifier.value obligation_id) ++ put_digest reason_digest
  | StudyCommand.BindActorRuntime obligation_id office_session_id native_child_id
      native_child_spawn_admission_id =>
      put_i64 (StudyIdentifier.value obligation_id) ++
      put_i64 (Identifier.value office_session_id) ++
      put_i64 (Identifier.value native_child_id) ++
      put_i64 (Identifier.value native_child_spawn_admission_id)
  | StudyCommand.BindActorTaskAttemptRuntime obligation_id actor_attempt_id native_child_id
      native_child_spawn_admission_id =>
      put_i64 (StudyIdentifier.value obligation_id) ++
      put_i64 (Identifier.value actor_attempt_id) ++
      put_i64 (Identifier.value native_child_id) ++
      put_i64 (Identifier.value native_child_spawn_admission_id)
  | StudyCommand.ReconcileActorRuntime obligation_id native_child_id =>
      put_i64 (StudyIdentifier.value obligation_id) ++
      put_i64 (Identifier.value native_child_id)
  | StudyCommand.SettleActorTaskAttemptAfterRecovery obligation_id actor_attempt_id
      native_child_id native_child_recovery_receipt_id =>
      put_i64 (StudyIdentifier.value obligation_id) ++
      put_i64 (Identifier.value actor_attempt_id) ++
      put_i64 (Identifier.value native_child_id) ++
      put_i64 (Identifier.value native_child_recovery_receipt_id)
  | StudyCommand.FreezeForumHead episode_id thread_id =>
      put_i64 (StudyIdentifier.value episode_id) ++ put_i64 (StudyIdentifier.value thread_id)
  | _ => put_study_outcome command
  end.

(** Admissions and runs. *)
Definition put_study_admission (command : StudyCommand.t) : list byte :=
  match command with
  | StudyCommand.AdmitProtocolRevision application_revision_id protocol_digest
      actor_policy_digest forum_prompt_digest forum_tool_digest evidence_digest
      ground_truth_commitment_digest correction_digest topology_digest episode_budget =>
      put_i64 (Identifier.value application_revision_id) ++
      flat_map put_digest
        [protocol_digest; actor_policy_digest; forum_prompt_digest; forum_tool_digest;
         evidence_digest; ground_truth_commitment_digest; correction_digest; topology_digest] ++
      put_i64 (StudyBudgetUnits.value episode_budget)
  | StudyCommand.AdmitWorldRevision protocol_revision_id world_digest =>
      put_i64 (StudyIdentifier.value protocol_revision_id) ++ put_digest world_digest
  | StudyCommand.AdmitMeasurementRevision protocol_revision_id analysis_digest
      measurement_slot_count =>
      put_i64 (StudyIdentifier.value protocol_revision_id) ++ put_digest analysis_digest ++
      put_i64 (StudyMeasurementSlotCount.value measurement_slot_count)
  | StudyCommand.AdmitInstitutionRevision protocol_revision_id institution_digest =>
      put_i64 (StudyIdentifier.value protocol_revision_id) ++ put_digest institution_digest
  | StudyCommand.AdmitPopulationSnapshot protocol_revision_id population_digest
      population_size =>
      put_i64 (StudyIdentifier.value protocol_revision_id) ++ put_digest population_digest ++
      put_i64 (inner population_size)
  | StudyCommand.AdmitEpisode protocol_revision_id world_revision_id measurement_revision_id
      institution_revision_id population_snapshot_id randomization_digest =>
      flat_map put_i64
        [StudyIdentifier.value protocol_revision_id; StudyIdentifier.value world_revision_id;
         StudyIdentifier.value measurement_revision_id;
         StudyIdentifier.value institution_revision_id;
         StudyIdentifier.value population_snapshot_id] ++
      put_digest randomization_digest
  | StudyCommand.AssignTreatment episode_id treatment =>
      put_i64 (StudyIdentifier.value episode_id) ++ put_i64 (StudyTreatment.as_i64 treatment)
  | StudyCommand.AdmitMatchedPair retained_episode_id reset_episode_id =>
      put_i64 (StudyIdentifier.value retained_episode_id) ++
      put_i64 (StudyIdentifier.value reset_episode_id)
  | StudyCommand.AdmitStudyRun protocol_revision_id plan_content_object_id plan_digest
      pair_count =>
      put_i64 (StudyIdentifier.value protocol_revision_id) ++
      put_i64 (Identifier.value plan_content_object_id) ++ put_digest plan_digest ++
      put_i64 (StudyRunPairCount.value pair_count)
  | StudyCommand.RegisterStudyRunPair study_run_id pair_ordinal pair_id randomization_digest =>
      put_i64 (StudyIdentifier.value study_run_id) ++
      put_i64 (StudyRunPairOrdinal.value pair_ordinal) ++
      put_i64 (StudyIdentifier.value pair_id) ++ put_digest randomization_digest
  | StudyCommand.StartStudyRun study_run_id => put_i64 (StudyIdentifier.value study_run_id)
  | StudyCommand.CompleteStudyRun study_run_id => put_i64 (StudyIdentifier.value study_run_id)
  | _ => put_study_actor command
  end.

Definition append_command_fingerprint (command : StudyCommand.t) : list byte :=
  put_i64 (StudyCommandKind.as_i64 (StudyCommand.kind command)) ++ put_study_admission command.

(** ** [append_event_fingerprint], the study's events *)

(** Runtimes, messages, measurements. *)
Definition put_study_outcome_event (event : StudyEvent.t) : list byte :=
  match event with
  | StudyEvent.ActorRuntimeReconciled obligation_id native_child_id =>
      put_i64 (StudyIdentifier.value obligation_id) ++
      put_i64 (Identifier.value native_child_id)
  | StudyEvent.ActorTaskAttemptRecoverySettled obligation_id actor_attempt_id
      native_child_id native_child_recovery_receipt_id accounting_state =>
      put_i64 (StudyIdentifier.value obligation_id) ++
      put_i64 (Identifier.value actor_attempt_id) ++
      put_i64 (Identifier.value native_child_id) ++
      put_i64 (Identifier.value native_child_recovery_receipt_id) ++
      put_i64 (StudyActorTaskAttemptRecoveryAccountingState.as_i64 accounting_state)
  | StudyEvent.GroundTruthRevealed episode_id reveal_digest =>
      put_i64 (StudyIdentifier.value episode_id) ++ put_digest reveal_digest
  | StudyEvent.ForumHeadFrozen episode_id thread_id head_message_ordinal =>
      put_i64 (StudyIdentifier.value episode_id) ++
      put_i64 (StudyIdentifier.value thread_id) ++ put_i64 (inner head_message_ordinal)
  | StudyEvent.ForumExposureAdmitted exposure_id obligation_id visible_from_message_ordinal
      visible_through_message_ordinal =>
      put_i64 (StudyIdentifier.value exposure_id) ++
      put_i64 (StudyIdentifier.value obligation_id) ++
      put_i64 (inner visible_from_message_ordinal) ++
      put_i64 (inner visible_through_message_ordinal)
  | StudyEvent.ForumMessagePublished message_id thread_id message_ordinal
      author_occurrence_id kind body_digest =>
      put_i64 (StudyIdentifier.value message_id) ++
      put_i64 (StudyIdentifier.value thread_id) ++ put_i64 (inner message_ordinal) ++
      put_i64 (StudyIdentifier.value author_occurrence_id) ++
      put_i64 (ForumMessageKind.as_i64 kind) ++ put_digest body_digest
  | StudyEvent.MatchedCorrectionReleased pair_id retained_message_id reset_message_id
      body_digest =>
      put_i64 (StudyIdentifier.value pair_id) ++
      put_i64 (StudyIdentifier.value retained_message_id) ++
      put_i64 (StudyIdentifier.value reset_message_id) ++ put_digest body_digest
  | StudyEvent.ForumMessagesRead receipt_id obligation_id thread_id first_message_ordinal
      through_message_ordinal rendered_digest rendered_content_object_id =>
      put_i64 (StudyIdentifier.value receipt_id) ++
      put_i64 (StudyIdentifier.value obligation_id) ++
      put_i64 (StudyIdentifier.value thread_id) ++ put_i64 (inner first_message_ordinal) ++
      put_i64 (inner through_message_ordinal) ++ put_digest rendered_digest ++
      put_i64 (Identifier.value rendered_content_object_id)
  | StudyEvent.MeasurementResultRecorded result_id episode_id status =>
      put_i64 (StudyIdentifier.value result_id) ++
      put_i64 (StudyIdentifier.value episode_id) ++
      put_i64 (StudyMeasurementStatus.as_i64 status)
  | StudyEvent.ExperimentalForkCreated fork_id episode_id source_episode_id treatment_delta =>
      put_i64 (StudyIdentifier.value fork_id) ++ put_i64 (StudyIdentifier.value episode_id) ++
      put_i64 (StudyIdentifier.value source_episode_id) ++
      put_i64 (StudyTreatment.as_i64 treatment_delta)
  | StudyEvent.ForumMessageRetracted message_id obligation_id =>
      put_i64 (StudyIdentifier.value message_id) ++
      put_i64 (StudyIdentifier.value obligation_id)
  | _ => []
  end.

(** Admissions, runs, actors. *)
Definition put_study_lifecycle_event (event : StudyEvent.t) : list byte :=
  match event with
  | StudyEvent.ProtocolRevisionAdmitted protocol_revision_id =>
      put_i64 (StudyIdentifier.value protocol_revision_id)
  | StudyEvent.WorldRevisionAdmitted world_revision_id =>
      put_i64 (StudyIdentifier.value world_revision_id)
  | StudyEvent.MeasurementRevisionAdmitted measurement_revision_id =>
      put_i64 (StudyIdentifier.value measurement_revision_id)
  | StudyEvent.InstitutionRevisionAdmitted institution_revision_id =>
      put_i64 (StudyIdentifier.value institution_revision_id)
  | StudyEvent.PopulationSnapshotAdmitted population_snapshot_id =>
      put_i64 (StudyIdentifier.value population_snapshot_id)
  | StudyEvent.EpisodeAdmitted episode_id => put_i64 (StudyIdentifier.value episode_id)
  | StudyEvent.EpisodeClosed episode_id => put_i64 (StudyIdentifier.value episode_id)
  | StudyEvent.PopulationReplaced episode_id successor_population_snapshot_id =>
      put_i64 (StudyIdentifier.value episode_id) ++
      put_i64 (StudyIdentifier.value successor_population_snapshot_id)
  | StudyEvent.TreatmentAssigned treatment_assignment_id episode_id treatment =>
      put_i64 (StudyIdentifier.value treatment_assignment_id) ++
      put_i64 (StudyIdentifier.value episode_id) ++ put_i64 (StudyTreatment.as_i64 treatment)
  | StudyEvent.MatchedPairAdmitted pair_id => put_i64 (StudyIdentifier.value pair_id)
  | StudyEvent.StudyRunAdmitted study_run_id protocol_revision_id plan_content_object_id
      plan_digest pair_count =>
      put_i64 (StudyIdentifier.value study_run_id) ++
      put_i64 (StudyIdentifier.value protocol_revision_id) ++
      put_i64 (Identifier.value plan_content_object_id) ++ put_digest plan_digest ++
      put_i64 (StudyRunPairCount.value pair_count)
  | StudyEvent.StudyRunPairRegistered study_run_id pair_id pair_ordinal randomization_digest
      lifecycle_state =>
      put_i64 (StudyIdentifier.value study_run_id) ++
      put_i64 (StudyIdentifier.value pair_id) ++
      put_i64 (StudyRunPairOrdinal.value pair_ordinal) ++ put_digest randomization_digest ++
      put_i64 (StudyRunLifecycleState.as_i64 lifecycle_state)
  | StudyEvent.StudyRunStarted study_run_id => put_i64 (StudyIdentifier.value study_run_id)
  | StudyEvent.StudyRunCompleted study_run_id => put_i64 (StudyIdentifier.value study_run_id)
  | StudyEvent.EpisodeForumCreated forum_id episode_id =>
      put_i64 (StudyIdentifier.value forum_id) ++ put_i64 (StudyIdentifier.value episode_id)
  | StudyEvent.ForumThreadOpened thread_id forum_id =>
      put_i64 (StudyIdentifier.value thread_id) ++ put_i64 (StudyIdentifier.value forum_id)
  | StudyEvent.ActorObligationAdmitted obligation_id actor_occurrence_id episode_id
      population_snapshot_id phase =>
      put_i64 (StudyIdentifier.value obligation_id) ++
      put_i64 (StudyIdentifier.value actor_occurrence_id) ++
      put_i64 (StudyIdentifier.value episode_id) ++
      put_i64 (StudyIdentifier.value population_snapshot_id) ++
      put_i64 (StudyPopulationPhase.as_i64 phase)
  | StudyEvent.ActorObligationCompleted obligation_id =>
      put_i64 (StudyIdentifier.value obligation_id)
  | StudyEvent.DecisionRecorded obligation_id => put_i64 (StudyIdentifier.value obligation_id)
  | StudyEvent.ActorObligationFailed obligation_id reason_digest =>
      put_i64 (StudyIdentifier.value obligation_id) ++ put_digest reason_digest
  | StudyEvent.ActorRuntimeBound obligation_id office_session_id native_child_id
      native_child_spawn_admission_id execution_profile_id =>
      put_i64 (StudyIdentifier.value obligation_id) ++
      put_i64 (Identifier.value office_session_id) ++
      put_i64 (Identifier.value native_child_id) ++
      put_i64 (Identifier.value native_child_spawn_admission_id) ++
      put_i64 (Identifier.value execution_profile_id)
  | StudyEvent.ActorTaskAttemptRuntimeBound obligation_id actor_attempt_id native_child_id
      native_child_spawn_admission_id execution_profile_id =>
      put_i64 (StudyIdentifier.value obligation_id) ++
      put_i64 (Identifier.value actor_attempt_id) ++
      put_i64 (Identifier.value native_child_id) ++
      put_i64 (Identifier.value native_child_spawn_admission_id) ++
      put_i64 (Identifier.value execution_profile_id)
  | _ => put_study_outcome_event event
  end.

Definition append_event_fingerprint (event : StudyEvent.t) : list byte :=
  put_i64 (StudyEventKind.as_i64 (StudyEvent.kind event)) ++ put_study_lifecycle_event event.

(** ** [request_fingerprint] *)

(** Qualification and the study. *)
Definition put_qualification_body (body : CommandBody.t) : list byte :=
  match body with
  | CommandBody.QualifyNativeExecutionProfile operating_cycle_id execution_profile_id
      native_child_spawn_admission_id native_child_id runtime_identity_digest
      runtime_identity_content_object_id adapter_report_digest
      adapter_report_content_object_id probe_request_digest probe_response_digest
      probe_response_content_object_id =>
      put_i64 (Identifier.value operating_cycle_id) ++
      put_i64 (Identifier.value execution_profile_id) ++
      put_i64 (Identifier.value native_child_spawn_admission_id) ++
      put_i64 (Identifier.value native_child_id) ++
      put_bytes (Blake3Digest.as_bytes runtime_identity_digest) ++
      put_i64 (Identifier.value runtime_identity_content_object_id) ++
      put_bytes (Blake3Digest.as_bytes adapter_report_digest) ++
      put_i64 (Identifier.value adapter_report_content_object_id) ++
      put_bytes (Blake3Digest.as_bytes probe_request_digest) ++
      put_bytes (Blake3Digest.as_bytes probe_response_digest) ++
      put_i64 (Identifier.value probe_response_content_object_id)
  | CommandBody.StartNativeExecutionProfileQualification operating_cycle_id =>
      put_i64 (Identifier.value operating_cycle_id)
  | CommandBody.ClaimStudyActorTaskAttemptLaunch study_actor_obligation_id
      operating_cycle_id work_item_id reservation_amount supervisor_epoch_id
      supervisor_epoch_identity native_workspace_id canonical_workspace_path =>
      put_i64 (StudyIdentifier.value study_actor_obligation_id) ++
      put_i64 (Identifier.value operating_cycle_id) ++
      put_i64 (Identifier.value work_item_id) ++
      put_i64 (UsdMicros.value reservation_amount) ++
      put_i64 (Identifier.value supervisor_epoch_id) ++
      put_bytes (bytes (BoundaryIdentity.as_str supervisor_epoch_identity)) ++
      put_bytes (bytes (BoundaryIdentity.as_str native_workspace_id)) ++
      put_bytes (bytes (CanonicalWorkspacePath.as_str canonical_workspace_path))
  | CommandBody.ClaimNativeExecutionProfileQualificationLaunch operating_cycle_id
      reservation_amount supervisor_epoch_id supervisor_epoch_identity native_workspace_id
      canonical_workspace_path =>
      put_i64 (Identifier.value operating_cycle_id) ++
      put_i64 (UsdMicros.value reservation_amount) ++
      put_i64 (Identifier.value supervisor_epoch_id) ++
      put_bytes (bytes (BoundaryIdentity.as_str supervisor_epoch_identity)) ++
      put_bytes (bytes (BoundaryIdentity.as_str native_workspace_id)) ++
      put_bytes (bytes (CanonicalWorkspacePath.as_str canonical_workspace_path))
  | CommandBody.AllocateStudyActorWork study_run_id pair_ordinal treatment phase role
      operating_cycle_id work_item_id reservation_amount supervisor_epoch_id
      supervisor_epoch_identity =>
      put_i64 (StudyIdentifier.value study_run_id) ++
      put_i64 (StudyRunPairOrdinal.value pair_ordinal) ++
      put_i64 (StudyTreatment.as_i64 treatment) ++
      put_i64 (StudyPopulationPhase.as_i64 phase) ++ put_i64 (StudyRoleOrdinal.value role) ++
      put_i64 (Identifier.value operating_cycle_id) ++
      put_i64 (Identifier.value work_item_id) ++
      put_i64 (UsdMicros.value reservation_amount) ++
      put_i64 (Identifier.value supervisor_epoch_id) ++
      put_bytes (bytes (BoundaryIdentity.as_str supervisor_epoch_identity))
  | CommandBody.StudyTransition command => append_command_fingerprint command
  | _ => []
  end.

(** Task attempts over Pi. *)
Definition put_task_attempt_body (body : CommandBody.t) : list byte :=
  match body with
  | CommandBody.AuthorizePiTaskAttemptPrompt actor_attempt_id correlation_identity
      prompt_content_object_id prompt_digest frontier_event_id =>
      put_i64 (Identifier.value actor_attempt_id) ++
      put_bytes (bytes (BoundaryIdentity.as_str correlation_identity)) ++
      put_i64 (Identifier.value prompt_content_object_id) ++
      put_bytes (Blake3Digest.as_bytes prompt_digest) ++
      put_i64 (Identifier.value frontier_event_id)
  | CommandBody.RecordPiTaskAttemptPromptDelivery actor_attempt_id correlation_identity
      prompt_digest =>
      put_i64 (Identifier.value actor_attempt_id) ++
      put_bytes (bytes (BoundaryIdentity.as_str correlation_identity)) ++
      put_bytes (Blake3Digest.as_bytes prompt_digest)
  | CommandBody.RecordPiTaskAttemptPromptAccepted actor_attempt_id correlation_identity
      command_result_sequence =>
      put_i64 (Identifier.value actor_attempt_id) ++
      put_bytes (bytes (BoundaryIdentity.as_str correlation_identity)) ++
      put_i64 (Identifier.value command_result_sequence)
  | CommandBody.RecordPiTaskAttemptUsage actor_attempt_id correlation_identity
      protocol_sequence usage =>
      put_i64 (Identifier.value actor_attempt_id) ++
      put_bytes (bytes (BoundaryIdentity.as_str correlation_identity)) ++
      put_i64 (Identifier.value protocol_sequence) ++ put_pi_cumulative_usage usage
  | CommandBody.RecordPiTaskAttemptSessionDisposeUsage actor_attempt_id correlation_identity
      protocol_sequence usage =>
      put_i64 (Identifier.value actor_attempt_id) ++
      put_bytes (bytes (BoundaryIdentity.as_str correlation_identity)) ++
      put_i64 (Identifier.value protocol_sequence) ++ put_pi_cumulative_usage usage
  | CommandBody.RecordPiTaskAttemptUsageFailure actor_attempt_id correlation_identity
      protocol_sequence failure =>
      put_i64 (Identifier.value actor_attempt_id) ++
      put_bytes (bytes (BoundaryIdentity.as_str correlation_identity)) ++
      put_i64 (Identifier.value protocol_sequence) ++
      put_pi_task_attempt_usage_failure failure
  | CommandBody.RecordPiTaskAttemptSessionDisposeUsageFailure actor_attempt_id
      correlation_identity protocol_sequence failure =>
      put_i64 (Identifier.value actor_attempt_id) ++
      put_bytes (bytes (BoundaryIdentity.as_str correlation_identity)) ++
      put_i64 (Identifier.value protocol_sequence) ++
      put_pi_task_attempt_usage_failure failure
  | CommandBody.RecordPiTaskAttemptTerminal actor_attempt_id correlation_identity
      terminal_evidence settled_sequence disposition assistant_outcome
      transcript_disposition =>
      put_i64 (Identifier.value actor_attempt_id) ++
      put_bytes (bytes (BoundaryIdentity.as_str correlation_identity)) ++
      put_pi_task_attempt_terminal_evidence terminal_evidence ++
      put_i64 (Identifier.value settled_sequence) ++
      put_i64 (PiTaskAttemptDisposition.as_i64 disposition) ++
      put_i64 (PiTaskAttemptAssistantOutcome.as_i64 assistant_outcome) ++
      put_i64 (PiTaskAttemptTranscriptDisposition.as_i64 transcript_disposition)
  | CommandBody.AuthorizePiTaskAttemptSessionDispose actor_attempt_id correlation_identity =>
      put_i64 (Identifier.value actor_attempt_id) ++
      put_bytes (bytes (BoundaryIdentity.as_str correlation_identity))
  | CommandBody.RecordPiTaskAttemptSessionDisposeDelivery actor_attempt_id
      correlation_identity =>
      put_i64 (Identifier.value actor_attempt_id) ++
      put_bytes (bytes (BoundaryIdentity.as_str correlation_identity))
  | CommandBody.RecordPiTaskAttemptSessionDisposeAccepted actor_attempt_id
      correlation_identity command_result_sequence =>
      put_i64 (Identifier.value actor_attempt_id) ++
      put_bytes (bytes (BoundaryIdentity.as_str correlation_identity)) ++
      put_i64 (Identifier.value command_result_sequence)
  | CommandBody.RecordPiTaskAttemptSessionDisposed actor_attempt_id correlation_identity
      disposed_sequence transcript_receipt =>
      put_i64 (Identifier.value actor_attempt_id) ++
      put_bytes (bytes (BoundaryIdentity.as_str correlation_identity)) ++
      put_i64 (Identifier.value disposed_sequence) ++
      put_pi_task_attempt_session_transcript_receipt transcript_receipt
  | _ => put_qualification_body body
  end.

(** Office turns over Pi. *)
Definition put_office_turn_body (body : CommandBody.t) : list byte :=
  match body with
  | CommandBody.AuthorizePiOfficeTurnPrompt office_turn_id correlation_identity
      prompt_content_object_id prompt_digest frontier_event_id =>
      put_i64 (Identifier.value office_turn_id) ++
      put_bytes (bytes (BoundaryIdentity.as_str correlation_identity)) ++
      put_i64 (Identifier.value prompt_content_object_id) ++
      put_bytes (Blake3Digest.as_bytes prompt_digest) ++
      put_i64 (Identifier.value frontier_event_id)
  | CommandBody.RecordPiOfficeTurnPromptDelivery office_turn_id correlation_identity
      prompt_digest =>
      put_i64 (Identifier.value office_turn_id) ++
      put_bytes (bytes (BoundaryIdentity.as_str correlation_identity)) ++
      put_bytes (Blake3Digest.as_bytes prompt_digest)
  | CommandBody.RecordPiOfficeTurnPromptAccepted office_turn_id correlation_identity
      command_result_sequence =>
      put_i64 (Identifier.value office_turn_id) ++
      put_bytes (bytes (BoundaryIdentity.as_str correlation_identity)) ++
      put_i64 (Identifier.value command_result_sequence)
  | CommandBody.RecordPiOfficeTurnUsage office_turn_id correlation_identity
      protocol_sequence usage =>
      put_i64 (Identifier.value office_turn_id) ++
      put_bytes (bytes (BoundaryIdentity.as_str correlation_identity)) ++
      put_i64 (Identifier.value protocol_sequence) ++ put_pi_cumulative_usage usage
  | CommandBody.RecordPiOfficeTurnUsageFailure office_turn_id correlation_identity
      protocol_sequence failure =>
      put_i64 (Identifier.value office_turn_id) ++
      put_bytes (bytes (BoundaryIdentity.as_str correlation_identity)) ++
      put_i64 (Identifier.value protocol_sequence) ++ put_pi_office_turn_usage_failure failure
  | CommandBody.RecordPiOfficeTurnTerminal office_turn_id correlation_identity
      terminal_evidence settled_sequence disposition assistant_outcome
      transcript_disposition =>
      put_i64 (Identifier.value office_turn_id) ++
      put_bytes (bytes (BoundaryIdentity.as_str correlation_identity)) ++
      put_pi_office_turn_terminal_evidence terminal_evidence ++
      put_i64 (Identifier.value settled_sequence) ++
      put_i64 (PiOfficeTurnDisposition.as_i64 disposition) ++
      put_i64 (PiOfficeTurnAssistantOutcome.as_i64 assistant_outcome) ++
      put_i64 (PiOfficeTurnTranscriptDisposition.as_i64 transcript_disposition)
  | CommandBody.AuthorizePiOfficeSessionDispose session_id correlation_identity =>
      put_i64 (Identifier.value session_id) ++
      put_bytes (bytes (BoundaryIdentity.as_str correlation_identity))
  | CommandBody.RecordPiOfficeSessionDisposeDelivery session_id correlation_identity =>
      put_i64 (Identifier.value session_id) ++
      put_bytes (bytes (BoundaryIdentity.as_str correlation_identity))
  | CommandBody.RecordPiOfficeSessionDisposeAccepted session_id correlation_identity
      command_result_sequence =>
      put_i64 (Identifier.value session_id) ++
      put_bytes (bytes (BoundaryIdentity.as_str correlation_identity)) ++
      put_i64 (Identifier.value command_result_sequence)
  | CommandBody.RecordPiOfficeSessionDisposeUsage session_id correlation_identity
      protocol_sequence usage =>
      put_i64 (Identifier.value session_id) ++
      put_bytes (bytes (BoundaryIdentity.as_str correlation_identity)) ++
      put_i64 (Identifier.value protocol_sequence) ++ put_pi_cumulative_usage usage
  | CommandBody.RecordPiOfficeSessionDisposeUsageFailure session_id correlation_identity
      protocol_sequence failure =>
      put_i64 (Identifier.value session_id) ++
      put_bytes (bytes (BoundaryIdentity.as_str correlation_identity)) ++
      put_i64 (Identifier.value protocol_sequence) ++ put_pi_office_turn_usage_failure failure
  | CommandBody.RecordPiOfficeSessionDisposed session_id correlation_identity
      disposed_sequence transcript_receipt =>
      put_i64 (Identifier.value session_id) ++
      put_bytes (bytes (BoundaryIdentity.as_str correlation_identity)) ++
      put_i64 (Identifier.value disposed_sequence) ++
      put_pi_office_session_transcript_receipt transcript_receipt
  | _ => put_task_attempt_body body
  end.

(** Children: streams to recovery. *)
Definition put_reap_body (body : CommandBody.t) : list byte :=
  match body with
  | CommandBody.RecordChildStreamSeal native_child_id stream_kind full_observed_digest
      retained_content_object_id completeness =>
      put_i64 (Identifier.value native_child_id) ++
      put_i64 (ChildStreamKind.as_i64 stream_kind) ++
      put_bytes (Blake3Digest.as_bytes full_observed_digest) ++
      put_i64 (Identifier.value retained_content_object_id) ++
      put_i64 (ChildStreamSealCompleteness.as_i64 completeness)
  | CommandBody.RecordChildProcessLiveness native_child_id liveness =>
      put_i64 (Identifier.value native_child_id) ++
      put_i64 (ProcessGroupLiveness.as_i64 liveness)
  | CommandBody.RecordProcessSignalReceipt native_child_id action delivery observed_liveness
      cause =>
      put_i64 (Identifier.value native_child_id) ++
      put_i64 (ProcessSignalAction.as_i64 action) ++
      put_i64 (ProcessSignalDelivery.as_i64 delivery) ++
      put_i64 (ProcessGroupLiveness.as_i64 observed_liveness) ++
      put_process_signal_cause cause
  | CommandBody.RecordDirectChildReap native_child_id wait_status
      group_liveness_before_cleanup group_liveness_after_cleanup =>
      put_i64 (Identifier.value native_child_id) ++ put_direct_wait_status wait_status ++
      put_i64 (ProcessGroupLiveness.as_i64 group_liveness_before_cleanup) ++
      put_i64 (ProcessGroupLiveness.as_i64 group_liveness_after_cleanup)
  | CommandBody.RecordChildRecovery native_child_id observation group_liveness_after_restart =>
      put_i64 (Identifier.value native_child_id) ++
      put_i64 (ChildRecoveryObservation.as_i64 observation) ++
      put_i64 (ProcessGroupLiveness.as_i64 group_liveness_after_restart)
  | CommandBody.FinalizeChildProcess native_child_id =>
      put_i64 (Identifier.value native_child_id)
  | CommandBody.BeginCancellationPropagation cancellation_request_id =>
      put_i64 (Identifier.value cancellation_request_id)
  | CommandBody.ReconcileCancellationPropagation cancellation_propagation_id =>
      put_i64 (Identifier.value cancellation_propagation_id)
  | CommandBody.RecordNativeChildNotSpawned native_child_spawn_admission_id reason =>
      put_i64 (Identifier.value native_child_spawn_admission_id) ++
      put_i64 (NativeChildNotSpawnedReason.as_i64 reason)
  | _ => put_office_turn_body body
  end.

(** Children: admission to session. *)
Definition put_child_body (body : CommandBody.t) : list byte :=
  match body with
  | CommandBody.OpenSupervisorEpoch supervisor_epoch_id supervisor_epoch_identity =>
      put_i64 (Identifier.value supervisor_epoch_id) ++
      put_bytes (bytes (BoundaryIdentity.as_str supervisor_epoch_identity))
  | CommandBody.AdmitPiChildSpawn operating_cycle_id owner budget_reservation_id
      execution_profile_id native_workspace_id canonical_workspace_path supervisor_epoch_id
      supervisor_epoch_identity pi_session_identity spawn_nonce =>
      put_i64 (Identifier.value operating_cycle_id) ++
      (match owner with
      | PiChildOwner.ActorAttempt id => put_i64 1 ++ put_i64 (Identifier.value id)
      | PiChildOwner.RootAuthorityOfficeSession id =>
            put_i64 2 ++ put_i64 (Identifier.value id)
      | PiChildOwner.NativeExecutionProfileQualification cycle =>
            put_i64 3 ++ put_i64 (Identifier.value cycle)
       end) ++
      put_i64 (Identifier.value budget_reservation_id) ++
      put_i64 (Identifier.value execution_profile_id) ++
      put_bytes (bytes (BoundaryIdentity.as_str native_workspace_id)) ++
      put_bytes (bytes (CanonicalWorkspacePath.as_str canonical_workspace_path)) ++
      put_i64 (Identifier.value supervisor_epoch_id) ++
      put_bytes (bytes (BoundaryIdentity.as_str supervisor_epoch_identity)) ++
      put_bytes (bytes (BoundaryIdentity.as_str pi_session_identity)) ++
      put_bytes (bytes (BoundaryIdentity.as_str spawn_nonce))
  | CommandBody.RecordInertChildSpawn native_child_spawn_admission_id child_identity
      direct_child_pid process_group_id =>
      put_i64 (Identifier.value native_child_spawn_admission_id) ++
      put_bytes (bytes (BoundaryIdentity.as_str child_identity)) ++
      put_i64 (NativeProcessValue.value direct_child_pid) ++
      put_i64 (NativeProcessValue.value process_group_id)
  | CommandBody.RecordPiAdapterReady native_child_id pi_session_identity spawn_nonce =>
      put_i64 (Identifier.value native_child_id) ++
      put_bytes (bytes (BoundaryIdentity.as_str pi_session_identity)) ++
      put_bytes (bytes (BoundaryIdentity.as_str spawn_nonce))
  | CommandBody.AuthorizePiCreateSession native_child_id correlation_identity
      create_request_digest =>
      put_i64 (Identifier.value native_child_id) ++
      put_bytes (bytes (BoundaryIdentity.as_str correlation_identity)) ++
      put_bytes (Blake3Digest.as_bytes create_request_digest)
  | CommandBody.RecordPiCreateSessionDelivery native_child_id correlation_identity
      create_request_digest =>
      put_i64 (Identifier.value native_child_id) ++
      put_bytes (bytes (BoundaryIdentity.as_str correlation_identity)) ++
      put_bytes (Blake3Digest.as_bytes create_request_digest)
  | CommandBody.RecordPiSessionReady native_child_id pi_session_identity =>
      put_i64 (Identifier.value native_child_id) ++
      put_bytes (bytes (BoundaryIdentity.as_str pi_session_identity))
  | CommandBody.RecordPiAbortControlDelivery native_child_id cancellation_propagation_id
      correlation_identity abort_command_digest outcome =>
      put_i64 (Identifier.value native_child_id) ++
      put_i64 (Identifier.value cancellation_propagation_id) ++
      put_bytes (bytes (BoundaryIdentity.as_str correlation_identity)) ++
      put_bytes (Blake3Digest.as_bytes abort_command_digest) ++
      put_i64 (PiAbortControlWriteOutcome.as_i64 outcome)
  | _ => put_reap_body body
  end.

(** Work, leases, attempts, obligations. *)
Definition put_work_body (body : CommandBody.t) : list byte :=
  match body with
  | CommandBody.AdmitTicket operating_cycle_id ticket_id =>
      put_i64 (Identifier.value operating_cycle_id) ++ put_i64 (Identifier.value ticket_id)
  | CommandBody.RegisterWorkItem operating_cycle_id ticket_id actor_instance_id
      context_pack_id work_kind adversarial_review_id assignment =>
      put_i64 (Identifier.value operating_cycle_id) ++ put_i64 (Identifier.value ticket_id) ++
      put_i64 (Identifier.value actor_instance_id) ++
      put_i64 (Identifier.value context_pack_id) ++ put_i64 (WorkItemKind.as_i64 work_kind) ++
      put_optional_i64 (option_map Identifier.value adversarial_review_id) ++
      put_bytes (bytes (CoordinationText.as_str assignment))
  | CommandBody.ClaimWorkItem operating_cycle_id work_item_id =>
      put_i64 (Identifier.value operating_cycle_id) ++ put_i64 (Identifier.value work_item_id)
  | CommandBody.StartActorAttempt operating_cycle_id work_item_id reservation_amount =>
      put_i64 (Identifier.value operating_cycle_id) ++
      put_i64 (Identifier.value work_item_id) ++ put_i64 (UsdMicros.value reservation_amount)
  | CommandBody.AttestActorAttemptTerminal actor_attempt_id terminal_kind =>
      put_i64 (Identifier.value actor_attempt_id) ++
      put_i64 (ActorAttemptTerminalKind.as_i64 terminal_kind)
  | CommandBody.ValidateTicketAttempt operating_cycle_id actor_attempt_id =>
      put_i64 (Identifier.value operating_cycle_id) ++
      put_i64 (Identifier.value actor_attempt_id)
  | CommandBody.RetryActorAttempt operating_cycle_id actor_attempt_id =>
      put_i64 (Identifier.value operating_cycle_id) ++
      put_i64 (Identifier.value actor_attempt_id)
  | CommandBody.CompleteTicket operating_cycle_id actor_attempt_id =>
      put_i64 (Identifier.value operating_cycle_id) ++
      put_i64 (Identifier.value actor_attempt_id)
  | CommandBody.ExpireWorkLease work_lease_id => put_i64 (Identifier.value work_lease_id)
  | CommandBody.CancelActorAttempt actor_attempt_id reason =>
      put_i64 (Identifier.value actor_attempt_id) ++
      put_i64 (ActorAttemptCancellationReason.as_i64 reason)
  | CommandBody.RegisterOutcomeObligation operating_cycle_id project_id obligation =>
      put_i64 (Identifier.value operating_cycle_id) ++
      put_i64 (Identifier.value project_id) ++
      put_bytes (bytes (CoordinationText.as_str obligation))
  | CommandBody.ResolveOutcomeObligation operating_cycle_id outcome_obligation_id disposition =>
      put_i64 (Identifier.value operating_cycle_id) ++
      put_i64 (Identifier.value outcome_obligation_id) ++
      put_i64 (OutcomeObligationDisposition.as_i64 disposition)
  | _ => put_child_body body
  end.

(** Postmortems and actors. *)
Definition put_postmortem_body (body : CommandBody.t) : list byte :=
  match body with
  | CommandBody.ResolveAdversarialReview operating_cycle_id adversarial_review_id resolution =>
      put_i64 (Identifier.value operating_cycle_id) ++
      put_i64 (Identifier.value adversarial_review_id) ++
      put_i64 (ReviewResolutionKind.as_i64 resolution)
  | CommandBody.TriggerPostmortem operating_cycle_id project_id causal_episode_id =>
      put_i64 (Identifier.value operating_cycle_id) ++
      put_i64 (Identifier.value project_id) ++
      put_optional_i64 (option_map Identifier.value causal_episode_id)
  | CommandBody.RecordPostmortemCausalClaim operating_cycle_id postmortem_id claim_kind claim =>
      put_i64 (Identifier.value operating_cycle_id) ++
      put_i64 (Identifier.value postmortem_id) ++
      put_i64 (PostmortemCausalClaimKind.as_i64 claim_kind) ++
      put_bytes (bytes (CoordinationText.as_str claim))
  | CommandBody.ProposePostmortemAction operating_cycle_id postmortem_id action_kind action =>
      put_i64 (Identifier.value operating_cycle_id) ++
      put_i64 (Identifier.value postmortem_id) ++
      put_i64 (PostmortemActionKind.as_i64 action_kind) ++
      put_bytes (bytes (CoordinationText.as_str action))
  | CommandBody.ClosePostmortem operating_cycle_id postmortem_id =>
      put_i64 (Identifier.value operating_cycle_id) ++
      put_i64 (Identifier.value postmortem_id)
  | CommandBody.RegisterActorConfiguration configuration_name model_policy primary_attractor =>
      put_bytes (bytes (CoordinationText.as_str configuration_name)) ++
      put_i64 (ActorModelPolicy.as_i64 model_policy) ++
      put_i64 (DevelopmentalAttractor.as_i64 primary_attractor)
  | CommandBody.RegisterContextPack operating_cycle_id purpose rendering_digest =>
      put_i64 (Identifier.value operating_cycle_id) ++
      put_i64 (ContextPackPurpose.as_i64 purpose) ++
      put_bytes (Blake3Digest.as_bytes rendering_digest)
  | CommandBody.AdmitActorInstance operating_cycle_id actor_configuration_revision_id
      execution_profile_id actor_display_name =>
      put_i64 (Identifier.value operating_cycle_id) ++
      put_i64 (Identifier.value actor_configuration_revision_id) ++
      put_i64 (Identifier.value execution_profile_id) ++
      put_bytes (bytes (PrincipalDisplayName.as_str actor_display_name))
  | _ => put_work_body body
  end.

(** Content, manifests, experiments. *)
Definition put_evidence_body (body : CommandBody.t) : list byte :=
  match body with
  | CommandBody.RecordContentSealReceipt digest => put_bytes (Blake3Digest.as_bytes digest)
  | CommandBody.RegisterContentObject content_seal_receipt_id =>
      put_i64 (Identifier.value content_seal_receipt_id)
  | CommandBody.RegisterForensicManifest operating_cycle_id
      producing_deterministic_experiment_id capture_policy retention_access_class
      evaluator_output_content_object_id =>
      put_i64 (Identifier.value operating_cycle_id) ++
      put_i64 (Identifier.value producing_deterministic_experiment_id) ++
      put_i64 (ForensicManifestCapturePolicy.as_i64 capture_policy) ++
      put_i64 (RetentionAccessClass.as_i64 retention_access_class) ++
      put_i64 (Identifier.value evaluator_output_content_object_id)
  | CommandBody.RegisterDeterministicEvaluatorForensicManifest operating_cycle_id
      native_child_spawn_admission_id =>
      put_i64 (Identifier.value operating_cycle_id) ++
      put_i64 (Identifier.value native_child_spawn_admission_id)
  | CommandBody.RegisterDeterministicExperiment operating_cycle_id project_id ticket_id
      target_graph_revision_id evaluator_content_object_id input_manifest_content_object_id =>
      put_i64 (Identifier.value operating_cycle_id) ++
      put_i64 (Identifier.value project_id) ++ put_i64 (Identifier.value ticket_id) ++
      put_i64 (Identifier.value target_graph_revision_id) ++
      put_i64 (Identifier.value evaluator_content_object_id) ++
      put_i64 (Identifier.value input_manifest_content_object_id)
  | CommandBody.RecordDeterministicEvaluationReceipt operating_cycle_id
      deterministic_experiment_id evaluator_revision_id input_manifest_id
      forensic_manifest_id evaluator_output_content_object_id =>
      put_i64 (Identifier.value operating_cycle_id) ++
      put_i64 (Identifier.value deterministic_experiment_id) ++
      put_i64 (Identifier.value evaluator_revision_id) ++
      put_i64 (Identifier.value input_manifest_id) ++
      put_i64 (Identifier.value forensic_manifest_id) ++
      put_i64 (Identifier.value evaluator_output_content_object_id)
  | CommandBody.AdmitDeterministicEvidence operating_cycle_id
      deterministic_evaluation_receipt_id =>
      put_i64 (Identifier.value operating_cycle_id) ++
      put_i64 (Identifier.value deterministic_evaluation_receipt_id)
  | CommandBody.FinalizeDeterministicExperiment operating_cycle_id
      deterministic_experiment_id =>
      put_i64 (Identifier.value operating_cycle_id) ++
      put_i64 (Identifier.value deterministic_experiment_id)
  | CommandBody.AdmitDeterministicEvaluatorNativeChild operating_cycle_id
      deterministic_experiment_id evaluator_revision_id input_manifest_id
      execution_profile_id native_workspace_id canonical_workspace_path supervisor_epoch_id
      supervisor_epoch_identity =>
      put_i64 (Identifier.value operating_cycle_id) ++
      put_i64 (Identifier.value deterministic_experiment_id) ++
      put_i64 (Identifier.value evaluator_revision_id) ++
      put_i64 (Identifier.value input_manifest_id) ++
      put_i64 (Identifier.value execution_profile_id) ++
      put_bytes (bytes (BoundaryIdentity.as_str native_workspace_id)) ++
      put_bytes (bytes (CanonicalWorkspacePath.as_str canonical_workspace_path)) ++
      put_i64 (Identifier.value supervisor_epoch_id) ++
      put_bytes (bytes (BoundaryIdentity.as_str supervisor_epoch_identity))
  | CommandBody.RecordDeterministicEvaluatorNativeChildSpawn native_child_spawn_admission_id
      child_identity direct_child_pid process_group_id =>
      put_i64 (Identifier.value native_child_spawn_admission_id) ++
      put_bytes (bytes (BoundaryIdentity.as_str child_identity)) ++
      put_i64 (NativeProcessValue.value direct_child_pid) ++
      put_i64 (NativeProcessValue.value process_group_id)
  | _ => put_postmortem_body body
  end.

(** Episodes and reviews. *)
Definition put_review_body (body : CommandBody.t) : list byte :=
  match body with
  | CommandBody.CreateEpisode operating_cycle_id project_id =>
      put_i64 (Identifier.value operating_cycle_id) ++ put_i64 (Identifier.value project_id)
  | CommandBody.TransitionEpisode operating_cycle_id causal_episode_id target =>
      put_i64 (Identifier.value operating_cycle_id) ++
      put_i64 (Identifier.value causal_episode_id) ++ put_i64 (EpisodeState.as_i64 target)
  | CommandBody.ReopenEpisode operating_cycle_id causal_episode_id =>
      put_i64 (Identifier.value operating_cycle_id) ++
      put_i64 (Identifier.value causal_episode_id)
  | CommandBody.RequestAdversarialReview operating_cycle_id project_id
      target_graph_revision_id =>
      put_i64 (Identifier.value operating_cycle_id) ++
      put_i64 (Identifier.value project_id) ++
      put_i64 (Identifier.value target_graph_revision_id)
  | CommandBody.AssignAdversarialReviewer operating_cycle_id adversarial_review_id
      reviewer_principal_id reviewer_actor_instance_id reviewer_actor_attempt_id =>
      put_i64 (Identifier.value operating_cycle_id) ++
      put_i64 (Identifier.value adversarial_review_id) ++
      put_i64 (Identifier.value reviewer_principal_id) ++
      put_i64 (Identifier.value reviewer_actor_instance_id) ++
      put_i64 (Identifier.value reviewer_actor_attempt_id)
  | CommandBody.SubmitReviewChallenge operating_cycle_id adversarial_review_id
      target_graph_revision_id author_principal_id severity failure_hypothesis =>
      put_i64 (Identifier.value operating_cycle_id) ++
      put_i64 (Identifier.value adversarial_review_id) ++
      put_i64 (Identifier.value target_graph_revision_id) ++
      put_i64 (Identifier.value author_principal_id) ++
      put_i64 (ReviewChallengeSeverity.as_i64 severity) ++
      put_bytes (bytes (CoordinationText.as_str failure_hypothesis))
  | CommandBody.RespondToReviewChallenge operating_cycle_id review_challenge_id response =>
      put_i64 (Identifier.value operating_cycle_id) ++
      put_i64 (Identifier.value review_challenge_id) ++
      put_bytes (bytes (CoordinationText.as_str response))
  | CommandBody.DispositionReviewChallenge operating_cycle_id review_challenge_id disposition =>
      put_i64 (Identifier.value operating_cycle_id) ++
      put_i64 (Identifier.value review_challenge_id) ++
      put_i64 (ReviewDispositionKind.as_i64 disposition)
  | _ => put_evidence_body body
  end.

(** Projects, tickets, graph. *)
Definition put_project_body (body : CommandBody.t) : list byte :=
  match body with
  | CommandBody.CreateProject operating_cycle_id project_name north_star_alignment =>
      put_i64 (Identifier.value operating_cycle_id) ++
      put_bytes (bytes (CoordinationText.as_str project_name)) ++
      put_north_star_alignment north_star_alignment
  | CommandBody.CharterProject operating_cycle_id project_id objective initial_milestone
      stop_condition =>
      put_i64 (Identifier.value operating_cycle_id) ++
      put_i64 (Identifier.value project_id) ++
      put_bytes (bytes (CoordinationText.as_str objective)) ++
      put_bytes (bytes (CoordinationText.as_str initial_milestone)) ++
      put_bytes (bytes (CoordinationText.as_str stop_condition))
  | CommandBody.TransitionProject operating_cycle_id project_id target =>
      put_i64 (Identifier.value operating_cycle_id) ++
      put_i64 (Identifier.value project_id) ++ put_i64 (ProjectState.as_i64 target)
  | CommandBody.CompleteProjectMilestone operating_cycle_id project_milestone_id =>
      put_i64 (Identifier.value operating_cycle_id) ++
      put_i64 (Identifier.value project_milestone_id)
  | CommandBody.ReopenProject operating_cycle_id project_id =>
      put_i64 (Identifier.value operating_cycle_id) ++ put_i64 (Identifier.value project_id)
  | CommandBody.CreateTicket operating_cycle_id project_id ticket_title acceptance_condition
      prerequisite_ticket_id =>
      put_i64 (Identifier.value operating_cycle_id) ++
      put_i64 (Identifier.value project_id) ++
      put_bytes (bytes (CoordinationText.as_str ticket_title)) ++
      put_bytes (bytes (CoordinationText.as_str acceptance_condition)) ++
      put_optional_i64 (option_map Identifier.value prerequisite_ticket_id)
  | CommandBody.TransitionTicket operating_cycle_id ticket_id target =>
      put_i64 (Identifier.value operating_cycle_id) ++ put_i64 (Identifier.value ticket_id) ++
      put_i64 (TicketState.as_i64 target)
  | CommandBody.AddGraphObjectRevision operating_cycle_id project_id causal_episode_id
      graph_object_id body =>
      put_i64 (Identifier.value operating_cycle_id) ++
      put_i64 (Identifier.value project_id) ++
      put_optional_i64 (option_map Identifier.value causal_episode_id) ++
      put_optional_i64 (option_map Identifier.value graph_object_id) ++
      (match body with
      | GraphRevisionBody.Observation observation =>
            put_i64 (GraphObjectKind.as_i64 GraphObjectKind.Observation) ++
            put_bytes (bytes (CoordinationText.as_str observation))
      | GraphRevisionBody.Hypothesis_ hypothesis =>
            put_i64 (GraphObjectKind.as_i64 GraphObjectKind.Hypothesis_) ++
            put_bytes (bytes (CoordinationText.as_str hypothesis))
       end)
  | CommandBody.CommitGraphRevision operating_cycle_id graph_revision_id =>
      put_i64 (Identifier.value operating_cycle_id) ++
      put_i64 (Identifier.value graph_revision_id)
  | CommandBody.AddGraphEdge operating_cycle_id project_id from_graph_revision_id
      to_graph_revision_id edge_kind =>
      put_i64 (Identifier.value operating_cycle_id) ++
      put_i64 (Identifier.value project_id) ++
      put_i64 (Identifier.value from_graph_revision_id) ++
      put_i64 (Identifier.value to_graph_revision_id) ++
      put_i64 (GraphEdgeKind.as_i64 edge_kind)
  | _ => put_review_body body
  end.

(** Founding, cycles, office turns, budget. *)
Definition put_founding_body (body : CommandBody.t) : list byte :=
  match body with
  | CommandBody.CreateSocietyIdentity name => put_bytes (bytes (SocietyName.as_str name))
  | CommandBody.InstallRootAuthorityOffice => []
  | CommandBody.BootstrapSociety => []
  | CommandBody.InstallFoundingMission mission => put_mission mission
  | CommandBody.AppointInitialRootAuthority actor_display_name =>
      put_bytes (bytes (PrincipalDisplayName.as_str actor_display_name))
  | CommandBody.SetR0HardCeiling ceiling => put_i64 (UsdMicros.value ceiling)
  | CommandBody.ProposeOperatingCycle treatment budget_ceiling =>
      put_i64 (OperatingCycleTreatment.as_i64 treatment) ++
      put_i64 (UsdMicros.value budget_ceiling)
  | CommandBody.AdmitOperatingCycle cycle_id => put_i64 (Identifier.value cycle_id)
  | CommandBody.StartRootAuthorityOfficeSession cycle_id =>
      put_i64 (Identifier.value cycle_id)
  | CommandBody.QuiesceOperatingCycle cycle_id => put_i64 (Identifier.value cycle_id)
  | CommandBody.RecordCycleDrained cycle_id => put_i64 (Identifier.value cycle_id)
  | CommandBody.ResumeOperatingCycle cycle_id => put_i64 (Identifier.value cycle_id)
  | CommandBody.ReconcileOperatingCycle cycle_id => put_i64 (Identifier.value cycle_id)
  | CommandBody.CloseOperatingCycle cycle_id => put_i64 (Identifier.value cycle_id)
  | CommandBody.RecordOfficeSessionReady session_id => put_i64 (Identifier.value session_id)
  | CommandBody.RecordOfficeSessionTerminal session_id terminal_state =>
      put_i64 (Identifier.value session_id) ++
      put_i64 (OfficeSessionTerminalState.as_i64 terminal_state)
  | CommandBody.OpenOfficeTurn session_id purpose =>
      put_i64 (Identifier.value session_id) ++ put_i64 (OfficeTurnPurpose.as_i64 purpose)
  | CommandBody.SettleOfficeTurn turn_id terminal_receipt_id =>
      put_i64 (Identifier.value turn_id) ++ put_i64 (Identifier.value terminal_receipt_id)
  | CommandBody.ReserveBudget cycle_id amount =>
      put_i64 (Identifier.value cycle_id) ++ put_i64 (UsdMicros.value amount)
  | CommandBody.ReconcileBudget reservation_id observation =>
      put_i64 (Identifier.value reservation_id) ++
      (match observation with
      | CostObservation.Known amount => put_i64 1 ++ put_i64 (UsdMicros.value amount)
      | CostObservation.Unknown reason =>
            put_i64 2 ++ put_i64 (CostUnknownReason.as_i64 reason)
      | CostObservation.Unavailable reason =>
            put_i64 3 ++ put_i64 (CostUnavailableReason.as_i64 reason)
       end)
  | CommandBody.RequestCancellation cycle_id mode =>
      put_i64 (Identifier.value cycle_id) ++ put_i64 (CancellationMode.as_i64 mode)
  | CommandBody.ReconcileCancellation cancellation_request_id =>
      put_i64 (Identifier.value cancellation_request_id)
  | CommandBody.CloseCostPostmortem postmortem_id resolution =>
      put_i64 (Identifier.value postmortem_id) ++
      put_i64 (CostPostmortemResolution.as_i64 resolution)
  | _ => put_project_body body
  end.

Definition put_expected_generation (value : ExpectedGeneration.t) : list byte :=
  match value with
  | ExpectedGeneration.NotApplicable => put_i64 (-1)
  | ExpectedGeneration.Exact generation => put_i64 (AdmissionGeneration.value generation)
  end.

(** The buffer that [request_fingerprint] hashes. *)
Definition request_preimage (request : CommandRequest.t) : list byte :=
  put_bytes (bytes (CommandId.as_str (CommandRequest.command_id request))) ++
  put_i64 (Identifier.value (CommandRequest.principal_id request)) ++
  put_i64 (Identifier.value (CommandRequest.capability_grant_id request)) ++
  put_i64 (Capability.as_i64 (CommandRequest.capability request)) ++
  put_expected_generation (CommandRequest.expected_generation request) ++
  put_i64 (CommandKind.as_i64 (CommandBody.kind (CommandRequest.body request))) ++
  put_founding_body (CommandRequest.body request).

Definition request_fingerprint `{Blake3} (request : CommandRequest.t) : Blake3Digest.t :=
  Blake3Digest.of_bytes (request_preimage request).

(** ** [event_fingerprint] *)

(** The source panics on a Pi owner: [unreachable!]. *)
Definition put_evaluator_owner (owner : NativeChildOwner.t) : list byte :=
  match owner with
  | NativeChildOwner.DeterministicEvaluator deterministic_experiment_id
      evaluator_revision_id input_manifest_id =>
      put_i64 2 ++ put_i64 (Identifier.value deterministic_experiment_id) ++
      put_i64 (Identifier.value evaluator_revision_id) ++
      put_i64 (Identifier.value input_manifest_id)
  | NativeChildOwner.Pi _ => []
  end.
Definition reaches_unreachable (body : EventBody.t) : bool :=
  match body with
  | EventBody.DeterministicEvaluatorNativeChildAdmitted _ (NativeChildOwner.Pi _) => true
  | _ => false
  end.

(** Qualification and the study. *)
Definition put_qualification_event (body : EventBody.t) : list byte :=
  match body with
  | EventBody.NativeExecutionProfileQualified qualification_id operating_cycle_id
      execution_profile_id native_child_spawn_admission_id native_child_id =>
      put_i64 (Identifier.value qualification_id) ++
      put_i64 (Identifier.value operating_cycle_id) ++
      put_i64 (Identifier.value execution_profile_id) ++
      put_i64 (Identifier.value native_child_spawn_admission_id) ++
      put_i64 (Identifier.value native_child_id)
  | EventBody.NativeExecutionProfileQualificationStarted operating_cycle_id generation =>
      put_i64 (Identifier.value operating_cycle_id) ++
      put_i64 (AdmissionGeneration.value generation)
  | EventBody.StudyActorTaskAttemptLaunchClaimed launch_claim_id study_actor_obligation_id
      operating_cycle_id work_item_id actor_attempt_id budget_reservation_id
      execution_profile_id supervisor_epoch_id admission_generation =>
      put_i64 (Identifier.value launch_claim_id) ++
      put_i64 (StudyIdentifier.value study_actor_obligation_id) ++
      put_i64 (Identifier.value operating_cycle_id) ++
      put_i64 (Identifier.value work_item_id) ++
      put_i64 (Identifier.value actor_attempt_id) ++
      put_i64 (Identifier.value budget_reservation_id) ++
      put_i64 (Identifier.value execution_profile_id) ++
      put_i64 (Identifier.value supervisor_epoch_id) ++
      put_i64 (AdmissionGeneration.value admission_generation)
  | EventBody.NativeExecutionProfileQualificationLaunchClaimed launch_claim_id
      operating_cycle_id budget_reservation_id execution_profile_id supervisor_epoch_id
      admission_generation =>
      put_i64 (Identifier.value launch_claim_id) ++
      put_i64 (Identifier.value operating_cycle_id) ++
      put_i64 (Identifier.value budget_reservation_id) ++
      put_i64 (Identifier.value execution_profile_id) ++
      put_i64 (Identifier.value supervisor_epoch_id) ++
      put_i64 (AdmissionGeneration.value admission_generation)
  | EventBody.StudyActorWorkAllocated study_run_id pair_ordinal treatment phase role
      operating_cycle_id work_item_id reservation_amount supervisor_epoch_id
      admission_generation =>
      put_i64 (StudyIdentifier.value study_run_id) ++
      put_i64 (StudyRunPairOrdinal.value pair_ordinal) ++
      put_i64 (StudyTreatment.as_i64 treatment) ++
      put_i64 (StudyPopulationPhase.as_i64 phase) ++ put_i64 (StudyRoleOrdinal.value role) ++
      put_i64 (Identifier.value operating_cycle_id) ++
      put_i64 (Identifier.value work_item_id) ++
      put_i64 (UsdMicros.value reservation_amount) ++
      put_i64 (Identifier.value supervisor_epoch_id) ++
      put_i64 (AdmissionGeneration.value admission_generation)
  | EventBody.StudyTransition event => append_event_fingerprint event
  | _ => []
  end.

(** Task attempts over Pi. *)
Definition put_task_attempt_event (body : EventBody.t) : list byte :=
  match body with
  | EventBody.PiTaskAttemptPromptAuthorized pi_task_attempt_prompt_authorization_id
      actor_attempt_id native_child_id correlation_identity budget_reservation_id =>
      put_i64 (Identifier.value pi_task_attempt_prompt_authorization_id) ++
      put_i64 (Identifier.value actor_attempt_id) ++
      put_i64 (Identifier.value native_child_id) ++
      put_bytes (bytes (BoundaryIdentity.as_str correlation_identity)) ++
      put_i64 (Identifier.value budget_reservation_id)
  | EventBody.PiTaskAttemptPromptDelivered actor_attempt_id correlation_identity =>
      put_i64 (Identifier.value actor_attempt_id) ++
      put_bytes (bytes (BoundaryIdentity.as_str correlation_identity))
  | EventBody.PiTaskAttemptPromptAccepted actor_attempt_id correlation_identity
      command_result_sequence =>
      put_i64 (Identifier.value actor_attempt_id) ++
      put_bytes (bytes (BoundaryIdentity.as_str correlation_identity)) ++
      put_i64 (Identifier.value command_result_sequence)
  | EventBody.PiTaskAttemptUsageRecorded pi_task_attempt_usage_receipt_id actor_attempt_id
      protocol_sequence cumulative_micro_usd =>
      put_i64 (Identifier.value pi_task_attempt_usage_receipt_id) ++
      put_i64 (Identifier.value actor_attempt_id) ++
      put_i64 (Identifier.value protocol_sequence) ++
      put_i64 (UsdMicros.value cumulative_micro_usd)
  | EventBody.PiTaskAttemptUsageFrozen actor_attempt_id budget_reservation_id
      cancellation_request_id postmortem_id failure =>
      put_i64 (Identifier.value actor_attempt_id) ++
      put_i64 (Identifier.value budget_reservation_id) ++
      put_i64 (Identifier.value cancellation_request_id) ++
      put_i64 (Identifier.value postmortem_id) ++ put_pi_task_attempt_usage_failure failure
  | EventBody.PiTaskAttemptTerminalRecorded pi_task_attempt_terminal_receipt_id
      actor_attempt_id disposition assistant_outcome =>
      put_i64 (Identifier.value pi_task_attempt_terminal_receipt_id) ++
      put_i64 (Identifier.value actor_attempt_id) ++
      put_i64 (PiTaskAttemptDisposition.as_i64 disposition) ++
      put_i64 (PiTaskAttemptAssistantOutcome.as_i64 assistant_outcome)
  | EventBody.PiTaskAttemptSessionDisposeAuthorized actor_attempt_id native_child_id
      correlation_identity authorized_generation =>
      put_i64 (Identifier.value actor_attempt_id) ++
      put_i64 (Identifier.value native_child_id) ++
      put_bytes (bytes (BoundaryIdentity.as_str correlation_identity)) ++
      put_i64 (AdmissionGeneration.value authorized_generation)
  | EventBody.PiTaskAttemptSessionDisposeDelivered actor_attempt_id native_child_id
      correlation_identity =>
      put_i64 (Identifier.value actor_attempt_id) ++
      put_i64 (Identifier.value native_child_id) ++
      put_bytes (bytes (BoundaryIdentity.as_str correlation_identity))
  | EventBody.PiTaskAttemptSessionDisposeAccepted actor_attempt_id correlation_identity
      command_result_sequence =>
      put_i64 (Identifier.value actor_attempt_id) ++
      put_bytes (bytes (BoundaryIdentity.as_str correlation_identity)) ++
      put_i64 (Identifier.value command_result_sequence)
  | EventBody.PiTaskAttemptSessionDisposeUsageRecorded actor_attempt_id protocol_sequence
      cumulative_micro_usd =>
      put_i64 (Identifier.value actor_attempt_id) ++
      put_i64 (Identifier.value protocol_sequence) ++
      put_i64 (UsdMicros.value cumulative_micro_usd)
  | EventBody.PiTaskAttemptSessionDisposeUsageFrozen actor_attempt_id budget_reservation_id
      cancellation_request_id postmortem_id failure =>
      put_i64 (Identifier.value actor_attempt_id) ++
      put_i64 (Identifier.value budget_reservation_id) ++
      put_i64 (Identifier.value cancellation_request_id) ++
      put_i64 (Identifier.value postmortem_id) ++ put_pi_task_attempt_usage_failure failure
  | EventBody.PiTaskAttemptSessionDisposed pi_task_attempt_session_dispose_receipt_id
      actor_attempt_id budget_reservation_id observed_cumulative_micro_usd
      budget_disposition =>
      put_i64 (Identifier.value pi_task_attempt_session_dispose_receipt_id) ++
      put_i64 (Identifier.value actor_attempt_id) ++
      put_i64 (Identifier.value budget_reservation_id) ++
      put_i64 (UsdMicros.value observed_cumulative_micro_usd) ++
      put_pi_task_attempt_session_dispose_budget_disposition budget_disposition
  | _ => put_qualification_event body
  end.

(** Office turns over Pi. *)
Definition put_office_turn_event (body : EventBody.t) : list byte :=
  match body with
  | EventBody.PiOfficeTurnPromptAuthorized pi_office_turn_prompt_authorization_id
      office_turn_id native_child_id correlation_identity budget_reservation_id =>
      put_i64 (Identifier.value pi_office_turn_prompt_authorization_id) ++
      put_i64 (Identifier.value office_turn_id) ++
      put_i64 (Identifier.value native_child_id) ++
      put_bytes (bytes (BoundaryIdentity.as_str correlation_identity)) ++
      put_i64 (Identifier.value budget_reservation_id)
  | EventBody.PiOfficeTurnPromptDelivered office_turn_id correlation_identity =>
      put_i64 (Identifier.value office_turn_id) ++
      put_bytes (bytes (BoundaryIdentity.as_str correlation_identity))
  | EventBody.PiOfficeTurnPromptAccepted office_turn_id correlation_identity
      command_result_sequence =>
      put_i64 (Identifier.value office_turn_id) ++
      put_bytes (bytes (BoundaryIdentity.as_str correlation_identity)) ++
      put_i64 (Identifier.value command_result_sequence)
  | EventBody.PiOfficeTurnUsageRecorded pi_office_turn_usage_receipt_id office_turn_id
      protocol_sequence cumulative_micro_usd =>
      put_i64 (Identifier.value pi_office_turn_usage_receipt_id) ++
      put_i64 (Identifier.value office_turn_id) ++
      put_i64 (Identifier.value protocol_sequence) ++
      put_i64 (UsdMicros.value cumulative_micro_usd)
  | EventBody.PiOfficeTurnUsageFrozen office_turn_id budget_reservation_id
      cancellation_request_id postmortem_id failure =>
      put_i64 (Identifier.value office_turn_id) ++
      put_i64 (Identifier.value budget_reservation_id) ++
      put_i64 (Identifier.value cancellation_request_id) ++
      put_i64 (Identifier.value postmortem_id) ++ put_pi_office_turn_usage_failure failure
  | EventBody.PiOfficeTurnTerminalRecorded pi_office_turn_terminal_receipt_id office_turn_id
      disposition assistant_outcome =>
      put_i64 (Identifier.value pi_office_turn_terminal_receipt_id) ++
      put_i64 (Identifier.value office_turn_id) ++
      put_i64 (PiOfficeTurnDisposition.as_i64 disposition) ++
      put_i64 (PiOfficeTurnAssistantOutcome.as_i64 assistant_outcome)
  | EventBody.PiOfficeSessionDisposeAuthorized session_id native_child_id
      correlation_identity authorized_generation =>
      put_i64 (Identifier.value session_id) ++ put_i64 (Identifier.value native_child_id) ++
      put_bytes (bytes (BoundaryIdentity.as_str correlation_identity)) ++
      put_i64 (AdmissionGeneration.value authorized_generation)
  | EventBody.PiOfficeSessionDisposeDelivered session_id native_child_id correlation_identity =>
      put_i64 (Identifier.value session_id) ++ put_i64 (Identifier.value native_child_id) ++
      put_bytes (bytes (BoundaryIdentity.as_str correlation_identity))
  | EventBody.PiOfficeSessionDisposeAccepted session_id correlation_identity
      command_result_sequence =>
      put_i64 (Identifier.value session_id) ++
      put_bytes (bytes (BoundaryIdentity.as_str correlation_identity)) ++
      put_i64 (Identifier.value command_result_sequence)
  | EventBody.PiOfficeSessionDisposeUsageRecorded session_id protocol_sequence
      cumulative_micro_usd =>
      put_i64 (Identifier.value session_id) ++ put_i64 (Identifier.value protocol_sequence) ++
      put_i64 (UsdMicros.value cumulative_micro_usd)
  | EventBody.PiOfficeSessionDisposeUsageFrozen session_id budget_reservation_id
      cancellation_request_id postmortem_id failure =>
      put_i64 (Identifier.value session_id) ++
      put_i64 (Identifier.value budget_reservation_id) ++
      put_i64 (Identifier.value cancellation_request_id) ++
      put_i64 (Identifier.value postmortem_id) ++ put_pi_office_turn_usage_failure failure
  | EventBody.PiOfficeSessionDisposed pi_office_session_dispose_receipt_id session_id
      budget_reservation_id observed_cumulative_micro_usd budget_disposition =>
      put_i64 (Identifier.value pi_office_session_dispose_receipt_id) ++
      put_i64 (Identifier.value session_id) ++
      put_i64 (Identifier.value budget_reservation_id) ++
      put_i64 (UsdMicros.value observed_cumulative_micro_usd) ++
      put_pi_office_session_dispose_budget_disposition budget_disposition
  | _ => put_task_attempt_event body
  end.

(** Children. *)
Definition put_child_event (body : EventBody.t) : list byte :=
  match body with
  | EventBody.PiChildSpawnAdmitted native_child_spawn_admission_id owner
      budget_reservation_id =>
      put_i64 (Identifier.value native_child_spawn_admission_id) ++
      (match owner with
      | PiChildOwner.ActorAttempt id => put_i64 1 ++ put_i64 (Identifier.value id)
      | PiChildOwner.RootAuthorityOfficeSession id =>
            put_i64 2 ++ put_i64 (Identifier.value id)
      | PiChildOwner.NativeExecutionProfileQualification cycle =>
            put_i64 3 ++ put_i64 (Identifier.value cycle)
       end) ++
      put_i64 (Identifier.value budget_reservation_id)
  | EventBody.InertPiChildSpawnRecorded native_child_id native_child_spawn_admission_id =>
      put_i64 (Identifier.value native_child_id) ++
      put_i64 (Identifier.value native_child_spawn_admission_id)
  | EventBody.PiAdapterReadyRecorded native_child_id pi_session_id =>
      put_i64 (Identifier.value native_child_id) ++ put_i64 (Identifier.value pi_session_id)
  | EventBody.PiSessionReadyRecorded native_child_id pi_session_id =>
      put_i64 (Identifier.value native_child_id) ++ put_i64 (Identifier.value pi_session_id)
  | EventBody.PiAbortControlDeliveryRecorded pi_abort_control_receipt_id native_child_id
      cancellation_propagation_id correlation_identity abort_command_digest outcome =>
      put_i64 (Identifier.value pi_abort_control_receipt_id) ++
      put_i64 (Identifier.value native_child_id) ++
      put_i64 (Identifier.value cancellation_propagation_id) ++
      put_bytes (bytes (BoundaryIdentity.as_str correlation_identity)) ++
      put_bytes (Blake3Digest.as_bytes abort_command_digest) ++
      put_i64 (PiAbortControlWriteOutcome.as_i64 outcome)
  | EventBody.PiCreateSessionAuthorized native_child_id =>
      put_i64 (Identifier.value native_child_id)
  | EventBody.PiCreateSessionDeliveryRecorded native_child_id =>
      put_i64 (Identifier.value native_child_id)
  | EventBody.ChildStreamSealed native_child_stream_seal_id native_child_id stream_kind
      completeness =>
      put_i64 (Identifier.value native_child_stream_seal_id) ++
      put_i64 (Identifier.value native_child_id) ++
      put_i64 (ChildStreamKind.as_i64 stream_kind) ++
      put_i64 (ChildStreamSealCompleteness.as_i64 completeness)
  | EventBody.ChildProcessLivenessObserved native_child_liveness_observation_id
      native_child_id liveness =>
      put_i64 (Identifier.value native_child_liveness_observation_id) ++
      put_i64 (Identifier.value native_child_id) ++
      put_i64 (ProcessGroupLiveness.as_i64 liveness)
  | EventBody.ProcessSignalReceiptRecorded process_signal_receipt_id native_child_id action
      delivery observed_liveness cause =>
      put_i64 (Identifier.value process_signal_receipt_id) ++
      put_i64 (Identifier.value native_child_id) ++
      put_i64 (ProcessSignalAction.as_i64 action) ++
      put_i64 (ProcessSignalDelivery.as_i64 delivery) ++
      put_i64 (ProcessGroupLiveness.as_i64 observed_liveness) ++
      put_process_signal_cause cause
  | EventBody.DirectChildReaped native_child_reap_receipt_id native_child_id wait_status
      group_liveness_before_cleanup group_liveness_after_cleanup =>
      put_i64 (Identifier.value native_child_reap_receipt_id) ++
      put_i64 (Identifier.value native_child_id) ++ put_direct_wait_status wait_status ++
      put_i64 (ProcessGroupLiveness.as_i64 group_liveness_before_cleanup) ++
      put_i64 (ProcessGroupLiveness.as_i64 group_liveness_after_cleanup)
  | EventBody.ChildRecoveryObserved native_child_recovery_receipt_id native_child_id
      observation group_liveness_after_restart =>
      put_i64 (Identifier.value native_child_recovery_receipt_id) ++
      put_i64 (Identifier.value native_child_id) ++
      put_i64 (ChildRecoveryObservation.as_i64 observation) ++
      put_i64 (ProcessGroupLiveness.as_i64 group_liveness_after_restart)
  | EventBody.ChildProcessFinalized native_child_id disposition =>
      put_i64 (Identifier.value native_child_id) ++
      put_i64 (ChildTerminalDisposition.as_i64 disposition)
  | EventBody.CancellationPropagationBegun cancellation_propagation_id
      cancellation_request_id =>
      put_i64 (Identifier.value cancellation_propagation_id) ++
      put_i64 (Identifier.value cancellation_request_id)
  | EventBody.CancellationPropagationReconciled cancellation_propagation_id =>
      put_i64 (Identifier.value cancellation_propagation_id)
  | EventBody.SupervisorEpochOpened supervisor_epoch_id =>
      put_i64 (Identifier.value supervisor_epoch_id)
  | EventBody.CancellationPropagationContainmentFailed cancellation_propagation_id =>
      put_i64 (Identifier.value cancellation_propagation_id)
  | EventBody.NativeChildSpawnInvalidated native_child_spawn_admission_id reason =>
      put_i64 (Identifier.value native_child_spawn_admission_id) ++
      put_i64 (NativeChildNotSpawnedReason.as_i64 reason)
  | _ => put_office_turn_event body
  end.

(** Content, experiments. *)
Definition put_evidence_event (body : EventBody.t) : list byte :=
  match body with
  | EventBody.ContentSealReceiptRecorded content_seal_receipt_id digest =>
      put_i64 (Identifier.value content_seal_receipt_id) ++
      put_bytes (Blake3Digest.as_bytes digest)
  | EventBody.ContentObjectRegistered content_object_id content_seal_receipt_id =>
      put_i64 (Identifier.value content_object_id) ++
      put_i64 (Identifier.value content_seal_receipt_id)
  | EventBody.ForensicManifestRegistered forensic_manifest_id
      producing_deterministic_experiment_id evaluator_output_content_object_id =>
      put_i64 (Identifier.value forensic_manifest_id) ++
      put_i64 (Identifier.value producing_deterministic_experiment_id) ++
      put_i64 (Identifier.value evaluator_output_content_object_id)
  | EventBody.DeterministicEvaluatorForensicManifestRegistered forensic_manifest_id
      deterministic_experiment_id native_child_spawn_admission_id
      native_child_stream_seal_id evaluator_output_content_object_id =>
      put_i64 (Identifier.value forensic_manifest_id) ++
      put_i64 (Identifier.value deterministic_experiment_id) ++
      put_i64 (Identifier.value native_child_spawn_admission_id) ++
      put_i64 (Identifier.value native_child_stream_seal_id) ++
      put_i64 (Identifier.value evaluator_output_content_object_id)
  | EventBody.DeterministicExperimentRegistered deterministic_experiment_id
      evaluator_revision_id input_manifest_id =>
      put_i64 (Identifier.value deterministic_experiment_id) ++
      put_i64 (Identifier.value evaluator_revision_id) ++
      put_i64 (Identifier.value input_manifest_id)
  | EventBody.DeterministicEvaluationReceiptRecorded deterministic_evaluation_receipt_id
      deterministic_experiment_id =>
      put_i64 (Identifier.value deterministic_evaluation_receipt_id) ++
      put_i64 (Identifier.value deterministic_experiment_id)
  | EventBody.DeterministicEvidenceAdmitted evidence_admission_id
      deterministic_evaluation_receipt_id semantic_role applicability limitation_kind =>
      put_i64 (Identifier.value evidence_admission_id) ++
      put_i64 (Identifier.value deterministic_evaluation_receipt_id) ++
      put_i64 (EvidenceSemanticRole.as_i64 semantic_role) ++
      put_i64 (EvidenceApplicability.as_i64 applicability) ++
      put_i64 (EvidenceLimitationKind.as_i64 limitation_kind)
  | EventBody.DeterministicExperimentFinalized deterministic_experiment_id terminal_state =>
      put_i64 (Identifier.value deterministic_experiment_id) ++
      put_i64 (DeterministicExperimentState.as_i64 terminal_state)
  | EventBody.DeterministicEvaluatorNativeChildAdmitted native_child_spawn_admission_id owner =>
      put_i64 (Identifier.value native_child_spawn_admission_id) ++
      put_evaluator_owner owner
  | EventBody.DeterministicEvaluatorNativeChildSpawnRecorded native_child_id
      native_child_spawn_admission_id =>
      put_i64 (Identifier.value native_child_id) ++
      put_i64 (Identifier.value native_child_spawn_admission_id)
  | _ => put_child_event body
  end.

(** Work, attempts, obligations. *)
Definition put_work_event (body : EventBody.t) : list byte :=
  match body with
  | EventBody.WorkItemRegistered work_item_id ticket_id adversarial_review_id =>
      put_i64 (Identifier.value work_item_id) ++ put_i64 (Identifier.value ticket_id) ++
      put_optional_i64 (option_map Identifier.value adversarial_review_id)
  | EventBody.WorkItemClaimed work_item_id work_lease_id actor_instance_id =>
      put_i64 (Identifier.value work_item_id) ++ put_i64 (Identifier.value work_lease_id) ++
      put_i64 (Identifier.value actor_instance_id)
  | EventBody.ActorAttemptStarted actor_attempt_id work_item_id budget_reservation_id =>
      put_i64 (Identifier.value actor_attempt_id) ++
      put_i64 (Identifier.value work_item_id) ++
      put_i64 (Identifier.value budget_reservation_id)
  | EventBody.ActorAttemptTerminalAttested actor_attempt_id terminal_kind =>
      put_i64 (Identifier.value actor_attempt_id) ++
      put_i64 (ActorAttemptTerminalKind.as_i64 terminal_kind)
  | EventBody.TicketAttemptValidated actor_attempt_id ticket_id =>
      put_i64 (Identifier.value actor_attempt_id) ++ put_i64 (Identifier.value ticket_id)
  | EventBody.TicketCompleted ticket_id actor_attempt_id =>
      put_i64 (Identifier.value actor_attempt_id) ++ put_i64 (Identifier.value ticket_id)
  | EventBody.ActorAttemptRetryPrepared actor_attempt_id work_item_id ticket_id =>
      put_i64 (Identifier.value actor_attempt_id) ++
      put_i64 (Identifier.value work_item_id) ++ put_i64 (Identifier.value ticket_id)
  | EventBody.WorkLeaseExpired work_lease_id work_item_id =>
      put_i64 (Identifier.value work_lease_id) ++ put_i64 (Identifier.value work_item_id)
  | EventBody.ActorAttemptCancellationRequested actor_attempt_id reason =>
      put_i64 (Identifier.value actor_attempt_id) ++
      put_i64 (ActorAttemptCancellationReason.as_i64 reason)
  | EventBody.OutcomeObligationRegistered outcome_obligation_id project_id =>
      put_i64 (Identifier.value outcome_obligation_id) ++
      put_i64 (Identifier.value project_id)
  | EventBody.OutcomeObligationResolved outcome_obligation_id state =>
      put_i64 (Identifier.value outcome_obligation_id) ++
      put_i64 (OutcomeObligationState.as_i64 state)
  | _ => put_evidence_event body
  end.

(** Projects, graph, episodes, reviews, actors. *)
Definition put_project_event (body : EventBody.t) : list byte :=
  match body with
  | EventBody.ProjectCreated project_id application_revision_id =>
      put_i64 (Identifier.value project_id) ++
      put_i64 (Identifier.value application_revision_id)
  | EventBody.ProjectChartered project_id => put_i64 (Identifier.value project_id)
  | EventBody.ProjectStateChanged project_id state =>
      put_i64 (Identifier.value project_id) ++ put_i64 (ProjectState.as_i64 state)
  | EventBody.ProjectMilestoneCompleted project_milestone_id =>
      put_i64 (Identifier.value project_milestone_id)
  | EventBody.TicketCreated ticket_id project_id =>
      put_i64 (Identifier.value ticket_id) ++ put_i64 (Identifier.value project_id)
  | EventBody.TicketStateChanged ticket_id state =>
      put_i64 (Identifier.value ticket_id) ++ put_i64 (TicketState.as_i64 state)
  | EventBody.GraphObjectRevisionAdded graph_object_id graph_revision_id =>
      put_i64 (Identifier.value graph_object_id) ++
      put_i64 (Identifier.value graph_revision_id)
  | EventBody.GraphRevisionCommitted graph_revision_id =>
      put_i64 (Identifier.value graph_revision_id)
  | EventBody.GraphEdgeAdded graph_edge_id => put_i64 (Identifier.value graph_edge_id)
  | EventBody.EpisodeCreated causal_episode_id project_id =>
      put_i64 (Identifier.value causal_episode_id) ++ put_i64 (Identifier.value project_id)
  | EventBody.EpisodeStateChanged causal_episode_id state =>
      put_i64 (Identifier.value causal_episode_id) ++ put_i64 (EpisodeState.as_i64 state)
  | EventBody.AdversarialReviewRequested adversarial_review_id =>
      put_i64 (Identifier.value adversarial_review_id)
  | EventBody.AdversarialReviewerAssigned adversarial_review_id reviewer_principal_id
      reviewer_actor_instance_id reviewer_actor_attempt_id =>
      put_i64 (Identifier.value adversarial_review_id) ++
      put_i64 (Identifier.value reviewer_principal_id) ++
      put_i64 (Identifier.value reviewer_actor_instance_id) ++
      put_i64 (Identifier.value reviewer_actor_attempt_id)
  | EventBody.AdversarialReviewResolved adversarial_review_id state =>
      put_i64 (Identifier.value adversarial_review_id) ++
      put_i64 (AdversarialReviewState.as_i64 state)
  | EventBody.ReviewChallengeSubmitted review_challenge_id author_principal_id =>
      put_i64 (Identifier.value review_challenge_id) ++
      put_i64 (Identifier.value author_principal_id)
  | EventBody.ReviewChallengeResponded review_challenge_id =>
      put_i64 (Identifier.value review_challenge_id)
  | EventBody.ReviewChallengeDispositioned review_challenge_id disposition =>
      put_i64 (Identifier.value review_challenge_id) ++
      put_i64 (ReviewDispositionKind.as_i64 disposition)
  | EventBody.PostmortemTriggered postmortem_id => put_i64 (Identifier.value postmortem_id)
  | EventBody.PostmortemClosed postmortem_id => put_i64 (Identifier.value postmortem_id)
  | EventBody.PostmortemCausalClaimRecorded postmortem_causal_claim_id =>
      put_i64 (Identifier.value postmortem_causal_claim_id)
  | EventBody.PostmortemActionProposed postmortem_action_proposal_id =>
      put_i64 (Identifier.value postmortem_action_proposal_id)
  | EventBody.ActorConfigurationRegistered actor_configuration_id
      actor_configuration_revision_id =>
      put_i64 (Identifier.value actor_configuration_id) ++
      put_i64 (Identifier.value actor_configuration_revision_id)
  | EventBody.ContextPackRegistered context_pack_id =>
      put_i64 (Identifier.value context_pack_id)
  | EventBody.ActorInstanceAdmitted actor_instance_id principal_id =>
      put_i64 (Identifier.value actor_instance_id) ++ put_i64 (Identifier.value principal_id)
  | EventBody.TicketAdmitted ticket_id => put_i64 (Identifier.value ticket_id)
  | _ => put_work_event body
  end.

(** Budget. *)
Definition put_budget_event (body : EventBody.t) : list byte :=
  match body with
  | EventBody.BudgetReserved reservation_id cycle_id amount =>
      put_i64 (Identifier.value reservation_id) ++ put_i64 (Identifier.value cycle_id) ++
      put_i64 (UsdMicros.value amount)
  | EventBody.BudgetReconciled reservation_id observed =>
      put_i64 (Identifier.value reservation_id) ++ put_i64 (UsdMicros.value observed)
  | EventBody.BudgetAdmissionFrozen reservation_id cycle_id cancellation_request_id
      postmortem_id reason =>
      put_i64 (Identifier.value reservation_id) ++ put_i64 (Identifier.value cycle_id) ++
      put_i64 (Identifier.value cancellation_request_id) ++
      put_i64 (Identifier.value postmortem_id) ++
      (match reason with
      | BudgetFreezeReason.KnownOverrun observed reserved =>
            put_i64 1 ++ put_i64 (UsdMicros.value observed) ++
            put_i64 (UsdMicros.value reserved)
      | BudgetFreezeReason.Unknown reason =>
            put_i64 2 ++ put_i64 (CostUnknownReason.as_i64 reason)
      | BudgetFreezeReason.Unavailable reason =>
            put_i64 3 ++ put_i64 (CostUnavailableReason.as_i64 reason)
       end)
  | EventBody.CancellationRequested cancellation_request_id cycle_id mode generation =>
      put_i64 (Identifier.value cancellation_request_id) ++
      put_i64 (Identifier.value cycle_id) ++ put_i64 (CancellationMode.as_i64 mode) ++
      put_i64 (AdmissionGeneration.value generation)
  | EventBody.CancellationReconciled cancellation_request_id cycle_id =>
      put_i64 (Identifier.value cancellation_request_id) ++
      put_i64 (Identifier.value cycle_id)
  | EventBody.CostPostmortemClosed postmortem_id reservation_id cycle_id resolution charged =>
      put_i64 (Identifier.value postmortem_id) ++ put_i64 (Identifier.value reservation_id) ++
      put_i64 (Identifier.value cycle_id) ++
      put_i64 (CostPostmortemResolution.as_i64 resolution) ++
      put_i64 (UsdMicros.value charged)
  | _ => put_project_event body
  end.

(** Founding, cycles, office turns. *)
Definition put_cycle_event (body : EventBody.t) : list byte :=
  match body with
  | EventBody.SocietyIdentityCreated society_id => put_i64 (Identifier.value society_id)
  | EventBody.SocietyBootstrapped society_id => put_i64 (Identifier.value society_id)
  | EventBody.RootAuthorityOfficeInstalled office_id => put_i64 (Identifier.value office_id)
  | EventBody.FoundingMissionInstalled mission_id application_revision_id =>
      put_i64 (Identifier.value mission_id) ++
      put_i64 (Identifier.value application_revision_id)
  | EventBody.RootAuthorityAppointed occupancy_id principal_id =>
      put_i64 (Identifier.value occupancy_id) ++ put_i64 (Identifier.value principal_id)
  | EventBody.R0HardCeilingSet society_id ceiling =>
      put_i64 (Identifier.value society_id) ++ put_i64 (UsdMicros.value ceiling)
  | EventBody.OperatingCycleProposed cycle_id generation treatment budget_ceiling =>
      put_i64 (Identifier.value cycle_id) ++ put_i64 (AdmissionGeneration.value generation) ++
      put_i64 (OperatingCycleTreatment.as_i64 treatment) ++
      put_i64 (UsdMicros.value budget_ceiling)
  | EventBody.OperatingCycleStateChanged cycle_id state generation =>
      put_i64 (Identifier.value cycle_id) ++ put_i64 (OperatingCycleState.as_i64 state) ++
      put_i64 (AdmissionGeneration.value generation)
  | EventBody.RootAuthorityOfficeSessionStarted session_id cycle_id =>
      put_i64 (Identifier.value session_id) ++ put_i64 (Identifier.value cycle_id)
  | EventBody.RootAuthorityOfficeSessionStateChanged session_id state =>
      put_i64 (Identifier.value session_id) ++ put_i64 (OfficeSessionState.as_i64 state)
  | EventBody.OfficeTurnOpened turn_id session_id purpose =>
      put_i64 (Identifier.value turn_id) ++ put_i64 (Identifier.value session_id) ++
      put_i64 (OfficeTurnPurpose.as_i64 purpose)
  | EventBody.OfficeTurnSettled turn_id session_id charged_delta =>
      put_i64 (Identifier.value turn_id) ++ put_i64 (Identifier.value session_id) ++
      put_i64 (UsdMicros.value charged_delta)
  | _ => put_budget_event body
  end.

(** The buffer that [event_fingerprint] hashes; [None] when it panics. *)
Definition event_preimage (event_id : EventId) (command_id : CommandId.t)
  (body : EventBody.t) : option (list byte) :=
  if reaches_unreachable body then None else
  Some (put_i64 (Identifier.value event_id) ++
        put_bytes (bytes (CommandId.as_str command_id)) ++
        put_i64 (EventKind.as_i64 (EventBody.kind body)) ++
        put_cycle_event body).

Definition event_fingerprint `{Blake3} (event_id : EventId) (command_id : CommandId.t)
  (body : EventBody.t) : option Blake3Digest.t :=
  option_map Blake3Digest.of_bytes (event_preimage event_id command_id body).
