(* ===== verification/FingerprintSpec.v ===== *)
(** * What a fingerprint commits to

    The byte string of a command and of an event determine the command and the event:
    two requests with the same fingerprint are the same request, or are a collision of
    BLAKE3.  Each writer of [Fingerprint] is an instance of [Prefix]: it can be told
    apart from whatever follows it. *)

From S2P Require Import Prelude.
From S2P Require Import Machine.
From S2P Require Import Hash.
From S2P Require Import KernelScalars.
From S2P Require Import KernelEnums.
From S2P Require Import KernelCustody.
From S2P Require Import StudyTypes.
From S2P Require Import StudyCommands.
From S2P Require Import KernelCommands.
From S2P Require Import KernelCodes.
From S2P Require Import Fingerprint.

(** ** Field accessors

    What a writer needs of the accessor of a validated field: it loses nothing, and its
    value fits the width that is written. *)

Class ScalarField {A} (value : A -> Z) : Prop := {
  scalar_inj : Inj (=) (=) value;
  scalar_i64 a : is_i64 (value a) = true;
}.
Class TextField {A} (as_str : A -> string) : Prop := {
  text_inj : Inj (=) (=) as_str;
  text_short a : is_i64 (Z.of_nat (length (bytes (as_str a)))) = true;
}.
Class BytesField {A} (as_bytes : A -> list byte) : Prop := {
  octets_inj : Inj (=) (=) as_bytes;
  octets_short a : is_i64 (Z.of_nat (length (as_bytes a))) = true;
}.

Lemma newtype_scalar name (ok : Z -> bool) :
  (forall z, ok z = true -> is_i64 z = true) -> ScalarField (@inner name Z ok).
Proof. intros H. split; [apply _|]. intros a. apply H, inner_ok. Qed.

Lemma newtype_text name (ok : string -> bool) :
  (forall s, ok s = true -> is_i64 (str_len s) = true) -> TextField (@inner name string ok).
Proof.
  intros H. split; [apply _|]. intros a. rewrite <-bytes_length. apply H, inner_ok.
Qed.

#[global] Instance code_scalar {T} (as_i64 : T -> Z) `{!Code as_i64} : ScalarField as_i64.
Proof. split; [apply _ | apply code_is_i64]. Qed.

(** A bound that the check of a newtype states, against the width. *)
Ltac unfold_check H :=
  cbv beta in H; try match type of H with ?f _ = true => unfold f in H end; cbv beta in H.
Ltac i64_bounds :=
  bool_hyps; unfold is_i64, i64_min, i64_max; apply andb_true_intro; split; apply Z.leb_le; lia.
Ltac scalar_width :=
  apply newtype_scalar; intros z Hz; first [exact Hz | unfold_check Hz];
  unfold is_i64, is_i32, is_u8, is_u16, i64_min, i64_max in Hz; i64_bounds.
Ltac text_width :=
  apply newtype_text; intros s Hs; unfold_check Hs; apply andb_true_iff in Hs as [_ Hs];
  apply negb_true_iff in Hs; repeat (apply orb_false_iff in Hs as [Hs ?]);
  pose proof (Zle_0_nat (String.length s)); unfold str_len in *; i64_bounds.

#[global] Instance plain_i64_scalar : ScalarField (@inner "i64" Z is_i64).
Proof. scalar_width. Qed.
#[global] Instance identifier_scalar {n} : ScalarField (@Identifier.value n).
Proof. scalar_width. Qed.
#[global] Instance native_process_value_scalar {n p} : ScalarField (@NativeProcessValue.value n p).
Proof. scalar_width. Qed.
#[global] Instance boundary_identity_text {n} : TextField (@BoundaryIdentity.as_str n).
Proof. text_width. Qed.
#[global] Instance canonical_workspace_path_text : TextField CanonicalWorkspacePath.as_str.
Proof. text_width. Qed.
#[global] Instance canonical_pi_session_transcript_path_text : TextField CanonicalPiSessionTranscriptPath.as_str.
Proof. text_width. Qed.
#[global] Instance command_id_text : TextField CommandId.as_str.
Proof. text_width. Qed.
#[global] Instance society_name_text : TextField SocietyName.as_str.
Proof. text_width. Qed.
#[global] Instance application_identity_text : TextField ApplicationIdentity.as_str.
Proof. text_width. Qed.
#[global] Instance application_name_text : TextField ApplicationName.as_str.
Proof. text_width. Qed.
#[global] Instance principal_display_name_text : TextField PrincipalDisplayName.as_str.
Proof. text_width. Qed.
#[global] Instance coordination_text_text {n} : TextField (@CoordinationText.as_str n).
Proof. text_width. Qed.
#[global] Instance mission_text_text {n} : TextField (@MissionText.as_str n).
Proof. text_width. Qed.
#[global] Instance application_revision_ordinal_scalar : ScalarField ApplicationRevisionOrdinal.value.
Proof. scalar_width. Qed.
#[global] Instance usd_micros_scalar : ScalarField UsdMicros.value.
Proof. scalar_width. Qed.
#[global] Instance pi_token_count_scalar : ScalarField PiTokenCount.value.
Proof. scalar_width. Qed.
#[global] Instance admission_generation_scalar : ScalarField AdmissionGeneration.value.
Proof. scalar_width. Qed.
#[global] Instance study_identifier_scalar {n} : ScalarField (@StudyIdentifier.value n).
Proof. scalar_width. Qed.
#[global] Instance study_budget_units_scalar : ScalarField StudyBudgetUnits.value.
Proof. scalar_width. Qed.
#[global] Instance study_run_pair_count_scalar : ScalarField StudyRunPairCount.value.
Proof. scalar_width. Qed.
#[global] Instance study_run_registered_pair_count_scalar : ScalarField StudyRunRegisteredPairCount.value.
Proof. scalar_width. Qed.
#[global] Instance study_run_pair_ordinal_scalar : ScalarField StudyRunPairOrdinal.value.
Proof. scalar_width. Qed.
#[global] Instance study_role_ordinal_scalar : ScalarField StudyRoleOrdinal.value.
Proof. scalar_width. Qed.
#[global] Instance study_measurement_slot_scalar : ScalarField StudyMeasurementSlot.value.
Proof. scalar_width. Qed.
#[global] Instance study_measurement_slot_count_scalar : ScalarField StudyMeasurementSlotCount.value.
Proof. scalar_width. Qed.
#[global] Instance forum_read_budget_scalar : ScalarField ForumReadBudget.value.
Proof. scalar_width. Qed.
#[global] Instance forum_post_budget_scalar : ScalarField ForumPostBudget.value.
Proof. scalar_width. Qed.
#[global] Instance forum_message_body_text : TextField ForumMessageBody.as_str.
Proof. unfold ForumMessageBody.as_str, ForumMessageBody.t, ForumMessageBody.ok, ForumMessageBody.MAX_BYTES. text_width. Qed.
#[global] Instance forum_thread_title_text : TextField ForumThreadTitle.as_str.
Proof. unfold ForumThreadTitle.as_str, ForumThreadTitle.t, ForumThreadTitle.ok, ForumThreadTitle.MAX_BYTES. text_width. Qed.
#[global] Instance study_decision_body_text : TextField StudyDecisionBody.as_str.
Proof. unfold StudyDecisionBody.as_str, StudyDecisionBody.t, StudyDecisionBody.ok, StudyDecisionBody.MAX_BYTES. text_width. Qed.
#[global] Instance study_ground_truth_reveal_text : TextField StudyGroundTruthReveal.as_str.
Proof. unfold StudyGroundTruthReveal.as_str, StudyGroundTruthReveal.t, StudyGroundTruthReveal.ok, StudyGroundTruthReveal.MAX_BYTES. text_width. Qed.

Lemma fixed_octets name (ok : list byte -> bool) (n : nat) :
  (n <= 4096)%nat -> (forall l, ok l = true -> length l = n) ->
  BytesField (@inner name (list byte) ok).
Proof.
  intros Hn H. split; [apply _|]. intros a. rewrite (H (inner a)) by apply inner_ok. i64_bounds.
Qed.
#[global] Instance digest_octets : BytesField Blake3Digest.as_bytes.
Proof. apply (fixed_octets _ _ 32); [lia|]. intros l. apply Nat.eqb_eq. Qed.
#[global] Instance cost_octets : BytesField ProviderCostBinary64.as_big_endian_bytes.
Proof.
  apply (fixed_octets _ _ 8); [lia|]. intros l [H _]%andb_true_iff. by apply Nat.eqb_eq.
Qed.

(** ** Fields *)

Lemma put_i64_app a b r s :
  is_i64 a = true -> is_i64 b = true -> put_i64 a ++ r = put_i64 b ++ s -> a = b /\ r = s.
Proof.
  intros Ha Hb [E ->]%be_bytes_prefix. split; [|done].
  by rewrite <-(i64_be_bytes a Ha), <-(i64_be_bytes b Hb), E.
Qed.

Lemma put_bytes_app l m r s :
  is_i64 (Z.of_nat (length l)) = true -> is_i64 (Z.of_nat (length m)) = true ->
  put_bytes l ++ r = put_bytes m ++ s -> l = m /\ r = s.
Proof.
  unfold put_bytes. rewrite <-!app_assoc. intros Hl Hm [E H]%put_i64_app; [|done..].
  apply app_inj_1 in H; [done | lia].
Qed.

Lemma put_scalar_app {A} (value : A -> Z) `{!ScalarField value} a b r s :
  put_i64 (value a) ++ r = put_i64 (value b) ++ s -> a = b /\ r = s.
Proof.
  intros [E ->]%put_i64_app; try apply scalar_i64. split; [|done]. by apply scalar_inj.
Qed.

Lemma put_text_app {A} (as_str : A -> string) `{!TextField as_str} a b r s :
  put_bytes (bytes (as_str a)) ++ r = put_bytes (bytes (as_str b)) ++ s -> a = b /\ r = s.
Proof.
  intros [E ->]%put_bytes_app; try apply text_short. split; [|done].
  apply text_inj. by apply list_ascii_of_string_inj in E.
Qed.

Lemma put_octets_app {A} (as_bytes : A -> list byte) `{!BytesField as_bytes} a b r s :
  put_bytes (as_bytes a) ++ r = put_bytes (as_bytes b) ++ s -> a = b /\ r = s.
Proof.
  intros [E ->]%put_bytes_app; try apply octets_short. split; [|done]. by apply octets_inj.
Qed.

#[global] Instance put_digest_prefix : Prefix put_digest.
Proof. intros a b r s. apply (put_octets_app Blake3Digest.as_bytes). Qed.

Lemma put_optional_i64_app {A} (value : A -> Z) `{!ScalarField value} a b r s :
  put_optional_i64 (option_map value a) ++ r = put_optional_i64 (option_map value b) ++ s ->
  a = b /\ r = s.
Proof.
  destruct a, b; cbn [option_map put_optional_i64]; rewrite <-?app_assoc;
    intros [E H]%put_i64_app; try done.
  by apply put_scalar_app in H as [-> ->].
Qed.

#[global] Instance put_optional_digest_prefix : Prefix put_optional_digest.
Proof.
  intros [a|] [b|] r s; cbn [put_optional_digest]; rewrite <-?app_assoc;
    intros [E H]%put_i64_app; try done.
  by apply prefix_inj in H as [-> ->].
Qed.

(** One field off the front of an equation between two streams. *)
Ltac use_field H :=
  let E := fresh "E" in
  destruct H as [E H]; first [discriminate E | match type of E with ?a = _ => is_var a; subst a end | match type of E with ?a = ?a => clear E end | idtac].
Ltac peel_field H :=
  lazymatch type of H with
  | put_i64 ?n ++ _ = put_i64 ?m ++ _ =>
      first [ match n with ?value _ => apply (put_scalar_app value) in H end
            | apply put_i64_app in H; [|reflexivity|reflexivity] ]
  | put_bytes (bytes (?as_str _)) ++ _ = _ => apply (put_text_app as_str) in H
  | put_bytes (?as_bytes _) ++ _ = _ => apply (put_octets_app as_bytes) in H
  | put_optional_i64 (option_map ?value _) ++ _ = _ => apply (put_optional_i64_app value) in H
  | ?put _ ++ _ = ?put _ ++ _ => apply (prefix_inj (put := put)) in H
  end;
  use_field H.
(** All of them; an alternative that the tags tell apart is refuted on the way. *)
Ltac peel H :=
  rewrite <-?app_assoc, ?app_nil_l in H;
  repeat (peel_field H; rewrite <-?app_assoc, ?app_nil_l in H).

(** ** Shared payloads *)

(** Both values are given by their constructors; the writers named are unfolded. *)
Tactic Notation "peel_done" hyp(H) := peel H; subst; done.

#[local] Arguments be_bytes : simpl never.
#[local] Arguments put_i64 : simpl never.
#[local] Arguments put_bytes : simpl never.
#[local] Arguments app : simpl never.

#[global] Instance usage_prefix : Prefix put_pi_cumulative_usage.
Proof. intros [] [] r s H. unfold put_pi_cumulative_usage in H. cbn in H. peel_done H. Qed.
#[global] Instance office_usage_failure_prefix : Prefix put_pi_office_turn_usage_failure.
Proof. intros [] [] r s H; cbn in H; peel_done H. Qed.
#[global] Instance task_usage_failure_prefix : Prefix put_pi_task_attempt_usage_failure.
Proof. intros [] [] r s H; cbn in H; peel_done H. Qed.
#[global] Instance office_dispose_prefix :
  Prefix put_pi_office_session_dispose_budget_disposition.
Proof. intros [] [] r s H; cbn in H; peel_done H. Qed.
#[global] Instance task_dispose_prefix :
  Prefix put_pi_task_attempt_session_dispose_budget_disposition.
Proof. intros [] [] r s H; cbn in H; peel_done H. Qed.
#[global] Instance office_evidence_prefix : Prefix put_pi_office_turn_terminal_evidence.
Proof. intros [] [] r s H; cbn in H; peel_done H. Qed.
#[global] Instance task_evidence_prefix : Prefix put_pi_task_attempt_terminal_evidence.
Proof. intros [] [] r s H; cbn in H; peel_done H. Qed.
#[global] Instance wait_status_prefix : Prefix put_direct_wait_status.
Proof. intros [] [] r s H; cbn in H; peel_done H. Qed.
#[global] Instance signal_cause_prefix : Prefix put_process_signal_cause.
Proof. intros [] [] r s H; cbn in H; peel_done H. Qed.
#[global] Instance office_transcript_prefix : Prefix put_pi_office_session_transcript_receipt.
Proof.
  intros [?? ? []|] [?? ? []|] r s H; cbn in H; peel_done H.
Qed.
#[global] Instance task_transcript_prefix :
  Prefix put_pi_task_attempt_session_transcript_receipt.
Proof.
  intros [?? ? []|] [?? ? []|] r s H; cbn in H; peel_done H.
Qed.
(** The mark of an absent generation is negative, a generation is not. *)
Lemma admission_generation_nonneg g : 0 <= AdmissionGeneration.value g.
Proof. pose proof (inner_ok g) as H. apply andb_true_iff in H as [_ H]. by apply Z.leb_le. Qed.

#[global] Instance expected_generation_prefix : Prefix put_expected_generation.
Proof.
  intros [|a] [|b] r s H; cbn [put_expected_generation] in H.
  - apply put_i64_app in H as [_ ->]; done.
  - apply put_i64_app in H as [E _]; [|done|apply scalar_i64].
    pose proof (admission_generation_nonneg b). lia.
  - apply put_i64_app in H as [E _]; [|apply scalar_i64|done].
    pose proof (admission_generation_nonneg a). lia.
  - peel_done H.
Qed.

(** ** The mission *)

#[global] Instance principle_prefix : Prefix put_mission_principle.
Proof. intros [] [] r s H. unfold put_mission_principle in H. cbn in H. peel_done H. Qed.

(** A counted sequence of writers. *)
Lemma flat_map_prefix {A} (put : A -> list byte) `{!Prefix put} l m r s :
  length l = length m -> flat_map put l ++ r = flat_map put m ++ s -> l = m /\ r = s.
Proof.
  revert m. induction l as [|a l IH]; intros [|b m] Hlen H; try done.
  cbn [flat_map] in H. rewrite <-!app_assoc in H. apply prefix_inj in H as [-> H].
  injection Hlen as Hlen. by apply IH in H as [-> ->].
Qed.

Lemma put_mission_principles_app (a b : MissionPrinciples.t) r s :
  put_mission_principles (MissionPrinciples.as_slice a) ++ r
  = put_mission_principles (MissionPrinciples.as_slice b) ++ s -> a = b /\ r = s.
Proof.
  unfold put_mission_principles. rewrite <-!app_assoc.
  assert (forall p : MissionPrinciples.t,
            is_i64 (Z.of_nat (length (MissionPrinciples.as_slice p))) = true) as Hlen.
  { intros p. pose proof (inner_ok p) as Hp.
    change (negb (bool_decide (MissionPrinciples.as_slice p = [])
      || (16 <? Z.of_nat (length (MissionPrinciples.as_slice p)))) = true) in Hp.
    apply negb_true_iff, orb_false_iff in Hp as [_ Hp]. i64_bounds. }
  intros [E H]%put_i64_app; try apply Hlen.
  apply (flat_map_prefix put_mission_principle) in H as [H ->]; [|by apply Nat2Z.inj]. split; [|done].
  by apply (inj inner).
Qed.

#[global] Instance mission_prefix : Prefix put_mission.
Proof.
  intros [?????[] ?] [?????[] ?] r s H. unfold put_mission in H. cbn in H. peel H.
  apply put_mission_principles_app in H as [-> H]. peel_done H.
Qed.

#[global] Instance alignment_prefix : Prefix put_north_star_alignment.
Proof. intros [] [] r s H. unfold put_north_star_alignment in H. cbn in H. peel_done H. Qed.

(** ** Study commands and events *)

(** The kind determines the constructor. *)
Lemma study_command_view (command : StudyCommand.t) :
  match StudyCommand.kind command with
  | StudyCommandKind.AdmitProtocolRevision =>
      exists x1 x2 x3 x4 x5 x6 x7 x8 x9 x10, command = StudyCommand.AdmitProtocolRevision x1
        x2 x3 x4 x5 x6 x7 x8 x9 x10
  | StudyCommandKind.AdmitWorldRevision =>
      exists x1 x2, command = StudyCommand.AdmitWorldRevision x1 x2
  | StudyCommandKind.AdmitMeasurementRevision =>
      exists x1 x2 x3, command = StudyCommand.AdmitMeasurementRevision x1 x2 x3
  | StudyCommandKind.AdmitInstitutionRevision =>
      exists x1 x2, command = StudyCommand.AdmitInstitutionRevision x1 x2
  | StudyCommandKind.AdmitPopulationSnapshot =>
      exists x1 x2 x3, command = StudyCommand.AdmitPopulationSnapshot x1 x2 x3
  | StudyCommandKind.AdmitEpisode =>
      exists x1 x2 x3 x4 x5 x6, command = StudyCommand.AdmitEpisode x1 x2 x3 x4 x5 x6
  | StudyCommandKind.AssignTreatment =>
      exists x1 x2, command = StudyCommand.AssignTreatment x1 x2
  | StudyCommandKind.AdmitMatchedPair =>
      exists x1 x2, command = StudyCommand.AdmitMatchedPair x1 x2
  | StudyCommandKind.AdmitStudyRun =>
      exists x1 x2 x3 x4, command = StudyCommand.AdmitStudyRun x1 x2 x3 x4
  | StudyCommandKind.RegisterStudyRunPair =>
      exists x1 x2 x3 x4, command = StudyCommand.RegisterStudyRunPair x1 x2 x3 x4
  | StudyCommandKind.StartStudyRun => exists x1, command = StudyCommand.StartStudyRun x1
  | StudyCommandKind.CompleteStudyRun => exists x1, command = StudyCommand.CompleteStudyRun x1
  | StudyCommandKind.CreateEpisodeForum =>
      exists x1 x2, command = StudyCommand.CreateEpisodeForum x1 x2
  | StudyCommandKind.OpenForumThread =>
      exists x1 x2, command = StudyCommand.OpenForumThread x1 x2
  | StudyCommandKind.AdmitActorObligation =>
      exists x1 x2 x3 x4 x5 x6 x7 x8 x9, command = StudyCommand.AdmitActorObligation x1 x2
        x3 x4 x5 x6 x7 x8 x9
  | StudyCommandKind.CompleteActorObligation =>
      exists x1 x2, command = StudyCommand.CompleteActorObligation x1 x2
  | StudyCommandKind.FailActorObligation =>
      exists x1 x2, command = StudyCommand.FailActorObligation x1 x2
  | StudyCommandKind.BindActorRuntime =>
      exists x1 x2 x3 x4, command = StudyCommand.BindActorRuntime x1 x2 x3 x4
  | StudyCommandKind.BindActorTaskAttemptRuntime =>
      exists x1 x2 x3 x4, command = StudyCommand.BindActorTaskAttemptRuntime x1 x2 x3 x4
  | StudyCommandKind.ReconcileActorRuntime =>
      exists x1 x2, command = StudyCommand.ReconcileActorRuntime x1 x2
  | StudyCommandKind.SettleActorTaskAttemptAfterRecovery =>
      exists x1 x2 x3 x4, command = StudyCommand.SettleActorTaskAttemptAfterRecovery x1 x2 x3 x4
  | StudyCommandKind.FreezeForumHead =>
      exists x1 x2, command = StudyCommand.FreezeForumHead x1 x2
  | StudyCommandKind.ReplacePopulation =>
      exists x1 x2, command = StudyCommand.ReplacePopulation x1 x2
  | StudyCommandKind.AdmitForumExposure =>
      exists x1 x2 x3, command = StudyCommand.AdmitForumExposure x1 x2 x3
  | StudyCommandKind.PublishForumMessage =>
      exists x1 x2 x3 x4 x5, command = StudyCommand.PublishForumMessage x1 x2 x3 x4 x5
  | StudyCommandKind.RetractForumMessage =>
      exists x1 x2, command = StudyCommand.RetractForumMessage x1 x2
  | StudyCommandKind.ReleaseMatchedCorrection =>
      exists x1 x2 x3 x4, command = StudyCommand.ReleaseMatchedCorrection x1 x2 x3 x4
  | StudyCommandKind.ReadForum =>
      exists x1 x2 x3 x4, command = StudyCommand.ReadForum x1 x2 x3 x4
  | StudyCommandKind.RecordDecision =>
      exists x1 x2 x3, command = StudyCommand.RecordDecision x1 x2 x3
  | StudyCommandKind.RevealGroundTruth =>
      exists x1 x2, command = StudyCommand.RevealGroundTruth x1 x2
  | StudyCommandKind.RecordMeasurementResult =>
      exists x1 x2 x3 x4 x5 x6, command = StudyCommand.RecordMeasurementResult x1 x2 x3 x4 x5 x6
  | StudyCommandKind.CloseEpisode => exists x1, command = StudyCommand.CloseEpisode x1
  | StudyCommandKind.ForkEpisode => exists x1 x2, command = StudyCommand.ForkEpisode x1 x2
  end.
Proof. destruct command; cbn [StudyCommand.kind]; eauto 20. Qed.

Lemma study_event_view (event : StudyEvent.t) :
  match StudyEvent.kind event with
  | StudyEventKind.ProtocolRevisionAdmitted =>
      exists x1, event = StudyEvent.ProtocolRevisionAdmitted x1
  | StudyEventKind.WorldRevisionAdmitted =>
      exists x1, event = StudyEvent.WorldRevisionAdmitted x1
  | StudyEventKind.MeasurementRevisionAdmitted =>
      exists x1, event = StudyEvent.MeasurementRevisionAdmitted x1
  | StudyEventKind.InstitutionRevisionAdmitted =>
      exists x1, event = StudyEvent.InstitutionRevisionAdmitted x1
  | StudyEventKind.PopulationSnapshotAdmitted =>
      exists x1, event = StudyEvent.PopulationSnapshotAdmitted x1
  | StudyEventKind.EpisodeAdmitted => exists x1, event = StudyEvent.EpisodeAdmitted x1
  | StudyEventKind.TreatmentAssigned =>
      exists x1 x2 x3, event = StudyEvent.TreatmentAssigned x1 x2 x3
  | StudyEventKind.MatchedPairAdmitted => exists x1, event = StudyEvent.MatchedPairAdmitted x1
  | StudyEventKind.StudyRunAdmitted =>
      exists x1 x2 x3 x4 x5, event = StudyEvent.StudyRunAdmitted x1 x2 x3 x4 x5
  | StudyEventKind.StudyRunPairRegistered =>
      exists x1 x2 x3 x4 x5, event = StudyEvent.StudyRunPairRegistered x1 x2 x3 x4 x5
  | StudyEventKind.StudyRunStarted => exists x1, event = StudyEvent.StudyRunStarted x1
  | StudyEventKind.StudyRunCompleted => exists x1, event = StudyEvent.StudyRunCompleted x1
  | StudyEventKind.EpisodeForumCreated =>
      exists x1 x2, event = StudyEvent.EpisodeForumCreated x1 x2
  | StudyEventKind.ForumThreadOpened => exists x1 x2, event = StudyEvent.ForumThreadOpened x1 x2
  | StudyEventKind.ActorObligationAdmitted =>
      exists x1 x2 x3 x4 x5, event = StudyEvent.ActorObligationAdmitted x1 x2 x3 x4 x5
  | StudyEventKind.ActorObligationCompleted =>
      exists x1, event = StudyEvent.ActorObligationCompleted x1
  | StudyEventKind.ActorObligationFailed =>
      exists x1 x2, event = StudyEvent.ActorObligationFailed x1 x2
  | StudyEventKind.ActorRuntimeBound =>
      exists x1 x2 x3 x4 x5, event = StudyEvent.ActorRuntimeBound x1 x2 x3 x4 x5
  | StudyEventKind.ActorTaskAttemptRuntimeBound =>
      exists x1 x2 x3 x4 x5, event = StudyEvent.ActorTaskAttemptRuntimeBound x1 x2 x3 x4 x5
  | StudyEventKind.ActorRuntimeReconciled =>
      exists x1 x2, event = StudyEvent.ActorRuntimeReconciled x1 x2
  | StudyEventKind.ActorTaskAttemptRecoverySettled =>
      exists x1 x2 x3 x4 x5, event = StudyEvent.ActorTaskAttemptRecoverySettled x1 x2 x3 x4 x5
  | StudyEventKind.GroundTruthRevealed =>
      exists x1 x2, event = StudyEvent.GroundTruthRevealed x1 x2
  | StudyEventKind.ForumHeadFrozen =>
      exists x1 x2 x3, event = StudyEvent.ForumHeadFrozen x1 x2 x3
  | StudyEventKind.PopulationReplaced =>
      exists x1 x2, event = StudyEvent.PopulationReplaced x1 x2
  | StudyEventKind.ForumExposureAdmitted =>
      exists x1 x2 x3 x4, event = StudyEvent.ForumExposureAdmitted x1 x2 x3 x4
  | StudyEventKind.ForumMessagePublished =>
      exists x1 x2 x3 x4 x5 x6, event = StudyEvent.ForumMessagePublished x1 x2 x3 x4 x5 x6
  | StudyEventKind.MatchedCorrectionReleased =>
      exists x1 x2 x3 x4, event = StudyEvent.MatchedCorrectionReleased x1 x2 x3 x4
  | StudyEventKind.ForumMessagesRead =>
      exists x1 x2 x3 x4 x5 x6 x7, event = StudyEvent.ForumMessagesRead x1 x2 x3 x4 x5 x6 x7
  | StudyEventKind.DecisionRecorded => exists x1, event = StudyEvent.DecisionRecorded x1
  | StudyEventKind.MeasurementResultRecorded =>
      exists x1 x2 x3, event = StudyEvent.MeasurementResultRecorded x1 x2 x3
  | StudyEventKind.EpisodeClosed => exists x1, event = StudyEvent.EpisodeClosed x1
  | StudyEventKind.ExperimentalForkCreated =>
      exists x1 x2 x3 x4, event = StudyEvent.ExperimentalForkCreated x1 x2 x3 x4
  | StudyEventKind.ForumMessageRetracted =>
      exists x1 x2, event = StudyEvent.ForumMessageRetracted x1 x2
  end.
Proof. destruct event; cbn [StudyEvent.kind]; eauto 20. Qed.

(** The alternatives of both sides, the right one found by its kind. *)
Ltac open_view Hview :=
  repeat match type of Hview with
         | exists _, _ => let x := fresh "y" in destruct Hview as [x Hview]
         end;
  subst.

Lemma study_command_prefix : Prefix append_command_fingerprint.
Proof.
  intros a b r s H. unfold append_command_fingerprint in H. rewrite <-!app_assoc in H.
  apply put_i64_app in H as [Hkind%code_inj H]; try apply scalar_i64.
  pose proof (study_command_view b) as Hview. rewrite <-Hkind in Hview. clear Hkind.
  destruct a; cbn [StudyCommand.kind] in Hview; open_view Hview;
    cbn [put_study_admission put_study_actor put_study_outcome flat_map] in H; peel_done H.
Qed.
#[global] Existing Instance study_command_prefix.

Lemma study_event_prefix : Prefix append_event_fingerprint.
Proof.
  intros a b r s H. unfold append_event_fingerprint in H. rewrite <-!app_assoc in H.
  apply put_i64_app in H as [Hkind%code_inj H]; try apply scalar_i64.
  pose proof (study_event_view b) as Hview. rewrite <-Hkind in Hview. clear Hkind.
  destruct a; cbn [StudyEvent.kind] in Hview; open_view Hview;
    cbn [put_study_lifecycle_event put_study_outcome_event flat_map] in H; peel_done H.
Qed.
#[global] Existing Instance study_event_prefix.

(** ** Commands *)

Lemma command_body_view (body : CommandBody.t) :
  match CommandBody.kind body with
  | CommandKind.CreateSocietyIdentity => exists x1, body = CommandBody.CreateSocietyIdentity x1
  | CommandKind.InstallRootAuthorityOffice => body = CommandBody.InstallRootAuthorityOffice
  | CommandKind.InstallFoundingMission =>
      exists x1, body = CommandBody.InstallFoundingMission x1
  | CommandKind.AppointInitialRootAuthority =>
      exists x1, body = CommandBody.AppointInitialRootAuthority x1
  | CommandKind.SetR0HardCeiling => exists x1, body = CommandBody.SetR0HardCeiling x1
  | CommandKind.BootstrapSociety => body = CommandBody.BootstrapSociety
  | CommandKind.ProposeOperatingCycle =>
      exists x1 x2, body = CommandBody.ProposeOperatingCycle x1 x2
  | CommandKind.AdmitOperatingCycle => exists x1, body = CommandBody.AdmitOperatingCycle x1
  | CommandKind.StartRootAuthorityOfficeSession =>
      exists x1, body = CommandBody.StartRootAuthorityOfficeSession x1
  | CommandKind.RecordOfficeSessionReady =>
      exists x1, body = CommandBody.RecordOfficeSessionReady x1
  | CommandKind.RecordOfficeSessionTerminal =>
      exists x1 x2, body = CommandBody.RecordOfficeSessionTerminal x1 x2
  | CommandKind.OpenOfficeTurn => exists x1 x2, body = CommandBody.OpenOfficeTurn x1 x2
  | CommandKind.SettleOfficeTurn => exists x1 x2, body = CommandBody.SettleOfficeTurn x1 x2
  | CommandKind.QuiesceOperatingCycle => exists x1, body = CommandBody.QuiesceOperatingCycle x1
  | CommandKind.RecordCycleDrained => exists x1, body = CommandBody.RecordCycleDrained x1
  | CommandKind.ResumeOperatingCycle => exists x1, body = CommandBody.ResumeOperatingCycle x1
  | CommandKind.ReconcileOperatingCycle =>
      exists x1, body = CommandBody.ReconcileOperatingCycle x1
  | CommandKind.CloseOperatingCycle => exists x1, body = CommandBody.CloseOperatingCycle x1
  | CommandKind.ReserveBudget => exists x1 x2, body = CommandBody.ReserveBudget x1 x2
  | CommandKind.ReconcileBudget => exists x1 x2, body = CommandBody.ReconcileBudget x1 x2
  | CommandKind.RequestCancellation =>
      exists x1 x2, body = CommandBody.RequestCancellation x1 x2
  | CommandKind.ReconcileCancellation => exists x1, body = CommandBody.ReconcileCancellation x1
  | CommandKind.CloseCostPostmortem =>
      exists x1 x2, body = CommandBody.CloseCostPostmortem x1 x2
  | CommandKind.CreateProject => exists x1 x2 x3, body = CommandBody.CreateProject x1 x2 x3
  | CommandKind.CharterProject =>
      exists x1 x2 x3 x4 x5, body = CommandBody.CharterProject x1 x2 x3 x4 x5
  | CommandKind.TransitionProject =>
      exists x1 x2 x3, body = CommandBody.TransitionProject x1 x2 x3
  | CommandKind.CompleteProjectMilestone =>
      exists x1 x2, body = CommandBody.CompleteProjectMilestone x1 x2
  | CommandKind.ReopenProject => exists x1 x2, body = CommandBody.ReopenProject x1 x2
  | CommandKind.CreateTicket =>
      exists x1 x2 x3 x4 x5, body = CommandBody.CreateTicket x1 x2 x3 x4 x5
  | CommandKind.TransitionTicket =>
      exists x1 x2 x3, body = CommandBody.TransitionTicket x1 x2 x3
  | CommandKind.AddGraphObjectRevision =>
      exists x1 x2 x3 x4 x5, body = CommandBody.AddGraphObjectRevision x1 x2 x3 x4 x5
  | CommandKind.CommitGraphRevision =>
      exists x1 x2, body = CommandBody.CommitGraphRevision x1 x2
  | CommandKind.AddGraphEdge =>
      exists x1 x2 x3 x4 x5, body = CommandBody.AddGraphEdge x1 x2 x3 x4 x5
  | CommandKind.CreateEpisode => exists x1 x2, body = CommandBody.CreateEpisode x1 x2
  | CommandKind.TransitionEpisode =>
      exists x1 x2 x3, body = CommandBody.TransitionEpisode x1 x2 x3
  | CommandKind.ReopenEpisode => exists x1 x2, body = CommandBody.ReopenEpisode x1 x2
  | CommandKind.RequestAdversarialReview =>
      exists x1 x2 x3, body = CommandBody.RequestAdversarialReview x1 x2 x3
  | CommandKind.AssignAdversarialReviewer =>
      exists x1 x2 x3 x4 x5, body = CommandBody.AssignAdversarialReviewer x1 x2 x3 x4 x5
  | CommandKind.SubmitReviewChallenge =>
      exists x1 x2 x3 x4 x5 x6, body = CommandBody.SubmitReviewChallenge x1 x2 x3 x4 x5 x6
  | CommandKind.RespondToReviewChallenge =>
      exists x1 x2 x3, body = CommandBody.RespondToReviewChallenge x1 x2 x3
  | CommandKind.DispositionReviewChallenge =>
      exists x1 x2 x3, body = CommandBody.DispositionReviewChallenge x1 x2 x3
  | CommandKind.ResolveAdversarialReview =>
      exists x1 x2 x3, body = CommandBody.ResolveAdversarialReview x1 x2 x3
  | CommandKind.TriggerPostmortem =>
      exists x1 x2 x3, body = CommandBody.TriggerPostmortem x1 x2 x3
  | CommandKind.RecordPostmortemCausalClaim =>
      exists x1 x2 x3 x4, body = CommandBody.RecordPostmortemCausalClaim x1 x2 x3 x4
  | CommandKind.ProposePostmortemAction =>
      exists x1 x2 x3 x4, body = CommandBody.ProposePostmortemAction x1 x2 x3 x4
  | CommandKind.ClosePostmortem => exists x1 x2, body = CommandBody.ClosePostmortem x1 x2
  | CommandKind.RegisterActorConfiguration =>
      exists x1 x2 x3, body = CommandBody.RegisterActorConfiguration x1 x2 x3
  | CommandKind.RegisterContextPack =>
      exists x1 x2 x3, body = CommandBody.RegisterContextPack x1 x2 x3
  | CommandKind.AdmitActorInstance =>
      exists x1 x2 x3 x4, body = CommandBody.AdmitActorInstance x1 x2 x3 x4
  | CommandKind.AdmitTicket => exists x1 x2, body = CommandBody.AdmitTicket x1 x2
  | CommandKind.RegisterWorkItem =>
      exists x1 x2 x3 x4 x5 x6 x7, body = CommandBody.RegisterWorkItem x1 x2 x3 x4 x5 x6 x7
  | CommandKind.ClaimWorkItem => exists x1 x2, body = CommandBody.ClaimWorkItem x1 x2
  | CommandKind.StartActorAttempt =>
      exists x1 x2 x3, body = CommandBody.StartActorAttempt x1 x2 x3
  | CommandKind.AttestActorAttemptTerminal =>
      exists x1 x2, body = CommandBody.AttestActorAttemptTerminal x1 x2
  | CommandKind.ValidateTicketAttempt =>
      exists x1 x2, body = CommandBody.ValidateTicketAttempt x1 x2
  | CommandKind.RetryActorAttempt => exists x1 x2, body = CommandBody.RetryActorAttempt x1 x2
  | CommandKind.CompleteTicket => exists x1 x2, body = CommandBody.CompleteTicket x1 x2
  | CommandKind.ExpireWorkLease => exists x1, body = CommandBody.ExpireWorkLease x1
  | CommandKind.CancelActorAttempt => exists x1 x2, body = CommandBody.CancelActorAttempt x1 x2
  | CommandKind.RegisterOutcomeObligation =>
      exists x1 x2 x3, body = CommandBody.RegisterOutcomeObligation x1 x2 x3
  | CommandKind.ResolveOutcomeObligation =>
      exists x1 x2 x3, body = CommandBody.ResolveOutcomeObligation x1 x2 x3
  | CommandKind.RecordContentSealReceipt =>
      exists x1, body = CommandBody.RecordContentSealReceipt x1
  | CommandKind.RegisterContentObject => exists x1, body = CommandBody.RegisterContentObject x1
  | CommandKind.RegisterForensicManifest =>
      exists x1 x2 x3 x4 x5, body = CommandBody.RegisterForensicManifest x1 x2 x3 x4 x5
  | CommandKind.RegisterDeterministicEvaluatorForensicManifest =>
      exists x1 x2, body = CommandBody.RegisterDeterministicEvaluatorForensicManifest x1 x2
  | CommandKind.RegisterDeterministicExperiment =>
      exists x1 x2 x3 x4 x5 x6, body = CommandBody.RegisterDeterministicExperiment x1 x2 x3
        x4 x5 x6
  | CommandKind.RecordDeterministicEvaluationReceipt =>
      exists x1 x2 x3 x4 x5 x6, body = CommandBody.RecordDeterministicEvaluationReceipt x1
        x2 x3 x4 x5 x6
  | CommandKind.AdmitDeterministicEvidence =>
      exists x1 x2, body = CommandBody.AdmitDeterministicEvidence x1 x2
  | CommandKind.FinalizeDeterministicExperiment =>
      exists x1 x2, body = CommandBody.FinalizeDeterministicExperiment x1 x2
  | CommandKind.AdmitDeterministicEvaluatorNativeChild =>
      exists x1 x2 x3 x4 x5 x6 x7 x8 x9, body =
        CommandBody.AdmitDeterministicEvaluatorNativeChild x1 x2 x3 x4 x5 x6 x7 x8 x9
  | CommandKind.RecordDeterministicEvaluatorNativeChildSpawn =>
      exists x1 x2 x3 x4, body = CommandBody.RecordDeterministicEvaluatorNativeChildSpawn x1
        x2 x3 x4
  | CommandKind.OpenSupervisorEpoch =>
      exists x1 x2, body = CommandBody.OpenSupervisorEpoch x1 x2
  | CommandKind.AdmitPiChildSpawn =>
      exists x1 x2 x3 x4 x5 x6 x7 x8 x9 x10, body = CommandBody.AdmitPiChildSpawn x1 x2 x3
        x4 x5 x6 x7 x8 x9 x10
  | CommandKind.RecordInertChildSpawn =>
      exists x1 x2 x3 x4, body = CommandBody.RecordInertChildSpawn x1 x2 x3 x4
  | CommandKind.RecordPiAdapterReady =>
      exists x1 x2 x3, body = CommandBody.RecordPiAdapterReady x1 x2 x3
  | CommandKind.AuthorizePiCreateSession =>
      exists x1 x2 x3, body = CommandBody.AuthorizePiCreateSession x1 x2 x3
  | CommandKind.RecordPiCreateSessionDelivery =>
      exists x1 x2 x3, body = CommandBody.RecordPiCreateSessionDelivery x1 x2 x3
  | CommandKind.RecordPiSessionReady =>
      exists x1 x2, body = CommandBody.RecordPiSessionReady x1 x2
  | CommandKind.RecordPiAbortControlDelivery =>
      exists x1 x2 x3 x4 x5, body = CommandBody.RecordPiAbortControlDelivery x1 x2 x3 x4 x5
  | CommandKind.RecordChildStreamSeal =>
      exists x1 x2 x3 x4 x5, body = CommandBody.RecordChildStreamSeal x1 x2 x3 x4 x5
  | CommandKind.RecordChildProcessLiveness =>
      exists x1 x2, body = CommandBody.RecordChildProcessLiveness x1 x2
  | CommandKind.RecordProcessSignalReceipt =>
      exists x1 x2 x3 x4 x5, body = CommandBody.RecordProcessSignalReceipt x1 x2 x3 x4 x5
  | CommandKind.RecordDirectChildReap =>
      exists x1 x2 x3 x4, body = CommandBody.RecordDirectChildReap x1 x2 x3 x4
  | CommandKind.RecordChildRecovery =>
      exists x1 x2 x3, body = CommandBody.RecordChildRecovery x1 x2 x3
  | CommandKind.FinalizeChildProcess => exists x1, body = CommandBody.FinalizeChildProcess x1
  | CommandKind.BeginCancellationPropagation =>
      exists x1, body = CommandBody.BeginCancellationPropagation x1
  | CommandKind.ReconcileCancellationPropagation =>
      exists x1, body = CommandBody.ReconcileCancellationPropagation x1
  | CommandKind.RecordNativeChildNotSpawned =>
      exists x1 x2, body = CommandBody.RecordNativeChildNotSpawned x1 x2
  | CommandKind.AuthorizePiOfficeTurnPrompt =>
      exists x1 x2 x3 x4 x5, body = CommandBody.AuthorizePiOfficeTurnPrompt x1 x2 x3 x4 x5
  | CommandKind.RecordPiOfficeTurnPromptDelivery =>
      exists x1 x2 x3, body = CommandBody.RecordPiOfficeTurnPromptDelivery x1 x2 x3
  | CommandKind.RecordPiOfficeTurnPromptAccepted =>
      exists x1 x2 x3, body = CommandBody.RecordPiOfficeTurnPromptAccepted x1 x2 x3
  | CommandKind.RecordPiOfficeTurnUsage =>
      exists x1 x2 x3 x4, body = CommandBody.RecordPiOfficeTurnUsage x1 x2 x3 x4
  | CommandKind.RecordPiOfficeTurnUsageFailure =>
      exists x1 x2 x3 x4, body = CommandBody.RecordPiOfficeTurnUsageFailure x1 x2 x3 x4
  | CommandKind.RecordPiOfficeTurnTerminal =>
      exists x1 x2 x3 x4 x5 x6 x7, body = CommandBody.RecordPiOfficeTurnTerminal x1 x2 x3 x4
        x5 x6 x7
  | CommandKind.AuthorizePiOfficeSessionDispose =>
      exists x1 x2, body = CommandBody.AuthorizePiOfficeSessionDispose x1 x2
  | CommandKind.RecordPiOfficeSessionDisposeDelivery =>
      exists x1 x2, body = CommandBody.RecordPiOfficeSessionDisposeDelivery x1 x2
  | CommandKind.RecordPiOfficeSessionDisposeAccepted =>
      exists x1 x2 x3, body = CommandBody.RecordPiOfficeSessionDisposeAccepted x1 x2 x3
  | CommandKind.RecordPiOfficeSessionDisposeUsage =>
      exists x1 x2 x3 x4, body = CommandBody.RecordPiOfficeSessionDisposeUsage x1 x2 x3 x4
  | CommandKind.RecordPiOfficeSessionDisposeUsageFailure =>
      exists x1 x2 x3 x4, body = CommandBody.RecordPiOfficeSessionDisposeUsageFailure x1 x2
        x3 x4
  | CommandKind.RecordPiOfficeSessionDisposed =>
      exists x1 x2 x3 x4, body = CommandBody.RecordPiOfficeSessionDisposed x1 x2 x3 x4
  | CommandKind.AuthorizePiTaskAttemptPrompt =>
      exists x1 x2 x3 x4 x5, body = CommandBody.AuthorizePiTaskAttemptPrompt x1 x2 x3 x4 x5
  | CommandKind.RecordPiTaskAttemptPromptDelivery =>
      exists x1 x2 x3, body = CommandBody.RecordPiTaskAttemptPromptDelivery x1 x2 x3
  | CommandKind.RecordPiTaskAttemptPromptAccepted =>
      exists x1 x2 x3, body = CommandBody.RecordPiTaskAttemptPromptAccepted x1 x2 x3
  | CommandKind.RecordPiTaskAttemptUsage =>
      exists x1 x2 x3 x4, body = CommandBody.RecordPiTaskAttemptUsage x1 x2 x3 x4
  | CommandKind.RecordPiTaskAttemptUsageFailure =>
      exists x1 x2 x3 x4, body = CommandBody.RecordPiTaskAttemptUsageFailure x1 x2 x3 x4
  | CommandKind.RecordPiTaskAttemptTerminal =>
      exists x1 x2 x3 x4 x5 x6 x7, body = CommandBody.RecordPiTaskAttemptTerminal x1 x2 x3
        x4 x5 x6 x7
  | CommandKind.AuthorizePiTaskAttemptSessionDispose =>
      exists x1 x2, body = CommandBody.AuthorizePiTaskAttemptSessionDispose x1 x2
  | CommandKind.RecordPiTaskAttemptSessionDisposeDelivery =>
      exists x1 x2, body = CommandBody.RecordPiTaskAttemptSessionDisposeDelivery x1 x2
  | CommandKind.RecordPiTaskAttemptSessionDisposeAccepted =>
      exists x1 x2 x3, body = CommandBody.RecordPiTaskAttemptSessionDisposeAccepted x1 x2 x3
  | CommandKind.RecordPiTaskAttemptSessionDisposeUsage =>
      exists x1 x2 x3 x4, body = CommandBody.RecordPiTaskAttemptSessionDisposeUsage x1 x2 x3 x4
  | CommandKind.RecordPiTaskAttemptSessionDisposeUsageFailure =>
      exists x1 x2 x3 x4, body = CommandBody.RecordPiTaskAttemptSessionDisposeUsageFailure
        x1 x2 x3 x4
  | CommandKind.RecordPiTaskAttemptSessionDisposed =>
      exists x1 x2 x3 x4, body = CommandBody.RecordPiTaskAttemptSessionDisposed x1 x2 x3 x4
  | CommandKind.QualifyNativeExecutionProfile =>
      exists x1 x2 x3 x4 x5 x6 x7 x8 x9 x10 x11, body =
        CommandBody.QualifyNativeExecutionProfile x1 x2 x3 x4 x5 x6 x7 x8 x9 x10 x11
  | CommandKind.StartNativeExecutionProfileQualification =>
      exists x1, body = CommandBody.StartNativeExecutionProfileQualification x1
  | CommandKind.ClaimStudyActorTaskAttemptLaunch =>
      exists x1 x2 x3 x4 x5 x6 x7 x8, body = CommandBody.ClaimStudyActorTaskAttemptLaunch x1
        x2 x3 x4 x5 x6 x7 x8
  | CommandKind.ClaimNativeExecutionProfileQualificationLaunch =>
      exists x1 x2 x3 x4 x5 x6, body =
        CommandBody.ClaimNativeExecutionProfileQualificationLaunch x1 x2 x3 x4 x5 x6
  | CommandKind.AllocateStudyActorWork =>
      exists x1 x2 x3 x4 x5 x6 x7 x8 x9 x10, body = CommandBody.AllocateStudyActorWork x1 x2
        x3 x4 x5 x6 x7 x8 x9 x10
  | CommandKind.StudyTransition => exists x1, body = CommandBody.StudyTransition x1
  end.
Proof. destruct body; cbn [CommandBody.kind]; eauto 20. Qed.

Lemma event_body_view (body : EventBody.t) :
  match EventBody.kind body with
  | EventKind.SocietyIdentityCreated => exists x1, body = EventBody.SocietyIdentityCreated x1
  | EventKind.RootAuthorityOfficeInstalled =>
      exists x1, body = EventBody.RootAuthorityOfficeInstalled x1
  | EventKind.FoundingMissionInstalled =>
      exists x1 x2, body = EventBody.FoundingMissionInstalled x1 x2
  | EventKind.RootAuthorityAppointed =>
      exists x1 x2, body = EventBody.RootAuthorityAppointed x1 x2
  | EventKind.R0HardCeilingSet => exists x1 x2, body = EventBody.R0HardCeilingSet x1 x2
  | EventKind.SocietyBootstrapped => exists x1, body = EventBody.SocietyBootstrapped x1
  | EventKind.OperatingCycleProposed =>
      exists x1 x2 x3 x4, body = EventBody.OperatingCycleProposed x1 x2 x3 x4
  | EventKind.OperatingCycleStateChanged =>
      exists x1 x2 x3, body = EventBody.OperatingCycleStateChanged x1 x2 x3
  | EventKind.RootAuthorityOfficeSessionStarted =>
      exists x1 x2, body = EventBody.RootAuthorityOfficeSessionStarted x1 x2
  | EventKind.RootAuthorityOfficeSessionStateChanged =>
      exists x1 x2, body = EventBody.RootAuthorityOfficeSessionStateChanged x1 x2
  | EventKind.OfficeTurnOpened => exists x1 x2 x3, body = EventBody.OfficeTurnOpened x1 x2 x3
  | EventKind.OfficeTurnSettled => exists x1 x2 x3, body = EventBody.OfficeTurnSettled x1 x2 x3
  | EventKind.BudgetReserved => exists x1 x2 x3, body = EventBody.BudgetReserved x1 x2 x3
  | EventKind.BudgetReconciled => exists x1 x2, body = EventBody.BudgetReconciled x1 x2
  | EventKind.BudgetAdmissionFrozen =>
      exists x1 x2 x3 x4 x5, body = EventBody.BudgetAdmissionFrozen x1 x2 x3 x4 x5
  | EventKind.CancellationRequested =>
      exists x1 x2 x3 x4, body = EventBody.CancellationRequested x1 x2 x3 x4
  | EventKind.CancellationReconciled =>
      exists x1 x2, body = EventBody.CancellationReconciled x1 x2
  | EventKind.CostPostmortemClosed =>
      exists x1 x2 x3 x4 x5, body = EventBody.CostPostmortemClosed x1 x2 x3 x4 x5
  | EventKind.ProjectCreated => exists x1 x2, body = EventBody.ProjectCreated x1 x2
  | EventKind.ProjectChartered => exists x1, body = EventBody.ProjectChartered x1
  | EventKind.ProjectStateChanged => exists x1 x2, body = EventBody.ProjectStateChanged x1 x2
  | EventKind.ProjectMilestoneCompleted =>
      exists x1, body = EventBody.ProjectMilestoneCompleted x1
  | EventKind.TicketCreated => exists x1 x2, body = EventBody.TicketCreated x1 x2
  | EventKind.TicketStateChanged => exists x1 x2, body = EventBody.TicketStateChanged x1 x2
  | EventKind.GraphObjectRevisionAdded =>
      exists x1 x2, body = EventBody.GraphObjectRevisionAdded x1 x2
  | EventKind.GraphRevisionCommitted => exists x1, body = EventBody.GraphRevisionCommitted x1
  | EventKind.GraphEdgeAdded => exists x1, body = EventBody.GraphEdgeAdded x1
  | EventKind.EpisodeCreated => exists x1 x2, body = EventBody.EpisodeCreated x1 x2
  | EventKind.EpisodeStateChanged => exists x1 x2, body = EventBody.EpisodeStateChanged x1 x2
  | EventKind.AdversarialReviewRequested =>
      exists x1, body = EventBody.AdversarialReviewRequested x1
  | EventKind.AdversarialReviewerAssigned =>
      exists x1 x2 x3 x4, body = EventBody.AdversarialReviewerAssigned x1 x2 x3 x4
  | EventKind.ReviewChallengeSubmitted =>
      exists x1 x2, body = EventBody.ReviewChallengeSubmitted x1 x2
  | EventKind.ReviewChallengeResponded =>
      exists x1, body = EventBody.ReviewChallengeResponded x1
  | EventKind.ReviewChallengeDispositioned =>
      exists x1 x2, body = EventBody.ReviewChallengeDispositioned x1 x2
  | EventKind.AdversarialReviewResolved =>
      exists x1 x2, body = EventBody.AdversarialReviewResolved x1 x2
  | EventKind.PostmortemTriggered => exists x1, body = EventBody.PostmortemTriggered x1
  | EventKind.PostmortemCausalClaimRecorded =>
      exists x1, body = EventBody.PostmortemCausalClaimRecorded x1
  | EventKind.PostmortemActionProposed =>
      exists x1, body = EventBody.PostmortemActionProposed x1
  | EventKind.PostmortemClosed => exists x1, body = EventBody.PostmortemClosed x1
  | EventKind.ActorConfigurationRegistered =>
      exists x1 x2, body = EventBody.ActorConfigurationRegistered x1 x2
  | EventKind.ContextPackRegistered => exists x1, body = EventBody.ContextPackRegistered x1
  | EventKind.ActorInstanceAdmitted =>
      exists x1 x2, body = EventBody.ActorInstanceAdmitted x1 x2
  | EventKind.TicketAdmitted => exists x1, body = EventBody.TicketAdmitted x1
  | EventKind.WorkItemRegistered =>
      exists x1 x2 x3, body = EventBody.WorkItemRegistered x1 x2 x3
  | EventKind.WorkItemClaimed => exists x1 x2 x3, body = EventBody.WorkItemClaimed x1 x2 x3
  | EventKind.ActorAttemptStarted =>
      exists x1 x2 x3, body = EventBody.ActorAttemptStarted x1 x2 x3
  | EventKind.ActorAttemptTerminalAttested =>
      exists x1 x2, body = EventBody.ActorAttemptTerminalAttested x1 x2
  | EventKind.TicketAttemptValidated =>
      exists x1 x2, body = EventBody.TicketAttemptValidated x1 x2
  | EventKind.ActorAttemptRetryPrepared =>
      exists x1 x2 x3, body = EventBody.ActorAttemptRetryPrepared x1 x2 x3
  | EventKind.TicketCompleted => exists x1 x2, body = EventBody.TicketCompleted x1 x2
  | EventKind.WorkLeaseExpired => exists x1 x2, body = EventBody.WorkLeaseExpired x1 x2
  | EventKind.ActorAttemptCancellationRequested =>
      exists x1 x2, body = EventBody.ActorAttemptCancellationRequested x1 x2
  | EventKind.OutcomeObligationRegistered =>
      exists x1 x2, body = EventBody.OutcomeObligationRegistered x1 x2
  | EventKind.OutcomeObligationResolved =>
      exists x1 x2, body = EventBody.OutcomeObligationResolved x1 x2
  | EventKind.ContentSealReceiptRecorded =>
      exists x1 x2, body = EventBody.ContentSealReceiptRecorded x1 x2
  | EventKind.ContentObjectRegistered =>
      exists x1 x2, body = EventBody.ContentObjectRegistered x1 x2
  | EventKind.ForensicManifestRegistered =>
      exists x1 x2 x3, body = EventBody.ForensicManifestRegistered x1 x2 x3
  | EventKind.DeterministicEvaluatorForensicManifestRegistered =>
      exists x1 x2 x3 x4 x5, body =
        EventBody.DeterministicEvaluatorForensicManifestRegistered x1 x2 x3 x4 x5
  | EventKind.DeterministicExperimentRegistered =>
      exists x1 x2 x3, body = EventBody.DeterministicExperimentRegistered x1 x2 x3
  | EventKind.DeterministicEvaluationReceiptRecorded =>
      exists x1 x2, body = EventBody.DeterministicEvaluationReceiptRecorded x1 x2
  | EventKind.DeterministicEvidenceAdmitted =>
      exists x1 x2 x3 x4 x5, body = EventBody.DeterministicEvidenceAdmitted x1 x2 x3 x4 x5
  | EventKind.DeterministicExperimentFinalized =>
      exists x1 x2, body = EventBody.DeterministicExperimentFinalized x1 x2
  | EventKind.DeterministicEvaluatorNativeChildAdmitted =>
      exists x1 x2, body = EventBody.DeterministicEvaluatorNativeChildAdmitted x1 x2
  | EventKind.DeterministicEvaluatorNativeChildSpawnRecorded =>
      exists x1 x2, body = EventBody.DeterministicEvaluatorNativeChildSpawnRecorded x1 x2
  | EventKind.PiChildSpawnAdmitted =>
      exists x1 x2 x3, body = EventBody.PiChildSpawnAdmitted x1 x2 x3
  | EventKind.InertPiChildSpawnRecorded =>
      exists x1 x2, body = EventBody.InertPiChildSpawnRecorded x1 x2
  | EventKind.PiAdapterReadyRecorded =>
      exists x1 x2, body = EventBody.PiAdapterReadyRecorded x1 x2
  | EventKind.PiCreateSessionAuthorized =>
      exists x1, body = EventBody.PiCreateSessionAuthorized x1
  | EventKind.PiCreateSessionDeliveryRecorded =>
      exists x1, body = EventBody.PiCreateSessionDeliveryRecorded x1
  | EventKind.PiSessionReadyRecorded =>
      exists x1 x2, body = EventBody.PiSessionReadyRecorded x1 x2
  | EventKind.PiAbortControlDeliveryRecorded =>
      exists x1 x2 x3 x4 x5 x6, body = EventBody.PiAbortControlDeliveryRecorded x1 x2 x3 x4
        x5 x6
  | EventKind.ChildStreamSealed =>
      exists x1 x2 x3 x4, body = EventBody.ChildStreamSealed x1 x2 x3 x4
  | EventKind.ChildProcessLivenessObserved =>
      exists x1 x2 x3, body = EventBody.ChildProcessLivenessObserved x1 x2 x3
  | EventKind.ProcessSignalReceiptRecorded =>
      exists x1 x2 x3 x4 x5 x6, body = EventBody.ProcessSignalReceiptRecorded x1 x2 x3 x4 x5 x6
  | EventKind.DirectChildReaped =>
      exists x1 x2 x3 x4 x5, body = EventBody.DirectChildReaped x1 x2 x3 x4 x5
  | EventKind.ChildRecoveryObserved =>
      exists x1 x2 x3 x4, body = EventBody.ChildRecoveryObserved x1 x2 x3 x4
  | EventKind.ChildProcessFinalized =>
      exists x1 x2, body = EventBody.ChildProcessFinalized x1 x2
  | EventKind.CancellationPropagationBegun =>
      exists x1 x2, body = EventBody.CancellationPropagationBegun x1 x2
  | EventKind.CancellationPropagationReconciled =>
      exists x1, body = EventBody.CancellationPropagationReconciled x1
  | EventKind.CancellationPropagationContainmentFailed =>
      exists x1, body = EventBody.CancellationPropagationContainmentFailed x1
  | EventKind.NativeChildSpawnInvalidated =>
      exists x1 x2, body = EventBody.NativeChildSpawnInvalidated x1 x2
  | EventKind.SupervisorEpochOpened => exists x1, body = EventBody.SupervisorEpochOpened x1
  | EventKind.PiOfficeTurnPromptAuthorized =>
      exists x1 x2 x3 x4 x5, body = EventBody.PiOfficeTurnPromptAuthorized x1 x2 x3 x4 x5
  | EventKind.PiOfficeTurnPromptDelivered =>
      exists x1 x2, body = EventBody.PiOfficeTurnPromptDelivered x1 x2
  | EventKind.PiOfficeTurnPromptAccepted =>
      exists x1 x2 x3, body = EventBody.PiOfficeTurnPromptAccepted x1 x2 x3
  | EventKind.PiOfficeTurnUsageRecorded =>
      exists x1 x2 x3 x4, body = EventBody.PiOfficeTurnUsageRecorded x1 x2 x3 x4
  | EventKind.PiOfficeTurnUsageFrozen =>
      exists x1 x2 x3 x4 x5, body = EventBody.PiOfficeTurnUsageFrozen x1 x2 x3 x4 x5
  | EventKind.PiOfficeTurnTerminalRecorded =>
      exists x1 x2 x3 x4, body = EventBody.PiOfficeTurnTerminalRecorded x1 x2 x3 x4
  | EventKind.PiOfficeSessionDisposeAuthorized =>
      exists x1 x2 x3 x4, body = EventBody.PiOfficeSessionDisposeAuthorized x1 x2 x3 x4
  | EventKind.PiOfficeSessionDisposeDelivered =>
      exists x1 x2 x3, body = EventBody.PiOfficeSessionDisposeDelivered x1 x2 x3
  | EventKind.PiOfficeSessionDisposeAccepted =>
      exists x1 x2 x3, body = EventBody.PiOfficeSessionDisposeAccepted x1 x2 x3
  | EventKind.PiOfficeSessionDisposeUsageRecorded =>
      exists x1 x2 x3, body = EventBody.PiOfficeSessionDisposeUsageRecorded x1 x2 x3
  | EventKind.PiOfficeSessionDisposeUsageFrozen =>
      exists x1 x2 x3 x4 x5, body = EventBody.PiOfficeSessionDisposeUsageFrozen x1 x2 x3 x4 x5
  | EventKind.PiOfficeSessionDisposed =>
      exists x1 x2 x3 x4 x5, body = EventBody.PiOfficeSessionDisposed x1 x2 x3 x4 x5
  | EventKind.PiTaskAttemptPromptAuthorized =>
      exists x1 x2 x3 x4 x5, body = EventBody.PiTaskAttemptPromptAuthorized x1 x2 x3 x4 x5
  | EventKind.PiTaskAttemptPromptDelivered =>
      exists x1 x2, body = EventBody.PiTaskAttemptPromptDelivered x1 x2
  | EventKind.PiTaskAttemptPromptAccepted =>
      exists x1 x2 x3, body = EventBody.PiTaskAttemptPromptAccepted x1 x2 x3
  | EventKind.PiTaskAttemptUsageRecorded =>
      exists x1 x2 x3 x4, body = EventBody.PiTaskAttemptUsageRecorded x1 x2 x3 x4
  | EventKind.PiTaskAttemptUsageFrozen =>
      exists x1 x2 x3 x4 x5, body = EventBody.PiTaskAttemptUsageFrozen x1 x2 x3 x4 x5
  | EventKind.PiTaskAttemptTerminalRecorded =>
      exists x1 x2 x3 x4, body = EventBody.PiTaskAttemptTerminalRecorded x1 x2 x3 x4
  | EventKind.PiTaskAttemptSessionDisposeAuthorized =>
      exists x1 x2 x3 x4, body = EventBody.PiTaskAttemptSessionDisposeAuthorized x1 x2 x3 x4
  | EventKind.PiTaskAttemptSessionDisposeDelivered =>
      exists x1 x2 x3, body = EventBody.PiTaskAttemptSessionDisposeDelivered x1 x2 x3
  | EventKind.PiTaskAttemptSessionDisposeAccepted =>
      exists x1 x2 x3, body = EventBody.PiTaskAttemptSessionDisposeAccepted x1 x2 x3
  | EventKind.PiTaskAttemptSessionDisposeUsageRecorded =>
      exists x1 x2 x3, body = EventBody.PiTaskAttemptSessionDisposeUsageRecorded x1 x2 x3
  | EventKind.PiTaskAttemptSessionDisposeUsageFrozen =>
      exists x1 x2 x3 x4 x5, body = EventBody.PiTaskAttemptSessionDisposeUsageFrozen x1 x2
        x3 x4 x5
  | EventKind.PiTaskAttemptSessionDisposed =>
      exists x1 x2 x3 x4 x5, body = EventBody.PiTaskAttemptSessionDisposed x1 x2 x3 x4 x5
  | EventKind.NativeExecutionProfileQualified =>
      exists x1 x2 x3 x4 x5, body = EventBody.NativeExecutionProfileQualified x1 x2 x3 x4 x5
  | EventKind.NativeExecutionProfileQualificationStarted =>
      exists x1 x2, body = EventBody.NativeExecutionProfileQualificationStarted x1 x2
  | EventKind.StudyActorTaskAttemptLaunchClaimed =>
      exists x1 x2 x3 x4 x5 x6 x7 x8 x9, body = EventBody.StudyActorTaskAttemptLaunchClaimed
        x1 x2 x3 x4 x5 x6 x7 x8 x9
  | EventKind.NativeExecutionProfileQualificationLaunchClaimed =>
      exists x1 x2 x3 x4 x5 x6, body =
        EventBody.NativeExecutionProfileQualificationLaunchClaimed x1 x2 x3 x4 x5 x6
  | EventKind.StudyActorWorkAllocated =>
      exists x1 x2 x3 x4 x5 x6 x7 x8 x9 x10, body = EventBody.StudyActorWorkAllocated x1 x2
        x3 x4 x5 x6 x7 x8 x9 x10
  | EventKind.StudyTransition => exists x1, body = EventBody.StudyTransition x1
  end.
Proof. destruct body; cbn [EventBody.kind]; eauto 20. Qed.

Lemma command_body_app a b r s :
  CommandBody.kind a = CommandBody.kind b ->
  put_founding_body a ++ r = put_founding_body b ++ s -> a = b /\ r = s.
Proof.
  intros Hkind H. pose proof (command_body_view b) as Hview. rewrite <-Hkind in Hview.
  clear Hkind.
  destruct a; cbn [CommandBody.kind] in Hview; open_view Hview;
    cbn [put_founding_body put_project_body put_review_body put_evidence_body
         put_postmortem_body put_work_body put_child_body put_reap_body put_office_turn_body
         put_task_attempt_body put_qualification_body] in H;
    repeat match type of H with context [match ?x with _ => _ end] => destruct x end;
    peel_done H.
Qed.

Lemma event_body_app a b r s :
  EventBody.kind a = EventBody.kind b ->
  reaches_unreachable a = false -> reaches_unreachable b = false ->
  put_cycle_event a ++ r = put_cycle_event b ++ s -> a = b /\ r = s.
Proof.
  intros Hkind Ha Hb H. pose proof (event_body_view b) as Hview. rewrite <-Hkind in Hview.
  clear Hkind.
  destruct a; cbn [EventBody.kind] in Hview; open_view Hview;
    cbn [put_cycle_event put_budget_event put_project_event put_work_event put_evidence_event
         put_child_event put_office_turn_event put_task_attempt_event
         put_qualification_event] in H;
    unfold put_evaluator_owner in H;
    repeat match type of H with context [match ?x with _ => _ end] => destruct x end;
    try discriminate Ha; try discriminate Hb; peel_done H.
Qed.

(** ** The whole preimages *)

Lemma request_preimage_inj r1 r2 : request_preimage r1 = request_preimage r2 -> r1 = r2.
Proof.
  destruct r1, r2. unfold request_preimage. cbn. intros H.
  apply (f_equal (fun l => l ++ [])) in H. peel H.
  by apply command_body_app in H as [-> _].
Qed.

Lemma event_preimage_inj id1 id2 c1 c2 e1 e2 l :
  event_preimage id1 c1 e1 = Some l -> event_preimage id2 c2 e2 = Some l ->
  id1 = id2 /\ c1 = c2 /\ e1 = e2.
Proof.
  unfold event_preimage. intros H1 H2.
  destruct (reaches_unreachable e1) eqn:R1; [done|].
  destruct (reaches_unreachable e2) eqn:R2; [done|].
  apply (inj Some) in H1 as <-. apply (inj Some) in H2 as H. symmetry in H.
  apply (f_equal (fun l => l ++ [])) in H. peel H.
  by apply event_body_app in H as [-> _].
Qed.

(** ** What the ledger compares *)

Section Collisions.
Context {hash : Blake3}.

(** C36: requests of one fingerprint are one request, or their byte strings are a collision
    of BLAKE3: replaying a command id with another principal, grant, capability,
    generation or body is told apart by the fingerprint. *)
Theorem request_fingerprint_commits r1 r2 :
  request_fingerprint r1 = request_fingerprint r2 ->
  r1 = r2 \/ collides (request_preimage r1) (request_preimage r2).
Proof.
  intros H. apply (f_equal inner) in H. cbn in H.
  destruct (decide (request_preimage r1 = request_preimage r2)) as [E|E].
  - left. by apply request_preimage_inj.
  - right. by split.
Qed.

(** An event fingerprint commits to the event's id, its command and its body. *)
Theorem event_fingerprint_commits id1 id2 c1 c2 e1 e2 d :
  event_fingerprint id1 c1 e1 = Some d -> event_fingerprint id2 c2 e2 = Some d ->
  (id1 = id2 /\ c1 = c2 /\ e1 = e2)
  \/ exists l m, event_preimage id1 c1 e1 = Some l /\ event_preimage id2 c2 e2 = Some m
               /\ collides l m.
Proof.
  unfold event_fingerprint. intros H1 H2.
  destruct (event_preimage id1 c1 e1) as [l|] eqn:P1; [|done].
  destruct (event_preimage id2 c2 e2) as [m|] eqn:P2; [|done].
  injection H1 as H1. injection H2 as H2. rewrite <-H2 in H1. apply (f_equal inner) in H1.
  destruct (decide (l = m)) as [<-|E].
  - left. eauto using event_preimage_inj.
  - right. by exists l, m.
Qed.
End Collisions.
