(* ===== verification/SqlTable.v ===== *)
(** * Relational tables

    What the kernel's SQL statements use of PostgreSQL, for tables whose primary key is
    one [BIGINT]: rows by key, identity columns, [INSERT], [UPDATE ... WHERE key = $1],
    [SELECT ... WHERE key = $1], [COUNT] and [EXISTS], the constraints of the schema,
    and sums over the rows of a table. *)

From S2P Require Import Prelude.
From S2P Require Import Machine.

(** ** Tables *)

(** The rows by primary key, and the next value of the identity sequence. *)
Record table (R : Type) := Table { rows : gmap Z R; next_id : Z }.
Arguments Table {R} rows next_id.
Arguments rows {R} _.
Arguments next_id {R} _.

Definition empty_table {R} : table R := Table ∅ 1.

(** The constraints of a table that a new version of the row [id] must meet, given the
    rows of the table: [CHECK], [UNIQUE] and the partial unique indexes. *)
Class Constraints (R : Type) := constraints : gmap Z R -> R -> bool.

(** ** Expressions of [CHECK] and [UNIQUE] *)

Definition one_of (l : list Z) (v : Z) : bool := existsb (Z.eqb v) l.
Definition in_range (lo hi v : Z) : bool := (lo <=? v) && (v <=? hi).
Definition is_null {A} (o : option A) : bool := match o with None => true | Some _ => false end.
Definition not_null {A} (o : option A) : bool := negb (is_null o).
(** Unknown is [None]; a [CHECK] fails only on false. *)
Definition and3 (a b : option bool) : option bool :=
  match a, b with
  | Some false, _ | _, Some false => Some false
  | Some true, Some true => Some true
  | _, _ => None
  end.
Definition or3 (a b : option bool) : option bool :=
  match a, b with
  | Some true, _ | _, Some true => Some true
  | Some false, Some false => Some false
  | _, _ => None
  end.
Definition passes (e : option bool) : bool := match e with Some false => false | _ => true end.
(** Equality of two keys of a unique index: nulls are distinct. *)
Definition same_key (a b : option Z) : bool :=
  match a, b with Some a, Some b => a =? b | _, _ => false end.

(** A constraint against every other row. *)
Definition no_other {R} (m : gmap Z R) (conflicts : R -> bool) : bool :=
  bool_decide (map_Forall (fun _ r => conflicts r = false) m).

Section Operations.
Context {R : Type} `{!Constraints R}.

(** [INSERT ... RETURNING]: the sequence moves even when the row is refused. *)
Definition sql_insert (r : R) (t : table R) : option Z * table R :=
  let id := next_id t in
  if negb (is_i64 id) then (None, t) else
  if bool_decide (rows t !! id = None) && constraints (rows t) r
  then (Some id, Table (<[id := r]> (rows t)) (id + 1))
  else (None, Table (rows t) (id + 1)).

(** [INSERT] with the key given. *)
Definition sql_insert_key (id : Z) (r : R) (t : table R) : option (table R) :=
  if bool_decide (rows t !! id = None) && constraints (rows t) r
  then Some (Table (<[id := r]> (rows t)) (next_id t)) else None.

(** [UPDATE ... SET ... WHERE key = id]; a missing row is not an error.  [f] is [None]
    when an expression of [SET] leaves the width of its column. *)
Definition sql_update (id : Z) (f : R -> option R) (t : table R) : option (table R) :=
  match rows t !! id with
  | None => Some t
  | Some r =>
    match f r with
    | None => None
    | Some r' =>
      if constraints (delete id (rows t)) r'
      then Some (Table (<[id := r']> (rows t)) (next_id t)) else None
    end
  end.

(** [UPDATE ... SET ... WHERE condition], row by row. *)
Fixpoint sql_update_all (ids : list Z) (f : R -> option R) (t : table R) : option (table R) :=
  match ids with
  | [] => Some t
  | id :: ids => match sql_update id f t with
                 | Some t => sql_update_all ids f t
                 | None => None
                 end
  end.
End Operations.

(** [ROLLBACK TO]: the rows come back, the sequence does not. *)
Definition keep_sequence {R} (saved now : table R) : table R :=
  Table (rows saved) (next_id now).

(** ** Queries *)

(** The rows that meet a condition, in no particular order. *)
Definition rows_where {R} (p : R -> bool) (t : table R) : list (Z * R) :=
  List.filter (fun kr => p kr.2) (map_to_list (rows t)).
Definition count_where {R} (p : R -> bool) (t : table R) : Z :=
  Z.of_nat (length (rows_where p t)).
Definition exists_where {R} (p : R -> bool) (t : table R) : bool :=
  match rows_where p t with [] => false | _ => true end.
(** [query_row(..).optional()] on a query without [ORDER BY]: some row. *)
Definition row_where {R} (p : R -> bool) (t : table R) : option (Z * R) :=
  head (rows_where p t).

(** [ORDER BY] an integer, ascending. *)
Definition by_key {A} (key : A -> Z) : relation A := fun a b => key a <= key b.
#[global] Instance by_key_dec {A} (key : A -> Z) : RelDecision (by_key key).
Proof. intros a b. apply Z.le_dec. Defined.
Definition order_by {A} (key : A -> Z) (l : list A) : list A := merge_sort (by_key key) l.

(** [MAX(key)]. *)
Definition max_key {R} (t : table R) : option Z :=
  match map fst (map_to_list (rows t)) with
  | [] => None
  | k :: l => Some (fold_left Z.max l k)
  end.

(** ** Sums *)

Definition map_sum {R} (f : Z -> R -> Z) (m : gmap Z R) : Z :=
  map_fold (fun k r acc => f k r + acc) 0 m.

Section Sums.
Context {R : Type}.
Implicit Types (f g : Z -> R -> Z) (m : gmap Z R).

Lemma map_sum_empty f : map_sum f ∅ = 0.
Proof. apply map_fold_empty. Qed.

Lemma map_sum_insert f m k r :
  m !! k = None -> map_sum f (<[k := r]> m) = f k r + map_sum f m.
Proof.
  intros Hk. unfold map_sum. rewrite map_fold_insert_L; [done| |done]. intros. lia.
Qed.

Lemma map_sum_delete f m k r :
  m !! k = Some r -> map_sum f m = f k r + map_sum f (delete k m).
Proof.
  intros Hk. rewrite <-(insert_delete_id m k r Hk) at 1.
  rewrite map_sum_insert by apply lookup_delete_eq. done.
Qed.

Lemma map_sum_update f m k r r' :
  m !! k = Some r -> map_sum f (<[k := r']> m) = map_sum f m - f k r + f k r'.
Proof.
  intros Hk. rewrite <-insert_delete_eq, map_sum_insert by apply lookup_delete_eq.
  rewrite (map_sum_delete f m k r Hk). lia.
Qed.

Lemma map_sum_ext f g m :
  (forall k r, m !! k = Some r -> f k r = g k r) -> map_sum f m = map_sum g m.
Proof.
  induction m as [|k r m Hk IH] using map_ind; intros H.
  { by rewrite !map_sum_empty. }
  rewrite !map_sum_insert by done. rewrite (H k r) by apply lookup_insert_eq.
  rewrite IH; [done|]. intros k' r' Hk'. apply H.
  rewrite lookup_insert_ne; [done|]. intros ->. congruence.
Qed.

Lemma map_sum_nonneg f m :
  (forall k r, m !! k = Some r -> 0 <= f k r) -> 0 <= map_sum f m.
Proof.
  induction m as [|k r m Hk IH] using map_ind; intros H.
  { by rewrite map_sum_empty. }
  rewrite map_sum_insert by done.
  pose proof (H k r (lookup_insert_eq _ _ _)). enough (0 <= map_sum f m) by lia.
  apply IH. intros k' r' Hk'. apply H.
  rewrite lookup_insert_ne; [done|]. intros ->. congruence.
Qed.

Lemma map_sum_ge f m k r :
  (forall k r, m !! k = Some r -> 0 <= f k r) -> m !! k = Some r -> f k r <= map_sum f m.
Proof.
  intros H Hk. rewrite (map_sum_delete f m k r Hk).
  enough (0 <= map_sum f (delete k m)) by lia. apply map_sum_nonneg.
  intros k' r' [_ Hk']%lookup_delete_Some. eauto.
Qed.

Lemma map_sum_zero f m :
  (forall k r, m !! k = Some r -> f k r = 0) -> map_sum f m = 0.
Proof.
  intros H. rewrite (map_sum_ext f (fun _ _ => 0)) by done.
  clear H. induction m as [|k r m Hk IH] using map_ind; [apply map_sum_empty|].
  by rewrite map_sum_insert.
Qed.

Lemma map_sum_add f g m :
  map_sum (fun k r => f k r + g k r) m = map_sum f m + map_sum g m.
Proof.
  induction m as [|k r m Hk IH] using map_ind; [by rewrite !map_sum_empty|].
  rewrite !map_sum_insert by done. lia.
Qed.

Lemma map_sum_scale d f m : map_sum (fun k r => d * f k r) m = d * map_sum f m.
Proof.
  induction m as [|k r m Hk IH] using map_ind; [rewrite !map_sum_empty; lia|].
  rewrite !map_sum_insert by done. lia.
Qed.

Lemma map_sum_le f g m :
  (forall k r, m !! k = Some r -> f k r <= g k r) -> map_sum f m <= map_sum g m.
Proof.
  intros H. assert (0 <= map_sum (fun k r => g k r + -1 * f k r) m) as Hd.
  { apply map_sum_nonneg. intros k r Hk. specialize (H k r Hk). lia. }
  rewrite map_sum_add, map_sum_scale in Hd. lia.
Qed.

(** The sum over a list of rows that holds the rows that count. *)
Lemma map_sum_list f m : map_sum f m = foldr (fun kr acc => f kr.1 kr.2 + acc) 0 (map_to_list m).
Proof.
  unfold map_sum. rewrite map_fold_foldr. induction (map_to_list m) as [|[k r] l IH]; [done|].
  cbn. by rewrite IH.
Qed.
End Sums.

(** ** Lemmas on the operations *)

Section OperationLemmas.
Context {R : Type} `{!Constraints R}.
Implicit Types (t : table R) (m : gmap Z R).

Lemma no_other_spec m c :
  no_other m c = true <-> map_Forall (fun _ r => c r = false) m.
Proof. apply bool_decide_eq_true. Qed.

(** A fresh row. *)
Lemma sql_insert_some r t id t' :
  sql_insert r t = (Some id, t') ->
  rows t !! id = None /\ constraints (rows t) r = true /\ is_i64 id = true
  /\ id = next_id t /\ rows t' = <[id := r]> (rows t).
Proof.
  unfold sql_insert. intros H. repeat case_match; simplify_eq/=.
  apply andb_true_iff in H1 as [Hn Hc]. apply bool_decide_eq_true in Hn.
  apply negb_false_iff in H0. done.
Qed.

Lemma sql_insert_none r t t' : sql_insert r t = (None, t') -> rows t' = rows t.
Proof. unfold sql_insert. intros H. by repeat case_match; simplify_eq/=. Qed.

Lemma sql_insert_key_some id r t t' :
  sql_insert_key id r t = Some t' ->
  rows t !! id = None /\ constraints (rows t) r = true /\ rows t' = <[id := r]> (rows t).
Proof.
  unfold sql_insert_key. intros H. case_match; simplify_eq/=.
  apply andb_true_iff in H0 as [Hn Hc]. apply bool_decide_eq_true in Hn. done.
Qed.

Lemma sql_update_some id f t t' :
  sql_update id f t = Some t' ->
  (rows t !! id = None /\ t' = t)
  \/ exists r r', rows t !! id = Some r /\ f r = Some r'
       /\ constraints (delete id (rows t)) r' = true
       /\ rows t' = <[id := r']> (rows t).
Proof.
  unfold sql_update. intros H. destruct (rows t !! id) as [r|] eqn:E; [|left; by simplify_eq].
  right. exists r. repeat case_match; simplify_eq/=. eauto 10.
Qed.

Lemma elem_of_rows_where (p : R -> bool) t k r :
  (k, r) ∈ rows_where p t <-> rows t !! k = Some r /\ p r = true.
Proof.
  unfold rows_where. rewrite <-elem_of_map_to_list, list_elem_of_In, filter_In, list_elem_of_In.
  done.
Qed.

Lemma count_where_zero (p : R -> bool) t :
  count_where p t = 0 <-> forall k r, rows t !! k = Some r -> p r = false.
Proof.
  unfold count_where. split.
  - intros H k r Hk. destruct (p r) eqn:E; [|done].
    assert ((k, r) ∈ rows_where p t) as Hin by by apply elem_of_rows_where.
    destruct (rows_where p t); [by apply not_elem_of_nil in Hin|cbn in H; lia].
  - intros H. destruct (rows_where p t) as [|[k r] l] eqn:E; [done|].
    assert ((k, r) ∈ rows_where p t) as [Hk Hp]%elem_of_rows_where by (rewrite E; left).
    by rewrite (H k r Hk) in Hp.
Qed.

Lemma exists_where_true (p : R -> bool) t :
  exists_where p t = true <-> exists k r, rows t !! k = Some r /\ p r = true.
Proof.
  unfold exists_where. split.
  - intros H. destruct (rows_where p t) as [|[k r] l] eqn:E; [done|].
    exists k, r. apply elem_of_rows_where. rewrite E. left.
  - intros (k & r & H). apply elem_of_rows_where in H.
    destruct (rows_where p t); [by apply not_elem_of_nil in H|done].
Qed.

Lemma exists_where_false (p : R -> bool) t :
  exists_where p t = false <-> forall k r, rows t !! k = Some r -> p r = false.
Proof.
  rewrite <-count_where_zero. unfold exists_where, count_where.
  destruct (rows_where p t); cbn; split; (done || lia).
Qed.

Lemma row_where_some (p : R -> bool) t k r :
  row_where p t = Some (k, r) -> rows t !! k = Some r /\ p r = true.
Proof.
  unfold row_where. intros H. apply elem_of_rows_where.
  destruct (rows_where p t); [done|]. injection H as ->. left.
Qed.

Lemma row_where_none (p : R -> bool) t :
  row_where p t = None <-> forall k r, rows t !! k = Some r -> p r = false.
Proof.
  rewrite <-exists_where_false. unfold row_where, exists_where.
  destruct (rows_where p t); done.
Qed.
End OperationLemmas.

Lemma order_by_perm {A} (key : A -> Z) l : order_by key l ≡ₚ l.
Proof. apply merge_sort_Permutation. Qed.

Lemma order_by_sorted {A} (key : A -> Z) l : StronglySorted Z.le (map key (order_by key l)).
Proof.
  assert (Transitive (by_key key)) by (intros x y z; unfold by_key; lia).
  assert (Total (by_key key)) by (intros x y; unfold by_key; lia).
  pose proof (StronglySorted_merge_sort (by_key key) l) as Hs. fold (order_by key l) in Hs.
  induction Hs as [|x xs _ IH Hx]; [constructor|]. cbn. constructor; [done|].
  by apply Forall_fmap.
Qed.
(** Rows numbered from 1 come in that order. *)
Lemma order_by_numbers {A} (key : A -> Z) l n :
  map key l ≡ₚ seqZ 1 n -> map key (order_by key l) = seqZ 1 n.
Proof.
  intros H. apply sorted_unique; [apply order_by_sorted|apply seqZ_sorted|].
  rewrite <-H. apply (fmap_Permutation key), order_by_perm.
Qed.

(** Rows that a number tells apart. *)
Lemma rows_where_numbers {R} (p : R -> bool) (number : R -> Z) (t : table R) :
  (forall i j r r', rows t !! i = Some r -> rows t !! j = Some r' -> p r = true -> p r' = true ->
     number r = number r' -> i = j) ->
  NoDup (map (fun ir => number ir.2) (rows_where p t)).
Proof.
  intros H. apply (NoDup_fmap_2_strong (fun ir : Z * R => number ir.2)).
  - intros [i r] [j r'] [Hi Hp]%elem_of_rows_where [Hj Hp']%elem_of_rows_where E. cbn in E.
    assert (i = j) as -> by (by eapply H). congruence.
  - apply NoDup_ListNoDup, List.NoDup_filter, NoDup_ListNoDup, NoDup_map_to_list.
Qed.
(** A condition that one row meets. *)
Lemma rows_where_one {R} (p : R -> bool) (t : table R) k r :
  (forall i j r r', rows t !! i = Some r -> rows t !! j = Some r' -> p r = true -> p r' = true ->
     i = j) ->
  rows t !! k = Some r -> p r = true -> rows_where p t = [(k, r)].
Proof.
  intros H Hk Hp. assert (NoDup (map (fun _ : Z * R => 0) (rows_where p t))) as Hd
    by (apply (rows_where_numbers p (fun _ => 0)); eauto).
  assert ((k, r) ∈ rows_where p t) as Hin by by apply elem_of_rows_where.
  destruct (rows_where p t) as [|a [|b l]]; [by apply not_elem_of_nil in Hin| |].
  - apply list_elem_of_singleton in Hin. by subst.
  - cbn in Hd. apply NoDup_cons in Hd as [Hd _]. exfalso. apply Hd. left.
Qed.

Lemma fold_max_spec (l : list Z) a :
  a <= fold_left Z.max l a
  /\ (forall x, x ∈ l -> x <= fold_left Z.max l a)
  /\ (fold_left Z.max l a = a \/ fold_left Z.max l a ∈ l).
Proof.
  revert a. induction l as [|y l IH]; intros a; cbn.
  - split_and!; [lia| |by left]. by intros x ?%not_elem_of_nil.
  - destruct (IH (Z.max a y)) as (H1 & H2 & H3). split_and!; [lia| |].
    + intros x [->|Hx]%elem_of_cons; [lia|by apply H2].
    + destruct H3 as [H3|H3]; [|right; by right]. rewrite H3.
      destruct (Z.max_spec a y) as [[_ ->]|[_ ->]]; [right; left|by left].
Qed.

(** The largest key of a table whose keys are positive. *)
Lemma max_key_ge {R} (t : table R) k m :
  max_key t = Some m -> is_Some (rows t !! k) -> k <= m.
Proof.
  unfold max_key. intros Hm [r Hk]. apply elem_of_map_to_list in Hk.
  assert (k ∈ map fst (map_to_list (rows t))) as Hin by (apply list_elem_of_fmap; by exists (k, r)).
  destruct (map fst _) as [|a l]; [done|]. injection Hm as <-.
  destruct (fold_max_spec l a) as (H1 & H2 & _).
  apply elem_of_cons in Hin as [->|Hin]; [done|by apply H2].
Qed.

Lemma max_key_in {R} (t : table R) m : max_key t = Some m -> is_Some (rows t !! m).
Proof.
  unfold max_key. intros Hm.
  assert (m ∈ map fst (map_to_list (rows t))) as Hin.
  { destruct (map fst _) as [|a l]; [done|]. injection Hm as <-.
    destruct (fold_max_spec l a) as (_ & _ & [->|H]); [left|by right]. }
  apply list_elem_of_fmap in Hin as ([k r] & -> & H). apply elem_of_map_to_list in H. by exists r.
Qed.

Lemma max_key_none {R} (t : table R) : max_key t = None -> rows t = ∅.
Proof.
  unfold max_key. intros Hm. apply map_to_list_empty_iff. by destruct (map_to_list (rows t)).
Qed.

(** The keys are 1 to [n]. *)
Definition keys_upto {R} (n : Z) (m : gmap Z R) : Prop :=
  0 <= n /\ forall k, is_Some (m !! k) <-> 1 <= k <= n.

Lemma keys_upto_max {R} n (t : table R) : keys_upto n (rows t) -> default 0 (max_key t) = n.
Proof.
  intros [Hn Hk]. destruct (max_key t) as [m|] eqn:E; cbn.
  - pose proof (proj1 (Hk m) (max_key_in _ _ E)).
    assert (n <= m); [|lia]. eapply max_key_ge; [done|]. apply Hk. lia.
  - apply max_key_none in E. destruct (Z.eq_dec n 0) as [|Hne]; [done|].
    destruct (proj2 (Hk 1)) as [r Hr]; [lia|]. by rewrite E, lookup_empty in Hr.
Qed.

Lemma keys_upto_insert {R} n (m : gmap Z R) r :
  keys_upto n m -> keys_upto (n + 1) (<[n + 1 := r]> m).
Proof.
  intros [Hn Hk]. split; [lia|]. intros k. destruct (decide (k = n + 1)) as [->|Hne].
  - rewrite lookup_insert_eq. split; [lia|by eexists].
  - rewrite lookup_insert_ne by done. rewrite Hk. lia.
Qed.

(** ** Tables that grow *)

(** Each row stays, and changes only as [R] allows. *)
Definition evolves {A} (R : relation A) (before after : gmap Z A) : Prop :=
  forall k a, before !! k = Some a -> exists b, after !! k = Some b /\ R a b.

Section Evolves.
Context {A : Type} (R : relation A).
Implicit Types (before after : gmap Z A).

Lemma evolves_same `{!Reflexive R} before : evolves R before before.
Proof. intros k a H. by exists a. Qed.
Lemma evolves_new `{!Reflexive R} before k a :
  before !! k = None -> evolves R before (<[k := a]> before).
Proof.
  intros Hk j b Hj. exists b. split; [|done]. rewrite lookup_insert_ne; [done|]. by intros ->; rewrite Hk in Hj.
Qed.
Lemma evolves_update `{!Reflexive R} before k a b :
  before !! k = Some a -> R a b -> evolves R before (<[k := b]> before).
Proof.
  intros Hk HR j a' Hj. destruct (decide (k = j)) as [->|Hne].
  - exists b. rewrite lookup_insert_eq. rewrite Hk in Hj. by injection Hj as <-.
  - exists a'. by rewrite lookup_insert_ne.
Qed.
Lemma evolves_map before (g : A -> A) : (forall a, R a (g a)) -> evolves R before (g <$> before).
Proof. intros HR k a H. exists (g a). by rewrite lookup_fmap, H. Qed.
Lemma evolves_trans `{!Transitive R} before during after :
  evolves R before during -> evolves R during after -> evolves R before after.
Proof.
  intros H1 H2 k a (b & Hb & Hab)%H1. apply H2 in Hb as (d & Hd & Hbd). exists d.
  split; [done|]. by trans b.
Qed.
End Evolves.

(** Looks a key up in an updated map. *)
Ltac lookups :=
  repeat match goal with
  | H : <[_ := _]> _ !! _ = Some _ |- _ => apply lookup_insert_Some in H as [[? ?]|[? H]]
  | H : (_ <$> _) !! _ = Some _ |- _ =>
      let a := fresh "row" in let E := fresh "E" in
      rewrite lookup_fmap in H; apply fmap_Some in H as (a & H & E)
  end; simplify_eq/=.

(** ** Counting rows *)

(** The rows of a map that meet a condition, counted. *)
Definition count_rows {R} (p : R -> bool) (rows : gmap Z R) : Z :=
  map_sum (fun _ (row : R) => if p row then 1 else 0) rows.

Section Counting.
Context {R : Type}.
Implicit Types (p q : R -> bool) (rows : gmap Z R).

Lemma count_rows_new p rows k row :
  rows !! k = None ->
  count_rows p (<[k := row]> rows) = (if p row then 1 else 0) + count_rows p rows.
Proof. apply map_sum_insert. Qed.
Lemma count_rows_update p rows k row row' :
  rows !! k = Some row -> p row' = p row -> count_rows p (<[k := row']> rows) = count_rows p rows.
Proof. intros H E. unfold count_rows. rewrite (map_sum_update _ _ _ _ _ H), E. lia. Qed.
Lemma count_rows_ext p q rows :
  (forall k row, rows !! k = Some row -> p row = q row) -> count_rows p rows = count_rows q rows.
Proof. intros H. apply map_sum_ext. intros k row Hk. by rewrite (H k row Hk). Qed.
Lemma count_rows_zero p rows :
  (forall k row, rows !! k = Some row -> p row = false) -> count_rows p rows = 0.
Proof. intros H. apply map_sum_zero. intros k row Hk. by rewrite (H k row Hk). Qed.
Lemma count_rows_nonneg p rows : 0 <= count_rows p rows.
Proof. apply map_sum_nonneg. intros k row _. by destruct (p row). Qed.
Lemma count_where_rows p (t : table R) : count_where p t = count_rows p (SqlTable.rows t).
Proof.
  unfold count_where, count_rows, rows_where. rewrite map_sum_list.
  induction (map_to_list (SqlTable.rows t)) as [|[k row] l IH]; [done|]. cbn in *.
  destruct (p row); cbn [length]; lia.
Qed.

(** As many rows as numbers, each number at most once: every number is taken. *)
Lemma every_number_taken p (number : R -> Z) rows n :
  (forall i row, rows !! i = Some row -> p row = true -> 1 <= number row <= n) ->
  (forall i j row row', rows !! i = Some row -> rows !! j = Some row' ->
     p row = true -> p row' = true -> number row = number row' -> i = j) ->
  count_rows p rows = n ->
  forall v, 1 <= v <= n -> exists i row, rows !! i = Some row /\ p row = true /\ number row = v.
Proof.
  intros Hr Hu Hn v Hv. set (l := rows_where p (Table rows 1)).
  assert (forall i row, (i, row) ∈ l <-> rows !! i = Some row /\ p row = true) as Hl
    by (intros i row; apply (elem_of_rows_where p (Table rows 1))).
  assert ((fun ir => number ir.2) <$> l ≡ₚ seqZ 1 n) as Hperm.
  { apply numbers_complete.
    - by apply (rows_where_numbers p number (Table rows 1)).
    - apply Forall_fmap, Forall_forall. intros [i row] [Hi Hp]%Hl. by eapply Hr.
    - rewrite length_fmap, <-Hn. apply (count_where_rows p (Table rows 1)). }
  assert (v ∈ (fun ir => number ir.2) <$> l) as Hin by (rewrite Hperm, elem_of_seqZ; lia).
  apply list_elem_of_fmap in Hin as ([i row] & -> & [Hi Hp]%Hl). by exists i, row.
Qed.
End Counting.
