(* ===== verification/StoreTables.v ===== *)
(** * The tables of the ledger store

    [schema/postgres/kernel.sql]: one module per table that the modelled transitions read
    or write, with its columns and the constraints that PostgreSQL checks on every row
    written ([CHECK], [UNIQUE] and the partial unique indexes).  A column of type [BIGINT]
    holds the integer that is stored; the tables of [KernelCodes] read it back.  The
    primary key is the key of the row in its [table]; a table whose key has two columns
    has a hidden row number and the pair is [UNIQUE].  Foreign keys are not checked: every
    transition reads or creates the rows that it refers to.  The bodies of commands and
    events, one table per kind in the schema, are held as values. *)

From S2P Require Import Prelude.
From S2P Require Import Machine.
From S2P Require Import KernelScalars.
From S2P Require Import KernelEnums.
From S2P Require Import KernelCommands.
From S2P Require Import SqlTable.

(** ** Founding *)

Module Principals.
Record t := new {
  principal_kind : Z;
  display_name : string;
  active : bool;
}.
#[global] Instance fields : Fields t := fun r =>
  new (principal_kind r) (display_name r) (active r).
#[global] Instance valid : Constraints t := fun m r =>
  one_of [1; 2; 3; 4] (principal_kind r)
  && no_other m (fun o => (display_name r =? display_name o)%string).
End Principals.

Module Societies.
Record t := new {
  name : string;
  lifecycle_state : Z;
}.
#[global] Instance fields : Fields t := fun r => new (name r) (lifecycle_state r).
#[global] Instance valid : Constraints t := fun m r =>
  one_of [1; 2] (lifecycle_state r)
  && no_other m (fun o => (name r =? name o)%string).
End Societies.

Module OfficeContracts.
Record t := new {
  office_kind : Z;
  installed_by_command_id : Z;
}.
#[global] Instance fields : Fields t := fun r =>
  new (office_kind r) (installed_by_command_id r).
#[global] Instance valid : Constraints t := fun m r =>
  (office_kind r =? 1)
  && no_other m (fun o => (office_kind r =? office_kind o)).
End OfficeContracts.

Module Applications.
Record t := new {
  application_identity : string;
  application_name : string;
  created_by_command_id : Z;
}.
#[global] Instance fields : Fields t := fun r =>
  new (application_identity r) (application_name r) (created_by_command_id r).
#[global] Instance valid : Constraints t := fun m r =>
  no_other m (fun o => (application_identity r =? application_identity o)%string)
  && no_other m (fun o => (application_name r =? application_name o)%string).
End Applications.

Module ApplicationRevisions.
Record t := new {
  application_id : Z;
  revision_ordinal : Z;
  mission_statement : string;
  source_rendering_digest : list byte;
  source_content_object_id : Z;
  installed_by_command_id : Z;
}.
#[global] Instance fields : Fields t := fun r =>
  new (application_id r) (revision_ordinal r) (mission_statement r)
    (source_rendering_digest r) (source_content_object_id r) (installed_by_command_id r).
#[global] Instance valid : Constraints t := fun m r =>
  (0 <? revision_ordinal r)
  && (length (source_rendering_digest r) =? 32)%nat
  && no_other m (fun o => (application_id r =? application_id o)
     && (revision_ordinal r =? revision_ordinal o)).
End ApplicationRevisions.

Module ApplicationRevisionPrinciples.
Record t := new {
  application_revision_id : Z;
  principle_ordinal : Z;
  principle_kind : Z;
  principle_text : string;
}.
#[global] Instance fields : Fields t := fun r =>
  new (application_revision_id r) (principle_ordinal r) (principle_kind r) (principle_text r).
#[global] Instance valid : Constraints t := fun m r =>
  ((0 <? principle_ordinal r) && (principle_ordinal r <=? 16))
  && in_range 1 4 (principle_kind r)
  && no_other m (fun o => (application_revision_id r =? application_revision_id o)
     && (principle_ordinal r =? principle_ordinal o)).
End ApplicationRevisionPrinciples.

Module ApplicationRevisionNorthStarQuestions.
Record t := new {
  change_question : string;
  improvement_evidence_question : string;
  boundary_commitment_question : string;
  revisit_question : string;
}.
#[global] Instance fields : Fields t := fun r =>
  new (change_question r) (improvement_evidence_question r) (boundary_commitment_question r)
    (revisit_question r).
#[global] Instance valid : Constraints t := fun _ _ => true.
End ApplicationRevisionNorthStarQuestions.

Module FoundingMissions.
Record t := new {
  society_id : Z;
  application_revision_id : Z;
  revision : Z;
  active : bool;
  installed_by_command_id : Z;
}.
#[global] Instance fields : Fields t := fun r =>
  new (society_id r) (application_revision_id r) (revision r) (active r)
    (installed_by_command_id r).
#[global] Instance valid : Constraints t := fun m r =>
  (0 <? revision r)
  && no_other m (fun o => (society_id r =? society_id o) && (revision r =? revision o))
  && (negb (active r) || no_other m (fun o => active o && (society_id r =? society_id o))).
End FoundingMissions.

Module OfficeOccupancies.
Record t := new {
  office_id : Z;
  principal_id : Z;
  active : bool;
  appointed_by_command_id : Z;
}.
#[global] Instance fields : Fields t := fun r =>
  new (office_id r) (principal_id r) (active r) (appointed_by_command_id r).
#[global] Instance valid : Constraints t := fun m r =>
  (negb (active r) || no_other m (fun o => active o && (office_id r =? office_id o))).
End OfficeOccupancies.

Module SocietyBootstraps.
Record t := new {
  founding_mission_id : Z;
  office_id : Z;
  office_occupancy_id : Z;
  hard_ceiling_micros : Z;
  bootstrapped_by_command_id : Z;
}.
#[global] Instance fields : Fields t := fun r =>
  new (founding_mission_id r) (office_id r) (office_occupancy_id r) (hard_ceiling_micros r)
    (bootstrapped_by_command_id r).
#[global] Instance valid : Constraints t := fun _ r => (0 <? hard_ceiling_micros r).
End SocietyBootstraps.

Module CapabilityGrants.
Record t := new {
  principal_id : Z;
  capability_kind : Z;
  office_occupancy_id : option Z;
  actor_instance_id : option Z;
  grant_state : Z;
  grant_origin : Z;
  granted_by_command_id : option Z;
  consumed_by_command_id : option Z;
}.
#[global] Instance fields : Fields t := fun r =>
  new (principal_id r) (capability_kind r) (office_occupancy_id r) (actor_instance_id r)
    (grant_state r) (grant_origin r) (granted_by_command_id r) (consumed_by_command_id r).
#[global] Instance valid : Constraints t := fun m r =>
  in_range 1 118 (capability_kind r)
  && one_of [1; 2] (grant_state r)
  && one_of [1; 2; 3] (grant_origin r)
  && negb (not_null (office_occupancy_id r) && not_null (actor_instance_id r))
  && (((grant_state r =? 1) && is_null (consumed_by_command_id r)) || ((grant_state r =? 2)
     && not_null (consumed_by_command_id r)))
  && (((grant_origin r =? 1) && (principal_id r =? 1) && is_null (office_occupancy_id r)
     && is_null (actor_instance_id r) && is_null (granted_by_command_id r))
     || ((grant_origin r =? 2) && not_null (granted_by_command_id r)) || ((grant_origin r =? 3)
     && (principal_id r =? 2) && is_null (office_occupancy_id r)
     && is_null (actor_instance_id r) && is_null (granted_by_command_id r)))
  && (negb (grant_state r =? 1) || no_other m (fun o => (grant_state o =? 1)
     && (principal_id r =? principal_id o) && (capability_kind r =? capability_kind o)
     && (default (-1) (office_occupancy_id r) =? default (-1) (office_occupancy_id o))
     && (default (-1) (actor_instance_id r) =? default (-1) (actor_instance_id o)))).
End CapabilityGrants.

(** ** Operating cycles, office sessions and turns *)

Module OperatingCycles.
Record t := new {
  society_id : Z;
  founding_mission_id : Z;
  office_occupancy_id : Z;
  treatment : Z;
  budget_ceiling_micros : Z;
  lifecycle_state : Z;
  admission_generation : Z;
  proposed_by_command_id : Z;
  last_transition_command_id : Z;
}.
#[global] Instance fields : Fields t := fun r =>
  new (society_id r) (founding_mission_id r) (office_occupancy_id r) (treatment r)
    (budget_ceiling_micros r) (lifecycle_state r) (admission_generation r)
    (proposed_by_command_id r) (last_transition_command_id r).
#[global] Instance valid : Constraints t := fun _ r =>
  one_of [1; 2; 3; 4] (treatment r)
  && (0 <? budget_ceiling_micros r)
  && in_range 1 11 (lifecycle_state r)
  && (0 <=? admission_generation r).
End OperatingCycles.

Module OperatingCycleAdmissions.
Record t := new {
  admitted_by_command_id : Z;
  started_by_command_id : option Z;
}.
#[global] Instance fields : Fields t := fun r =>
  new (admitted_by_command_id r) (started_by_command_id r).
#[global] Instance valid : Constraints t := fun _ _ => true.
End OperatingCycleAdmissions.

Module OperatingCycleReconciliations.
Record t := new {
  reconciliation_started_by_command_id : Z;
  closed_by_command_id : option Z;
}.
#[global] Instance fields : Fields t := fun r =>
  new (reconciliation_started_by_command_id r) (closed_by_command_id r).
#[global] Instance valid : Constraints t := fun _ _ => true.
End OperatingCycleReconciliations.

Module RootAuthorityOfficeSessions.
Record t := new {
  operating_cycle_id : Z;
  office_occupancy_id : Z;
  lifecycle_state : Z;
  started_by_command_id : Z;
  last_transition_command_id : Z;
}.
#[global] Instance fields : Fields t := fun r =>
  new (operating_cycle_id r) (office_occupancy_id r) (lifecycle_state r)
    (started_by_command_id r) (last_transition_command_id r).
#[global] Instance valid : Constraints t := fun m r =>
  in_range 1 11 (lifecycle_state r)
  && (negb (negb (one_of [8; 10; 11] (lifecycle_state r))) || no_other m
     (fun o => negb (one_of [8; 10; 11] (lifecycle_state o))
     && (operating_cycle_id r =? operating_cycle_id o))).
End RootAuthorityOfficeSessions.

Module OfficeTurns.
Record t := new {
  root_authority_office_session_id : Z;
  lifecycle_state : Z;
  purpose : Z;
  opened_by_command_id : Z;
  settled_by_command_id : option Z;
}.
#[global] Instance fields : Fields t := fun r =>
  new (root_authority_office_session_id r) (lifecycle_state r) (purpose r)
    (opened_by_command_id r) (settled_by_command_id r).
#[global] Instance valid : Constraints t := fun m r =>
  in_range 1 4 (lifecycle_state r)
  && in_range 1 4 (purpose r)
  && (negb ((lifecycle_state r =? 1)) || no_other m (fun o => (lifecycle_state o =? 1)
     && (root_authority_office_session_id r =? root_authority_office_session_id o))).
End OfficeTurns.

(** ** Budget and cancellation *)

Module BudgetEnvelopes.
Record t := new {
  ceiling_micros : Z;
  reserved_micros : Z;
  spent_micros : Z;
  created_by_command_id : Z;
}.
#[global] Instance fields : Fields t := fun r =>
  new (ceiling_micros r) (reserved_micros r) (spent_micros r) (created_by_command_id r).
#[global] Instance valid : Constraints t := fun _ r =>
  (0 <=? ceiling_micros r)
  && (0 <=? reserved_micros r)
  && (0 <=? spent_micros r)
  && (reserved_micros r <=? ceiling_micros r).
End BudgetEnvelopes.

Module BudgetEnvelopeConstraints.
Record t := new {
  budget_envelope_id : Z;
  society_id : option Z;
  operating_cycle_id : option Z;
}.
#[global] Instance fields : Fields t := fun r =>
  new (budget_envelope_id r) (society_id r) (operating_cycle_id r).
#[global] Instance valid : Constraints t := fun m r =>
  ((not_null (society_id r) && is_null (operating_cycle_id r)) || (is_null (society_id r)
     && not_null (operating_cycle_id r)))
  && no_other m (fun o => (budget_envelope_id r =? budget_envelope_id o))
  && no_other m (fun o => same_key (society_id r) (society_id o))
  && no_other m (fun o => same_key (operating_cycle_id r) (operating_cycle_id o)).
End BudgetEnvelopeConstraints.

Module BudgetReservations.
Record t := new {
  operating_cycle_id : Z;
  amount_micros : Z;
  charged_micros : Z;
  reservation_state : Z;
  reserved_by_command_id : Z;
  reconciled_by_command_id : option Z;
}.
#[global] Instance fields : Fields t := fun r =>
  new (operating_cycle_id r) (amount_micros r) (charged_micros r) (reservation_state r)
    (reserved_by_command_id r) (reconciled_by_command_id r).
#[global] Instance valid : Constraints t := fun _ r =>
  (0 <=? amount_micros r)
  && (0 <=? charged_micros r)
  && one_of [1; 2; 3] (reservation_state r).
End BudgetReservations.

Module BudgetReservationCharges.
Record t := new {
  budget_reservation_id : Z;
  budget_envelope_id : Z;
  amount_micros : Z;
}.
#[global] Instance fields : Fields t := fun r =>
  new (budget_reservation_id r) (budget_envelope_id r) (amount_micros r).
#[global] Instance valid : Constraints t := fun m r =>
  (0 <=? amount_micros r)
  && no_other m (fun o => (budget_reservation_id r =? budget_reservation_id o)
     && (budget_envelope_id r =? budget_envelope_id o)).
End BudgetReservationCharges.

Module OfficeSessionBudgetReservations.
Record t := new {
  budget_reservation_id : Z;
  bound_by_command_id : Z;
}.
#[global] Instance fields : Fields t := fun r =>
  new (budget_reservation_id r) (bound_by_command_id r).
#[global] Instance valid : Constraints t := fun m r =>
  no_other m (fun o => (budget_reservation_id r =? budget_reservation_id o)).
End OfficeSessionBudgetReservations.

Module AttemptBudgetReservations.
Record t := new {
  budget_reservation_id : Z;
  project_id : Z;
  ticket_id : Z;
}.
#[global] Instance fields : Fields t := fun r =>
  new (budget_reservation_id r) (project_id r) (ticket_id r).
#[global] Instance valid : Constraints t := fun m r =>
  no_other m (fun o => (budget_reservation_id r =? budget_reservation_id o)).
End AttemptBudgetReservations.

Module CancellationRequests.
Record t := new {
  operating_cycle_id : Z;
  cancellation_mode : Z;
  lifecycle_state : Z;
  observed_admission_generation : Z;
  requested_by_command_id : Z;
  reconciled_by_command_id : option Z;
}.
#[global] Instance fields : Fields t := fun r =>
  new (operating_cycle_id r) (cancellation_mode r) (lifecycle_state r)
    (observed_admission_generation r) (requested_by_command_id r) (reconciled_by_command_id r).
#[global] Instance valid : Constraints t := fun m r =>
  one_of [1; 2; 3] (cancellation_mode r)
  && in_range 1 9 (lifecycle_state r)
  && (0 <=? observed_admission_generation r)
  && (negb (negb (one_of [8; 9] (lifecycle_state r))) || no_other m
     (fun o => negb (one_of [8; 9] (lifecycle_state o))
     && (operating_cycle_id r =? operating_cycle_id o))).
End CancellationRequests.

Module CancellationPropagations.
Record t := new {
  cancellation_request_id : Z;
  operating_cycle_id : Z;
  observed_generation : Z;
  lifecycle_state : Z;
  begun_by_command_id : Z;
  reconciled_by_command_id : option Z;
}.
#[global] Instance fields : Fields t := fun r =>
  new (cancellation_request_id r) (operating_cycle_id r) (observed_generation r)
    (lifecycle_state r) (begun_by_command_id r) (reconciled_by_command_id r).
#[global] Instance valid : Constraints t := fun m r =>
  (0 <=? observed_generation r)
  && one_of [1; 2; 3] (lifecycle_state r)
  && no_other m (fun o => (cancellation_request_id r =? cancellation_request_id o)).
End CancellationPropagations.

Module CostPostmortems.
Record t := new {
  budget_reservation_id : Z;
  operating_cycle_id : Z;
  cancellation_request_id : Z;
  cause_kind : Z;
  observed_micros : option Z;
  reserved_micros : option Z;
  unknown_reason : option Z;
  unavailable_reason : option Z;
  lifecycle_state : Z;
  opened_by_command_id : Z;
  closed_by_command_id : option Z;
}.
#[global] Instance fields : Fields t := fun r =>
  new (budget_reservation_id r) (operating_cycle_id r) (cancellation_request_id r)
    (cause_kind r) (observed_micros r) (reserved_micros r) (unknown_reason r)
    (unavailable_reason r) (lifecycle_state r) (opened_by_command_id r)
    (closed_by_command_id r).
#[global] Instance valid : Constraints t := fun m r =>
  one_of [1; 2; 3] (cause_kind r)
  && passes (option_map (fun v => (0 <=? v)) (observed_micros r))
  && passes (option_map (fun v => (0 <=? v)) (reserved_micros r))
  && one_of [1; 2; 3] (lifecycle_state r)
  && (((cause_kind r =? 1) && not_null (observed_micros r) && not_null (reserved_micros r)
     && is_null (unknown_reason r) && is_null (unavailable_reason r)) || ((cause_kind r =? 2)
     && is_null (observed_micros r) && not_null (reserved_micros r)
     && not_null (unknown_reason r) && is_null (unavailable_reason r)) || ((cause_kind r =? 3)
     && is_null (observed_micros r) && not_null (reserved_micros r)
     && is_null (unknown_reason r) && not_null (unavailable_reason r)))
  && (((lifecycle_state r =? 1) && is_null (closed_by_command_id r))
     || ((lifecycle_state r =? 2) && not_null (closed_by_command_id r)))
  && no_other m (fun o => (budget_reservation_id r =? budget_reservation_id o)).
End CostPostmortems.

Module CostPostmortemResolutions.
Record t := new {
  resolution_kind : Z;
  charged_micros : Z;
  resolved_by_command_id : Z;
}.
#[global] Instance fields : Fields t := fun r =>
  new (resolution_kind r) (charged_micros r) (resolved_by_command_id r).
#[global] Instance valid : Constraints t := fun _ r =>
  one_of [1; 2] (resolution_kind r)
  && (0 <=? charged_micros r).
End CostPostmortemResolutions.

(** ** Coordination *)

Module Projects.
Record t := new {
  project_name : string;
  founding_mission_id : Z;
  lifecycle_state : Z;
  created_by_command_id : Z;
  last_transition_command_id : Z;
}.
#[global] Instance fields : Fields t := fun r =>
  new (project_name r) (founding_mission_id r) (lifecycle_state r) (created_by_command_id r)
    (last_transition_command_id r).
#[global] Instance valid : Constraints t := fun m r =>
  in_range 1 9 (lifecycle_state r)
  && no_other m (fun o => (project_name r =? project_name o)%string).
End Projects.

Module ProjectNorthStarAlignments.
Record t := new {
  application_revision_id : Z;
  change_answer : string;
  improvement_evidence_answer : string;
  boundary_commitment_answer : string;
  revisit_answer : string;
  aligned_by_command_id : Z;
}.
#[global] Instance fields : Fields t := fun r =>
  new (application_revision_id r) (change_answer r) (improvement_evidence_answer r)
    (boundary_commitment_answer r) (revisit_answer r) (aligned_by_command_id r).
#[global] Instance valid : Constraints t := fun _ _ => true.
End ProjectNorthStarAlignments.

Module ProjectObjectives.
Record t := new {
  project_id : Z;
  objective_text : string;
  chartered_by_command_id : Z;
}.
#[global] Instance fields : Fields t := fun r =>
  new (project_id r) (objective_text r) (chartered_by_command_id r).
#[global] Instance valid : Constraints t := fun m r =>
  no_other m (fun o => (project_id r =? project_id o)).
End ProjectObjectives.

Module ProjectMilestones.
Record t := new {
  project_id : Z;
  milestone_name : string;
  lifecycle_state : Z;
  chartered_by_command_id : Z;
  completed_by_command_id : option Z;
}.
#[global] Instance fields : Fields t := fun r =>
  new (project_id r) (milestone_name r) (lifecycle_state r) (chartered_by_command_id r)
    (completed_by_command_id r).
#[global] Instance valid : Constraints t := fun m r =>
  one_of [1; 2] (lifecycle_state r)
  && (((lifecycle_state r =? 1) && is_null (completed_by_command_id r))
     || ((lifecycle_state r =? 2) && not_null (completed_by_command_id r)))
  && no_other m (fun o => (project_id r =? project_id o)
     && (milestone_name r =? milestone_name o)%string).
End ProjectMilestones.

Module ProjectStopConditions.
Record t := new {
  project_id : Z;
  stop_condition_text : string;
  chartered_by_command_id : Z;
}.
#[global] Instance fields : Fields t := fun r =>
  new (project_id r) (stop_condition_text r) (chartered_by_command_id r).
#[global] Instance valid : Constraints t := fun m r =>
  no_other m (fun o => (project_id r =? project_id o)).
End ProjectStopConditions.

Module Tickets.
Record t := new {
  project_id : Z;
  ticket_title : string;
  lifecycle_state : Z;
  created_by_command_id : Z;
  last_transition_command_id : Z;
}.
#[global] Instance fields : Fields t := fun r =>
  new (project_id r) (ticket_title r) (lifecycle_state r) (created_by_command_id r)
    (last_transition_command_id r).
#[global] Instance valid : Constraints t := fun m r =>
  in_range 1 11 (lifecycle_state r)
  && no_other m (fun o => (project_id r =? project_id o)
     && (ticket_title r =? ticket_title o)%string).
End Tickets.

Module TicketAcceptanceConditions.
Record t := new {
  ticket_id : Z;
  condition_text : string;
  lifecycle_state : Z;
  created_by_command_id : Z;
  satisfied_by_command_id : option Z;
}.
#[global] Instance fields : Fields t := fun r =>
  new (ticket_id r) (condition_text r) (lifecycle_state r) (created_by_command_id r)
    (satisfied_by_command_id r).
#[global] Instance valid : Constraints t := fun m r =>
  one_of [1; 2] (lifecycle_state r)
  && (((lifecycle_state r =? 1) && is_null (satisfied_by_command_id r))
     || ((lifecycle_state r =? 2) && not_null (satisfied_by_command_id r)))
  && no_other m (fun o => (ticket_id r =? ticket_id o)).
End TicketAcceptanceConditions.

Module TicketPrerequisites.
Record t := new {
  ticket_id : Z;
  prerequisite_ticket_id : Z;
  created_by_command_id : Z;
}.
#[global] Instance fields : Fields t := fun r =>
  new (ticket_id r) (prerequisite_ticket_id r) (created_by_command_id r).
#[global] Instance valid : Constraints t := fun m r =>
  negb (ticket_id r =? prerequisite_ticket_id r)
  && no_other m (fun o => (ticket_id r =? ticket_id o)
     && (prerequisite_ticket_id r =? prerequisite_ticket_id o)).
End TicketPrerequisites.

Module Objects.
Record t := new {
  object_kind : Z;
  project_id : option Z;
  causal_episode_id : option Z;
  founding_mission_id : Z;
  created_by_command_id : Z;
}.
#[global] Instance fields : Fields t := fun r =>
  new (object_kind r) (project_id r) (causal_episode_id r) (founding_mission_id r)
    (created_by_command_id r).
#[global] Instance valid : Constraints t := fun _ r => in_range 1 2 (object_kind r).
End Objects.

Module ObjectRevisions.
Record t := new {
  graph_object_id : Z;
  revision_ordinal : Z;
  lifecycle_state : Z;
  created_by_command_id : Z;
  committed_by_command_id : option Z;
}.
#[global] Instance fields : Fields t := fun r =>
  new (graph_object_id r) (revision_ordinal r) (lifecycle_state r) (created_by_command_id r)
    (committed_by_command_id r).
#[global] Instance valid : Constraints t := fun m r =>
  (0 <? revision_ordinal r)
  && one_of [1; 2] (lifecycle_state r)
  && (((lifecycle_state r =? 1) && is_null (committed_by_command_id r))
     || ((lifecycle_state r =? 2) && not_null (committed_by_command_id r)))
  && no_other m (fun o => (graph_object_id r =? graph_object_id o)
     && (revision_ordinal r =? revision_ordinal o)).
End ObjectRevisions.

Module ObservationRevisions.
Record t := new {
  observation_text : string;
}.
#[global] Instance fields : Fields t := fun r => new (observation_text r).
#[global] Instance valid : Constraints t := fun _ _ => true.
End ObservationRevisions.

Module HypothesisRevisions.
Record t := new {
  hypothesis_text : string;
}.
#[global] Instance fields : Fields t := fun r => new (hypothesis_text r).
#[global] Instance valid : Constraints t := fun _ _ => true.
End HypothesisRevisions.

Module Edges.
Record t := new {
  project_id : Z;
  from_graph_revision_id : Z;
  to_graph_revision_id : Z;
  edge_kind : Z;
  created_by_command_id : Z;
}.
#[global] Instance fields : Fields t := fun r =>
  new (project_id r) (from_graph_revision_id r) (to_graph_revision_id r) (edge_kind r)
    (created_by_command_id r).
#[global] Instance valid : Constraints t := fun m r =>
  in_range 1 2 (edge_kind r)
  && negb (from_graph_revision_id r =? to_graph_revision_id r)
  && no_other m (fun o => (from_graph_revision_id r =? from_graph_revision_id o)
     && (to_graph_revision_id r =? to_graph_revision_id o) && (edge_kind r =? edge_kind o)).
End Edges.

Module Episodes.
Record t := new {
  project_id : Z;
  founding_mission_id : Z;
  lifecycle_state : Z;
  created_by_command_id : Z;
  last_transition_command_id : Z;
}.
#[global] Instance fields : Fields t := fun r =>
  new (project_id r) (founding_mission_id r) (lifecycle_state r) (created_by_command_id r)
    (last_transition_command_id r).
#[global] Instance valid : Constraints t := fun _ r => in_range 1 17 (lifecycle_state r).
End Episodes.

Module AdversarialReviews.
Record t := new {
  project_id : Z;
  target_graph_revision_id : Z;
  lifecycle_state : Z;
  requested_by_command_id : Z;
  assigned_reviewer_principal_id : option Z;
  resolved_by_command_id : option Z;
  assigned_reviewer_actor_instance_id : option Z;
  reviewer_actor_attempt_id : option Z;
}.
#[global] Instance fields : Fields t := fun r =>
  new (project_id r) (target_graph_revision_id r) (lifecycle_state r)
    (requested_by_command_id r) (assigned_reviewer_principal_id r) (resolved_by_command_id r)
    (assigned_reviewer_actor_instance_id r) (reviewer_actor_attempt_id r).
#[global] Instance valid : Constraints t := fun _ r => in_range 1 9 (lifecycle_state r).
End AdversarialReviews.

Module ReviewChallenges.
Record t := new {
  adversarial_review_id : Z;
  target_graph_revision_id : Z;
  author_principal_id : Z;
  severity : Z;
  failure_hypothesis : string;
  response_state : Z;
  submitted_by_command_id : Z;
}.
#[global] Instance fields : Fields t := fun r =>
  new (adversarial_review_id r) (target_graph_revision_id r) (author_principal_id r)
    (severity r) (failure_hypothesis r) (response_state r) (submitted_by_command_id r).
#[global] Instance valid : Constraints t := fun _ r =>
  in_range 1 4 (severity r)
  && one_of [1; 2] (response_state r).
End ReviewChallenges.

Module ReviewChallengeResponses.
Record t := new {
  review_challenge_id : Z;
  response_text : string;
  responded_by_command_id : Z;
}.
#[global] Instance fields : Fields t := fun r =>
  new (review_challenge_id r) (response_text r) (responded_by_command_id r).
#[global] Instance valid : Constraints t := fun m r =>
  no_other m (fun o => (review_challenge_id r =? review_challenge_id o)).
End ReviewChallengeResponses.

Module ReviewDispositions.
Record t := new {
  review_challenge_id : Z;
  disposition_kind : Z;
  disposed_by_principal_id : Z;
  disposed_by_command_id : Z;
}.
#[global] Instance fields : Fields t := fun r =>
  new (review_challenge_id r) (disposition_kind r) (disposed_by_principal_id r)
    (disposed_by_command_id r).
#[global] Instance valid : Constraints t := fun m r =>
  one_of [1; 2; 3] (disposition_kind r)
  && no_other m (fun o => (review_challenge_id r =? review_challenge_id o)).
End ReviewDispositions.

Module Postmortems.
Record t := new {
  project_id : Z;
  causal_episode_id : option Z;
  founding_mission_id : Z;
  lifecycle_state : Z;
  triggered_by_command_id : Z;
  closed_by_command_id : option Z;
}.
#[global] Instance fields : Fields t := fun r =>
  new (project_id r) (causal_episode_id r) (founding_mission_id r) (lifecycle_state r)
    (triggered_by_command_id r) (closed_by_command_id r).
#[global] Instance valid : Constraints t := fun _ r =>
  one_of [1; 2; 3; 4; 5] (lifecycle_state r)
  && ((one_of [1; 2] (lifecycle_state r) && is_null (closed_by_command_id r))
     || ((lifecycle_state r =? 3) && not_null (closed_by_command_id r))).
End Postmortems.

Module PostmortemCausalClaims.
Record t := new {
  postmortem_id : Z;
  claim_kind : Z;
  claim_text : string;
  recorded_by_command_id : Z;
}.
#[global] Instance fields : Fields t := fun r =>
  new (postmortem_id r) (claim_kind r) (claim_text r) (recorded_by_command_id r).
#[global] Instance valid : Constraints t := fun _ r => in_range 1 3 (claim_kind r).
End PostmortemCausalClaims.

Module PostmortemActionProposals.
Record t := new {
  postmortem_id : Z;
  action_kind : Z;
  action_text : string;
  proposed_by_command_id : Z;
}.
#[global] Instance fields : Fields t := fun r =>
  new (postmortem_id r) (action_kind r) (action_text r) (proposed_by_command_id r).
#[global] Instance valid : Constraints t := fun _ r => in_range 1 2 (action_kind r).
End PostmortemActionProposals.

Module CoordinationCommandProvenance.
Record t := new {
  founding_mission_id : Z;
  operating_cycle_id : Z;
  project_id : option Z;
}.
#[global] Instance fields : Fields t := fun r =>
  new (founding_mission_id r) (operating_cycle_id r) (project_id r).
#[global] Instance valid : Constraints t := fun _ _ => true.
End CoordinationCommandProvenance.

(** ** Actors and work *)

Module ActorConfigurations.
Record t := new {
  configuration_name : string;
  lifecycle_state : Z;
  created_by_command_id : Z;
}.
#[global] Instance fields : Fields t := fun r =>
  new (configuration_name r) (lifecycle_state r) (created_by_command_id r).
#[global] Instance valid : Constraints t := fun m r =>
  one_of [1; 2] (lifecycle_state r)
  && no_other m (fun o => (configuration_name r =? configuration_name o)%string).
End ActorConfigurations.

Module ActorConfigurationRevisions.
Record t := new {
  actor_configuration_id : Z;
  revision_ordinal : Z;
  model_policy : Z;
  primary_attractor : Z;
  created_by_command_id : Z;
}.
#[global] Instance fields : Fields t := fun r =>
  new (actor_configuration_id r) (revision_ordinal r) (model_policy r) (primary_attractor r)
    (created_by_command_id r).
#[global] Instance valid : Constraints t := fun m r =>
  (0 <? revision_ordinal r)
  && one_of [1; 2] (model_policy r)
  && in_range 1 8 (primary_attractor r)
  && no_other m (fun o => (actor_configuration_id r =? actor_configuration_id o)
     && (revision_ordinal r =? revision_ordinal o)).
End ActorConfigurationRevisions.

Module ActorInstances.
Record t := new {
  principal_id : Z;
  actor_configuration_revision_id : Z;
  execution_profile_id : Z;
  operating_cycle_id : Z;
  lifecycle_state : Z;
  admitted_by_command_id : Z;
}.
#[global] Instance fields : Fields t := fun r =>
  new (principal_id r) (actor_configuration_revision_id r) (execution_profile_id r)
    (operating_cycle_id r) (lifecycle_state r) (admitted_by_command_id r).
#[global] Instance valid : Constraints t := fun m r =>
  one_of [1; 2] (lifecycle_state r)
  && no_other m (fun o => (principal_id r =? principal_id o)).
End ActorInstances.

Module ContextPacks.
Record t := new {
  founding_mission_id : Z;
  purpose : Z;
  rendering_digest : list byte;
  created_by_command_id : Z;
}.
#[global] Instance fields : Fields t := fun r =>
  new (founding_mission_id r) (purpose r) (rendering_digest r) (created_by_command_id r).
#[global] Instance valid : Constraints t := fun _ r =>
  one_of [1; 2] (purpose r)
  && (length (rendering_digest r) =? 32)%nat.
End ContextPacks.

Module WorkItems.
Record t := new {
  ticket_id : Z;
  actor_instance_id : Z;
  context_pack_id : Z;
  work_kind : Z;
  adversarial_review_id : option Z;
  assignment_text : string;
  lifecycle_state : Z;
  retry_of_actor_attempt_id : option Z;
  created_by_command_id : Z;
  last_transition_command_id : Z;
}.
#[global] Instance fields : Fields t := fun r =>
  new (ticket_id r) (actor_instance_id r) (context_pack_id r) (work_kind r)
    (adversarial_review_id r) (assignment_text r) (lifecycle_state r)
    (retry_of_actor_attempt_id r) (created_by_command_id r) (last_transition_command_id r).
#[global] Instance valid : Constraints t := fun _ r =>
  one_of [1; 2] (work_kind r)
  && in_range 1 5 (lifecycle_state r)
  && (((work_kind r =? 1) && is_null (adversarial_review_id r)) || ((work_kind r =? 2)
     && not_null (adversarial_review_id r))).
End WorkItems.

Module ExecutionProfiles.
Record t := new {
  profile_kind : Z;
  readiness : Z;
}.
#[global] Instance fields : Fields t := fun r => new (profile_kind r) (readiness r).
#[global] Instance valid : Constraints t := fun m r =>
  one_of [1; 2; 3] (profile_kind r)
  && one_of [1; 2; 3] (readiness r)
  && (((profile_kind r =? 1) && (readiness r =? 1)) || ((profile_kind r =? 2)
     && one_of [2; 3] (readiness r)) || ((profile_kind r =? 3) && (readiness r =? 1)))
  && no_other m (fun o => (profile_kind r =? profile_kind o)).
End ExecutionProfiles.

Module Leases.
Record t := new {
  work_item_id : Z;
  actor_instance_id : Z;
  lifecycle_state : Z;
  claimed_by_command_id : Z;
  terminal_by_command_id : option Z;
}.
#[global] Instance fields : Fields t := fun r =>
  new (work_item_id r) (actor_instance_id r) (lifecycle_state r) (claimed_by_command_id r)
    (terminal_by_command_id r).
#[global] Instance valid : Constraints t := fun m r =>
  in_range 1 4 (lifecycle_state r)
  && (negb ((lifecycle_state r =? 1)) || no_other m (fun o => (lifecycle_state o =? 1)
     && (work_item_id r =? work_item_id o))).
End Leases.

Module Attempts.
Record t := new {
  operating_cycle_id : Z;
  ticket_id : Z;
  work_item_id : Z;
  work_lease_id : Z;
  actor_instance_id : Z;
  actor_configuration_revision_id : Z;
  execution_profile_id : Z;
  context_pack_id : Z;
  retry_of_actor_attempt_id : option Z;
  lifecycle_state : Z;
  started_by_command_id : Z;
  terminal_by_command_id : option Z;
  validated_by_command_id : option Z;
}.
#[global] Instance fields : Fields t := fun r =>
  new (operating_cycle_id r) (ticket_id r) (work_item_id r) (work_lease_id r)
    (actor_instance_id r) (actor_configuration_revision_id r) (execution_profile_id r)
    (context_pack_id r) (retry_of_actor_attempt_id r) (lifecycle_state r)
    (started_by_command_id r) (terminal_by_command_id r) (validated_by_command_id r).
#[global] Instance valid : Constraints t := fun m r =>
  in_range 1 9 (lifecycle_state r)
  && (negb (one_of [1; 2] (lifecycle_state r)) || no_other m
     (fun o => one_of [1; 2] (lifecycle_state o) && (work_item_id r =? work_item_id o))).
End Attempts.

Module ActorAttemptTerminalFacts.
Record t := new {
  terminal_kind : Z;
  attested_by_command_id : Z;
}.
#[global] Instance fields : Fields t := fun r =>
  new (terminal_kind r) (attested_by_command_id r).
#[global] Instance valid : Constraints t := fun _ r => in_range 1 6 (terminal_kind r).
End ActorAttemptTerminalFacts.

Module OutcomeObligations.
Record t := new {
  project_id : Z;
  obligation_text : string;
  lifecycle_state : Z;
  scheduled_by_command_id : Z;
  resolved_by_command_id : option Z;
}.
#[global] Instance fields : Fields t := fun r =>
  new (project_id r) (obligation_text r) (lifecycle_state r) (scheduled_by_command_id r)
    (resolved_by_command_id r).
#[global] Instance valid : Constraints t := fun _ r => one_of [1; 2; 3; 4] (lifecycle_state r).
End OutcomeObligations.

(** ** Content, evidence and children *)

Module ContentSealReceipts.
Record t := new {
  digest : list byte;
  attested_by_command_id : Z;
}.
#[global] Instance fields : Fields t := fun r => new (digest r) (attested_by_command_id r).
#[global] Instance valid : Constraints t := fun m r =>
  (length (digest r) =? 32)%nat
  && no_other m (fun o => bool_decide (digest r = digest o)).
End ContentSealReceipts.

Module ContentObjects.
Record t := new {
  content_seal_receipt_id : Z;
  registered_by_command_id : Z;
}.
#[global] Instance fields : Fields t := fun r =>
  new (content_seal_receipt_id r) (registered_by_command_id r).
#[global] Instance valid : Constraints t := fun m r =>
  no_other m (fun o => (content_seal_receipt_id r =? content_seal_receipt_id o)).
End ContentObjects.

Module DeterministicExperiments.
Record t := new {
  operating_cycle_id : Z;
  project_id : Z;
  ticket_id : Z;
  target_graph_revision_id : Z;
  evaluator_revision_id : Z;
  input_manifest_id : Z;
  lifecycle_state : Z;
  registered_by_command_id : Z;
  last_transition_command_id : Z;
}.
#[global] Instance fields : Fields t := fun r =>
  new (operating_cycle_id r) (project_id r) (ticket_id r) (target_graph_revision_id r)
    (evaluator_revision_id r) (input_manifest_id r) (lifecycle_state r)
    (registered_by_command_id r) (last_transition_command_id r).
#[global] Instance valid : Constraints t := fun _ r =>
  one_of [1; 2; 3; 4; 5] (lifecycle_state r).
End DeterministicExperiments.

Module SupervisorEpochs.
Record t := new {
  supervisor_epoch_identity : string;
  opened_by_command_id : Z;
}.
#[global] Instance fields : Fields t := fun r =>
  new (supervisor_epoch_identity r) (opened_by_command_id r).
#[global] Instance valid : Constraints t := fun m r =>
  no_other m (fun o => (supervisor_epoch_identity r =? supervisor_epoch_identity o)%string).
End SupervisorEpochs.

Module Workspaces.
Record t := new {
  native_workspace_id : string;
  canonical_workspace_path : string;
  registered_by_command_id : Z;
}.
#[global] Instance fields : Fields t := fun r =>
  new (native_workspace_id r) (canonical_workspace_path r) (registered_by_command_id r).
#[global] Instance valid : Constraints t := fun m r =>
  no_other m (fun o => (native_workspace_id r =? native_workspace_id o)%string)
  && no_other m (fun o => (canonical_workspace_path r =? canonical_workspace_path o)%string).
End Workspaces.

Module NativeExecutionProfileQualificationLaunchClaims.
Record t := new {
  operating_cycle_id : Z;
  budget_reservation_id : Z;
  execution_profile_id : Z;
  supervisor_epoch_id : Z;
  supervisor_epoch_identity : string;
  native_workspace_id : string;
  canonical_workspace_path : string;
  admission_generation : Z;
  claimed_by_command_id : Z;
}.
#[global] Instance fields : Fields t := fun r =>
  new (operating_cycle_id r) (budget_reservation_id r) (execution_profile_id r)
    (supervisor_epoch_id r) (supervisor_epoch_identity r) (native_workspace_id r)
    (canonical_workspace_path r) (admission_generation r) (claimed_by_command_id r).
#[global] Instance valid : Constraints t := fun m r =>
  (0 <=? admission_generation r)
  && no_other m (fun o => (operating_cycle_id r =? operating_cycle_id o))
  && no_other m (fun o => (budget_reservation_id r =? budget_reservation_id o))
  && no_other m (fun o => (execution_profile_id r =? execution_profile_id o))
  && no_other m (fun o => (native_workspace_id r =? native_workspace_id o)%string)
  && no_other m (fun o => (canonical_workspace_path r =? canonical_workspace_path o)%string).
End NativeExecutionProfileQualificationLaunchClaims.

Module NativeChildSpawnAdmissions.
Record t := new {
  operating_cycle_id : Z;
  actor_attempt_id : option Z;
  root_authority_office_session_id : option Z;
  qualification_operating_cycle_id : option Z;
  deterministic_experiment_id : option Z;
  evaluator_revision_id : option Z;
  input_manifest_id : option Z;
  budget_reservation_id : option Z;
  execution_profile_id : Z;
  workspace_id : Z;
  supervisor_epoch_id : Z;
  admission_generation : Z;
  lifecycle_state : Z;
  admitted_by_command_id : Z;
  spawned_by_command_id : option Z;
}.
#[global] Instance fields : Fields t := fun r =>
  new (operating_cycle_id r) (actor_attempt_id r) (root_authority_office_session_id r)
    (qualification_operating_cycle_id r) (deterministic_experiment_id r)
    (evaluator_revision_id r) (input_manifest_id r) (budget_reservation_id r)
    (execution_profile_id r) (workspace_id r) (supervisor_epoch_id r) (admission_generation r)
    (lifecycle_state r) (admitted_by_command_id r) (spawned_by_command_id r).
#[global] Instance valid : Constraints t := fun m r =>
  (0 <=? admission_generation r)
  && one_of [1; 2; 3] (lifecycle_state r)
  && ((not_null (actor_attempt_id r) && is_null (root_authority_office_session_id r)
     && is_null (deterministic_experiment_id r) && is_null (evaluator_revision_id r)
     && is_null (input_manifest_id r) && is_null (qualification_operating_cycle_id r)
     && not_null (budget_reservation_id r)) || (is_null (actor_attempt_id r)
     && not_null (root_authority_office_session_id r)
     && is_null (deterministic_experiment_id r) && is_null (evaluator_revision_id r)
     && is_null (input_manifest_id r) && is_null (qualification_operating_cycle_id r)
     && not_null (budget_reservation_id r)) || (is_null (actor_attempt_id r)
     && is_null (root_authority_office_session_id r) && is_null (deterministic_experiment_id r)
     && is_null (evaluator_revision_id r) && is_null (input_manifest_id r)
     && not_null (qualification_operating_cycle_id r) && not_null (budget_reservation_id r))
     || (is_null (actor_attempt_id r) && is_null (root_authority_office_session_id r)
     && not_null (deterministic_experiment_id r) && not_null (evaluator_revision_id r)
     && not_null (input_manifest_id r) && is_null (qualification_operating_cycle_id r)
     && is_null (budget_reservation_id r)))
  && no_other m (fun o => same_key (actor_attempt_id r) (actor_attempt_id o))
  && no_other m
     (fun o => same_key (root_authority_office_session_id r) (root_authority_office_session_id o))
  && no_other m
     (fun o => same_key (deterministic_experiment_id r) (deterministic_experiment_id o)).
End NativeChildSpawnAdmissions.

Module NativeChildren.
Record t := new {
  native_child_spawn_admission_id : Z;
  child_identity : string;
  direct_child_pid : Z;
  process_group_id : Z;
  lifecycle_state : Z;
  terminal_disposition : option Z;
  spawned_by_command_id : Z;
  last_transition_command_id : Z;
}.
#[global] Instance fields : Fields t := fun r =>
  new (native_child_spawn_admission_id r) (child_identity r) (direct_child_pid r)
    (process_group_id r) (lifecycle_state r) (terminal_disposition r)
    (spawned_by_command_id r) (last_transition_command_id r).
#[global] Instance valid : Constraints t := fun m r =>
  (0 <? direct_child_pid r)
  && (0 <? process_group_id r)
  && in_range 1 8 (lifecycle_state r)
  && passes (option_map (fun v => in_range 1 7 v) (terminal_disposition r))
  && (direct_child_pid r =? process_group_id r)
  && passes (or3 (or3 (or3 (or3 (and3 (Some ((lifecycle_state r =? 8))) (option_map
     (fun v => one_of [1; 4; 5] v) (terminal_disposition r))) (Some ((lifecycle_state r =? 5)
     && is_null (terminal_disposition r)))) (and3 (Some ((lifecycle_state r =? 6))) (option_map
     (fun v => (v =? 6)) (terminal_disposition r)))) (and3 (Some ((lifecycle_state r =? 7))) (option_map
     (fun v => (v =? 7)) (terminal_disposition r)))) (Some (one_of [1; 2; 3; 4] (lifecycle_state r)
     && is_null (terminal_disposition r))))
  && no_other m
     (fun o => (native_child_spawn_admission_id r =? native_child_spawn_admission_id o))
  && no_other m (fun o => (child_identity r =? child_identity o)%string).
End NativeChildren.

Module PiChildSpawnSidecars.
Record t := new {
  pi_session_id : Z;
}.
#[global] Instance fields : Fields t := fun r => new (pi_session_id r).
#[global] Instance valid : Constraints t := fun m r =>
  no_other m (fun o => (pi_session_id r =? pi_session_id o)).
End PiChildSpawnSidecars.

Module PiChildSessionProtocols.
Record t := new {
  lifecycle_state : Z;
  create_correlation_identity : option string;
  create_request_digest : option (list byte);
}.
#[global] Instance fields : Fields t := fun r =>
  new (lifecycle_state r) (create_correlation_identity r) (create_request_digest r).
#[global] Instance valid : Constraints t := fun _ r =>
  in_range 1 5 (lifecycle_state r)
  && passes (or3 (Some (is_null (create_request_digest r))) (option_map
     (fun v => (length v =? 32)%nat) (create_request_digest r)))
  && (((lifecycle_state r <? 3) && is_null (create_correlation_identity r)
     && is_null (create_request_digest r)) || ((3 <=? lifecycle_state r)
     && not_null (create_correlation_identity r) && not_null (create_request_digest r))).
End PiChildSessionProtocols.

(** ** The ledger *)

Module Commands.
Record t := new {
  command_id : string;
  principal_id : Z;
  capability_grant_id : Z;
  capability_kind : Z;
  expected_generation : option Z;
  command_kind : Z;
  request_fingerprint : list byte;
  command_status : Z;
  rejection_code : option Z;
  accepted_event_id : option Z;
}.
#[global] Instance fields : Fields t := fun r =>
  new (command_id r) (principal_id r) (capability_grant_id r) (capability_kind r)
    (expected_generation r) (command_kind r) (request_fingerprint r) (command_status r)
    (rejection_code r) (accepted_event_id r).
#[global] Instance valid : Constraints t := fun m r =>
  in_range 1 118 (capability_kind r)
  && in_range 1 118 (command_kind r)
  && (length (request_fingerprint r) =? 32)%nat
  && one_of [1; 2] (command_status r)
  && (((command_status r =? 1) && is_null (rejection_code r) && not_null (accepted_event_id r))
     || ((command_status r =? 2) && not_null (rejection_code r)
     && is_null (accepted_event_id r)))
  && no_other m (fun o => (command_id r =? command_id o)%string).
End Commands.

Module Events.
Record t := new {
  command_row_id : Z;
  event_kind : Z;
  event_sequence : Z;
  event_fingerprint : list byte;
}.
#[global] Instance fields : Fields t := fun r =>
  new (command_row_id r) (event_kind r) (event_sequence r) (event_fingerprint r).
#[global] Instance valid : Constraints t := fun m r =>
  in_range 1 112 (event_kind r)
  && (0 <? event_sequence r)
  && (length (event_fingerprint r) =? 32)%nat
  && no_other m (fun o => (command_row_id r =? command_row_id o))
  && no_other m (fun o => (event_sequence r =? event_sequence o)).
End Events.

(** ** The database *)

Module Database.
Record t := new {
  principals : table Principals.t;
  societies : table Societies.t;
  office_contracts : table OfficeContracts.t;
  applications : table Applications.t;
  application_revisions : table ApplicationRevisions.t;
  application_revision_principles : table ApplicationRevisionPrinciples.t;
  application_revision_north_star_questions : table ApplicationRevisionNorthStarQuestions.t;
  founding_missions : table FoundingMissions.t;
  office_occupancies : table OfficeOccupancies.t;
  society_bootstraps : table SocietyBootstraps.t;
  capability_grants : table CapabilityGrants.t;
  operating_cycles : table OperatingCycles.t;
  operating_cycle_admissions : table OperatingCycleAdmissions.t;
  operating_cycle_reconciliations : table OperatingCycleReconciliations.t;
  root_authority_office_sessions : table RootAuthorityOfficeSessions.t;
  office_turns : table OfficeTurns.t;
  budget_envelopes : table BudgetEnvelopes.t;
  budget_envelope_constraints : table BudgetEnvelopeConstraints.t;
  budget_reservations : table BudgetReservations.t;
  budget_reservation_charges : table BudgetReservationCharges.t;
  office_session_budget_reservations : table OfficeSessionBudgetReservations.t;
  attempt_budget_reservations : table AttemptBudgetReservations.t;
  cancellation_requests : table CancellationRequests.t;
  cancellation_propagations : table CancellationPropagations.t;
  cost_postmortems : table CostPostmortems.t;
  cost_postmortem_resolutions : table CostPostmortemResolutions.t;
  projects : table Projects.t;
  project_north_star_alignments : table ProjectNorthStarAlignments.t;
  project_objectives : table ProjectObjectives.t;
  project_milestones : table ProjectMilestones.t;
  project_stop_conditions : table ProjectStopConditions.t;
  tickets : table Tickets.t;
  ticket_acceptance_conditions : table TicketAcceptanceConditions.t;
  ticket_prerequisites : table TicketPrerequisites.t;
  objects : table Objects.t;
  object_revisions : table ObjectRevisions.t;
  observation_revisions : table ObservationRevisions.t;
  hypothesis_revisions : table HypothesisRevisions.t;
  edges : table Edges.t;
  episodes : table Episodes.t;
  adversarial_reviews : table AdversarialReviews.t;
  review_challenges : table ReviewChallenges.t;
  review_challenge_responses : table ReviewChallengeResponses.t;
  review_dispositions : table ReviewDispositions.t;
  postmortems : table Postmortems.t;
  postmortem_causal_claims : table PostmortemCausalClaims.t;
  postmortem_action_proposals : table PostmortemActionProposals.t;
  coordination_command_provenance : table CoordinationCommandProvenance.t;
  actor_configurations : table ActorConfigurations.t;
  actor_configuration_revisions : table ActorConfigurationRevisions.t;
  actor_instances : table ActorInstances.t;
  context_packs : table ContextPacks.t;
  work_items : table WorkItems.t;
  execution_profiles : table ExecutionProfiles.t;
  leases : table Leases.t;
  attempts : table Attempts.t;
  actor_attempt_terminal_facts : table ActorAttemptTerminalFacts.t;
  outcome_obligations : table OutcomeObligations.t;
  content_seal_receipts : table ContentSealReceipts.t;
  content_objects : table ContentObjects.t;
  deterministic_experiments : table DeterministicExperiments.t;
  supervisor_epochs : table SupervisorEpochs.t;
  workspaces : table Workspaces.t;
  native_execution_profile_qualification_launch_claims : table NativeExecutionProfileQualificationLaunchClaims.t;
  native_child_spawn_admissions : table NativeChildSpawnAdmissions.t;
  native_children : table NativeChildren.t;
  pi_child_spawn_sidecars : table PiChildSpawnSidecars.t;
  pi_child_session_protocols : table PiChildSessionProtocols.t;
  commands : table Commands.t;
  events : table Events.t;
  command_bodies : gmap Z CommandBody.t;
  event_bodies : gmap Z EventBody.t;
}.
#[global] Instance fields : Fields t := fun db =>
  new (principals db) (societies db) (office_contracts db) (applications db)
    (application_revisions db) (application_revision_principles db)
    (application_revision_north_star_questions db) (founding_missions db)
    (office_occupancies db) (society_bootstraps db) (capability_grants db)
    (operating_cycles db) (operating_cycle_admissions db) (operating_cycle_reconciliations db)
    (root_authority_office_sessions db) (office_turns db) (budget_envelopes db)
    (budget_envelope_constraints db) (budget_reservations db) (budget_reservation_charges db)
    (office_session_budget_reservations db) (attempt_budget_reservations db)
    (cancellation_requests db) (cancellation_propagations db) (cost_postmortems db)
    (cost_postmortem_resolutions db) (projects db) (project_north_star_alignments db)
    (project_objectives db) (project_milestones db) (project_stop_conditions db) (tickets db)
    (ticket_acceptance_conditions db) (ticket_prerequisites db) (objects db)
    (object_revisions db) (observation_revisions db) (hypothesis_revisions db) (edges db)
    (episodes db) (adversarial_reviews db) (review_challenges db)
    (review_challenge_responses db) (review_dispositions db) (postmortems db)
    (postmortem_causal_claims db) (postmortem_action_proposals db)
    (coordination_command_provenance db) (actor_configurations db)
    (actor_configuration_revisions db) (actor_instances db) (context_packs db) (work_items db)
    (execution_profiles db) (leases db) (attempts db) (actor_attempt_terminal_facts db)
    (outcome_obligations db) (content_seal_receipts db) (content_objects db)
    (deterministic_experiments db) (supervisor_epochs db) (workspaces db)
    (native_execution_profile_qualification_launch_claims db)
    (native_child_spawn_admissions db) (native_children db) (pi_child_spawn_sidecars db)
    (pi_child_session_protocols db) (commands db) (events db) (command_bodies db)
    (event_bodies db).

(** Before the founding rows are installed. *)
Definition empty : t :=
  new empty_table empty_table empty_table empty_table empty_table empty_table empty_table
    empty_table empty_table empty_table empty_table empty_table empty_table empty_table
    empty_table empty_table empty_table empty_table empty_table empty_table empty_table
    empty_table empty_table empty_table empty_table empty_table empty_table empty_table
    empty_table empty_table empty_table empty_table empty_table empty_table empty_table
    empty_table empty_table empty_table empty_table empty_table empty_table empty_table
    empty_table empty_table empty_table empty_table empty_table empty_table empty_table
    empty_table empty_table empty_table empty_table empty_table empty_table empty_table
    empty_table empty_table empty_table empty_table empty_table empty_table empty_table
    empty_table empty_table empty_table empty_table empty_table empty_table empty_table ∅ ∅.

(** [ROLLBACK TO]: the rows of the savepoint with the sequences of now. *)
Definition rollback_to (saved now : t) : t :=
  new (keep_sequence (principals saved) (principals now))
    (keep_sequence (societies saved) (societies now))
    (keep_sequence (office_contracts saved) (office_contracts now))
    (keep_sequence (applications saved) (applications now))
    (keep_sequence (application_revisions saved) (application_revisions now))
    (keep_sequence (application_revision_principles saved) (application_revision_principles now))
    (keep_sequence (application_revision_north_star_questions saved) (application_revision_north_star_questions now))
    (keep_sequence (founding_missions saved) (founding_missions now))
    (keep_sequence (office_occupancies saved) (office_occupancies now))
    (keep_sequence (society_bootstraps saved) (society_bootstraps now))
    (keep_sequence (capability_grants saved) (capability_grants now))
    (keep_sequence (operating_cycles saved) (operating_cycles now))
    (keep_sequence (operating_cycle_admissions saved) (operating_cycle_admissions now))
    (keep_sequence (operating_cycle_reconciliations saved) (operating_cycle_reconciliations now))
    (keep_sequence (root_authority_office_sessions saved) (root_authority_office_sessions now))
    (keep_sequence (office_turns saved) (office_turns now))
    (keep_sequence (budget_envelopes saved) (budget_envelopes now))
    (keep_sequence (budget_envelope_constraints saved) (budget_envelope_constraints now))
    (keep_sequence (budget_reservations saved) (budget_reservations now))
    (keep_sequence (budget_reservation_charges saved) (budget_reservation_charges now))
    (keep_sequence (office_session_budget_reservations saved) (office_session_budget_reservations now))
    (keep_sequence (attempt_budget_reservations saved) (attempt_budget_reservations now))
    (keep_sequence (cancellation_requests saved) (cancellation_requests now))
    (keep_sequence (cancellation_propagations saved) (cancellation_propagations now))
    (keep_sequence (cost_postmortems saved) (cost_postmortems now))
    (keep_sequence (cost_postmortem_resolutions saved) (cost_postmortem_resolutions now))
    (keep_sequence (projects saved) (projects now))
    (keep_sequence (project_north_star_alignments saved) (project_north_star_alignments now))
    (keep_sequence (project_objectives saved) (project_objectives now))
    (keep_sequence (project_milestones saved) (project_milestones now))
    (keep_sequence (project_stop_conditions saved) (project_stop_conditions now))
    (keep_sequence (tickets saved) (tickets now))
    (keep_sequence (ticket_acceptance_conditions saved) (ticket_acceptance_conditions now))
    (keep_sequence (ticket_prerequisites saved) (ticket_prerequisites now))
    (keep_sequence (objects saved) (objects now))
    (keep_sequence (object_revisions saved) (object_revisions now))
    (keep_sequence (observation_revisions saved) (observation_revisions now))
    (keep_sequence (hypothesis_revisions saved) (hypothesis_revisions now))
    (keep_sequence (edges saved) (edges now)) (keep_sequence (episodes saved) (episodes now))
    (keep_sequence (adversarial_reviews saved) (adversarial_reviews now))
    (keep_sequence (review_challenges saved) (review_challenges now))
    (keep_sequence (review_challenge_responses saved) (review_challenge_responses now))
    (keep_sequence (review_dispositions saved) (review_dispositions now))
    (keep_sequence (postmortems saved) (postmortems now))
    (keep_sequence (postmortem_causal_claims saved) (postmortem_causal_claims now))
    (keep_sequence (postmortem_action_proposals saved) (postmortem_action_proposals now))
    (keep_sequence (coordination_command_provenance saved) (coordination_command_provenance now))
    (keep_sequence (actor_configurations saved) (actor_configurations now))
    (keep_sequence (actor_configuration_revisions saved) (actor_configuration_revisions now))
    (keep_sequence (actor_instances saved) (actor_instances now))
    (keep_sequence (context_packs saved) (context_packs now))
    (keep_sequence (work_items saved) (work_items now))
    (keep_sequence (execution_profiles saved) (execution_profiles now))
    (keep_sequence (leases saved) (leases now))
    (keep_sequence (attempts saved) (attempts now))
    (keep_sequence (actor_attempt_terminal_facts saved) (actor_attempt_terminal_facts now))
    (keep_sequence (outcome_obligations saved) (outcome_obligations now))
    (keep_sequence (content_seal_receipts saved) (content_seal_receipts now))
    (keep_sequence (content_objects saved) (content_objects now))
    (keep_sequence (deterministic_experiments saved) (deterministic_experiments now))
    (keep_sequence (supervisor_epochs saved) (supervisor_epochs now))
    (keep_sequence (workspaces saved) (workspaces now))
    (keep_sequence (native_execution_profile_qualification_launch_claims saved) (native_execution_profile_qualification_launch_claims now))
    (keep_sequence (native_child_spawn_admissions saved) (native_child_spawn_admissions now))
    (keep_sequence (native_children saved) (native_children now))
    (keep_sequence (pi_child_spawn_sidecars saved) (pi_child_spawn_sidecars now))
    (keep_sequence (pi_child_session_protocols saved) (pi_child_session_protocols now))
    (keep_sequence (commands saved) (commands now))
    (keep_sequence (events saved) (events now)) (command_bodies saved) (event_bodies saved).
End Database.

(** ** The rows a fresh ledger starts with

    The fixed bootstrap rows at the end of [schema/postgres/kernel.sql]: the two principals
    that exist before any command, the execution profiles, and the grants of both; and the
    sequences, restarted after them. *)

(** Rows with the keys 1, 2, ..., and the sequence after them. *)
Definition seed_table {R} (l : list R) : table R :=
  Table (list_to_map (imap (fun i r => (Z.of_nat i + 1, r)) l)) (Z.of_nat (length l) + 1).

Definition seed_principals : list Principals.t :=
  [Principals.new 1 "bootstrap_principal" true; Principals.new 2 "kernel_service" true].
Definition seed_execution_profiles : list ExecutionProfiles.t :=
  [ExecutionProfiles.new 1 1; ExecutionProfiles.new 2 2; ExecutionProfiles.new 3 1].

(** The capabilities of the kernel service, in the order of their grants. *)
Definition seed_kernel_capabilities : list Z :=
  [17; 18; 19; 20; 21; 22; 38; 46; 54; 55; 58; 59; 62; 63; 64; 66; 67; 69; 70; 71; 72; 73;
   74; 75; 76; 77; 78; 79; 80; 81; 82; 83; 84; 85; 86; 87; 88; 89; 90; 91; 92; 93; 94; 95;
   96; 97; 98; 99; 100; 101; 102; 103; 104; 105; 106; 107; 108; 109; 110; 111; 112; 113;
   114; 16; 115; 116; 9; 11; 12; 117].
Definition seed_bootstrap_capabilities : list Z := [1; 2; 3; 4; 5; 6; 7; 8].
Definition seed_capability_grants : list CapabilityGrants.t :=
  map (fun kind => CapabilityGrants.new (Identifier.value BOOTSTRAP) kind None None 1 1 None None)
    seed_bootstrap_capabilities
  ++ map (fun kind => CapabilityGrants.new (Identifier.value KERNEL) kind None None 1 3 None None)
    seed_kernel_capabilities.

Definition seed_database : Database.t :=
  Database.empty <| Database.principals := seed_table seed_principals |>
                 <| Database.execution_profiles := seed_table seed_execution_profiles |>
                 <| Database.capability_grants := seed_table seed_capability_grants |>.
