(* ===== verification/StoreQueries.v ===== *)
(** * Queries shared by the transitions of the store

    [society-kernel/src/store.rs], lines 13967 to 14400: reading a row and validating its
    columns, the counts that fence a cycle, and the identity of an inserted row.  A
    transition is a [store] computation: it reads and writes the tables of one
    transaction and ends with a value or a [Rejection]; [execute_in_transaction] rolls a
    rejected transition back. *)

From S2P Require Import Prelude.
From S2P Require Import Machine.
From S2P Require Import KernelScalars.
From S2P Require Import KernelEnums.
From S2P Require Import KernelCustody.
From S2P Require Import KernelCommands.
From S2P Require Import KernelCodes.
From S2P Require Import SqlTable.
From S2P Require Import StoreTables.

Definition store (A : Type) : Type := method Database.t Rejection.t A.

(** ** Statements

    On the tables of any state: the ledger alone here, the ledger beside the tables of the
    study in [StudyStore]. *)

Section Expressions.
Context {S : Type}.
Definition read {A} (f : S -> A) : method S Rejection.t A := fun db => (Ok (f db), db).
(** [.ok_or(rejection)?] and [.map_err(|_| rejection)?]. *)
Definition require {A} (o : option A) (e : Rejection.t) : method S Rejection.t A :=
  m_lift (ok_or o e).
Definition or_reject {A E} (r : result A E) (e : Rejection.t) : method S Rejection.t A :=
  m_lift (map_err (fun _ => e) r).
(** [if !condition { return Err(rejection) }]. *)
Definition ensure (condition : bool) (e : Rejection.t) : method S Rejection.t unit :=
  if condition then m_ret () else m_fail e.

(** [for x in xs { .. }]. *)
Fixpoint for_each {A} (body : A -> method S Rejection.t unit) (xs : list A) :
  method S Rejection.t unit :=
  match xs with [] => m_ret () | x :: xs => body x ;! for_each body xs end.
End Expressions.

Section Statements.
Context {S R : Type} `{!Constraints R}.
Variable proj : S -> table R.
Context `{!Update proj}.

(** [SELECT .. WHERE key = $1], with [.optional().map_err(e)?.ok_or(e)?]. *)
Definition select (id : Z) (e : Rejection.t) : method S Rejection.t R :=
  fun db => (ok_or (rows (proj db) !! id) e, db).
(** [INSERT INTO .. RETURNING key], with [.map_err(e)?]. *)
Definition insert_into (r : R) (e : Rejection.t) : method S Rejection.t Z :=
  fun db => match sql_insert r (proj db) with
            | (Some id, t) => (Ok id, db <| proj := t |>)
            | (None, t) => (Err e, db <| proj := t |>)
            end.
Definition insert_with_key (id : Z) (r : R) (e : Rejection.t) : method S Rejection.t unit :=
  fun db => match sql_insert_key id r (proj db) with
            | Some t => (Ok (), db <| proj := t |>)
            | None => (Err e, db)
            end.
(** [UPDATE .. SET .. WHERE key = $1], with [.map_err(e)?]. *)
Definition update_checked (id : Z) (f : R -> option R) (e : Rejection.t) :
  method S Rejection.t unit :=
  fun db => match sql_update id f (proj db) with
            | Some t => (Ok (), db <| proj := t |>)
            | None => (Err e, db)
            end.
Definition update_row (id : Z) (f : R -> R) (e : Rejection.t) : method S Rejection.t unit :=
  update_checked id (fun r => Some (f r)) e.
(** [UPDATE .. SET .. WHERE condition]. *)
Definition update_where (p : R -> bool) (f : R -> R) (e : Rejection.t) :
  method S Rejection.t unit :=
  fun db => match sql_update_all (map fst (rows_where p (proj db))) (fun r => Some (f r))
                    (proj db) with
            | Some t => (Ok (), db <| proj := t |>)
            | None => (Err e, db)
            end.
End Statements.

(** [id_from_returned_identity]. *)
Definition returned_identity {n} (id : Z) : store (Identifier.t n) :=
  or_reject (Identifier.try_from id) Rejection.SubjectNotFound.

(** ** Rows *)

Module CycleRow.
Record t := new {
  society_id : SocietyId;
  mission_id : FoundingMissionId;
  occupancy_id : OfficeOccupancyId;
  treatment : OperatingCycleTreatment.t;
  state : OperatingCycleState.t;
  generation : AdmissionGeneration.t;
}.
End CycleRow.

Definition only_society_id : store SocietyId :=
  let! row := read (fun db => row_where (fun _ => true) (Database.societies db)) in
  let! row := require row Rejection.SubjectNotFound in
  or_reject (Identifier.try_from row.1) Rejection.SubjectNotFound.

Definition root_authority_office_id : store OfficeId :=
  let! row := read (fun db =>
    row_where (fun r => OfficeContracts.office_kind r =? 1) (Database.office_contracts db)) in
  let! row := require row Rejection.SubjectNotFound in
  or_reject (Identifier.try_from row.1) Rejection.SubjectNotFound.

Definition active_founding_mission_id (society_id : SocietyId) : store FoundingMissionId :=
  let! row := read (fun db =>
    row_where (fun r => (FoundingMissions.society_id r =? Identifier.value society_id)
                        && FoundingMissions.active r)
      (Database.founding_missions db)) in
  let! row := require row Rejection.SubjectNotFound in
  or_reject (Identifier.try_from row.1) Rejection.SubjectNotFound.

(** The join on [office_contracts.office_id]. *)
Definition is_root_authority_office (db : Database.t) (office_id : Z) : bool :=
  match rows (Database.office_contracts db) !! office_id with
  | Some c => OfficeContracts.office_kind c =? 1
  | None => false
  end.
Definition active_root_authority_occupancy_id : store OfficeOccupancyId :=
  let! row := read (fun db =>
    row_where (fun r => is_root_authority_office db (OfficeOccupancies.office_id r)
                        && OfficeOccupancies.active r)
      (Database.office_occupancies db)) in
  let! row := require row Rejection.SubjectNotFound in
  or_reject (Identifier.try_from row.1) Rejection.SubjectNotFound.

(** [ORDER BY event_id DESC LIMIT 1] on the bodies of one kind. *)
Definition latest_hard_ceiling (bodies : gmap Z EventBody.t) : option Z :=
  let ceilings := omap (fun kb => match kb.2 with
                                  | EventBody.R0HardCeilingSet _ ceiling =>
                                      Some (kb.1, UsdMicros.value ceiling)
                                  | _ => None
                                  end) (map_to_list bodies) in
  option_map snd (list.last (order_by fst ceilings)).
Definition hard_ceiling_from_event_body : store UsdMicros.t :=
  let! value := read (fun db => latest_hard_ceiling (Database.event_bodies db)) in
  let! value := require value Rejection.FoundingInvariant in
  or_reject (UsdMicros.try_from value) Rejection.FoundingInvariant.

Definition bootstrapped_constitution :
  store (SocietyId * FoundingMissionId * OfficeOccupancyId * UsdMicros.t) :=
  let! row := read (fun db => row_where (fun _ => true) (Database.society_bootstraps db)) in
  let! row := require row Rejection.FoundingInvariant in
  let! society_id := or_reject (Identifier.try_from row.1) Rejection.FoundingInvariant in
  let! mission_id := or_reject (Identifier.try_from
    (SocietyBootstraps.founding_mission_id row.2)) Rejection.FoundingInvariant in
  let! occupancy_id := or_reject (Identifier.try_from
    (SocietyBootstraps.office_occupancy_id row.2)) Rejection.FoundingInvariant in
  let! ceiling := or_reject (UsdMicros.try_from
    (SocietyBootstraps.hard_ceiling_micros row.2)) Rejection.FoundingInvariant in
  m_ret (society_id, mission_id, occupancy_id, ceiling).

Definition cycle_row (cycle_id : OperatingCycleId) : store CycleRow.t :=
  let! row := select Database.operating_cycles (Identifier.value cycle_id)
    Rejection.SubjectNotFound in
  let! society_id := or_reject (Identifier.try_from
    (OperatingCycles.society_id row)) Rejection.SubjectNotFound in
  let! mission_id := or_reject (Identifier.try_from
    (OperatingCycles.founding_mission_id row)) Rejection.SubjectNotFound in
  let! occupancy_id := or_reject (Identifier.try_from
    (OperatingCycles.office_occupancy_id row)) Rejection.SubjectNotFound in
  let! treatment := or_reject (operating_cycle_treatment_from_i64
    (OperatingCycles.treatment row)) Rejection.SubjectNotFound in
  let! state := or_reject (operating_cycle_state_from_i64
    (OperatingCycles.lifecycle_state row)) Rejection.SubjectNotFound in
  let! generation := or_reject (AdmissionGeneration.try_from
    (OperatingCycles.admission_generation row)) Rejection.SubjectNotFound in
  m_ret (CycleRow.new society_id mission_id occupancy_id treatment state generation).

Definition cycle_for_generation (cycle_id : OperatingCycleId)
  (expected_generation : ExpectedGeneration.t) : store CycleRow.t :=
  let! cycle := cycle_row cycle_id in
  match expected_generation with
  | ExpectedGeneration.NotApplicable => m_fail Rejection.InvalidExpectedGeneration
  | ExpectedGeneration.Exact generation =>
      if decide (generation = CycleRow.generation cycle) then m_ret cycle
      else m_fail Rejection.StaleAdmissionGeneration
  end.

Definition session_row (session_id : RootAuthorityOfficeSessionId) :
  store (OfficeSessionState.t * OperatingCycleId) :=
  let! row := select Database.root_authority_office_sessions (Identifier.value session_id)
    Rejection.SubjectNotFound in
  let! state := or_reject (office_session_state_from_i64
    (RootAuthorityOfficeSessions.lifecycle_state row)) Rejection.SubjectNotFound in
  let! cycle_id := or_reject (Identifier.try_from
    (RootAuthorityOfficeSessions.operating_cycle_id row)) Rejection.SubjectNotFound in
  m_ret (state, cycle_id).

Definition session_occupancy_id (session_id : RootAuthorityOfficeSessionId) :
  store OfficeOccupancyId :=
  let! row := select Database.root_authority_office_sessions (Identifier.value session_id)
    Rejection.SubjectNotFound in
  or_reject (Identifier.try_from (RootAuthorityOfficeSessions.office_occupancy_id row))
    Rejection.SubjectNotFound.

Definition transition_cycle (command_row_id : Z) (cycle_id : OperatingCycleId)
  (state : OperatingCycleState.t) (generation : AdmissionGeneration.t) : store unit :=
  update_row Database.operating_cycles (Identifier.value cycle_id) (fun r =>
    r <| OperatingCycles.lifecycle_state := OperatingCycleState.as_i64 state |>
      <| OperatingCycles.admission_generation := AdmissionGeneration.value generation |>
      <| OperatingCycles.last_transition_command_id := command_row_id |>)
    Rejection.SubjectNotFound.

(** ** Budget envelopes *)

Definition create_budget_envelope (command_row_id : Z) (ceiling : UsdMicros.t) :
  store BudgetEnvelopeId :=
  let! id := insert_into Database.budget_envelopes
    (BudgetEnvelopes.new (UsdMicros.value ceiling) 0 0 command_row_id)
    Rejection.BudgetCeilingExceeded in
  returned_identity id.

Definition budget_envelopes_for_cycle (society_id : SocietyId) (cycle_id : OperatingCycleId) :
  store (BudgetEnvelopeId * BudgetEnvelopeId) :=
  let! society_budget := read (fun db =>
    row_where (fun r => same_key (BudgetEnvelopeConstraints.society_id r)
                          (Some (Identifier.value society_id)))
      (Database.budget_envelope_constraints db)) in
  let! society_budget := require society_budget Rejection.SubjectNotFound in
  let! cycle_budget := read (fun db =>
    row_where (fun r => same_key (BudgetEnvelopeConstraints.operating_cycle_id r)
                          (Some (Identifier.value cycle_id)))
      (Database.budget_envelope_constraints db)) in
  let! cycle_budget := require cycle_budget Rejection.SubjectNotFound in
  let! society_budget := or_reject (Identifier.try_from
    (BudgetEnvelopeConstraints.budget_envelope_id society_budget.2))
    Rejection.SubjectNotFound in
  let! cycle_budget := or_reject (Identifier.try_from
    (BudgetEnvelopeConstraints.budget_envelope_id cycle_budget.2))
    Rejection.SubjectNotFound in
  m_ret (society_budget, cycle_budget).

(** (ceiling, reserved, spent) *)
Definition budget_amounts (budget_id : BudgetEnvelopeId) :
  store (UsdMicros.t * UsdMicros.t * UsdMicros.t) :=
  let! row := select Database.budget_envelopes (Identifier.value budget_id)
    Rejection.SubjectNotFound in
  let! ceiling := or_reject (UsdMicros.try_from (BudgetEnvelopes.ceiling_micros row))
    Rejection.SubjectNotFound in
  let! reserved := or_reject (UsdMicros.try_from (BudgetEnvelopes.reserved_micros row))
    Rejection.SubjectNotFound in
  let! spent := or_reject (UsdMicros.try_from (BudgetEnvelopes.spent_micros row))
    Rejection.SubjectNotFound in
  m_ret (ceiling, reserved, spent).

(** ** The counts that fence a cycle *)

Section Counts.
Variable cycle_id : OperatingCycleId.
Let id : Z := Identifier.value cycle_id.

Definition session_of_cycle (db : Database.t) (session : Z) : bool :=
  match rows (Database.root_authority_office_sessions db) !! session with
  | Some s => RootAuthorityOfficeSessions.operating_cycle_id s =? id
  | None => false
  end.
Definition active_office_turn_count : store Z :=
  read (fun db => count_where (fun t =>
    session_of_cycle db (OfficeTurns.root_authority_office_session_id t)
    && (OfficeTurns.lifecycle_state t =? OfficeTurnState.as_i64 OfficeTurnState.Active))
    (Database.office_turns db)).

Definition is_terminal_session (state : Z) : bool :=
  one_of [OfficeSessionState.as_i64 OfficeSessionState.Closed;
          OfficeSessionState.as_i64 OfficeSessionState.Cancelled;
          OfficeSessionState.as_i64 OfficeSessionState.Failed] state.
Definition live_office_session_count : store Z :=
  read (fun db => count_where (fun s =>
    (RootAuthorityOfficeSessions.operating_cycle_id s =? id)
    && negb (is_terminal_session (RootAuthorityOfficeSessions.lifecycle_state s)))
    (Database.root_authority_office_sessions db)).

Definition unreconciled_reservation_count : store Z :=
  read (fun db => count_where (fun r =>
    (BudgetReservations.operating_cycle_id r =? id)
    && negb (BudgetReservations.reservation_state r
             =? BudgetReservationState.as_i64 BudgetReservationState.Reconciled))
    (Database.budget_reservations db)).

Definition is_active_cancellation (r : CancellationRequests.t) : bool :=
  (CancellationRequests.operating_cycle_id r =? id)
  && negb (one_of [CancellationState.as_i64 CancellationState.Completed;
                   CancellationState.as_i64 CancellationState.ContainmentFailed]
             (CancellationRequests.lifecycle_state r)).
Definition active_cancellation_count : store Z :=
  read (fun db => count_where is_active_cancellation (Database.cancellation_requests db)).

Definition instance_of_cycle (db : Database.t) (instance : Z) : bool :=
  match rows (Database.actor_instances db) !! instance with
  | Some a => ActorInstances.operating_cycle_id a =? id
  | None => false
  end.
Definition active_work_lease_count : store Z :=
  read (fun db => count_where (fun l =>
    instance_of_cycle db (Leases.actor_instance_id l)
    && (Leases.lifecycle_state l =? WorkLeaseState.as_i64 WorkLeaseState.Active))
    (Database.leases db)).

Definition live_actor_attempt_count : store Z :=
  read (fun db => count_where (fun a =>
    (Attempts.operating_cycle_id a =? id)
    && one_of [ActorAttemptState.as_i64 ActorAttemptState.Running;
               ActorAttemptState.as_i64 ActorAttemptState.CancellationRequested]
         (Attempts.lifecycle_state a))
    (Database.attempts db)).

Definition admission_of_cycle (db : Database.t) (admission : Z) : bool :=
  match rows (Database.native_child_spawn_admissions db) !! admission with
  | Some a => NativeChildSpawnAdmissions.operating_cycle_id a =? id
  | None => false
  end.
Definition live_native_child_count : store Z :=
  read (fun db => count_where (fun p =>
    admission_of_cycle db (NativeChildren.native_child_spawn_admission_id p)
    && negb (NativeChildren.lifecycle_state p
             =? ChildProcessState.as_i64 ChildProcessState.Finalized))
    (Database.native_children db)).

(** The sidecar shares the key of its admission. *)
Definition undisposed_pi_workspace_count : store Z :=
  read (fun db => Z.of_nat (length (List.filter (fun kr => admission_of_cycle db kr.1)
    (map_to_list (rows (Database.pi_child_spawn_sidecars db)))))).

(** [ORDER BY cancellation_request_id ASC LIMIT 1]. *)
Definition active_cancellation_for_cycle : store (option CancellationRequestId) :=
  let! row := read (fun db => head (order_by fst
    (rows_where is_active_cancellation (Database.cancellation_requests db)))) in
  match row with
  | None => m_ret None
  | Some row =>
      let! id := or_reject (Identifier.try_from row.1) Rejection.SubjectNotFound in
      m_ret (Some id)
  end.
End Counts.

Definition session_has_active_turn (session_id : RootAuthorityOfficeSessionId) : store bool :=
  read (fun db => exists_where (fun t =>
    (OfficeTurns.root_authority_office_session_id t =? Identifier.value session_id)
    && (OfficeTurns.lifecycle_state t =? OfficeTurnState.as_i64 OfficeTurnState.Active))
    (Database.office_turns db)).
