(* ===== verification/StoreFounding.v ===== *)
(** * Founding transitions

    [society-kernel/src/store.rs], [create_society] to [bootstrap_society], and the content
    receipts and objects that the founding mission is bound to. *)

From S2P Require Import Prelude.
From S2P Require Import Machine.
From S2P Require Import KernelScalars.
From S2P Require Import KernelEnums.
From S2P Require Import KernelCustody.
From S2P Require Import KernelCommands.
From S2P Require Import KernelCodes.
From S2P Require Import SqlTable.
From S2P Require Import StoreTables.
From S2P Require Import StoreQueries.

(** [EXISTS] on a whole table: [exists(transaction, query)]. *)
Definition exists_rows {R} (proj : Database.t -> table R) (p : R -> bool) : store bool :=
  read (fun db => exists_where p (proj db)).

Definition create_society (name : SocietyName.t) : store EventBody.t :=
  let! present := exists_rows Database.societies (fun _ => true) in
  ensure (negb present) Rejection.FoundingInvariant ;!
  let! id := insert_into Database.societies (Societies.new (SocietyName.as_str name) 1)
    Rejection.FoundingInvariant in
  let! society_id := returned_identity id in
  m_ret (EventBody.SocietyIdentityCreated society_id).

Definition install_root_authority_office (command_row_id : Z) : store EventBody.t :=
  let! society_exists := exists_rows Database.societies (fun _ => true) in
  let! office_exists := exists_rows Database.office_contracts
    (fun r => OfficeContracts.office_kind r =? 1) in
  ensure (society_exists && negb office_exists) Rejection.FoundingInvariant ;!
  let! id := insert_into Database.office_contracts
    (OfficeContracts.new (OfficeKind.as_i64 OfficeKind.RootAuthorityOffice) command_row_id)
    Rejection.FoundingInvariant in
  let! office_id := returned_identity id in
  m_ret (EventBody.RootAuthorityOfficeInstalled office_id).

(** ** Sealed content *)

Definition record_content_seal_receipt (command_row_id : Z) (digest : Blake3Digest.t) :
  store EventBody.t :=
  let! duplicate := exists_rows Database.content_seal_receipts
    (fun r => bool_decide (ContentSealReceipts.digest r = Blake3Digest.as_bytes digest)) in
  ensure (negb duplicate) Rejection.ContentObjectNotSealed ;!
  let! id := insert_into Database.content_seal_receipts
    (ContentSealReceipts.new (Blake3Digest.as_bytes digest) command_row_id)
    Rejection.ContentObjectNotSealed in
  let! content_seal_receipt_id := returned_identity id in
  m_ret (EventBody.ContentSealReceiptRecorded content_seal_receipt_id digest).

Definition register_content_object (command_row_id : Z)
  (content_seal_receipt_id : ContentSealReceiptId) : store EventBody.t :=
  let! present := read (fun db => not_null
    (rows (Database.content_seal_receipts db) !! Identifier.value content_seal_receipt_id)) in
  ensure present Rejection.ContentSealReceiptMissing ;!
  let! registered := exists_rows Database.content_objects
    (fun o => ContentObjects.content_seal_receipt_id o
              =? Identifier.value content_seal_receipt_id) in
  ensure (negb registered) Rejection.ContentObjectNotSealed ;!
  let! id := insert_into Database.content_objects
    (ContentObjects.new (Identifier.value content_seal_receipt_id) command_row_id)
    Rejection.ContentObjectNotSealed in
  let! content_object_id := returned_identity id in
  m_ret (EventBody.ContentObjectRegistered content_object_id content_seal_receipt_id).

(** The join of [content_seal_receipts] and [content_objects] on the receipt. *)
Definition sealed_object (db : Database.t) (digest : Blake3Digest.t) : option (Z * ContentObjects.t) :=
  row_where (fun o =>
    match rows (Database.content_seal_receipts db)
            !! ContentObjects.content_seal_receipt_id o with
    | Some receipt =>
        bool_decide (ContentSealReceipts.digest receipt = Blake3Digest.as_bytes digest)
    | None => false
    end) (Database.content_objects db).
Definition mission_source_content_object_id (digest : Blake3Digest.t) : store ContentObjectId :=
  let! object := read (fun db => sealed_object db digest) in
  let! object := require object Rejection.MissionSourceContentNotSealed in
  or_reject (Identifier.try_from object.1) Rejection.MissionSourceContentNotSealed.

(** The principles in order, numbered from one. *)
Fixpoint insert_principles (application_revision_id : Z) (ordinal : Z)
  (principles : list MissionPrinciple.t) : store unit :=
  match principles with
  | [] => m_ret ()
  | principle :: principles =>
      insert_into Database.application_revision_principles
        (ApplicationRevisionPrinciples.new application_revision_id ordinal
           (MissionPrincipleKind.as_i64 (MissionPrinciple.kind principle))
           (MissionText.as_str (MissionPrinciple.text principle)))
        Rejection.FoundingInvariant ;!
      insert_principles application_revision_id (ordinal + 1) principles
  end.

Definition install_founding_mission (command_row_id : Z) (mission : ApplicationMissionInput.t) :
  store EventBody.t :=
  let! society_id := only_society_id in
  let! society := read (fun db => row_where (fun _ => true) (Database.societies db)) in
  let! installed := exists_rows Database.founding_missions (fun r =>
    match society with Some s => FoundingMissions.society_id r =? s.1 | None => false end) in
  ensure (negb installed) Rejection.FoundingInvariant ;!
  let! source_content_object_id :=
    mission_source_content_object_id
      (ApplicationMissionInput.source_rendering_digest mission) in
  let! id := insert_into Database.applications
    (Applications.new
       (ApplicationIdentity.as_str (ApplicationMissionInput.application_identity mission))
       (ApplicationName.as_str (ApplicationMissionInput.application_name mission))
       command_row_id)
    Rejection.FoundingInvariant in
  let! application_id := @returned_identity "ApplicationId" id in
  let! id := insert_into Database.application_revisions
    (ApplicationRevisions.new (Identifier.value application_id)
       (ApplicationRevisionOrdinal.value (ApplicationMissionInput.revision_ordinal mission))
       (MissionText.as_str (ApplicationMissionInput.statement mission))
       (Blake3Digest.as_bytes (ApplicationMissionInput.source_rendering_digest mission))
       (Identifier.value source_content_object_id) command_row_id)
    Rejection.FoundingInvariant in
  let! application_revision_id := returned_identity id in
  insert_principles (Identifier.value application_revision_id) 1
    (MissionPrinciples.as_slice (ApplicationMissionInput.principles mission)) ;!
  insert_with_key Database.application_revision_north_star_questions
    (Identifier.value application_revision_id)
    (let questions := ApplicationMissionInput.north_star_questions mission in
     ApplicationRevisionNorthStarQuestions.new
       (MissionText.as_str (NorthStarQuestionSet.change questions))
       (MissionText.as_str (NorthStarQuestionSet.improvement_evidence questions))
       (MissionText.as_str (NorthStarQuestionSet.boundary_commitment questions))
       (MissionText.as_str (NorthStarQuestionSet.revisit questions)))
    Rejection.FoundingInvariant ;!
  let! id := insert_into Database.founding_missions
    (FoundingMissions.new (Identifier.value society_id)
       (Identifier.value application_revision_id)
       (ApplicationRevisionOrdinal.value (ApplicationMissionInput.revision_ordinal mission))
       true command_row_id)
    Rejection.FoundingInvariant in
  let! mission_id := returned_identity id in
  m_ret (EventBody.FoundingMissionInstalled mission_id application_revision_id).

(** [for capability in Capability::ROOT_AUTHORITY]. *)
Fixpoint grant_to_occupant (command_row_id : Z) (actor_principal : PrincipalId)
  (occupancy_id : OfficeOccupancyId) (capabilities : list Capability.t) : store unit :=
  match capabilities with
  | [] => m_ret ()
  | capability :: capabilities =>
      insert_into Database.capability_grants
        (CapabilityGrants.new (Identifier.value actor_principal) (Capability.as_i64 capability)
           (Some (Identifier.value occupancy_id)) None 1 2 (Some command_row_id) None)
        Rejection.FoundingInvariant ;!
      grant_to_occupant command_row_id actor_principal occupancy_id capabilities
  end.

(** The office of the occupancy query is the same office, read again. *)
Definition appoint_initial_root_authority (command_row_id : Z) (actor_display_name : string) :
  store EventBody.t :=
  let! office_id := root_authority_office_id in
  let! occupied := read (fun db =>
    exists_where (fun r => is_root_authority_office db (OfficeOccupancies.office_id r)
                           && OfficeOccupancies.active r)
      (Database.office_occupancies db)) in
  ensure (negb occupied) Rejection.FoundingInvariant ;!
  let! id := insert_into Database.principals
    (Principals.new (PrincipalKind.as_i64 PrincipalKind.Actor) actor_display_name true)
    Rejection.FoundingInvariant in
  let! actor_principal := returned_identity id in
  let! id := insert_into Database.office_occupancies
    (OfficeOccupancies.new (Identifier.value office_id) (Identifier.value actor_principal)
       true command_row_id)
    Rejection.ActiveOfficeOccupancyAlreadyExists in
  let! occupancy_id := returned_identity id in
  grant_to_occupant command_row_id actor_principal occupancy_id Capability.ROOT_AUTHORITY ;!
  m_ret (EventBody.RootAuthorityAppointed occupancy_id actor_principal).

Definition set_r0_hard_ceiling (ceiling : UsdMicros.t) : store EventBody.t :=
  let! society_id := only_society_id in
  let! bootstrapped := exists_rows Database.society_bootstraps (fun _ => true) in
  ensure (negb bootstrapped) Rejection.FoundingInvariant ;!
  ensure (negb (UsdMicros.value ceiling =? UsdMicros.value UsdMicros.ZERO))
    Rejection.BudgetPolicyViolation ;!
  m_ret (EventBody.R0HardCeilingSet society_id ceiling).

Definition bootstrap_society (command_row_id : Z) : store EventBody.t :=
  let! society_id := only_society_id in
  let! bootstrapped := exists_rows Database.society_bootstraps (fun _ => true) in
  ensure (negb bootstrapped) Rejection.FoundingInvariant ;!
  let! mission_id := active_founding_mission_id society_id in
  let! office_id := root_authority_office_id in
  let! occupancy_id := active_root_authority_occupancy_id in
  let! ceiling := hard_ceiling_from_event_body in
  insert_with_key Database.society_bootstraps (Identifier.value society_id)
    (SocietyBootstraps.new (Identifier.value mission_id) (Identifier.value office_id)
       (Identifier.value occupancy_id) (UsdMicros.value ceiling) command_row_id)
    Rejection.FoundingInvariant ;!
  update_row Database.societies (Identifier.value society_id)
    (fun r => r <| Societies.lifecycle_state := 2 |>) Rejection.FoundingInvariant ;!
  let! budget_envelope_id := create_budget_envelope command_row_id ceiling in
  insert_into Database.budget_envelope_constraints
    (BudgetEnvelopeConstraints.new (Identifier.value budget_envelope_id)
       (Some (Identifier.value society_id)) None)
    Rejection.FoundingInvariant ;!
  m_ret (EventBody.SocietyBootstrapped society_id).
