(* ===== verification/StoreCycle.v ===== *)
(** * Operating cycles and office sessions

    [society-kernel/src/store.rs], [propose_operating_cycle] to [open_office_turn] and
    [quiesce_cycle] to [close_cycle]: the lifecycle of a cycle with its admission
    generation, and of the office session that works in it. *)

From S2P Require Import Prelude.
From S2P Require Import Machine.
From S2P Require Import KernelScalars.
From S2P Require Import KernelEnums.
From S2P Require Import KernelCustody.
From S2P Require Import KernelCommands.
From S2P Require Import KernelCodes.
From S2P Require Import SqlTable.
From S2P Require Import StoreTables.
From S2P Require Import StoreQueries.
From S2P Require Import StoreFounding.

Definition cycle_in (states : list OperatingCycleState.t) (cycle : CycleRow.t) : bool :=
  bool_decide (CycleRow.state cycle ∈ states).

Definition propose_operating_cycle (command_row_id : Z) (treatment : OperatingCycleTreatment.t)
  (budget_ceiling : UsdMicros.t) : store EventBody.t :=
  let! constitution := bootstrapped_constitution in
  let '(society_id, mission_id, occupancy_id, society_hard_ceiling) := constitution in
  ensure (negb ((UsdMicros.value budget_ceiling =? UsdMicros.value UsdMicros.ZERO)
                || (UsdMicros.value society_hard_ceiling <? UsdMicros.value budget_ceiling)))
    Rejection.BudgetPolicyViolation ;!
  let! active := exists_rows Database.operating_cycles
    (fun r => negb (one_of [7; 10; 11] (OperatingCycles.lifecycle_state r))) in
  ensure (negb active) Rejection.ActiveCycleAlreadyExists ;!
  let! id := insert_into Database.operating_cycles
    (OperatingCycles.new (Identifier.value society_id) (Identifier.value mission_id)
       (Identifier.value occupancy_id) (OperatingCycleTreatment.as_i64 treatment)
       (UsdMicros.value budget_ceiling)
       (OperatingCycleState.as_i64 OperatingCycleState.Proposed) 0
       command_row_id command_row_id)
    Rejection.ActiveCycleAlreadyExists in
  let! cycle_id := returned_identity id in
  let! budget_envelope_id := create_budget_envelope command_row_id budget_ceiling in
  insert_into Database.budget_envelope_constraints
    (BudgetEnvelopeConstraints.new (Identifier.value budget_envelope_id) None
       (Some (Identifier.value cycle_id)))
    Rejection.FoundingInvariant ;!
  m_ret (EventBody.OperatingCycleProposed cycle_id AdmissionGeneration.INITIAL treatment
           budget_ceiling).

(** [UPDATE operating_cycles SET lifecycle_state = $1, last_transition_command_id = $2]. *)
Definition set_cycle_state (command_row_id : Z) (cycle_id : OperatingCycleId)
  (state : OperatingCycleState.t) (e : Rejection.t) : store unit :=
  update_row Database.operating_cycles (Identifier.value cycle_id) (fun r =>
    r <| OperatingCycles.lifecycle_state := OperatingCycleState.as_i64 state |>
      <| OperatingCycles.last_transition_command_id := command_row_id |>) e.
Definition set_cycle_started (command_row_id : Z) (cycle_id : OperatingCycleId)
  (e : Rejection.t) : store unit :=
  update_row Database.operating_cycle_admissions (Identifier.value cycle_id) (fun r =>
    r <| OperatingCycleAdmissions.started_by_command_id := Some command_row_id |>) e.

Definition admit_operating_cycle (command_row_id : Z)
  (expected_generation : ExpectedGeneration.t) (cycle_id : OperatingCycleId) :
  store EventBody.t :=
  let! cycle := cycle_for_generation cycle_id expected_generation in
  ensure (cycle_in [OperatingCycleState.Proposed] cycle) Rejection.InvalidLifecycleTransition ;!
  set_cycle_state command_row_id cycle_id OperatingCycleState.Admitted_
    Rejection.SubjectNotFound ;!
  insert_with_key Database.operating_cycle_admissions (Identifier.value cycle_id)
    (OperatingCycleAdmissions.new command_row_id None) Rejection.InvalidLifecycleTransition ;!
  m_ret (EventBody.OperatingCycleStateChanged cycle_id OperatingCycleState.Admitted_
           (CycleRow.generation cycle)).

Definition start_office_session (command_row_id : Z)
  (expected_generation : ExpectedGeneration.t) (cycle_id : OperatingCycleId) :
  store EventBody.t :=
  let! cycle := cycle_for_generation cycle_id expected_generation in
  ensure (cycle_in [OperatingCycleState.Admitted_] cycle) Rejection.InvalidLifecycleTransition ;!
  set_cycle_state command_row_id cycle_id OperatingCycleState.Running
    Rejection.SubjectNotFound ;!
  set_cycle_started command_row_id cycle_id Rejection.InvalidLifecycleTransition ;!
  let! id := insert_into Database.root_authority_office_sessions
    (RootAuthorityOfficeSessions.new (Identifier.value cycle_id)
       (Identifier.value (CycleRow.occupancy_id cycle))
       (OfficeSessionState.as_i64 OfficeSessionState.Reserved) command_row_id command_row_id)
    Rejection.InvalidLifecycleTransition in
  let! session_id := returned_identity id in
  m_ret (EventBody.RootAuthorityOfficeSessionStarted session_id cycle_id).

Definition start_native_execution_profile_qualification (command_row_id : Z)
  (expected_generation : ExpectedGeneration.t) (operating_cycle_id : OperatingCycleId) :
  store EventBody.t :=
  let! cycle := cycle_for_generation operating_cycle_id expected_generation in
  ensure (bool_decide (CycleRow.treatment cycle = OperatingCycleTreatment.PiSdkQualificationV1))
    Rejection.QualificationTreatmentRestricted ;!
  ensure (cycle_in [OperatingCycleState.Admitted_] cycle) Rejection.InvalidLifecycleTransition ;!
  set_cycle_state command_row_id operating_cycle_id OperatingCycleState.Running
    Rejection.SubjectNotFound ;!
  set_cycle_started command_row_id operating_cycle_id Rejection.InvalidLifecycleTransition ;!
  m_ret (EventBody.NativeExecutionProfileQualificationStarted operating_cycle_id
           (CycleRow.generation cycle)).

(** ** Office sessions *)

(** The admission of the child that a session is bound to. *)
Definition session_admission (session_id : RootAuthorityOfficeSessionId) : store (option Z) :=
  read (fun db => option_map fst (row_where (fun a =>
    same_key (NativeChildSpawnAdmissions.root_authority_office_session_id a)
      (Some (Identifier.value session_id)))
    (Database.native_child_spawn_admissions db))).
(** [native_children] joined with [pi_child_session_protocols]: a running child of the
    admission whose session is ready. *)
Definition child_is_session_ready (db : Database.t) (admission_id : Z) : bool :=
  existsb (fun kr =>
    (NativeChildren.native_child_spawn_admission_id kr.2 =? admission_id)
    && (NativeChildren.lifecycle_state kr.2 =? ChildProcessState.as_i64 ChildProcessState.Running)
    && match rows (Database.pi_child_session_protocols db) !! kr.1 with
       | Some p => PiChildSessionProtocols.lifecycle_state p
                   =? PiChildSessionState.as_i64 PiChildSessionState.SessionReady
       | None => false
       end) (map_to_list (rows (Database.native_children db))).

Definition set_session_state (command_row_id : Z) (session_id : RootAuthorityOfficeSessionId)
  (state : OfficeSessionState.t) : store unit :=
  update_row Database.root_authority_office_sessions (Identifier.value session_id) (fun r =>
    r <| RootAuthorityOfficeSessions.lifecycle_state := OfficeSessionState.as_i64 state |>
      <| RootAuthorityOfficeSessions.last_transition_command_id := command_row_id |>)
    Rejection.SubjectNotFound.

Definition record_office_session_ready (command_row_id : Z)
  (expected_generation : ExpectedGeneration.t) (session_id : RootAuthorityOfficeSessionId) :
  store EventBody.t :=
  let! row := session_row session_id in
  let '(state, cycle_id) := row in
  let! cycle := cycle_for_generation cycle_id expected_generation in
  ensure (negb (negb (bool_decide (state = OfficeSessionState.Reserved))
                || negb (cycle_in [OperatingCycleState.Running] cycle)))
    Rejection.InvalidLifecycleTransition ;!
  let! supervised_admission := session_admission session_id in
  let! admission_id := require supervised_admission Rejection.ChildLifecycleReceiptMissing in
  let! session_ready := read (fun db => child_is_session_ready db admission_id) in
  ensure session_ready Rejection.ChildLifecycleReceiptMissing ;!
  set_session_state command_row_id session_id OfficeSessionState.Ready ;!
  m_ret (EventBody.RootAuthorityOfficeSessionStateChanged session_id OfficeSessionState.Ready).

(** The terminal state that the observed classification leads to. *)
Definition terminal_session_state (terminal_state : OfficeSessionTerminalState.t)
  (state : OfficeSessionState.t) (cycle : OperatingCycleState.t) : option OfficeSessionState.t :=
  match terminal_state with
  | OfficeSessionTerminalState.Closed =>
      if bool_decide (state = OfficeSessionState.Ready)
         && bool_decide (cycle = OperatingCycleState.Reconciling)
      then Some OfficeSessionState.Closed else None
  | OfficeSessionTerminalState.Cancelled =>
      if bool_decide (state ∈ [OfficeSessionState.Reserved; OfficeSessionState.Ready])
         && bool_decide (cycle = OperatingCycleState.Cancelling)
      then Some OfficeSessionState.Cancelled else None
  | OfficeSessionTerminalState.Failed =>
      if negb (bool_decide (state ∈ [OfficeSessionState.Closed; OfficeSessionState.Cancelled;
                                     OfficeSessionState.Failed]))
         && OperatingCycleState.is_nonterminal cycle
      then Some OfficeSessionState.Failed else None
  end.

Definition record_office_session_terminal (command_row_id : Z)
  (expected_generation : ExpectedGeneration.t) (session_id : RootAuthorityOfficeSessionId)
  (terminal_state : OfficeSessionTerminalState.t) : store EventBody.t :=
  let! row := session_row session_id in
  let '(state, cycle_id) := row in
  let! cycle := cycle_for_generation cycle_id expected_generation in
  let! active_turn := session_has_active_turn session_id in
  ensure (negb active_turn) Rejection.InvalidLifecycleTransition ;!
  let! supervised_admission := session_admission session_id in
  ensure (is_null supervised_admission) Rejection.SupervisedTerminalReceiptRequired ;!
  let! next_state := require (terminal_session_state terminal_state state
    (CycleRow.state cycle)) Rejection.InvalidLifecycleTransition in
  set_session_state command_row_id session_id next_state ;!
  m_ret (EventBody.RootAuthorityOfficeSessionStateChanged session_id next_state).

Definition purpose_is_admitted (purpose : OfficeTurnPurpose.t) (cycle : CycleRow.t) : bool :=
  match purpose with
  | OfficeTurnPurpose.OrdinaryWork => OperatingCycleState.admits_task_work (CycleRow.state cycle)
  | OfficeTurnPurpose.Recovery | OfficeTurnPurpose.Cancellation
  | OfficeTurnPurpose.Closure =>
      cycle_in [OperatingCycleState.Quiescing; OperatingCycleState.Drained;
                OperatingCycleState.Reconciling] cycle
  end.

Definition open_office_turn (command_row_id : Z)
  (expected_generation : ExpectedGeneration.t) (session_id : RootAuthorityOfficeSessionId)
  (purpose : OfficeTurnPurpose.t) : store EventBody.t :=
  let! row := session_row session_id in
  let '(state, cycle_id) := row in
  let! cycle := cycle_for_generation cycle_id expected_generation in
  let! supervised_admission := session_admission session_id in
  let! admission_id := require supervised_admission Rejection.ChildLifecycleReceiptMissing in
  let! child_is_operational := read (fun db => child_is_session_ready db admission_id) in
  ensure child_is_operational Rejection.InvalidLifecycleTransition ;!
  ensure (negb (negb (bool_decide (state = OfficeSessionState.Ready))
                || negb (purpose_is_admitted purpose cycle)))
    Rejection.InvalidLifecycleTransition ;!
  set_session_state command_row_id session_id OfficeSessionState.TurnActive ;!
  let! id := insert_into Database.office_turns
    (OfficeTurns.new (Identifier.value session_id)
       (OfficeTurnState.as_i64 OfficeTurnState.Active) (OfficeTurnPurpose.as_i64 purpose)
       command_row_id None)
    Rejection.SessionTurnAlreadyActive in
  let! turn_id := returned_identity id in
  m_ret (EventBody.OfficeTurnOpened turn_id session_id purpose).

(** ** Quiescence to closure *)

Definition quiesce_cycle (command_row_id : Z) (expected_generation : ExpectedGeneration.t)
  (cycle_id : OperatingCycleId) : store EventBody.t :=
  let! cycle := cycle_for_generation cycle_id expected_generation in
  ensure (cycle_in [OperatingCycleState.Admitted_; OperatingCycleState.Running] cycle)
    Rejection.InvalidLifecycleTransition ;!
  let! new_generation := or_reject (AdmissionGeneration.increment (CycleRow.generation cycle))
    Rejection.InvalidLifecycleTransition in
  transition_cycle command_row_id cycle_id OperatingCycleState.Quiescing new_generation ;!
  m_ret (EventBody.OperatingCycleStateChanged cycle_id OperatingCycleState.Quiescing
           new_generation).

(** The fences of [record_cycle_drained], in the order of the source; a later query is not
    made when an earlier one answers. *)
Definition cycle_is_busy (cycle_id : OperatingCycleId) : store bool :=
  let! turns := active_office_turn_count cycle_id in
  if negb (turns =? 0) then m_ret true else
  let! attempts := live_actor_attempt_count cycle_id in
  if negb (attempts =? 0) then m_ret true else
  let! leases := active_work_lease_count cycle_id in
  if negb (leases =? 0) then m_ret true else
  let! children := live_native_child_count cycle_id in
  m_ret (negb (children =? 0)).

Definition record_cycle_drained (command_row_id : Z) (cycle_id : OperatingCycleId) :
  store EventBody.t :=
  let! cycle := cycle_row cycle_id in
  ensure (cycle_in [OperatingCycleState.Quiescing] cycle) Rejection.InvalidLifecycleTransition ;!
  let! busy := cycle_is_busy cycle_id in
  ensure (negb busy) Rejection.InvalidLifecycleTransition ;!
  let! cancellations := active_cancellation_count cycle_id in
  let next_state := if negb (cancellations =? 0) then OperatingCycleState.Cancelling
                    else OperatingCycleState.Drained in
  transition_cycle command_row_id cycle_id next_state (CycleRow.generation cycle) ;!
  m_ret (EventBody.OperatingCycleStateChanged cycle_id next_state (CycleRow.generation cycle)).

Definition resume_cycle (command_row_id : Z) (expected_generation : ExpectedGeneration.t)
  (cycle_id : OperatingCycleId) : store EventBody.t :=
  let! cycle := cycle_for_generation cycle_id expected_generation in
  ensure (cycle_in [OperatingCycleState.Drained] cycle) Rejection.InvalidLifecycleTransition ;!
  let! reservations := unreconciled_reservation_count cycle_id in
  let! cancellations := active_cancellation_count cycle_id in
  let! attempts := live_actor_attempt_count cycle_id in
  let! leases := active_work_lease_count cycle_id in
  let! children := live_native_child_count cycle_id in
  let! workspaces := undisposed_pi_workspace_count cycle_id in
  ensure ((reservations =? 0) && (cancellations =? 0) && (attempts =? 0) && (leases =? 0)
          && (children =? 0) && (workspaces =? 0))
    Rejection.IncompleteCycleReconciliation ;!
  transition_cycle command_row_id cycle_id OperatingCycleState.Running
    (CycleRow.generation cycle) ;!
  m_ret (EventBody.OperatingCycleStateChanged cycle_id OperatingCycleState.Running
           (CycleRow.generation cycle)).

Definition begin_reconciliation (command_row_id : Z)
  (expected_generation : ExpectedGeneration.t) (cycle_id : OperatingCycleId) :
  store EventBody.t :=
  let! cycle := cycle_for_generation cycle_id expected_generation in
  ensure (cycle_in [OperatingCycleState.Drained] cycle) Rejection.InvalidLifecycleTransition ;!
  transition_cycle command_row_id cycle_id OperatingCycleState.Reconciling
    (CycleRow.generation cycle) ;!
  insert_with_key Database.operating_cycle_reconciliations (Identifier.value cycle_id)
    (OperatingCycleReconciliations.new command_row_id None)
    Rejection.InvalidLifecycleTransition ;!
  m_ret (EventBody.OperatingCycleStateChanged cycle_id OperatingCycleState.Reconciling
           (CycleRow.generation cycle)).

Definition close_cycle (command_row_id : Z) (expected_generation : ExpectedGeneration.t)
  (cycle_id : OperatingCycleId) : store EventBody.t :=
  let! cycle := cycle_for_generation cycle_id expected_generation in
  ensure (cycle_in [OperatingCycleState.Reconciling] cycle)
    Rejection.IncompleteCycleReconciliation ;!
  let! turns := active_office_turn_count cycle_id in
  let! sessions := live_office_session_count cycle_id in
  let! reservations := unreconciled_reservation_count cycle_id in
  let! cancellations := active_cancellation_count cycle_id in
  let! attempts := live_actor_attempt_count cycle_id in
  let! leases := active_work_lease_count cycle_id in
  let! children := live_native_child_count cycle_id in
  ensure ((turns =? 0) && (sessions =? 0) && (reservations =? 0) && (cancellations =? 0)
          && (attempts =? 0) && (leases =? 0) && (children =? 0))
    Rejection.IncompleteCycleReconciliation ;!
  transition_cycle command_row_id cycle_id OperatingCycleState.Closed
    (CycleRow.generation cycle) ;!
  update_row Database.operating_cycle_reconciliations (Identifier.value cycle_id) (fun r =>
    r <| OperatingCycleReconciliations.closed_by_command_id := Some command_row_id |>)
    Rejection.IncompleteCycleReconciliation ;!
  m_ret (EventBody.OperatingCycleStateChanged cycle_id OperatingCycleState.Closed
           (CycleRow.generation cycle)).
