(* ===== verification/StoreBudget.v ===== *)
(** * Budget reservations and cancellation

    [society-kernel/src/store.rs], [reserve_budget] to [close_cost_postmortem], and the two
    functions that reserve and reconcile the budget of an attempt.  A reservation holds its
    amount in the envelope of the society and in the envelope of the cycle; it ends
    reconciled, at once or through a cost postmortem. *)

From S2P Require Import Prelude.
From S2P Require Import Machine.
From S2P Require Import KernelScalars.
From S2P Require Import KernelEnums.
From S2P Require Import KernelCustody.
From S2P Require Import KernelCommands.
From S2P Require Import KernelCodes.
From S2P Require Import SqlTable.
From S2P Require Import StoreTables.
From S2P Require Import StoreQueries.

(** ** Reserving *)

(** The ceiling check of one envelope. *)
Definition envelope_admits (amount : UsdMicros.t) (budget_id : BudgetEnvelopeId) : store unit :=
  let! amounts := budget_amounts budget_id in
  let '(ceiling, reserved, spent) := amounts in
  let! next_reserved := require (UsdMicros.checked_add reserved amount)
    Rejection.BudgetCeilingExceeded in
  ensure (match UsdMicros.checked_add next_reserved spent with
          | None => false
          | Some value => negb (UsdMicros.value ceiling <? UsdMicros.value value)
          end) Rejection.BudgetCeilingExceeded.

(** [reserved_micros = reserved_micros + $1], and the charge of the reservation. *)
Definition charge_envelope (reservation_id : BudgetReservationId) (amount : UsdMicros.t)
  (budget_id : BudgetEnvelopeId) : store unit :=
  update_checked Database.budget_envelopes (Identifier.value budget_id) (fun r =>
    match checked_i64 (BudgetEnvelopes.reserved_micros r + UsdMicros.value amount) with
    | Some reserved => Some (r <| BudgetEnvelopes.reserved_micros := reserved |>)
    | None => None
    end) Rejection.BudgetCeilingExceeded ;!
  insert_into Database.budget_reservation_charges
    (BudgetReservationCharges.new (Identifier.value reservation_id)
       (Identifier.value budget_id) (UsdMicros.value amount))
    Rejection.BudgetCeilingExceeded ;!
  m_ret ().

(** What [reserve_budget] and [reserve_attempt_budget] do alike, statement by statement. *)
Definition hold_budget (command_row_id : Z) (cycle : CycleRow.t) (cycle_id : OperatingCycleId)
  (amount : UsdMicros.t) : store BudgetReservationId :=
  let! budgets := budget_envelopes_for_cycle (CycleRow.society_id cycle) cycle_id in
  let '(society_budget, cycle_budget) := budgets in
  for_each (envelope_admits amount) [society_budget; cycle_budget] ;!
  let! id := insert_into Database.budget_reservations
    (BudgetReservations.new (Identifier.value cycle_id) (UsdMicros.value amount) 0
       (BudgetReservationState.as_i64 BudgetReservationState.Reserved) command_row_id None)
    Rejection.BudgetCeilingExceeded in
  let! reservation_id := returned_identity id in
  for_each (charge_envelope reservation_id amount) [society_budget; cycle_budget] ;!
  m_ret reservation_id.

Definition reserve_attempt_budget (command_row_id : Z) (cycle : CycleRow.t)
  (cycle_id : OperatingCycleId) (amount : UsdMicros.t) : store BudgetReservationId :=
  ensure (negb (UsdMicros.value amount =? UsdMicros.value UsdMicros.ZERO))
    Rejection.BudgetCeilingExceeded ;!
  hold_budget command_row_id cycle cycle_id amount.

Definition reserve_budget (command_row_id : Z) (expected_generation : ExpectedGeneration.t)
  (cycle_id : OperatingCycleId) (amount : UsdMicros.t) : store EventBody.t :=
  let! cycle := cycle_for_generation cycle_id expected_generation in
  ensure (negb (UsdMicros.value amount =? UsdMicros.value UsdMicros.ZERO))
    Rejection.BudgetCeilingExceeded ;!
  ensure (OperatingCycleState.admits_task_work (CycleRow.state cycle))
    Rejection.InvalidLifecycleTransition ;!
  let! reservation_id := hold_budget command_row_id cycle cycle_id amount in
  m_ret (EventBody.BudgetReserved reservation_id cycle_id amount).

(** ** Reconciling *)

(** The charges of a reservation: [ORDER BY budget_envelope_id]. *)
Definition reservation_charges (db : Database.t) (reservation_id : Z) :
  list (Z * BudgetReservationCharges.t) :=
  order_by (fun kr => BudgetReservationCharges.budget_envelope_id kr.2)
    (rows_where (fun c => BudgetReservationCharges.budget_reservation_id c =? reservation_id)
       (Database.budget_reservation_charges db)).

(** [reserved_micros = reserved_micros - $1, spent_micros = spent_micros + $2]. *)
Definition release_reserved (released charged : Z) (r : BudgetEnvelopes.t) :
  option BudgetEnvelopes.t :=
  match checked_i64 (BudgetEnvelopes.reserved_micros r - released),
        checked_i64 (BudgetEnvelopes.spent_micros r + charged) with
  | Some reserved, Some spent =>
      Some (r <| BudgetEnvelopes.reserved_micros := reserved |>
              <| BudgetEnvelopes.spent_micros := spent |>)
  | _, _ => None
  end.
Definition settle_charge (charged : Z) (charge : Z * BudgetReservationCharges.t) : store unit :=
  update_checked Database.budget_envelopes
    (BudgetReservationCharges.budget_envelope_id charge.2)
    (release_reserved (BudgetReservationCharges.amount_micros charge.2) charged)
    Rejection.BudgetCeilingExceeded.
Definition set_reconciled (command_row_id reservation_id charged : Z) (e : Rejection.t) :
  store unit :=
  update_row Database.budget_reservations reservation_id (fun r =>
    r <| BudgetReservations.reservation_state :=
           BudgetReservationState.as_i64 BudgetReservationState.Reconciled |>
      <| BudgetReservations.charged_micros := charged |>
      <| BudgetReservations.reconciled_by_command_id := Some command_row_id |>) e.

(** The active cancellation of the cycle, or a new one. *)
Definition freeze_cancellation (command_row_id : Z) (cycle_id : OperatingCycleId)
  (cycle : CycleRow.t) : store CancellationRequestId :=
  let! active := active_cancellation_for_cycle cycle_id in
  match active with
  | Some existing => m_ret existing
  | None =>
      let! id := insert_into Database.cancellation_requests
        (CancellationRequests.new (Identifier.value cycle_id)
           (CancellationMode.as_i64 CancellationMode.GracefulCancel)
           (CancellationState.as_i64 CancellationState.Accepted)
           (AdmissionGeneration.value (CycleRow.generation cycle)) command_row_id None)
        Rejection.InvalidLifecycleTransition in
      returned_identity id
  end.

(** (cause, observed, unknown, unavailable) *)
Definition postmortem_columns (reason : BudgetFreezeReason.t) :
  CostPostmortemCause.t * option Z * option Z * option Z :=
  match reason with
  | BudgetFreezeReason.KnownOverrun observed _ =>
      (CostPostmortemCause.KnownOverrun, Some (UsdMicros.value observed), None, None)
  | BudgetFreezeReason.Unknown reason =>
      (CostPostmortemCause.UnknownCost, None, Some (CostUnknownReason.as_i64 reason), None)
  | BudgetFreezeReason.Unavailable reason =>
      (CostPostmortemCause.UnavailableCost, None, None,
       Some (CostUnavailableReason.as_i64 reason))
  end.

Definition freeze_budget_admission (command_row_id : Z) (reservation_id : BudgetReservationId)
  (cycle_id : OperatingCycleId) (reserved_amount : UsdMicros.t)
  (reason : BudgetFreezeReason.t) : store EventBody.t :=
  update_row Database.budget_reservations (Identifier.value reservation_id) (fun r =>
    r <| BudgetReservations.reservation_state :=
           BudgetReservationState.as_i64 BudgetReservationState.Frozen |>)
    Rejection.SubjectNotFound ;!
  let! cycle := cycle_row cycle_id in
  let! new_generation := or_reject (AdmissionGeneration.increment (CycleRow.generation cycle))
    Rejection.InvalidLifecycleTransition in
  transition_cycle command_row_id cycle_id OperatingCycleState.Cancelling new_generation ;!
  let! cancellation_request_id := freeze_cancellation command_row_id cycle_id cycle in
  let '(cause, observed, unknown, unavailable) := postmortem_columns reason in
  let! id := insert_into Database.cost_postmortems
    (CostPostmortems.new (Identifier.value reservation_id) (Identifier.value cycle_id)
       (Identifier.value cancellation_request_id) (CostPostmortemCause.as_i64 cause)
       observed (Some (UsdMicros.value reserved_amount)) unknown unavailable
       (CostPostmortemState.as_i64 CostPostmortemState.Open) command_row_id None)
    Rejection.InvalidLifecycleTransition in
  let! postmortem_id := returned_identity id in
  m_ret (EventBody.BudgetAdmissionFrozen reservation_id cycle_id cancellation_request_id
           postmortem_id reason).

(** The [Known] arm, within the reservation. *)
Definition reconcile_within_reservation (command_row_id : Z)
  (reservation_id : BudgetReservationId) (observed charged_amount : UsdMicros.t) :
  store EventBody.t :=
  let! charges := read (fun db => reservation_charges db (Identifier.value reservation_id)) in
  let! charge_delta := require (UsdMicros.checked_sub observed charged_amount)
    Rejection.PiOfficeTurnUsageNotMonotonic in
  for_each (settle_charge (UsdMicros.value charge_delta)) charges ;!
  set_reconciled command_row_id (Identifier.value reservation_id) (UsdMicros.value observed)
    Rejection.SubjectNotFound ;!
  m_ret (EventBody.BudgetReconciled reservation_id observed).

Definition reconcile_budget (command_row_id : Z) (reservation_id : BudgetReservationId)
  (observation : CostObservation.t) : store EventBody.t :=
  let! row := select Database.budget_reservations (Identifier.value reservation_id)
    Rejection.SubjectNotFound in
  ensure (BudgetReservations.reservation_state row
          =? BudgetReservationState.as_i64 BudgetReservationState.Reserved)
    Rejection.ReservationNotActive ;!
  let! office_parent := read (fun db =>
    exists_where (fun o => OfficeSessionBudgetReservations.budget_reservation_id o
                           =? Identifier.value reservation_id)
      (Database.office_session_budget_reservations db)) in
  ensure (negb office_parent) Rejection.OfficeSessionBudgetRequiresDispose ;!
  let! cycle_id := or_reject (Identifier.try_from (BudgetReservations.operating_cycle_id row))
    Rejection.SubjectNotFound in
  let! reserved_amount := or_reject (UsdMicros.try_from (BudgetReservations.amount_micros row))
    Rejection.SubjectNotFound in
  let! charged_amount := or_reject (UsdMicros.try_from (BudgetReservations.charged_micros row))
    Rejection.SubjectNotFound in
  ensure (negb (UsdMicros.value reserved_amount <? UsdMicros.value charged_amount))
    Rejection.ReservationNotActive ;!
  let! remaining_amount := require (UsdMicros.checked_sub reserved_amount charged_amount)
    Rejection.ReservationNotActive in
  match observation with
  | CostObservation.Known observed =>
      ensure (negb (UsdMicros.value observed <? UsdMicros.value charged_amount))
        Rejection.PiOfficeTurnUsageNotMonotonic ;!
      if UsdMicros.value reserved_amount <? UsdMicros.value observed then
        freeze_budget_admission command_row_id reservation_id cycle_id remaining_amount
          (BudgetFreezeReason.KnownOverrun observed remaining_amount)
      else
        reconcile_within_reservation command_row_id reservation_id observed charged_amount
  | CostObservation.Unknown reason =>
      freeze_budget_admission command_row_id reservation_id cycle_id remaining_amount
        (BudgetFreezeReason.Unknown reason)
  | CostObservation.Unavailable reason =>
      freeze_budget_admission command_row_id reservation_id cycle_id remaining_amount
        (BudgetFreezeReason.Unavailable reason)
  end.

Definition reconcile_task_attempt_reservation (command_row_id : Z)
  (reservation_id : BudgetReservationId) (observed : UsdMicros.t) :
  store PiTaskAttemptSessionDisposeBudgetDisposition.t :=
  let! row := select Database.budget_reservations (Identifier.value reservation_id)
    Rejection.ReservationNotActive in
  let amount := BudgetReservations.amount_micros row in
  let charged := BudgetReservations.charged_micros row in
  let! cycle_id := or_reject (Identifier.try_from (BudgetReservations.operating_cycle_id row))
    Rejection.ReservationNotActive in
  ensure (negb (negb (BudgetReservations.reservation_state row
                      =? BudgetReservationState.as_i64 BudgetReservationState.Reserved)
                || (UsdMicros.value observed <? charged) || (amount <? charged)))
    Rejection.PiTaskAttemptNotReconciled ;!
  if amount <? UsdMicros.value observed then
    let! remaining := or_reject (UsdMicros.try_from (amount - charged))
      Rejection.ReservationNotActive in
    let! frozen := freeze_budget_admission command_row_id reservation_id cycle_id remaining
      (BudgetFreezeReason.KnownOverrun observed remaining) in
    match frozen with
    | EventBody.BudgetAdmissionFrozen _ _ cancellation_request_id postmortem_id _ =>
        m_ret (PiTaskAttemptSessionDisposeBudgetDisposition.Frozen cancellation_request_id
                 postmortem_id)
    | _ => m_fail Rejection.PiTaskAttemptNotReconciled
    end
  else
    let delta := UsdMicros.value observed - charged in
    let! charges := read (fun db => reservation_charges db (Identifier.value reservation_id)) in
    for_each (settle_charge delta) charges ;!
    set_reconciled command_row_id (Identifier.value reservation_id) (UsdMicros.value observed)
      Rejection.ReservationNotActive ;!
    m_ret (PiTaskAttemptSessionDisposeBudgetDisposition.Reconciled observed).

(** ** Cancellation *)

Definition request_cancellation (command_row_id : Z)
  (expected_generation : ExpectedGeneration.t) (cycle_id : OperatingCycleId)
  (mode : CancellationMode.t) : store EventBody.t :=
  let! cycle := cycle_for_generation cycle_id expected_generation in
  ensure (negb (negb (OperatingCycleState.is_nonterminal (CycleRow.state cycle))
                || bool_decide (CycleRow.state cycle ∈
                     [OperatingCycleState.Reconciling; OperatingCycleState.Cancelling;
                      OperatingCycleState.Reaping])))
    Rejection.InvalidLifecycleTransition ;!
  let! new_generation := or_reject (AdmissionGeneration.increment (CycleRow.generation cycle))
    Rejection.InvalidLifecycleTransition in
  let cycle_state := match mode with
                     | CancellationMode.Quiesce => OperatingCycleState.Quiescing
                     | CancellationMode.GracefulCancel | CancellationMode.EmergencyStop =>
                         OperatingCycleState.Cancelling
                     end in
  transition_cycle command_row_id cycle_id cycle_state new_generation ;!
  let! id := insert_into Database.cancellation_requests
    (CancellationRequests.new (Identifier.value cycle_id) (CancellationMode.as_i64 mode)
       (CancellationState.as_i64 CancellationState.Accepted)
       (AdmissionGeneration.value (CycleRow.generation cycle)) command_row_id None)
    Rejection.InvalidLifecycleTransition in
  let! cancellation_request_id := returned_identity id in
  m_ret (EventBody.CancellationRequested cancellation_request_id cycle_id mode new_generation).

(** [native_children] joined with the admissions of the cycle. *)
Definition cycle_has_child (db : Database.t) (cycle_id : OperatingCycleId) : bool :=
  exists_where (fun p => admission_of_cycle cycle_id db
                           (NativeChildren.native_child_spawn_admission_id p))
    (Database.native_children db).
Definition propagation_is_reconciled (db : Database.t) (cancellation_request_id : Z) : bool :=
  exists_where (fun p =>
    (CancellationPropagations.cancellation_request_id p =? cancellation_request_id)
    && (CancellationPropagations.lifecycle_state p
        =? CancellationPropagationState.as_i64 CancellationPropagationState.Reconciled))
    (Database.cancellation_propagations db).

Definition reconcile_cancellation (command_row_id : Z)
  (cancellation_request_id : CancellationRequestId) : store EventBody.t :=
  let! row := select Database.cancellation_requests (Identifier.value cancellation_request_id)
    Rejection.SubjectNotFound in
  ensure (negb ((CancellationRequests.lifecycle_state row
                 =? CancellationState.as_i64 CancellationState.Completed)
                || (CancellationRequests.lifecycle_state row
                    =? CancellationState.as_i64 CancellationState.ContainmentFailed)))
    Rejection.CancellationAlreadyTerminal ;!
  let! cycle_id := or_reject (Identifier.try_from
    (CancellationRequests.operating_cycle_id row)) Rejection.SubjectNotFound in
  let! cycle := cycle_row cycle_id in
  ensure (bool_decide (CycleRow.state cycle = OperatingCycleState.Cancelling))
    Rejection.InvalidLifecycleTransition ;!
  let! turns := active_office_turn_count cycle_id in
  let! sessions := live_office_session_count cycle_id in
  ensure (negb (negb (turns =? 0) || negb (sessions =? 0)))
    Rejection.IncompleteCycleReconciliation ;!
  let! has_pi_child := read (fun db => cycle_has_child db cycle_id) in
  let! propagation_reconciled := read (fun db =>
    propagation_is_reconciled db (Identifier.value cancellation_request_id)) in
  ensure (negb (has_pi_child && negb propagation_reconciled))
    Rejection.CancellationPropagationIncomplete ;!
  update_row Database.cancellation_requests (Identifier.value cancellation_request_id) (fun r =>
    r <| CancellationRequests.lifecycle_state :=
           CancellationState.as_i64 CancellationState.Completed |>
      <| CancellationRequests.reconciled_by_command_id := Some command_row_id |>)
    Rejection.SubjectNotFound ;!
  transition_cycle command_row_id cycle_id OperatingCycleState.Drained
    (CycleRow.generation cycle) ;!
  m_ret (EventBody.CancellationReconciled cancellation_request_id cycle_id).

(** ** Cost postmortems *)

(** What the resolution charges; the resolution is fixed by the cause. *)
Definition resolution_charge (cause : CostPostmortemCause.t)
  (resolution : CostPostmortemResolution.t) (observed : option Z)
  (remaining reservation_charged : UsdMicros.t) : result UsdMicros.t Rejection.t :=
  match cause, resolution, observed with
  | CostPostmortemCause.KnownOverrun, CostPostmortemResolution.ChargeObservedOverrun,
    Some observed =>
      let? observed := map_err (fun _ => Rejection.SubjectNotFound)
                         (UsdMicros.try_from observed) in
      ok_or (UsdMicros.checked_sub observed reservation_charged)
        Rejection.InvalidCostPostmortemResolution
  | (CostPostmortemCause.UnknownCost | CostPostmortemCause.UnavailableCost),
    CostPostmortemResolution.ConservativeFullReservation, None => Ok remaining
  | _, _, _ => Err Rejection.InvalidCostPostmortemResolution
  end.

(** The writes of the resolution. *)
Definition settle_postmortem (command_row_id : Z) (postmortem_id : CostPostmortemId)
  (reservation_id : BudgetReservationId) (cycle_id : OperatingCycleId)
  (resolution : CostPostmortemResolution.t) (reservation_charged charged : UsdMicros.t) :
  store EventBody.t :=
  let! charges := read (fun db => reservation_charges db (Identifier.value reservation_id)) in
  for_each (settle_charge (UsdMicros.value charged)) charges ;!
  let! total := require (UsdMicros.checked_add reservation_charged charged)
    Rejection.BudgetCeilingExceeded in
  set_reconciled command_row_id (Identifier.value reservation_id) (UsdMicros.value total)
    Rejection.SubjectNotFound ;!
  update_row Database.cost_postmortems (Identifier.value postmortem_id) (fun r =>
    r <| CostPostmortems.lifecycle_state :=
           CostPostmortemState.as_i64 CostPostmortemState.Closed |>
      <| CostPostmortems.closed_by_command_id := Some command_row_id |>)
    Rejection.CostPostmortemNotOpen ;!
  insert_with_key Database.cost_postmortem_resolutions (Identifier.value postmortem_id)
    (CostPostmortemResolutions.new (CostPostmortemResolution.as_i64 resolution)
       (UsdMicros.value charged) command_row_id)
    Rejection.CostPostmortemNotOpen ;!
  m_ret (EventBody.CostPostmortemClosed postmortem_id reservation_id cycle_id resolution
           charged).

Definition close_cost_postmortem (command_row_id : Z)
  (expected_generation : ExpectedGeneration.t) (postmortem_id : CostPostmortemId)
  (resolution : CostPostmortemResolution.t) : store EventBody.t :=
  let! row := select Database.cost_postmortems (Identifier.value postmortem_id)
    Rejection.SubjectNotFound in
  (* [row.get::<_, i64>] of a null column is an error. *)
  let! reserved := require (CostPostmortems.reserved_micros row) Rejection.SubjectNotFound in
  ensure (CostPostmortems.lifecycle_state row
          =? CostPostmortemState.as_i64 CostPostmortemState.Open)
    Rejection.CostPostmortemNotOpen ;!
  let! reservation_id := or_reject (Identifier.try_from
    (CostPostmortems.budget_reservation_id row)) Rejection.SubjectNotFound in
  let! cycle_id := or_reject (Identifier.try_from (CostPostmortems.operating_cycle_id row))
    Rejection.SubjectNotFound in
  let! cycle := cycle_for_generation cycle_id expected_generation in
  let! cancellations :=
    if bool_decide (CycleRow.state cycle ∈ [OperatingCycleState.Drained;
                                            OperatingCycleState.Reconciling])
    then active_cancellation_count cycle_id else m_ret 1 in
  ensure (cancellations =? 0) Rejection.IncompleteCycleReconciliation ;!
  let! cause := or_reject (cost_postmortem_cause_from_i64 (CostPostmortems.cause_kind row))
    Rejection.SubjectNotFound in
  let! reserved := or_reject (UsdMicros.try_from reserved) Rejection.SubjectNotFound in
  let! reservation := select Database.budget_reservations (Identifier.value reservation_id)
    Rejection.SubjectNotFound in
  ensure (BudgetReservations.reservation_state reservation
          =? BudgetReservationState.as_i64 BudgetReservationState.Frozen)
    Rejection.ReservationNotActive ;!
  let! reservation_charged := or_reject (UsdMicros.try_from
    (BudgetReservations.charged_micros reservation)) Rejection.ReservationNotActive in
  let! reservation_amount := or_reject (UsdMicros.try_from
    (BudgetReservations.amount_micros reservation)) Rejection.ReservationNotActive in
  let remaining := reserved in
  let! difference := require (UsdMicros.checked_sub reservation_amount reservation_charged)
    Rejection.ReservationNotActive in
  ensure (UsdMicros.value difference =? UsdMicros.value remaining)
    Rejection.ReservationNotActive ;!
  let! charged := m_lift (resolution_charge cause resolution
    (CostPostmortems.observed_micros row) remaining reservation_charged) in
  ensure (negb ((UsdMicros.value charged <? UsdMicros.value remaining)
                && bool_decide (cause = CostPostmortemCause.KnownOverrun)))
    Rejection.ReservationNotActive ;!
  settle_postmortem command_row_id postmortem_id reservation_id cycle_id resolution
    reservation_charged charged.
