(* ===== verification/StoreProject.v ===== *)
(** * Projects, tickets and the causal graph

    [society-kernel/src/store.rs], [coordination_cycle] to [reopen_episode], and the
    postmortems of projects: what an admitted cycle coordinates.  Every transition records
    the cycle that it acted in. *)

From S2P Require Import Prelude.
From S2P Require Import Machine.
From S2P Require Import KernelScalars.
From S2P Require Import KernelEnums.
From S2P Require Import KernelCustody.
From S2P Require Import KernelCommands.
From S2P Require Import KernelCodes.
From S2P Require Import SqlTable.
From S2P Require Import StoreTables.
From S2P Require Import StoreQueries.

Definition coordination_cycle (expected_generation : ExpectedGeneration.t)
  (operating_cycle_id : OperatingCycleId) : store CycleRow.t :=
  let! cycle := cycle_for_generation operating_cycle_id expected_generation in
  ensure (OperatingCycleState.admits_task_work (CycleRow.state cycle))
    Rejection.InvalidLifecycleTransition ;!
  m_ret cycle.

Definition record_coordination_provenance (command_row_id : Z) (cycle : CycleRow.t)
  (operating_cycle_id : OperatingCycleId) (project_id : option ProjectId) : store unit :=
  insert_with_key Database.coordination_command_provenance command_row_id
    (CoordinationCommandProvenance.new (Identifier.value (CycleRow.mission_id cycle))
       (Identifier.value operating_cycle_id) (option_map Identifier.value project_id))
    Rejection.InvalidLifecycleTransition.

(** ** Projects *)

Definition project_row (project_id : ProjectId) : store (ProjectState.t * FoundingMissionId) :=
  let! row := select Database.projects (Identifier.value project_id)
    Rejection.SubjectNotFound in
  let! state := or_reject (project_state_from_i64 (Projects.lifecycle_state row))
    Rejection.SubjectNotFound in
  let! mission_id := or_reject (Identifier.try_from (Projects.founding_mission_id row))
    Rejection.SubjectNotFound in
  m_ret (state, mission_id).

(** [UPDATE projects SET lifecycle_state = $1, last_transition_command_id = $2]. *)
Definition set_project_state (command_row_id : Z) (project_id : ProjectId)
  (state : ProjectState.t) : store unit :=
  update_row Database.projects (Identifier.value project_id) (fun r =>
    r <| Projects.lifecycle_state := ProjectState.as_i64 state |>
      <| Projects.last_transition_command_id := command_row_id |>) Rejection.SubjectNotFound.

Definition create_project (command_row_id : Z) (expected_generation : ExpectedGeneration.t)
  (operating_cycle_id : OperatingCycleId) (project_name : string)
  (north_star_alignment : ProjectNorthStarAlignment.t) : store EventBody.t :=
  let! cycle := cycle_for_generation operating_cycle_id expected_generation in
  let! mission := select Database.founding_missions
    (Identifier.value (CycleRow.mission_id cycle)) Rejection.SubjectNotFound in
  let application_revision_id :=
    ProjectNorthStarAlignment.application_revision_id north_star_alignment in
  ensure (FoundingMissions.application_revision_id mission
          =? Identifier.value application_revision_id)
    Rejection.ProjectNorthStarAlignmentMismatch ;!
  let! id := insert_into Database.projects
    (Projects.new project_name (Identifier.value (CycleRow.mission_id cycle))
       (ProjectState.as_i64 ProjectState.Proposed) command_row_id command_row_id)
    Rejection.FoundingInvariant in
  let! project_id := returned_identity id in
  insert_with_key Database.project_north_star_alignments (Identifier.value project_id)
    (ProjectNorthStarAlignments.new (Identifier.value application_revision_id)
       (MissionText.as_str (ProjectNorthStarAlignment.change_answer north_star_alignment))
       (MissionText.as_str
          (ProjectNorthStarAlignment.improvement_evidence_answer north_star_alignment))
       (MissionText.as_str
          (ProjectNorthStarAlignment.boundary_commitment_answer north_star_alignment))
       (MissionText.as_str (ProjectNorthStarAlignment.revisit_answer north_star_alignment))
       command_row_id)
    Rejection.ProjectNorthStarAlignmentMismatch ;!
  record_coordination_provenance command_row_id cycle operating_cycle_id (Some project_id) ;!
  m_ret (EventBody.ProjectCreated project_id application_revision_id).

Definition charter_project (command_row_id : Z) (expected_generation : ExpectedGeneration.t)
  (operating_cycle_id : OperatingCycleId) (project_id : ProjectId)
  (objective milestone stop_condition : string) : store EventBody.t :=
  let! cycle := coordination_cycle expected_generation operating_cycle_id in
  let! row := project_row project_id in
  ensure (bool_decide (row.1 = ProjectState.Challenged)) Rejection.InvalidLifecycleTransition ;!
  set_project_state command_row_id project_id ProjectState.Chartered ;!
  insert_into Database.project_objectives
    (ProjectObjectives.new (Identifier.value project_id) objective command_row_id)
    Rejection.InvalidLifecycleTransition ;!
  insert_into Database.project_milestones
    (ProjectMilestones.new (Identifier.value project_id) milestone 1 command_row_id None)
    Rejection.InvalidLifecycleTransition ;!
  insert_into Database.project_stop_conditions
    (ProjectStopConditions.new (Identifier.value project_id) stop_condition command_row_id)
    Rejection.InvalidLifecycleTransition ;!
  record_coordination_provenance command_row_id cycle operating_cycle_id (Some project_id) ;!
  m_ret (EventBody.ProjectChartered project_id).

(** [JOIN attempt_budget_reservations r ON r.actor_attempt_id = .. WHERE r.project_id = $1]:
    the reservation of an attempt has the key of the attempt. *)
Definition attempt_of_project (db : Database.t) (project_id attempt : Z) : bool :=
  match rows (Database.attempt_budget_reservations db) !! attempt with
  | Some r => AttemptBudgetReservations.project_id r =? project_id
  | None => false
  end.
Definition admission_of_project (db : Database.t) (project_id : Z)
  (admission : NativeChildSpawnAdmissions.t) : bool :=
  match NativeChildSpawnAdmissions.actor_attempt_id admission with
  | Some attempt => attempt_of_project db project_id attempt
  | None => false
  end.
Definition lease_of_project (db : Database.t) (project_id : Z) (lease : Leases.t) : bool :=
  match rows (Database.work_items db) !! Leases.work_item_id lease with
  | Some w => match rows (Database.tickets db) !! WorkItems.ticket_id w with
              | Some t => Tickets.project_id t =? project_id
              | None => false
              end
  | None => false
  end.

(** The counts of the function, in its order. *)
Definition project_close_blockers (db : Database.t) (project_id : Z) : list bool :=
  [exists_where (fun m => (ProjectMilestones.project_id m =? project_id)
                          && negb (ProjectMilestones.lifecycle_state m =? 2))
     (Database.project_milestones db);
   exists_where (fun t => (Tickets.project_id t =? project_id)
                          && negb (Tickets.lifecycle_state t
                                   =? TicketState.as_i64 TicketState.Completed))
     (Database.tickets db);
   exists_where (fun r => (AdversarialReviews.project_id r =? project_id)
                          && negb (one_of [6; 7; 8] (AdversarialReviews.lifecycle_state r)))
     (Database.adversarial_reviews db);
   exists_where (fun p => (Postmortems.project_id p =? project_id)
                          && negb (Postmortems.lifecycle_state p =? 3))
     (Database.postmortems db);
   existsb (fun kr => attempt_of_project db project_id kr.1
                      && one_of [1; 2] (Attempts.lifecycle_state kr.2))
     (map_to_list (rows (Database.attempts db)));
   exists_where (fun l => lease_of_project db project_id l && (Leases.lifecycle_state l =? 1))
     (Database.leases db);
   exists_where (fun a =>
       (AttemptBudgetReservations.project_id a =? project_id)
       && match rows (Database.budget_reservations db)
                  !! AttemptBudgetReservations.budget_reservation_id a with
          | Some b => negb (BudgetReservations.reservation_state b
                            =? BudgetReservationState.as_i64 BudgetReservationState.Reconciled)
          | None => false
          end)
     (Database.attempt_budget_reservations db);
   exists_where (fun o => (OutcomeObligations.project_id o =? project_id)
                          && (OutcomeObligations.lifecycle_state o =? 1))
     (Database.outcome_obligations db);
   exists_where (fun e => (DeterministicExperiments.project_id e =? project_id)
                          && negb (DeterministicExperiments.lifecycle_state e =? 3))
     (Database.deterministic_experiments db);
   exists_where (fun p =>
       match rows (Database.native_child_spawn_admissions db)
               !! NativeChildren.native_child_spawn_admission_id p with
       | Some s => admission_of_project db project_id s
       | None => false
       end
       && negb (NativeChildren.lifecycle_state p
                =? ChildProcessState.as_i64 ChildProcessState.Finalized))
     (Database.native_children db);
   exists_where (admission_of_project db project_id) (Database.native_child_spawn_admissions db)].
Definition project_close_blocked (project_id : ProjectId) : store bool :=
  read (fun db => existsb id (project_close_blockers db (Identifier.value project_id))).

Definition project_transition_allowed (from to : ProjectState.t) : bool :=
  match from, to with
  | ProjectState.Proposed, ProjectState.Challenged
  | ProjectState.Chartered, ProjectState.Active
  | ProjectState.Active,
      (ProjectState.Paused | ProjectState.Observing | ProjectState.Terminated)
  | ProjectState.Paused, (ProjectState.Active | ProjectState.Terminated)
  | ProjectState.Observing, (ProjectState.Closed | ProjectState.Terminated)
  | ProjectState.Chartered, ProjectState.Terminated
  | ProjectState.Reopened, ProjectState.Active => true
  | _, _ => false
  end.

Definition transition_project (command_row_id : Z)
  (expected_generation : ExpectedGeneration.t) (operating_cycle_id : OperatingCycleId)
  (project_id : ProjectId) (target : ProjectState.t) : store EventBody.t :=
  let! cycle := coordination_cycle expected_generation operating_cycle_id in
  let! row := project_row project_id in
  ensure (project_transition_allowed row.1 target) Rejection.InvalidLifecycleTransition ;!
  let! blocked := if bool_decide (target = ProjectState.Closed)
                  then project_close_blocked project_id else m_ret false in
  ensure (negb blocked) Rejection.ProjectCloseBlocked ;!
  set_project_state command_row_id project_id target ;!
  record_coordination_provenance command_row_id cycle operating_cycle_id (Some project_id) ;!
  m_ret (EventBody.ProjectStateChanged project_id target).

Definition complete_project_milestone (command_row_id : Z)
  (expected_generation : ExpectedGeneration.t) (operating_cycle_id : OperatingCycleId)
  (project_milestone_id : ProjectMilestoneId) : store EventBody.t :=
  let! cycle := coordination_cycle expected_generation operating_cycle_id in
  let! row := select Database.project_milestones (Identifier.value project_milestone_id)
    Rejection.SubjectNotFound in
  let! project_id := or_reject (Identifier.try_from (ProjectMilestones.project_id row))
    Rejection.SubjectNotFound in
  ensure (ProjectMilestones.lifecycle_state row
          =? ProjectMilestoneState.as_i64 ProjectMilestoneState.Pending)
    Rejection.InvalidLifecycleTransition ;!
  update_row Database.project_milestones (Identifier.value project_milestone_id) (fun r =>
    r <| ProjectMilestones.lifecycle_state := 2 |>
      <| ProjectMilestones.completed_by_command_id := Some command_row_id |>)
    Rejection.SubjectNotFound ;!
  record_coordination_provenance command_row_id cycle operating_cycle_id (Some project_id) ;!
  m_ret (EventBody.ProjectMilestoneCompleted project_milestone_id).

Definition reopen_project (command_row_id : Z) (expected_generation : ExpectedGeneration.t)
  (operating_cycle_id : OperatingCycleId) (project_id : ProjectId) : store EventBody.t :=
  let! cycle := coordination_cycle expected_generation operating_cycle_id in
  let! row := project_row project_id in
  ensure (bool_decide (row.1 ∈ [ProjectState.Closed; ProjectState.Terminated]))
    Rejection.InvalidLifecycleTransition ;!
  set_project_state command_row_id project_id ProjectState.Reopened ;!
  record_coordination_provenance command_row_id cycle operating_cycle_id (Some project_id) ;!
  m_ret (EventBody.ProjectStateChanged project_id ProjectState.Reopened).

(** ** Tickets *)

Definition ticket_row (ticket_id : TicketId) : store (ProjectId * TicketState.t) :=
  let! row := select Database.tickets (Identifier.value ticket_id) Rejection.SubjectNotFound in
  let! project_id := or_reject (Identifier.try_from (Tickets.project_id row))
    Rejection.SubjectNotFound in
  let! state := or_reject (ticket_state_from_i64 (Tickets.lifecycle_state row))
    Rejection.SubjectNotFound in
  m_ret (project_id, state).

Definition project_is_active (project_id : ProjectId) : store unit :=
  let! row := project_row project_id in
  ensure (bool_decide (row.1 = ProjectState.Active)) Rejection.InvalidLifecycleTransition.

Definition ticket_prerequisites_complete (ticket_id : TicketId) : store bool :=
  read (fun db => negb (exists_where (fun p =>
    (TicketPrerequisites.ticket_id p =? Identifier.value ticket_id)
    && match rows (Database.tickets db) !! TicketPrerequisites.prerequisite_ticket_id p with
       | Some t => negb (Tickets.lifecycle_state t =? TicketState.as_i64 TicketState.Completed)
       | None => false
       end) (Database.ticket_prerequisites db))).

Definition create_ticket (command_row_id : Z) (expected_generation : ExpectedGeneration.t)
  (operating_cycle_id : OperatingCycleId) (project_id : ProjectId)
  (ticket_title acceptance_condition : string) (prerequisite_ticket_id : option TicketId) :
  store EventBody.t :=
  let! cycle := coordination_cycle expected_generation operating_cycle_id in
  project_is_active project_id ;!
  match prerequisite_ticket_id with
  | Some prerequisite_ticket_id =>
      let! prerequisite := ticket_row prerequisite_ticket_id in
      ensure (bool_decide (prerequisite.1 = project_id)) Rejection.SubjectNotFound
  | None => m_ret ()
  end ;!
  let! id := insert_into Database.tickets
    (Tickets.new (Identifier.value project_id) ticket_title
       (TicketState.as_i64 TicketState.Draft) command_row_id command_row_id)
    Rejection.InvalidLifecycleTransition in
  let! ticket_id := returned_identity id in
  insert_into Database.ticket_acceptance_conditions
    (TicketAcceptanceConditions.new (Identifier.value ticket_id) acceptance_condition 1
       command_row_id None)
    Rejection.InvalidLifecycleTransition ;!
  match prerequisite_ticket_id with
  | Some prerequisite_ticket_id =>
      insert_into Database.ticket_prerequisites
        (TicketPrerequisites.new (Identifier.value ticket_id)
           (Identifier.value prerequisite_ticket_id) command_row_id)
        Rejection.InvalidLifecycleTransition ;!
      m_ret ()
  | None => m_ret ()
  end ;!
  record_coordination_provenance command_row_id cycle operating_cycle_id (Some project_id) ;!
  m_ret (EventBody.TicketCreated ticket_id project_id).

(** The retired surface of an earlier milestone. *)
Definition transition_ticket (command_row_id : Z) (expected_generation : ExpectedGeneration.t)
  (operating_cycle_id : OperatingCycleId) (ticket_id : TicketId) (target : TicketState.t) :
  store EventBody.t :=
  m_fail Rejection.InvalidLifecycleTransition.

(** ** The causal graph *)

(** [object_revisions] joined with its object; a null [project_id] cannot be read. *)
Definition graph_revision_row (graph_revision_id : GraphRevisionId) :
  store (GraphObjectId * ProjectId * GraphObjectKind.t * GraphRevisionState.t) :=
  let! revision := select Database.object_revisions (Identifier.value graph_revision_id)
    Rejection.SubjectNotFound in
  let! object := select Database.objects (ObjectRevisions.graph_object_id revision)
    Rejection.SubjectNotFound in
  let! project_id := require (Objects.project_id object) Rejection.SubjectNotFound in
  let! graph_object_id := or_reject (Identifier.try_from
    (ObjectRevisions.graph_object_id revision)) Rejection.SubjectNotFound in
  let! project_id := or_reject (Identifier.try_from project_id) Rejection.SubjectNotFound in
  let! kind := or_reject (graph_object_kind_from_i64 (Objects.object_kind object))
    Rejection.SubjectNotFound in
  let! state := or_reject (graph_revision_state_from_i64
    (ObjectRevisions.lifecycle_state revision)) Rejection.SubjectNotFound in
  m_ret (graph_object_id, project_id, kind, state).

(** [COALESCE(MAX(revision_ordinal), 0) + 1]. *)
Definition next_revision_ordinal (db : Database.t) (graph_object_id : Z) : Z :=
  fold_left Z.max
    (map (fun kr => ObjectRevisions.revision_ordinal kr.2)
       (rows_where (fun r => ObjectRevisions.graph_object_id r =? graph_object_id)
          (Database.object_revisions db))) 0 + 1.

(** The object of the revision: the one named, or a new one. *)
Definition revision_object (command_row_id : Z) (cycle : CycleRow.t) (project_id : ProjectId)
  (causal_episode_id : option CausalEpisodeId)
  (existing_graph_object_id : option GraphObjectId) (object_kind : GraphObjectKind.t) :
  store GraphObjectId :=
  match existing_graph_object_id with
  | Some graph_object_id =>
      let! object := select Database.objects (Identifier.value graph_object_id)
        Rejection.SubjectNotFound in
      let! object_project := require (Objects.project_id object) Rejection.SubjectNotFound in
      ensure (negb (negb (object_project =? Identifier.value project_id)
                    || negb (Objects.object_kind object =? GraphObjectKind.as_i64 object_kind)))
        Rejection.SubjectNotFound ;!
      m_ret graph_object_id
  | None =>
      let! id := insert_into Database.objects
        (Objects.new (GraphObjectKind.as_i64 object_kind) (Some (Identifier.value project_id))
           (option_map Identifier.value causal_episode_id)
           (Identifier.value (CycleRow.mission_id cycle)) command_row_id)
        Rejection.InvalidLifecycleTransition in
      returned_identity id
  end.
Definition insert_revision_body (graph_revision_id : GraphRevisionId)
  (body : GraphRevisionBody.t) : store unit :=
  match body with
  | GraphRevisionBody.Observation observation =>
      insert_with_key Database.observation_revisions (Identifier.value graph_revision_id)
        (ObservationRevisions.new (CoordinationText.as_str observation))
        Rejection.InvalidLifecycleTransition
  | GraphRevisionBody.Hypothesis_ hypothesis =>
      insert_with_key Database.hypothesis_revisions (Identifier.value graph_revision_id)
        (HypothesisRevisions.new (CoordinationText.as_str hypothesis))
        Rejection.InvalidLifecycleTransition
  end.

Definition add_graph_object_revision (command_row_id : Z)
  (expected_generation : ExpectedGeneration.t) (operating_cycle_id : OperatingCycleId)
  (project_id : ProjectId) (causal_episode_id : option CausalEpisodeId)
  (existing_graph_object_id : option GraphObjectId) (body : GraphRevisionBody.t) :
  store EventBody.t :=
  let! cycle := coordination_cycle expected_generation operating_cycle_id in
  let object_kind := GraphRevisionBody.object_kind body in
  project_is_active project_id ;!
  match causal_episode_id with
  | Some episode_id =>
      let! episode := select Database.episodes (Identifier.value episode_id)
        Rejection.SubjectNotFound in
      ensure (Episodes.project_id episode =? Identifier.value project_id)
        Rejection.SubjectNotFound
  | None => m_ret ()
  end ;!
  let! graph_object_id := revision_object command_row_id cycle project_id causal_episode_id
    existing_graph_object_id object_kind in
  let! next_ordinal := read (fun db =>
    checked_i64 (next_revision_ordinal db (Identifier.value graph_object_id))) in
  let! next_ordinal := require next_ordinal Rejection.InvalidLifecycleTransition in
  let! id := insert_into Database.object_revisions
    (ObjectRevisions.new (Identifier.value graph_object_id) next_ordinal 1 command_row_id None)
    Rejection.InvalidLifecycleTransition in
  let! graph_revision_id := returned_identity id in
  insert_revision_body graph_revision_id body ;!
  record_coordination_provenance command_row_id cycle operating_cycle_id (Some project_id) ;!
  m_ret (EventBody.GraphObjectRevisionAdded graph_object_id graph_revision_id).

Definition commit_graph_revision (command_row_id : Z)
  (expected_generation : ExpectedGeneration.t) (operating_cycle_id : OperatingCycleId)
  (graph_revision_id : GraphRevisionId) : store EventBody.t :=
  let! cycle := coordination_cycle expected_generation operating_cycle_id in
  let! row := graph_revision_row graph_revision_id in
  let '(_, project_id, _, state) := row in
  project_is_active project_id ;!
  ensure (bool_decide (state = GraphRevisionState.Draft))
    Rejection.InvalidLifecycleTransition ;!
  update_row Database.object_revisions (Identifier.value graph_revision_id) (fun r =>
    r <| ObjectRevisions.lifecycle_state := 2 |>
      <| ObjectRevisions.committed_by_command_id := Some command_row_id |>)
    Rejection.SubjectNotFound ;!
  record_coordination_provenance command_row_id cycle operating_cycle_id (Some project_id) ;!
  m_ret (EventBody.GraphRevisionCommitted graph_revision_id).

Definition add_graph_edge (command_row_id : Z) (expected_generation : ExpectedGeneration.t)
  (operating_cycle_id : OperatingCycleId) (project_id : ProjectId)
  (from_graph_revision_id to_graph_revision_id : GraphRevisionId)
  (edge_kind : GraphEdgeKind.t) : store EventBody.t :=
  let! cycle := coordination_cycle expected_generation operating_cycle_id in
  project_is_active project_id ;!
  let! from := graph_revision_row from_graph_revision_id in
  let '(_, from_project, from_kind, from_state) := from in
  let! to := graph_revision_row to_graph_revision_id in
  let '(_, to_project, to_kind, to_state) := to in
  ensure (bool_decide (from_project = project_id) && bool_decide (to_project = project_id))
    Rejection.SubjectNotFound ;!
  ensure (bool_decide (from_state = GraphRevisionState.Committed)
          && bool_decide (to_state = GraphRevisionState.Committed))
    Rejection.GraphRevisionNotCommitted ;!
  ensure (GraphEdgeKind.allows edge_kind from_kind to_kind)
    Rejection.IllegalGraphEdgeEndpoint ;!
  let! id := insert_into Database.edges
    (Edges.new (Identifier.value project_id) (Identifier.value from_graph_revision_id)
       (Identifier.value to_graph_revision_id) (GraphEdgeKind.as_i64 edge_kind) command_row_id)
    Rejection.IllegalGraphEdgeEndpoint in
  let! graph_edge_id := returned_identity id in
  record_coordination_provenance command_row_id cycle operating_cycle_id (Some project_id) ;!
  m_ret (EventBody.GraphEdgeAdded graph_edge_id).

(** ** Episodes *)

Definition episode_row (episode_id : CausalEpisodeId) : store (ProjectId * EpisodeState.t) :=
  let! row := select Database.episodes (Identifier.value episode_id)
    Rejection.SubjectNotFound in
  let! project_id := or_reject (Identifier.try_from (Episodes.project_id row))
    Rejection.SubjectNotFound in
  let! state := or_reject (episode_state_from_i64 (Episodes.lifecycle_state row))
    Rejection.SubjectNotFound in
  m_ret (project_id, state).

Definition episode_transition_allowed (from to : EpisodeState.t) : bool :=
  match from, to with
  | EpisodeState.Framed, (EpisodeState.Admitted_ | EpisodeState.Abandoned)
  | EpisodeState.Admitted_, (EpisodeState.Investigating | EpisodeState.Abandoned)
  | EpisodeState.Investigating,
      (EpisodeState.PrototypeDeliberating | EpisodeState.ClosedNoAction
       | EpisodeState.Abandoned)
  | EpisodeState.PrototypeDeliberating,
      (EpisodeState.Prototyping | EpisodeState.ClosedNoAction | EpisodeState.Abandoned)
  | EpisodeState.Prototyping,
      (EpisodeState.CandidateValidating | EpisodeState.Reverted | EpisodeState.Abandoned)
  | EpisodeState.CandidateValidating,
      (EpisodeState.DeliveryDeliberating | EpisodeState.Reverted | EpisodeState.Abandoned)
  | EpisodeState.DeliveryDeliberating,
      (EpisodeState.DeliveryAuthorized | EpisodeState.ClosedNoDelivery
       | EpisodeState.Abandoned)
  | EpisodeState.DeliveryAuthorized, (EpisodeState.Materializing | EpisodeState.Abandoned)
  | EpisodeState.Materializing, (EpisodeState.Observing | EpisodeState.Abandoned)
  | EpisodeState.Observing,
      (EpisodeState.Learning | EpisodeState.Closed | EpisodeState.Abandoned)
  | EpisodeState.Learning, (EpisodeState.Closed | EpisodeState.Abandoned)
  | EpisodeState.Reopened, (EpisodeState.Investigating | EpisodeState.Abandoned) => true
  | _, _ => false
  end.

Definition set_episode_state (command_row_id : Z) (causal_episode_id : CausalEpisodeId)
  (state : EpisodeState.t) : store unit :=
  update_row Database.episodes (Identifier.value causal_episode_id) (fun r =>
    r <| Episodes.lifecycle_state := EpisodeState.as_i64 state |>
      <| Episodes.last_transition_command_id := command_row_id |>) Rejection.SubjectNotFound.

Definition create_episode (command_row_id : Z) (expected_generation : ExpectedGeneration.t)
  (operating_cycle_id : OperatingCycleId) (project_id : ProjectId) : store EventBody.t :=
  let! cycle := coordination_cycle expected_generation operating_cycle_id in
  project_is_active project_id ;!
  let! id := insert_into Database.episodes
    (Episodes.new (Identifier.value project_id) (Identifier.value (CycleRow.mission_id cycle))
       1 command_row_id command_row_id)
    Rejection.InvalidLifecycleTransition in
  let! causal_episode_id := returned_identity id in
  record_coordination_provenance command_row_id cycle operating_cycle_id (Some project_id) ;!
  m_ret (EventBody.EpisodeCreated causal_episode_id project_id).

Definition transition_episode (command_row_id : Z)
  (expected_generation : ExpectedGeneration.t) (operating_cycle_id : OperatingCycleId)
  (causal_episode_id : CausalEpisodeId) (target : EpisodeState.t) : store EventBody.t :=
  let! cycle := coordination_cycle expected_generation operating_cycle_id in
  let! row := episode_row causal_episode_id in
  ensure (episode_transition_allowed row.2 target) Rejection.InvalidLifecycleTransition ;!
  set_episode_state command_row_id causal_episode_id target ;!
  record_coordination_provenance command_row_id cycle operating_cycle_id (Some row.1) ;!
  m_ret (EventBody.EpisodeStateChanged causal_episode_id target).

Definition reopen_episode (command_row_id : Z) (expected_generation : ExpectedGeneration.t)
  (operating_cycle_id : OperatingCycleId) (causal_episode_id : CausalEpisodeId) :
  store EventBody.t :=
  let! cycle := coordination_cycle expected_generation operating_cycle_id in
  let! row := episode_row causal_episode_id in
  ensure (bool_decide (row.2 ∈ [EpisodeState.Closed; EpisodeState.ClosedNoAction;
                                EpisodeState.ClosedNoDelivery; EpisodeState.Reverted]))
    Rejection.InvalidLifecycleTransition ;!
  set_episode_state command_row_id causal_episode_id EpisodeState.Reopened ;!
  record_coordination_provenance command_row_id cycle operating_cycle_id (Some row.1) ;!
  m_ret (EventBody.EpisodeStateChanged causal_episode_id EpisodeState.Reopened).

(** ** Postmortems *)

Definition postmortem_row (postmortem_id : PostmortemId) :
  store (ProjectId * PostmortemState.t) :=
  let! row := select Database.postmortems (Identifier.value postmortem_id)
    Rejection.SubjectNotFound in
  let! project_id := or_reject (Identifier.try_from (Postmortems.project_id row))
    Rejection.SubjectNotFound in
  let! state := or_reject (postmortem_state_from_i64 (Postmortems.lifecycle_state row))
    Rejection.SubjectNotFound in
  m_ret (project_id, state).

Definition trigger_postmortem (command_row_id : Z)
  (expected_generation : ExpectedGeneration.t) (operating_cycle_id : OperatingCycleId)
  (project_id : ProjectId) (causal_episode_id : option CausalEpisodeId) : store EventBody.t :=
  let! cycle := coordination_cycle expected_generation operating_cycle_id in
  project_is_active project_id ;!
  match causal_episode_id with
  | Some episode =>
      let! row := episode_row episode in
      ensure (bool_decide (row.1 = project_id)) Rejection.SubjectNotFound
  | None => m_ret ()
  end ;!
  let! id := insert_into Database.postmortems
    (Postmortems.new (Identifier.value project_id)
       (option_map Identifier.value causal_episode_id)
       (Identifier.value (CycleRow.mission_id cycle)) 1 command_row_id None)
    Rejection.InvalidLifecycleTransition in
  let! postmortem_id := returned_identity id in
  record_coordination_provenance command_row_id cycle operating_cycle_id (Some project_id) ;!
  m_ret (EventBody.PostmortemTriggered postmortem_id).

(** [UPDATE postmortems SET lifecycle_state = 2]. *)
Definition investigate_postmortem (postmortem_id : PostmortemId) : store unit :=
  update_row Database.postmortems (Identifier.value postmortem_id) (fun r =>
    r <| Postmortems.lifecycle_state := 2 |>) Rejection.SubjectNotFound.

Definition record_postmortem_causal_claim (command_row_id : Z)
  (expected_generation : ExpectedGeneration.t) (operating_cycle_id : OperatingCycleId)
  (postmortem_id : PostmortemId) (claim_kind : PostmortemCausalClaimKind.t) (claim : string) :
  store EventBody.t :=
  let! cycle := coordination_cycle expected_generation operating_cycle_id in
  let! row := postmortem_row postmortem_id in
  ensure (negb (bool_decide (row.2 = PostmortemState.Closed)))
    Rejection.InvalidLifecycleTransition ;!
  let! id := insert_into Database.postmortem_causal_claims
    (PostmortemCausalClaims.new (Identifier.value postmortem_id)
       (PostmortemCausalClaimKind.as_i64 claim_kind) claim command_row_id)
    Rejection.InvalidLifecycleTransition in
  let! postmortem_causal_claim_id := returned_identity id in
  investigate_postmortem postmortem_id ;!
  record_coordination_provenance command_row_id cycle operating_cycle_id (Some row.1) ;!
  m_ret (EventBody.PostmortemCausalClaimRecorded postmortem_causal_claim_id).

Definition propose_postmortem_action (command_row_id : Z)
  (expected_generation : ExpectedGeneration.t) (operating_cycle_id : OperatingCycleId)
  (postmortem_id : PostmortemId) (action_kind : PostmortemActionKind.t) (action : string) :
  store EventBody.t :=
  let! cycle := coordination_cycle expected_generation operating_cycle_id in
  let! row := postmortem_row postmortem_id in
  ensure (negb (bool_decide (row.2 = PostmortemState.Closed)))
    Rejection.InvalidLifecycleTransition ;!
  let! id := insert_into Database.postmortem_action_proposals
    (PostmortemActionProposals.new (Identifier.value postmortem_id)
       (PostmortemActionKind.as_i64 action_kind) action command_row_id)
    Rejection.InvalidLifecycleTransition in
  let! postmortem_action_proposal_id := returned_identity id in
  investigate_postmortem postmortem_id ;!
  record_coordination_provenance command_row_id cycle operating_cycle_id (Some row.1) ;!
  m_ret (EventBody.PostmortemActionProposed postmortem_action_proposal_id).

Definition close_postmortem (command_row_id : Z) (expected_generation : ExpectedGeneration.t)
  (operating_cycle_id : OperatingCycleId) (postmortem_id : PostmortemId) : store EventBody.t :=
  let! cycle := coordination_cycle expected_generation operating_cycle_id in
  let! row := postmortem_row postmortem_id in
  ensure (negb (bool_decide (row.2 = PostmortemState.Closed)))
    Rejection.InvalidLifecycleTransition ;!
  let! claims := read (fun db =>
    count_where (fun c => PostmortemCausalClaims.postmortem_id c
                          =? Identifier.value postmortem_id)
      (Database.postmortem_causal_claims db)) in
  let! actions := read (fun db =>
    count_where (fun a => PostmortemActionProposals.postmortem_id a
                          =? Identifier.value postmortem_id)
      (Database.postmortem_action_proposals db)) in
  ensure (negb ((claims =? 0) || (actions =? 0))) Rejection.PostmortemCloseBlocked ;!
  update_row Database.postmortems (Identifier.value postmortem_id) (fun r =>
    r <| Postmortems.lifecycle_state := 3 |>
      <| Postmortems.closed_by_command_id := Some command_row_id |>)
    Rejection.SubjectNotFound ;!
  record_coordination_provenance command_row_id cycle operating_cycle_id (Some row.1) ;!
  m_ret (EventBody.PostmortemClosed postmortem_id).
