(* ===== verification/StoreWork.v ===== *)
(** * Actors, work and attempts

    [society-kernel/src/store.rs], [register_actor_configuration] to
    [resolve_outcome_obligation]: a ticket is admitted, its work is registered, leased by
    an actor and attempted under a budget reservation; the attempt ends, is validated and
    completes the ticket, or is retried.  The study allocations of the same lines are not
    modelled. *)

From S2P Require Import Prelude.
From S2P Require Import Machine.
From S2P Require Import KernelScalars.
From S2P Require Import KernelEnums.
From S2P Require Import KernelCustody.
From S2P Require Import KernelCommands.
From S2P Require Import KernelCodes.
From S2P Require Import SqlTable.
From S2P Require Import StoreTables.
From S2P Require Import StoreQueries.
From S2P Require Import StoreProject.
From S2P Require Import StoreBudget.
From S2P Require Import StoreCycle.

Definition register_actor_configuration (command_row_id : Z) (configuration_name : string)
  (model_policy : ActorModelPolicy.t) (primary_attractor : DevelopmentalAttractor.t) :
  store EventBody.t :=
  let! id := insert_into Database.actor_configurations
    (ActorConfigurations.new configuration_name 1 command_row_id)
    Rejection.InvalidLifecycleTransition in
  let! actor_configuration_id := returned_identity id in
  let! id := insert_into Database.actor_configuration_revisions
    (ActorConfigurationRevisions.new (Identifier.value actor_configuration_id) 1
       (ActorModelPolicy.as_i64 model_policy) (DevelopmentalAttractor.as_i64 primary_attractor)
       command_row_id)
    Rejection.InvalidLifecycleTransition in
  let! actor_configuration_revision_id := returned_identity id in
  m_ret (EventBody.ActorConfigurationRegistered actor_configuration_id
           actor_configuration_revision_id).

Definition register_context_pack (command_row_id : Z)
  (expected_generation : ExpectedGeneration.t) (operating_cycle_id : OperatingCycleId)
  (purpose : ContextPackPurpose.t) (rendering_digest : Blake3Digest.t) : store EventBody.t :=
  let! cycle := coordination_cycle expected_generation operating_cycle_id in
  let! id := insert_into Database.context_packs
    (ContextPacks.new (Identifier.value (CycleRow.mission_id cycle))
       (ContextPackPurpose.as_i64 purpose) (Blake3Digest.as_bytes rendering_digest)
       command_row_id)
    Rejection.InvalidLifecycleTransition in
  let! context_pack_id := returned_identity id in
  record_coordination_provenance command_row_id cycle operating_cycle_id None ;!
  m_ret (EventBody.ContextPackRegistered context_pack_id).

(** ** Actor instances *)

(** [actor_configuration_revisions] joined with its configuration. *)
Definition configuration_is_active (db : Database.t) (revision : Z) : bool :=
  match rows (Database.actor_configuration_revisions db) !! revision with
  | Some r => match rows (Database.actor_configurations db)
                      !! ActorConfigurationRevisions.actor_configuration_id r with
              | Some c => ActorConfigurations.lifecycle_state c =? 1
              | None => false
              end
  | None => false
  end.

Definition profile_is_admissible (treatment : OperatingCycleTreatment.t)
  (profile : option ExecutionProfiles.t) : bool :=
  match profile with
  | Some profile =>
      match treatment,
            execution_profile_kind_from_i64 (ExecutionProfiles.profile_kind profile),
            execution_profile_readiness_from_i64 (ExecutionProfiles.readiness profile) with
      | OperatingCycleTreatment.DeterministicPiHostFixtureV1,
        Ok ExecutionProfileKind.DeterministicPiHostProcessDoubleV1,
        Ok ExecutionProfileReadiness.DeterministicFixtureOnly
      | OperatingCycleTreatment.PinnedPiSdkLiveV1,
        Ok ExecutionProfileKind.NativePinnedPiSdkV1,
        Ok ExecutionProfileReadiness.QualifiedForLiveUse => true
      | _, _, _ => false
      end
  | None => false
  end.

Definition admit_actor_instance (command_row_id : Z)
  (expected_generation : ExpectedGeneration.t) (operating_cycle_id : OperatingCycleId)
  (actor_configuration_revision_id : ActorConfigurationRevisionId)
  (execution_profile_id : ExecutionProfileId) (actor_display_name : string) :
  store EventBody.t :=
  let! cycle := coordination_cycle expected_generation operating_cycle_id in
  let! configuration_active := read (fun db =>
    configuration_is_active db (Identifier.value actor_configuration_revision_id)) in
  let! profile := read (fun db =>
    rows (Database.execution_profiles db) !! Identifier.value execution_profile_id) in
  ensure configuration_active Rejection.SubjectNotFound ;!
  ensure (profile_is_admissible (CycleRow.treatment cycle) profile)
    Rejection.ExecutionProfileIneligible ;!
  let! id := insert_into Database.principals
    (Principals.new (PrincipalKind.as_i64 PrincipalKind.Actor) actor_display_name true)
    Rejection.InvalidLifecycleTransition in
  let! principal_id := returned_identity id in
  let! id := insert_into Database.actor_instances
    (ActorInstances.new (Identifier.value principal_id)
       (Identifier.value actor_configuration_revision_id)
       (Identifier.value execution_profile_id) (Identifier.value operating_cycle_id) 1
       command_row_id)
    Rejection.InvalidLifecycleTransition in
  let! actor_instance_id := returned_identity id in
  insert_into Database.capability_grants
    (CapabilityGrants.new (Identifier.value principal_id)
       (Capability.as_i64 Capability.ClaimWorkItem) None
       (Some (Identifier.value actor_instance_id)) 1 2 (Some command_row_id) None)
    Rejection.ActorJurisdictionDenied ;!
  record_coordination_provenance command_row_id cycle operating_cycle_id None ;!
  m_ret (EventBody.ActorInstanceAdmitted actor_instance_id principal_id).

Definition pi_child_profile_allowed (treatment : OperatingCycleTreatment.t)
  (kind : ExecutionProfileKind.t) (readiness : ExecutionProfileReadiness.t) : bool :=
  match treatment, kind, readiness with
  | OperatingCycleTreatment.DeterministicPiHostFixtureV1,
    ExecutionProfileKind.DeterministicPiHostProcessDoubleV1,
    ExecutionProfileReadiness.DeterministicFixtureOnly
  | OperatingCycleTreatment.PiSdkQualificationV1, ExecutionProfileKind.NativePinnedPiSdkV1,
    (ExecutionProfileReadiness.Unqualified | ExecutionProfileReadiness.QualifiedForLiveUse)
  | OperatingCycleTreatment.PinnedPiSdkLiveV1, ExecutionProfileKind.NativePinnedPiSdkV1,
    ExecutionProfileReadiness.QualifiedForLiveUse => true
  | _, _, _ => false
  end.

Definition deterministic_evaluator_profile_allowed (treatment : OperatingCycleTreatment.t)
  (kind : ExecutionProfileKind.t) (readiness : ExecutionProfileReadiness.t) : bool :=
  match treatment, kind, readiness with
  | (OperatingCycleTreatment.PinnedPiSdkLiveV1
     | OperatingCycleTreatment.DeterministicPiHostFixtureV1
     | OperatingCycleTreatment.DeterministicEvaluatorFixtureV1),
    ExecutionProfileKind.DeterministicEvaluatorProcessFixtureV1,
    ExecutionProfileReadiness.DeterministicFixtureOnly => true
  | _, _, _ => false
  end.

Module ActorInstanceRow.
Record t := new {
  principal_id : PrincipalId;
  configuration_revision_id : ActorConfigurationRevisionId;
  execution_profile_id : ExecutionProfileId;
  operating_cycle_id : OperatingCycleId;
  state : ActorInstanceState.t;
}.
End ActorInstanceRow.

Definition actor_instance_row (actor_instance_id : ActorInstanceId) :
  store ActorInstanceRow.t :=
  let! row := select Database.actor_instances (Identifier.value actor_instance_id)
    Rejection.SubjectNotFound in
  let! principal_id := or_reject (Identifier.try_from (ActorInstances.principal_id row))
    Rejection.SubjectNotFound in
  let! revision_id := or_reject (Identifier.try_from
    (ActorInstances.actor_configuration_revision_id row)) Rejection.SubjectNotFound in
  let! profile_id := or_reject (Identifier.try_from
    (ActorInstances.execution_profile_id row)) Rejection.SubjectNotFound in
  let! cycle_id := or_reject (Identifier.try_from (ActorInstances.operating_cycle_id row))
    Rejection.SubjectNotFound in
  let! state := or_reject (actor_instance_state_from_i64 (ActorInstances.lifecycle_state row))
    Rejection.SubjectNotFound in
  m_ret (ActorInstanceRow.new principal_id revision_id profile_id cycle_id state).

(** The actor acts in this cycle. *)
Definition acts_in (operating_cycle_id : OperatingCycleId) (actor : ActorInstanceRow.t) : bool :=
  bool_decide (ActorInstanceRow.operating_cycle_id actor = operating_cycle_id)
  && bool_decide (ActorInstanceRow.state actor = ActorInstanceState.Active).

(** ** Tickets and work items *)

(** [UPDATE tickets SET lifecycle_state = $1, last_transition_command_id = $2]. *)
Definition set_ticket_state (command_row_id : Z) (ticket_id : TicketId) (state : TicketState.t) :
  store unit :=
  update_row Database.tickets (Identifier.value ticket_id) (fun r =>
    r <| Tickets.lifecycle_state := TicketState.as_i64 state |>
      <| Tickets.last_transition_command_id := command_row_id |>) Rejection.SubjectNotFound.
Definition set_work_item_state (command_row_id : Z) (work_item_id : WorkItemId) (state : Z) :
  store unit :=
  update_row Database.work_items (Identifier.value work_item_id) (fun r =>
    r <| WorkItems.lifecycle_state := state |>
      <| WorkItems.last_transition_command_id := command_row_id |>) Rejection.SubjectNotFound.

Definition admit_ticket (command_row_id : Z) (expected_generation : ExpectedGeneration.t)
  (operating_cycle_id : OperatingCycleId) (ticket_id : TicketId) : store EventBody.t :=
  let! cycle := coordination_cycle expected_generation operating_cycle_id in
  let! row := ticket_row ticket_id in
  let '(project_id, state) := row in
  project_is_active project_id ;!
  ensure (bool_decide (state = TicketState.Draft)) Rejection.InvalidLifecycleTransition ;!
  set_ticket_state command_row_id ticket_id TicketState.Admitted_ ;!
  record_coordination_provenance command_row_id cycle operating_cycle_id (Some project_id) ;!
  m_ret (EventBody.TicketAdmitted ticket_id).

Definition review_row (review_id : AdversarialReviewId) :
  store (ProjectId * GraphRevisionId * AdversarialReviewState.t) :=
  let! row := select Database.adversarial_reviews (Identifier.value review_id)
    Rejection.SubjectNotFound in
  let! project_id := or_reject (Identifier.try_from (AdversarialReviews.project_id row))
    Rejection.SubjectNotFound in
  let! target := or_reject (Identifier.try_from
    (AdversarialReviews.target_graph_revision_id row)) Rejection.SubjectNotFound in
  let! state := or_reject (adversarial_review_state_from_i64
    (AdversarialReviews.lifecycle_state row)) Rejection.SubjectNotFound in
  m_ret (project_id, target, state).

(** Execution work names no review; review work names a requested one of the project whose
    target is committed. *)
Definition work_kind_is_admissible (project_id : ProjectId) (work_kind : WorkItemKind.t)
  (adversarial_review_id : option AdversarialReviewId) : store unit :=
  match work_kind, adversarial_review_id with
  | WorkItemKind.TicketExecution, None => m_ret ()
  | WorkItemKind.IndependentReview, Some review_id =>
      let! review := review_row review_id in
      let '(review_project_id, target_revision_id, review_state) := review in
      let! revision := graph_revision_row target_revision_id in
      let '(_, revision_project_id, _, revision_state) := revision in
      ensure (bool_decide (review_project_id = project_id)
              && bool_decide (review_state = AdversarialReviewState.Requested)
              && bool_decide (revision_project_id = project_id)
              && bool_decide (revision_state = GraphRevisionState.Committed))
        Rejection.ReviewAssignmentEvidenceMissing
  | _, _ => m_fail Rejection.ReviewAssignmentEvidenceMissing
  end.

Definition register_work_item (command_row_id : Z)
  (expected_generation : ExpectedGeneration.t) (operating_cycle_id : OperatingCycleId)
  (ticket_id : TicketId) (actor_instance_id : ActorInstanceId)
  (context_pack_id : ContextPackId) (work_kind : WorkItemKind.t)
  (adversarial_review_id : option AdversarialReviewId) (assignment : string) :
  store EventBody.t :=
  let! cycle := coordination_cycle expected_generation operating_cycle_id in
  let! row := ticket_row ticket_id in
  let '(project_id, ticket_state) := row in
  project_is_active project_id ;!
  let! prerequisites_complete := ticket_prerequisites_complete ticket_id in
  ensure (bool_decide (ticket_state = TicketState.Admitted_) && prerequisites_complete)
    Rejection.TicketPrerequisiteIncomplete ;!
  let! actor := actor_instance_row actor_instance_id in
  ensure (acts_in operating_cycle_id actor) Rejection.ActorJurisdictionDenied ;!
  let! context := select Database.context_packs (Identifier.value context_pack_id)
    Rejection.SubjectNotFound in
  ensure (ContextPacks.founding_mission_id context
          =? Identifier.value (CycleRow.mission_id cycle))
    Rejection.ActorJurisdictionDenied ;!
  let! purpose := or_reject (context_pack_purpose_from_i64 (ContextPacks.purpose context))
    Rejection.SubjectNotFound in
  ensure (bool_decide (purpose = WorkItemKind.required_context_purpose work_kind))
    Rejection.ActorJurisdictionDenied ;!
  work_kind_is_admissible project_id work_kind adversarial_review_id ;!
  let! id := insert_into Database.work_items
    (WorkItems.new (Identifier.value ticket_id) (Identifier.value actor_instance_id)
       (Identifier.value context_pack_id) (WorkItemKind.as_i64 work_kind)
       (option_map Identifier.value adversarial_review_id) assignment 1 None command_row_id
       command_row_id)
    Rejection.InvalidLifecycleTransition in
  let! work_item_id := returned_identity id in
  set_ticket_state command_row_id ticket_id TicketState.Ready ;!
  record_coordination_provenance command_row_id cycle operating_cycle_id (Some project_id) ;!
  m_ret (EventBody.WorkItemRegistered work_item_id ticket_id adversarial_review_id).

Module WorkItemRow.
Record t := new {
  ticket_id : TicketId;
  actor_instance_id : ActorInstanceId;
  context_pack_id : ContextPackId;
  work_kind : WorkItemKind.t;
  adversarial_review_id : option AdversarialReviewId;
  state : WorkItemState.t;
  retry_of_actor_attempt_id : option ActorAttemptId;
}.
End WorkItemRow.

(** [row.map(T::try_from).transpose()]. *)
Definition optional_identifier {n} (value : option Z) : result (option (Identifier.t n)) unit :=
  match value with
  | None => Ok None
  | Some value => match Identifier.try_from value with
                  | Ok id => Ok (Some id)
                  | Err _ => Err ()
                  end
  end.

Definition work_item_row (work_item_id : WorkItemId) : store WorkItemRow.t :=
  let! row := select Database.work_items (Identifier.value work_item_id)
    Rejection.SubjectNotFound in
  let! ticket_id := or_reject (Identifier.try_from (WorkItems.ticket_id row))
    Rejection.SubjectNotFound in
  let! actor_id := or_reject (Identifier.try_from (WorkItems.actor_instance_id row))
    Rejection.SubjectNotFound in
  let! context_id := or_reject (Identifier.try_from (WorkItems.context_pack_id row))
    Rejection.SubjectNotFound in
  let! kind := or_reject (work_item_kind_from_i64 (WorkItems.work_kind row))
    Rejection.SubjectNotFound in
  let! review_id := or_reject (optional_identifier (WorkItems.adversarial_review_id row))
    Rejection.SubjectNotFound in
  let! state := or_reject (work_item_state_from_i64 (WorkItems.lifecycle_state row))
    Rejection.SubjectNotFound in
  let! retry_of := or_reject (optional_identifier (WorkItems.retry_of_actor_attempt_id row))
    Rejection.SubjectNotFound in
  m_ret (WorkItemRow.new ticket_id actor_id context_id kind review_id state retry_of).

(** ** Leases and attempts *)

Definition claim_work_item (command_row_id : Z) (principal_id : PrincipalId)
  (expected_generation : ExpectedGeneration.t) (operating_cycle_id : OperatingCycleId)
  (work_item_id : WorkItemId) : store EventBody.t :=
  let! cycle := coordination_cycle expected_generation operating_cycle_id in
  let! item := work_item_row work_item_id in
  let actor_instance_id := WorkItemRow.actor_instance_id item in
  let! actor := actor_instance_row actor_instance_id in
  let! row := ticket_row (WorkItemRow.ticket_id item) in
  let '(project_id, ticket_state) := row in
  project_is_active project_id ;!
  ensure (bool_decide (principal_id = ActorInstanceRow.principal_id actor)
          && acts_in operating_cycle_id actor)
    Rejection.ActorJurisdictionDenied ;!
  ensure (bool_decide (WorkItemRow.state item = WorkItemState.Ready)
          && bool_decide (ticket_state = TicketState.Ready))
    Rejection.WorkLeaseUnavailable ;!
  let! id := insert_into Database.leases
    (Leases.new (Identifier.value work_item_id) (Identifier.value actor_instance_id) 1
       command_row_id None)
    Rejection.WorkLeaseUnavailable in
  let! work_lease_id := returned_identity id in
  set_work_item_state command_row_id work_item_id 2 ;!
  set_ticket_state command_row_id (WorkItemRow.ticket_id item) TicketState.Claimed ;!
  record_coordination_provenance command_row_id cycle operating_cycle_id (Some project_id) ;!
  m_ret (EventBody.WorkItemClaimed work_item_id work_lease_id actor_instance_id).

Definition start_actor_attempt (command_row_id : Z)
  (expected_generation : ExpectedGeneration.t) (operating_cycle_id : OperatingCycleId)
  (work_item_id : WorkItemId) (reservation_amount : UsdMicros.t) : store EventBody.t :=
  let! cycle := coordination_cycle expected_generation operating_cycle_id in
  let! item := work_item_row work_item_id in
  let ticket_id := WorkItemRow.ticket_id item in
  let actor_instance_id := WorkItemRow.actor_instance_id item in
  let! actor := actor_instance_row actor_instance_id in
  let! row := ticket_row ticket_id in
  let '(project_id, ticket_state) := row in
  project_is_active project_id ;!
  ensure (bool_decide (WorkItemRow.state item = WorkItemState.Claimed)
          && bool_decide (ticket_state = TicketState.Claimed)
          && acts_in operating_cycle_id actor)
    Rejection.WorkLeaseUnavailable ;!
  let! lease := read (fun db => row_where (fun l =>
      (Leases.work_item_id l =? Identifier.value work_item_id)
      && (Leases.actor_instance_id l =? Identifier.value actor_instance_id)
      && (Leases.lifecycle_state l =? 1)) (Database.leases db)) in
  let! lease := require lease Rejection.WorkLeaseUnavailable in
  let! work_lease_id := or_reject (@Identifier.try_from "WorkLeaseId" lease.1)
    Rejection.WorkLeaseUnavailable in
  let! reservation_id := reserve_attempt_budget command_row_id cycle operating_cycle_id
    reservation_amount in
  let! id := insert_into Database.attempts
    (Attempts.new (Identifier.value operating_cycle_id) (Identifier.value ticket_id)
       (Identifier.value work_item_id) (Identifier.value work_lease_id)
       (Identifier.value actor_instance_id)
       (Identifier.value (ActorInstanceRow.configuration_revision_id actor))
       (Identifier.value (ActorInstanceRow.execution_profile_id actor))
       (Identifier.value (WorkItemRow.context_pack_id item))
       (option_map Identifier.value (WorkItemRow.retry_of_actor_attempt_id item)) 1
       command_row_id None None)
    Rejection.InvalidLifecycleTransition in
  let! actor_attempt_id := returned_identity id in
  insert_with_key Database.attempt_budget_reservations (Identifier.value actor_attempt_id)
    (AttemptBudgetReservations.new (Identifier.value reservation_id)
       (Identifier.value project_id) (Identifier.value ticket_id))
    Rejection.InvalidLifecycleTransition ;!
  set_work_item_state command_row_id work_item_id 3 ;!
  record_coordination_provenance command_row_id cycle operating_cycle_id (Some project_id) ;!
  m_ret (EventBody.ActorAttemptStarted actor_attempt_id work_item_id reservation_id).

Module AttemptRow.
Record t := new {
  operating_cycle_id : OperatingCycleId;
  ticket_id : TicketId;
  work_item_id : WorkItemId;
  work_lease_id : WorkLeaseId;
  actor_instance_id : ActorInstanceId;
  state : ActorAttemptState.t;
}.
End AttemptRow.

Definition actor_attempt_row (actor_attempt_id : ActorAttemptId) : store AttemptRow.t :=
  let! row := select Database.attempts (Identifier.value actor_attempt_id)
    Rejection.SubjectNotFound in
  let! cycle_id := or_reject (Identifier.try_from (Attempts.operating_cycle_id row))
    Rejection.SubjectNotFound in
  let! ticket_id := or_reject (Identifier.try_from (Attempts.ticket_id row))
    Rejection.SubjectNotFound in
  let! item_id := or_reject (Identifier.try_from (Attempts.work_item_id row))
    Rejection.SubjectNotFound in
  let! lease_id := or_reject (Identifier.try_from (Attempts.work_lease_id row))
    Rejection.SubjectNotFound in
  let! actor_id := or_reject (Identifier.try_from (Attempts.actor_instance_id row))
    Rejection.SubjectNotFound in
  let! state := or_reject (actor_attempt_state_from_i64 (Attempts.lifecycle_state row))
    Rejection.SubjectNotFound in
  m_ret (AttemptRow.new cycle_id ticket_id item_id lease_id actor_id state).

(** Where the ticket goes when its attempt ends. *)
Definition ticket_state_after (terminal_kind : ActorAttemptTerminalKind.t) : TicketState.t :=
  match terminal_kind with
  | ActorAttemptTerminalKind.Succeeded => TicketState.Submitted
  | ActorAttemptTerminalKind.Cancelled => TicketState.Cancelled
  | ActorAttemptTerminalKind.Expired => TicketState.Ready
  | ActorAttemptTerminalKind.Failed | ActorAttemptTerminalKind.ProtocolFailed
  | ActorAttemptTerminalKind.SupervisorFailed => TicketState.Failed
  end.

Definition attest_actor_attempt_terminal (command_row_id : Z)
  (actor_attempt_id : ActorAttemptId) (terminal_kind : ActorAttemptTerminalKind.t) :
  store EventBody.t :=
  let! has_supervised_child := read (fun db => exists_where (fun s =>
      same_key (NativeChildSpawnAdmissions.actor_attempt_id s)
        (Some (Identifier.value actor_attempt_id)))
    (Database.native_child_spawn_admissions db)) in
  ensure (negb has_supervised_child) Rejection.SupervisedTerminalReceiptRequired ;!
  let! attempt := actor_attempt_row actor_attempt_id in
  ensure (ActorAttemptTerminalKind.allowed_from terminal_kind (AttemptRow.state attempt))
    Rejection.ActorAttemptNotTerminal ;!
  insert_with_key Database.actor_attempt_terminal_facts (Identifier.value actor_attempt_id)
    (ActorAttemptTerminalFacts.new (ActorAttemptTerminalKind.as_i64 terminal_kind)
       command_row_id)
    Rejection.ActorAttemptNotTerminal ;!
  update_row Database.attempts (Identifier.value actor_attempt_id) (fun r =>
    r <| Attempts.lifecycle_state :=
           ActorAttemptState.as_i64 (ActorAttemptTerminalKind.state terminal_kind) |>
      <| Attempts.terminal_by_command_id := Some command_row_id |>) Rejection.SubjectNotFound ;!
  let lease_state := if bool_decide (terminal_kind = ActorAttemptTerminalKind.Cancelled)
                     then WorkLeaseState.Cancelled else WorkLeaseState.Released in
  let! lease_is_active := read (fun db =>
    match rows (Database.leases db) !! Identifier.value (AttemptRow.work_lease_id attempt) with
    | Some l => Leases.lifecycle_state l =? 1
    | None => false
    end) in
  m_when lease_is_active
    (update_row Database.leases (Identifier.value (AttemptRow.work_lease_id attempt)) (fun r =>
       r <| Leases.lifecycle_state := WorkLeaseState.as_i64 lease_state |>
         <| Leases.terminal_by_command_id := Some command_row_id |>)
       Rejection.SubjectNotFound) ;!
  set_work_item_state command_row_id (AttemptRow.work_item_id attempt) 4 ;!
  set_ticket_state command_row_id (AttemptRow.ticket_id attempt)
    (ticket_state_after terminal_kind) ;!
  let! row := ticket_row (AttemptRow.ticket_id attempt) in
  let! cycle := cycle_row (AttemptRow.operating_cycle_id attempt) in
  record_coordination_provenance command_row_id cycle (AttemptRow.operating_cycle_id attempt)
    (Some row.1) ;!
  m_ret (EventBody.ActorAttemptTerminalAttested actor_attempt_id terminal_kind).

Definition validate_ticket_attempt (command_row_id : Z)
  (expected_generation : ExpectedGeneration.t) (operating_cycle_id : OperatingCycleId)
  (actor_attempt_id : ActorAttemptId) : store EventBody.t :=
  let! cycle := coordination_cycle expected_generation operating_cycle_id in
  let! attempt := actor_attempt_row actor_attempt_id in
  let ticket_id := AttemptRow.ticket_id attempt in
  let! row := ticket_row ticket_id in
  let '(project_id, ticket_state) := row in
  ensure (bool_decide (AttemptRow.operating_cycle_id attempt = operating_cycle_id)
          && bool_decide (AttemptRow.state attempt = ActorAttemptState.Succeeded)
          && bool_decide (ticket_state = TicketState.Submitted))
    Rejection.ActorAttemptNotValidatable ;!
  let! evidence_pending := read (fun db => count_where (fun e =>
      (DeterministicExperiments.ticket_id e =? Identifier.value ticket_id)
      && (DeterministicExperiments.lifecycle_state e =? 1))
    (Database.deterministic_experiments db)) in
  ensure (evidence_pending =? 0) Rejection.EvidenceAdmissionRequired ;!
  update_row Database.attempts (Identifier.value actor_attempt_id) (fun r =>
    r <| Attempts.lifecycle_state := 9 |>
      <| Attempts.validated_by_command_id := Some command_row_id |>)
    Rejection.SubjectNotFound ;!
  update_where Database.ticket_acceptance_conditions (fun r =>
      (TicketAcceptanceConditions.ticket_id r =? Identifier.value ticket_id)
      && (TicketAcceptanceConditions.lifecycle_state r =? 1)) (fun r =>
    r <| TicketAcceptanceConditions.lifecycle_state := 2 |>
      <| TicketAcceptanceConditions.satisfied_by_command_id := Some command_row_id |>)
    Rejection.SubjectNotFound ;!
  set_ticket_state command_row_id ticket_id TicketState.Verified ;!
  record_coordination_provenance command_row_id cycle operating_cycle_id (Some project_id) ;!
  m_ret (EventBody.TicketAttemptValidated actor_attempt_id ticket_id).

(** The state of the ticket is not looked at. *)
Definition retry_actor_attempt (command_row_id : Z)
  (expected_generation : ExpectedGeneration.t) (operating_cycle_id : OperatingCycleId)
  (actor_attempt_id : ActorAttemptId) : store EventBody.t :=
  let! cycle := coordination_cycle expected_generation operating_cycle_id in
  let! attempt := actor_attempt_row actor_attempt_id in
  let ticket_id := AttemptRow.ticket_id attempt in
  let work_item_id := AttemptRow.work_item_id attempt in
  let! row := ticket_row ticket_id in
  let '(project_id, _) := row in
  project_is_active project_id ;!
  ensure (bool_decide (AttemptRow.operating_cycle_id attempt = operating_cycle_id)
          && bool_decide (AttemptRow.state attempt ∈
               [ActorAttemptState.Failed; ActorAttemptState.Cancelled;
                ActorAttemptState.Expired; ActorAttemptState.ProtocolFailed;
                ActorAttemptState.SupervisorFailed]))
    Rejection.InvalidLifecycleTransition ;!
  let! item := work_item_row work_item_id in
  ensure (bool_decide (WorkItemRow.state item = WorkItemState.Settled))
    Rejection.WorkLeaseUnavailable ;!
  update_row Database.work_items (Identifier.value work_item_id) (fun r =>
    r <| WorkItems.lifecycle_state := 1 |>
      <| WorkItems.retry_of_actor_attempt_id := Some (Identifier.value actor_attempt_id) |>
      <| WorkItems.last_transition_command_id := command_row_id |>)
    Rejection.SubjectNotFound ;!
  set_ticket_state command_row_id ticket_id TicketState.Ready ;!
  record_coordination_provenance command_row_id cycle operating_cycle_id (Some project_id) ;!
  m_ret (EventBody.ActorAttemptRetryPrepared actor_attempt_id work_item_id ticket_id).

Definition complete_ticket (command_row_id : Z) (expected_generation : ExpectedGeneration.t)
  (operating_cycle_id : OperatingCycleId) (actor_attempt_id : ActorAttemptId) :
  store EventBody.t :=
  let! cycle := coordination_cycle expected_generation operating_cycle_id in
  let! attempt := actor_attempt_row actor_attempt_id in
  let ticket_id := AttemptRow.ticket_id attempt in
  let! row := ticket_row ticket_id in
  let '(project_id, ticket_state) := row in
  ensure (bool_decide (AttemptRow.operating_cycle_id attempt = operating_cycle_id)
          && bool_decide (AttemptRow.state attempt = ActorAttemptState.Validated)
          && bool_decide (ticket_state = TicketState.Verified))
    Rejection.ActorAttemptNotValidatable ;!
  let! unsatisfied := read (fun db => count_where (fun c =>
      (TicketAcceptanceConditions.ticket_id c =? Identifier.value ticket_id)
      && (TicketAcceptanceConditions.lifecycle_state c =? 1))
    (Database.ticket_acceptance_conditions db)) in
  ensure (unsatisfied =? 0) Rejection.TicketAcceptanceConditionUnsatisfied ;!
  set_ticket_state command_row_id ticket_id TicketState.Completed ;!
  record_coordination_provenance command_row_id cycle operating_cycle_id (Some project_id) ;!
  m_ret (EventBody.TicketCompleted ticket_id actor_attempt_id).

(** The joins find the work item and the actor of the lease. *)
Definition expire_work_lease (command_row_id : Z) (work_lease_id : WorkLeaseId) :
  store EventBody.t :=
  let! lease := select Database.leases (Identifier.value work_lease_id)
    Rejection.SubjectNotFound in
  let! item := select Database.work_items (Leases.work_item_id lease)
    Rejection.SubjectNotFound in
  let! actor := select Database.actor_instances (Leases.actor_instance_id lease)
    Rejection.SubjectNotFound in
  ensure (Leases.lifecycle_state lease =? WorkLeaseState.as_i64 WorkLeaseState.Active)
    Rejection.WorkLeaseUnavailable ;!
  let! attempt_count := read (fun db => count_where (fun a =>
    Attempts.work_lease_id a =? Identifier.value work_lease_id) (Database.attempts db)) in
  ensure (attempt_count =? 0) Rejection.WorkLeaseUnavailable ;!
  let! work_item_id := or_reject (Identifier.try_from (Leases.work_item_id lease))
    Rejection.SubjectNotFound in
  let! ticket_id := or_reject (Identifier.try_from (WorkItems.ticket_id item))
    Rejection.SubjectNotFound in
  let! operating_cycle_id := or_reject (Identifier.try_from
    (ActorInstances.operating_cycle_id actor)) Rejection.SubjectNotFound in
  update_row Database.leases (Identifier.value work_lease_id) (fun r =>
    r <| Leases.lifecycle_state := 3 |>
      <| Leases.terminal_by_command_id := Some command_row_id |>) Rejection.SubjectNotFound ;!
  set_work_item_state command_row_id work_item_id 1 ;!
  set_ticket_state command_row_id ticket_id TicketState.Ready ;!
  let! row := ticket_row ticket_id in
  let! cycle := cycle_row operating_cycle_id in
  record_coordination_provenance command_row_id cycle operating_cycle_id (Some row.1) ;!
  m_ret (EventBody.WorkLeaseExpired work_lease_id work_item_id).

Definition cancel_actor_attempt (command_row_id : Z) (actor_attempt_id : ActorAttemptId)
  (reason : ActorAttemptCancellationReason.t) : store EventBody.t :=
  let! attempt := actor_attempt_row actor_attempt_id in
  ensure (bool_decide (AttemptRow.state attempt = ActorAttemptState.Running))
    Rejection.InvalidLifecycleTransition ;!
  update_row Database.attempts (Identifier.value actor_attempt_id) (fun r =>
    r <| Attempts.lifecycle_state := 2 |>) Rejection.SubjectNotFound ;!
  let! row := ticket_row (AttemptRow.ticket_id attempt) in
  let! cycle := cycle_row (AttemptRow.operating_cycle_id attempt) in
  record_coordination_provenance command_row_id cycle (AttemptRow.operating_cycle_id attempt)
    (Some row.1) ;!
  m_ret (EventBody.ActorAttemptCancellationRequested actor_attempt_id reason).

(** ** Outcome obligations *)

Definition register_outcome_obligation (command_row_id : Z)
  (expected_generation : ExpectedGeneration.t) (operating_cycle_id : OperatingCycleId)
  (project_id : ProjectId) (obligation : string) : store EventBody.t :=
  let! cycle := coordination_cycle expected_generation operating_cycle_id in
  project_is_active project_id ;!
  let! id := insert_into Database.outcome_obligations
    (OutcomeObligations.new (Identifier.value project_id) obligation 1 command_row_id None)
    Rejection.InvalidLifecycleTransition in
  let! outcome_obligation_id := returned_identity id in
  record_coordination_provenance command_row_id cycle operating_cycle_id (Some project_id) ;!
  m_ret (EventBody.OutcomeObligationRegistered outcome_obligation_id project_id).

Definition resolve_outcome_obligation (command_row_id : Z)
  (expected_generation : ExpectedGeneration.t) (operating_cycle_id : OperatingCycleId)
  (outcome_obligation_id : OutcomeObligationId)
  (disposition : OutcomeObligationDisposition.t) : store EventBody.t :=
  let! cycle := coordination_cycle expected_generation operating_cycle_id in
  let! row := select Database.outcome_obligations (Identifier.value outcome_obligation_id)
    Rejection.SubjectNotFound in
  ensure (OutcomeObligations.lifecycle_state row
          =? OutcomeObligationState.as_i64 OutcomeObligationState.Scheduled)
    Rejection.OutcomeObligationOpen ;!
  let! project_id := or_reject (Identifier.try_from (OutcomeObligations.project_id row))
    Rejection.SubjectNotFound in
  let state := OutcomeObligationDisposition.state disposition in
  update_row Database.outcome_obligations (Identifier.value outcome_obligation_id) (fun r =>
    r <| OutcomeObligations.lifecycle_state := OutcomeObligationState.as_i64 state |>
      <| OutcomeObligations.resolved_by_command_id := Some command_row_id |>)
    Rejection.SubjectNotFound ;!
  record_coordination_provenance command_row_id cycle operating_cycle_id (Some project_id) ;!
  m_ret (EventBody.OutcomeObligationResolved outcome_obligation_id state).

(** ** The launch of a native qualification *)

(** [INSERT .. ON CONFLICT (native_workspace_id) DO NOTHING], then the exact pair. *)
Definition register_workspace (command_row_id : Z) (native_workspace_id : string)
  (canonical_workspace_path : string) : store unit :=
  let! known := read (fun db => exists_where (fun w =>
    (Workspaces.native_workspace_id w =? native_workspace_id)%string) (Database.workspaces db)) in
  (if known then m_ret () else
     insert_into Database.workspaces
       (Workspaces.new native_workspace_id canonical_workspace_path command_row_id)
       Rejection.ChildSpawnAdmissionInvalid ;!
     m_ret ()) ;!
  let! workspace_matches := read (fun db => exists_where (fun w =>
    (Workspaces.native_workspace_id w =? native_workspace_id)%string
    && (Workspaces.canonical_workspace_path w =? canonical_workspace_path)%string)
    (Database.workspaces db)) in
  ensure workspace_matches Rejection.ChildSpawnAdmissionInvalid.
Definition epoch_matches (db : Database.t) (supervisor_epoch_id : SupervisorEpochId)
  (supervisor_epoch_identity : SupervisorEpochIdentity) : bool :=
  match rows (Database.supervisor_epochs db) !! Identifier.value supervisor_epoch_id with
  | Some e => (SupervisorEpochs.supervisor_epoch_identity e
               =? BoundaryIdentity.as_str supervisor_epoch_identity)%string
  | None => false
  end.

Definition claim_native_execution_profile_qualification_launch (command_row_id : Z)
  (expected_generation : ExpectedGeneration.t) (operating_cycle_id : OperatingCycleId)
  (reservation_amount : UsdMicros.t) (supervisor_epoch_id : SupervisorEpochId)
  (supervisor_epoch_identity : SupervisorEpochIdentity)
  (native_workspace_id : NativeWorkspaceId)
  (canonical_workspace_path : CanonicalWorkspacePath.t) : store EventBody.t :=
  let! cycle := cycle_for_generation operating_cycle_id expected_generation in
  ensure (bool_decide (CycleRow.state cycle = OperatingCycleState.Admitted_)
          && bool_decide (CycleRow.treatment cycle
                          = OperatingCycleTreatment.PiSdkQualificationV1))
    Rejection.QualificationTreatmentRestricted ;!
  let! already_claimed := read (fun db => exists_where (fun c =>
      NativeExecutionProfileQualificationLaunchClaims.operating_cycle_id c
      =? Identifier.value operating_cycle_id)
    (Database.native_execution_profile_qualification_launch_claims db)) in
  ensure (negb already_claimed) Rejection.InvalidLifecycleTransition ;!
  let profile_id := NATIVE_PINNED_PI_SDK_V1 in
  let! profile_eligible := read (fun db =>
    match rows (Database.execution_profiles db) !! Identifier.value profile_id with
    | Some p => (ExecutionProfiles.profile_kind p
                 =? ExecutionProfileKind.as_i64 ExecutionProfileKind.NativePinnedPiSdkV1)
                && (ExecutionProfiles.readiness p
                    =? ExecutionProfileReadiness.as_i64 ExecutionProfileReadiness.Unqualified)
    | None => false
    end) in
  ensure profile_eligible Rejection.ExecutionProfileIneligible ;!
  ensure (negb (UsdMicros.value reservation_amount =? UsdMicros.value UsdMicros.ZERO))
    Rejection.BudgetCeilingExceeded ;!
  let! matches_ := read (fun db => epoch_matches db supervisor_epoch_id
                                     supervisor_epoch_identity) in
  ensure matches_ Rejection.ChildSpawnAdmissionInvalid ;!
  register_workspace command_row_id (BoundaryIdentity.as_str native_workspace_id)
    (CanonicalWorkspacePath.as_str canonical_workspace_path) ;!
  set_cycle_state command_row_id operating_cycle_id OperatingCycleState.Running
    Rejection.InvalidLifecycleTransition ;!
  set_cycle_started command_row_id operating_cycle_id Rejection.InvalidLifecycleTransition ;!
  let! reservation := reserve_budget command_row_id expected_generation operating_cycle_id
    reservation_amount in
  match reservation with
  | EventBody.BudgetReserved budget_reservation_id _ _ =>
      let! id := insert_into Database.native_execution_profile_qualification_launch_claims
        (NativeExecutionProfileQualificationLaunchClaims.new
           (Identifier.value operating_cycle_id) (Identifier.value budget_reservation_id)
           (Identifier.value profile_id) (Identifier.value supervisor_epoch_id)
           (BoundaryIdentity.as_str supervisor_epoch_identity)
           (BoundaryIdentity.as_str native_workspace_id)
           (CanonicalWorkspacePath.as_str canonical_workspace_path)
           (AdmissionGeneration.value (CycleRow.generation cycle)) command_row_id)
        Rejection.InvalidLifecycleTransition in
      let! launch_claim_id := returned_identity id in
      m_ret (EventBody.NativeExecutionProfileQualificationLaunchClaimed launch_claim_id
               operating_cycle_id budget_reservation_id profile_id supervisor_epoch_id
               (CycleRow.generation cycle))
  | _ => m_fail Rejection.InvalidLifecycleTransition
  end.
