(* ===== verification/StoreReview.v ===== *)
(** * Adversarial reviews

    [society-kernel/src/store.rs], [request_adversarial_review] to
    [resolve_adversarial_review]: a committed revision is reviewed by an independent actor
    whose challenges are answered and dispositioned before the review is resolved. *)

From S2P Require Import Prelude.
From S2P Require Import Machine.
From S2P Require Import KernelScalars.
From S2P Require Import KernelEnums.
From S2P Require Import KernelCustody.
From S2P Require Import KernelCommands.
From S2P Require Import KernelCodes.
From S2P Require Import SqlTable.
From S2P Require Import StoreTables.
From S2P Require Import StoreQueries.
From S2P Require Import StoreProject.
From S2P Require Import StoreWork.

Definition request_adversarial_review (command_row_id : Z)
  (expected_generation : ExpectedGeneration.t) (operating_cycle_id : OperatingCycleId)
  (project_id : ProjectId) (target_graph_revision_id : GraphRevisionId) : store EventBody.t :=
  let! cycle := coordination_cycle expected_generation operating_cycle_id in
  project_is_active project_id ;!
  let! revision := graph_revision_row target_graph_revision_id in
  let '(_, revision_project, _, revision_state) := revision in
  ensure (bool_decide (revision_project = project_id)) Rejection.SubjectNotFound ;!
  ensure (bool_decide (revision_state = GraphRevisionState.Committed))
    Rejection.GraphRevisionNotCommitted ;!
  let! id := insert_into Database.adversarial_reviews
    (AdversarialReviews.new (Identifier.value project_id)
       (Identifier.value target_graph_revision_id) 1 command_row_id None None None None)
    Rejection.InvalidLifecycleTransition in
  let! adversarial_review_id := returned_identity id in
  record_coordination_provenance command_row_id cycle operating_cycle_id (Some project_id) ;!
  m_ret (EventBody.AdversarialReviewRequested adversarial_review_id).

(** The evidence of the assignment: the attempt is the finished review work of this actor,
    for this review, in this project and cycle. *)
Definition is_assignment_evidence (operating_cycle_id : OperatingCycleId)
  (project_id ticket_project : ProjectId) (adversarial_review_id : AdversarialReviewId)
  (reviewer_actor_instance_id : ActorInstanceId) (attempt : AttemptRow.t)
  (item : WorkItemRow.t) : bool :=
  bool_decide (AttemptRow.operating_cycle_id attempt = operating_cycle_id)
  && bool_decide (AttemptRow.actor_instance_id attempt = reviewer_actor_instance_id)
  && bool_decide (ticket_project = project_id)
  && bool_decide (WorkItemRow.work_kind item = WorkItemKind.IndependentReview)
  && bool_decide (WorkItemRow.adversarial_review_id item = Some adversarial_review_id).

Definition assign_adversarial_reviewer (command_row_id : Z)
  (expected_generation : ExpectedGeneration.t) (operating_cycle_id : OperatingCycleId)
  (adversarial_review_id : AdversarialReviewId) (reviewer_principal_id : PrincipalId)
  (reviewer_actor_instance_id : ActorInstanceId)
  (reviewer_actor_attempt_id : ActorAttemptId) : store EventBody.t :=
  let! cycle := coordination_cycle expected_generation operating_cycle_id in
  let! review := review_row adversarial_review_id in
  let '(project_id, _, review_state) := review in
  ensure (bool_decide (review_state = AdversarialReviewState.Requested))
    Rejection.InvalidLifecycleTransition ;!
  let! occupancy := select Database.office_occupancies
    (Identifier.value (CycleRow.occupancy_id cycle)) Rejection.SubjectNotFound in
  ensure (negb (Identifier.value reviewer_principal_id
                =? OfficeOccupancies.principal_id occupancy))
    Rejection.ReviewAssignmentNotIndependent ;!
  let! actor := actor_instance_row reviewer_actor_instance_id in
  ensure (bool_decide (ActorInstanceRow.principal_id actor = reviewer_principal_id)
          && acts_in operating_cycle_id actor)
    Rejection.ReviewAssignmentEvidenceMissing ;!
  let! attempt := actor_attempt_row reviewer_actor_attempt_id in
  let! ticket := ticket_row (AttemptRow.ticket_id attempt) in
  let! item := work_item_row (AttemptRow.work_item_id attempt) in
  let! context := select Database.context_packs
    (Identifier.value (WorkItemRow.context_pack_id item))
    Rejection.ReviewAssignmentEvidenceMissing in
  ensure (is_assignment_evidence operating_cycle_id project_id ticket.1 adversarial_review_id
            reviewer_actor_instance_id attempt item)
    Rejection.ReviewAssignmentEvidenceMissing ;!
  let! purpose := or_reject (context_pack_purpose_from_i64 (ContextPacks.purpose context))
    Rejection.ReviewAssignmentEvidenceMissing in
  ensure (bool_decide (purpose = ContextPackPurpose.IndependentReview)
          && bool_decide (AttemptRow.state attempt ∈
               [ActorAttemptState.Succeeded; ActorAttemptState.Validated]))
    Rejection.ReviewAssignmentEvidenceMissing ;!
  let! eligible := read (fun db =>
    match rows (Database.principals db) !! Identifier.value reviewer_principal_id with
    | Some p => (Principals.principal_kind p =? PrincipalKind.as_i64 PrincipalKind.Actor)
                && Principals.active p
    | None => false
    end) in
  ensure eligible Rejection.SubjectNotFound ;!
  update_row Database.adversarial_reviews (Identifier.value adversarial_review_id) (fun r =>
    r <| AdversarialReviews.lifecycle_state :=
           AdversarialReviewState.as_i64 AdversarialReviewState.Assigned |>
      <| AdversarialReviews.assigned_reviewer_principal_id :=
           Some (Identifier.value reviewer_principal_id) |>
      <| AdversarialReviews.assigned_reviewer_actor_instance_id :=
           Some (Identifier.value reviewer_actor_instance_id) |>
      <| AdversarialReviews.reviewer_actor_attempt_id :=
           Some (Identifier.value reviewer_actor_attempt_id) |>)
    Rejection.SubjectNotFound ;!
  record_coordination_provenance command_row_id cycle operating_cycle_id (Some project_id) ;!
  m_ret (EventBody.AdversarialReviewerAssigned adversarial_review_id reviewer_principal_id
           reviewer_actor_instance_id reviewer_actor_attempt_id).

(** ** Challenges *)

Definition submit_review_challenge (command_row_id : Z) (author_principal_id : PrincipalId)
  (expected_generation : ExpectedGeneration.t) (operating_cycle_id : OperatingCycleId)
  (adversarial_review_id : AdversarialReviewId) (target_graph_revision_id : GraphRevisionId)
  (severity : ReviewChallengeSeverity.t) (failure_hypothesis : string) : store EventBody.t :=
  let! cycle := coordination_cycle expected_generation operating_cycle_id in
  let! review := review_row adversarial_review_id in
  let '(project_id, review_target, review_state) := review in
  let! row := select Database.adversarial_reviews (Identifier.value adversarial_review_id)
    Rejection.SubjectNotFound in
  ensure (same_key (AdversarialReviews.assigned_reviewer_principal_id row)
            (Some (Identifier.value author_principal_id)))
    Rejection.CapabilityNotGranted ;!
  let! assigned_actor := require (AdversarialReviews.assigned_reviewer_actor_instance_id row)
    Rejection.ReviewAssignmentEvidenceMissing in
  let! assigned_actor_id := or_reject (Identifier.try_from assigned_actor)
    Rejection.ReviewAssignmentEvidenceMissing in
  let! actor := actor_instance_row assigned_actor_id in
  ensure (bool_decide (ActorInstanceRow.principal_id actor = author_principal_id)
          && acts_in operating_cycle_id actor)
    Rejection.ReviewAssignmentEvidenceMissing ;!
  ensure (bool_decide (review_target = target_graph_revision_id)
          && bool_decide (review_state ∈
               [AdversarialReviewState.Assigned; AdversarialReviewState.Active;
                AdversarialReviewState.FindingsSubmitted; AdversarialReviewState.ResponsesDue]))
    Rejection.InvalidLifecycleTransition ;!
  let! revision := graph_revision_row target_graph_revision_id in
  let '(_, revision_project, _, revision_state) := revision in
  ensure (bool_decide (revision_project = project_id)) Rejection.SubjectNotFound ;!
  ensure (bool_decide (revision_state = GraphRevisionState.Committed))
    Rejection.GraphRevisionNotCommitted ;!
  let! id := insert_into Database.review_challenges
    (ReviewChallenges.new (Identifier.value adversarial_review_id)
       (Identifier.value target_graph_revision_id) (Identifier.value author_principal_id)
       (ReviewChallengeSeverity.as_i64 severity) failure_hypothesis 1 command_row_id)
    Rejection.InvalidLifecycleTransition in
  let! review_challenge_id := returned_identity id in
  update_row Database.adversarial_reviews (Identifier.value adversarial_review_id) (fun r =>
    r <| AdversarialReviews.lifecycle_state := 5 |>) Rejection.SubjectNotFound ;!
  record_coordination_provenance command_row_id cycle operating_cycle_id (Some project_id) ;!
  m_ret (EventBody.ReviewChallengeSubmitted review_challenge_id author_principal_id).

(** [review_challenges] joined with its review. *)
Definition review_challenge_row (challenge_id : ReviewChallengeId) :
  store (AdversarialReviewId * ProjectId * PrincipalId * ReviewChallengeResponseState.t) :=
  let! challenge := select Database.review_challenges (Identifier.value challenge_id)
    Rejection.SubjectNotFound in
  let! review := select Database.adversarial_reviews
    (ReviewChallenges.adversarial_review_id challenge) Rejection.SubjectNotFound in
  let! review_id := or_reject (Identifier.try_from
    (ReviewChallenges.adversarial_review_id challenge)) Rejection.SubjectNotFound in
  let! project_id := or_reject (Identifier.try_from (AdversarialReviews.project_id review))
    Rejection.SubjectNotFound in
  let! author := or_reject (Identifier.try_from
    (ReviewChallenges.author_principal_id challenge)) Rejection.SubjectNotFound in
  let! state := or_reject (review_challenge_response_state_from_i64
    (ReviewChallenges.response_state challenge)) Rejection.SubjectNotFound in
  m_ret (review_id, project_id, author, state).

Definition respond_to_review_challenge (command_row_id : Z)
  (expected_generation : ExpectedGeneration.t) (operating_cycle_id : OperatingCycleId)
  (review_challenge_id : ReviewChallengeId) (response : string) : store EventBody.t :=
  let! cycle := coordination_cycle expected_generation operating_cycle_id in
  let! row := review_challenge_row review_challenge_id in
  let '(_, project_id, _, response_state) := row in
  ensure (bool_decide (response_state = ReviewChallengeResponseState.Pending))
    Rejection.InvalidLifecycleTransition ;!
  insert_into Database.review_challenge_responses
    (ReviewChallengeResponses.new (Identifier.value review_challenge_id) response
       command_row_id)
    Rejection.InvalidLifecycleTransition ;!
  update_row Database.review_challenges (Identifier.value review_challenge_id) (fun r =>
    r <| ReviewChallenges.response_state := 2 |>) Rejection.SubjectNotFound ;!
  record_coordination_provenance command_row_id cycle operating_cycle_id (Some project_id) ;!
  m_ret (EventBody.ReviewChallengeResponded review_challenge_id).

Definition disposition_review_challenge (command_row_id : Z) (principal_id : PrincipalId)
  (expected_generation : ExpectedGeneration.t) (operating_cycle_id : OperatingCycleId)
  (review_challenge_id : ReviewChallengeId) (disposition : ReviewDispositionKind.t) :
  store EventBody.t :=
  let! cycle := coordination_cycle expected_generation operating_cycle_id in
  let! row := review_challenge_row review_challenge_id in
  let '(_, project_id, author, response_state) := row in
  ensure (negb (bool_decide (principal_id = author))) Rejection.ReviewSelfDispositionDenied ;!
  ensure (bool_decide (response_state = ReviewChallengeResponseState.Responded))
    Rejection.ReviewDispositionIncomplete ;!
  insert_into Database.review_dispositions
    (ReviewDispositions.new (Identifier.value review_challenge_id)
       (ReviewDispositionKind.as_i64 disposition) (Identifier.value principal_id)
       command_row_id)
    Rejection.ReviewDispositionIncomplete ;!
  record_coordination_provenance command_row_id cycle operating_cycle_id (Some project_id) ;!
  m_ret (EventBody.ReviewChallengeDispositioned review_challenge_id disposition).

(** [LEFT JOIN review_dispositions]: a challenge without a response or a disposition. *)
Definition is_dispositioned (db : Database.t) (challenge : Z) : bool :=
  exists_where (fun d => ReviewDispositions.review_challenge_id d =? challenge)
    (Database.review_dispositions db).
Definition challenge_is_missing (db : Database.t) (review : Z)
  (challenge : Z * ReviewChallenges.t) : bool :=
  (ReviewChallenges.adversarial_review_id challenge.2 =? review)
  && (negb (ReviewChallenges.response_state challenge.2 =? 2)
      || negb (is_dispositioned db challenge.1)).

Definition resolve_adversarial_review (command_row_id : Z)
  (expected_generation : ExpectedGeneration.t) (operating_cycle_id : OperatingCycleId)
  (adversarial_review_id : AdversarialReviewId) (resolution : ReviewResolutionKind.t) :
  store EventBody.t :=
  let! cycle := coordination_cycle expected_generation operating_cycle_id in
  let! review := review_row adversarial_review_id in
  let '(project_id, _, state) := review in
  ensure (bool_decide (state = AdversarialReviewState.ResponsesDue))
    Rejection.InvalidLifecycleTransition ;!
  let! missing := read (fun db =>
    existsb (challenge_is_missing db (Identifier.value adversarial_review_id))
      (map_to_list (rows (Database.review_challenges db)))) in
  ensure (negb missing) Rejection.ReviewDispositionIncomplete ;!
  let target_state := match resolution with
                      | ReviewResolutionKind.Resolved => AdversarialReviewState.Resolved
                      | ReviewResolutionKind.AcceptedRisk => AdversarialReviewState.AcceptedRisk
                      end in
  update_row Database.adversarial_reviews (Identifier.value adversarial_review_id) (fun r =>
    r <| AdversarialReviews.lifecycle_state := AdversarialReviewState.as_i64 target_state |>
      <| AdversarialReviews.resolved_by_command_id := Some command_row_id |>)
    Rejection.SubjectNotFound ;!
  record_coordination_provenance command_row_id cycle operating_cycle_id (Some project_id) ;!
  m_ret (EventBody.AdversarialReviewResolved adversarial_review_id target_state).
