(* ===== verification/StoreLedger.v ===== *)
(** * The command ledger

    [society-kernel/src/store.rs]: [execute] and [execute_in_transaction], the gate that
    every command passes before its transition ([apply_command] with the capability, the
    generation, the occupancy and the qualification fence), and [insert_event].

    A transition that fails is rolled back to the savepoint; the command stays recorded
    with its rejection.  A [StoreError] abandons the whole transaction.  The transitions
    that the development does not model are the parameter [unmodelled]. *)

From S2P Require Import Prelude.
From S2P Require Import Machine.
From S2P Require Import Hash.
From S2P Require Import KernelScalars.
From S2P Require Import KernelEnums.
From S2P Require Import KernelCustody.
From S2P Require Import KernelCommands.
From S2P Require Import KernelCodes.
From S2P Require Import Fingerprint.
From S2P Require Import SqlTable.
From S2P Require Import StoreTables.
From S2P Require Import StoreQueries.
From S2P Require Import StoreFounding.
From S2P Require Import StoreCycle.
From S2P Require Import StoreBudget.
From S2P Require Import StoreProject.
From S2P Require Import StoreWork.
From S2P Require Import StoreReview.

Module CapabilityGrantLookup.
Inductive t :=
| Active (grant_id : Z) (office_occupancy_id : option OfficeOccupancyId)
    (actor_instance_id : option ActorInstanceId)
| Inactive.
End CapabilityGrantLookup.

(** How a transaction is abandoned: by an error, or by a panic that unwinds through it. *)
Module LedgerFailure.
Inductive t := Failed (e : StoreError.t) | Panicked.
#[global] Instance eq_dec : EqDecision t.
Proof. solve_decision. Defined.
End LedgerFailure.

(** Inside one transaction. *)
Definition ledger (A : Type) : Type := method Database.t LedgerFailure.t A.
(** [e?] for a [Result<_, StoreError>]. *)
Definition or_failed {A} (r : result A StoreError.t) : ledger A :=
  m_lift (map_err LedgerFailure.Failed r).
Definition ledger_read {A} (f : Database.t -> A) : ledger A := fun db => (Ok (f db), db).

(** ** The gate *)

(** The commands whose request must name an exact generation. *)
Definition needs_exact_generation (body : CommandBody.t) : bool :=
  match body with
  | CommandBody.AdmitOperatingCycle _ | CommandBody.StartRootAuthorityOfficeSession _
  | CommandBody.StartNativeExecutionProfileQualification _
  | CommandBody.ClaimStudyActorTaskAttemptLaunch _ _ _ _ _ _ _ _
  | CommandBody.ClaimNativeExecutionProfileQualificationLaunch _ _ _ _ _ _
  | CommandBody.AllocateStudyActorWork _ _ _ _ _ _ _ _ _ _
  | CommandBody.QualifyNativeExecutionProfile _ _ _ _ _ _ _ _ _ _ _
  | CommandBody.RecordOfficeSessionReady _ | CommandBody.RecordOfficeSessionTerminal _ _
  | CommandBody.OpenOfficeTurn _ _ | CommandBody.QuiesceOperatingCycle _
  | CommandBody.ResumeOperatingCycle _ | CommandBody.ReconcileOperatingCycle _
  | CommandBody.CloseOperatingCycle _ | CommandBody.ReserveBudget _ _
  | CommandBody.RequestCancellation _ _ | CommandBody.CloseCostPostmortem _ _
  | CommandBody.CreateProject _ _ _ | CommandBody.CharterProject _ _ _ _ _
  | CommandBody.TransitionProject _ _ _ | CommandBody.CompleteProjectMilestone _ _
  | CommandBody.ReopenProject _ _ | CommandBody.CreateTicket _ _ _ _ _
  | CommandBody.TransitionTicket _ _ _ | CommandBody.AddGraphObjectRevision _ _ _ _ _
  | CommandBody.CommitGraphRevision _ _ | CommandBody.AddGraphEdge _ _ _ _ _
  | CommandBody.CreateEpisode _ _ | CommandBody.TransitionEpisode _ _ _
  | CommandBody.ReopenEpisode _ _ | CommandBody.RequestAdversarialReview _ _ _
  | CommandBody.AssignAdversarialReviewer _ _ _ _ _
  | CommandBody.SubmitReviewChallenge _ _ _ _ _ _ | CommandBody.RespondToReviewChallenge _ _ _
  | CommandBody.DispositionReviewChallenge _ _ _ | CommandBody.ResolveAdversarialReview _ _ _
  | CommandBody.TriggerPostmortem _ _ _ | CommandBody.RecordPostmortemCausalClaim _ _ _ _
  | CommandBody.ProposePostmortemAction _ _ _ _ | CommandBody.ClosePostmortem _ _
  | CommandBody.RegisterContextPack _ _ _ | CommandBody.AdmitActorInstance _ _ _ _
  | CommandBody.AdmitTicket _ _ | CommandBody.RegisterWorkItem _ _ _ _ _ _ _
  | CommandBody.ClaimWorkItem _ _ | CommandBody.StartActorAttempt _ _ _
  | CommandBody.ValidateTicketAttempt _ _ | CommandBody.RetryActorAttempt _ _
  | CommandBody.CompleteTicket _ _ | CommandBody.RegisterOutcomeObligation _ _ _
  | CommandBody.ResolveOutcomeObligation _ _ _ | CommandBody.RegisterForensicManifest _ _ _ _ _
  | CommandBody.RegisterDeterministicEvaluatorForensicManifest _ _
  | CommandBody.RegisterDeterministicExperiment _ _ _ _ _ _
  | CommandBody.RecordDeterministicEvaluationReceipt _ _ _ _ _ _
  | CommandBody.AdmitDeterministicEvidence _ _ | CommandBody.FinalizeDeterministicExperiment _ _
  | CommandBody.AdmitPiChildSpawn _ _ _ _ _ _ _ _ _ _
  | CommandBody.RecordInertChildSpawn _ _ _ _ | CommandBody.RecordPiAdapterReady _ _ _
  | CommandBody.AuthorizePiCreateSession _ _ _ | CommandBody.RecordPiCreateSessionDelivery _ _ _
  | CommandBody.RecordPiSessionReady _ _ | CommandBody.RecordPiAbortControlDelivery _ _ _ _ _
  | CommandBody.RecordChildStreamSeal _ _ _ _ _ | CommandBody.RecordChildProcessLiveness _ _
  | CommandBody.RecordProcessSignalReceipt _ _ _ _ _ | CommandBody.RecordDirectChildReap _ _ _ _
  | CommandBody.RecordChildRecovery _ _ _ | CommandBody.FinalizeChildProcess _
  | CommandBody.BeginCancellationPropagation _ | CommandBody.ReconcileCancellationPropagation _
  | CommandBody.RecordNativeChildNotSpawned _ _
  | CommandBody.AdmitDeterministicEvaluatorNativeChild _ _ _ _ _ _ _ _ _
  | CommandBody.RecordDeterministicEvaluatorNativeChildSpawn _ _ _ _
  | CommandBody.AuthorizePiOfficeTurnPrompt _ _ _ _ _
  | CommandBody.RecordPiOfficeTurnPromptDelivery _ _ _
  | CommandBody.RecordPiOfficeTurnPromptAccepted _ _ _
  | CommandBody.RecordPiOfficeTurnUsage _ _ _ _
  | CommandBody.RecordPiOfficeTurnUsageFailure _ _ _ _
  | CommandBody.RecordPiOfficeTurnTerminal _ _ _ _ _ _ _
  | CommandBody.AuthorizePiOfficeSessionDispose _ _
  | CommandBody.RecordPiOfficeSessionDisposeDelivery _ _
  | CommandBody.RecordPiOfficeSessionDisposeAccepted _ _ _
  | CommandBody.RecordPiOfficeSessionDisposeUsage _ _ _ _
  | CommandBody.RecordPiOfficeSessionDisposeUsageFailure _ _ _ _
  | CommandBody.RecordPiOfficeSessionDisposed _ _ _ _
  | CommandBody.AuthorizePiTaskAttemptPrompt _ _ _ _ _
  | CommandBody.RecordPiTaskAttemptPromptDelivery _ _ _
  | CommandBody.RecordPiTaskAttemptPromptAccepted _ _ _
  | CommandBody.RecordPiTaskAttemptUsage _ _ _ _
  | CommandBody.RecordPiTaskAttemptUsageFailure _ _ _ _
  | CommandBody.RecordPiTaskAttemptTerminal _ _ _ _ _ _ _
  | CommandBody.AuthorizePiTaskAttemptSessionDispose _ _
  | CommandBody.RecordPiTaskAttemptSessionDisposeDelivery _ _
  | CommandBody.RecordPiTaskAttemptSessionDisposeAccepted _ _ _
  | CommandBody.RecordPiTaskAttemptSessionDisposeUsage _ _ _ _
  | CommandBody.RecordPiTaskAttemptSessionDisposeUsageFailure _ _ _ _
  | CommandBody.RecordPiTaskAttemptSessionDisposed _ _ _ _ => true
  | _ => false
  end.

Definition is_exact (expected_generation : ExpectedGeneration.t) : bool :=
  match expected_generation with
  | ExpectedGeneration.Exact _ => true
  | ExpectedGeneration.NotApplicable => false
  end.

Definition stored_identifier {n} (value : option Z) : ledger (option (Identifier.t n)) :=
  or_failed (map_err (fun _ => StoreError.InvalidStoredValue) (optional_identifier value)).

Definition capability_grant (principal_id : PrincipalId) (capability : Capability.t)
  (capability_grant_id : CapabilityGrantId) : ledger (option CapabilityGrantLookup.t) :=
  let! grant := ledger_read (fun db =>
    rows (Database.capability_grants db) !! Identifier.value capability_grant_id) in
  match grant with
  | Some grant =>
      if (CapabilityGrants.principal_id grant =? Identifier.value principal_id)
         && (CapabilityGrants.capability_kind grant =? Capability.as_i64 capability)
      then
        if CapabilityGrants.grant_state grant =? 1 then
          let! office_occupancy_id :=
            stored_identifier (CapabilityGrants.office_occupancy_id grant) in
          let! actor_instance_id :=
            stored_identifier (CapabilityGrants.actor_instance_id grant) in
          m_ret (Some (CapabilityGrantLookup.Active (Identifier.value capability_grant_id)
                         office_occupancy_id actor_instance_id))
        else m_ret (Some CapabilityGrantLookup.Inactive)
      else m_ret None
  | None => m_ret None
  end.

(** The joins on the grant: the occupancy is active and held by the same principal. *)
Definition grant_has_active_occupancy (db : Database.t) (grant_id : Z) : bool :=
  match rows (Database.capability_grants db) !! grant_id with
  | Some g =>
      match CapabilityGrants.office_occupancy_id g with
      | Some occupancy =>
          match rows (Database.office_occupancies db) !! occupancy with
          | Some o => OfficeOccupancies.active o
                      && (OfficeOccupancies.principal_id o =? CapabilityGrants.principal_id g)
          | None => false
          end
      | None => false
      end
  | None => false
  end.
Definition grant_has_active_actor_instance (db : Database.t) (grant_id : Z) : bool :=
  match rows (Database.capability_grants db) !! grant_id with
  | Some g =>
      match CapabilityGrants.actor_instance_id g with
      | Some instance =>
          match rows (Database.actor_instances db) !! instance with
          | Some a =>
              (ActorInstances.lifecycle_state a =? 1)
              && match rows (Database.principals db) !! ActorInstances.principal_id a with
                 | Some p => Principals.active p
                 | None => false
                 end
              && (ActorInstances.principal_id a =? CapabilityGrants.principal_id g)
          | None => false
          end
      | None => false
      end
  | None => false
  end.

Definition cycle_occupancy (cycle_id : OperatingCycleId) : store (option OfficeOccupancyId) :=
  let! cycle := cycle_row cycle_id in m_ret (Some (CycleRow.occupancy_id cycle)).
(** The occupancy that governs what the command is about. *)
Definition command_target_occupancy (body : CommandBody.t) : store (option OfficeOccupancyId) :=
  match body with
  | CommandBody.ProposeOperatingCycle _ _ =>
      let! constitution := bootstrapped_constitution in
      let '(_, _, occupancy_id, _) := constitution in
      m_ret (Some occupancy_id)
  | CommandBody.AdmitOperatingCycle cycle_id
  | CommandBody.StartRootAuthorityOfficeSession cycle_id
  | CommandBody.QuiesceOperatingCycle cycle_id | CommandBody.ResumeOperatingCycle cycle_id
  | CommandBody.ReconcileOperatingCycle cycle_id | CommandBody.CloseOperatingCycle cycle_id
  | CommandBody.ReserveBudget cycle_id _ | CommandBody.RequestCancellation cycle_id _ =>
      cycle_occupancy cycle_id
  | CommandBody.OpenOfficeTurn session_id _ =>
      let! occupancy_id := session_occupancy_id session_id in m_ret (Some occupancy_id)
  | CommandBody.CloseCostPostmortem postmortem_id _ =>
      let! row := select Database.cost_postmortems (Identifier.value postmortem_id)
        Rejection.SubjectNotFound in
      let! cycle_id := or_reject (Identifier.try_from (CostPostmortems.operating_cycle_id row))
        Rejection.SubjectNotFound in
      cycle_occupancy cycle_id
  | CommandBody.CreateProject cycle_id _ _ | CommandBody.CharterProject cycle_id _ _ _ _
  | CommandBody.TransitionProject cycle_id _ _ | CommandBody.CompleteProjectMilestone cycle_id _
  | CommandBody.ReopenProject cycle_id _ | CommandBody.CreateTicket cycle_id _ _ _ _
  | CommandBody.TransitionTicket cycle_id _ _
  | CommandBody.AddGraphObjectRevision cycle_id _ _ _ _
  | CommandBody.CommitGraphRevision cycle_id _ | CommandBody.AddGraphEdge cycle_id _ _ _ _
  | CommandBody.CreateEpisode cycle_id _ | CommandBody.TransitionEpisode cycle_id _ _
  | CommandBody.ReopenEpisode cycle_id _ | CommandBody.RequestAdversarialReview cycle_id _ _
  | CommandBody.AssignAdversarialReviewer cycle_id _ _ _ _
  | CommandBody.SubmitReviewChallenge cycle_id _ _ _ _ _
  | CommandBody.RespondToReviewChallenge cycle_id _ _
  | CommandBody.DispositionReviewChallenge cycle_id _ _
  | CommandBody.ResolveAdversarialReview cycle_id _ _
  | CommandBody.TriggerPostmortem cycle_id _ _
  | CommandBody.RecordPostmortemCausalClaim cycle_id _ _ _
  | CommandBody.ProposePostmortemAction cycle_id _ _ _ | CommandBody.ClosePostmortem cycle_id _
  | CommandBody.RegisterContextPack cycle_id _ _ | CommandBody.AdmitActorInstance cycle_id _ _ _
  | CommandBody.AdmitTicket cycle_id _ | CommandBody.RegisterWorkItem cycle_id _ _ _ _ _ _
  | CommandBody.StartActorAttempt cycle_id _ _ | CommandBody.ValidateTicketAttempt cycle_id _
  | CommandBody.RetryActorAttempt cycle_id _ | CommandBody.CompleteTicket cycle_id _
  | CommandBody.RegisterOutcomeObligation cycle_id _ _
  | CommandBody.ResolveOutcomeObligation cycle_id _ _
  | CommandBody.RegisterDeterministicExperiment cycle_id _ _ _ _ _
  | CommandBody.FinalizeDeterministicExperiment cycle_id _ =>
      cycle_occupancy cycle_id
  | _ => m_ret None
  end.

(** ** The qualification fence *)

Definition session_cycle (db : Database.t) (session : Z) : option Z :=
  option_map RootAuthorityOfficeSessions.operating_cycle_id
    (rows (Database.root_authority_office_sessions db) !! session).
(** The cycle of a command that does not name one: its subject's. *)
Definition indirect_cycle (db : Database.t) (body : CommandBody.t) : option Z :=
  match body with
  | CommandBody.RecordOfficeSessionReady session_id
  | CommandBody.RecordOfficeSessionTerminal session_id _
  | CommandBody.OpenOfficeTurn session_id _ => session_cycle db (Identifier.value session_id)
  | CommandBody.SettleOfficeTurn turn_id _ =>
      match rows (Database.office_turns db) !! Identifier.value turn_id with
      | Some t => session_cycle db (OfficeTurns.root_authority_office_session_id t)
      | None => None
      end
  | CommandBody.ReconcileBudget reservation_id _ =>
      option_map BudgetReservations.operating_cycle_id
        (rows (Database.budget_reservations db) !! Identifier.value reservation_id)
  | CommandBody.ReconcileCancellation cancellation_request_id =>
      option_map CancellationRequests.operating_cycle_id
        (rows (Database.cancellation_requests db) !! Identifier.value cancellation_request_id)
  | CommandBody.CloseCostPostmortem postmortem_id _ =>
      option_map CostPostmortems.operating_cycle_id
        (rows (Database.cost_postmortems db) !! Identifier.value postmortem_id)
  | CommandBody.AttestActorAttemptTerminal actor_attempt_id _
  | CommandBody.CancelActorAttempt actor_attempt_id _
  | CommandBody.AuthorizePiTaskAttemptPrompt actor_attempt_id _ _ _ _
  | CommandBody.RecordPiTaskAttemptPromptDelivery actor_attempt_id _ _
  | CommandBody.RecordPiTaskAttemptPromptAccepted actor_attempt_id _ _
  | CommandBody.RecordPiTaskAttemptUsage actor_attempt_id _ _ _
  | CommandBody.RecordPiTaskAttemptUsageFailure actor_attempt_id _ _ _
  | CommandBody.RecordPiTaskAttemptTerminal actor_attempt_id _ _ _ _ _ _
  | CommandBody.AuthorizePiTaskAttemptSessionDispose actor_attempt_id _
  | CommandBody.RecordPiTaskAttemptSessionDisposeDelivery actor_attempt_id _
  | CommandBody.RecordPiTaskAttemptSessionDisposeAccepted actor_attempt_id _ _
  | CommandBody.RecordPiTaskAttemptSessionDisposeUsage actor_attempt_id _ _ _
  | CommandBody.RecordPiTaskAttemptSessionDisposeUsageFailure actor_attempt_id _ _ _
  | CommandBody.RecordPiTaskAttemptSessionDisposed actor_attempt_id _ _ _ =>
      option_map Attempts.operating_cycle_id
        (rows (Database.attempts db) !! Identifier.value actor_attempt_id)
  | CommandBody.ExpireWorkLease work_lease_id =>
      match rows (Database.leases db) !! Identifier.value work_lease_id with
      | Some l => option_map ActorInstances.operating_cycle_id
                    (rows (Database.actor_instances db) !! Leases.actor_instance_id l)
      | None => None
      end
  | _ => None
  end.
Definition direct_cycle (body : CommandBody.t) : option OperatingCycleId :=
  match body with
  | CommandBody.AdmitOperatingCycle cycle_id
  | CommandBody.StartRootAuthorityOfficeSession cycle_id
  | CommandBody.QuiesceOperatingCycle cycle_id | CommandBody.RecordCycleDrained cycle_id
  | CommandBody.ResumeOperatingCycle cycle_id | CommandBody.ReconcileOperatingCycle cycle_id
  | CommandBody.CloseOperatingCycle cycle_id | CommandBody.ReserveBudget cycle_id _
  | CommandBody.RequestCancellation cycle_id _ | CommandBody.CreateProject cycle_id _ _
  | CommandBody.CharterProject cycle_id _ _ _ _ | CommandBody.TransitionProject cycle_id _ _
  | CommandBody.CompleteProjectMilestone cycle_id _ | CommandBody.ReopenProject cycle_id _
  | CommandBody.CreateTicket cycle_id _ _ _ _ | CommandBody.TransitionTicket cycle_id _ _
  | CommandBody.AddGraphObjectRevision cycle_id _ _ _ _
  | CommandBody.CommitGraphRevision cycle_id _ | CommandBody.AddGraphEdge cycle_id _ _ _ _
  | CommandBody.CreateEpisode cycle_id _ | CommandBody.TransitionEpisode cycle_id _ _
  | CommandBody.ReopenEpisode cycle_id _ | CommandBody.RequestAdversarialReview cycle_id _ _
  | CommandBody.AssignAdversarialReviewer cycle_id _ _ _ _
  | CommandBody.SubmitReviewChallenge cycle_id _ _ _ _ _
  | CommandBody.RespondToReviewChallenge cycle_id _ _
  | CommandBody.DispositionReviewChallenge cycle_id _ _
  | CommandBody.ResolveAdversarialReview cycle_id _ _
  | CommandBody.TriggerPostmortem cycle_id _ _
  | CommandBody.RecordPostmortemCausalClaim cycle_id _ _ _
  | CommandBody.ProposePostmortemAction cycle_id _ _ _ | CommandBody.ClosePostmortem cycle_id _
  | CommandBody.RegisterContextPack cycle_id _ _ | CommandBody.AdmitActorInstance cycle_id _ _ _
  | CommandBody.AdmitTicket cycle_id _ | CommandBody.RegisterWorkItem cycle_id _ _ _ _ _ _
  | CommandBody.ClaimWorkItem cycle_id _ | CommandBody.StartActorAttempt cycle_id _ _
  | CommandBody.ValidateTicketAttempt cycle_id _ | CommandBody.RetryActorAttempt cycle_id _
  | CommandBody.CompleteTicket cycle_id _ | CommandBody.RegisterOutcomeObligation cycle_id _ _
  | CommandBody.ResolveOutcomeObligation cycle_id _ _
  | CommandBody.RegisterForensicManifest cycle_id _ _ _ _
  | CommandBody.RegisterDeterministicEvaluatorForensicManifest cycle_id _
  | CommandBody.RegisterDeterministicExperiment cycle_id _ _ _ _ _
  | CommandBody.RecordDeterministicEvaluationReceipt cycle_id _ _ _ _ _
  | CommandBody.AdmitDeterministicEvidence cycle_id _
  | CommandBody.FinalizeDeterministicExperiment cycle_id _
  | CommandBody.AdmitDeterministicEvaluatorNativeChild cycle_id _ _ _ _ _ _ _ _
  | CommandBody.QualifyNativeExecutionProfile cycle_id _ _ _ _ _ _ _ _ _ _
  | CommandBody.StartNativeExecutionProfileQualification cycle_id
  | CommandBody.ClaimStudyActorTaskAttemptLaunch _ cycle_id _ _ _ _ _ _
  | CommandBody.ClaimNativeExecutionProfileQualificationLaunch cycle_id _ _ _ _ _
  | CommandBody.AllocateStudyActorWork _ _ _ _ _ cycle_id _ _ _ _ =>
      Some cycle_id
  | _ => None
  end.
Definition command_operating_cycle_for_treatment (body : CommandBody.t) :
  ledger (option OperatingCycleId) :=
  match direct_cycle body with
  | Some cycle_id => m_ret (Some cycle_id)
  | None =>
      let! cycle := ledger_read (fun db => indirect_cycle db body) in
      stored_identifier cycle
  end.

(** What a principal may do in a qualification cycle. *)
Definition qualification_permits (principal_id : PrincipalId) (body : CommandBody.t) : bool :=
  if decide (principal_id = BOOTSTRAP) then
    match body with CommandBody.AdmitOperatingCycle _ => true | _ => false end
  else if decide (principal_id = KERNEL) then
    match body with
          | CommandBody.RecordCycleDrained _ | CommandBody.QuiesceOperatingCycle _
          | CommandBody.ReconcileOperatingCycle _ | CommandBody.CloseOperatingCycle _
          | CommandBody.RecordOfficeSessionReady _ | CommandBody.RecordOfficeSessionTerminal _ _
          | CommandBody.SettleOfficeTurn _ _ | CommandBody.ReconcileBudget _ _
          | CommandBody.ReconcileCancellation _ | CommandBody.AttestActorAttemptTerminal _ _
          | CommandBody.ExpireWorkLease _ | CommandBody.CancelActorAttempt _ _
          | CommandBody.ReserveBudget _ _ | CommandBody.AdmitPiChildSpawn _ _ _ _ _ _ _ _ _ _
          | CommandBody.RecordInertChildSpawn _ _ _ _ | CommandBody.RecordPiAdapterReady _ _ _
          | CommandBody.AuthorizePiCreateSession _ _ _
          | CommandBody.RecordPiCreateSessionDelivery _ _ _
          | CommandBody.RecordPiSessionReady _ _ | CommandBody.RecordChildStreamSeal _ _ _ _ _
          | CommandBody.RecordChildProcessLiveness _ _
          | CommandBody.RecordProcessSignalReceipt _ _ _ _ _
          | CommandBody.RecordDirectChildReap _ _ _ _ | CommandBody.FinalizeChildProcess _
          | CommandBody.StartNativeExecutionProfileQualification _
          | CommandBody.QualifyNativeExecutionProfile _ _ _ _ _ _ _ _ _ _ _
          | CommandBody.ClaimNativeExecutionProfileQualificationLaunch _ _ _ _ _ _ => true
    | _ => false
    end
  else false.

Definition qualification_treatment_fences_request (principal_id : PrincipalId)
  (body : CommandBody.t) : ledger bool :=
  match body with
  | CommandBody.ProposeOperatingCycle OperatingCycleTreatment.PiSdkQualificationV1 _ =>
      m_ret (negb (bool_decide (principal_id = BOOTSTRAP)))
  | CommandBody.RegisterActorConfiguration _ _ _ =>
      let! qualification_cycle_exists := ledger_read (fun db => exists_where (fun c =>
          (OperatingCycles.treatment c
           =? OperatingCycleTreatment.as_i64 OperatingCycleTreatment.PiSdkQualificationV1)
          && negb (one_of [7; 10; 11] (OperatingCycles.lifecycle_state c)))
        (Database.operating_cycles db)) in
      m_ret (qualification_cycle_exists
             && negb (bool_decide (principal_id = BOOTSTRAP))
             && negb (bool_decide (principal_id = KERNEL)))
  | _ =>
      let! cycle_id := command_operating_cycle_for_treatment body in
      match cycle_id with
      | None => m_ret false
      | Some cycle_id =>
          let! treatment := ledger_read (fun db => option_map OperatingCycles.treatment
            (rows (Database.operating_cycles db) !! Identifier.value cycle_id)) in
          m_ret (same_key treatment (Some (OperatingCycleTreatment.as_i64
                   OperatingCycleTreatment.PiSdkQualificationV1))
                 && negb (qualification_permits principal_id body))
      end
  end.

(** ** Dispatch *)

(** The founding, the cycles and their budget. *)
Definition dispatch_lifecycle (command_row_id : Z) (request : CommandRequest.t) :
  option (store EventBody.t) :=
  match CommandRequest.body request with
  | CommandBody.CreateSocietyIdentity name =>
      Some (create_society name)
  | CommandBody.InstallRootAuthorityOffice =>
      Some (install_root_authority_office command_row_id)
  | CommandBody.InstallFoundingMission mission =>
      Some (install_founding_mission command_row_id mission)
  | CommandBody.AppointInitialRootAuthority actor_display_name =>
      Some (appoint_initial_root_authority command_row_id
        (PrincipalDisplayName.as_str actor_display_name))
  | CommandBody.SetR0HardCeiling ceiling =>
      Some (set_r0_hard_ceiling ceiling)
  | CommandBody.BootstrapSociety =>
      Some (bootstrap_society command_row_id)
  | CommandBody.ProposeOperatingCycle treatment budget_ceiling =>
      Some (propose_operating_cycle command_row_id treatment budget_ceiling)
  | CommandBody.AdmitOperatingCycle cycle_id =>
      Some (admit_operating_cycle command_row_id (CommandRequest.expected_generation request)
        cycle_id)
  | CommandBody.StartRootAuthorityOfficeSession cycle_id =>
      Some (start_office_session command_row_id (CommandRequest.expected_generation request)
        cycle_id)
  | CommandBody.RecordOfficeSessionReady session_id =>
      Some (record_office_session_ready command_row_id
        (CommandRequest.expected_generation request) session_id)
  | CommandBody.RecordOfficeSessionTerminal session_id terminal_state =>
      Some (record_office_session_terminal command_row_id
        (CommandRequest.expected_generation request) session_id terminal_state)
  | CommandBody.OpenOfficeTurn session_id purpose =>
      Some (open_office_turn command_row_id (CommandRequest.expected_generation request)
        session_id purpose)
  | CommandBody.QuiesceOperatingCycle cycle_id =>
      Some (quiesce_cycle command_row_id (CommandRequest.expected_generation request) cycle_id)
  | CommandBody.RecordCycleDrained cycle_id =>
      Some (record_cycle_drained command_row_id cycle_id)
  | CommandBody.ResumeOperatingCycle cycle_id =>
      Some (resume_cycle command_row_id (CommandRequest.expected_generation request) cycle_id)
  | CommandBody.ReconcileOperatingCycle cycle_id =>
      Some (begin_reconciliation command_row_id (CommandRequest.expected_generation request)
        cycle_id)
  | CommandBody.CloseOperatingCycle cycle_id =>
      Some (close_cycle command_row_id (CommandRequest.expected_generation request) cycle_id)
  | CommandBody.ReserveBudget cycle_id amount =>
      Some (reserve_budget command_row_id (CommandRequest.expected_generation request) cycle_id
        amount)
  | CommandBody.ReconcileBudget reservation_id observation =>
      Some (reconcile_budget command_row_id reservation_id observation)
  | CommandBody.RequestCancellation cycle_id mode =>
      Some (request_cancellation command_row_id (CommandRequest.expected_generation request)
        cycle_id mode)
  | CommandBody.ReconcileCancellation cancellation_request_id =>
      Some (reconcile_cancellation command_row_id cancellation_request_id)
  | CommandBody.CloseCostPostmortem postmortem_id resolution =>
      Some (close_cost_postmortem command_row_id (CommandRequest.expected_generation request)
        postmortem_id resolution)
  | CommandBody.StartNativeExecutionProfileQualification operating_cycle_id =>
      Some (start_native_execution_profile_qualification command_row_id
        (CommandRequest.expected_generation request) operating_cycle_id)
  | _ => None
  end.

(** Projects, tickets, the graph, episodes, reviews and postmortems. *)
Definition dispatch_coordination (command_row_id : Z) (request : CommandRequest.t) :
  option (store EventBody.t) :=
  match CommandRequest.body request with
  | CommandBody.CreateProject operating_cycle_id project_name north_star_alignment =>
      Some (create_project command_row_id (CommandRequest.expected_generation request)
        operating_cycle_id (CoordinationText.as_str project_name) north_star_alignment)
| CommandBody.CharterProject operating_cycle_id project_id objective initial_milestone
      stop_condition =>
      Some (charter_project command_row_id (CommandRequest.expected_generation request)
        operating_cycle_id project_id (CoordinationText.as_str objective)
        (CoordinationText.as_str initial_milestone) (CoordinationText.as_str stop_condition))
  | CommandBody.TransitionProject operating_cycle_id project_id target =>
      Some (transition_project command_row_id (CommandRequest.expected_generation request)
        operating_cycle_id project_id target)
  | CommandBody.CompleteProjectMilestone operating_cycle_id project_milestone_id =>
      Some (complete_project_milestone command_row_id (CommandRequest.expected_generation request)
        operating_cycle_id project_milestone_id)
  | CommandBody.ReopenProject operating_cycle_id project_id =>
      Some (reopen_project command_row_id (CommandRequest.expected_generation request)
        operating_cycle_id project_id)
| CommandBody.CreateTicket operating_cycle_id project_id ticket_title acceptance_condition
      prerequisite_ticket_id =>
      Some (create_ticket command_row_id (CommandRequest.expected_generation request)
        operating_cycle_id project_id (CoordinationText.as_str ticket_title)
        (CoordinationText.as_str acceptance_condition) prerequisite_ticket_id)
  | CommandBody.TransitionTicket operating_cycle_id ticket_id target =>
      Some (transition_ticket command_row_id (CommandRequest.expected_generation request)
        operating_cycle_id ticket_id target)
| CommandBody.AddGraphObjectRevision operating_cycle_id project_id causal_episode_id
      graph_object_id body =>
      Some (add_graph_object_revision command_row_id (CommandRequest.expected_generation request)
        operating_cycle_id project_id causal_episode_id graph_object_id body)
  | CommandBody.CommitGraphRevision operating_cycle_id graph_revision_id =>
      Some (commit_graph_revision command_row_id (CommandRequest.expected_generation request)
        operating_cycle_id graph_revision_id)
| CommandBody.AddGraphEdge operating_cycle_id project_id from_graph_revision_id
      to_graph_revision_id edge_kind =>
      Some (add_graph_edge command_row_id (CommandRequest.expected_generation request)
        operating_cycle_id project_id from_graph_revision_id to_graph_revision_id edge_kind)
  | CommandBody.CreateEpisode operating_cycle_id project_id =>
      Some (create_episode command_row_id (CommandRequest.expected_generation request)
        operating_cycle_id project_id)
  | CommandBody.TransitionEpisode operating_cycle_id causal_episode_id target =>
      Some (transition_episode command_row_id (CommandRequest.expected_generation request)
        operating_cycle_id causal_episode_id target)
  | CommandBody.ReopenEpisode operating_cycle_id causal_episode_id =>
      Some (reopen_episode command_row_id (CommandRequest.expected_generation request)
        operating_cycle_id causal_episode_id)
  | CommandBody.RequestAdversarialReview operating_cycle_id project_id target_graph_revision_id =>
      Some (request_adversarial_review command_row_id (CommandRequest.expected_generation request)
        operating_cycle_id project_id target_graph_revision_id)
| CommandBody.AssignAdversarialReviewer operating_cycle_id adversarial_review_id
      reviewer_principal_id reviewer_actor_instance_id reviewer_actor_attempt_id =>
      Some (assign_adversarial_reviewer command_row_id
        (CommandRequest.expected_generation request) operating_cycle_id adversarial_review_id
        reviewer_principal_id reviewer_actor_instance_id reviewer_actor_attempt_id)
| CommandBody.SubmitReviewChallenge operating_cycle_id adversarial_review_id
      target_graph_revision_id author_principal_id severity failure_hypothesis =>
      Some (submit_review_challenge command_row_id author_principal_id
        (CommandRequest.expected_generation request) operating_cycle_id adversarial_review_id
        target_graph_revision_id severity (CoordinationText.as_str failure_hypothesis))
  | CommandBody.RespondToReviewChallenge operating_cycle_id review_challenge_id response =>
      Some (respond_to_review_challenge command_row_id
        (CommandRequest.expected_generation request) operating_cycle_id review_challenge_id
        (CoordinationText.as_str response))
  | CommandBody.DispositionReviewChallenge operating_cycle_id review_challenge_id disposition =>
      Some (disposition_review_challenge command_row_id (CommandRequest.principal_id request)
        (CommandRequest.expected_generation request) operating_cycle_id review_challenge_id
        disposition)
  | CommandBody.ResolveAdversarialReview operating_cycle_id adversarial_review_id resolution =>
      Some (resolve_adversarial_review command_row_id (CommandRequest.expected_generation request)
        operating_cycle_id adversarial_review_id resolution)
  | CommandBody.TriggerPostmortem operating_cycle_id project_id causal_episode_id =>
      Some (trigger_postmortem command_row_id (CommandRequest.expected_generation request)
        operating_cycle_id project_id causal_episode_id)
  | CommandBody.RecordPostmortemCausalClaim operating_cycle_id postmortem_id claim_kind claim =>
      Some (record_postmortem_causal_claim command_row_id
        (CommandRequest.expected_generation request) operating_cycle_id postmortem_id claim_kind
        (CoordinationText.as_str claim))
  | CommandBody.ProposePostmortemAction operating_cycle_id postmortem_id action_kind action =>
      Some (propose_postmortem_action command_row_id (CommandRequest.expected_generation request)
        operating_cycle_id postmortem_id action_kind (CoordinationText.as_str action))
  | CommandBody.ClosePostmortem operating_cycle_id postmortem_id =>
      Some (close_postmortem command_row_id (CommandRequest.expected_generation request)
        operating_cycle_id postmortem_id)
  | _ => None
  end.

(** Actors, work, attempts, sealed content and the qualification launch. *)
Definition dispatch_work (command_row_id : Z) (request : CommandRequest.t) :
  option (store EventBody.t) :=
  match CommandRequest.body request with
  | CommandBody.RegisterActorConfiguration configuration_name model_policy primary_attractor =>
      Some (register_actor_configuration command_row_id
        (CoordinationText.as_str configuration_name) model_policy primary_attractor)
  | CommandBody.RegisterContextPack operating_cycle_id purpose rendering_digest =>
      Some (register_context_pack command_row_id (CommandRequest.expected_generation request)
        operating_cycle_id purpose rendering_digest)
| CommandBody.AdmitActorInstance operating_cycle_id actor_configuration_revision_id
      execution_profile_id actor_display_name =>
      Some (admit_actor_instance command_row_id (CommandRequest.expected_generation request)
        operating_cycle_id actor_configuration_revision_id execution_profile_id
        (PrincipalDisplayName.as_str actor_display_name))
  | CommandBody.AdmitTicket operating_cycle_id ticket_id =>
      Some (admit_ticket command_row_id (CommandRequest.expected_generation request)
        operating_cycle_id ticket_id)
| CommandBody.RegisterWorkItem operating_cycle_id ticket_id actor_instance_id context_pack_id
      work_kind adversarial_review_id assignment =>
      Some (register_work_item command_row_id (CommandRequest.expected_generation request)
        operating_cycle_id ticket_id actor_instance_id context_pack_id work_kind
        adversarial_review_id (CoordinationText.as_str assignment))
  | CommandBody.ClaimWorkItem operating_cycle_id work_item_id =>
      Some (claim_work_item command_row_id (CommandRequest.principal_id request)
        (CommandRequest.expected_generation request) operating_cycle_id work_item_id)
  | CommandBody.StartActorAttempt operating_cycle_id work_item_id reservation_amount =>
      Some (start_actor_attempt command_row_id (CommandRequest.expected_generation request)
        operating_cycle_id work_item_id reservation_amount)
  | CommandBody.AttestActorAttemptTerminal actor_attempt_id terminal_kind =>
      Some (attest_actor_attempt_terminal command_row_id actor_attempt_id terminal_kind)
  | CommandBody.ValidateTicketAttempt operating_cycle_id actor_attempt_id =>
      Some (validate_ticket_attempt command_row_id (CommandRequest.expected_generation request)
        operating_cycle_id actor_attempt_id)
  | CommandBody.RetryActorAttempt operating_cycle_id actor_attempt_id =>
      Some (retry_actor_attempt command_row_id (CommandRequest.expected_generation request)
        operating_cycle_id actor_attempt_id)
  | CommandBody.CompleteTicket operating_cycle_id actor_attempt_id =>
      Some (complete_ticket command_row_id (CommandRequest.expected_generation request)
        operating_cycle_id actor_attempt_id)
  | CommandBody.ExpireWorkLease work_lease_id =>
      Some (expire_work_lease command_row_id work_lease_id)
  | CommandBody.CancelActorAttempt actor_attempt_id reason =>
      Some (cancel_actor_attempt command_row_id actor_attempt_id reason)
  | CommandBody.RegisterOutcomeObligation operating_cycle_id project_id obligation =>
      Some (register_outcome_obligation command_row_id
        (CommandRequest.expected_generation request) operating_cycle_id project_id
        (CoordinationText.as_str obligation))
  | CommandBody.ResolveOutcomeObligation operating_cycle_id outcome_obligation_id disposition =>
      Some (resolve_outcome_obligation command_row_id (CommandRequest.expected_generation request)
        operating_cycle_id outcome_obligation_id disposition)
  | CommandBody.RecordContentSealReceipt digest =>
      Some (record_content_seal_receipt command_row_id digest)
  | CommandBody.RegisterContentObject content_seal_receipt_id =>
      Some (register_content_object command_row_id content_seal_receipt_id)
| CommandBody.ClaimNativeExecutionProfileQualificationLaunch operating_cycle_id
      reservation_amount supervisor_epoch_id supervisor_epoch_identity native_workspace_id
      canonical_workspace_path =>
      Some (claim_native_execution_profile_qualification_launch command_row_id
        (CommandRequest.expected_generation request) operating_cycle_id reservation_amount
        supervisor_epoch_id supervisor_epoch_identity native_workspace_id
        canonical_workspace_path)
  | _ => None
  end.

(** The commands whose transition the development models. *)
Definition modelled (command_row_id : Z) (request : CommandRequest.t) :
  option (store EventBody.t) :=
  match dispatch_lifecycle command_row_id request with
  | Some transition => Some transition
  | None =>
      match dispatch_coordination command_row_id request with
      | Some transition => Some transition
      | None => dispatch_work command_row_id request
      end
  end.

Section Ledger.
Context {hash : Blake3}.
Variable unmodelled : Z -> CommandRequest.t -> store EventBody.t.

Definition dispatch (command_row_id : Z) (request : CommandRequest.t) : store EventBody.t :=
  match modelled command_row_id request with
  | Some transition => transition
  | None => unmodelled command_row_id request
  end.

(** A transition inside the gate: its outcome is a value of the ledger. *)
Definition attempt {A} (transition : store A) : ledger (result A Rejection.t) :=
  fun db => let '(outcome, db) := transition db in (Ok outcome, db).

(** [UPDATE .. WHERE capability_grant_id = $2 AND grant_state = 1], with [?]. *)
Definition consume_grant (command_row_id grant_id : Z) : ledger unit := fun db =>
  let consumed := sql_update grant_id (fun g =>
    Some (g <| CapabilityGrants.grant_state := 2 |>
            <| CapabilityGrants.consumed_by_command_id := Some command_row_id |>))
    (Database.capability_grants db) in
  match rows (Database.capability_grants db) !! grant_id with
  | Some g =>
      if CapabilityGrants.grant_state g =? 1 then
        match consumed with
        | Some t => (Ok (), db <| Database.capability_grants := t |>)
        | None => (Err (LedgerFailure.Failed StoreError.Database), db)
        end
      else (Ok (), db)
  | None => (Ok (), db)
  end.

Definition is_bootstrap_or_kernel (principal_id : PrincipalId) : bool :=
  bool_decide (principal_id = BOOTSTRAP) || bool_decide (principal_id = KERNEL).

(** After the grant is found: its scope is active, and is the scope of the subject. *)
Definition check_jurisdiction (request : CommandRequest.t) (grant_id : Z)
  (office_occupancy_id : option OfficeOccupancyId)
  (actor_instance_id : option ActorInstanceId) : store unit :=
  if is_bootstrap_or_kernel (CommandRequest.principal_id request) then m_ret () else
  let! active := read (fun db =>
    match office_occupancy_id, actor_instance_id with
    | Some _, None => grant_has_active_occupancy db grant_id
    | None, Some _ => grant_has_active_actor_instance db grant_id
    | _, _ => false
    end) in
  ensure active Rejection.CapabilityNoLongerActive ;!
  let! target_occupancy_id := command_target_occupancy (CommandRequest.body request) in
  match target_occupancy_id with
  | Some target_occupancy_id =>
      ensure (bool_decide (office_occupancy_id = Some target_occupancy_id))
        Rejection.CapabilityNoLongerActive
  | None => m_ret ()
  end.

(** The transition, then the one-time grant of the bootstrap principal. *)
Definition run_transition (command_row_id : Z) (request : CommandRequest.t) (grant_id : Z) :
  ledger (result EventBody.t Rejection.t) :=
  let! outcome := attempt (dispatch command_row_id request) in
  m_when (is_ok outcome
          && bool_decide (CommandRequest.principal_id request = BOOTSTRAP)
          && Capability.requires_consumption (CommandRequest.capability request))
    (consume_grant command_row_id grant_id) ;!
  m_ret outcome.

Definition apply_command (command_row_id : Z) (request : CommandRequest.t) :
  ledger (result EventBody.t Rejection.t) :=
  let body := CommandRequest.body request in
  let principal_id := CommandRequest.principal_id request in
  if negb (bool_decide (CommandRequest.capability request
                        = CommandBody.required_capability body))
  then m_ret (Err Rejection.CapabilityMismatch) else
  if negb (Bool.eqb (needs_exact_generation body)
             (is_exact (CommandRequest.expected_generation request)))
  then m_ret (Err Rejection.InvalidExpectedGeneration) else
  let! grant := capability_grant principal_id (CommandRequest.capability request)
    (CommandRequest.capability_grant_id request) in
  match grant with
  | None => m_ret (Err Rejection.CapabilityNotGranted)
  | Some CapabilityGrantLookup.Inactive => m_ret (Err Rejection.CapabilityNoLongerActive)
  | Some (CapabilityGrantLookup.Active grant_id office_occupancy_id actor_instance_id) =>
      let! jurisdiction := attempt
        (check_jurisdiction request grant_id office_occupancy_id actor_instance_id) in
      match jurisdiction with
      | Err rejection => m_ret (Err rejection)
      | Ok _ =>
          let! fenced := qualification_treatment_fences_request principal_id body in
          if fenced then m_ret (Err Rejection.QualificationTreatmentRestricted)
          else run_transition command_row_id request grant_id
      end
  end.

(** ** Recording *)

(** [COALESCE(MAX(..), 0) + 1]. *)
Definition next_event_id (db : Database.t) : Z := default 0 (max_key (Database.events db)) + 1.
Definition next_event_sequence (db : Database.t) : Z :=
  fold_left Z.max
    (map (fun kr => Events.event_sequence kr.2) (map_to_list (rows (Database.events db)))) 0 + 1.

Definition insert_event (command_row_id : Z) (command_id : CommandId.t) (body : EventBody.t) :
  ledger EventId :=
  let! sequence := ledger_read (fun db => checked_i64 (next_event_sequence db)) in
  let! sequence := or_failed (ok_or sequence StoreError.Database) in
  let! event_id := ledger_read (fun db => checked_i64 (next_event_id db)) in
  let! event_id := or_failed (ok_or event_id StoreError.Database) in
  let! event_id := or_failed (map_err (fun _ => StoreError.InvalidStoredValue)
                                (Identifier.try_from event_id)) in
  let! fingerprint := m_lift (ok_or (event_fingerprint event_id command_id body)
                                LedgerFailure.Panicked) in
  fun db =>
    match sql_insert_key (Identifier.value event_id)
            (Events.new command_row_id (EventKind.as_i64 (EventBody.kind body)) sequence
               (Blake3Digest.as_bytes fingerprint)) (Database.events db) with
    | Some t =>
        (Ok event_id, db <| Database.events := t |>
                         <| Database.event_bodies :=
                              <[Identifier.value event_id := body]> (Database.event_bodies db) |>)
    | None => (Err (LedgerFailure.Failed StoreError.Database), db)
    end.

(** What the receipt of a recorded command is read from. *)
Definition recorded_receipt (command : Commands.t) : result CommandReceipt.t StoreError.t :=
  match Commands.command_status command with
  | 1 =>
      let? event_id := ok_or (Commands.accepted_event_id command)
                         (StoreError.LedgerCorruption "accepted command has no event") in
      let? event_id := map_err (fun _ => StoreError.InvalidStoredValue)
                         (Identifier.try_from event_id) in
      Ok (CommandReceipt.new (CommandDisposition.Accepted event_id) true)
  | 2 =>
      let? rejection := ok_or (Commands.rejection_code command)
                          (StoreError.LedgerCorruption
                             "rejected command has no rejection code") in
      let? rejection := rejection_from_i64 rejection in
      Ok (CommandReceipt.new (CommandDisposition.Rejected rejection) true)
  | _ => Err (StoreError.LedgerCorruption "unknown command status")
  end.

Definition expected_generation_to_sql (value : ExpectedGeneration.t) : option Z :=
  match value with
  | ExpectedGeneration.NotApplicable => None
  | ExpectedGeneration.Exact generation => Some (AdmissionGeneration.value generation)
  end.

(** The command, recorded as rejected before it is applied; its body is kept with it. *)
Definition placeholder (request : CommandRequest.t) (fingerprint : Blake3Digest.t) :
  Commands.t :=
  Commands.new (CommandId.as_str (CommandRequest.command_id request))
    (Identifier.value (CommandRequest.principal_id request))
    (Identifier.value (CommandRequest.capability_grant_id request))
    (Capability.as_i64 (CommandRequest.capability request))
    (expected_generation_to_sql (CommandRequest.expected_generation request))
    (CommandKind.as_i64 (CommandBody.kind (CommandRequest.body request)))
    (Blake3Digest.as_bytes fingerprint) 2 (Some (Rejection.as_i64 Rejection.SubjectNotFound))
    None.
Definition insert_command (request : CommandRequest.t) (fingerprint : Blake3Digest.t) :
  ledger Z := fun db =>
  match sql_insert (placeholder request fingerprint) (Database.commands db) with
  | (Some id, t) =>
      (Ok id, db <| Database.commands := t |>
                 <| Database.command_bodies :=
                      <[id := CommandRequest.body request]> (Database.command_bodies db) |>)
  | (None, t) => (Err (LedgerFailure.Failed StoreError.Database), db <| Database.commands := t |>)
  end.
Definition update_command (command_row_id : Z) (f : Commands.t -> Commands.t) : ledger unit :=
  fun db => match sql_update command_row_id (fun r => Some (f r)) (Database.commands db) with
            | Some t => (Ok (), db <| Database.commands := t |>)
            | None => (Err (LedgerFailure.Failed StoreError.Database), db)
            end.
(** [ROLLBACK TO apply_command]. *)
Definition rollback_to (saved : Database.t) : ledger unit :=
  fun db => (Ok (), Database.rollback_to saved db).

(** From the savepoint to the receipt. *)
Definition settle_command (command_row_id : Z) (request : CommandRequest.t) :
  ledger CommandReceipt.t :=
  let! savepoint := m_get in
  let! outcome := apply_command command_row_id request in
  match outcome with
  | Ok event_body =>
      let! event_id := insert_event command_row_id (CommandRequest.command_id request)
        event_body in
      update_command command_row_id (fun c =>
        c <| Commands.command_status := 1 |> <| Commands.rejection_code := None |>
          <| Commands.accepted_event_id := Some (Identifier.value event_id) |>) ;!
      m_ret (CommandReceipt.new (CommandDisposition.Accepted event_id) false)
  | Err rejection =>
      rollback_to savepoint ;!
      update_command command_row_id (fun c =>
        c <| Commands.rejection_code := Some (Rejection.as_i64 rejection) |>) ;!
      m_ret (CommandReceipt.new (CommandDisposition.Rejected rejection) false)
  end.

Definition command_recorded (db : Database.t) (command_id : CommandId.t) : option Commands.t :=
  option_map snd (row_where (fun c =>
    (Commands.command_id c =? CommandId.as_str command_id)%string) (Database.commands db)).

Definition execute_in_transaction (request : CommandRequest.t) : ledger CommandReceipt.t :=
  let fingerprint := request_fingerprint request in
  let! recorded := ledger_read (fun db =>
    command_recorded db (CommandRequest.command_id request)) in
  match recorded with
  | Some command =>
      if bool_decide (Commands.request_fingerprint command = Blake3Digest.as_bytes fingerprint)
      then or_failed (recorded_receipt command)
      else m_fail (LedgerFailure.Failed StoreError.IdempotencyConflict)
  | None =>
      let! command_row_id := insert_command request fingerprint in
      settle_command command_row_id request
  end.

(** [BEGIN], the transaction, [COMMIT]; an error drops the transaction. *)
Definition execute (request : CommandRequest.t) (db : Database.t) :
  result CommandReceipt.t LedgerFailure.t * Database.t :=
  match execute_in_transaction request db with
  | (Ok receipt, db') => (Ok receipt, db')
  | (Err e, db') => (Err e, Database.rollback_to db db')
  end.
End Ledger.
