(* ===== verification/StoreSample.v ===== *)
(** * A sample ledger

    Commands run from the rows of a fresh ledger (the end of [StoreTables]) with a stand-in
    for BLAKE3: the founding of a society and one operating cycle.  The witnesses of the
    properties of the store evaluate it. *)

From stdpp Require Import pretty.
From S2P Require Import Prelude.
From S2P Require Import Machine.
From S2P Require Import Hash.
From S2P Require Import KernelScalars.
From S2P Require Import KernelEnums.
From S2P Require Import KernelCustody.
From S2P Require Import KernelCommands.
From S2P Require Import KernelCodes.
From S2P Require Import SqlTable.
From S2P Require Import StoreTables.
From S2P Require Import StoreQueries.
From S2P Require Import StoreLedger.

(** The last 32 bytes, in place of the hash. *)
Definition last_bytes (l : list byte) : list byte :=
  drop (length l) (replicate 32 ("000"%char : byte) ++ l).
#[export] Program Instance sample_hash : Blake3 := {| blake3 := last_bytes |}.
Next Obligation.
  intros l. unfold last_bytes. rewrite length_drop, length_app, length_replicate. lia.
Qed.

Definition sample_id {n} (value : Z) : Identifier.t n :=
  match Identifier.try_from value with Ok id => id | Err _ => Newtype 1 eq_refl end.
Definition sample_generation (value : Z) : ExpectedGeneration.t :=
  match AdmissionGeneration.try_from value with
  | Ok generation => ExpectedGeneration.Exact generation
  | Err _ => ExpectedGeneration.NotApplicable
  end.
Definition usd (value : Z) : UsdMicros.t :=
  match UsdMicros.try_from value with Ok amount => amount | Err _ => UsdMicros.ZERO end.
Definition sample_command_id (n : nat) : CommandId.t :=
  match @checked _ _ _ ("c" +:+ pretty n) with
  | Some id => id
  | None => Newtype "c" eq_refl
  end.

(** The active grant of the principal for what the body requires. *)
Definition grant_for (db : Database.t) (principal_id : PrincipalId) (body : CommandBody.t) :
  CapabilityGrantId :=
  match row_where (fun g =>
          (CapabilityGrants.principal_id g =? Identifier.value principal_id)
          && (CapabilityGrants.capability_kind g
              =? Capability.as_i64 (CommandBody.required_capability body))
          && (CapabilityGrants.grant_state g =? 1)) (Database.capability_grants db) with
  | Some grant => sample_id grant.1
  | None => sample_id 1
  end.

(** A principal, the generation it names, and its command. *)
Definition sample_step : Type := PrincipalId * ExpectedGeneration.t * CommandBody.t.
Definition sample_request (db : Database.t) (n : nat) (step : sample_step) : CommandRequest.t :=
  let '(principal_id, generation, body) := step in
  CommandRequest.new (sample_command_id n) principal_id (grant_for db principal_id body)
    (CommandBody.required_capability body) generation body.

(** The transitions that are not modelled. *)
Definition no_transition (command_row_id : Z) (request : CommandRequest.t) : store EventBody.t :=
  m_fail Rejection.InvalidLifecycleTransition.

(** The outcomes and the database after the steps, numbered from [n]. *)
Fixpoint sample_run (n : nat) (steps : list sample_step) (db : Database.t) :
  list (result CommandReceipt.t LedgerFailure.t) * Database.t :=
  match steps with
  | [] => ([], db)
  | step :: steps =>
      let '(outcome, db) := execute no_transition (sample_request db n step) db in
      let '(outcomes, db) := sample_run (S n) steps db in
      (outcome :: outcomes, db)
  end.

(** ** The founding *)

Definition sample_digest : Blake3Digest.t := Blake3Digest.of_bytes [].
Definition sample_text {n} : MissionText.t n := Newtype "text" eq_refl.
Definition sample_mission : ApplicationMissionInput.t :=
  ApplicationMissionInput.new (Newtype "app" eq_refl) (Newtype "App" eq_refl)
    (Newtype 1 eq_refl) sample_text
    (Newtype [MissionPrinciple.new MissionPrincipleKind.Purpose sample_text] eq_refl)
    (NorthStarQuestionSet.new sample_text sample_text sample_text sample_text) sample_digest.

Definition by_bootstrap (body : CommandBody.t) : sample_step :=
  (BOOTSTRAP, ExpectedGeneration.NotApplicable, body).
Definition by_kernel (body : CommandBody.t) : sample_step :=
  (KERNEL, ExpectedGeneration.NotApplicable, body).
(** The root authority is the third principal. *)
Definition root_authority : PrincipalId := sample_id 3.
Definition by_root (generation : Z) (body : CommandBody.t) : sample_step :=
  (root_authority, sample_generation generation, body).

Definition founding_steps : list sample_step :=
  [by_kernel (CommandBody.RecordContentSealReceipt sample_digest);
   by_kernel (CommandBody.RegisterContentObject (sample_id 1));
   by_bootstrap (CommandBody.CreateSocietyIdentity (Newtype "society" eq_refl));
   by_bootstrap CommandBody.InstallRootAuthorityOffice;
   by_bootstrap (CommandBody.InstallFoundingMission sample_mission);
   by_bootstrap (CommandBody.AppointInitialRootAuthority (Newtype "root" eq_refl));
   by_bootstrap (CommandBody.SetR0HardCeiling (usd 1000));
   by_bootstrap CommandBody.BootstrapSociety].
Definition founded : Database.t := (sample_run 0 founding_steps seed_database).2.

(** ** A cycle *)

Definition sample_cycle : OperatingCycleId := sample_id 1.
Definition by_root_anytime (body : CommandBody.t) : sample_step :=
  (root_authority, ExpectedGeneration.NotApplicable, body).
Definition by_kernel_at (generation : Z) (body : CommandBody.t) : sample_step :=
  (KERNEL, sample_generation generation, body).

(** A cycle that runs a session, with two reservations of which one is reconciled. *)
Definition working_steps : list sample_step :=
  [by_root_anytime
     (CommandBody.ProposeOperatingCycle OperatingCycleTreatment.PinnedPiSdkLiveV1 (usd 500));
   by_root 0 (CommandBody.AdmitOperatingCycle sample_cycle);
   by_root 0 (CommandBody.StartRootAuthorityOfficeSession sample_cycle);
   by_root 0 (CommandBody.ReserveBudget sample_cycle (usd 200));
   by_root 0 (CommandBody.ReserveBudget sample_cycle (usd 200));
   by_kernel (CommandBody.ReconcileBudget (sample_id 1) (CostObservation.Known (usd 150)))].
(** The other reservation is reconciled and the cycle is closed. *)
Definition closing_steps : list sample_step :=
  [by_kernel (CommandBody.ReconcileBudget (sample_id 2) (CostObservation.Known (usd 50)));
   by_root 0 (CommandBody.QuiesceOperatingCycle sample_cycle);
   by_kernel_at 1 (CommandBody.RecordOfficeSessionTerminal (sample_id 1)
                     OfficeSessionTerminalState.Failed);
   by_kernel (CommandBody.RecordCycleDrained sample_cycle);
   by_root 1 (CommandBody.ReconcileOperatingCycle sample_cycle);
   by_root 1 (CommandBody.CloseOperatingCycle sample_cycle)].
(** The cost of the other reservation stays unknown until the cycle reconciles: it is frozen,
    cancelled, and resolved. *)
Definition freezing_steps : list sample_step :=
  [by_root 0 (CommandBody.QuiesceOperatingCycle sample_cycle);
   by_kernel (CommandBody.RecordCycleDrained sample_cycle);
   by_root 1 (CommandBody.ReconcileOperatingCycle sample_cycle);
   by_kernel (CommandBody.ReconcileBudget (sample_id 2)
                (CostObservation.Unknown CostUnknownReason.ProviderDidNotReport));
   by_kernel_at 2 (CommandBody.RecordOfficeSessionTerminal (sample_id 1)
                     OfficeSessionTerminalState.Cancelled);
   by_kernel (CommandBody.ReconcileCancellation (sample_id 1));
   by_root 2 (CommandBody.CloseCostPostmortem (sample_id 1)
                CostPostmortemResolution.ConservativeFullReservation)].

Definition working : Database.t := (sample_run 8 working_steps founded).2.
Definition closed : Database.t := (sample_run 14 closing_steps working).2.
Definition frozen : Database.t := (sample_run 14 freezing_steps working).2.

(** A qualification cycle whose cost is frozen. *)
Definition qualifying_steps : list sample_step :=
  [by_bootstrap
     (CommandBody.ProposeOperatingCycle OperatingCycleTreatment.PiSdkQualificationV1 (usd 500));
   (BOOTSTRAP, sample_generation 0, CommandBody.AdmitOperatingCycle sample_cycle);
   by_kernel_at 0 (CommandBody.StartNativeExecutionProfileQualification sample_cycle);
   by_kernel_at 0 (CommandBody.ReserveBudget sample_cycle (usd 200));
   by_kernel (CommandBody.ReconcileBudget (sample_id 1)
                (CostObservation.Unknown CostUnknownReason.ProviderDidNotReport));
   by_kernel (CommandBody.ReconcileCancellation (sample_id 1))].
Definition qualifying : Database.t := (sample_run 8 qualifying_steps founded).2.
