(* ===== verification/StoreLogic.v ===== *)
(** * Reasoning about transitions

    What a transition that succeeds tells: each statement of the monad by inversion, and
    the projections of the database that a transition leaves alone. *)

From S2P Require Import Prelude.
From S2P Require Import Machine.
From S2P Require Import KernelScalars.
From S2P Require Import KernelEnums.
From S2P Require Import KernelCustody.
From S2P Require Import KernelCommands.
From S2P Require Import KernelCodes.
From S2P Require Import SqlTable.
From S2P Require Import StoreTables.
From S2P Require Import StoreQueries.

(** [yields m db a db']: the transition succeeds. *)
Definition yields {S A} (m : method S Rejection.t A) (db : S) (a : A) (db' : S) : Prop :=
  m db = (Ok a, db').

(** ** Inversion *)

Section Inversion.
Context {S A B : Type}.
Implicit Types (db : S).

Lemma yields_ret (a b : A) db db' : yields (m_ret a) db b db' -> b = a /\ db' = db.
Proof. by intros [= <- <-]. Qed.

Lemma yields_fail (b : A) e db db' : yields (m_fail e) db b db' -> False.
Proof. done. Qed.

Lemma yields_bind (m : method S Rejection.t A) (k : A -> method S Rejection.t B) db b db' :
  yields (m_bind m k) db b db' ->
  exists a db1, yields m db a db1 /\ yields (k a) db1 b db'.
Proof.
  unfold yields, m_bind. intros H. destruct (m db) as [[a|e] db1] eqn:E; [|done].
  by exists a, db1.
Qed.

Lemma yields_read (f : S -> A) db b db' :
  yields (read f) db b db' -> b = f db /\ db' = db.
Proof. by intros [= <- <-]. Qed.

Lemma yields_require (o : option A) e db b db' :
  yields (require o e) db b db' -> o = Some b /\ db' = db.
Proof. destruct o; [by intros [= <- <-]|done]. Qed.

Lemma yields_or_reject {E} (r : result A E) e db b db' :
  yields (or_reject r e) db b db' -> r = Ok b /\ db' = db.
Proof. destruct r; [by intros [= <- <-]|done]. Qed.

Lemma yields_lift (r : result A Rejection.t) db b db' :
  yields (m_lift r) db b db' -> r = Ok b /\ db' = db.
Proof. by intros [= -> <-]. Qed.

Lemma yields_ensure c e db b db' : yields (ensure c e) db b db' -> c = true /\ db' = db.
Proof. destruct c; [by intros [= <- <-]|done]. Qed.

End Inversion.

Lemma yields_returned_identity {n} id db (b : Identifier.t n) db' :
  yields (returned_identity id) db b db' -> Identifier.try_from id = Ok b /\ db' = db.
Proof. apply yields_or_reject. Qed.

Section Statements.
Context {S R : Type} `{!Constraints R}.
Variable proj : S -> table R.
Context `{!Update proj}.
Implicit Types (db : S).

Lemma yields_select id e db r db' :
  yields (select proj id e) db r db' -> rows (proj db) !! id = Some r /\ db' = db.
Proof.
  unfold yields, select. destruct (rows (proj db) !! id); [by intros [= <- <-]|done].
Qed.

Lemma yields_insert r e db id db' :
  yields (insert_into proj r e) db id db' ->
  exists t, sql_insert r (proj db) = (Some id, t) /\ db' = db <| proj := t |>.
Proof.
  unfold yields, insert_into. destruct (sql_insert r (proj db)) as [[i|] t]; [|done].
  intros [= <- <-]. by exists t.
Qed.

Lemma yields_insert_key id r e db a db' :
  yields (insert_with_key proj id r e) db a db' ->
  exists t, sql_insert_key id r (proj db) = Some t /\ db' = db <| proj := t |>.
Proof.
  unfold yields, insert_with_key. destruct (sql_insert_key id r (proj db)) as [t|]; [|done].
  intros [= <- <-]. by exists t.
Qed.

Lemma yields_update id f e db a db' :
  yields (update_checked proj id f e) db a db' ->
  exists t, sql_update id f (proj db) = Some t /\ db' = db <| proj := t |>.
Proof.
  unfold yields, update_checked. destruct (sql_update id f (proj db)) as [t|]; [|done].
  intros [= <- <-]. by exists t.
Qed.

Lemma yields_update_where p f e db a db' :
  yields (update_where proj p f e) db a db' ->
  exists t, sql_update_all (map fst (rows_where p (proj db))) (fun r => Some (f r)) (proj db)
            = Some t /\ db' = db <| proj := t |>.
Proof.
  unfold yields, update_where. destruct (sql_update_all _ _ _) as [t|]; [|done].
  intros [= <- <-]. by exists t.
Qed.
End Statements.

(** ** What a transition keeps *)

(** A projection of the database that a successful [m] does not change. *)
Definition keeps {S A X} (f : S -> X) (m : method S Rejection.t A) : Prop :=
  forall db a db', yields m db a db' -> f db' = f db.

(** [f] does not look at the table. *)
Class Ignores {S R X} (f : S -> X) (proj : S -> table R) `{!Update proj} : Prop :=
  ignores : forall db t, f (db <| proj := t |>) = f db.
#[global] Hint Extern 1 (Ignores _ _) => intros ? ?; reflexivity : typeclass_instances.

Section Keeps.
Context {S X : Type}.
Variable f : S -> X.
Abbreviation transition A := (method S Rejection.t A).

Lemma keeps_ret {A} (a : A) : keeps f (m_ret a).
Proof. intros db b db' [_ ->]%yields_ret. done. Qed.
Lemma keeps_fail {A} e : keeps f (@m_fail S Rejection.t A e).
Proof. intros db b db' []%yields_fail. Qed.
Lemma keeps_read {A} (g : S -> A) : keeps f (read g).
Proof. intros db b db' [_ ->]%yields_read. done. Qed.
Lemma keeps_require {A} (o : option A) e : keeps f (require o e).
Proof. intros db b db' [_ ->]%yields_require. done. Qed.
Lemma keeps_or_reject {A E} (r : result A E) e : keeps f (or_reject r e).
Proof. intros db b db' [_ ->]%yields_or_reject. done. Qed.
Lemma keeps_lift {A} (r : result A Rejection.t) : keeps f (m_lift r).
Proof. intros db b db' [_ ->]%yields_lift. done. Qed.
Lemma keeps_ensure c e : keeps f (ensure c e).
Proof. intros db b db' [_ ->]%yields_ensure. done. Qed.
Lemma keeps_bind {A B} (m : transition A) (k : A -> transition B) :
  keeps f m -> (forall a, keeps f (k a)) -> keeps f (m_bind m k).
Proof.
  intros Hm Hk db b db' (a & db1 & H1 & H2)%yields_bind.
  rewrite (Hk a _ _ _ H2). by apply (Hm _ a).
Qed.
Lemma keeps_when c (m : transition unit) : keeps f m -> keeps f (m_when c m).
Proof. destruct c; [done|]. intros _. apply keeps_ret. Qed.
Lemma keeps_if {A} (c : bool) (m n : transition A) :
  keeps f m -> keeps f n -> keeps f (if c then m else n).
Proof. by destruct c. Qed.
Lemma keeps_for_each {A} (body : A -> transition unit) xs :
  (forall x, keeps f (body x)) -> keeps f (for_each body xs).
Proof.
  intros H. induction xs as [|x xs IH]; [apply keeps_ret|]. by apply keeps_bind.
Qed.

Section Statements.
Context {R : Type} `{!Constraints R}.
Variable proj : S -> table R.
Context `{!Update proj}.

Lemma keeps_select id e : keeps f (select proj id e).
Proof. intros db b db' [_ ->]%yields_select. done. Qed.
Context `{!Ignores f proj}.
Lemma keeps_insert r e : keeps f (insert_into proj r e).
Proof. intros db b db' (t & _ & ->)%yields_insert. apply ignores. Qed.
Lemma keeps_insert_key id r e : keeps f (insert_with_key proj id r e).
Proof. intros db b db' (t & _ & ->)%yields_insert_key. apply ignores. Qed.
Lemma keeps_update_checked id g e : keeps f (update_checked proj id g e).
Proof. intros db b db' (t & _ & ->)%yields_update. apply ignores. Qed.
Lemma keeps_update id g e : keeps f (update_row proj id g e).
Proof. apply keeps_update_checked. Qed.
Lemma keeps_update_where p g e : keeps f (update_where proj p g e).
Proof. intros db b db' (t & _ & ->)%yields_update_where. apply ignores. Qed.
End Statements.
End Keeps.
Lemma keeps_returned_identity {X} (f : Database.t -> X) {n} id : keeps f (@returned_identity n id).
Proof. apply keeps_or_reject. Qed.

(** [keeps] by the structure of the transition; definitions in the database [keeps] are
    unfolded by name. *)
Create HintDb keeps.
#[export] Hint Resolve keeps_ret keeps_fail keeps_read keeps_require keeps_or_reject keeps_lift
  keeps_ensure keeps_returned_identity keeps_select keeps_insert keeps_insert_key
  keeps_update_checked keeps_update keeps_update_where : keeps.
Ltac keeps_step :=
  match goal with
  | |- keeps _ (m_bind _ _) => apply keeps_bind; [|intros ?]
  | |- keeps _ (m_when _ _) => apply keeps_when
  | |- keeps _ (for_each _ _) => apply keeps_for_each; intros ?
  | |- keeps _ (if _ then _ else _) => apply keeps_if
  | |- keeps _ (let '(_, _) := ?p in _) => destruct p
  | |- keeps _ (match ?x with _ => _ end) => destruct x
  | |- keeps _ _ => solve [auto with keeps typeclass_instances]
  end.
Ltac head_of t := lazymatch t with ?g _ => head_of g | _ => t end.
Ltac keeps_unfold :=
  match goal with |- keeps _ ?m => let h := head_of m in unfold h end.
(** Unfolds the transition where no rule applies. *)
Ltac solve_keeps := repeat first [keeps_step | keeps_unfold].

(** ** Inverting a whole transition *)

(** A transition that only reads. *)
Definition reads {S A} (m : method S Rejection.t A) : Prop := keeps (fun db => db) m.

Lemma reads_same {S A} (m : method S Rejection.t A) db a db' : reads m -> yields m db a db' -> db' = db.
Proof. intros H Hy. exact (H _ _ _ Hy). Qed.

Ltac reads_only := unfold reads; solve_keeps.
(** [H] is a reading transition: the database is the same. *)
Ltac same_after H :=
  match type of H with
  | yields ?m ?db ?a ?db' =>
      let E := fresh in
      assert (db' = db) as E by (refine (reads_same m db a db' _ H); reads_only); subst db'
  end.

(** One statement of a successful transition. *)
Ltac yields_step :=
  match goal with
  | H : yields (m_bind _ _) _ _ _ |- _ =>
      let a := fresh "a" in let db := fresh "db" in let H1 := fresh "Hy" in
      apply yields_bind in H as (a & db & H1 & H)
  | H : yields (m_ret _) _ _ _ |- _ => apply yields_ret in H as [? ?]; subst
  | H : yields (m_fail _) _ _ _ |- _ => by apply yields_fail in H
  | H : yields (read _) _ _ _ |- _ => apply yields_read in H as [? ?]; subst
  | H : yields (require _ _) _ _ _ |- _ => let Hv := fresh "Hv" in apply yields_require in H as [Hv ?]; subst
  | H : yields (or_reject _ _) _ _ _ |- _ => let Hv := fresh "Hv" in apply yields_or_reject in H as [Hv ?]; subst
  | H : yields (m_lift _) _ _ _ |- _ => let Hv := fresh "Hv" in apply yields_lift in H as [Hv ?]; subst
  | H : yields (returned_identity _) _ _ _ |- _ => let Hv := fresh "Hv" in apply yields_returned_identity in H as [Hv ?]; subst
  | H : yields (ensure _ _) _ _ _ |- _ =>
      let Hc := fresh "Hc" in apply yields_ensure in H as [Hc ?]; subst
  | H : yields (select _ _ _) _ _ _ |- _ => let Hv := fresh "Hv" in apply yields_select in H as [Hv ?]; subst
  | H : yields (let '(_, _) := ?p in _) _ _ _ |- _ => destruct p
  end.
Ltac yields_inv := repeat yields_step.

Section Writes.
Context {S R : Type} `{!Constraints R}.
Variable proj : S -> table R.
Context `{!Update proj}.

Lemma yields_update_row id f e db u db' r :
  yields (update_row proj id f e) db u db' -> rows (proj db) !! id = Some r ->
  exists t, rows t = <[id := f r]> (rows (proj db)) /\ db' = db <| proj := t |>.
Proof.
  intros (t & Ht & ->)%yields_update Hr. exists t. split; [|done].
  apply sql_update_some in Ht as [[H _]|(r1 & r2 & H1 & H2 & _ & H3)]; [congruence|].
  rewrite H3. rewrite H1 in Hr. apply (inj Some) in Hr as <-. by apply (inj Some) in H2 as <-.
Qed.

Lemma yields_insert_row r e db id db' :
  yields (insert_into proj r e) db id db' ->
  exists t, rows t = <[id := r]> (rows (proj db)) /\ rows (proj db) !! id = None
    /\ constraints (rows (proj db)) r = true /\ db' = db <| proj := t |>.
Proof.
  intros (t & Ht & ->)%yields_insert. exists t.
  apply sql_insert_some in Ht as (? & ? & _ & _ & ?). done.
Qed.

Lemma yields_insert_at id r e db u db' :
  yields (insert_with_key proj id r e) db u db' ->
  exists t, rows t = <[id := r]> (rows (proj db)) /\ rows (proj db) !! id = None
    /\ db' = db <| proj := t |>.
Proof.
  intros (t & Ht & ->)%yields_insert_key. exists t.
  apply sql_insert_key_some in Ht as (? & _ & ?). done.
Qed.
End Writes.

(** ** [UPDATE .. WHERE condition] *)

Section UpdateWhere.
Context {R : Type} `{!Constraints R}.

Lemma sql_update_all_rows ids (f : R -> R) (t t' : table R) :
  NoDup ids -> sql_update_all ids (fun r => Some (f r)) t = Some t' ->
  forall k, rows t' !! k = if decide (k ∈ ids) then f <$> rows t !! k else rows t !! k.
Proof.
  revert t. induction ids as [|id ids IH]; cbn; intros t Hnd H k.
  { rewrite decide_False by apply not_elem_of_nil. by injection H as ->. }
  apply NoDup_cons in Hnd as [Hid Hnd].
  destruct (sql_update id _ t) as [t1|] eqn:E; [|done].
  rewrite (IH t1 Hnd H k).
  assert (rows t1 = match rows t !! id with Some r => <[id := f r]> (rows t) | None => rows t end)
    as Hrows.
  { apply sql_update_some in E as [[-> ->]|(r & r' & -> & [= <-] & _ & ->)]; done. }
  destruct (decide (k = id)) as [->|Hne].
  - rewrite (decide_False (P := id ∈ ids)) by done.
    rewrite decide_True by (apply elem_of_cons; by left).
    rewrite Hrows. destruct (rows t !! id) as [r|] eqn:Hr; [|done]. by rewrite lookup_insert_eq.
  - assert (rows t1 !! k = rows t !! k) as ->.
    { rewrite Hrows. destruct (rows t !! id); [|done]. by rewrite lookup_insert_ne. }
    destruct (decide (k ∈ ids)) as [Hin|Hout].
    + rewrite decide_True by (apply elem_of_cons; by right). done.
    + rewrite decide_False by (rewrite elem_of_cons; intros [?|?]; done). done.
Qed.

Lemma rows_where_keys (p : R -> bool) (t : table R) k :
  k ∈ map fst (rows_where p t) <-> exists r, rows t !! k = Some r /\ p r = true.
Proof.
  rewrite list_elem_of_fmap. split.
  - intros ([k' r] & -> & H%elem_of_rows_where). by exists r.
  - intros (r & H). exists (k, r). split; [done|]. by apply elem_of_rows_where.
Qed.
Lemma rows_where_NoDup (p : R -> bool) (t : table R) : NoDup (map fst (rows_where p t)).
Proof.
  unfold rows_where. pose proof (NoDup_fst_map_to_list (rows t)) as H.
  induction (map_to_list (rows t)) as [|[k r] l IH]; [constructor|].
  cbn in *. apply NoDup_cons in H as [Hk H]. destruct (p r); cbn; [|by apply IH].
  constructor; [|by apply IH]. rewrite list_elem_of_fmap. intros ([k' r'] & -> & Hin).
  apply Hk. apply list_elem_of_fmap. exists (k', r'). split; [done|].
  apply list_elem_of_In, filter_In in Hin as [Hin _]. by apply list_elem_of_In.
Qed.
End UpdateWhere.

Lemma yields_update_where_rows {S R} `{!Constraints R} (proj : S -> table R) `{!Update proj} p f e
  db u db' :
  yields (update_where proj p f e) db u db' ->
  exists t, rows t = (fun r => if p r then f r else r) <$> rows (proj db)
    /\ db' = db <| proj := t |>.
Proof.
  intros (t & Ht & ->)%yields_update_where. exists t. split; [|done]. apply map_eq. intros k.
  rewrite (sql_update_all_rows _ f _ _ (rows_where_NoDup _ _) Ht k), lookup_fmap.
  destruct (decide _) as [Hin|Hout].
  - apply rows_where_keys in Hin as (r & -> & Hp). cbn. by rewrite Hp.
  - destruct (rows (proj db) !! k) as [r|] eqn:Hr; [|done]. cbn.
    destruct (p r) eqn:Hp; [|done]. exfalso. apply Hout, rows_where_keys. by exists r.
Qed.

(** [UPDATE .. SET .. WHERE key] of a row that is there, when an expression of [SET] may
    leave its width. *)
Lemma yields_update_checked_row {S R} `{!Constraints R} (proj : S -> table R) `{!Update proj}
  id f e db u db' r :
  yields (update_checked proj id f e) db u db' -> rows (proj db) !! id = Some r ->
  exists r' t, f r = Some r' /\ rows t = <[id := r']> (rows (proj db)) /\ db' = db <| proj := t |>.
Proof.
  intros (t & Ht & ->)%yields_update Hr.
  apply sql_update_some in Ht as [[H _]|(r1 & r2 & H1 & H2 & _ & H3)]; [congruence|].
  rewrite H1 in Hr. apply (inj Some) in Hr as <-. by exists r2, t.
Qed.
