(* ===== verification/StoreFrame.v ===== *)
(** * What the transitions leave alone

    The coordination of projects, the work of actors and the founding do not touch the
    lifecycle of cycles and sessions nor the budget; [core] is that part of the
    database.  The invariants of [StoreCycleSpec] and [StoreBudgetSpec] need the other
    transitions only. *)

From S2P Require Import Prelude.
From S2P Require Import Machine.
From S2P Require Import KernelScalars.
From S2P Require Import KernelEnums.
From S2P Require Import KernelCustody.
From S2P Require Import KernelCommands.
From S2P Require Import KernelCodes.
From S2P Require Import SqlTable.
From S2P Require Import StoreTables.
From S2P Require Import StoreQueries.
From S2P Require Import StoreFounding.
From S2P Require Import StoreCycle.
From S2P Require Import StoreBudget.
From S2P Require Import StoreProject.
From S2P Require Import StoreWork.
From S2P Require Import StoreReview.
From S2P Require Import StoreLedger.
From S2P Require Import StoreLogic.

Module Core.
Record t := new {
  society_bootstraps : gmap Z SocietyBootstraps.t;
  operating_cycles : gmap Z OperatingCycles.t;
  reconciliations : gmap Z OperatingCycleReconciliations.t;
  sessions : gmap Z RootAuthorityOfficeSessions.t;
  turns : gmap Z OfficeTurns.t;
  envelopes : gmap Z BudgetEnvelopes.t;
  constraints : gmap Z BudgetEnvelopeConstraints.t;
  reservations : gmap Z BudgetReservations.t;
  charges : gmap Z BudgetReservationCharges.t;
  office_reservations : gmap Z OfficeSessionBudgetReservations.t;
  cancellations : gmap Z CancellationRequests.t;
  postmortems : gmap Z CostPostmortems.t;
  resolutions : gmap Z CostPostmortemResolutions.t;
  admissions : gmap Z NativeChildSpawnAdmissions.t;
  children : gmap Z NativeChildren.t;
}.
End Core.

Definition core (db : Database.t) : Core.t :=
  Core.new (rows (Database.society_bootstraps db)) (rows (Database.operating_cycles db))
    (rows (Database.operating_cycle_reconciliations db))
    (rows (Database.root_authority_office_sessions db)) (rows (Database.office_turns db))
    (rows (Database.budget_envelopes db)) (rows (Database.budget_envelope_constraints db))
    (rows (Database.budget_reservations db)) (rows (Database.budget_reservation_charges db))
    (rows (Database.office_session_budget_reservations db))
    (rows (Database.cancellation_requests db)) (rows (Database.cost_postmortems db))
    (rows (Database.cost_postmortem_resolutions db))
    (rows (Database.native_child_spawn_admissions db)) (rows (Database.native_children db)).

(** ** Loops *)

Lemma insert_principles_keeps {X} (f : Database.t -> X) id n l :
  Ignores f Database.application_revision_principles -> keeps f (insert_principles id n l).
Proof. intros ?. revert n. induction l; intros n; cbn; solve_keeps. Qed.
#[export] Hint Resolve insert_principles_keeps : keeps.

Lemma grant_to_occupant_keeps {X} (f : Database.t -> X) id p o l :
  Ignores f Database.capability_grants -> keeps f (grant_to_occupant id p o l).
Proof. intros ?. induction l; cbn; solve_keeps. Qed.
#[export] Hint Resolve grant_to_occupant_keeps : keeps.

(** ** The groups of transitions *)

Lemma dispatch_coordination_keeps id request m :
  dispatch_coordination id request = Some m -> keeps core m.
Proof.
  unfold dispatch_coordination. intros H.
  destruct (CommandRequest.body request); try discriminate H; injection H as <-; solve_keeps.
Qed.

(** The two work transitions that reserve budget. *)
Definition reserves_budget (body : CommandBody.t) : bool :=
  match body with
  | CommandBody.StartActorAttempt _ _ _
  | CommandBody.ClaimNativeExecutionProfileQualificationLaunch _ _ _ _ _ _ => true
  | _ => false
  end.
Lemma dispatch_work_keeps id request m :
  dispatch_work id request = Some m ->
  reserves_budget (CommandRequest.body request) = false -> keeps core m.
Proof.
  unfold dispatch_work. intros H Hr.
  destruct (CommandRequest.body request); try discriminate H; try discriminate Hr;
    injection H as <-; solve_keeps.
Qed.
