(* ===== verification/StoreMachine.v ===== *)
(** * The machine of cycles and budget

    What the transitions promise about [core], as a step relation: a cycle moves along its
    state machine, a reservation holds its amount in two envelopes and gives it back.  The
    invariants of the machine are proved by rule induction; [StoreRefine] shows that every
    accepted command is a sequence of its moves. *)

From S2P Require Import Prelude.
From S2P Require Import Machine.
From S2P Require Import KernelScalars.
From S2P Require Import KernelEnums.
From S2P Require Import KernelCustody.
From S2P Require Import SqlTable.
From S2P Require Import StoreTables.
From S2P Require Import StoreQueries.
From S2P Require Import StoreFrame.

#[export] Instance core_fields : Fields Core.t := fun c =>
  Core.new (Core.society_bootstraps c) (Core.operating_cycles c) (Core.reconciliations c)
    (Core.sessions c) (Core.turns c) (Core.envelopes c) (Core.constraints c)
    (Core.reservations c) (Core.charges c) (Core.office_reservations c)
    (Core.cancellations c) (Core.postmortems c) (Core.resolutions c) (Core.admissions c)
    (Core.children c).

(** ** The state machine of a cycle *)

(** State and admission generation. *)
Variant cycle_step : OperatingCycleState.t * Z -> OperatingCycleState.t * Z -> Prop :=
| StepAdmit g : cycle_step (OperatingCycleState.Proposed, g) (OperatingCycleState.Admitted_, g)
| StepStart g : cycle_step (OperatingCycleState.Admitted_, g) (OperatingCycleState.Running, g)
| StepQuiesce s g : s ∈ [OperatingCycleState.Admitted_; OperatingCycleState.Running] ->
    cycle_step (s, g) (OperatingCycleState.Quiescing, g + 1)
| StepDrain g : cycle_step (OperatingCycleState.Quiescing, g) (OperatingCycleState.Drained, g)
| StepDrainCancelling g :
    cycle_step (OperatingCycleState.Quiescing, g) (OperatingCycleState.Cancelling, g)
| StepResume g : cycle_step (OperatingCycleState.Drained, g) (OperatingCycleState.Running, g)
| StepReconcile g :
    cycle_step (OperatingCycleState.Drained, g) (OperatingCycleState.Reconciling, g)
| StepClose g : cycle_step (OperatingCycleState.Reconciling, g) (OperatingCycleState.Closed, g)
| StepCancel s s' g :
    s ∈ [OperatingCycleState.Proposed; OperatingCycleState.Admitted_;
         OperatingCycleState.Running; OperatingCycleState.Quiescing;
         OperatingCycleState.Drained] ->
    s' ∈ [OperatingCycleState.Quiescing; OperatingCycleState.Cancelling] ->
    cycle_step (s, g) (s', g + 1)
| StepFreeze s g : OperatingCycleState.is_nonterminal s = true ->
    cycle_step (s, g) (OperatingCycleState.Cancelling, g + 1)
| StepCancelled g :
    cycle_step (OperatingCycleState.Cancelling, g) (OperatingCycleState.Drained, g).

(** Membership in a list of constants. *)
Ltac elem_cases :=
  repeat match goal with
  | H : _ ∈ _ :: _ |- _ => apply elem_of_cons in H as [->|H]
  | H : _ ∈ [] |- _ => by apply not_elem_of_nil in H
  end.

Lemma cycle_step_nonterminal x y :
  cycle_step x y -> OperatingCycleState.is_nonterminal x.1 = true.
Proof. intros H. destruct H; elem_cases; done. Qed.
Lemma cycle_step_generation x y : cycle_step x y -> x.2 <= y.2.
Proof. intros []; cbn; lia. Qed.

(** The state and generation that a row stores. *)
Definition cycle_is (row : OperatingCycles.t) (x : OperatingCycleState.t * Z) : Prop :=
  OperatingCycles.lifecycle_state row = OperatingCycleState.as_i64 x.1
  /\ OperatingCycles.admission_generation row = x.2.
Definition is_terminal_cycle (row : OperatingCycles.t) : bool :=
  one_of [7; 10; 11] (OperatingCycles.lifecycle_state row).
Lemma terminal_cycle_code row x :
  cycle_is row x -> is_terminal_cycle row = negb (OperatingCycleState.is_nonterminal x.1).
Proof. unfold is_terminal_cycle. intros [-> _]. by destruct x as [[] ?]. Qed.

(** ** The budget *)

Definition reconciled (r : BudgetReservations.t) : bool :=
  BudgetReservations.reservation_state r
  =? BudgetReservationState.as_i64 BudgetReservationState.Reconciled.

Section Budget.
Variable reservations : gmap Z BudgetReservations.t.
Implicit Types (k : Z) (c : BudgetReservationCharges.t).

(** What a charge contributes to the envelope [k]: held, spent, and spent above the
    amount of its reservation. *)
Definition at_envelope k c (v : BudgetReservations.t -> Z) : Z :=
  if BudgetReservationCharges.budget_envelope_id c =? k then
    match reservations !! BudgetReservationCharges.budget_reservation_id c with
    | Some r => v r
    | None => 0
    end
  else 0.
Definition held_by k (_ : Z) c : Z :=
  at_envelope k c (fun r =>
    if reconciled r then 0 else BudgetReservationCharges.amount_micros c).
Definition spent_by k (_ : Z) c : Z :=
  at_envelope k c BudgetReservations.charged_micros.
Definition overrun_by k (_ : Z) c : Z :=
  at_envelope k c (fun r =>
    Z.max 0 (BudgetReservations.charged_micros r - BudgetReservations.amount_micros r)).
End Budget.

(** The part of the charges of a reservation, and their number, at an envelope. *)
Definition released_at (reservation k : Z) (_ : Z) (c : BudgetReservationCharges.t) : Z :=
  if (BudgetReservationCharges.budget_envelope_id c =? k)
     && (BudgetReservationCharges.budget_reservation_id c =? reservation)
  then BudgetReservationCharges.amount_micros c else 0.
Definition charges_at (reservation k : Z) (_ : Z) (c : BudgetReservationCharges.t) : Z :=
  if (BudgetReservationCharges.budget_envelope_id c =? k)
     && (BudgetReservationCharges.budget_reservation_id c =? reservation)
  then 1 else 0.

(** The envelopes after the charges of the reservation are settled at [delta] each. *)
Definition settled_envelopes (charges : gmap Z BudgetReservationCharges.t)
  (reservation delta : Z) (before after : gmap Z BudgetEnvelopes.t) : Prop :=
  forall k, after !! k = option_map (fun e =>
      e <| BudgetEnvelopes.reserved_micros :=
             BudgetEnvelopes.reserved_micros e - map_sum (released_at reservation k) charges |>
        <| BudgetEnvelopes.spent_micros :=
             BudgetEnvelopes.spent_micros e
             + delta * map_sum (charges_at reservation k) charges |>) (before !! k).

(** ** Moves *)

Definition is_live_session (s : RootAuthorityOfficeSessions.t) : bool :=
  negb (is_terminal_session (RootAuthorityOfficeSessions.lifecycle_state s)).
Definition is_active_turn (t : OfficeTurns.t) : bool :=
  OfficeTurns.lifecycle_state t =? OfficeTurnState.as_i64 OfficeTurnState.Active.
Definition is_open_cancellation (x : CancellationRequests.t) : bool :=
  negb (one_of [CancellationState.as_i64 CancellationState.Completed;
                CancellationState.as_i64 CancellationState.ContainmentFailed]
          (CancellationRequests.lifecycle_state x)).

(** Nothing is pending in the cycle. *)
Record quiescent (c : Core.t) (k : Z) : Prop := {
  no_live_session : map_Forall (fun _ s =>
    RootAuthorityOfficeSessions.operating_cycle_id s = k -> is_live_session s = false)
    (Core.sessions c);
  no_active_turn : map_Forall (fun _ t => forall s,
    Core.sessions c !! OfficeTurns.root_authority_office_session_id t = Some s ->
    RootAuthorityOfficeSessions.operating_cycle_id s = k -> is_active_turn t = false)
    (Core.turns c);
  no_held_reservation : map_Forall (fun _ r =>
    BudgetReservations.operating_cycle_id r = k -> reconciled r = true) (Core.reservations c);
  no_open_cancellation : map_Forall (fun _ x =>
    CancellationRequests.operating_cycle_id x = k -> is_open_cancellation x = false)
    (Core.cancellations c);
}.

(** A cycle that is not terminal. *)
Definition live_cycle (c : Core.t) (k : Z) : Prop :=
  exists row, Core.operating_cycles c !! k = Some row /\ is_terminal_cycle row = false.

Variant move (c : Core.t) : Core.t -> Prop :=
| MoveBootstrap m : move c (c <| Core.society_bootstraps := m |>)
| MoveConstraint m : move c (c <| Core.constraints := m |>)
| MoveEnvelope k e :
    Core.envelopes c !! k = None ->
    map_Forall (fun _ x => BudgetReservationCharges.budget_envelope_id x <> k) (Core.charges c) ->
    0 <= BudgetEnvelopes.ceiling_micros e ->
    BudgetEnvelopes.reserved_micros e = 0 -> BudgetEnvelopes.spent_micros e = 0 ->
    move c (c <| Core.envelopes := <[k := e]> (Core.envelopes c) |>)
| MovePropose k row :
    map_Forall (fun _ r => is_terminal_cycle r = true) (Core.operating_cycles c) ->
    Core.operating_cycles c !! k = None ->
    cycle_is row (OperatingCycleState.Proposed, 0) ->
    move c (c <| Core.operating_cycles := <[k := row]> (Core.operating_cycles c) |>)
| MoveCycle k row row' x y :
    Core.operating_cycles c !! k = Some row -> cycle_is row x -> cycle_is row' y ->
    cycle_step x y ->
    (y.1 = OperatingCycleState.Closed -> quiescent c k) ->
    (y.1 = OperatingCycleState.Reconciling -> Core.reconciliations c !! k = None) ->
    move c (c <| Core.operating_cycles := <[k := row']> (Core.operating_cycles c) |>)
| MoveReconciliation k r :
    move c (c <| Core.reconciliations := <[k := r]> (Core.reconciliations c) |>)
| MoveSessionStart k s :
    Core.sessions c !! k = None ->
    live_cycle c (RootAuthorityOfficeSessions.operating_cycle_id s) ->
    move c (c <| Core.sessions := <[k := s]> (Core.sessions c) |>)
| MoveSession k s s' :
    Core.sessions c !! k = Some s -> is_live_session s = true ->
    RootAuthorityOfficeSessions.operating_cycle_id s'
      = RootAuthorityOfficeSessions.operating_cycle_id s ->
    move c (c <| Core.sessions := <[k := s']> (Core.sessions c) |>)
| MoveTurnOpen k t s :
    Core.turns c !! k = None ->
    Core.sessions c !! OfficeTurns.root_authority_office_session_id t = Some s ->
    is_live_session s = true ->
    move c (c <| Core.turns := <[k := t]> (Core.turns c) |>)
| MoveReserve k r :
    Core.reservations c !! k = None ->
    live_cycle c (BudgetReservations.operating_cycle_id r) ->
    BudgetReservations.charged_micros r = 0 -> 0 <= BudgetReservations.amount_micros r ->
    reconciled r = false ->
    move c (c <| Core.reservations := <[k := r]> (Core.reservations c) |>)
| MoveCharge k x r e :
    Core.charges c !! k = None ->
    Core.reservations c !! BudgetReservationCharges.budget_reservation_id x = Some r ->
    reconciled r = false -> BudgetReservations.charged_micros r = 0 ->
    BudgetReservationCharges.amount_micros x = BudgetReservations.amount_micros r ->
    0 <= BudgetReservationCharges.amount_micros x ->
    Core.envelopes c !! BudgetReservationCharges.budget_envelope_id x = Some e ->
    BudgetEnvelopes.reserved_micros e + BudgetReservationCharges.amount_micros x
      + BudgetEnvelopes.spent_micros e <= BudgetEnvelopes.ceiling_micros e ->
    move c (c <| Core.envelopes :=
                   <[BudgetReservationCharges.budget_envelope_id x :=
                       e <| BudgetEnvelopes.reserved_micros :=
                              BudgetEnvelopes.reserved_micros e
                              + BudgetReservationCharges.amount_micros x |>]>
                     (Core.envelopes c) |>
              <| Core.charges := <[k := x]> (Core.charges c) |>)
| MoveFreeze k r :
    Core.reservations c !! k = Some r -> reconciled r = false ->
    move c (c <| Core.reservations :=
                   <[k := r <| BudgetReservations.reservation_state :=
                              BudgetReservationState.as_i64 BudgetReservationState.Frozen |>]>
                     (Core.reservations c) |>)
| MoveSettle k r delta by_ envelopes :
    Core.reservations c !! k = Some r -> reconciled r = false -> 0 <= delta ->
    settled_envelopes (Core.charges c) k delta (Core.envelopes c) envelopes ->
    move c (c <| Core.envelopes := envelopes |>
              <| Core.reservations :=
                   <[k := r <| BudgetReservations.reservation_state :=
                              BudgetReservationState.as_i64 BudgetReservationState.Reconciled |>
                            <| BudgetReservations.charged_micros :=
                                 BudgetReservations.charged_micros r + delta |>
                            <| BudgetReservations.reconciled_by_command_id := by_ |>]>
                     (Core.reservations c) |>)
| MoveCancellation k x :
    Core.cancellations c !! k = None ->
    live_cycle c (CancellationRequests.operating_cycle_id x) ->
    move c (c <| Core.cancellations := <[k := x]> (Core.cancellations c) |>)
| MoveCancelled k x x' :
    Core.cancellations c !! k = Some x ->
    CancellationRequests.operating_cycle_id x' = CancellationRequests.operating_cycle_id x ->
    is_open_cancellation x' = false ->
    move c (c <| Core.cancellations := <[k := x']> (Core.cancellations c) |>)
| MovePostmortem m : move c (c <| Core.postmortems := m |>)
| MoveResolution m : move c (c <| Core.resolutions := m |>).

(** ** The invariant *)

Record inv (c : Core.t) : Prop := {
  one_live_cycle : forall k1 k2 r1 r2,
    Core.operating_cycles c !! k1 = Some r1 -> Core.operating_cycles c !! k2 = Some r2 ->
    is_terminal_cycle r1 = false -> is_terminal_cycle r2 = false -> k1 = k2;
  (** What is pending belongs to a live cycle. *)
  session_pending : map_Forall (fun _ s => is_live_session s = true ->
    live_cycle c (RootAuthorityOfficeSessions.operating_cycle_id s)) (Core.sessions c);
  turn_pending : map_Forall (fun _ t => is_active_turn t = true ->
    exists s, Core.sessions c !! OfficeTurns.root_authority_office_session_id t = Some s
      /\ live_cycle c (RootAuthorityOfficeSessions.operating_cycle_id s)) (Core.turns c);
  reservation_pending : map_Forall (fun _ r => reconciled r = false ->
    live_cycle c (BudgetReservations.operating_cycle_id r)) (Core.reservations c);
  cancellation_pending : map_Forall (fun _ x => is_open_cancellation x = true ->
    live_cycle c (CancellationRequests.operating_cycle_id x)) (Core.cancellations c);
  (** A charge belongs to a reservation and an envelope; until the reservation is
      reconciled it holds what is not charged yet. *)
  charge_consistent : map_Forall (fun _ x => exists r e,
    Core.reservations c !! BudgetReservationCharges.budget_reservation_id x = Some r
    /\ Core.envelopes c !! BudgetReservationCharges.budget_envelope_id x = Some e
    /\ 0 <= BudgetReservationCharges.amount_micros x
    /\ 0 <= BudgetReservations.charged_micros r
    /\ (reconciled r = false ->
        BudgetReservationCharges.amount_micros x + BudgetReservations.charged_micros r
        = BudgetReservations.amount_micros r)) (Core.charges c);
  (** An envelope accounts for its charges. *)
  balanced : map_Forall (fun k e =>
    BudgetEnvelopes.reserved_micros e
      = map_sum (held_by (Core.reservations c) k) (Core.charges c)
    /\ BudgetEnvelopes.spent_micros e
      = map_sum (spent_by (Core.reservations c) k) (Core.charges c)) (Core.envelopes c);
  (** And exceeds its ceiling only by overruns. *)
  solvent : map_Forall (fun k e =>
    BudgetEnvelopes.reserved_micros e + BudgetEnvelopes.spent_micros e
    <= BudgetEnvelopes.ceiling_micros e
       + map_sum (overrun_by (Core.reservations c) k) (Core.charges c)) (Core.envelopes c);
}.

#[global] Arguments is_terminal_cycle : simpl never.
#[global] Arguments reconciled : simpl never.
#[global] Arguments is_live_session : simpl never.
#[global] Arguments is_active_turn : simpl never.
#[global] Arguments is_open_cancellation : simpl never.

(** ** Live cycles *)

Lemma terminal_step x y :
  cycle_step x y -> OperatingCycleState.is_nonterminal y.1 = false ->
  y.1 = OperatingCycleState.Closed.
Proof. intros H. destruct H; elem_cases; done. Qed.

(** A live cycle stays live, unless it closes with nothing pending. *)
Lemma live_kept c c' k :
  move c c' -> live_cycle c k ->
  live_cycle c' k
  \/ (quiescent c k /\ Core.sessions c' = Core.sessions c /\ Core.turns c' = Core.turns c
      /\ Core.reservations c' = Core.reservations c
      /\ Core.cancellations c' = Core.cancellations c).
Proof.
  intros Hm Hlive. destruct Hm; try (left; exact Hlive).
  - left. destruct Hlive as (r & Hr & Ht). exists r. split; [|done]. cbn.
    rewrite lookup_insert_ne; [done|]. by intros ->; rewrite Hr in H0.
  - destruct Hlive as (r & Hr & Ht). destruct (decide (k0 = k)) as [->|Hne].
    + destruct (OperatingCycleState.is_nonterminal y.1) eqn:Hy.
      * left. exists row'. cbn. rewrite lookup_insert_eq. split; [done|].
        rewrite (terminal_cycle_code _ y) by done. by rewrite Hy.
      * right. split; [|done]. eauto using terminal_step.
    + left. exists r. cbn. by rewrite lookup_insert_ne.
Qed.

Lemma pending_kept {R} (m : gmap Z R) (pending : R -> bool) (cycle : R -> Z) c c' :
  move c c' ->
  (forall k, quiescent c k -> map_Forall (fun _ r => cycle r = k -> pending r = false) m) ->
  map_Forall (fun _ r => pending r = true -> live_cycle c (cycle r)) m ->
  map_Forall (fun _ r => pending r = true -> live_cycle c' (cycle r)) m.
Proof.
  intros Hm Hq H k r Hk Hp. destruct (live_kept c c' _ Hm (H k r Hk Hp)) as [|[Hc _]]; [done|].
  by rewrite (Hq _ Hc k r Hk eq_refl) in Hp.
Qed.

(** ** Preservation *)

Section Preservation.
Variables (c c' : Core.t).
Hypothesis Hm : move c c'.
Hypothesis Hi : inv c.

Lemma one_live_cycle_kept k1 k2 r1 r2 :
  Core.operating_cycles c' !! k1 = Some r1 -> Core.operating_cycles c' !! k2 = Some r2 ->
  is_terminal_cycle r1 = false -> is_terminal_cycle r2 = false -> k1 = k2.
Proof.
  destruct Hi as [H1 _ _ _ _ _ _ _].
  destruct Hm as [| | |k row Hall Hk _|k row row' x y Hk Hx Hy Hs _ _| | | | | | | | | | | |];
    try (apply H1); cbn; intros E1 E2 T1 T2.
  - apply lookup_insert_Some in E1 as [[<- <-]|[_ E1]];
      apply lookup_insert_Some in E2 as [[<- <-]|[_ E2]]; [done| | |].
    + by rewrite (Hall _ _ E2) in T2.
    + by rewrite (Hall _ _ E1) in T1.
    + by rewrite (Hall _ _ E1) in T1.
  - assert (is_terminal_cycle row = false) as Hrow.
    { rewrite (terminal_cycle_code _ x) by done. by rewrite (cycle_step_nonterminal _ _ Hs). }
    apply lookup_insert_Some in E1 as [[<- <-]|[_ E1]];
      apply lookup_insert_Some in E2 as [[<- <-]|[_ E2]]; eauto.
Qed.

Lemma session_pending_kept :
  map_Forall (fun _ s => is_live_session s = true ->
    live_cycle c' (RootAuthorityOfficeSessions.operating_cycle_id s)) (Core.sessions c').
Proof.
  assert (map_Forall (fun _ s => is_live_session s = true ->
    live_cycle c' (RootAuthorityOfficeSessions.operating_cycle_id s)) (Core.sessions c)) as H.
  { eapply pending_kept; [exact Hm| |apply Hi]. intros k Hq. apply Hq. }
  destruct Hm; try exact H; cbn; apply map_Forall_insert_2; try exact H; intros _.
  - done.
  - pose proof (session_pending c Hi _ _ H0 H1) as (row & ?). rewrite H2. by exists row.
Qed.

Lemma reservation_pending_kept :
  map_Forall (fun _ r => reconciled r = false ->
    live_cycle c' (BudgetReservations.operating_cycle_id r)) (Core.reservations c').
Proof.
  assert (map_Forall (fun _ r => negb (reconciled r) = true ->
    live_cycle c' (BudgetReservations.operating_cycle_id r)) (Core.reservations c)) as H.
  { eapply (pending_kept _ (fun r => negb (reconciled r))); [exact Hm| |].
    - intros k Hq j r Hj Hr. by rewrite (no_held_reservation _ _ Hq j r Hj Hr).
    - intros j r Hj Hr%negb_true_iff. by apply (reservation_pending c Hi j r). }
  assert (forall r k, Core.reservations c !! k = Some r -> reconciled r = false ->
    live_cycle c' (BudgetReservations.operating_cycle_id r)) as Hold.
  { intros r k Hk Hr. apply (H k r Hk). by rewrite Hr. }
  destruct Hm; try (intros ? ? ? ?; by eapply Hold); cbn;
    apply map_Forall_insert_2; try (intros ? ? ? ?; by eapply Hold); intros Hr.
  - done.
  - by eapply (Hold r).
  - done.
Qed.

Lemma cancellation_pending_kept :
  map_Forall (fun _ x => is_open_cancellation x = true ->
    live_cycle c' (CancellationRequests.operating_cycle_id x)) (Core.cancellations c').
Proof.
  assert (map_Forall (fun _ x => is_open_cancellation x = true ->
    live_cycle c' (CancellationRequests.operating_cycle_id x)) (Core.cancellations c)) as H.
  { eapply pending_kept; [exact Hm| |apply Hi]. intros k Hq. apply Hq. }
  destruct Hm; try exact H; cbn; apply map_Forall_insert_2; try exact H; intros Ho; [done|].
  congruence.
Qed.

Lemma turn_pending_kept :
  map_Forall (fun _ t => is_active_turn t = true ->
    exists s, Core.sessions c' !! OfficeTurns.root_authority_office_session_id t = Some s
      /\ live_cycle c' (RootAuthorityOfficeSessions.operating_cycle_id s)) (Core.turns c').
Proof.
  assert (forall j t s, Core.turns c !! j = Some t -> is_active_turn t = true ->
    Core.sessions c !! OfficeTurns.root_authority_office_session_id t = Some s ->
    live_cycle c (RootAuthorityOfficeSessions.operating_cycle_id s) ->
    live_cycle c' (RootAuthorityOfficeSessions.operating_cycle_id s)) as Hlive.
  { intros j t s Hj Ha Hs Hl. destruct (live_kept c c' _ Hm Hl) as [|[Hq _]]; [done|].
    by rewrite (no_active_turn _ _ Hq j t Hj s Hs eq_refl) in Ha. }
  assert (map_Forall (fun _ t => is_active_turn t = true ->
    exists s, Core.sessions c' !! OfficeTurns.root_authority_office_session_id t = Some s
      /\ live_cycle c' (RootAuthorityOfficeSessions.operating_cycle_id s)) (Core.turns c)) as H.
  { intros j t Hj Ha. destruct (turn_pending c Hi j t Hj Ha) as (s & Hs & Hl).
    pose proof (Hlive j t s Hj Ha Hs Hl) as Hl'.
    destruct Hm; try (exists s; split; [exact Hs|exact Hl']); cbn.
    - exists s. rewrite lookup_insert_ne; [by split|]. intros Heq.
      by rewrite <-Heq, H in Hs.
    - destruct (decide (k = OfficeTurns.root_authority_office_session_id t)) as [->|Hne].
      + rewrite H in Hs. injection Hs as <-. exists s'. rewrite lookup_insert_eq, H1. done.
      + exists s. by rewrite lookup_insert_ne. }
  destruct Hm; try exact H; cbn. apply map_Forall_insert_2; [|exact H]. intros _.
  exists s. split; [done|]. destruct (session_pending c Hi _ _ H1 H2) as (row & ?).
  by exists row.
Qed.

Lemma charge_consistent_kept :
  map_Forall (fun _ x => exists r e,
    Core.reservations c' !! BudgetReservationCharges.budget_reservation_id x = Some r
    /\ Core.envelopes c' !! BudgetReservationCharges.budget_envelope_id x = Some e
    /\ 0 <= BudgetReservationCharges.amount_micros x
    /\ 0 <= BudgetReservations.charged_micros r
    /\ (reconciled r = false ->
        BudgetReservationCharges.amount_micros x + BudgetReservations.charged_micros r
        = BudgetReservations.amount_micros r)) (Core.charges c').
Proof.
  pose proof (charge_consistent c Hi) as Hcc.
  destruct Hm; try exact Hcc; cbn.
  - intros j x Hj. destruct (Hcc j x Hj) as (r & e' & Hr & He & Hrest). exists r, e'.
    rewrite lookup_insert_ne; [done|]. intros ->. congruence.
  - intros j x Hj. destruct (Hcc j x Hj) as (r' & e & Hr & He & Hrest). exists r', e.
    rewrite lookup_insert_ne; [done|]. intros ->. congruence.
  - apply map_Forall_insert_2.
    + exists r. eexists. rewrite lookup_insert_eq. split_and!; [done|done|done|lia|lia].
    + intros j x' Hj. destruct (Hcc j x' Hj) as (r' & e' & Hr & He & Hrest). exists r'.
      destruct (decide (BudgetReservationCharges.budget_envelope_id x
                        = BudgetReservationCharges.budget_envelope_id x')) as [<-|Hne].
      * eexists. by rewrite lookup_insert_eq.
      * exists e'. by rewrite lookup_insert_ne.
  - intros j x Hj. destruct (Hcc j x Hj) as (r' & e & Hr & He & Ha & Hc & Heq).
    destruct (decide (k = BudgetReservationCharges.budget_reservation_id x)) as [->|Hne].
    + rewrite H in Hr. injection Hr as <-. eexists _, e. rewrite lookup_insert_eq.
      split_and!; try done. cbn. intros _. by apply Heq.
    + exists r', e. by rewrite lookup_insert_ne.
  - intros j x Hj. destruct (Hcc j x Hj) as (r' & e & Hr & He & Ha & Hc & Heq).
    specialize (H2 (BudgetReservationCharges.budget_envelope_id x)). rewrite He in H2. cbn in H2.
    destruct (decide (k = BudgetReservationCharges.budget_reservation_id x)) as [->|Hne].
    + rewrite H in Hr. injection Hr as <-. eexists _, _. rewrite lookup_insert_eq.
      split_and!; [done|done|done|cbn; lia|done].
    + eexists r', _. by rewrite lookup_insert_ne.
Qed.

Definition accounts (m : Core.t) (k : Z) (e : BudgetEnvelopes.t) : Prop :=
  BudgetEnvelopes.reserved_micros e = map_sum (held_by (Core.reservations m) k) (Core.charges m)
  /\ BudgetEnvelopes.spent_micros e = map_sum (spent_by (Core.reservations m) k) (Core.charges m)
  /\ BudgetEnvelopes.reserved_micros e + BudgetEnvelopes.spent_micros e
     <= BudgetEnvelopes.ceiling_micros e
        + map_sum (overrun_by (Core.reservations m) k) (Core.charges m).

Lemma accounts_before : map_Forall (accounts c) (Core.envelopes c).
Proof.
  intros k e Hk. destruct (balanced c Hi k e Hk). pose proof (solvent c Hi k e Hk). done.
Qed.

(** Accounts depend on what the charges contribute. *)
Lemma accounts_ext m k e :
  Core.charges m = Core.charges c ->
  (forall j x, Core.charges c !! j = Some x ->
     held_by (Core.reservations m) k j x = held_by (Core.reservations c) k j x
     /\ spent_by (Core.reservations m) k j x = spent_by (Core.reservations c) k j x
     /\ overrun_by (Core.reservations m) k j x = overrun_by (Core.reservations c) k j x) ->
  accounts c k e -> accounts m k e.
Proof.
  unfold accounts. intros -> H.
  rewrite (map_sum_ext (held_by (Core.reservations m) k) (held_by (Core.reservations c) k)),
    (map_sum_ext (spent_by (Core.reservations m) k) (spent_by (Core.reservations c) k)),
    (map_sum_ext (overrun_by (Core.reservations m) k) (overrun_by (Core.reservations c) k));
    [done|intros j x Hj; by destruct (H j x Hj) as (? & ? & ?)..].
Qed.

(** The contribution of one charge, by its reservation. *)
Ltac contribution x k :=
  unfold held_by, spent_by, overrun_by, at_envelope, released_at, charges_at;
  destruct (BudgetReservationCharges.budget_envelope_id x =? k); cbn [andb]; [|lia];
  match goal with
  | |- context [<[?j := _]> _] =>
      let H := fresh "Hres" in
      destruct (Z.eqb_spec (BudgetReservationCharges.budget_reservation_id x) j) as [H|H];
      [rewrite ?H, ?lookup_insert_eq|rewrite ?lookup_insert_ne by done]
  end.

Lemma accounts_settled k r delta by_ envelopes j e :
  Core.reservations c !! k = Some r -> reconciled r = false -> 0 <= delta ->
  settled_envelopes (Core.charges c) k delta (Core.envelopes c) envelopes ->
  envelopes !! j = Some e ->
  accounts (c <| Core.envelopes := envelopes |>
              <| Core.reservations :=
                   <[k := r <| BudgetReservations.reservation_state :=
                              BudgetReservationState.as_i64 BudgetReservationState.Reconciled |>
                            <| BudgetReservations.charged_micros :=
                                 BudgetReservations.charged_micros r + delta |>
                            <| BudgetReservations.reconciled_by_command_id := by_ |>]>
                     (Core.reservations c) |>) j e.
Proof.
  intros Hk Hr Hd Hset Hj. rewrite Hset in Hj.
  destruct (Core.envelopes c !! j) as [e0|] eqn:He0; [|done].
  destruct (accounts_before j e0 He0) as (Hres & Hspent & Hsolv).
  cbn in Hj. injection Hj as <-.
  set (r' := r <| BudgetReservations.reservation_state := _ |>
               <| BudgetReservations.charged_micros := _ |>
               <| BudgetReservations.reconciled_by_command_id := _ |>).
  unfold accounts. cbn -[r'].
  assert (reconciled r' = true) as Hr' by done.
  assert (map_sum (held_by (<[k:=r']> (Core.reservations c)) j) (Core.charges c)
    = map_sum (held_by (Core.reservations c) j) (Core.charges c)
      + -1 * map_sum (released_at k j) (Core.charges c)) as ->.
  { rewrite <-map_sum_scale, <-map_sum_add. apply map_sum_ext. intros i x Hx.
    contribution x j.
    - rewrite Hk, Hr', Hr. lia.
    - destruct (_ !! _); lia. }
  assert (map_sum (spent_by (<[k:=r']> (Core.reservations c)) j) (Core.charges c)
    = map_sum (spent_by (Core.reservations c) j) (Core.charges c)
      + delta * map_sum (charges_at k j) (Core.charges c)) as ->.
  { rewrite <-map_sum_scale, <-map_sum_add. apply map_sum_ext. intros i x Hx.
    contribution x j.
    - rewrite Hk. cbn -[Z.mul]. lia.
    - destruct (_ !! _); lia. }
  split_and!; [lia|lia|].
  enough (map_sum (overrun_by (Core.reservations c) j) (Core.charges c)
    + (-1 * map_sum (released_at k j) (Core.charges c)
       + delta * map_sum (charges_at k j) (Core.charges c))
    <= map_sum (overrun_by (<[k:=r']> (Core.reservations c)) j) (Core.charges c)) by lia.
  rewrite <-!map_sum_scale, <-!map_sum_add. apply map_sum_le. intros i x Hx.
  destruct (charge_consistent c Hi i x Hx) as (r0 & _ & Hr0 & _ & Hamt & Hch & Heq).
  contribution x j.
  - rewrite Hres0, Hk in Hr0. injection Hr0 as <-. specialize (Heq Hr).
    rewrite Hk. cbn -[Z.mul Z.max]. lia.
  - destruct (_ !! _); lia.
Qed.

(** A new reservation has no charges, and freezing one changes no amount. *)
Lemma accounts_reserved k r j e :
  Core.reservations c !! k = None -> accounts c j e ->
  accounts (c <| Core.reservations := <[k := r]> (Core.reservations c) |>) j e.
Proof.
  intros Hk. apply accounts_ext; [done|]. intros i x Hx.
  destruct (charge_consistent c Hi i x Hx) as (r0 & _ & Hr0 & _).
  unfold held_by, spent_by, overrun_by, at_envelope. cbn.
  rewrite lookup_insert_ne; [done|]. intros ->. congruence.
Qed.
Lemma accounts_frozen k r j e :
  Core.reservations c !! k = Some r -> reconciled r = false -> accounts c j e ->
  accounts (c <| Core.reservations :=
                   <[k := r <| BudgetReservations.reservation_state :=
                              BudgetReservationState.as_i64 BudgetReservationState.Frozen |>]>
                     (Core.reservations c) |>) j e.
Proof.
  intros Hk Hr. apply accounts_ext; [done|]. intros i x Hx.
  unfold held_by, spent_by, overrun_by, at_envelope. cbn.
  destruct (decide (k = BudgetReservationCharges.budget_reservation_id x)) as [->|Hne].
  - rewrite Hk, lookup_insert_eq, Hr. done.
  - by rewrite lookup_insert_ne.
Qed.

(** A new envelope has no charges. *)
Lemma accounts_opened k e m :
  Core.charges m = Core.charges c ->
  map_Forall (fun _ x => BudgetReservationCharges.budget_envelope_id x <> k) (Core.charges c) ->
  0 <= BudgetEnvelopes.ceiling_micros e ->
  BudgetEnvelopes.reserved_micros e = 0 -> BudgetEnvelopes.spent_micros e = 0 -> accounts m k e.
Proof.
  intros Hch Hne Hc Hr Hs. unfold accounts. rewrite Hch, Hr, Hs.
  rewrite !map_sum_zero; [lia|..]; intros j x Hx;
    unfold held_by, spent_by, overrun_by, at_envelope;
    by rewrite (proj2 (Z.eqb_neq _ _) (Hne j x Hx)).
Qed.

(** A charge holds its amount at its envelope. *)
Lemma accounts_charged k x r e j e' :
  Core.charges c !! k = None ->
  Core.reservations c !! BudgetReservationCharges.budget_reservation_id x = Some r ->
  reconciled r = false -> BudgetReservations.charged_micros r = 0 ->
  0 <= BudgetReservationCharges.amount_micros x ->
  BudgetReservationCharges.amount_micros x = BudgetReservations.amount_micros r ->
  Core.envelopes c !! BudgetReservationCharges.budget_envelope_id x = Some e ->
  BudgetEnvelopes.reserved_micros e + BudgetReservationCharges.amount_micros x
    + BudgetEnvelopes.spent_micros e <= BudgetEnvelopes.ceiling_micros e ->
  <[BudgetReservationCharges.budget_envelope_id x :=
      e <| BudgetEnvelopes.reserved_micros :=
             BudgetEnvelopes.reserved_micros e + BudgetReservationCharges.amount_micros x |>]>
    (Core.envelopes c) !! j = Some e' ->
  BudgetEnvelopes.reserved_micros e'
    = map_sum (held_by (Core.reservations c) j) (<[k := x]> (Core.charges c))
  /\ BudgetEnvelopes.spent_micros e'
    = map_sum (spent_by (Core.reservations c) j) (<[k := x]> (Core.charges c))
  /\ BudgetEnvelopes.reserved_micros e' + BudgetEnvelopes.spent_micros e'
     <= BudgetEnvelopes.ceiling_micros e'
        + map_sum (overrun_by (Core.reservations c) j) (<[k := x]> (Core.charges c)).
Proof.
  intros Hk Hr Hrec Hch Hpos Heq He Hroom Hj. rewrite !map_sum_insert by done.
  assert (0 <= map_sum (overrun_by (Core.reservations c) j) (Core.charges c)) as Hover.
  { apply map_sum_nonneg. intros i y _. unfold overrun_by, at_envelope.
    repeat case_match; lia. }
  unfold held_by at 1, spent_by at 1, overrun_by at 1, at_envelope. rewrite Hr, Hrec, Hch.
  apply lookup_insert_Some in Hj as [[<- <-]|[Hne Hj]].
  - destruct (accounts_before _ e He) as (H1 & H2 & H3). rewrite Z.eqb_refl. cbn.
    split_and!; lia.
  - destruct (accounts_before _ e' Hj) as (H1 & H2 & H3).
    rewrite (proj2 (Z.eqb_neq _ _)) by done. split_and!; lia.
Qed.

Lemma accounts_kept : map_Forall (accounts c') (Core.envelopes c').
Proof.
  pose proof accounts_before as Hb. intros j e Hj. specialize (Hb j).
  destruct Hm; try (by apply Hb); cbn in Hj.
  - apply lookup_insert_Some in Hj as [[<- <-]|[Hne Hj]]; [by apply accounts_opened|].
    by apply Hb.
  - by apply accounts_reserved, Hb.
  - by eapply accounts_charged.
  - by apply accounts_frozen, Hb.
  - by apply (accounts_settled k r delta by_ envelopes).
Qed.
End Preservation.

Lemma move_inv c c' : move c c' -> inv c -> inv c'.
Proof.
  intros Hm Hi. constructor.
  - exact (one_live_cycle_kept c c' Hm Hi).
  - exact (session_pending_kept c c' Hm Hi).
  - exact (turn_pending_kept c c' Hm Hi).
  - exact (reservation_pending_kept c c' Hm Hi).
  - exact (cancellation_pending_kept c c' Hm Hi).
  - exact (charge_consistent_kept c c' Hm Hi).
  - intros k e Hk. by destruct (accounts_kept c c' Hm Hi k e Hk) as (? & ? & ?).
  - intros k e Hk. by destruct (accounts_kept c c' Hm Hi k e Hk) as (? & ? & ?).
Qed.

(** ** Histories of the machine *)

Definition moves : relation Core.t := rtc move.

Lemma moves_inv c c' : moves c c' -> inv c -> inv c'.
Proof. induction 1; eauto using move_inv. Qed.

(** A cycle moves along its state machine. *)
Definition cycle_moves (row row' : OperatingCycles.t) : Prop :=
  forall x, cycle_is row x -> exists y, cycle_is row' y /\ rtc cycle_step x y.

Lemma cycle_is_inj row x y : cycle_is row x -> cycle_is row y -> x = y.
Proof.
  intros [H1 H2] [H3 H4]. destruct x as [s g], y as [s' g']. cbn in *. subst.
  rewrite H1 in H3. by apply (inj OperatingCycleState.as_i64) in H3 as ->.
Qed.

Lemma move_cycle c c' k row :
  move c c' -> Core.operating_cycles c !! k = Some row ->
  exists row', Core.operating_cycles c' !! k = Some row' /\ cycle_moves row row'.
Proof.
  assert (cycle_moves row row) as Hrefl by (intros x Hx; exists x; by split).
  intros Hm Hk. destruct Hm as [| | |j r Hall Hj _|j r r' x y Hj Hx Hy Hs _ _| | | | | | | | | | | |];
    try (exists row; by split); cbn.
  - exists row. rewrite lookup_insert_ne; [by split|]. intros ->. congruence.
  - destruct (decide (j = k)) as [->|Hne].
    + exists r'. rewrite lookup_insert_eq. split; [done|]. rewrite Hk in Hj.
      injection Hj as <-. intros x' Hx'. rewrite (cycle_is_inj _ _ _ Hx' Hx).
      exists y. split; [done|]. by apply rtc_once.
    + exists row. by rewrite lookup_insert_ne.
Qed.

Lemma moves_cycle c c' k row :
  moves c c' -> Core.operating_cycles c !! k = Some row ->
  exists row', Core.operating_cycles c' !! k = Some row' /\ cycle_moves row row'.
Proof.
  intros Hm. revert row. induction Hm as [c|c c1 c' H1 _ IH]; intros row Hk.
  { exists row. split; [done|]. intros x Hx. by exists x. }
  destruct (move_cycle _ _ _ _ H1 Hk) as (row1 & Hk1 & Hm1).
  destruct (IH row1 Hk1) as (row' & Hk' & Hm'). exists row'. split; [done|].
  intros x Hx. destruct (Hm1 x Hx) as (y & Hy & Hxy). destruct (Hm' y Hy) as (z & Hz & Hyz).
  exists z. split; [done|]. by etrans.
Qed.
