(* ===== verification/StoreRefine.v ===== *)
(** * The transitions refine the machine

    Every accepted command takes [core] along moves of [StoreMachine]: each transition
    that writes it is inverted statement by statement, and each write is a move whose
    guard the transition has checked. *)

From S2P Require Import Prelude.
From S2P Require Import Machine.
From S2P Require Import KernelScalars.
From S2P Require Import KernelEnums.
From S2P Require Import KernelCustody.
From S2P Require Import KernelCommands.
From S2P Require Import KernelCodes.
From S2P Require Import SqlTable.
From S2P Require Import StoreTables.
From S2P Require Import StoreQueries.
From S2P Require Import StoreFounding.
From S2P Require Import StoreCycle.
From S2P Require Import StoreBudget.
From S2P Require Import StoreProject.
From S2P Require Import StoreWork.
From S2P Require Import StoreReview.
From S2P Require Import StoreLedger.
From S2P Require Import StoreLogic.
From S2P Require Import StoreFrame.
From S2P Require Import StoreMachine.

(** ** Rows that were validated *)

Lemma usd_ok z (a : UsdMicros.t) : UsdMicros.try_from z = Ok a -> UsdMicros.value a = z.
Proof.
  unfold UsdMicros.try_from, UsdMicros.new, ok_or. destruct (checked z) eqn:E; [|done].
  intros [= <-]. by apply checked_some in E.
Qed.
Lemma usd_bounds (a : UsdMicros.t) : 0 <= UsdMicros.value a /\ is_i64 (UsdMicros.value a) = true.
Proof. destruct a as [z Hz]. unfold UsdMicros.ok in Hz. cbn. bool_hyps. done. Qed.
Lemma usd_add (a b c : UsdMicros.t) :
  UsdMicros.checked_add a b = Some c ->
  UsdMicros.value c = UsdMicros.value a + UsdMicros.value b.
Proof.
  unfold UsdMicros.checked_add, UsdMicros.new, checked_add_i64, checked_i64, UsdMicros.value.
  intros H. destruct (is_i64 _); [|done]. by apply checked_some in H.
Qed.
Lemma usd_sub (a b c : UsdMicros.t) :
  UsdMicros.checked_sub a b = Some c ->
  UsdMicros.value c = UsdMicros.value a - UsdMicros.value b.
Proof.
  unfold UsdMicros.checked_sub, UsdMicros.new, checked_sub_i64, checked_i64, UsdMicros.value.
  intros H. destruct (is_i64 _); [|done]. by apply checked_some in H.
Qed.
Lemma generation_ok z (g : AdmissionGeneration.t) :
  AdmissionGeneration.try_from z = Ok g -> AdmissionGeneration.value g = z.
Proof.
  unfold AdmissionGeneration.try_from, ok_or. destruct (checked z) eqn:E; [|done].
  intros [= <-]. by apply checked_some in E.
Qed.
Lemma generation_increment (g g' : AdmissionGeneration.t) :
  AdmissionGeneration.increment g = Ok g' ->
  AdmissionGeneration.value g' = AdmissionGeneration.value g + 1.
Proof.
  unfold AdmissionGeneration.increment, ok_or, checked_add_i64, checked_i64,
    AdmissionGeneration.value. intros H.
  destruct (is_i64 _); [|done]. destruct (checked _) as [x|] eqn:E; [|done].
  apply checked_some in E. by injection H as <-.
Qed.
Lemma or_reject_ok {A E} (r : result A E) (e : Rejection.t) a :
  map_err (fun _ => e) r = Ok a -> r = Ok a.
Proof. by destruct r; cbn; intros [=]; subst. Qed.

(** The stored cycle, and what [cycle_row] makes of it. *)
Definition at_cycle (db : Database.t) (id : OperatingCycleId) (cycle : CycleRow.t) : Prop :=
  exists row, rows (Database.operating_cycles db) !! Identifier.value id = Some row
    /\ cycle_is row (CycleRow.state cycle, AdmissionGeneration.value (CycleRow.generation cycle)).

Lemma cycle_row_ok id db cycle db' :
  yields (cycle_row id) db cycle db' -> db' = db /\ at_cycle db id cycle.
Proof.
  unfold cycle_row. intros H. yields_inv. split; [done|].
  eexists. split; [done|]. split; cbn.
  - by match goal with H : operating_cycle_state_from_i64 _ = _ |- _ =>
      apply table_sound in H; rewrite H end.
  - by match goal with H : AdmissionGeneration.try_from _ = _ |- _ => apply generation_ok in H end.
Qed.

Lemma cycle_for_generation_ok id expected db cycle db' :
  yields (cycle_for_generation id expected) db cycle db' ->
  db' = db /\ at_cycle db id cycle /\ expected = ExpectedGeneration.Exact (CycleRow.generation cycle).
Proof.
  unfold cycle_for_generation. intros H. yields_inv. apply cycle_row_ok in Hy as [-> Hc].
  destruct expected as [|g]; [yields_inv|]. destruct (decide _) as [Heq|]; yields_inv.
  split_and!; [done|done|]. by f_equal.
Qed.

Lemma at_cycle_live db id cycle :
  at_cycle db id cycle -> OperatingCycleState.is_nonterminal (CycleRow.state cycle) = true ->
  live_cycle (core db) (Identifier.value id).
Proof.
  intros (row & Hrow & His) Hn. exists row. split; [done|].
  rewrite (terminal_cycle_code _ _ His). cbn [fst]. by rewrite Hn.
Qed.

(** ** Holding budget *)

Lemma budget_amounts_ok id db amounts db' :
  yields (budget_amounts id) db amounts db' ->
  db' = db /\ exists e, rows (Database.budget_envelopes db) !! Identifier.value id = Some e
    /\ UsdMicros.value amounts.1.1 = BudgetEnvelopes.ceiling_micros e
    /\ UsdMicros.value amounts.1.2 = BudgetEnvelopes.reserved_micros e
    /\ UsdMicros.value amounts.2 = BudgetEnvelopes.spent_micros e.
Proof.
  unfold budget_amounts. intros H. yields_inv. split; [done|]. eexists. split; [done|].
  cbn. split_and!; by apply usd_ok.
Qed.

Lemma envelope_admits_ok amount id db u db' :
  yields (envelope_admits amount id) db u db' ->
  db' = db /\ exists e, rows (Database.budget_envelopes db) !! Identifier.value id = Some e
    /\ BudgetEnvelopes.reserved_micros e + UsdMicros.value amount
       + BudgetEnvelopes.spent_micros e <= BudgetEnvelopes.ceiling_micros e.
Proof.
  unfold envelope_admits. intros H. yields_inv.
  apply budget_amounts_ok in Hy as (-> & e & He & H1 & H2 & H3). cbn in H1, H2, H3.
  yields_inv. split; [done|]. exists e. split; [done|].
  apply usd_add in Hv.
  destruct (UsdMicros.checked_add _ _) as [v|] eqn:Ev; [|done].
  apply usd_add in Ev. bool_hyps. lia.
Qed.

(** The database after an envelope is charged. *)
Definition charged_core (c : Core.t) (k : Z) (x : BudgetReservationCharges.t)
  (e : BudgetEnvelopes.t) : Core.t :=
  c <| Core.envelopes :=
         <[BudgetReservationCharges.budget_envelope_id x :=
             e <| BudgetEnvelopes.reserved_micros :=
                    BudgetEnvelopes.reserved_micros e
                    + BudgetReservationCharges.amount_micros x |>]> (Core.envelopes c) |>
    <| Core.charges := <[k := x]> (Core.charges c) |>.

Lemma charge_envelope_ok reservation amount id db u db' e :
  yields (charge_envelope reservation amount id) db u db' ->
  rows (Database.budget_envelopes db) !! Identifier.value id = Some e ->
  let x := BudgetReservationCharges.new (Identifier.value reservation) (Identifier.value id)
             (UsdMicros.value amount) in
  exists k, rows (Database.budget_reservation_charges db) !! k = None
    /\ map_Forall (fun _ o =>
         BudgetReservationCharges.budget_reservation_id o = Identifier.value reservation ->
         BudgetReservationCharges.budget_envelope_id o <> Identifier.value id)
         (rows (Database.budget_reservation_charges db))
    /\ core db' = charged_core (core db) k x e.
Proof.
  unfold charge_envelope. intros H He. yields_inv.
  apply yields_update in Hy as (t & Ht & ->).
  apply yields_insert_row in Hy0 as (t' & Ht' & Hfresh & Hc & ->). cbn in Ht', Hfresh, Hc.
  apply sql_update_some in Ht as [[Hn _]|(r1 & r2 & H1 & H2 & _ & H3)]; [congruence|].
  rewrite H1 in He. apply (inj Some) in He as ->.
  unfold checked_i64 in H2. destruct (is_i64 _); [|done]. apply (inj Some) in H2 as <-.
  exists a0. split_and!; [done| |].
  - unfold constraints, BudgetReservationCharges.valid in Hc. bool_hyps.
    match goal with H : no_other _ _ = true |- _ => apply no_other_spec in H end.
    intros j o Ho Heq Heq'. specialize (H0 j o Ho). cbn in H0.
    by rewrite Heq, Heq', !Z.eqb_refl in H0.
  - unfold charged_core, core. cbn. by rewrite Ht', H3.
Qed.

(** One charge is a move. *)
Lemma charge_envelope_move reservation amount id db u db' e r :
  yields (charge_envelope reservation amount id) db u db' ->
  rows (Database.budget_envelopes db) !! Identifier.value id = Some e ->
  BudgetEnvelopes.reserved_micros e + UsdMicros.value amount
    + BudgetEnvelopes.spent_micros e <= BudgetEnvelopes.ceiling_micros e ->
  Core.reservations (core db) !! Identifier.value reservation = Some r ->
  reconciled r = false -> BudgetReservations.charged_micros r = 0 ->
  BudgetReservations.amount_micros r = UsdMicros.value amount ->
  move (core db) (core db').
Proof.
  intros H He Hroom Hr Hrec Hch Hamt.
  destruct (charge_envelope_ok _ _ _ _ _ _ _ H He) as (k & Hk & _ & ->).
  pose proof (usd_bounds amount) as [Hpos _]. by eapply MoveCharge.
Qed.

(** A reservation inserted, then its two charges. *)
Lemma hold_budget_moves command cycle id amount db reservation db' :
  live_cycle (core db) (Identifier.value id) ->
  yields (hold_budget command cycle id amount) db reservation db' ->
  moves (core db) (core db').
Proof.
  unfold hold_budget. intros Hlive H. yields_inv.
  same_after Hy. yields_inv. cbn [for_each] in Hy0. yields_inv.
  match goal with H : yields (envelope_admits amount b) _ _ _ |- _ =>
    apply envelope_admits_ok in H as (-> & e1 & He1 & Hroom1) end.
  match goal with H : yields (envelope_admits amount b0) _ _ _ |- _ =>
    apply envelope_admits_ok in H as (-> & e2 & He2 & Hroom2) end.
  match goal with H : yields (insert_into _ _ _) _ _ _ |- _ =>
    apply yields_insert_row in H as (t & Ht & Hfresh & _ & ->) end.
  match goal with H : yields (for_each _ _) _ _ _ |- _ => cbn [for_each] in H end. yields_inv.
  apply Identifier.try_from_ok in Hv. subst a0.
  pose proof (usd_bounds amount) as [Hpos _]. set (r := BudgetReservations.new _ _ _ _ _ _) in Ht.
  set (db2 := db <| Database.budget_reservations := t |>) in *.
  assert (move (core db) (core db2)) as Hreserve.
  { change (move (core db) ((core db) <| Core.reservations := rows t |>)). rewrite Ht.
    by apply MoveReserve. }
  assert (Core.reservations (core db2) !! Identifier.value a1 = Some r) as Hres.
  { change (rows t !! Identifier.value a1 = Some r). by rewrite Ht, lookup_insert_eq. }
  pose proof (charge_envelope_move _ _ _ _ _ _ _ _ Hy0 He1 Hroom1 Hres eq_refl eq_refl eq_refl)
    as Hfirst.
  destruct (charge_envelope_ok _ _ _ _ _ _ _ Hy0 He1) as (k1 & Hk1 & _ & Hc1).
  assert (Identifier.value b <> Identifier.value b0) as Hne.
  { intros Heq.
    assert (exists e, rows (Database.budget_envelopes db0) !! Identifier.value b0 = Some e)
      as [e He].
    { change (exists e, Core.envelopes (core db0) !! Identifier.value b0 = Some e). eexists.
      rewrite Hc1, <-Heq. cbn. apply lookup_insert_eq. }
    destruct (charge_envelope_ok _ _ _ _ _ _ _ Hy1 He) as (_ & _ & Hother & _).
    change (rows (Database.budget_reservation_charges db0)) with (Core.charges (core db0)) in Hother.
    rewrite Hc1 in Hother. by refine (Hother k1 _ (lookup_insert_eq _ _ _) eq_refl _). }
  apply rtc_l with (core db2); [done|]. apply rtc_l with (core db0); [done|]. apply rtc_once.
  refine (charge_envelope_move _ _ _ _ _ _ e2 r Hy1 _ Hroom2 _ eq_refl eq_refl eq_refl).
  - change (Core.envelopes (core db0) !! Identifier.value b0 = Some e2). rewrite Hc1.
    cbn. by rewrite lookup_insert_ne.
  - by rewrite Hc1.
Qed.

(** ** Settling a reservation *)

Definition list_sum {A} (f : A -> Z) (l : list A) : Z := foldr (fun a acc => f a + acc) 0 l.

Lemma list_sum_perm {A} (f : A -> Z) l l' : l ≡ₚ l' -> list_sum f l = list_sum f l'.
Proof. unfold list_sum. induction 1; cbn; lia. Qed.

Lemma list_sum_where {R} (f : R -> Z) (p : R -> bool) (t : table R) :
  list_sum (fun kr => f kr.2) (rows_where p t)
  = map_sum (fun _ r => if p r then f r else 0) (rows t).
Proof.
  unfold rows_where. rewrite map_sum_list. unfold list_sum.
  induction (map_to_list (rows t)) as [|[k r] l IH]; [done|]. cbn.
  destruct (p r); cbn; rewrite IH; lia.
Qed.

(** The envelopes after the charges of a list are settled. *)
Definition settled_list (l : list (Z * BudgetReservationCharges.t)) (delta : Z)
  (before after : gmap Z BudgetEnvelopes.t) : Prop :=
  forall k, after !! k = option_map (fun e =>
      e <| BudgetEnvelopes.reserved_micros :=
             BudgetEnvelopes.reserved_micros e
             - list_sum (fun kx => if BudgetReservationCharges.budget_envelope_id kx.2 =? k
                                   then BudgetReservationCharges.amount_micros kx.2 else 0) l |>
        <| BudgetEnvelopes.spent_micros :=
             BudgetEnvelopes.spent_micros e
             + delta * list_sum (fun kx =>
                 if BudgetReservationCharges.budget_envelope_id kx.2 =? k then 1 else 0) l |>)
    (before !! k).

Lemma settled_list_nil delta m : settled_list [] delta m m.
Proof.
  intros k. destruct (m !! k) as [[c r s b]|]; [|done]. cbn. do 2 f_equal; lia.
Qed.

Lemma settled_list_cons x l delta m1 m2 m3 :
  settled_list [x] delta m1 m2 -> settled_list l delta m2 m3 -> settled_list (x :: l) delta m1 m3.
Proof.
  intros H1 H2 k. rewrite H2, H1. destruct (m1 !! k) as [e|]; [|done].
  unfold list_sum. cbn -[Z.mul]. do 2 f_equal; ring.
Qed.

Lemma settle_charge_ok delta x db u db' :
  yields (settle_charge delta x) db u db' ->
  exists m, settled_list [x] delta (Core.envelopes (core db)) m
    /\ core db' = (core db) <| Core.envelopes := m |>.
Proof.
  unfold settle_charge. intros (t & Ht & ->)%yields_update. exists (rows t). split; [|done].
  intros k. change (Core.envelopes (core db)) with (rows (Database.budget_envelopes db)).
  apply sql_update_some in Ht as [[Hn ->]|(e & e' & He & Hf & _ & ->)].
  - destruct (decide (BudgetReservationCharges.budget_envelope_id x.2 = k)) as [<-|Hne].
    + by rewrite Hn.
    + cbn. rewrite (proj2 (Z.eqb_neq _ _)) by done.
      destruct (rows _ !! k) as [[c r s b]|]; [|done]. cbn. do 2 f_equal; lia.
  - unfold release_reserved, checked_i64 in Hf.
    destruct (is_i64 (_ - _)); [|done]. destruct (is_i64 _); [|done]. apply (inj Some) in Hf as <-.
    destruct (decide (BudgetReservationCharges.budget_envelope_id x.2 = k)) as [<-|Hne].
    + rewrite lookup_insert_eq, He. cbn. rewrite Z.eqb_refl. do 2 f_equal; lia.
    + rewrite lookup_insert_ne by done. cbn. rewrite (proj2 (Z.eqb_neq _ _)) by done.
      destruct (rows _ !! k) as [[c r s b]|]; [|done]. cbn. do 2 f_equal; lia.
Qed.

Lemma settle_charges_ok delta l db u db' :
  yields (for_each (settle_charge delta) l) db u db' ->
  exists m, settled_list l delta (Core.envelopes (core db)) m
    /\ core db' = (core db) <| Core.envelopes := m |>.
Proof.
  revert db. induction l as [|x l IH]; intros db H; cbn [for_each] in H; yields_inv.
  - eexists. split; [apply settled_list_nil|done].
  - destruct (settle_charge_ok _ _ _ _ _ Hy) as (m1 & H1 & Hc1).
    destruct (IH _ H) as (m2 & H2 & Hc2). rewrite Hc1 in H2, Hc2. exists m2.
    split; [by eapply settled_list_cons|done].
Qed.

(** Over the charges of a reservation. *)
Lemma settle_reservation_ok delta reservation db u db' :
  yields (for_each (settle_charge delta) (reservation_charges db reservation)) db u db' ->
  exists m, settled_envelopes (Core.charges (core db)) reservation delta
              (Core.envelopes (core db)) m
    /\ core db' = (core db) <| Core.envelopes := m |>.
Proof.
  intros (m & Hm & Hc)%settle_charges_ok. exists m. split; [|done]. intros k. rewrite Hm.
  unfold reservation_charges.
  assert (forall (f : BudgetReservationCharges.t -> Z) g,
    (forall j x, (if BudgetReservationCharges.budget_reservation_id x =? reservation
                  then f x else 0) = g j x) ->
    list_sum (fun kx => f kx.2)
      (order_by (fun kr => BudgetReservationCharges.budget_envelope_id kr.2)
         (rows_where (fun c => BudgetReservationCharges.budget_reservation_id c =? reservation)
            (Database.budget_reservation_charges db)))
    = map_sum g (Core.charges (core db))) as Hsum.
  { intros f g Hg. rewrite (list_sum_perm _ _ _ (order_by_perm _ _)), list_sum_where.
    apply map_sum_ext. intros j x _. apply Hg. }
  rewrite (Hsum (fun x => if BudgetReservationCharges.budget_envelope_id x =? k
                          then BudgetReservationCharges.amount_micros x else 0)
             (released_at reservation k)),
    (Hsum (fun x => if BudgetReservationCharges.budget_envelope_id x =? k then 1 else 0)
       (charges_at reservation k)); [done|..]; intros j x; unfold released_at, charges_at;
    destruct (_ =? k), (_ =? reservation); done.
Qed.

Lemma set_reconciled_ok command reservation charged e db u db' r :
  yields (set_reconciled command reservation charged e) db u db' ->
  Core.reservations (core db) !! reservation = Some r ->
  core db' = (core db) <| Core.reservations :=
    <[reservation := r <| BudgetReservations.reservation_state :=
                           BudgetReservationState.as_i64 BudgetReservationState.Reconciled |>
                       <| BudgetReservations.charged_micros := charged |>
                       <| BudgetReservations.reconciled_by_command_id := Some command |>]>
      (Core.reservations (core db)) |>.
Proof.
  intros H Hr. destruct (yields_update_row _ _ _ _ _ _ _ _ H Hr) as (t & Ht & ->).
  unfold core. cbn. by rewrite Ht.
Qed.

(** ** Cycles *)

Lemma live_at_cycle db id cycle :
  live_cycle (core db) (Identifier.value id) -> at_cycle db id cycle ->
  OperatingCycleState.is_nonterminal (CycleRow.state cycle) = true.
Proof.
  intros (r & Hr & Ht) (row & Hrow & His). cbn in Hr. rewrite Hrow in Hr.
  apply (inj Some) in Hr as ->. rewrite (terminal_cycle_code _ _ His) in Ht.
  by apply negb_false_iff in Ht.
Qed.

(** An update of the row of a cycle. *)
Lemma cycle_update_move db t id cycle row' y f :
  rows t = <[Identifier.value id := f]> (rows (Database.operating_cycles db)) ->
  row' = f -> at_cycle db id cycle -> cycle_is row' y ->
  cycle_step (CycleRow.state cycle, AdmissionGeneration.value (CycleRow.generation cycle)) y ->
  (y.1 = OperatingCycleState.Closed -> quiescent (core db) (Identifier.value id)) ->
  (y.1 = OperatingCycleState.Reconciling ->
   Core.reconciliations (core db) !! Identifier.value id = None) ->
  move (core db) (core (db <| Database.operating_cycles := t |>)).
Proof.
  intros Ht -> (row & Hrow & His) Hy Hs Hq Hr.
  change (move (core db) ((core db) <| Core.operating_cycles := rows t |>)). rewrite Ht.
  by eapply MoveCycle.
Qed.

Lemma transition_cycle_move command id state generation db u db' cycle :
  yields (transition_cycle command id state generation) db u db' ->
  at_cycle db id cycle ->
  cycle_step (CycleRow.state cycle, AdmissionGeneration.value (CycleRow.generation cycle))
    (state, AdmissionGeneration.value generation) ->
  (state = OperatingCycleState.Closed -> quiescent (core db) (Identifier.value id)) ->
  (state = OperatingCycleState.Reconciling ->
   Core.reconciliations (core db) !! Identifier.value id = None) ->
  move (core db) (core db').
Proof.
  intros H Hc Hs Hq Hr. destruct Hc as (row & Hrow & His).
  destruct (yields_update_row _ _ _ _ _ _ _ _ H Hrow) as (t & Ht & ->).
  refine (cycle_update_move _ _ _ _ _ _ _ Ht eq_refl _ _ Hs Hq Hr); [by exists row|done].
Qed.

Lemma set_cycle_state_move command id state e db u db' cycle :
  yields (set_cycle_state command id state e) db u db' ->
  at_cycle db id cycle ->
  cycle_step (CycleRow.state cycle, AdmissionGeneration.value (CycleRow.generation cycle))
    (state, AdmissionGeneration.value (CycleRow.generation cycle)) ->
  state <> OperatingCycleState.Closed -> state <> OperatingCycleState.Reconciling ->
  move (core db) (core db').
Proof.
  intros H Hc Hs Hq Hr. destruct Hc as (row & Hrow & His).
  destruct (yields_update_row _ _ _ _ _ _ _ _ H Hrow) as (t & Ht & ->).
  refine (cycle_update_move _ _ _ _ _ (_, _) _ Ht eq_refl _ _ Hs _ _); [by exists row| |done..].
  by destruct His.
Qed.

(** The cycle after the update. *)
Lemma transition_cycle_at command id state generation db u db' cycle :
  yields (transition_cycle command id state generation) db u db' -> at_cycle db id cycle ->
  exists row, Core.operating_cycles (core db') !! Identifier.value id = Some row
    /\ cycle_is row (state, AdmissionGeneration.value generation).
Proof.
  intros H (row & Hrow & _).
  destruct (yields_update_row _ _ _ _ _ _ _ _ H Hrow) as (t & Ht & ->).
  eexists. split; [|].
  { change (Core.operating_cycles _) with (rows t). rewrite Ht. apply lookup_insert_eq. }
  by split.
Qed.
Lemma set_cycle_state_at command id state e db u db' cycle :
  yields (set_cycle_state command id state e) db u db' -> at_cycle db id cycle ->
  exists row, Core.operating_cycles (core db') !! Identifier.value id = Some row
    /\ cycle_is row (state, AdmissionGeneration.value (CycleRow.generation cycle)).
Proof.
  intros H (row & Hrow & _ & Hg).
  destruct (yields_update_row _ _ _ _ _ _ _ _ H Hrow) as (t & Ht & ->).
  eexists. split; [|].
  { change (Core.operating_cycles _) with (rows t). rewrite Ht. apply lookup_insert_eq. }
  by split.
Qed.
Lemma row_live (c : Core.t) k row x :
  Core.operating_cycles c !! k = Some row -> cycle_is row x ->
  OperatingCycleState.is_nonterminal x.1 = true -> live_cycle c k.
Proof.
  intros Hrow Hx Hn. exists row. split; [done|]. by rewrite (terminal_cycle_code _ _ Hx), Hn.
Qed.

(** ** Freezing *)

Lemma freeze_cancellation_moves command id cycle db x db' :
  live_cycle (core db) (Identifier.value id) ->
  yields (freeze_cancellation command id cycle) db x db' -> moves (core db) (core db').
Proof.
  unfold freeze_cancellation. intros Hlive H. yields_inv. same_after Hy.
  destruct a; yields_inv; [apply rtc_refl|].
  apply yields_insert_row in Hy0 as (t & Ht & Hfresh & _ & ->). apply rtc_once.
  change (move (core db) ((core db) <| Core.cancellations := rows t |>)). rewrite Ht.
  by apply MoveCancellation.
Qed.

Lemma freeze_moves command reservation id amount reason db body db' r :
  inv (core db) ->
  yields (freeze_budget_admission command reservation id amount reason) db body db' ->
  Core.reservations (core db) !! Identifier.value reservation = Some r ->
  reconciled r = false -> BudgetReservations.operating_cycle_id r = Identifier.value id ->
  moves (core db) (core db').
Proof.
  unfold freeze_budget_admission. intros Hi H Hr Hrec Hcyc. yields_inv.
  destruct (yields_update_row _ _ _ _ _ _ _ _ Hy Hr) as (res & Hres & ->). cbn in Hres.
  set (frozen := db <| Database.budget_reservations := res |>) in *.
  match goal with H : yields (cycle_row id) _ _ _ |- _ => apply cycle_row_ok in H as [-> Hat] end.
  assert (move (core db) (core frozen)) as Hm1.
  { change (move (core db) ((core db) <| Core.reservations := rows res |>)). rewrite Hres.
    by apply MoveFreeze. }
  set (r1 := r <| BudgetReservations.reservation_state :=
    BudgetReservationState.as_i64 BudgetReservationState.Frozen |>) in Hres.
  assert (Core.reservations (core frozen) !! Identifier.value reservation = Some r1) as Hr1.
  { change (rows res !! Identifier.value reservation = Some r1).
    by rewrite Hres, lookup_insert_eq. }
  assert (forall d, inv (core d) ->
    Core.reservations (core d) = Core.reservations (core frozen) ->
    live_cycle (core d) (Identifier.value id)) as Hlive.
  { intros d Hi2 Heq. rewrite <-Hcyc. rewrite <-Heq in Hr1.
    by apply (reservation_pending _ Hi2 _ _ Hr1). }
  pose proof (move_inv _ _ Hm1 Hi) as Hi1.
  match goal with H : yields (transition_cycle _ _ _ _) _ _ _ |- _ =>
    rename H into Ht end.
  eapply transition_cycle_move in Ht as Hm2; [|done| |done|done].
  2: { rewrite (generation_increment _ _ Hv). apply StepFreeze.
       eapply live_at_cycle; [|done]. by apply Hlive. }
  pose proof (move_inv _ _ Hm2 Hi1) as Hi2.
  match goal with H : yields (freeze_cancellation _ _ _) _ _ _ |- _ =>
    apply freeze_cancellation_moves in H end.
  2: { apply Hlive; [done|].
       assert (keeps (fun d => Core.reservations (core d))
         (transition_cycle command id OperatingCycleState.Cancelling a1)) as Hk by solve_keeps.
       exact (Hk _ _ _ Ht). }
  apply rtc_l with (core frozen); [done|]. eapply rtc_l; [done|]. etrans; [done|].
  match goal with H : yields (insert_into _ _ _) _ _ _ |- _ =>
    apply yields_insert_row in H as (t' & Ht' & _ & _ & ->) end.
  apply rtc_once. apply MovePostmortem.
Qed.

(** ** Reconciling *)

(** The charges settled, then the reservation: one move. *)
Lemma settle_move command reservation delta total e db u1 db1 u2 db2 r :
  yields (for_each (settle_charge delta) (reservation_charges db reservation)) db u1 db1 ->
  yields (set_reconciled command reservation total e) db1 u2 db2 ->
  Core.reservations (core db) !! reservation = Some r -> reconciled r = false ->
  0 <= delta -> total = BudgetReservations.charged_micros r + delta ->
  move (core db) (core db2).
Proof.
  intros (m & Hm & Hc1)%settle_reservation_ok H2 Hr Hrec Hd ->.
  eapply set_reconciled_ok in H2; [|by rewrite Hc1]. rewrite H2, Hc1.
  exact (MoveSettle (core db) reservation r delta (Some command) m Hr Hrec Hd Hm).
Qed.

Lemma reserved_not_reconciled r :
  (BudgetReservations.reservation_state r
   =? BudgetReservationState.as_i64 BudgetReservationState.Reserved) = true ->
  reconciled r = false.
Proof. unfold reconciled. intros ->%Z.eqb_eq. done. Qed.
Lemma frozen_not_reconciled r :
  (BudgetReservations.reservation_state r
   =? BudgetReservationState.as_i64 BudgetReservationState.Frozen) = true ->
  reconciled r = false.
Proof. unfold reconciled. intros ->%Z.eqb_eq. done. Qed.

(** The facts behind validated columns. *)
Ltac row_facts :=
  repeat match goal with
  | H : UsdMicros.try_from _ = Ok _ |- _ => apply usd_ok in H
  | H : Identifier.try_from _ = Ok _ |- _ => apply Identifier.try_from_ok in H
  | H : UsdMicros.checked_sub _ _ = Some _ |- _ => apply usd_sub in H
  | H : UsdMicros.checked_add _ _ = Some _ |- _ => apply usd_add in H
  | H : AdmissionGeneration.increment _ = Ok _ |- _ => apply generation_increment in H
  | H : (BudgetReservations.reservation_state _ =? _) = true |- _ =>
      first [apply reserved_not_reconciled in H | apply frozen_not_reconciled in H]
  end.

Lemma reconcile_budget_moves command reservation observation db body db' :
  inv (core db) -> yields (reconcile_budget command reservation observation) db body db' ->
  moves (core db) (core db').
Proof.
  unfold reconcile_budget. intros Hi H. yields_inv.
  match goal with H : rows (Database.budget_reservations db) !! _ = Some ?row |- _ =>
    rename H into Hr, row into r end.
  match goal with H : Identifier.try_from _ = Ok ?i |- _ => rename i into id end.
  assert (forall amount reason d b,
    yields (freeze_budget_admission command reservation id amount reason) db b d ->
    moves (core db) (core d)) as Hfreeze.
  { row_facts. intros amount reason d b Hf. by eapply freeze_moves. }
  destruct observation; [|by eapply Hfreeze..]. yields_inv.
  destruct (_ <? _) in H; [by eapply Hfreeze|].
  unfold reconcile_within_reservation in H. yields_inv. row_facts. bool_hyps.
  apply rtc_once. eapply settle_move; [done|done|exact Hr|done|lia|lia].
Qed.

(** ** Cancellation *)

Lemma request_cancellation_moves command expected id mode db body db' :
  inv (core db) -> yields (request_cancellation command expected id mode) db body db' ->
  moves (core db) (core db').
Proof.
  unfold request_cancellation. intros Hi H. yields_inv.
  apply cycle_for_generation_ok in Hy as (-> & Hat & _). row_facts. bool_hyps.
  match goal with H : yields (transition_cycle _ _ _ _) _ _ _ |- _ => rename H into Ht end.
  destruct (transition_cycle_at _ _ _ _ _ _ _ _ Ht Hat) as (row & Hrow & His).
  eapply transition_cycle_move in Ht as Hm; [|done| |by destruct mode|by destruct mode].
  - match goal with H : yields (insert_into _ _ _) _ _ _ |- _ =>
      apply yields_insert_row in H as (t & Hins & Hfresh & _ & ->) end.
    eapply rtc_l; [done|]. apply rtc_once.
    change (move (core db3) ((core db3) <| Core.cancellations := rows t |>)). rewrite Hins.
    apply MoveCancellation; [done|]. eapply row_live; [done|done|by destruct mode].
  - rewrite Hv. apply StepCancel; [|by destruct mode; set_solver].
    destruct (CycleRow.state a); (done || set_solver).
Qed.

Lemma reconcile_cancellation_moves command id db body db' :
  yields (reconcile_cancellation command id) db body db' -> moves (core db) (core db').
Proof.
  unfold reconcile_cancellation. intros H. yields_inv.
  match goal with H : yields (cycle_row _) _ _ _ |- _ => apply cycle_row_ok in H as [-> Hat] end.
  match goal with H : yields (active_office_turn_count _) _ _ _ |- _ => same_after H end.
  match goal with H : yields (live_office_session_count _) _ _ _ |- _ => same_after H end.
  match goal with H : rows (Database.cancellation_requests _) !! _ = Some _ |- _ => rename H into Hx end.
  match goal with H : yields (update_row _ _ _ _) _ _ _ |- _ =>
    destruct (yields_update_row _ _ _ _ _ _ _ _ H Hx) as (t & Ht & ->) end.
  bool_hyps.
  match goal with H : yields (transition_cycle _ _ _ _) _ _ _ |- _ =>
    eapply transition_cycle_move in H; [|exact Hat| |done|done] end.
  - eapply rtc_l; [|by apply rtc_once].
    match goal with |- move (core ?d) _ =>
      change (move (core d) ((core d) <| Core.cancellations := rows t |>)) end.
    rewrite Ht. by eapply MoveCancelled.
  - match goal with H : CycleRow.state _ = _ |- _ => rewrite H end. apply StepCancelled.
Qed.

(** ** Cost postmortems *)

(** Names the hypothesis of the transition [m]. *)
Tactic Notation "named" constr(m) "as" ident(N) :=
  match goal with
  | H : yields ?t _ _ _ |- _ => let h := head_of t in constr_eq h m; rename H into N
  end.
(** [core] after a table of it is replaced. *)
Tactic Notation "core_set" constr(proj) :=
  match goal with
  | Ht : rows ?t = _ |- move (core ?d) _ =>
      change (move (core d) ((core d) <| proj := rows t |>)); rewrite Ht
  end.

Lemma settle_postmortem_moves command postmortem reservation id resolution before charged db
  body db' r :
  yields (settle_postmortem command postmortem reservation id resolution before charged) db body
    db' ->
  Core.reservations (core db) !! Identifier.value reservation = Some r -> reconciled r = false ->
  BudgetReservations.charged_micros r = UsdMicros.value before ->
  moves (core db) (core db').
Proof.
  unfold settle_postmortem. intros H Hr Hrec Hch. yields_inv. row_facts.
  named @for_each as Hloop. named set_reconciled as Hset.
  named @update_row as Hpm. named @insert_with_key as Hres.
  pose proof (usd_bounds charged) as [Hpos _].
  eapply rtc_l; [eapply settle_move; [exact Hloop|exact Hset|exact Hr|done|done|lia]|].
  apply yields_update in Hpm as (t & _ & ->).
  apply yields_insert_at in Hres as (t' & _ & _ & ->).
  match goal with |- rtc _ (core ?d) _ =>
    apply rtc_l with (core (d <| Database.cost_postmortems := t |>)) end; [apply MovePostmortem|].
  apply rtc_once. apply MoveResolution.
Qed.

Lemma close_cost_postmortem_moves command expected id resolution db body db' :
  yields (close_cost_postmortem command expected id resolution) db body db' ->
  moves (core db) (core db').
Proof.
  unfold close_cost_postmortem. intros H. yields_inv.
  named cycle_for_generation as Hcycle. apply cycle_for_generation_ok in Hcycle as (-> & _ & _).
  match goal with H : yields (if _ then _ else _) _ _ _ |- _ => same_after H end.
  match goal with H : rows (Database.budget_reservations _) !! _ = Some ?row |- _ =>
    rename H into Hr, row into r end.
  row_facts. by eapply settle_postmortem_moves.
Qed.

(** ** The lifecycle of a cycle *)

Lemma in_states states cycle :
  cycle_in states cycle = true -> CycleRow.state cycle ∈ states.
Proof. unfold cycle_in. intros H. by bool_hyps. Qed.

(** A new envelope, and its constraint. *)
Lemma create_budget_envelope_move command ceiling db id db' :
  inv (core db) -> yields (create_budget_envelope command ceiling) db id db' ->
  move (core db) (core db').
Proof.
  unfold create_budget_envelope. intros Hi H. yields_inv.
  match goal with H : yields (insert_into _ _ _) _ _ _ |- _ =>
    apply yields_insert_row in H as (t & Ht & Hfresh & _ & ->) end.
  core_set Core.envelopes. apply MoveEnvelope; [done| |apply usd_bounds|done|done].
  intros j x Hj Heq. destruct (charge_consistent _ Hi j x Hj) as (_ & e & _ & He & _).
  rewrite Heq in He. cbn in He. congruence.
Qed.
Lemma insert_constraint_move r e db id db' :
  yields (insert_into Database.budget_envelope_constraints r e) db id db' ->
  move (core db) (core db').
Proof. intros (t & _ & _ & _ & ->)%yields_insert_row. apply MoveConstraint. Qed.

Lemma bootstrap_society_moves command db body db' :
  inv (core db) -> yields (bootstrap_society command) db body db' -> moves (core db) (core db').
Proof.
  unfold bootstrap_society. intros Hi H. yields_inv.
  named only_society_id as H1. same_after H1.
  match goal with H : yields (exists_rows _ _) _ _ _ |- _ => same_after H end.
  named active_founding_mission_id as H2. same_after H2.
  named root_authority_office_id as H3. same_after H3.
  named active_root_authority_occupancy_id as H4. same_after H4.
  named hard_ceiling_from_event_body as H5. same_after H5.
  named @insert_with_key as H6. apply yields_insert_at in H6 as (t & _ & _ & ->).
  named @update_row as H7. apply yields_update in H7 as (t' & _ & ->).
  match goal with H : yields (create_budget_envelope _ _) ?d _ _ |- _ =>
    assert (move (core db) (core d)) as Hm by apply MoveBootstrap;
    apply create_budget_envelope_move in H; [|by eapply move_inv] end.
  eapply rtc_l; [exact Hm|]. eapply rtc_l; [done|]. apply rtc_once.
  by eapply insert_constraint_move.
Qed.

Lemma propose_operating_cycle_moves command treatment ceiling db body db' :
  inv (core db) ->
  yields (propose_operating_cycle command treatment ceiling) db body db' ->
  moves (core db) (core db').
Proof.
  unfold propose_operating_cycle. intros Hi H.
  apply yields_bind in H as (c & db1 & Hb & H). same_after Hb. yields_inv.
  match goal with H : yields (exists_rows _ _) _ _ _ |- _ => unfold exists_rows in H end.
  yields_inv. apply negb_true_iff in Hc.
  match goal with H : yields (insert_into Database.operating_cycles _ _) _ _ _ |- _ =>
    apply yields_insert_row in H as (t' & Ht & Hfresh & _ & ->) end.
  match goal with H : yields (create_budget_envelope _ _) ?d _ _ |- _ =>
    assert (move (core db) (core d)) as Hm end.
  { core_set Core.operating_cycles. apply MovePropose; [|done|done].
    intros k r Hk. unfold is_terminal_cycle. apply negb_false_iff.
    by apply (proj1 (exists_where_false _ _) Hc k r). }
  match goal with H : yields (create_budget_envelope _ _) ?d _ _ |- _ =>
    apply create_budget_envelope_move in H; [|by eapply move_inv] end.
  eapply rtc_l; [exact Hm|]. eapply rtc_l; [done|]. apply rtc_once.
  by eapply insert_constraint_move.
Qed.
