(* ===== verification/StoreLedgerSpec.v ===== *)
(** * The contract of the ledger

    What [execute] does to a database: a command is recorded once, a rejected one changes
    nothing else, an accepted one passed the gate and changed [core] by its transition
    only; the events are numbered without gaps. *)

From S2P Require Import Prelude.
From S2P Require Import Machine.
From S2P Require Import Hash.
From S2P Require Import KernelScalars.
From S2P Require Import KernelEnums.
From S2P Require Import KernelCustody.
From S2P Require Import KernelCommands.
From S2P Require Import KernelCodes.
From S2P Require Import Fingerprint.
From S2P Require Import SqlTable.
From S2P Require Import StoreTables.
From S2P Require Import StoreQueries.
From S2P Require Import StoreLedger.
From S2P Require Import StoreLogic.
From S2P Require Import StoreFrame.

(** ** Inversion of the ledger monad *)

Lemma or_failed_ok {A} (r : result A StoreError.t) db b db' :
  or_failed r db = (Ok b, db') -> r = Ok b /\ db' = db.
Proof. destruct r; [by intros [= -> ->]|done]. Qed.

Lemma ledger_read_ok {A} (f : Database.t -> A) db b db' :
  ledger_read f db = (Ok b, db') -> b = f db /\ db' = db.
Proof. by intros [= <- <-]. Qed.

Lemma attempt_ok {A} (m : store A) db r db' : attempt m db = (Ok r, db') -> m db = (r, db').
Proof. unfold attempt. destruct (m db). by intros [= -> ->]. Qed.

(** Splits a successful ledger computation. *)
Ltac ledger_inv :=
  repeat match goal with
  | H : m_bind _ _ _ = (Ok _, _) |- _ =>
      let a := fresh "a" in let db := fresh "db" in let H1 := fresh "H" in
      apply bind_ok in H as (a & db & H1 & H)
  | H : ledger_read _ _ = (Ok _, _) |- _ => apply ledger_read_ok in H as [? ?]; subst
  | H : or_failed _ _ = (Ok _, _) |- _ => apply or_failed_ok in H as [? ?]; subst
  | H : m_ret _ _ = (Ok _, _) |- _ => apply ret_ok in H as [? ?]; subst
  | H : m_lift _ _ = (Ok _, _) |- _ => apply lift_ok in H as [? ?]; subst
  | H : m_get _ = (Ok _, _) |- _ => apply get_ok in H as [? ?]; subst
  end.

(** ** The gate *)

(** The gate only reads. *)
Lemma check_jurisdiction_reads request g o a db u db' :
  check_jurisdiction request g o a db = (Ok u, db') -> db' = db.
Proof.
  assert (keeps (fun db => db) (check_jurisdiction request g o a)) as Hk; [|apply Hk].
  solve_keeps.
Qed.

Lemma capability_grant_ok p c g db l db' :
  capability_grant p c g db = (Ok l, db') ->
  db' = db /\ forall id o a, l = Some (CapabilityGrantLookup.Active id o a) ->
    id = Identifier.value g
    /\ exists r, rows (Database.capability_grants db) !! Identifier.value g = Some r
         /\ CapabilityGrants.principal_id r = Identifier.value p
         /\ CapabilityGrants.capability_kind r = Capability.as_i64 c
         /\ CapabilityGrants.grant_state r = 1.
Proof.
  unfold capability_grant, stored_identifier. intros H. ledger_inv.
  destruct (rows _ !! _) as [r|] eqn:Er; [|ledger_inv; by split].
  destruct (_ && _) eqn:E1; [|ledger_inv; by split]. bool_hyps.
  destruct (_ =? 1) eqn:E2; ledger_inv; [|by split].
  apply Z.eqb_eq in E2. split; [done|]. intros id o a' [= <- <- <-].
  split; [done|]. by exists r.
Qed.

Lemma fence_reads p body db b db' :
  qualification_treatment_fences_request p body db = (Ok b, db') -> db' = db.
Proof.
  unfold qualification_treatment_fences_request, command_operating_cycle_for_treatment,
    stored_identifier.
  intros H.
  destruct body; try (destruct treatment); cbn [direct_cycle] in H;
    repeat (ledger_inv; try done; case_match); done.
Qed.

(** What a request that is accepted has shown, in the database that records it. *)
Record admitted (request : CommandRequest.t) (db : Database.t) : Prop := {
  admitted_capability :
    CommandRequest.capability request
    = CommandBody.required_capability (CommandRequest.body request);
  admitted_generation :
    needs_exact_generation (CommandRequest.body request)
    = is_exact (CommandRequest.expected_generation request);
  admitted_grant : exists grant,
    rows (Database.capability_grants db)
      !! Identifier.value (CommandRequest.capability_grant_id request) = Some grant
    /\ CapabilityGrants.principal_id grant
       = Identifier.value (CommandRequest.principal_id request)
    /\ CapabilityGrants.capability_kind grant
       = Capability.as_i64 (CommandRequest.capability request)
    /\ CapabilityGrants.grant_state grant = 1;
  admitted_jurisdiction : exists grant_id office instance,
    yields (check_jurisdiction request grant_id office instance) db () db;
  admitted_fence :
    qualification_treatment_fences_request (CommandRequest.principal_id request)
      (CommandRequest.body request) db = (Ok false, db);
}.

(** The ledger's own tables, which no transition writes. *)
Definition records (db : Database.t) :=
  (Database.commands db, Database.command_bodies db, Database.events db,
   Database.event_bodies db).

Section Execute.
Context {hash : Blake3}.
Variable unmodelled : Z -> CommandRequest.t -> store EventBody.t.
Implicit Types (db : Database.t) (request : CommandRequest.t).

Lemma consume_grant_keeps id g db u db' :
  consume_grant id g db = (Ok u, db') -> core db' = core db /\ records db' = records db.
Proof. unfold consume_grant. intros H. repeat case_match; simplify_eq; done. Qed.

(** An accepted transition: the gate, then the dispatch, then the consumption. *)
Lemma apply_command_ok id request db body db' :
  apply_command unmodelled id request db = (Ok (Ok body), db') ->
  admitted request db
  /\ exists db1, yields (dispatch unmodelled id request) db body db1
       /\ core db' = core db1 /\ records db' = records db1.
Proof.
  unfold apply_command. intros H.
  destruct (negb (bool_decide _)) eqn:Ec; [by ledger_inv|].
  destruct (negb (Bool.eqb _ _)) eqn:Eg; [by ledger_inv|]. bool_hyps.
  apply eqb_prop in Eg. ledger_inv.
  apply capability_grant_ok in H0 as [-> Hgrant].
  destruct a as [[g o i|]|]; [|by ledger_inv|by ledger_inv].
  destruct (Hgrant _ _ _ eq_refl) as [-> (r & Hr)]. ledger_inv.
  apply attempt_ok in H0. destruct a as [[]|e]; [|by ledger_inv].
  pose proof (check_jurisdiction_reads _ _ _ _ _ _ _ H0) as ->. ledger_inv.
  pose proof (fence_reads _ _ _ _ _ H1) as ->. destruct a; [by ledger_inv|].
  split; [constructor; eauto|]. unfold run_transition in H. ledger_inv.
  apply attempt_ok in H2. exists db0. split; [done|].
  destruct (_ && _) in H3; cbn [m_when] in H3; [|by ledger_inv].
  by apply consume_grant_keeps in H3.
Qed.

Lemma insert_event_ok id cid body db eid db' :
  insert_event id cid body db = (Ok eid, db') ->
  core db' = core db
  /\ Database.commands db' = Database.commands db
  /\ Database.command_bodies db' = Database.command_bodies db
  /\ Database.event_bodies db'
      = <[Identifier.value eid := body]> (Database.event_bodies db)
  /\ Identifier.value eid = next_event_id db
  /\ exists fingerprint, event_fingerprint eid cid body = Some fingerprint
      /\ rows (Database.events db) !! Identifier.value eid = None
      /\ rows (Database.events db')
         = <[Identifier.value eid :=
               Events.new id (EventKind.as_i64 (EventBody.kind body))
                 (next_event_sequence db) (Blake3Digest.as_bytes fingerprint)]>
             (rows (Database.events db)).
Proof.
  unfold insert_event, checked_i64, ok_or. intros H. ledger_inv.
  repeat (ledger_inv || case_match); simplify_eq. ledger_inv.
  destruct (Identifier.try_from _) as [e|] eqn:E3; [|done]. cbn in *. simplify_eq.
  apply Identifier.try_from_ok in E3.
  match goal with H : sql_insert_key _ _ _ = Some _ |- _ =>
    apply sql_insert_key_some in H as (Hn & _ & Hr) end.
  split_and!; try done. eexists. split_and!; try done.
Qed.

(** ** What an execution that commits did *)

(** The database that records the command as rejected, before it is applied. *)
Definition inserted (id : Z) (t : table Commands.t) request db : Database.t :=
  db <| Database.commands := t |>
     <| Database.command_bodies :=
          <[id := CommandRequest.body request]> (Database.command_bodies db) |>.

(** The recorded command, settled. *)
Definition accepted_row request (event_id : EventId) : Commands.t :=
  (placeholder request (request_fingerprint request))
    <| Commands.command_status := 1 |> <| Commands.rejection_code := None |>
    <| Commands.accepted_event_id := Some (Identifier.value event_id) |>.
Definition rejected_row request (rejection : Rejection.t) : Commands.t :=
  (placeholder request (request_fingerprint request))
    <| Commands.rejection_code := Some (Rejection.as_i64 rejection) |>.

(** Everything but the commands and the sequences. *)
Definition material db : Database.t :=
  (Database.rollback_to db Database.empty)
    <| Database.commands := empty_table |> <| Database.command_bodies := ∅ |>.

(** The three ways [execute] commits. *)
Inductive executed request db : CommandReceipt.t -> Database.t -> Prop :=
| Replayed command receipt :
    command_recorded db (CommandRequest.command_id request) = Some command ->
    Commands.request_fingerprint command
      = Blake3Digest.as_bytes (request_fingerprint request) ->
    recorded_receipt command = Ok receipt ->
    executed request db receipt db
| Refused id t db2 rejection db' :
    command_recorded db (CommandRequest.command_id request) = None ->
    sql_insert (placeholder request (request_fingerprint request)) (Database.commands db)
      = (Some id, t) ->
    apply_command unmodelled id request (inserted id t request db) = (Ok (Err rejection), db2) ->
    material db' = material db ->
    rows (Database.commands db')
      = <[id := rejected_row request rejection]> (rows (Database.commands db)) ->
    Database.command_bodies db'
      = <[id := CommandRequest.body request]> (Database.command_bodies db) ->
    executed request db (CommandReceipt.new (CommandDisposition.Rejected rejection) false) db'
| Performed id t db1 body db2 event_id db3 fingerprint db' :
    command_recorded db (CommandRequest.command_id request) = None ->
    sql_insert (placeholder request (request_fingerprint request)) (Database.commands db)
      = (Some id, t) ->
    inserted id t request db = db1 ->
    admitted request db1 ->
    yields (dispatch unmodelled id request) db1 body db2 ->
    core db' = core db2 -> records db3 = records db2 ->
    event_fingerprint event_id (CommandRequest.command_id request) body = Some fingerprint ->
    Identifier.value event_id = next_event_id db3 ->
    rows (Database.events db2) !! Identifier.value event_id = None ->
    rows (Database.events db')
      = <[Identifier.value event_id :=
            Events.new id (EventKind.as_i64 (EventBody.kind body)) (next_event_sequence db3)
              (Blake3Digest.as_bytes fingerprint)]> (rows (Database.events db2)) ->
    Database.event_bodies db'
      = <[Identifier.value event_id := body]> (Database.event_bodies db2) ->
    (records db2 = records db1 ->
     rows (Database.commands db')
       = <[id := accepted_row request event_id]> (rows (Database.commands db))
     /\ Database.command_bodies db'
        = <[id := CommandRequest.body request]> (Database.command_bodies db)) ->
    executed request db (CommandReceipt.new (CommandDisposition.Accepted event_id) false) db'.

Lemma update_command_ok id f db u db' :
  update_command id f db = (Ok u, db') ->
  exists t, sql_update id (fun r => Some (f r)) (Database.commands db) = Some t
    /\ db' = db <| Database.commands := t |>.
Proof.
  unfold update_command. intros H. destruct (sql_update _ _ _) as [t|]; [|done].
  exists t. split; [done|]. by injection H.
Qed.

(** The update of a row that is there. *)
Lemma sql_update_at {R} `{!Constraints R} id f (t t' : table R) r :
  sql_update id (fun r => Some (f r)) t = Some t' -> rows t !! id = Some r ->
  rows t' = <[id := f r]> (rows t).
Proof.
  intros [[H _]|(r1 & r2 & Hr1 & Hr2 & _ & Hrows)]%sql_update_some Hr; [by rewrite Hr in H|].
  rewrite Hrows. rewrite Hr1 in Hr. apply (inj Some) in Hr as <-. by apply (inj Some) in Hr2 as <-.
Qed.

Lemma insert_command_ok request fingerprint db id db' :
  insert_command request fingerprint db = (Ok id, db') ->
  exists t, sql_insert (placeholder request fingerprint) (Database.commands db) = (Some id, t)
    /\ db' = inserted id t request db.
Proof.
  unfold insert_command, inserted. destruct (sql_insert _ _) as [[i|] t]; [|done].
  intros H. injection H as -> <-. by exists t.
Qed.

Lemma execute_ok request db receipt db' :
  execute unmodelled request db = (Ok receipt, db') -> executed request db receipt db'.
Proof.
  unfold execute. destruct (execute_in_transaction _ _ _) as [[r|] d] eqn:H; [|done].
  intros [= <- <-]. revert H. unfold execute_in_transaction. intros H. ledger_inv.
  destruct (command_recorded _ _) as [command|] eqn:Er.
  { case_bool_decide as Hf; [|done]. ledger_inv. by eapply Replayed. }
  ledger_inv. apply insert_command_ok in H0 as (t & Hi & ->).
  pose proof (sql_insert_some _ _ _ _ Hi) as (_ & _ & _ & _ & Ht).
  unfold settle_command in H. ledger_inv.
  destruct a1 as [body|rejection].
  - apply apply_command_ok in H1 as (Hadm & db4 & Hy & Hcore & Hrec). ledger_inv.
    pose proof (insert_event_ok _ _ _ _ _ _ H0)
      as (Hcore' & Hcom & Hbod & Hebod & Hid & fp & Hfp & Hfresh & Hev).
    apply update_command_ok in H1 as (t' & Hu & ->).
    injection Hrec as Hr1 Hr2 Hr3 Hr4.
    eapply (Performed _ _ a t _ _ db4 _ db1 fp); try done.
    + change (core db0 = core db4). congruence.
    + unfold records. congruence.
    + by rewrite <-Hr3.
    + etransitivity; [exact Hev|]. by rewrite Hr3.
    + etransitivity; [exact Hebod|]. by rewrite Hr4.
    + intros Hsame. injection Hsame as Hs1 Hs2 Hs3 Hs4.
      split.
      * rewrite Hcom, Hr1, Hs1 in Hu.
        change (sql_update a (fun r => Some (r <| Commands.command_status := 1 |>
          <| Commands.rejection_code := None |>
          <| Commands.accepted_event_id := Some (Identifier.value a0) |>)) t = Some t') in Hu.
        eapply sql_update_at in Hu; [|rewrite Ht; apply lookup_insert_eq].
        etransitivity; [exact Hu|]. by rewrite Ht, insert_insert_eq.
      * etransitivity; [exact Hbod|]. by rewrite Hr2, Hs2.
  - ledger_inv. injection H0 as <-. apply update_command_ok in H2 as (t' & Hu & ->).
    subst db0. eapply sql_update_at in Hu; [|cbn; rewrite Ht; apply lookup_insert_eq].
    eapply Refused; try done.
    etransitivity; [exact Hu|]. cbn. by rewrite Ht, insert_insert_eq.
Qed.
End Execute.
