(* ===== verification/StoreHistory.v ===== *)
(** * Histories of the ledger

    The databases that requests reach from the rows of a fresh ledger, and what holds of
    each: replay returns the recorded receipt, a command id belongs to one request, the
    events are numbered without gaps and sealed by their fingerprints. *)

From S2P Require Import Prelude.
From S2P Require Import Machine.
From S2P Require Import Hash.
From S2P Require Import KernelScalars.
From S2P Require Import KernelEnums.
From S2P Require Import KernelCustody.
From S2P Require Import KernelCommands.
From S2P Require Import KernelCodes.
From S2P Require Import Fingerprint.
From S2P Require Import FingerprintSpec.
From S2P Require Import SqlTable.
From S2P Require Import StoreTables.
From S2P Require Import StoreQueries.
From S2P Require Import StoreLedger.
From S2P Require Import StoreSample.
From S2P Require Import StoreLogic.
From S2P Require Import StoreFrame.
From S2P Require Import StoreLedgerSpec.

(** ** The modelled requests *)

Definition is_modelled (request : CommandRequest.t) : bool := not_null (modelled 0 request).

Lemma modelled_at id request m :
  is_modelled request = true -> modelled id request = Some m ->
  dispatch_lifecycle id request = Some m
  \/ dispatch_coordination id request = Some m
  \/ dispatch_work id request = Some m.
Proof.
  intros _. unfold modelled. destruct (dispatch_lifecycle _ _); [by left|].
  destruct (dispatch_coordination _ _); [by right; left|by right; right].
Qed.

Lemma is_modelled_at id request :
  is_modelled request = true -> exists m, modelled id request = Some m.
Proof.
  unfold is_modelled, modelled, dispatch_lifecycle, dispatch_coordination, dispatch_work.
  destruct (CommandRequest.body request); intros H; (discriminate H || by eexists).
Qed.

Lemma lifecycle_records id request m :
  dispatch_lifecycle id request = Some m -> keeps records m.
Proof.
  unfold dispatch_lifecycle. intros H.
  destruct (CommandRequest.body request); try discriminate H; injection H as <-; solve_keeps.
Qed.
Lemma coordination_records id request m :
  dispatch_coordination id request = Some m -> keeps records m.
Proof.
  unfold dispatch_coordination. intros H.
  destruct (CommandRequest.body request); try discriminate H; injection H as <-; solve_keeps.
Qed.
Lemma work_records id request m :
  dispatch_work id request = Some m -> keeps records m.
Proof.
  unfold dispatch_work. intros H.
  destruct (CommandRequest.body request); try discriminate H; injection H as <-; solve_keeps.
Qed.

Lemma modelled_records id request m :
  modelled id request = Some m -> is_modelled request = true -> keeps records m.
Proof.
  intros Hm H. destruct (modelled_at id request m H Hm) as [?|[?|?]];
    eauto using lifecycle_records, coordination_records, work_records.
Qed.

(** Only the body decides. *)
Lemma is_modelled_body r1 r2 :
  CommandRequest.body r1 = CommandRequest.body r2 -> is_modelled r1 = is_modelled r2.
Proof.
  unfold is_modelled, modelled, dispatch_lifecycle, dispatch_coordination, dispatch_work.
  intros ->. by destruct (CommandRequest.body r2).
Qed.

Section History.
Context {hash : Blake3}.
Variable unmodelled : Z -> CommandRequest.t -> store EventBody.t.
Implicit Types (db : Database.t) (request : CommandRequest.t).

Lemma dispatch_records id request db body db' :
  is_modelled request = true -> yields (dispatch unmodelled id request) db body db' ->
  records db' = records db.
Proof.
  intros H Hy. destruct (is_modelled_at id request H) as [m Hm].
  unfold dispatch in Hy. rewrite Hm in Hy. by apply (modelled_records _ _ _ Hm H) in Hy.
Qed.

(** ** Histories *)

(** The database after a request, and after a list of them. *)
Definition step db request : Database.t := (execute unmodelled request db).2.
Definition history (requests : list CommandRequest.t) db : Database.t :=
  foldl step db requests.
Definition all_modelled (requests : list CommandRequest.t) : Prop :=
  Forall (fun request => is_modelled request = true) requests.
(** The databases of the ledger: modelled requests on the rows it starts with. *)
Definition reachable db : Prop :=
  exists requests, all_modelled requests /\ db = history requests seed_database.

Lemma reachable_step db request :
  reachable db -> is_modelled request = true -> reachable (step db request).
Proof.
  intros (requests & Hall & ->) H. exists (requests ++ [request]). split.
  - apply Forall_app. by repeat constructor.
  - unfold history. by rewrite foldl_app.
Qed.

Lemma history_induction (P : Database.t -> Prop) requests db :
  (forall db request, is_modelled request = true -> P db -> P (step db request)) ->
  all_modelled requests -> P db -> P (history requests db).
Proof.
  intros Hstep Hall. revert db. induction Hall as [|request requests H _ IH]; [done|].
  intros db HP. apply IH. by apply Hstep.
Qed.

Lemma reachable_induction (P : Database.t -> Prop) db :
  P seed_database ->
  (forall db request, is_modelled request = true -> P db -> P (step db request)) ->
  reachable db -> P db.
Proof. intros H0 Hstep (requests & Hall & ->). by apply history_induction. Qed.

(** The rows without the sequences: what a failed execution leaves. *)
Definition same_rows db db' : Prop :=
  Database.rollback_to db Database.empty = Database.rollback_to db' Database.empty.
Lemma step_cases db request :
  (exists receipt, execute unmodelled request db = (Ok receipt, step db request)
                   /\ executed unmodelled request db receipt (step db request))
  \/ same_rows db (step db request).
Proof.
  unfold step. destruct (execute _ _ _) as [[receipt|e] db'] eqn:H.
  - left. exists receipt. split; [done|]. by apply execute_ok.
  - right. unfold execute in H. destruct (execute_in_transaction _ _ _) as [[|] d]; [done|].
    injection H as _ <-. done.
Qed.

(** A property of the rows survives a request when it survives its commit. *)
Lemma step_preserves (P : Database.t -> Prop) db request :
  (forall db db', same_rows db db' -> P db -> P db') ->
  (forall receipt db', executed unmodelled request db receipt db' -> P db -> P db') ->
  P db -> P (step db request).
Proof.
  intros Hrows Hok HP. destruct (step_cases db request) as [(receipt & _ & H)|H]; eauto.
Qed.

(** ** Predicates of the core *)

Lemma same_rows_core db db' : same_rows db db' -> core db' = core db.
Proof. intros H. by apply (f_equal core) in H. Qed.

(** An invariant of [core] is kept when every accepted transition keeps it. *)
Lemma step_core (P : Core.t -> Prop) db request :
  is_modelled request = true ->
  (forall id m db body db', modelled id request = Some m -> admitted request db ->
     yields m db body db' -> P (core db) -> P (core db')) ->
  P (core db) -> P (core (step db request)).
Proof.
  intros Hm Hkeep. apply (step_preserves (fun db => P (core db))).
  { by intros db1 db2 ->%same_rows_core. }
  intros receipt db' Hex HP. destruct Hex as [| |id t db1 body db2 ? ? ? ? ? ? <- Hadm Hy Hcore];
    [done| |].
  - match goal with H : material _ = material _ |- _ => apply (f_equal core) in H as Hc end.
    change (core db' = core db) in Hc. by rewrite Hc.
  - rewrite Hcore. destruct (is_modelled_at id request Hm) as [m Hmod].
    unfold dispatch in Hy. rewrite Hmod in Hy. by eapply Hkeep.
Qed.
End History.

(** ** The shape of the ledger after a commit *)

Section Shape.
Context {hash : Blake3}.
Variable unmodelled : Z -> CommandRequest.t -> store EventBody.t.
Implicit Types (db : Database.t) (request : CommandRequest.t).

(** The row of a recorded command, with no other row of the same command id. *)
Definition recorded db id (row : Commands.t) : Prop :=
  rows (Database.commands db) !! id = Some row
  /\ forall k r, rows (Database.commands db) !! k = Some r ->
       Commands.command_id r = Commands.command_id row -> k = id.

(** A new command, and its body. *)
Record records_command request db id row db' : Prop := {
  fresh_command : rows (Database.commands db) !! id = None;
  fresh_command_id : forall k r, rows (Database.commands db) !! k = Some r ->
    Commands.command_id r <> CommandId.as_str (CommandRequest.command_id request);
  command_inserted : rows (Database.commands db') = <[id := row]> (rows (Database.commands db));
  body_inserted : Database.command_bodies db'
    = <[id := CommandRequest.body request]> (Database.command_bodies db);
}.

(** The event of a command, with the next id and sequence, sealed. *)
Record records_event request db id event_id db' : Prop := {
  event_is_next : Identifier.value event_id = next_event_id db;
  event_recorded : exists body fingerprint,
    event_fingerprint event_id (CommandRequest.command_id request) body = Some fingerprint
    /\ rows (Database.events db') = <[Identifier.value event_id :=
         Events.new id (EventKind.as_i64 (EventBody.kind body)) (next_event_sequence db)
           (Blake3Digest.as_bytes fingerprint)]> (rows (Database.events db))
    /\ Database.event_bodies db'
       = <[Identifier.value event_id := body]> (Database.event_bodies db);
}.

Variant committed request db : CommandReceipt.t -> Database.t -> Prop :=
| CommittedReplay command receipt :
    command_recorded db (CommandRequest.command_id request) = Some command ->
    Commands.request_fingerprint command
      = Blake3Digest.as_bytes (request_fingerprint request) ->
    recorded_receipt command = Ok receipt ->
    committed request db receipt db
| CommittedRejection id rejection db' :
    records_command request db id (rejected_row request rejection) db' ->
    rows (Database.events db') = rows (Database.events db) ->
    Database.event_bodies db' = Database.event_bodies db ->
    committed request db (CommandReceipt.new (CommandDisposition.Rejected rejection) false) db'
| CommittedEvent id event_id db' :
    records_command request db id (accepted_row request event_id) db' ->
    records_event request db id event_id db' ->
    committed request db (CommandReceipt.new (CommandDisposition.Accepted event_id) false) db'.

Lemma placeholder_inserted request db id t :
  sql_insert (placeholder request (request_fingerprint request)) (Database.commands db)
    = (Some id, t) ->
  rows (Database.commands db) !! id = None
  /\ forall k r, rows (Database.commands db) !! k = Some r ->
       Commands.command_id r <> CommandId.as_str (CommandRequest.command_id request).
Proof.
  intros (Hfresh & Hc & _)%sql_insert_some. split; [done|]. intros k r Hr Heq.
  unfold constraints, Commands.valid in Hc. apply andb_true_iff in Hc as [_ Hc].
  apply no_other_spec in Hc. specialize (Hc k r Hr). cbn in Hc.
  by apply String.eqb_neq in Hc.
Qed.

Lemma executed_committed request db receipt db' :
  is_modelled request = true -> executed unmodelled request db receipt db' ->
  committed request db receipt db'.
Proof.
  intros Hm [| id t db2 rejection db'' Hnone Hi _ Hmat Hcom Hbod
             | id t db1 body db2 eid db3 fp db'' Hnone Hi <- _ Hy _ Hrec Hfp Hid _ Hev Heb Hcom].
  - by eapply CommittedReplay.
  - apply placeholder_inserted in Hi as [H1 H2]. eapply CommittedRejection; [done| |].
    + by apply (f_equal (fun db => rows (Database.events db))) in Hmat.
    + by apply (f_equal Database.event_bodies) in Hmat.
  - pose proof (placeholder_inserted _ _ _ _ Hi) as [H1 H2].
    pose proof (dispatch_records _ _ _ _ _ _ Hm Hy) as Hsame.
    destruct (Hcom Hsame) as [Hc Hb]. rewrite Hsame in Hrec.
    injection Hsame as _ _ Hs3 Hs4. injection Hrec as _ _ Hr3 _.
    eapply CommittedEvent; [done|]. constructor.
    + rewrite Hid. unfold next_event_id. by rewrite Hr3.
    + exists body, fp. split_and!; [done| |].
      * rewrite Hev, Hs3. unfold next_event_sequence. by rewrite Hr3.
      * by rewrite Heb, Hs4.
Qed.

(** ** Replays *)

Lemma same_rows_recorded db db' id row :
  same_rows db db' -> recorded db id row -> recorded db' id row.
Proof.
  intros H. apply (f_equal (fun db => rows (Database.commands db))) in H. cbn in H.
  unfold recorded. by rewrite H.
Qed.

Lemma recorded_insert request db id row id' row' db' :
  records_command request db id' row' db' -> recorded db id row ->
  Commands.command_id row' = CommandId.as_str (CommandRequest.command_id request) ->
  recorded db' id row.
Proof.
  intros [H1 H2 H3 _] [Hrow Huniq] Hid. unfold recorded. rewrite H3. split.
  - rewrite lookup_insert_ne; [done|]. by intros ->; rewrite Hrow in H1.
  - intros k r [[<- <-]|[Hk Hr]]%lookup_insert_Some Heq; [|by eapply Huniq].
    by edestruct (H2 id row Hrow); rewrite <-Hid.
Qed.

Lemma step_recorded db request id row :
  is_modelled request = true -> recorded db id row -> recorded (step unmodelled db request) id row.
Proof.
  intros Hm. apply (step_preserves _ (fun db => recorded db id row)).
  { intros ? ?. apply same_rows_recorded. }
  intros receipt db' H%executed_committed Hr; [|done].
  by destruct H; [|eapply recorded_insert..].
Qed.

Lemma recorded_found db id row command_id :
  recorded db id row -> Commands.command_id row = CommandId.as_str command_id ->
  command_recorded db command_id = Some row.
Proof.
  intros [Hrow Huniq] Hid. unfold command_recorded.
  destruct (row_where _ _) as [[k r]|] eqn:E; cbn.
  - apply row_where_some in E as [Hk Hp]. apply String.eqb_eq in Hp.
    rewrite <-Hid in Hp. apply Huniq in Hk as Hk'; [|done]. subst k. congruence.
  - apply row_where_none with (k := id) (r := row) in E; [|done].
    apply String.eqb_neq in E. done.
Qed.

Lemma found_recorded db row command_id :
  (forall k1 k2 r1 r2, rows (Database.commands db) !! k1 = Some r1 ->
     rows (Database.commands db) !! k2 = Some r2 ->
     Commands.command_id r1 = Commands.command_id r2 -> k1 = k2) ->
  command_recorded db command_id = Some row ->
  Commands.command_id row = CommandId.as_str command_id /\ exists id, recorded db id row.
Proof.
  intros Huniq. unfold command_recorded. destruct (row_where _ _) as [[k r]|] eqn:E; [|done].
  intros [= <-]. apply row_where_some in E as [Hk Hp]. apply String.eqb_eq in Hp.
  split; [done|]. exists k. split; eauto.
Qed.
End Shape.
