(* ===== verification/StoreRefineCycle.v ===== *)
(** * The lifecycle refines the machine

    The transitions of cycles, sessions and turns, the two that start work on a budget, and
    the refinement of every modelled command. *)

From S2P Require Import Prelude.
From S2P Require Import Machine.
From S2P Require Import KernelScalars.
From S2P Require Import KernelEnums.
From S2P Require Import KernelCustody.
From S2P Require Import KernelCommands.
From S2P Require Import KernelCodes.
From S2P Require Import SqlTable.
From S2P Require Import StoreTables.
From S2P Require Import StoreQueries.
From S2P Require Import StoreFounding.
From S2P Require Import StoreCycle.
From S2P Require Import StoreBudget.
From S2P Require Import StoreProject.
From S2P Require Import StoreWork.
From S2P Require Import StoreReview.
From S2P Require Import StoreLedger.
From S2P Require Import StoreLogic.
From S2P Require Import StoreFrame.
From S2P Require Import StoreMachine.
From S2P Require Import StoreRefine.
From S2P Require Import StoreLedgerSpec.
From S2P Require Import StoreHistory.

(** [H] leaves [core] alone. *)
Ltac core_after H :=
  match type of H with
  | yields ?m ?db ?a ?db' =>
      let E := fresh "Ecore" in
      assert (core db' = core db) as E by
        (assert (keeps core m) as E by solve_keeps; exact (E _ _ _ H))
  end.

(** ** Cycles *)

(** The state that a guard has established. *)
Ltac known_state :=
  repeat match goal with
  | H : cycle_in [_] _ = true |- _ => apply in_states, list_elem_of_singleton in H
  | H : cycle_in _ _ = true |- _ => apply in_states in H
  | H : CycleRow.state ?c = _ |- context [CycleRow.state ?c] => rewrite H
  end.

Lemma admit_operating_cycle_moves command expected id db body db' :
  yields (admit_operating_cycle command expected id) db body db' -> moves (core db) (core db').
Proof.
  unfold admit_operating_cycle. intros H. yields_inv.
  named cycle_for_generation as Hc1. apply cycle_for_generation_ok in Hc1 as (-> & Hat & _).
  named set_cycle_state as Hs. named @insert_with_key as Hk. core_after Hk. rewrite Ecore.
  eapply set_cycle_state_move in Hs; [|done| |done|done]; [by apply rtc_once|].
  known_state. apply StepAdmit.
Qed.

Lemma set_cycle_started_core command id e db u db' :
  yields (set_cycle_started command id e) db u db' -> core db' = core db.
Proof. assert (keeps core (set_cycle_started command id e)) as H by solve_keeps. apply H. Qed.

(** A cycle set running, and what the admission records. *)
Lemma cycle_starts command id e1 e2 db u1 db1 u2 db2 cycle :
  yields (set_cycle_state command id OperatingCycleState.Running e1) db u1 db1 ->
  yields (set_cycle_started command id e2) db1 u2 db2 ->
  at_cycle db id cycle -> CycleRow.state cycle = OperatingCycleState.Admitted_ ->
  move (core db) (core db2) /\ live_cycle (core db2) (Identifier.value id).
Proof.
  intros H1 ->%set_cycle_started_core Hat Hst.
  destruct (set_cycle_state_at _ _ _ _ _ _ _ _ H1 Hat) as (row & Hrow & His).
  split; [|by eapply row_live].
  eapply set_cycle_state_move; [done|done| |done|done]. rewrite Hst. apply StepStart.
Qed.

Lemma start_office_session_moves command expected id db body db' :
  yields (start_office_session command expected id) db body db' -> moves (core db) (core db').
Proof.
  unfold start_office_session. intros H. yields_inv.
  named cycle_for_generation as Hc1. apply cycle_for_generation_ok in Hc1 as (-> & Hat & _).
  named set_cycle_state as Hs. named set_cycle_started as Hst. known_state.
  destruct (cycle_starts _ _ _ _ _ _ _ _ _ _ Hs Hst Hat Hc) as [Hm Hlive].
  match goal with H : yields (insert_into _ _ _) _ _ _ |- _ =>
    apply yields_insert_row in H as (t & Ht & Hfresh & _ & ->) end.
  eapply rtc_l; [done|]. apply rtc_once. core_set Core.sessions. by apply MoveSessionStart.
Qed.

Lemma start_native_moves command expected id db body db' :
  yields (start_native_execution_profile_qualification command expected id) db body db' ->
  moves (core db) (core db').
Proof.
  unfold start_native_execution_profile_qualification. intros H. yields_inv.
  named cycle_for_generation as Hc1. apply cycle_for_generation_ok in Hc1 as (-> & Hat & _).
  named set_cycle_state as Hs. named set_cycle_started as Hst. known_state.
  eapply rtc_once, cycle_starts; done.
Qed.

Lemma quiesce_cycle_moves command expected id db body db' :
  yields (quiesce_cycle command expected id) db body db' -> moves (core db) (core db').
Proof.
  unfold quiesce_cycle. intros H. yields_inv.
  named cycle_for_generation as Hc1. apply cycle_for_generation_ok in Hc1 as (-> & Hat & _).
  named transition_cycle as Ht. row_facts. known_state.
  eapply rtc_once, transition_cycle_move; [done|done| |done|done]. rewrite Hv. by apply StepQuiesce.
Qed.

Lemma record_cycle_drained_moves command id db body db' :
  yields (record_cycle_drained command id) db body db' -> moves (core db) (core db').
Proof.
  unfold record_cycle_drained. intros H. yields_inv.
  named cycle_row as Hc1. apply cycle_row_ok in Hc1 as [-> Hat].
  named cycle_is_busy as Hb. same_after Hb. named active_cancellation_count as Hn. same_after Hn.
  named transition_cycle as Ht. known_state.
  eapply rtc_once, transition_cycle_move; [done|done| |by case_match|by case_match].
  known_state. case_match; [apply StepDrainCancelling|apply StepDrain].
Qed.

Lemma resume_cycle_moves command expected id db body db' :
  yields (resume_cycle command expected id) db body db' -> moves (core db) (core db').
Proof.
  unfold resume_cycle. intros H. yields_inv.
  named cycle_for_generation as Hc1. apply cycle_for_generation_ok in Hc1 as (-> & Hat & _).
  named unreconciled_reservation_count as H1. same_after H1.
  named active_cancellation_count as H2. same_after H2.
  named live_actor_attempt_count as H3. same_after H3.
  named active_work_lease_count as H4. same_after H4.
  named live_native_child_count as H5. same_after H5.
  named undisposed_pi_workspace_count as H6. same_after H6.
  named transition_cycle as Ht. known_state.
  eapply rtc_once, transition_cycle_move; [done|done| |done|done]. known_state. apply StepResume.
Qed.

Lemma begin_reconciliation_moves command expected id db body db' :
  yields (begin_reconciliation command expected id) db body db' -> moves (core db) (core db').
Proof.
  unfold begin_reconciliation. intros H. yields_inv.
  named cycle_for_generation as Hc1. apply cycle_for_generation_ok in Hc1 as (-> & Hat & _).
  named transition_cycle as Ht. named @insert_with_key as Hk. known_state.
  apply yields_insert_at in Hk as (t & Hins & Hfresh & ->).
  assert (keeps (fun d => Core.reconciliations (core d))
    (transition_cycle command id OperatingCycleState.Reconciling (CycleRow.generation a)))
    as Hkeep by solve_keeps.
  eapply rtc_l.
  - eapply transition_cycle_move; [done|done| |done|].
    + known_state. apply StepReconcile.
    + intros _. rewrite <-(Hkeep _ _ _ Ht). exact Hfresh.
  - apply rtc_once. core_set Core.reconciliations. apply MoveReconciliation.
Qed.

(** The counts that [close_cycle] requires to be zero. *)
Lemma counts_quiescent db id :
  count_where (fun t => session_of_cycle id db (OfficeTurns.root_authority_office_session_id t)
    && (OfficeTurns.lifecycle_state t =? OfficeTurnState.as_i64 OfficeTurnState.Active))
    (Database.office_turns db) = 0 ->
  count_where (fun s =>
    (RootAuthorityOfficeSessions.operating_cycle_id s =? Identifier.value id)
    && negb (is_terminal_session (RootAuthorityOfficeSessions.lifecycle_state s)))
    (Database.root_authority_office_sessions db) = 0 ->
  count_where (fun r =>
    (BudgetReservations.operating_cycle_id r =? Identifier.value id)
    && negb (BudgetReservations.reservation_state r
             =? BudgetReservationState.as_i64 BudgetReservationState.Reconciled))
    (Database.budget_reservations db) = 0 ->
  count_where (is_active_cancellation id) (Database.cancellation_requests db) = 0 ->
  quiescent (core db) (Identifier.value id).
Proof.
  rewrite !count_where_zero. intros Ht Hs Hr Hc. constructor.
  - intros k s Hk Heq. specialize (Hs k s Hk). by rewrite Heq, Z.eqb_refl in Hs.
  - intros k t Hk s Hse Heq. specialize (Ht k t Hk). unfold session_of_cycle in Ht.
    cbn in Hse. rewrite Hse, Heq, Z.eqb_refl in Ht. done.
  - intros k r Hk Heq. specialize (Hr k r Hk). rewrite Heq, Z.eqb_refl in Hr.
    by apply negb_false_iff in Hr.
  - intros k x Hk Heq. specialize (Hc k x Hk). unfold is_active_cancellation in Hc.
    by rewrite Heq, Z.eqb_refl in Hc.
Qed.

Lemma close_cycle_moves command expected id db body db' :
  yields (close_cycle command expected id) db body db' -> moves (core db) (core db').
Proof.
  unfold close_cycle. intros H. yields_inv.
  named cycle_for_generation as Hc1. apply cycle_for_generation_ok in Hc1 as (-> & Hat & _).
  named active_office_turn_count as H1. apply yields_read in H1 as [-> ->].
  named live_office_session_count as H2. apply yields_read in H2 as [-> ->].
  named unreconciled_reservation_count as H3. apply yields_read in H3 as [-> ->].
  named active_cancellation_count as H4. apply yields_read in H4 as [-> ->].
  named live_actor_attempt_count as H5. same_after H5.
  named active_work_lease_count as H6. same_after H6.
  named live_native_child_count as H7. same_after H7.
  named transition_cycle as Ht. named @update_row as Hu.
  bool_hyps. known_state.
  eapply rtc_l.
  - eapply transition_cycle_move; [done|done| | |done].
    + known_state. apply StepClose.
    + intros _. by apply counts_quiescent.
  - apply yields_update in Hu as (t & Hu & ->).
    apply sql_update_some in Hu as [[_ ->]|(r & r' & _ & _ & _ & Hrows)]; [apply rtc_refl|].
    apply rtc_once. core_set Core.reconciliations. apply MoveReconciliation.
Qed.

(** ** Sessions and turns *)

Lemma session_row_ok id db x db' :
  yields (session_row id) db x db' ->
  db' = db /\ exists row,
    rows (Database.root_authority_office_sessions db) !! Identifier.value id = Some row
    /\ RootAuthorityOfficeSessions.lifecycle_state row = OfficeSessionState.as_i64 x.1
    /\ RootAuthorityOfficeSessions.operating_cycle_id row = Identifier.value x.2.
Proof.
  unfold session_row. intros H. yields_inv. split; [done|]. eexists. split; [done|].
  row_facts. match goal with H : office_session_state_from_i64 _ = _ |- _ =>
    apply table_sound in H end. done.
Qed.

(** An update of a live session. *)
Lemma set_session_state_move command id state db u db' row :
  yields (set_session_state command id state) db u db' ->
  rows (Database.root_authority_office_sessions db) !! Identifier.value id = Some row ->
  is_live_session row = true -> move (core db) (core db').
Proof.
  intros H Hrow Hlive.
  destruct (yields_update_row _ _ _ _ _ _ _ _ H Hrow) as (t & Ht & ->).
  core_set Core.sessions. by eapply MoveSession.
Qed.

Lemma live_session_code row state :
  RootAuthorityOfficeSessions.lifecycle_state row = OfficeSessionState.as_i64 state ->
  negb (bool_decide (state ∈ [OfficeSessionState.Closed; OfficeSessionState.Cancelled;
                              OfficeSessionState.Failed])) = true ->
  is_live_session row = true.
Proof. unfold is_live_session. intros ->. by destruct state. Qed.

Lemma record_office_session_ready_moves command expected id db body db' :
  yields (record_office_session_ready command expected id) db body db' ->
  moves (core db) (core db').
Proof.
  unfold record_office_session_ready. intros H.
  apply yields_bind in H as (x & db1 & Hrow & H).
  apply session_row_ok in Hrow as (-> & row & Hrow & Hst & _). destruct x as [state cycle_id].
  yields_inv. named cycle_for_generation as Hc1. same_after Hc1.
  named session_admission as Hs. same_after Hs. yields_inv. named set_session_state as Hset.
  apply rtc_once. eapply set_session_state_move; [done|done|].
  eapply live_session_code; [done|]. bool_hyps. cbn. by subst.
Qed.

Lemma terminal_session_live terminal state cycle next :
  terminal_session_state terminal state cycle = Some next ->
  negb (bool_decide (state ∈ [OfficeSessionState.Closed; OfficeSessionState.Cancelled;
                              OfficeSessionState.Failed])) = true.
Proof. by destruct terminal, state, cycle. Qed.

Lemma record_office_session_terminal_moves command expected id terminal db body db' :
  yields (record_office_session_terminal command expected id terminal) db body db' ->
  moves (core db) (core db').
Proof.
  unfold record_office_session_terminal. intros H.
  apply yields_bind in H as (x & db1 & Hrow & H).
  apply session_row_ok in Hrow as (-> & row & Hrow & Hst & _). destruct x as [state cycle_id].
  yields_inv. named cycle_for_generation as Hc1. same_after Hc1.
  named session_has_active_turn as Ha. same_after Ha.
  named session_admission as Hs. same_after Hs. named set_session_state as Hset.
  apply rtc_once. eapply set_session_state_move; [done|done|].
  eapply live_session_code; [done|]. by eapply terminal_session_live.
Qed.

Lemma open_office_turn_moves command expected id purpose db body db' :
  yields (open_office_turn command expected id purpose) db body db' ->
  moves (core db) (core db').
Proof.
  unfold open_office_turn. intros H.
  apply yields_bind in H as (x & db1 & Hrow & H).
  apply session_row_ok in Hrow as (-> & row & Hrow & Hst & _). destruct x as [state cycle_id].
  yields_inv. named cycle_for_generation as Hc1. same_after Hc1.
  named session_admission as Hs. same_after Hs. yields_inv. named set_session_state as Hset.
  destruct (yields_update_row _ _ _ _ _ _ _ _ Hset Hrow) as (t & Ht & ->).
  match goal with H : yields (insert_into _ _ _) _ _ _ |- _ =>
    apply yields_insert_row in H as (t' & Ht' & Hfresh & _ & ->) end.
  match goal with |- moves _ (core (?d <| Database.office_turns := _ |>)) =>
    apply rtc_l with (core d) end.
  - eapply set_session_state_move; [done|done|]. eapply live_session_code; [done|].
    bool_hyps. cbn. by subst.
  - apply rtc_once.
    match goal with |- move (core ?d) _ =>
      change (move (core d) ((core d) <| Core.turns := rows t' |>)) end.
    rewrite Ht'. eapply MoveTurnOpen; [done| |].
    + cbn. rewrite Ht. apply lookup_insert_eq.
    + done.
Qed.

(** ** Work on a budget *)

Lemma reserve_budget_moves command expected id amount db body db' :
  yields (reserve_budget command expected id amount) db body db' -> moves (core db) (core db').
Proof.
  unfold reserve_budget. intros H. yields_inv.
  named cycle_for_generation as Hc1. apply cycle_for_generation_ok in Hc1 as (-> & Hat & _).
  named hold_budget as Hh. eapply hold_budget_moves; [|exact Hh].
  eapply at_cycle_live; [done|]. by destruct (CycleRow.state _).
Qed.

Lemma at_cycle_core db db' id cycle :
  core db' = core db -> at_cycle db id cycle -> at_cycle db' id cycle.
Proof.
  intros H. apply (f_equal Core.operating_cycles) in H. cbn in H. unfold at_cycle.
  by rewrite H.
Qed.

Lemma claim_native_moves command expected id amount epoch identity workspace path db body db' :
  yields (claim_native_execution_profile_qualification_launch command expected id amount epoch
            identity workspace path) db body db' ->
  moves (core db) (core db').
Proof.
  unfold claim_native_execution_profile_qualification_launch. cbv zeta. intros H. yields_inv.
  named cycle_for_generation as Hgen. apply cycle_for_generation_ok in Hgen as (-> & Hat & _).
  named register_workspace as Hw. core_after Hw.
  named set_cycle_state as Hs. named set_cycle_started as Hst. named reserve_budget as Hr.
  apply reserve_budget_moves in Hr. core_after H. bool_hyps. rewrite Ecore0.
  apply (at_cycle_core db db9) in Hat; [|done].
  match goal with H : CycleRow.state _ = OperatingCycleState.Admitted_ |- _ =>
    destruct (cycle_starts _ _ _ _ _ _ _ _ _ _ Hs Hst Hat H) as [Hm _] end.
  rewrite Ecore in Hm. eapply rtc_l; [exact Hm|exact Hr].
Qed.

Lemma start_actor_attempt_moves command expected id item amount db body db' :
  yields (start_actor_attempt command expected id item amount) db body db' ->
  moves (core db) (core db').
Proof.
  unfold start_actor_attempt. cbv zeta. intros H.
  apply yields_bind in H as (cycle & db1 & Hcycle & H).
  unfold coordination_cycle in Hcycle. yields_inv.
  named cycle_for_generation as Hgen. apply cycle_for_generation_ok in Hgen as (-> & Hat & _).
  named work_item_row as H1. same_after H1. named actor_instance_row as H2. same_after H2.
  named ticket_row as H3. same_after H3. named project_is_active as H4. same_after H4.
  named reserve_attempt_budget as Hres. unfold reserve_attempt_budget in Hres. yields_inv.
  named hold_budget as Hh. apply hold_budget_moves in Hh.
  2: { eapply at_cycle_live; [done|]. by destruct (CycleRow.state _). }
  named @insert_into as H5. core_after H5. named @insert_with_key as H6. core_after H6.
  named set_work_item_state as H7. core_after H7.
  named record_coordination_provenance as H8. core_after H8.
  by rewrite Ecore2, Ecore1, Ecore0, Ecore.
Qed.

(** ** Every modelled command *)

Lemma kept_moves {A} (m : store A) db a db' :
  keeps core m -> yields m db a db' -> moves (core db) (core db').
Proof. intros Hk ->%Hk. apply rtc_refl. Qed.

Lemma lifecycle_moves id request m db body db' :
  dispatch_lifecycle id request = Some m -> inv (core db) -> yields m db body db' ->
  moves (core db) (core db').
Proof.
  unfold dispatch_lifecycle. intros H Hi Hy.
  destruct (CommandRequest.body request); try discriminate H; injection H as <-;
    first
    [ by eapply bootstrap_society_moves | by eapply propose_operating_cycle_moves
    | by eapply admit_operating_cycle_moves | by eapply start_office_session_moves
    | by eapply record_office_session_ready_moves
    | by eapply record_office_session_terminal_moves | by eapply open_office_turn_moves
    | by eapply quiesce_cycle_moves | by eapply record_cycle_drained_moves
    | by eapply resume_cycle_moves | by eapply begin_reconciliation_moves
    | by eapply close_cycle_moves | by eapply reserve_budget_moves
    | by eapply reconcile_budget_moves | by eapply request_cancellation_moves
    | by eapply reconcile_cancellation_moves | by eapply close_cost_postmortem_moves
    | by eapply start_native_moves | eapply kept_moves; [|exact Hy]; solve_keeps ].
Qed.

Lemma work_moves id request m db body db' :
  dispatch_work id request = Some m -> yields m db body db' -> moves (core db) (core db').
Proof.
  intros H Hy. destruct (reserves_budget (CommandRequest.body request)) eqn:E.
  - unfold dispatch_work in H. destruct (CommandRequest.body request); try discriminate E;
      injection H as <-; [by eapply start_actor_attempt_moves|by eapply claim_native_moves].
  - eapply kept_moves; [|exact Hy]. by eapply dispatch_work_keeps.
Qed.

Lemma transition_moves id request m db body db' :
  is_modelled request = true -> modelled id request = Some m -> inv (core db) ->
  yields m db body db' -> moves (core db) (core db').
Proof.
  intros Hm H Hi Hy. destruct (modelled_at _ _ _ Hm H) as [Hl|[Hc|Hw]].
  - by eapply lifecycle_moves.
  - eapply kept_moves; [|exact Hy]. by eapply dispatch_coordination_keeps.
  - by eapply work_moves.
Qed.
