(* ===== verification/StoreLedgerSafety.v ===== *)
(** * What the ledger guarantees

    Over every history of modelled requests: the log of commands and events is sound
    ([sound]), a request is settled once, and a rejected one changes nothing. *)

From S2P Require Import Prelude.
From S2P Require Import Machine.
From S2P Require Import Hash.
From S2P Require Import KernelScalars.
From S2P Require Import KernelEnums.
From S2P Require Import KernelCustody.
From S2P Require Import KernelCommands.
From S2P Require Import KernelCodes.
From S2P Require Import Fingerprint.
From S2P Require Import FingerprintSpec.
From S2P Require Import SqlTable.
From S2P Require Import StoreTables.
From S2P Require Import StoreQueries.
From S2P Require Import StoreLedger.
From S2P Require Import StoreSample.
From S2P Require Import StoreLogic.
From S2P Require Import StoreFrame.
From S2P Require Import StoreLedgerSpec.
From S2P Require Import StoreHistory.

(** ** A sound log *)

Section Sound.
Context {hash : Blake3}.
Implicit Types (db : Database.t) (request : CommandRequest.t).

(** The row is what [insert_command] and the settlement write for a request whose body is
    stored: the fingerprint seals the request. *)
Definition sound_command db id (row : Commands.t) : Prop :=
  exists request,
    Database.command_bodies db !! id = Some (CommandRequest.body request)
    /\ ((exists rejection, row = rejected_row request rejection)
        \/ exists event_id event, row = accepted_row request event_id
             /\ rows (Database.events db) !! Identifier.value event_id = Some event
             /\ Events.command_row_id event = id).

(** The event is the acceptance of its command, and its fingerprint seals its body. *)
Definition sound_event db id (event : Events.t) : Prop :=
  Events.event_sequence event = id
  /\ exists request event_id body fingerprint,
    Identifier.value event_id = id
    /\ rows (Database.commands db) !! Events.command_row_id event
       = Some (accepted_row request event_id)
    /\ Database.event_bodies db !! id = Some body
    /\ Events.event_kind event = EventKind.as_i64 (EventBody.kind body)
    /\ event_fingerprint event_id (CommandRequest.command_id request) body = Some fingerprint
    /\ Events.event_fingerprint event = Blake3Digest.as_bytes fingerprint.

Record sound db : Prop := {
  sound_unique : forall k1 k2 r1 r2,
    rows (Database.commands db) !! k1 = Some r1 -> rows (Database.commands db) !! k2 = Some r2 ->
    Commands.command_id r1 = Commands.command_id r2 -> k1 = k2;
  sound_gapless : exists n, keys_upto n (rows (Database.events db));
  sound_commands : map_Forall (sound_command db) (rows (Database.commands db));
  sound_events : map_Forall (sound_event db) (rows (Database.events db));
}.

Lemma sound_seed : sound seed_database.
Proof.
  constructor.
  - done.
  - exists 0. split; [done|]. intros k. cbn. rewrite lookup_empty. split; [by intros []|lia].
  - apply map_Forall_empty.
  - apply map_Forall_empty.
Qed.

Lemma sound_same_rows db db' : same_rows db db' -> sound db -> sound db'.
Proof.
  intros H. pose proof (f_equal (fun db => rows (Database.commands db)) H) as H1.
  pose proof (f_equal (fun db => rows (Database.events db)) H) as H2.
  pose proof (f_equal Database.command_bodies H) as H3.
  pose proof (f_equal Database.event_bodies H) as H4. cbn in H1, H2, H3, H4. clear H.
  intros [Hu Hg Hc He]. constructor; unfold sound_command, sound_event; rewrite <-?H1, <-?H2.
  - done.
  - done.
  - by rewrite <-H3.
  - by rewrite <-H4.
Qed.

(** Sequences follow the keys. *)
Lemma next_sequence db :
  sound db -> next_event_sequence db = next_event_id db.
Proof.
  intros [_ [n Hn] _ He]. unfold next_event_sequence, next_event_id.
  rewrite (keys_upto_max n) by done. f_equal. destruct Hn as [Hpos Hn].
  set (l := map _ _).
  assert (forall x, x ∈ l <-> 1 <= x <= n) as Hl.
  { intros x. rewrite <-Hn. subst l. rewrite list_elem_of_fmap. split.
    - intros ([k r] & -> & Hk%elem_of_map_to_list). destruct (He k r Hk) as [Hs _].
      cbn. rewrite Hs. by exists r.
    - intros [r Hr]. exists (x, r). split; [|by apply elem_of_map_to_list].
      by destruct (He x r Hr) as [Hs _]. }
  destruct (fold_max_spec l 0) as (H1 & H2 & H3). destruct H3 as [H3|H3%Hl]; [|].
  - destruct (Z.eq_dec n 0); [lia|]. specialize (H2 n). rewrite Hl in H2. lia.
  - specialize (H2 n). rewrite Hl in H2. lia.
Qed.

(** The new command does not disturb the others. *)
Lemma sound_command_insert request db id row db' k r :
  records_command request db id row db' ->
  (forall k e, rows (Database.events db) !! k = Some e ->
     rows (Database.events db') !! k = Some e) ->
  rows (Database.commands db) !! k = Some r -> sound_command db k r -> sound_command db' k r.
Proof.
  intros [H1 _ _ H4] Hev Hk (request' & Hbody & Hrow). exists request'. rewrite H4. split.
  { rewrite lookup_insert_ne; [done|]. by intros ->; rewrite Hk in H1. }
  destruct Hrow as [?|(eid & e & ? & He & ?)]; [by left|right].
  exists eid, e. by auto.
Qed.
Lemma sound_event_insert request db id row db' k e :
  records_command request db id row db' ->
  (forall b, Database.event_bodies db !! k = Some b ->
     Database.event_bodies db' !! k = Some b) ->
  sound_event db k e -> sound_event db' k e.
Proof.
  intros [H1 _ H3 _] Hbod (Hseq & request' & eid & body & fp & Hid & Hc & Hb & Hk & Hfp & He).
  split; [done|]. exists request', eid, body, fp. rewrite H3. split_and!; try done; [|by auto].
  rewrite lookup_insert_ne; [done|]. by intros Heq; rewrite <-Heq, H1 in Hc.
Qed.

Lemma sound_unique_insert request db id row db' :
  records_command request db id row db' ->
  Commands.command_id row = CommandId.as_str (CommandRequest.command_id request) ->
  sound db -> forall k1 k2 r1 r2,
    rows (Database.commands db') !! k1 = Some r1 -> rows (Database.commands db') !! k2 = Some r2 ->
    Commands.command_id r1 = Commands.command_id r2 -> k1 = k2.
Proof.
  intros [_ Hne Hins _] Hrow [Hu _ _ _] k1 k2 r1 r2. rewrite Hins. intros H1 H2 Heq.
  apply lookup_insert_Some in H1 as [[<- <-]|[Hk1 Hr1]];
    apply lookup_insert_Some in H2 as [[<- <-]|[Hk2 Hr2]]; [done| | |by eapply Hu].
  - edestruct Hne; [exact Hr2|congruence].
  - edestruct Hne; [exact Hr1|congruence].
Qed.

Lemma sound_committed request db receipt db' :
  committed request db receipt db' -> sound db -> sound db'.
Proof.
  intros Hc Hs. destruct Hc as [|id rejection db' Hcmd Hev Heb|id eid db' Hcmd Hevent]; [done| |].
  - pose proof Hcmd as [_ _ Hins Hbod]. constructor.
    + by eapply sound_unique_insert.
    + rewrite Hev. apply Hs.
    + intros k r Hk. rewrite Hins in Hk.
      apply lookup_insert_Some in Hk as [[<- <-]|[Hne Hk]].
      * exists request. rewrite Hbod, lookup_insert_eq. split; [done|]. left. by exists rejection.
      * eapply sound_command_insert; [done|by rewrite Hev|done|]. by apply Hs.
    + intros k e Hk. rewrite Hev in Hk. eapply sound_event_insert; [done|by rewrite Heb|].
      by apply Hs.
  - pose proof Hcmd as [_ _ Hins Hbod]. destruct Hevent as [Hid (body & fp & Hfp & Hev & Heb)].
    destruct (sound_gapless db Hs) as [n Hn].
    assert (Identifier.value eid = n + 1) as Hn1.
    { rewrite Hid. unfold next_event_id. by rewrite (keys_upto_max n). }
    assert (forall k r, rows (Database.events db) !! k = Some r -> k <> n + 1) as Hold.
    { intros k r Hk ->. destruct Hn as [_ Hn]. assert (1 <= n + 1 <= n); [|lia].
      apply Hn. by exists r. }
    rewrite Hn1 in Hev, Heb. constructor.
    + by eapply sound_unique_insert.
    + exists (n + 1). rewrite Hev. by apply keys_upto_insert.
    + intros k r Hk. rewrite Hins in Hk.
      apply lookup_insert_Some in Hk as [[<- <-]|[Hne Hk]].
      * exists request. rewrite Hbod, lookup_insert_eq. split; [done|]. right.
        eexists eid, _. rewrite Hn1, Hev, lookup_insert_eq. done.
      * eapply sound_command_insert; [done| |done|by apply Hs]. intros k' e Hk'.
        rewrite Hev, lookup_insert_ne; [done|]. by apply Hold in Hk'.
    + intros k e Hk. rewrite Hev in Hk. apply lookup_insert_Some in Hk as [[<- <-]|[Hne Hk]].
      * split; [cbn; rewrite next_sequence by done; by rewrite <-Hid|].
        exists request, eid, body, fp. cbn. rewrite Hins, Heb, !lookup_insert_eq. done.
      * eapply sound_event_insert; [done| |by apply Hs]. intros b Hb.
        rewrite Heb, lookup_insert_ne by done. done.
Qed.
End Sound.

(** ** The guarantees *)

Section Guarantees.
Context {hash : Blake3}.
Variable unmodelled : Z -> CommandRequest.t -> store EventBody.t.
Implicit Types (db : Database.t) (request : CommandRequest.t).

Lemma sound_step db request :
  is_modelled request = true -> sound db -> sound (step unmodelled db request).
Proof.
  intros Hm. apply step_preserves; [apply sound_same_rows|].
  intros receipt db' H%executed_committed; [|done]. by apply (sound_committed _ _ _ _ H).
Qed.
Lemma reachable_sound db : reachable unmodelled db -> sound db.
Proof.
  apply reachable_induction; [apply sound_seed|]. intros. by apply sound_step.
Qed.

(** The receipt of a command that is already recorded. *)
Definition replay (receipt : CommandReceipt.t) : CommandReceipt.t :=
  CommandReceipt.new (CommandReceipt.disposition receipt) true.

Lemma recorded_receipt_replay row receipt :
  recorded_receipt row = Ok receipt -> replay receipt = receipt.
Proof.
  destruct row as [? ? ? ? ? ? ? status rej ev]. unfold recorded_receipt. cbn. intros H.
  repeat case_match; try discriminate H; destruct rej, ev; cbn in H; try discriminate H;
    revert H; (destruct (Identifier.try_from _) || destruct (rejection_from_i64 _)); cbn;
    intros H; try discriminate H; by injection H as <-.
Qed.
Lemma accepted_receipt request event_id :
  recorded_receipt (accepted_row request event_id)
  = Ok (CommandReceipt.new (CommandDisposition.Accepted event_id) true).
Proof.
  unfold recorded_receipt. cbn.
  by rewrite (proj2 (Identifier.try_from_ok _ event_id) eq_refl).
Qed.
Lemma rejected_receipt request rejection :
  recorded_receipt (rejected_row request rejection)
  = Ok (CommandReceipt.new (CommandDisposition.Rejected rejection) true).
Proof. unfold recorded_receipt. by destruct rejection. Qed.

(** What a commit leaves in the ledger for the request. *)
Definition settled request receipt db : Prop :=
  exists id row, recorded db id row
    /\ Commands.command_id row = CommandId.as_str (CommandRequest.command_id request)
    /\ Commands.request_fingerprint row = Blake3Digest.as_bytes (request_fingerprint request)
    /\ recorded_receipt row = Ok (replay receipt).

Lemma records_command_recorded request db id row db' :
  records_command request db id row db' ->
  Commands.command_id row = CommandId.as_str (CommandRequest.command_id request) ->
  recorded db' id row.
Proof.
  intros [_ Hne Hins _] Hrow. split; rewrite Hins; [apply lookup_insert_eq|].
  intros k r [[<- _]|[_ Hr]]%lookup_insert_Some Heq; [done|].
  edestruct Hne; [exact Hr|congruence].
Qed.

Lemma executed_settled db request receipt :
  is_modelled request = true -> sound db ->
  execute unmodelled request db = (Ok receipt, step unmodelled db request) ->
  settled request receipt (step unmodelled db request).
Proof.
  intros Hm Hs H%execute_ok%executed_committed; [|done].
  destruct H as [command receipt Hc Hf Hr|id rejection db' Hcmd _ _|id eid db' Hcmd _].
  - apply found_recorded in Hc as [Hid [id Hrec]]; [|apply Hs].
    exists id, command. split_and!; try done. rewrite Hr. f_equal. symmetry.
    by eapply recorded_receipt_replay.
  - eexists id, _. split_and!; [by eapply records_command_recorded|done|done|].
    apply rejected_receipt.
  - eexists id, _. split_and!; [by eapply records_command_recorded|done|done|].
    apply accepted_receipt.
Qed.

Lemma history_settled requests db request receipt :
  all_modelled requests -> settled request receipt db ->
  settled request receipt (history unmodelled requests db).
Proof.
  intros Hall. apply (history_induction _ (settled request receipt)); [|done].
  intros db1 r Hr (id & row & Hrec & Hrest). exists id, row. split; [|done].
  by apply step_recorded.
Qed.

Lemma execute_settled db request receipt other :
  settled request receipt db ->
  CommandRequest.command_id other = CommandRequest.command_id request ->
  execute unmodelled other db
  = if bool_decide (Blake3Digest.as_bytes (request_fingerprint request)
                    = Blake3Digest.as_bytes (request_fingerprint other))
    then (Ok (replay receipt), db)
    else (Err (LedgerFailure.Failed StoreError.IdempotencyConflict),
          Database.rollback_to db db).
Proof.
  intros (id & row & Hrec & Hid & Hf & Hr) Hsame.
  unfold execute, execute_in_transaction, m_bind, ledger_read. rewrite Hsame.
  rewrite (recorded_found _ _ _ _ Hrec Hid). cbn [option_map]. rewrite Hf.
  case_bool_decide; [|done]. by rewrite Hr.
Qed.
End Guarantees.

Section Properties.
Context {hash : Blake3}.
Variable unmodelled : Z -> CommandRequest.t -> store EventBody.t.
Implicit Types (db : Database.t) (request : CommandRequest.t).

(** C1: in every database that requests reach from a fresh ledger, no command id is recorded
    twice, the events are numbered 1 to n without gaps and their sequence is their id, every
    recorded command is sealed with its body and settled, and events and accepted commands
    correspond one to one, each event sealed with its body. *)
Theorem ledger_is_sound db : reachable unmodelled db -> sound db.
Proof. apply reachable_sound. Qed.

(** C17: executing a request again, after any further requests, returns the disposition it
    was first given, marked idempotent, and writes nothing. *)
Theorem execution_is_idempotent db request receipt db1 requests :
  reachable unmodelled db -> is_modelled request = true -> all_modelled requests ->
  execute unmodelled request db = (Ok receipt, db1) ->
  execute unmodelled request (history unmodelled requests db1)
  = (Ok (replay receipt), history unmodelled requests db1).
Proof.
  intros Hreach Hm Hall H. assert (db1 = step unmodelled db request) as ->.
  { unfold step. by rewrite H. }
  erewrite execute_settled; [by rewrite bool_decide_true| |done].
  apply history_settled; [done|]. apply executed_settled; [done| |done].
  by apply (reachable_sound unmodelled).
Qed.

(** A command id belongs to the request that first used it: another request with the
    id is a conflict and writes nothing, at any later time, unless the two requests are a
    collision of BLAKE3. *)
Theorem command_id_names_one_request db request receipt db1 requests other :
  reachable unmodelled db -> is_modelled request = true -> all_modelled requests ->
  execute unmodelled request db = (Ok receipt, db1) ->
  CommandRequest.command_id other = CommandRequest.command_id request -> other <> request ->
  (exists db2, execute unmodelled other (history unmodelled requests db1)
               = (Err (LedgerFailure.Failed StoreError.IdempotencyConflict), db2)
     /\ same_rows (history unmodelled requests db1) db2)
  \/ collides (request_preimage request) (request_preimage other).
Proof.
  intros Hreach Hm Hall H Hid Hne. assert (db1 = step unmodelled db request) as ->.
  { unfold step. by rewrite H. }
  assert (settled request receipt (history unmodelled requests (step unmodelled db request)))
    as Hset.
  { apply history_settled; [done|]. apply executed_settled; [done| |done].
    by apply (reachable_sound unmodelled). }
  rewrite (execute_settled _ _ _ _ other Hset Hid). case_bool_decide as Hf.
  - right. split; [|exact Hf]. intros ?%request_preimage_inj. by apply Hne.
  - left. by eexists.
Qed.



(** An error commits nothing. *)
Lemma failure_changes_nothing db request e db' :
  execute unmodelled request db = (Err e, db') -> same_rows db db'.
Proof.
  unfold execute. destruct (execute_in_transaction _ _ _) as [[|] d]; [done|].
  intros H. by injection H as _ <-.
Qed.
End Properties.

(** ** The sample ledger *)

Definition step_modelled (step : sample_step) : bool :=
  is_modelled (sample_request seed_database 0 step).
Lemma sample_run_reachable n steps db :
  reachable no_transition db -> forallb step_modelled steps = true ->
  reachable no_transition (sample_run n steps db).2.
Proof.
  revert n db. induction steps as [|st steps IH]; intros n db Hr H; cbn [forallb] in H; [done|].
  bool_hyps. cbn [sample_run].
  pose proof (reachable_step no_transition db (sample_request db n st) Hr) as Hstep.
  unfold step in Hstep. destruct (execute _ _ _) as [o d]. cbn in Hstep.
  destruct (sample_run (S n) steps d) as [os d'] eqn:E. cbn.
  replace d' with (sample_run (S n) steps d).2 by by rewrite E. apply IH; [|done].
  apply Hstep. unfold step_modelled in *. destruct st as [[p g] b].
  erewrite is_modelled_body; [done|]. done.
Qed.
Lemma seed_reachable {hash : Blake3} unmodelled : reachable unmodelled seed_database.
Proof. exists []. by split; [constructor|]. Qed.
Lemma founded_reachable : reachable no_transition founded.
Proof. apply sample_run_reachable; [apply seed_reachable|]. by vm_compute. Qed.

(** A request of the founding, another with its command id, and a later one. *)
Definition sample_first : CommandRequest.t :=
  sample_request seed_database 0 (by_kernel (CommandBody.RecordContentSealReceipt sample_digest)).
Definition sample_other : CommandRequest.t :=
  sample_request seed_database 0 (by_bootstrap CommandBody.InstallRootAuthorityOffice).
Definition sample_later : CommandRequest.t :=
  sample_request seed_database 1 (by_kernel (CommandBody.RegisterContentObject (sample_id 1))).
Definition sample_first_receipt : CommandReceipt.t :=
  CommandReceipt.new (CommandDisposition.Accepted (sample_id 1)) false.

Lemma ledger_is_sound_witness : reachable no_transition founded /\ sound founded.
Proof.
  split; [apply founded_reachable|].
  apply (ledger_is_sound no_transition). apply founded_reachable.
Defined.

Lemma execution_is_idempotent_witness :
  let db1 := step no_transition seed_database sample_first in
  let db2 := history no_transition [sample_later] db1 in
  execute no_transition sample_first db2 = (Ok (replay sample_first_receipt), db2).
Proof.
  apply (execution_is_idempotent no_transition seed_database sample_first sample_first_receipt).
  - apply seed_reachable.
  - reflexivity.
  - by repeat constructor.
  - vm_compute. reflexivity.
Defined.

Lemma command_id_names_one_request_witness :
  let db1 := step no_transition seed_database sample_first in
  (exists db2, execute no_transition sample_other (history no_transition [sample_later] db1)
               = (Err (LedgerFailure.Failed StoreError.IdempotencyConflict), db2)
     /\ same_rows (history no_transition [sample_later] db1) db2)
  \/ collides (request_preimage sample_first) (request_preimage sample_other).
Proof.
  apply (command_id_names_one_request no_transition seed_database sample_first
           sample_first_receipt).
  - apply seed_reachable.
  - reflexivity.
  - by repeat constructor.
  - vm_compute. reflexivity.
  - reflexivity.
  - by vm_compute.
Defined.



(** ** The fingerprints, with the stand-in for BLAKE3 *)

(** A request and an event whose preimages end in the same bytes as others'. *)
Definition sample_twin : CommandRequest.t :=
  sample_request seed_database 1 (by_kernel (CommandBody.RecordContentSealReceipt sample_digest)).

Definition sample_event_body : EventBody.t :=
  EventBody.ContentSealReceiptRecorded (sample_id 1) sample_digest.

Lemma request_fingerprint_commits_witness :
  sample_first = sample_twin
  \/ collides (request_preimage sample_first) (request_preimage sample_twin).
Proof.
  apply (request_fingerprint_commits sample_first sample_twin).
  apply (inj inner). vm_compute. reflexivity.
Defined.

Lemma event_fingerprint_commits_witness :
  let first := sample_command_id 0 in let second := sample_command_id 1 in
  let body := sample_event_body in
  ((sample_id 1 : EventId) = sample_id 2 /\ first = second /\ body = body)
  \/ exists l m, event_preimage (sample_id 1) first body = Some l
       /\ event_preimage (sample_id 2) second body = Some m /\ collides l m.
Proof.
  eapply (event_fingerprint_commits (sample_id 1) (sample_id 2)); [reflexivity|].
  unfold event_fingerprint, event_preimage. cbn [reaches_unreachable option_map sample_event_body].
  apply (f_equal Some). apply (inj inner). vm_compute. reflexivity.
Defined.
