(* ===== verification/StoreSafety.v ===== *)
(** * Safety of cycles and budget

    Over every history of modelled requests: the ledger is a run of the machine of
    [StoreMachine], one cycle is live at a time, cycles follow their state machine and close
    quiescent, envelopes account for what was reserved and spent and respect their
    ceilings; and a request decided on an old generation of its cycle is rejected. *)

From S2P Require Import Prelude.
From S2P Require Import Machine.
From S2P Require Import Hash.
From S2P Require Import KernelScalars.
From S2P Require Import KernelEnums.
From S2P Require Import KernelCustody.
From S2P Require Import KernelCommands.
From S2P Require Import KernelCodes.
From S2P Require Import SqlTable.
From S2P Require Import StoreTables.
From S2P Require Import StoreQueries.
From S2P Require Import StoreFounding.
From S2P Require Import StoreCycle.
From S2P Require Import StoreBudget.
From S2P Require Import StoreProject.
From S2P Require Import StoreWork.
From S2P Require Import StoreReview.
From S2P Require Import StoreLedger.
From S2P Require Import StoreLogic.
From S2P Require Import StoreFrame.
From S2P Require Import StoreMachine.
From S2P Require Import StoreRefine.
From S2P Require Import StoreLedgerSpec.
From S2P Require Import StoreHistory.
From S2P Require Import StoreSample.
From S2P Require Import StoreRefineCycle.
From S2P Require Import StoreLedgerSafety.

Section Safety.
Context {hash : Blake3}.
Variable unmodelled : Z -> CommandRequest.t -> store EventBody.t.
Implicit Types (db : Database.t) (request : CommandRequest.t).

Lemma seed_inv : inv (core seed_database).
Proof. constructor; [by intros ????|apply map_Forall_empty..]. Qed.

(** A request takes [core] along moves, from an invariant. *)
Lemma step_moves db request :
  is_modelled request = true -> inv (core db) ->
  moves (core db) (core (step unmodelled db request)).
Proof.
  intros Hm Hi.
  apply (step_core unmodelled (fun c => moves (core db) c) db request Hm); [|apply rtc_refl].
  intros id m db1 body db2 Hmod _ Hy Hmoves. etrans; [exact Hmoves|].
  eapply transition_moves; [done|done| |done]. by eapply moves_inv.
Qed.

Lemma reachable_inv db : reachable unmodelled db -> inv (core db).
Proof.
  apply (reachable_induction unmodelled (fun d => inv (core d))); [apply seed_inv|]. intros db1 request Hm Hi.
  eapply moves_inv; [by apply step_moves|done].
Qed.

Lemma history_moves requests db :
  all_modelled requests -> inv (core db) ->
  moves (core db) (core (history unmodelled requests db)).
Proof.
  intros Hall Hi. apply (history_induction unmodelled (fun d => moves (core db) (core d)));
    [|done|apply rtc_refl].
  intros d request Hm Hd. etrans; [exact Hd|]. apply step_moves; [done|]. by eapply moves_inv.
Qed.

Lemma rtc_cycle_step_terminal x y :
  rtc cycle_step x y -> OperatingCycleState.is_nonterminal x.1 = false -> y = x.
Proof.
  intros H Hx. destruct H as [|x y z H _]; [done|]. apply cycle_step_nonterminal in H. congruence.
Qed.
Lemma rtc_cycle_step_generation x y : rtc cycle_step x y -> x.2 <= y.2.
Proof. induction 1 as [|x y z H _ IH]; [done|]. apply cycle_step_generation in H. lia. Qed.


(** A cycle that exists keeps existing, moves along the state machine of [cycle_step]
    only, and its admission generation never decreases. *)
Theorem cycle_follows_state_machine db requests k row x :
  reachable unmodelled db -> all_modelled requests ->
  Core.operating_cycles (core db) !! k = Some row -> cycle_is row x ->
  exists row' y, Core.operating_cycles (core (history unmodelled requests db)) !! k = Some row'
    /\ cycle_is row' y /\ rtc cycle_step x y /\ x.2 <= y.2.
Proof.
  intros Hr Hall Hk Hx.
  pose proof (history_moves requests db Hall (reachable_inv db Hr)) as Hm.
  destruct (moves_cycle _ _ _ _ Hm Hk) as (row' & Hk' & Hcm).
  destruct (Hcm x Hx) as (y & Hy & Hxy). exists row', y.
  eauto using rtc_cycle_step_generation.
Qed.

(** At most one operating cycle is live at a time. *)
Theorem at_most_one_live_cycle db k1 k2 :
  reachable unmodelled db -> live_cycle (core db) k1 -> live_cycle (core db) k2 -> k1 = k2.
Proof.
  intros Hr (r1 & H1 & T1) (r2 & H2 & T2). by eapply (one_live_cycle _ (reachable_inv db Hr)).
Qed.

(** C14: a cycle that has ended is quiescent and final: no session, turn, reservation or
    cancellation of it is pending, now or after any further requests, and its state and
    generation are the ones it ended with. *)
Theorem ended_cycle_is_quiescent_and_final db requests k row x :
  reachable unmodelled db -> all_modelled requests ->
  Core.operating_cycles (core db) !! k = Some row -> cycle_is row x ->
  OperatingCycleState.is_nonterminal x.1 = false ->
  let after := core (history unmodelled requests db) in
  quiescent after k
  /\ exists row', Core.operating_cycles after !! k = Some row' /\ cycle_is row' x.
Proof.
  intros Hr Hall Hk Hx Hn after.
  pose proof (history_moves requests db Hall (reachable_inv db Hr)) as Hm.
  assert (inv after) as Hi by (by eapply moves_inv; [|apply reachable_inv]).
  destruct (moves_cycle _ _ _ _ Hm Hk) as (row' & Hk' & Hcm).
  destruct (Hcm x Hx) as (y & Hy & Hxy%rtc_cycle_step_terminal); [|done]. subst y.
  split; [|by exists row'].
  assert (~ live_cycle after k) as Hdead.
  { intros (r & Hr' & Ht). change (Core.operating_cycles after !! k = Some row') in Hk'.
    rewrite Hk' in Hr'. apply (inj Some) in Hr' as <-.
    rewrite (terminal_cycle_code _ _ Hy), Hn in Ht. done. }
  constructor; intros j.
  - intros s Hj <-. apply not_true_is_false. intros Hl. by apply Hdead, (session_pending _ Hi j).
  - intros t Hj s Hs <-. apply not_true_is_false. intros Ha.
    destruct (turn_pending _ Hi j t Hj Ha) as (s' & Hs' & Hl). apply Hdead.
    rewrite Hs in Hs'. by apply (inj Some) in Hs' as <-.
  - intros r Hj <-. apply not_false_is_true. intros Hl.
    by apply Hdead, (reservation_pending _ Hi j).
  - intros c Hj <-. apply not_true_is_false. intros Hl.
    by apply Hdead, (cancellation_pending _ Hi j).
Qed.

(** C13: an envelope accounts exactly for its charges: what it reserves is the sum of the
    amounts held by the reservations that are not reconciled, what it has spent is the sum
    of what the reservations were charged. *)
Theorem envelopes_balance db k e :
  reachable unmodelled db -> Core.envelopes (core db) !! k = Some e ->
  BudgetEnvelopes.reserved_micros e
    = map_sum (held_by (Core.reservations (core db)) k) (Core.charges (core db))
  /\ BudgetEnvelopes.spent_micros e
    = map_sum (spent_by (Core.reservations (core db)) k) (Core.charges (core db)).
Proof. intros Hr He. by apply (balanced _ (reachable_inv db Hr)). Qed.

(** C12: the hard ceiling: what an envelope has spent and still reserves exceeds its ceiling
    by no more than the observed overruns of its reservations; without an overrun it stays
    within the ceiling. *)
Theorem ceiling_is_hard db k e :
  reachable unmodelled db -> Core.envelopes (core db) !! k = Some e ->
  BudgetEnvelopes.reserved_micros e + BudgetEnvelopes.spent_micros e
    <= BudgetEnvelopes.ceiling_micros e
       + map_sum (overrun_by (Core.reservations (core db)) k) (Core.charges (core db))
  /\ (map_Forall (fun _ r => BudgetReservations.charged_micros r
                             <= BudgetReservations.amount_micros r)
        (Core.reservations (core db)) ->
      BudgetEnvelopes.reserved_micros e + BudgetEnvelopes.spent_micros e
      <= BudgetEnvelopes.ceiling_micros e).
Proof.
  intros Hr He. pose proof (solvent _ (reachable_inv db Hr) k e He) as Hs. split; [done|].
  intros Hno. cbv beta in Hs. rewrite map_sum_zero in Hs; [lia|]. intros j x _.
  unfold overrun_by, at_envelope. destruct (_ =? _); [|done].
  destruct (Core.reservations (core db) !! _) as [r|] eqn:E; [|done]. specialize (Hno _ _ E). cbn in Hno. lia.
Qed.
End Safety.

(** ** The fence of generations

    Every modelled command that names its cycle and an exact generation compares it with
    the generation of the cycle before it writes. *)

(** The transition succeeds only when [expected] is the generation of the cycle. *)
Definition fenced {A} (expected : ExpectedGeneration.t) (id : OperatingCycleId) (m : store A) :
  Prop :=
  forall db a db', yields m db a db' ->
    exists cycle, at_cycle db id cycle
      /\ expected = ExpectedGeneration.Exact (CycleRow.generation cycle).

Lemma fenced_generation expected id : fenced expected id (cycle_for_generation id expected).
Proof. intros db a db' (-> & Hat & Heq)%cycle_for_generation_ok. by exists a. Qed.
Lemma fenced_head {A B} expected id (m : store A) (k : A -> store B) :
  fenced expected id m -> fenced expected id (m_bind m k).
Proof. intros Hm db b db' (a & db1 & H & _)%yields_bind. by eapply Hm. Qed.
Lemma fenced_later {A B} expected id (m : store A) (k : A -> store B) :
  reads m -> (forall a, fenced expected id (k a)) -> fenced expected id (m_bind m k).
Proof.
  intros Hm Hk db b db' (a & db1 & H & Hy)%yields_bind.
  rewrite (reads_same _ _ _ _ Hm H) in Hy. by eapply Hk.
Qed.
Lemma fenced_fail {A} expected id e : fenced (A := A) expected id (m_fail e).
Proof. by intros db a db' ?%yields_fail. Qed.
Lemma fenced_coordination expected id : fenced expected id (coordination_cycle expected id).
Proof. apply fenced_head, fenced_generation. Qed.

Ltac solve_fenced :=
  cbv zeta;
  first
  [ apply fenced_generation | apply fenced_coordination | apply fenced_fail
  | apply fenced_head; solve_fenced
  | apply fenced_later; [reads_only|intros ?; solve_fenced]
  | match goal with |- fenced _ _ (let '(_, _) := ?p in _) => destruct p; solve_fenced end
  | match goal with |- fenced _ _ ?m => let h := head_of m in unfold h; solve_fenced end ].

Lemma modelled_is_fenced id request m cycle_id :
  modelled id request = Some m ->
  needs_exact_generation (CommandRequest.body request) = true ->
  direct_cycle (CommandRequest.body request) = Some cycle_id ->
  fenced (CommandRequest.expected_generation request) cycle_id m.
Proof.
  unfold modelled, dispatch_lifecycle, dispatch_coordination, dispatch_work. intros H Hn Hd.
  destruct (CommandRequest.body request); try discriminate Hd; try discriminate Hn;
    try discriminate H; apply (inj Some) in Hd as <-; apply (inj Some) in H as <-.
  all: solve_fenced.
Qed.

Section Fence.
Context {hash : Blake3}.
Variable unmodelled : Z -> CommandRequest.t -> store EventBody.t.
Implicit Types (db : Database.t) (request : CommandRequest.t).

(** C33: a command that names its operating cycle and needs an exact generation is accepted
    only when the generation it names is the one the cycle stores: after a quiescence, a
    cancellation or a freeze has moved the generation, a request decided on the old one is
    rejected. *)
Theorem accepted_generation_is_current db request cycle_id event_id db' :
  is_modelled request = true ->
  needs_exact_generation (CommandRequest.body request) = true ->
  direct_cycle (CommandRequest.body request) = Some cycle_id ->
  execute unmodelled request db
  = (Ok (CommandReceipt.new (CommandDisposition.Accepted event_id) false), db') ->
  exists cycle, at_cycle db cycle_id cycle
    /\ CommandRequest.expected_generation request
       = ExpectedGeneration.Exact (CycleRow.generation cycle).
Proof.
  intros Hm Hn Hd H%execute_ok. inversion H; subst.
  { match goal with H : recorded_receipt _ = _ |- _ => apply recorded_receipt_replay in H end.
    done. }
  match goal with H : yields (dispatch _ ?i _) _ _ _ |- _ =>
    rename H into Hy; destruct (is_modelled_at i request Hm) as [m Hmod] end.
  unfold dispatch in Hy. rewrite Hmod in Hy.
  exact (modelled_is_fenced _ _ _ _ Hmod Hn Hd _ _ _ Hy).
Qed.
End Fence.

Lemma accepted_generation_is_current_witness :
  let request := sample_request working 14
    (by_root 0 (CommandBody.QuiesceOperatingCycle sample_cycle)) in
  exists cycle, at_cycle working sample_cycle cycle
    /\ CommandRequest.expected_generation request
       = ExpectedGeneration.Exact (CycleRow.generation cycle).
Proof.
  intros request.
  apply (accepted_generation_is_current no_transition working request sample_cycle (sample_id 15)
           (step no_transition working request)); [reflexivity..|].
  vm_compute. reflexivity.
Defined.
