(* ===== verification/StoreProgress.v ===== *)
(** * Progress of cycles

    A drained cycle with nothing pending can be closed; two situations from which a cycle
    never ends: a reconciliation that was begun and then cancelled, and a frozen cost in a
    qualification cycle. *)

From S2P Require Import Prelude.
From S2P Require Import Machine.
From S2P Require Import Hash.
From S2P Require Import KernelScalars.
From S2P Require Import KernelEnums.
From S2P Require Import KernelCustody.
From S2P Require Import KernelCommands.
From S2P Require Import KernelCodes.
From S2P Require Import SqlTable.
From S2P Require Import StoreTables.
From S2P Require Import StoreQueries.
From S2P Require Import StoreFounding.
From S2P Require Import StoreCycle.
From S2P Require Import StoreBudget.
From S2P Require Import StoreProject.
From S2P Require Import StoreWork.
From S2P Require Import StoreReview.
From S2P Require Import StoreLedger.
From S2P Require Import StoreLogic.
From S2P Require Import StoreFrame.
From S2P Require Import StoreMachine.
From S2P Require Import StoreRefine.
From S2P Require Import StoreLedgerSpec.
From S2P Require Import StoreHistory.
From S2P Require Import StoreSample.
From S2P Require Import StoreRefineCycle.
From S2P Require Import StoreLedgerSafety.
From S2P Require Import StoreSafety.

(** ** A reconciliation that cannot begin again *)

(** The cycle has begun its reconciliation before, and left it alive. *)
Definition stuck (c : Core.t) (k : Z) : Prop :=
  is_Some (Core.reconciliations c !! k)
  /\ exists row x, Core.operating_cycles c !! k = Some row /\ cycle_is row x
       /\ OperatingCycleState.is_nonterminal x.1 = true
       /\ x.1 <> OperatingCycleState.Reconciling.

Lemma stuck_live c k : stuck c k -> live_cycle c k.
Proof. intros (_ & row & x & Hrow & Hx & Hn & _). by eapply row_live. Qed.

Lemma stuck_step x y :
  cycle_step x y -> x.1 <> OperatingCycleState.Reconciling ->
  y.1 <> OperatingCycleState.Reconciling ->
  OperatingCycleState.is_nonterminal y.1 = true.
Proof. intros H. destruct H; elem_cases; done. Qed.

Lemma stuck_move c c' k : move c c' -> stuck c k -> stuck c' k.
Proof.
  intros Hm ([r Hrec] & row & x & Hrow & Hx & Hn & Hs).
  destruct Hm as [| | |j row' Hall Hj Hx'|j row0 row' x' y Hj Hx' Hy Hstep Hq Hr|j r'| | | | | | | | | | |];
    try (split; [by exists r|]; by exists row, x).
  - split; [by exists r|]. exists row, x. cbn. rewrite lookup_insert_ne; [done|].
    intros ->. congruence.
  - split; [by exists r|]. cbn. destruct (decide (j = k)) as [->|Hne].
    + rewrite Hrow in Hj. apply (inj Some) in Hj as <-.
      rewrite (cycle_is_inj _ _ _ Hx' Hx) in Hstep. exists row', y. rewrite lookup_insert_eq.
      assert (y.1 <> OperatingCycleState.Reconciling) as Hy1.
      { intros Heq. rewrite Hr in Hrec; done. }
      eauto using stuck_step.
    + exists row, x. by rewrite lookup_insert_ne.
  - split; [|by exists row, x]. cbn. destruct (decide (j = k)) as [->|Hne].
    + rewrite lookup_insert_eq. by eexists.
    + rewrite lookup_insert_ne by done. by exists r.
Qed.

(** While a cycle is stuck no other is proposed. *)
Lemma stuck_moves c c' k :
  moves c c' -> stuck c k ->
  stuck c' k /\ forall j, is_Some (Core.operating_cycles c' !! j)
                        -> is_Some (Core.operating_cycles c !! j).
Proof.
  induction 1 as [c|c c1 c' Hm _ IH]; intros Hs; [by split|].
  destruct (IH (stuck_move _ _ _ Hm Hs)) as [Hs' Hold]. split; [done|].
  intros j Hj%Hold. destruct Hs as (_ & row & x & Hrow & Hx & Hn & _).
  destruct Hm as [| | |i row' Hall Hi Hx'|i row0 row' x' y Hi Hx' Hy Hstep Hq Hr| | | | | | | | | | | |];
    try exact Hj; cbn in Hj.
  - specialize (Hall k row Hrow). cbv beta in Hall. rewrite (terminal_cycle_code _ _ Hx), Hn in Hall. done.
  - destruct Hj as [r Hj]. apply lookup_insert_Some in Hj as [[<- _]|[_ Hj]]; by eexists.
Qed.

(** ** Running a transition *)

Section Forward.
Context {S A B : Type}.
Implicit Types (db : S).
Lemma bind_yields (m : method S Rejection.t A) (k : A -> method S Rejection.t B)
  db a db1 b db2 :
  yields m db a db1 -> yields (k a) db1 b db2 -> yields (m_bind m k) db b db2.
Proof. unfold yields, m_bind. by intros ->. Qed.
Lemma or_reject_yields {E} (r : result A E) e db a : r = Ok a -> yields (or_reject r e) db a db.
Proof. by intros ->. Qed.
End Forward.
Lemma ensure_yields {S} c e (db : S) : c = true -> yields (ensure c e) db () db.
Proof. by intros ->. Qed.
Lemma select_yields {S R} (proj : S -> table R) id e db r :
  rows (proj db) !! id = Some r -> yields (select proj id e) db r db.
Proof. unfold yields, select. by intros ->. Qed.
Lemma update_yields {S R} `{!Constraints R} (proj : S -> table R) `{!Update proj} id f e
  db r :
  rows (proj db) !! id = Some r -> constraints (delete id (rows (proj db))) (f r) = true ->
  yields (update_row proj id f e) db ()
    (db <| proj := Table (<[id := f r]> (rows (proj db))) (next_id (proj db)) |>).
Proof.
  unfold yields, update_row, update_checked, sql_update. by intros -> ->.
Qed.

(** The cycle row after a change of its state. *)
Lemma cycle_row_set db db' id cycle row state command :
  yields (cycle_row id) db cycle db ->
  rows (Database.operating_cycles db) !! Identifier.value id = Some row ->
  rows (Database.operating_cycles db') !! Identifier.value id
    = Some (row <| OperatingCycles.lifecycle_state := OperatingCycleState.as_i64 state |>
                <| OperatingCycles.admission_generation :=
                     AdmissionGeneration.value (CycleRow.generation cycle) |>
                <| OperatingCycles.last_transition_command_id := command |>) ->
  yields (cycle_row id) db'
    (CycleRow.new (CycleRow.society_id cycle) (CycleRow.mission_id cycle)
       (CycleRow.occupancy_id cycle) (CycleRow.treatment cycle) state
       (CycleRow.generation cycle)) db'.
Proof.
  unfold cycle_row. intros H Hrow Hrow'. yields_inv.
  match goal with H : rows _ !! _ = Some ?r, H' : rows _ !! _ = Some row |- _ =>
    rewrite H in H'; apply (inj Some) in H' as <- end.
  eapply bind_yields; [apply select_yields; exact Hrow'|]. cbn.
  do 4 (eapply bind_yields; [apply or_reject_yields; eassumption|]).
  eapply bind_yields; [apply or_reject_yields, table_exact|].
  eapply bind_yields; [|done]. apply or_reject_yields.
  unfold AdmissionGeneration.try_from, AdmissionGeneration.value. by rewrite checked_inner.
Qed.

Lemma exact_generation_yields db id cycle :
  yields (cycle_row id) db cycle db ->
  yields (cycle_for_generation id (ExpectedGeneration.Exact (CycleRow.generation cycle)))
    db cycle db.
Proof.
  intros H. eapply bind_yields; [exact H|]. cbv beta. by rewrite decide_True.
Qed.

Lemma read_yields {A} (f : Database.t -> A) db db' a :
  yields (read f) db a db -> f db' = f db -> yields (read f) db' a db'.
Proof. intros [-> _]%yields_read <-. done. Qed.

Lemma read_at {A} (f : Database.t -> A) db a : f db = a -> yields (read f) db a db.
Proof. by intros <-. Qed.

(** No turn, session, reservation, cancellation, attempt, lease or child of the cycle. *)
Record quiet (db : Database.t) (id : OperatingCycleId) : Prop := {
  quiet_turns : yields (active_office_turn_count id) db 0 db;
  quiet_sessions : yields (live_office_session_count id) db 0 db;
  quiet_reservations : yields (unreconciled_reservation_count id) db 0 db;
  quiet_cancellations : yields (active_cancellation_count id) db 0 db;
  quiet_attempts : yields (live_actor_attempt_count id) db 0 db;
  quiet_leases : yields (active_work_lease_count id) db 0 db;
  quiet_children : yields (live_native_child_count id) db 0 db;
}.

(** A change of state and generation keeps the checks of the row. *)
Lemma cycle_checks_kept m m' (row : OperatingCycles.t) state (generation : AdmissionGeneration.t)
  command :
  constraints m row = true ->
  constraints m' (row <| OperatingCycles.lifecycle_state := OperatingCycleState.as_i64 state |>
                      <| OperatingCycles.admission_generation :=
                           AdmissionGeneration.value generation |>
                      <| OperatingCycles.last_transition_command_id := command |>) = true.
Proof.
  unfold constraints, OperatingCycles.valid. cbn. intros H.
  apply andb_true_iff in H as [H _]. apply andb_true_iff in H as [H _].
  rewrite H. cbn [andb]. destruct generation as [g Hg]. unfold AdmissionGeneration.ok in Hg.
  bool_hyps. unfold AdmissionGeneration.value. cbn.
  rewrite (proj2 (Z.leb_le 0 g)) by lia. by destruct state.
Qed.

(** The transition of a stored cycle. *)
Lemma transition_cycle_yields command db id cycle row state :
  yields (cycle_row id) db cycle db ->
  rows (Database.operating_cycles db) !! Identifier.value id = Some row ->
  constraints ∅ row = true ->
  exists t row',
    yields (transition_cycle command id state (CycleRow.generation cycle)) db ()
      (db <| Database.operating_cycles := t |>)
    /\ rows t !! Identifier.value id = Some row' /\ constraints ∅ row' = true
    /\ cycle_is row' (state, AdmissionGeneration.value (CycleRow.generation cycle))
    /\ forall db', Database.operating_cycles db' = t ->
         yields (cycle_row id) db'
           (CycleRow.new (CycleRow.society_id cycle) (CycleRow.mission_id cycle)
              (CycleRow.occupancy_id cycle) (CycleRow.treatment cycle) state
              (CycleRow.generation cycle)) db'.
Proof.
  intros Hc Hrow Hv. eexists _, _. split_and!.
  - eapply update_yields; [exact Hrow|]. by apply (cycle_checks_kept ∅).
  - cbn. apply lookup_insert_eq.
  - by apply (cycle_checks_kept ∅).
  - by split.
  - intros db' Hdb'. eapply cycle_row_set; [exact Hc|exact Hrow|].
    rewrite Hdb'. cbn. by rewrite lookup_insert_eq.
Qed.

(** C34: a drained cycle with nothing pending, whose reconciliation was not begun before, can
    be closed: reconciling and then closing it succeed, and leave it closed at the same
    generation. *)
Theorem drained_cycle_can_close db id cycle row command1 command2 :
  yields (cycle_row id) db cycle db ->
  CycleRow.state cycle = OperatingCycleState.Drained ->
  rows (Database.operating_cycles db) !! Identifier.value id = Some row ->
  constraints ∅ row = true ->
  rows (Database.operating_cycle_reconciliations db) !! Identifier.value id = None ->
  quiet db id ->
  let generation := ExpectedGeneration.Exact (CycleRow.generation cycle) in
  exists e1 db1 e2 db2 row',
    yields (begin_reconciliation command1 generation id) db e1 db1
    /\ yields (close_cycle command2 generation id) db1 e2 db2
    /\ rows (Database.operating_cycles db2) !! Identifier.value id = Some row'
    /\ cycle_is row' (OperatingCycleState.Closed,
                      AdmissionGeneration.value (CycleRow.generation cycle)).
Proof.
  intros Hc Hst Hrow Hv Hrec [Q1 Q2 Q3 Q4 Q5 Q6 Q7] generation.
  destruct (transition_cycle_yields command1 db id cycle row OperatingCycleState.Reconciling
              Hc Hrow Hv) as (t1 & row1 & H1 & Hrow1 & Hv1 & _ & Hnext1).
  set (rec := <[Identifier.value id := OperatingCycleReconciliations.new command1 None]>
                (rows (Database.operating_cycle_reconciliations db))).
  set (db1 := db <| Database.operating_cycles := t1 |>
                 <| Database.operating_cycle_reconciliations :=
                      Table rec (next_id (Database.operating_cycle_reconciliations db)) |>).
  specialize (Hnext1 db1 eq_refl).
  destruct (transition_cycle_yields command2 db1 id _ row1 OperatingCycleState.Closed
              Hnext1 Hrow1 Hv1) as (t2 & row2 & H2 & Hrow2 & _ & His2 & _).
  eexists _, db1, _, _, row2. split; [|split; [|split; [|exact His2]]].
  - eapply bind_yields; [by apply exact_generation_yields|].
    eapply bind_yields; [apply ensure_yields; unfold cycle_in; by rewrite Hst|].
    eapply bind_yields; [exact H1|].
    eapply bind_yields; [|done].
    unfold yields, insert_with_key, sql_insert_key. cbn. by rewrite Hrec.
  - eapply bind_yields; [by apply (exact_generation_yields db1 id) in Hnext1|].
    do 1 (eapply bind_yields; [by apply ensure_yields|]).
    eapply bind_yields; [by apply (read_yields _ db)|].
    eapply bind_yields; [by apply (read_yields _ db)|].
    eapply bind_yields; [by apply (read_yields _ db)|].
    eapply bind_yields; [by apply (read_yields _ db)|].
    eapply bind_yields; [by apply (read_yields _ db)|].
    eapply bind_yields; [by apply (read_yields _ db)|].
    eapply bind_yields; [by apply (read_yields _ db)|].
    eapply bind_yields; [by apply ensure_yields|].
    eapply bind_yields; [exact H2|].
    eapply bind_yields; [|done].
    eapply update_yields; [apply lookup_insert_eq|done].
  - cbn. exact Hrow2.
Qed.

Section Progress.
Context {hash : Blake3}.
Variable unmodelled : Z -> CommandRequest.t -> store EventBody.t.
Implicit Types (db : Database.t) (request : CommandRequest.t).

(** C35: a cycle whose reconciliation was begun and that then left [Reconciling] alive, as
    freezing a cost makes it do, is never closed and never reconciles again, whatever is
    requested, and no other cycle is ever proposed. *)
Theorem cancelled_reconciliation_is_a_dead_end db requests k :
  reachable unmodelled db -> all_modelled requests -> stuck (core db) k ->
  let after := core (history unmodelled requests db) in
  stuck after k
  /\ forall j, is_Some (Core.operating_cycles after !! j) ->
       is_Some (Core.operating_cycles (core db) !! j).
Proof.
  intros Hr Hall Hs. apply stuck_moves; [|done]. apply history_moves; [done|].
  by apply (reachable_inv unmodelled).
Qed.

(** ** The fence of a qualification cycle *)

(** In a cycle of the qualification treatment no principal can close a cost postmortem:
    the request is fenced, so a reservation frozen there is never reconciled. *)
Theorem qualification_fences_cost_postmortems db request postmortem resolution p r event db' :
  CommandRequest.body request = CommandBody.CloseCostPostmortem postmortem resolution ->
  rows (Database.cost_postmortems db) !! Identifier.value postmortem = Some p ->
  rows (Database.operating_cycles db) !! CostPostmortems.operating_cycle_id p = Some r ->
  OperatingCycles.treatment r
    = OperatingCycleTreatment.as_i64 OperatingCycleTreatment.PiSdkQualificationV1 ->
  execute unmodelled request db
    <> (Ok (CommandReceipt.new (CommandDisposition.Accepted event) false), db').
Proof.
  intros Hbody Hp Hr Ht H. apply execute_ok in H. inversion H; subst.
  { match goal with H : recorded_receipt _ = _ |- _ => apply recorded_receipt_replay in H end.
    done. }
  match goal with H : admitted _ _ |- _ => destruct H as [_ _ _ _ Hfence] end.
  unfold qualification_treatment_fences_request in Hfence. rewrite Hbody in Hfence.
  unfold command_operating_cycle_for_treatment, stored_identifier in Hfence.
  cbn [direct_cycle indirect_cycle] in Hfence. ledger_inv.
  cbn [inserted] in H0. change (rows (Database.cost_postmortems (inserted id t request db)))
    with (rows (Database.cost_postmortems db)) in H0.
  rewrite Hp in H0. cbn [option_map optional_identifier] in H0.
  destruct (Identifier.try_from _) as [cycle|] eqn:Ecycle; [|done]. cbn in H0.
  injection H0 as <-. apply Identifier.try_from_ok in Ecycle. ledger_inv.
  rewrite Ecycle in H0.
  change (rows (Database.operating_cycles (inserted id t request db)))
    with (rows (Database.operating_cycles db)) in H0.
  rewrite Hr in H0. cbn [option_map] in H0. rewrite Ht in H0.
  unfold qualification_permits in H0.
  by destruct (decide (CommandRequest.principal_id request = BOOTSTRAP)),
    (decide (CommandRequest.principal_id request = KERNEL)).
Qed.
End Progress.

(** ** The sample ledger *)

Lemma working_reachable : reachable no_transition working.
Proof. apply sample_run_reachable; [apply founded_reachable|]. by vm_compute. Qed.
Lemma closed_reachable : reachable no_transition closed.
Proof. apply sample_run_reachable; [apply working_reachable|]. by vm_compute. Qed.
Lemma frozen_reachable : reachable no_transition frozen.
Proof. apply sample_run_reachable; [apply working_reachable|]. by vm_compute. Qed.

(** A request of each kind that the samples run next. *)
Definition sample_quiesce : CommandRequest.t :=
  sample_request working 14 (by_root 0 (CommandBody.QuiesceOperatingCycle sample_cycle)).
Definition sample_propose : CommandRequest.t :=
  sample_request frozen 21 (by_root_anytime
    (CommandBody.ProposeOperatingCycle OperatingCycleTreatment.PinnedPiSdkLiveV1 (usd 100))).
Definition sample_resolve : CommandRequest.t :=
  sample_request qualifying 14 (by_root 1
    (CommandBody.CloseCostPostmortem (sample_id 1)
       CostPostmortemResolution.ConservativeFullReservation)).


Definition sample_cycle_row (db : Database.t) : OperatingCycles.t :=
  default (OperatingCycles.new 0 0 0 0 0 0 0 0 0) (rows (Database.operating_cycles db) !! 1).

Lemma cycle_follows_state_machine_witness :
  exists row' y, Core.operating_cycles (core (history no_transition [sample_quiesce] working))
                   !! 1 = Some row'
    /\ cycle_is row' y /\ rtc cycle_step (OperatingCycleState.Running, 0) y /\ 0 <= y.2.
Proof.
  apply (cycle_follows_state_machine no_transition working [sample_quiesce] 1
           (sample_cycle_row working) (OperatingCycleState.Running, 0)).
  - apply working_reachable.
  - by repeat constructor.
  - vm_compute. reflexivity.
  - split; vm_compute; reflexivity.
Defined.

Lemma at_most_one_live_cycle_witness : live_cycle (core working) 1 /\ 1 = 1.
Proof.
  assert (live_cycle (core working) 1) as H.
  { exists (sample_cycle_row working). split; vm_compute; reflexivity. }
  split; [exact H|].
  exact (at_most_one_live_cycle no_transition working 1 1 working_reachable H H).
Defined.

Lemma ended_cycle_is_quiescent_and_final_witness :
  let after := core (history no_transition [sample_propose] closed) in
  quiescent after 1
  /\ exists row', Core.operating_cycles after !! 1 = Some row'
       /\ cycle_is row' (OperatingCycleState.Closed, 1).
Proof.
  apply (ended_cycle_is_quiescent_and_final no_transition closed [sample_propose] 1
           (sample_cycle_row closed) (OperatingCycleState.Closed, 1)).
  - apply closed_reachable.
  - by repeat constructor.
  - vm_compute. reflexivity.
  - split; vm_compute; reflexivity.
  - reflexivity.
Defined.

(** The envelope of the cycle: 200 held, 150 spent, of 500. *)
Definition sample_envelope : BudgetEnvelopes.t := BudgetEnvelopes.new 500 200 150 9.

Lemma envelopes_balance_witness :
  200 = map_sum (held_by (Core.reservations (core working)) 2) (Core.charges (core working))
  /\ 150 = map_sum (spent_by (Core.reservations (core working)) 2) (Core.charges (core working)).
Proof.
  apply (envelopes_balance no_transition working 2 sample_envelope working_reachable).
  vm_compute. reflexivity.
Defined.

Lemma ceiling_is_hard_witness :
  200 + 150 <= 500 + map_sum (overrun_by (Core.reservations (core working)) 2)
                       (Core.charges (core working))
  /\ (map_Forall (fun _ r => BudgetReservations.charged_micros r
                            <= BudgetReservations.amount_micros r)
        (Core.reservations (core working)) -> 200 + 150 <= 500).
Proof.
  apply (ceiling_is_hard no_transition working 2 sample_envelope working_reachable).
  vm_compute. reflexivity.
Defined.

Lemma cancelled_reconciliation_is_a_dead_end_witness :
  let after := core (history no_transition [sample_propose] frozen) in
  stuck after 1
  /\ forall j, is_Some (Core.operating_cycles after !! j) ->
       is_Some (Core.operating_cycles (core frozen) !! j).
Proof.
  apply (cancelled_reconciliation_is_a_dead_end no_transition frozen [sample_propose] 1).
  - apply frozen_reachable.
  - by repeat constructor.
  - split; [vm_compute; eexists; reflexivity|].
    exists (sample_cycle_row frozen), (OperatingCycleState.Drained, 2).
    split_and!; [vm_compute; reflexivity|split; vm_compute; reflexivity|reflexivity|discriminate].
Defined.

Lemma qualification_fences_cost_postmortems_witness :
  execute no_transition sample_resolve qualifying
    <> (Ok (CommandReceipt.new (CommandDisposition.Accepted (sample_id 15)) false), qualifying).
Proof.
  eapply (qualification_fences_cost_postmortems no_transition qualifying sample_resolve
            (sample_id 1)).
  - reflexivity.
  - vm_compute. reflexivity.
  - vm_compute. reflexivity.
  - reflexivity.
Defined.

(** The closing sample before it reconciles. *)
Definition drained : Database.t :=
  (sample_run 14 (firstn 4 closing_steps) working).2.

Lemma drained_cycle_can_close_witness :
  exists e1 db1 e2 db2 row',
    yields (begin_reconciliation 50 (sample_generation 1) sample_cycle) drained e1 db1
    /\ yields (close_cycle 51 (sample_generation 1) sample_cycle) db1 e2 db2
    /\ rows (Database.operating_cycles db2) !! 1 = Some row'
    /\ cycle_is row' (OperatingCycleState.Closed, 1).
Proof.
  apply (drained_cycle_can_close drained sample_cycle
    (CycleRow.new (sample_id 1) (sample_id 1) (sample_id 1)
       OperatingCycleTreatment.PinnedPiSdkLiveV1 OperatingCycleState.Drained
       (Newtype 1 eq_refl)) (sample_cycle_row drained) 50 51).
  - vm_compute. reflexivity.
  - reflexivity.
  - vm_compute. reflexivity.
  - vm_compute. reflexivity.
  - vm_compute. reflexivity.
  - split; apply read_at; vm_compute; reflexivity.
Defined.
