(* ===== verification/StudyTables.v ===== *)
(** * The tables of the study

    [schema/postgres/kernel.sql]: one module per table of the study protocol, as in
    [StoreTables], and the database of a study transition: the tables of the study beside
    those of the ledger. *)

From S2P Require Import Prelude.
From S2P Require Import Machine.
From S2P Require Import SqlTable.
From S2P Require Import StoreTables.

(** ** Protocols and revisions *)

Module StudyProtocolRevisions.
Record t := new {
  application_revision_id : Z;
  protocol_digest : list byte;
  actor_policy_digest : list byte;
  forum_prompt_digest : list byte;
  forum_tool_digest : list byte;
  evidence_digest : list byte;
  ground_truth_commitment_digest : list byte;
  correction_digest : list byte;
  topology_digest : list byte;
  episode_budget_units : Z;
  admitted_by_command_id : Z;
}.
#[global] Instance fields : Fields t := fun r =>
  new (application_revision_id r) (protocol_digest r) (actor_policy_digest r)
    (forum_prompt_digest r) (forum_tool_digest r) (evidence_digest r)
    (ground_truth_commitment_digest r) (correction_digest r) (topology_digest r)
    (episode_budget_units r) (admitted_by_command_id r).
#[global] Instance valid : Constraints t := fun _ r =>
  (length (protocol_digest r) =? 32)%nat
  && (length (actor_policy_digest r) =? 32)%nat
  && (length (forum_prompt_digest r) =? 32)%nat
  && (length (forum_tool_digest r) =? 32)%nat
  && (length (evidence_digest r) =? 32)%nat
  && (length (ground_truth_commitment_digest r) =? 32)%nat
  && (length (correction_digest r) =? 32)%nat
  && (length (topology_digest r) =? 32)%nat
  && (0 <=? episode_budget_units r).
End StudyProtocolRevisions.

Module StudyWorldRevisions.
Record t := new {
  study_protocol_revision_id : Z;
  world_digest : list byte;
  admitted_by_command_id : Z;
}.
#[global] Instance fields : Fields t := fun r =>
  new (study_protocol_revision_id r) (world_digest r) (admitted_by_command_id r).
#[global] Instance valid : Constraints t := fun m r =>
  (length (world_digest r) =? 32)%nat
  && no_other m (fun o => (study_protocol_revision_id r =? study_protocol_revision_id o)
     && bool_decide (world_digest r = world_digest o)).
End StudyWorldRevisions.

Module StudyMeasurementRevisions.
Record t := new {
  study_protocol_revision_id : Z;
  analysis_digest : list byte;
  measurement_slot_count : Z;
  admitted_by_command_id : Z;
}.
#[global] Instance fields : Fields t := fun r =>
  new (study_protocol_revision_id r) (analysis_digest r) (measurement_slot_count r)
    (admitted_by_command_id r).
#[global] Instance valid : Constraints t := fun m r =>
  (length (analysis_digest r) =? 32)%nat
  && in_range 1 64 (measurement_slot_count r)
  && no_other m (fun o => (study_protocol_revision_id r =? study_protocol_revision_id o)
     && bool_decide (analysis_digest r = analysis_digest o)).
End StudyMeasurementRevisions.

Module StudyInstitutionRevisions.
Record t := new {
  study_protocol_revision_id : Z;
  institution_digest : list byte;
  admitted_by_command_id : Z;
}.
#[global] Instance fields : Fields t := fun r =>
  new (study_protocol_revision_id r) (institution_digest r) (admitted_by_command_id r).
#[global] Instance valid : Constraints t := fun m r =>
  (length (institution_digest r) =? 32)%nat
  && no_other m (fun o => (study_protocol_revision_id r =? study_protocol_revision_id o)
     && bool_decide (institution_digest r = institution_digest o)).
End StudyInstitutionRevisions.

Module StudyPopulationSnapshots.
Record t := new {
  study_protocol_revision_id : Z;
  population_digest : list byte;
  population_size : Z;
  admitted_by_command_id : Z;
}.
#[global] Instance fields : Fields t := fun r =>
  new (study_protocol_revision_id r) (population_digest r) (population_size r)
    (admitted_by_command_id r).
#[global] Instance valid : Constraints t := fun _ r =>
  (length (population_digest r) =? 32)%nat
  && (0 <? population_size r).
End StudyPopulationSnapshots.

(** ** Episodes, pairs and runs *)

Module StudyEpisodes.
Record t := new {
  study_protocol_revision_id : Z;
  study_world_revision_id : Z;
  study_measurement_revision_id : Z;
  study_institution_revision_id : Z;
  study_population_snapshot_id : Z;
  randomization_digest : list byte;
  lifecycle_state : Z;
  admitted_by_command_id : Z;
  last_transition_command_id : Z;
}.
#[global] Instance fields : Fields t := fun r =>
  new (study_protocol_revision_id r) (study_world_revision_id r)
    (study_measurement_revision_id r) (study_institution_revision_id r)
    (study_population_snapshot_id r) (randomization_digest r) (lifecycle_state r)
    (admitted_by_command_id r) (last_transition_command_id r).
#[global] Instance valid : Constraints t := fun _ r =>
  (length (randomization_digest r) =? 32)%nat
  && in_range 1 7 (lifecycle_state r).
End StudyEpisodes.

Module StudyEpisodeSuccessorPopulations.
Record t := new {
  study_population_snapshot_id : Z;
  replaced_by_command_id : Z;
}.
#[global] Instance fields : Fields t := fun r =>
  new (study_population_snapshot_id r) (replaced_by_command_id r).
#[global] Instance valid : Constraints t := fun _ _ => true.
End StudyEpisodeSuccessorPopulations.

Module StudyTreatmentAssignments.
Record t := new {
  study_episode_id : Z;
  treatment : Z;
  assigned_by_command_id : Z;
}.
#[global] Instance fields : Fields t := fun r =>
  new (study_episode_id r) (treatment r) (assigned_by_command_id r).
#[global] Instance valid : Constraints t := fun m r =>
  one_of [1; 2] (treatment r)
  && no_other m (fun o => (study_episode_id r =? study_episode_id o)).
End StudyTreatmentAssignments.

Module StudyPairs.
Record t := new {
  retained_episode_id : Z;
  reset_episode_id : Z;
  admitted_by_command_id : Z;
}.
#[global] Instance fields : Fields t := fun r =>
  new (retained_episode_id r) (reset_episode_id r) (admitted_by_command_id r).
#[global] Instance valid : Constraints t := fun m r =>
  negb (retained_episode_id r =? reset_episode_id r)
  && no_other m (fun o => (retained_episode_id r =? retained_episode_id o))
  && no_other m (fun o => (reset_episode_id r =? reset_episode_id o)).
End StudyPairs.

Module StudyRuns.
Record t := new {
  study_protocol_revision_id : Z;
  plan_content_object_id : Z;
  plan_digest : list byte;
  pair_count : Z;
  registered_pair_count : Z;
  lifecycle_state : Z;
  admitted_by_command_id : Z;
  last_transition_command_id : Z;
}.
#[global] Instance fields : Fields t := fun r =>
  new (study_protocol_revision_id r) (plan_content_object_id r) (plan_digest r) (pair_count r)
    (registered_pair_count r) (lifecycle_state r) (admitted_by_command_id r)
    (last_transition_command_id r).
#[global] Instance valid : Constraints t := fun m r =>
  (length (plan_digest r) =? 32)%nat
  && in_range 1 10000 (pair_count r)
  && in_range 0 (pair_count r) (registered_pair_count r)
  && one_of [1; 2; 3; 4] (lifecycle_state r)
  && (((lifecycle_state r =? 1) && (registered_pair_count r <? pair_count r))
     || (one_of [2; 3; 4] (lifecycle_state r) && (registered_pair_count r =? pair_count r)))
  && no_other m (fun o => (plan_content_object_id r =? plan_content_object_id o))
  && no_other m (fun o => bool_decide (plan_digest r = plan_digest o)).
End StudyRuns.

Module StudyRunPairs.
Record t := new {
  study_run_id : Z;
  pair_ordinal : Z;
  study_pair_id : Z;
  randomization_digest : list byte;
  registered_by_command_id : Z;
}.
#[global] Instance fields : Fields t := fun r =>
  new (study_run_id r) (pair_ordinal r) (study_pair_id r) (randomization_digest r)
    (registered_by_command_id r).
#[global] Instance valid : Constraints t := fun m r =>
  in_range 1 10000 (pair_ordinal r)
  && (length (randomization_digest r) =? 32)%nat
  && no_other m (fun o => (study_pair_id r =? study_pair_id o))
  && no_other m (fun o => (study_run_id r =? study_run_id o)
     && (pair_ordinal r =? pair_ordinal o))
  && no_other m (fun o => (study_run_id r =? study_run_id o)
     && (study_pair_id r =? study_pair_id o)).
End StudyRunPairs.

Module StudyExperimentalForks.
Record t := new {
  source_study_episode_id : Z;
  forked_study_episode_id : Z;
  treatment_delta : Z;
  created_by_command_id : Z;
}.
#[global] Instance fields : Fields t := fun r =>
  new (source_study_episode_id r) (forked_study_episode_id r) (treatment_delta r)
    (created_by_command_id r).
#[global] Instance valid : Constraints t := fun m r =>
  one_of [1; 2] (treatment_delta r)
  && no_other m (fun o => (forked_study_episode_id r =? forked_study_episode_id o)).
End StudyExperimentalForks.

(** ** Actors *)

Module StudyActorObligations.
Record t := new {
  study_episode_id : Z;
  study_population_snapshot_id : Z;
  population_phase : Z;
  role_ordinal : Z;
  private_view_digest : list byte;
  prompt_digest : list byte;
  tool_digest : list byte;
  budget_units : Z;
  charged_budget_units : Z;
  read_budget : Z;
  reads_used : Z;
  post_budget : Z;
  posts_used : Z;
  lifecycle_state : Z;
  admitted_by_command_id : Z;
  completed_by_command_id : option Z;
  failed_by_command_id : option Z;
  failure_reason_digest : option (list byte);
}.
#[global] Instance fields : Fields t := fun r =>
  new (study_episode_id r) (study_population_snapshot_id r) (population_phase r)
    (role_ordinal r) (private_view_digest r) (prompt_digest r) (tool_digest r)
    (budget_units r) (charged_budget_units r) (read_budget r) (reads_used r) (post_budget r)
    (posts_used r) (lifecycle_state r) (admitted_by_command_id r) (completed_by_command_id r)
    (failed_by_command_id r) (failure_reason_digest r).
#[global] Instance valid : Constraints t := fun m r =>
  one_of [1; 2] (population_phase r)
  && in_range 1 64 (role_ordinal r)
  && (length (private_view_digest r) =? 32)%nat
  && (length (prompt_digest r) =? 32)%nat
  && (length (tool_digest r) =? 32)%nat
  && (0 <=? budget_units r)
  && (0 <=? charged_budget_units r)
  && (0 <? read_budget r)
  && (0 <=? reads_used r)
  && (0 <? post_budget r)
  && ((0 <=? posts_used r) && (posts_used r <=? post_budget r))
  && one_of [1; 2; 3] (lifecycle_state r)
  && passes (option_map (fun v => (length v =? 32)%nat) (failure_reason_digest r))
  && (((lifecycle_state r =? 1) && is_null (completed_by_command_id r)
     && is_null (failed_by_command_id r) && is_null (failure_reason_digest r))
     || ((lifecycle_state r =? 2) && not_null (completed_by_command_id r)
     && is_null (failed_by_command_id r) && is_null (failure_reason_digest r))
     || ((lifecycle_state r =? 3) && is_null (completed_by_command_id r)
     && not_null (failed_by_command_id r) && not_null (failure_reason_digest r)))
  && no_other m (fun o => (study_episode_id r =? study_episode_id o)
     && (population_phase r =? population_phase o) && (role_ordinal r =? role_ordinal o)).
End StudyActorObligations.

Module StudyActorOccurrences.
Record t := new {
  study_actor_obligation_id : Z;
  created_by_command_id : Z;
}.
#[global] Instance fields : Fields t := fun r =>
  new (study_actor_obligation_id r) (created_by_command_id r).
#[global] Instance valid : Constraints t := fun m r =>
  no_other m (fun o => (study_actor_obligation_id r =? study_actor_obligation_id o)).
End StudyActorOccurrences.

Module StudyActorRuntimeBindings.
Record t := new {
  actor_attempt_id : option Z;
  root_authority_office_session_id : option Z;
  native_child_id : Z;
  native_child_spawn_admission_id : Z;
  execution_profile_id : Z;
  lifecycle_state : Z;
  bound_by_command_id : Z;
  reconciled_by_command_id : option Z;
  recovery_settled_by_command_id : option Z;
}.
#[global] Instance fields : Fields t := fun r =>
  new (actor_attempt_id r) (root_authority_office_session_id r) (native_child_id r)
    (native_child_spawn_admission_id r) (execution_profile_id r) (lifecycle_state r)
    (bound_by_command_id r) (reconciled_by_command_id r) (recovery_settled_by_command_id r).
#[global] Instance valid : Constraints t := fun m r =>
  one_of [1; 2; 3] (lifecycle_state r)
  && ((not_null (actor_attempt_id r) && is_null (root_authority_office_session_id r))
     || (is_null (actor_attempt_id r) && not_null (root_authority_office_session_id r)))
  && (((lifecycle_state r =? 1) && is_null (reconciled_by_command_id r))
     || ((lifecycle_state r =? 2) && not_null (reconciled_by_command_id r))
     || ((lifecycle_state r =? 3) && not_null (recovery_settled_by_command_id r)))
  && no_other m (fun o => (native_child_id r =? native_child_id o))
  && no_other m
     (fun o => (native_child_spawn_admission_id r =? native_child_spawn_admission_id o)).
End StudyActorRuntimeBindings.

Module StudyActorTaskAttemptRecoverySettlements.
Record t := new {
  actor_attempt_id : Z;
  native_child_id : Z;
  native_child_recovery_receipt_id : Z;
  accounting_state : Z;
  settled_by_command_id : Z;
}.
#[global] Instance fields : Fields t := fun r =>
  new (actor_attempt_id r) (native_child_id r) (native_child_recovery_receipt_id r)
    (accounting_state r) (settled_by_command_id r).
#[global] Instance valid : Constraints t := fun m r =>
  (accounting_state r =? 1)
  && no_other m (fun o => (actor_attempt_id r =? actor_attempt_id o))
  && no_other m (fun o => (native_child_id r =? native_child_id o))
  && no_other m
     (fun o => (native_child_recovery_receipt_id r =? native_child_recovery_receipt_id o)).
End StudyActorTaskAttemptRecoverySettlements.

(** ** Forum *)

Module StudyEpisodeForums.
Record t := new {
  study_episode_id : Z;
  charter_digest : list byte;
  lifecycle_state : Z;
  created_by_command_id : Z;
  last_transition_command_id : Z;
}.
#[global] Instance fields : Fields t := fun r =>
  new (study_episode_id r) (charter_digest r) (lifecycle_state r) (created_by_command_id r)
    (last_transition_command_id r).
#[global] Instance valid : Constraints t := fun m r =>
  (length (charter_digest r) =? 32)%nat
  && one_of [1; 2; 3] (lifecycle_state r)
  && no_other m (fun o => (study_episode_id r =? study_episode_id o)).
End StudyEpisodeForums.

Module StudyForumThreads.
Record t := new {
  episode_forum_id : Z;
  title : string;
  lifecycle_state : Z;
  head_message_ordinal : Z;
  created_by_command_id : Z;
}.
#[global] Instance fields : Fields t := fun r =>
  new (episode_forum_id r) (title r) (lifecycle_state r) (head_message_ordinal r)
    (created_by_command_id r).
#[global] Instance valid : Constraints t := fun m r =>
  one_of [1; 2; 3] (lifecycle_state r)
  && (0 <=? head_message_ordinal r)
  && no_other m (fun o => (episode_forum_id r =? episode_forum_id o)
     && (title r =? title o)%string).
End StudyForumThreads.

Module StudyFrozenForumHeads.
Record t := new {
  forum_thread_id : Z;
  frozen_head_message_ordinal : Z;
  frozen_by_command_id : Z;
}.
#[global] Instance fields : Fields t := fun r =>
  new (forum_thread_id r) (frozen_head_message_ordinal r) (frozen_by_command_id r).
#[global] Instance valid : Constraints t := fun _ r => (0 <=? frozen_head_message_ordinal r).
End StudyFrozenForumHeads.

Module StudyForumExposures.
Record t := new {
  study_actor_obligation_id : Z;
  episode_forum_id : Z;
  visible_from_message_ordinal : Z;
  visible_through_message_ordinal : Z;
  admitted_by_command_id : Z;
}.
#[global] Instance fields : Fields t := fun r =>
  new (study_actor_obligation_id r) (episode_forum_id r) (visible_from_message_ordinal r)
    (visible_through_message_ordinal r) (admitted_by_command_id r).
#[global] Instance valid : Constraints t := fun m r =>
  (0 <? visible_from_message_ordinal r)
  && (0 <=? visible_through_message_ordinal r)
  && no_other m (fun o => (study_actor_obligation_id r =? study_actor_obligation_id o)).
End StudyForumExposures.

Module StudyForumMessages.
Record t := new {
  forum_thread_id : Z;
  thread_message_ordinal : Z;
  author_occurrence_id : option Z;
  service_origin : Z;
  message_kind : Z;
  in_reply_to_message_id : option Z;
  supersedes_message_id : option Z;
  body_utf8 : string;
  body_digest : list byte;
  publication_state : Z;
  created_by_command_id : Z;
}.
#[global] Instance fields : Fields t := fun r =>
  new (forum_thread_id r) (thread_message_ordinal r) (author_occurrence_id r)
    (service_origin r) (message_kind r) (in_reply_to_message_id r) (supersedes_message_id r)
    (body_utf8 r) (body_digest r) (publication_state r) (created_by_command_id r).
#[global] Instance valid : Constraints t := fun m r =>
  (0 <? thread_message_ordinal r)
  && one_of [0; 1] (service_origin r)
  && in_range 1 5 (message_kind r)
  && (length (body_digest r) =? 32)%nat
  && one_of [1; 2] (publication_state r)
  && ((not_null (author_occurrence_id r) && (service_origin r =? 0))
     || (is_null (author_occurrence_id r) && (service_origin r =? 1)))
  && no_other m (fun o => (forum_thread_id r =? forum_thread_id o)
     && (thread_message_ordinal r =? thread_message_ordinal o)).
End StudyForumMessages.

Module StudyForumReadReceipts.
Record t := new {
  study_actor_obligation_id : Z;
  forum_thread_id : Z;
  first_message_ordinal : Z;
  through_message_ordinal : Z;
  rendering_revision : Z;
  returned_byte_count : Z;
  rendering_digest : list byte;
  rendered_content_object_id : Z;
  returned_by_command_id : Z;
}.
#[global] Instance fields : Fields t := fun r =>
  new (study_actor_obligation_id r) (forum_thread_id r) (first_message_ordinal r)
    (through_message_ordinal r) (rendering_revision r) (returned_byte_count r)
    (rendering_digest r) (rendered_content_object_id r) (returned_by_command_id r).
#[global] Instance valid : Constraints t := fun _ r =>
  (0 <? first_message_ordinal r)
  && (first_message_ordinal r <=? through_message_ordinal r)
  && (rendering_revision r =? 1)
  && (0 <? returned_byte_count r)
  && (length (rendering_digest r) =? 32)%nat.
End StudyForumReadReceipts.

(** ** Decisions and measurements *)

Module StudyDecisions.
Record t := new {
  decision_utf8 : string;
  decision_digest : list byte;
  cited_forum_message_id : option Z;
  recorded_by_command_id : Z;
}.
#[global] Instance fields : Fields t := fun r =>
  new (decision_utf8 r) (decision_digest r) (cited_forum_message_id r)
    (recorded_by_command_id r).
#[global] Instance valid : Constraints t := fun _ r => (length (decision_digest r) =? 32)%nat.
End StudyDecisions.

Module StudyGroundTruthReveals.
Record t := new {
  reveal_utf8 : string;
  reveal_digest : list byte;
  revealed_by_command_id : Z;
}.
#[global] Instance fields : Fields t := fun r =>
  new (reveal_utf8 r) (reveal_digest r) (revealed_by_command_id r).
#[global] Instance valid : Constraints t := fun _ r => (length (reveal_digest r) =? 32)%nat.
End StudyGroundTruthReveals.

Module StudyMeasurementResults.
Record t := new {
  study_episode_id : Z;
  measurement_slot : Z;
  result_status : Z;
  observed_value : option Z;
  value_digest : option (list byte);
  reason_digest : option (list byte);
  recorded_by_command_id : Z;
}.
#[global] Instance fields : Fields t := fun r =>
  new (study_episode_id r) (measurement_slot r) (result_status r) (observed_value r)
    (value_digest r) (reason_digest r) (recorded_by_command_id r).
#[global] Instance valid : Constraints t := fun m r =>
  in_range 1 64 (measurement_slot r)
  && one_of [1; 2; 3] (result_status r)
  && passes (option_map (fun v => (length v =? 32)%nat) (value_digest r))
  && passes (option_map (fun v => (length v =? 32)%nat) (reason_digest r))
  && (((result_status r =? 1) && not_null (observed_value r) && not_null (value_digest r)
     && is_null (reason_digest r)) || (one_of [2; 3] (result_status r)
     && is_null (observed_value r) && is_null (value_digest r) && not_null (reason_digest r)))
  && no_other m (fun o => (study_episode_id r =? study_episode_id o)
     && (measurement_slot r =? measurement_slot o)).
End StudyMeasurementResults.

(** ** Evidence that is only read *)

Module NativeChildRecoveryReceipts.
Record t := new {
  native_child_id : Z;
  observation : Z;
  group_liveness_after_restart : Z;
  recorded_by_command_id : Z;
}.
#[global] Instance fields : Fields t := fun r =>
  new (native_child_id r) (observation r) (group_liveness_after_restart r)
    (recorded_by_command_id r).
#[global] Instance valid : Constraints t := fun m r =>
  (observation r =? 1)
  && one_of [1; 2; 3] (group_liveness_after_restart r)
  && no_other m (fun o => (native_child_id r =? native_child_id o)).
End NativeChildRecoveryReceipts.

Module PiTaskAttemptTerminalReceipts.
Record t := new {
  actor_attempt_id : Z;
  pi_task_attempt_prompt_authorization_id : Z;
  native_child_id : Z;
  pi_session_id : Z;
  correlation_identity : string;
  terminal_evidence_kind : Z;
  agent_settled_sequence : option Z;
  final_accounting_sequence : Z;
  settled_sequence : Z;
  final_usage_receipt_id : option Z;
  final_usage_failure_id : option Z;
  disposition : Z;
  assistant_outcome : Z;
  transcript_disposition : Z;
  recorded_by_command_id : Z;
}.
#[global] Instance fields : Fields t := fun r =>
  new (actor_attempt_id r) (pi_task_attempt_prompt_authorization_id r) (native_child_id r)
    (pi_session_id r) (correlation_identity r) (terminal_evidence_kind r)
    (agent_settled_sequence r) (final_accounting_sequence r) (settled_sequence r)
    (final_usage_receipt_id r) (final_usage_failure_id r) (disposition r)
    (assistant_outcome r) (transcript_disposition r) (recorded_by_command_id r).
#[global] Instance valid : Constraints t := fun m r =>
  one_of [1; 2] (terminal_evidence_kind r)
  && passes (option_map (fun v => (0 <? v)) (agent_settled_sequence r))
  && (0 <? final_accounting_sequence r)
  && (0 <? settled_sequence r)
  && in_range 1 6 (disposition r)
  && in_range 1 6 (assistant_outcome r)
  && (transcript_disposition r =? 1)
  && passes (and3 (or3 (and3 (and3 (Some ((terminal_evidence_kind r =? 1))) (Some (not_null (agent_settled_sequence r)))) (option_map
     (fun v => (v <? final_accounting_sequence r)) (agent_settled_sequence r))) (Some ((terminal_evidence_kind r =? 2)
     && is_null (agent_settled_sequence r)))) (Some ((final_accounting_sequence r + 1 =? settled_sequence r))))
  && ((not_null (final_usage_receipt_id r) && is_null (final_usage_failure_id r))
     || (is_null (final_usage_receipt_id r) && not_null (final_usage_failure_id r)))
  && (((terminal_evidence_kind r =? 1) && in_range 1 4 (assistant_outcome r))
     || ((terminal_evidence_kind r =? 2) && one_of [5; 6] (assistant_outcome r)))
  && (negb (terminal_evidence_kind r =? 2) || not_null (final_usage_receipt_id r))
  && (((disposition r =? 1) && (assistant_outcome r =? 1)) || ((disposition r =? 2)
     && (assistant_outcome r =? 2)) || ((disposition r =? 3) && (assistant_outcome r =? 3))
     || ((disposition r =? 4) && (assistant_outcome r =? 4)) || ((disposition r =? 5)
     && (assistant_outcome r =? 5)) || ((disposition r =? 6) && (assistant_outcome r =? 6)))
  && no_other m (fun o => (actor_attempt_id r =? actor_attempt_id o))
  && no_other m
     (fun o => (pi_task_attempt_prompt_authorization_id r =? pi_task_attempt_prompt_authorization_id o)).
End PiTaskAttemptTerminalReceipts.

(** ** The database *)

Module StudyDatabase.
Record t := new {
  ledger : Database.t;
  study_protocol_revisions : table StudyProtocolRevisions.t;
  study_world_revisions : table StudyWorldRevisions.t;
  study_measurement_revisions : table StudyMeasurementRevisions.t;
  study_institution_revisions : table StudyInstitutionRevisions.t;
  study_population_snapshots : table StudyPopulationSnapshots.t;
  study_episodes : table StudyEpisodes.t;
  study_episode_successor_populations : table StudyEpisodeSuccessorPopulations.t;
  study_treatment_assignments : table StudyTreatmentAssignments.t;
  study_pairs : table StudyPairs.t;
  study_runs : table StudyRuns.t;
  study_run_pairs : table StudyRunPairs.t;
  study_experimental_forks : table StudyExperimentalForks.t;
  study_actor_obligations : table StudyActorObligations.t;
  study_actor_occurrences : table StudyActorOccurrences.t;
  study_actor_runtime_bindings : table StudyActorRuntimeBindings.t;
  study_actor_task_attempt_recovery_settlements : table StudyActorTaskAttemptRecoverySettlements.t;
  study_episode_forums : table StudyEpisodeForums.t;
  study_forum_threads : table StudyForumThreads.t;
  study_frozen_forum_heads : table StudyFrozenForumHeads.t;
  study_forum_exposures : table StudyForumExposures.t;
  study_forum_messages : table StudyForumMessages.t;
  study_forum_read_receipts : table StudyForumReadReceipts.t;
  study_decisions : table StudyDecisions.t;
  study_ground_truth_reveals : table StudyGroundTruthReveals.t;
  study_measurement_results : table StudyMeasurementResults.t;
  native_child_recovery_receipts : table NativeChildRecoveryReceipts.t;
  pi_task_attempt_terminal_receipts : table PiTaskAttemptTerminalReceipts.t;
}.
#[global] Instance fields : Fields t := fun db =>
  new (ledger db) (study_protocol_revisions db) (study_world_revisions db)
    (study_measurement_revisions db) (study_institution_revisions db)
    (study_population_snapshots db) (study_episodes db)
    (study_episode_successor_populations db) (study_treatment_assignments db) (study_pairs db)
    (study_runs db) (study_run_pairs db) (study_experimental_forks db)
    (study_actor_obligations db) (study_actor_occurrences db)
    (study_actor_runtime_bindings db) (study_actor_task_attempt_recovery_settlements db)
    (study_episode_forums db) (study_forum_threads db) (study_frozen_forum_heads db)
    (study_forum_exposures db) (study_forum_messages db) (study_forum_read_receipts db)
    (study_decisions db) (study_ground_truth_reveals db) (study_measurement_results db)
    (native_child_recovery_receipts db) (pi_task_attempt_terminal_receipts db).

(** Beside the ledger [ledger], before any study command. *)
Definition empty (ledger : Database.t) : t :=
  new ledger empty_table empty_table empty_table empty_table empty_table empty_table
    empty_table empty_table empty_table empty_table empty_table empty_table empty_table
    empty_table empty_table empty_table empty_table empty_table empty_table empty_table
    empty_table empty_table empty_table empty_table empty_table empty_table empty_table.
End StudyDatabase.
