(* ===== verification/StudyObservations.v ===== *)
(** * What the study reports

    [society-kernel/src/study.rs], lines 1926 to 2727: the read-only queries of the study.
    They return the stored rows as values of the domain, and refuse what a sound ledger
    cannot hold with [LedgerCorruption]. *)

From S2P Require Import Prelude.
From S2P Require Import Machine.
From S2P Require Import Hash.
From S2P Require Import KernelScalars.
From S2P Require Import KernelEnums.
From S2P Require Import KernelCustody.
From S2P Require Import StudyTypes.
From S2P Require Import StudyCommands.
From S2P Require Import KernelCommands.
From S2P Require Import KernelCodes.
From S2P Require Import SqlTable.
From S2P Require Import StoreTables.
From S2P Require Import StoreQueries.
From S2P Require Import StudyTables.
From S2P Require Import StudyStore.

(** [.map_err(|_| StoreError::InvalidStoredValue)]. *)
Definition stored {A E} (r : result A E) : store_result A :=
  map_err (fun _ => StoreError.InvalidStoredValue) r.
(** A [BIGINT] that PostgreSQL computes or stores; past its width the cast is an error. *)
Definition bigint (z : Z) : store_result i64 := ok_or (checked z) StoreError.Database.
(** [option.map(f).transpose()?]. *)
Definition transpose {A B E} (f : A -> result B E) (o : option A) : result (option B) E :=
  match o with
  | Some a => let? b := f a in Ok (Some b)
  | None => Ok None
  end.
(** [SUM(CASE WHEN p THEN 1 ELSE 0 END)]. *)
Definition count_if {A} (p : A -> bool) (l : list A) : Z := count (List.filter p l).
(** [ORDER BY first, second]. *)
Definition by_keys {A} (first second : A -> Z) : relation A := fun a b =>
  first a < first b \/ first a = first b /\ second a <= second b.
#[global] Instance by_keys_dec {A} (first second : A -> Z) : RelDecision (by_keys first second).
Proof. intros a b. unfold by_keys. apply _. Defined.
Definition order_by_two {A} (first second : A -> Z) (l : list A) : list A :=
  merge_sort (by_keys first second) l.
(** [JOIN] by the key of the table, of one row or none. *)
Definition by_id {R} (t : table R) (id : Z) : list (Z * R) :=
  match rows t !! id with Some r => [(id, r)] | None => [] end.
Definition by_id_opt {R} (t : table R) (id : option Z) : option (Z * R) :=
  match id with Some id => head (by_id t id) | None => None end.

Definition exact_digest (bytes : list byte) : store_result Blake3Digest.t :=
  ok_or (checked bytes) StoreError.InvalidStoredValue.

Section Observations.
Context {hash : Blake3}.
Implicit Types (db : StudyDatabase.t).

(** ** Actors *)

Definition actor_runtime_binding db (obligation_id : StudyActorObligationId) :
  store_result (option StudyActorRuntimeBindingObservation.t) :=
  match rows (StudyDatabase.study_actor_runtime_bindings db)
          !! StudyIdentifier.value obligation_id with
  | None => Ok None
  | Some row =>
      let? owner :=
        match StudyActorRuntimeBindings.actor_attempt_id row,
              StudyActorRuntimeBindings.root_authority_office_session_id row with
        | Some actor_attempt_id, None =>
            let? id := stored (Identifier.try_from actor_attempt_id) in
            Ok (StudyActorRuntimeOwner.TaskAttempt id)
        | None, Some office_session_id =>
            let? id := stored (Identifier.try_from office_session_id) in
            Ok (StudyActorRuntimeOwner.RootAuthorityOfficeSession id)
        | _, _ => Err (StoreError.LedgerCorruption
                         "study runtime binding has invalid closed owner"%string)
        end in
      let? lifecycle_state :=
        match StudyActorRuntimeBindings.lifecycle_state row with
        | 1 => Ok StudyActorRuntimeBindingState.Bound
        | 2 => Ok StudyActorRuntimeBindingState.Reconciled
        | 3 => Ok StudyActorRuntimeBindingState.RecoverySettled
        | _ => Err (StoreError.LedgerCorruption
                      "study runtime binding has invalid lifecycle state"%string)
        end in
      let? child_id := stored (Identifier.try_from (StudyActorRuntimeBindings.native_child_id row)) in
      let? admission_id := stored (Identifier.try_from
        (StudyActorRuntimeBindings.native_child_spawn_admission_id row)) in
      let? profile_id := stored (Identifier.try_from
        (StudyActorRuntimeBindings.execution_profile_id row)) in
      Ok (Some (StudyActorRuntimeBindingObservation.new obligation_id owner child_id admission_id
                  profile_id lifecycle_state))
  end.

(** The obligations of the episode, with the occurrence of each. *)
Definition occurrences_of db (obligation : Z) : list (Z * StudyActorOccurrences.t) :=
  rows_where (fun y => StudyActorOccurrences.study_actor_obligation_id y =? obligation)
    (StudyDatabase.study_actor_occurrences db).
Definition obligations_of db (episode : Z) : list (Z * StudyActorObligations.t) :=
  rows_where (fun o => StudyActorObligations.study_episode_id o =? episode)
    (StudyDatabase.study_actor_obligations db).
Definition obligation_rows db (episode : Z) :
  list ((Z * StudyActorObligations.t) * (Z * StudyActorOccurrences.t)) :=
  order_by_two (fun row => StudyActorObligations.population_phase row.1.2)
    (fun row => StudyActorObligations.role_ordinal row.1.2)
    (join (obligations_of db episode) (fun o => occurrences_of db o.1)).
(** The source and the successor population of the episode. *)
Definition episode_populations db (episode : Z) : option (Z * option Z) :=
  option_map (fun e =>
    (StudyEpisodes.study_population_snapshot_id e,
     option_map StudyEpisodeSuccessorPopulations.study_population_snapshot_id
       (rows (StudyDatabase.study_episode_successor_populations db) !! episode)))
    (rows (StudyDatabase.study_episodes db) !! episode).
(** What the row of an obligation is refused for. *)
Definition obligation_is_bounded (episode_id : StudyEpisodeId) (expected : option Z)
  (o : StudyActorObligations.t) : bool :=
  negb (negb (StudyActorObligations.study_episode_id o =? StudyIdentifier.value episode_id)
        || negb (bool_decide (expected
                              = Some (StudyActorObligations.study_population_snapshot_id o)))
        || (StudyActorObligations.charged_budget_units o <? 0)
        || (StudyActorObligations.budget_units o <? StudyActorObligations.charged_budget_units o)
        || (StudyActorObligations.reads_used o <? 0)
        || (StudyActorObligations.read_budget o <? StudyActorObligations.reads_used o)
        || (StudyActorObligations.posts_used o <? 0)
        || (StudyActorObligations.post_budget o <? StudyActorObligations.posts_used o)).
Definition obligation_observation (episode_id : StudyEpisodeId) (source : Z)
  (successor : option Z) (obligation occurrence : Z) (o : StudyActorObligations.t) :
  store_result StudyActorObligationObservation.t :=
  let? phase := Study.population_phase_from_stored (StudyActorObligations.population_phase o) in
  let expected := match phase with
                  | StudyPopulationPhase.Source => Some source
                  | StudyPopulationPhase.Successor => successor
                  end in
  if negb (obligation_is_bounded episode_id expected o) then
    Err (StoreError.LedgerCorruption "study actor obligation has invalid bounded state"%string)
  else
  let? obligation_id := stored (StudyIdentifier.try_from obligation) in
  let? occurrence_id := stored (StudyIdentifier.try_from occurrence) in
  let? population := stored (StudyIdentifier.try_from
    (StudyActorObligations.study_population_snapshot_id o)) in
  let? role := stored (StudyRoleOrdinal.try_from (StudyActorObligations.role_ordinal o)) in
  let? private_view := exact_digest (StudyActorObligations.private_view_digest o) in
  let? prompt := exact_digest (StudyActorObligations.prompt_digest o) in
  let? tool := exact_digest (StudyActorObligations.tool_digest o) in
  let? budget := stored (StudyBudgetUnits.try_from (StudyActorObligations.budget_units o)) in
  let? charged := stored (StudyBudgetUnits.try_from
    (StudyActorObligations.charged_budget_units o)) in
  let? read_budget := stored (ForumReadBudget.try_from (StudyActorObligations.read_budget o)) in
  let? reads_used := bigint (StudyActorObligations.reads_used o) in
  let? post_budget := stored (ForumPostBudget.try_from (StudyActorObligations.post_budget o)) in
  let? posts_used := bigint (StudyActorObligations.posts_used o) in
  let? lifecycle_state := Study.study_actor_obligation_state_from_i64
    (StudyActorObligations.lifecycle_state o) in
  Ok (StudyActorObligationObservation.new obligation_id occurrence_id episode_id population
        phase role private_view prompt tool budget charged read_budget reads_used post_budget
        posts_used lifecycle_state).
Definition actor_obligation_observations db (episode_id : StudyEpisodeId) :
  store_result (list StudyActorObligationObservation.t) :=
  let? '(source, successor) := ok_or (episode_populations db (StudyIdentifier.value episode_id))
    (StoreError.StudyEpisodeNotFound episode_id) in
  collect (fun row => obligation_observation episode_id source successor
                        row.1.1 row.2.1 row.1.2)
    (obligation_rows db (StudyIdentifier.value episode_id)).

(** ** The public Forum *)

Definition POST_ACTOR_PUBLIC_FORUM_MESSAGE_LIMIT : Z := 256.

(** The messages of the episode by thread and ordinal, and the obligation of the author. *)
Definition forums_of db (episode : Z) : list (Z * StudyEpisodeForums.t) :=
  rows_where (fun f => StudyEpisodeForums.study_episode_id f =? episode)
    (StudyDatabase.study_episode_forums db).
Definition messages_of_thread db (thread : Z) : list (Z * StudyForumMessages.t) :=
  rows_where (fun m => StudyForumMessages.forum_thread_id m =? thread)
    (StudyDatabase.study_forum_messages db).
Definition messages_of db (episode : Z) : list (Z * StudyForumMessages.t) :=
  map snd (join (map snd (join (forums_of db episode) (fun f => threads_of db f.1)))
             (fun t => messages_of_thread db t.1)).
Definition public_rows db (episode : Z) : list (Z * StudyForumMessages.t) :=
  take (Z.to_nat (POST_ACTOR_PUBLIC_FORUM_MESSAGE_LIMIT + 1))
    (order_by_two (fun m => StudyForumMessages.forum_thread_id m.2)
       (fun m => StudyForumMessages.thread_message_ordinal m.2) (messages_of db episode)).
Definition author_obligation db (m : StudyForumMessages.t) : option (Z * StudyActorObligations.t) :=
  match by_id_opt (StudyDatabase.study_actor_occurrences db)
          (StudyForumMessages.author_occurrence_id m) with
  | Some (_, y) => head (by_id (StudyDatabase.study_actor_obligations db)
                           (StudyActorOccurrences.study_actor_obligation_id y))
  | None => None
  end.
Definition public_author db (m : StudyForumMessages.t) :
  store_result StudyForumPublicAuthor.t :=
  match StudyForumMessages.service_origin m, StudyForumMessages.author_occurrence_id m,
        author_obligation db m with
  | 0, Some occurrence, Some (obligation, o) =>
      let? obligation_id := stored (StudyIdentifier.try_from obligation) in
      let? occurrence_id := stored (StudyIdentifier.try_from occurrence) in
      let? phase := Study.population_phase_from_stored
        (StudyActorObligations.population_phase o) in
      let? role := stored (StudyRoleOrdinal.try_from (StudyActorObligations.role_ordinal o)) in
      Ok (StudyForumPublicAuthor.Actor obligation_id occurrence_id phase role)
  | 1, None, None => Ok StudyForumPublicAuthor.SocietyService
  | _, _, _ => Err (StoreError.LedgerCorruption
      "public Forum message attribution is not a closed actor-or-service identity"%string)
  end.
Definition public_message db (id : Z) (m : StudyForumMessages.t) :
  store_result StudyPostActorPublicForumMessage.t :=
  let? author := public_author db m in
  let? body := stored (ForumMessageBody.parse (StudyForumMessages.body_utf8 m)) in
  let? body_digest := exact_digest (StudyForumMessages.body_digest m) in
  if negb (bool_decide (ForumMessageBody.digest body = body_digest)) then
    Err (StoreError.LedgerCorruption "public Forum message body does not match its stored digest"%string)
  else
  let? message_id := stored (StudyIdentifier.try_from id) in
  let? thread_id := stored (StudyIdentifier.try_from (StudyForumMessages.forum_thread_id m)) in
  let? ordinal := bigint (StudyForumMessages.thread_message_ordinal m) in
  let? kind := Study.message_kind_from_i64 (StudyForumMessages.message_kind m) in
  let? publication_state := Study.forum_publication_state_from_i64
    (StudyForumMessages.publication_state m) in
  Ok (StudyPostActorPublicForumMessage.new message_id thread_id ordinal author kind body
        body_digest publication_state).
(** The loop over the rows, after [read] messages. *)
Fixpoint public_messages db (episode_id : StudyEpisodeId) (read : Z)
  (l : list (Z * StudyForumMessages.t)) :
  store_result (list StudyPostActorPublicForumMessage.t) :=
  match l with
  | [] => Ok []
  | (id, m) :: l =>
      if read =? POST_ACTOR_PUBLIC_FORUM_MESSAGE_LIMIT then
        Err (StoreError.StudyPostActorForumTooLarge episode_id
               POST_ACTOR_PUBLIC_FORUM_MESSAGE_LIMIT)
      else
      let? message := public_message db id m in
      let? messages := public_messages db episode_id (read + 1) l in
      Ok (message :: messages)
  end.
Definition post_actor_public_forum db (episode_id : StudyEpisodeId) :
  store_result StudyPostActorPublicForumObservation.t :=
  let episode := StudyIdentifier.value episode_id in
  if is_null (rows (StudyDatabase.study_episodes db) !! episode)
  then Err (StoreError.StudyEpisodeNotFound episode_id) else
  let admitted_obligations := count (obligations_of db episode) in
  let active_obligations := count_if
    (fun o => StudyActorObligations.lifecycle_state o.2 =? 1) (obligations_of db episode) in
  if (admitted_obligations =? 0) || negb (active_obligations =? 0)
  then Err (StoreError.StudyPostActorForumNotReady episode_id) else
  let? messages := public_messages db episode_id 0 (public_rows db episode) in
  Ok (StudyPostActorPublicForumObservation.new episode_id messages).

(** ** Episodes *)

(** The assignment, the measurements, the successors and the frozen head of an episode. *)
Definition episode_row db (episode : Z) :
  option (StudyEpisodes.t * StudyTreatmentAssignments.t * StudyMeasurementRevisions.t) :=
  match rows (StudyDatabase.study_episodes db) !! episode with
  | Some e =>
      match row_where (fun a => StudyTreatmentAssignments.study_episode_id a =? episode)
              (StudyDatabase.study_treatment_assignments db),
            rows (StudyDatabase.study_measurement_revisions db)
              !! StudyEpisodes.study_measurement_revision_id e with
      | Some (_, a), Some v => Some (e, a, v)
      | _, _ => None
      end
  | None => None
  end.
Definition is_terminal_row (o : Z * StudyActorObligations.t) : bool :=
  one_of [2; 3] (StudyActorObligations.lifecycle_state o.2).
Definition in_phase (phase : Z) (o : Z * StudyActorObligations.t) : bool :=
  StudyActorObligations.population_phase o.2 =? phase.
Definition bindings_of db (episode : Z) : list (Z * StudyActorRuntimeBindings.t) :=
  map snd (join (obligations_of db episode)
             (fun o => by_id (StudyDatabase.study_actor_runtime_bindings db) o.1)).
Definition receipts_of db (episode : Z) : list (Z * StudyForumReadReceipts.t) :=
  map snd (join (obligations_of db episode)
             (fun o => rows_where
                (fun r => StudyForumReadReceipts.study_actor_obligation_id r =? o.1)
                (StudyDatabase.study_forum_read_receipts db))).
Definition decisions_of db (episode : Z) : list (Z * StudyDecisions.t) :=
  map snd (join (obligations_of db episode)
             (fun o => by_id (StudyDatabase.study_decisions db) o.1)).
Definition measurement_rows db (episode : Z) : list (Z * StudyMeasurementResults.t) :=
  order_by (fun v => StudyMeasurementResults.measurement_slot v.2)
    (rows_where (fun v => StudyMeasurementResults.study_episode_id v =? episode)
       (StudyDatabase.study_measurement_results db)).
Definition measurement_observation (v : StudyMeasurementResults.t) :
  store_result StudyMeasurementObservation.t :=
  let? slot := stored (StudyMeasurementSlot.try_from
    (StudyMeasurementResults.measurement_slot v)) in
  let? status := Study.measurement_status_from_i64 (StudyMeasurementResults.result_status v) in
  let? value := transpose bigint (StudyMeasurementResults.observed_value v) in
  let? value_digest := transpose exact_digest (StudyMeasurementResults.value_digest v) in
  let? reason_digest := transpose exact_digest (StudyMeasurementResults.reason_digest v) in
  Ok (StudyMeasurementObservation.new slot status value value_digest reason_digest).
Definition episode_observation db (episode_id : StudyEpisodeId) :
  store_result StudyEpisodeObservation.t :=
  let episode := StudyIdentifier.value episode_id in
  let? '(e, a, v) := ok_or (episode_row db episode) StoreError.InvalidStoredValue in
  let obligations := obligations_of db episode in
  let? source := bigint (count_if (in_phase 1) obligations) in
  let? source_terminal :=
    bigint (count_if (fun o => in_phase 1 o && is_terminal_row o) obligations) in
  let? successor := bigint (count_if (in_phase 2) obligations) in
  let? successor_terminal :=
    bigint (count_if (fun o => in_phase 2 o && is_terminal_row o) obligations) in
  let? failed := bigint (count_if
    (fun o => StudyActorObligations.lifecycle_state o.2 =? 3) obligations) in
  let? runtime_bindings := bigint (count (bindings_of db episode)) in
  let? reconciled := bigint (count_if
    (fun b => StudyActorRuntimeBindings.lifecycle_state b.2 =? 2) (bindings_of db episode)) in
  let? forum_messages := bigint (count (messages_of db episode)) in
  let? forum_reads := bigint (count (receipts_of db episode)) in
  let? returned_bytes := bigint (foldr (fun r sum =>
    StudyForumReadReceipts.returned_byte_count r.2 + sum) 0 (receipts_of db episode)) in
  let? decisions := bigint (count (decisions_of db episode)) in
  let reveal := option_map StudyGroundTruthReveals.reveal_digest
    (rows (StudyDatabase.study_ground_truth_reveals db) !! episode) in
  let? measurements := collect (fun r => measurement_observation r.2)
    (measurement_rows db episode) in
  let? protocol := stored (StudyIdentifier.try_from
    (StudyEpisodes.study_protocol_revision_id e)) in
  let? world := stored (StudyIdentifier.try_from (StudyEpisodes.study_world_revision_id e)) in
  let? measurement := stored (StudyIdentifier.try_from
    (StudyEpisodes.study_measurement_revision_id e)) in
  let? slots := stored (StudyMeasurementSlotCount.try_from
    (StudyMeasurementRevisions.measurement_slot_count v)) in
  let? institution := stored (StudyIdentifier.try_from
    (StudyEpisodes.study_institution_revision_id e)) in
  let? source_population := stored (StudyIdentifier.try_from
    (StudyEpisodes.study_population_snapshot_id e)) in
  let? successor_population := transpose (fun s => stored (StudyIdentifier.try_from s))
    (option_map StudyEpisodeSuccessorPopulations.study_population_snapshot_id
       (rows (StudyDatabase.study_episode_successor_populations db) !! episode)) in
  let? randomization := exact_digest (StudyEpisodes.randomization_digest e) in
  let? treatment := Study.treatment_from_i64 (StudyTreatmentAssignments.treatment a) in
  let? lifecycle_state := stored (Study.episode_state_from_i64
    (StudyEpisodes.lifecycle_state e)) in
  let? frozen_head := transpose bigint
    (option_map StudyFrozenForumHeads.frozen_head_message_ordinal
       (rows (StudyDatabase.study_frozen_forum_heads db) !! episode)) in
  let? reveal_digest := transpose exact_digest reveal in
  Ok (StudyEpisodeObservation.new episode_id protocol world measurement slots institution
        source_population successor_population randomization treatment lifecycle_state
        source source_terminal successor successor_terminal failed runtime_bindings reconciled
        frozen_head forum_messages forum_reads returned_bytes decisions reveal_digest
        measurements).

(** ** Pairs and runs *)

Definition pair_observation db (pair_id : StudyPairId) : store_result StudyPairObservation.t :=
  let? p := ok_or (rows (StudyDatabase.study_pairs db) !! StudyIdentifier.value pair_id)
    (StoreError.StudyPairNotFound pair_id) in
  let? retained_id := stored (StudyIdentifier.try_from (StudyPairs.retained_episode_id p)) in
  let? retained := episode_observation db retained_id in
  let? reset_id := stored (StudyIdentifier.try_from (StudyPairs.reset_episode_id p)) in
  let? reset := episode_observation db reset_id in
  if negb (bool_decide (StudyEpisodeObservation.treatment retained = StudyTreatment.Retained))
     || negb (bool_decide (StudyEpisodeObservation.treatment reset = StudyTreatment.Reset))
  then Err (StoreError.LedgerCorruption
              "study pair treatment assignments do not match retained/reset membership"%string)
  else Ok (StudyPairObservation.new pair_id retained reset).

Definition registrations_of db (run : Z) : list (Z * StudyRunPairs.t) :=
  order_by (fun q => StudyRunPairs.pair_ordinal q.2)
    (rows_where (fun q => StudyRunPairs.study_run_id q =? run) (StudyDatabase.study_run_pairs db)).
Definition registration_observation (q : StudyRunPairs.t) :
  store_result StudyRunPairRegistrationObservation.t :=
  let? pair_ordinal := stored (StudyRunPairOrdinal.try_from (StudyRunPairs.pair_ordinal q)) in
  let? pair_id := stored (StudyIdentifier.try_from (StudyRunPairs.study_pair_id q)) in
  let? randomization := exact_digest (StudyRunPairs.randomization_digest q) in
  Ok (StudyRunPairRegistrationObservation.new pair_ordinal pair_id randomization).
Definition run_observation db (study_run_id : StudyRunId) : store_result StudyRunObservation.t :=
  let? r := ok_or (rows (StudyDatabase.study_runs db) !! StudyIdentifier.value study_run_id)
    (StoreError.StudyRunNotFound study_run_id) in
  let? pair_count := stored (StudyRunPairCount.try_from (StudyRuns.pair_count r)) in
  let? registered := stored (StudyRunRegisteredPairCount.try_from
    (StudyRuns.registered_pair_count r)) in
  let? lifecycle_state := Study.study_run_lifecycle_state_from_i64
    (StudyRuns.lifecycle_state r) in
  let? pairs := collect (fun q => registration_observation q.2)
    (registrations_of db (StudyIdentifier.value study_run_id)) in
  if negb (count pairs =? StudyRunRegisteredPairCount.value registered) then
    Err (StoreError.LedgerCorruption "study run registered-pair count does not match its rows"%string)
  else
  let? protocol := stored (StudyIdentifier.try_from (StudyRuns.study_protocol_revision_id r)) in
  let? plan := stored (Identifier.try_from (StudyRuns.plan_content_object_id r)) in
  let? plan_digest := exact_digest (StudyRuns.plan_digest r) in
  Ok (StudyRunObservation.new study_run_id protocol plan plan_digest pair_count registered
        lifecycle_state pairs).

Definition run_pair_registration db (study_run_id : StudyRunId)
  (pair_ordinal : StudyRunPairOrdinal.t) :
  store_result (option StudyRunPairRegistrationObservation.t) :=
  transpose (fun q : Z * StudyRunPairs.t =>
    let? pair_id := stored (StudyIdentifier.try_from (StudyRunPairs.study_pair_id q.2)) in
    let? randomization := exact_digest (StudyRunPairs.randomization_digest q.2) in
    Ok (StudyRunPairRegistrationObservation.new pair_ordinal pair_id randomization))
    (row_where (fun q => (StudyRunPairs.study_run_id q =? StudyIdentifier.value study_run_id)
                         && (StudyRunPairs.pair_ordinal q
                             =? StudyRunPairOrdinal.value pair_ordinal))
       (StudyDatabase.study_run_pairs db)).

(** The live obligations of a seat of the run. *)
Definition seat_obligations db (run ordinal treatment phase role : Z) :
  list (Z * StudyActorObligations.t) :=
  let registrations := rows_where (fun q => (StudyRunPairs.study_run_id q =? run)
                                            && (StudyRunPairs.pair_ordinal q =? ordinal))
                         (StudyDatabase.study_run_pairs db) in
  let pairs := flat_map (fun q : Z * StudyRunPairs.t =>
    by_id (StudyDatabase.study_pairs db) (StudyRunPairs.study_pair_id q.2)) registrations in
  let episodes := flat_map (fun p : Z * StudyPairs.t =>
    if treatment =? 1
    then by_id (StudyDatabase.study_episodes db) (StudyPairs.retained_episode_id p.2)
    else if treatment =? 2
    then by_id (StudyDatabase.study_episodes db) (StudyPairs.reset_episode_id p.2)
    else []) pairs in
  let assigned := flat_map (fun e : Z * StudyEpisodes.t =>
    map (fun _ => e.1) (assignments_of db e.1 treatment)) episodes in
  flat_map (fun episode => List.filter
    (fun o => (StudyActorObligations.population_phase o.2 =? phase)
              && (StudyActorObligations.role_ordinal o.2 =? role)
              && (StudyActorObligations.lifecycle_state o.2 =? 1))
    (obligations_of db episode)) assigned.
(** The loop over the rows. *)
Fixpoint only_obligation (found : option StudyActorObligationId)
  (l : list (Z * StudyActorObligations.t)) : store_result (option StudyActorObligationId) :=
  match l with
  | [] => Ok found
  | (id, _) :: l =>
      let? id := stored (StudyIdentifier.try_from id) in
      if not_null found then
        Err (StoreError.LedgerCorruption
               "a sealed study lifetime resolved more than one active obligation"%string)
      else only_obligation (Some id) l
  end.
Definition run_lifetime_obligation db (study_run_id : StudyRunId)
  (pair_ordinal : StudyRunPairOrdinal.t) (treatment : StudyTreatment.t)
  (phase : StudyPopulationPhase.t) (role : StudyRoleOrdinal.t) :
  store_result (option StudyActorObligationId) :=
  only_obligation None
    (seat_obligations db (StudyIdentifier.value study_run_id)
       (StudyRunPairOrdinal.value pair_ordinal) (StudyTreatment.as_i64 treatment)
       (StudyPopulationPhase.as_i64 phase) (StudyRoleOrdinal.value role)).
End Observations.
