(* ===== verification/StudyMachine.v ===== *)
(** * The machine of the study

    What the transitions of [StudyStore] promise about the tables of the study, as a step
    relation: one rule per effect of a command, with the guards that the command has
    checked.  [StudyInvariants] proves the invariants by rule induction, [StudyRefine]
    that every accepted command is a sequence of moves. *)

From S2P Require Import Prelude.
From S2P Require Import Machine.
From S2P Require Import KernelScalars.
From S2P Require Import KernelEnums.
From S2P Require Import StudyTypes.
From S2P Require Import SqlTable.
From S2P Require Import StudyTables.

Module StudyCore.
Record t := new {
  protocols : gmap Z StudyProtocolRevisions.t;
  measurements : gmap Z StudyMeasurementRevisions.t;
  snapshots : gmap Z StudyPopulationSnapshots.t;
  episodes : gmap Z StudyEpisodes.t;
  successors : gmap Z StudyEpisodeSuccessorPopulations.t;
  assignments : gmap Z StudyTreatmentAssignments.t;
  pairs : gmap Z StudyPairs.t;
  runs : gmap Z StudyRuns.t;
  run_pairs : gmap Z StudyRunPairs.t;
  obligations : gmap Z StudyActorObligations.t;
  occurrences : gmap Z StudyActorOccurrences.t;
  forums : gmap Z StudyEpisodeForums.t;
  threads : gmap Z StudyForumThreads.t;
  frozen_heads : gmap Z StudyFrozenForumHeads.t;
  exposures : gmap Z StudyForumExposures.t;
  messages : gmap Z StudyForumMessages.t;
  receipts : gmap Z StudyForumReadReceipts.t;
  decisions : gmap Z StudyDecisions.t;
  reveals : gmap Z StudyGroundTruthReveals.t;
  results : gmap Z StudyMeasurementResults.t;
}.
#[global] Instance fields : Fields t := fun c =>
  new (protocols c) (measurements c) (snapshots c) (episodes c) (successors c) (assignments c)
    (pairs c) (runs c) (run_pairs c) (obligations c) (occurrences c) (forums c) (threads c)
    (frozen_heads c) (exposures c) (messages c) (receipts c) (decisions c) (reveals c)
    (results c).
End StudyCore.
Import StudyCore(protocols, measurements, snapshots, episodes, successors, assignments, pairs,
  runs, run_pairs, obligations, occurrences, forums, threads, frozen_heads, exposures, messages,
  receipts, decisions, reveals, results).

Definition study_core (db : StudyDatabase.t) : StudyCore.t :=
  StudyCore.new (rows (StudyDatabase.study_protocol_revisions db))
    (rows (StudyDatabase.study_measurement_revisions db))
    (rows (StudyDatabase.study_population_snapshots db))
    (rows (StudyDatabase.study_episodes db))
    (rows (StudyDatabase.study_episode_successor_populations db))
    (rows (StudyDatabase.study_treatment_assignments db))
    (rows (StudyDatabase.study_pairs db)) (rows (StudyDatabase.study_runs db))
    (rows (StudyDatabase.study_run_pairs db)) (rows (StudyDatabase.study_actor_obligations db))
    (rows (StudyDatabase.study_actor_occurrences db))
    (rows (StudyDatabase.study_episode_forums db)) (rows (StudyDatabase.study_forum_threads db))
    (rows (StudyDatabase.study_frozen_forum_heads db))
    (rows (StudyDatabase.study_forum_exposures db))
    (rows (StudyDatabase.study_forum_messages db))
    (rows (StudyDatabase.study_forum_read_receipts db))
    (rows (StudyDatabase.study_decisions db))
    (rows (StudyDatabase.study_ground_truth_reveals db))
    (rows (StudyDatabase.study_measurement_results db)).

(** ** What the rules say of the tables *)

Implicit Types (c : StudyCore.t) (e : StudyEpisodes.t) (o : StudyActorObligations.t)
  (f : StudyEpisodeForums.t) (t : StudyForumThreads.t) (m : StudyForumMessages.t)
  (x : StudyForumExposures.t) (r : StudyForumReadReceipts.t).

Definition has_treatment c (episode treatment : Z) : Prop :=
  exists i a, assignments c !! i = Some a /\ StudyTreatmentAssignments.study_episode_id a = episode
    /\ StudyTreatmentAssignments.treatment a = treatment.

(** The thread is of the forum of the episode. *)
Definition thread_of c (thread : Z) t (episode : Z) : Prop :=
  threads c !! thread = Some t
  /\ exists f, forums c !! StudyForumThreads.episode_forum_id t = Some f
     /\ StudyEpisodeForums.study_episode_id f = episode.

(** The obligation is exposed to the thread. *)
Definition exposed c (obligation : Z) x t : Prop :=
  (exists i, exposures c !! i = Some x)
  /\ StudyForumExposures.study_actor_obligation_id x = obligation
  /\ StudyForumThreads.episode_forum_id t = StudyForumExposures.episode_forum_id x.

Definition is_source o : bool := StudyActorObligations.population_phase o =? 1.
Definition is_terminal o : bool := one_of [2; 3] (StudyActorObligations.lifecycle_state o).
(** The obligations of the episode that meet [p] are terminal. *)
Definition settled c (episode : Z) (p : StudyActorObligations.t -> bool) : Prop :=
  forall k o, obligations c !! k = Some o ->
    StudyActorObligations.study_episode_id o = episode -> p o = true -> is_terminal o = true.

(** The protocol and the number of measurements of an episode. *)
Definition protocol_of c e : option StudyProtocolRevisions.t :=
  protocols c !! StudyEpisodes.study_protocol_revision_id e.
Definition slots_of c e : option Z :=
  option_map StudyMeasurementRevisions.measurement_slot_count
    (measurements c !! StudyEpisodes.study_measurement_revision_id e).

(** Episodes of the same revisions, drawn with the same digest. *)
Definition alike e e' : Prop :=
  StudyEpisodes.study_protocol_revision_id e = StudyEpisodes.study_protocol_revision_id e'
  /\ StudyEpisodes.study_world_revision_id e = StudyEpisodes.study_world_revision_id e'
  /\ StudyEpisodes.study_measurement_revision_id e
     = StudyEpisodes.study_measurement_revision_id e'
  /\ StudyEpisodes.study_institution_revision_id e
     = StudyEpisodes.study_institution_revision_id e'
  /\ StudyEpisodes.randomization_digest e = StudyEpisodes.randomization_digest e'.
(** The pair is there, and its episodes were drawn with the digest. *)
Definition drawn_with c (pair_id : Z) (digest : list byte) : Prop :=
  exists p e, pairs c !! pair_id = Some p
    /\ episodes c !! StudyPairs.retained_episode_id p = Some e
    /\ StudyEpisodes.randomization_digest e = digest.

Definition at_state (states : list Z) e : Prop := one_of states (StudyEpisodes.lifecycle_state e) = true.
Definition move_episode (state command_row_id : Z) e : StudyEpisodes.t :=
  e <| StudyEpisodes.lifecycle_state := state |>
    <| StudyEpisodes.last_transition_command_id := command_row_id |>.
Definition closed_episode c (k : Z) : Prop :=
  exists e, episodes c !! k = Some e /\ StudyEpisodes.lifecycle_state e = 7.

(** A new message at the head of a thread: the exposures of its forum that start before it
    follow. *)
Definition follow (forum ordinal : Z) x : StudyForumExposures.t :=
  if (StudyForumExposures.episode_forum_id x =? forum)
     && (StudyForumExposures.visible_from_message_ordinal x <=? ordinal)
  then x <| StudyForumExposures.visible_through_message_ordinal := ordinal |> else x.
Definition append_message (id : Z) m t c : StudyCore.t :=
  let ordinal := StudyForumMessages.thread_message_ordinal m in
  c <| StudyCore.messages := <[id := m]> (messages c) |>
    <| StudyCore.threads := <[StudyForumMessages.forum_thread_id m :=
         t <| StudyForumThreads.head_message_ordinal := ordinal |>]> (threads c) |>
    <| StudyCore.exposures :=
         follow (StudyForumThreads.episode_forum_id t) ordinal <$> exposures c |>.

(** The first message that an obligation may see. *)
Definition first_visible_to c o (first : Z) : Prop :=
  (StudyActorObligations.population_phase o = 1 /\ first = 1)
  \/ (StudyActorObligations.population_phase o = 2
      /\ exists h treatment,
           frozen_heads c !! StudyActorObligations.study_episode_id o = Some h
           /\ has_treatment c (StudyActorObligations.study_episode_id o) treatment
           /\ first = if treatment =? 1 then 1
                      else StudyFrozenForumHeads.frozen_head_message_ordinal h + 1).

(** The message was returned to the obligation, or its actor wrote it. *)
Definition returned_to c (obligation : Z) m : Prop :=
  exists i r, receipts c !! i = Some r
    /\ StudyForumReadReceipts.study_actor_obligation_id r = obligation
    /\ StudyForumReadReceipts.forum_thread_id r = StudyForumMessages.forum_thread_id m
    /\ in_range (StudyForumReadReceipts.first_message_ordinal r)
         (StudyForumReadReceipts.through_message_ordinal r)
         (StudyForumMessages.thread_message_ordinal m) = true.
Definition written_by c (obligation : Z) m : Prop :=
  exists j y, StudyForumMessages.author_occurrence_id m = Some j
    /\ occurrences c !! j = Some y
    /\ StudyActorOccurrences.study_actor_obligation_id y = obligation.

Definition charged_to c (episode : Z) : Z :=
  map_sum (fun _ o => if StudyActorObligations.study_episode_id o =? episode
                      then StudyActorObligations.charged_budget_units o else 0) (obligations c).

(** ** The moves *)

Section Moves.
Variable c : StudyCore.t.

(** Protocols, episodes, pairs and runs. *)
Variant experiment_move : StudyCore.t -> Prop :=
| AdmitProtocol k p : protocols c !! k = None ->
    experiment_move (c <| StudyCore.protocols := <[k := p]> (protocols c) |>)
| AdmitMeasurement k v : measurements c !! k = None ->
    1 <= StudyMeasurementRevisions.measurement_slot_count v ->
    experiment_move (c <| StudyCore.measurements := <[k := v]> (measurements c) |>)
| AdmitSnapshot k s : snapshots c !! k = None ->
    experiment_move (c <| StudyCore.snapshots := <[k := s]> (snapshots c) |>)
| AdmitEpisode k e : episodes c !! k = None -> at_state [1] e ->
    is_Some (measurements c !! StudyEpisodes.study_measurement_revision_id e) ->
    experiment_move (c <| StudyCore.episodes := <[k := e]> (episodes c) |>)
| AssignTreatment k a e : assignments c !! k = None ->
    episodes c !! StudyTreatmentAssignments.study_episode_id a = Some e -> at_state [1] e ->
    (forall treatment, ~ has_treatment c (StudyTreatmentAssignments.study_episode_id a) treatment) ->
    experiment_move (c <| StudyCore.assignments := <[k := a]> (assignments c) |>)
| AdmitPair k p e e' : pairs c !! k = None ->
    episodes c !! StudyPairs.retained_episode_id p = Some e ->
    episodes c !! StudyPairs.reset_episode_id p = Some e' ->
    has_treatment c (StudyPairs.retained_episode_id p) 1 ->
    has_treatment c (StudyPairs.reset_episode_id p) 2 ->
    alike e e' ->
    experiment_move (c <| StudyCore.pairs := <[k := p]> (pairs c) |>)
| AdmitRun k (r : StudyRuns.t) : runs c !! k = None ->
    StudyRuns.lifecycle_state r = 1 -> StudyRuns.registered_pair_count r = 0 ->
    1 <= StudyRuns.pair_count r ->
    experiment_move (c <| StudyCore.runs := <[k := r]> (runs c) |>)
| RegisterPair k p (r : StudyRuns.t) command_row_id : run_pairs c !! k = None ->
    runs c !! StudyRunPairs.study_run_id p = Some r ->
    StudyRuns.lifecycle_state r = 1 ->
    1 <= StudyRunPairs.pair_ordinal p <= StudyRuns.pair_count r ->
    drawn_with c (StudyRunPairs.study_pair_id p) (StudyRunPairs.randomization_digest p) ->
    (forall i q, run_pairs c !! i = Some q ->
       StudyRunPairs.study_run_id q = StudyRunPairs.study_run_id p ->
       StudyRunPairs.pair_ordinal q <> StudyRunPairs.pair_ordinal p) ->
    (forall i q, run_pairs c !! i = Some q ->
       StudyRunPairs.study_pair_id q <> StudyRunPairs.study_pair_id p) ->
    let next := StudyRuns.registered_pair_count r + 1 in
    next <= StudyRuns.pair_count r ->
    experiment_move (c <| StudyCore.run_pairs := <[k := p]> (run_pairs c) |>
      <| StudyCore.runs := <[StudyRunPairs.study_run_id p :=
           r <| StudyRuns.registered_pair_count := next |>
             <| StudyRuns.lifecycle_state := StudyRunLifecycleState.as_i64
                  (if next =? StudyRuns.pair_count r then StudyRunLifecycleState.Ready
                   else StudyRunLifecycleState.Pairing) |>
             <| StudyRuns.last_transition_command_id := command_row_id |>]> (runs c) |>)
| StartRun k (r : StudyRuns.t) command_row_id : runs c !! k = Some r -> StudyRuns.lifecycle_state r = 2 ->
    experiment_move (c <| StudyCore.runs := <[k :=
      r <| StudyRuns.lifecycle_state := 3 |>
        <| StudyRuns.last_transition_command_id := command_row_id |>]> (runs c) |>)
| CompleteRun k (r : StudyRuns.t) command_row_id : runs c !! k = Some r -> StudyRuns.lifecycle_state r = 3 ->
    (forall i q p, run_pairs c !! i = Some q -> StudyRunPairs.study_run_id q = k ->
       pairs c !! StudyRunPairs.study_pair_id q = Some p ->
       closed_episode c (StudyPairs.retained_episode_id p)
       /\ closed_episode c (StudyPairs.reset_episode_id p)) ->
    experiment_move (c <| StudyCore.runs := <[k :=
      r <| StudyRuns.lifecycle_state := 4 |>
        <| StudyRuns.last_transition_command_id := command_row_id |>]> (runs c) |>).

(** Actors and their populations. *)
Variant actor_move : StudyCore.t -> Prop :=
| AdmitObligation k o j y e state command_row_id : obligations c !! k = None ->
    occurrences c !! j = None -> StudyActorOccurrences.study_actor_obligation_id y = k ->
    let episode := StudyActorObligations.study_episode_id o in
    episodes c !! episode = Some e ->
    (StudyActorObligations.population_phase o = 1 /\ at_state [1; 2] e /\ state = 2
       /\ frozen_heads c !! episode = None)
    \/ (StudyActorObligations.population_phase o = 2 /\ at_state [3; 4] e /\ state = 4) ->
    StudyActorObligations.lifecycle_state o = 1 ->
    StudyActorObligations.charged_budget_units o = 0 ->
    StudyActorObligations.reads_used o = 0 -> StudyActorObligations.posts_used o = 0 ->
    0 <= StudyActorObligations.budget_units o -> 0 < StudyActorObligations.read_budget o ->
    0 < StudyActorObligations.post_budget o ->
    actor_move (c <| StudyCore.obligations := <[k := o]> (obligations c) |>
      <| StudyCore.occurrences := <[j := y]> (occurrences c) |>
      <| StudyCore.episodes :=
           <[episode := move_episode state command_row_id e]> (episodes c) |>)
| CompleteObligation k o charged command_row_id : obligations c !! k = Some o ->
    StudyActorObligations.lifecycle_state o = 1 ->
    0 <= charged <= StudyActorObligations.budget_units o ->
    actor_move (c <| StudyCore.obligations := <[k :=
      o <| StudyActorObligations.lifecycle_state := 2 |>
        <| StudyActorObligations.charged_budget_units := charged |>
        <| StudyActorObligations.completed_by_command_id := Some command_row_id |>]>
      (obligations c) |>)
| FailObligation k o reason command_row_id : obligations c !! k = Some o ->
    StudyActorObligations.lifecycle_state o = 1 ->
    actor_move (c <| StudyCore.obligations := <[k :=
      o <| StudyActorObligations.lifecycle_state := 3 |>
        <| StudyActorObligations.failed_by_command_id := Some command_row_id |>
        <| StudyActorObligations.failure_reason_digest := Some reason |>]> (obligations c) |>)
| FreezeHead k h t e : frozen_heads c !! k = None -> episodes c !! k = Some e ->
    at_state [2] e -> thread_of c (StudyFrozenForumHeads.forum_thread_id h) t k ->
    StudyFrozenForumHeads.frozen_head_message_ordinal h = StudyForumThreads.head_message_ordinal t ->
    settled c k is_source ->
    actor_move (c <| StudyCore.frozen_heads := <[k := h]> (frozen_heads c) |>)
| ReplacePopulation k s e command_row_id : successors c !! k = None ->
    episodes c !! k = Some e -> at_state [2] e -> is_Some (frozen_heads c !! k) ->
    actor_move (c <| StudyCore.successors := <[k := s]> (successors c) |>
      <| StudyCore.episodes := <[k := move_episode 3 command_row_id e]> (episodes c) |>)
| Decide k o d : decisions c !! k = None -> obligations c !! k = Some o ->
    (forall i, StudyDecisions.cited_forum_message_id d = Some i -> exists m,
       messages c !! i = Some m /\ (returned_to c k m \/ written_by c k m)) ->
    actor_move (c <| StudyCore.decisions := <[k := d]> (decisions c) |>).

(** The Forum. *)
Variant forum_move : StudyCore.t -> Prop :=
| CreateForum k f e : forums c !! k = None -> StudyEpisodeForums.lifecycle_state f = 1 ->
    episodes c !! StudyEpisodeForums.study_episode_id f = Some e -> at_state [1] e ->
    (forall i g, forums c !! i = Some g ->
       StudyEpisodeForums.study_episode_id g <> StudyEpisodeForums.study_episode_id f) ->
    forum_move (c <| StudyCore.forums := <[k := f]> (forums c) |>)
| OpenThread k t f : threads c !! k = None ->
    forums c !! StudyForumThreads.episode_forum_id t = Some f ->
    StudyForumThreads.head_message_ordinal t = 0 ->
    (forall i u, threads c !! i = Some u ->
       StudyForumThreads.episode_forum_id u <> StudyForumThreads.episode_forum_id t) ->
    forum_move (c <| StudyCore.threads := <[k := t]> (threads c) |>)
| Expose k x o f : exposures c !! k = None ->
    obligations c !! StudyForumExposures.study_actor_obligation_id x = Some o ->
    forums c !! StudyForumExposures.episode_forum_id x = Some f ->
    StudyEpisodeForums.study_episode_id f = StudyActorObligations.study_episode_id o ->
    (forall i x', exposures c !! i = Some x' ->
       StudyForumExposures.study_actor_obligation_id x'
       <> StudyForumExposures.study_actor_obligation_id x) ->
    first_visible_to c o (StudyForumExposures.visible_from_message_ordinal x) ->
    (exists i t, threads c !! i = Some t
       /\ StudyForumThreads.episode_forum_id t = StudyForumExposures.episode_forum_id x
       /\ StudyForumExposures.visible_through_message_ordinal x
          = StudyForumThreads.head_message_ordinal t) ->
    forum_move (c <| StudyCore.exposures := <[k := x]> (exposures c) |>)
| Publish k m t x j y o e by_ : messages c !! k = None ->
    let obligation := StudyActorOccurrences.study_actor_obligation_id y in
    StudyForumMessages.author_occurrence_id m = Some j -> occurrences c !! j = Some y ->
    obligations c !! obligation = Some o -> StudyActorObligations.lifecycle_state o = 1 ->
    StudyActorObligations.posts_used o < StudyActorObligations.post_budget o ->
    episodes c !! StudyActorObligations.study_episode_id o = Some e ->
    (StudyActorObligations.population_phase o = 1 /\ at_state [2] e
       /\ frozen_heads c !! StudyActorObligations.study_episode_id o = None)
    \/ (StudyActorObligations.population_phase o = 2 /\ at_state [5; 6] e) ->
    threads c !! StudyForumMessages.forum_thread_id m = Some t -> exposed c obligation x t ->
    StudyForumMessages.thread_message_ordinal m = StudyForumThreads.head_message_ordinal t + 1 ->
    forum_move (append_message k m t c
      <| StudyCore.obligations := <[obligation :=
           o <| StudyActorObligations.posts_used := StudyActorObligations.posts_used o + 1 |>]>
           (obligations c) |>
      <| StudyCore.episodes := if StudyEpisodes.lifecycle_state e =? 5
           then <[StudyActorObligations.study_episode_id o := move_episode 6 by_ e]> (episodes c)
           else episodes c |>)
| Retract k m : messages c !! k = Some m ->
    StudyForumMessages.publication_state m = 1 ->
    forum_move (c <| StudyCore.messages := <[k :=
      m <| StudyForumMessages.publication_state := 2 |>]> (messages c) |>)
| ReleaseCorrection k m t e p episode by_ : messages c !! k = None ->
    episodes c !! episode = Some e -> at_state [4] e ->
    thread_of c (StudyForumMessages.forum_thread_id m) t episode ->
    StudyForumMessages.thread_message_ordinal m = StudyForumThreads.head_message_ordinal t + 1 ->
    StudyForumMessages.author_occurrence_id m = None ->
    protocol_of c e = Some p ->
    StudyForumMessages.body_digest m = StudyProtocolRevisions.correction_digest p ->
    forum_move (append_message k m t c
      <| StudyCore.episodes := <[episode := move_episode 5 by_ e]> (episodes c) |>)
| ReadMessages k r o e x t : receipts c !! k = None ->
    let obligation := StudyForumReadReceipts.study_actor_obligation_id r in
    obligations c !! obligation = Some o -> StudyActorObligations.lifecycle_state o = 1 ->
    StudyActorObligations.reads_used o < StudyActorObligations.read_budget o ->
    episodes c !! StudyActorObligations.study_episode_id o = Some e ->
    is_source o = true \/ at_state [5; 6] e ->
    threads c !! StudyForumReadReceipts.forum_thread_id r = Some t -> exposed c obligation x t ->
    StudyForumExposures.visible_from_message_ordinal x
      <= StudyForumReadReceipts.first_message_ordinal r
      <= StudyForumReadReceipts.through_message_ordinal r ->
    StudyForumReadReceipts.through_message_ordinal r
      <= StudyForumExposures.visible_through_message_ordinal x ->
    forum_move (c <| StudyCore.receipts := <[k := r]> (receipts c) |>
      <| StudyCore.obligations := <[obligation :=
           o <| StudyActorObligations.reads_used := StudyActorObligations.reads_used o + 1 |>]>
           (obligations c) |>).

(** A result has a value and its digest, or else a reason. *)
Definition shaped (v : StudyMeasurementResults.t) : Prop :=
  match StudyMeasurementResults.result_status v, StudyMeasurementResults.observed_value v,
        StudyMeasurementResults.value_digest v, StudyMeasurementResults.reason_digest v with
  | 1, Some _, Some _, None => True
  | (2 | 3), None, None, Some _ => True
  | _, _, _, _ => False
  end.
(** Analysis. *)
Variant analysis_move : StudyCore.t -> Prop :=
| Reveal k v e p : reveals c !! k = None -> episodes c !! k = Some e -> at_state [5; 6] e ->
    settled c k (fun _ => true) -> protocol_of c e = Some p ->
    StudyGroundTruthReveals.reveal_digest v
      = StudyProtocolRevisions.ground_truth_commitment_digest p ->
    analysis_move (c <| StudyCore.reveals := <[k := v]> (reveals c) |>)
| Measure k v e slots : results c !! k = None ->
    let episode := StudyMeasurementResults.study_episode_id v in
    episodes c !! episode = Some e -> at_state [5; 6] e -> is_Some (reveals c !! episode) ->
    slots_of c e = Some slots -> 1 <= StudyMeasurementResults.measurement_slot v <= slots ->
    shaped v ->
    (forall i w, results c !! i = Some w ->
       StudyMeasurementResults.study_episode_id w = episode ->
       StudyMeasurementResults.measurement_slot w
       <> StudyMeasurementResults.measurement_slot v) ->
    analysis_move (c <| StudyCore.results := <[k := v]> (results c) |>)
| Close k e slots p by_ : episodes c !! k = Some e -> at_state [5; 6] e ->
    settled c k (fun _ => true) -> slots_of c e = Some slots ->
    count_rows (fun v => StudyMeasurementResults.study_episode_id v =? k) (results c) = slots ->
    protocol_of c e = Some p ->
    charged_to c k <= StudyProtocolRevisions.episode_budget_units p ->
    analysis_move (c <| StudyCore.episodes := <[k := move_episode 7 by_ e]> (episodes c) |>
      <| StudyCore.forums := (fun f =>
           if StudyEpisodeForums.study_episode_id f =? k
           then f <| StudyEpisodeForums.lifecycle_state := 3 |>
                  <| StudyEpisodeForums.last_transition_command_id := by_ |>
           else f) <$> forums c |>).
End Moves.

Variant study_move c c' : Prop :=
| Experiment : experiment_move c c' -> study_move c c'
| Actor : actor_move c c' -> study_move c c'
| Forum : forum_move c c' -> study_move c c'
| Analysis : analysis_move c c' -> study_move c c'.
Definition study_moves : relation StudyCore.t := rtc study_move.

(** ** What every move keeps *)

Definition episode_le e e' : Prop :=
  StudyEpisodes.study_protocol_revision_id e' = StudyEpisodes.study_protocol_revision_id e
  /\ StudyEpisodes.study_world_revision_id e' = StudyEpisodes.study_world_revision_id e
  /\ StudyEpisodes.study_measurement_revision_id e'
     = StudyEpisodes.study_measurement_revision_id e
  /\ StudyEpisodes.study_institution_revision_id e'
     = StudyEpisodes.study_institution_revision_id e
  /\ StudyEpisodes.study_population_snapshot_id e' = StudyEpisodes.study_population_snapshot_id e
  /\ StudyEpisodes.randomization_digest e' = StudyEpisodes.randomization_digest e
  /\ StudyEpisodes.lifecycle_state e <= StudyEpisodes.lifecycle_state e'
  /\ (StudyEpisodes.lifecycle_state e = 7 -> e' = e).
Definition obligation_le o o' : Prop :=
  StudyActorObligations.study_episode_id o' = StudyActorObligations.study_episode_id o
  /\ StudyActorObligations.population_phase o' = StudyActorObligations.population_phase o
  /\ StudyActorObligations.budget_units o' = StudyActorObligations.budget_units o
  /\ StudyActorObligations.read_budget o' = StudyActorObligations.read_budget o
  /\ StudyActorObligations.post_budget o' = StudyActorObligations.post_budget o
  /\ (is_terminal o = true -> o' = o).
Definition forum_le f f' : Prop :=
  StudyEpisodeForums.study_episode_id f' = StudyEpisodeForums.study_episode_id f
  /\ (StudyEpisodeForums.lifecycle_state f = 3 -> StudyEpisodeForums.lifecycle_state f' = 3).
Definition thread_le t t' : Prop :=
  StudyForumThreads.episode_forum_id t' = StudyForumThreads.episode_forum_id t
  /\ StudyForumThreads.title t' = StudyForumThreads.title t
  /\ StudyForumThreads.head_message_ordinal t <= StudyForumThreads.head_message_ordinal t'.
Definition exposure_le x x' : Prop :=
  StudyForumExposures.study_actor_obligation_id x' = StudyForumExposures.study_actor_obligation_id x
  /\ StudyForumExposures.episode_forum_id x' = StudyForumExposures.episode_forum_id x
  /\ StudyForumExposures.visible_from_message_ordinal x'
     = StudyForumExposures.visible_from_message_ordinal x.
Definition message_le m m' : Prop :=
  m' = m \/ (StudyForumMessages.publication_state m = 1
             /\ m' = m <| StudyForumMessages.publication_state := 2 |>).
Definition run_le (r r' : StudyRuns.t) : Prop :=
  StudyRuns.pair_count r' = StudyRuns.pair_count r
  /\ StudyRuns.plan_digest r' = StudyRuns.plan_digest r
  /\ StudyRuns.registered_pair_count r <= StudyRuns.registered_pair_count r'
  /\ StudyRuns.lifecycle_state r <= StudyRuns.lifecycle_state r'.

#[export] Instance episode_le_refl : Reflexive episode_le.
Proof. intros e. unfold episode_le. split_and!; done || lia. Qed.
#[export] Instance episode_le_trans : Transitive episode_le.
Proof.
  intros e1 e2 e3 (?&?&?&?&?&?&?&H7) (?&?&?&?&?&?&?&H7').
  unfold episode_le. split_and!; [congruence..|lia|].
  intros E. rewrite H7' by (by rewrite H7). by apply H7.
Qed.
#[export] Instance obligation_le_refl : Reflexive obligation_le.
Proof. done. Qed.
#[export] Instance obligation_le_trans : Transitive obligation_le.
Proof.
  intros o1 o2 o3 (?&?&?&?&?&H) (?&?&?&?&?&H'). unfold obligation_le.
  split_and!; [congruence..|]. intros E. rewrite H' by (by rewrite H). by apply H.
Qed.
#[export] Instance forum_le_refl : Reflexive forum_le.
Proof. done. Qed.
#[export] Instance forum_le_trans : Transitive forum_le.
Proof. intros f1 f2 f3 [? ?] [? ?]. split; [congruence|auto]. Qed.
#[export] Instance thread_le_refl : Reflexive thread_le.
Proof. intros t. unfold thread_le. split_and!; done || lia. Qed.
#[export] Instance thread_le_trans : Transitive thread_le.
Proof. intros t1 t2 t3 (?&?&?) (?&?&?). unfold thread_le. split_and!; [congruence..|lia]. Qed.
#[export] Instance exposure_le_refl : Reflexive exposure_le.
Proof. done. Qed.
#[export] Instance exposure_le_trans : Transitive exposure_le.
Proof. intros x1 x2 x3 (?&?&?) (?&?&?). unfold exposure_le. split_and!; congruence. Qed.
#[export] Instance message_le_refl : Reflexive message_le.
Proof. by left. Qed.
#[export] Instance message_le_trans : Transitive message_le.
Proof. intros m1 m2 m3 [->|[H ->]] [->|[H' ->]]; [by left|by right..|done]. Qed.
#[export] Instance run_le_refl : Reflexive run_le.
Proof. intros r. unfold run_le. split_and!; done || lia. Qed.
#[export] Instance run_le_trans : Transitive run_le.
Proof. intros r1 r2 r3 (?&?&?&?) (?&?&?&?). unfold run_le. split_and!; [congruence..|lia|lia]. Qed.

(** The tables of a later state. *)
Record later c c' : Prop := {
  later_protocols : evolves eq (protocols c) (protocols c');
  later_measurements : evolves eq (measurements c) (measurements c');
  later_snapshots : evolves eq (snapshots c) (snapshots c');
  later_episodes : evolves episode_le (episodes c) (episodes c');
  later_successors : evolves eq (successors c) (successors c');
  later_assignments : evolves eq (assignments c) (assignments c');
  later_pairs : evolves eq (pairs c) (pairs c');
  later_runs : evolves run_le (runs c) (runs c');
  later_run_pairs : evolves eq (run_pairs c) (run_pairs c');
  later_obligations : evolves obligation_le (obligations c) (obligations c');
  later_occurrences : evolves eq (occurrences c) (occurrences c');
  later_forums : evolves forum_le (forums c) (forums c');
  later_threads : evolves thread_le (threads c) (threads c');
  later_frozen_heads : evolves eq (frozen_heads c) (frozen_heads c');
  later_exposures : evolves exposure_le (exposures c) (exposures c');
  later_messages : evolves message_le (messages c) (messages c');
  later_receipts : evolves eq (receipts c) (receipts c');
  later_decisions : evolves eq (decisions c) (decisions c');
  later_reveals : evolves eq (reveals c) (reveals c');
  later_results : evolves eq (results c) (results c');
}.

#[export] Instance later_refl : Reflexive later.
Proof. intros c. constructor; apply evolves_same, _. Qed.
#[export] Instance later_trans : Transitive later.
Proof. intros c1 c2 c3 [] []. constructor; eapply (evolves_trans _); eassumption. Qed.

Lemma follow_le forum ordinal x : exposure_le x (follow forum ordinal x).
Proof. unfold follow. by destruct (_ && _). Qed.
Lemma at_state_in states e : at_state states e -> StudyEpisodes.lifecycle_state e ∈ states.
Proof.
  unfold at_state, one_of. rewrite existsb_exists. intros (v & Hv & ->%Z.eqb_eq).
  by apply list_elem_of_In.
Qed.
(** An episode that moves to a state after all of [states]. *)
Lemma move_episode_le states state by_ e :
  at_state states e -> Forall (fun s => s <= state /\ s < 7) states ->
  episode_le e (move_episode state by_ e).
Proof.
  intros H%at_state_in HF. rewrite Forall_forall in HF. apply HF in H.
  unfold episode_le. cbn. split_and!; done || lia.
Qed.
Lemma live_obligation_le o o' :
  StudyActorObligations.lifecycle_state o = 1 ->
  StudyActorObligations.study_episode_id o' = StudyActorObligations.study_episode_id o ->
  StudyActorObligations.population_phase o' = StudyActorObligations.population_phase o ->
  StudyActorObligations.budget_units o' = StudyActorObligations.budget_units o ->
  StudyActorObligations.read_budget o' = StudyActorObligations.read_budget o ->
  StudyActorObligations.post_budget o' = StudyActorObligations.post_budget o ->
  obligation_le o o'.
Proof.
  intros H. unfold obligation_le. intros. split_and!; [done..|].
  unfold is_terminal. by rewrite H.
Qed.
Lemma thread_head_le t n :
  n = StudyForumThreads.head_message_ordinal t + 1 ->
  thread_le t (t <| StudyForumThreads.head_message_ordinal := n |>).
Proof. intros ->. unfold thread_le. cbn. split_and!; done || lia. Qed.

(** The tables that a move leaves alone, or adds a row to, or updates. *)
Ltac evolve :=
  first [ by apply (evolves_same _ _)
        | by apply (evolves_new _ _)
        | eapply (evolves_update _); [eassumption|]
        | idtac ].
Ltac later_move := constructor; cbn -[Z.add]; evolve.

Lemma experiment_later c c' : experiment_move c c' -> later c c'.
Proof.
  intros []; later_move.
  - unfold run_le. cbn. split_and!; [done|done|lia|]. case_match; cbn; lia.
  - unfold run_le. cbn. split_and!; done || lia.
  - unfold run_le. cbn. split_and!; done || lia.
Qed.
Lemma actor_later c c' : actor_move c c' -> later c c'.
Proof.
  intros []; later_move; try by apply live_obligation_le.
  - match goal with Hp : _ \/ _ |- _ => destruct Hp as [(_ & Hs & -> & _)|(_ & Hs & ->)] end;
      (eapply move_episode_le; [exact Hs|]); by repeat constructor.
  - by eapply move_episode_le; [eassumption|]; repeat constructor.
Qed.
Lemma forum_later c c' : forum_move c c' -> later c c'.
Proof.
  intros []; later_move; try by apply live_obligation_le.
  all: try by (apply evolves_map; intros; apply follow_le).
  all: try by apply thread_head_le.
  - destruct (StudyEpisodes.lifecycle_state e =? 5) eqn:E5; [|by apply evolves_same, _].
    eapply (evolves_update _); [eassumption|].
    apply (move_episode_le [5]); [|by repeat constructor]. unfold at_state, one_of. cbn. by rewrite E5.
  - by right.
  - by eapply move_episode_le; [eassumption|]; repeat constructor.
  - match goal with Ht : thread_of _ _ _ _ |- _ => destruct Ht as [Ht _] end.
    eapply (evolves_update _); [eassumption|]. by apply thread_head_le.
Qed.
Lemma analysis_later c c' : analysis_move c c' -> later c c'.
Proof.
  intros []; later_move.
  - by eapply move_episode_le; [eassumption|]; repeat constructor.
  - apply evolves_map. intros f. case_match; by split.
Qed.
Lemma move_later c c' : study_move c c' -> later c c'.
Proof.
  intros []; eauto using experiment_later, actor_later, forum_later, analysis_later.
Qed.
Lemma moves_later c c' : study_moves c c' -> later c c'.
Proof. induction 1 as [|c1 c2 c3 H _ IH]; [done|]. trans c2; [by apply move_later|done]. Qed.
