(* ===== verification/StudyInvariants.v ===== *)
(** * Invariants of the study

    By rule induction on [StudyMachine]: the Forum has one thread per episode and its
    messages are numbered without a gap; what an obligation was exposed to and read follows
    its phase and treatment; budgets, runs and closed episodes account for themselves. *)

From S2P Require Import Prelude.
From S2P Require Import Machine.
From S2P Require Import KernelScalars.
From S2P Require Import KernelEnums.
From S2P Require Import StudyTypes.
From S2P Require Import SqlTable.
From S2P Require Import StudyTables.
From S2P Require Import StudyMachine.
Import StudyCore(protocols, measurements, snapshots, episodes, successors, assignments, pairs,
  runs, run_pairs, obligations, occurrences, forums, threads, frozen_heads, exposures, messages,
  receipts, decisions, reveals, results).

Implicit Types (c : StudyCore.t) (e : StudyEpisodes.t) (o : StudyActorObligations.t)
  (f : StudyEpisodeForums.t) (t : StudyForumThreads.t) (m : StudyForumMessages.t)
  (x : StudyForumExposures.t) (r : StudyForumReadReceipts.t) (h : StudyFrozenForumHeads.t).

(** The state of an episode, as a disjunction. *)
Ltac states :=
  repeat match goal with
  | H : at_state _ _ |- _ =>
      apply at_state_in in H; rewrite !elem_of_cons, ?elem_of_nil in H
  end.

(** ** Facts that last *)

Section Lasting.
Context {c c' : StudyCore.t} (L : later c c').

Lemma has_treatment_lasts k treatment : has_treatment c k treatment -> has_treatment c' k treatment.
Proof. intros (i & a & Ha & H). apply (later_assignments _ _ L) in Ha as (? & Ha & <-). by exists i, a. Qed.

Lemma thread_lasts i t : threads c !! i = Some t -> exists t', threads c' !! i = Some t' /\ thread_le t t'.
Proof. apply (later_threads _ _ L). Qed.

Lemma thread_of_lasts i t k :
  thread_of c i t k -> exists t', thread_of c' i t' k /\ thread_le t t'.
Proof.
  intros (Ht & f & Hf & Hk). apply (later_threads _ _ L) in Ht as (t' & Ht' & Hle).
  apply (later_forums _ _ L) in Hf as (f' & Hf' & Hfe & _).
  exists t'. split; [|done]. split; [done|]. exists f'. destruct Hle as [-> _]. split; congruence.
Qed.

Lemma exposed_lasts k x t t' :
  exposed c k x t -> thread_le t t' -> exists x', exposed c' k x' t' /\ exposure_le x x'.
Proof.
  intros ((i & Hx) & Hk & Hf) (Ht & _). apply (later_exposures _ _ L) in Hx as (x' & Hx' & Hle).
  exists x'. split; [|done]. destruct Hle as (H1 & H2 & _). unfold exposed.
  split_and!; [by exists i|congruence..].
Qed.

Lemma first_visible_lasts o o' n :
  obligation_le o o' -> first_visible_to c o n -> first_visible_to c' o' n.
Proof.
  intros (He & Hp & _) [[H ->]|(H & h & treatment & Hh & Ha & ->)]; [left; by rewrite Hp|right].
  rewrite Hp, He. split; [done|]. exists h, treatment.
  apply (later_frozen_heads _ _ L) in Hh as (? & Hh & <-). eauto using has_treatment_lasts.
Qed.

Lemma closed_lasts k : closed_episode c k -> closed_episode c' k.
Proof.
  intros (e & He & H7). apply (later_episodes _ _ L) in He as (e' & He' & Hle). exists e'.
  split; [done|]. destruct Hle as (_&_&_&_&_&_&_&H). by rewrite H.
Qed.
End Lasting.

(** ** The Forum *)

Record forum_inv c : Prop := {
  one_forum i j f g : forums c !! i = Some f -> forums c !! j = Some g ->
    StudyEpisodeForums.study_episode_id f = StudyEpisodeForums.study_episode_id g -> i = j;
  one_thread i j t u : threads c !! i = Some t -> threads c !! j = Some u ->
    StudyForumThreads.episode_forum_id t = StudyForumThreads.episode_forum_id u -> i = j;
  thread_has_forum i t : threads c !! i = Some t ->
    is_Some (forums c !! StudyForumThreads.episode_forum_id t);
  head_is_count i t : threads c !! i = Some t -> 0 <= StudyForumThreads.head_message_ordinal t;
  message_in_thread k m : messages c !! k = Some m -> exists t,
    threads c !! StudyForumMessages.forum_thread_id m = Some t
    /\ 1 <= StudyForumMessages.thread_message_ordinal m
       <= StudyForumThreads.head_message_ordinal t;
  one_message k l m n : messages c !! k = Some m -> messages c !! l = Some n ->
    StudyForumMessages.forum_thread_id m = StudyForumMessages.forum_thread_id n ->
    StudyForumMessages.thread_message_ordinal m = StudyForumMessages.thread_message_ordinal n ->
    k = l;
  no_message_missing i t n : threads c !! i = Some t ->
    1 <= n <= StudyForumThreads.head_message_ordinal t ->
    exists k m, messages c !! k = Some m /\ StudyForumMessages.forum_thread_id m = i
      /\ StudyForumMessages.thread_message_ordinal m = n;
  exposure_within i x : exposures c !! i = Some x -> exists j t, threads c !! j = Some t
    /\ StudyForumThreads.episode_forum_id t = StudyForumExposures.episode_forum_id x
    /\ StudyForumExposures.visible_through_message_ordinal x
       <= StudyForumThreads.head_message_ordinal t;
}.

Lemma forum_inv_frame c c' :
  forums c' = forums c -> threads c' = threads c -> messages c' = messages c ->
  exposures c' = exposures c -> forum_inv c -> forum_inv c'.
Proof. intros Hf Ht Hm Hx []. constructor; rewrite ?Hf, ?Ht, ?Hm, ?Hx; done. Qed.

Lemma forum_inv_append c k m t :
  forum_inv c -> messages c !! k = None ->
  threads c !! StudyForumMessages.forum_thread_id m = Some t ->
  StudyForumMessages.thread_message_ordinal m = StudyForumThreads.head_message_ordinal t + 1 ->
  forum_inv (append_message k m t c).
Proof.
  intros I Hk Ht Hn. pose proof (head_is_count _ I _ _ Ht) as Hh.
  constructor; cbn -[Z.add].
  - apply (one_forum _ I).
  - intros i j u v Hu Hv E. lookups; try done; by eapply (one_thread _ I); eauto.
  - intros i u Hu. lookups; by eapply (thread_has_forum _ I).
  - intros i u Hu. lookups; [lia|by eapply (head_is_count _ I)].
  - intros l n Hl. lookups.
    { rewrite lookup_insert_eq. eexists. split; [done|]. cbn. lia. }
    destruct (message_in_thread _ I _ _ Hl) as (u & Hu & Hr).
    destruct (decide (StudyForumMessages.forum_thread_id m = StudyForumMessages.forum_thread_id n))
      as [E|Hne].
    + rewrite E, lookup_insert_eq. eexists. split; [done|]. cbn. rewrite E in Ht. simplify_eq. lia.
    + rewrite lookup_insert_ne by done. eauto.
  - intros i j u v Hu Hv E1 E2. lookups; [done| | |by eapply (one_message _ I); eauto];
      match goal with H : messages c !! _ = Some _ |- _ =>
        destruct (message_in_thread _ I _ _ H) as (w & Hw & Hr) end;
      exfalso; rewrite E1 in *; simplify_eq; lia.
  - intros i u n Hu Hr. lookups.
    + destruct (decide (n = StudyForumMessages.thread_message_ordinal m)) as [->|Hne].
      { exists k, m. by rewrite lookup_insert_eq. }
      destruct (no_message_missing _ I _ _ n Ht) as (l & m' & Hl & Hm'); [lia|].
      exists l, m'. rewrite lookup_insert_ne; [done|]. intros ->. by rewrite Hk in Hl.
    + destruct (no_message_missing _ I _ _ n Hu) as (l & m' & Hl & Hm'); [lia|].
      exists l, m'. rewrite lookup_insert_ne; [done|]. intros ->. by rewrite Hk in Hl.
  - intros i x Hx. lookups. destruct (exposure_within _ I _ _ Hx) as (j & u & Hu & Hf & Hle).
    destruct (decide (StudyForumMessages.forum_thread_id m = j)) as [<-|Hne].
    + simplify_eq. exists (StudyForumMessages.forum_thread_id m). eexists.
      rewrite lookup_insert_eq. split; [done|]. cbn. unfold follow.
      destruct (_ && _); cbn; split; (done || lia).
    + exists j, u. rewrite lookup_insert_ne by done. split; [done|]. unfold follow.
      destruct (Z.eqb_spec (StudyForumExposures.episode_forum_id row)
                  (StudyForumThreads.episode_forum_id t)) as [E|]; [|done].
      exfalso. apply Hne. eapply (one_thread _ I); eauto. congruence.
Qed.

Lemma forum_inv_move c c' : study_move c c' -> forum_inv c -> forum_inv c'.
Proof.
  intros Hmove I.
  destruct Hmove as [H|H|H|H]; destruct H; try by apply (forum_inv_frame c).
  - (* CreateForum *)
    constructor; cbn; try apply I.
    + intros i j g g' Hi Hj E. lookups; [done|exfalso..|]; [by eapply H3; eauto|by eapply H3; eauto|].
      by eapply (one_forum _ I); eauto.
    + intros i t Ht. apply (thread_has_forum _ I) in Ht. by apply lookup_insert_is_Some'; right.
  - (* OpenThread *)
    constructor; cbn; try apply I.
    + intros i j u v Hu Hv E. lookups; [done|exfalso..|]; [by eapply H2; eauto|by eapply H2; eauto|].
      by eapply (one_thread _ I); eauto.
    + intros i u Hu. lookups; [by eexists|by eapply (thread_has_forum _ I)].
    + intros i u Hu. lookups; [lia|by eapply (head_is_count _ I)].
    + intros l m Hl. destruct (message_in_thread _ I _ _ Hl) as (u & Hu & Hr). exists u.
      rewrite lookup_insert_ne; [done|]. intros ->. congruence.
    + intros i u n Hu Hr. lookups; [lia|by eapply (no_message_missing _ I)].
    + intros i x Hx. destruct (exposure_within _ I _ _ Hx) as (j & u & Hu & Hr). exists j, u.
      rewrite lookup_insert_ne; [done|]. intros ->. congruence.
  - (* Expose *)
    constructor; cbn; try apply I.
    intros i x' Hx. lookups; [|by eapply (exposure_within _ I)].
    destruct H5 as (j & t & Ht & Hf & Hh). exists j, t. split_and!; [done..|lia].
  - (* Publish *)
    eapply (forum_inv_frame (append_message k m t c)); [done..|]. by apply forum_inv_append.
  - (* Retract *)
    assert (forall j n, <[k := m <| StudyForumMessages.publication_state := 2 |>]> (messages c) !! j
              = Some n -> exists n', messages c !! j = Some n'
              /\ StudyForumMessages.forum_thread_id n = StudyForumMessages.forum_thread_id n'
              /\ StudyForumMessages.thread_message_ordinal n
                 = StudyForumMessages.thread_message_ordinal n') as Hold.
    { intros j n Hj. lookups; eauto. }
    constructor; cbn; try apply I.
    + intros j n (n' & Hn' & -> & ->)%Hold. by eapply (message_in_thread _ I).
    + intros i j n n' (u & Hu & -> & ->)%Hold (v & Hv & -> & ->)%Hold. by eapply (one_message _ I).
    + intros i u n Hu Hr. destruct (no_message_missing _ I _ _ _ Hu Hr) as (j & n' & Hj & Hn').
      destruct (decide (k = j)) as [->|Hne].
      * exists j. eexists. rewrite lookup_insert_eq. split; [done|]. cbn. by simplify_eq.
      * exists j, n'. by rewrite lookup_insert_ne.
  - (* ReleaseCorrection *)
    eapply (forum_inv_frame (append_message k m t c)); [done..|]. destruct H2. by apply forum_inv_append.
  - (* Close *)
    constructor; cbn; try apply I.
    + intros i j g g' Hi Hj E. lookups. eapply (one_forum _ I); [done..|].
      by repeat case_match.
    + intros i t Ht. rewrite lookup_fmap. destruct (thread_has_forum _ I _ _ Ht) as [g ->]. by eexists.
Qed.

(** ** Phases and treatments *)

(** Where a message stands: what the source population wrote is within the frozen head, what
    the service and the successors wrote comes after it. *)
Definition placed c m : Prop :=
  exists episode t, thread_of c (StudyForumMessages.forum_thread_id m) t episode
  /\ match StudyForumMessages.author_occurrence_id m with
     | Some j => exists y o, occurrences c !! j = Some y
         /\ obligations c !! StudyActorOccurrences.study_actor_obligation_id y = Some o
         /\ StudyActorObligations.study_episode_id o = episode
         /\ ((StudyActorObligations.population_phase o = 1
              /\ forall h, frozen_heads c !! episode = Some h ->
                   StudyForumMessages.thread_message_ordinal m
                   <= StudyFrozenForumHeads.frozen_head_message_ordinal h)
             \/ (StudyActorObligations.population_phase o = 2
                 /\ exists h, frozen_heads c !! episode = Some h
                      /\ StudyFrozenForumHeads.frozen_head_message_ordinal h
                         < StudyForumMessages.thread_message_ordinal m))
     | None => exists h, frozen_heads c !! episode = Some h
         /\ StudyFrozenForumHeads.frozen_head_message_ordinal h
            < StudyForumMessages.thread_message_ordinal m
     end.

Record isolation_inv c : Prop := {
  one_assignment i j a b : assignments c !! i = Some a -> assignments c !! j = Some b ->
    StudyTreatmentAssignments.study_episode_id a = StudyTreatmentAssignments.study_episode_id b ->
    i = j;
  one_exposure i j x y : exposures c !! i = Some x -> exposures c !! j = Some y ->
    StudyForumExposures.study_actor_obligation_id x
      = StudyForumExposures.study_actor_obligation_id y -> i = j;
  one_occurrence i j y z : occurrences c !! i = Some y -> occurrences c !! j = Some z ->
    StudyActorOccurrences.study_actor_obligation_id y
      = StudyActorOccurrences.study_actor_obligation_id z -> i = j;
  occurrence_obligation j y : occurrences c !! j = Some y ->
    is_Some (obligations c !! StudyActorOccurrences.study_actor_obligation_id y);
  late_is_frozen k e : episodes c !! k = Some e -> 3 <= StudyEpisodes.lifecycle_state e ->
    is_Some (frozen_heads c !! k);
  frozen_thread k h : frozen_heads c !! k = Some h -> exists t,
    thread_of c (StudyFrozenForumHeads.forum_thread_id h) t k
    /\ StudyFrozenForumHeads.frozen_head_message_ordinal h
       <= StudyForumThreads.head_message_ordinal t;
  exposure_start i x : exposures c !! i = Some x -> exists o f,
    obligations c !! StudyForumExposures.study_actor_obligation_id x = Some o
    /\ forums c !! StudyForumExposures.episode_forum_id x = Some f
    /\ StudyEpisodeForums.study_episode_id f = StudyActorObligations.study_episode_id o
    /\ first_visible_to c o (StudyForumExposures.visible_from_message_ordinal x);
  receipt_exposed i r : receipts c !! i = Some r -> exists x t,
    exposed c (StudyForumReadReceipts.study_actor_obligation_id r) x t
    /\ threads c !! StudyForumReadReceipts.forum_thread_id r = Some t
    /\ StudyForumExposures.visible_from_message_ordinal x
       <= StudyForumReadReceipts.first_message_ordinal r
       <= StudyForumReadReceipts.through_message_ordinal r
    /\ StudyForumReadReceipts.through_message_ordinal r
       <= StudyForumThreads.head_message_ordinal t;
  message_placed k m : messages c !! k = Some m -> placed c m;
}.

Lemma placed_lasts c c' m :
  later c c' -> frozen_heads c' = frozen_heads c -> placed c m -> placed c' m.
Proof.
  intros L Hf (k & t & Ht & Ha). apply (thread_of_lasts L) in Ht as (t' & Ht' & _).
  exists k, t'. split; [done|]. rewrite Hf. destruct (StudyForumMessages.author_occurrence_id m) as [j|]; [|done].
  destruct Ha as (y & o & Hy & Ho & He & Hp).
  apply (later_occurrences _ _ L) in Hy as (? & Hy & <-).
  apply (later_obligations _ _ L) in Ho as (o' & Ho & (He' & Hp' & _)).
  exists y, o'. rewrite He', Hp'. done.
Qed.
Lemma placed_same c m n :
  StudyForumMessages.forum_thread_id n = StudyForumMessages.forum_thread_id m ->
  StudyForumMessages.author_occurrence_id n = StudyForumMessages.author_occurrence_id m ->
  StudyForumMessages.thread_message_ordinal n = StudyForumMessages.thread_message_ordinal m ->
  placed c m -> placed c n.
Proof. unfold placed. by intros -> -> ->. Qed.

Section Isolation.
Context {c c' : StudyCore.t} (Hmove : study_move c c').
Hypotheses (F : forum_inv c) (I : isolation_inv c).
Let L : later c c' := move_later _ _ Hmove.

Lemma one_assignment_move i j a b :
  assignments c' !! i = Some a -> assignments c' !! j = Some b ->
  StudyTreatmentAssignments.study_episode_id a = StudyTreatmentAssignments.study_episode_id b ->
  i = j.
Proof.
  clear L. destruct Hmove as [H|H|H|H]; destruct H; try exact (one_assignment _ I i j a b).
  cbn. intros Ha Hb E. lookups; [done| | |by eapply (one_assignment _ I)];
    exfalso; eapply H2; eexists _, _; eauto.
Qed.

Lemma one_exposure_move i j x y :
  exposures c' !! i = Some x -> exposures c' !! j = Some y ->
  StudyForumExposures.study_actor_obligation_id x
    = StudyForumExposures.study_actor_obligation_id y -> i = j.
Proof.
  intros Hx Hy E.
  assert (forall forum n a b, exposures c !! i = Some a -> x = follow forum n a ->
            exposures c !! j = Some b -> y = follow forum n b -> i = j) as Hfollow.
  { intros forum n a b Ha -> Hb ->. eapply (one_exposure _ I); [done..|].
    destruct (follow_le forum n a) as [<- _], (follow_le forum n b) as [<- _]. done. }
  clear L. destruct Hmove as [H|H|H|H]; destruct H; cbn in *;
    try exact (one_exposure _ I i j x y Hx Hy E).
  - lookups; [done| | |by eapply (one_exposure _ I)]; exfalso; eapply H3; eauto.
  - lookups. by eapply Hfollow.
  - lookups. by eapply Hfollow.
Qed.

Lemma occurrence_obligation_move j y :
  occurrences c' !! j = Some y ->
  is_Some (obligations c' !! StudyActorOccurrences.study_actor_obligation_id y).
Proof.
  intros Hy. destruct (occurrences c !! j) as [z|] eqn:Hz.
  - assert (y = z) as ->.
    { destruct (later_occurrences _ _ L _ _ Hz) as (? & Hy' & <-). congruence. }
    destruct (occurrence_obligation _ I _ _ Hz) as [o Ho].
    destruct (later_obligations _ _ L _ _ Ho) as (o' & Ho' & _). by eexists.
  - clear L. destruct Hmove as [H|H|H|H]; destruct H; cbn in *; try congruence.
    lookups. rewrite lookup_insert_eq. by eexists.
Qed.

Lemma one_occurrence_move i j y z :
  occurrences c' !! i = Some y -> occurrences c' !! j = Some z ->
  StudyActorOccurrences.study_actor_obligation_id y
    = StudyActorOccurrences.study_actor_obligation_id z -> i = j.
Proof.
  clear L. intros Hy Hz E. destruct Hmove as [H|H|H|H]; destruct H; cbn in *;
    try exact (one_occurrence _ I i j y z Hy Hz E).
  lookups; [done| | |by eapply (one_occurrence _ I)];
    match goal with Ho : occurrences c !! _ = Some _ |- _ =>
      apply (occurrence_obligation _ I) in Ho as [? Ho] end; congruence.
Qed.

Lemma frozen_head_moves k h :
  frozen_heads c' !! k = Some h -> exists t,
  thread_of c' (StudyFrozenForumHeads.forum_thread_id h) t k
  /\ StudyFrozenForumHeads.frozen_head_message_ordinal h
     <= StudyForumThreads.head_message_ordinal t.
Proof.
  intros Hh. destruct (frozen_heads c !! k) as [h'|] eqn:E.
  - assert (h = h') as ->.
    { destruct (later_frozen_heads _ _ L _ _ E) as (? & Hh' & <-). congruence. }
    destruct (frozen_thread _ I _ _ E) as (t & Ht & Hle).
    destruct (thread_of_lasts L _ _ _ Ht) as (t' & Ht' & (_ & _ & Hle')).
    exists t'. split; [done|lia].
  - clear L. destruct Hmove as [H|H|H|H]; destruct H; cbn in *; try congruence.
    lookups. exists t. split; [done|lia].
Qed.

Lemma late_is_frozen_move k e :
  episodes c' !! k = Some e -> 3 <= StudyEpisodes.lifecycle_state e ->
  is_Some (frozen_heads c' !! k).
Proof.
  intros He Hs.
  assert (forall e0, episodes c !! k = Some e0 -> 3 <= StudyEpisodes.lifecycle_state e0 ->
            is_Some (frozen_heads c' !! k)) as Hold.
  { intros e0 He0 H3. destruct (late_is_frozen _ I _ _ He0 H3) as [h Hh].
    destruct (later_frozen_heads _ _ L _ _ Hh) as (? & Hh' & _). by eexists. }
  clear L. destruct Hmove as [H|H|H|H]; destruct H; cbn in *; try by eapply Hold; eauto.
  all: lookups; try by eapply Hold; eauto.
  - states. lia.
  - destruct_or?; destruct_and?; states; [lia|]. eapply Hold; [eassumption|lia].
  - done.
  - destruct (_ =? 5) eqn:E; [|by eapply Hold; eauto]. apply Z.eqb_eq in E.
    lookups; (eapply Hold; [eassumption|lia]).
  - states. eapply Hold; [eassumption|lia].
  - states. eapply Hold; [eassumption|lia].
Qed.

Lemma exposure_start_move i x :
  exposures c' !! i = Some x -> exists o f,
  obligations c' !! StudyForumExposures.study_actor_obligation_id x = Some o
  /\ forums c' !! StudyForumExposures.episode_forum_id x = Some f
  /\ StudyEpisodeForums.study_episode_id f = StudyActorObligations.study_episode_id o
  /\ first_visible_to c' o (StudyForumExposures.visible_from_message_ordinal x).
Proof.
  intros Hx.
  assert (forall x0, exposures c !! i = Some x0 -> exposure_le x0 x -> exists o f,
    obligations c' !! StudyForumExposures.study_actor_obligation_id x = Some o
    /\ forums c' !! StudyForumExposures.episode_forum_id x = Some f
    /\ StudyEpisodeForums.study_episode_id f = StudyActorObligations.study_episode_id o
    /\ first_visible_to c' o (StudyForumExposures.visible_from_message_ordinal x)) as Hold.
  { intros x0 Hx0 (-> & -> & ->). destruct (exposure_start _ I _ _ Hx0) as (o & f & Ho & Hf & E & Hv).
    apply (later_obligations _ _ L) in Ho as (o' & Ho & Hle).
    apply (later_forums _ _ L) in Hf as (f' & Hf & E' & _). exists o', f'.
    split_and!; [done|done| |by eapply (first_visible_lasts L)]. destruct Hle as [-> _]. congruence. }
  clear L. destruct Hmove as [H|H|H|H]; destruct H; try by eapply Hold.
  - cbn in Hx. lookups; [|by eapply Hold]. by exists o, f.
  - cbn in Hx. lookups. eapply Hold; [eassumption|apply follow_le].
  - cbn in Hx. lookups. eapply Hold; [eassumption|apply follow_le].
Qed.

Lemma receipt_exposed_move i r :
  receipts c' !! i = Some r -> exists x t,
  exposed c' (StudyForumReadReceipts.study_actor_obligation_id r) x t
  /\ threads c' !! StudyForumReadReceipts.forum_thread_id r = Some t
  /\ StudyForumExposures.visible_from_message_ordinal x
     <= StudyForumReadReceipts.first_message_ordinal r
     <= StudyForumReadReceipts.through_message_ordinal r
  /\ StudyForumReadReceipts.through_message_ordinal r
     <= StudyForumThreads.head_message_ordinal t.
Proof.
  intros Hr. destruct (receipts c !! i) as [r'|] eqn:E.
  - assert (r = r') as ->.
    { destruct (later_receipts _ _ L _ _ E) as (? & Hr' & <-). congruence. }
    destruct (receipt_exposed _ I _ _ E) as (x & t & Hx & Ht & Hf & Hh).
    destruct (thread_lasts L _ _ Ht) as (t' & Ht' & Hle).
    destruct (exposed_lasts L _ _ _ _ Hx Hle) as (x' & Hx' & (_ & _ & Hfrom)).
    exists x', t'. destruct Hle as (_ & _ & Hle). split_and!; [done|done|lia..].
  - clear L. destruct Hmove as [H|H|H|H]; destruct H; cbn in Hr; try congruence.
    lookups. exists x, t. split_and!; [done|done|lia|lia|].
    match goal with He : exposed _ _ _ _ |- _ => destruct He as ((j & Hx) & _ & Hf) end.
    destruct (exposure_within _ F _ _ Hx) as (l & u & Hu & Hfu & Hle).
    assert (l = StudyForumReadReceipts.forum_thread_id r) as ->
      by (eapply (one_thread _ F); [done..|congruence]).
    assert (u = t) as -> by congruence. lia.
Qed.

(** The thread that an obligation is exposed to is of its episode. *)
Lemma exposed_thread_of k x i t o :
  threads c !! i = Some t -> exposed c k x t -> obligations c !! k = Some o ->
  thread_of c i t (StudyActorObligations.study_episode_id o).
Proof.
  intros Ht ((j & Hx) & <- & Hf) Ho. split; [done|].
  destruct (exposure_start _ I _ _ Hx) as (o' & f & Ho' & Hf' & E & _). exists f.
  rewrite Hf. split; congruence.
Qed.
(** One thread is of the episode, and the frozen head is within it. *)
Lemma thread_of_unique i j t u k : thread_of c i t k -> thread_of c j u k -> i = j /\ t = u.
Proof.
  intros (Ht & f & Hf & E) (Hu & g & Hg & E').
  assert (i = j) as ->; [|split; congruence].
  eapply (one_thread _ F); [done..|]. eapply (one_forum _ F); [done..|congruence].
Qed.
Lemma thread_past_frozen i t k h :
  thread_of c i t k -> frozen_heads c !! k = Some h ->
  StudyFrozenForumHeads.frozen_head_message_ordinal h <= StudyForumThreads.head_message_ordinal t.
Proof.
  intros Ht Hh. destruct (frozen_thread _ I _ _ Hh) as (u & Hu & Hle).
  by destruct (thread_of_unique _ _ _ _ _ Ht Hu) as [_ ->].
Qed.

Lemma message_placed_move k m : messages c' !! k = Some m -> placed c' m.
Proof.
  intros Hm. assert (later c c') as L' by apply L. clear L.
  assert (forall n, messages c !! k = Some n -> frozen_heads c' = frozen_heads c -> message_le n m ->
            placed c' m) as Hold.
  { intros n Hn Hf Hle. apply (placed_same c' n); [by destruct Hle as [->|[_ ->]]..|].
    apply (placed_lasts c); [done|done|]. by eapply (message_placed _ I). }
  destruct Hmove as [H|H|H|H]; destruct H; try (by eapply Hold); cbn in Hm; lookups;
    try (by eapply Hold).
  - (* FreezeHead *)
    assert (forall episode h', frozen_heads c !! episode = Some h' ->
              <[k0 := h]> (frozen_heads c) !! episode = Some h') as Hfr.
    { intros episode h' Hh'. rewrite lookup_insert_ne; [done|]. intros ->. congruence. }
    destruct (message_placed _ I _ _ Hm) as (episode & u & Hu & Ha). exists episode, u.
    split; [done|]. destruct (StudyForumMessages.author_occurrence_id m) as [j|].
    + destruct Ha as (y & o & Hy & Ho & Hep & Hp). exists y, o. split_and!; [done..|].
      destruct Hp as [[Hp Hle]|(Hp & h' & Hh' & Hlt)]; [left|right].
      * split; [done|]. intros h' Hh'. cbn in Hh'. lookups; [|by apply Hle].
        destruct (message_in_thread _ F _ _ Hm) as (v & Hv & Hr).
        destruct (thread_of_unique _ _ _ _ _ Hu H2) as [_ ->]. destruct Hu as [Hu _].
        rewrite Hu in Hv. simplify_eq. lia.
      * split; [done|]. exists h'. split; [by apply Hfr|done].
    + destruct Ha as (h' & Hh' & Hlt). exists h'. split; [by apply Hfr|done].
  - (* Publish *)
    apply (placed_lasts c); [done..|].
    pose proof (exposed_thread_of _ _ _ _ _ H7 H8 H2) as Ht.
    exists (StudyActorObligations.study_episode_id o), t. split; [done|]. rewrite H0.
    exists y, o. split_and!; [done..|]. destruct H6 as [(Hp & _ & Hf)|(Hp & Hs)]; [left|right].
    + split; [done|]. intros h Hh. congruence.
    + split; [done|]. destruct (late_is_frozen _ I _ _ H5) as [h Hh]; [states; lia|].
      exists h. split; [done|]. pose proof (thread_past_frozen _ _ _ _ Ht Hh). lia.
  - (* Retract *)
    eapply Hold; [eassumption|done|by right].
  - (* ReleaseCorrection *)
    apply (placed_lasts c); [done..|]. exists episode, t. split; [done|].
    match goal with E : StudyForumMessages.author_occurrence_id m = None |- _ => rewrite E end.
    destruct (late_is_frozen _ I _ _ H0) as [h Hh]; [states; lia|]. exists h. split; [done|].
    pose proof (thread_past_frozen _ _ _ _ H2 Hh). lia.
Qed.

Lemma isolation_inv_move : isolation_inv c'.
Proof.
  constructor; eauto using one_assignment_move, one_exposure_move, one_occurrence_move,
    occurrence_obligation_move, late_is_frozen_move, frozen_head_moves, exposure_start_move,
    receipt_exposed_move, message_placed_move.
Qed.
End Isolation.
