(* ===== verification/StudyAccounts.v ===== *)
(** * Accounts of the study

    By rule induction on [StudyMachine]: what an obligation used is what it read and
    published, a run registers one pair per ordinal, the correction is the first message
    after the frozen head, and a closed episode is measured, settled and within budget. *)

From S2P Require Import Prelude.
From S2P Require Import Machine.
From S2P Require Import KernelScalars.
From S2P Require Import KernelEnums.
From S2P Require Import StudyTypes.
From S2P Require Import SqlTable.
From S2P Require Import StudyTables.
From S2P Require Import StudyMachine.
From S2P Require Import StudyInvariants.
Import StudyCore(protocols, measurements, snapshots, episodes, successors, assignments, pairs,
  runs, run_pairs, obligations, occurrences, forums, threads, frozen_heads, exposures, messages,
  receipts, decisions, reveals, results).

Implicit Types (c : StudyCore.t) (e : StudyEpisodes.t) (o : StudyActorObligations.t)
  (f : StudyEpisodeForums.t) (t : StudyForumThreads.t) (m : StudyForumMessages.t)
  (x : StudyForumExposures.t) (r : StudyForumReadReceipts.t) (h : StudyFrozenForumHeads.t).

(** ** Budgets of an obligation *)

(** The message is of an occurrence of the obligation. *)
Definition author_is (occurrences : gmap Z StudyActorOccurrences.t) (obligation : Z) m : bool :=
  match StudyForumMessages.author_occurrence_id m with
  | Some j => match occurrences !! j with
              | Some y => StudyActorOccurrences.study_actor_obligation_id y =? obligation
              | None => false
              end
  | None => false
  end.
Definition read_by (obligation : Z) r : bool :=
  StudyForumReadReceipts.study_actor_obligation_id r =? obligation.

Record budget_inv c : Prop := {
  within_budget k o : obligations c !! k = Some o ->
    0 <= StudyActorObligations.charged_budget_units o <= StudyActorObligations.budget_units o
    /\ StudyActorObligations.reads_used o <= StudyActorObligations.read_budget o
    /\ StudyActorObligations.posts_used o <= StudyActorObligations.post_budget o;
  reads_counted k o : obligations c !! k = Some o ->
    StudyActorObligations.reads_used o = count_rows (read_by k) (receipts c);
  posts_counted k o : obligations c !! k = Some o ->
    StudyActorObligations.posts_used o = count_rows (author_is (occurrences c) k) (messages c);
}.

Lemma budget_inv_frame c c' :
  obligations c' = obligations c -> receipts c' = receipts c -> messages c' = messages c ->
  occurrences c' = occurrences c -> budget_inv c -> budget_inv c'.
Proof.
  intros Ho Hr Hm Hy []. constructor; rewrite ?Ho, ?Hr, ?Hm, ?Hy; done.
Qed.

Section Budgets.
Context {c c' : StudyCore.t} (Hmove : study_move c c').
Hypotheses (F : forum_inv c) (I : isolation_inv c) (B : budget_inv c).

(** Nothing was read or written on behalf of an obligation that does not exist. *)
Lemma no_receipts k : obligations c !! k = None -> count_rows (read_by k) (receipts c) = 0.
Proof.
  intros Hk. apply count_rows_zero. intros i r Hr.
  destruct (receipt_exposed _ I _ _ Hr) as (x & t & ((j & Hx) & E & _) & _).
  destruct (exposure_start _ I _ _ Hx) as (o & f & Ho & _).
  unfold read_by. apply Z.eqb_neq. congruence.
Qed.
Lemma no_messages k : obligations c !! k = None -> count_rows (author_is (occurrences c) k) (messages c) = 0.
Proof.
  intros Hk. apply count_rows_zero. intros i m Hm. unfold author_is.
  destruct (StudyForumMessages.author_occurrence_id m) as [j|] eqn:E; [|done].
  destruct (occurrences c !! j) as [y|] eqn:Hy; [|done].
  destruct (occurrence_obligation _ I _ _ Hy) as [o Ho]. apply Z.eqb_neq. congruence.
Qed.

Lemma budget_inv_move : budget_inv c'.
Proof.
  destruct Hmove as [H|H|H|H]; destruct H; try by apply (budget_inv_frame c).
  - (* AdmitObligation *)
    assert (forall l, count_rows (author_is (<[j := y]> (occurrences c)) l)
              (messages c) = count_rows (author_is (occurrences c) l) (messages c)) as Hpost.
    { intros l. apply count_rows_ext. intros i m Hm. unfold author_is. cbn.
      destruct (message_placed _ I _ _ Hm) as (ep & t & _ & Ha).
      destruct (StudyForumMessages.author_occurrence_id m) as [j'|]; [|done].
      destruct Ha as (z & _ & Hz & _). rewrite lookup_insert_ne; [done|]. intros ->. congruence. }
    constructor; cbn; intros l o' Ho'; lookups; try by apply (within_budget _ B l).
    + lia.
    + rewrite no_receipts by done. lia.
    + by apply (reads_counted _ B).
    + etrans; [|symmetry; apply Hpost]. rewrite no_messages by done. lia.
    + etrans; [|symmetry; apply Hpost]. by apply (posts_counted _ B).
  - (* CompleteObligation *)
    constructor; cbn; intros l o' Ho'; lookups; try solve [by eapply (within_budget _ B)|by eapply (reads_counted _ B)|by eapply (posts_counted _ B)].
    destruct (within_budget _ B _ _ H) as (_ & ? & ?). lia.
  - (* FailObligation *)
    constructor; cbn; intros l o' Ho'; lookups; try solve [by eapply (within_budget _ B)|by eapply (reads_counted _ B)|by eapply (posts_counted _ B)].
  - (* Publish *)
    assert (forall l, author_is (occurrences c) l m = (obligation =? l)) as Hnew.
    { intros l. unfold author_is. by rewrite H0, H1. }
    constructor; cbn -[Z.add]; intros l o' Ho'; lookups; try solve [by eapply (within_budget _ B)|by eapply (reads_counted _ B)].
    + destruct (within_budget _ B _ _ H2) as (? & ? & ?). lia.
    + rewrite count_rows_new, Hnew, Z.eqb_refl, (posts_counted _ B _ _ H2) by done. apply Z.add_comm.
    + rewrite count_rows_new, Hnew, (posts_counted _ B _ _ Ho') by done.
      by destruct (Z.eqb_spec obligation l).
  - (* Retract *)
    constructor; cbn; intros l o' Ho'; try solve [by eapply (within_budget _ B)|by eapply (reads_counted _ B)].
    by rewrite (count_rows_update _ _ _ m) by done; apply (posts_counted _ B).
  - (* ReleaseCorrection *)
    constructor; cbn -[Z.add]; intros l o' Ho'; try solve [by eapply (within_budget _ B)|by eapply (reads_counted _ B)].
    rewrite count_rows_new, (posts_counted _ B _ _ Ho') by done. unfold author_is at 2. by rewrite H4.
  - (* ReadMessages *)
    constructor; cbn -[Z.add]; intros l o' Ho'; lookups; try solve [by eapply (within_budget _ B)|by eapply (posts_counted _ B)].
    + destruct (within_budget _ B _ _ H0) as (? & ? & ?). lia.
    + rewrite count_rows_new by done. unfold read_by at 1. rewrite Z.eqb_refl.
      rewrite (reads_counted _ B _ _ H0). apply Z.add_comm.
    + rewrite count_rows_new by done. unfold read_by at 1. rewrite (reads_counted _ B _ _ Ho').
      destruct (Z.eqb_spec (StudyForumReadReceipts.study_actor_obligation_id r) l); done.
Qed.
End Budgets.

(** ** Runs *)

Definition of_run (run : Z) (q : StudyRunPairs.t) : bool := StudyRunPairs.study_run_id q =? run.
(** Both episodes of the pair are closed. *)
Definition closed_pair c (pair_id : Z) : Prop :=
  forall p, pairs c !! pair_id = Some p ->
    closed_episode c (StudyPairs.retained_episode_id p)
    /\ closed_episode c (StudyPairs.reset_episode_id p).

Record run_inv c : Prop := {
  run_registered k (r : StudyRuns.t) : runs c !! k = Some r ->
    StudyRuns.registered_pair_count r = count_rows (of_run k) (run_pairs c);
  run_state k (r : StudyRuns.t) : runs c !! k = Some r ->
    (StudyRuns.lifecycle_state r = 1 /\ StudyRuns.registered_pair_count r < StudyRuns.pair_count r)
    \/ (2 <= StudyRuns.lifecycle_state r <= 4
        /\ StudyRuns.registered_pair_count r = StudyRuns.pair_count r);
  run_pair_ok i q : run_pairs c !! i = Some q -> exists r : StudyRuns.t,
    runs c !! StudyRunPairs.study_run_id q = Some r
    /\ 1 <= StudyRunPairs.pair_ordinal q <= StudyRuns.pair_count r
    /\ drawn_with c (StudyRunPairs.study_pair_id q) (StudyRunPairs.randomization_digest q);
  one_ordinal i j q q' : run_pairs c !! i = Some q -> run_pairs c !! j = Some q' ->
    StudyRunPairs.study_run_id q = StudyRunPairs.study_run_id q' ->
    StudyRunPairs.pair_ordinal q = StudyRunPairs.pair_ordinal q' -> i = j;
  one_registration i j q q' : run_pairs c !! i = Some q -> run_pairs c !! j = Some q' ->
    StudyRunPairs.study_pair_id q = StudyRunPairs.study_pair_id q' -> i = j;
  run_completed k (r : StudyRuns.t) i q : runs c !! k = Some r ->
    StudyRuns.lifecycle_state r = 4 -> run_pairs c !! i = Some q ->
    StudyRunPairs.study_run_id q = k -> closed_pair c (StudyRunPairs.study_pair_id q);
}.

Lemma closed_pair_lasts c c' k :
  later c c' -> is_Some (pairs c !! k) -> closed_pair c k -> closed_pair c' k.
Proof.
  intros L [p Hp] Hc p' Hp'. destruct (later_pairs _ _ L _ _ Hp) as (? & Hp'' & <-).
  assert (p' = p) as -> by congruence. destruct (Hc p Hp). by split; apply (closed_lasts L).
Qed.

Lemma drawn_lasts c c' k digest : later c c' -> drawn_with c k digest -> drawn_with c' k digest.
Proof.
  intros L (p & e & Hp & He & <-). destruct (later_pairs _ _ L _ _ Hp) as (? & Hp' & <-).
  destruct (later_episodes _ _ L _ _ He) as (e' & He' & (_ & _ & _ & _ & _ & E & _)).
  by exists p, e'.
Qed.
Lemma drawn_pair c k digest : drawn_with c k digest -> is_Some (pairs c !! k).
Proof. intros (p & e & Hp & _). by exists p. Qed.

Lemma run_inv_frame c c' :
  runs c' = runs c -> run_pairs c' = run_pairs c -> later c c' -> run_inv c -> run_inv c'.
Proof.
  intros Hr Hq L I. constructor; rewrite ?Hr, ?Hq; try apply I.
  - intros i q Hq'. destruct (run_pair_ok _ I _ _ Hq') as (r & Hrun & Ho & Hp).
    exists r. split_and!; [done..|lia|lia|]. by eapply drawn_lasts.
  - intros k r i q Hk H4 Hq' E. eapply closed_pair_lasts; [done| |by eapply (run_completed _ I)].
    destruct (run_pair_ok _ I _ _ Hq') as (_ & _ & _ & Hp). by eapply drawn_pair.
Qed.

(** A run that moves on without a new registration. *)
Lemma run_inv_advance c k (r r' : StudyRuns.t) :
  run_inv c -> runs c !! k = Some r ->
  StudyRuns.pair_count r' = StudyRuns.pair_count r ->
  StudyRuns.registered_pair_count r' = StudyRuns.registered_pair_count r ->
  2 <= StudyRuns.lifecycle_state r -> 2 <= StudyRuns.lifecycle_state r' <= 4 ->
  (StudyRuns.lifecycle_state r' = 4 -> forall i q, run_pairs c !! i = Some q ->
     StudyRunPairs.study_run_id q = k -> closed_pair c (StudyRunPairs.study_pair_id q)) ->
  run_inv (c <| StudyCore.runs := <[k := r']> (runs c) |>).
Proof.
  intros I Hk Hp Hn H2 Hs Hclosed. constructor; cbn; try apply I.
  - intros j s Hj. lookups; [|by apply (run_registered _ I)]. rewrite Hn. by apply (run_registered _ I).
  - intros j s Hj. lookups; [|by eapply (run_state _ I)].
    right. destruct (run_state _ I _ _ Hk) as [[]|[]]; lia.
  - intros i q Hq. destruct (run_pair_ok _ I _ _ Hq) as (s & Hs' & Ho & Hpair).
    destruct (decide (k = StudyRunPairs.study_run_id q)) as [->|Hne].
    + exists r'. rewrite lookup_insert_eq. split_and!; [done| |simplify_eq|done]; simplify_eq; lia.
    + exists s. by rewrite lookup_insert_ne.
  - intros j s i q Hj H4 Hq E. lookups; [by eapply Hclosed|by eapply (run_completed _ I)].
Qed.

Lemma run_inv_move c c' : study_move c c' -> run_inv c -> run_inv c'.
Proof.
  intros Hmove I. pose proof (move_later _ _ Hmove) as L.
  destruct Hmove as [H|H|H|H]; destruct H; try (by apply (run_inv_frame c)); clear L.
  - (* AdmitRun *)
    assert (forall i q, run_pairs c !! i = Some q -> StudyRunPairs.study_run_id q <> k) as Hnone.
    { intros i q Hq <-. destruct (run_pair_ok _ I _ _ Hq) as (s & Hs & _). congruence. }
    constructor; cbn; try apply I.
    + intros j s Hj. lookups; [|by apply (run_registered _ I)].
      symmetry. etrans; [|symmetry; eassumption]. apply count_rows_zero. intros i q Hq.
      apply Z.eqb_neq. by eapply Hnone.
    + intros j s Hj. lookups; [left; lia|by eapply (run_state _ I)].
    + intros i q Hq. destruct (run_pair_ok _ I _ _ Hq) as (s & Hs & Ho). exists s.
      rewrite lookup_insert_ne; [done|]. intros ->. by eapply Hnone.
    + intros j s i q Hj H4 Hq E. lookups; [lia|]. by eapply (run_completed _ I).
  - (* RegisterPair *)
    constructor; cbn -[Z.add].
    + intros j s Hj. rewrite count_rows_new by done. unfold of_run at 1. lookups.
      * rewrite Z.eqb_refl. unfold next. rewrite (run_registered _ I _ _ H0). apply Z.add_comm.
      * rewrite (run_registered _ I _ _ Hj). by destruct (Z.eqb_spec (StudyRunPairs.study_run_id p) j).
    + intros j s Hj. lookups; [|by eapply (run_state _ I)].
      destruct (Z.eqb_spec next (StudyRuns.pair_count r)); cbn; [right|left]; lia.
    + intros i q Hq. lookups.
      { rewrite lookup_insert_eq. eexists. split; [done|]. done. }
      destruct (run_pair_ok _ I _ _ Hq) as (s & Hs & Ho).
      destruct (decide (StudyRunPairs.study_run_id p = StudyRunPairs.study_run_id q)) as [E|Hne].
      * rewrite E, lookup_insert_eq. eexists. split; [done|]. cbn. rewrite E in H0. by simplify_eq.
      * exists s. by rewrite lookup_insert_ne.
    + intros i j q q' Hq Hq' E1 E2. lookups; [done|exfalso..|by eapply (one_ordinal _ I)].
      * by eapply H4.
      * by eapply H4.
    + intros i j q q' Hq Hq' E. lookups; [done|exfalso..|by eapply (one_registration _ I)].
      * by eapply H5.
      * by eapply H5.
    + intros j s i q Hj Hs Hq E. lookups.
      * by destruct (next =? _).
      * by destruct (next =? _).
      * by eapply (run_completed _ I).
  - (* StartRun *)
    apply (run_inv_advance _ _ r); cbn; try done; lia.
  - (* CompleteRun *)
    apply (run_inv_advance _ _ r); cbn; try done; [lia|]. intros _ i q Hq E p Hp. by eapply H1.
Qed.

(** ** Pairs and their correction *)

(** The message after the frozen head is the correction of the protocol, from the service. *)
Definition corrected c (episode : Z) : Prop :=
  exists e p h t i m, episodes c !! episode = Some e /\ protocol_of c e = Some p
    /\ frozen_heads c !! episode = Some h
    /\ thread_of c (StudyForumMessages.forum_thread_id m) t episode
    /\ messages c !! i = Some m
    /\ StudyForumMessages.author_occurrence_id m = None
    /\ StudyForumMessages.thread_message_ordinal m
       = StudyFrozenForumHeads.frozen_head_message_ordinal h + 1
    /\ StudyForumMessages.body_digest m = StudyProtocolRevisions.correction_digest p.
Definition matched c (p : StudyPairs.t) : Prop :=
  exists e e', episodes c !! StudyPairs.retained_episode_id p = Some e
    /\ episodes c !! StudyPairs.reset_episode_id p = Some e'
    /\ has_treatment c (StudyPairs.retained_episode_id p) 1
    /\ has_treatment c (StudyPairs.reset_episode_id p) 2
    /\ alike e e'.

Record correction_inv c : Prop := {
  pair_matched k p : pairs c !! k = Some p -> matched c p;
  frozen_episode k h : frozen_heads c !! k = Some h -> is_Some (episodes c !! k);
  quiet_until_release k e h i t : episodes c !! k = Some e ->
    StudyEpisodes.lifecycle_state e <= 4 -> frozen_heads c !! k = Some h ->
    thread_of c i t k ->
    StudyForumThreads.head_message_ordinal t = StudyFrozenForumHeads.frozen_head_message_ordinal h;
  released_corrected k e : episodes c !! k = Some e -> 5 <= StudyEpisodes.lifecycle_state e ->
    corrected c k;
  late_is_replaced k e : episodes c !! k = Some e -> 3 <= StudyEpisodes.lifecycle_state e ->
    is_Some (successors c !! k);
}.

Section Corrections.
Context {c c' : StudyCore.t} (Hmove : study_move c c').
Hypotheses (F : forum_inv c) (I : isolation_inv c) (C : correction_inv c).
Let L : later c c' := move_later _ _ Hmove.

Lemma protocol_lasts e e' p :
  protocol_of c e = Some p -> episode_le e e' -> protocol_of c' e' = Some p.
Proof.
  unfold protocol_of. intros Hp (-> & _). destruct (later_protocols _ _ L _ _ Hp) as (? & Hp' & <-).
  done.
Qed.

Lemma corrected_lasts k : corrected c k -> corrected c' k.
Proof.
  intros (e & p & h & t & i & m & He & Hp & Hh & Ht & Hm & Ha & Ho & Hd).
  destruct (later_episodes _ _ L _ _ He) as (e' & He' & Hle).
  destruct (later_frozen_heads _ _ L _ _ Hh) as (? & Hh' & <-).
  destruct (thread_of_lasts L _ _ _ Ht) as (t' & Ht' & _).
  destruct (later_messages _ _ L _ _ Hm) as (m' & Hm' & Hmle).
  exists e', p, h, t', i, m'.
  assert (StudyForumMessages.forum_thread_id m' = StudyForumMessages.forum_thread_id m
    /\ StudyForumMessages.author_occurrence_id m' = StudyForumMessages.author_occurrence_id m
    /\ StudyForumMessages.thread_message_ordinal m' = StudyForumMessages.thread_message_ordinal m
    /\ StudyForumMessages.body_digest m' = StudyForumMessages.body_digest m)
    as (E1 & E2 & E3 & E4) by (by destruct Hmle as [->|[_ ->]]).
  rewrite E1, E2, E3, E4. split_and!; [done| |done..]. by eapply protocol_lasts.
Qed.

Lemma matched_lasts p : matched c p -> matched c' p.
Proof.
  intros (e & e' & He & He' & H1 & H2 & E).
  destruct (later_episodes _ _ L _ _ He) as (d & Hd & Hle).
  destruct (later_episodes _ _ L _ _ He') as (d' & Hd' & Hle').
  exists d, d'. split_and!; [done|done|by apply (has_treatment_lasts L)..|].
  unfold alike, episode_le in *. destruct_and?. split_and!; congruence.
Qed.

Lemma pair_matched_move k p : pairs c' !! k = Some p -> matched c' p.
Proof.
  intros Hp. destruct (pairs c !! k) as [q|] eqn:E.
  - assert (p = q) as ->. { destruct (later_pairs _ _ L _ _ E) as (? & Hp' & <-). congruence. }
    apply matched_lasts. by apply (pair_matched _ C k).
  - clear L. destruct Hmove as [H|H|H|H]; destruct H; cbn in Hp; try congruence.
    lookups. by exists e, e'.
Qed.

Lemma late_is_replaced_move k e :
  episodes c' !! k = Some e -> 3 <= StudyEpisodes.lifecycle_state e ->
  is_Some (successors c' !! k).
Proof.
  intros He Hs.
  assert (forall e0, episodes c !! k = Some e0 -> 3 <= StudyEpisodes.lifecycle_state e0 ->
            is_Some (successors c' !! k)) as Hold.
  { intros e0 He0 H3. destruct (late_is_replaced _ C _ _ He0 H3) as [s Hs'].
    destruct (later_successors _ _ L _ _ Hs') as (? & Hs2 & _). by eexists. }
  clear L. destruct Hmove as [H|H|H|H]; destruct H; cbn in *; try by eapply Hold; eauto.
  all: lookups; try by eapply Hold; eauto.
  - states. lia.
  - destruct_or?; destruct_and?; states; [lia|]. eapply Hold; [eassumption|lia].
  - rewrite lookup_insert_eq. by eexists.
  - destruct (_ =? 5) eqn:E; [|by eapply Hold; eauto]. apply Z.eqb_eq in E.
    lookups; (eapply Hold; [eassumption|lia]).
  - states. eapply Hold; [eassumption|lia].
  - states. eapply Hold; [eassumption|lia].
Qed.

Lemma released_corrected_move k e :
  episodes c' !! k = Some e -> 5 <= StudyEpisodes.lifecycle_state e -> corrected c' k.
Proof.
  intros He H5.
  assert (forall e0, episodes c !! k = Some e0 -> 5 <= StudyEpisodes.lifecycle_state e0 ->
            corrected c' k) as Hold.
  { intros e0 He0 H0. apply corrected_lasts. by eapply (released_corrected _ C). }
  clear L. destruct Hmove as [H|H|H|H]; destruct H; cbn in *; try (by eapply Hold); lookups;
    try (by eapply Hold).
  - states. lia.
  - destruct_or?; destruct_and?; lia.
  - destruct (_ =? 5) eqn:E; [|by eapply Hold]. apply Z.eqb_eq in E.
    lookups; (eapply Hold; [eassumption|lia]).
  - (* ReleaseCorrection *)
    destruct (late_is_frozen _ I _ _ H0) as [h Hh]; [states; lia|].
    assert (StudyEpisodes.lifecycle_state e0 <= 4) as Hs by (states; lia).
    pose proof (quiet_until_release _ C _ _ _ _ _ H0 Hs Hh H2) as Hquiet.
    destruct H2 as (Ht & f & Hf & Hk).
    eexists _, p, h, _, k0, m. cbn. rewrite !lookup_insert_eq.
    split_and!; [done|done|done| |done|done|lia|done].
    split; [cbn; by rewrite lookup_insert_eq|]. by exists f.
  - states. eapply Hold; [eassumption|lia].
Qed.

Lemma frozen_episode_move k h : frozen_heads c' !! k = Some h -> is_Some (episodes c' !! k).
Proof.
  intros Hh. assert (is_Some (episodes c !! k)) as [e He].
  { clear L. destruct Hmove as [H|H|H|H]; destruct H; cbn in *;
      try (by eapply (frozen_episode _ C)). lookups; [by eexists|by eapply (frozen_episode _ C)]. }
  destruct (later_episodes _ _ L _ _ He) as (e' & He' & _). by eexists.
Qed.

(** The thread of another episode is not the one a message is added to. *)
Lemma thread_of_append m t i u k episode head (threads' : gmap Z StudyForumThreads.t) :
  thread_of c (StudyForumMessages.forum_thread_id m) t episode ->
  threads' = <[StudyForumMessages.forum_thread_id m :=
                 t <| StudyForumThreads.head_message_ordinal := head |>]> (threads c) ->
  thread_of (c <| StudyCore.threads := threads' |>) i u k ->
  k <> episode -> thread_of c i u k.
Proof.
  intros (Ht & f & Hf & Hk) -> (Hu & g & Hg & Hk') Hne. cbn in *. lookups.
  by split; [|exists g].
Qed.

Lemma quiet_move k e h i t :
  episodes c' !! k = Some e -> StudyEpisodes.lifecycle_state e <= 4 ->
  frozen_heads c' !! k = Some h -> thread_of c' i t k ->
  StudyForumThreads.head_message_ordinal t = StudyFrozenForumHeads.frozen_head_message_ordinal h.
Proof.
  intros He H4 Hh Ht.
  assert (forall e0, episodes c !! k = Some e0 -> StudyEpisodes.lifecycle_state e0 <= 4 ->
    frozen_heads c !! k = Some h -> thread_of c i t k ->
    StudyForumThreads.head_message_ordinal t = StudyFrozenForumHeads.frozen_head_message_ordinal h)
    as Hold by (intros; by eapply (quiet_until_release _ C)).
  clear L. destruct Hmove as [H|H|H|H]; destruct H; try (by eapply Hold);
    cbn -[thread_of append_message] in *; lookups; try (by eapply Hold).
  - (* AdmitEpisode *) destruct (frozen_episode _ C _ _ Hh). congruence.
  - (* AdmitObligation *)
    eapply Hold; [eassumption|destruct_or?; destruct_and?; states; lia|done..].
  - (* FreezeHead *)
    match goal with Hu : thread_of c _ _ k |- _ => destruct (thread_of_unique F _ _ _ _ _ Ht Hu) end.
    congruence.
  - (* ReplacePopulation *) eapply Hold; [eassumption|states; lia|done..].
  - (* CreateForum *)
    destruct Ht as (Ht & g & Hg & E). cbn in Ht, Hg. destruct (thread_has_forum _ F _ _ Ht) as [g' Hg'].
    eapply Hold; [done..|]. split; [done|]. lookups. by exists g.
  - (* OpenThread *)
    destruct (frozen_thread _ I _ _ Hh) as (u & (Hu & g & Hg & E) & _).
    destruct Ht as (Ht & g' & Hg' & E'). cbn in Ht, Hg'. lookups.
    + assert (StudyForumThreads.episode_forum_id u = StudyForumThreads.episode_forum_id t)
        as Hsame by (eapply (one_forum _ F); [done..|congruence]).
      exfalso. eapply H2; [exact Hu|done].
    + eapply Hold; [done..|]. split; [done|]. by exists g'.
  - (* Publish *)
    pose proof (exposed_thread_of I _ _ _ _ _ H8 H9 H2) as Hof.
    destruct (decide (k = StudyActorObligations.study_episode_id o)) as [->|Hne].
    + exfalso. destruct H7 as [(_ & _ & Hf)|(_ & Hs)]; [congruence|].
      destruct (_ =? 5); lookups; [done|]. states; lia.
    + eapply Hold; [|done|done|eapply (thread_of_append m); [exact Hof|done|exact Ht|done]].
      destruct (_ =? 5); by lookups.
  - (* ReleaseCorrection *)
    cbn in He. lookups; [done|]. eapply Hold; [done..|]. by eapply (thread_of_append m); [exact H2|done|exact Ht|].
  - (* Close *)
    eapply Hold; [done..|]. destruct Ht as (Ht & g & Hg & E). split; [done|].
    cbn in Hg. lookups. exists row. split; [done|]. by destruct (_ =? _).
Qed.

Lemma correction_inv_move : correction_inv c'.
Proof.
  constructor; eauto using pair_matched_move, frozen_episode_move, quiet_move,
    released_corrected_move, late_is_replaced_move.
Qed.
End Corrections.

(** ** Closed episodes *)

Definition everyone (_ : StudyActorObligations.t) : bool := true.
Definition measures (episode : Z) (v : StudyMeasurementResults.t) : bool :=
  StudyMeasurementResults.study_episode_id v =? episode.

Record closing_inv c : Prop := {
  slots_positive k v : measurements c !! k = Some v ->
    1 <= StudyMeasurementRevisions.measurement_slot_count v;
  revealed k v : reveals c !! k = Some v -> exists e p, episodes c !! k = Some e
    /\ 5 <= StudyEpisodes.lifecycle_state e /\ protocol_of c e = Some p
    /\ StudyGroundTruthReveals.reveal_digest v
       = StudyProtocolRevisions.ground_truth_commitment_digest p
    /\ settled c k everyone;
  measured i v : results c !! i = Some v -> exists e slots,
    episodes c !! StudyMeasurementResults.study_episode_id v = Some e
    /\ slots_of c e = Some slots /\ 1 <= StudyMeasurementResults.measurement_slot v <= slots
    /\ is_Some (reveals c !! StudyMeasurementResults.study_episode_id v);
  result_shape i v : results c !! i = Some v -> shaped v;
  one_result i j v w : results c !! i = Some v -> results c !! j = Some w ->
    StudyMeasurementResults.study_episode_id v = StudyMeasurementResults.study_episode_id w ->
    StudyMeasurementResults.measurement_slot v = StudyMeasurementResults.measurement_slot w ->
    i = j;
  closed_settled k e : episodes c !! k = Some e -> StudyEpisodes.lifecycle_state e = 7 ->
    settled c k everyone;
  closed_measured k e : episodes c !! k = Some e -> StudyEpisodes.lifecycle_state e = 7 ->
    slots_of c e = Some (count_rows (measures k) (results c));
  closed_within_budget k e : episodes c !! k = Some e -> StudyEpisodes.lifecycle_state e = 7 ->
    exists p, protocol_of c e = Some p
    /\ charged_to c k <= StudyProtocolRevisions.episode_budget_units p;
  closed_forum k e i f : episodes c !! k = Some e -> StudyEpisodes.lifecycle_state e = 7 ->
    forums c !! i = Some f -> StudyEpisodeForums.study_episode_id f = k ->
    StudyEpisodeForums.lifecycle_state f = 3;
}.

Section Closing.
Context {c c' : StudyCore.t} (Hmove : study_move c c').
Hypothesis (K : closing_inv c).
Let L : later c c' := move_later _ _ Hmove.

Lemma slots_lasts e e' n : slots_of c e = Some n -> episode_le e e' -> slots_of c' e' = Some n.
Proof.
  unfold slots_of. intros Hs (_ & _ & -> & _).
  destruct (measurements c !! _) as [v|] eqn:E; [|done].
  by destruct (later_measurements _ _ L _ _ E) as (? & -> & <-).
Qed.

(** A settled episode past its correction stays so. *)
Lemma settled_move k e :
  episodes c !! k = Some e -> 5 <= StudyEpisodes.lifecycle_state e ->
  settled c k everyone -> settled c' k everyone.
Proof.
  intros He H5 Hs j o' Ho' Hk _. destruct (obligations c !! j) as [o|] eqn:Ho.
  - destruct (later_obligations _ _ L _ _ Ho) as (d & Hd & (Ep & _ & _ & _ & _ & Hsame)).
    assert (d = o') as -> by congruence.
    assert (is_terminal o = true) as Ht by (eapply Hs; [done|congruence|done]).
    by rewrite Hsame.
  - clear L. destruct Hmove as [H|H|H|H]; destruct H; cbn in Ho'; lookups; try congruence.
    subst episode. simplify_eq. destruct_or?; destruct_and?; states; lia.
Qed.

Lemma charged_move k e :
  episodes c !! k = Some e -> 5 <= StudyEpisodes.lifecycle_state e ->
  settled c k everyone -> charged_to c' k = charged_to c k.
Proof.
  intros He H5 Hs. clear L.
  assert (forall j o, obligations c !! j = Some o -> StudyActorObligations.lifecycle_state o = 1 ->
            StudyActorObligations.study_episode_id o <> k) as Hlive.
  { intros j o Ho H1 Hk. specialize (Hs _ _ Ho Hk eq_refl). unfold is_terminal in Hs.
    by rewrite H1 in Hs. }
  destruct Hmove as [H|H|H|H]; destruct H; try done; unfold charged_to; cbn.
  - rewrite map_sum_insert by done. destruct (_ =? k); lia.
  - rewrite (map_sum_update _ _ _ _ _ H). cbn.
    destruct (Z.eqb_spec (StudyActorObligations.study_episode_id o) k); [|lia]. exfalso. by eapply Hlive.
  - rewrite (map_sum_update _ _ _ _ _ H). cbn. lia.
  - rewrite (map_sum_update _ _ _ _ _ H2). cbn. lia.
  - rewrite (map_sum_update _ _ _ _ _ H0). cbn. lia.
Qed.

Lemma slots_positive_move k v :
  measurements c' !! k = Some v -> 1 <= StudyMeasurementRevisions.measurement_slot_count v.
Proof.
  intros Hv. clear L. destruct Hmove as [H|H|H|H]; destruct H; try (by eapply (slots_positive _ K)).
  cbn in Hv. lookups; [done|by eapply (slots_positive _ K)].
Qed.

Lemma revealed_move k v :
  reveals c' !! k = Some v -> exists e p, episodes c' !! k = Some e
  /\ 5 <= StudyEpisodes.lifecycle_state e /\ protocol_of c' e = Some p
  /\ StudyGroundTruthReveals.reveal_digest v
     = StudyProtocolRevisions.ground_truth_commitment_digest p
  /\ settled c' k everyone.
Proof.
  intros Hv.
  assert (exists e p, episodes c !! k = Some e
    /\ 5 <= StudyEpisodes.lifecycle_state e /\ protocol_of c e = Some p
    /\ StudyGroundTruthReveals.reveal_digest v
       = StudyProtocolRevisions.ground_truth_commitment_digest p
    /\ settled c k everyone) as (e & p & He & H5 & Hp & Hd & Hs).
  { clear L. destruct Hmove as [H|H|H|H]; destruct H; try (by eapply (revealed _ K)).
    cbn in Hv. lookups; [|by eapply (revealed _ K)]. exists e, p. states. split_and!; (done || lia). }
  destruct (later_episodes _ _ L _ _ He) as (e' & He' & Hle). exists e', p.
  split_and!; [done| |by eapply (protocol_lasts Hmove)|done|by eapply settled_move].
  destruct Hle as (_&_&_&_&_&_&?&_). lia.
Qed.

Lemma measured_move i v : results c' !! i = Some v -> exists e slots,
  episodes c' !! StudyMeasurementResults.study_episode_id v = Some e
  /\ slots_of c' e = Some slots /\ 1 <= StudyMeasurementResults.measurement_slot v <= slots
  /\ is_Some (reveals c' !! StudyMeasurementResults.study_episode_id v).
Proof.
  intros Hv.
  assert (exists e slots, episodes c !! StudyMeasurementResults.study_episode_id v = Some e
    /\ slots_of c e = Some slots /\ 1 <= StudyMeasurementResults.measurement_slot v <= slots
    /\ is_Some (reveals c !! StudyMeasurementResults.study_episode_id v))
    as (e & n & He & Hn & Hr & [u Hu]).
  { clear L. destruct Hmove as [H|H|H|H]; destruct H; try (by eapply (measured _ K)).
    cbn in Hv. lookups; [|by eapply (measured _ K)]. by exists e, slots. }
  destruct (later_episodes _ _ L _ _ He) as (e' & He' & Hle).
  destruct (later_reveals _ _ L _ _ Hu) as (? & Hu' & _). exists e', n.
  split_and!; [done|by eapply slots_lasts|lia|lia|by eexists].
Qed.

Lemma one_result_move i j v w :
  results c' !! i = Some v -> results c' !! j = Some w ->
  StudyMeasurementResults.study_episode_id v = StudyMeasurementResults.study_episode_id w ->
  StudyMeasurementResults.measurement_slot v = StudyMeasurementResults.measurement_slot w ->
  i = j.
Proof.
  clear L. intros Hv Hw E1 E2. destruct Hmove as [H|H|H|H]; destruct H;
    try (by eapply (one_result _ K)).
  cbn in *. lookups; [done|exfalso..|by eapply (one_result _ K)]; by eapply H6.
Qed.
Lemma result_shape_move i v : results c' !! i = Some v -> shaped v.
Proof.
  clear L. intros Hv. destruct Hmove as [H|H|H|H]; destruct H;
    try (by eapply (result_shape _ K)).
  cbn in *. lookups; [done|by eapply (result_shape _ K)].
Qed.

(** An episode was closed before, or this move closes it. *)
Lemma closed_move k e :
  episodes c' !! k = Some e -> StudyEpisodes.lifecycle_state e = 7 ->
  exists e0, episodes c !! k = Some e0 /\ 5 <= StudyEpisodes.lifecycle_state e0
  /\ (StudyEpisodes.lifecycle_state e0 = 7
      \/ (settled c k everyone
          /\ slots_of c e0 = Some (count_rows (measures k) (results c))
          /\ (exists p, protocol_of c e0 = Some p
               /\ charged_to c k <= StudyProtocolRevisions.episode_budget_units p)
          /\ results c' = results c
          /\ forall i f, forums c' !! i = Some f -> StudyEpisodeForums.study_episode_id f = k ->
               StudyEpisodeForums.lifecycle_state f = 3)).
Proof.
  clear L. intros He H7.
  assert (forall e0, episodes c !! k = Some e0 -> StudyEpisodes.lifecycle_state e0 = 7 ->
    exists e0, episodes c !! k = Some e0 /\ 5 <= StudyEpisodes.lifecycle_state e0
    /\ (StudyEpisodes.lifecycle_state e0 = 7
        \/ (settled c k everyone
            /\ slots_of c e0 = Some (count_rows (measures k) (results c))
            /\ (exists p, protocol_of c e0 = Some p
                 /\ charged_to c k <= StudyProtocolRevisions.episode_budget_units p)
            /\ results c' = results c
            /\ forall i f, forums c' !! i = Some f -> StudyEpisodeForums.study_episode_id f = k ->
                 StudyEpisodeForums.lifecycle_state f = 3))) as Hold.
  { intros e0 He0 Hs0. exists e0. split_and!; [done|lia|by left]. }
  destruct Hmove as [H|H|H|H]; destruct H; cbn in *; try (by eapply Hold); lookups;
    try (by eapply Hold); try done.
  - states. lia.
  - destruct_or?; destruct_and?; lia.
  - destruct (_ =? 5); [|by eapply Hold]. lookups. by eapply Hold.
  - exists e0. split_and!; [done|states; lia|right].
    split_and!; [done|done|by exists p|done|]. intros i f Hf Hk. lookups.
    by destruct (Z.eqb_spec (StudyEpisodeForums.study_episode_id row) k).
Qed.

Lemma closing_inv_move : closing_inv c'.
Proof.
  constructor.
  - apply slots_positive_move.
  - apply revealed_move.
  - apply measured_move.
  - apply result_shape_move.
  - apply one_result_move.
  - intros k e He H7. destruct (closed_move k e He H7) as (e0 & He0 & H5 & Hcase).
    eapply settled_move; [done..|]. destruct Hcase as [H7'|[? _]]; [|done].
    by eapply (closed_settled _ K).
  - intros k e He H7. destruct (closed_move k e He H7) as (e0 & He0 & H5 & Hcase).
    destruct (later_episodes _ _ L _ _ He0) as (e' & He' & Hle). simplify_eq.
    eapply slots_lasts; [|done]. destruct Hcase as [H7'|(_ & -> & _ & -> & _)]; [|done].
    rewrite (closed_measured _ K _ _ He0 H7'). f_equal.
    clear L. destruct Hmove as [H|H|H|H]; destruct H; try done. cbn. rewrite count_rows_new by done.
    unfold measures at 2. destruct (Z.eqb_spec (StudyMeasurementResults.study_episode_id v) k); [|done].
    subst episode k. simplify_eq. states. lia.
  - intros k e He H7. destruct (closed_move k e He H7) as (e0 & He0 & H5 & Hcase).
    destruct (later_episodes _ _ L _ _ He0) as (e' & He' & Hle). simplify_eq.
    assert (settled c k everyone) as Hs
      by (destruct Hcase as [H7'|[? _]]; [by eapply (closed_settled _ K)|done]).
    rewrite (charged_move _ _ He0 H5 Hs).
    assert (exists p, protocol_of c e0 = Some p
              /\ charged_to c k <= StudyProtocolRevisions.episode_budget_units p) as (p & Hp & Hc)
      by (destruct Hcase as [H7'|(_ & _ & ? & _)]; [by apply (closed_within_budget _ K)|done]).
    exists p. split; [by eapply (protocol_lasts Hmove)|done].
  - intros k e i f He H7 Hf Hk. destruct (closed_move k e He H7) as (e0 & He0 & H5 & Hcase).
    destruct Hcase as [H7'|(_ & _ & _ & _ & Hforum)]; [|by eapply Hforum].
    destruct (forums c !! i) as [g|] eqn:Hg.
    + destruct (later_forums _ _ L _ _ Hg) as (f' & Hf' & Hep & H3). simplify_eq. apply H3.
      eapply (closed_forum _ K); [done..|congruence].
    + clear L. destruct Hmove as [H|H|H|H]; destruct H; cbn in Hf; try congruence; lookups.
      states. lia.
Qed.
End Closing.

(** ** All of it *)

(** What a decision cites was returned to the actor, or is its own message. *)
Definition citation_ok c (k : Z) (d : StudyDecisions.t) : Prop :=
  forall i, StudyDecisions.cited_forum_message_id d = Some i -> exists m,
    messages c !! i = Some m /\ (returned_to c k m \/ written_by c k m).

Record study_inv c : Prop := {
  study_forum : forum_inv c;
  study_isolation : isolation_inv c;
  study_budget : budget_inv c;
  study_run : run_inv c;
  study_correction : correction_inv c;
  study_closing : closing_inv c;
  study_decision k d : decisions c !! k = Some d -> citation_ok c k d;
}.

Lemma citation_lasts c c' k d : later c c' -> citation_ok c k d -> citation_ok c' k d.
Proof.
  intros L Hd i Hi. destruct (Hd i Hi) as (m & Hm & Hcase).
  destruct (later_messages _ _ L _ _ Hm) as (m' & Hm' & Hle). exists m'. split; [done|].
  assert (StudyForumMessages.forum_thread_id m' = StudyForumMessages.forum_thread_id m
    /\ StudyForumMessages.author_occurrence_id m' = StudyForumMessages.author_occurrence_id m
    /\ StudyForumMessages.thread_message_ordinal m' = StudyForumMessages.thread_message_ordinal m)
    as (E1 & E2 & E3) by (by destruct Hle as [->|[_ ->]]).
  destruct Hcase as [(j & r & Hr & H1 & H2 & H3)|(j & y & H1 & Hy & H2)]; [left|right].
  - destruct (later_receipts _ _ L _ _ Hr) as (? & Hr' & <-). exists j, r.
    rewrite E1, E3. done.
  - destruct (later_occurrences _ _ L _ _ Hy) as (? & Hy' & <-). exists j, y. by rewrite E2.
Qed.

Lemma study_inv_move c c' : study_move c c' -> study_inv c -> study_inv c'.
Proof.
  intros Hmove []. constructor; eauto using forum_inv_move, run_inv_move.
  - by eapply isolation_inv_move.
  - by eapply budget_inv_move.
  - by eapply correction_inv_move.
  - by eapply closing_inv_move.
  - intros k d Hd. assert (citation_ok c k d) as Hc.
    { destruct Hmove as [H|H|H|H]; destruct H; cbn in Hd; try by eapply study_decision0.
      lookups; [done|by eapply study_decision0]. }
    eapply citation_lasts; [by apply move_later|done].
Qed.
Lemma study_inv_moves c c' : study_moves c c' -> study_inv c -> study_inv c'.
Proof. induction 1 as [|c1 c2 c3 H _ IH]; [done|]. eauto using study_inv_move. Qed.

Lemma study_inv_empty ledger : study_inv (study_core (StudyDatabase.empty ledger)).
Proof. split; [split..|]; intros; cbn in *; discriminate. Qed.
