(* ===== verification/StudyRefine.v ===== *)
(** * The transitions refine the machine of the study

    Every accepted [StudyCommand] takes the tables of the study along moves of
    [StudyMachine]: each transition is inverted statement by statement. *)

From S2P Require Import Prelude.
From S2P Require Import Machine.
From S2P Require Import Hash.
From S2P Require Import KernelScalars.
From S2P Require Import KernelEnums.
From S2P Require Import KernelCustody.
From S2P Require Import StudyTypes.
From S2P Require Import StudyCommands.
From S2P Require Import KernelCommands.
From S2P Require Import KernelCodes.
From S2P Require Import SqlTable.
From S2P Require Import StoreTables.
From S2P Require Import StoreQueries.
From S2P Require Import StoreLogic.
From S2P Require Import StudyTables.
From S2P Require Import StudyStore.
From S2P Require Import StudyMachine.
From S2P Require Import StudyInvariants.
From S2P Require Import StudyAccounts.
Import StudyCore(protocols, measurements, snapshots, episodes, successors, assignments, pairs,
  runs, run_pairs, obligations, occurrences, forums, threads, frozen_heads, exposures, messages,
  receipts, decisions, reveals, results).

Implicit Types (db : StudyDatabase.t).

(** ** Readers *)

Lemma yields_on_ledger_core {A} (m : store A) db a db' :
  yields (on_ledger m) db a db' -> study_core db' = study_core db.
Proof.
  unfold yields, on_ledger. destruct (m (StudyDatabase.ledger db)) as [outcome l].
  by intros [= _ <-].
Qed.
#[export] Hint Extern 1 (keeps study_core (on_ledger _)) =>
  (intros ? ? ? Hledger; exact (yields_on_ledger_core _ _ _ _ Hledger)) : keeps.

Lemma identifier_ok {n} z (id : StudyIdentifier.t n) :
  StudyIdentifier.try_from z = Ok id -> StudyIdentifier.value id = z.
Proof.
  unfold StudyIdentifier.try_from, StudyIdentifier.new, ok_or.
  destruct (checked z) eqn:E; [|done]. intros [= <-]. by apply checked_some in E.
Qed.
Lemma checked_add_some a b n : checked_add_i64 a b = Some n -> n = a + b.
Proof. unfold checked_add_i64, checked_i64. destruct (is_i64 _); [|done]. by intros [= <-]. Qed.

Lemma episode_state_ok id db a db' :
  yields (episode_state id) db a db' ->
  db' = db /\ exists e, rows (StudyDatabase.study_episodes db) !! StudyIdentifier.value id = Some e
    /\ StudyIdentifier.value a.1 = StudyEpisodes.study_protocol_revision_id e
    /\ StudyEpisodeState.as_i64 a.2 = StudyEpisodes.lifecycle_state e.
Proof.
  unfold episode_state. intros H. yields_inv. split; [done|]. eexists. split; [done|].
  cbn. split; [by apply identifier_ok|].
  by apply (table_sound (from_i64 := Study.episode_state_from_i64)).
Qed.

Lemma obligation_row_ok id db a db' :
  yields (obligation_row id) db a db' ->
  db' = db /\ exists o, rows (StudyDatabase.study_actor_obligations db) !! StudyIdentifier.value id = Some o
    /\ StudyIdentifier.value a.1.1.1.1 = StudyActorObligations.study_episode_id o
    /\ StudyPopulationPhase.as_i64 a.1.1.1.2 = StudyActorObligations.population_phase o
    /\ a.1.1.2 = StudyActorObligations.lifecycle_state o
    /\ a.1.2 = StudyActorObligations.read_budget o
    /\ a.2 = StudyActorObligations.reads_used o.
Proof.
  unfold obligation_row. intros H. yields_inv. split; [done|]. eexists. split; [done|].
  cbn. split_and!; [by apply identifier_ok| |done..].
  by apply (table_sound (from_i64 := Study.population_phase_from_i64)).
Qed.

Lemma live_obligations_ok episode extra db n db' :
  yields (live_obligations episode extra) db n db' ->
  db' = db /\ (n = 0 -> settled (study_core db) episode extra).
Proof.
  unfold live_obligations. intros H. yields_inv. split; [done|]. rewrite count_where_zero.
  intros H k o Ho He Hx. specialize (H k o Ho). cbv beta in H.
  rewrite He, Z.eqb_refl, Hx in H. cbn in H. by apply negb_false_iff in H.
Qed.

(** ** One move *)

Section Refinement.
Context {hash : Blake3}.

(** The state that the move leads to is read off the database. *)
Lemma by_move c c1 c' : c' = c1 -> study_move c c1 -> study_moves c c'.
Proof. intros ->. apply rtc_once. Qed.
Lemma by_rule c c1 c' : study_move c c1 -> c' = c1 -> study_moves c c'.
Proof. intros H ->. by apply rtc_once. Qed.

(** Reads and writes of a transition that succeeded. *)
Ltac read_only H :=
  match type of H with
  | yields (episode_state _) _ _ _ => apply episode_state_ok in H as (-> & ? & ? & ? & ?)
  | yields (obligation_row _) _ _ _ => apply obligation_row_ok in H as (-> & ? & ? & ? & ? & ? & ? & ?)
  | yields (live_obligations _ _) _ _ _ => apply live_obligations_ok in H as [-> ?]
  | yields (last_id _) _ _ _ => unfold last_id in H
  | yields (stored_i64 _) _ _ _ => unfold stored_i64 in H
  | yields (exists_key _ _) _ _ _ => unfold exists_key in H
  | yields (require_protocol _) _ _ _ => unfold require_protocol in H
  | yields (forum_is_frozen _) _ _ _ => unfold forum_is_frozen in H
  | yields (runtime_binding _) _ _ _ => unfold runtime_binding in H
  | yields (episode_population _ _) _ _ _ => same_after H; clear H
  | yields (for_each _ _) _ _ _ => same_after H; clear H
  end.
Ltac study_step :=
  first [ yields_step
        | match goal with
          | H : yields _ _ _ _ |- _ => read_only H
          | H : yields (insert_into _ _ _) _ _ _ |- _ =>
              let t := fresh "t" in let Ht := fresh "Ht" in
              apply yields_insert_row in H as (t & Ht & ? & ? & ->)
          | H : yields (insert_with_key _ _ _ _) _ _ _ |- _ =>
              let t := fresh "t" in let Ht := fresh "Ht" in
              apply yields_insert_at in H as (t & Ht & ? & ->)
          | H : yields (update_row _ _ _ _) _ _ _ |- _ =>
              let t := fresh "t" in let Ht := fresh "Ht" in
              eapply yields_update_row in H; [destruct H as (t & Ht & ->)|cbn; eassumption]
          | H : yields (update_checked _ _ _ _) _ _ _ |- _ =>
              let r := fresh "r" in let Hr := fresh "Hr" in
              let t := fresh "t" in let Ht := fresh "Ht" in
              eapply yields_update_checked_row in H;
              [destruct H as (r & t & Hr & Ht & ->)|cbn; eassumption]
          | H : yields (update_where _ _ _ _) _ _ _ |- _ =>
              let t := fresh "t" in let Ht := fresh "Ht" in
              apply yields_update_where_rows in H as (t & Ht & ->)
          end ].
(** A row that was read twice. *)
Ltac same_rows :=
  repeat match goal with
  | H1 : rows ?t !! ?k = Some ?x, H2 : rows ?t !! ?k = Some ?y |- _ =>
      assert (y = x) by congruence; clear H2; subst y
  end.
Ltac study_inv := repeat study_step; cbn [fst snd] in *; bool_hyps; same_rows.
(** The tables of a state that the database was updated to. *)
Ltac core_eq :=
  unfold study_core, append_message; cbn;
  repeat match goal with H : rows _ = _ |- _ => rewrite H end; try reflexivity.
Ltac moved :=
  eapply by_move;
  [unfold study_core; cbn; repeat match goal with H : rows _ = _ |- _ => rewrite H end; reflexivity|].

(** The row that was inserted in a table. *)
Ltac inserted proj tac :=
  match goal with H : rows _ = <[?k := ?row]> (rows (proj _)) |- _ => tac k row end.

Lemma admit_protocol_moves id a b p q r s u v w z db ev db' :
  yields (admit_protocol_revision id a b p q r s u v w z) db ev db' ->
  study_moves (study_core db) (study_core db').
Proof.
  unfold admit_protocol_revision. intros H. study_inv. moved.
  by apply Experiment, AdmitProtocol.
Qed.

Lemma admit_measurement_moves id a b n db ev db' :
  yields (admit_measurement_revision id a b n) db ev db' ->
  study_moves (study_core db) (study_core db').
Proof.
  unfold admit_measurement_revision. intros H. study_inv. moved.
  apply Experiment, AdmitMeasurement; [done|]. cbn.
  destruct n as [n Hn]. unfold StudyMeasurementSlotCount.ok in Hn. cbn. bool_hyps. lia.
Qed.

Lemma admit_population_moves id a b n db ev db' :
  yields (admit_population_snapshot id a b n) db ev db' ->
  study_moves (study_core db) (study_core db').
Proof. unfold admit_population_snapshot. intros H. study_inv. moved. by apply Experiment, AdmitSnapshot. Qed.

Lemma admit_episode_moves id a b p q r s db ev db' :
  yields (admit_episode id a b p q r s) db ev db' ->
  study_moves (study_core db) (study_core db').
Proof.
  unfold admit_episode. intros H. study_inv. moved.
  apply Experiment, AdmitEpisode; [done..|]. cbn.
  unfold revisions_match in Hc. by destruct (rows (StudyDatabase.study_world_revisions db) !! _),
    (rows (StudyDatabase.study_measurement_revisions db) !! _).
Qed.

(** The row of [no_other] does not collide with another. *)
Lemma no_other_lookup {R} (rows : gmap Z R) conflicts i row :
  no_other rows conflicts = true -> rows !! i = Some row -> conflicts row = false.
Proof. intros H%no_other_spec Hi. exact (H i row Hi). Qed.

(** The state that [episode_state] read. *)
Ltac at_known :=
  match goal with
  | H : StudyEpisodeState.as_i64 ?s = StudyEpisodes.lifecycle_state ?e |- at_state _ ?e =>
      unfold at_state; rewrite <-H; destruct s; done
  end.
(** A row that the constraints of its table would have refused. *)
Ltac collides Hi :=
  match goal with
  | H : no_other _ _ = true |- _ =>
      pose proof (no_other_lookup _ _ _ _ H Hi); cbn in *; bool_hyps; (congruence || lia)
  end.
Ltac valid_row valid :=
  match goal with H : @constraints _ valid _ _ = true |- _ => unfold constraints, valid in H; bool_hyps end.

Lemma assign_treatment_moves id a b db ev db' :
  yields (assign_treatment id a b) db ev db' ->
  study_moves (study_core db) (study_core db').
Proof.
  unfold assign_treatment. intros H. study_inv. moved. valid_row StudyTreatmentAssignments.valid.
  eapply Experiment, AssignTreatment; [done|done|at_known|].
  intros treatment (i & row & Hi & He & _). collides Hi.
Qed.

Lemma assignments_treatment db episode treatment i a :
  (i, a) ∈ assignments_of db episode treatment -> has_treatment (study_core db) episode treatment.
Proof. intros [Hi Hp]%elem_of_rows_where. bool_hyps. by exists i, a. Qed.
Lemma join_some {A B} (l : list A) (on : A -> list B) :
  count (join l on) <> 0 -> exists a b, a ∈ l /\ b ∈ on a.
Proof.
  induction l as [|a l IH]; [done|]. unfold join. cbn. destruct (on a) as [|b bs] eqn:E.
  - intros (a' & b & Ha & Hb)%IH. exists a', b. split; [by right|done].
  - intros _. exists a, b. rewrite E. split; left.
Qed.

Lemma admit_matched_pair_moves id a b db ev db' :
  yields (admit_matched_pair id a b) db ev db' ->
  study_moves (study_core db) (study_core db').
Proof.
  unfold admit_matched_pair. intros H. study_inv. moved.
  unfold matched_episodes in Hc.
  destruct (rows (StudyDatabase.study_episodes db) !! StudyIdentifier.value a) as [e|] eqn:He; [|done].
  destruct (rows (StudyDatabase.study_episodes db) !! StudyIdentifier.value b) as [f|] eqn:Hf; [|done].
  destruct (episodes_match db e f) eqn:Hm; [|done].
  destruct (join_some (assignments_of db (StudyIdentifier.value a) 1)
    (fun _ => assignments_of db (StudyIdentifier.value b) 2)) as ([i u] & [j v] & Hu & Hv'); [lia|].
  eapply Experiment, AdmitPair; [done|done|done|by eapply assignments_treatment..|].
  unfold episodes_match in Hm. repeat case_match; try done. bool_hyps. by split_and!.
Qed.

Lemma admit_study_run_moves id a b p q db ev db' :
  yields (admit_study_run id a b p q) db ev db' ->
  study_moves (study_core db) (study_core db').
Proof.
  unfold admit_study_run. intros H. study_inv. moved. apply Experiment, AdmitRun; [done..|]. cbn.
  destruct q as [n Hn]. unfold StudyRunPairCount.ok in Hn. cbn. bool_hyps. lia.
Qed.

Lemma register_study_run_pair_moves id a b p q db ev db' :
  yields (register_study_run_pair id a b p q) db ev db' ->
  study_moves (study_core db) (study_core db').
Proof.
  unfold register_study_run_pair, set_run. intros H. study_inv. valid_row StudyRunPairs.valid.
  assert (a5 = StudyRuns.registered_pair_count a0 + 1) as -> by by apply checked_add_some.
  moved. inserted StudyDatabase.study_run_pairs ltac:(fun k p =>
    eapply Experiment, (RegisterPair (study_core db) k p)).
  - done.
  - done.
  - done.
  - cbn. split; [|done]. destruct b as [n Hn]. unfold StudyRunPairOrdinal.ok in Hn. cbn. bool_hyps. lia.
  - unfold pair_is_untouched, pair_episodes in Hc0. cbn.
    destruct (rows (StudyDatabase.study_pairs db) !! _) as [pair|] eqn:Hpair; [|done].
    destruct (rows (StudyDatabase.study_episodes db) !! StudyPairs.retained_episode_id pair)
      as [e|] eqn:He; [|done].
    destruct (rows (StudyDatabase.study_episodes db) !! StudyPairs.reset_episode_id pair); [|done].
    bool_hyps. by exists pair, e.
  - intros i row Hi Hrun Hord. collides Hi.
  - intros i row Hi Hpair. collides Hi.
  - done.
Qed.

Lemma start_study_run_moves id a db ev db' :
  yields (start_study_run id a) db ev db' -> study_moves (study_core db) (study_core db').
Proof.
  unfold start_study_run, set_run. intros H. study_inv. moved.
  by eapply Experiment, (StartRun (study_core db) _ a0 id); [|rewrite H].
Qed.

Lemma complete_study_run_moves id a db ev db' :
  study_inv (study_core db) ->
  yields (complete_study_run id a) db ev db' -> study_moves (study_core db) (study_core db').
Proof.
  unfold complete_study_run, set_run. intros I H. study_inv. moved.
  eapply Experiment, (CompleteRun (study_core db) _ a0 id); [done|by rewrite H|].
  intros i q p Hq Hrun Hp.
  destruct (pair_matched _ (study_correction _ I) _ _ Hp) as (e & e' & He & He' & _).
  pose proof (proj1 (count_where_zero _ _) Hc i q Hq) as Hopen.
  unfold open_pair, pair_episodes in Hopen. cbn in He, He', Hp.
  rewrite Hrun, Z.eqb_refl, Hp, He, He' in Hopen. cbn in Hopen. unfold is_closed in Hopen. bool_hyps.
  by split; [exists e|exists e'].
Qed.

(** *** The Forum *)

Lemma create_episode_forum_moves id a b db ev db' :
  yields (create_episode_forum id a b) db ev db' -> study_moves (study_core db) (study_core db').
Proof.
  unfold create_episode_forum. intros H. study_inv. moved. valid_row StudyEpisodeForums.valid.
  eapply Forum, CreateForum; [done|done|done|at_known|].
  intros i g Hg E. collides Hg.
Qed.

Lemma open_forum_thread_moves id a b db ev db' :
  yields (open_forum_thread id a b) db ev db' -> study_moves (study_core db) (study_core db').
Proof.
  unfold open_forum_thread. intros H. study_inv. moved.
  eapply Forum, OpenThread; [done|done|done|].
  intros i u Hu E. pose proof (proj1 (count_where_zero _ _) Hc i u Hu) as Hno. cbn in Hno, E.
  bool_hyps. congruence.
Qed.

(** *** Actors *)

Lemma admit_actor_obligation_moves id a b p q r s t u v db ev db' :
  yields (admit_actor_obligation id a b p q r s t u v) db ev db' ->
  study_moves (study_core db) (study_core db').
Proof.
  unfold admit_actor_obligation, set_episode_state. intros H. study_inv.
  valid_row StudyActorObligations.valid. moved.
  inserted StudyDatabase.study_actor_obligations ltac:(fun k o =>
    inserted StudyDatabase.study_actor_occurrences ltac:(fun j y =>
      eapply Actor, (AdmitObligation (study_core db) k o j y))).
  all: cbn in * |-; try done.
  destruct b; cbn in Hc0, Hc1 |- *; [left|right]; split_and!; try done; try at_known.
  by destruct (rows (StudyDatabase.study_frozen_forum_heads db) !! _).
Qed.

Lemma complete_actor_obligation_moves id a b db ev db' :
  yields (complete_actor_obligation id a b) db ev db' -> study_moves (study_core db) (study_core db').
Proof.
  unfold complete_actor_obligation. intros H. study_inv. moved.
  eapply Actor, CompleteObligation; [done|done|].
  destruct b as [n Hn]. unfold StudyBudgetUnits.ok in Hn. cbn in *. bool_hyps. lia.
Qed.

Lemma fail_actor_obligation_moves id a b db ev db' :
  yields (fail_actor_obligation id a b) db ev db' -> study_moves (study_core db) (study_core db').
Proof.
  unfold fail_actor_obligation. intros H. study_inv.
  destruct (rows (StudyDatabase.study_actor_obligations db) !! StudyIdentifier.value a)
    as [o|] eqn:Ho; [|done]. study_inv. moved. by eapply Actor, FailObligation.
Qed.

(** The thread that a join with its forum found. *)
Lemma joined_thread db thread episode {A} (g : StudyForumThreads.t -> A) v :
  match rows (StudyDatabase.study_forum_threads db) !! thread with
  | Some t =>
      match rows (StudyDatabase.study_episode_forums db) !! StudyForumThreads.episode_forum_id t with
      | Some f => if StudyEpisodeForums.study_episode_id f =? episode then Some (g t) else None
      | None => None
      end
  | None => None
  end = Some v ->
  exists t, thread_of (study_core db) thread t episode /\ v = g t.
Proof.
  destruct (_ !! thread) as [t|] eqn:Ht; [|done].
  destruct (_ !! StudyForumThreads.episode_forum_id t) as [f|] eqn:Hf; [|done].
  destruct (Z.eqb_spec (StudyEpisodeForums.study_episode_id f) episode) as [E|]; [|done].
  intros [= <-]. exists t. split; [|done]. split; [done|]. by exists f.
Qed.

Lemma freeze_forum_head_moves id a b db ev db' :
  yields (freeze_forum_head id a b) db ev db' -> study_moves (study_core db) (study_core db').
Proof.
  unfold freeze_forum_head. intros H. study_inv.
  match goal with Hj : match _ with Some _ => _ | None => _ end = Some _ |- _ =>
    apply joined_thread in Hj as (u & Hu & ->) end.
  moved. eapply Actor, FreezeHead; [done|done|at_known|exact Hu|done|auto].
Qed.

Lemma replace_population_moves id a b db ev db' :
  yields (replace_population id a b) db ev db' -> study_moves (study_core db) (study_core db').
Proof.
  unfold replace_population, set_episode_state. intros H. study_inv. moved.
  eapply Actor, ReplacePopulation; [done|done|at_known|].
  cbn. by destruct (rows (StudyDatabase.study_frozen_forum_heads db) !! _).
Qed.

Lemma row_where_assignment db episode k a :
  row_where (fun a => StudyTreatmentAssignments.study_episode_id a =? episode)
    (StudyDatabase.study_treatment_assignments db) = Some (k, a) ->
  has_treatment (study_core db) episode (StudyTreatmentAssignments.treatment a).
Proof. intros [Hk E]%row_where_some. bool_hyps. by exists k, a. Qed.

Lemma first_visible_ok episode phase o db n db' :
  yields (first_visible episode phase) db n db' ->
  StudyIdentifier.value episode = StudyActorObligations.study_episode_id o ->
  StudyPopulationPhase.as_i64 phase = StudyActorObligations.population_phase o ->
  db' = db /\ first_visible_to (study_core db) o n.
Proof.
  unfold first_visible. intros H He Hp. destruct phase; yields_inv; [by split; [|left]|].
  unfold frozen_treatment in Hv.
  destruct (rows (StudyDatabase.study_frozen_forum_heads db) !! _) as [h|] eqn:Hh; [|done].
  destruct (row_where _ _) as [[k a]|] eqn:Ha; [|done]. injection Hv as <- <-.
  apply row_where_assignment in Ha. rewrite He in *.
  assert (db' = db /\ n = (if StudyTreatmentAssignments.treatment a =? 1 then 1
                          else StudyFrozenForumHeads.frozen_head_message_ordinal h + 1)) as [-> ->].
  { destruct (_ =? _) eqn:E in H; cbn in E; rewrite E; yields_inv; [done|].
    split; [done|by apply checked_add_some]. }
  split; [done|right]. split; [done|]. by exists h, (StudyTreatmentAssignments.treatment a).
Qed.

Lemma forum_head_ok db forum episode last :
  forum_head db forum = Some (episode, last) ->
  exists f i t, rows (StudyDatabase.study_episode_forums db) !! forum = Some f
    /\ StudyEpisodeForums.study_episode_id f = episode
    /\ rows (StudyDatabase.study_forum_threads db) !! i = Some t
    /\ StudyForumThreads.episode_forum_id t = forum
    /\ last = StudyForumThreads.head_message_ordinal t.
Proof.
  unfold forum_head. destruct (_ !! forum) as [f|] eqn:Hf; [|done].
  destruct (hd_error (threads_of db forum)) as [[i t]|] eqn:Ht; [|done]. intros [= <- <-].
  apply row_where_some in Ht as [Ht E]. bool_hyps. by exists f, i, t.
Qed.

Lemma admit_forum_exposure_moves id a b n db ev db' :
  yields (admit_forum_exposure id a b n) db ev db' -> study_moves (study_core db) (study_core db').
Proof.
  unfold admit_forum_exposure. intros H. study_inv. subst.
  apply forum_head_ok in Hv as (f & i & t' & Hf & Hep & Ht' & Hfor & ->).
  eapply first_visible_ok in Hy1 as [-> Hvis]; [|done|done].
  valid_row StudyForumExposures.valid. moved.
  eapply Forum, Expose; [done|exact H|exact Hf|congruence| |exact Hvis|].
  - intros j x' Hx' E. collides Hx'.
  - by exists i, t'.
Qed.

(** *** Messages *)

Lemma elem_of_join {A B} (l : list A) (on : A -> list B) a b :
  (a, b) ∈ join l on -> a ∈ l /\ b ∈ on a.
Proof.
  unfold join. rewrite list_elem_of_In, in_flat_map. intros (a' & Ha & Hb).
  apply in_map_iff in Hb as (b' & [= <- <-] & Hb). by rewrite !list_elem_of_In.
Qed.
Lemma head_elem {A} (l : list A) a : head l = Some a -> a ∈ l.
Proof. destruct l; [done|]. intros [= ->]. left. Qed.

(** The exposure of an obligation, and a thread of its forum. *)
Lemma exposed_join db id i x j t :
  (i, x) ∈ exposures_of db id ->
  (j, t) ∈ threads_of db (StudyForumExposures.episode_forum_id x) ->
  rows (StudyDatabase.study_forum_threads db) !! j = Some t /\ exposed (study_core db) id x t.
Proof.
  intros [Hx Ek]%elem_of_rows_where [Ht Ef]%elem_of_rows_where. bool_hyps.
  split; [done|]. split_and!; [by exists i|done|done].
Qed.

Lemma thread_for_obligation_ok id db a db' :
  yields (thread_for_obligation id) db a db' -> db' = db /\ exists x t,
    rows (StudyDatabase.study_forum_threads db) !! StudyIdentifier.value a.1.2 = Some t
    /\ exposed (study_core db) (StudyIdentifier.value id) x t
    /\ StudyIdentifier.value a.2 = StudyForumExposures.episode_forum_id x.
Proof.
  unfold thread_for_obligation. intros H. yields_inv. split; [done|].
  destruct (rows (StudyDatabase.study_actor_obligations db) !! _) as [o|]; [|done].
  destruct (head (join _ _)) as [[[i x] [j t]]|] eqn:Hj; [|done]. injection Hv as <- <- <- <-.
  apply head_elem, elem_of_join in Hj as [Hx Ht]. exists x, t. cbn.
  rewrite (identifier_ok _ _ Hv1), (identifier_ok _ _ Hv0).
  by destruct (exposed_join _ _ _ _ _ _ Hx Ht).
Qed.

Lemma publish_actor_message_moves id a k b r s db ev db' :
  yields (publish_actor_message id a k b r s) db ev db' ->
  study_moves (study_core db) (study_core db').
Proof.
  unfold publish_actor_message, advance_head, set_episode_state. intros H. study_inv.

  apply thread_for_obligation_ok in Hy4 as (-> & expo & thread & Hthread & Hexpo & Hforum).
  cbn in Hthread, Hforum. study_inv.
  destruct a10 as [j y]. apply row_where_some in Hv0 as [Hy Ey]. cbn in Ey. bool_hyps.
  apply checked_add_some in Hv1 as ->.
  destruct (checked_add_i64 (StudyActorObligations.posts_used x0) 1) as [posts|] eqn:Hp; [|done].
  apply checked_add_some in Hp as ->. injection Hr as <-.
  rewrite Hforum, <-(proj2 (proj2 Hexpo)) in Ht1. rewrite H3 in *. rewrite <-Ey in *.
  assert (rows (StudyDatabase.study_episodes db12)
          = (if StudyEpisodes.lifecycle_state x =? 5
             then <[StudyActorObligations.study_episode_id x0 := move_episode 6 id x]>
                    (rows (StudyDatabase.study_episodes db))
             else rows (StudyDatabase.study_episodes db))
          /\ study_core db12 = (study_core (db <| StudyDatabase.study_forum_messages := t2 |>
               <| StudyDatabase.study_forum_threads := t3 |>
               <| StudyDatabase.study_actor_obligations := t5 |>
               <| StudyDatabase.study_forum_exposures := t4 |>))
             <| StudyCore.episodes := rows (StudyDatabase.study_episodes db12) |>) as [Hep ->].
  { rewrite <-H1. unfold m_when in Hy11.
    destruct (bool_decide _ && bool_decide _) eqn:Eb in Hy11; study_inv.
    - subst. split; core_eq.
    - assert ((StudyEpisodeState.as_i64 t0 =? 5) = false) as ->; [|done].
      by destruct t, t0. }
  inserted StudyDatabase.study_forum_messages ltac:(fun k m =>
    eapply by_rule; [eapply Forum, (Publish (study_core db) k m thread expo j y x0 x id)|]); try done.
  - lia.
  - rewrite <-H4. destruct t; cbn in Hc1, Hc2; [left|right]; split_and!; try done; try at_known.
    cbn. by destruct (rows (StudyDatabase.study_frozen_forum_heads db) !! _).
  - core_eq.
Qed.

Lemma retract_actor_message_moves a b db ev db' :
  yields (retract_actor_message a b) db ev db' -> study_moves (study_core db) (study_core db').
Proof.
  unfold retract_actor_message. intros H. study_inv.
  unfold message_provenance in Hv.
  destruct (rows (StudyDatabase.study_forum_messages db) !! StudyIdentifier.value b) as [m|] eqn:Hm;
    [|done].
  assert (StudyForumMessages.publication_state m = z3) as Hp by (repeat case_match; by simplify_eq).
  study_inv. moved. eapply Forum, Retract; [done|]. by rewrite Hp, H9.
Qed.

(** The correction of one episode, from the protocol of the episode. *)
Lemma release_correction_moves id episode thread correction db a db' e p :
  rows (StudyDatabase.study_episodes db) !! StudyIdentifier.value episode = Some e ->
  protocol_of (study_core db) e = Some p ->
  StudyProtocolRevisions.correction_digest p
    = Blake3Digest.as_bytes (ForumMessageBody.digest correction) ->
  yields (release_correction_for_episode id episode thread correction) db a db' ->
  study_moves (study_core db) (study_core db').
Proof.
  intros He Hp Hd. unfold release_correction_for_episode, advance_head, set_episode_state.
  intros H. study_inv.
  match goal with Hj : match _ with Some _ => _ | None => _ end = Some _ |- _ =>
    apply joined_thread in Hj as (u & Hu & Heq) end.
  injection Heq as -> ->. pose proof Hu as [Hu' _]. cbn in Hu'. study_inv.
  apply checked_add_some in Hv0 as ->.
  inserted StudyDatabase.study_forum_messages ltac:(fun k m =>
    eapply by_rule;
    [eapply Forum, (ReleaseCorrection (study_core db) k m u e p (StudyIdentifier.value episode) id)|]);
    try done; [at_known|core_eq].
Qed.

Lemma release_matched_correction_moves id a b c d db ev db' :
  study_inv (study_core db) ->
  yields (release_matched_correction id a b c d) db ev db' ->
  study_moves (study_core db) (study_core db').
Proof.
  unfold release_matched_correction. intros I H. study_inv.
  match goal with Hp : rows (StudyDatabase.study_pairs db) !! _ = Some ?pair |- _ =>
    destruct (pair_matched _ (study_correction _ I) _ _ Hp) as (e & e' & He & He' & _ & _ & E & _) end.
  cbn in He, He'. same_rows.
  repeat match goal with Hi : StudyIdentifier.try_from _ = Ok _ |- _ =>
    apply identifier_ok in Hi end.
  assert (study_moves (study_core db) (study_core db6)) as Hfirst
    by (eapply release_correction_moves; [by rewrite Hv0|exact Hv1|exact Hc|done]).
  etrans; [exact Hfirst|]. pose proof (moves_later _ _ Hfirst) as L.
  destruct (later_episodes _ _ L _ _ He') as (e2 & He2 & (E2 & _)).
  destruct (later_protocols _ _ L _ _ Hv1) as (p & Hp & <-).
  eapply release_correction_moves; [by rewrite Hv| |exact Hc|done].
  unfold protocol_of. by rewrite E2, <-E.
Qed.

Lemma forum_read_thread_ok id first through db thread db' :
  yields (forum_read_thread id first through) db thread db' ->
  db' = db /\ exists o e x t,
    rows (StudyDatabase.study_actor_obligations db) !! StudyIdentifier.value id = Some o
    /\ StudyActorObligations.lifecycle_state o = 1
    /\ StudyActorObligations.reads_used o < StudyActorObligations.read_budget o
    /\ rows (StudyDatabase.study_episodes db) !! StudyActorObligations.study_episode_id o = Some e
    /\ (is_source o = true \/ at_state [5; 6] e)
    /\ rows (StudyDatabase.study_forum_threads db) !! StudyIdentifier.value thread = Some t
    /\ exposed (study_core db) (StudyIdentifier.value id) x t
    /\ StudyForumExposures.visible_from_message_ordinal x <= first <= through
    /\ through <= StudyForumExposures.visible_through_message_ordinal x.
Proof.
  unfold forum_read_thread. intros H. study_inv.
  split; [done|]. apply head_elem, elem_of_join in Hv as [Hx Ht].
  apply list_elem_of_In, filter_In in Hx as [Hx _]. apply list_elem_of_In in Hx.
  destruct (exposed_join _ _ _ _ _ _ Hx Ht) as [Hthread Hexpo].
  exists x0, x, t1, t2. rewrite H3 in *. rewrite (identifier_ok _ _ Hv0).
  split_and!; try done; [congruence|lia|].
  destruct t; [left; unfold is_source; by rewrite <-H4|right].
  unfold at_state. rewrite <-H1. by destruct t0.
Qed.

Lemma read_forum_moves id a n m c db ev db' :
  yields (read_forum id a n m c) db ev db' -> study_moves (study_core db) (study_core db').
Proof.
  unfold read_forum. intros H. study_inv.
  match goal with Hr : yields (forum_read_thread _ _ _) _ _ _ |- _ =>
    apply forum_read_thread_ok in Hr
      as (-> & o & e & x & t' & Ho & Hl & Hb & He & Hp & Ht' & Hx & Hfirst & Hthrough) end.
  study_inv.
  destruct (checked_add_i64 (StudyActorObligations.reads_used o) 1) as [reads|] eqn:Hn; [|done].
  apply checked_add_some in Hn as ->. injection Hr as <-.
  inserted StudyDatabase.study_forum_read_receipts ltac:(fun k m =>
    eapply by_rule; [eapply Forum, (ReadMessages (study_core db) k m o e x t')|]); try done.
  core_eq.
Qed.

(** *** Decisions and analysis *)

Lemma count_where_one {R} (p : R -> bool) (t : table R) :
  count_where p t = 1 -> exists k r, rows t !! k = Some r /\ p r = true.
Proof.
  unfold count_where. destruct (rows_where p t) as [|[k r] l] eqn:E; [done|]. intros _.
  exists k, r. apply elem_of_rows_where. rewrite E. left.
Qed.

Lemma returned_count_ok db obligation message :
  returned_count db obligation message = 1 -> exists m,
    rows (StudyDatabase.study_forum_messages db) !! message = Some m
    /\ returned_to (study_core db) obligation m.
Proof.
  unfold returned_count. destruct (_ !! message) as [m|]; [|done]. intros H. exists m.
  split; [done|]. apply count_where_one in H as (i & r & Hr & Hp). bool_hyps. by exists i, r.
Qed.
Lemma is_own_message_ok db obligation message :
  is_own_message db obligation message = true -> exists m,
    rows (StudyDatabase.study_forum_messages db) !! message = Some m
    /\ written_by (study_core db) obligation m.
Proof.
  unfold is_own_message. destruct (_ !! message) as [m|]; [|done].
  destruct (StudyForumMessages.author_occurrence_id m) as [j|] eqn:Hj; [|done].
  destruct (_ !! j) as [y|] eqn:Hy; [|done]. intros H. bool_hyps. exists m. split; [done|].
  by exists j, y.
Qed.

Lemma record_decision_moves id a b cited db ev db' :
  yields (record_decision id a b cited) db ev db' ->
  study_moves (study_core db) (study_core db').
Proof.
  unfold record_decision. intros H. study_inv. moved.
  eapply Actor, Decide; [done|done|]. cbn. intros i Hi.
  destruct cited as [message|]; [|done]. injection Hi as <-.
  match goal with Hc : (_ =? 1) || is_own_message _ _ _ = true |- _ =>
    apply orb_true_iff in Hc as [Hc|Hc] end.
  - bool_hyps. destruct (returned_count_ok db (StudyIdentifier.value a)
      (StudyIdentifier.value message)) as (m & Hm & ?); [done|]. exists m. auto.
  - apply is_own_message_ok in Hc as (m & Hm & ?). exists m. auto.
Qed.

Lemma analysable_at state e :
  StudyEpisodeState.as_i64 state = StudyEpisodes.lifecycle_state e ->
  is_analysable state = true -> at_state [5; 6] e.
Proof. unfold at_state. intros <-. by destruct state. Qed.

Lemma reveal_ground_truth_moves id a b db ev db' :
  yields (reveal_ground_truth id a b) db ev db' -> study_moves (study_core db) (study_core db').
Proof.
  unfold reveal_ground_truth. intros H. study_inv. moved.
  eapply Analysis, Reveal; [done|done|by eapply analysable_at|auto| |by symmetry].
  unfold protocol_of. by rewrite <-H1.
Qed.

Lemma measurement_slots_ok db episode e slots :
  rows (StudyDatabase.study_episodes db) !! episode = Some e ->
  measurement_slots db episode = Some slots -> slots_of (study_core db) e = Some slots.
Proof. unfold measurement_slots. by intros ->. Qed.

Lemma record_measurement_result_moves id a b p q r s db ev db' :
  yields (record_measurement_result id a b p q r s) db ev db' ->
  study_moves (study_core db) (study_core db').
Proof.
  unfold record_measurement_result. intros H. study_inv.
  valid_row StudyMeasurementResults.valid. moved.
  eapply Analysis, Measure;
    [done|done|by eapply analysable_at| |by eapply measurement_slots_ok| | |].
  - cbn. by destruct (rows (StudyDatabase.study_ground_truth_reveals db) !! _).
  - cbn. split; [|done]. destruct b as [n Hn]. unfold StudyMeasurementSlot.ok in Hn. cbn.
    bool_hyps. lia.
  - match goal with H : measurement_result_shape_valid p q r s = true |- _ => revert H end.
    by destruct p, q, r, s.
  - intros i w Hw E1 E2. collides Hw.
Qed.

(** The charges of an episode and the ceiling of its protocol. *)
Lemma charged_and_ceiling_ok db episode e charged ceiling :
  rows (StudyDatabase.study_episodes db) !! episode = Some e ->
  charged_and_ceiling db episode = Some (charged, ceiling) ->
  charged = charged_to (study_core db) episode
  /\ exists p, protocol_of (study_core db) e = Some p
       /\ ceiling = StudyProtocolRevisions.episode_budget_units p.
Proof.
  unfold charged_and_ceiling. intros ->.
  assert (foldr (fun ko sum => StudyActorObligations.charged_budget_units ko.2 + sum) 0
            (charges_of db episode) = charged_to (study_core db) episode) as E.
  { unfold charges_of, charged_to, rows_where. rewrite map_sum_list.
    induction (map_to_list _) as [|[k o] l IH]; [done|]. cbn in *.
    destruct (_ =? episode); cbn in *; lia. }
  destruct (charges_of db episode) as [|ko l]; [done|]. rewrite E.
  destruct (rows _ !! _) as [p|] eqn:Hp; [|done].
  destruct (checked_i64 _) as [n|] eqn:Hn; [|done]. intros [= <- <-].
  unfold checked_i64 in Hn. destruct (is_i64 _); [|done]. injection Hn as <-.
  split; [done|]. by exists p.
Qed.

Lemma close_episode_moves id a db ev db' :
  yields (close_episode id a) db ev db' -> study_moves (study_core db) (study_core db').
Proof.
  unfold close_episode, set_episode_state. intros H. study_inv.
  match goal with Hp : charged_and_ceiling _ _ = Some _ |- _ =>
    eapply charged_and_ceiling_ok in Hp as (-> & p & Hp & ->); [|done] end.
  eapply by_rule; [eapply Analysis, (Close (study_core db) _ x a4 p id)|core_eq];
    [done|by eapply analysable_at|auto|by eapply measurement_slots_ok| |done|done].
  by rewrite <-Hc, count_where_rows.
Qed.

Lemma fork_episode_moves id a b db ev db' :
  study_inv (study_core db) ->
  yields (fork_episode id a b) db ev db' -> study_moves (study_core db) (study_core db').
Proof.
  unfold fork_episode. intros I H. study_inv. subst.
  assert (slots_of (study_core db) x = _) as Hslots
    by (eapply (closed_measured _ (study_closing _ I)); done).
  etrans.
  - inserted StudyDatabase.study_episodes ltac:(fun k e =>
      eapply rtc_once, Experiment, (AdmitEpisode (study_core db) k e); [done|done|]).
    unfold slots_of in Hslots. cbn in Hslots |- *.
    by destruct (rows (StudyDatabase.study_measurement_revisions db) !! _).
  - valid_row StudyTreatmentAssignments.valid.
    inserted StudyDatabase.study_treatment_assignments ltac:(fun k assigned =>
      eapply by_rule; [eapply Experiment, (AssignTreatment _ k assigned)|core_eq]).
    + done.
    + apply lookup_insert_eq.
    + done.
    + intros treatment (i & row & Hi & He & _). collides Hi.
Qed.

(** ** Every command *)

Lemma quiet_moves {A} (m : study A) db a db' :
  keeps study_core m -> yields m db a db' -> study_moves (study_core db) (study_core db').
Proof. intros K H. by rewrite (K _ _ _ H). Qed.

Lemma apply_moves id command db ev db' :
  study_inv (study_core db) ->
  yields (apply id command) db ev db' -> study_moves (study_core db) (study_core db').
Proof.
  intros I H. destruct command; cbn [apply] in H;
    first [ by eauto using admit_protocol_moves, admit_measurement_moves, admit_population_moves,
              admit_episode_moves, assign_treatment_moves, admit_matched_pair_moves,
              admit_study_run_moves, register_study_run_pair_moves, start_study_run_moves,
              complete_study_run_moves, create_episode_forum_moves, open_forum_thread_moves,
              admit_actor_obligation_moves, complete_actor_obligation_moves,
              fail_actor_obligation_moves, freeze_forum_head_moves, replace_population_moves,
              admit_forum_exposure_moves, publish_actor_message_moves,
              retract_actor_message_moves, release_matched_correction_moves, read_forum_moves,
              record_decision_moves, reveal_ground_truth_moves,
              record_measurement_result_moves, close_episode_moves, fork_episode_moves
          | eapply quiet_moves, H ].
  all: solve_keeps.
Qed.
End Refinement.
