(* ===== verification/StudySample.v ===== *)
(** * A sample study

    One matched pair, from the admission of its protocol to the completion of its run, with
    the stand-in for BLAKE3 of [StoreSample]: in the retained arm the successor reads the
    whole thread, in the reset arm only what follows the frozen head.  The witnesses of the
    properties of the study evaluate it. *)

From S2P Require Import Prelude.
From S2P Require Import Machine.
From S2P Require Import Hash.
From S2P Require Import KernelScalars.
From S2P Require Import KernelEnums.
From S2P Require Import KernelCustody.
From S2P Require Import StudyTypes.
From S2P Require Import StudyCommands.
From S2P Require Import KernelCommands.
From S2P Require Import SqlTable.
From S2P Require Import StoreTables.
From S2P Require Import StoreSample.
From S2P Require Import StudyTables.
From S2P Require Import StudyStore.

(** A study command, or the sealing and registration of a content object by the ledger. *)
Variant study_action :=
| Run (command : StudyCommand.t)
| Seal (object : Z) (digest : StudyDatabase.t -> list byte).

(** The rendering of the messages of a thread. *)
Definition rendering (thread first through : Z) (db : StudyDatabase.t) : list byte :=
  Blake3Digest.as_bytes (Blake3Digest.of_bytes (forum_rendering db thread first through)).

(** The object [n], sealed. *)
Definition seal (n : Z) (digest : list byte) (db : StudyDatabase.t) : StudyDatabase.t :=
  let l := StudyDatabase.ledger db in
  db <| StudyDatabase.ledger := l
    <| Database.content_seal_receipts :=
         Table (<[n := ContentSealReceipts.new digest 1]> (rows (Database.content_seal_receipts l)))
           (n + 1) |>
    <| Database.content_objects :=
         Table (<[n := ContentObjects.new n 1]> (rows (Database.content_objects l))) (n + 1) |> |>.

Section Runs.
Context {hash : Blake3}.
(** The actions, numbered from [n]; whether every command was accepted. *)
Fixpoint run_study (n : Z) (actions : list study_action) (db : StudyDatabase.t) :
  bool * StudyDatabase.t :=
  match actions with
  | [] => (true, db)
  | Run command :: actions =>
      match apply n command db with
      | (Ok _, db) => run_study (n + 1) actions db
      | (Err _, db) => (false, db)
      end
  | Seal object digest :: actions => run_study (n + 1) actions (seal object (digest db) db)
  end.
End Runs.

Definition sid {n} (value : Z) : StudyIdentifier.t n :=
  match StudyIdentifier.try_from value with Ok id => id | Err _ => Newtype 1 eq_refl end.
Definition ordinal_of (value : Z) : i64 :=
  match checked value with Some n => n | None => Newtype 1 eq_refl end.
Definition units_of (value : Z) : StudyBudgetUnits.t :=
  match StudyBudgetUnits.try_from value with Ok n => n | Err _ => StudyBudgetUnits.ZERO end.

Definition correction_body : ForumMessageBody.t := Newtype "correction" eq_refl.
Definition claim_body : ForumMessageBody.t := Newtype "claim" eq_refl.
Definition reply_body : ForumMessageBody.t := Newtype "reply" eq_refl.
Definition truth : StudyGroundTruthReveal.t := Newtype "truth" eq_refl.

Definition slots_of_count (value : Z) : StudyMeasurementSlotCount.t :=
  match StudyMeasurementSlotCount.try_from value with Ok n => n | Err _ => Newtype 1 eq_refl end.
Definition slot_of (value : Z) : StudyMeasurementSlot.t :=
  match StudyMeasurementSlot.try_from value with Ok n => n | Err _ => Newtype 1 eq_refl end.

(** The revisions of the study, the two episodes (1 retained, 2 reset), their pair and run. *)
Definition admissions (slots budget : Z) : list study_action :=
  [Run (StudyCommand.AdmitProtocolRevision (sample_id 1) sample_digest sample_digest
     forum_f0_awareness_digest forum_f0_tool_contract_digest sample_digest
     (StudyGroundTruthReveal.digest truth) (ForumMessageBody.digest correction_body)
     sample_digest (units_of budget));
   Run (StudyCommand.AdmitWorldRevision (sid 1) sample_digest);
   Run (StudyCommand.AdmitMeasurementRevision (sid 1) sample_digest (slots_of_count slots));
   Run (StudyCommand.AdmitInstitutionRevision (sid 1) sample_digest);
   Run (StudyCommand.AdmitPopulationSnapshot (sid 1) sample_digest (ordinal_of 1));
   Run (StudyCommand.AdmitPopulationSnapshot (sid 1) sample_digest (ordinal_of 1));
   Run (StudyCommand.AdmitEpisode (sid 1) (sid 1) (sid 1) (sid 1) (sid 1) sample_digest);
   Run (StudyCommand.AdmitEpisode (sid 1) (sid 1) (sid 1) (sid 1) (sid 1) sample_digest);
   Run (StudyCommand.AssignTreatment (sid 1) StudyTreatment.Retained);
   Run (StudyCommand.AssignTreatment (sid 2) StudyTreatment.Reset);
   Run (StudyCommand.AdmitMatchedPair (sid 1) (sid 2));
   Run (StudyCommand.AdmitStudyRun (sid 1) (sample_id 1) sample_digest (Newtype 1 eq_refl));
   Run (StudyCommand.RegisterStudyRunPair (sid 1) (Newtype 1 eq_refl) (sid 1) sample_digest);
   Run (StudyCommand.StartStudyRun (sid 1))].

Definition admit_actor_of (episode : Z) (phase : StudyPopulationPhase.t) : study_action :=
  Run (StudyCommand.AdmitActorObligation (sid episode) phase (Newtype 1 eq_refl) sample_digest
    forum_f0_awareness_digest forum_f0_tool_contract_digest (units_of 5) (Newtype 2 eq_refl)
    (Newtype 2 eq_refl)).
(** The source population of an episode writes one message. *)
Definition source_phase (episode : Z) : list study_action :=
  [Run (StudyCommand.CreateEpisodeForum (sid episode) sample_digest);
   Run (StudyCommand.OpenForumThread (sid episode) (Newtype "thread" eq_refl));
   admit_actor_of episode StudyPopulationPhase.Source;
   Run (StudyCommand.AdmitForumExposure (sid episode) (sid episode) (ordinal_of 1));
   Run (StudyCommand.PublishForumMessage (sid episode) ForumMessageKind.Finding claim_body None None);
   Run (StudyCommand.CompleteActorObligation (sid episode) (units_of 3));
   Run (StudyCommand.FreezeForumHead (sid episode) (sid episode));
   Run (StudyCommand.ReplacePopulation (sid episode) (sid 2))].
(** The obligations 3 and 4 succeed them. *)
Definition successor_phase (episode first : Z) : list study_action :=
  [admit_actor_of episode StudyPopulationPhase.Successor;
   Run (StudyCommand.AdmitForumExposure (sid (episode + 2)) (sid episode) (ordinal_of first))].
Definition release : study_action :=
  Run (StudyCommand.ReleaseMatchedCorrection (sid 1) (sid 1) (sid 2) correction_body).
(** The successor reads what it may see, answers and decides. *)
Definition answer_phase (episode first object cited : Z) : list study_action :=
  [Seal object (rendering episode first 2);
   Run (StudyCommand.ReadForum (sid (episode + 2)) (ordinal_of first) (ordinal_of 2)
     (sample_id object));
   Run (StudyCommand.PublishForumMessage (sid (episode + 2)) ForumMessageKind.Finding reply_body
     None None);
   Run (StudyCommand.RecordDecision (sid (episode + 2)) (Newtype "decision" eq_refl)
     (Some (sid cited)))].
Definition analysis_phase (slots episode : Z) : list study_action :=
  [Run (StudyCommand.CompleteActorObligation (sid (episode + 2)) (units_of 4));
   Run (StudyCommand.RevealGroundTruth (sid episode) truth)]
  ++ map (fun slot => Run (StudyCommand.RecordMeasurementResult (sid episode) (slot_of slot)
       StudyMeasurementStatus.Observed (Some (ordinal_of 7)) (Some sample_digest) None))
       (seqZ 1 slots)
  ++ [Run (StudyCommand.CloseEpisode (sid episode))].

Definition corrected_with (slots budget : Z) : list study_action :=
  admissions slots budget ++ source_phase 1 ++ source_phase 2
  ++ successor_phase 1 1 ++ successor_phase 2 2 ++ [release].
Definition answered_with (slots budget : Z) : list study_action :=
  corrected_with slots budget ++ answer_phase 1 1 2 3 ++ answer_phase 2 2 3 4.
Definition corrected_study (budget : Z) : list study_action := corrected_with 1 budget.
Definition answered_study (budget : Z) : list study_action := answered_with 1 budget.
Definition completed_with (slots : Z) : list study_action :=
  answered_with slots 10 ++ analysis_phase slots 1 ++ analysis_phase slots 2
  ++ [Run (StudyCommand.CompleteStudyRun (sid 1))].
Definition completed_study : list study_action := completed_with 1.
(** The charges of the first episode exceed the budget of its protocol. *)
Definition overcharged_study : list study_action :=
  answered_study 5 ++ [Run (StudyCommand.CompleteActorObligation (sid 3) (units_of 4))].
(** The first successor reads the first message twice. *)
Definition reread_study : list study_action :=
  corrected_study 10
  ++ [Seal 2 (rendering 1 1 1); Seal 3 (rendering 1 1 2);
      Run (StudyCommand.ReadForum (sid 3) (ordinal_of 1) (ordinal_of 1) (sample_id 2));
      Run (StudyCommand.ReadForum (sid 3) (ordinal_of 1) (ordinal_of 2) (sample_id 3))].

(** After the actions, beside the ledger of a founded society. *)
Definition after (actions : list study_action) : StudyDatabase.t :=
  (run_study 1 actions (StudyDatabase.empty founded)).2.
