(* ===== verification/StudySafety.v ===== *)
(** * Safety of the study

    Over every history of a database that starts without a study: the accepted commands are
    moves of [StudyMachine], the reset arm is isolated from the source population, both arms
    get the same correction, forums have no gap, accounts are exact, and runs, closed
    episodes and decisions are what they claim to be. *)

From S2P Require Import Prelude.
From S2P Require Import Machine.
From S2P Require Import Hash.
From S2P Require Import KernelScalars.
From S2P Require Import KernelEnums.
From S2P Require Import StudyTypes.
From S2P Require Import StudyCommands.
From S2P Require Import KernelCommands.
From S2P Require Import SqlTable.
From S2P Require Import StoreTables.
From S2P Require Import StoreQueries.
From S2P Require Import StoreLogic.
From S2P Require Import StoreSample.
From S2P Require Import StudyTables.
From S2P Require Import StudyStore.
From S2P Require Import StudyMachine.
From S2P Require Import StudyInvariants.
From S2P Require Import StudyAccounts.
From S2P Require Import StudyRefine.
From S2P Require Import StudySample.
Import StudyCore(protocols, measurements, snapshots, episodes, successors, assignments, pairs,
  runs, run_pairs, obligations, occurrences, forums, threads, frozen_heads, exposures, messages,
  receipts, decisions, reveals, results).

(** ** Histories *)

Section History.
Context {hash : Blake3}.
Implicit Types (db : StudyDatabase.t).

(** An accepted study command; or what writes no table of the study: the rest of the kernel,
    and a refused command, which is rolled back. *)
Variant study_step db : StudyDatabase.t -> Prop :=
| Accepted id command ev db' : yields (apply id command) db ev db' -> study_step db db'
| Elsewhere db' : study_core db' = study_core db -> study_step db db'.
Definition study_steps : relation StudyDatabase.t := rtc study_step.
Definition study_reachable db : Prop :=
  exists ledger, study_steps (StudyDatabase.empty ledger) db.

Lemma study_step_moves db db' :
  study_inv (study_core db) -> study_step db db' -> study_moves (study_core db) (study_core db').
Proof. intros I [id command ev db1 H|db1 ->]; [by eapply apply_moves|apply rtc_refl]. Qed.
Lemma study_steps_moves db db' :
  study_inv (study_core db) -> study_steps db db' -> study_moves (study_core db) (study_core db').
Proof.
  intros I H. revert I. induction H as [|db1 db2 db3 H _ IH]; intros I; [apply rtc_refl|].
  pose proof (study_step_moves _ _ I H) as Hm. etrans; [exact Hm|]. by apply IH, (study_inv_moves _ _ Hm).
Qed.
Lemma reachable_study_inv db : study_reachable db -> study_inv (study_core db).
Proof.
  intros [ledger H]. eapply study_inv_moves; [eapply study_steps_moves; [|exact H]|]; apply study_inv_empty.
Qed.

Lemma run_study_steps actions n db :
  (run_study n actions db).1 = true -> study_steps db (run_study n actions db).2.
Proof.
  revert n db. induction actions as [|[command|object digest] actions IH]; intros n db; cbn;
    [intros _; apply rtc_refl| |].
  - destruct (apply n command db) as [[ev|e] db'] eqn:E; [|done]. intros H.
    eapply rtc_l; [eapply (Accepted _ n command ev); exact E|by apply IH].
  - intros H. eapply rtc_l; [by apply (Elsewhere _ (seal object (digest db) db))|by apply IH].
Qed.
Lemma run_study_goes_on actions more n db :
  (run_study n (actions ++ more) db).1 = true ->
  study_steps (run_study n actions db).2 (run_study n (actions ++ more) db).2.
Proof.
  revert n db. induction actions as [|[command|object digest] actions IH]; intros n db; cbn.
  - apply run_study_steps.
  - destruct (apply n command db) as [[ev|e] db']; [apply IH|done].
  - apply IH.
Qed.
End History.

Lemma sample_reachable actions :
  (run_study 1 actions (StudyDatabase.empty founded)).1 = true -> study_reachable (after actions).
Proof. intros H. exists founded. by apply run_study_steps. Qed.
Lemma sample_goes_on actions more :
  (run_study 1 (actions ++ more) (StudyDatabase.empty founded)).1 = true ->
  study_steps (after actions) (after (actions ++ more)).
Proof. apply run_study_goes_on. Qed.

Section Safety.
Context {hash : Blake3}.
Implicit Types (db : StudyDatabase.t).

(** The state of a reachable database, and its invariants. *)
Ltac state_of Hr :=
  intros Hr%reachable_study_inv c; fold c in Hr; clearbody c.

(** C3: the transitions of the study implement the machine of [StudyMachine]: whatever the
    command, an accepted one takes the tables of a reachable database along its moves. *)
Theorem study_commands_refine_machine db id command ev db' :
  study_reachable db -> yields (apply id command) db ev db' ->
  study_moves (study_core db) (study_core db').
Proof. intros Hr. apply apply_moves. by apply reachable_study_inv. Qed.

(** C30: the study keeps its history: over any further steps rows stay; an episode keeps its
    revisions and only moves forward, and a closed one is final, as is an obligation that was
    completed or failed; a message only becomes retracted; the rows of frozen heads, readings,
    decisions, reveals, results, assignments and pairs never change. *)
Theorem study_history_is_kept db db' :
  study_reachable db -> study_steps db db' -> later (study_core db) (study_core db').
Proof.
  intros Hr H. apply moves_later, study_steps_moves; [|done]. by apply reachable_study_inv.
Qed.

Lemma one_treatment c episode x y :
  isolation_inv c -> has_treatment c episode x -> has_treatment c episode y -> x = y.
Proof.
  intros I (i & a & Hi & Ei & <-) (j & b & Hj & Ej & <-).
  assert (i = j) as <- by (eapply (one_assignment _ I); [done|done|congruence]). congruence.
Qed.

(** C4: the treatment isolates: what a reading returned to a successor in the reset arm comes
    after the frozen head, and none of it was written by the source population: it is of the
    service or of a successor of the same episode. *)
Theorem reset_successor_is_isolated db i r o h k m :
  study_reachable db -> let c := study_core db in
  receipts c !! i = Some r ->
  obligations c !! StudyForumReadReceipts.study_actor_obligation_id r = Some o ->
  StudyActorObligations.population_phase o
    = StudyPopulationPhase.as_i64 StudyPopulationPhase.Successor ->
  let episode := StudyActorObligations.study_episode_id o in
  has_treatment c episode (StudyTreatment.as_i64 StudyTreatment.Reset) ->
  frozen_heads c !! episode = Some h ->
  messages c !! k = Some m ->
  StudyForumMessages.forum_thread_id m = StudyForumReadReceipts.forum_thread_id r ->
  StudyForumReadReceipts.first_message_ordinal r <= StudyForumMessages.thread_message_ordinal m
    <= StudyForumReadReceipts.through_message_ordinal r ->
  StudyFrozenForumHeads.frozen_head_message_ordinal h < StudyForumMessages.thread_message_ordinal m
  /\ (StudyForumMessages.author_occurrence_id m = None
      \/ exists j y o', StudyForumMessages.author_occurrence_id m = Some j
           /\ occurrences c !! j = Some y
           /\ obligations c !! StudyActorOccurrences.study_actor_obligation_id y = Some o'
           /\ StudyActorObligations.study_episode_id o' = episode
           /\ StudyActorObligations.population_phase o'
              = StudyPopulationPhase.as_i64 StudyPopulationPhase.Successor).
Proof.
  state_of Hr. intros Hrec Ho Hphase episode Ht Hh Hm Hthread Hbetween.
  pose proof (study_isolation _ Hr) as I.
  destruct (receipt_exposed _ I _ _ Hrec) as (x & t & ((j & Hx) & Hxo & Hxf) & Hu & Hfirst & _).
  destruct (exposure_start _ I _ _ Hx) as (o1 & f & Ho1 & Hf & Hfe & Hvis).
  rewrite Hxo, Ho in Ho1. injection Ho1 as <-.
  destruct Hvis as [[E _]|(_ & h' & treatment & Hh' & Ht' & Hfrom)]; [by rewrite E in Hphase|].
  assert (h' = h) as -> by (unfold episode in Hh; congruence).
  rewrite (one_treatment _ _ _ _ I Ht' Ht) in Hfrom. cbn in Hfrom.
  split; [lia|].
  destruct (message_placed _ I _ _ Hm) as (e & t' & (Ht1 & f' & Hf' & He) & Hauthor).
  assert (e = episode) as ->.
  { rewrite Hthread in Ht1. assert (t' = t) as -> by congruence.
    rewrite Hxf in Hf'. assert (f' = f) as -> by congruence. unfold episode; congruence. }
  destruct (StudyForumMessages.author_occurrence_id m) as [a|]; [right|by left].
  destruct Hauthor as (y & o' & Hy & Ho' & He' & [[_ Hle]|[Hp _]]).
  - specialize (Hle _ Hh). lia.
  - by exists a, y, o'.
Qed.

(** C5: both arms of a pair get the same correction: the episodes of a pair are of the same
    protocol, one retained and one reset, and once both are past their correction the first
    message after each frozen head is of the service and has the digest that the protocol
    committed to. *)
Theorem corrections_are_matched db k p e e' :
  study_reachable db -> let c := study_core db in
  pairs c !! k = Some p ->
  episodes c !! StudyPairs.retained_episode_id p = Some e ->
  episodes c !! StudyPairs.reset_episode_id p = Some e' ->
  StudyEpisodeState.as_i64 StudyEpisodeState.CorrectionReleased
    <= StudyEpisodes.lifecycle_state e ->
  StudyEpisodeState.as_i64 StudyEpisodeState.CorrectionReleased
    <= StudyEpisodes.lifecycle_state e' ->
  has_treatment c (StudyPairs.retained_episode_id p) (StudyTreatment.as_i64 StudyTreatment.Retained)
  /\ has_treatment c (StudyPairs.reset_episode_id p) (StudyTreatment.as_i64 StudyTreatment.Reset)
  /\ exists protocol, protocol_of c e = Some protocol /\ protocol_of c e' = Some protocol
     /\ Forall (fun episode => exists h t i m, frozen_heads c !! episode = Some h
          /\ messages c !! i = Some m
          /\ thread_of c (StudyForumMessages.forum_thread_id m) t episode
          /\ StudyForumMessages.author_occurrence_id m = None
          /\ StudyForumMessages.thread_message_ordinal m
             = StudyFrozenForumHeads.frozen_head_message_ordinal h + 1
          /\ StudyForumMessages.body_digest m = StudyProtocolRevisions.correction_digest protocol)
        [StudyPairs.retained_episode_id p; StudyPairs.reset_episode_id p].
Proof.
  state_of Hr. intros Hp He He' H5 H5'. pose proof (study_correction _ Hr) as I.
  destruct (pair_matched _ I _ _ Hp) as (e1 & e2 & He1 & He2 & Ht & Ht' & Heq & _).
  assert (e1 = e) as -> by congruence. assert (e2 = e') as -> by congruence.
  split_and!; [done|done|].
  destruct (released_corrected _ I _ _ He H5) as (x & q & h & t & i & m & Hx & Hq & Hm).
  destruct (released_corrected _ I _ _ He' H5') as (x' & q' & h' & t' & i' & m' & Hx' & Hq' & Hm').
  assert (x = e) as -> by congruence. assert (x' = e') as -> by congruence.
  assert (q' = q) as -> by (unfold protocol_of in *; congruence).
  exists q. split_and!; [done|done|]. destruct_and?.
  repeat constructor; [by exists h, t, i, m|by exists h', t', i', m'].
Qed.

(** A thread has no gap and no duplicate: its messages are numbered from 1 to its head,
    one message each. *)
Theorem forum_is_gapless db i t :
  study_reachable db -> let c := study_core db in
  threads c !! i = Some t ->
  (forall n, 1 <= n <= StudyForumThreads.head_message_ordinal t <->
     exists k m, messages c !! k = Some m /\ StudyForumMessages.forum_thread_id m = i
       /\ StudyForumMessages.thread_message_ordinal m = n)
  /\ forall k k' m m', messages c !! k = Some m -> messages c !! k' = Some m' ->
       StudyForumMessages.forum_thread_id m = i -> StudyForumMessages.forum_thread_id m' = i ->
       StudyForumMessages.thread_message_ordinal m = StudyForumMessages.thread_message_ordinal m' ->
       k = k'.
Proof.
  state_of Hr. intros Ht. pose proof (study_forum _ Hr) as I. split.
  - intros n. split; [by apply (no_message_missing _ I)|].
    intros (k & m & Hm & <- & <-). destruct (message_in_thread _ I _ _ Hm) as (u & Hu & Hle).
    by assert (u = t) as -> by congruence.
  - intros k k' m m' Hm Hm' <- E E'. by eapply (one_message _ I).
Qed.

(** The accounts of an obligation are exact and within its budgets: the reads it used are
    the readings recorded for it, the posts it used are the messages its actor wrote, and
    what it was charged is between zero and its budget. *)
Theorem obligation_accounts_are_exact db k o :
  study_reachable db -> let c := study_core db in
  obligations c !! k = Some o ->
  0 <= StudyActorObligations.charged_budget_units o <= StudyActorObligations.budget_units o
  /\ StudyActorObligations.reads_used o = count_rows (read_by k) (receipts c)
  /\ StudyActorObligations.reads_used o <= StudyActorObligations.read_budget o
  /\ StudyActorObligations.posts_used o = count_rows (author_is (occurrences c) k) (messages c)
  /\ StudyActorObligations.posts_used o <= StudyActorObligations.post_budget o.
Proof.
  state_of Hr. intros Ho. pose proof (study_budget _ Hr) as I.
  destruct (within_budget _ I _ _ Ho) as (? & ? & ?).
  pose proof (reads_counted _ I _ _ Ho). pose proof (posts_counted _ I _ _ Ho). lia.
Qed.

(** A run that is ready, running or completed has registered exactly one pair under each
    ordinal from 1 to its pair count; the episodes of the pairs of a completed run are
    closed. *)
Theorem run_registers_every_ordinal db k (r : StudyRuns.t) :
  study_reachable db -> let c := study_core db in
  runs c !! k = Some r ->
  StudyRunLifecycleState.as_i64 StudyRunLifecycleState.Ready <= StudyRuns.lifecycle_state r ->
  (forall n, 1 <= n <= StudyRuns.pair_count r -> exists i q,
     (run_pairs c !! i = Some q /\ StudyRunPairs.study_run_id q = k
      /\ StudyRunPairs.pair_ordinal q = n /\ is_Some (pairs c !! StudyRunPairs.study_pair_id q))
     /\ forall j q', run_pairs c !! j = Some q' -> StudyRunPairs.study_run_id q' = k ->
          StudyRunPairs.pair_ordinal q' = n -> j = i)
  /\ (StudyRuns.lifecycle_state r
        = StudyRunLifecycleState.as_i64 StudyRunLifecycleState.Completed ->
      forall i q, run_pairs c !! i = Some q -> StudyRunPairs.study_run_id q = k ->
        closed_pair c (StudyRunPairs.study_pair_id q)).
Proof.
  state_of Hr. intros Hk H2. pose proof (study_run _ Hr) as I. cbn in H2. split.
  - intros n Hn.
    assert (StudyRuns.registered_pair_count r = StudyRuns.pair_count r) as Hcount.
    { destruct (run_state _ I _ _ Hk); [lia|tauto]. }
    destruct (every_number_taken (of_run k) StudyRunPairs.pair_ordinal (run_pairs c)
      (StudyRuns.pair_count r)) with (v := n) as (i & q & Hq & Hof & Hord).
    + intros i q Hq Hof. unfold of_run in Hof. bool_hyps.
      destruct (run_pair_ok _ I _ _ Hq) as (r' & Hr' & Hle & _). subst k.
      by assert (r' = r) as -> by congruence.
    + intros i j q q' Hq Hq' Hof Hof' E. unfold of_run in *. bool_hyps.
      eapply (one_ordinal _ I); [done|done|congruence|done].
    + rewrite <-Hcount. symmetry. apply (run_registered _ I _ _ Hk).
    + done.
    + unfold of_run in Hof. bool_hyps. exists i, q.
      destruct (run_pair_ok _ I _ _ Hq) as (_ & _ & _ & Hpair%drawn_pair). split; [done|].
      intros j q' Hq' Hof' E. eapply (one_ordinal _ I); [done|done|congruence|congruence].
  - intros H4 i q Hq Hof. by eapply (run_completed _ I).
Qed.

(** C11: a closed episode is fully analysed: its actors are all completed or failed, what they
    were charged is within the budget of the protocol, its ground truth was revealed and is
    the one committed to, each of its measurement slots has exactly one result, and its forum
    is closed. *)
Theorem closed_episode_is_analysed db k e :
  study_reachable db -> let c := study_core db in
  episodes c !! k = Some e ->
  StudyEpisodes.lifecycle_state e = StudyEpisodeState.as_i64 StudyEpisodeState.Closed ->
  settled c k everyone
  /\ (exists p v slots, protocol_of c e = Some p
        /\ charged_to c k <= StudyProtocolRevisions.episode_budget_units p
        /\ reveals c !! k = Some v
        /\ StudyGroundTruthReveals.reveal_digest v
           = StudyProtocolRevisions.ground_truth_commitment_digest p
        /\ slots_of c e = Some slots
        /\ forall n, 1 <= n <= slots -> exists i w,
             (results c !! i = Some w /\ StudyMeasurementResults.study_episode_id w = k
              /\ StudyMeasurementResults.measurement_slot w = n)
             /\ forall j w', results c !! j = Some w' ->
                  StudyMeasurementResults.study_episode_id w' = k ->
                  StudyMeasurementResults.measurement_slot w' = n -> j = i)
  /\ forall i f, forums c !! i = Some f -> StudyEpisodeForums.study_episode_id f = k ->
       StudyEpisodeForums.lifecycle_state f = ForumLifecycle.as_i64 ForumLifecycle.Closed.
Proof.
  state_of Hr. intros He H7. pose proof (study_closing _ Hr) as I. cbn in H7.
  pose proof (closed_measured _ I _ _ He H7) as Hslots.
  set (slots := count_rows (measures k) (results c)) in *.
  assert (forall n, 1 <= n <= slots -> exists i w, results c !! i = Some w
            /\ measures k w = true /\ StudyMeasurementResults.measurement_slot w = n) as Hall.
  { apply every_number_taken; [| |done].
    - intros i w Hw Hk. unfold measures in Hk. bool_hyps.
      destruct (measured _ I _ _ Hw) as (e' & slots' & He' & Hs' & Hle & _). subst k.
      assert (e' = e) as -> by congruence. congruence.
    - intros i j w w' Hw Hw' Hk Hk' E. unfold measures in *. bool_hyps.
      eapply (one_result _ I); [done|done|congruence|done]. }
  split_and!.
  - by eapply (closed_settled _ I).
  - destruct (closed_within_budget _ I _ _ He H7) as (p & Hp & Hle).
    assert (1 <= slots) as H1.
    { unfold slots_of in Hslots. destruct (measurements c !! _) as [v|] eqn:Hv; [|done].
      pose proof (slots_positive _ I _ _ Hv). cbn in Hslots. by injection Hslots as <-. }
    destruct (Hall 1) as (i & w & Hw & Hk & _); [lia|]. unfold measures in Hk. bool_hyps.
    destruct (measured _ I _ _ Hw) as (_ & _ & _ & _ & _ & [v Hv]). rewrite Hk in Hv.
    destruct (revealed _ I _ _ Hv) as (e' & p' & He' & _ & Hp' & Hd & _).
    assert (e' = e) as -> by congruence.
    assert (p' = p) as -> by congruence.
    exists p, v, slots. split_and!; [done..|]. intros n Hn.
    destruct (Hall n Hn) as (j & u & Hu & Hm & Hs). unfold measures in Hm. bool_hyps.
    exists j, u. split; [done|]. intros j' u' Hu' Hm' Hs'.
    eapply (one_result _ I); [done|done|congruence|congruence].
  - intros i f Hf Hfe. by eapply (closed_forum _ I).
Qed.

(** A decision cites only what its actor has seen: a message that a reading returned to
    the obligation, or one that its actor wrote. *)
Theorem decision_cites_what_was_seen db k d i :
  study_reachable db -> let c := study_core db in
  decisions c !! k = Some d -> StudyDecisions.cited_forum_message_id d = Some i ->
  exists m, messages c !! i = Some m /\ (returned_to c k m \/ written_by c k m).
Proof. state_of Hr. intros Hd. by apply (study_decision _ Hr). Qed.

(** Two rows that meet a condition are more than one. *)
Lemma count_where_two {R} (p : R -> bool) (t : table R) i j r r' :
  rows t !! i = Some r -> rows t !! j = Some r' -> p r = true -> p r' = true -> i <> j ->
  count_where p t <> 1.
Proof.
  intros Hi Hj Hp Hp' Hne. unfold count_where.
  assert ((i, r) ∈ rows_where p t) as H1 by by apply elem_of_rows_where.
  assert ((j, r') ∈ rows_where p t) as H2 by by apply elem_of_rows_where.
  destruct (rows_where p t) as [|a [|b l]]; [by apply elem_of_nil in H1| |cbn; lia].
  apply list_elem_of_singleton in H1, H2. congruence.
Qed.

(** C31: a message that two readings of an obligation returned can no longer be cited by it:
    however it was decided, the decision is refused, unless its actor wrote the message. *)
Theorem reread_message_is_not_citable db id obligation_id decision message_id m i j r r' :
  let obligation := StudyIdentifier.value obligation_id in
  let covers r :=
    StudyForumReadReceipts.study_actor_obligation_id r = obligation
    /\ StudyForumReadReceipts.forum_thread_id r = StudyForumMessages.forum_thread_id m
    /\ StudyForumReadReceipts.first_message_ordinal r
         <= StudyForumMessages.thread_message_ordinal m
         <= StudyForumReadReceipts.through_message_ordinal r in
  rows (StudyDatabase.study_forum_messages db) !! StudyIdentifier.value message_id = Some m ->
  rows (StudyDatabase.study_forum_read_receipts db) !! i = Some r -> covers r ->
  rows (StudyDatabase.study_forum_read_receipts db) !! j = Some r' -> covers r' -> i <> j ->
  is_own_message db obligation (StudyIdentifier.value message_id) = false ->
  forall ev db', ~ yields (record_decision id obligation_id decision (Some message_id)) db ev db'.
Proof.
  intros obligation covers Hm Hi Hr Hj Hr' Hne Hown ev db' H.
  unfold record_decision in H. yields_inv.
  match goal with Ho : yields (obligation_row _) _ _ _ |- _ =>
    apply obligation_row_ok in Ho as [-> _] end.
  match goal with Hc : (_ =? 1) || is_own_message _ _ _ = true |- _ =>
    fold obligation in Hc; rewrite Hown, orb_false_r in Hc; apply Z.eqb_eq in Hc; revert Hc end.
  unfold returned_count. rewrite Hm.
  assert (forall x, covers x ->
    (StudyForumReadReceipts.forum_thread_id x =? StudyForumMessages.forum_thread_id m)
    && (StudyForumReadReceipts.study_actor_obligation_id x =? obligation)
    && in_range (StudyForumReadReceipts.first_message_ordinal x)
         (StudyForumReadReceipts.through_message_ordinal x)
         (StudyForumMessages.thread_message_ordinal m) = true) as Hcovers.
  { intros x (-> & -> & Hx). unfold in_range. lia. }
  by eapply count_where_two; [exact Hi|exact Hj|apply Hcovers..|].
Qed.

(** Charges stand still past the correction, once every actor is done. *)
Lemma charged_moves c c' k e :
  study_moves c c' -> episodes c !! k = Some e -> 5 <= StudyEpisodes.lifecycle_state e ->
  settled c k everyone -> charged_to c' k = charged_to c k.
Proof.
  intros H. revert e. induction H as [|c1 c2 c3 H _ IH]; intros e He H5 Hs; [done|].
  destruct (later_episodes _ _ (move_later _ _ H) _ _ He) as (e2 & He2 & Hle).
  destruct Hle as (_ & _ & _ & _ & _ & _ & Hle & _).
  rewrite (IH e2 He2); [by eapply charged_move|lia|by eapply settled_move].
Qed.

(** C32: the budget of an episode is a hard ceiling that is only enforced at its close: once
    its actors are done and were charged more than the protocol allows, it never closes,
    whatever follows. *)
Theorem overcharged_episode_never_closes db db' k e p :
  study_reachable db -> let c := study_core db in
  episodes c !! k = Some e ->
  StudyEpisodeState.as_i64 StudyEpisodeState.CorrectionReleased
    <= StudyEpisodes.lifecycle_state e ->
  settled c k everyone -> protocol_of c e = Some p ->
  StudyProtocolRevisions.episode_budget_units p < charged_to c k ->
  study_steps db db' ->
  exists e', episodes (study_core db') !! k = Some e'
    /\ StudyEpisodes.lifecycle_state e' <> StudyEpisodeState.as_i64 StudyEpisodeState.Closed.
Proof.
  intros Hr%reachable_study_inv c He H5 Hs Hp Hover Hsteps.
  pose proof (study_steps_moves _ _ Hr Hsteps) as Hm. fold c in Hm.
  pose proof (study_inv_moves _ _ Hm Hr) as I.
  pose proof (moves_later _ _ Hm) as L.
  destruct (later_episodes _ _ L _ _ He) as (e' & He' & Hle). exists e'. split; [done|].
  intros H7. destruct (closed_within_budget _ (study_closing _ I) _ _ He' H7) as (p' & Hp' & Hc').
  rewrite (charged_moves _ _ _ _ Hm He H5 Hs) in Hc'.
  destruct Hle as (E & _). unfold protocol_of in Hp, Hp'. rewrite E in Hp'.
  destruct (later_protocols _ _ L _ _ Hp) as (q & Hq & <-).
  assert (p' = p) as -> by congruence. lia.
Qed.
End Safety.

(** ** Witnesses *)

(** What the tables of a sample hold, computed. *)
Ltac computed := vm_compute; reflexivity.
Ltac sampled := apply sample_reachable; computed.
Tactic Notation "by_theorem" open_constr(H) "as" simple_intropattern(p) :=
  let H' := fresh in pose proof H as H'; cbv zeta in H'; edestruct H' as p; clear H'.
Definition answered_core : StudyCore.t := study_core (after (answered_study 10)).
Definition completed_core : StudyCore.t := study_core (after completed_study).

Lemma settled_computed c k :
  forallb (fun jo => negb (StudyActorObligations.study_episode_id jo.2 =? k) || is_terminal jo.2)
    (map_to_list (obligations c)) = true -> settled c k everyone.
Proof.
  rewrite forallb_forall. intros H j o Ho <- _.
  assert (In (j, o) (map_to_list (obligations c))) as Hin%H
    by by apply list_elem_of_In, elem_of_map_to_list.
  cbn in Hin. by rewrite Z.eqb_refl in Hin.
Qed.

Lemma study_commands_refine_machine_witness : exists ev db,
  yields (apply 100 (StudyCommand.ForkEpisode (sid 1) StudyTreatment.Reset))
    (after completed_study) ev db
  /\ study_moves completed_core (study_core db).
Proof.
  assert (is_Some (match (apply 100 (StudyCommand.ForkEpisode (sid 1) StudyTreatment.Reset)
                     (after completed_study)).1 with Ok ev => Some ev | Err _ => None end)) as [ev Hev]
    by (eexists; computed).
  exists ev, (apply 100 (StudyCommand.ForkEpisode (sid 1) StudyTreatment.Reset)
                (after completed_study)).2.
  assert (yields (apply 100 (StudyCommand.ForkEpisode (sid 1) StudyTreatment.Reset))
    (after completed_study) ev (apply 100 (StudyCommand.ForkEpisode (sid 1) StudyTreatment.Reset)
                (after completed_study)).2) as H.
  { unfold yields. destruct (apply 100 _ _) as [[ev'|e] db]; cbn in *; congruence. }
  split; [exact H|]. eapply study_commands_refine_machine; [sampled|exact H].
Defined.

Lemma study_history_is_kept_witness :
  study_reachable (after (answered_study 10)) /\ later answered_core completed_core.
Proof.
  split; [sampled|]. apply study_history_is_kept; [sampled|].
  unfold completed_study. apply sample_goes_on. computed.
Defined.

Lemma reset_successor_is_isolated_witness : exists h m,
  frozen_heads answered_core !! 2 = Some h /\ messages answered_core !! 4 = Some m
  /\ StudyFrozenForumHeads.frozen_head_message_ordinal h
     < StudyForumMessages.thread_message_ordinal m.
Proof.
  eexists _, _. split; [computed|split; [computed|]].
  eapply (reset_successor_is_isolated (after (answered_study 10)) 2 _ _ _ 4).
  - sampled.
  - computed.
  - computed.
  - done.
  - eexists 2, _. split; [computed|done].
  - computed.
  - computed.
  - done.
  - done.
Defined.

Lemma corrections_are_matched_witness : exists e e' protocol,
  episodes answered_core !! 1 = Some e /\ episodes answered_core !! 2 = Some e'
  /\ protocol_of answered_core e = Some protocol /\ protocol_of answered_core e' = Some protocol.
Proof.
  assert (study_reachable (after (answered_study 10))) as Hr by sampled.
  by_theorem (corrections_are_matched _ 1 _ _ _ Hr) as (_ & _ & protocol & H & H' & _);
    [computed|computed|computed|done|done|].
  eexists _, _, protocol. split; [computed|split; [computed|split; [exact H|exact H']]].
Defined.

Lemma forum_is_gapless_witness : exists t,
  threads answered_core !! 1 = Some t /\ StudyForumThreads.head_message_ordinal t = 3
  /\ forall n, 1 <= n <= 3 -> exists k m, messages answered_core !! k = Some m
       /\ StudyForumMessages.forum_thread_id m = 1
       /\ StudyForumMessages.thread_message_ordinal m = n.
Proof.
  eexists. split; [computed|split; [done|]]. intros n Hn.
  assert (study_reachable (after (answered_study 10))) as Hr by sampled.
  by_theorem (forum_is_gapless _ 1 _ Hr) as [H _]; [computed|]. apply H. exact Hn.
Defined.

Lemma obligation_accounts_are_exact_witness : exists o,
  obligations completed_core !! 3 = Some o
  /\ StudyActorObligations.charged_budget_units o <= StudyActorObligations.budget_units o
  /\ count_rows (read_by 3) (receipts completed_core) = 1.
Proof.
  eexists. split; [computed|].
  assert (study_reachable (after completed_study)) as Hr by sampled.
  by_theorem (obligation_accounts_are_exact _ 3 _ Hr) as ([_ Hc] & Hreads & _); [computed|].
  split; [exact Hc|]. symmetry. exact Hreads.
Defined.

Lemma run_registers_every_ordinal_witness : exists (r : StudyRuns.t),
  runs completed_core !! 1 = Some r
  /\ (exists i q, run_pairs completed_core !! i = Some q /\ StudyRunPairs.pair_ordinal q = 1)
  /\ forall i q, run_pairs completed_core !! i = Some q -> StudyRunPairs.study_run_id q = 1 ->
       closed_pair completed_core (StudyRunPairs.study_pair_id q).
Proof.
  eexists. split; [computed|].
  assert (study_reachable (after completed_study)) as Hr by sampled.
  by_theorem (run_registers_every_ordinal _ 1 _ Hr) as [Hall Hclosed];
    [computed|vm_compute; discriminate|]. split.
  - destruct (Hall 1) as (i & q & (Hq & _ & Ho & _) & _); [split; vm_compute; discriminate|].
    exists i, q. split; [exact Hq|exact Ho].
  - apply Hclosed. reflexivity.
Defined.

Lemma closed_episode_is_analysed_witness : exists e,
  episodes completed_core !! 1 = Some e /\ settled completed_core 1 everyone
  /\ exists v, reveals completed_core !! 1 = Some v.
Proof.
  eexists. split; [computed|].
  assert (study_reachable (after completed_study)) as Hr by sampled.
  by_theorem (closed_episode_is_analysed _ 1 _ Hr) as (Hs & (p & v & slots & _ & _ & Hv & _) & _);
    [computed|reflexivity|]. split; [exact Hs|]. by exists v.
Defined.

Lemma decision_cites_what_was_seen_witness : exists d,
  decisions answered_core !! 3 = Some d
  /\ exists m, messages answered_core !! 3 = Some m
     /\ (returned_to answered_core 3 m \/ written_by answered_core 3 m).
Proof.
  eexists. split; [computed|].
  eapply (decision_cites_what_was_seen (after (answered_study 10))); [sampled|computed|done].
Defined.

Lemma reread_message_is_not_citable_witness :
  ~ exists ev db', yields (record_decision 100 (sid 3) (Newtype "decision" eq_refl)
                             (Some (sid 1))) (after reread_study) ev db'.
Proof.
  intros (ev & db' & H). revert H.
  eapply (reread_message_is_not_citable _ _ _ _ _ _ 1 2).
  - computed.
  - computed.
  - done.
  - computed.
  - done.
  - done.
  - computed.
Defined.

Lemma overcharged_episode_never_closes_witness :
  let analysed := [Run (StudyCommand.RevealGroundTruth (sid 1) truth);
    Run (StudyCommand.RecordMeasurementResult (sid 1) (Newtype 1 eq_refl)
      StudyMeasurementStatus.Observed (Some (ordinal_of 7)) (Some sample_digest) None)] in
  exists e, episodes (study_core (after (overcharged_study ++ analysed))) !! 1 = Some e
    /\ StudyEpisodes.lifecycle_state e <> StudyEpisodeState.as_i64 StudyEpisodeState.Closed.
Proof.
  eapply (overcharged_episode_never_closes (after overcharged_study)).
  - sampled.
  - computed.
  - done.
  - apply settled_computed. computed.
  - computed.
  - computed.
  - apply sample_goes_on. computed.
Defined.
