(* ===== verification/StudyObservationsSpec.v ===== *)
(** * What the reports of the study are worth

    The read-only queries of [StudyObservations] on the databases that a study reaches: they
    never report a corruption that they look for, and what they report of runs, closed
    episodes, pairs and the public Forum is complete and in order. *)

From S2P Require Import Prelude.
From S2P Require Import Machine.
From S2P Require Import Hash.
From S2P Require Import KernelScalars.
From S2P Require Import KernelEnums.
From S2P Require Import KernelCustody.
From S2P Require Import StudyTypes.
From S2P Require Import StudyCommands.
From S2P Require Import KernelCommands.
From S2P Require Import KernelCodes.
From S2P Require Import SqlTable.
From S2P Require Import StoreTables.
From S2P Require Import StoreQueries.
From S2P Require Import StoreLogic.
From S2P Require Import StoreSample.
From S2P Require Import StudyTables.
From S2P Require Import StudyStore.
From S2P Require Import StudyObservations.
From S2P Require Import StudyMachine.
From S2P Require Import StudyInvariants.
From S2P Require Import StudyAccounts.
From S2P Require Import StudyRefine.
From S2P Require Import StudySample.
From S2P Require Import StudySafety.
Import StudyCore(protocols, measurements, snapshots, episodes, successors, assignments, pairs,
  runs, run_pairs, obligations, occurrences, forums, threads, frozen_heads, exposures, messages,
  receipts, decisions, reveals, results).

Lemma Forall2_elem_of_l {A B} (R : A -> B -> Prop) l k x :
  Forall2 R l k -> x ∈ l -> exists y, y ∈ k /\ R x y.
Proof.
  intros H (i & Hi)%list_elem_of_lookup_1. destruct (Forall2_lookup_l _ _ _ _ _ H Hi) as (y & Hy & Hx).
  exists y. split; [by eapply list_elem_of_lookup_2|done].
Qed.
Lemma Forall2_elem_of_r {A B} (R : A -> B -> Prop) l k y :
  Forall2 R l k -> y ∈ k -> exists x, x ∈ l /\ R x y.
Proof.
  intros H (i & Hi)%list_elem_of_lookup_1. destruct (Forall2_lookup_r _ _ _ _ _ H Hi) as (x & Hx & Hy).
  exists x. split; [by eapply list_elem_of_lookup_2|done].
Qed.

(** ** Queries that report no corruption *)

Definition uncorrupt {A} (r : store_result A) : Prop :=
  forall what, r <> Err (StoreError.LedgerCorruption what).

Lemma uncorrupt_ok {A} (a : A) : uncorrupt (Ok a).
Proof. done. Qed.
Lemma uncorrupt_stored {A E} (r : result A E) : uncorrupt (stored r).
Proof. by destruct r. Qed.
Lemma uncorrupt_bigint z : uncorrupt (bigint z).
Proof. unfold bigint. by destruct (checked z). Qed.
Lemma uncorrupt_digest l : uncorrupt (exact_digest l).
Proof. unfold exact_digest. by destruct (checked l). Qed.
Lemma uncorrupt_bind {A B} (r : store_result A) (k : A -> store_result B) :
  uncorrupt r -> (forall a, r = Ok a -> uncorrupt (k a)) ->
  uncorrupt (match r with Ok a => k a | Err e => Err e end).
Proof. intros Hr Hk. destruct r as [a|e]; [by apply Hk|]. intros what [= ->]. by eapply Hr. Qed.
Lemma uncorrupt_transpose {A B} (f : A -> store_result B) o :
  (forall a, uncorrupt (f a)) -> uncorrupt (transpose f o).
Proof. intros Hf. destruct o; [|done]. by apply uncorrupt_bind. Qed.
Lemma uncorrupt_collect {A B} (f : A -> store_result B) l :
  (forall a, uncorrupt (f a)) -> uncorrupt (collect f l).
Proof. intros Hf. induction l as [|a l IH]; [done|]. cbn. by repeat (apply uncorrupt_bind; [done|intros]). Qed.
Lemma uncorrupt_treatment z : uncorrupt (Study.treatment_from_i64 z).
Proof. unfold Study.treatment_from_i64. by repeat case_match. Qed.
Lemma uncorrupt_run_state z : uncorrupt (Study.study_run_lifecycle_state_from_i64 z).
Proof. unfold Study.study_run_lifecycle_state_from_i64. by repeat case_match. Qed.
Lemma uncorrupt_status z : uncorrupt (Study.measurement_status_from_i64 z).
Proof. unfold Study.measurement_status_from_i64. by repeat case_match. Qed.

Create HintDb uncorrupt.
#[export] Hint Resolve uncorrupt_ok uncorrupt_stored uncorrupt_bigint uncorrupt_digest
  uncorrupt_treatment uncorrupt_run_state uncorrupt_status : uncorrupt.
(** By the structure of the query. *)
Ltac uncorrupt_step :=
  match goal with
  | |- uncorrupt (transpose _ _) => apply uncorrupt_transpose; intros ?
  | |- uncorrupt (collect _ _) => apply uncorrupt_collect; intros ?
  | |- uncorrupt (match _ with Ok _ => _ | Err _ => _ end) => apply uncorrupt_bind; [|intros ? ?]
  | |- uncorrupt _ => solve [auto with uncorrupt]
  end.
Ltac solve_uncorrupt := repeat uncorrupt_step.

(** ** What an accepted value says of the column *)

(** One [?] of a query that succeeded. *)
Ltac ok_step H :=
  match type of H with
  | match ?x with Ok _ => _ | Err _ => _ end = Ok _ =>
      let E := fresh "E" in destruct x eqn:E; [|discriminate H]
  end.
Ltac ok_steps H := repeat ok_step H.

Lemma stored_ok {A E} (r : result A E) a : stored r = Ok a -> r = Ok a.
Proof. destruct r; [|done]. by intros [= ->]. Qed.
Lemma bigint_ok z n : bigint z = Ok n -> inner n = z.
Proof. unfold bigint. destruct (checked z) eqn:E; [|done]. intros [= <-]. by apply checked_some in E. Qed.
Lemma exact_digest_ok l d : exact_digest l = Ok d -> Blake3Digest.as_bytes d = l.
Proof.
  unfold exact_digest. destruct (checked l) eqn:E; [|done]. intros [= <-]. by apply checked_some in E.
Qed.
Lemma transpose_ok {A B} (f : A -> store_result B) o r :
  transpose f o = Ok r ->
  match o with Some a => exists b, f a = Ok b /\ r = Some b | None => r = None end.
Proof. destruct o; cbn; [|by intros [= <-]]. intros H. ok_steps H. injection H as <-. by eexists. Qed.

(** The bounded counts and ordinals keep their number. *)
Ltac narrow :=
  intros H;
  match type of H with context [if ?b then _ else _] => destruct b; [|discriminate H] end;
  match type of H with context [checked ?z] =>
    let E := fresh in destruct (checked z) eqn:E; [|discriminate H];
    injection H as <-; by apply checked_some in E
  end.
Lemma pair_count_ok z n : StudyRunPairCount.try_from z = Ok n -> StudyRunPairCount.value n = z.
Proof. unfold StudyRunPairCount.try_from, StudyRunPairCount.new, u16_try_from, ok_or. narrow. Qed.
Lemma registered_count_ok z n :
  StudyRunRegisteredPairCount.try_from z = Ok n -> StudyRunRegisteredPairCount.value n = z.
Proof.
  unfold StudyRunRegisteredPairCount.try_from, StudyRunRegisteredPairCount.new, u16_try_from, ok_or.
  narrow.
Qed.
Lemma pair_ordinal_ok z n : StudyRunPairOrdinal.try_from z = Ok n -> StudyRunPairOrdinal.value n = z.
Proof. unfold StudyRunPairOrdinal.try_from, StudyRunPairOrdinal.new, u16_try_from, ok_or. narrow. Qed.
Lemma slot_ok z n : StudyMeasurementSlot.try_from z = Ok n -> StudyMeasurementSlot.value n = z.
Proof. unfold StudyMeasurementSlot.try_from, StudyMeasurementSlot.new, u8_try_from, ok_or. narrow. Qed.
Lemma slot_count_ok z n :
  StudyMeasurementSlotCount.try_from z = Ok n -> StudyMeasurementSlotCount.value n = z.
Proof.
  unfold StudyMeasurementSlotCount.try_from, StudyMeasurementSlotCount.new, u8_try_from, ok_or. narrow.
Qed.

Section Reports.
Context {hash : Blake3}.
Implicit Types (db : StudyDatabase.t).

(** ** Runs *)

Definition ordinal_reported (q : StudyRunPairRegistrationObservation.t) : Z :=
  StudyRunPairOrdinal.value (StudyRunPairRegistrationObservation.pair_ordinal q).
(** The report of a registration. *)
Definition registration_reported (row : StudyRunPairs.t)
  (q : StudyRunPairRegistrationObservation.t) : Prop :=
  ordinal_reported q = StudyRunPairs.pair_ordinal row
  /\ StudyIdentifier.value (StudyRunPairRegistrationObservation.pair_id q)
     = StudyRunPairs.study_pair_id row
  /\ Blake3Digest.as_bytes (StudyRunPairRegistrationObservation.randomization_digest q)
     = StudyRunPairs.randomization_digest row.

Lemma registration_observation_ok row q :
  registration_observation row = Ok q -> registration_reported row q.
Proof.
  unfold registration_observation. intros H. ok_steps H. injection H as <-.
  split_and!; [by apply pair_ordinal_ok, stored_ok|by apply identifier_ok, stored_ok|
               by apply exact_digest_ok].
Qed.

Lemma registrations_of_rows db run i row :
  (i, row) ∈ registrations_of db run
  <-> run_pairs (study_core db) !! i = Some row /\ StudyRunPairs.study_run_id row = run.
Proof.
  unfold registrations_of. rewrite order_by_perm, elem_of_rows_where, Z.eqb_eq. done.
Qed.
Lemma registrations_of_count db run :
  count (registrations_of db run) = count_rows (of_run run) (run_pairs (study_core db)).
Proof.
  rewrite <-count_where_rows with (t := StudyDatabase.study_run_pairs db).
  unfold count, count_where, registrations_of. by rewrite order_by_perm.
Qed.

(** The registrations of a run that is past its pairing are numbered 1 to its pair count. *)
Lemma registrations_numbered db run (r : StudyRuns.t) :
  study_inv (study_core db) -> runs (study_core db) !! run = Some r ->
  2 <= StudyRuns.lifecycle_state r ->
  map (fun q => StudyRunPairs.pair_ordinal q.2) (registrations_of db run)
  = seqZ 1 (StudyRuns.pair_count r).
Proof.
  intros I Hr H2. pose proof (study_run _ I) as R. apply order_by_numbers, numbers_complete.
  - apply rows_where_numbers. intros i j q q' Hq Hq' Hof Hof' E. bool_hyps.
    eapply (one_ordinal _ R); [done|done|congruence|done].
  - apply Forall_fmap, Forall_forall. intros [i q] [Hq Hof]%elem_of_rows_where. cbn. bool_hyps.
    destruct (run_pair_ok _ R _ _ Hq) as (r' & Hr' & Hle & _). rewrite Hof in Hr'.
    by assert (r' = r) as -> by congruence.
  - rewrite length_map.
    assert (StudyRuns.registered_pair_count r = StudyRuns.pair_count r) as <-
      by (destruct (run_state _ R _ _ Hr); [lia|tauto]).
    rewrite (run_registered _ R _ _ Hr).
    apply (count_where_rows (of_run run) (StudyDatabase.study_run_pairs db)).
Qed.

(** The row that a run is reported from. *)
Definition run_reported (r : StudyRuns.t) (obs : StudyRunObservation.t) : Prop :=
  StudyIdentifier.value (StudyRunObservation.protocol_revision_id obs)
    = StudyRuns.study_protocol_revision_id r
  /\ Identifier.value (StudyRunObservation.plan_content_object_id obs)
     = StudyRuns.plan_content_object_id r
  /\ Blake3Digest.as_bytes (StudyRunObservation.plan_digest obs) = StudyRuns.plan_digest r
  /\ StudyRunPairCount.value (StudyRunObservation.pair_count obs) = StudyRuns.pair_count r
  /\ StudyRunRegisteredPairCount.value (StudyRunObservation.registered_pair_count obs)
     = StudyRuns.registered_pair_count r
  /\ StudyRunLifecycleState.as_i64 (StudyRunObservation.lifecycle_state obs)
     = StudyRuns.lifecycle_state r.

Lemma run_observation_ok db id obs :
  run_observation db id = Ok obs ->
  StudyRunObservation.study_run_id obs = id
  /\ exists r, runs (study_core db) !! StudyIdentifier.value id = Some r /\ run_reported r obs
     /\ Forall2 (fun q => registration_reported q.2)
          (registrations_of db (StudyIdentifier.value id)) (StudyRunObservation.pairs obs).
Proof.
  unfold run_observation. intros H. ok_steps H. destruct (negb _) in H; [done|]. ok_steps H.
  injection H as <-. split; [done|]. unfold ok_or in E.
  destruct (rows (StudyDatabase.study_runs db) !! _) as [r|] eqn:Hr; [|done]. injection E as ->.
  exists a. split; [done|]. split.
  - split_and!; cbn; first [by apply identifier_ok, stored_ok|by apply exact_digest_ok
      |by apply pair_count_ok, stored_ok|by apply registered_count_ok, stored_ok|idtac].
    + apply stored_ok in E5. by apply Identifier.try_from_ok.
    + by apply (table_sound (from_i64 := Study.study_run_lifecycle_state_from_i64)).
  - cbn. apply collect_ok_iff in E3. eapply Forall2_impl; [exact E3|].
    intros q x Hq. by apply registration_observation_ok.
Qed.

(** What a report of a run says of its counts and its ordinals. *)
Lemma run_counts db id obs :
  study_inv (study_core db) -> run_observation db id = Ok obs ->
  Z.of_nat (length (StudyRunObservation.pairs obs))
    = StudyRunRegisteredPairCount.value (StudyRunObservation.registered_pair_count obs)
  /\ (StudyRunObservation.lifecycle_state obs <> StudyRunLifecycleState.Pairing ->
      StudyRunRegisteredPairCount.value (StudyRunObservation.registered_pair_count obs)
        = StudyRunPairCount.value (StudyRunObservation.pair_count obs)
      /\ map ordinal_reported (StudyRunObservation.pairs obs)
         = seqZ 1 (StudyRunPairCount.value (StudyRunObservation.pair_count obs))).
Proof.
  intros I (_ & r & Hr & (_ & _ & _ & Hcount & Hreg & Hstate) & Hall)%run_observation_ok.
  split.
  { rewrite Hreg, (run_registered _ (study_run _ I) _ _ Hr), <-registrations_of_count.
    unfold count. by rewrite (Forall2_length _ _ _ Hall). }
  intros Hp. assert (2 <= StudyRuns.lifecycle_state r) as H2.
  { rewrite <-Hstate. by destruct (StudyRunObservation.lifecycle_state obs). }
  rewrite Hcount, Hreg. split.
  { destruct (run_state _ (study_run _ I) _ _ Hr); [lia|tauto]. }
  rewrite <-(registrations_numbered db (StudyIdentifier.value id) r) by done.
  clear -Hall. induction Hall as [|q x l l' (Hx & _) _ IH]; [done|]. cbn. by rewrite Hx, IH.
Qed.

(** The report of a run is its registry: on a database that a study reached it never finds
    the count of the registrations wrong; it lists each registration of the run once, with its
    pair and digest, by ordinal; and once the run is ready these are 1 to its pair count. *)
Theorem run_report_is_the_registry db id :
  study_reachable db ->
  (forall what, run_observation db id <> Err (StoreError.LedgerCorruption what))
  /\ forall obs, run_observation db id = Ok obs ->
     Z.of_nat (length (StudyRunObservation.pairs obs))
       = StudyRunRegisteredPairCount.value (StudyRunObservation.registered_pair_count obs)
     /\ (forall i row, run_pairs (study_core db) !! i = Some row ->
           StudyRunPairs.study_run_id row = StudyIdentifier.value id ->
           exists q, q ∈ StudyRunObservation.pairs obs /\ registration_reported row q)
     /\ (forall q, q ∈ StudyRunObservation.pairs obs ->
           exists i row, run_pairs (study_core db) !! i = Some row
             /\ StudyRunPairs.study_run_id row = StudyIdentifier.value id
             /\ registration_reported row q)
     /\ (StudyRunObservation.lifecycle_state obs <> StudyRunLifecycleState.Pairing ->
         map ordinal_reported (StudyRunObservation.pairs obs)
         = seqZ 1 (StudyRunPairCount.value (StudyRunObservation.pair_count obs))).
Proof.
  intros I%reachable_study_inv. split.
  - change (uncorrupt (run_observation db id)). unfold run_observation.
    uncorrupt_step; [by unfold ok_or; destruct (_ !! _)|]. solve_uncorrupt.
    + unfold registration_observation. solve_uncorrupt.
    + unfold ok_or in H. destruct (rows _ !! _) as [r|] eqn:Hr; [|done]. injection H as ->.
      apply stored_ok, registered_count_ok in H1.
      rewrite H1, (run_registered _ (study_run _ I) _ _ Hr), <-registrations_of_count.
      apply collect_ok_iff, Forall2_length in H3.
      unfold count at 1 2. rewrite H3, Z.eqb_refl. cbn. solve_uncorrupt.
  - intros obs Hobs. destruct (run_counts _ _ _ I Hobs) as [Hlen Hnum].
    destruct (run_observation_ok _ _ _ Hobs) as (_ & r & Hr & _ & Hall).
    split; [done|]. split; [|split; [|by intros [_ H]%Hnum]].
    + intros i row Hrow Hof. assert ((i, row) ∈ registrations_of db (StudyIdentifier.value id))
        as Hin by by apply registrations_of_rows.
      destruct (Forall2_elem_of_l _ _ _ _ Hall Hin) as (q & Hq & Hx). by exists q.
    + intros q Hq. destruct (Forall2_elem_of_r _ _ _ _ Hall Hq) as ([i row] & Hin & Hx).
      apply registrations_of_rows in Hin as [Hrow Hof]. by exists i, row.
Qed.

(** ** Episodes *)

Definition slot_reported (v : StudyMeasurementObservation.t) : Z :=
  StudyMeasurementSlot.value (StudyMeasurementObservation.measurement_slot v).
Definition same_id {n} (id : StudyIdentifier.t n) (column : Z) : Prop :=
  StudyIdentifier.value id = column.

Lemma episode_row_ok db k e a v :
  episode_row db k = Some (e, a, v) ->
  episodes (study_core db) !! k = Some e
  /\ has_treatment (study_core db) k (StudyTreatmentAssignments.treatment a)
  /\ measurements (study_core db) !! StudyEpisodes.study_measurement_revision_id e = Some v.
Proof.
  unfold episode_row. destruct (rows (StudyDatabase.study_episodes db) !! k) as [e'|] eqn:He; [|done].
  destruct (row_where _ _) as [[i a']|] eqn:Ha; [|done].
  destruct (rows (StudyDatabase.study_measurement_revisions db) !! _) as [v'|] eqn:Hv; [|done].
  intros [= -> -> ->]. split_and!; [done| |done].
  apply row_where_some in Ha as [Ha Hk]. bool_hyps. by exists i, a.
Qed.

(** A value and its digest, or else a reason. *)
Definition has_shape (m : StudyMeasurementObservation.t) : Prop :=
  match StudyMeasurementObservation.status m, StudyMeasurementObservation.value m,
        StudyMeasurementObservation.value_digest m, StudyMeasurementObservation.reason_digest m with
  | StudyMeasurementStatus.Observed, Some _, Some _, None => True
  | (StudyMeasurementStatus.Unavailable | StudyMeasurementStatus.Invalidated), None, None, Some _ =>
      True
  | _, _, _, _ => False
  end.

(** The rows that an episode is reported from. *)
Definition episode_reported db (e : StudyEpisodes.t) (treatment slots : Z)
  (obs : StudyEpisodeObservation.t) : Prop :=
  let k := StudyIdentifier.value (StudyEpisodeObservation.episode_id obs) in
  (same_id (StudyEpisodeObservation.protocol_revision_id obs)
     (StudyEpisodes.study_protocol_revision_id e)
   /\ same_id (StudyEpisodeObservation.world_revision_id obs)
        (StudyEpisodes.study_world_revision_id e)
   /\ same_id (StudyEpisodeObservation.measurement_revision_id obs)
        (StudyEpisodes.study_measurement_revision_id e)
   /\ same_id (StudyEpisodeObservation.institution_revision_id obs)
        (StudyEpisodes.study_institution_revision_id e)
   /\ Blake3Digest.as_bytes (StudyEpisodeObservation.randomization_digest obs)
      = StudyEpisodes.randomization_digest e)
  /\ (StudyMeasurementSlotCount.value (StudyEpisodeObservation.measurement_slot_count obs) = slots
      /\ StudyTreatment.as_i64 (StudyEpisodeObservation.treatment obs) = treatment
      /\ StudyEpisodeState.as_i64 (StudyEpisodeObservation.lifecycle_state obs)
         = StudyEpisodes.lifecycle_state e)
  /\ (inner (StudyEpisodeObservation.source_actor_obligations obs)
        = count_if (in_phase 1) (obligations_of db k)
      /\ inner (StudyEpisodeObservation.source_terminal_actor_obligations obs)
         = count_if (fun o => in_phase 1 o && is_terminal_row o) (obligations_of db k)
      /\ inner (StudyEpisodeObservation.successor_actor_obligations obs)
         = count_if (in_phase 2) (obligations_of db k)
      /\ inner (StudyEpisodeObservation.successor_terminal_actor_obligations obs)
         = count_if (fun o => in_phase 2 o && is_terminal_row o) (obligations_of db k)
      /\ inner (StudyEpisodeObservation.forum_messages obs) = count (messages_of db k))
  /\ (option_map StudyIdentifier.value (StudyEpisodeObservation.successor_population_snapshot_id obs)
        = option_map StudyEpisodeSuccessorPopulations.study_population_snapshot_id
            (successors (study_core db) !! k)
      /\ option_map inner (StudyEpisodeObservation.frozen_forum_head obs)
         = option_map StudyFrozenForumHeads.frozen_head_message_ordinal
             (frozen_heads (study_core db) !! k)
      /\ option_map Blake3Digest.as_bytes (StudyEpisodeObservation.ground_truth_reveal_digest obs)
         = option_map StudyGroundTruthReveals.reveal_digest (reveals (study_core db) !! k))
  /\ map slot_reported (StudyEpisodeObservation.measurements obs)
     = map (fun v => StudyMeasurementResults.measurement_slot v.2) (measurement_rows db k)
  /\ Forall2 (fun v m => shaped v.2 -> has_shape m) (measurement_rows db k)
       (StudyEpisodeObservation.measurements obs).

Lemma measurement_observation_ok row v :
  measurement_observation row = Ok v ->
  slot_reported v = StudyMeasurementResults.measurement_slot row /\ (shaped row -> has_shape v).
Proof.
  unfold measurement_observation. intros H. ok_steps H. apply Ok_inj in H as <-.
  split; [by apply slot_ok, stored_ok|].
  assert (StudyMeasurementStatus.as_i64 a0 = StudyMeasurementResults.result_status row) as Hst
    by by apply (table_sound (from_i64 := Study.measurement_status_from_i64)).
  unfold shaped, has_shape. rewrite <-Hst. cbn.
  repeat match goal with
  | H : transpose _ ?o = Ok _ |- _ =>
      apply transpose_ok in H; destruct o; [destruct H as (? & _ & ->)|subst]
  end; by destruct a0.
Qed.

Lemma transposed {A B} (f : A -> store_result B) (g : B -> A) o r :
  (forall a b, f a = Ok b -> g b = a) -> transpose f o = Ok r -> option_map g r = o.
Proof.
  intros Hf H%transpose_ok. destruct o as [a|]; [|by subst]. destruct H as (b & Hb & ->). cbn.
  by rewrite (Hf _ _ Hb).
Qed.

Lemma episode_observation_ok db id obs :
  episode_observation db id = Ok obs ->
  StudyEpisodeObservation.episode_id obs = id
  /\ exists e a v, episode_row db (StudyIdentifier.value id) = Some (e, a, v)
     /\ episode_reported db e (StudyTreatmentAssignments.treatment a)
          (StudyMeasurementRevisions.measurement_slot_count v) obs.
Proof.
  unfold episode_observation. intros H. ok_step H. destruct a as [[e a] v]. ok_steps H.
  apply Ok_inj in H as <-. split; [done|]. unfold ok_or in E.
  destruct (episode_row db _) as [[[e' a'] v']|]; [|done]. injection E as -> -> ->.
  exists e, a, v. split; [done|].
  split; [split_and!; first [by apply identifier_ok, stored_ok|by apply exact_digest_ok]|].
  split; [split_and!|split; [split_and!; by apply bigint_ok|split; [split_and!|split]]].
  - by apply slot_count_ok, stored_ok.
  - by apply (table_sound (from_i64 := Study.treatment_from_i64)).
  - by eapply (table_sound (from_i64 := Study.episode_state_from_i64)), stored_ok.
  - cbn [StudyEpisodeObservation.successor_population_snapshot_id]. eapply transposed; [|eassumption].
    intros x y Hy. by apply identifier_ok, stored_ok.
  - cbn [StudyEpisodeObservation.frozen_forum_head]. eapply transposed; [|eassumption].
    apply bigint_ok.
  - cbn [StudyEpisodeObservation.ground_truth_reveal_digest]. eapply transposed; [|eassumption].
    apply exact_digest_ok.
  - cbn [StudyEpisodeObservation.measurements StudyEpisodeObservation.episode_id].
    match goal with H : collect _ _ = Ok _ |- _ => apply collect_ok_iff in H; clear -H; rename H into Hall end.
    induction Hall as [|q x l l' Hx _ IH]; [done|]. cbn. f_equal; [|done].
    by apply measurement_observation_ok.
  - cbn [StudyEpisodeObservation.measurements StudyEpisodeObservation.episode_id].
    match goal with H : collect _ _ = Ok _ |- _ => apply collect_ok_iff in H; rename H into Hall end.
    eapply Forall2_impl; [exact Hall|]. intros q x Hx. by apply measurement_observation_ok.
Qed.

(** *** The messages of an episode *)

Lemma messages_of_one_thread db k i t :
  study_inv (study_core db) -> thread_of (study_core db) i t k ->
  messages_of db k = messages_of_thread db i.
Proof.
  intros I (Ht & f & Hf & Hk). pose proof (study_forum _ I) as F.
  assert (forums_of db k = [(StudyForumThreads.episode_forum_id t, f)]) as Hforums.
  { apply rows_where_one; [|done|by apply Z.eqb_eq].
    intros j j' g g' Hj Hj' Hp Hp'. bool_hyps. eapply (one_forum _ F); [done..|congruence]. }
  assert (threads_of db (StudyForumThreads.episode_forum_id t) = [(i, t)]) as Hthreads.
  { apply rows_where_one; [|done|by apply Z.eqb_eq].
    intros j j' u u' Hj Hj' Hp Hp'. bool_hyps. eapply (one_thread _ F); [done..|congruence]. }
  unfold messages_of. rewrite Hforums. cbn. rewrite Hthreads. cbn. rewrite app_nil_r, map_map.
  cbn. apply map_id.
Qed.

(** The messages of a thread are numbered 1 to its head. *)
Lemma thread_numbered db i t :
  study_inv (study_core db) -> threads (study_core db) !! i = Some t ->
  map (fun m => StudyForumMessages.thread_message_ordinal m.2) (messages_of_thread db i)
  ≡ₚ seqZ 1 (StudyForumThreads.head_message_ordinal t).
Proof.
  intros I Ht. pose proof (study_forum _ I) as F. apply NoDup_Permutation.
  - apply rows_where_numbers. intros j j' m m' Hm Hm' Hp Hp' E. bool_hyps.
    eapply (one_message _ F); [done..|congruence|done].
  - apply NoDup_seqZ.
  - intros n. rewrite list_elem_of_fmap, elem_of_seqZ. split.
    + intros ([j m] & -> & [Hm Hp]%elem_of_rows_where). bool_hyps. cbn.
      destruct (message_in_thread _ F _ _ Hm) as (u & Hu & Hr). rewrite Hp in Hu.
      assert (u = t) as -> by congruence. lia.
    + intros Hn. destruct (no_message_missing _ F _ _ n Ht) as (j & m & Hm & Hi & Ho); [lia|].
      exists (j, m). split; [done|]. apply elem_of_rows_where. split; [done|by apply Z.eqb_eq].
Qed.
Lemma messages_of_count db k i t :
  study_inv (study_core db) -> thread_of (study_core db) i t k ->
  count (messages_of db k) = StudyForumThreads.head_message_ordinal t.
Proof.
  intros I Ht. rewrite (messages_of_one_thread db k i t I Ht). destruct Ht as [Ht _].
  pose proof (Permutation_length (thread_numbered db i t I Ht)) as H.
  rewrite length_map, length_seqZ in H. unfold count.
  pose proof (head_is_count _ (study_forum _ I) _ _ Ht). lia.
Qed.

(** *** Closed episodes *)

(** Nothing of the episode is open or missing. *)
Definition fully_reported (obs : StudyEpisodeObservation.t) : Prop :=
  StudyEpisodeObservation.lifecycle_state obs = StudyEpisodeState.Closed
  /\ StudyEpisodeObservation.source_terminal_actor_obligations obs
     = StudyEpisodeObservation.source_actor_obligations obs
  /\ StudyEpisodeObservation.successor_terminal_actor_obligations obs
     = StudyEpisodeObservation.successor_actor_obligations obs
  /\ is_Some (StudyEpisodeObservation.successor_population_snapshot_id obs)
  /\ is_Some (StudyEpisodeObservation.frozen_forum_head obs)
  /\ is_Some (StudyEpisodeObservation.ground_truth_reveal_digest obs)
  /\ map slot_reported (StudyEpisodeObservation.measurements obs)
     = seqZ 1 (StudyMeasurementSlotCount.value
                 (StudyEpisodeObservation.measurement_slot_count obs))
  /\ Forall has_shape (StudyEpisodeObservation.measurements obs).

Lemma settled_counts db k (phase : Z) :
  settled (study_core db) k everyone ->
  count_if (fun o => in_phase phase o && is_terminal_row o) (obligations_of db k)
  = count_if (in_phase phase) (obligations_of db k).
Proof.
  intros Hs. unfold count_if. f_equal. apply filter_ext_in. intros [j o] Hin%list_elem_of_In.
  apply elem_of_rows_where in Hin as [Ho Hk]. bool_hyps.
  specialize (Hs j o Ho Hk eq_refl). unfold is_terminal in Hs. unfold is_terminal_row. cbn [snd].
  by rewrite Hs, andb_true_r.
Qed.

(** The results of a closed episode are numbered 1 to its slots. *)
Lemma measurements_numbered db k e :
  study_inv (study_core db) -> episodes (study_core db) !! k = Some e ->
  StudyEpisodes.lifecycle_state e = 7 ->
  exists slots, slots_of (study_core db) e = Some slots
  /\ 1 <= slots
  /\ map (fun v => StudyMeasurementResults.measurement_slot v.2) (measurement_rows db k)
     = seqZ 1 slots.
Proof.
  intros I He H7. pose proof (study_closing _ I) as K.
  pose proof (closed_measured _ K _ _ He H7) as Hslots. eexists. split; [done|]. split.
  { unfold slots_of in Hslots. destruct (measurements _ !! _) as [v|] eqn:Hv; [|done].
    pose proof (slots_positive _ K _ _ Hv) as Hpos. injection Hslots as E. rewrite E in Hpos.
    exact Hpos. }
  apply order_by_numbers, numbers_complete.
  - apply rows_where_numbers. intros i j v w Hv Hw Hp Hp' E. bool_hyps.
    eapply (one_result _ K); [done..|congruence|done].
  - apply Forall_fmap, Forall_forall. intros [i v] [Hv Hp]%elem_of_rows_where. cbn. bool_hyps.
    destruct (measured _ K _ _ Hv) as (e' & slots & He' & Hs & Hr & _). rewrite Hp in He'.
    assert (e' = e) as -> by congruence. rewrite Hslots in Hs. apply (inj Some) in Hs.
    rewrite <-Hs in Hr. exact Hr.
  - rewrite length_map.
    apply (count_where_rows (measures k) (StudyDatabase.study_measurement_results db)).
Qed.

Lemma some_mapped {A B} (f : A -> B) o : is_Some (option_map f o) -> is_Some o.
Proof. destruct o; [by eexists|by intros [? ?]]. Qed.

Lemma closed_episode_reported db id obs :
  study_inv (study_core db) -> episode_observation db id = Ok obs ->
  StudyEpisodeObservation.lifecycle_state obs = StudyEpisodeState.Closed -> fully_reported obs.
Proof.
  intros I (Hid & e & a & v & Hrow & Hrep)%episode_observation_ok Hclosed.
  apply episode_row_ok in Hrow as (He & Ht & Hv).
  destruct Hrep as (_ & (Hslots & _ & Hstate) & (H1 & H2 & H3 & H4 & _) & (Hs & Hf & Hr) & Hm & Hshape).
  rewrite Hid in *. rewrite Hclosed in Hstate. cbn in Hstate. symmetry in Hstate.
  pose proof (closed_settled _ (study_closing _ I) _ _ He Hstate) as Hset.
  destruct (measurements_numbered db _ e I He Hstate) as (slots & Hsl & H1slot & Hnum).
  unfold slots_of in Hsl. rewrite Hv in Hsl. injection Hsl as <-.
  rewrite !settled_counts in * by done.
  split_and!; [done|apply (inj inner); congruence..| | | |by rewrite Hm, Hnum, Hslots|].
  - apply (some_mapped StudyIdentifier.value). rewrite Hs.
    destruct (late_is_replaced _ (study_correction _ I) _ _ He) as [s ->]; [lia|by eexists].
  - apply (some_mapped inner). rewrite Hf.
    destruct (late_is_frozen _ (study_isolation _ I) _ _ He) as [s ->]; [lia|by eexists].
  - apply (some_mapped Blake3Digest.as_bytes). rewrite Hr.
    assert (1 ∈ map (fun v => StudyMeasurementResults.measurement_slot v.2)
              (measurement_rows db (StudyIdentifier.value id))) as Hin
      by (rewrite Hnum; apply elem_of_seqZ; lia).
    apply list_elem_of_fmap in Hin as ([i w] & _ & Hin). unfold measurement_rows in Hin.
    rewrite order_by_perm in Hin. apply elem_of_rows_where in Hin as [Hw Hk]. bool_hyps.
    destruct (measured _ (study_closing _ I) _ _ Hw) as (_ & _ & _ & _ & _ & [x Hx]).
    rewrite Hk in Hx. rewrite Hx. by eexists.
  - apply Forall_forall. intros m Hin.
    destruct (Forall2_elem_of_r _ _ _ _ Hshape Hin) as ([i w] & Hw & Hx). apply Hx.
    unfold measurement_rows in Hw. rewrite order_by_perm in Hw.
    apply elem_of_rows_where in Hw as [Hw _]. by eapply (result_shape _ (study_closing _ I)).
Qed.

(** ** Pairs *)

Lemma episode_treatment db id obs treatment :
  study_inv (study_core db) -> episode_observation db id = Ok obs ->
  has_treatment (study_core db) (StudyIdentifier.value id) (StudyTreatment.as_i64 treatment) ->
  StudyEpisodeObservation.treatment obs = treatment.
Proof.
  intros I (_ & e & a & v & Hrow & Hrep)%episode_observation_ok Ht.
  apply episode_row_ok in Hrow as (_ & Ha & _). destruct Hrep as (_ & (_ & Hobs & _) & _).
  apply (inj StudyTreatment.as_i64). rewrite Hobs. by eapply one_treatment; [apply (study_isolation _ I)|..].
Qed.

Lemma uncorrupt_episode db id : uncorrupt (episode_observation db id).
Proof.
  unfold episode_observation. apply uncorrupt_bind; [by unfold ok_or; destruct (episode_row _ _)|].
  intros [[e a] v] _. cbv beta iota zeta. solve_uncorrupt.
  unfold measurement_observation. solve_uncorrupt.
Qed.

(** The arms of a pair are reported with their treatments. *)
Lemma pair_observation_ok db id obs :
  pair_observation db id = Ok obs -> exists p retained reset,
  pairs (study_core db) !! StudyIdentifier.value id = Some p
  /\ StudyIdentifier.value retained = StudyPairs.retained_episode_id p
  /\ StudyIdentifier.value reset = StudyPairs.reset_episode_id p
  /\ episode_observation db retained = Ok (StudyPairObservation.retained obs)
  /\ episode_observation db reset = Ok (StudyPairObservation.reset obs)
  /\ StudyPairObservation.pair_id obs = id.
Proof.
  unfold pair_observation. intros H. ok_steps H. destruct (_ || _) in H; [done|].
  apply Ok_inj in H as <-. unfold ok_or in E.
  destruct (rows (StudyDatabase.study_pairs db) !! _) as [p|] eqn:Hp; [|done]. injection E as ->.
  exists a, a0, a2. split_and!; try done; by apply identifier_ok, stored_ok.
Qed.
Lemma uncorrupt_pair db id : study_inv (study_core db) -> uncorrupt (pair_observation db id).
Proof.
  intros I. unfold pair_observation.
  apply uncorrupt_bind; [by unfold ok_or; destruct (_ !! _)|intros p Hp].
  apply uncorrupt_bind; [apply uncorrupt_stored|intros retained_id Hretained].
  apply uncorrupt_bind; [apply uncorrupt_episode|intros retained Hr].
  apply uncorrupt_bind; [apply uncorrupt_stored|intros reset_id Hreset].
  apply uncorrupt_bind; [apply uncorrupt_episode|intros reset Hs].
  unfold ok_or in Hp. destruct (rows _ !! _) as [p'|] eqn:Hrow; [|done]. injection Hp as ->.
  destruct (pair_matched _ (study_correction _ I) _ _ Hrow) as (e & e' & _ & _ & H1 & H2 & _).
  apply stored_ok, identifier_ok in Hretained, Hreset. rewrite <-Hretained in H1.
  rewrite <-Hreset in H2.
  rewrite (episode_treatment _ _ _ StudyTreatment.Retained I Hr H1).
  rewrite (episode_treatment _ _ _ StudyTreatment.Reset I Hs H2). apply uncorrupt_ok.
Qed.

(** Two reports of one protocol, world, measurement and institution, drawn alike. *)
Definition same_contract (x y : StudyEpisodeObservation.t) : Prop :=
  StudyEpisodeObservation.protocol_revision_id x = StudyEpisodeObservation.protocol_revision_id y
  /\ StudyEpisodeObservation.world_revision_id x = StudyEpisodeObservation.world_revision_id y
  /\ StudyEpisodeObservation.measurement_revision_id x
     = StudyEpisodeObservation.measurement_revision_id y
  /\ StudyEpisodeObservation.measurement_slot_count x
     = StudyEpisodeObservation.measurement_slot_count y
  /\ StudyEpisodeObservation.institution_revision_id x
     = StudyEpisodeObservation.institution_revision_id y
  /\ StudyEpisodeObservation.randomization_digest x
     = StudyEpisodeObservation.randomization_digest y.

Lemma alike_reported db x y k l e e' :
  episode_observation db k = Ok x -> episode_observation db l = Ok y ->
  episodes (study_core db) !! StudyIdentifier.value k = Some e ->
  episodes (study_core db) !! StudyIdentifier.value l = Some e' -> alike e e' ->
  same_contract x y.
Proof.
  intros (_ & e1 & a1 & v1 & H1 & Hx)%episode_observation_ok
    (_ & e2 & a2 & v2 & H2 & Hy)%episode_observation_ok He He' (A1 & A2 & A3 & A4 & A5).
  apply episode_row_ok in H1 as (H1 & _ & V1), H2 as (H2 & _ & V2).
  assert (e1 = e) as -> by congruence. assert (e2 = e') as -> by congruence.
  rewrite <-A3 in V2. assert (v2 = v1) as -> by congruence.
  destruct Hx as ((X1 & X2 & X3 & X4 & X5) & (X6 & _) & _).
  destruct Hy as ((Y1 & Y2 & Y3 & Y4 & Y5) & (Y6 & _) & _). unfold same_id in *.
  split_and!; apply (inj inner); try congruence.
  all: unfold StudyIdentifier.value, Blake3Digest.as_bytes, StudyMeasurementSlotCount.value in *;
    congruence.
Qed.

(** A report of a pair that is fit to be compared, drawn with the digest. *)
Definition pair_reported (id : StudyPairId) (digest : Blake3Digest.t) (p : StudyPairObservation.t) :
  Prop :=
  let retained := StudyPairObservation.retained p in
  let reset := StudyPairObservation.reset p in
  StudyPairObservation.pair_id p = id
  /\ StudyEpisodeObservation.treatment retained = StudyTreatment.Retained
  /\ StudyEpisodeObservation.treatment reset = StudyTreatment.Reset
  /\ same_contract retained reset
  /\ StudyEpisodeObservation.randomization_digest retained = digest
  /\ fully_reported retained /\ fully_reported reset.

Lemma closed_report db k x e :
  study_inv (study_core db) -> episode_observation db k = Ok x ->
  episodes (study_core db) !! StudyIdentifier.value k = Some e ->
  StudyEpisodes.lifecycle_state e = 7 ->
  fully_reported x
  /\ Blake3Digest.as_bytes (StudyEpisodeObservation.randomization_digest x)
     = StudyEpisodes.randomization_digest e.
Proof.
  intros I Hx He H7.
  destruct (episode_observation_ok _ _ _ Hx) as (_ & d & a & v & Hrow & Hr1 & (_ & _ & Hs) & _).
  apply episode_row_ok in Hrow as (Hd & _). assert (d = e) as -> by congruence.
  split; [|apply Hr1]. eapply closed_episode_reported; [done|exact Hx|].
  apply (inj StudyEpisodeState.as_i64). by rewrite Hs.
Qed.

Lemma completed_pairs_reported db id run q p :
  study_inv (study_core db) -> run_observation db id = Ok run ->
  StudyRunObservation.lifecycle_state run = StudyRunLifecycleState.Completed ->
  q ∈ StudyRunObservation.pairs run ->
  let pair_id := StudyRunPairRegistrationObservation.pair_id q in
  pair_observation db pair_id = Ok p ->
  pair_reported pair_id (StudyRunPairRegistrationObservation.randomization_digest q) p.
Proof.
  intros I Hrun Hdone Hq pair_id Hp.
  apply pair_observation_ok in Hp as (row & k & l & Hrow & Hk & Hl & Hx & Hy & Hid).
  destruct (run_observation_ok _ _ _ Hrun) as (_ & r & Hr & Hrep & Hall).
  destruct (Forall2_elem_of_r _ _ _ _ Hall Hq) as ([i reg] & Hin & (_ & Hpair & Hdraw)).
  apply registrations_of_rows in Hin as [Hreg Hof]. cbn in Hpair, Hdraw.
  destruct (run_pair_ok _ (study_run _ I) _ _ Hreg) as (_ & _ & _ & Hdrawn).
  assert (closed_pair (study_core db) (StudyRunPairs.study_pair_id reg)) as Hclosed.
  { eapply (run_completed _ (study_run _ I)); [done| |done|done].
    destruct Hrep as (_ & _ & _ & _ & _ & Hs). by rewrite <-Hs, Hdone. }
  unfold pair_id in Hrow. rewrite Hpair in Hrow.
  destruct (Hclosed _ Hrow) as [(e & He & H7) (e' & He' & H7')].
  destruct (pair_matched _ (study_correction _ I) _ _ Hrow) as (e1 & e2 & H1 & H2 & T1 & T2 & Ha).
  assert (e1 = e) as -> by congruence. assert (e2 = e') as -> by congruence.
  rewrite <-Hk in He, T1. rewrite <-Hl in He', T2.
  destruct (closed_report _ _ _ _ I Hx He H7) as [Hfull Hdigest].
  destruct (closed_report _ _ _ _ I Hy He' H7') as [Hfull' _].
  split_and!; [done|by eapply episode_treatment|by eapply episode_treatment
              |by eapply alike_reported| |done|done].
  apply (inj inner). unfold Blake3Digest.as_bytes in Hdraw, Hdigest. rewrite Hdraw, Hdigest.
  destruct Hdrawn as (p' & d & Hp' & Hd & <-). assert (p' = row) as -> by congruence.
  rewrite <-Hk in Hd. by assert (d = e) as -> by congruence.
Qed.

(** C10: the pairs of a run that reports itself completed are fit to be compared: the report of
    such a pair never finds its treatments crossed, and shows one retained and one reset arm
    of the same revisions, drawn with the digest of the registration, both closed with every
    actor done, frozen, replaced and revealed, and with one result per measurement slot, in
    order, each a value or else a reason. *)
Theorem completed_run_reports_closed_pairs db id run q :
  study_reachable db -> run_observation db id = Ok run ->
  StudyRunObservation.lifecycle_state run = StudyRunLifecycleState.Completed ->
  q ∈ StudyRunObservation.pairs run ->
  let pair_id := StudyRunPairRegistrationObservation.pair_id q in
  (forall what, pair_observation db pair_id <> Err (StoreError.LedgerCorruption what))
  /\ forall p, pair_observation db pair_id = Ok p ->
     pair_reported pair_id (StudyRunPairRegistrationObservation.randomization_digest q) p.
Proof.
  intros I%reachable_study_inv Hrun Hdone Hq pair_id. split; [by apply uncorrupt_pair|].
  intros p. by apply (completed_pairs_reported db id run).
Qed.

(** ** The public Forum *)

(** The row that a message is reported from; its author is an obligation of the thread's
    episode, or the service. *)
Definition message_reported db (k : Z) (m : StudyForumMessages.t)
  (msg : StudyPostActorPublicForumMessage.t) : Prop :=
  StudyIdentifier.value (StudyPostActorPublicForumMessage.message_id msg) = k
  /\ StudyIdentifier.value (StudyPostActorPublicForumMessage.thread_id msg)
     = StudyForumMessages.forum_thread_id m
  /\ inner (StudyPostActorPublicForumMessage.thread_message_ordinal msg)
     = StudyForumMessages.thread_message_ordinal m
  /\ inner (StudyPostActorPublicForumMessage.body msg) = StudyForumMessages.body_utf8 m
  /\ Blake3Digest.of_bytes (bytes (StudyForumMessages.body_utf8 m))
     = StudyPostActorPublicForumMessage.body_digest msg
  /\ match StudyPostActorPublicForumMessage.author msg with
     | StudyForumPublicAuthor.Actor obligation _ phase _ =>
         is_Some (StudyForumMessages.author_occurrence_id m)
         /\ exists o, author_obligation db m = Some (StudyIdentifier.value obligation, o)
              /\ StudyActorObligations.population_phase o = StudyPopulationPhase.as_i64 phase
     | StudyForumPublicAuthor.SocietyService => StudyForumMessages.author_occurrence_id m = None
     end.

Lemma public_author_ok db m author :
  public_author db m = Ok author ->
  match author with
  | StudyForumPublicAuthor.Actor obligation _ phase _ =>
      is_Some (StudyForumMessages.author_occurrence_id m)
      /\ exists o, author_obligation db m = Some (StudyIdentifier.value obligation, o)
           /\ StudyActorObligations.population_phase o = StudyPopulationPhase.as_i64 phase
  | StudyForumPublicAuthor.SocietyService => StudyForumMessages.author_occurrence_id m = None
  end.
Proof.
  unfold public_author. destruct (StudyForumMessages.service_origin m) as [|[]|]; try done;
    destruct (StudyForumMessages.author_occurrence_id m) as [j|]; try done;
    destruct (author_obligation db m) as [[k o]|]; try done.
  - intros H. ok_steps H. apply Ok_inj in H as <-. split; [by eexists|]. exists o.
    apply stored_ok, identifier_ok in E. rewrite E. split; [done|]. symmetry.
    by apply (table_sound (from_i64 := Study.population_phase_from_stored)).
  - intros H. by apply Ok_inj in H as <-.
Qed.

Lemma public_message_ok db k m msg :
  public_message db k m = Ok msg -> message_reported db k m msg.
Proof.
  unfold public_message. intros H. ok_steps H.
  destruct (bool_decide _) eqn:Hd in H; [|done]. cbn [negb] in H. ok_steps H.
  apply Ok_inj in H as <-. apply bool_decide_eq_true in Hd. apply stored_ok in E0.
  assert (inner a0 = StudyForumMessages.body_utf8 m) as Hbody.
  { unfold ForumMessageBody.parse, ok_or in E0. destruct (checked _) eqn:Ec; [|done].
    injection E0 as <-. by apply checked_some in Ec. }
  split_and!; cbn.
  - by apply identifier_ok, stored_ok.
  - by apply identifier_ok, stored_ok.
  - by apply bigint_ok.
  - done.
  - by rewrite <-Hbody.
  - by apply public_author_ok.
Qed.

Lemma public_messages_ok db id n l out :
  0 <= n <= POST_ACTOR_PUBLIC_FORUM_MESSAGE_LIMIT -> public_messages db id n l = Ok out ->
  n + count l <= POST_ACTOR_PUBLIC_FORUM_MESSAGE_LIMIT
  /\ Forall2 (fun km msg => message_reported db km.1 km.2 msg) l out.
Proof.
  revert n out. induction l as [|[k m] l IH]; intros n out Hn; cbn [public_messages].
  - intros [= <-]. split; [unfold count; cbn; lia|constructor].
  - destruct (Z.eqb_spec n POST_ACTOR_PUBLIC_FORUM_MESSAGE_LIMIT) as [|Hne]; [done|].
    intros H. ok_steps H. injection H as <-. apply IH in E0 as [Hle Hall]; [|lia].
    split; [unfold count in *; cbn [length]; lia|]. constructor; [by apply public_message_ok|done].
Qed.

(** Rows of one thread come in the order of their ordinals. *)
Lemma by_two_sorted {A} (first second : A -> Z) l x :
  Forall (fun a => first a = x) l ->
  StronglySorted Z.le (map second (order_by_two first second l)).
Proof.
  intros Hx. assert (Transitive (by_keys first second)) by (intros a b d; unfold by_keys; lia).
  assert (Total (by_keys first second)) by (intros a b; unfold by_keys; lia).
  pose proof (StronglySorted_merge_sort (by_keys first second) l) as Hs.
  fold (order_by_two first second l) in Hs.
  rewrite <-(merge_sort_Permutation (by_keys first second) l) in Hx.
  fold (order_by_two first second l) in Hx.
  induction Hs as [|a l' _ IH Ha]; [constructor|]. apply Forall_cons in Hx as [Hax Hx]. cbn.
  constructor; [by apply IH|]. apply Forall_fmap. rewrite Forall_forall in Ha, Hx.
  apply Forall_forall. intros b Hb. specialize (Ha b Hb). specialize (Hx b Hb).
  unfold by_keys in Ha. cbn. lia.
Qed.

(** The public Forum of an episode is its whole thread, in order: whenever the query
    answers, it lists every message from 1 to the head with its body, which is what its digest
    says; the actors it names are of the episode, those of the source population up to the
    frozen head and those of the successors after it. *)
Theorem public_forum_is_the_thread db id obs i t :
  study_reachable db -> post_actor_public_forum db id = Ok obs ->
  let c := study_core db in
  thread_of c i t (StudyIdentifier.value id) ->
  map (fun msg => inner (StudyPostActorPublicForumMessage.thread_message_ordinal msg))
    (StudyPostActorPublicForumObservation.messages obs)
  = seqZ 1 (StudyForumThreads.head_message_ordinal t)
  /\ StudyForumThreads.head_message_ordinal t <= POST_ACTOR_PUBLIC_FORUM_MESSAGE_LIMIT
  /\ forall msg, msg ∈ StudyPostActorPublicForumObservation.messages obs ->
       exists k m, messages c !! k = Some m /\ StudyForumMessages.forum_thread_id m = i
       /\ message_reported db k m msg
       /\ match StudyPostActorPublicForumMessage.author msg with
          | StudyForumPublicAuthor.Actor obligation _ phase _ =>
              exists o, obligations c !! StudyIdentifier.value obligation = Some o
              /\ StudyActorObligations.study_episode_id o = StudyIdentifier.value id
              /\ forall h, frozen_heads c !! StudyIdentifier.value id = Some h ->
                   (phase = StudyPopulationPhase.Source
                    <-> StudyForumMessages.thread_message_ordinal m
                        <= StudyFrozenForumHeads.frozen_head_message_ordinal h)
          | StudyForumPublicAuthor.SocietyService => True
          end.
Proof.
  intros I%reachable_study_inv H c Ht. unfold post_actor_public_forum in H.
  destruct (is_null _); [done|]. destruct (_ || _) in H; [done|]. ok_steps H.
  apply Ok_inj in H as <-. cbn [StudyPostActorPublicForumObservation.messages].
  apply public_messages_ok in E as [Hle Hall]; [|done]. unfold public_rows in Hle, Hall.
  rewrite (messages_of_one_thread db _ i t I Ht) in Hle, Hall.
  set (l := order_by_two _ _ _) in Hle, Hall.
  assert (l ≡ₚ messages_of_thread db i) as Hperm by apply merge_sort_Permutation.
  assert (take (Z.to_nat (POST_ACTOR_PUBLIC_FORUM_MESSAGE_LIMIT + 1)) l = l) as Htake.
  { apply take_ge. destruct (Nat.le_gt_cases (length l)
      (Z.to_nat (POST_ACTOR_PUBLIC_FORUM_MESSAGE_LIMIT + 1))) as [|Hgt]; [done|exfalso].
    unfold count in Hle. rewrite length_take_le in Hle by lia. cbn in Hle. lia. }
  rewrite Htake in Hle, Hall. destruct Ht as [Hi Hf].
  pose proof (thread_numbered db i t I Hi) as Hnum.
  assert (map (fun m => StudyForumMessages.thread_message_ordinal m.2) l
          = seqZ 1 (StudyForumThreads.head_message_ordinal t)) as Hl.
  { apply sorted_unique; [|apply seqZ_sorted|by rewrite <-Hnum, Hperm].
    apply by_two_sorted with (x := i). apply Forall_forall.
    intros [k m] [_ Hk]%elem_of_rows_where. by apply Z.eqb_eq in Hk. }
  split_and!.
  - rewrite <-Hl. clear -Hall. induction Hall as [|[k m] msg l l' Hm _ IH]; [done|]. cbn.
    rewrite IH. f_equal. apply Hm.
  - apply (f_equal length) in Hl. rewrite length_map, length_seqZ in Hl. unfold count in Hle. lia.
  - intros msg Hin. destruct (Forall2_elem_of_r _ _ _ _ Hall Hin) as ([k m] & Hm & Hrep).
    cbn in Hrep. rewrite Hperm in Hm. apply elem_of_rows_where in Hm as [Hm Hk].
    apply Z.eqb_eq in Hk. exists k, m. split_and!; [done|done|done|].
    destruct Hrep as (_ & _ & _ & _ & _ & Hauthor).
    destruct (StudyPostActorPublicForumMessage.author msg) as [obligation ? phase ?|]; [|done].
    destruct Hauthor as ([j Hj] & o & Ho & Hphase).
    destruct (message_placed _ (study_isolation _ I) _ _ Hm) as (ep & u & Hu & Hplaced).
    rewrite Hj in Hplaced. destruct Hplaced as (y & o' & Hy & Ho' & Hep & Hcase).
    assert (o' = o /\ StudyActorOccurrences.study_actor_obligation_id y
                      = StudyIdentifier.value obligation) as [-> Hob].
    { unfold author_obligation, by_id_opt, by_id in Ho. rewrite Hj in Ho.
      unfold c in *. cbn in Hy, Ho'. rewrite Hy in Ho. cbn in Ho. rewrite Ho' in Ho. cbn in Ho.
      by injection Ho as -> ->. }
    exists o. rewrite <-Hob. split; [done|].
    assert (ep = StudyIdentifier.value id) as ->.
    { destruct Hu as (Hu & f & Hf1 & <-), Hf as (g & Hg & <-). rewrite Hk in Hu.
      assert (u = t) as -> by (unfold c in *; congruence). unfold c in *. congruence. }
    split; [done|]. intros h Hh. destruct Hcase as [[Hp Hb]|(Hp & h' & Hh' & Hlt)].
    + specialize (Hb h Hh). rewrite Hphase in Hp. destruct phase; [by split|done].
    + assert (h' = h) as -> by (unfold c in *; congruence). rewrite Hphase in Hp.
      destruct phase; [done|]. split; [done|lia].
Qed.
End Reports.

(** ** Witnesses *)

Lemma completed_run_reported : exists obs,
  run_observation (after completed_study) (sid 1) = Ok obs
  /\ StudyRunObservation.lifecycle_state obs = StudyRunLifecycleState.Completed
  /\ exists q, q ∈ StudyRunObservation.pairs obs
     /\ StudyRunPairRegistrationObservation.pair_id q = sid 1.
Proof.
  assert (match run_observation (after completed_study) (sid 1) with
          | Ok obs => bool_decide (StudyRunObservation.lifecycle_state obs
                                   = StudyRunLifecycleState.Completed)
              && match StudyRunObservation.pairs obs with
                 | [q] => bool_decide (StudyRunPairRegistrationObservation.pair_id q = sid 1)
                 | _ => false
                 end
          | Err _ => false
          end = true) as H by computed.
  destruct (run_observation _ _) as [obs|]; [|discriminate]. apply andb_true_iff in H as [H1 H2].
  exists obs. split; [reflexivity|]. split; [by apply bool_decide_eq_true in H1|].
  destruct (StudyRunObservation.pairs obs) as [|q [|? ?]]; [discriminate| |discriminate].
  exists q. split; [left|by apply bool_decide_eq_true in H2].
Qed.

Lemma run_report_is_the_registry_witness : exists obs,
  run_observation (after completed_study) (sid 1) = Ok obs
  /\ map ordinal_reported (StudyRunObservation.pairs obs)
     = seqZ 1 (StudyRunPairCount.value (StudyRunObservation.pair_count obs)).
Proof.
  destruct completed_run_reported as (obs & Hobs & Hdone & _). exists obs. split; [exact Hobs|].
  assert (study_reachable (after completed_study)) as Hr by sampled.
  destruct (run_report_is_the_registry _ (sid 1) Hr) as [_ H].
  apply H in Hobs as (_ & _ & _ & Hn). apply Hn. rewrite Hdone. discriminate.
Defined.

Lemma completed_run_reports_closed_pairs_witness : exists p,
  pair_observation (after completed_study) (sid 1) = Ok p
  /\ fully_reported (StudyPairObservation.retained p)
  /\ same_contract (StudyPairObservation.retained p) (StudyPairObservation.reset p).
Proof.
  destruct completed_run_reported as (obs & Hobs & Hdone & q & Hq & Hid).
  assert (study_reachable (after completed_study)) as Hr by sampled.
  destruct (completed_run_reports_closed_pairs _ _ _ _ Hr Hobs Hdone Hq) as [_ H].
  rewrite Hid in H.
  assert (match pair_observation (after completed_study) (sid 1) with
          | Ok _ => true | Err _ => false end = true) as Hok by computed.
  destruct (pair_observation (after completed_study) (sid 1)) as [p|]; [|discriminate].
  exists p. split; [reflexivity|].
  destruct (H p eq_refl) as (_ & _ & _ & Hsame & _ & Hfull & _). split; [exact Hfull|exact Hsame].
Defined.

Lemma public_forum_is_the_thread_witness : exists obs,
  post_actor_public_forum (after completed_study) (sid 1) = Ok obs
  /\ map (fun msg => inner (StudyPostActorPublicForumMessage.thread_message_ordinal msg))
       (StudyPostActorPublicForumObservation.messages obs) = [1; 2; 3].
Proof.
  assert (match post_actor_public_forum (after completed_study) (sid 1) with
          | Ok _ => true | Err _ => false end = true) as Hok by computed.
  destruct (post_actor_public_forum (after completed_study) (sid 1)) as [obs|] eqn:Hobs;
    [|discriminate].
  exists obs. split; [reflexivity|].
  assert (study_reachable (after completed_study)) as Hr by sampled.
  assert (exists t, thread_of completed_core 1 t 1 /\ StudyForumThreads.head_message_ordinal t = 3)
    as (t & Ht & Hh).
  { eexists. split; [split; [computed|eexists; split; computed]|computed]. }
  destruct (public_forum_is_the_thread _ _ _ 1 t Hr Hobs Ht) as [H _].
  rewrite H, Hh. reflexivity.
Defined.
