(* ===== verification/CustodyTables.v ===== *)
(** * The tables of native custody

    [schema/postgres/kernel.sql]: one module per table of the custody of native children
    that the ledger's own transitions do not read, as in [StoreTables], and the database of
    a custody transition: these tables beside those of the ledger.  The tables of the ledger
    that custody writes are projections of that database. *)

From S2P Require Import Prelude.
From S2P Require Import Machine.
From S2P Require Import SqlTable.
From S2P Require Import StoreTables.
From S2P Require Import StudyTables.

(** ** Sessions and admissions *)

Module PiChildSessions.
Record t := new {
  pi_session_identity : string;
  spawn_nonce : string;
  created_by_command_id : Z;
  ready_by_command_id : option Z;
}.
#[global] Instance fields : Fields t := fun r =>
  new (pi_session_identity r) (spawn_nonce r) (created_by_command_id r)
    (ready_by_command_id r).
#[global] Instance valid : Constraints t := fun m r =>
  no_other m (fun o => (pi_session_identity r =? pi_session_identity o)%string)
  && no_other m (fun o => (spawn_nonce r =? spawn_nonce o)%string).
End PiChildSessions.

Module NativeChildSpawnInvalidations.
Record t := new {
  reason : Z;
  invalidated_by_command_id : Z;
}.
#[global] Instance fields : Fields t := fun r => new (reason r) (invalidated_by_command_id r).
#[global] Instance valid : Constraints t := fun _ r => one_of [1; 2; 3; 4] (reason r).
End NativeChildSpawnInvalidations.

Module ExecutionProfileQualifications.
Record t := new {
  operating_cycle_id : Z;
  execution_profile_id : Z;
  native_child_spawn_admission_id : Z;
  native_child_id : Z;
  runtime_identity_digest : list byte;
  runtime_identity_content_object_id : Z;
  adapter_report_digest : list byte;
  adapter_report_content_object_id : Z;
  probe_request_digest : list byte;
  probe_response_digest : list byte;
  probe_response_content_object_id : Z;
  qualified_by_command_id : Z;
}.
#[global] Instance fields : Fields t := fun r =>
  new (operating_cycle_id r) (execution_profile_id r) (native_child_spawn_admission_id r)
    (native_child_id r) (runtime_identity_digest r) (runtime_identity_content_object_id r)
    (adapter_report_digest r) (adapter_report_content_object_id r) (probe_request_digest r)
    (probe_response_digest r) (probe_response_content_object_id r) (qualified_by_command_id r).
#[global] Instance valid : Constraints t := fun m r =>
  (length (runtime_identity_digest r) =? 32)%nat
  && (length (adapter_report_digest r) =? 32)%nat
  && (length (probe_request_digest r) =? 32)%nat
  && (length (probe_response_digest r) =? 32)%nat
  && no_other m (fun o => (execution_profile_id r =? execution_profile_id o))
  && no_other m
     (fun o => (native_child_spawn_admission_id r =? native_child_spawn_admission_id o))
  && no_other m (fun o => (native_child_id r =? native_child_id o)).
End ExecutionProfileQualifications.

(** ** Receipts of a child *)

Module NativeChildLivenessObservations.
Record t := new {
  native_child_id : Z;
  liveness : Z;
  observed_by_command_id : Z;
}.
#[global] Instance fields : Fields t := fun r =>
  new (native_child_id r) (liveness r) (observed_by_command_id r).
#[global] Instance valid : Constraints t := fun _ r => one_of [1; 2; 3] (liveness r).
End NativeChildLivenessObservations.

Module ProcessSignalReceipts.
Record t := new {
  native_child_id : Z;
  signal_action : Z;
  delivery : Z;
  observed_liveness : Z;
  cause_kind : Z;
  cancellation_propagation_id : option Z;
  recorded_by_command_id : Z;
}.
#[global] Instance fields : Fields t := fun r =>
  new (native_child_id r) (signal_action r) (delivery r) (observed_liveness r) (cause_kind r)
    (cancellation_propagation_id r) (recorded_by_command_id r).
#[global] Instance valid : Constraints t := fun _ r =>
  one_of [1; 2; 3] (signal_action r)
  && one_of [1; 2; 3; 4] (delivery r)
  && one_of [1; 2; 3] (observed_liveness r)
  && one_of [1; 2] (cause_kind r)
  && ((one_of [2; 3] (delivery r) && (observed_liveness r =? 2)) || ((delivery r =? 4)
     && (observed_liveness r =? 3)) || (delivery r =? 1))
  && (((cause_kind r =? 1) && not_null (cancellation_propagation_id r)) || ((cause_kind r =? 2)
     && is_null (cancellation_propagation_id r))).
End ProcessSignalReceipts.

Module NativeChildReapReceipts.
Record t := new {
  native_child_id : Z;
  wait_status_kind : Z;
  status_value : option Z;
  group_liveness_before_cleanup : Z;
  group_liveness_after_cleanup : Z;
  reaped_by_command_id : Z;
}.
#[global] Instance fields : Fields t := fun r =>
  new (native_child_id r) (wait_status_kind r) (status_value r)
    (group_liveness_before_cleanup r) (group_liveness_after_cleanup r)
    (reaped_by_command_id r).
#[global] Instance valid : Constraints t := fun m r =>
  one_of [1; 2; 3] (wait_status_kind r)
  && one_of [1; 2; 3] (group_liveness_before_cleanup r)
  && one_of [1; 2; 3] (group_liveness_after_cleanup r)
  && passes (or3 (and3 (and3 (Some (one_of [1; 2] (wait_status_kind r)))
     (Some (not_null (status_value r)))) (option_map (fun v => (0 <=? v)) (status_value r)))
     (Some ((wait_status_kind r =? 3) && is_null (status_value r))))
  && no_other m (fun o => (native_child_id r =? native_child_id o)).
End NativeChildReapReceipts.

Module PiAbortControlReceipts.
Record t := new {
  native_child_id : Z;
  cancellation_propagation_id : Z;
  correlation_identity : string;
  abort_command_digest : list byte;
  physical_write_outcome : Z;
  recorded_by_command_id : Z;
}.
#[global] Instance fields : Fields t := fun r =>
  new (native_child_id r) (cancellation_propagation_id r) (correlation_identity r)
    (abort_command_digest r) (physical_write_outcome r) (recorded_by_command_id r).
#[global] Instance valid : Constraints t := fun m r =>
  (length (abort_command_digest r) =? 32)%nat
  && one_of [1; 2; 3; 4] (physical_write_outcome r)
  && no_other m (fun o => (native_child_id r =? native_child_id o)
     && (cancellation_propagation_id r =? cancellation_propagation_id o))
  && no_other m (fun o => (correlation_identity r =? correlation_identity o)%string).
End PiAbortControlReceipts.

Module NativeChildStreamSeals.
Record t := new {
  native_child_id : Z;
  stream_kind : Z;
  full_observed_digest : list byte;
  retained_content_object_id : Z;
  completeness : Z;
  sealed_by_command_id : Z;
}.
#[global] Instance fields : Fields t := fun r =>
  new (native_child_id r) (stream_kind r) (full_observed_digest r)
    (retained_content_object_id r) (completeness r) (sealed_by_command_id r).
#[global] Instance valid : Constraints t := fun m r =>
  one_of [1; 2; 3; 4] (stream_kind r)
  && (length (full_observed_digest r) =? 32)%nat
  && one_of [1; 2; 3] (completeness r)
  && no_other m (fun o => (native_child_id r =? native_child_id o)
     && (stream_kind r =? stream_kind o)).
End NativeChildStreamSeals.

(** ** Cancellation *)

Module CancellationPropagationTargets.
Record t := new {
  cancellation_propagation_id : Z;
  actor_attempt_id : option Z;
  root_authority_office_session_id : option Z;
  deterministic_experiment_id : option Z;
  native_child_id : option Z;
  target_disposition : Z;
}.
#[global] Instance fields : Fields t := fun r =>
  new (cancellation_propagation_id r) (actor_attempt_id r)
    (root_authority_office_session_id r) (deterministic_experiment_id r) (native_child_id r)
    (target_disposition r).
#[global] Instance valid : Constraints t := fun m r =>
  one_of [1; 2; 3; 4; 5; 6; 7] (target_disposition r)
  && ((not_null (actor_attempt_id r) && is_null (root_authority_office_session_id r)
     && is_null (deterministic_experiment_id r)) || (is_null (actor_attempt_id r)
     && not_null (root_authority_office_session_id r)
     && is_null (deterministic_experiment_id r)) || (is_null (actor_attempt_id r)
     && is_null (root_authority_office_session_id r)
     && not_null (deterministic_experiment_id r)))
  && no_other m (fun o => (cancellation_propagation_id r =? cancellation_propagation_id o)
     && same_key (actor_attempt_id r) (actor_attempt_id o))
  && no_other m (fun o => (cancellation_propagation_id r =? cancellation_propagation_id o)
     && same_key (root_authority_office_session_id r) (root_authority_office_session_id o))
  && no_other m (fun o => (cancellation_propagation_id r =? cancellation_propagation_id o)
     && same_key (deterministic_experiment_id r) (deterministic_experiment_id o)).
End CancellationPropagationTargets.

Module CancellationPropagationChildren.
Record t := new {
  cancellation_propagation_id : Z;
  native_child_id : Z;
}.
#[global] Instance fields : Fields t := fun r =>
  new (cancellation_propagation_id r) (native_child_id r).
#[global] Instance valid : Constraints t := fun m r =>
  no_other m (fun o => (cancellation_propagation_id r =? cancellation_propagation_id o)
     && (native_child_id r =? native_child_id o)).
End CancellationPropagationChildren.

(** ** The database *)

Module CustodyDatabase.
Record t := new {
  ledger : Database.t;
  pi_child_sessions : table PiChildSessions.t;
  native_child_spawn_invalidations : table NativeChildSpawnInvalidations.t;
  execution_profile_qualifications : table ExecutionProfileQualifications.t;
  native_child_liveness_observations : table NativeChildLivenessObservations.t;
  process_signal_receipts : table ProcessSignalReceipts.t;
  native_child_reap_receipts : table NativeChildReapReceipts.t;
  native_child_recovery_receipts : table NativeChildRecoveryReceipts.t;
  pi_abort_control_receipts : table PiAbortControlReceipts.t;
  native_child_stream_seals : table NativeChildStreamSeals.t;
  cancellation_propagation_targets : table CancellationPropagationTargets.t;
  cancellation_propagation_children : table CancellationPropagationChildren.t;
}.
#[global] Instance fields : Fields t := fun db =>
  new (ledger db) (pi_child_sessions db) (native_child_spawn_invalidations db)
    (execution_profile_qualifications db) (native_child_liveness_observations db)
    (process_signal_receipts db) (native_child_reap_receipts db)
    (native_child_recovery_receipts db) (pi_abort_control_receipts db)
    (native_child_stream_seals db) (cancellation_propagation_targets db)
    (cancellation_propagation_children db).

(** Beside the ledger [ledger], before any child is admitted. *)
Definition empty (ledger : Database.t) : t :=
  new ledger empty_table empty_table empty_table empty_table empty_table empty_table
    empty_table empty_table empty_table empty_table empty_table.

(** *** The tables of the ledger *)

Definition supervisor_epochs (db : t) : table SupervisorEpochs.t :=
  Database.supervisor_epochs (ledger db).
Definition workspaces (db : t) : table Workspaces.t :=
  Database.workspaces (ledger db).
Definition operating_cycles (db : t) : table OperatingCycles.t :=
  Database.operating_cycles (ledger db).
Definition attempts (db : t) : table Attempts.t :=
  Database.attempts (ledger db).
Definition budget_reservations (db : t) : table BudgetReservations.t :=
  Database.budget_reservations (ledger db).
Definition office_session_budget_reservations (db : t) : table OfficeSessionBudgetReservations.t :=
  Database.office_session_budget_reservations (ledger db).
Definition execution_profiles (db : t) : table ExecutionProfiles.t :=
  Database.execution_profiles (ledger db).
Definition deterministic_experiments (db : t) : table DeterministicExperiments.t :=
  Database.deterministic_experiments (ledger db).
Definition native_child_spawn_admissions (db : t) : table NativeChildSpawnAdmissions.t :=
  Database.native_child_spawn_admissions (ledger db).
Definition native_children (db : t) : table NativeChildren.t :=
  Database.native_children (ledger db).
Definition pi_child_spawn_sidecars (db : t) : table PiChildSpawnSidecars.t :=
  Database.pi_child_spawn_sidecars (ledger db).
Definition pi_child_session_protocols (db : t) : table PiChildSessionProtocols.t :=
  Database.pi_child_session_protocols (ledger db).
Definition cancellation_requests (db : t) : table CancellationRequests.t :=
  Database.cancellation_requests (ledger db).
Definition cancellation_propagations (db : t) : table CancellationPropagations.t :=
  Database.cancellation_propagations (ledger db).
End CustodyDatabase.

(** Writing a table of the ledger writes the ledger. *)
Definition in_ledger {R} (proj : Database.t -> R) `{!Update proj} :
  Update (fun db => proj (CustodyDatabase.ledger db)) :=
  fun f db => db <| CustodyDatabase.ledger ::= update proj f |>.
#[global] Instance update_supervisor_epochs :
  Update CustodyDatabase.supervisor_epochs :=
  in_ledger Database.supervisor_epochs.
#[global] Instance update_workspaces :
  Update CustodyDatabase.workspaces :=
  in_ledger Database.workspaces.
#[global] Instance update_operating_cycles :
  Update CustodyDatabase.operating_cycles :=
  in_ledger Database.operating_cycles.
#[global] Instance update_attempts :
  Update CustodyDatabase.attempts :=
  in_ledger Database.attempts.
#[global] Instance update_budget_reservations :
  Update CustodyDatabase.budget_reservations :=
  in_ledger Database.budget_reservations.
#[global] Instance update_office_session_budget_reservations :
  Update CustodyDatabase.office_session_budget_reservations :=
  in_ledger Database.office_session_budget_reservations.
#[global] Instance update_execution_profiles :
  Update CustodyDatabase.execution_profiles :=
  in_ledger Database.execution_profiles.
#[global] Instance update_deterministic_experiments :
  Update CustodyDatabase.deterministic_experiments :=
  in_ledger Database.deterministic_experiments.
#[global] Instance update_native_child_spawn_admissions :
  Update CustodyDatabase.native_child_spawn_admissions :=
  in_ledger Database.native_child_spawn_admissions.
#[global] Instance update_native_children :
  Update CustodyDatabase.native_children :=
  in_ledger Database.native_children.
#[global] Instance update_pi_child_spawn_sidecars :
  Update CustodyDatabase.pi_child_spawn_sidecars :=
  in_ledger Database.pi_child_spawn_sidecars.
#[global] Instance update_pi_child_session_protocols :
  Update CustodyDatabase.pi_child_session_protocols :=
  in_ledger Database.pi_child_session_protocols.
#[global] Instance update_cancellation_requests :
  Update CustodyDatabase.cancellation_requests :=
  in_ledger Database.cancellation_requests.
#[global] Instance update_cancellation_propagations :
  Update CustodyDatabase.cancellation_propagations :=
  in_ledger Database.cancellation_propagations.
Arguments in_ledger {R} proj {_} f db /.
Arguments update_supervisor_epochs f db /.
Arguments update_workspaces f db /.
Arguments update_operating_cycles f db /.
Arguments update_attempts f db /.
Arguments update_budget_reservations f db /.
Arguments update_office_session_budget_reservations f db /.
Arguments update_execution_profiles f db /.
Arguments update_deterministic_experiments f db /.
Arguments update_native_child_spawn_admissions f db /.
Arguments update_native_children f db /.
Arguments update_pi_child_spawn_sidecars f db /.
Arguments update_pi_child_session_protocols f db /.
Arguments update_cancellation_requests f db /.
Arguments update_cancellation_propagations f db /.
Arguments CustodyDatabase.supervisor_epochs db /.
Arguments CustodyDatabase.workspaces db /.
Arguments CustodyDatabase.operating_cycles db /.
Arguments CustodyDatabase.attempts db /.
Arguments CustodyDatabase.budget_reservations db /.
Arguments CustodyDatabase.office_session_budget_reservations db /.
Arguments CustodyDatabase.execution_profiles db /.
Arguments CustodyDatabase.deterministic_experiments db /.
Arguments CustodyDatabase.native_child_spawn_admissions db /.
Arguments CustodyDatabase.native_children db /.
Arguments CustodyDatabase.pi_child_spawn_sidecars db /.
Arguments CustodyDatabase.pi_child_session_protocols db /.
Arguments CustodyDatabase.cancellation_requests db /.
Arguments CustodyDatabase.cancellation_propagations db /.
