(* ===== verification/CustodyStore.v ===== *)
(** * The transitions of native custody

    [society-kernel/src/store.rs], lines 11729 to 13712: the admission, spawn, protocol,
    signals, reaping, recovery and finalization of native children, the propagation of a
    cancellation to them, and the experiments and profiles that end with a child.  One
    definition per transition, on the tables of custody beside those of the ledger. *)

From S2P Require Import Prelude.
From S2P Require Import Machine.
From S2P Require Import Hash.
From S2P Require Import KernelScalars.
From S2P Require Import KernelEnums.
From S2P Require Import KernelCustody.
From S2P Require Import KernelCommands.
From S2P Require Import KernelCodes.
From S2P Require Import SqlTable.
From S2P Require Import StoreTables.
From S2P Require Import StoreQueries.
From S2P Require Import StoreProject.
From S2P Require Import StoreWork.
From S2P Require Import StudyTables.
From S2P Require Import CustodyTables.

Definition custody (A : Type) : Type := method CustodyDatabase.t Rejection.t A.

(** A statement on the tables of the ledger. *)
Definition on_ledger {A} (m : store A) : custody A := fun db =>
  let '(outcome, ledger) := m (CustodyDatabase.ledger db) in
  (outcome, db <| CustodyDatabase.ledger := ledger |>).

(** [id_from_returned_identity]. *)
Definition identity {n} (id : Z) : custody (Identifier.t n) :=
  or_reject (Identifier.try_from id) Rejection.SubjectNotFound.

(** [.ok()]: a transition that only reads. *)
Definition ok_of {A} (m : custody A) : custody (option A) := fun db =>
  match m db with (Ok a, db) => (Ok (Some a), db) | (Err _, db) => (Ok None, db) end.

(** [INSERT .. ON CONFLICT DO NOTHING]: a conflict moves the sequence. *)
Definition insert_or_ignore {R} `{!Constraints R} (proj : CustodyDatabase.t -> table R)
  `{!Update proj} (r : R) (e : Rejection.t) : custody unit := fun db =>
  if is_i64 (next_id (proj db))
  then (Ok (), db <| proj := (sql_insert r (proj db)).2 |>) else (Err e, db).

(** A row whose condition holds, by its key. *)
Definition row_holds {R} (p : R -> bool) (r : option R) : bool :=
  match r with Some r => p r | None => false end.

(** ** Owners and rows *)

Section Owners.
Implicit Types (a : NativeChildSpawnAdmissions.t) (db : CustodyDatabase.t).

Definition has_sidecar db (admission : Z) : bool :=
  not_null (rows (CustodyDatabase.pi_child_spawn_sidecars db) !! admission).

(** The exactly one owner of a Pi child. *)
Definition has_pi_owner a : bool :=
  let attempt := not_null (NativeChildSpawnAdmissions.actor_attempt_id a) in
  let session := not_null (NativeChildSpawnAdmissions.root_authority_office_session_id a) in
  let cycle := not_null (NativeChildSpawnAdmissions.qualification_operating_cycle_id a) in
  is_null (NativeChildSpawnAdmissions.deterministic_experiment_id a)
  && not_null (NativeChildSpawnAdmissions.budget_reservation_id a)
  && ((attempt && negb session && negb cycle) || (negb attempt && session && negb cycle)
      || (negb attempt && negb session && cycle)).

Definition is_evaluator a : bool :=
  not_null (NativeChildSpawnAdmissions.deterministic_experiment_id a)
  && not_null (NativeChildSpawnAdmissions.evaluator_revision_id a)
  && not_null (NativeChildSpawnAdmissions.input_manifest_id a)
  && is_null (NativeChildSpawnAdmissions.budget_reservation_id a).

(** Either kind of owner, with or without its Pi sidecar. *)
Definition has_native_owner db (admission : Z) a : bool :=
  let pi := is_null (NativeChildSpawnAdmissions.deterministic_experiment_id a)
    && is_null (NativeChildSpawnAdmissions.evaluator_revision_id a)
    && is_null (NativeChildSpawnAdmissions.input_manifest_id a)
    && not_null (NativeChildSpawnAdmissions.budget_reservation_id a)
    && has_sidecar db admission in
  (not_null (NativeChildSpawnAdmissions.qualification_operating_cycle_id a) && pi)
  || (is_null (NativeChildSpawnAdmissions.qualification_operating_cycle_id a) && pi)
  || (is_evaluator a && negb (has_sidecar db admission)).

(** The admission of a child. *)
Definition admission_of db (c : NativeChildren.t) : option NativeChildSpawnAdmissions.t :=
  rows (CustodyDatabase.native_child_spawn_admissions db)
    !! NativeChildren.native_child_spawn_admission_id c.
Definition evaluator_owned db (child : Z) : bool :=
  row_holds (fun c => row_holds is_evaluator (admission_of db c)
      && negb (has_sidecar db (NativeChildren.native_child_spawn_admission_id c)))
    (rows (CustodyDatabase.native_children db) !! child).
Definition pi_owned db (child : Z) : bool :=
  row_holds (fun c => not_null (admission_of db c)
      && has_sidecar db (NativeChildren.native_child_spawn_admission_id c))
    (rows (CustodyDatabase.native_children db) !! child).
End Owners.

(** The profile of an admission, by its treatment. *)
Definition profile_matches
  (allowed : OperatingCycleTreatment.t -> ExecutionProfileKind.t ->
             ExecutionProfileReadiness.t -> bool)
  (treatment : OperatingCycleTreatment.t) (profile : ExecutionProfiles.t) : bool :=
  match execution_profile_kind_from_i64 (ExecutionProfiles.profile_kind profile),
        execution_profile_readiness_from_i64 (ExecutionProfiles.readiness profile) with
  | Ok kind, Ok readiness => allowed treatment kind readiness
  | _, _ => false
  end.

Definition admission_state (value : Z) : custody NativeChildSpawnAdmissionState.t :=
  match value with
  | 1 => m_ret NativeChildSpawnAdmissionState.Admitted_
  | 2 => m_ret NativeChildSpawnAdmissionState.Spawned
  | 3 => m_ret NativeChildSpawnAdmissionState.Invalidated
  | _ => m_fail Rejection.SubjectNotFound
  end.
Definition admission_cycle_for_generation (admission_id : NativeChildSpawnAdmissionId) :
  custody (OperatingCycleId * NativeChildSpawnAdmissionState.t) :=
  let! row := select CustodyDatabase.native_child_spawn_admissions
    (Identifier.value admission_id) Rejection.SubjectNotFound in
  let! cycle_id := or_reject (Identifier.try_from
    (NativeChildSpawnAdmissions.operating_cycle_id row)) Rejection.SubjectNotFound in
  on_ledger (cycle_row cycle_id) ;!
  let! state := admission_state (NativeChildSpawnAdmissions.lifecycle_state row) in
  m_ret (cycle_id, state).

(** A child with its admission. *)
Definition child_with_admission (child_id : NativeChildId) (e : Rejection.t) :
  custody (NativeChildren.t * NativeChildSpawnAdmissions.t) :=
  let! child := select CustodyDatabase.native_children (Identifier.value child_id) e in
  let! admission := select CustodyDatabase.native_child_spawn_admissions
    (NativeChildren.native_child_spawn_admission_id child) e in
  m_ret (child, admission).

Definition native_child_cycle_for_generation (child_id : NativeChildId) :
  custody (OperatingCycleId * ChildProcessState.t) :=
  let! row := child_with_admission child_id Rejection.SubjectNotFound in
  let! cycle_id := or_reject (Identifier.try_from
    (NativeChildSpawnAdmissions.operating_cycle_id row.2)) Rejection.SubjectNotFound in
  on_ledger (cycle_row cycle_id) ;!
  let! state := or_reject (child_process_state_from_i64
    (NativeChildren.lifecycle_state row.1)) Rejection.SubjectNotFound in
  m_ret (cycle_id, state).

Definition child_cycle_for_generation (child_id : NativeChildId) :
  custody (OperatingCycleId * ChildProcessState.t * PiSessionId) :=
  let! row := child_with_admission child_id Rejection.SubjectNotFound in
  let! sidecar := select CustodyDatabase.pi_child_spawn_sidecars
    (NativeChildren.native_child_spawn_admission_id row.1) Rejection.SubjectNotFound in
  let! cycle_id := or_reject (Identifier.try_from
    (NativeChildSpawnAdmissions.operating_cycle_id row.2)) Rejection.SubjectNotFound in
  on_ledger (cycle_row cycle_id) ;!
  let! state := or_reject (child_process_state_from_i64
    (NativeChildren.lifecycle_state row.1)) Rejection.SubjectNotFound in
  let! pi_session := or_reject (Identifier.try_from (PiChildSpawnSidecars.pi_session_id sidecar))
    Rejection.SubjectNotFound in
  m_ret (cycle_id, state, pi_session).

Definition set_child_state (child_id : NativeChildId) (state : ChildProcessState.t)
  (command_row_id : Z) : custody unit :=
  update_row CustodyDatabase.native_children (Identifier.value child_id) (fun r =>
    r <| NativeChildren.lifecycle_state := ChildProcessState.as_i64 state |>
      <| NativeChildren.last_transition_command_id := command_row_id |>)
    Rejection.ChildLifecycleReceiptMissing.

(** [UPDATE native_children SET lifecycle_state, terminal_disposition, ..]. *)
Definition end_child (child_id : NativeChildId) (state : ChildProcessState.t)
  (disposition : option ChildTerminalDisposition.t) (command_row_id : Z) : custody unit :=
  update_row CustodyDatabase.native_children (Identifier.value child_id) (fun r =>
    r <| NativeChildren.lifecycle_state := ChildProcessState.as_i64 state |>
      <| NativeChildren.terminal_disposition :=
           option_map ChildTerminalDisposition.as_i64 disposition |>
      <| NativeChildren.last_transition_command_id := command_row_id |>)
    Rejection.ChildLifecycleReceiptMissing.
Definition mark_child_containment_failed (child_id : NativeChildId) (command_row_id : Z) :
  custody unit :=
  end_child child_id ChildProcessState.ContainmentFailed
    (Some ChildTerminalDisposition.ContainmentFailed) command_row_id.

Definition protocol_stage (value : Z) : custody PiChildSessionState.t :=
  match value with
  | 1 => m_ret PiChildSessionState.InertSpawned
  | 2 => m_ret PiChildSessionState.AdapterReady
  | 3 => m_ret PiChildSessionState.CreateAuthorized
  | 4 => m_ret PiChildSessionState.CreateDelivered
  | 5 => m_ret PiChildSessionState.SessionReady
  | _ => m_fail Rejection.ChildLifecycleReceiptMissing
  end.
Definition pi_protocol_state (child_id : NativeChildId) : custody PiChildSessionState.t :=
  let! row := select CustodyDatabase.pi_child_session_protocols (Identifier.value child_id)
    Rejection.ChildLifecycleReceiptMissing in
  protocol_stage (PiChildSessionProtocols.lifecycle_state row).
Definition set_pi_protocol_state (child_id : NativeChildId) (state : PiChildSessionState.t) :
  custody unit :=
  update_row CustodyDatabase.pi_child_session_protocols (Identifier.value child_id) (fun r =>
    r <| PiChildSessionProtocols.lifecycle_state := PiChildSessionState.as_i64 state |>)
    Rejection.ChildLifecycleReceiptMissing.

(** ** Admission *)

Definition open_supervisor_epoch (command_row_id : Z) (supervisor_epoch_id : SupervisorEpochId)
  (supervisor_epoch_identity : SupervisorEpochIdentity) : custody EventBody.t :=
  let! epoch_already_open := read (fun db =>
    exists_where (fun _ => true) (CustodyDatabase.supervisor_epochs db)) in
  ensure (negb epoch_already_open) Rejection.ChildSpawnAdmissionInvalid ;!
  insert_with_key CustodyDatabase.supervisor_epochs (Identifier.value supervisor_epoch_id)
    (SupervisorEpochs.new (BoundaryIdentity.as_str supervisor_epoch_identity) command_row_id)
    Rejection.ChildSpawnAdmissionInvalid ;!
  m_ret (EventBody.SupervisorEpochOpened supervisor_epoch_id).

(** The epoch is the one that is open. *)
Definition require_epoch (supervisor_epoch_id : SupervisorEpochId)
  (supervisor_epoch_identity : SupervisorEpochIdentity) : custody unit :=
  let! matches_ := read (fun db => epoch_matches (CustodyDatabase.ledger db)
                                     supervisor_epoch_id supervisor_epoch_identity) in
  ensure matches_ Rejection.ChildSpawnAdmissionInvalid.

Definition workspace_for (command_row_id : Z) (native_workspace_id : NativeWorkspaceId)
  (canonical_workspace_path : CanonicalWorkspacePath.t) : custody Z :=
  let id := BoundaryIdentity.as_str native_workspace_id in
  let path := CanonicalWorkspacePath.as_str canonical_workspace_path in
  insert_or_ignore CustodyDatabase.workspaces (Workspaces.new id path command_row_id)
    Rejection.ChildSpawnAdmissionInvalid ;!
  let! row := read (fun db => row_where (fun w =>
    (Workspaces.native_workspace_id w =? id)%string
    && (Workspaces.canonical_workspace_path w =? path)%string) (CustodyDatabase.workspaces db)) in
  let! row := require row Rejection.ChildSpawnAdmissionInvalid in
  m_ret row.1.

Definition admit_deterministic_evaluator_native_child (command_row_id : Z)
  (expected_generation : ExpectedGeneration.t) (operating_cycle_id : OperatingCycleId)
  (deterministic_experiment_id : DeterministicExperimentId)
  (evaluator_revision_id : EvaluatorRevisionId) (input_manifest_id : InputManifestId)
  (execution_profile_id : ExecutionProfileId) (native_workspace_id : NativeWorkspaceId)
  (canonical_workspace_path : CanonicalWorkspacePath.t) (supervisor_epoch_id : SupervisorEpochId)
  (supervisor_epoch_identity : SupervisorEpochIdentity) : custody EventBody.t :=
  let! cycle := on_ledger (cycle_for_generation operating_cycle_id expected_generation) in
  ensure (negb (bool_decide (CycleRow.treatment cycle
                             = OperatingCycleTreatment.PiSdkQualificationV1)))
    Rejection.QualificationTreatmentRestricted ;!
  ensure (bool_decide (CycleRow.state cycle = OperatingCycleState.Running))
    Rejection.ExecutionProfileIneligible ;!
  let! binding := read (fun db => row_holds (fun e =>
      (DeterministicExperiments.operating_cycle_id e =? Identifier.value operating_cycle_id)
      && (DeterministicExperiments.evaluator_revision_id e
          =? Identifier.value evaluator_revision_id)
      && (DeterministicExperiments.input_manifest_id e =? Identifier.value input_manifest_id)
      && (DeterministicExperiments.lifecycle_state e
          =? DeterministicExperimentState.as_i64 DeterministicExperimentState.Registered))
    (rows (CustodyDatabase.deterministic_experiments db)
       !! Identifier.value deterministic_experiment_id)) in
  ensure binding Rejection.DeterministicExperimentBindingMismatch ;!
  let! profile_allowed := read (fun db => row_holds
    (profile_matches deterministic_evaluator_profile_allowed (CycleRow.treatment cycle))
    (rows (CustodyDatabase.execution_profiles db) !! Identifier.value execution_profile_id)) in
  ensure profile_allowed Rejection.ExecutionProfileIneligible ;!
  require_epoch supervisor_epoch_id supervisor_epoch_identity ;!
  let! workspace_id := workspace_for command_row_id native_workspace_id
    canonical_workspace_path in
  let! id := insert_into CustodyDatabase.native_child_spawn_admissions
    (NativeChildSpawnAdmissions.new (Identifier.value operating_cycle_id) None None None
       (Some (Identifier.value deterministic_experiment_id))
       (Some (Identifier.value evaluator_revision_id))
       (Some (Identifier.value input_manifest_id)) None (Identifier.value execution_profile_id)
       workspace_id (Identifier.value supervisor_epoch_id)
       (AdmissionGeneration.value (CycleRow.generation cycle)) 1 command_row_id None)
    Rejection.ChildSpawnAdmissionInvalid in
  let! admission_id := identity id in
  m_ret (EventBody.DeterministicEvaluatorNativeChildAdmitted admission_id
           (NativeChildOwner.DeterministicEvaluator deterministic_experiment_id
              evaluator_revision_id input_manifest_id)).

(** The columns (attempt, office session, qualification cycle) of the owner, each arm with
    its checks; the office session binds its reservation. *)
Definition pi_owner_columns (command_row_id : Z) (cycle : CycleRow.t)
  (operating_cycle_id : OperatingCycleId) (owner : PiChildOwner.t)
  (budget_reservation_id : BudgetReservationId) (execution_profile_id : ExecutionProfileId) :
  custody (option Z * option Z * option Z) :=
  match owner with
  | PiChildOwner.ActorAttempt actor_attempt_id =>
      let! bound := read (fun db =>
        match rows (CustodyDatabase.attempts db) !! Identifier.value actor_attempt_id,
              rows (Database.attempt_budget_reservations (CustodyDatabase.ledger db))
                !! Identifier.value actor_attempt_id with
        | Some a, Some r =>
            (Attempts.lifecycle_state a =? ActorAttemptState.as_i64 ActorAttemptState.Running)
            && (Attempts.operating_cycle_id a =? Identifier.value operating_cycle_id)
            && (Attempts.execution_profile_id a =? Identifier.value execution_profile_id)
            && (AttemptBudgetReservations.budget_reservation_id r
                =? Identifier.value budget_reservation_id)
        | _, _ => false
        end) in
      ensure bound Rejection.ChildSpawnAdmissionInvalid ;!
      m_ret (Some (Identifier.value actor_attempt_id), None, None)
  | PiChildOwner.RootAuthorityOfficeSession session_id =>
      let! live := read (fun db => row_holds (fun s =>
          one_of [1; 2; 3; 4] (RootAuthorityOfficeSessions.lifecycle_state s)
          && (RootAuthorityOfficeSessions.operating_cycle_id s
              =? Identifier.value operating_cycle_id))
        (rows (Database.root_authority_office_sessions (CustodyDatabase.ledger db))
           !! Identifier.value session_id)) in
      ensure live Rejection.ChildSpawnAdmissionInvalid ;!
      let! existing := read (fun db =>
        rows (CustodyDatabase.office_session_budget_reservations db)
          !! Identifier.value session_id) in
      match existing with
      | Some bound =>
          ensure (OfficeSessionBudgetReservations.budget_reservation_id bound
                  =? Identifier.value budget_reservation_id)
            Rejection.ChildSpawnAdmissionInvalid
      | None =>
          insert_with_key CustodyDatabase.office_session_budget_reservations
            (Identifier.value session_id)
            (OfficeSessionBudgetReservations.new (Identifier.value budget_reservation_id)
               command_row_id) Rejection.ChildSpawnAdmissionInvalid
      end ;!
      m_ret (None, Some (Identifier.value session_id), None)
  | PiChildOwner.NativeExecutionProfileQualification qualification_cycle_id =>
      ensure (bool_decide (qualification_cycle_id = operating_cycle_id)
              && bool_decide (CycleRow.treatment cycle
                              = OperatingCycleTreatment.PiSdkQualificationV1))
        Rejection.ChildSpawnAdmissionInvalid ;!
      m_ret (None, None, Some (Identifier.value qualification_cycle_id))
  end.

Definition admit_pi_child_spawn (command_row_id : Z) (expected_generation : ExpectedGeneration.t)
  (operating_cycle_id : OperatingCycleId) (owner : PiChildOwner.t)
  (budget_reservation_id : BudgetReservationId) (execution_profile_id : ExecutionProfileId)
  (native_workspace_id : NativeWorkspaceId) (canonical_workspace_path : CanonicalWorkspacePath.t)
  (supervisor_epoch_id : SupervisorEpochId) (supervisor_epoch_identity : SupervisorEpochIdentity)
  (pi_session_identity : PiBoundarySessionIdentity) (spawn_nonce : SpawnNonce) :
  custody EventBody.t :=
  let! cycle := on_ledger (cycle_for_generation operating_cycle_id expected_generation) in
  ensure (bool_decide (CycleRow.state cycle = OperatingCycleState.Running))
    Rejection.InvalidLifecycleTransition ;!
  let! reserved := read (fun db => row_holds (fun r =>
      (BudgetReservations.operating_cycle_id r =? Identifier.value operating_cycle_id)
      && (BudgetReservations.reservation_state r
          =? BudgetReservationState.as_i64 BudgetReservationState.Reserved))
    (rows (CustodyDatabase.budget_reservations db) !! Identifier.value budget_reservation_id)) in
  ensure reserved Rejection.ReservationNotActive ;!
  let! columns := pi_owner_columns command_row_id cycle operating_cycle_id owner
    budget_reservation_id execution_profile_id in
  let '(attempt, office_session, qualification_cycle) := columns in
  let! profile_is_allowed := read (fun db => row_holds
    (profile_matches pi_child_profile_allowed (CycleRow.treatment cycle))
    (rows (CustodyDatabase.execution_profiles db) !! Identifier.value execution_profile_id)) in
  ensure profile_is_allowed Rejection.ExecutionProfileIneligible ;!
  require_epoch supervisor_epoch_id supervisor_epoch_identity ;!
  let! workspace_id := workspace_for command_row_id native_workspace_id
    canonical_workspace_path in
  let! id := insert_into CustodyDatabase.pi_child_sessions
    (PiChildSessions.new (BoundaryIdentity.as_str pi_session_identity)
       (BoundaryIdentity.as_str spawn_nonce) command_row_id None)
    Rejection.ChildSpawnAdmissionInvalid in
  let! pi_session_id := @identity "PiSessionId" id in
  let! id := insert_into CustodyDatabase.native_child_spawn_admissions
    (NativeChildSpawnAdmissions.new (Identifier.value operating_cycle_id) attempt office_session
       qualification_cycle None None None (Some (Identifier.value budget_reservation_id))
       (Identifier.value execution_profile_id) workspace_id (Identifier.value supervisor_epoch_id)
       (AdmissionGeneration.value (CycleRow.generation cycle)) 1 command_row_id None)
    Rejection.ChildSpawnAdmissionInvalid in
  let! admission_id := identity id in
  insert_with_key CustodyDatabase.pi_child_spawn_sidecars (Identifier.value admission_id)
    (PiChildSpawnSidecars.new (Identifier.value pi_session_id))
    Rejection.ChildSpawnAdmissionInvalid ;!
  m_ret (EventBody.PiChildSpawnAdmitted admission_id owner budget_reservation_id).

(** ** Spawn *)

(** The propagation is under way. *)
Definition propagating (db : CustodyDatabase.t) (propagation : Z) (p : CancellationPropagations.t -> bool) : bool :=
  row_holds (fun r => (CancellationPropagations.lifecycle_state r
      =? CancellationPropagationState.as_i64 CancellationPropagationState.Propagating) && p r)
    (rows (CustodyDatabase.cancellation_propagations db) !! propagation).

Section Targets.
Implicit Types (t : CancellationPropagationTargets.t) (a : NativeChildSpawnAdmissions.t).
Abbreviation awaiting := (CancellationPropagationTargetDisposition.as_i64
  CancellationPropagationTargetDisposition.AwaitingChildReceipt).

(** The owners of a target and of an admission; nulls are not equal. *)
Definition same_pi_owner t a : bool :=
  same_key (CancellationPropagationTargets.actor_attempt_id t)
    (NativeChildSpawnAdmissions.actor_attempt_id a)
  || same_key (CancellationPropagationTargets.root_authority_office_session_id t)
       (NativeChildSpawnAdmissions.root_authority_office_session_id a).
Definition same_experiment t a : bool :=
  same_key (CancellationPropagationTargets.deterministic_experiment_id t)
    (NativeChildSpawnAdmissions.deterministic_experiment_id a).

Definition is_awaiting t : bool := CancellationPropagationTargets.target_disposition t =? awaiting.

(** The targets of a frozen snapshot that a raced child belongs to. *)
Definition attach_raced_child (native_child_id : NativeChildId)
  (belongs : CustodyDatabase.t -> CancellationPropagationTargets.t -> bool) : custody unit :=
  let! belongs := read belongs in
  update_where CustodyDatabase.cancellation_propagation_targets (fun t =>
      is_null (CancellationPropagationTargets.native_child_id t) && belongs t)
    (fun t =>
      t <| CancellationPropagationTargets.native_child_id :=
             Some (Identifier.value native_child_id) |>
        <| CancellationPropagationTargets.target_disposition := awaiting |>)
    Rejection.ChildLifecycleReceiptMissing ;!
  let! attached := read (fun db => rows_where (fun t =>
      same_key (CancellationPropagationTargets.native_child_id t)
        (Some (Identifier.value native_child_id)) && is_awaiting t)
    (CustodyDatabase.cancellation_propagation_targets db)) in
  for_each (fun kt : Z * CancellationPropagationTargets.t =>
      insert_or_ignore CustodyDatabase.cancellation_propagation_children
        (CancellationPropagationChildren.new
           (CancellationPropagationTargets.cancellation_propagation_id kt.2)
           (Identifier.value native_child_id))
        Rejection.ChildLifecycleReceiptMissing) attached.
End Targets.

Definition record_deterministic_evaluator_native_child_spawn (command_row_id : Z)
  (admission_id : NativeChildSpawnAdmissionId) (child_identity : SupervisedChildIdentity)
  (direct_child_pid : NativeChildPid) (process_group_id : OwnedProcessGroupId) :
  custody EventBody.t :=
  ensure (NativeProcessValue.value direct_child_pid =? NativeProcessValue.value process_group_id)
    Rejection.ChildSpawnAdmissionInvalid ;!
  let! row := select CustodyDatabase.native_child_spawn_admissions
    (Identifier.value admission_id) Rejection.ChildSpawnAdmissionInvalid in
  let! sidecar := read (fun db => has_sidecar db (Identifier.value admission_id)) in
  ensure (is_evaluator row && negb sidecar) Rejection.ChildSpawnAdmissionInvalid ;!
  let! cycle_id := or_reject (Identifier.try_from
    (NativeChildSpawnAdmissions.operating_cycle_id row)) Rejection.ChildSpawnAdmissionInvalid in
  on_ledger (cycle_row cycle_id) ;!
  ensure (NativeChildSpawnAdmissions.lifecycle_state row
          =? NativeChildSpawnAdmissionState.as_i64 NativeChildSpawnAdmissionState.Admitted_)
    Rejection.InvalidLifecycleTransition ;!
  let! binding_matches := read (fun db =>
    row_holds (fun experiment => row_holds (fun e =>
        (DeterministicExperiments.operating_cycle_id e
         =? NativeChildSpawnAdmissions.operating_cycle_id row)
        && same_key (Some (DeterministicExperiments.evaluator_revision_id e))
             (NativeChildSpawnAdmissions.evaluator_revision_id row)
        && same_key (Some (DeterministicExperiments.input_manifest_id e))
             (NativeChildSpawnAdmissions.input_manifest_id row)
        && (DeterministicExperiments.lifecycle_state e =? 1))
      (rows (CustodyDatabase.deterministic_experiments db) !! experiment))
    (NativeChildSpawnAdmissions.deterministic_experiment_id row)) in
  ensure binding_matches Rejection.ChildSpawnAdmissionInvalid ;!
  let! id := insert_into CustodyDatabase.native_children
    (NativeChildren.new (Identifier.value admission_id) (BoundaryIdentity.as_str child_identity)
       (NativeProcessValue.value direct_child_pid) (NativeProcessValue.value process_group_id)
       (ChildProcessState.as_i64 ChildProcessState.Spawned) None command_row_id command_row_id)
    Rejection.ChildSpawnAdmissionInvalid in
  let! native_child_id := identity id in
  update_row CustodyDatabase.native_child_spawn_admissions (Identifier.value admission_id)
    (fun r => r <| NativeChildSpawnAdmissions.lifecycle_state := 2 |>
                <| NativeChildSpawnAdmissions.spawned_by_command_id := Some command_row_id |>)
    Rejection.ChildSpawnAdmissionInvalid ;!
  attach_raced_child native_child_id (fun db t =>
    same_experiment t row
    && propagating db (CancellationPropagationTargets.cancellation_propagation_id t)
         (fun _ => true)) ;!
  m_ret (EventBody.DeterministicEvaluatorNativeChildSpawnRecorded native_child_id admission_id).

Definition record_inert_child_spawn (command_row_id : Z)
  (admission_id : NativeChildSpawnAdmissionId) (child_identity : SupervisedChildIdentity)
  (direct_child_pid : NativeChildPid) (process_group_id : OwnedProcessGroupId) :
  custody EventBody.t :=
  let! row := admission_cycle_for_generation admission_id in
  ensure (bool_decide (row.2 = NativeChildSpawnAdmissionState.Admitted_))
    Rejection.InvalidLifecycleTransition ;!
  let! admission := select CustodyDatabase.native_child_spawn_admissions
    (Identifier.value admission_id) Rejection.ChildSpawnAdmissionInvalid in
  let! sidecar := read (fun db => has_sidecar db (Identifier.value admission_id)) in
  ensure (has_pi_owner admission && sidecar) Rejection.ChildSpawnAdmissionInvalid ;!
  ensure (NativeProcessValue.value direct_child_pid =? NativeProcessValue.value process_group_id)
    Rejection.ChildSpawnAdmissionInvalid ;!
  let! identity_in_use := read (fun db => exists_where (fun c =>
      negb (NativeChildren.lifecycle_state c
            =? ChildProcessState.as_i64 ChildProcessState.Finalized)
      && ((NativeChildren.direct_child_pid c =? NativeProcessValue.value direct_child_pid)
          || (NativeChildren.process_group_id c =? NativeProcessValue.value process_group_id)))
    (CustodyDatabase.native_children db)) in
  ensure (negb identity_in_use) Rejection.ChildSpawnAdmissionInvalid ;!
  let! id := insert_into CustodyDatabase.native_children
    (NativeChildren.new (Identifier.value admission_id) (BoundaryIdentity.as_str child_identity)
       (NativeProcessValue.value direct_child_pid) (NativeProcessValue.value process_group_id)
       (ChildProcessState.as_i64 ChildProcessState.Spawned) None command_row_id command_row_id)
    Rejection.ChildSpawnAdmissionInvalid in
  let! native_child_id := identity id in
  insert_with_key CustodyDatabase.pi_child_session_protocols (Identifier.value native_child_id)
    (PiChildSessionProtocols.new 1 None None) Rejection.ChildSpawnAdmissionInvalid ;!
  update_row CustodyDatabase.native_child_spawn_admissions (Identifier.value admission_id)
    (fun r => r <| NativeChildSpawnAdmissions.lifecycle_state := 2 |>
                <| NativeChildSpawnAdmissions.spawned_by_command_id := Some command_row_id |>)
    Rejection.ChildSpawnAdmissionInvalid ;!
  attach_raced_child native_child_id (fun db t =>
    propagating db (CancellationPropagationTargets.cancellation_propagation_id t) (fun p =>
      CancellationPropagations.operating_cycle_id p
      =? NativeChildSpawnAdmissions.operating_cycle_id admission)
    && same_pi_owner t admission) ;!
  m_ret (EventBody.InertPiChildSpawnRecorded native_child_id admission_id).

Definition record_native_child_not_spawned (command_row_id : Z)
  (expected_generation : ExpectedGeneration.t) (admission_id : NativeChildSpawnAdmissionId)
  (reason : NativeChildNotSpawnedReason.t) : custody EventBody.t :=
  let! admission := select CustodyDatabase.native_child_spawn_admissions
    (Identifier.value admission_id) Rejection.ChildSpawnAdmissionInvalid in
  let! native_owner := read (fun db =>
    has_native_owner db (Identifier.value admission_id) admission) in
  ensure native_owner Rejection.ChildSpawnAdmissionInvalid ;!
  let! row := admission_cycle_for_generation admission_id in
  on_ledger (cycle_for_generation row.1 expected_generation) ;!
  ensure (bool_decide (row.2 = NativeChildSpawnAdmissionState.Admitted_))
    Rejection.InvalidLifecycleTransition ;!
  let! outstanding := read (fun db t =>
    propagating db (CancellationPropagationTargets.cancellation_propagation_id t) (fun p =>
      CancellationPropagations.operating_cycle_id p =? Identifier.value row.1)
    && is_null (CancellationPropagationTargets.native_child_id t)
    && is_awaiting t
    && (same_pi_owner t admission || same_experiment t admission)) in
  let! targets := read (fun db =>
    count_where outstanding (CustodyDatabase.cancellation_propagation_targets db)) in
  update_where CustodyDatabase.cancellation_propagation_targets outstanding (fun t =>
      t <| CancellationPropagationTargets.target_disposition :=
             CancellationPropagationTargetDisposition.as_i64
               CancellationPropagationTargetDisposition.NotRunning |>)
    Rejection.CancellationPropagationIncomplete ;!
  ensure (targets <=? 1) Rejection.CancellationPropagationIncomplete ;!
  ensure (negb (bool_decide (reason = NativeChildNotSpawnedReason.CancelledBeforeSpawn))
          || (targets =? 1)) Rejection.InvalidLifecycleTransition ;!
  update_row CustodyDatabase.native_child_spawn_admissions (Identifier.value admission_id)
    (fun r => r <| NativeChildSpawnAdmissions.lifecycle_state :=
                     NativeChildSpawnAdmissionState.as_i64
                       NativeChildSpawnAdmissionState.Invalidated |>)
    Rejection.ChildSpawnAdmissionInvalid ;!
  insert_with_key CustodyDatabase.native_child_spawn_invalidations (Identifier.value admission_id)
    (NativeChildSpawnInvalidations.new (NativeChildNotSpawnedReason.as_i64 reason)
       command_row_id) Rejection.ChildSpawnAdmissionInvalid ;!
  m_ret (EventBody.NativeChildSpawnInvalidated admission_id reason).

(** ** The protocol of a Pi child *)

(** A child that its supervisor still owns before its session is ready. *)
Definition is_starting (state : ChildProcessState.t) : bool :=
  match state with
  | ChildProcessState.Spawned | ChildProcessState.CancellationRequested => true
  | _ => false
  end.
Definition protocol_is (child_id : NativeChildId) (state : PiChildSessionState.t)
  (e : Rejection.t) : custody unit :=
  let! current := pi_protocol_state child_id in
  ensure (bool_decide (current = state)) e.

Definition record_pi_adapter_ready (child_id : NativeChildId)
  (session_identity : PiBoundarySessionIdentity) (nonce : SpawnNonce) : custody EventBody.t :=
  let! row := child_cycle_for_generation child_id in
  let '(_, state, pi_session_id) := row in
  ensure (is_starting state) Rejection.InvalidLifecycleTransition ;!
  protocol_is child_id PiChildSessionState.InertSpawned Rejection.InvalidLifecycleTransition ;!
  let! matches_ := read (fun db => row_holds (fun s =>
      (PiChildSessions.pi_session_identity s =? BoundaryIdentity.as_str session_identity)%string
      && (PiChildSessions.spawn_nonce s =? BoundaryIdentity.as_str nonce)%string)
    (rows (CustodyDatabase.pi_child_sessions db) !! Identifier.value pi_session_id)) in
  ensure matches_ Rejection.ChildSpawnAdmissionInvalid ;!
  set_pi_protocol_state child_id PiChildSessionState.AdapterReady ;!
  m_ret (EventBody.PiAdapterReadyRecorded child_id pi_session_id).

(** The owner of the admission may still work. *)
Definition owner_active (db : CustodyDatabase.t) (a : NativeChildSpawnAdmissions.t)
  (budget_reservation_id : Z) : bool :=
  match NativeChildSpawnAdmissions.actor_attempt_id a,
        NativeChildSpawnAdmissions.root_authority_office_session_id a,
        NativeChildSpawnAdmissions.qualification_operating_cycle_id a with
  | Some attempt, None, None =>
      row_holds (fun r => Attempts.lifecycle_state r =? 1)
        (rows (CustodyDatabase.attempts db) !! attempt)
  | None, Some session, None =>
      row_holds (fun s => one_of [1; 2; 3; 4] (RootAuthorityOfficeSessions.lifecycle_state s))
        (rows (Database.root_authority_office_sessions (CustodyDatabase.ledger db)) !! session)
      && row_holds (fun b => OfficeSessionBudgetReservations.budget_reservation_id b
                             =? budget_reservation_id)
           (rows (CustodyDatabase.office_session_budget_reservations db) !! session)
  | None, None, Some cycle =>
      row_holds (fun c => (OperatingCycles.treatment c
            =? OperatingCycleTreatment.as_i64 OperatingCycleTreatment.PiSdkQualificationV1)
          && (OperatingCycles.lifecycle_state c =? 3))
        (rows (CustodyDatabase.operating_cycles db) !! cycle)
  | _, _, _ => false
  end.

Definition authorize_pi_create_session (expected_generation : ExpectedGeneration.t)
  (child_id : NativeChildId) (correlation : PiCorrelationIdentity)
  (create_request_digest : Blake3Digest.t) : custody EventBody.t :=
  let! row := child_cycle_for_generation child_id in
  let '(cycle_id, state, _) := row in
  let! cycle := on_ledger (cycle_for_generation cycle_id expected_generation) in
  let! admission := child_with_admission child_id Rejection.ChildSpawnAdmissionInvalid in
  let! budget_reservation_id := require
    (NativeChildSpawnAdmissions.budget_reservation_id admission.2)
    Rejection.ChildSpawnAdmissionInvalid in
  let! profile := select CustodyDatabase.execution_profiles
    (NativeChildSpawnAdmissions.execution_profile_id admission.2)
    Rejection.ChildSpawnAdmissionInvalid in
  ensure (bool_decide (state = ChildProcessState.Spawned)) Rejection.StaleAdmissionGeneration ;!
  protocol_is child_id PiChildSessionState.AdapterReady Rejection.StaleAdmissionGeneration ;!
  ensure (bool_decide (CycleRow.state cycle = OperatingCycleState.Running)
          && (NativeChildSpawnAdmissions.admission_generation admission.2
              =? AdmissionGeneration.value (CycleRow.generation cycle)))
    Rejection.StaleAdmissionGeneration ;!
  let! reservation_active := read (fun db => row_holds (fun r =>
      (BudgetReservations.operating_cycle_id r =? Identifier.value cycle_id)
      && (BudgetReservations.reservation_state r
          =? BudgetReservationState.as_i64 BudgetReservationState.Reserved))
    (rows (CustodyDatabase.budget_reservations db) !! budget_reservation_id)) in
  ensure reservation_active Rejection.ReservationNotActive ;!
  let! cancellations := on_ledger (active_cancellation_count cycle_id) in
  ensure (cancellations =? 0) Rejection.ReservationNotActive ;!
  let! active := read (fun db => owner_active db admission.2 budget_reservation_id) in
  ensure active Rejection.ChildSpawnAdmissionInvalid ;!
  ensure (profile_matches pi_child_profile_allowed (CycleRow.treatment cycle) profile)
    Rejection.ExecutionProfileIneligible ;!
  update_row CustodyDatabase.pi_child_session_protocols (Identifier.value child_id) (fun r =>
    r <| PiChildSessionProtocols.lifecycle_state :=
           PiChildSessionState.as_i64 PiChildSessionState.CreateAuthorized |>
      <| PiChildSessionProtocols.create_correlation_identity :=
           Some (BoundaryIdentity.as_str correlation) |>
      <| PiChildSessionProtocols.create_request_digest :=
           Some (Blake3Digest.as_bytes create_request_digest) |>)
    Rejection.ChildLifecycleReceiptMissing ;!
  m_ret (EventBody.PiCreateSessionAuthorized child_id).

Definition record_pi_create_session_delivery (child_id : NativeChildId)
  (correlation : PiCorrelationIdentity) (create_request_digest : Blake3Digest.t) :
  custody EventBody.t :=
  let! row := child_cycle_for_generation child_id in
  let '(_, state, _) := row in
  let! matches_ := read (fun db => row_holds (fun p =>
      (PiChildSessionProtocols.lifecycle_state p
       =? PiChildSessionState.as_i64 PiChildSessionState.CreateAuthorized)
      && bool_decide (PiChildSessionProtocols.create_correlation_identity p
                      = Some (BoundaryIdentity.as_str correlation))
      && bool_decide (PiChildSessionProtocols.create_request_digest p
                      = Some (Blake3Digest.as_bytes create_request_digest)))
    (rows (CustodyDatabase.pi_child_session_protocols db) !! Identifier.value child_id)) in
  ensure (is_starting state && matches_) Rejection.InvalidLifecycleTransition ;!
  set_pi_protocol_state child_id PiChildSessionState.CreateDelivered ;!
  m_ret (EventBody.PiCreateSessionDeliveryRecorded child_id).

Definition record_pi_session_ready (command_row_id : Z) (child_id : NativeChildId)
  (session_identity : PiBoundarySessionIdentity) : custody EventBody.t :=
  let! row := child_cycle_for_generation child_id in
  let '(_, state, pi_session_id) := row in
  ensure (is_starting state) Rejection.InvalidLifecycleTransition ;!
  protocol_is child_id PiChildSessionState.CreateDelivered Rejection.InvalidLifecycleTransition ;!
  let! matches_ := read (fun db => row_holds (fun s =>
      (PiChildSessions.pi_session_identity s =? BoundaryIdentity.as_str session_identity)%string
      && is_null (PiChildSessions.ready_by_command_id s))
    (rows (CustodyDatabase.pi_child_sessions db) !! Identifier.value pi_session_id)) in
  ensure matches_ Rejection.ChildSpawnAdmissionInvalid ;!
  update_row CustodyDatabase.pi_child_sessions (Identifier.value pi_session_id) (fun s =>
    s <| PiChildSessions.ready_by_command_id := Some command_row_id |>)
    Rejection.ChildLifecycleReceiptMissing ;!
  set_pi_protocol_state child_id PiChildSessionState.SessionReady ;!
  m_when (bool_decide (state = ChildProcessState.Spawned))
    (set_child_state child_id ChildProcessState.Running command_row_id) ;!
  m_ret (EventBody.PiSessionReadyRecorded child_id pi_session_id).

(** The propagation is under way and its target still waits for the child. *)
Definition awaits_child (db : CustodyDatabase.t) (propagation_id : CancellationPropagationId)
  (child_id : NativeChildId) : bool :=
  exists_where (fun t =>
      (CancellationPropagationTargets.cancellation_propagation_id t
       =? Identifier.value propagation_id)
      && same_key (CancellationPropagationTargets.native_child_id t)
           (Some (Identifier.value child_id))
      && is_awaiting t)
    (CustodyDatabase.cancellation_propagation_targets db)
  && propagating db (Identifier.value propagation_id) (fun _ => true).

Definition record_pi_abort_control_delivery (command_row_id : Z)
  (expected_generation : ExpectedGeneration.t) (child_id : NativeChildId)
  (propagation_id : CancellationPropagationId) (correlation : PiCorrelationIdentity)
  (abort_digest : Blake3Digest.t) (outcome : PiAbortControlWriteOutcome.t) :
  custody EventBody.t :=
  let! row := child_cycle_for_generation child_id in
  let '(cycle_id, state, _) := row in
  on_ledger (cycle_for_generation cycle_id expected_generation) ;!
  ensure (match state with
          | ChildProcessState.Running | ChildProcessState.CancellationRequested => true
          | _ => false
          end) Rejection.InvalidLifecycleTransition ;!
  protocol_is child_id PiChildSessionState.SessionReady Rejection.InvalidLifecycleTransition ;!
  let! target_exists := read (fun db => awaits_child db propagation_id child_id) in
  ensure target_exists Rejection.CancellationPropagationIncomplete ;!
  let! id := insert_into CustodyDatabase.pi_abort_control_receipts
    (PiAbortControlReceipts.new (Identifier.value child_id) (Identifier.value propagation_id)
       (BoundaryIdentity.as_str correlation) (Blake3Digest.as_bytes abort_digest)
       (PiAbortControlWriteOutcome.as_i64 outcome) command_row_id)
    Rejection.ChildLifecycleReceiptMissing in
  let! receipt_id := identity id in
  m_ret (EventBody.PiAbortControlDeliveryRecorded receipt_id child_id propagation_id correlation
           abort_digest outcome).

(** ** Receipts of a child *)

Definition record_child_stream_seal (command_row_id : Z) (child_id : NativeChildId)
  (stream : ChildStreamKind.t) (full_digest : Blake3Digest.t) (retained : ContentObjectId)
  (completeness : ChildStreamSealCompleteness.t) : custody EventBody.t :=
  let! row := native_child_cycle_for_generation child_id in
  let '(_, state) := row in
  ensure (match state with
          | ChildProcessState.Finalized | ChildProcessState.RecoveryContainmentRequired
          | ChildProcessState.LostParentage => false
          | _ => true
          end) Rejection.InvalidLifecycleTransition ;!
  let! evaluator := read (fun db => evaluator_owned db (Identifier.value child_id)) in
  ensure (negb (evaluator
                && (negb (bool_decide (state = ChildProcessState.DirectChildReaped))
                    || match stream with
                       | ChildStreamKind.Stdout | ChildStreamKind.Stderr => false
                       | _ => true
                       end))) Rejection.InvalidLifecycleTransition ;!
  let! object := on_ledger (select Database.content_objects (Identifier.value retained)
    Rejection.ContentObjectNotSealed) in
  let! receipt := on_ledger (select Database.content_seal_receipts
    (ContentObjects.content_seal_receipt_id object) Rejection.ContentObjectNotSealed) in
  ensure (negb (bool_decide (completeness = ChildStreamSealCompleteness.Complete))
          || bool_decide (ContentSealReceipts.digest receipt = Blake3Digest.as_bytes full_digest))
    Rejection.ChildStreamSealBindingMismatch ;!
  let! id := insert_into CustodyDatabase.native_child_stream_seals
    (NativeChildStreamSeals.new (Identifier.value child_id) (ChildStreamKind.as_i64 stream)
       (Blake3Digest.as_bytes full_digest) (Identifier.value retained)
       (ChildStreamSealCompleteness.as_i64 completeness) command_row_id)
    Rejection.ChildStreamSealBindingMismatch in
  let! seal_id := identity id in
  m_when (bool_decide (completeness = ChildStreamSealCompleteness.CountOverflow))
    (mark_child_containment_failed child_id command_row_id) ;!
  m_ret (EventBody.ChildStreamSealed seal_id child_id stream completeness).

Abbreviation absent := (ProcessGroupLiveness.as_i64 ProcessGroupLiveness.Absent).

(** The group of the child was seen absent before. *)
Definition seen_absent (db : CustodyDatabase.t) (child : Z) : bool :=
  exists_where (fun o => (NativeChildLivenessObservations.native_child_id o =? child)
      && (NativeChildLivenessObservations.liveness o =? absent))
    (CustodyDatabase.native_child_liveness_observations db)
  || exists_where (fun s => (ProcessSignalReceipts.native_child_id s =? child)
         && (ProcessSignalReceipts.observed_liveness s =? absent))
       (CustodyDatabase.process_signal_receipts db)
  || exists_where (fun r => (NativeChildReapReceipts.native_child_id r =? child)
         && ((NativeChildReapReceipts.group_liveness_before_cleanup r =? absent)
             || (NativeChildReapReceipts.group_liveness_after_cleanup r =? absent)))
       (CustodyDatabase.native_child_reap_receipts db).
Definition liveness_is_reuse_conflict (child_id : NativeChildId)
  (liveness : ProcessGroupLiveness.t) : custody bool :=
  if bool_decide (liveness = ProcessGroupLiveness.Absent) then m_ret false
  else read (fun db => seen_absent db (Identifier.value child_id)).

(** [.. WHERE native_child_id = $4 AND lifecycle_state = RecoveryContainmentRequired]. *)
Definition lose_contained_child (child_id : NativeChildId) (command_row_id : Z) : custody unit :=
  let! waiting := read (fun db => row_holds (fun c => NativeChildren.lifecycle_state c
      =? ChildProcessState.as_i64 ChildProcessState.RecoveryContainmentRequired)
    (rows (CustodyDatabase.native_children db) !! Identifier.value child_id)) in
  m_when waiting (end_child child_id ChildProcessState.LostParentage
    (Some ChildTerminalDisposition.SupervisionLost) command_row_id).

(** What an observation of the group does to the child, in the state before it. *)
Definition observe_group (child_id : NativeChildId) (state : ChildProcessState.t)
  (inaccessible : bool) (liveness : ProcessGroupLiveness.t) (liveness_regressed : bool)
  (command_row_id : Z) : custody unit :=
  if inaccessible || liveness_regressed
  then mark_child_containment_failed child_id command_row_id
  else m_when (bool_decide (state = ChildProcessState.RecoveryContainmentRequired)
               && bool_decide (liveness = ProcessGroupLiveness.Absent))
         (lose_contained_child child_id command_row_id).

Definition is_inaccessible (liveness : ProcessGroupLiveness.t) : bool :=
  bool_decide (liveness = ProcessGroupLiveness.Inaccessible).

Definition record_child_process_liveness (command_row_id : Z) (child_id : NativeChildId)
  (liveness : ProcessGroupLiveness.t) : custody EventBody.t :=
  let! row := native_child_cycle_for_generation child_id in
  let '(_, state) := row in
  ensure (negb (ChildProcessState.is_terminal state)) Rejection.InvalidLifecycleTransition ;!
  ensure (negb (bool_decide (state = ChildProcessState.RecoveryContainmentRequired)
                && bool_decide (liveness = ProcessGroupLiveness.Present)))
    Rejection.InvalidLifecycleTransition ;!
  let! liveness_regressed := liveness_is_reuse_conflict child_id liveness in
  let! id := insert_into CustodyDatabase.native_child_liveness_observations
    (NativeChildLivenessObservations.new (Identifier.value child_id)
       (ProcessGroupLiveness.as_i64 liveness) command_row_id)
    Rejection.ChildLifecycleReceiptMissing in
  let! observation_id := identity id in
  observe_group child_id state (is_inaccessible liveness) liveness liveness_regressed
    command_row_id ;!
  m_ret (EventBody.ChildProcessLivenessObserved observation_id child_id liveness).

(** ** Signals *)

Definition delivery_agrees (delivery : ProcessSignalDelivery.t)
  (liveness : ProcessGroupLiveness.t) : bool :=
  match delivery, liveness with
  | ProcessSignalDelivery.Delivered, _
  | ProcessSignalDelivery.AbsentBeforeSignal, ProcessGroupLiveness.Absent
  | ProcessSignalDelivery.AbsentDuringSignal, ProcessGroupLiveness.Absent
  | ProcessSignalDelivery.Inaccessible, ProcessGroupLiveness.Inaccessible => true
  | _, _ => false
  end.

Definition same_propagation (a b : option Z) : bool := bool_decide (a = b).

Definition prior_signal_attempt (db : CustodyDatabase.t) (child_id : NativeChildId)
  (action : ProcessSignalAction.t) (cause_kind : Z)
  (propagation_id : option CancellationPropagationId) : bool :=
  exists_where (fun s =>
      (ProcessSignalReceipts.native_child_id s =? Identifier.value child_id)
      && (ProcessSignalReceipts.signal_action s =? ProcessSignalAction.as_i64 action)
      && (ProcessSignalReceipts.cause_kind s =? cause_kind)
      && same_propagation (ProcessSignalReceipts.cancellation_propagation_id s)
           (option_map Identifier.value propagation_id))
    (CustodyDatabase.process_signal_receipts db).

Definition prior_pi_abort_control_attempt (db : CustodyDatabase.t) (child_id : NativeChildId)
  (propagation_id : CancellationPropagationId) : bool :=
  exists_where (fun r =>
      (PiAbortControlReceipts.native_child_id r =? Identifier.value child_id)
      && (PiAbortControlReceipts.cancellation_propagation_id r
          =? Identifier.value propagation_id))
    (CustodyDatabase.pi_abort_control_receipts db).

Definition lingering_group_cleanup_is_due (db : CustodyDatabase.t) (child_id : NativeChildId) :
  bool :=
  row_holds (fun c => NativeChildren.lifecycle_state c
      =? ChildProcessState.as_i64 ChildProcessState.DirectChildReaped)
    (rows (CustodyDatabase.native_children db) !! Identifier.value child_id)
  && exists_where (fun r =>
         (NativeChildReapReceipts.native_child_id r =? Identifier.value child_id)
         && (NativeChildReapReceipts.group_liveness_after_cleanup r
             =? ProcessGroupLiveness.as_i64 ProcessGroupLiveness.Present))
       (CustodyDatabase.native_child_reap_receipts db).

(** The cause allows the action: (cause kind, propagation). *)
Definition signal_cause (child_id : NativeChildId) (action : ProcessSignalAction.t)
  (cause : ProcessSignalCause.t) (protocol_state : option PiChildSessionState.t) :
  custody (Z * option Z) :=
  match cause with
  | ProcessSignalCause.CancellationPropagation propagation_id =>
      let! target_exists := read (fun db => awaits_child db propagation_id child_id) in
      ensure target_exists Rejection.CancellationPropagationIncomplete ;!
      let! due := read (fun db =>
        match action with
        | ProcessSignalAction.Terminate =>
            negb (bool_decide (protocol_state = Some PiChildSessionState.SessionReady))
            || prior_pi_abort_control_attempt db child_id propagation_id
        | ProcessSignalAction.Kill =>
            prior_signal_attempt db child_id ProcessSignalAction.Terminate 1 (Some propagation_id)
        | ProcessSignalAction.LingeringGroupKill => lingering_group_cleanup_is_due db child_id
        end) in
      ensure due Rejection.CancellationPropagationIncomplete ;!
      m_ret (1, Some (Identifier.value propagation_id))
  | ProcessSignalCause.AutomaticBoundaryContainment =>
      let! due := read (fun db =>
        match action with
        | ProcessSignalAction.Terminate => true
        | ProcessSignalAction.Kill =>
            prior_signal_attempt db child_id ProcessSignalAction.Terminate 2 None
        | ProcessSignalAction.LingeringGroupKill => lingering_group_cleanup_is_due db child_id
        end) in
      ensure due Rejection.CancellationPropagationIncomplete ;!
      m_ret (2, None)
  end.

Definition record_process_signal_receipt (command_row_id : Z) (child_id : NativeChildId)
  (action : ProcessSignalAction.t) (delivery : ProcessSignalDelivery.t)
  (liveness : ProcessGroupLiveness.t) (cause : ProcessSignalCause.t) : custody EventBody.t :=
  ensure (delivery_agrees delivery liveness) Rejection.ChildLifecycleReceiptMissing ;!
  let! row := native_child_cycle_for_generation child_id in
  let '(_, state) := row in
  ensure (negb (ChildProcessState.is_terminal state)) Rejection.InvalidLifecycleTransition ;!
  let! protocol_state := ok_of (pi_protocol_state child_id) in
  let! cause_columns := signal_cause child_id action cause protocol_state in
  let '(cause_kind, propagation_id) := cause_columns in
  let! liveness_regressed := liveness_is_reuse_conflict child_id liveness in
  let! id := insert_into CustodyDatabase.process_signal_receipts
    (ProcessSignalReceipts.new (Identifier.value child_id) (ProcessSignalAction.as_i64 action)
       (ProcessSignalDelivery.as_i64 delivery) (ProcessGroupLiveness.as_i64 liveness) cause_kind
       propagation_id command_row_id)
    Rejection.ChildLifecycleReceiptMissing in
  m_when (bool_decide (delivery = ProcessSignalDelivery.Delivered)
          && match state with
             | ChildProcessState.Spawned | ChildProcessState.Running => true
             | _ => false
             end)
    (set_child_state child_id ChildProcessState.CancellationRequested command_row_id) ;!
  observe_group child_id state
    (bool_decide (delivery = ProcessSignalDelivery.Inaccessible) || is_inaccessible liveness)
    liveness liveness_regressed command_row_id ;!
  let! receipt_id := identity id in
  m_ret (EventBody.ProcessSignalReceiptRecorded receipt_id child_id action delivery liveness
           cause).

(** ** Reaping and recovery *)

Definition record_direct_child_reap (command_row_id : Z) (child_id : NativeChildId)
  (status : DirectChildWaitStatus.t) (before after : ProcessGroupLiveness.t) :
  custody EventBody.t :=
  let! row := native_child_cycle_for_generation child_id in
  let '(_, state) := row in
  ensure (match state with
          | ChildProcessState.Finalized | ChildProcessState.RecoveryContainmentRequired
          | ChildProcessState.LostParentage | ChildProcessState.DirectChildReaped => false
          | _ => true
          end) Rejection.InvalidLifecycleTransition ;!
  let! before_regressed := liveness_is_reuse_conflict child_id before in
  let! after_regressed := liveness_is_reuse_conflict child_id after in
  let '(kind, value) :=
    match status with
    | DirectChildWaitStatus.Exited exit_code => (1, Some (NativeProcessValue.value exit_code))
    | DirectChildWaitStatus.Signaled signal_number =>
        (2, Some (NativeProcessValue.value signal_number))
    | DirectChildWaitStatus.Unknown => (3, None)
    end in
  let! id := insert_into CustodyDatabase.native_child_reap_receipts
    (NativeChildReapReceipts.new (Identifier.value child_id) kind value
       (ProcessGroupLiveness.as_i64 before) (ProcessGroupLiveness.as_i64 after) command_row_id)
    Rejection.ChildLifecycleReceiptMissing in
  (if is_inaccessible after || (before_regressed || after_regressed)
   then mark_child_containment_failed child_id command_row_id
   else m_when (negb (bool_decide (state = ChildProcessState.ContainmentFailed)))
          (set_child_state child_id ChildProcessState.DirectChildReaped command_row_id)) ;!
  let! receipt_id := identity id in
  m_ret (EventBody.DirectChildReaped receipt_id child_id status before after).

Definition record_child_recovery (command_row_id : Z) (child_id : NativeChildId)
  (observation : ChildRecoveryObservation.t)
  (group_liveness_after_restart : ProcessGroupLiveness.t) : custody EventBody.t :=
  let! row := native_child_cycle_for_generation child_id in
  let '(_, state) := row in
  ensure (match state with
          | ChildProcessState.Finalized | ChildProcessState.DirectChildReaped
          | ChildProcessState.RecoveryContainmentRequired | ChildProcessState.LostParentage
          | ChildProcessState.ContainmentFailed => false
          | _ => true
          end) Rejection.InvalidLifecycleTransition ;!
  let! liveness_regressed := liveness_is_reuse_conflict child_id group_liveness_after_restart in
  let! id := insert_into CustodyDatabase.native_child_recovery_receipts
    (NativeChildRecoveryReceipts.new (Identifier.value child_id)
       (ChildRecoveryObservation.as_i64 observation)
       (ProcessGroupLiveness.as_i64 group_liveness_after_restart) command_row_id)
    Rejection.ChildLifecycleReceiptMissing in
  match group_liveness_after_restart with
  | ProcessGroupLiveness.Absent =>
      end_child child_id ChildProcessState.LostParentage
        (Some ChildTerminalDisposition.SupervisionLost) command_row_id
  | ProcessGroupLiveness.Inaccessible => mark_child_containment_failed child_id command_row_id
  | ProcessGroupLiveness.Present =>
      if liveness_regressed then mark_child_containment_failed child_id command_row_id
      else end_child child_id ChildProcessState.RecoveryContainmentRequired None command_row_id
  end ;!
  let! receipt_id := identity id in
  m_ret (EventBody.ChildRecoveryObserved receipt_id child_id observation
           group_liveness_after_restart).

(** ** Finalization *)

(** The seals of a child that a complete or bounded stream has, of the kinds in [kinds]. *)
Definition retained_seals (db : CustodyDatabase.t) (child : Z) (kinds : Z -> bool) : Z :=
  count_where (fun s => (NativeChildStreamSeals.native_child_id s =? child)
      && kinds (NativeChildStreamSeals.stream_kind s)
      && one_of [1; 2] (NativeChildStreamSeals.completeness s))
    (CustodyDatabase.native_child_stream_seals db).

Definition signal_terminal_disposition (child_id : NativeChildId)
  (signal_number : ProcessSignalNumber) : custody ChildTerminalDisposition.t :=
  let! expected_action :=
    match NativeProcessValue.value signal_number with
    | 15 => m_ret ProcessSignalAction.Terminate
    | 9 => m_ret ProcessSignalAction.Kill
    | _ => m_fail Rejection.ChildLifecycleReceiptMissing
    end in
  let! delivered := read (fun db => exists_where (fun s =>
      (ProcessSignalReceipts.native_child_id s =? Identifier.value child_id)
      && one_of [ProcessSignalAction.as_i64 expected_action;
                 if bool_decide (expected_action = ProcessSignalAction.Kill)
                 then ProcessSignalAction.as_i64 ProcessSignalAction.LingeringGroupKill else -1]
           (ProcessSignalReceipts.signal_action s)
      && (ProcessSignalReceipts.delivery s
          =? ProcessSignalDelivery.as_i64 ProcessSignalDelivery.Delivered))
    (CustodyDatabase.process_signal_receipts db)) in
  ensure delivered Rejection.ChildLifecycleReceiptMissing ;!
  match expected_action with
  | ProcessSignalAction.Terminate => m_ret ChildTerminalDisposition.Terminated
  | ProcessSignalAction.Kill => m_ret ChildTerminalDisposition.Killed
  | _ => m_fail Rejection.ChildLifecycleReceiptMissing
  end.

(** The group was seen absent by a later command. *)
Definition absent_after (db : CustodyDatabase.t) (child reap_command : Z) : bool :=
  exists_where (fun o => (NativeChildLivenessObservations.native_child_id o =? child)
      && (NativeChildLivenessObservations.liveness o =? absent)
      && (reap_command <? NativeChildLivenessObservations.observed_by_command_id o))
    (CustodyDatabase.native_child_liveness_observations db)
  || exists_where (fun s => (ProcessSignalReceipts.native_child_id s =? child)
         && (ProcessSignalReceipts.observed_liveness s =? absent)
         && (reap_command <? ProcessSignalReceipts.recorded_by_command_id s))
       (CustodyDatabase.process_signal_receipts db).

(** The disposition of a reaped child: its group is gone, its streams are sealed and its
    status is explained. *)
Definition reaped_disposition (child_id : NativeChildId) : custody ChildTerminalDisposition.t :=
  let child := Identifier.value child_id in
  let! reap := read (fun db => row_where (fun r =>
      NativeChildReapReceipts.native_child_id r =? child)
    (CustodyDatabase.native_child_reap_receipts db)) in
  let! reap := require reap Rejection.ChildLifecycleReceiptMissing in
  let! later := read (fun db =>
    absent_after db child (NativeChildReapReceipts.reaped_by_command_id reap.2)) in
  ensure ((NativeChildReapReceipts.group_liveness_after_cleanup reap.2 =? absent) || later)
    Rejection.ProcessContainmentFailed ;!
  let! required_streams := read (fun db => if pi_owned db child then 4 else 2) in
  let! retained := read (fun db => retained_seals db child (fun _ => true)) in
  let! required_evaluator_output := read (fun db => retained_seals db child (one_of [3; 4])) in
  ensure ((retained =? required_streams)
          && (negb (required_streams =? 2) || (required_evaluator_output =? 2)))
    Rejection.ChildLifecycleReceiptMissing ;!
  match NativeChildReapReceipts.wait_status_kind reap.2,
        NativeChildReapReceipts.status_value reap.2 with
  | 1, Some _ => m_ret ChildTerminalDisposition.Exited
  | 2, Some signal_number =>
      let! signal_number := require (NativeProcessValue.new signal_number)
        Rejection.ChildLifecycleReceiptMissing in
      signal_terminal_disposition child_id signal_number
  | _, _ => m_fail Rejection.ChildLifecycleReceiptMissing
  end.

Definition finalize_child_process (command_row_id : Z) (child_id : NativeChildId) :
  custody EventBody.t :=
  let! row := native_child_cycle_for_generation child_id in
  let '(_, state) := row in
  let! disposition :=
    match state with
    | ChildProcessState.DirectChildReaped => reaped_disposition child_id
    | ChildProcessState.ContainmentFailed => m_fail Rejection.ProcessContainmentFailed
    | _ => m_fail Rejection.ChildLifecycleReceiptMissing
    end in
  end_child child_id ChildProcessState.Finalized (Some disposition) command_row_id ;!
  m_ret (EventBody.ChildProcessFinalized child_id disposition).

(** How an experiment whose evidence is not admitted ends: with its child or without one. *)
Definition unadmitted_experiment_end (experiment : Z) :
  custody DeterministicExperimentState.t :=
  let! of_experiment := read (fun db => rows_where (fun a =>
      same_key (NativeChildSpawnAdmissions.deterministic_experiment_id a) (Some experiment))
    (CustodyDatabase.native_child_spawn_admissions db)) in
  let! finalized := read (fun db => exists_where (fun c =>
      one_of (map fst of_experiment) (NativeChildren.native_child_spawn_admission_id c)
      && (NativeChildren.lifecycle_state c
          =? ChildProcessState.as_i64 ChildProcessState.Finalized))
    (CustodyDatabase.native_children db)) in
  let! invalidations := read (fun db =>
    omap (fun ka : Z * NativeChildSpawnAdmissions.t =>
            option_map (pair (NativeChildSpawnAdmissions.lifecycle_state ka.2))
              (rows (CustodyDatabase.native_child_spawn_invalidations db) !! ka.1))
      of_experiment) in
  let invalidated := existsb (fun si =>
    si.1 =? NativeChildSpawnAdmissionState.as_i64 NativeChildSpawnAdmissionState.Invalidated)
    invalidations in
  ensure (finalized || invalidated) Rejection.EvidenceAdmissionRequired ;!
  let! stopped := read (fun db => exists_where (fun t =>
      same_key (CancellationPropagationTargets.deterministic_experiment_id t) (Some experiment)
      && one_of [4; 5] (CancellationPropagationTargets.target_disposition t))
    (CustodyDatabase.cancellation_propagation_targets db)) in
  let cancelled := stopped
    || existsb (fun si => NativeChildSpawnInvalidations.reason si.2 =? 1) invalidations in
  m_ret (if cancelled then DeterministicExperimentState.Cancelled
         else DeterministicExperimentState.Failed).

(** The states of the cycle in which an experiment may end so. *)
Definition terminal_cycle_allowed (terminal_state : DeterministicExperimentState.t)
  (state : OperatingCycleState.t) : bool :=
  match terminal_state, state with
  | DeterministicExperimentState.Closed, OperatingCycleState.Running => true
  | DeterministicExperimentState.Failed,
    (OperatingCycleState.Running | OperatingCycleState.Cancelling
     | OperatingCycleState.Reaping) => true
  | DeterministicExperimentState.Cancelled,
    (OperatingCycleState.Cancelling | OperatingCycleState.Reaping) => true
  | _, _ => false
  end.

Definition finalize_deterministic_experiment (command_row_id : Z)
  (expected_generation : ExpectedGeneration.t) (operating_cycle_id : OperatingCycleId)
  (deterministic_experiment_id : DeterministicExperimentId) : custody EventBody.t :=
  let! cycle := on_ledger (cycle_for_generation operating_cycle_id expected_generation) in
  let! row := select CustodyDatabase.deterministic_experiments
    (Identifier.value deterministic_experiment_id) Rejection.SubjectNotFound in
  ensure (DeterministicExperiments.operating_cycle_id row =? Identifier.value operating_cycle_id)
    Rejection.SubjectNotFound ;!
  let state := DeterministicExperiments.lifecycle_state row in
  let! terminal_state :=
    if state =? DeterministicExperimentState.as_i64 DeterministicExperimentState.EvidenceAdmitted
    then m_ret DeterministicExperimentState.Closed
    else if state =? DeterministicExperimentState.as_i64 DeterministicExperimentState.Registered
    then unadmitted_experiment_end (Identifier.value deterministic_experiment_id)
    else m_fail Rejection.EvidenceAdmissionRequired in
  ensure (terminal_cycle_allowed terminal_state (CycleRow.state cycle))
    Rejection.InvalidLifecycleTransition ;!
  update_row CustodyDatabase.deterministic_experiments
    (Identifier.value deterministic_experiment_id) (fun r =>
      r <| DeterministicExperiments.lifecycle_state :=
             DeterministicExperimentState.as_i64 terminal_state |>
        <| DeterministicExperiments.last_transition_command_id := command_row_id |>)
    Rejection.SubjectNotFound ;!
  let! project_id := or_reject (Identifier.try_from (DeterministicExperiments.project_id row))
    Rejection.SubjectNotFound in
  on_ledger (record_coordination_provenance command_row_id cycle operating_cycle_id
    (Some project_id)) ;!
  m_ret (EventBody.DeterministicExperimentFinalized deterministic_experiment_id terminal_state).

(** The stream is sealed with the digest and retained as the object. *)
Definition stream_bound (db : CustodyDatabase.t) (child stream_kind : Z)
  (digest : Blake3Digest.t) (object : ContentObjectId) : bool :=
  exists_where (fun s => (NativeChildStreamSeals.native_child_id s =? child)
      && (NativeChildStreamSeals.stream_kind s =? stream_kind)
      && bool_decide (NativeChildStreamSeals.full_observed_digest s
                      = Blake3Digest.as_bytes digest)
      && (NativeChildStreamSeals.retained_content_object_id s =? Identifier.value object)
      && one_of [1; 2] (NativeChildStreamSeals.completeness s))
    (CustodyDatabase.native_child_stream_seals db).

Definition qualify_native_execution_profile (command_row_id : Z)
  (expected_generation : ExpectedGeneration.t) (operating_cycle_id : OperatingCycleId)
  (execution_profile_id : ExecutionProfileId) (admission_id : NativeChildSpawnAdmissionId)
  (child_id : NativeChildId) (runtime_identity_digest : Blake3Digest.t)
  (runtime_identity_content_object_id : ContentObjectId) (adapter_report_digest : Blake3Digest.t)
  (adapter_report_content_object_id : ContentObjectId)
  (probe_request_digest probe_response_digest : Blake3Digest.t)
  (probe_response_content_object_id : ContentObjectId) : custody EventBody.t :=
  let child := Identifier.value child_id in
  let! cycle := on_ledger (cycle_for_generation operating_cycle_id expected_generation) in
  ensure (bool_decide (CycleRow.state cycle = OperatingCycleState.Running)
          && bool_decide (CycleRow.treatment cycle
                          = OperatingCycleTreatment.PiSdkQualificationV1))
    Rejection.QualificationTreatmentRestricted ;!
  let! unqualified := read (fun db => row_holds (fun p =>
      (ExecutionProfiles.profile_kind p
       =? ExecutionProfileKind.as_i64 ExecutionProfileKind.NativePinnedPiSdkV1)
      && (ExecutionProfiles.readiness p
          =? ExecutionProfileReadiness.as_i64 ExecutionProfileReadiness.Unqualified))
    (rows (CustodyDatabase.execution_profiles db) !! Identifier.value execution_profile_id)) in
  ensure unqualified Rejection.ExecutionProfileIneligible ;!
  let! row := child_with_admission child_id Rejection.ChildSpawnAdmissionInvalid in
  ensure (NativeChildren.native_child_spawn_admission_id row.1 =? Identifier.value admission_id)
    Rejection.ChildSpawnAdmissionInvalid ;!
  let! qualification_cycle := require
    (NativeChildSpawnAdmissions.qualification_operating_cycle_id row.2)
    Rejection.ChildSpawnAdmissionInvalid in
  let! disposition := require (NativeChildren.terminal_disposition row.1)
    Rejection.ChildSpawnAdmissionInvalid in
  ensure ((NativeChildSpawnAdmissions.operating_cycle_id row.2
           =? Identifier.value operating_cycle_id)
          && (NativeChildSpawnAdmissions.execution_profile_id row.2
              =? Identifier.value execution_profile_id)
          && (qualification_cycle =? Identifier.value operating_cycle_id)
          && (NativeChildren.lifecycle_state row.1
              =? ChildProcessState.as_i64 ChildProcessState.Finalized)
          && (disposition =? ChildTerminalDisposition.as_i64 ChildTerminalDisposition.Exited))
    Rejection.ChildLifecycleReceiptMissing ;!
  protocol_is child_id PiChildSessionState.SessionReady Rejection.ChildLifecycleReceiptMissing ;!
  let! retained_streams := read (fun db => retained_seals db child (fun _ => true)) in
  ensure (retained_streams =? 4) Rejection.ChildLifecycleReceiptMissing ;!
  let! bound := read (fun db =>
    stream_bound db child 1 runtime_identity_digest runtime_identity_content_object_id
    && stream_bound db child 2 adapter_report_digest adapter_report_content_object_id
    && stream_bound db child 3 probe_response_digest probe_response_content_object_id) in
  ensure bound Rejection.ChildStreamSealBindingMismatch ;!
  let! create_bound := read (fun db => row_holds (fun p =>
      bool_decide (PiChildSessionProtocols.create_request_digest p
                   = Some (Blake3Digest.as_bytes probe_request_digest)))
    (rows (CustodyDatabase.pi_child_session_protocols db) !! child)) in
  ensure create_bound Rejection.PiOfficeTurnPromptBindingMismatch ;!
  let! id := insert_into CustodyDatabase.execution_profile_qualifications
    (ExecutionProfileQualifications.new (Identifier.value operating_cycle_id)
       (Identifier.value execution_profile_id) (Identifier.value admission_id) child
       (Blake3Digest.as_bytes runtime_identity_digest)
       (Identifier.value runtime_identity_content_object_id)
       (Blake3Digest.as_bytes adapter_report_digest)
       (Identifier.value adapter_report_content_object_id)
       (Blake3Digest.as_bytes probe_request_digest) (Blake3Digest.as_bytes probe_response_digest)
       (Identifier.value probe_response_content_object_id) command_row_id)
    Rejection.InvalidLifecycleTransition in
  let! qualification_id := identity id in
  update_row CustodyDatabase.execution_profiles (Identifier.value execution_profile_id) (fun p =>
      p <| ExecutionProfiles.readiness :=
             ExecutionProfileReadiness.as_i64 ExecutionProfileReadiness.QualifiedForLiveUse |>)
    Rejection.InvalidLifecycleTransition ;!
  m_ret (EventBody.NativeExecutionProfileQualified qualification_id operating_cycle_id
           execution_profile_id admission_id child_id).

(** ** Cancellation *)

(** [LEFT JOIN]: a row without a match is joined to null. *)
Definition left_join {A B} (l : list A) (on : A -> list B) : list (A * option B) :=
  flat_map (fun a => match on a with
                     | [] => [(a, None)]
                     | rows => map (fun b => (a, Some b)) rows
                     end) l.

Section Snapshot.
Implicit Types (db : CustodyDatabase.t).

(** The admissions of an owner and their children. *)
Definition owned_children {A} db (owners : list (Z * A))
  (owner_of : NativeChildSpawnAdmissions.t -> option Z) :
  list (Z * option (Z * NativeChildSpawnAdmissions.t) * option (Z * NativeChildren.t)) :=
  map (fun j => (j.1.1.1, j.1.2, j.2))
    (left_join
      (left_join owners (fun o =>
         rows_where (fun a => same_key (owner_of a) (Some o.1))
           (CustodyDatabase.native_child_spawn_admissions db)))
      (fun oa => match oa.2 with
                 | None => []
                 | Some a => rows_where (fun c =>
                       NativeChildren.native_child_spawn_admission_id c =? a.1)
                     (CustodyDatabase.native_children db)
                 end)).

(** The disposition of a child in its terminal states. *)
Definition settled_disposition (c : NativeChildren.t) : option Z :=
  let state := NativeChildren.lifecycle_state c in
  let is_ d := same_key (NativeChildren.terminal_disposition c) (Some d) in
  if (state =? 8) && is_ 1 then Some 3
  else if (state =? 8) && is_ 4 then Some 4
  else if (state =? 8) && is_ 5 then Some 5
  else if state =? 7 then Some 6
  else if (state =? 6) && is_ 6 then Some 7
  else None.
Definition snapshot_disposition (admission : option (Z * NativeChildSpawnAdmissions.t))
  (child : option (Z * NativeChildren.t)) : Z :=
  match child with
  | None =>
      match admission with
      | Some (_, a) => if NativeChildSpawnAdmissions.lifecycle_state a =? 1 then 2 else 1
      | None => 1
      end
  | Some (_, c) => default 2 (settled_disposition c)
  end.

(** [INSERT INTO cancellation_propagation_targets .. SELECT ..]: the columns of the owner. *)
Definition insert_targets {A} (propagation : Z) (owners : CustodyDatabase.t -> list (Z * A))
  (owner_of : NativeChildSpawnAdmissions.t -> option Z)
  (columns : Z -> option Z * option Z * option Z) : custody unit :=
  let! snapshot := read (fun db => owned_children db (owners db) owner_of) in
  for_each (fun oac :
      Z * option (Z * NativeChildSpawnAdmissions.t) * option (Z * NativeChildren.t) =>
    let '(owner, admission, child) := oac in
    let '(attempt, session, experiment) := columns owner in
    insert_into CustodyDatabase.cancellation_propagation_targets
      (CancellationPropagationTargets.new propagation attempt session experiment
         (option_map fst child) (snapshot_disposition admission child))
      Rejection.ChildLifecycleReceiptMissing ;!
    m_ret ()) snapshot.
End Snapshot.

Definition begin_cancellation_propagation (command_row_id : Z)
  (expected_generation : ExpectedGeneration.t) (cancellation_request_id : CancellationRequestId) :
  custody EventBody.t :=
  let! request := select CustodyDatabase.cancellation_requests
    (Identifier.value cancellation_request_id) Rejection.SubjectNotFound in
  let! cycle_id := or_reject (Identifier.try_from
    (CancellationRequests.operating_cycle_id request)) Rejection.SubjectNotFound in
  let! cycle := on_ledger (cycle_for_generation cycle_id expected_generation) in
  ensure (bool_decide (CycleRow.state cycle = OperatingCycleState.Cancelling)
          && negb (CancellationRequests.lifecycle_state request
                   =? CancellationState.as_i64 CancellationState.Completed))
    Rejection.InvalidLifecycleTransition ;!
  let! id := insert_into CustodyDatabase.cancellation_propagations
    (CancellationPropagations.new (Identifier.value cancellation_request_id)
       (Identifier.value cycle_id) (AdmissionGeneration.value (CycleRow.generation cycle)) 1
       command_row_id None) Rejection.InvalidLifecycleTransition in
  let! propagation_id := @identity "CancellationPropagationId" id in
  let propagation := Identifier.value propagation_id in
  insert_targets propagation
    (fun db => rows_where (fun a =>
        (Attempts.operating_cycle_id a =? Identifier.value cycle_id)
        && one_of [1; 2] (Attempts.lifecycle_state a)) (CustodyDatabase.attempts db))
    NativeChildSpawnAdmissions.actor_attempt_id (fun owner => (Some owner, None, None)) ;!
  insert_targets propagation
    (fun db => rows_where (fun e =>
        (DeterministicExperiments.operating_cycle_id e =? Identifier.value cycle_id)
        && (DeterministicExperiments.lifecycle_state e =? 1))
      (CustodyDatabase.deterministic_experiments db))
    NativeChildSpawnAdmissions.deterministic_experiment_id
    (fun owner => (None, None, Some owner)) ;!
  insert_targets propagation
    (fun db => rows_where (fun o =>
        (RootAuthorityOfficeSessions.operating_cycle_id o =? Identifier.value cycle_id)
        && negb (one_of [8; 10; 11] (RootAuthorityOfficeSessions.lifecycle_state o)))
      (Database.root_authority_office_sessions (CustodyDatabase.ledger db)))
    NativeChildSpawnAdmissions.root_authority_office_session_id
    (fun owner => (None, Some owner, None)) ;!
  let! awaiting_children := read (fun db =>
    omap (fun kt : Z * CancellationPropagationTargets.t =>
            CancellationPropagationTargets.native_child_id kt.2)
      (rows_where (fun t =>
          (CancellationPropagationTargets.cancellation_propagation_id t =? propagation)
          && is_awaiting t)
        (CustodyDatabase.cancellation_propagation_targets db))) in
  for_each (fun child =>
    insert_into CustodyDatabase.cancellation_propagation_children
      (CancellationPropagationChildren.new propagation child)
      Rejection.ChildLifecycleReceiptMissing ;!
    m_ret ()) awaiting_children ;!
  update_row CustodyDatabase.cancellation_requests (Identifier.value cancellation_request_id)
    (fun r => r <| CancellationRequests.lifecycle_state :=
                     CancellationState.as_i64 CancellationState.Propagating |>)
    Rejection.SubjectNotFound ;!
  m_ret (EventBody.CancellationPropagationBegun propagation_id cancellation_request_id).

(** The disposition of a target, from the state of its child now. *)
Definition refreshed (db : CustodyDatabase.t) (t : CancellationPropagationTargets.t) :
  CancellationPropagationTargets.t :=
  match CancellationPropagationTargets.native_child_id t with
  | Some child =>
      match rows (CustodyDatabase.native_children db) !! child with
      | Some c =>
          t <| CancellationPropagationTargets.target_disposition :=
                 default (CancellationPropagationTargets.target_disposition t)
                   (settled_disposition c) |>
      | None => t
      end
  | None => t
  end.

Definition reconcile_cancellation_propagation (command_row_id : Z)
  (expected_generation : ExpectedGeneration.t) (propagation_id : CancellationPropagationId) :
  custody EventBody.t :=
  let propagation := Identifier.value propagation_id in
  let! row := select CustodyDatabase.cancellation_propagations propagation
    Rejection.SubjectNotFound in
  let! cycle_id := or_reject (Identifier.try_from
    (CancellationPropagations.operating_cycle_id row)) Rejection.SubjectNotFound in
  on_ledger (cycle_for_generation cycle_id expected_generation) ;!
  ensure (CancellationPropagations.lifecycle_state row
          =? CancellationPropagationState.as_i64 CancellationPropagationState.Propagating)
    Rejection.InvalidLifecycleTransition ;!
  let of_propagation t :=
    CancellationPropagationTargets.cancellation_propagation_id t =? propagation in
  let! refresh := read refreshed in
  update_where CustodyDatabase.cancellation_propagation_targets of_propagation refresh
    Rejection.ChildLifecycleReceiptMissing ;!
  let with_disposition d := read (fun db => count_where (fun t =>
      of_propagation t && (CancellationPropagationTargets.target_disposition t =? d))
    (CustodyDatabase.cancellation_propagation_targets db)) in
  let! containment := with_disposition 6 in
  if negb (containment =? 0) then
    update_row CustodyDatabase.cancellation_propagations propagation (fun r =>
      r <| CancellationPropagations.lifecycle_state := 3 |>) Rejection.ProcessContainmentFailed ;!
    m_ret (EventBody.CancellationPropagationContainmentFailed propagation_id)
  else
    let! unfinished := with_disposition 2 in
    ensure (unfinished =? 0) Rejection.CancellationPropagationIncomplete ;!
    update_row CustodyDatabase.cancellation_propagations propagation (fun r =>
      r <| CancellationPropagations.lifecycle_state := 2 |>
        <| CancellationPropagations.reconciled_by_command_id := Some command_row_id |>)
      Rejection.ChildLifecycleReceiptMissing ;!
    m_ret (EventBody.CancellationPropagationReconciled propagation_id).

(** ** Dispatch *)

(** The arms of custody in the dispatch of the store. *)
Definition dispatch_custody (command_row_id : Z) (request : CommandRequest.t) :
  option (custody EventBody.t) :=
  let generation := CommandRequest.expected_generation request in
  match CommandRequest.body request with
  | CommandBody.OpenSupervisorEpoch id identity =>
      Some (open_supervisor_epoch command_row_id id identity)
  | CommandBody.AdmitPiChildSpawn cycle owner reservation profile workspace path epoch
      epoch_identity session nonce =>
      Some (admit_pi_child_spawn command_row_id generation cycle owner reservation profile
        workspace path epoch epoch_identity session nonce)
  | CommandBody.AdmitDeterministicEvaluatorNativeChild cycle experiment evaluator input profile
      workspace path epoch epoch_identity =>
      Some (admit_deterministic_evaluator_native_child command_row_id generation cycle experiment
        evaluator input profile workspace path epoch epoch_identity)
  | CommandBody.RecordDeterministicEvaluatorNativeChildSpawn admission child pid group =>
      Some (record_deterministic_evaluator_native_child_spawn command_row_id admission child pid
        group)
  | CommandBody.RecordInertChildSpawn admission child pid group =>
      Some (record_inert_child_spawn command_row_id admission child pid group)
  | CommandBody.RecordNativeChildNotSpawned admission reason =>
      Some (record_native_child_not_spawned command_row_id generation admission reason)
  | CommandBody.RecordPiAdapterReady child session nonce =>
      Some (record_pi_adapter_ready child session nonce)
  | CommandBody.AuthorizePiCreateSession child correlation digest =>
      Some (authorize_pi_create_session generation child correlation digest)
  | CommandBody.RecordPiCreateSessionDelivery child correlation digest =>
      Some (record_pi_create_session_delivery child correlation digest)
  | CommandBody.RecordPiSessionReady child session =>
      Some (record_pi_session_ready command_row_id child session)
  | CommandBody.RecordPiAbortControlDelivery child propagation correlation digest outcome =>
      Some (record_pi_abort_control_delivery command_row_id generation child propagation
        correlation digest outcome)
  | CommandBody.RecordChildStreamSeal child stream digest object completeness =>
      Some (record_child_stream_seal command_row_id child stream digest object completeness)
  | CommandBody.RecordChildProcessLiveness child liveness =>
      Some (record_child_process_liveness command_row_id child liveness)
  | CommandBody.RecordProcessSignalReceipt child action delivery liveness cause =>
      Some (record_process_signal_receipt command_row_id child action delivery liveness cause)
  | CommandBody.RecordDirectChildReap child status before after =>
      Some (record_direct_child_reap command_row_id child status before after)
  | CommandBody.RecordChildRecovery child observation liveness =>
      Some (record_child_recovery command_row_id child observation liveness)
  | CommandBody.FinalizeChildProcess child => Some (finalize_child_process command_row_id child)
  | CommandBody.FinalizeDeterministicExperiment cycle experiment =>
      Some (finalize_deterministic_experiment command_row_id generation cycle experiment)
  | CommandBody.QualifyNativeExecutionProfile cycle profile admission child runtime_digest
      runtime_object adapter_digest adapter_object probe_request probe_response probe_object =>
      Some (qualify_native_execution_profile command_row_id generation cycle profile admission
        child runtime_digest runtime_object adapter_digest adapter_object probe_request
        probe_response probe_object)
  | CommandBody.BeginCancellationPropagation request =>
      Some (begin_cancellation_propagation command_row_id generation request)
  | CommandBody.ReconcileCancellationPropagation propagation =>
      Some (reconcile_cancellation_propagation command_row_id generation propagation)
  | _ => None
  end.
