(* ===== verification/CustodyMachine.v ===== *)
(** * The machine of native custody

    What the transitions of [CustodyStore] promise about admissions, children, their
    receipts and the propagation of cancellations, as a step relation on the rows of the
    tables: one rule per command, with the guards that the command has checked.  [n] is the
    number of the command.  [CustodyInvariants] proves the invariants by rule induction,
    [CustodyRefine] that every accepted command is a move. *)

From S2P Require Import Prelude.
From S2P Require Import Machine.
From S2P Require Import SqlTable.
From S2P Require Import StoreTables.
From S2P Require Import StudyTables.
From S2P Require Import CustodyTables.
From S2P Require Import CustodyStore.

Module CustodyCore.
Record t := new {
  admissions : gmap Z NativeChildSpawnAdmissions.t;
  children : gmap Z NativeChildren.t;
  sidecars : gmap Z PiChildSpawnSidecars.t;
  sessions : gmap Z PiChildSessions.t;
  protocols : gmap Z PiChildSessionProtocols.t;
  invalidations : gmap Z NativeChildSpawnInvalidations.t;
  observations : gmap Z NativeChildLivenessObservations.t;
  signals : gmap Z ProcessSignalReceipts.t;
  reaps : gmap Z NativeChildReapReceipts.t;
  recoveries : gmap Z NativeChildRecoveryReceipts.t;
  aborts : gmap Z PiAbortControlReceipts.t;
  seals : gmap Z NativeChildStreamSeals.t;
  propagations : gmap Z CancellationPropagations.t;
  targets : gmap Z CancellationPropagationTargets.t;
}.
#[global] Instance fields : Fields t := fun c =>
  new (admissions c) (children c) (sidecars c) (sessions c) (protocols c) (invalidations c)
    (observations c) (signals c) (reaps c) (recoveries c) (aborts c) (seals c) (propagations c)
    (targets c).
End CustodyCore.
Import CustodyCore(admissions, children, sidecars, sessions, protocols, invalidations,
  observations, signals, reaps, recoveries, aborts, seals, propagations, targets).

Definition custody_core (db : CustodyDatabase.t) : CustodyCore.t :=
  CustodyCore.new (rows (CustodyDatabase.native_child_spawn_admissions db))
    (rows (CustodyDatabase.native_children db))
    (rows (CustodyDatabase.pi_child_spawn_sidecars db))
    (rows (CustodyDatabase.pi_child_sessions db))
    (rows (CustodyDatabase.pi_child_session_protocols db))
    (rows (CustodyDatabase.native_child_spawn_invalidations db))
    (rows (CustodyDatabase.native_child_liveness_observations db))
    (rows (CustodyDatabase.process_signal_receipts db))
    (rows (CustodyDatabase.native_child_reap_receipts db))
    (rows (CustodyDatabase.native_child_recovery_receipts db))
    (rows (CustodyDatabase.pi_abort_control_receipts db))
    (rows (CustodyDatabase.native_child_stream_seals db))
    (rows (CustodyDatabase.cancellation_propagations db))
    (rows (CustodyDatabase.cancellation_propagation_targets db)).

Implicit Types (c : CustodyCore.t) (a : NativeChildSpawnAdmissions.t) (r : NativeChildren.t)
  (p : PiChildSessionProtocols.t) (s : PiChildSessions.t) (x : ProcessSignalReceipts.t)
  (t : CancellationPropagationTargets.t) (n child : Z).

(** The states of a child are their codes: 1 spawned, 2 running, 3 cancellation requested,
    4 reaped, 5 recovery containment required, 6 parentage lost, 7 containment failed,
    8 finalized.  A disposition is 1 exited, 4 terminated, 5 killed, 6 supervision lost,
    7 containment failed. *)
Abbreviation state := NativeChildren.lifecycle_state.
Abbreviation disposition := NativeChildren.terminal_disposition.
Abbreviation admission := NativeChildren.native_child_spawn_admission_id.

(** ** What the rules say of the tables *)

Definition pi_child c r : Prop := is_Some (sidecars c !! admission r).
Definition evaluator_child c r : Prop :=
  exists a, admissions c !! admission r = Some a /\ is_evaluator a = true
    /\ sidecars c !! admission r = None.

(** The protocol of the child is at the stage; 5 is a ready session. *)
Definition at_stage c child (stage : Z) : Prop :=
  exists p, protocols c !! child = Some p /\ PiChildSessionProtocols.lifecycle_state p = stage.

(** Command [n] recorded that the group of the child was absent. *)
Inductive absent_at c child n : Prop :=
| AbsentObservation i (o : NativeChildLivenessObservations.t) :
    observations c !! i = Some o ->
    NativeChildLivenessObservations.native_child_id o = child ->
    NativeChildLivenessObservations.observed_by_command_id o = n ->
    NativeChildLivenessObservations.liveness o = absent -> absent_at c child n
| AbsentSignal i x : signals c !! i = Some x ->
    ProcessSignalReceipts.native_child_id x = child ->
    ProcessSignalReceipts.recorded_by_command_id x = n ->
    ProcessSignalReceipts.observed_liveness x = absent -> absent_at c child n
| AbsentReap i (y : NativeChildReapReceipts.t) : reaps c !! i = Some y ->
    NativeChildReapReceipts.native_child_id y = child ->
    NativeChildReapReceipts.reaped_by_command_id y = n ->
    NativeChildReapReceipts.group_liveness_before_cleanup y = absent
    \/ NativeChildReapReceipts.group_liveness_after_cleanup y = absent -> absent_at c child n.

(** Command [n] recorded that it was there, or could not be looked at. *)
Inductive seen_at c child n : Prop :=
| SeenObservation i (o : NativeChildLivenessObservations.t) :
    observations c !! i = Some o ->
    NativeChildLivenessObservations.native_child_id o = child ->
    NativeChildLivenessObservations.observed_by_command_id o = n ->
    NativeChildLivenessObservations.liveness o <> absent -> seen_at c child n
| SeenSignal i x : signals c !! i = Some x ->
    ProcessSignalReceipts.native_child_id x = child ->
    ProcessSignalReceipts.recorded_by_command_id x = n ->
    ProcessSignalReceipts.observed_liveness x <> absent -> seen_at c child n
| SeenReap i (y : NativeChildReapReceipts.t) : reaps c !! i = Some y ->
    NativeChildReapReceipts.native_child_id y = child ->
    NativeChildReapReceipts.reaped_by_command_id y = n ->
    NativeChildReapReceipts.group_liveness_before_cleanup y <> absent
    \/ NativeChildReapReceipts.group_liveness_after_cleanup y <> absent -> seen_at c child n
| SeenRecovery i (y : NativeChildRecoveryReceipts.t) : recoveries c !! i = Some y ->
    NativeChildRecoveryReceipts.native_child_id y = child ->
    NativeChildRecoveryReceipts.recorded_by_command_id y = n ->
    NativeChildRecoveryReceipts.group_liveness_after_restart y <> absent -> seen_at c child n.

(** The propagation is under way; and waits for the child. *)
Definition under_way c (propagation : Z) : Prop :=
  exists q, propagations c !! propagation = Some q
    /\ CancellationPropagations.lifecycle_state q = 1.
Definition waits_for c (propagation child : Z) : Prop :=
  under_way c propagation /\ exists i t, targets c !! i = Some t
    /\ CancellationPropagationTargets.cancellation_propagation_id t = propagation
    /\ CancellationPropagationTargets.native_child_id t = Some child
    /\ CancellationPropagationTargets.target_disposition t = 2.

(** A signal to the child with the cause and action: 1 terminate, 2 kill, 3 kill what lingers;
    the causes are 1 cancellation, 2 boundary containment. *)
Definition signalled c child (action cause : Z) (propagation : option Z) n : Prop :=
  exists i x, signals c !! i = Some x /\ ProcessSignalReceipts.native_child_id x = child
    /\ ProcessSignalReceipts.signal_action x = action
    /\ ProcessSignalReceipts.cause_kind x = cause
    /\ ProcessSignalReceipts.cancellation_propagation_id x = propagation
    /\ ProcessSignalReceipts.recorded_by_command_id x = n.
Definition aborted c child (propagation n : Z) : Prop :=
  exists i y, aborts c !! i = Some y /\ PiAbortControlReceipts.native_child_id y = child
    /\ PiAbortControlReceipts.cancellation_propagation_id y = propagation
    /\ PiAbortControlReceipts.recorded_by_command_id y = n.
(** The child was reaped while its group was still there. *)
Definition lingers c child n : Prop :=
  exists i y, reaps c !! i = Some y /\ NativeChildReapReceipts.native_child_id y = child
    /\ NativeChildReapReceipts.group_liveness_after_cleanup y = 1
    /\ NativeChildReapReceipts.reaped_by_command_id y = n.

(** Its streams of these kinds are sealed, complete or bounded. *)
Definition sealed_count c child (kinds : Z -> bool) : Z :=
  count_where (fun y => (NativeChildStreamSeals.native_child_id y =? child)
      && kinds (NativeChildStreamSeals.stream_kind y)
      && one_of [1; 2] (NativeChildStreamSeals.completeness y)) (Table (seals c) 0).
Definition sealed c child (kind : Z) : Prop :=
  exists i y, seals c !! i = Some y /\ NativeChildStreamSeals.native_child_id y = child
    /\ NativeChildStreamSeals.stream_kind y = kind
    /\ one_of [1; 2] (NativeChildStreamSeals.completeness y) = true.

(** A delivered signal of the action. *)
Definition delivered c child (actions : list Z) : Prop :=
  exists i x, signals c !! i = Some x /\ ProcessSignalReceipts.native_child_id x = child
    /\ one_of actions (ProcessSignalReceipts.signal_action x) = true
    /\ ProcessSignalReceipts.delivery x = 1.

(** The reaped status [y] explains the disposition; the query asks for the action -1, which
    no receipt has, beside the terminate. *)
Definition explains c child (y : NativeChildReapReceipts.t) (d : Z) : Prop :=
  let kind := NativeChildReapReceipts.wait_status_kind y in
  let value := NativeChildReapReceipts.status_value y in
  (kind = 1 /\ is_Some value /\ d = 1)
  \/ (kind = 2 /\ value = Some 15 /\ d = 4 /\ delivered c child [1; -1])
  \/ (kind = 2 /\ value = Some 9 /\ d = 5 /\ delivered c child [2; 3]).
(** The group was absent when the child was reaped, or later. *)
Definition gone c child (y : NativeChildReapReceipts.t) : Prop :=
  NativeChildReapReceipts.group_liveness_after_cleanup y = absent
  \/ exists m, NativeChildReapReceipts.reaped_by_command_id y < m /\ absent_at c child m.

(** ** Rows that a rule writes *)

Definition staged n (to : Z) r : NativeChildren.t :=
  r <| NativeChildren.lifecycle_state := to |>
    <| NativeChildren.last_transition_command_id := n |>.
Definition ended n (to : Z) (d : option Z) r : NativeChildren.t :=
  r <| NativeChildren.lifecycle_state := to |> <| NativeChildren.terminal_disposition := d |>
    <| NativeChildren.last_transition_command_id := n |>.
(** After an observation of the group. *)
Definition observed n (failed : bool) (liveness : Z) r : NativeChildren.t :=
  if failed then ended n 7 (Some 7) r
  else if (state r =? 5) && (liveness =? absent) then ended n 6 (Some 6) r else r.
Definition requested n (delivery : Z) r : NativeChildren.t :=
  if (delivery =? 1) && one_of [1; 2] (state r) then staged n 3 r else r.

Definition attached child (belongs : CancellationPropagationTargets.t -> bool) t :
  CancellationPropagationTargets.t :=
  if is_null (CancellationPropagationTargets.native_child_id t) && belongs t then
    t <| CancellationPropagationTargets.native_child_id := Some child |>
      <| CancellationPropagationTargets.target_disposition := 2 |>
  else t.
Definition resolved (outstanding : CancellationPropagationTargets.t -> bool) t :
  CancellationPropagationTargets.t :=
  if outstanding t then t <| CancellationPropagationTargets.target_disposition := 1 |> else t.
Definition refreshed_target c t : CancellationPropagationTargets.t :=
  match CancellationPropagationTargets.native_child_id t with
  | Some child =>
      match children c !! child with
      | Some r =>
          t <| CancellationPropagationTargets.target_disposition :=
                 default (CancellationPropagationTargets.target_disposition t)
                   (settled_disposition r) |>
      | None => t
      end
  | None => t
  end.
(** The target of a new propagation, as its owner and child are. *)
Definition snapshot_target c (propagation : Z) t : Prop :=
  CancellationPropagationTargets.cancellation_propagation_id t = propagation
  /\ match CancellationPropagationTargets.native_child_id t with
     | None => CancellationPropagationTargets.target_disposition t = 1
               \/ CancellationPropagationTargets.target_disposition t = 2
     | Some child => exists r, children c !! child = Some r
         /\ CancellationPropagationTargets.target_disposition t
            = default 2 (settled_disposition r)
     end.

(** ** Moves *)

(** An observation that contradicts an absence recorded before. *)
Definition regresses c child (liveness : Z) : Prop :=
  liveness <> absent /\ exists m, absent_at c child m.

Inductive admission_move n c : CustodyCore.t -> Prop :=
| AdmitEvaluator id a :
    admissions c !! id = None -> is_evaluator a = true ->
    NativeChildSpawnAdmissions.lifecycle_state a = 1 ->
    admission_move n c (c <| admissions := <[id := a]> (admissions c) |>)
| AdmitPi id a sid s :
    admissions c !! id = None -> sessions c !! sid = None -> sidecars c !! id = None ->
    (forall k y, sidecars c !! k = Some y -> PiChildSpawnSidecars.pi_session_id y <> sid) ->
    has_pi_owner a = true -> NativeChildSpawnAdmissions.lifecycle_state a = 1 ->
    PiChildSessions.ready_by_command_id s = None ->
    admission_move n c
      (c <| sessions := <[sid := s]> (sessions c) |>
         <| admissions := <[id := a]> (admissions c) |>
         <| sidecars := <[id := PiChildSpawnSidecars.new sid]> (sidecars c) |>)
| Invalidate id a outstanding y :
    admissions c !! id = Some a -> NativeChildSpawnAdmissions.lifecycle_state a = 1 ->
    invalidations c !! id = None ->
    (forall t, outstanding t = true ->
       CancellationPropagationTargets.native_child_id t = None
       /\ under_way c (CancellationPropagationTargets.cancellation_propagation_id t)) ->
    admission_move n c
      (c <| targets ::= fmap (resolved outstanding) |>
         <| admissions := <[id := a <| NativeChildSpawnAdmissions.lifecycle_state := 3 |>]>
              (admissions c) |>
         <| invalidations := <[id := y]> (invalidations c) |>).

(** The admission [aid] of [a] gets its child. *)
Definition spawned n c (id aid : Z) a (name : string) (pid : Z)
  (belongs : CancellationPropagationTargets.t -> bool) : CustodyCore.t :=
  c <| children := <[id := NativeChildren.new aid name pid pid 1 None n n]> (children c) |>
    <| admissions := <[aid := a <| NativeChildSpawnAdmissions.lifecycle_state := 2 |>
                                <| NativeChildSpawnAdmissions.spawned_by_command_id := Some n |>]>
         (admissions c) |>
    <| targets ::= fmap (attached id belongs) |>.
(** The checks of both kinds of spawn. *)
Definition may_spawn c (id aid : Z) a (belongs : CancellationPropagationTargets.t -> bool) : Prop :=
  children c !! id = None /\ admissions c !! aid = Some a
  /\ NativeChildSpawnAdmissions.lifecycle_state a = 1
  /\ (forall k r, children c !! k = Some r -> admission r <> aid)
  /\ (forall t, belongs t = true ->
        under_way c (CancellationPropagationTargets.cancellation_propagation_id t)).
Inductive spawn_move n c : CustodyCore.t -> Prop :=
| SpawnEvaluator id aid a name pid belongs :
    may_spawn c id aid a belongs -> is_evaluator a = true -> sidecars c !! aid = None ->
    spawn_move n c (spawned n c id aid a name pid belongs)
| SpawnPi id aid a name pid belongs :
    may_spawn c id aid a belongs -> is_Some (sidecars c !! aid) -> has_pi_owner a = true ->
    protocols c !! id = None ->
    (forall k r, children c !! k = Some r -> state r <> 8 ->
       NativeChildren.process_group_id r <> pid) ->
    spawn_move n c
      ((spawned n c id aid a name pid belongs)
         <| protocols := <[id := PiChildSessionProtocols.new 1 None None]> (protocols c) |>).

(** A Pi child that its supervisor still owns. *)
Definition starting c child r : Prop :=
  children c !! child = Some r /\ pi_child c r /\ one_of [1; 3] (state r) = true.

Inductive protocol_move n c : CustodyCore.t -> Prop :=
| Report child r p (stage : Z) :
    starting c child r -> protocols c !! child = Some p ->
    PiChildSessionProtocols.lifecycle_state p = stage -> stage = 1 \/ stage = 3 ->
    protocol_move n c
      (c <| protocols := <[child := p <| PiChildSessionProtocols.lifecycle_state := stage + 1 |>]>
              (protocols c) |>)
| Authorize child r p correlation digest :
    starting c child r -> state r = 1 -> protocols c !! child = Some p ->
    PiChildSessionProtocols.lifecycle_state p = 2 ->
    protocol_move n c
      (c <| protocols := <[child := p
              <| PiChildSessionProtocols.lifecycle_state := 3 |>
              <| PiChildSessionProtocols.create_correlation_identity := Some correlation |>
              <| PiChildSessionProtocols.create_request_digest := Some digest |>]> (protocols c) |>)
| BecomeReady child r p y s :
    starting c child r -> protocols c !! child = Some p ->
    PiChildSessionProtocols.lifecycle_state p = 4 ->
    sidecars c !! admission r = Some y ->
    sessions c !! PiChildSpawnSidecars.pi_session_id y = Some s ->
    PiChildSessions.ready_by_command_id s = None ->
    protocol_move n c
      (c <| sessions := <[PiChildSpawnSidecars.pi_session_id y :=
              s <| PiChildSessions.ready_by_command_id := Some n |>]> (sessions c) |>
         <| protocols := <[child := p <| PiChildSessionProtocols.lifecycle_state := 5 |>]>
              (protocols c) |>
         <| children := <[child := if state r =? 1 then staged n 2 r else r]> (children c) |>)
| Abort id child r propagation correlation digest outcome :
    aborts c !! id = None -> children c !! child = Some r -> one_of [2; 3] (state r) = true ->
    at_stage c child 5 -> waits_for c propagation child ->
    protocol_move n c
      (c <| aborts := <[id := PiAbortControlReceipts.new child propagation correlation digest
              outcome n]> (aborts c) |>).

(** What the cause of a signal requires, by its action. *)
Definition signal_due c child r (action cause : Z) (propagation : option Z) : Prop :=
  ((cause = 1 /\ exists q, propagation = Some q /\ waits_for c q child)
   \/ (cause = 2 /\ propagation = None))
  /\ (action = 1 -> forall q, propagation = Some q -> at_stage c child 5 ->
        exists m, aborted c child q m)
  /\ (action = 2 -> exists m, signalled c child 1 cause propagation m)
  /\ (action = 3 -> state r = 4 /\ exists m, lingers c child m)
  /\ one_of [1; 2; 3] action = true.

Inductive receipt_move n c : CustodyCore.t -> Prop :=
| Seal id child r kind digest object completeness :
    seals c !! id = None -> children c !! child = Some r -> one_of [5; 6; 8] (state r) = false ->
    one_of [1; 2; 3; 4] kind = true ->
    (forall k y, seals c !! k = Some y -> NativeChildStreamSeals.native_child_id y = child ->
       NativeChildStreamSeals.stream_kind y <> kind) ->
    (evaluator_child c r -> state r = 4 /\ one_of [3; 4] kind = true) ->
    receipt_move n c
      (c <| seals := <[id := NativeChildStreamSeals.new child kind digest object completeness n]>
              (seals c) |>
         <| children := <[child := if completeness =? 3 then ended n 7 (Some 7) r else r]>
              (children c) |>)
| Observe id child r liveness failed :
    observations c !! id = None -> children c !! child = Some r ->
    one_of [6; 7; 8] (state r) = false -> state r <> 5 \/ liveness <> 1 ->
    (failed = true <-> liveness = 3 \/ regresses c child liveness) ->
    receipt_move n c
      (c <| observations := <[id := NativeChildLivenessObservations.new child liveness n]>
              (observations c) |>
         <| children := <[child := observed n failed liveness r]> (children c) |>)
| Signal id child r action delivery liveness cause propagation failed :
    signals c !! id = None -> children c !! child = Some r ->
    one_of [6; 7; 8] (state r) = false ->
    signal_due c child r action cause propagation ->
    (failed = true <-> delivery = 4 \/ liveness = 3 \/ regresses c child liveness) ->
    receipt_move n c
      (c <| signals := <[id := ProcessSignalReceipts.new child action delivery liveness cause
              propagation n]> (signals c) |>
         <| children := <[child := observed n failed liveness (requested n delivery r)]>
              (children c) |>)
| Reap id child r kind value before after failed :
    reaps c !! id = None -> children c !! child = Some r ->
    one_of [4; 5; 6; 8] (state r) = false ->
    (forall k y, reaps c !! k = Some y -> NativeChildReapReceipts.native_child_id y <> child) ->
    (failed = true <-> after = 3 \/ regresses c child before \/ regresses c child after) ->
    receipt_move n c
      (c <| reaps := <[id := NativeChildReapReceipts.new child kind value before after n]>
              (reaps c) |>
         <| children := <[child := if failed then ended n 7 (Some 7) r
                                   else if state r =? 7 then r else staged n 4 r]>
              (children c) |>)
| Recover id child r observation liveness failed :
    recoveries c !! id = None -> children c !! child = Some r ->
    one_of [1; 2; 3] (state r) = true -> one_of [1; 2; 3] liveness = true ->
    (failed = true <-> liveness = 3 \/ regresses c child liveness) ->
    receipt_move n c
      (c <| recoveries := <[id := NativeChildRecoveryReceipts.new child observation liveness n]>
              (recoveries c) |>
         <| children := <[child := if failed then ended n 7 (Some 7) r
                                   else if liveness =? absent then ended n 6 (Some 6) r
                                   else ended n 5 None r]>
              (children c) |>)
| Finalize child r i y d :
    children c !! child = Some r -> state r = 4 ->
    reaps c !! i = Some y -> NativeChildReapReceipts.native_child_id y = child ->
    gone c child y -> explains c child y d ->
    (pi_child c r -> sealed_count c child (fun _ => true) = 4) ->
    (~ pi_child c r -> sealed_count c child (one_of [3; 4]) = 2) ->
    receipt_move n c
      (c <| children := <[child := ended n 8 (Some d) r]> (children c) |>).

(** The dispositions of the targets of a propagation. *)
Definition has_target c (propagation d : Z) : Prop :=
  exists i t, targets c !! i = Some t
    /\ CancellationPropagationTargets.cancellation_propagation_id t = propagation
    /\ CancellationPropagationTargets.target_disposition t = d.
Inductive cancellation_move n c : CustodyCore.t -> Prop :=
| Begin id q snapshot :
    propagations c !! id = None -> CancellationPropagations.lifecycle_state q = 1 ->
    (forall i t, targets c !! i = Some t -> snapshot !! i = Some t) ->
    (forall i t, snapshot !! i = Some t -> targets c !! i = None -> snapshot_target c id t) ->
    cancellation_move n c
      (c <| propagations := <[id := q]> (propagations c) |> <| targets := snapshot |>)
| Reconcile id q q' refreshed :
    propagations c !! id = Some q -> CancellationPropagations.lifecycle_state q = 1 ->
    refreshed = (fun t =>
      if CancellationPropagationTargets.cancellation_propagation_id t =? id
      then refreshed_target c t else t) <$> targets c ->
    CancellationPropagations.lifecycle_state q' = 3
    \/ (CancellationPropagations.lifecycle_state q' = 2
        /\ ~ has_target (c <| targets := refreshed |>) id 2
        /\ ~ has_target (c <| targets := refreshed |>) id 6) ->
    cancellation_move n c
      (c <| targets := refreshed |> <| propagations := <[id := q']> (propagations c) |>).

(** A command of custody, or one that does not touch its tables. *)
Inductive custody_move n c : CustodyCore.t -> Prop :=
| Admission c' : admission_move n c c' -> custody_move n c c'
| Spawning c' : spawn_move n c c' -> custody_move n c c'
| Protocol c' : protocol_move n c c' -> custody_move n c c'
| Receipt c' : receipt_move n c c' -> custody_move n c c'
| Cancellation c' : cancellation_move n c c' -> custody_move n c c'
| Elsewhere : custody_move n c c.
