(* ===== verification/CustodyRefine.v ===== *)
(** * The transitions refine the machine of custody

    Every accepted command of custody is a move of [CustodyMachine]: each transition is
    inverted statement by statement. *)

From S2P Require Import Prelude.
From S2P Require Import Machine.
From S2P Require Import Hash.
From S2P Require Import KernelScalars.
From S2P Require Import KernelEnums.
From S2P Require Import KernelCustody.
From S2P Require Import KernelCommands.
From S2P Require Import KernelCodes.
From S2P Require Import SqlTable.
From S2P Require Import StoreTables.
From S2P Require Import StoreQueries.
From S2P Require Import StoreProject.
From S2P Require Import StoreCycle.
From S2P Require Import StoreReview.
From S2P Require Import StoreBudget.
From S2P Require Import StoreWork.
From S2P Require Import StoreLedger.
From S2P Require Import StoreFrame.
From S2P Require Import StoreLogic.
From S2P Require Import StudyTables.
From S2P Require Import CustodyTables.
From S2P Require Import CustodyStore.
From S2P Require Import CustodyMachine.
Import CustodyCore(admissions, children, sidecars, sessions, protocols, invalidations,
  observations, signals, reaps, recoveries, aborts, seals, propagations, targets).

Implicit Types (db : CustodyDatabase.t).

(** ** Readers *)

Lemma yields_on_ledger {A} (m : store A) db a db' :
  yields (on_ledger m) db a db' ->
  exists l, yields m (CustodyDatabase.ledger db) a l /\ db' = db <| CustodyDatabase.ledger := l |>.
Proof.
  unfold yields, on_ledger. destruct (m (CustodyDatabase.ledger db)) as [outcome l].
  intros [= -> <-]. by exists l.
Qed.
Lemma on_ledger_reads {A} (m : store A) : reads m -> reads (on_ledger m).
Proof.
  intros Hm db a db' (l & Hl & ->)%yields_on_ledger. apply (reads_same m) in Hl as ->; [|done].
  by destruct db.
Qed.
#[export] Hint Extern 1 (keeps _ (on_ledger _)) =>
  (apply on_ledger_reads; reads_only) : keeps.

Lemma identifier_sound {n} z (id : Identifier.t n) :
  Identifier.try_from z = Ok id -> Identifier.value id = z.
Proof.
  unfold Identifier.try_from, Identifier.new, ok_or.
  destruct (checked z) eqn:E; [|done]. intros [= <-]. by apply checked_some in E.
Qed.

Lemma child_with_admission_ok id e db a db' :
  yields (child_with_admission id e) db a db' ->
  db' = db /\ children (custody_core db) !! Identifier.value id = Some a.1
  /\ admissions (custody_core db) !! NativeChildren.native_child_spawn_admission_id a.1 = Some a.2.
Proof. unfold child_with_admission. intros H. by yields_inv. Qed.

Lemma native_child_cycle_ok id db a db' :
  yields (native_child_cycle_for_generation id) db a db' ->
  db' = db /\ exists r adm, children (custody_core db) !! Identifier.value id = Some r
    /\ admissions (custody_core db) !! NativeChildren.native_child_spawn_admission_id r = Some adm
    /\ ChildProcessState.as_i64 a.2 = NativeChildren.lifecycle_state r.
Proof.
  unfold native_child_cycle_for_generation. intros H. repeat yields_step.
  match goal with H : yields (child_with_admission _ _) _ _ _ |- _ =>
    apply child_with_admission_ok in H as (-> & Hr & Ha) end.
  match goal with H : yields (on_ledger _) _ _ _ |- _ => same_after H; clear H end.
  split; [done|]. exists a0.1, a0.2. split_and!; [done..|]. cbn.
  by apply (table_sound (from_i64 := child_process_state_from_i64)).
Qed.

Lemma child_cycle_ok id db a db' :
  yields (child_cycle_for_generation id) db a db' ->
  db' = db /\ exists r adm y, children (custody_core db) !! Identifier.value id = Some r
    /\ admissions (custody_core db) !! NativeChildren.native_child_spawn_admission_id r = Some adm
    /\ sidecars (custody_core db) !! NativeChildren.native_child_spawn_admission_id r = Some y
    /\ ChildProcessState.as_i64 a.1.2 = NativeChildren.lifecycle_state r
    /\ Identifier.value a.2 = PiChildSpawnSidecars.pi_session_id y.
Proof.
  unfold child_cycle_for_generation. intros H. repeat yields_step.
  match goal with H : yields (child_with_admission _ _) _ _ _ |- _ =>
    apply child_with_admission_ok in H as (-> & Hr & Ha) end.
  match goal with H : yields (on_ledger _) _ _ _ |- _ => same_after H; clear H end.
  split; [done|]. exists a0.1, a0.2, a1. split_and!; [done..| |]; cbn.
  - by apply (table_sound (from_i64 := child_process_state_from_i64)).
  - by apply identifier_sound.
Qed.

Lemma admission_state_ok value db a db' :
  yields (admission_state value) db a db' ->
  db' = db /\ NativeChildSpawnAdmissionState.as_i64 a = value.
Proof.
  unfold admission_state. destruct value as [|[[]|[]|]|]; intros H; yields_inv; done.
Qed.
Lemma admission_cycle_ok id db a db' :
  yields (admission_cycle_for_generation id) db a db' ->
  db' = db /\ exists adm, admissions (custody_core db) !! Identifier.value id = Some adm
    /\ NativeChildSpawnAdmissionState.as_i64 a.2
       = NativeChildSpawnAdmissions.lifecycle_state adm
    /\ Identifier.value a.1 = NativeChildSpawnAdmissions.operating_cycle_id adm.
Proof.
  unfold admission_cycle_for_generation. intros H. repeat yields_step.
  match goal with H : yields (on_ledger _) _ _ _ |- _ => same_after H; clear H end.
  match goal with H : yields (admission_state _) _ _ _ |- _ =>
    apply admission_state_ok in H as [-> E] end.
  split; [done|]. exists a0. split_and!; [done..|]. cbn. by apply identifier_sound.
Qed.

Lemma protocol_stage_ok value db a db' :
  yields (protocol_stage value) db a db' -> db' = db /\ PiChildSessionState.as_i64 a = value.
Proof.
  unfold protocol_stage. destruct value as [|[[[]|[]|]|[[]|[]|]|]|]; intros H; yields_inv; done.
Qed.
Lemma pi_protocol_state_ok id db a db' :
  yields (pi_protocol_state id) db a db' ->
  db' = db /\ at_stage (custody_core db) (Identifier.value id) (PiChildSessionState.as_i64 a).
Proof.
  unfold pi_protocol_state. intros H. yields_inv.
  match goal with H : yields (protocol_stage _) _ _ _ |- _ =>
    apply protocol_stage_ok in H as [-> ->] end.
  split; [done|]. by exists a0.
Qed.
Lemma protocol_is_ok id state e db a db' :
  yields (protocol_is id state e) db a db' ->
  db' = db /\ at_stage (custody_core db) (Identifier.value id) (PiChildSessionState.as_i64 state).
Proof.
  unfold protocol_is. intros H. yields_inv.
  match goal with H : yields (pi_protocol_state _) _ _ _ |- _ => apply pi_protocol_state_ok in H as [-> H] end.
  bool_hyps. by subst.
Qed.

Lemma seen_absent_ok db child :
  seen_absent db child = true <-> exists m, absent_at (custody_core db) child m.
Proof.
  unfold seen_absent. rewrite !orb_true_iff, !exists_where_true. split.
  - intros [[(i & o & Hi & H)|(i & o & Hi & H)]|(i & o & Hi & H)]; bool_hyps; eexists.
    + by eapply AbsentObservation.
    + by eapply AbsentSignal.
    + eapply AbsentReap; [done..|]. apply orb_true_iff in H0. by destruct H0; bool_hyps; [left|right].
  - intros [m []].
    + left; left. do 2 eexists. split; [done|]. subst. by rewrite Z.eqb_refl, H2.
    + left; right. do 2 eexists. split; [done|]. subst. by rewrite Z.eqb_refl, H2.
    + right. do 2 eexists. split; [done|]. subst. rewrite Z.eqb_refl. cbn.
      apply orb_true_iff. destruct H2 as [-> | ->]; [left|right]; done.
Qed.
Lemma reuse_conflict_ok id liveness db b db' :
  yields (liveness_is_reuse_conflict id liveness) db b db' ->
  db' = db /\ (b = true <-> regresses (custody_core db) (Identifier.value id)
                              (ProcessGroupLiveness.as_i64 liveness)).
Proof.
  unfold liveness_is_reuse_conflict, regresses. intros H. destruct (bool_decide _) eqn:E.
  - yields_inv. split; [done|]. bool_hyps. subst. by split; [|intros []].
  - yields_inv. split; [done|]. rewrite seen_absent_ok. bool_hyps.
    split; [|by intros []]. intros Hm. split; [by destruct liveness|done].
Qed.

(** ** Statements *)

(** A statement on a table that the machine does not see. *)
Lemma keeps_insert_or_ignore {X R} (f : CustodyDatabase.t -> X) `{!Constraints R}
  (proj : CustodyDatabase.t -> table R) `{!Update proj} r e :
  Ignores f proj -> keeps f (insert_or_ignore proj r e).
Proof.
  intros Hf db a db' H. unfold yields, insert_or_ignore in H.
  destruct (is_i64 _); [|done]. injection H as _ <-. apply Hf.
Qed.
#[export] Hint Resolve keeps_insert_or_ignore : keeps.
Lemma keeps_identity {X} (f : CustodyDatabase.t -> X) {n} id : keeps f (@identity n id).
Proof. apply keeps_or_reject. Qed.
#[export] Hint Resolve keeps_identity : keeps.

Lemma yields_insert_keyed {R} `{!Constraints R} (proj : CustodyDatabase.t -> table R)
  `{!Update proj} id r e db u db' :
  yields (insert_with_key proj id r e) db u db' ->
  exists t, rows t = <[id := r]> (rows (proj db)) /\ rows (proj db) !! id = None
    /\ constraints (rows (proj db)) r = true /\ db' = db <| proj := t |>.
Proof.
  intros (t & Ht & ->)%yields_insert_key. exists t.
  by apply sql_insert_key_some in Ht as (? & ? & ?).
Qed.

Lemma workspace_keeps id workspace path : keeps custody_core (workspace_for id workspace path).
Proof. solve_keeps. Qed.
Lemma owner_columns_keep id cycle cycle_id owner reservation profile :
  keeps custody_core (pi_owner_columns id cycle cycle_id owner reservation profile).
Proof. unfold pi_owner_columns. solve_keeps. Qed.
Lemma open_epoch_keeps id epoch epoch_identity :
  keeps custody_core (open_supervisor_epoch id epoch epoch_identity).
Proof. unfold open_supervisor_epoch. solve_keeps. Qed.

Lemma yields_keep {X A} (f : CustodyDatabase.t -> X) (m : custody A) db a db' :
  keeps f m -> yields m db a db' -> f db' = f db.
Proof. intros H. apply H. Qed.

(** The columns of an owner are those of exactly one owner. *)
Lemma owner_columns_one id cycle cycle_id owner reservation profile db columns db' :
  yields (pi_owner_columns id cycle cycle_id owner reservation profile) db columns db' ->
  (exists k, columns = (Some k, None, None) \/ columns = (None, Some k, None)
             \/ columns = (None, None, Some k)).
Proof. unfold pi_owner_columns. intros H. destruct owner; yields_inv; eexists; eauto. Qed.

Ltac read_only H :=
  match type of H with
  | yields (child_with_admission _ _) _ ?a _ =>
      destruct a as [? ?]; apply child_with_admission_ok in H as (-> & ? & ?); cbn [fst snd] in *
  | yields (native_child_cycle_for_generation _) _ _ _ =>
      apply native_child_cycle_ok in H as (-> & ? & ? & ? & ? & ?)
  | yields (child_cycle_for_generation _) _ _ _ =>
      apply child_cycle_ok in H as (-> & ? & ? & ? & ? & ? & ? & ? & ?)
  | yields (admission_cycle_for_generation _) _ _ _ =>
      apply admission_cycle_ok in H as (-> & ? & ? & ? & ?)
  | yields (pi_protocol_state _) _ _ _ => apply pi_protocol_state_ok in H as [-> ?]
  | yields (protocol_is _ _ _) _ _ _ => apply protocol_is_ok in H as [-> ?]
  | yields (liveness_is_reuse_conflict _ _) _ _ _ => apply reuse_conflict_ok in H as [-> ?]
  | yields (identity _) _ _ _ =>
      let Hv := fresh "Hid" in apply yields_or_reject in H as [Hv ->]; apply identifier_sound in Hv;
      match type of Hv with _ = ?id => subst id end
  | yields (on_ledger _) _ _ _ => same_after H; clear H
  | yields (require_epoch _ _) _ _ _ => same_after H; clear H
  end.
Ltac custody_step :=
  first [ yields_step
        | match goal with
          | H : yields _ _ _ _ |- _ => read_only H
          | H : yields (insert_into _ _ _) _ _ _ |- _ =>
              let t := fresh "t" in let Ht := fresh "Ht" in
              apply yields_insert_row in H as (t & Ht & ? & ? & ->)
          | H : yields (insert_with_key _ _ _ _) _ _ _ |- _ =>
              let t := fresh "t" in let Ht := fresh "Ht" in
              apply yields_insert_keyed in H as (t & Ht & ? & ? & ->)
          | H : yields (update_where _ _ _ _) _ _ _ |- _ =>
              let t := fresh "t" in let Ht := fresh "Ht" in
              apply yields_update_where_rows in H as (t & Ht & ->)
          | H : yields (update_row _ _ _ _) _ _ _ |- _ =>
              let t := fresh "t" in let Ht := fresh "Ht" in
              eapply yields_update_row in H; [destruct H as (t & Ht & ->)|cbn; eassumption]
          end ].
(** A row that was read twice. *)
Ltac same_rows :=
  repeat match goal with
  | H1 : ?m !! ?k = Some ?x, H2 : ?m !! ?k = Some ?y |- _ =>
      assert (y = x) by congruence; clear H2; subst y
  end.
Ltac custody_inv :=
  repeat custody_step; unfold custody_core in *; cbn in *; bool_hyps; same_rows.
Ltac core_eq :=
  unfold custody_core; cbn;
  repeat match goal with H : rows _ = _ |- _ => rewrite H end; try reflexivity.

Lemma by_custody_move n c c1 c' : c' = c1 -> custody_move n c c1 -> custody_move n c c'.
Proof. by intros ->. Qed.
Lemma by_custody_rule n c c1 c' : custody_move n c c1 -> c' = c1 -> custody_move n c c'.
Proof. by intros ? ->. Qed.
(** The state that the move leads to is read off the database. *)
Ltac moved := eapply by_custody_move; [core_eq|].

Lemma no_other_row {R} (rows : gmap Z R) conflicts i row :
  no_other rows conflicts = true -> rows !! i = Some row -> conflicts row = false.
Proof. intros H%no_other_spec Hi. exact (H i row Hi). Qed.

(** ** Admission *)

Lemma admit_evaluator_moves n g a b d e f w q h i db ev db' :
  yields (admit_deterministic_evaluator_native_child n g a b d e f w q h i) db ev db' ->
  custody_move n (custody_core db) (custody_core db').
Proof.
  unfold admit_deterministic_evaluator_native_child. intros H. repeat custody_step.
  match goal with H : yields (workspace_for _ _ _) _ _ _ |- _ =>
    apply (yields_keep custody_core _ _ _ _ (workspace_keeps _ _ _)) in H as <- end.
  moved. by apply Admission, AdmitEvaluator.
Qed.

Lemma admit_pi_moves n g a b d e f w q h i j db ev db' :
  yields (admit_pi_child_spawn n g a b d e f w q h i j) db ev db' ->
  custody_move n (custody_core db) (custody_core db').
Proof.
  unfold admit_pi_child_spawn. intros H. repeat custody_step.
  match goal with H : yields (pi_owner_columns _ _ _ _ _ _) _ _ _ |- _ =>
    pose proof (owner_columns_one _ _ _ _ _ _ _ _ _ H) as Hone;
    apply (yields_keep custody_core _ _ _ _ (owner_columns_keep _ _ _ _ _ _)) in H as Hk1 end.
  match goal with H : yields (workspace_for _ _ _) _ _ _ |- _ =>
    apply (yields_keep custody_core _ _ _ _ (workspace_keeps _ _ _)) in H as Hk2 end.
  rewrite Hk1 in Hk2. rewrite <-Hk2. moved. apply Admission, AdmitPi; cbn in *; try done.
  - intros k y Hy. unfold constraints, PiChildSpawnSidecars.valid in H4.
    pose proof (no_other_row _ _ _ _ H4 Hy). cbn in *. bool_hyps. lia.
  - destruct Hone as (k & [E|[E|E]]); injection E as -> -> ->; done.
Qed.

(** ** Spawn *)

Lemma for_each_keeps_pairs {A} (f : A -> CancellationPropagationChildren.t) e l :
  keeps custody_core (for_each (fun x =>
    insert_or_ignore CustodyDatabase.cancellation_propagation_children (f x) e) l).
Proof. solve_keeps. Qed.

(** A raced child is attached to the targets it belongs to. *)
Lemma attach_raced_child_ok id belongs db u db' :
  yields (attach_raced_child id belongs) db u db' ->
  custody_core db'
  = (custody_core db) <| targets ::= fmap (attached (Identifier.value id) (belongs db)) |>.
Proof.
  unfold attach_raced_child. intros H. repeat custody_step.
  apply (yields_keep custody_core _ _ _ _ (for_each_keeps_pairs _ _ _)) in H as ->. core_eq.
Qed.

Lemma propagating_ok db propagation f c :
  propagating db propagation f = true ->
  propagations c = rows (CustodyDatabase.cancellation_propagations db) -> under_way c propagation.
Proof.
  unfold propagating, row_holds, under_way. cbn. intros H ->.
  destruct (_ !! propagation) as [q|]; [|done]. bool_hyps. by exists q.
Qed.

Lemma children_unique db aid (r : NativeChildren.t) k r' :
  constraints (rows (CustodyDatabase.native_children db)) r = true ->
  NativeChildren.native_child_spawn_admission_id r = aid ->
  rows (CustodyDatabase.native_children db) !! k = Some r' ->
  NativeChildren.native_child_spawn_admission_id r' <> aid.
Proof.
  unfold constraints, NativeChildren.valid. intros H <- Hk. bool_hyps.
  match goal with H : no_other _ (fun _ => (_ =? _)) = true |- _ =>
    pose proof (no_other_row _ _ _ _ H Hk) end. cbn in *. bool_hyps. congruence.
Qed.

Lemma not_null_is_Some {A} (o : option A) : not_null o = true -> is_Some o.
Proof. by destruct o. Qed.
Lemma null_None {A} (o : option A) : not_null o = false -> o = None.
Proof. by destruct o. Qed.

(** The direct child leads its group. *)
Ltac same_group :=
  match goal with H : NativeProcessValue.value ?pid = NativeProcessValue.value _ |- _ =>
    rewrite <-H in * end.

Lemma spawn_evaluator_moves n id name pid group db ev db' :
  yields (record_deterministic_evaluator_native_child_spawn n id name pid group) db ev db' ->
  custody_move n (custody_core db) (custody_core db').
Proof.
  unfold record_deterministic_evaluator_native_child_spawn. intros H. repeat custody_step.
  match goal with H : yields (attach_raced_child _ _) _ _ _ |- _ =>
    apply attach_raced_child_ok in H as -> end.
  bool_hyps. same_group.
  match goal with H : _ !! Identifier.value id = Some ?a |- _ => rename a into adm end.
  eapply by_custody_move; [|eapply Spawning, (SpawnEvaluator _ _ _ (Identifier.value id) adm
                      (BoundaryIdentity.as_str name) (NativeProcessValue.value pid))].
  - unfold spawned, custody_core. cbn. rewrite Ht, Ht0. reflexivity.
  - unfold may_spawn. split_and!; [done|done|done| |].
    + intros k r. by eapply children_unique.
    + intros t' Ht'. bool_hyps. by eapply propagating_ok.
  - done.
  - by apply null_None.
Qed.

(** The state that a reader returned, as the code of its row. *)
Ltac admitted :=
  match goal with
  | H : ?f ?s = ?code, E : ?s = _ |- _ = _ => rewrite <-H, E
  end.

Lemma spawn_pi_moves n id name pid group db ev db' :
  yields (record_inert_child_spawn n id name pid group) db ev db' ->
  custody_move n (custody_core db) (custody_core db').
Proof.
  unfold record_inert_child_spawn. intros H. repeat custody_step.
  match goal with H : yields (attach_raced_child _ _) _ _ _ |- _ =>
    apply attach_raced_child_ok in H as -> end.
  bool_hyps. same_group.
  unfold custody_core in *. cbn in *. same_rows.
  match goal with H : _ !! Identifier.value id = Some ?a |- _ => rename a into adm end.
  eapply by_custody_move; [|eapply Spawning, (SpawnPi _ _ _ (Identifier.value id) adm
                      (BoundaryIdentity.as_str name) (NativeProcessValue.value pid))].
  - unfold spawned, custody_core. cbn. rewrite Ht, Ht0, Ht1. reflexivity.
  - unfold may_spawn. split_and!; [done|done| | |].
    + by admitted.
    + intros k r. by eapply children_unique.
    + intros t' Ht'. bool_hyps. by eapply propagating_ok.
  - by apply not_null_is_Some.
  - done.
  - done.
  - intros k r Hk Hs Hg. cbn in Hk.
    match goal with H : exists_where _ _ = false |- _ =>
      rewrite exists_where_false in H; specialize (H k r Hk) end.
    cbn in *. rewrite Hg, Z.eqb_refl, orb_true_r, andb_true_r in *. bool_hyps. congruence.
Qed.

Lemma not_spawned_moves n g id reason db ev db' :
  yields (record_native_child_not_spawned n g id reason) db ev db' ->
  custody_move n (custody_core db) (custody_core db').
Proof.
  unfold record_native_child_not_spawned. intros H. custody_inv.
  match goal with H : rows _ !! Identifier.value id = Some ?a |- _ => rename a into adm end.
  eapply by_custody_move; [|eapply Admission, (Invalidate _ _ (Identifier.value id) adm)].
  - core_eq.
  - done.
  - by admitted.
  - done.
  - intros t' Ht'. cbn in Ht'. bool_hyps. split; [|by eapply propagating_ok].
    by destruct (CancellationPropagationTargets.native_child_id t').
Qed.

(** ** The protocol *)

(** A child that its reader found, before its session is ready. *)
Lemma starting_ok c child r y s :
  children c !! child = Some r ->
  sidecars c !! NativeChildren.native_child_spawn_admission_id r = Some y ->
  ChildProcessState.as_i64 s = NativeChildren.lifecycle_state r -> is_starting s = true ->
  starting c child r.
Proof.
  intros Hr Hy Hs H. split_and!; [done|by eexists|]. rewrite <-Hs. by destruct s.
Qed.
(** The protocol at a stage. *)
Ltac at_stage :=
  match goal with H : at_stage _ _ _ |- _ => destruct H as (? & ? & ?) end.

Lemma adapter_ready_moves n id session nonce db ev db' :
  yields (record_pi_adapter_ready id session nonce) db ev db' ->
  custody_move n (custody_core db) (custody_core db').
Proof.
  unfold record_pi_adapter_ready. intros H. repeat custody_step. unfold set_pi_protocol_state in *.
  at_stage. repeat custody_step.
  eapply by_custody_rule; [eapply Protocol, (Report _ _ _ _ _ 1); eauto using starting_ok|core_eq].
Qed.

Lemma delivery_moves n id correlation digest db ev db' :
  yields (record_pi_create_session_delivery id correlation digest) db ev db' ->
  custody_move n (custody_core db) (custody_core db').
Proof.
  unfold record_pi_create_session_delivery. intros H. repeat custody_step. bool_hyps.
  unfold set_pi_protocol_state, row_holds in *.
  destruct (rows (CustodyDatabase.pi_child_session_protocols db) !! _) eqn:E; [|done]. bool_hyps.
  repeat custody_step.
  eapply by_custody_rule; [eapply Protocol, (Report _ _ _ _ _ 3); eauto using starting_ok|core_eq].
Qed.

Lemma authorize_moves n g id correlation digest db ev db' :
  yields (authorize_pi_create_session g id correlation digest) db ev db' ->
  custody_move n (custody_core db) (custody_core db').
Proof.
  unfold authorize_pi_create_session. intros H. repeat custody_step. at_stage.
  repeat custody_step. bool_hyps. cbn [fst snd] in *. same_rows.
  eapply by_custody_rule; [eapply Protocol, Authorize; eauto|core_eq].
  - eapply starting_ok; eauto. by subst.
  - by admitted.
Qed.

(** ** Writing a child *)

Definition with_child db (id : NativeChildId) (r : NativeChildren.t) : CustodyCore.t :=
  (custody_core db) <| children := <[Identifier.value id := r]> (children (custody_core db)) |>.

Lemma with_child_same db id r :
  children (custody_core db) !! Identifier.value id = Some r -> with_child db id r = custody_core db.
Proof. intros H. unfold with_child, custody_core in *. cbn in *. by rewrite insert_id. Qed.
Lemma with_child_again db db1 id r r' :
  custody_core db1 = with_child db id r -> with_child db1 id r' = with_child db id r'.
Proof.
  unfold with_child. intros ->. cbn. unfold custody_core. cbn. by rewrite insert_insert_eq.
Qed.

Section Children.
Variables (n : Z) (id : NativeChildId) (r : NativeChildren.t).
Implicit Types (u : unit).

Lemma set_child_state_ok s db u db' :
  yields (set_child_state id s n) db u db' ->
  children (custody_core db) !! Identifier.value id = Some r ->
  custody_core db' = with_child db id (staged n (ChildProcessState.as_i64 s) r).
Proof.
  unfold set_child_state. intros H Hr. eapply yields_update_row in H; [|exact Hr].
  destruct H as (t & Ht & ->). core_eq.
Qed.
Lemma end_child_ok s d db u db' :
  yields (end_child id s d n) db u db' ->
  children (custody_core db) !! Identifier.value id = Some r ->
  custody_core db' = with_child db id
    (ended n (ChildProcessState.as_i64 s) (option_map ChildTerminalDisposition.as_i64 d) r).
Proof.
  unfold end_child. intros H Hr. eapply yields_update_row in H; [|exact Hr].
  destruct H as (t & Ht & ->). core_eq.
Qed.
Lemma containment_failed_ok db u db' :
  yields (mark_child_containment_failed id n) db u db' ->
  children (custody_core db) !! Identifier.value id = Some r ->
  custody_core db' = with_child db id (ended n 7 (Some 7) r).
Proof. apply end_child_ok. Qed.

Lemma when_ok (b : bool) (m : custody unit) r' db u db' :
  (forall db u db', yields m db u db' ->
     children (custody_core db) !! Identifier.value id = Some r ->
     custody_core db' = with_child db id r') ->
  yields (m_when b m) db u db' ->
  children (custody_core db) !! Identifier.value id = Some r ->
  custody_core db' = with_child db id (if b then r' else r).
Proof.
  intros Hm H Hr. destruct b; cbn in H; [by eapply Hm|].
  apply yields_ret in H as [_ ->]. by rewrite with_child_same.
Qed.

Lemma lose_contained_ok db u db' :
  yields (lose_contained_child id n) db u db' ->
  children (custody_core db) !! Identifier.value id = Some r ->
  custody_core db'
  = with_child db id (if NativeChildren.lifecycle_state r =? 5 then ended n 6 (Some 6) r else r).
Proof.
  unfold lose_contained_child. intros H Hr. yields_inv.
  eapply when_ok in H; [|intros; by eapply end_child_ok|exact Hr]. rewrite H.
  unfold custody_core in Hr. cbn in Hr. cbn. by rewrite Hr.
Qed.

(** [s] is the state of the child before its own change [r0] to [r]. *)
Lemma observe_group_ok s inaccessible liveness regressed db u db' :
  yields (observe_group id s inaccessible liveness regressed n) db u db' ->
  children (custody_core db) !! Identifier.value id = Some r ->
  (NativeChildren.lifecycle_state r = 5 <-> s = ChildProcessState.RecoveryContainmentRequired) ->
  custody_core db' = with_child db id
    (observed n (inaccessible || regressed) (ProcessGroupLiveness.as_i64 liveness) r).
Proof.
  unfold observe_group, observed. intros H Hr Hs. destruct (inaccessible || regressed).
  { by eapply containment_failed_ok. }
  eapply when_ok in H; [|intros; by eapply lose_contained_ok|exact Hr]. rewrite H.
  destruct (NativeChildren.lifecycle_state r =? 5) eqn:E; bool_hyps.
  - apply Hs in E as ->. cbn. by destruct liveness.
  - by case_match.
Qed.
End Children.

Lemma session_ready_is_move n id session db ev db' :
  yields (record_pi_session_ready n id session) db ev db' ->
  custody_move n (custody_core db) (custody_core db').
Proof.
  unfold record_pi_session_ready. intros H. do 2 custody_step.
  repeat (cbn [fst snd] in *; custody_step). at_stage.
  unfold row_holds, set_pi_protocol_state in *.
  destruct (rows (CustodyDatabase.pi_child_sessions db) !! _) eqn:Es; [|done]. bool_hyps.
  repeat custody_step.
  match goal with H : yields (m_when _ _) _ _ _ |- _ =>
    eapply (when_ok id x) in H; [|intros; by eapply set_child_state_ok|done]; rewrite H end.
  cbn [fst snd] in *.
  match goal with H : Identifier.value _ = PiChildSpawnSidecars.pi_session_id _ |- _ =>
    rewrite H in * end.
  eapply by_custody_rule; [eapply Protocol, BecomeReady; eauto using starting_ok|].
  - by apply null_None, negb_false_iff.
  - unfold with_child. core_eq. do 2 f_equal.
    match goal with H : ChildProcessState.as_i64 ?t = _ |- _ => rewrite <-H; by destruct t end.
Qed.

Lemma awaits_ok db propagation child c :
  awaits_child db propagation child = true -> c = custody_core db ->
  waits_for c (Identifier.value propagation) (Identifier.value child).
Proof.
  unfold awaits_child. intros H ->. bool_hyps. split; [by eapply propagating_ok|].
  match goal with H : exists_where _ _ = true |- _ =>
    apply exists_where_true in H as (i & t & Hi & H) end. bool_hyps.
  exists i, t. split_and!; [done|done| |].
  - unfold same_key in *. destruct (CancellationPropagationTargets.native_child_id t); [|done].
    by bool_hyps; subst.
  - match goal with H : is_awaiting t = true |- _ => unfold is_awaiting in H; by bool_hyps end.
Qed.

Lemma abort_moves n g id propagation correlation digest outcome db ev db' :
  yields (record_pi_abort_control_delivery n g id propagation correlation digest outcome) db ev db' ->
  custody_move n (custody_core db) (custody_core db').
Proof.
  unfold record_pi_abort_control_delivery. intros H. do 2 custody_step.
  repeat (cbn [fst snd] in *; custody_step). cbn [fst snd] in *.
  eapply by_custody_rule; [eapply Protocol, Abort; [..|done|by eapply awaits_ok]|core_eq]; [done|done|].
  match goal with H : ChildProcessState.as_i64 ?t = _ |- _ => rewrite <-H; by destruct t end.
Qed.

(** ** Receipts *)

Lemma one_of_true l v : one_of l v = true <-> v ∈ l.
Proof.
  unfold one_of. rewrite existsb_exists. split.
  - intros (x & Hx & E). bool_hyps. subst. by apply list_elem_of_In.
  - intros H. exists v. rewrite Z.eqb_refl. split; [by apply list_elem_of_In|done].
Qed.

(** What the ownership of a child says of its admission. *)
Lemma evaluator_owned_ok db child r :
  children (custody_core db) !! child = Some r -> evaluator_child (custody_core db) r ->
  evaluator_owned db child = true.
Proof.
  intros Hr (a & Ha & He & Hs). unfold evaluator_owned, row_holds, admission_of, has_sidecar.
  unfold custody_core in *. cbn in *. by rewrite Hr, Ha, He, Hs.
Qed.
Lemma pi_owned_ok db child r :
  children (custody_core db) !! child = Some r ->
  is_Some (admissions (custody_core db) !! NativeChildren.native_child_spawn_admission_id r) ->
  pi_owned db child = true <-> pi_child (custody_core db) r.
Proof.
  intros Hr [a Ha]. unfold pi_owned, row_holds, admission_of, has_sidecar, pi_child.
  unfold custody_core in *. cbn in *. rewrite Hr, Ha. cbn.
  split; [apply not_null_is_Some|]. by intros [y ->].
Qed.

(** The state of a child by the code of its row. *)
Ltac child_state :=
  match goal with H : ChildProcessState.as_i64 ?t = NativeChildren.lifecycle_state _ |- _ =>
    cbn [fst snd] in H; rewrite <-H; by destruct t end.

Lemma seal_moves n id stream digest object completeness db ev db' :
  yields (record_child_stream_seal n id stream digest object completeness) db ev db' ->
  custody_move n (custody_core db) (custody_core db').
Proof.
  unfold record_child_stream_seal. intros H. do 2 custody_step.
  repeat (cbn [fst snd] in *; custody_step).
  match goal with H : yields (m_when _ _) _ _ _ |- _ =>
    eapply (when_ok id x) in H; [|intros; by eapply containment_failed_ok|done]; rewrite H end.
  match goal with H : constraints _ _ = true |- _ =>
    unfold constraints, NativeChildStreamSeals.valid in H; cbn in H; bool_hyps end.
  eapply by_custody_rule;
    [eapply Receipt, (Seal _ _ _ _ _ (ChildStreamKind.as_i64 stream) _ _
       (ChildStreamSealCompleteness.as_i64 completeness));
       [done|done|child_state|by destruct stream| |]|].
  - intros k y Hk Hchild Hs.
    match goal with H : no_other _ _ = true |- _ => pose proof (no_other_row _ _ _ _ H Hk) as Hn end.
    cbn in Hn. rewrite Hchild, Hs, !Z.eqb_refl in Hn. done.
  - intros He. eapply evaluator_owned_ok in He; [|done].
    match goal with H : evaluator_owned _ _ && _ = false |- _ => rewrite He in H; cbn in H end.
    bool_hyps. split; [by admitted|]. by destruct stream.
  - unfold with_child. core_eq. by destruct completeness.
Qed.

Lemma inaccessible_code liveness b :
  is_inaccessible liveness || b = true
  <-> ProcessGroupLiveness.as_i64 liveness = 3 \/ b = true.
Proof. rewrite orb_true_iff. by destruct liveness; split; intros [|]; auto. Qed.

(** The state that [observe_group] tests is that of the row. *)
Lemma recovery_code r t :
  ChildProcessState.as_i64 t = NativeChildren.lifecycle_state r ->
  NativeChildren.lifecycle_state r = 5 <-> t = ChildProcessState.RecoveryContainmentRequired.
Proof. intros <-. by destruct t. Qed.

Lemma observe_moves n id liveness db ev db' :
  yields (record_child_process_liveness n id liveness) db ev db' ->
  custody_move n (custody_core db) (custody_core db').
Proof.
  unfold record_child_process_liveness. intros H. do 2 custody_step.
  repeat (cbn [fst snd] in *; custody_step).
  match goal with H : yields (observe_group _ _ _ _ _ _) _ _ _ |- _ =>
    apply (observe_group_ok n id x) in H; [rewrite H|done|by apply recovery_code] end.
  eapply by_custody_rule;
    [eapply Receipt, (Observe _ _ _ _ _ (ProcessGroupLiveness.as_i64 liveness)
       (is_inaccessible liveness || _)); [done|done|child_state| |]|].
  - cbn [fst snd] in *.
    match goal with H : ChildProcessState.as_i64 ?t = _ |- _ => rewrite <-H; destruct t end;
      try (by left). right. by destruct liveness.
  - rewrite inaccessible_code. by apply or_iff_compat_l.
  - unfold with_child. core_eq.
Qed.

Lemma protocol_state_read id db o db' :
  yields (ok_of (pi_protocol_state id)) db o db' ->
  db' = db /\ (at_stage (custody_core db) (Identifier.value id) 5 ->
               o = Some PiChildSessionState.SessionReady).
Proof.
  unfold yields, ok_of. destruct (pi_protocol_state id db) as [[s|e] db1] eqn:E.
  - intros [= <- <-]. destruct (pi_protocol_state_ok id db s db1 E) as [-> (p & Hp & Hs)].
    split; [done|]. intros (p' & Hp' & H5). rewrite Hp in Hp'. injection Hp' as <-.
    rewrite Hs in H5. by destruct s.
  - intros [= <- <-]. revert E. unfold pi_protocol_state, m_bind, select, at_stage, custody_core. cbn.
    destruct (_ !! _) as [p|] eqn:Ep; cbn.
    + intros E. split.
      * revert E. unfold protocol_stage.
        destruct (PiChildSessionProtocols.lifecycle_state p) as [|[[[]|[]|]|[[]|[]|]|]|];
          cbn; by intros [= <-].
      * intros (p' & [= <-] & H5). rewrite H5 in E. discriminate E.
    + intros [= _ <-]. split; [done|]. by intros (p' & ? & _).
Qed.

Lemma prior_signal_ok db id action cause propagation :
  prior_signal_attempt db id action cause propagation = true ->
  exists m, signalled (custody_core db) (Identifier.value id) (ProcessSignalAction.as_i64 action)
    cause (option_map Identifier.value propagation) m.
Proof.
  unfold prior_signal_attempt. intros (i & x & Hi & H)%exists_where_true. bool_hyps.
  unfold same_propagation in *. bool_hyps. exists (ProcessSignalReceipts.recorded_by_command_id x), i, x.
  by split_and!.
Qed.
Lemma prior_abort_ok db id propagation :
  prior_pi_abort_control_attempt db id propagation = true ->
  exists m, aborted (custody_core db) (Identifier.value id) (Identifier.value propagation) m.
Proof.
  unfold prior_pi_abort_control_attempt. intros (i & y & Hi & H)%exists_where_true. bool_hyps.
  exists (PiAbortControlReceipts.recorded_by_command_id y), i, y. by split_and!.
Qed.
Lemma lingering_ok db id r :
  lingering_group_cleanup_is_due db id = true ->
  children (custody_core db) !! Identifier.value id = Some r ->
  NativeChildren.lifecycle_state r = 4 /\ exists m, lingers (custody_core db) (Identifier.value id) m.
Proof.
  unfold lingering_group_cleanup_is_due, row_holds, custody_core. cbn. intros H Hr.
  rewrite Hr in H. bool_hyps. split; [done|].
  match goal with H : exists_where _ _ = true |- _ =>
    apply exists_where_true in H as (i & y & Hi & H) end. bool_hyps.
  exists (NativeChildReapReceipts.reaped_by_command_id y), i, y. by split_and!.
Qed.

Lemma signal_cause_ok id action cause o db columns db' r :
  yields (signal_cause id action cause o) db columns db' ->
  children (custody_core db) !! Identifier.value id = Some r ->
  (at_stage (custody_core db) (Identifier.value id) 5 -> o = Some PiChildSessionState.SessionReady) ->
  db' = db /\ signal_due (custody_core db) (Identifier.value id) r
                (ProcessSignalAction.as_i64 action) columns.1 columns.2.
Proof.
  unfold signal_cause. intros H Hr Ho. destruct cause as [propagation|]; yields_inv; split; try done.
  all: unfold signal_due; cbn [fst snd]; split_and!; try (by destruct action); try (by right).
  - left. split; [done|]. eexists. split; [done|]. by eapply awaits_ok.
  - intros Ha q [= <-] H5. destruct action; try discriminate Ha. rewrite (Ho H5) in Hc.
    by apply prior_abort_ok.
  - intros Ha. destruct action; try discriminate Ha. by apply prior_signal_ok in Hc.
  - intros Ha. destruct action; try discriminate Ha. by apply lingering_ok.
  - intros Ha. destruct action; try discriminate Ha. by apply prior_signal_ok in Hc.
  - intros Ha. destruct action; try discriminate Ha. by apply lingering_ok.
Qed.

Lemma requested_ok n delivery t r :
  ChildProcessState.as_i64 t = NativeChildren.lifecycle_state r ->
  (if bool_decide (delivery = ProcessSignalDelivery.Delivered)
      && match t with
         | ChildProcessState.Spawned | ChildProcessState.Running => true
         | _ => false
         end
   then staged n (ChildProcessState.as_i64 ChildProcessState.CancellationRequested) r else r)
  = requested n (ProcessSignalDelivery.as_i64 delivery) r.
Proof. unfold requested. intros <-. by destruct delivery, t. Qed.
Lemma requested_recovery n delivery t r :
  ChildProcessState.as_i64 t = NativeChildren.lifecycle_state r ->
  NativeChildren.lifecycle_state (requested n delivery r) = 5
  <-> t = ChildProcessState.RecoveryContainmentRequired.
Proof.
  intros E. rewrite <-(recovery_code _ _ E). unfold requested.
  destruct ((delivery =? 1) && _) eqn:E1; [|done]. bool_hyps.
  split; [done|]. intros E5. by rewrite E5 in *.
Qed.
Lemma failed_code delivery liveness b :
  bool_decide (delivery = ProcessSignalDelivery.Inaccessible) || is_inaccessible liveness || b = true
  <-> ProcessSignalDelivery.as_i64 delivery = 4 \/ ProcessGroupLiveness.as_i64 liveness = 3 \/ b = true.
Proof.
  rewrite <-inaccessible_code, <-orb_assoc, orb_true_iff.
  by destruct delivery; split; intros [|]; auto.
Qed.

Lemma signal_moves n id action delivery liveness cause db ev db' :
  yields (record_process_signal_receipt n id action delivery liveness cause) db ev db' ->
  custody_move n (custody_core db) (custody_core db').
Proof.
  unfold record_process_signal_receipt. intros H. do 4 custody_step.
  repeat (cbn [fst snd] in *; custody_step).
  match goal with H : yields (ok_of _) _ _ _ |- _ => apply protocol_state_read in H as [-> Ho] end.
  match goal with H : yields (signal_cause _ _ _ _) _ _ _ |- _ =>
    eapply signal_cause_ok in H as [-> Hdue]; [|done|done] end.
  cbn [fst snd] in *. repeat custody_step.
  match goal with H : yields (m_when _ _) _ _ _ |- _ =>
    eapply (when_ok id x) in H; [|intros; by eapply set_child_state_ok|done]; rename H into Hw end.
  match goal with H : yields (observe_group _ _ _ _ _ _) _ _ _ |- _ =>
    eapply (observe_group_ok n id) in H; [rewrite H|rewrite Hw; apply lookup_insert_eq|] end.
  2:{ rewrite requested_ok by done. by apply requested_recovery. }
  erewrite with_child_again by exact Hw. rewrite requested_ok by done.
  eapply by_custody_rule;
    [eapply Receipt, (Signal _ _ _ _ _ (ProcessSignalAction.as_i64 action)
       (ProcessSignalDelivery.as_i64 delivery) (ProcessGroupLiveness.as_i64 liveness) _ _
       (_ || is_inaccessible liveness || _)); [done|done|child_state|done|]|].
  - rewrite failed_code. apply or_iff_compat_l. by apply or_iff_compat_l.
  - unfold with_child. core_eq.
Qed.

Lemma reap_unique db child kind value before after n k y :
  constraints (rows (CustodyDatabase.native_child_reap_receipts db))
    (NativeChildReapReceipts.new child kind value before after n) = true ->
  rows (CustodyDatabase.native_child_reap_receipts db) !! k = Some y ->
  NativeChildReapReceipts.native_child_id y <> child.
Proof.
  unfold constraints, NativeChildReapReceipts.valid. intros H Hk. bool_hyps.
  match goal with H : no_other _ _ = true |- _ => pose proof (no_other_row _ _ _ _ H Hk) end.
  cbn in *. bool_hyps. congruence.
Qed.

Lemma reap_moves n id status before after db ev db' :
  yields (record_direct_child_reap n id status before after) db ev db' ->
  custody_move n (custody_core db) (custody_core db').
Proof.
  unfold record_direct_child_reap. intros H. do 2 custody_step.
  repeat (cbn [fst snd] in *; custody_step). cbn [fst snd] in *.
  match goal with
  | H1 : _ = true <-> regresses _ _ (ProcessGroupLiveness.as_i64 before),
    H2 : _ = true <-> regresses _ _ (ProcessGroupLiveness.as_i64 after),
    H : yields (if _ then _ else _) ?dbx _ ?dby |- _ =>
      rename H1 into Hbefore, H2 into Hafter;
      assert (custody_core dby = with_child dbx id (
        if is_inaccessible after || (a0 || a1) then ended n 7 (Some 7) x
        else if NativeChildren.lifecycle_state x =? 7 then x else staged n 4 x)) as ->
  end.
  { destruct (is_inaccessible after || (a0 || a1)).
    - by eapply containment_failed_ok.
    - match goal with H : yields (m_when _ _) _ _ _ |- _ =>
        eapply (when_ok id x) in H; [|intros; by eapply set_child_state_ok|done]; rewrite H end.
      match goal with H : ChildProcessState.as_i64 ?t = _ |- _ => rewrite <-H; by destruct t end. }
  eapply by_custody_rule;
    [eapply Receipt, (Reap _ _ _ _ _ _ _ (ProcessGroupLiveness.as_i64 before)
       (ProcessGroupLiveness.as_i64 after) (is_inaccessible after || (a0 || a1)));
       [done|done|child_state|intros k y; by eapply reap_unique|]|].
  - rewrite inaccessible_code, orb_true_iff, Hbefore, Hafter. done.
  - unfold with_child. core_eq.
Qed.

Lemma recover_moves n id observation liveness db ev db' :
  yields (record_child_recovery n id observation liveness) db ev db' ->
  custody_move n (custody_core db) (custody_core db').
Proof.
  unfold record_child_recovery. intros H. do 2 custody_step.
  repeat (cbn [fst snd] in *; custody_step). cbn [fst snd] in *.
  match goal with
  | H1 : _ = true <-> regresses _ _ _, H : yields (match _ with _ => _ end) ?dbx _ ?dby |- _ =>
      rename H1 into Hregress;
      assert (custody_core dby = with_child dbx id (
        if is_inaccessible liveness || a0 then ended n 7 (Some 7) x
        else if ProcessGroupLiveness.as_i64 liveness =? absent then ended n 6 (Some 6) x
        else ended n 5 None x)) as ->
  end.
  { match goal with H : yields (match _ with _ => _ end) _ _ _ |- _ => rename H into Hend end.
    destruct liveness; [destruct a0| |].
    - exact (containment_failed_ok n id x _ _ _ Hend ltac:(done)).
    - exact (end_child_ok n id x _ _ _ _ _ Hend ltac:(done)).
    - destruct a0; [by destruct (proj1 Hregress eq_refl)|].
      exact (end_child_ok n id x _ _ _ _ _ Hend ltac:(done)).
    - exact (containment_failed_ok n id x _ _ _ Hend ltac:(done)). }
  eapply by_custody_rule;
    [eapply Receipt, (Recover _ _ _ _ _ _ (ProcessGroupLiveness.as_i64 liveness)
       (is_inaccessible liveness || a0)); [done|done|child_state|by destruct liveness|]|].
  - rewrite inaccessible_code, Hregress. done.
  - unfold with_child. core_eq.
Qed.

(** ** Finalization *)

Lemma absent_after_ok db child n :
  absent_after db child n = true -> exists m, n < m /\ absent_at (custody_core db) child m.
Proof.
  unfold absent_after. rewrite orb_true_iff, !exists_where_true.
  intros [(i & o & Hi & H)|(i & o & Hi & H)]; bool_hyps; eexists; split; try done.
  - by eapply AbsentObservation.
  - by eapply AbsentSignal.
Qed.

Lemma delivered_ok db child actions :
  exists_where (fun s => (ProcessSignalReceipts.native_child_id s =? child)
      && one_of actions (ProcessSignalReceipts.signal_action s)
      && (ProcessSignalReceipts.delivery s =? 1)) (CustodyDatabase.process_signal_receipts db)
  = true -> delivered (custody_core db) child actions.
Proof.
  intros (i & x & Hi & H)%exists_where_true. bool_hyps. exists i, x. by split_and!.
Qed.

Lemma signal_disposition_ok id (signal : ProcessSignalNumber) db d db' :
  yields (signal_terminal_disposition id signal) db d db' ->
  db' = db
  /\ ((NativeProcessValue.value signal = 15 /\ ChildTerminalDisposition.as_i64 d = 4
       /\ delivered (custody_core db) (Identifier.value id) [1; -1])
      \/ (NativeProcessValue.value signal = 9 /\ ChildTerminalDisposition.as_i64 d = 5
          /\ delivered (custody_core db) (Identifier.value id) [2; 3])).
Proof.
  unfold signal_terminal_disposition. intros H. yields_inv.
  destruct (NativeProcessValue.value signal) as [|[[[[]|[]|]|[[]|[]|]|]|[[[]|[]|]|[[]|[]|]|]|]|];
    yields_inv; split; try done; [left|right]; split_and!; try done.
  - apply delivered_ok. exact Hc.
  - apply delivered_ok. exact Hc.
Qed.

Lemma native_signal value (signal : ProcessSignalNumber) :
  NativeProcessValue.new value = Some signal -> NativeProcessValue.value signal = value.
Proof. apply checked_some. Qed.

Lemma reaped_disposition_ok id db d db' r :
  yields (reaped_disposition id) db d db' ->
  children (custody_core db) !! Identifier.value id = Some r ->
  is_Some (admissions (custody_core db) !! NativeChildren.native_child_spawn_admission_id r) ->
  db' = db /\ exists i y, let c := custody_core db in let child := Identifier.value id in
    reaps c !! i = Some y /\ NativeChildReapReceipts.native_child_id y = child
    /\ gone c child y /\ explains c child y (ChildTerminalDisposition.as_i64 d)
    /\ (pi_child c r -> sealed_count c child (fun _ => true) = 4)
    /\ (~ pi_child c r -> sealed_count c child (one_of [3; 4]) = 2).
Proof.
  unfold reaped_disposition. intros H Hr Ha. yields_inv.
  destruct a0 as [i y]. apply row_where_some in Hv as [Hi Hy]. bool_hyps. cbn [fst snd] in *.
  enough (db' = db /\ explains (custody_core db) (Identifier.value id) y
                      (ChildTerminalDisposition.as_i64 d)) as [-> He].
  { split; [done|]. exists i, y. split_and!; try done.
    - destruct (NativeChildReapReceipts.group_liveness_after_cleanup y =? absent) eqn:E; bool_hyps.
      + by left.
      + right. by apply absent_after_ok.
    - intros Hpi. rewrite (proj2 (pi_owned_ok _ _ _ Hr Ha) Hpi) in *. done.
    - intros Hpi. destruct (pi_owned db (Identifier.value id)) eqn:E.
      + by apply (pi_owned_ok _ _ _ Hr Ha) in E.
      + cbn in *. by bool_hyps. }
  unfold explains.
  destruct (NativeChildReapReceipts.wait_status_kind y) as [|[|[]|]|],
    (NativeChildReapReceipts.status_value y) as [value|]; yields_inv; try done.
  - apply signal_disposition_ok in H as [-> H]. apply native_signal in Hv as <-.
    split; [done|]. right. destruct H as [(-> & ? & ?)|(-> & ? & ?)]; auto 10.
  - split; [done|]. left. by split_and!; [|eexists|].
Qed.

Lemma finalize_moves n id db ev db' :
  yields (finalize_child_process n id) db ev db' ->
  custody_move n (custody_core db) (custody_core db').
Proof.
  unfold finalize_child_process. intros H. do 2 custody_step. cbn [fst snd] in *.
  repeat custody_step. cbn [fst snd] in *.
  match goal with H : yields (match _ with _ => _ end) _ _ _ |- _ => rename H into Hd end.
  match goal with H : ChildProcessState.as_i64 ?t = _ |- _ => rename H into Ht; destruct t end;
    yields_inv; try done.
  eapply reaped_disposition_ok in Hd as (-> & i & y & Hd); [|done|by eexists].
  destruct Hd as (? & ? & ? & ? & ? & ?).
  match goal with H : yields (end_child _ _ _ _) _ _ _ |- _ =>
    eapply end_child_ok in H; [rewrite H|done] end.
  by eapply Receipt, Finalize.
Qed.

(** ** Beside custody *)

(** What custody has in the tables of the ledger. *)
Definition ledger_custody (l : Database.t) :
  gmap Z NativeChildSpawnAdmissions.t * gmap Z NativeChildren.t * gmap Z PiChildSpawnSidecars.t
  * gmap Z PiChildSessionProtocols.t * gmap Z CancellationPropagations.t :=
  (rows (Database.native_child_spawn_admissions l), rows (Database.native_children l),
   rows (Database.pi_child_spawn_sidecars l), rows (Database.pi_child_session_protocols l),
   rows (Database.cancellation_propagations l)).
Lemma with_ledger db l :
  ledger_custody l = ledger_custody (CustodyDatabase.ledger db) ->
  custody_core (db <| CustodyDatabase.ledger := l |>) = custody_core db.
Proof. unfold ledger_custody. intros [= ? ? ? ? ?]. core_eq. Qed.
Lemma keeps_on_ledger {A} (m : store A) :
  keeps ledger_custody m -> keeps custody_core (on_ledger m).
Proof. intros Hm db a db' (l & Hl & ->)%yields_on_ledger. by apply with_ledger, (Hm _ a). Qed.

#[export] Hint Extern 1 (keeps custody_core (on_ledger _)) =>
  (apply keeps_on_ledger; solve_keeps) : keeps.

Lemma finalize_experiment_keeps n g cycle experiment :
  keeps custody_core (finalize_deterministic_experiment n g cycle experiment).
Proof. unfold finalize_deterministic_experiment. solve_keeps. Qed.
Lemma qualify_keeps n g a b d e f h i j k l m :
  keeps custody_core (qualify_native_execution_profile n g a b d e f h i j k l m).
Proof. unfold qualify_native_execution_profile. solve_keeps. Qed.

Lemma keeps_moves n (m : custody EventBody.t) db ev db' :
  keeps custody_core m -> yields m db ev db' -> custody_move n (custody_core db) (custody_core db').
Proof. intros Hm H. rewrite (Hm _ _ _ H). apply Elsewhere. Qed.

(** ** Cancellation *)

(** A loop of insertions: the rows before, and rows that [P] holds of. *)
Definition adds db db' (P : CancellationPropagationTargets.t -> Prop) : Prop :=
  exists snapshot, custody_core db' = (custody_core db) <| targets := snapshot |>
    /\ (forall i t, targets (custody_core db) !! i = Some t -> snapshot !! i = Some t)
    /\ (forall i t, snapshot !! i = Some t -> targets (custody_core db) !! i = None -> P t).

Lemma adds_refl db P : adds db db P.
Proof.
  exists (targets (custody_core db)). split_and!; [by destruct (custody_core db)|done|].
  intros i t -> [=].
Qed.
Lemma adds_trans db1 db2 db3 P : adds db1 db2 P -> adds db2 db3 P -> adds db1 db3 P.
Proof.
  intros (s2 & E2 & H2 & P2) (s3 & E3 & H3 & P3). exists s3. rewrite E2 in *. cbn in *.
  split_and!; [done|auto|]. intros i t Hi Hn.
  destruct (s2 !! i) as [t'|] eqn:E; [|by eapply P3].
  rewrite (H3 _ _ E) in Hi. injection Hi as <-. by eapply P2.
Qed.
Lemma adds_one db e row id db' (P : CancellationPropagationTargets.t -> Prop) :
  yields (insert_into CustodyDatabase.cancellation_propagation_targets row e) db id db' ->
  P row -> adds db db' P.
Proof.
  intros (t & Ht & Hn & _ & ->)%yields_insert_row Hrow.
  exists (<[id := row]> (targets (custody_core db))). split_and!; [core_eq| |].
  - intros i t' Hi. unfold custody_core in *. cbn in *. rewrite lookup_insert_ne; congruence.
  - intros i t' Hi Hni. destruct (decide (id = i)) as [->|Hne].
    + rewrite lookup_insert_eq in Hi. by injection Hi as <-.
    + rewrite lookup_insert_ne in Hi by done. congruence.
Qed.
Lemma adds_each {A} (body : A -> custody unit) (P : CancellationPropagationTargets.t -> Prop) l db u db' :
  (forall x db u db', x ∈ l -> yields (body x) db u db' -> adds db db' P) ->
  yields (for_each body l) db u db' -> adds db db' P.
Proof.
  revert db u. induction l as [|x l IH]; intros db u Hb H; cbn in H.
  { apply yields_ret in H as [_ ->]. apply adds_refl. }
  apply yields_bind in H as (u1 & db1 & H1 & H2). eapply adds_trans.
  - eapply Hb; [by left|done].
  - eapply IH; [|done]. intros. eapply Hb; [by right|done].
Qed.

Lemma left_joined {A B} (l : list A) (on : A -> list B) a b :
  (a, Some b) ∈ left_join l on -> b ∈ on a.
Proof.
  unfold left_join. intros H%list_elem_of_In. apply in_flat_map in H as (a' & _ & H).
  destruct (on a') as [|b' rows] eqn:E; [by destruct H as [[=]|[]]|].
  change (In (a, Some b) (map (fun b => (a', Some b)) (b' :: rows))) in H. rewrite <-E in H.
  apply in_map_iff in H as (b'' & [= <- <-] & H). by apply list_elem_of_In.
Qed.
Lemma owned_child {A} db (owners : list (Z * A)) owner_of owner admission child r :
  (owner, admission, Some (child, r)) ∈ owned_children db owners owner_of ->
  children (custody_core db) !! child = Some r.
Proof.
  unfold owned_children. intros H. apply list_elem_of_In, in_map_iff in H as ([[o a] c] & E & H).
  cbn in E. injection E as _ -> ->. apply list_elem_of_In, left_joined in H. cbn in H.
  destruct admission as [a|]; [|by apply not_elem_of_nil in H]. by apply elem_of_rows_where in H as [H _].
Qed.

Lemma snapshot_row db db0 {A} (owners : list (Z * A)) owner_of propagation attempt session experiment
    owner admission child :
  children (custody_core db0) = children (custody_core db) ->
  (owner, admission, child) ∈ owned_children db owners owner_of ->
  snapshot_target (custody_core db0) propagation
    (CancellationPropagationTargets.new propagation attempt session experiment
       (option_map fst child) (snapshot_disposition admission child)).
Proof.
  intros Hc H. split; [done|]. cbn. destruct child as [[child r]|]; cbn.
  - exists r. split; [|done]. change (children (custody_core db0) !! child = Some r). rewrite Hc.
    by eapply owned_child.
  - destruct admission as [[aid a]|]; [|by left]. destruct (_ =? 1); auto.
Qed.

Lemma adds_children db db' P :
  adds db db' P -> children (custody_core db') = children (custody_core db).
Proof. by intros (? & -> & _). Qed.

Lemma insert_targets_ok {A} propagation (owners : CustodyDatabase.t -> list (Z * A)) owner_of columns
    db0 db u db' :
  children (custody_core db0) = children (custody_core db) ->
  yields (insert_targets propagation owners owner_of columns) db u db' ->
  adds db db' (snapshot_target (custody_core db0) propagation).
Proof.
  unfold insert_targets. intros Hc H. yields_inv.
  eapply adds_each; [|eassumption]. clear H. intros [[owner admission] child] db1 u1 db2 Hx H.
  cbn in H. destruct (columns owner) as [[attempt session] experiment]. yields_inv.
  eapply adds_one; [eassumption|]. by eapply snapshot_row.
Qed.

Lemma begin_cancellation_moves n g id db ev db' :
  yields (begin_cancellation_propagation n g id) db ev db' ->
  custody_move n (custody_core db) (custody_core db').
Proof.
  unfold begin_cancellation_propagation. intros H. repeat custody_step.
  repeat match goal with
  | H : yields (for_each _ _) _ _ _ |- _ =>
      apply (yields_keep custody_core) in H; [|solve [solve_keeps]]
  | H : yields (update_row _ _ _ _) _ _ _ |- _ =>
      apply (yields_keep custody_core) in H; [|solve [solve_keeps]]
  end.
  match goal with
  | H1 : yields (insert_targets _ _ _ _) ?d _ ?d1, H2 : yields (insert_targets _ _ _ _) ?d1 _ ?d2,
    H3 : yields (insert_targets _ _ _ _) ?d2 _ ?d3 |- _ =>
      apply (insert_targets_ok _ _ _ _ d) in H1; [|done];
      apply (insert_targets_ok _ _ _ _ d) in H2; [|symmetry; by eapply adds_children];
      apply (insert_targets_ok _ _ _ _ d) in H3;
        [|symmetry; etrans; eapply adds_children; eassumption];
      pose proof (adds_trans _ _ _ _ H1 (adds_trans _ _ _ _ H2 H3)) as (snapshot & E & Hs & Hn)
  end.
  repeat match goal with H : custody_core _ = custody_core _ |- _ => rewrite H; clear H end.
  rewrite E. moved. by apply Cancellation, Begin.
Qed.

Lemma refreshed_ok db : refreshed db = refreshed_target (custody_core db).
Proof. done. Qed.
Lemma no_target db c propagation d :
  targets c = rows (CustodyDatabase.cancellation_propagation_targets db) ->
  count_where (fun t =>
      (CancellationPropagationTargets.cancellation_propagation_id t =? propagation)
      && (CancellationPropagationTargets.target_disposition t =? d))
    (CustodyDatabase.cancellation_propagation_targets db) = 0 ->
  ~ has_target c propagation d.
Proof.
  intros E H (i & t & Hi & <- & <-). rewrite E in Hi.
  pose proof (proj1 (count_where_zero _ _) H i t Hi) as Hf. cbn in Hf. by rewrite !Z.eqb_refl in Hf.
Qed.
Lemma reconcile_moves n g id db ev db' :
  yields (reconcile_cancellation_propagation n g id) db ev db' ->
  custody_move n (custody_core db) (custody_core db').
Proof.
  unfold reconcile_cancellation_propagation. intros H. repeat custody_step.
  destruct (count_where _ _ =? 0) eqn:E6; cbn [negb] in H; repeat custody_step; bool_hyps;
    match goal with
    | E : rows _ = <[_ := ?q]> _ |- _ =>
        eapply by_custody_rule;
          [eapply Cancellation, (Reconcile n (custody_core db) (Identifier.value id) a q); try done
          | core_eq]
    end; [|by left].
  right. split_and!; [done|by eapply no_target; [|eassumption]..].
Qed.

(** ** Every accepted command *)

Theorem dispatch_custody_moves n request (m : custody EventBody.t) db ev db' :
  dispatch_custody n request = Some m -> yields m db ev db' ->
  custody_move n (custody_core db) (custody_core db').
Proof.
  unfold dispatch_custody. intros Hd H.
  destruct (CommandRequest.body request); try discriminate Hd; injection Hd as <-;
    solve [ by eapply admit_evaluator_moves | by eapply admit_pi_moves
          | by eapply spawn_evaluator_moves | by eapply spawn_pi_moves
          | by eapply not_spawned_moves | by eapply adapter_ready_moves
          | by eapply authorize_moves | by eapply delivery_moves | by eapply session_ready_is_move
          | by eapply abort_moves | by eapply seal_moves | by eapply observe_moves
          | by eapply signal_moves | by eapply reap_moves | by eapply recover_moves
          | by eapply finalize_moves | by eapply begin_cancellation_moves
          | by eapply reconcile_moves
          | eapply keeps_moves; [|eassumption];
            (apply open_epoch_keeps || apply finalize_experiment_keeps || apply qualify_keeps) ].
Qed.

(** The modelled commands of the ledger are beside custody too. *)
Lemma ledger_keeps_custody id request m :
  modelled id request = Some m -> keeps ledger_custody m.
Proof.
  unfold modelled, dispatch_lifecycle, dispatch_coordination, dispatch_work. intros H.
  destruct (CommandRequest.body request); try discriminate H; injection H as <-; solve_keeps.
Qed.
