(* ===== verification/CustodyInvariants.v ===== *)
(** * Invariants of native custody

    By rule induction on [CustodyMachine], with the commands numbered upwards: what lasts of
    a child, its admission and its receipts; that a child has one admission, a session one
    child; that absence is final, signals escalate, a finalized child is accounted for, and
    a reconciled cancellation waits for no child. *)

From S2P Require Import Prelude.
From S2P Require Import Machine.
From S2P Require Import SqlTable.
From S2P Require Import StoreTables.
From S2P Require Import StudyTables.
From S2P Require Import CustodyTables.
From S2P Require Import CustodyStore.
From S2P Require Import CustodyMachine.
Import CustodyCore(admissions, children, sidecars, sessions, protocols, invalidations,
  observations, signals, reaps, recoveries, aborts, seals, propagations, targets).

Implicit Types (c : CustodyCore.t) (a : NativeChildSpawnAdmissions.t) (r : NativeChildren.t)
  (p : PiChildSessionProtocols.t) (s : PiChildSessions.t) (x : ProcessSignalReceipts.t)
  (t : CancellationPropagationTargets.t) (m n child : Z).

(** ** What lasts *)

(** The states that may follow a state of a child. *)
Definition next_states (from : Z) : list Z :=
  match from with
  | 1 => [2; 3; 4; 5; 6; 7]
  | 2 => [3; 4; 5; 6; 7]
  | 3 => [4; 5; 6; 7]
  | 4 => [7; 8]
  | 5 => [6; 7]
  | _ => []
  end.
Definition reaches : relation Z := rtc (fun from to => to ∈ next_states from).

Lemma reaches_next from to : to ∈ next_states from -> reaches from to.
Proof. intros H. by apply rtc_once. Qed.
Lemma one_of_cases l v : one_of l v = true <-> v ∈ l.
Proof.
  unfold one_of. rewrite existsb_exists. setoid_rewrite <-list_elem_of_In. split.
  - by intros (w & Hw & ->%Z.eqb_eq).
  - intros H. exists v. by rewrite Z.eqb_refl.
Qed.
Lemma one_of_fewer l l' v :
  forallb (one_of l) l' = true -> one_of l v = false -> one_of l' v = false.
Proof.
  rewrite forallb_forall, <-!not_true_iff_false. intros Hl H Hv%one_of_cases. apply H, Hl.
  by apply list_elem_of_In.
Qed.
(** A code among some is each of them. *)
Ltac code_of E :=
  apply one_of_cases in E; rewrite !elem_of_cons, elem_of_nil in E;
  repeat destruct E as [E|E]; try contradiction.
Lemma reaches_terminal from to : one_of [6; 7; 8] from = true -> reaches from to -> to = from.
Proof.
  intros Hs H. inversion H as [|? s1 ? Hn]; subst; [done|]. exfalso.
  code_of Hs; rewrite Hs in Hn; by apply not_elem_of_nil in Hn.
Qed.

(** The state and the disposition of a child agree. *)
Definition child_ok r : Prop :=
  (disposition r = None /\ one_of [1; 2; 3; 4; 5] (state r) = true)
  \/ (disposition r = Some (state r) /\ one_of [6; 7] (state r) = true)
  \/ (state r = 8 /\ exists d, disposition r = Some d /\ one_of [1; 4; 5] d = true).
Definition terminal r : bool := one_of [6; 7; 8] (state r).

Definition child_le r r' : Prop :=
  admission r' = admission r
  /\ NativeChildren.child_identity r' = NativeChildren.child_identity r
  /\ NativeChildren.direct_child_pid r' = NativeChildren.direct_child_pid r
  /\ NativeChildren.process_group_id r' = NativeChildren.process_group_id r
  /\ NativeChildren.spawned_by_command_id r' = NativeChildren.spawned_by_command_id r
  /\ reaches (state r) (state r')
  /\ (terminal r = true -> disposition r' = disposition r).
(** Its owner never changes; an admission is used or invalidated once. *)
Definition admission_le a a' : Prop :=
  (NativeChildSpawnAdmissions.lifecycle_state a <> 1 -> a' = a)
  /\ is_evaluator a' = is_evaluator a /\ has_pi_owner a' = has_pi_owner a.
Definition session_le s s' : Prop :=
  PiChildSessions.pi_session_identity s' = PiChildSessions.pi_session_identity s
  /\ (PiChildSessions.ready_by_command_id s <> None -> s' = s).
Definition protocol_le p p' : Prop :=
  PiChildSessionProtocols.lifecycle_state p <= PiChildSessionProtocols.lifecycle_state p'
  /\ (3 <= PiChildSessionProtocols.lifecycle_state p ->
        PiChildSessionProtocols.create_request_digest p'
        = PiChildSessionProtocols.create_request_digest p).
Definition propagation_le (q q' : CancellationPropagations.t) : Prop :=
  CancellationPropagations.lifecycle_state q <> 1 -> q' = q.

#[export] Instance child_le_refl : Reflexive child_le.
Proof. intros r. by split_and!; try done. Qed.
#[export] Instance child_le_trans : Transitive child_le.
Proof.
  intros r1 r2 r3 (?&?&?&?&?&R1&D1) (?&?&?&?&?&R2&D2). split_and!; try congruence.
  - by etrans.
  - intros Ht. rewrite D2; [by apply D1|]. unfold terminal in *.
    by rewrite (reaches_terminal _ _ Ht R1).
Qed.
#[export] Instance admission_le_refl : Reflexive admission_le.
Proof. by intros a. Qed.
#[export] Instance admission_le_trans : Transitive admission_le.
Proof.
  intros a1 a2 a3 (H1 & ? & ?) (H2 & ? & ?). split_and!; try congruence.
  intros Hl. assert (a2 = a1) as -> by auto. auto.
Qed.
#[export] Instance session_le_refl : Reflexive session_le.
Proof. by intros s. Qed.
#[export] Instance session_le_trans : Transitive session_le.
Proof.
  intros s1 s2 s3 (? & H1) (? & H2). split; [congruence|].
  intros Hl. assert (s2 = s1) as -> by auto. auto.
Qed.
#[export] Instance protocol_le_refl : Reflexive protocol_le.
Proof. by intros p. Qed.
#[export] Instance protocol_le_trans : Transitive protocol_le.
Proof.
  intros p1 p2 p3 (? & H1) (? & H2). split; [lia|]. intros Hl. rewrite H2 by lia. auto.
Qed.
#[export] Instance propagation_le_refl : Reflexive propagation_le.
Proof. by intros q. Qed.
#[export] Instance propagation_le_trans : Transitive propagation_le.
Proof. intros q1 q2 q3 H1 H2 H. assert (q2 = q1) as -> by auto. auto. Qed.

Record later c c' : Prop := {
  later_children : evolves child_le (children c) (children c');
  later_admissions : evolves admission_le (admissions c) (admissions c');
  later_sessions : evolves session_le (sessions c) (sessions c');
  later_protocols : evolves protocol_le (protocols c) (protocols c');
  later_propagations : evolves propagation_le (propagations c) (propagations c');
  later_sidecars : sidecars c ⊆ sidecars c';
  later_invalidations : invalidations c ⊆ invalidations c';
  later_observations : observations c ⊆ observations c';
  later_signals : signals c ⊆ signals c';
  later_reaps : reaps c ⊆ reaps c';
  later_recoveries : recoveries c ⊆ recoveries c';
  later_aborts : aborts c ⊆ aborts c';
  later_seals : seals c ⊆ seals c';
}.

#[export] Instance later_refl : Reflexive later.
Proof. intros c. constructor; first [by apply evolves_same, _ | done]. Qed.
#[export] Instance later_trans : Transitive later.
Proof.
  intros c1 c2 c3 [] [].
  constructor; first [eapply evolves_trans; [apply _|eassumption|eassumption] | by etrans].
Qed.

(** ** Rows of children *)

Definition child_step r r' : Prop := child_le r r' /\ child_ok r'.

Lemma live_state r : child_ok r -> terminal r = false ->
  disposition r = None /\ one_of [1; 2; 3; 4; 5] (state r) = true.
Proof.
  unfold terminal. intros [H|[[_ H]|[H _]]] Ht; [done|exfalso..]; [code_of H|];
    by rewrite H in Ht.
Qed.
Lemma ended_step n to d r :
  child_ok r -> terminal r = false -> to ∈ next_states (state r) -> child_ok (ended n to d r) ->
  child_step r (ended n to d r).
Proof.
  intros Hok Ht Hto H. split; [|done]. split_and!; try done; [|by rewrite Ht].
  by apply reaches_next.
Qed.
Lemma staged_step n to r :
  child_ok r -> terminal r = false -> to ∈ next_states (state r) ->
  one_of [1; 2; 3; 4; 5] to = true -> child_step r (staged n to r).
Proof.
  intros Hok Ht Hto H. destruct (live_state r Hok Ht) as [Hd _].
  assert (staged n to r = ended n to None r) as -> by (destruct r; cbn in *; by subst).
  apply ended_step; [done..|]. by left.
Qed.
Lemma failed_step n r : child_ok r -> one_of [6; 8] (state r) = false ->
  child_step r (ended n 7 (Some 7) r).
Proof.
  intros Hok H. assert (child_ok (ended n 7 (Some 7) r)) by (by right; left).
  destruct (terminal r) eqn:Ht.
  - unfold terminal in Ht. code_of Ht; rewrite Ht in H; try done.
    split; [|done]. split_and!; try done; [by rewrite Ht|]. intros _.
    destruct Hok as [[_ E]|[[E _]|[E _]]]; [code_of E; lia|by rewrite E, Ht|lia].
  - apply ended_step; [done|done| |done]. destruct (live_state r Hok Ht) as [_ E].
    apply one_of_cases. by code_of E; rewrite E.
Qed.
Lemma child_step_trans r1 r2 r3 : child_step r1 r2 -> child_step r2 r3 -> child_step r1 r3.
Proof. intros [H1 _] [H2 ?]. split; [by etrans|done]. Qed.
Lemma same_step r : child_ok r -> child_step r r.
Proof. done. Qed.

Lemma requested_step n delivery r :
  child_ok r -> one_of [6; 7; 8] (state r) = false ->
  child_step r (requested n delivery r)
  /\ one_of [6; 7; 8] (state (requested n delivery r)) = false.
Proof.
  intros Hok Ht. unfold requested. destruct (_ && _) eqn:E; [|by split; [by apply same_step|]].
  apply andb_true_iff in E as [_ E]. split; [|done]. apply staged_step; [done..| |done].
  apply one_of_cases. by code_of E; rewrite E.
Qed.
Lemma observed_step n failed liveness r :
  child_ok r -> one_of [6; 7; 8] (state r) = false -> child_step r (observed n failed liveness r).
Proof.
  intros Hok Ht. unfold observed. destruct failed.
  - apply failed_step; [done|]. by eapply one_of_fewer; [|exact Ht].
  - destruct (_ && _) eqn:E; [|by apply same_step].
    apply andb_true_iff in E as [E%Z.eqb_eq _].
    apply ended_step; [done|done| |by right; left]. apply one_of_cases. by rewrite E.
Qed.

(** ** What a move adds *)

(** At most one row, that [P] holds of. *)
Definition grew {R} (P : Z -> R -> Prop) (before after : gmap Z R) : Prop :=
  after = before \/ exists i row, before !! i = None /\ after = <[i := row]> before /\ P i row.

Section Grew.
Context {R : Type} (P : Z -> R -> Prop) (before after : gmap Z R) (H : grew P before after).
Lemma grew_same_or_new i row : after !! i = Some row ->
  before !! i = Some row \/ (before !! i = None /\ P i row).
Proof.
  destruct H as [->|(k & y & Hk & -> & Hp)]; [by left|]. intros Hi. lookups; auto.
Qed.
Lemma grew_one i j row row' : after !! i = Some row -> after !! j = Some row' ->
  before !! i = None -> before !! j = None -> i = j.
Proof.
  destruct H as [->|(k & y & Hk & -> & Hp)]; intros; lookups; congruence.
Qed.
Lemma grew_subseteq : before ⊆ after.
Proof. destruct H as [->|(k & y & Hk & -> & Hp)]; [done|]. by apply insert_subseteq. Qed.
End Grew.

(** A liveness that contradicts an absence fails the containment of the child. *)
Definition contradicted c c' child (liveness : Z) : Prop :=
  regresses c child liveness -> exists r, children c' !! child = Some r /\ state r = 7.

(** The rows that a move adds to the tables that only grow. *)
Record growth n c c' : Prop := {
  new_sidecar : grew (fun i y => admissions c !! i = None /\ is_Some (admissions c' !! i)
      /\ sessions c !! PiChildSpawnSidecars.pi_session_id y = None
      /\ is_Some (sessions c' !! PiChildSpawnSidecars.pi_session_id y)
      /\ forall k z, sidecars c !! k = Some z ->
           PiChildSpawnSidecars.pi_session_id z <> PiChildSpawnSidecars.pi_session_id y)
    (sidecars c) (sidecars c');
  new_invalidation : grew (fun _ _ => True) (invalidations c) (invalidations c');
  new_observation : grew (fun _ o =>
      NativeChildLivenessObservations.observed_by_command_id o = n
      /\ is_Some (children c !! NativeChildLivenessObservations.native_child_id o)
      /\ contradicted c c' (NativeChildLivenessObservations.native_child_id o)
           (NativeChildLivenessObservations.liveness o))
    (observations c) (observations c');
  new_signal : grew (fun _ x => ProcessSignalReceipts.recorded_by_command_id x = n
      /\ exists r, children c !! ProcessSignalReceipts.native_child_id x = Some r
         /\ signal_due c (ProcessSignalReceipts.native_child_id x) r
              (ProcessSignalReceipts.signal_action x) (ProcessSignalReceipts.cause_kind x)
              (ProcessSignalReceipts.cancellation_propagation_id x)
         /\ contradicted c c' (ProcessSignalReceipts.native_child_id x)
              (ProcessSignalReceipts.observed_liveness x))
    (signals c) (signals c');
  new_reap : grew (fun _ y => NativeChildReapReceipts.reaped_by_command_id y = n
      /\ is_Some (children c !! NativeChildReapReceipts.native_child_id y)
      /\ contradicted c c' (NativeChildReapReceipts.native_child_id y)
           (NativeChildReapReceipts.group_liveness_before_cleanup y)
      /\ contradicted c c' (NativeChildReapReceipts.native_child_id y)
           (NativeChildReapReceipts.group_liveness_after_cleanup y))
    (reaps c) (reaps c');
  new_recovery : grew (fun _ y => NativeChildRecoveryReceipts.recorded_by_command_id y = n
      /\ is_Some (children c !! NativeChildRecoveryReceipts.native_child_id y)
      /\ contradicted c c' (NativeChildRecoveryReceipts.native_child_id y)
           (NativeChildRecoveryReceipts.group_liveness_after_restart y))
    (recoveries c) (recoveries c');
  new_abort : grew (fun _ y => PiAbortControlReceipts.recorded_by_command_id y = n)
    (aborts c) (aborts c');
  new_seal : grew (fun _ y => one_of [1; 2; 3; 4] (NativeChildStreamSeals.stream_kind y) = true
      /\ forall k z, seals c !! k = Some z ->
           NativeChildStreamSeals.native_child_id z = NativeChildStreamSeals.native_child_id y ->
           NativeChildStreamSeals.stream_kind z <> NativeChildStreamSeals.stream_kind y)
    (seals c) (seals c');
}.
Lemma move_grows n c c' : custody_move n c c' -> growth n c c'.
Proof.
  intros []; [| | | | |by constructor; left];
    match goal with H : _ |- _ => destruct H end; constructor; cbn; try by left.
  all: right; do 2 eexists; split_and!; try reflexivity; cbn; try done;
    rewrite ?lookup_insert_eq; eauto.
  all: try (eexists; split_and!; [done..|]).
  all: intros R; cbn in R; eexists; split; [apply lookup_insert_eq|];
    match goal with H : _ = true <-> _ |- _ => by rewrite (proj2 H) by auto end.
Qed.

(** The children of a state are well-formed, so a move only moves them on. *)
Lemma receipt_children n c c' :
  (forall k r, children c !! k = Some r -> child_ok r) -> receipt_move n c c' ->
  exists child r r', children c !! child = Some r /\ child_step r r'
    /\ children c' = <[child := r']> (children c).
Proof.
  intros Hok []; do 3 eexists; (split; [eassumption|split; [|reflexivity]]);
    match goal with H : children c !! _ = Some _ |- _ => pose proof (Hok _ _ H) end.
  - destruct (_ =? 3); [|by apply same_step]. apply failed_step; [done|].
    by eapply one_of_fewer; [|exact H1].
  - by apply observed_step.
  - destruct (requested_step n delivery r) as [Hr Hs]; [done..|].
    eapply child_step_trans; [exact Hr|]. apply observed_step; [apply Hr|done].
  - destruct failed.
    { apply failed_step; [done|]. by eapply one_of_fewer; [|exact H1]. }
    destruct (_ =? 7) eqn:E7; [by apply same_step|].
    assert (terminal r = false) as Ht.
    { apply not_true_iff_false. unfold terminal. intros E. code_of E; by rewrite E in *. }
    apply staged_step; [done..| |done]. destruct (live_state r) as [_ E]; [done..|].
    apply one_of_cases. by code_of E; rewrite E in *.
  - assert (terminal r = false) as Ht.
    { apply not_true_iff_false. unfold terminal. intros E. code_of E; by rewrite E in H1. }
    destruct failed; [|destruct (_ =? _)];
      (apply ended_step; [done|done| |first [by left | by right; left]]);
      apply one_of_cases; by code_of H1; rewrite H1.
  - apply ended_step; [done|by unfold terminal; rewrite H0|apply one_of_cases; by rewrite H0|].
    right; right. split; [done|]. exists d. split; [done|].
    by destruct H4 as [(_&_&->)|[(_&_&->&_)|(_&_&->&_)]].
Qed.

(** The state is reached by steps that only add and move on. *)
Lemma update_later c child r r' :
  children c !! child = Some r -> child_le r r' ->
  evolves child_le (children c) (<[child := r']> (children c)).
Proof. apply (evolves_update child_le). Qed.

Lemma started_step n r : child_ok r -> child_step r (if state r =? 1 then staged n 2 r else r).
Proof.
  intros Hok. destruct (_ =? 1) eqn:E; [|by apply same_step]. apply Z.eqb_eq in E.
  apply staged_step; [done|by unfold terminal; rewrite E|apply one_of_cases; by rewrite E|done].
Qed.
Lemma custody_move_later n c c' :
  (forall k r, children c !! k = Some r -> child_ok r) -> custody_move n c c' -> later c c'.
Proof.
  intros Hok Hm. destruct (move_grows _ _ _ Hm).
  constructor; try (by eapply grew_subseteq); destruct Hm as [? H|? H|? H|? H|? H|];
    try (destruct (receipt_children _ _ _ Hok H) as (? & ? & ? & Hr & [? _] & ->);
         by eapply update_later);
    try destruct H; cbn; try (by apply evolves_same, _).
  all: try match goal with H : may_spawn _ _ _ _ _ |- _ => destruct H as (? & ? & ? & ? & ?) end.
  all: try match goal with H : starting _ _ _ |- _ => destruct H as (? & ? & ?) end.
  all: first [by apply (evolves_new _) | eapply (evolves_update _); [eassumption|]].
  - by eapply started_step, Hok.
  - by split_and!.
  - by split_and!.
  - by split_and!.
  - split; [done|]. congruence.
  - split; cbn; [lia|done].
  - split; cbn; lia.
  - split; cbn; [lia|done].
  - intros ?. congruence.
Qed.

(** ** Children and their admissions *)

(** The child that a spawn inserts. *)
Definition spawned_child n c c' (k : Z) r : Prop :=
  exists name pid a a',
    r = NativeChildren.new (admission r) name pid pid 1 None n n
    /\ admissions c !! admission r = Some a /\ NativeChildSpawnAdmissions.lifecycle_state a = 1
    /\ admissions c' !! admission r = Some a' /\ NativeChildSpawnAdmissions.lifecycle_state a' = 2
    /\ is_evaluator a' = is_evaluator a
    /\ (forall j y, children c !! j = Some y -> admission y <> admission r)
    /\ ((is_evaluator a = true /\ sidecars c' !! admission r = None)
        \/ (pi_child c' r /\ (forall j y, children c !! j = Some y -> state y <> 8 ->
                             NativeChildren.process_group_id y <> pid))).
Lemma new_child n c c' :
  custody_move n c c' ->
  (forall k, children c' !! k = None <-> children c !! k = None)
  \/ grew (spawned_child n c c') (children c) (children c').
Proof.
  assert (forall k r r', children c !! k = Some r ->
    forall j, <[k := r']> (children c) !! j = None <-> children c !! j = None) as Hset.
  { intros k r r' Hk j. destruct (decide (k = j)) as [->|?].
    - rewrite lookup_insert_eq, Hk. done.
    - by rewrite lookup_insert_ne. }
  intros [? H|? H|? H|? H|? H|]; try (by left); destruct H; cbn;
    try match goal with H : starting _ _ _ |- _ => destruct H as (? & ? & ?) end;
    try match goal with H : may_spawn _ _ _ _ _ |- _ => destruct H as (? & ? & ? & ? & ?) end;
    try (by left); try (left; by eapply Hset); right; right; do 2 eexists;
    (split; [eassumption|split; [reflexivity|]]);
    exists name, pid; do 2 eexists; (split; [reflexivity|]); cbn; rewrite lookup_insert_eq;
    split_and!; try done; [by left|by right].
Qed.

(** Its session became ready by command [m]. *)
Definition ready_at c child m : Prop := exists r y s,
  children c !! child = Some r /\ sidecars c !! admission r = Some y
  /\ sessions c !! PiChildSpawnSidecars.pi_session_id y = Some s
  /\ PiChildSessions.ready_by_command_id s = Some m.

Record children_inv n c : Prop := {
  child_well_formed k r : children c !! k = Some r -> child_ok r;
  child_in_time k r : children c !! k = Some r -> NativeChildren.spawned_by_command_id r <= n;
  child_admitted k r : children c !! k = Some r -> exists a, admissions c !! admission r = Some a
    /\ NativeChildSpawnAdmissions.lifecycle_state a = 2;
  child_owned k r : children c !! k = Some r -> pi_child c r \/ evaluator_child c r;
  one_child j k r r' : children c !! j = Some r -> children c !! k = Some r' ->
    admission r = admission r' -> j = k;
  sidecar_placed i y : sidecars c !! i = Some y ->
    is_Some (admissions c !! i) /\ is_Some (sessions c !! PiChildSpawnSidecars.pi_session_id y);
  one_sidecar i j y z : sidecars c !! i = Some y -> sidecars c !! j = Some z ->
    PiChildSpawnSidecars.pi_session_id y = PiChildSpawnSidecars.pi_session_id z -> i = j;
  groups_distinct j k r r' : children c !! j = Some r -> children c !! k = Some r' ->
    state r <> 8 -> state r' <> 8 ->
    NativeChildren.process_group_id r = NativeChildren.process_group_id r' ->
    NativeChildren.spawned_by_command_id r < NativeChildren.spawned_by_command_id r' ->
    evaluator_child c r';
}.

Section Move.
Context {m n : Z} {c c' : CustodyCore.t} (Hn : m < n) (Hmove : custody_move n c c').
Context (I : children_inv m c).

Lemma inv_later : later c c'.
Proof. apply (custody_move_later n); [apply I|done]. Qed.
Lemma inv_growth : growth n c c'.
Proof. by apply move_grows. Qed.

Lemma child_before k r' : children c' !! k = Some r' ->
  (exists r, children c !! k = Some r /\ child_le r r')
  \/ (children c !! k = None /\ spawned_child n c c' k r').
Proof.
  intros Hk. destruct (children c !! k) as [r|] eqn:E.
  - left. exists r. split; [done|]. apply (later_children _ _ inv_later) in E as (r1 & E & H).
    by simplify_eq.
  - right. split; [done|]. destruct (new_child _ _ _ Hmove) as [H|H].
    + apply H in E. congruence.
    + destruct (grew_same_or_new _ _ _ H _ _ Hk) as [|[_ ?]]; [congruence|done].
Qed.
Lemma two_new_children j k r r' : children c' !! j = Some r -> children c' !! k = Some r' ->
  children c !! j = None -> children c !! k = None -> j = k.
Proof.
  intros Hj Hk Ej Ek. destruct (new_child _ _ _ Hmove) as [H|H].
  - apply H in Ej. congruence.
  - by eapply grew_one.
Qed.

(** A child that had its admission keeps its side. *)
Lemma sidecar_before k r :
  children c !! k = Some r -> sidecars c' !! admission r = sidecars c !! admission r.
Proof.
  intros Hk. destruct (child_admitted _ _ I _ _ Hk) as (a & Ha & _).
  destruct (sidecars c !! admission r) as [y|] eqn:E.
  - by apply (lookup_weaken _ _ _ _ E), (later_sidecars _ _ inv_later).
  - destruct (sidecars c' !! admission r) as [y|] eqn:E'; [|done].
    destruct (grew_same_or_new _ _ _ (new_sidecar _ _ _ inv_growth) _ _ E') as [|(_ & H & _)];
      congruence.
Qed.
Lemma evaluator_lasts k r r' :
  children c !! k = Some r -> child_le r r' -> evaluator_child c r -> evaluator_child c' r'.
Proof.
  intros Hk (El & _) (a & Ha & He & Hs).
  apply (later_admissions _ _ inv_later) in Ha as (a' & Ha & _ & E & _).
  exists a'. by rewrite El, (sidecar_before k r Hk), E.
Qed.
Lemma pi_lasts k r r' :
  children c !! k = Some r -> child_le r r' -> pi_child c' r' <-> pi_child c r.
Proof. intros Hk (E & _). unfold pi_child. by rewrite E, (sidecar_before k r Hk). Qed.

Lemma well_formed_lasts k r' : children c' !! k = Some r' -> child_ok r'.
Proof.
  assert (forall j r row, child_ok row ->
    <[j := row]> (children c) !! k = Some r -> child_ok r) as Hset.
  { intros j r row Hrow Hk. lookups; [done|]. by eapply (child_well_formed _ _ I). }
  destruct Hmove as [? H|? H|? H|? H|? H|]; try (by apply (child_well_formed _ _ I));
    [destruct H; try (by apply (child_well_formed _ _ I)); cbn..| |].
  1, 2: by apply Hset; left.
  - apply Hset. destruct (started_step n r); [|done]. destruct H as (H & _).
    by eapply (child_well_formed _ _ I).
  - destruct (receipt_children _ _ _ (child_well_formed _ _ I) H) as (j & r & row & _ & [_ ?] & ->).
    by apply Hset.
  - destruct H; by apply (child_well_formed _ _ I).
Qed.
Lemma children_inv_move : children_inv n c'.
Proof.
  constructor.
  - apply well_formed_lasts.
  - intros k r' [(r & Hr & Hle)|[_ (?&?&?&?& -> & _)]]%child_before; [|done].
    pose proof (child_in_time _ _ I _ _ Hr). destruct Hle as (_&_&_&_&->&_). lia.
  - intros k r' [(r & Hr & Hle)|[_ (?&?&?&?& _ & _ & _ & ? & ? & _)]]%child_before; [|eauto].
    destruct (child_admitted _ _ I _ _ Hr) as (a & Ha & E).
    apply (later_admissions _ _ inv_later) in Ha as (a' & Ha & Hale). destruct Hle as (-> & _).
    exists a'. split; [done|]. destruct Hale as (-> & _); [done|lia].
  - intros k r' [(r & Hr & Hle)|[_ (?&?&?&?& _ & _ & _ & ? & ? & E & _ & H)]]%child_before.
    + destruct (child_owned _ _ I _ _ Hr) as [H|H]; [left; by eapply pi_lasts|].
      right. by eapply evaluator_lasts.
    + destruct H as [[H ?]|[H _]]; [right|by left]. eexists. split; [done|]. by rewrite E.
  - intros j k r r' Hj Hk E.
    pose proof (child_before _ _ Hj) as [(y & Hy & Ey & _)|[Nj (?&?&?&?&_&_&_&_&_&_&Uj&_)]];
    pose proof (child_before _ _ Hk) as [(z & Hz & Ez & _)|[Nk (?&?&?&?&_&_&_&_&_&_&Uk&_)]].
    + eapply (one_child _ _ I); [done..|congruence].
    + destruct (Uk _ _ Hy). congruence.
    + destruct (Uj _ _ Hz). congruence.
    + by eapply two_new_children.
  - intros i y [Hy|[_ (_ & ? & _ & ? & _)]]%(grew_same_or_new _ _ _ (new_sidecar _ _ _ inv_growth));
      [|done].
    destruct (sidecar_placed _ _ I _ _ Hy) as [[a Ha] [s Hs]].
    apply (later_admissions _ _ inv_later) in Ha as (? & -> & _).
    by apply (later_sessions _ _ inv_later) in Hs as (? & -> & _).
  - intros i j y z Hy Hz E.
    pose proof (new_sidecar _ _ _ inv_growth) as G.
    destruct (grew_same_or_new _ _ _ G _ _ Hy) as [Hy'|[Ny (_&_&_&_&Uy)]],
      (grew_same_or_new _ _ _ G _ _ Hz) as [Hz'|[Nz (_&_&_&_&Uz)]].
    + by eapply (one_sidecar _ _ I).
    + by destruct (Uz _ _ Hy').
    + by destruct (Uy _ _ Hz').
    + by eapply grew_one.
  - intros j k r r' Hj Hk Sj Sk E Hlt.
    pose proof (child_before _ _ Hj) as [(y & Hy & Ly)|[Nj (nj&pj&?&?&Ej&_&_&_&_&_&_&_)]];
    pose proof (child_before _ _ Hk) as [(z & Hz & Lz)|[Nk (nk&pk&?&a'&Ek&_&_&Ha&_&Ee&_&O)]].
    + eapply (evaluator_lasts k z); [done..|].
      destruct Ly as (_&_&_&Gj&Bj&Rj&_), Lz as (_&_&_&Gk&Bk&Rk&_).
      eapply (groups_distinct _ _ I j k y z); [done|done| | |congruence|congruence].
      * intros E8. apply Sj. rewrite E8 in Rj. by apply (reaches_terminal 8).
      * intros E8. apply Sk. rewrite E8 in Rk. by apply (reaches_terminal 8).
    + destruct O as [[? ?]|[_ O]]; [exists a'; by rewrite Ee|].
      destruct Ly as (_&_&_&Gj&_&Rj&_).
      destruct (O _ _ Hy); [|rewrite Ek in E; cbn in E; congruence].
      intros E8. apply Sj. rewrite E8 in Rj. by apply (reaches_terminal 8).
    + pose proof (child_in_time _ _ I _ _ Hz). destruct Lz as (_&_&_&_&Ez&_).
      rewrite Ej, Ez in Hlt. cbn in Hlt. lia.
    + rewrite Ej, Ek in Hlt. cbn in Hlt. lia.
Qed.
End Move.

(** ** Facts that last *)

Section Lasting.
Context {c c' : CustodyCore.t} (L : later c c').
Ltac lasts :=
  match goal with
  | H : observations _ !! _ = Some _ |- _ =>
      eapply lookup_weaken in H; [|exact (later_observations _ _ L)]
  | H : signals _ !! _ = Some _ |- _ =>
      eapply lookup_weaken in H; [|exact (later_signals _ _ L)]
  | H : reaps _ !! _ = Some _ |- _ =>
      eapply lookup_weaken in H; [|exact (later_reaps _ _ L)]
  | H : recoveries _ !! _ = Some _ |- _ =>
      eapply lookup_weaken in H; [|exact (later_recoveries _ _ L)]
  | H : aborts _ !! _ = Some _ |- _ =>
      eapply lookup_weaken in H; [|exact (later_aborts _ _ L)]
  | H : seals _ !! _ = Some _ |- _ =>
      eapply lookup_weaken in H; [|exact (later_seals _ _ L)]
  end.
Lemma child_lasts k : is_Some (children c !! k) -> is_Some (children c' !! k).
Proof. intros [r (r' & -> & _)%(later_children _ _ L)]. done. Qed.
Lemma absent_lasts k i : absent_at c k i -> absent_at c' k i.
Proof.
  intros []; lasts; [by eapply AbsentObservation|by eapply AbsentSignal|by eapply AbsentReap].
Qed.
Lemma signalled_lasts k action cause q i :
  signalled c k action cause q i -> signalled c' k action cause q i.
Proof. intros (j & x & H & ?). lasts. by exists j, x. Qed.
Lemma aborted_lasts k q i : aborted c k q i -> aborted c' k q i.
Proof. intros (j & x & H & ?). lasts. by exists j, x. Qed.
Lemma lingers_lasts k i : lingers c k i -> lingers c' k i.
Proof. intros (j & x & H & ?). lasts. by exists j, x. Qed.
Lemma sealed_lasts k kind : sealed c k kind -> sealed c' k kind.
Proof. intros (j & x & H & ?). lasts. by exists j, x. Qed.
Lemma delivered_lasts k actions : delivered c k actions -> delivered c' k actions.
Proof. intros (j & x & H & ?). lasts. by exists j, x. Qed.
Lemma explains_lasts k y d : explains c k y d -> explains c' k y d.
Proof.
  intros [H|[(?&?&?&H%delivered_lasts)|(?&?&?&H%delivered_lasts)]];
    [by left|by right; left|by right; right].
Qed.
Lemma gone_lasts k y : gone c k y -> gone c' k y.
Proof.
  intros [H|(i & Hi & H)]; [by left|right]. exists i. split; [done|]. by apply absent_lasts.
Qed.
Lemma at_ready_lasts k : at_stage c k 5 -> (forall p, protocols c' !! k = Some p ->
  PiChildSessionProtocols.lifecycle_state p <= 5) -> at_stage c' k 5.
Proof.
  intros (p & Hp & E) Hle. apply (later_protocols _ _ L) in Hp as (p' & Hp & H & _).
  exists p'. split; [done|]. specialize (Hle _ Hp). lia.
Qed.
End Lasting.

(** ** Receipts *)

(** A signal was preceded by what its action requires. *)
Definition escalated c x : Prop :=
  let child := ProcessSignalReceipts.native_child_id x in
  let n := ProcessSignalReceipts.recorded_by_command_id x in
  let propagation := ProcessSignalReceipts.cancellation_propagation_id x in
  one_of [1; 2; 3] (ProcessSignalReceipts.signal_action x) = true
  /\ (ProcessSignalReceipts.signal_action x = 1 -> forall q i, propagation = Some q ->
       ready_at c child i -> i < n -> exists j, j < n /\ aborted c child q j)
  /\ (ProcessSignalReceipts.signal_action x = 2 -> exists i, i < n
       /\ signalled c child 1 (ProcessSignalReceipts.cause_kind x) propagation i)
  /\ (ProcessSignalReceipts.signal_action x = 3 -> exists i, i < n /\ lingers c child i).

(** A finalized child: reaped, its group gone, its end explained, its streams retained. *)
Definition accounted c child r : Prop := exists i y d,
  reaps c !! i = Some y /\ NativeChildReapReceipts.native_child_id y = child
  /\ disposition r = Some d /\ gone c child y /\ explains c child y d
  /\ (forall kind, 3 <= kind <= 4 -> sealed c child kind)
  /\ (pi_child c r -> forall kind, 1 <= kind <= 4 -> sealed c child kind).

Record receipts_inv n c : Prop := {
  absent_recorded k i : absent_at c k i -> i <= n /\ is_Some (children c !! k);
  seen_recorded k i : seen_at c k i -> i <= n /\ is_Some (children c !! k);
  absence_final k i j : absent_at c k i -> seen_at c k j -> i < j ->
    exists r, children c !! k = Some r /\ state r = 7;
  abort_recorded k q i : aborted c k q i -> i <= n;
  protocol_bounded k p : protocols c !! k = Some p -> PiChildSessionProtocols.lifecycle_state p <= 5;
  session_ready i s j : sessions c !! i = Some s -> PiChildSessions.ready_by_command_id s = Some j ->
    j <= n /\ exists k r y, children c !! k = Some r /\ sidecars c !! admission r = Some y
      /\ PiChildSpawnSidecars.pi_session_id y = i /\ at_stage c k 5;
  signal_escalated i x : signals c !! i = Some x ->
    is_Some (children c !! ProcessSignalReceipts.native_child_id x)
    /\ ProcessSignalReceipts.recorded_by_command_id x <= n /\ escalated c x;
  one_seal i j y z : seals c !! i = Some y -> seals c !! j = Some z ->
    NativeChildStreamSeals.native_child_id y = NativeChildStreamSeals.native_child_id z ->
    NativeChildStreamSeals.stream_kind y = NativeChildStreamSeals.stream_kind z -> i = j;
  seal_kind i y : seals c !! i = Some y ->
    one_of [1; 2; 3; 4] (NativeChildStreamSeals.stream_kind y) = true;
  child_accounted k r : children c !! k = Some r -> state r = 8 -> accounted c k r;
}.

Section Receipts.
Context {m n : Z} {c c' : CustodyCore.t} (Hn : m < n) (Hmove : custody_move n c c').
Context (I : children_inv m c) (R : receipts_inv m c).
Let L : later c c' := inv_later Hmove I.
Let G : growth n c c' := inv_growth Hmove.

Lemma absent_new k i : absent_at c' k i ->
  absent_at c k i \/ (i = n /\ is_Some (children c !! k)).
Proof.
  intros [j o Hj <- <- H|j x Hj <- <- H|j y Hj <- <- H].
  - destruct (grew_same_or_new _ _ _ (new_observation _ _ _ G) _ _ Hj) as [|(_ & <- & ? & _)];
      [left; by eapply AbsentObservation|by right].
  - destruct (grew_same_or_new _ _ _ (new_signal _ _ _ G) _ _ Hj) as [|(_ & <- & r & Hr & _)];
      [left; by eapply AbsentSignal|right; by eexists].
  - destruct (grew_same_or_new _ _ _ (new_reap _ _ _ G) _ _ Hj) as [|(_ & <- & ? & _)];
      [left; by eapply AbsentReap|by right].
Qed.
Lemma seen_new k i : seen_at c' k i ->
  seen_at c k i \/ (i = n /\ is_Some (children c !! k)
    /\ forall j, absent_at c k j -> exists r, children c' !! k = Some r /\ state r = 7).
Proof.
  intros [j o Hj <- <- H|j x Hj <- <- H|j y Hj <- <- H|j y Hj <- <- H].
  - destruct (grew_same_or_new _ _ _ (new_observation _ _ _ G) _ _ Hj) as [|(_ & <- & ? & Hc)];
      [left; by eapply SeenObservation|right].
    split_and!; [done|done|]. intros i Hi. apply Hc. split; [done|by exists i].
  - destruct (grew_same_or_new _ _ _ (new_signal _ _ _ G) _ _ Hj) as [|(_ & <- & r & Hr & _ & Hc)];
      [left; by eapply SeenSignal|right].
    split_and!; [done|by eexists|]. intros i Hi. apply Hc. split; [done|by exists i].
  - destruct (grew_same_or_new _ _ _ (new_reap _ _ _ G) _ _ Hj) as [|(_ & <- & ? & Hb & Ha)];
      [left; by eapply SeenReap|right].
    split_and!; [done|done|]. intros i Hi.
    destruct H; [apply Hb|apply Ha]; (split; [done|by exists i]).
  - destruct (grew_same_or_new _ _ _ (new_recovery _ _ _ G) _ _ Hj) as [|(_ & <- & ? & Hc)];
      [left; by eapply SeenRecovery|right].
    split_and!; [done|done|]. intros i Hi. apply Hc. split; [done|by exists i].
Qed.

Lemma session_new i s' j : sessions c' !! i = Some s' -> PiChildSessions.ready_by_command_id s' = Some j ->
  (exists s, sessions c !! i = Some s /\ PiChildSessions.ready_by_command_id s = Some j)
  \/ (j = n /\ exists k r y, children c !! k = Some r /\ sidecars c !! admission r = Some y
       /\ PiChildSpawnSidecars.pi_session_id y = i /\ at_stage c' k 5).
Proof.
  intros Hi Hj. clear L G; destruct Hmove as [? H|? H|? H|? H|? H|]; [destruct H; cbn in Hi |- * ..|];
    try (left; by eexists); lookups; try (left; by eexists); try congruence.
  right. split; [done|]. destruct H as (? & _ & _). do 3 eexists. split_and!; [done..|].
  eexists. cbn. by rewrite lookup_insert_eq.
Qed.

Lemma ready_new k i : is_Some (children c !! k) -> ready_at c' k i -> ready_at c k i \/ i = n.
Proof.
  intros [r Hr] (r' & y & s' & Hr' & Hy & Hs & Hi).
  destruct (session_new _ _ _ Hs Hi) as [(s & Hs0 & Hi0)|[-> _]]; [left|by right].
  apply (later_children _ _ L) in Hr as Hr1. destruct Hr1 as (r1 & Hr1 & E & _). simplify_eq.
  exists r, y, s. split_and!; try done. by rewrite E, (sidecar_before Hmove I k) in Hy.
Qed.

(** The child of a ready session is at the last stage of its protocol. *)
Lemma ready_stage k i : ready_at c k i -> i <= m /\ at_stage c k 5.
Proof.
  intros (r & y & s & Hr & Hy & Hs & Hi).
  destruct (session_ready _ _ R _ _ _ Hs Hi) as (? & k' & r' & y' & Hr' & Hy' & E & Hst).
  split; [done|]. pose proof (one_sidecar _ _ I _ _ _ _ Hy Hy' (eq_sym E)) as Ea.
  by rewrite (one_child _ _ I _ _ _ _ Hr Hr' Ea).
Qed.

Lemma protocol_bounded_lasts k p :
  protocols c' !! k = Some p -> PiChildSessionProtocols.lifecycle_state p <= 5.
Proof.
  pose proof (protocol_bounded _ _ R) as B.
  clear L G; destruct Hmove as [? H|? H|? H|? H|? H|]; [destruct H; cbn ..|]; try (apply B);
    intros Hk; lookups; eauto; lia.
Qed.

Lemma finalized_new k r' : children c' !! k = Some r' -> state r' = 8 ->
  children c !! k = Some r'
  \/ exists r i y d, children c !! k = Some r /\ r' = ended n 8 (Some d) r
       /\ reaps c !! i = Some y /\ NativeChildReapReceipts.native_child_id y = k
       /\ gone c k y /\ explains c k y d
       /\ (pi_child c r -> sealed_count c k (fun _ => true) = 4)
       /\ (~ pi_child c r -> sealed_count c k (one_of [3; 4]) = 2).
Proof.
  intros Hk H8. clear L G; destruct Hmove as [? H|? H|? H|? H|? H|]; [destruct H; cbn in Hk ..|];
    try (by left); lookups; try (by left);
    try (clear Hmove; unfold requested, observed, starting in *;
         repeat match type of H8 with context [if ?b then _ else _] => destruct b end;
         first [done | left; tauto]).
  right. by do 4 eexists; split_and!.
Qed.

(** As many complete seals as kinds: every kind is sealed. *)
Lemma every_kind_sealed k (kinds : Z -> bool) (first count : Z) :
  (forall v, one_of [1; 2; 3; 4] v = true -> kinds v = true -> first < v <= first + count) ->
  sealed_count c k kinds = count -> forall kind, first < kind <= first + count -> sealed c k kind.
Proof.
  intros Hk Hc kind Hkind. unfold sealed_count in Hc. rewrite count_where_rows in Hc. cbn [rows] in Hc.
  destruct (fun H1 H2 => every_number_taken _ (fun y => NativeChildStreamSeals.stream_kind y - first)
              _ _ H1 H2 Hc (kind - first)) as (i & y & Hi & Hp & E); [| |lia|].
  - intros i y Hi Hp. apply andb_true_iff in Hp as [[_ Hp]%andb_true_iff _].
    pose proof (Hk _ (seal_kind _ _ R _ _ Hi) Hp). lia.
  - intros i j y z Hi Hj Hp Hq E.
    apply andb_true_iff in Hp as [[Hp%Z.eqb_eq _]%andb_true_iff _].
    apply andb_true_iff in Hq as [[Hq%Z.eqb_eq _]%andb_true_iff _].
    eapply (one_seal _ _ R); [done|done|congruence|lia].
  - apply andb_true_iff in Hp as [[Hp%Z.eqb_eq _]%andb_true_iff Hcomplete].
    exists i, y. split_and!; [done|done|lia|done].
Qed.

Lemma accounted_lasts k r r' : children c !! k = Some r -> child_le r r' -> terminal r = true ->
  accounted c k r -> accounted c' k r'.
Proof.
  intros Hr Hle Ht (i & y & d & Hy & Hk & Hd & Hg & He & Hs & Hp). exists i, y, d.
  pose proof (lookup_weaken _ _ _ _ Hy (later_reaps _ _ L)).
  pose proof Hle as (_&_&_&_&_&_&D). split_and!; try done.
  - by rewrite D.
  - by apply (gone_lasts L).
  - by apply (explains_lasts L).
  - intros kind Hkind. by apply (sealed_lasts L), Hs.
  - intros Hpi kind Hkind. apply (sealed_lasts L), Hp; [|done]. by eapply (pi_lasts Hmove I).
Qed.
Lemma accounted_now k r' : children c' !! k = Some r' -> state r' = 8 -> accounted c' k r'.
Proof.
  intros Hk H8. destruct (finalized_new _ _ Hk H8) as [Hr|(r & i & y & d & Hr & -> & Hy & Ey & Hg & He & H4 & H2)].
  - eapply accounted_lasts; [exact Hr|done|by unfold terminal; rewrite H8|].
    by apply (child_accounted _ _ R).
  - assert (forall first count kinds,
      (forall v, one_of [1; 2; 3; 4] v = true -> kinds v = true -> first < v <= first + count) ->
      sealed_count c k kinds = count ->
      forall kind, first < kind <= first + count -> sealed c' k kind) as Hall
      by (intros; eapply (sealed_lasts L), every_kind_sealed; eassumption).
    assert (pi_child c r -> forall kind, 1 <= kind <= 4 -> sealed c' k kind) as Hpi.
    { intros Hpi kind Hkind. eapply (Hall 0 4); [|by apply H4|lia]. intros v Hv _. code_of Hv; lia. }
    exists i, y, d. split_and!; [| done|done|by apply (gone_lasts L)|by apply (explains_lasts L)| |].
    + by apply (lookup_weaken _ _ _ _ Hy), (later_reaps _ _ L).
    + intros kind Hkind. destruct (sidecars c !! admission r) as [z|] eqn:E.
      * apply Hpi; [by exists z|lia].
      * eapply (Hall 2 2); [|apply H2; intros [? ?]; congruence|lia].
        intros v _ Hv. code_of Hv; lia.
    + unfold pi_child. cbn. rewrite (sidecar_before Hmove I k r Hr). exact Hpi.
Qed.

Lemma escalated_lasts i x : signals c !! i = Some x -> escalated c' x.
Proof.
  intros Hi. destruct (signal_escalated _ _ R _ _ Hi) as (Hk & Hm & Hone & H1 & H2 & H3).
  split_and!; [done| | |].
  - intros Ha q j Hq Hj Hlt. destruct (ready_new _ _ Hk Hj) as [Hr| ->]; [|lia].
    destruct (H1 Ha _ _ Hq Hr Hlt) as (l & ? & ?). exists l. split; [done|]. by apply (aborted_lasts L).
  - intros Ha. destruct (H2 Ha) as (l & ? & ?). exists l. split; [done|]. by apply (signalled_lasts L).
  - intros Ha. destruct (H3 Ha) as (l & ? & ?). exists l. split; [done|]. by apply (lingers_lasts L).
Qed.

(** The signals and reaps of a state were recorded before. *)
Lemma signalled_recorded k action cause q i : signalled c k action cause q i -> i <= m.
Proof.
  intros (j & x & Hj & _ & _ & _ & _ & <-). by apply (signal_escalated _ _ R _ _ Hj).
Qed.
Lemma lingers_recorded k i : lingers c k i -> i <= m.
Proof.
  intros (j & y & Hj & Hk & Ha & <-). eapply (seen_recorded _ _ R k), SeenReap; [done..|].
  right. by rewrite Ha.
Qed.

Lemma signal_due_escalates x r : ProcessSignalReceipts.recorded_by_command_id x = n ->
  is_Some (children c !! ProcessSignalReceipts.native_child_id x) ->
  signal_due c (ProcessSignalReceipts.native_child_id x) r (ProcessSignalReceipts.signal_action x)
    (ProcessSignalReceipts.cause_kind x) (ProcessSignalReceipts.cancellation_propagation_id x) ->
  escalated c' x.
Proof.
  intros Ex Hk (_ & H1 & H2 & H3 & Hone). unfold escalated. rewrite Ex. split_and!; [done| | |].
  - intros Ha q i Hq Hi Hlt. destruct (ready_new _ _ Hk Hi) as [Hr| ->]; [|lia].
    destruct (ready_stage _ _ Hr) as [_ Hs]. destruct (H1 Ha _ Hq Hs) as (j & Hj). exists j.
    split; [pose proof (abort_recorded _ _ R _ _ _ Hj); lia|by apply (aborted_lasts L)].
  - intros Ha. destruct (H2 Ha) as (j & Hj). exists j.
    split; [pose proof (signalled_recorded _ _ _ _ _ Hj); lia|by apply (signalled_lasts L)].
  - intros Ha. destruct (H3 Ha) as (_ & j & Hj). exists j.
    split; [pose proof (lingers_recorded _ _ Hj); lia|by apply (lingers_lasts L)].
Qed.

Lemma receipts_inv_move : receipts_inv n c'.
Proof.
  constructor.
  - intros k i [H|[-> H]]%absent_new; [|split; [lia|by apply (child_lasts L)]].
    destruct (absent_recorded _ _ R _ _ H). split; [lia|by apply (child_lasts L)].
  - intros k i [H|(-> & H & _)]%seen_new; [|split; [lia|by apply (child_lasts L)]].
    destruct (seen_recorded _ _ R _ _ H). split; [lia|by apply (child_lasts L)].
  - intros k i j [Ha|[-> _]]%absent_new [Hs|(-> & _ & H)]%seen_new Hlt; [|by eapply H| |lia].
    + destruct (absence_final _ _ R _ _ _ Ha Hs Hlt) as (r & Hr & E).
      apply (later_children _ _ L) in Hr as (r' & Hr & _&_&_&_&_& H7 & _). exists r'.
      split; [done|]. rewrite E in H7. by apply (reaches_terminal 7).
    + destruct (seen_recorded _ _ R _ _ Hs). lia.
  - intros k q i (j & y & Hj & Hk & Hq & <-).
    destruct (grew_same_or_new _ _ _ (new_abort _ _ _ G) _ _ Hj) as [H|[_ ->]]; [|lia].
    enough (PiAbortControlReceipts.recorded_by_command_id y <= m) by lia.
    eapply (abort_recorded _ _ R k q). by exists j, y.
  - apply protocol_bounded_lasts.
  - intros i s j Hs Hj. destruct (session_new _ _ _ Hs Hj) as [(s0 & Hs0 & Hj0)|[-> H]].
    + destruct (session_ready _ _ R _ _ _ Hs0 Hj0) as (? & k & r & y & Hr & Hy & E & Hst).
      split; [lia|]. apply (later_children _ _ L) in Hr as Hr1. destruct Hr1 as (r' & Hr' & Er & _).
      exists k, r', y. split_and!; [done| |done|].
      * by rewrite Er, (sidecar_before Hmove I k).
      * apply (at_ready_lasts L); [done|]. apply protocol_bounded_lasts.
    + split; [lia|]. destruct H as (k & r & y & Hr & Hy & E & Hst).
      apply (later_children _ _ L) in Hr as Hr1. destruct Hr1 as (r' & Hr' & Er & _).
      exists k, r', y. split_and!; [done| |done|done]. by rewrite Er, (sidecar_before Hmove I k).
  - intros i x Hi. destruct (grew_same_or_new _ _ _ (new_signal _ _ _ G) _ _ Hi) as [H|(_ & En & r & Hr & Hd & _)].
    + destruct (signal_escalated _ _ R _ _ H) as (? & ? & _).
      split_and!; [by apply (child_lasts L)|lia|by eapply escalated_lasts].
    + split_and!; [apply (child_lasts L); by eexists|lia|]. by eapply signal_due_escalates; [|eexists|].
  - intros i j y z Hi Hj Ek E. pose proof (new_seal _ _ _ G) as S.
    destruct (grew_same_or_new _ _ _ S _ _ Hi) as [Hi'|[Ni [_ Ui]]],
      (grew_same_or_new _ _ _ S _ _ Hj) as [Hj'|[Nj [_ Uj]]].
    + by eapply (one_seal _ _ R).
    + by destruct (Uj _ _ Hi').
    + by destruct (Ui _ _ Hj').
    + by eapply grew_one.
  - intros i y Hi. destruct (grew_same_or_new _ _ _ (new_seal _ _ _ G) _ _ Hi) as [H|[_ [H _]]]; [|done].
    by eapply (seal_kind _ _ R).
  - apply accounted_now.
Qed.
End Receipts.

(** ** Targets of cancellations *)

(** The disposition of a target agrees with its child. *)
Definition target_ok c t : Prop :=
  match CancellationPropagationTargets.native_child_id t with
  | None => CancellationPropagationTargets.target_disposition t = 1
            \/ CancellationPropagationTargets.target_disposition t = 2
  | Some k => exists r, children c !! k = Some r
      /\ (CancellationPropagationTargets.target_disposition t = 2
          \/ settled_disposition r = Some (CancellationPropagationTargets.target_disposition t))
  end.
Definition settled t : Prop :=
  CancellationPropagationTargets.target_disposition t <> 2
  /\ CancellationPropagationTargets.target_disposition t <> 6.

Record targets_inv c : Prop := {
  target_agrees i t : targets c !! i = Some t -> target_ok c t;
  reconciled_settled i t q : targets c !! i = Some t ->
    propagations c !! CancellationPropagationTargets.cancellation_propagation_id t = Some q ->
    CancellationPropagations.lifecycle_state q = 2 -> settled t;
}.

Lemma settled_terminal r d : settled_disposition r = Some d -> terminal r = true.
Proof.
  unfold settled_disposition, terminal. intros H.
  repeat match type of H with context [if ?b then _ else _] => destruct b eqn:? end; try done;
    match goal with E : _ = true |- _ => try (apply andb_true_iff in E as [E _]); apply Z.eqb_eq in E; by rewrite E end.
Qed.
Lemma settled_lasts r r' d : child_le r r' ->
  settled_disposition r = Some d -> settled_disposition r' = Some d.
Proof.
  intros (_&_&_&_&_& Hs & Hd) H. pose proof (settled_terminal _ _ H) as Ht.
  unfold settled_disposition in *. by rewrite (Hd Ht), (reaches_terminal _ _ Ht Hs).
Qed.
Lemma target_ok_lasts c c' t : later c c' -> target_ok c t -> target_ok c' t.
Proof.
  intros L. unfold target_ok. destruct (CancellationPropagationTargets.native_child_id t); [|done].
  intros (r & (r' & Hr & Hle)%(later_children _ _ L) & H). exists r'. split; [done|].
  destruct H; [by left|right]. by eapply settled_lasts.
Qed.

Section Targets.
Context {c c' : CustodyCore.t} (L : later c c') (T : targets_inv c).

(** The targets of a propagation change while it is under way. *)
Lemma targets_inv_change (change : CancellationPropagationTargets.t -> CancellationPropagationTargets.t) :
  targets c' = change <$> targets c -> propagations c' = propagations c ->
  (forall t, target_ok c t -> target_ok c' (change t)) ->
  (forall t, change t = t
     \/ (CancellationPropagationTargets.cancellation_propagation_id (change t)
           = CancellationPropagationTargets.cancellation_propagation_id t
         /\ under_way c (CancellationPropagationTargets.cancellation_propagation_id t))) ->
  targets_inv c'.
Proof.
  intros Et Ep Hok Hway. constructor.
  - rewrite Et. intros i t Hi. lookups. by eapply Hok, (target_agrees _ T).
  - rewrite Et, Ep. intros i t q Hi Hq H2. lookups.
    destruct (Hway row) as [E|[E (q' & Hq' & H1)]].
    + rewrite E in *. by eapply (reconciled_settled _ T).
    + rewrite E in Hq. congruence.
Qed.
Lemma targets_inv_same :
  targets c' = targets c -> propagations c' = propagations c -> targets_inv c'.
Proof.
  intros Et Ep. apply (targets_inv_change id); [by rewrite Et, map_fmap_id|done| |by left].
  intros t. by apply target_ok_lasts.
Qed.

Lemma resolved_ok outstanding :
  targets c' = resolved outstanding <$> targets c -> propagations c' = propagations c ->
  (forall t, outstanding t = true -> CancellationPropagationTargets.native_child_id t = None
     /\ under_way c (CancellationPropagationTargets.cancellation_propagation_id t)) ->
  targets_inv c'.
Proof.
  intros Et Ep Ho. apply (targets_inv_change _ Et Ep); intros t; unfold resolved;
    destruct (outstanding t) eqn:E; [|by apply target_ok_lasts| |by left].
  - intros _. destruct (Ho t E) as [Hn _]. unfold target_ok. cbn. rewrite Hn. by left.
  - right. by destruct (Ho t E).
Qed.
Lemma attached_ok k belongs :
  is_Some (children c' !! k) ->
  targets c' = attached k belongs <$> targets c -> propagations c' = propagations c ->
  (forall t, belongs t = true ->
     under_way c (CancellationPropagationTargets.cancellation_propagation_id t)) ->
  targets_inv c'.
Proof.
  intros [r Hr] Et Ep Hb. apply (targets_inv_change _ Et Ep); intros t; unfold attached;
    destruct (_ && _) eqn:E; [|by apply target_ok_lasts| |by left].
  - intros _. exists r. split; [done|by left].
  - apply andb_true_iff in E as [_ E]. right. by split; [|apply Hb].
Qed.
End Targets.

Lemma refreshed_target_ok c t : target_ok c t -> target_ok c (refreshed_target c t).
Proof.
  unfold target_ok, refreshed_target.
  destruct (CancellationPropagationTargets.native_child_id t) as [k|] eqn:E; [|by rewrite E].
  intros (r & Hr & H). rewrite Hr. cbn. rewrite E. exists r. split; [done|].
  destruct (settled_disposition r); [by right|]. cbn. by destruct H; [left|].
Qed.
Lemma refreshed_propagation c t :
  CancellationPropagationTargets.cancellation_propagation_id (refreshed_target c t)
  = CancellationPropagationTargets.cancellation_propagation_id t.
Proof.
  unfold refreshed_target. destruct (CancellationPropagationTargets.native_child_id t); [|done].
  by destruct (_ !! _).
Qed.
Lemma snapshot_target_ok c q t : snapshot_target c q t -> target_ok c t.
Proof.
  intros [_ H]. unfold target_ok. destruct (CancellationPropagationTargets.native_child_id t); [|done].
  destruct H as (r & Hr & ->). exists r. split; [done|]. destruct (settled_disposition r); auto.
Qed.

Lemma targets_inv_move m n c c' :
  children_inv m c -> targets_inv c -> custody_move n c c' -> targets_inv c'.
Proof.
  intros I T Hmove. pose proof (inv_later Hmove I) as L.
  destruct Hmove as [? H|? H|? H|? H|? H|]; [destruct H ..|];
    try (by apply (targets_inv_same L T)).
  - by eapply (resolved_ok L T).
  - destruct H as (? & ? & ? & ? & ?). eapply (attached_ok L T); [|done..].
    eexists. apply lookup_insert_eq.
  - destruct H as (? & ? & ? & ? & ?). eapply (attached_ok L T); [|done..].
    eexists. apply lookup_insert_eq.
  - constructor.
    + intros i t Hi. cbn in Hi. apply (target_ok_lasts c); [done|].
      destruct (targets c !! i) as [t'|] eqn:E; [|by eapply snapshot_target_ok, H2].
      rewrite (H1 _ _ E) in Hi. simplify_eq. by eapply (target_agrees _ T).
    + intros i t q' Hi Hq Hs. cbn in Hi, Hq. lookups; [congruence|].
      destruct (targets c !! i) as [t'|] eqn:E.
      * rewrite (H1 _ _ E) in Hi. simplify_eq. by eapply (reconciled_settled _ T).
      * destruct (H2 _ _ Hi E) as [Ep _]. congruence.
  - constructor.
    + intros i t Hi. cbn in Hi. apply (target_ok_lasts c); [done|]. subst refreshed. lookups.
      pose proof (target_agrees _ T _ _ Hi). destruct (_ =? _); [|done]. by apply refreshed_target_ok.
    + intros i t q1 Hi Hq Hs. cbn in Hi, Hq.
      apply lookup_insert_Some in Hq as [[Ei <-]|[Hne Hq]].
      { destruct H2 as [E|(_ & N2 & N6)]; [congruence|].
        split; intros E; [apply N2|apply N6]; by exists i, t. }
      subst refreshed. lookups.
      destruct (CancellationPropagationTargets.cancellation_propagation_id row =? id) eqn:E.
      * rewrite refreshed_propagation in Hne. apply Z.eqb_eq in E. congruence.
      * by eapply (reconciled_settled _ T).
Qed.

(** ** The invariant *)

Record custody_inv n c : Prop := {
  inv_children : children_inv n c;
  inv_receipts : receipts_inv n c;
  inv_targets : targets_inv c;
}.
Definition custody_empty : CustodyCore.t :=
  CustodyCore.new ∅ ∅ ∅ ∅ ∅ ∅ ∅ ∅ ∅ ∅ ∅ ∅ ∅ ∅.
Lemma custody_inv_empty n : custody_inv n custody_empty.
Proof.
  constructor; constructor; try done.
  - by intros k i [].
  - by intros k i [].
  - by intros k i j [].
  - by intros k q i (? & ? & ? & _).
Qed.
Lemma custody_inv_move m n c c' :
  m < n -> custody_inv m c -> custody_move n c c' -> custody_inv n c'.
Proof.
  intros Hn [I R T] H. constructor.
  - by eapply children_inv_move.
  - by eapply receipts_inv_move.
  - by eapply targets_inv_move.
Qed.
Lemma custody_inv_weaken m n c : m <= n -> custody_inv m c -> custody_inv n c.
Proof.
  intros H I. destruct (decide (m = n)) as [->|]; [done|].
  by eapply custody_inv_move; [|done|apply Elsewhere]; lia.
Qed.
