(* ===== verification/CustodySafety.v ===== *)
(** * Safety of native custody

    Over every history of commands of custody, between changes of the ledger that leave its
    tables alone: the store is a run of [CustodyMachine], children move through their states,
    absence is final, signals escalate, a finalized child is accounted for, a reconciled
    cancellation waits for nobody, live process groups are told apart.

    The witnesses evaluate two samples: a native child that qualifies the pinned profile, and
    one whose office session is cancelled. *)

From S2P Require Import Prelude.
From S2P Require Import Machine.
From S2P Require Import Hash.
From S2P Require Import KernelScalars.
From S2P Require Import KernelEnums.
From S2P Require Import KernelCustody.
From S2P Require Import KernelCommands.
From S2P Require Import SqlTable.
From S2P Require Import StoreTables.
From S2P Require Import StoreQueries.
From S2P Require Import StoreLedger.
From S2P Require Import StoreSample.
From S2P Require Import StoreLogic.
From S2P Require Import StudyTables.
From S2P Require Import CustodyTables.
From S2P Require Import CustodyStore.
From S2P Require Import CustodyMachine.
From S2P Require Import CustodyRefine.
From S2P Require Import CustodyInvariants.
Import CustodyCore(admissions, children, sidecars, sessions, protocols, invalidations,
  observations, signals, reaps, recoveries, aborts, seals, propagations, targets).

(** ** Histories *)

(** The last command and the database.  A command of custody is numbered after those before;
    what is beside it, the commands of the ledger and of evidence, leaves its tables. *)
Variant custody_step : relation (Z * CustodyDatabase.t) :=
| Executed m n request transition ev db db' :
    m < n -> dispatch_custody n request = Some transition -> yields transition db ev db' ->
    custody_step (m, db) (n, db')
| Beside m n db db' :
    m <= n -> custody_core db' = custody_core db -> custody_step (m, db) (n, db').
Definition custody_history : relation (Z * CustodyDatabase.t) := rtc custody_step.
(** From a ledger without children. *)
Definition custody_reachable (n : Z) (db : CustodyDatabase.t) : Prop :=
  exists ledger, ledger_custody ledger = (∅, ∅, ∅, ∅, ∅)
    /\ custody_history (0, CustodyDatabase.empty ledger) (n, db).

Lemma step_keeps_inv s s' : custody_step s s' ->
  custody_inv s.1 (custody_core s.2) ->
  custody_inv s'.1 (custody_core s'.2) /\ later (custody_core s.2) (custody_core s'.2).
Proof.
  intros [m n request transition ev db db' Hn Hd Hy|m n db db' Hn E] I; cbn in *.
  - pose proof (dispatch_custody_moves _ _ _ _ _ _ Hd Hy) as Hm.
    split; [by eapply custody_inv_move|]. by eapply inv_later, inv_children.
  - rewrite E. split; [by eapply custody_inv_weaken|done].
Qed.
Lemma history_keeps_inv s s' : custody_history s s' ->
  custody_inv s.1 (custody_core s.2) ->
  custody_inv s'.1 (custody_core s'.2) /\ later (custody_core s.2) (custody_core s'.2).
Proof.
  induction 1 as [s|s1 s2 s3 H _ IH]; intros I; [done|].
  destruct (step_keeps_inv _ _ H I) as [I2 L]. destruct (IH I2) as [I3 L2].
  split; [done|by etrans].
Qed.
Lemma reachable_custody_inv n db : custody_reachable n db -> custody_inv n (custody_core db).
Proof.
  intros (ledger & E & H). apply history_keeps_inv in H as [H _]; [done|]. cbn.
  assert (custody_core (CustodyDatabase.empty ledger) = custody_empty) as ->.
  { unfold ledger_custody in E. injection E as ? ? ? ? ?. unfold custody_core. cbn.
    by f_equal. }
  apply custody_inv_empty.
Qed.

(** ** The samples *)

#[export] Instance admissions_eq : EqDecision NativeChildSpawnAdmissions.t.
Proof. solve_decision. Defined.
#[export] Instance children_eq : EqDecision NativeChildren.t.
Proof. solve_decision. Defined.
#[export] Instance sidecars_eq : EqDecision PiChildSpawnSidecars.t.
Proof. solve_decision. Defined.
#[export] Instance protocols_eq : EqDecision PiChildSessionProtocols.t.
Proof. solve_decision. Defined.
#[export] Instance propagations_eq : EqDecision CancellationPropagations.t.
Proof. solve_decision. Defined.

(** A command of custody with the generation it names, or a change of the ledger. *)
Variant custody_action :=
| Custody (generation : ExpectedGeneration.t) (body : CommandBody.t)
| Ledger (change : Database.t -> Database.t).

Definition custody_request (generation : ExpectedGeneration.t) (body : CommandBody.t) :
  CommandRequest.t :=
  CommandRequest.new (sample_command_id 0) KERNEL (sample_id 1)
    (CommandBody.required_capability body) generation body.

(** The actions, numbered from [n]; whether every command was accepted. *)
Fixpoint run_custody (n : Z) (actions : list custody_action) (db : CustodyDatabase.t) :
  bool * CustodyDatabase.t :=
  match actions with
  | [] => (true, db)
  | Custody generation body :: actions =>
      match dispatch_custody n (custody_request generation body) with
      | Some transition =>
          match transition db with
          | (Ok _, db) => run_custody (n + 1) actions db
          | (Err _, db) => (false, db)
          end
      | None => (false, db)
      end
  | Ledger change :: actions =>
      let ledger := change (CustodyDatabase.ledger db) in
      if bool_decide (ledger_custody ledger = ledger_custody (CustodyDatabase.ledger db))
      then run_custody n actions (db <| CustodyDatabase.ledger := ledger |>)
      else (false, db)
  end.

Definition command (body : CommandBody.t) : custody_action :=
  Custody ExpectedGeneration.NotApplicable body.
Definition command_at (generation : Z) (body : CommandBody.t) : custody_action :=
  Custody (sample_generation generation) body.

Definition portable {n} : BoundaryIdentity.t n := Newtype "identity" eq_refl.
Definition pid (value : Z) : NativeChildPid :=
  match NativeProcessValue.new value with Some n => n | None => Newtype 1 eq_refl end.
Definition group (value : Z) : OwnedProcessGroupId :=
  match NativeProcessValue.new value with Some n => n | None => Newtype 1 eq_refl end.
Definition sample_path : CanonicalWorkspacePath.t := Newtype "/workspace" eq_refl.

Definition open_epoch : custody_action :=
  command (CommandBody.OpenSupervisorEpoch (sample_id 1) portable).
Definition admit_child (generation : Z) (owner : PiChildOwner.t) (reservation : Z) :
  custody_action :=
  command_at generation (CommandBody.AdmitPiChildSpawn sample_cycle owner (sample_id reservation)
    (sample_id 2) portable sample_path (sample_id 1) portable portable portable).
(** Until its session is ready. *)
Definition start_child (generation : Z) : list custody_action :=
  [command (CommandBody.RecordInertChildSpawn (sample_id 1) portable (pid 7) (group 7));
   command (CommandBody.RecordPiAdapterReady (sample_id 1) portable portable);
   command_at generation (CommandBody.AuthorizePiCreateSession (sample_id 1) portable
     sample_digest);
   command (CommandBody.RecordPiCreateSessionDelivery (sample_id 1) portable sample_digest);
   command (CommandBody.RecordPiSessionReady (sample_id 1) portable)].
Definition reap_child (status : DirectChildWaitStatus.t) : custody_action :=
  command (CommandBody.RecordDirectChildReap (sample_id 1) status ProcessGroupLiveness.Present
    ProcessGroupLiveness.Absent).
Definition seal_streams : list custody_action :=
  map (fun stream => command (CommandBody.RecordChildStreamSeal (sample_id 1) stream sample_digest
      (sample_id 1) ChildStreamSealCompleteness.Complete))
    [ChildStreamKind.AdmittedControl; ChildStreamKind.PhysicalStdin; ChildStreamKind.Stdout;
     ChildStreamKind.Stderr].
Definition finalize_child : custody_action :=
  command (CommandBody.FinalizeChildProcess (sample_id 1)).

(** ** A qualification *)

(** The cycle runs, with a reservation. *)
Definition qualification_ledger : Database.t := (sample_run 8 (take 4 qualifying_steps) founded).2.
Definition qualify : custody_action :=
  command_at 0 (CommandBody.QualifyNativeExecutionProfile sample_cycle (sample_id 2) (sample_id 1)
    (sample_id 1) sample_digest (sample_id 1) sample_digest (sample_id 1) sample_digest
    sample_digest (sample_id 1)).
Definition reaped_qualification : list custody_action :=
  [open_epoch;
   admit_child 0 (PiChildOwner.NativeExecutionProfileQualification sample_cycle) 1]
  ++ start_child 0
  ++ [reap_child (DirectChildWaitStatus.Exited (Newtype 0 eq_refl))]
  ++ seal_streams.
Definition qualification : list custody_action :=
  reaped_qualification ++ [finalize_child; qualify].

(** ** A cancelled session *)

Definition cancellation_ledger : Database.t :=
  working <| Database.execution_profiles ::= fun t =>
    Table (<[2 := ExecutionProfiles.new 2 3]> (rows t)) (next_id t) |>.
Definition propagate (body : CommandBody.t) : custody_action := command_at 1 body.
Definition signal_child (action : ProcessSignalAction.t) : custody_action :=
  command (CommandBody.RecordProcessSignalReceipt (sample_id 1) action
    ProcessSignalDelivery.Delivered ProcessGroupLiveness.Present
    (ProcessSignalCause.CancellationPropagation (sample_id 1))).
Definition live_session : list custody_action :=
  [open_epoch; admit_child 0 (PiChildOwner.RootAuthorityOfficeSession (sample_id 1)) 2]
  ++ start_child 0.
Definition terminated_session : list custody_action :=
  live_session
  ++ [Ledger (fun l => (sample_run 14 [by_root 0 (CommandBody.RequestCancellation
        sample_cycle CancellationMode.GracefulCancel)] l).2);
      propagate (CommandBody.BeginCancellationPropagation (sample_id 1));
      propagate (CommandBody.RecordPiAbortControlDelivery (sample_id 1) (sample_id 1) portable
        sample_digest PiAbortControlWriteOutcome.FullyWritten);
      signal_child ProcessSignalAction.Terminate].
Definition cancelled_session : list custody_action :=
  terminated_session
  ++ [signal_child ProcessSignalAction.Kill;
      reap_child (DirectChildWaitStatus.Signaled (Newtype 9 eq_refl))]
  ++ seal_streams
  ++ [finalize_child;
      propagate (CommandBody.ReconcileCancellationPropagation (sample_id 1))].

(** ** A group that came back, and one that is shared *)

Definition see_group (liveness : ProcessGroupLiveness.t) : custody_action :=
  command (CommandBody.RecordChildProcessLiveness (sample_id 1) liveness).
Definition returned_group : list custody_action :=
  live_session ++ [see_group ProcessGroupLiveness.Absent; see_group ProcessGroupLiveness.Present].


(** After the actions, beside the ledger. *)
Definition custody_after (ledger : Database.t) (actions : list custody_action) :
  CustodyDatabase.t :=
  (run_custody 1 actions (CustodyDatabase.empty ledger)).2.

(** ** Runs are histories *)

Lemma run_is_history actions n db : (run_custody n actions db).1 = true ->
  exists n', n - 1 <= n' /\ custody_history (n - 1, db) (n', (run_custody n actions db).2).
Proof.
  revert n db. induction actions as [|[generation body|change] actions IH]; intros n db; cbn.
  - intros _. exists (n - 1). split; [lia|apply rtc_refl].
  - destruct (dispatch_custody n _) as [transition|] eqn:Hd; [|done].
    destruct (transition db) as [[ev|e] db1] eqn:E; [|done].
    intros (n' & Hn & H)%IH. replace (n + 1 - 1) with n in H by lia.
    exists n'. split; [lia|]. eapply rtc_l; [|exact H]. eapply Executed; [lia|exact Hd|exact E].
  - destruct (bool_decide _) eqn:E; [|done]. apply bool_decide_eq_true in E.
    intros (n' & Hn & H)%IH. exists n'. split; [done|]. eapply rtc_l; [|exact H].
    apply Beside; [lia|]. by apply with_ledger.
Qed.
Lemma run_goes_on actions more n db : (run_custody n (actions ++ more) db).1 = true ->
  exists n1 n2, custody_history (n - 1, db) (n1, (run_custody n actions db).2)
    /\ custody_history (n1, (run_custody n actions db).2) (n2, (run_custody n (actions ++ more) db).2).
Proof.
  revert n db. induction actions as [|[generation body|change] actions IH]; intros n db; cbn.
  - intros (n' & _ & H)%run_is_history. exists (n - 1), n'. split; [apply rtc_refl|done].
  - destruct (dispatch_custody n _) as [transition|] eqn:Hd; [|done].
    destruct (transition db) as [[ev|e] db1] eqn:E; [|done].
    intros (n1 & n2 & H1 & H2)%IH. replace (n + 1 - 1) with n in H1 by lia.
    exists n1, n2. split; [|done]. eapply rtc_l; [|exact H1].
    eapply Executed; [lia|exact Hd|exact E].
  - destruct (bool_decide _) eqn:E; [|done]. apply bool_decide_eq_true in E.
    intros (n1 & n2 & H1 & H2)%IH. exists n1, n2. split; [|done]. eapply rtc_l; [|exact H1].
    apply Beside; [lia|]. by apply with_ledger.
Qed.
Lemma sample_reachable_custody ledger actions :
  ledger_custody ledger = (∅, ∅, ∅, ∅, ∅) ->
  (run_custody 1 actions (CustodyDatabase.empty ledger)).1 = true ->
  exists n, custody_reachable n (custody_after ledger actions).
Proof. intros E (n & _ & H)%run_is_history. exists n, ledger. by split. Qed.

(** ** The theorems *)

Lemma same_key_some o d : same_key o (Some d) = true -> o = Some d.
Proof. destruct o as [v|]; [|done]. cbn. by intros ->%Z.eqb_eq. Qed.

Section Safety.
Implicit Types (db : CustodyDatabase.t).

(** C6: the store implements the machine of [CustodyMachine]: every accepted command of
    custody is one of its moves on the tables of custody, with the guards of its rule, and
    every accepted command of the ledger that is modelled leaves those tables as they were. *)
Theorem custody_commands_refine_machine n request :
  (forall transition db ev db', dispatch_custody n request = Some transition ->
     yields transition db ev db' -> custody_move n (custody_core db) (custody_core db'))
  /\ (forall transition db ev ledger, modelled n request = Some transition ->
     yields transition (CustodyDatabase.ledger db) ev ledger ->
     custody_core (db <| CustodyDatabase.ledger := ledger |>) = custody_core db).
Proof.
  split.
  - intros transition db ev db'. apply dispatch_custody_moves.
  - intros transition db ev ledger Hm Hy. apply with_ledger.
    exact (ledger_keeps_custody _ _ _ Hm _ _ _ Hy).
Qed.

(** C20: custody keeps its history: over any further commands a child keeps its admission,
    its process and its group, moves only along the graph of its states, and in a terminal
    state keeps its disposition; an admission is spawned or invalidated once; a session that
    was ready stays so; a protocol only advances, and from the authorisation on keeps the
    digest of its request; no receipt, seal or observation is lost or changed. *)
Theorem child_lifecycle_advances m n db db' :
  custody_reachable m db -> custody_history (m, db) (n, db') ->
  later (custody_core db) (custody_core db').
Proof. intros Hr%reachable_custody_inv H. by apply (history_keeps_inv _ _ H). Qed.

(** C7: a finalized child is accounted for: it was reaped, its process group was absent at
    the reap or later, its disposition is the exit, or the delivered signal, that the wait
    status reports, and its streams are retained: those of its output, and of a Pi child all
    four. *)
Theorem finalized_child_is_accounted n db k r :
  custody_reachable n db -> let c := custody_core db in
  children c !! k = Some r ->
  NativeChildren.lifecycle_state r = ChildProcessState.as_i64 ChildProcessState.Finalized ->
  accounted c k r.
Proof. intros Hr%reachable_custody_inv c. apply (child_accounted _ _ (inv_receipts _ _ Hr)). Qed.

(** C19: absence is final: when a command recorded the process group of a child absent and
    a later one saw it, the containment of the child has failed, for good. *)
Theorem absence_is_final m n db db' k i j :
  custody_reachable m db -> custody_history (m, db) (n, db') ->
  absent_at (custody_core db) k i -> seen_at (custody_core db) k j -> i < j ->
  exists r, children (custody_core db') !! k = Some r
    /\ NativeChildren.lifecycle_state r
       = ChildProcessState.as_i64 ChildProcessState.ContainmentFailed
    /\ NativeChildren.terminal_disposition r
       = Some (ChildTerminalDisposition.as_i64 ChildTerminalDisposition.ContainmentFailed).
Proof.
  intros Hr%reachable_custody_inv H Ha Hs Hlt.
  destruct (history_keeps_inv _ _ H Hr) as [Hr' L].
  destruct (absence_final _ _ (inv_receipts _ _ Hr) _ _ _ Ha Hs Hlt) as (r & Hk & E).
  apply (later_children _ _ L) in Hk as (r' & Hk & _&_&_&_&_& H7 & _). rewrite E in H7.
  apply (reaches_terminal 7) in H7; [|done]. exists r'. split_and!; [done|done|].
  destruct (child_well_formed _ _ (inv_children _ _ Hr') _ _ Hk) as [[_ H1]|[[-> _]|[H8 _]]].
  - by rewrite H7 in H1.
  - by rewrite H7.
  - lia.
Qed.

(** C18: signals escalate: a kill follows an earlier terminate of the same cause; a kill of
    what lingers follows a reap that saw the group present; a terminate of a cancellation
    whose child already had a ready session follows an earlier abort to that session. *)
Theorem signals_escalate_in_order n db i x :
  custody_reachable n db -> let c := custody_core db in
  signals c !! i = Some x -> escalated c x.
Proof.
  intros Hr%reachable_custody_inv c Hi. apply (signal_escalated _ _ (inv_receipts _ _ Hr) _ _ Hi).
Qed.

(** C8: a reconciled cancellation waits for nobody: each of its targets has no child, or
    its child is finalized and accounted for, with the disposition of the target, or the
    supervision of its child was lost. *)
Theorem reconciled_cancellation_is_settled n db id q i t :
  custody_reachable n db -> let c := custody_core db in
  propagations c !! id = Some q ->
  CancellationPropagations.lifecycle_state q
    = CancellationPropagationState.as_i64 CancellationPropagationState.Reconciled ->
  targets c !! i = Some t ->
  CancellationPropagationTargets.cancellation_propagation_id t = id ->
  let target_disposition := CancellationPropagationTargets.target_disposition t in
  match CancellationPropagationTargets.native_child_id t with
  | None => target_disposition = 1
  | Some k => exists r, children c !! k = Some r
      /\ ((NativeChildren.lifecycle_state r = 8 /\ accounted c k r
           /\ ((NativeChildren.terminal_disposition r = Some 1 /\ target_disposition = 3)
               \/ (NativeChildren.terminal_disposition r = Some 4 /\ target_disposition = 4)
               \/ (NativeChildren.terminal_disposition r = Some 5 /\ target_disposition = 5)))
          \/ (NativeChildren.lifecycle_state r = 6 /\ target_disposition = 7))
  end.
Proof.
  intros Hr%reachable_custody_inv c Hq H2 Hi <- d. fold c in Hr.
  destruct (reconciled_settled _ (inv_targets _ _ Hr) _ _ _ Hi Hq H2) as [N2 N6].
  pose proof (target_agrees _ (inv_targets _ _ Hr) _ _ Hi) as Hok. unfold target_ok in Hok.
  destruct (CancellationPropagationTargets.native_child_id t) as [k|]; [|by destruct Hok].
  destruct Hok as (r & Hk & [|Hs]); [done|]. exists r. split; [done|]. fold d in N2, N6, Hs.
  pose proof (child_accounted _ _ (inv_receipts _ _ Hr) k r Hk) as Hacc.
  unfold settled_disposition in Hs.
  repeat match type of Hs with
  | (if ?b then _ else _) = _ => destruct b eqn:?
  end; bool_hyps;
    repeat match goal with H : same_key _ _ = true |- _ => apply same_key_some in H end;
    simplify_eq; auto 10; congruence.
Qed.

End Safety.

(** ** Witnesses *)

Definition finalized_core : CustodyCore.t :=
  custody_core (custody_after qualification_ledger qualification).
Definition cancelled_core : CustodyCore.t :=
  custody_core (custody_after cancellation_ledger cancelled_session).

Ltac sampled := apply sample_reachable_custody; vm_compute; reflexivity.
Lemma qualification_reachable :
  exists n, custody_reachable n (custody_after qualification_ledger qualification).
Proof. sampled. Qed.
Lemma cancelled_reachable :
  exists n, custody_reachable n (custody_after cancellation_ledger cancelled_session).
Proof. sampled. Qed.
Lemma returned_reachable :
  exists n, custody_reachable n (custody_after cancellation_ledger returned_group).
Proof. sampled. Qed.

(** A row of a sample, as [vm_compute] finds it. *)
Ltac found := eexists; split; [vm_compute; reflexivity|reflexivity].

Lemma custody_commands_refine_machine_witness :
  let db := custody_after cancellation_ledger live_session in
  exists ev db', yields (record_child_process_liveness 8 (sample_id 1) ProcessGroupLiveness.Absent)
                   db ev db'
    /\ custody_move 8 (custody_core db) (custody_core db').
Proof.
  intros db.
  destruct (record_child_process_liveness 8 (sample_id 1) ProcessGroupLiveness.Absent db)
    as [[ev|e] db'] eqn:E; [|exfalso; vm_compute in E; discriminate E].
  exists ev, db'. split; [exact E|].
  exact (proj1 (custody_commands_refine_machine 8
    (custody_request ExpectedGeneration.NotApplicable
       (CommandBody.RecordChildProcessLiveness (sample_id 1) ProcessGroupLiveness.Absent)))
    _ db ev db' eq_refl E).
Defined.

Lemma child_lifecycle_advances_witness : exists m n,
  custody_reachable m (custody_after cancellation_ledger live_session)
  /\ custody_history (m, custody_after cancellation_ledger live_session)
       (n, custody_after cancellation_ledger returned_group)
  /\ later (custody_core (custody_after cancellation_ledger live_session))
       (custody_core (custody_after cancellation_ledger returned_group)).
Proof.
  destruct (run_goes_on live_session
    [see_group ProcessGroupLiveness.Absent; see_group ProcessGroupLiveness.Present] 1
    (CustodyDatabase.empty cancellation_ledger)) as (m & n & H1 & H2);
    [vm_compute; reflexivity|].
  assert (custody_reachable m (custody_after cancellation_ledger live_session)) as Hr
    by (exists cancellation_ledger; split; [vm_compute; reflexivity|exact H1]).
  exists m, n. split_and!; [exact Hr|exact H2|]. exact (child_lifecycle_advances _ _ _ _ Hr H2).
Defined.

Lemma finalized_child_is_accounted_witness : exists n r,
  custody_reachable n (custody_after qualification_ledger qualification)
  /\ children finalized_core !! 1 = Some r /\ NativeChildren.lifecycle_state r = 8
  /\ accounted finalized_core 1 r.
Proof.
  destruct qualification_reachable as [n Hr].
  assert (exists r, children finalized_core !! 1 = Some r
    /\ NativeChildren.lifecycle_state r = 8) as (r & Hk & H8) by found.
  exists n, r. split_and!; [assumption..|].
  exact (finalized_child_is_accounted n _ 1 r Hr Hk H8).
Defined.

Lemma absence_is_final_witness : exists n r,
  custody_reachable n (custody_after cancellation_ledger returned_group)
  /\ children (custody_core (custody_after cancellation_ledger returned_group)) !! 1 = Some r
  /\ NativeChildren.lifecycle_state r = 7.
Proof.
  destruct returned_reachable as [n Hr].
  set (db := custody_after cancellation_ledger returned_group) in *.
  assert (absent_at (custody_core db) 1 8) as Ha
    by (eapply (AbsentObservation _ _ _ 1); [vm_compute; reflexivity|reflexivity..]).
  assert (seen_at (custody_core db) 1 9) as Hs
    by (eapply (SeenObservation _ _ _ 2); [vm_compute; reflexivity|reflexivity..|done]).
  destruct (absence_is_final n n db db 1 8 9 Hr (rtc_refl _ _) Ha Hs ltac:(lia))
    as (r & Hk & H7 & _).
  exists n, r. split_and!; assumption.
Defined.

Lemma signals_escalate_in_order_witness : exists n x,
  custody_reachable n (custody_after cancellation_ledger cancelled_session)
  /\ signals cancelled_core !! 2 = Some x /\ ProcessSignalReceipts.signal_action x = 2
  /\ escalated cancelled_core x.
Proof.
  destruct cancelled_reachable as [n Hr].
  assert (exists x, signals cancelled_core !! 2 = Some x
    /\ ProcessSignalReceipts.signal_action x = 2) as (x & Hx & H2) by found.
  exists n, x. split_and!; [assumption..|]. exact (signals_escalate_in_order n _ 2 x Hr Hx).
Defined.

Lemma reconciled_cancellation_is_settled_witness : exists n r,
  custody_reachable n (custody_after cancellation_ledger cancelled_session)
  /\ children cancelled_core !! 1 = Some r /\ NativeChildren.terminal_disposition r = Some 5
  /\ accounted cancelled_core 1 r.
Proof.
  destruct cancelled_reachable as [n Hr].
  assert (exists q, propagations cancelled_core !! 1 = Some q
    /\ CancellationPropagations.lifecycle_state q = 2) as (q & Hq & H2) by found.
  assert (exists t, targets cancelled_core !! 1 = Some t
    /\ (CancellationPropagationTargets.cancellation_propagation_id t,
        CancellationPropagationTargets.native_child_id t,
        CancellationPropagationTargets.target_disposition t) = (1, Some 1, 5)) as (t & Ht & E)
    by found.
  injection E as Ep Ec Ed.
  pose proof (reconciled_cancellation_is_settled n _ 1 q 1 t Hr Hq H2 Ht Ep) as H.
  cbv zeta in H. rewrite Ec, Ed in H. destruct H as (r & Hk & [(_ & Ha & H)|[_ H]]); [|done].
  exists n, r. split_and!; [assumption..| |assumption].
  destruct H as [[_ H]|[[_ H]|[H _]]]; [discriminate H..|exact H].
Defined.

