(* ===== verification/LatencyWorldSpec.v ===== *)
(** * What the synthetic world promises

    The validator accepts exactly the complete partitions; the evaluator tells the parity of
    the evidence it is shown, or the hash collides; no population sees enough of the world
    to know it; the double of an actor never fails under its contract and what it publishes
    fits the Forum; the grammar of a public decision is exact. *)

From S2P Require Import Prelude.
From S2P Require Import Machine.
From S2P Require Import Hash.
From S2P Require Import KernelScalars.
From S2P Require Import KernelEnums.
From S2P Require Import KernelCustody.
From S2P Require Import StudyTypes.
From S2P Require Import PrintableText.
From S2P Require Import LatencyWorld.

Section Spec.
Context {hash : Blake3}.
Implicit Types (card : EvidenceCard.t) (cards : list EvidenceCard.t).

(** ** The validator *)

(** A card as [EvidenceCard::new] makes it. *)
Definition card_ok card : Prop :=
  1 <= EvidenceCard.ordinal card <= 8
  /\ EvidenceCard.partition_mask card = 2 ^ (EvidenceCard.ordinal card - 1)
  /\ EvidenceCard.digest card = Blake3Digest.of_bytes (EvidenceCard.bytes card).
Definition ordinals_of cards : list Z := map EvidenceCard.ordinal cards.
(** The masks of some ordinals together. *)
Definition mask_of (ordinals : list Z) : Z := foldr (fun o m => Z.lor (2 ^ (o - 1)) m) 0 ordinals.

Lemma mask_of_testbit ordinals i :
  Forall (fun o => 1 <= o) ordinals -> 0 <= i ->
  Z.testbit (mask_of ordinals) i = bool_decide (i + 1 ∈ ordinals).
Proof.
  intros Ho Hi. induction Ho as [|o ordinals H1 _ IH]; cbn [mask_of foldr].
  - rewrite Z.testbit_0_l, bool_decide_eq_false_2; [done|apply not_elem_of_nil].
  - fold (mask_of ordinals). rewrite Z.lor_spec, IH, Z.pow2_bits_eqb by lia.
    destruct (Z.eqb_spec (o - 1) i) as [E|E]; cbn.
    + rewrite bool_decide_eq_true_2; [done|]. rewrite elem_of_cons. left. lia.
    + apply bool_decide_ext. rewrite elem_of_cons. split; [by right|]. intros [|]; [lia|done].
Qed.

Lemma mask_of_fresh ordinals o :
  Forall (fun o => 1 <= o) ordinals -> 1 <= o ->
  (Z.land (mask_of ordinals) (2 ^ (o - 1)) =? 0) = bool_decide (o ∉ ordinals).
Proof.
  intros Ho H1. apply Bool.eq_true_iff_eq. rewrite bool_decide_eq_true, Z.eqb_eq. split.
  - intros H Hin. apply (f_equal (fun z => Z.testbit z (o - 1))) in H.
    rewrite Z.land_spec, Z.testbit_0_l, mask_of_testbit, Z.pow2_bits_true in H by (done || lia).
    rewrite bool_decide_eq_true_2 in H; [done|]. by replace (o - 1 + 1) with o by lia.
  - intros Hn. apply Z.bits_inj'. intros i Hi.
    rewrite Z.land_spec, Z.testbit_0_l, mask_of_testbit, Z.pow2_bits_eqb by (done || lia).
    destruct (Z.eqb_spec (o - 1) i) as [<-|]; [|by rewrite andb_false_r].
    replace (o - 1 + 1) with o by lia. by rewrite bool_decide_eq_false_2.
Qed.

Lemma is_content_intact_ok card :
  EvidenceCard.is_content_intact card = true
  <-> EvidenceCard.digest card = Blake3Digest.of_bytes (EvidenceCard.bytes card).
Proof. apply bool_decide_eq_true. Qed.

(** What the loop accepts: good cards, with ordinals not seen before. *)
Lemma validate_cards_ok cards seen mask m :
  Forall (fun o => 1 <= o) seen ->
  validate_cards cards (mask_of seen) mask = Ok m
  <-> Forall card_ok cards /\ NoDup (ordinals_of cards)
      /\ Forall (fun o => o ∉ seen) (ordinals_of cards)
      /\ m = Z.lor mask (mask_of (ordinals_of cards)).
Proof.
  revert seen mask. induction cards as [|card cards IH]; intros seen mask Hseen; cbn.
  - rewrite Z.lor_0_r. split; [intros [= <-]|intros (_ & _ & _ & ->)]; repeat constructor.
  - unfold EvidenceCard.ordinal_ok, EVIDENCE_CARD_COUNT.
    rewrite Forall_cons, NoDup_cons, Forall_cons. unfold card_ok at 1.
    set (o := EvidenceCard.ordinal card).
    destruct ((1 <=? o) && (o <=? 8)) eqn:Ho; cbn [negb];
      [|split; [done|intros ([(? & _) _] & _); lia]].
    assert (1 <= o <= 8) as Hr by lia. clear Ho. rewrite Z.shiftl_1_l.
    rewrite mask_of_fresh by (done || lia).
    case_bool_decide as Hfresh; cbn [negb]; [|split; [done|intros (_ & _ & [? _] & _); done]].
    destruct (Z.eqb_spec (EvidenceCard.partition_mask card) (2 ^ (o - 1))) as [Hm|Hm]; cbn [negb];
      [|split; [done|intros ([(_ & ? & _) _] & _); done]].
    destruct (EvidenceCard.is_content_intact card) eqn:Hd; cbn [negb];
      [|split; [done|intros ([(_ & _ & H%is_content_intact_ok) _] & _); congruence]].
    apply is_content_intact_ok in Hd.
    rewrite Z.lor_comm. change (Z.lor (2 ^ (o - 1)) (mask_of seen)) with (mask_of (o :: seen)).
    rewrite IH by (constructor; [lia|done]). rewrite Hm.
    assert (Forall (fun p => p ∉ o :: seen) (ordinals_of cards)
            <-> o ∉ ordinals_of cards /\ Forall (fun p => p ∉ seen) (ordinals_of cards)) as E.
    { rewrite !Forall_forall. split.
      - intros H. split; [intros Ho; by apply (H o Ho); left|].
        intros p Hp Hin. apply (H p Hp). by right.
      - intros [Hn H] p Hp [->|Hin]%elem_of_cons; [done|by apply (H p Hp)]. }
    rewrite E, Z.lor_assoc. tauto.
Qed.

Lemma validate_cards_error cards seen mask e :
  validate_cards cards seen mask = Err e ->
  (forall m, e <> PartitionValidationError.IncompletePartition m)
  /\ e <> PartitionValidationError.SingleCardCanProveOutcome.
Proof.
  revert seen mask. induction cards as [|card cards IH]; intros seen mask; cbn; [done|].
  repeat (destruct (negb _); [by intros [= <-]|]). apply IH.
Qed.

(** Eight different ordinals are all of them. *)
Lemma ordinals_complete cards :
  length cards = 8%nat -> Forall card_ok cards -> NoDup (ordinals_of cards) ->
  Permutation (ordinals_of cards) (seqZ 1 8) /\ mask_of (ordinals_of cards) = 255.
Proof.
  intros Hlen Hok Hnd.
  assert (forall o, o ∈ ordinals_of cards -> 1 <= o <= 8) as Hrange.
  { intros o Ho. apply list_elem_of_fmap in Ho as (card & -> & Hin).
    rewrite Forall_forall in Hok. apply Hok in Hin as (H & _). exact H. }
  assert (Permutation (ordinals_of cards) (seqZ 1 8)) as Hperm.
  { apply numbers_complete; [done|by apply Forall_forall|].
    unfold ordinals_of. rewrite length_map, Hlen. done. }
  split; [done|]. apply Z.bits_inj'. intros i Hi.
  rewrite mask_of_testbit; [|apply Forall_forall; intros o Ho; apply Hrange in Ho; lia|done].
  assert (i + 1 ∈ ordinals_of cards <-> i < 8) as E by (rewrite Hperm, elem_of_seqZ; lia).
  change 255 with (Z.ones 8). destruct (decide (i < 8)) as [H|H].
  - rewrite Z.ones_spec_low, bool_decide_eq_true_2 by (tauto || lia). done.
  - rewrite Z.ones_spec_high, bool_decide_eq_false_2 by (tauto || lia). done.
Qed.

Definition complete cards : Prop :=
  Forall card_ok cards /\ Permutation (ordinals_of cards) (seqZ 1 8).
Lemma validator_outcome cards :
  (validate_evidence_partition cards = Ok () /\ complete cards)
  \/ (exists e, validate_evidence_partition cards = Err e /\ ~ complete cards
      /\ (forall m, e <> PartitionValidationError.IncompletePartition m)
      /\ e <> PartitionValidationError.SingleCardCanProveOutcome).
Proof.
  unfold validate_evidence_partition, EVIDENCE_CARD_COUNT.
  destruct (Z.eqb_spec (Z.of_nat (length cards)) 8) as [Hlen|Hlen]; cbn [negb].
  2: { right. eexists. split_and!; [done| |done..]. intros [_ H%Permutation_length].
       unfold ordinals_of in H. rewrite length_map, length_seqZ in H. lia. }
  destruct (validate_cards cards 0 0) as [m|e] eqn:E; [left|right].
  - apply (validate_cards_ok cards [] 0) in E as (Hok & Hnd & _ & ->); [|constructor].
    destruct (ordinals_complete cards) as [Hperm Hmask]; [lia|done|done|].
    rewrite Z.lor_0_l, Hmask, Hlen. done.
  - exists e. pose proof (validate_cards_error _ _ _ _ E) as [H1 H2]. split_and!; [done| |done..].
    intros [Hok Hperm].
    assert (validate_cards cards 0 0 = Ok (Z.lor 0 (mask_of (ordinals_of cards)))) as H;
      [|by rewrite E in H].
    apply (validate_cards_ok cards [] 0); [constructor|].
    split; [done|]. split; [rewrite Hperm; apply NoDup_seqZ|].
    split; [|done]. apply Forall_forall. intros ? _. apply not_elem_of_nil.
Qed.
Lemma validator_accepts_exactly cards :
  validate_evidence_partition cards = Ok () <-> complete cards.
Proof. destruct (validator_outcome cards) as [[-> ?]|(e & -> & ? & _)]; split; done. Qed.

(** C28: the validator accepts exactly the complete partitions: eight cards with the ordinals
    1 to 8 in some order, each with the mask of its ordinal and the digest of its bytes; its
    last two errors, of an incomplete mask and of a single decisive card, cannot occur. *)
Theorem validator_accepts_exactly_partitions cards :
  (validate_evidence_partition cards = Ok ()
   <-> Forall card_ok cards /\ Permutation (ordinals_of cards) (seqZ 1 8))
  /\ (forall mask, validate_evidence_partition cards
                   <> Err (PartitionValidationError.IncompletePartition mask))
  /\ validate_evidence_partition cards <> Err PartitionValidationError.SingleCardCanProveOutcome.
Proof.
  split; [apply validator_accepts_exactly|].
  destruct (validator_outcome cards) as [[-> ?]|(e & -> & _ & H1 & H2)]; [done|].
  split; [intros m [= ->]; by eapply H1|congruence].
Qed.

(** ** The evaluator *)

Definition observations cards : list bool := map EvidenceCard.observation cards.

Lemma byte_at_small a b : 0 <= a < 256 -> 0 <= b < 256 -> byte_at 0 a = byte_at 0 b -> a = b.
Proof.
  intros Ha Hb H. apply (f_equal (fun x => Z.of_N (byte_value x))) in H.
  rewrite !byte_at_value, !Z.shiftr_0_r in H. change 255 with (Z.ones 8) in H.
  rewrite !Z.land_ones, !Z.mod_small in H by lia. exact H.
Qed.

Lemma card_identity_length card : length (card_identity card) = 35%nat.
Proof.
  unfold card_identity. rewrite length_app. cbn. destruct (EvidenceCard.digest card) as [d Hd].
  unfold Blake3Digest.ok in Hd. cbn. apply Nat.eqb_eq in Hd. by rewrite Hd.
Qed.
Lemma u8_of_bool_range b : 0 <= u8_of_bool b < 256.
Proof. destruct b; cbn; lia. Qed.
Lemma card_identity_observation card card' :
  card_identity card = card_identity card' ->
  EvidenceCard.observation card = EvidenceCard.observation card'.
Proof.
  unfold card_identity. intros [= _ H _ _].
  apply byte_at_small in H; [|apply u8_of_bool_range..].
  by destruct (EvidenceCard.observation card), (EvidenceCard.observation card').
Qed.
(** Equal preimages tell the same observations. *)
Lemma preimage_observations cards cards' :
  partition_preimage cards = partition_preimage cards' -> observations cards = observations cards'.
Proof.
  unfold partition_preimage. intros H%app_inv_head. revert cards' H.
  induction cards as [|c cards IH]; intros [|c' cards'] H.
  - done.
  - exfalso. apply (f_equal length) in H. cbn [flat_map] in H.
    rewrite length_app, card_identity_length in H. done.
  - exfalso. apply (f_equal length) in H. cbn [flat_map] in H.
    rewrite length_app, card_identity_length in H. done.
  - cbn [flat_map] in H. apply app_inj_1 in H as [Hc H]; [|by rewrite !card_identity_length].
    cbn. rewrite (card_identity_observation _ _ Hc). f_equal. by apply IH.
Qed.

Lemma canonical_cards_observations index l cards :
  WorldFixture.canonical_cards index l = Some cards -> observations cards = map fst l.
Proof.
  revert index cards. induction l as [|[o b] l IH]; intros index cards; cbn; [by intros [= <-]|].
  destruct (EvidenceCard.new _ _ _) as [card|] eqn:Hn; [|done].
  destruct (WorldFixture.canonical_cards _ l) as [rest|] eqn:Hr; [|done]. intros [= <-].
  change (EvidenceCard.observation card :: observations rest = o :: map fst l).
  rewrite (IH _ _ Hr). f_equal. unfold EvidenceCard.new in Hn.
  destruct (negb _); [done|]. destruct b; [done|]. by injection Hn as <-.
Qed.

Lemma try_from_cards_ok cards p :
  EvidencePartition.try_from_cards cards = Ok p ->
  validate_evidence_partition cards = Ok () /\ p = EvidencePartition.make cards (partition_identity cards).
Proof.
  unfold EvidencePartition.try_from_cards.
  destruct (validate_evidence_partition cards) as [[]|e]; [|done]. by intros [= <-].
Qed.

(** The canonical fixture: its evidence is valid, and its hidden outcome is the parity of it. *)
Lemma canonical_fixture fixture :
  WorldFixture.canonical = Some fixture ->
  validate_evidence_partition (WorldFixture.cards fixture) = Ok ()
  /\ EvidencePartition.identity (WorldFixture.partition fixture)
     = partition_identity (WorldFixture.cards fixture)
  /\ WorldFixture.hidden_outcome fixture
     = BinaryOutcome.from_bit (WorldFixture.parity (observations (WorldFixture.cards fixture))).
Proof.
  unfold WorldFixture.canonical, WorldFixture.try_canonical.
  destruct (WorldFixture.canonical_cards 0 _) as [cards|] eqn:Hc; [|done].
  destruct (EvidencePartition.try_from_cards cards) as [p|e] eqn:Hp; [|done].
  apply try_from_cards_ok in Hp as [Hv ->]. destruct (negb _); [done|]. intros [= <-].
  cbn [WorldFixture.cards WorldFixture.partition EvidencePartition.cards
       EvidencePartition.identity WorldFixture.hidden_outcome].
  apply canonical_cards_observations in Hc. split_and!; [done..|].
  f_equal. by rewrite Hc.
Qed.

(** C29: whatever complete evidence the evaluator of the canonical world accepts, the outcome
    it tells is the parity of that evidence, and a decision is correct exactly when it is
    that parity; or the evidence and the canonical one are a collision of the hash. *)
Theorem evaluator_tells_parity fixture cards p decision evaluation :
  WorldFixture.canonical = Some fixture ->
  EvidencePartition.try_from_cards cards = Ok p ->
  AnalysisOnlyEvaluator.evaluate_decision (WorldFixture.analysis_evaluator fixture) p decision
    = Ok evaluation ->
  let outcome := BinaryOutcome.from_bit (WorldFixture.parity (observations cards)) in
  (GroundTruthEvaluation.outcome evaluation = outcome
   /\ (GroundTruthEvaluation.decision_correct evaluation = true <-> decision = outcome))
  \/ collides (partition_preimage cards) (partition_preimage (WorldFixture.cards fixture)).
Proof.
  intros (_ & Hid & Hout)%canonical_fixture [Hv ->]%try_from_cards_ok.
  unfold AnalysisOnlyEvaluator.evaluate_decision, AnalysisOnlyEvaluator.evaluate_partition.
  cbn [EvidencePartition.cards EvidencePartition.identity WorldFixture.analysis_evaluator
       AnalysisOnlyEvaluator.evidence_identity AnalysisOnlyEvaluator.hidden_outcome].
  rewrite Hv. cbn [map_err]. case_bool_decide as E; cbn [negb]; [|done].
  intros [= <-].
  cbn [GroundTruthEvaluation.outcome GroundTruthEvaluation.decision_correct].
  rewrite Hid in E. apply (f_equal Blake3Digest.as_bytes) in E. cbn in E.
  apply blake3_inj_or_collides in E as [E|E]; [left|by right].
  apply preimage_observations in E. rewrite E, Hout.
  by rewrite bool_decide_eq_true.
Qed.

(** The canonical evidence is accepted. *)
Lemma canonical_evaluates fixture decision :
  WorldFixture.canonical = Some fixture -> exists p evaluation,
  EvidencePartition.try_from_cards (WorldFixture.cards fixture) = Ok p
  /\ AnalysisOnlyEvaluator.evaluate_decision (WorldFixture.analysis_evaluator fixture) p decision
     = Ok evaluation.
Proof.
  intros (Hv & Hid & _)%canonical_fixture. eexists _, _. split.
  - unfold EvidencePartition.try_from_cards. by rewrite Hv.
  - unfold AnalysisOnlyEvaluator.evaluate_decision, AnalysisOnlyEvaluator.evaluate_partition.
    cbn [EvidencePartition.cards EvidencePartition.identity WorldFixture.analysis_evaluator
         AnalysisOnlyEvaluator.evidence_identity]. rewrite Hv. cbn [map_err].
    by rewrite bool_decide_eq_true_2.
Qed.

(** ** The views of a population *)

(** The world with other evidence. *)
Definition with_cards (fixture : WorldFixture.t) cards : WorldFixture.t :=
  WorldFixture.make (EvidencePartition.make cards (partition_identity cards))
    (WorldFixture.false_claim fixture) (WorldFixture.correction_package fixture)
    (WorldFixture.ground_truth_reveal fixture) (WorldFixture.identity fixture)
    (WorldFixture.hidden_outcome fixture).
(** The eighth card observed the other value. *)
Definition flip card : EvidenceCard.t :=
  if EvidenceCard.ordinal card =? 8 then
    EvidenceCard.make (EvidenceCard.ordinal card) (negb (EvidenceCard.observation card))
      (EvidenceCard.partition_mask card) (EvidenceCard.bytes card) (EvidenceCard.digest card)
      (EvidenceCard.source_signature card)
  else card.

Lemma flip_ordinals cards : ordinals_of (map flip cards) = ordinals_of cards.
Proof.
  unfold ordinals_of. rewrite map_map. apply map_ext. intros card. unfold flip. by case_match.
Qed.
Lemma flip_ok card : card_ok card -> card_ok (flip card).
Proof. unfold flip. by case_match. Qed.
Lemma flip_find k cards :
  k <> 8 ->
  List.find (fun card => EvidenceCard.ordinal card =? k) (map flip cards)
  = List.find (fun card => EvidenceCard.ordinal card =? k) cards.
Proof.
  intros Hk. induction cards as [|card cards IH]; [done|]. cbn. rewrite IH. unfold flip.
  destruct (Z.eqb_spec (EvidenceCard.ordinal card) 8) as [E|]; [|done]. cbn.
  destruct (Z.eqb_spec (EvidenceCard.ordinal card) k); [congruence|done].
Qed.

Lemma parity_cons b l : WorldFixture.parity (b :: l) = xorb b (WorldFixture.parity l).
Proof.
  unfold WorldFixture.parity. cbn.
  assert (forall l a b, fold_left xorb l (xorb a b) = xorb a (fold_left xorb l b)) as H.
  { clear. induction l as [|x l IH]; intros a b; cbn; [done|]. by rewrite Bool.xorb_assoc, IH. }
  rewrite <-H. by destruct b.
Qed.
Lemma flip_none cards : 8 ∉ ordinals_of cards -> map flip cards = cards.
Proof.
  induction cards as [|card cards IH]; [done|]. cbn. rewrite elem_of_cons. intros Hn.
  rewrite IH by tauto. f_equal. unfold flip.
  destruct (Z.eqb_spec (EvidenceCard.ordinal card) 8); [exfalso; apply Hn; by left|done].
Qed.
Lemma flip_parity cards :
  NoDup (ordinals_of cards) -> 8 ∈ ordinals_of cards ->
  WorldFixture.parity (observations (map flip cards))
  = negb (WorldFixture.parity (observations cards)).
Proof.
  induction cards as [|card cards IH]; [by intros _ ?%elem_of_nil|].
  change (ordinals_of (card :: cards)) with (EvidenceCard.ordinal card :: ordinals_of cards).
  change (observations (map flip (card :: cards)))
    with (EvidenceCard.observation (flip card) :: observations (map flip cards)).
  change (observations (card :: cards)) with (EvidenceCard.observation card :: observations cards).
  rewrite NoDup_cons, elem_of_cons, !parity_cons. intros [Hn Hnd] H8.
  destruct (Z.eqb_spec (EvidenceCard.ordinal card) 8) as [E|E].
  - rewrite flip_none by by rewrite <-E. unfold flip. rewrite E. cbn [Z.eqb Pos.eqb EvidenceCard.observation].
    by rewrite Bool.negb_xorb_l.
  - destruct H8 as [H8|H8]; [congruence|]. 
    rewrite (IH Hnd H8). unfold flip. rewrite (proj2 (Z.eqb_neq _ _) E).
    by rewrite Bool.negb_xorb_r.
Qed.

(** No population knows the world: for any complete evidence there is other complete
    evidence of the opposite parity that gives every role the same private view, so that not
    even all the views of a population together determine the outcome. *)
Theorem views_do_not_determine_outcome fixture :
  validate_evidence_partition (WorldFixture.cards fixture) = Ok () ->
  exists cards, validate_evidence_partition cards = Ok ()
  /\ WorldFixture.parity (observations cards)
     = negb (WorldFixture.parity (observations (WorldFixture.cards fixture)))
  /\ forall role, role ∈ RoleSpecification.canonical_role_specifications ->
       RoleSpecification.private_view role (with_cards fixture cards)
       = RoleSpecification.private_view role fixture.
Proof.
  intros Hv. apply validator_accepts_exactly in Hv as [Hok Hperm].
  exists (map flip (WorldFixture.cards fixture)). split_and!.
  - apply validator_accepts_exactly. split.
    + apply Forall_map. eapply Forall_impl; [exact Hok|]. apply flip_ok.
    + by rewrite flip_ordinals.
  - apply flip_parity; [rewrite Hperm; apply NoDup_seqZ|].
    rewrite Hperm. apply elem_of_seqZ. lia.
  - intros role Hin. unfold RoleSpecification.private_view.
    destruct (RoleSpecification.private_view_kind role) as [k|] eqn:Hk; [|done].
    unfold WorldFixture.cards at 1. cbn [WorldFixture.partition with_cards EvidencePartition.cards].
    rewrite flip_find; [done|]. intros ->.
    unfold RoleSpecification.canonical_role_specifications in Hin.
    repeat (apply elem_of_cons in Hin as [->|Hin]; [done|]). by apply elem_of_nil in Hin.
Qed.

(** ** The double of an actor *)

Lemma printable_show_digest d : printable 64 (show_digest d).
Proof. apply printable_digest. Qed.
Lemma printable_optional_digest d : printable 70 (show_optional_digest d).
Proof.
  destruct d as [d|]; [|by vm_compute].
  apply (printable_app 5 65); [by vm_compute|]. apply (printable_app 64 1); [|by vm_compute].
  apply printable_show_digest.
Qed.
Hint Resolve printable_show_digest printable_optional_digest : printable.

Lemma printable_tag phase : printable 9 (ActorPopulationPhase.tag phase).
Proof. by destruct phase; vm_compute. Qed.
Lemma printable_kind_tag kind : printable 9 (RoleMessageKind.tag kind).
Proof. by destruct kind; vm_compute. Qed.
Lemma printable_obligation_tag obligation : printable 14 (ForumReadObligation.tag obligation).
Proof. by destruct obligation; vm_compute. Qed.
Lemma printable_bool b : printable 5 (show_bool b).
Proof. by destruct b; vm_compute. Qed.
Hint Resolve printable_tag printable_kind_tag printable_obligation_tag printable_bool : printable.

Lemma printable_header role what phase :
  printable 20 (bytes what) -> printable 100 (RoleSpecification.output_header role what phase).
Proof. intros Hw. unfold RoleSpecification.output_header. printable_parts. Qed.
Lemma printable_reference obligation correction :
  printable 150 (RoleSpecification.forum_reference obligation correction).
Proof. unfold RoleSpecification.forum_reference. printable_parts. Qed.
Hint Resolve printable_header printable_reference : printable.

Lemma ok_pair {A B E} (a c : A) (b d : B) : Ok (E := E) (a, b) = Ok (c, d) -> c = a /\ d = b.
Proof. by intros [= -> ->]. Qed.
(** Every body is printable and begins with the prefix of the study. *)
Lemma output_body_printable role phase view correction body decision :
  RoleSpecification.output_body role phase view correction = Ok (body, decision) ->
  printable 8192 body /\ body <> [].
Proof.
  assert (forall what (rest : list byte),
    RoleSpecification.output_header role what phase ++ rest <> []) as Hne by done.
  assert (printable 20 (bytes "actor-output") /\ printable 20 (bytes "decision")) as [Ha Hd]
    by by vm_compute.
  unfold RoleSpecification.output_body.
  destruct (RoleSpecification.kind role);
    (destruct (ok_or _ _) as [x|]; [|done]); intros [-> ->]%ok_pair.
  - unfold RoleSpecification.observer_body.
    destruct (_ && _); [split; [by vm_compute|done]|].
    split; [printable_parts|apply Hne].
  - split; [printable_parts|apply Hne].
  - split; [printable_parts|apply Hne].
  - split; [printable_parts|apply Hne].
Qed.

Lemma bytes_of_list l : bytes (string_of_list_ascii l) = l.
Proof. apply list_ascii_of_string_of_list_ascii. Qed.
Lemma printable_is_publishable body :
  printable 8192 body -> body <> [] -> ForumMessageBody.ok (string_of_list_ascii body) = true.
Proof.
  intros [H1 H2] Hne. unfold ForumMessageBody.ok, is_str, str_contains, contains_byte.
  rewrite bytes_of_list. rewrite utf8_valid_ascii.
  2: { rewrite forallb_forall in H1 |- *. intros b Hb%H1. unfold between in *.
       rewrite andb_true_iff, !N.leb_le in Hb |- *. lia. }
  assert (str_len (string_of_list_ascii body) = Z.of_nat (length body)) as ->.
  { unfold str_len. f_equal. clear. by induction body as [|b body IH]; cbn; [|rewrite IH]. }
  assert (existsb (Ascii.eqb NUL) body = false) as ->.
  { apply not_true_is_false. rewrite existsb_exists. intros (b & Hb & <-%Ascii.eqb_eq).
    rewrite forallb_forall in H1. by apply H1 in Hb. }
  destruct body as [|b body]; [done|]. unfold ForumMessageBody.MAX_BYTES.
  cbn [string_of_list_ascii is_empty orb andb]. rewrite orb_false_r.
  by destruct (Z.ltb_spec (8 * 1024) (Z.of_nat (length (b :: body)))); [lia|].
Qed.

(** The view of a role is there when the evidence is complete. *)
Lemma view_exists fixture role :
  complete (WorldFixture.cards fixture) ->
  role ∈ RoleSpecification.canonical_role_specifications ->
  exists view, RoleSpecification.private_view role fixture = Ok view
  /\ ActorPrivateView.role view = RoleSpecification.kind role
  /\ match RoleSpecification.kind role with
     | RoleKind.Observer => is_Some (ActorPrivateView.card view)
     | _ => is_Some (ActorPrivateView.forum_obligation view)
     end.
Proof.
  intros [_ Hperm] Hin. unfold RoleSpecification.private_view.
  assert (forall k, 1 <= k < 9 -> exists card,
    List.find (fun card => EvidenceCard.ordinal card =? k) (WorldFixture.cards fixture) = Some card)
    as Hfind.
  { intros k Hk. destruct (List.find _ _) as [card|] eqn:E; [by exists card|]. exfalso.
    assert (k ∈ ordinals_of (WorldFixture.cards fixture)) as Hc
      by (rewrite Hperm; by apply elem_of_seqZ).
    apply list_elem_of_fmap in Hc as (card & -> & Hc). apply list_elem_of_In in Hc.
    pose proof (find_none _ _ E _ Hc) as Hn. cbv beta in Hn. by rewrite Z.eqb_refl in Hn. }
  unfold RoleSpecification.canonical_role_specifications in Hin.
  repeat (apply elem_of_cons in Hin as [->|Hin];
    [cbn; try (edestruct Hfind as [card ->]; [|]; [lia|]); by eexists|]).
  by apply elem_of_nil in Hin.
Qed.

(** What an actor of the phase is handed. *)
Definition correction_for (phase : ActorPopulationPhase.t) (correction : CorrectionPackage.t) :
  option CorrectionPackage.t :=
  match phase with
  | ActorPopulationPhase.Source => None
  | ActorPopulationPhase.Successor => Some correction
  end.

(** The double of an actor meets its contract: with complete evidence every role has its
    private view, and with it and the correction of its phase it publishes a message that the
    Forum takes; only the decision role decides, and follows the correction: zero before it,
    one after. *)
Theorem actor_double_publishes fixture role phase correction :
  validate_evidence_partition (WorldFixture.cards fixture) = Ok () ->
  role ∈ RoleSpecification.canonical_role_specifications ->
  exists view output, RoleSpecification.private_view role fixture = Ok view
  /\ RoleSpecification.deterministic_output role phase view (correction_for phase correction)
     = Ok output
  /\ ForumMessageBody.ok (string_of_list_ascii
       (ImmutableContent.bytes (DeterministicActorMessage.body
         (DeterministicActorOutput.message output)))) = true
  /\ option_map DecisionObservation.outcome (DeterministicActorOutput.decision output)
     = match RoleSpecification.kind role with
       | RoleKind.Decision => Some (match phase with
                                    | ActorPopulationPhase.Source => BinaryOutcome.Zero
                                    | ActorPopulationPhase.Successor => BinaryOutcome.One
                                    end)
       | _ => None
       end.
Proof.
  intros Hv%validator_accepts_exactly Hin.
  destruct (view_exists fixture role Hv Hin) as (view & Hview & Hrole & Hshape).
  assert (exists body decision, RoleSpecification.output_body role phase view
    (option_map CorrectionPackage.digest (correction_for phase correction)) = Ok (body, decision)
    /\ option_map DecisionObservation.outcome decision
       = match RoleSpecification.kind role with
         | RoleKind.Decision => Some (match phase with
                                      | ActorPopulationPhase.Source => BinaryOutcome.Zero
                                      | ActorPopulationPhase.Successor => BinaryOutcome.One
                                      end)
         | _ => None
         end) as (body & decision & Hbody & Hd).
  { unfold RoleSpecification.output_body.
    destruct (RoleSpecification.kind role); destruct Hshape as [x ->]; cbn [ok_or];
      by eexists _, _. }
  pose proof (output_body_printable _ _ _ _ _ _ Hbody) as [Hp Hne].
  eexists view, _. split; [done|]. unfold RoleSpecification.deterministic_output.
  rewrite Hrole, bool_decide_eq_true_2 by done. cbn [negb].
  rewrite Hbody. split; [by destruct phase|].
  cbn. split; [by apply printable_is_publishable|done].
Qed.

(** The contract of the double is enforced: it refuses the view of another role, a
    correction before the replacement of the population, and none after it. *)
Theorem actor_double_refuses role phase view correction :
  (ActorPrivateView.role view <> RoleSpecification.kind role ->
   RoleSpecification.deterministic_output role phase view correction
   = Err (ActorOutputError.ViewRoleMismatch (RoleSpecification.kind role)
            (ActorPrivateView.role view)))
  /\ (ActorPrivateView.role view = RoleSpecification.kind role ->
      (forall c, RoleSpecification.deterministic_output role ActorPopulationPhase.Source view
                   (Some c) = Err ActorOutputError.CorrectionBeforeReplacement)
      /\ RoleSpecification.deterministic_output role ActorPopulationPhase.Successor view None
         = Err ActorOutputError.SuccessorCorrectionMissing).
Proof.
  unfold RoleSpecification.deterministic_output. split.
  - intros H. by rewrite bool_decide_eq_false_2.
  - intros H. by rewrite bool_decide_eq_true_2.
Qed.

(** ** The grammar of a public decision *)

Definition render_decision (record : PublicDecisionRecord.t) : list byte :=
  PUBLIC_DECISION_RECORD_REVISION
  ++ bytes "|outcome=" ++ show_i64 (u8_of_bool (BinaryOutcome.bit (PublicDecisionRecord.outcome record)))
  ++ bytes "|confidence="
  ++ bytes match PublicDecisionRecord.confidence record with
           | PublicDecisionConfidence.Low => "low"
           | PublicDecisionConfidence.Medium => "medium"
           | PublicDecisionConfidence.High => "high"
           end.

(** The grammar of a public decision is strict and closed: a body is read as a record
    exactly when it is the one text of that record, and refused otherwise. *)
Theorem public_decision_grammar_is_exact body record :
  parse_public_decision_record body = Ok record <-> body = render_decision record.
Proof.
  split; [|intros ->; by destruct record as [[] []]].
  unfold parse_public_decision_record. pose proof (split_on_join "|"%char body) as Hjoin.
  destruct (split_on "|"%char body) as [|a [|b [|c [|d [|e rest]]]]]; try done.
  unfold is_field, outcome_field, confidence_field, is_field.
  repeat case_bool_decide; subst; cbn [andb negb]; try done;
    (destruct rest; [|done]); intros [= <-];
    unfold prefixed in Hjoin; vm_compute in Hjoin |- *; by injection Hjoin as <-.
Qed.
End Spec.

(** ** Witnesses *)

(** A stand-in for BLAKE3 that knows the digests of the canonical cards. *)
Definition first_bytes (l : list byte) : list byte := take 32 (l ++ replicate 32 NUL).
Definition fixture_blake3 (l : list byte) : list byte :=
  match List.find (fun entry => bool_decide (entry.1 = l))
          (zip CANONICAL_CARD_BYTES CANONICAL_CARD_DIGESTS) with
  | Some entry => Blake3Digest.as_bytes entry.2
  | None => first_bytes l
  end.
Lemma fixture_blake3_length l : length (fixture_blake3 l) = 32%nat.
Proof.
  unfold fixture_blake3. destruct (List.find _ _) as [[a [d Hd]]|].
  - cbn. by apply Nat.eqb_eq.
  - unfold first_bytes. rewrite length_take, length_app, length_replicate. lia.
Qed.
Definition fixture_hash : Blake3 :=
  {| blake3 := fixture_blake3; blake3_length := fixture_blake3_length |}.

Lemma fixture_exists : exists fixture,
  WorldFixture.canonical (hash := fixture_hash) = Some fixture.
Proof.
  assert (match WorldFixture.canonical (hash := fixture_hash) with
          | Some _ => true | None => false end = true) as H by (vm_compute; reflexivity).
  destruct (WorldFixture.canonical (hash := fixture_hash)) as [fixture|]; [by exists fixture|done].
Qed.

Lemma evaluator_tells_parity_witness : exists fixture p evaluation,
  WorldFixture.canonical (hash := fixture_hash) = Some fixture
  /\ EvidencePartition.try_from_cards (H := fixture_hash) (WorldFixture.cards fixture) = Ok p
  /\ AnalysisOnlyEvaluator.evaluate_decision (hash := fixture_hash)
       (WorldFixture.analysis_evaluator fixture) p BinaryOutcome.One = Ok evaluation
  /\ ((GroundTruthEvaluation.outcome evaluation
       = BinaryOutcome.from_bit (WorldFixture.parity (observations (WorldFixture.cards fixture)))
       /\ (GroundTruthEvaluation.decision_correct evaluation = true
           <-> BinaryOutcome.One = BinaryOutcome.from_bit
                 (WorldFixture.parity (observations (WorldFixture.cards fixture)))))
      \/ collides (H := fixture_hash) (partition_preimage (WorldFixture.cards fixture))
           (partition_preimage (WorldFixture.cards fixture))).
Proof.
  destruct fixture_exists as [fixture Hf].
  destruct (canonical_evaluates (hash := fixture_hash) fixture BinaryOutcome.One Hf)
    as (p & evaluation & Hp & He).
  exists fixture, p, evaluation. split; [exact Hf|split; [exact Hp|split; [exact He|]]].
  exact (evaluator_tells_parity (hash := fixture_hash) _ _ _ _ _ Hf Hp He).
Defined.

Lemma views_do_not_determine_outcome_witness : exists fixture cards,
  WorldFixture.canonical (hash := fixture_hash) = Some fixture
  /\ validate_evidence_partition (hash := fixture_hash) cards = Ok ()
  /\ WorldFixture.parity (observations cards)
     = negb (WorldFixture.parity (observations (WorldFixture.cards fixture))).
Proof.
  destruct fixture_exists as [fixture Hf].
  destruct (views_do_not_determine_outcome (hash := fixture_hash) fixture) as (cards & Hv & Hp & _).
  - apply (canonical_fixture (hash := fixture_hash)). exact Hf.
  - exists fixture, cards. split; [exact Hf|split; [exact Hv|exact Hp]].
Defined.

Lemma actor_double_publishes_witness : exists fixture role view output,
  WorldFixture.canonical (hash := fixture_hash) = Some fixture
  /\ RoleSpecification.private_view role fixture = Ok view
  /\ RoleSpecification.deterministic_output (hash := fixture_hash) role
       ActorPopulationPhase.Source view None = Ok output.
Proof.
  destruct fixture_exists as [fixture Hf].
  destruct (actor_double_publishes (hash := fixture_hash) fixture
    (RoleSpecification.make (Newtype 1 eq_refl) RoleKind.Observer (PrivateViewKind.EvidenceCard 1))
    ActorPopulationPhase.Source (canonical_correction_package (H := fixture_hash)))
    as (view & output & Hview & Hout & _).
  - apply (canonical_fixture (hash := fixture_hash)). exact Hf.
  - left.
  - eexists fixture, _, view, output. split; [exact Hf|split; [exact Hview|exact Hout]].
Defined.
