(* ===== verification/LatencyAnalysis.v ===== *)
(** * The analysis of the correction-latency study

    [correction-latency-harness/src/analysis.rs], with the reports of [lib.rs] that it reads:
    the plan of an analysis, the checks on persisted pairs and runs, the paired estimators,
    and the artifact as a table of tab separated values. *)

From stdpp Require Import vector.
From S2P Require Import Prelude.
From S2P Require Import Machine.
From S2P Require Import Hash.
From S2P Require Import Binary64.
From S2P Require Import KernelScalars.
From S2P Require Import KernelEnums.
From S2P Require Import StudyTypes.

(** ** Reports of the harness *)

Module MeasurementOutcome.
Inductive t :=
| Observed (value : i64) (value_digest : Blake3Digest.t)
| Unavailable (reason_digest : Blake3Digest.t)
| Invalidated (reason_digest : Blake3Digest.t).
#[global] Instance eq_dec : EqDecision t.
Proof. solve_decision. Defined.
End MeasurementOutcome.

Module ArmActivityReport.
Record t := new {
  source_actor_obligations : i64;
  successor_actor_obligations : i64;
  source_forum_posts : i64;
  correction_forum_posts : i64;
  successor_forum_posts : i64;
  accepted_forum_reads : i64;
  forum_read_bytes : i64;
  study_budget_units : i64;
}.
#[global] Instance eq_dec : EqDecision t.
Proof. solve_decision. Defined.
(** [None]: the sum overflows. *)
Definition total_actor_obligations (self : t) : option Z :=
  checked_add_i64 (inner (source_actor_obligations self)) (inner (successor_actor_obligations self)).
Definition total_forum_posts (self : t) : option Z :=
  match checked_add_i64 (inner (source_forum_posts self)) (inner (correction_forum_posts self)) with
  | Some posts => checked_add_i64 posts (inner (successor_forum_posts self))
  | None => None
  end.
End ArmActivityReport.

Module ArmReport.
Record t := new {
  treatment : StudyTreatment.t;
  activity : ArmActivityReport.t;
  frozen_forum_head : i64;
  correction_digest : Blake3Digest.t;
  correction_adoption_latency : MeasurementOutcome.t;
  final_decision_correct : MeasurementOutcome.t;
  false_claim_persistence : MeasurementOutcome.t;
  correction_visibility : MeasurementOutcome.t;
  dissent_survival : MeasurementOutcome.t;
  forum_history_utilization : MeasurementOutcome.t;
  forum_attention_bytes : MeasurementOutcome.t;
  forum_attention_turns : MeasurementOutcome.t;
  forum_attention_runtime_micros : MeasurementOutcome.t;
  operational_cost_microusd : MeasurementOutcome.t;
  amortized_institutional_cost_microusd : MeasurementOutcome.t;
}.
#[global] Instance eq_dec : EqDecision t.
Proof. solve_decision. Defined.
End ArmReport.

Module BaselineReport.
Record t := new {
  name : list byte;
  final_decision_correct : MeasurementOutcome.t;
  actor_turns : MeasurementOutcome.t;
}.
#[global] Instance eq_dec : EqDecision t.
Proof. solve_decision. Defined.
End BaselineReport.

(** ** Errors *)

Module AnalysisInputError.
Inductive t :=
| InvalidPairId
| DuplicatePairId
| DuplicateWorldSeed
| EmptyInput
| IncompletePersistedPair
| MismatchedPersistedPair
| InvalidAnalysisPlan
| AnalysisPlanPairMismatch
| AnalysisPlanProvenanceMissing
| AnalysisPlanSeedMismatch
| StudyRunNotReady
| StudyRunPlanDigestMismatch
| StudyRunPairRegistrationMismatch.
#[global] Instance eq_dec : EqDecision t.
Proof. solve_decision. Defined.
Definition display (self : t) : list byte :=
  bytes match self with
  | InvalidPairId => "pair id must be 1..=128 ASCII alphanumeric, '.', '_' or '-'"
  | DuplicatePairId => "analysis input contains a duplicate pair id"
  | DuplicateWorldSeed => "analysis plan contains a duplicate world seed"
  | EmptyInput => "analysis input must contain at least one matched pair"
  | IncompletePersistedPair =>
      "persisted pair is not closed with every admitted actor obligation terminal"
  | MismatchedPersistedPair =>
      "persisted pair does not match the CL-001 protocol or measurement contract"
  | InvalidAnalysisPlan =>
      "analysis plan must contain the same non-empty number of pair ids and world seeds"
  | AnalysisPlanPairMismatch =>
      "analysis pairs do not match the pre-registered pair identity list"
  | AnalysisPlanProvenanceMissing =>
      "a pre-registered analysis requires persisted pair provenance"
  | AnalysisPlanSeedMismatch =>
      "persisted pair randomization does not match its pre-registered world seed"
  | StudyRunNotReady =>
      "the admitted study run is not terminally completed with its full matched-pair set"
  | StudyRunPlanDigestMismatch =>
      "the admitted study run does not retain this sealed CL-001 plan"
  | StudyRunPairRegistrationMismatch =>
      "the persisted pair observations do not match the admitted study-run registration"
  end.
End AnalysisInputError.
Abbreviation analysis_result A := (result A AnalysisInputError.t).

(** ** The plan *)

Definition ANALYSIS_REVISION : list byte := bytes "cl-001-analysis-v1".

Module AnalysisEstimand.
Inductive t := RetainedMinusReset.
#[global] Instance eq_dec : EqDecision t.
Proof. solve_decision. Defined.
End AnalysisEstimand.

Module AnalysisExclusionPolicy.
Inductive t := MetricwiseCompleteCase.
#[global] Instance eq_dec : EqDecision t.
Proof. solve_decision. Defined.
End AnalysisExclusionPolicy.

Module PrecisionTarget.
Definition ok (value : Z) : bool := is_u64 value && (0 <? value).
Definition t : Type := newtype "PrecisionTarget" Z ok.
Definition new (max_abs_ci95_half_width : Z) : option t := checked max_abs_ci95_half_width.
Definition max_abs_ci95_half_width (self : t) : Z := inner self.
End PrecisionTarget.

Module AnalysisPairId.
Definition is_pair_id_byte (b : byte) : bool :=
  is_ascii_alphanumeric b || existsb (Ascii.eqb b) [".";"_";"-"]%char.
Definition ok (value : string) : bool :=
  negb (is_empty value || (128 <? str_len value)) && forallb is_pair_id_byte (bytes value).
Definition t : Type := newtype "AnalysisPairId" string ok.
Definition parse (value : string) : analysis_result t :=
  ok_or (checked value) AnalysisInputError.InvalidPairId.
Definition as_str (self : t) : string := inner self.
End AnalysisPairId.

Module Cl001Metric.
Inductive t :=
| CorrectionAdoptionLatency
| FinalDecisionCorrect
| FalseClaimPersistence
| CorrectionVisibilityBasisPoints
| DissentSurvival
| ForumHistoryUtilizationBasisPoints
| ForumAttentionBytes
| ForumAttentionTurns
| ForumAttentionRuntimeMicros
| OperationalCostMicroUsd
| AmortizedInstitutionalCostMicroUsd.
#[global] Instance eq_dec : EqDecision t.
Proof. solve_decision. Defined.
Definition ALL : list t :=
  [CorrectionAdoptionLatency; FinalDecisionCorrect; FalseClaimPersistence;
   CorrectionVisibilityBasisPoints; DissentSurvival; ForumHistoryUtilizationBasisPoints;
   ForumAttentionBytes; ForumAttentionTurns; ForumAttentionRuntimeMicros;
   OperationalCostMicroUsd; AmortizedInstitutionalCostMicroUsd].
Definition name (self : t) : list byte :=
  bytes match self with
  | CorrectionAdoptionLatency => "correction_adoption_latency"
  | FinalDecisionCorrect => "final_decision_correct"
  | FalseClaimPersistence => "false_claim_persistence"
  | CorrectionVisibilityBasisPoints => "correction_visibility_bps"
  | DissentSurvival => "dissent_survival"
  | ForumHistoryUtilizationBasisPoints => "forum_history_utilization_bps"
  | ForumAttentionBytes => "forum_attention_bytes"
  | ForumAttentionTurns => "forum_attention_turns"
  | ForumAttentionRuntimeMicros => "forum_attention_runtime_micros"
  | OperationalCostMicroUsd => "operational_cost_microusd"
  | AmortizedInstitutionalCostMicroUsd => "amortized_institutional_cost_microusd"
  end.
Definition index (self : t) : fin 11 :=
  match self with
  | CorrectionAdoptionLatency => 0
  | FinalDecisionCorrect => 1
  | FalseClaimPersistence => 2
  | CorrectionVisibilityBasisPoints => 3
  | DissentSurvival => 4
  | ForumHistoryUtilizationBasisPoints => 5
  | ForumAttentionBytes => 6
  | ForumAttentionTurns => 7
  | ForumAttentionRuntimeMicros => 8
  | OperationalCostMicroUsd => 9
  | AmortizedInstitutionalCostMicroUsd => 10
  end%fin.
End Cl001Metric.
(** [Cl001Metric::ALL.len()]. *)
Definition metric_count : Z := Z.of_nat (length Cl001Metric.ALL).

Module PreregisteredAnalysisPlan.
Record t := make {
  pair_ids : list AnalysisPairId.t;
  world_seed_digests : list Blake3Digest.t;
  estimand : AnalysisEstimand.t;
  exclusion_policy : AnalysisExclusionPolicy.t;
  precision_targets : vec PrecisionTarget.t 11;
}.
#[global] Instance eq_dec : EqDecision t.
Proof. solve_decision. Defined.
(** The loop over the pairs of identity and seed, after those before. *)
Fixpoint all_different (ids : list AnalysisPairId.t) (seeds : list Blake3Digest.t)
  (l : list (AnalysisPairId.t * Blake3Digest.t)) : analysis_result unit :=
  match l with
  | [] => Ok ()
  | (id, seed) :: l =>
      if existsb (fun prior => bool_decide (prior = id)) ids then
        Err AnalysisInputError.DuplicatePairId
      else if existsb (fun prior => bool_decide (prior = seed)) seeds then
        Err AnalysisInputError.DuplicateWorldSeed
      else all_different (ids ++ [id]) (seeds ++ [seed]) l
  end.
Definition new (pair_ids : list AnalysisPairId.t) (world_seed_digests : list Blake3Digest.t)
  (estimand : AnalysisEstimand.t) (exclusion_policy : AnalysisExclusionPolicy.t)
  (precision_targets : vec PrecisionTarget.t 11) : analysis_result t :=
  if (length pair_ids =? 0)%nat || negb (length pair_ids =? length world_seed_digests)%nat
  then Err AnalysisInputError.InvalidAnalysisPlan else
  check? all_different [] [] (zip pair_ids world_seed_digests) ;
  Ok (make pair_ids world_seed_digests estimand exclusion_policy precision_targets).
End PreregisteredAnalysisPlan.

(** ** Pairs *)

Module ArmAnalysisObservation.
Record t := make { values : vec MeasurementOutcome.t 11 }.
#[global] Instance eq_dec : EqDecision t.
Proof. solve_decision. Defined.
Definition from_values (values : vec MeasurementOutcome.t 11) : t := make values.
Definition from_report (report : ArmReport.t) : t :=
  make [# ArmReport.correction_adoption_latency report;
          ArmReport.final_decision_correct report;
          ArmReport.false_claim_persistence report;
          ArmReport.correction_visibility report;
          ArmReport.dissent_survival report;
          ArmReport.forum_history_utilization report;
          ArmReport.forum_attention_bytes report;
          ArmReport.forum_attention_turns report;
          ArmReport.forum_attention_runtime_micros report;
          ArmReport.operational_cost_microusd report;
          ArmReport.amortized_institutional_cost_microusd report].
Definition value (self : t) (metric : Cl001Metric.t) : MeasurementOutcome.t :=
  values self !!! Cl001Metric.index metric.
End ArmAnalysisObservation.

Module PairProvenance.
Record t := new {
  retained_episode_id : StudyEpisodeId;
  reset_episode_id : StudyEpisodeId;
  protocol_revision_id : StudyProtocolRevisionId;
  world_revision_id : StudyWorldRevisionId;
  measurement_revision_id : StudyMeasurementRevisionId;
  measurement_slot_count : StudyMeasurementSlotCount.t;
  institution_revision_id : StudyInstitutionRevisionId;
  retained_source_population_snapshot_id : StudyPopulationSnapshotId;
  reset_source_population_snapshot_id : StudyPopulationSnapshotId;
  retained_successor_population_snapshot_id : StudyPopulationSnapshotId;
  reset_successor_population_snapshot_id : StudyPopulationSnapshotId;
  randomization_digest : Blake3Digest.t;
  retained_frozen_forum_head : i64;
  reset_frozen_forum_head : i64;
  retained_ground_truth_reveal_digest : Blake3Digest.t;
  reset_ground_truth_reveal_digest : Blake3Digest.t;
}.
#[global] Instance eq_dec : EqDecision t.
Proof. solve_decision. Defined.
End PairProvenance.

Section Analysis.
Context {hash : Blake3}.

(** *** Persisted episodes *)

Definition missing_measurement (episode : StudyEpisodeObservation.t) (slot : Z) :
  MeasurementOutcome.t :=
  MeasurementOutcome.Invalidated (Blake3Digest.of_bytes
    (bytes "cl-001|analysis-v1|missing-or-malformed-measurement|episode="
     ++ show_i64 (StudyIdentifier.value (StudyEpisodeObservation.episode_id episode))
     ++ bytes "|slot=" ++ show_i64 slot)).
(** The outcome of a slot; its digests make it well formed. *)
Definition persisted_outcome (episode : StudyEpisodeObservation.t) (slot : Z) :
  MeasurementOutcome.t :=
  match List.find (fun m => StudyMeasurementSlot.value
                              (StudyMeasurementObservation.measurement_slot m) =? slot)
          (StudyEpisodeObservation.measurements episode) with
  | Some measurement =>
      match StudyMeasurementObservation.status measurement with
      | StudyMeasurementStatus.Observed =>
          match StudyMeasurementObservation.value measurement,
                StudyMeasurementObservation.value_digest measurement with
          | Some value, Some value_digest => MeasurementOutcome.Observed value value_digest
          | _, _ => missing_measurement episode slot
          end
      | StudyMeasurementStatus.Unavailable =>
          match StudyMeasurementObservation.reason_digest measurement with
          | Some reason_digest => MeasurementOutcome.Unavailable reason_digest
          | None => missing_measurement episode slot
          end
      | StudyMeasurementStatus.Invalidated =>
          match StudyMeasurementObservation.reason_digest measurement with
          | Some reason_digest => MeasurementOutcome.Invalidated reason_digest
          | None => missing_measurement episode slot
          end
      end
  | None => missing_measurement episode slot
  end.
Definition from_persisted_episode (episode : StudyEpisodeObservation.t) :
  ArmAnalysisObservation.t :=
  ArmAnalysisObservation.from_values
    (fun_to_vec (fun index : fin 11 => persisted_outcome episode (Z.of_nat index + 1))).

Definition has_exact_measurement_slots (episode : StudyEpisodeObservation.t) : bool :=
  let measurements := StudyEpisodeObservation.measurements episode in
  (Z.of_nat (length measurements) =? metric_count)
  && forallb (fun slot => Z.of_nat (length (List.filter
        (fun m => StudyMeasurementSlot.value (StudyMeasurementObservation.measurement_slot m)
                  =? slot) measurements)) =? 1)
       (seqZ 1 metric_count).

(** The two conditions of [validate_persisted_pair]. *)
Definition episode_is_incomplete (e : StudyEpisodeObservation.t) : bool :=
  negb (bool_decide (StudyEpisodeObservation.lifecycle_state e = StudyEpisodeState.Closed))
  || negb (bool_decide (StudyEpisodeObservation.source_actor_obligations e
                        = StudyEpisodeObservation.source_terminal_actor_obligations e))
  || negb (bool_decide (StudyEpisodeObservation.successor_actor_obligations e
                        = StudyEpisodeObservation.successor_terminal_actor_obligations e))
  || negb (inner (StudyEpisodeObservation.failed_actor_obligations e) =? 0)
  || negb (bool_decide (StudyEpisodeObservation.runtime_bindings e
                        = StudyEpisodeObservation.reconciled_runtime_bindings e))
  || bool_decide (StudyEpisodeObservation.successor_population_snapshot_id e = None)
  || bool_decide (StudyEpisodeObservation.frozen_forum_head e = None)
  || bool_decide (StudyEpisodeObservation.ground_truth_reveal_digest e = None)
  || (2 <? inner (StudyEpisodeObservation.decisions e)).
Definition pair_is_mismatched (retained reset : StudyEpisodeObservation.t) : bool :=
  negb (bool_decide (StudyEpisodeObservation.treatment retained = StudyTreatment.Retained))
  || negb (bool_decide (StudyEpisodeObservation.treatment reset = StudyTreatment.Reset))
  || negb (bool_decide (StudyEpisodeObservation.protocol_revision_id retained
                        = StudyEpisodeObservation.protocol_revision_id reset))
  || negb (bool_decide (StudyEpisodeObservation.world_revision_id retained
                        = StudyEpisodeObservation.world_revision_id reset))
  || negb (bool_decide (StudyEpisodeObservation.measurement_revision_id retained
                        = StudyEpisodeObservation.measurement_revision_id reset))
  || negb (bool_decide (StudyEpisodeObservation.measurement_slot_count retained
                        = StudyEpisodeObservation.measurement_slot_count reset))
  || negb (bool_decide (StudyEpisodeObservation.institution_revision_id retained
                        = StudyEpisodeObservation.institution_revision_id reset))
  || negb (bool_decide (StudyEpisodeObservation.randomization_digest retained
                        = StudyEpisodeObservation.randomization_digest reset))
  || negb (StudyMeasurementSlotCount.value (StudyEpisodeObservation.measurement_slot_count retained)
           =? metric_count)
  || negb (StudyMeasurementSlotCount.value (StudyEpisodeObservation.measurement_slot_count reset)
           =? metric_count)
  || negb (has_exact_measurement_slots retained)
  || negb (has_exact_measurement_slots reset).
Definition validate_persisted_pair (pair : StudyPairObservation.t) : analysis_result unit :=
  let retained := StudyPairObservation.retained pair in
  let reset := StudyPairObservation.reset pair in
  if episode_is_incomplete retained || episode_is_incomplete reset
  then Err AnalysisInputError.IncompletePersistedPair
  else if pair_is_mismatched retained reset
  then Err AnalysisInputError.MismatchedPersistedPair
  else Ok ().
End Analysis.

Module PairObservation.
Record t := make {
  pair_id : AnalysisPairId.t;
  retained : ArmAnalysisObservation.t;
  reset : ArmAnalysisObservation.t;
  provenance : option PairProvenance.t;
}.
#[global] Instance fields : Fields t := fun p =>
  make (pair_id p) (retained p) (reset p) (provenance p).
#[global] Instance eq_dec : EqDecision t.
Proof. solve_decision. Defined.
Definition new (pair_id : string) (retained reset : ArmAnalysisObservation.t) : analysis_result t :=
  let? pair_id := AnalysisPairId.parse pair_id in Ok (make pair_id retained reset None).
Definition from_persisted_study_pair `{Blake3} (pair : StudyPairObservation.t) :
  analysis_result t :=
  let retained := StudyPairObservation.retained pair in
  let reset := StudyPairObservation.reset pair in
  let incomplete := AnalysisInputError.IncompletePersistedPair in
  check? validate_persisted_pair pair ;
  let? retained_frozen_forum_head :=
    ok_or (StudyEpisodeObservation.frozen_forum_head retained) incomplete in
  let? reset_frozen_forum_head :=
    ok_or (StudyEpisodeObservation.frozen_forum_head reset) incomplete in
  let? retained_successor :=
    ok_or (StudyEpisodeObservation.successor_population_snapshot_id retained) incomplete in
  let? reset_successor :=
    ok_or (StudyEpisodeObservation.successor_population_snapshot_id reset) incomplete in
  let? retained_reveal :=
    ok_or (StudyEpisodeObservation.ground_truth_reveal_digest retained) incomplete in
  let? reset_reveal :=
    ok_or (StudyEpisodeObservation.ground_truth_reveal_digest reset) incomplete in
  let? pair_id := AnalysisPairId.parse (string_of_list_ascii
    (bytes "study-pair-" ++ show_i64 (StudyIdentifier.value (StudyPairObservation.pair_id pair))))
    in
  Ok (make pair_id (from_persisted_episode retained) (from_persisted_episode reset)
        (Some (PairProvenance.new (StudyEpisodeObservation.episode_id retained)
           (StudyEpisodeObservation.episode_id reset)
           (StudyEpisodeObservation.protocol_revision_id retained)
           (StudyEpisodeObservation.world_revision_id retained)
           (StudyEpisodeObservation.measurement_revision_id retained)
           (StudyEpisodeObservation.measurement_slot_count retained)
           (StudyEpisodeObservation.institution_revision_id retained)
           (StudyEpisodeObservation.source_population_snapshot_id retained)
           (StudyEpisodeObservation.source_population_snapshot_id reset)
           retained_successor reset_successor
           (StudyEpisodeObservation.randomization_digest retained)
           retained_frozen_forum_head reset_frozen_forum_head retained_reveal reset_reveal))).
End PairObservation.

Module PairedReport.
Record t := new {
  retained : ArmReport.t;
  reset : ArmReport.t;
  retained_minus_reset_latency : option i64;
  source_authority_rejected_after_replacement : bool;
  reset_history_read_rejected : bool;
  isolated_baseline : BaselineReport.t;
  unstructured_baseline : BaselineReport.t;
  ground_truth_reveal_digest : Blake3Digest.t;
  replay_materialized_state_digest : Blake3Digest.t;
  persisted_pair : PairObservation.t;
}.
#[global] Instance eq_dec : EqDecision t.
Proof. solve_decision. Defined.
End PairedReport.
(** [PairObservation::from_report]. *)
Definition pair_from_report (pair_id : string) (report : PairedReport.t) :
  analysis_result PairObservation.t :=
  let? pair_id := AnalysisPairId.parse pair_id in
  Ok (PairObservation.make pair_id
        (ArmAnalysisObservation.from_report (PairedReport.retained report))
        (ArmAnalysisObservation.from_report (PairedReport.reset report)) None).

(** ** Estimators *)

Module DeltaStatus.
(** The closed statuses that [delta_cell] names. *)
Inductive t := observed | unavailable | invalidated.
#[global] Instance eq_dec : EqDecision t.
Proof. solve_decision. Defined.
Definition as_str (self : t) : list byte :=
  bytes match self with
  | observed => "observed" | unavailable => "unavailable" | invalidated => "invalidated"
  end.
End DeltaStatus.
Definition delta_cell (left right : MeasurementOutcome.t) : DeltaStatus.t * option Z :=
  match left, right with
  | MeasurementOutcome.Observed l _, MeasurementOutcome.Observed r _ =>
      match checked_sub_i64 (inner l) (inner r) with
      | Some value => (DeltaStatus.observed, Some value)
      | None => (DeltaStatus.invalidated, None)
      end
  | MeasurementOutcome.Invalidated _, _ | _, MeasurementOutcome.Invalidated _ =>
      (DeltaStatus.invalidated, None)
  | _, _ => (DeltaStatus.unavailable, None)
  end.

Definition f64_len {A} (values : list A) : f64 := f64_of_int (Z.of_nat (length values)).
Definition mean (values : list Z) : option f64 :=
  match values with
  | [] => None
  | _ => Some (f64_div (f64_sum (map f64_of_int values)) (f64_len values))
  end.
Definition mean_f64 (values : list f64) : option f64 :=
  match values with
  | [] => None
  | _ => Some (f64_div (f64_sum values) (f64_len values))
  end.
Definition sample_sd (values : list f64) : option f64 :=
  if (length values <? 2)%nat then None else
  let average := f64_div (f64_sum values) (f64_len values) in
  Some (f64_sqrt (f64_div
    (f64_sum (map (fun value => f64_powi (f64_sub value average) 2) values))
    (f64_of_int (Z.of_nat (length values) - 1)))).

(** The critical values of Student's t, in thousandths. *)
Definition STUDENT_T_VALUES : list f64 :=
  map (fun thousandths => f64_lit thousandths 1000)
    [12706; 4303; 3182; 2776; 2571; 2447; 2365; 2306; 2262; 2228; 2201; 2179; 2160;
     2145; 2131; 2120; 2110; 2101; 2093; 2086; 2080; 2074; 2069; 2064; 2060; 2056;
     2052; 2048; 2045; 2042].
Definition student_t_975 (degrees_of_freedom : Z) : f64 :=
  match nth_error STUDENT_T_VALUES (Z.to_nat (Z.max 0 (degrees_of_freedom - 1))) with
  | Some value => value
  | None =>
      let int := f64_of_int in
      let z := f64_lit 1959963984540054 1000000000000000 in
      let z2 := f64_mul z z in
      let z3 := f64_mul z2 z in
      let z5 := f64_mul z3 z2 in
      let z7 := f64_mul z5 z2 in
      let z9 := f64_mul z7 z2 in
      let degrees := int degrees_of_freedom in
      let term1 := f64_div (f64_add z3 z) (f64_mul (int 4) degrees) in
      let term2 := f64_div
        (f64_add (f64_add (f64_mul (int 5) z5) (f64_mul (int 16) z3)) (f64_mul (int 3) z))
        (f64_mul (int 96) (f64_powi degrees 2)) in
      let term3 := f64_div
        (f64_sub (f64_add (f64_add (f64_mul (int 3) z7) (f64_mul (int 19) z5))
                    (f64_mul (int 17) z3)) (f64_mul (int 15) z))
        (f64_mul (int 384) (f64_powi degrees 3)) in
      let term4 := f64_div
        (f64_sub (f64_sub (f64_add (f64_add (f64_mul (int 79) z9) (f64_mul (int 776) z7))
                             (f64_mul (int 1482) z5)) (f64_mul (int 1920) z3))
           (f64_mul (int 945) z))
        (f64_mul (int 92160) (f64_powi degrees 4)) in
      f64_add (f64_add (f64_add (f64_add z term1) term2) term3) term4
  end.
Definition confidence_interval_95 (values : list f64) : option f64 * option f64 :=
  match sample_sd values with
  | None => (None, None)
  | Some sd =>
      let average := f64_div (f64_sum values) (f64_len values) in
      let standard_error := f64_div sd (f64_sqrt (f64_len values)) in
      let margin := f64_mul (student_t_975 (Z.of_nat (length values) - 1)) standard_error in
      (Some (f64_sub average margin), Some (f64_add average margin))
  end.

Module MetricSummary.
Record t := new {
  metric : Cl001Metric.t;
  retained_observed : Z;
  reset_observed : Z;
  paired_observed : Z;
  retained_unavailable : Z;
  retained_invalidated : Z;
  reset_unavailable : Z;
  reset_invalidated : Z;
  delta_unavailable : Z;
  delta_invalidated : Z;
  retained_mean : option f64;
  reset_mean : option f64;
  paired_delta_mean : option f64;
  paired_delta_sample_sd : option f64;
  paired_delta_ci95_low : option f64;
  paired_delta_ci95_high : option f64;
}.
End MetricSummary.

(** What [classify] collects of an arm: the observed values, and two counts. *)
Module Classified.
Record t := new { observed : list Z; unavailable : Z; invalidated : Z }.
#[global] Instance fields : Fields t := fun c => new (observed c) (unavailable c) (invalidated c).
Definition empty : t := new [] 0 0.
End Classified.
Definition classify (outcome : MeasurementOutcome.t) (c : Classified.t) : Classified.t :=
  match outcome with
  | MeasurementOutcome.Observed value _ =>
      c <| Classified.observed ::= fun l => l ++ [inner value] |>
  | MeasurementOutcome.Unavailable _ => c <| Classified.unavailable ::= fun n => n + 1 |>
  | MeasurementOutcome.Invalidated _ => c <| Classified.invalidated ::= fun n => n + 1 |>
  end.
(** The same for the differences; [delta_cell] observes no missing value. *)
Definition classify_delta (cell : DeltaStatus.t * option Z) (c : Classified.t) : Classified.t :=
  match cell with
  | (DeltaStatus.observed, Some value) => c <| Classified.observed ::= fun l => l ++ [value] |>
  | (DeltaStatus.invalidated, _) => c <| Classified.invalidated ::= fun n => n + 1 |>
  | (DeltaStatus.unavailable, _) => c <| Classified.unavailable ::= fun n => n + 1 |>
  | (DeltaStatus.observed, None) => c
  end.
Definition usize_len {A} (l : list A) : Z := Z.of_nat (length l).
Definition summarize (metric : Cl001Metric.t) (pairs : list PairObservation.t) : MetricSummary.t :=
  let '(retained, reset, delta) :=
    fold_left (fun '(retained, reset, delta) pair =>
      let retained_value := ArmAnalysisObservation.value (PairObservation.retained pair) metric in
      let reset_value := ArmAnalysisObservation.value (PairObservation.reset pair) metric in
      (classify retained_value retained, classify reset_value reset,
       classify_delta (delta_cell retained_value reset_value) delta))
      pairs (Classified.empty, Classified.empty, Classified.empty) in
  let deltas := map f64_of_int (Classified.observed delta) in
  let '(low, high) := confidence_interval_95 deltas in
  MetricSummary.new metric (usize_len (Classified.observed retained))
    (usize_len (Classified.observed reset)) (usize_len deltas)
    (Classified.unavailable retained) (Classified.invalidated retained)
    (Classified.unavailable reset) (Classified.invalidated reset)
    (Classified.unavailable delta) (Classified.invalidated delta)
    (mean (Classified.observed retained)) (mean (Classified.observed reset))
    (mean_f64 deltas) (sample_sd deltas) low high.

(** ** The artifact *)

Definition TAB : byte := "009"%char.
Definition LINE_FEED : byte := "010"%char.
(** Fields, separated; a line of a table. *)
Fixpoint tabbed (fields : list (list byte)) : list byte :=
  match fields with
  | [] => []
  | [field] => field
  | field :: fields => field ++ TAB :: tabbed fields
  end.
Definition line (fields : list (list byte)) : list byte := tabbed fields ++ [LINE_FEED].
(** The names of a header, written apart here. *)
Definition words (s : string) : list (list byte) := split_on " "%char (bytes s).

Definition hex_digest (digest : Blake3Digest.t) : list byte :=
  flat_map hex_byte (Blake3Digest.as_bytes digest).
Definition DASH : list byte := bytes "-".
Definition optional_i64 (value : option Z) : list byte :=
  match value with Some value => show_i64 value | None => DASH end.
Definition optional_f64 (value : option f64) : list byte :=
  match value with Some value => show_fixed6 value | None => DASH end.
(** The status, value, digest and reason of an outcome. *)
Definition outcome_fields (outcome : MeasurementOutcome.t) : list (list byte) :=
  match outcome with
  | MeasurementOutcome.Observed value value_digest =>
      [bytes "observed"; show_i64 (inner value); hex_digest value_digest; DASH]
  | MeasurementOutcome.Unavailable reason_digest =>
      [bytes "unavailable"; DASH; DASH; hex_digest reason_digest]
  | MeasurementOutcome.Invalidated reason_digest =>
      [bytes "invalidated"; DASH; DASH; hex_digest reason_digest]
  end.

Definition id_bytes (id : AnalysisPairId.t) : list byte := bytes (AnalysisPairId.as_str id).
Definition plan_rows (plan : PreregisteredAnalysisPlan.t) : list (list (list byte)) :=
  [words "plan estimand exclusion_policy pair_count";
   words "plan retained_minus_reset metricwise_complete_case"
   ++ [show_i64 (usize_len (PreregisteredAnalysisPlan.pair_ids plan))];
   words "plan_pair pair_id world_seed_digest"]
  ++ map (fun '(pair_id, seed) => [bytes "plan_pair"; id_bytes pair_id; hex_digest seed])
       (zip (PreregisteredAnalysisPlan.pair_ids plan)
          (PreregisteredAnalysisPlan.world_seed_digests plan))
  ++ [words "plan_precision metric max_abs_ci95_half_width"]
  ++ map (fun '(metric, target) => [bytes "plan_precision"; Cl001Metric.name metric;
            show_i64 (PrecisionTarget.max_abs_ci95_half_width target)])
       (zip Cl001Metric.ALL (vec_to_list (PreregisteredAnalysisPlan.precision_targets plan))).
Definition provenance_columns : list (list byte) :=
  words "provenance pair_id retained_episode_id reset_episode_id protocol_revision_id world_revision_id measurement_revision_id measurement_slot_count institution_revision_id retained_source_population_snapshot_id reset_source_population_snapshot_id retained_successor_population_snapshot_id reset_successor_population_snapshot_id randomization_digest retained_frozen_forum_head reset_frozen_forum_head retained_ground_truth_reveal_digest reset_ground_truth_reveal_digest".
Definition provenance_fields (pair_id : AnalysisPairId.t) (p : PairProvenance.t) :
  list (list byte) :=
  bytes "provenance" :: id_bytes pair_id
  :: map show_i64
       [StudyIdentifier.value (PairProvenance.retained_episode_id p);
        StudyIdentifier.value (PairProvenance.reset_episode_id p);
        StudyIdentifier.value (PairProvenance.protocol_revision_id p);
        StudyIdentifier.value (PairProvenance.world_revision_id p);
        StudyIdentifier.value (PairProvenance.measurement_revision_id p);
        StudyMeasurementSlotCount.value (PairProvenance.measurement_slot_count p);
        StudyIdentifier.value (PairProvenance.institution_revision_id p);
        StudyIdentifier.value (PairProvenance.retained_source_population_snapshot_id p);
        StudyIdentifier.value (PairProvenance.reset_source_population_snapshot_id p);
        StudyIdentifier.value (PairProvenance.retained_successor_population_snapshot_id p);
        StudyIdentifier.value (PairProvenance.reset_successor_population_snapshot_id p)]
  ++ [hex_digest (PairProvenance.randomization_digest p);
      show_i64 (inner (PairProvenance.retained_frozen_forum_head p));
      show_i64 (inner (PairProvenance.reset_frozen_forum_head p));
      hex_digest (PairProvenance.retained_ground_truth_reveal_digest p);
      hex_digest (PairProvenance.reset_ground_truth_reveal_digest p)].
Definition provenance_rows (pair : PairObservation.t) : list (list (list byte)) :=
  match PairObservation.provenance pair with
  | Some p => [provenance_fields (PairObservation.pair_id pair) p]
  | None => []
  end.
Definition raw_columns : list (list byte) :=
  words "row pair_id metric retained_status retained_value retained_digest retained_reason_digest reset_status reset_value reset_digest reset_reason_digest delta_status delta_value".
Definition raw_fields (pair : PairObservation.t) (metric : Cl001Metric.t) : list (list byte) :=
  let retained := ArmAnalysisObservation.value (PairObservation.retained pair) metric in
  let reset := ArmAnalysisObservation.value (PairObservation.reset pair) metric in
  let '(delta_status, delta_value) := delta_cell retained reset in
  [bytes "raw"; id_bytes (PairObservation.pair_id pair); Cl001Metric.name metric]
  ++ outcome_fields retained ++ outcome_fields reset
  ++ [DeltaStatus.as_str delta_status; optional_i64 delta_value].
Definition summary_columns : list (list byte) :=
  words "row metric retained_observed reset_observed paired_observed retained_unavailable retained_invalidated reset_unavailable reset_invalidated delta_unavailable delta_invalidated retained_mean reset_mean paired_delta_mean paired_delta_sample_sd paired_delta_ci95_low paired_delta_ci95_high".
Definition summary_fields (s : MetricSummary.t) : list (list byte) :=
  bytes "summary" :: Cl001Metric.name (MetricSummary.metric s)
  :: map show_i64
       [MetricSummary.retained_observed s; MetricSummary.reset_observed s;
        MetricSummary.paired_observed s; MetricSummary.retained_unavailable s;
        MetricSummary.retained_invalidated s; MetricSummary.reset_unavailable s;
        MetricSummary.reset_invalidated s; MetricSummary.delta_unavailable s;
        MetricSummary.delta_invalidated s]
  ++ map optional_f64
       [MetricSummary.retained_mean s; MetricSummary.reset_mean s;
        MetricSummary.paired_delta_mean s; MetricSummary.paired_delta_sample_sd s;
        MetricSummary.paired_delta_ci95_low s; MetricSummary.paired_delta_ci95_high s].

Module AnalysisArtifact.
Record t := new {
  revision : list byte;
  plan : option PreregisteredAnalysisPlan.t;
  pairs : list PairObservation.t;
  summaries : list MetricSummary.t;
}.
#[global] Instance fields : Fields t := fun a =>
  new (revision a) (plan a) (pairs a) (summaries a).

(** The loop that looks for an identity among the pairs before. *)
Fixpoint distinct_ids (before : list PairObservation.t) (pairs : list PairObservation.t) : bool :=
  match pairs with
  | [] => true
  | p :: pairs =>
      negb (existsb (fun prior => bool_decide (PairObservation.pair_id prior
                                               = PairObservation.pair_id p)) before)
      && distinct_ids (before ++ [p]) pairs
  end.
Definition from_pairs (pairs : list PairObservation.t) : analysis_result t :=
  match pairs with
  | [] => Err AnalysisInputError.EmptyInput
  | _ =>
      if negb (distinct_ids [] pairs) then Err AnalysisInputError.DuplicatePairId else
      Ok (new ANALYSIS_REVISION None pairs
            (map (fun metric => summarize metric pairs) Cl001Metric.ALL))
  end.

(** The loop over the pairs, zipped with the identities and the seeds of the plan. *)
Fixpoint matches_plan (pairs : list PairObservation.t) (ids : list AnalysisPairId.t)
  (seeds : list Blake3Digest.t) : analysis_result unit :=
  match pairs, ids, seeds with
  | p :: pairs, id :: ids, seed :: seeds =>
      if negb (bool_decide (PairObservation.pair_id p = id))
      then Err AnalysisInputError.AnalysisPlanPairMismatch else
      let? provenance := ok_or (PairObservation.provenance p)
        AnalysisInputError.AnalysisPlanProvenanceMissing in
      if negb (bool_decide (PairProvenance.randomization_digest provenance = seed))
      then Err AnalysisInputError.AnalysisPlanSeedMismatch
      else matches_plan pairs ids seeds
  | _, _, _ => Ok ()
  end.
Definition from_preregistered_plan (plan : PreregisteredAnalysisPlan.t)
  (pairs : list PairObservation.t) : analysis_result t :=
  if negb (length pairs =? length (PreregisteredAnalysisPlan.pair_ids plan))%nat
  then Err AnalysisInputError.AnalysisPlanPairMismatch else
  check? matches_plan pairs (PreregisteredAnalysisPlan.pair_ids plan)
           (PreregisteredAnalysisPlan.world_seed_digests plan) ;
  let? artifact := from_pairs pairs in
  Ok (artifact <| AnalysisArtifact.plan := Some plan |>).

Section Persisted.
Context {hash : Blake3}.
Definition from_persisted_study_pairs (pairs : list StudyPairObservation.t) : analysis_result t :=
  let? pairs := collect PairObservation.from_persisted_study_pair pairs in from_pairs pairs.

(** The loop over the registrations, zipped with the pairs, identities and seeds. *)
Fixpoint join_registrations (index : Z) (registrations : list StudyRunPairRegistrationObservation.t)
  (persisted : list StudyPairObservation.t) (ids : list AnalysisPairId.t)
  (seeds : list Blake3Digest.t) : analysis_result (list PairObservation.t) :=
  match registrations, persisted, ids, seeds with
  | registration :: registrations, p :: persisted, id :: ids, seed :: seeds =>
      if negb (StudyRunPairOrdinal.value
                 (StudyRunPairRegistrationObservation.pair_ordinal registration) =? index + 1)
         || negb (bool_decide (StudyRunPairRegistrationObservation.pair_id registration
                               = StudyPairObservation.pair_id p))
         || negb (bool_decide (StudyRunPairRegistrationObservation.randomization_digest registration
                               = seed))
         || negb (bool_decide (StudyEpisodeObservation.randomization_digest
                                 (StudyPairObservation.retained p) = seed))
         || negb (bool_decide (StudyEpisodeObservation.randomization_digest
                                 (StudyPairObservation.reset p) = seed))
      then Err AnalysisInputError.StudyRunPairRegistrationMismatch else
      let? observed := PairObservation.from_persisted_study_pair p in
      let? rest := join_registrations (index + 1) registrations persisted ids seeds in
      Ok (observed <| PairObservation.pair_id := id |> :: rest)
  | _, _, _, _ => Ok []
  end.
Definition from_preregistered_study_run (plan : PreregisteredAnalysisPlan.t)
  (study_run : StudyRunObservation.t) (persisted_pairs : list StudyPairObservation.t) :
  analysis_result t :=
  let planned_pair_count := usize_len (PreregisteredAnalysisPlan.pair_ids plan) in
  if negb (bool_decide (StudyRunObservation.lifecycle_state study_run
                        = StudyRunLifecycleState.Completed))
     || negb (StudyRunPairCount.value (StudyRunObservation.pair_count study_run)
              =? planned_pair_count)
     || negb (StudyRunRegisteredPairCount.value
                (StudyRunObservation.registered_pair_count study_run) =? planned_pair_count)
     || negb (usize_len (StudyRunObservation.pairs study_run) =? planned_pair_count)
  then Err AnalysisInputError.StudyRunNotReady else
  if negb (usize_len persisted_pairs =? planned_pair_count)
  then Err AnalysisInputError.StudyRunPairRegistrationMismatch else
  let? pairs := join_registrations 0 (StudyRunObservation.pairs study_run) persisted_pairs
    (PreregisteredAnalysisPlan.pair_ids plan)
    (PreregisteredAnalysisPlan.world_seed_digests plan) in
  from_preregistered_plan plan pairs.
End Persisted.

(** The rows in the order in which they are written. *)
Definition rows (self : t) : list (list (list byte)) :=
  [[bytes "artifact"; revision self]]
  ++ match plan self with Some plan => plan_rows plan | None => [] end
  ++ [provenance_columns] ++ flat_map provenance_rows (pairs self)
  ++ [raw_columns] ++ flat_map (fun pair => map (raw_fields pair) Cl001Metric.ALL) (pairs self)
  ++ [summary_columns] ++ map summary_fields (summaries self).
Definition render_tsv (self : t) : list byte := flat_map line (rows self).
End AnalysisArtifact.
