(* ===== verification/LatencyAnalysisSpec.v ===== *)
(** * What the analysis is worth

    The summaries account for every pair and estimate from the complete cases; the analysis
    of a preregistered run accepts the reports of a completed run exactly when its pairs are
    clean, and then analyses what was recorded. *)

From stdpp Require Import vector finite.
From S2P Require Import Prelude.
From S2P Require Import Machine.
From S2P Require Import Hash.
From S2P Require Import Binary64.
From S2P Require Import KernelScalars.
From S2P Require Import KernelEnums.
From S2P Require Import KernelCodes.
From S2P Require Import StudyTypes.
From S2P Require Import PrintableText.
From S2P Require Import StoreSample.
From S2P Require Import StudyTables.
From S2P Require Import StudyStore.
From S2P Require Import StudyObservations.
From S2P Require Import StudyMachine.
From S2P Require Import StudyInvariants.
From S2P Require Import StudyAccounts.
From S2P Require Import StudyRefine.
From S2P Require Import StudySample.
From S2P Require Import StudySafety.
From S2P Require Import StudyObservationsSpec.
From S2P Require Import LatencyAnalysis.

(** ** Estimates *)

(** What an arm is observed at, and the pairs that both arms are observed in. *)
Definition seen (outcome : MeasurementOutcome.t) : option Z :=
  match outcome with MeasurementOutcome.Observed value _ => Some (inner value) | _ => None end.
Definition is_unavailable (outcome : MeasurementOutcome.t) : bool :=
  match outcome with MeasurementOutcome.Unavailable _ => true | _ => false end.
Definition is_invalidated (outcome : MeasurementOutcome.t) : bool :=
  match outcome with MeasurementOutcome.Invalidated _ => true | _ => false end.
Definition number {A} (p : A -> bool) (l : list A) : Z := usize_len (List.filter p l).
Definition complete_case (left right : MeasurementOutcome.t) : option Z :=
  match seen left, seen right with
  | Some l, Some r => checked_sub_i64 l r
  | _, _ => None
  end.

Section Metric.
Variable metric : Cl001Metric.t.
Definition retained_of (p : PairObservation.t) : MeasurementOutcome.t :=
  ArmAnalysisObservation.value (PairObservation.retained p) metric.
Definition reset_of (p : PairObservation.t) : MeasurementOutcome.t :=
  ArmAnalysisObservation.value (PairObservation.reset p) metric.
(** The differences of the complete cases, in the order of the pairs. *)
Definition differences (pairs : list PairObservation.t) : list Z :=
  omap (fun p => complete_case (retained_of p) (reset_of p)) pairs.
Definition delta_invalid (p : PairObservation.t) : bool :=
  is_invalidated (retained_of p) || is_invalidated (reset_of p)
  || match seen (retained_of p), seen (reset_of p) with
     | Some l, Some r => negb (is_i64 (l - r))
     | _, _ => false
     end.
Definition delta_missing (p : PairObservation.t) : bool :=
  negb (is_invalidated (retained_of p)) && negb (is_invalidated (reset_of p))
  && (is_unavailable (retained_of p) || is_unavailable (reset_of p)).

(** The state of the loop of [summarize]: each arm by itself, and the differences. *)
Definition arm_counts (outcomes : list MeasurementOutcome.t) : Classified.t :=
  Classified.new (omap seen outcomes) (number is_unavailable outcomes)
    (number is_invalidated outcomes).
Definition delta_counts (pairs : list PairObservation.t) : Classified.t :=
  Classified.new (differences pairs) (number delta_missing pairs) (number delta_invalid pairs).
End Metric.

Lemma number_snoc {A} (p : A -> bool) l x :
  number p (l ++ [x]) = number p l + (if p x then 1 else 0).
Proof.
  unfold number, usize_len. rewrite List.filter_app, length_app. cbn. destruct (p x); cbn; lia.
Qed.
Lemma classify_snoc outcome outcomes :
  classify outcome (arm_counts outcomes) = arm_counts (outcomes ++ [outcome]).
Proof.
  unfold arm_counts. rewrite omap_app, !number_snoc.
  destruct outcome; cbn; rewrite ?app_nil_r; f_equal; lia.
Qed.
Lemma classify_delta_snoc metric p pairs :
  classify_delta (delta_cell (retained_of metric p) (reset_of metric p)) (delta_counts metric pairs)
  = delta_counts metric (pairs ++ [p]).
Proof.
  unfold delta_counts, differences, complete_case, delta_missing, delta_invalid.
  rewrite omap_app, !number_snoc. cbn.
  destruct (retained_of metric p), (reset_of metric p); cbn;
    unfold checked_sub_i64, checked_i64; try (destruct (is_i64 _)); cbn; rewrite ?app_nil_r; f_equal; lia.
Qed.

Lemma loop_is_classified metric pairs :
  fold_left (fun '(retained, reset, delta) pair =>
    let retained_value := ArmAnalysisObservation.value (PairObservation.retained pair) metric in
    let reset_value := ArmAnalysisObservation.value (PairObservation.reset pair) metric in
    (classify retained_value retained, classify reset_value reset,
     classify_delta (delta_cell retained_value reset_value) delta))
    pairs (Classified.empty, Classified.empty, Classified.empty)
  = (arm_counts (map (retained_of metric) pairs), arm_counts (map (reset_of metric) pairs),
     delta_counts metric pairs).
Proof.
  induction pairs as [|p pairs IH] using rev_ind; [done|].
  rewrite fold_left_app, IH, !map_app. cbn [fold_left map].
  fold (retained_of metric p) (reset_of metric p).
  by rewrite !classify_snoc, classify_delta_snoc.
Qed.

(** *** The counts add up *)

Lemma number_of_three {A} (f : A -> option Z) (p q : A -> bool) l :
  (forall x, match f x with Some _ => negb (p x || q x) | None => xorb (p x) (q x) end = true) ->
  usize_len (omap f l) + number p l + number q l = usize_len l.
Proof.
  intros H. unfold number, usize_len. induction l as [|x l IH]; [done|]. cbn. specialize (H x).
  destruct (f x), (p x), (q x); cbn in *; try done; lia.
Qed.
Lemma number_map {A B} (f : A -> B) p l : number p (map f l) = number (fun x => p (f x)) l.
Proof.
  unfold number, usize_len. induction l as [|x l IH]; [done|]. cbn.
  destruct (p (f x)); cbn in *; lia.
Qed.
Lemma arm_accounts outcomes :
  usize_len (omap seen outcomes) + number is_unavailable outcomes + number is_invalidated outcomes
  = usize_len outcomes.
Proof. apply number_of_three. by intros []. Qed.
Lemma delta_accounts metric pairs :
  usize_len (differences metric pairs) + number (delta_missing metric) pairs
  + number (delta_invalid metric) pairs = usize_len pairs.
Proof.
  apply number_of_three. intros p. unfold complete_case, delta_missing, delta_invalid.
  unfold checked_sub_i64, checked_i64.
  destruct (retained_of metric p), (reset_of metric p); cbn; try done. by destruct (is_i64 _).
Qed.
Lemma omap_le {A B} (f g : A -> option B) l :
  (forall x, is_Some (f x) -> is_Some (g x)) -> (length (omap f l) <= length (omap g l))%nat.
Proof.
  intros H. induction l as [|x l IH]; [done|]. cbn. specialize (H x).
  destruct (f x), (g x); cbn; try lia. by destruct H.
Qed.
Lemma omap_map {A B C} (f : A -> B) (g : B -> option C) l :
  omap g (map f l) = omap (fun x => g (f x)) l.
Proof. induction l as [|x l IH]; [done|]. cbn. by rewrite IH. Qed.
Lemma differences_le metric pairs :
  usize_len (differences metric pairs) <= usize_len (omap seen (map (retained_of metric) pairs))
  /\ usize_len (differences metric pairs) <= usize_len (omap seen (map (reset_of metric) pairs)).
Proof.
  unfold usize_len. rewrite !omap_map. unfold differences, complete_case.
  split; apply Nat2Z.inj_le, omap_le; intros p;
    destruct (seen (retained_of metric p)), (seen (reset_of metric p)); cbn;
    intros [? ?]; done || (by eexists).
Qed.

(** *** When there is an estimate *)

Lemma mean_some values : is_Some (mean values) <-> 1 <= usize_len values.
Proof.
  unfold usize_len. destruct values; cbn; split; try lia; (by eexists) || (by intros [? ?]).
Qed.
Lemma mean_f64_some values : is_Some (mean_f64 values) <-> 1 <= usize_len values.
Proof.
  unfold usize_len. destruct values; cbn; split; try lia; (by eexists) || (by intros [? ?]).
Qed.
Lemma sample_sd_some values : is_Some (sample_sd values) <-> 2 <= usize_len values.
Proof.
  unfold sample_sd, usize_len. destruct (Nat.ltb_spec (length values) 2); split; try lia;
    (by eexists) || (by intros [? ?]).
Qed.
Lemma interval_some values :
  (is_Some (confidence_interval_95 values).1 <-> 2 <= usize_len values)
  /\ (is_Some (confidence_interval_95 values).2 <-> 2 <= usize_len values).
Proof.
  rewrite <-sample_sd_some. unfold confidence_interval_95.
  destruct (sample_sd values); cbn; (repeat split); intros [? ?]; (by eexists) || done.
Qed.

(** *** The summaries *)

Definition metric_summary (metric : Cl001Metric.t) (pairs : list PairObservation.t)
  (s : MetricSummary.t) : Prop :=
  let retained := omap seen (map (retained_of metric) pairs) in
  let reset := omap seen (map (reset_of metric) pairs) in
  let deltas := map f64_of_int (differences metric pairs) in
  MetricSummary.metric s = metric
  /\ (MetricSummary.retained_observed s + MetricSummary.retained_unavailable s
       + MetricSummary.retained_invalidated s = usize_len pairs
      /\ MetricSummary.reset_observed s + MetricSummary.reset_unavailable s
         + MetricSummary.reset_invalidated s = usize_len pairs
      /\ MetricSummary.paired_observed s + MetricSummary.delta_unavailable s
         + MetricSummary.delta_invalidated s = usize_len pairs
      /\ MetricSummary.paired_observed s
         <= MetricSummary.retained_observed s `min` MetricSummary.reset_observed s)
  /\ (MetricSummary.retained_observed s = usize_len retained
      /\ MetricSummary.reset_observed s = usize_len reset
      /\ MetricSummary.paired_observed s = usize_len (differences metric pairs))
  /\ (MetricSummary.retained_mean s = mean retained /\ MetricSummary.reset_mean s = mean reset
      /\ MetricSummary.paired_delta_mean s = mean_f64 deltas
      /\ MetricSummary.paired_delta_sample_sd s = sample_sd deltas)
  /\ (is_Some (MetricSummary.retained_mean s) <-> 1 <= MetricSummary.retained_observed s)
  /\ (is_Some (MetricSummary.reset_mean s) <-> 1 <= MetricSummary.reset_observed s)
  /\ (is_Some (MetricSummary.paired_delta_mean s) <-> 1 <= MetricSummary.paired_observed s)
  /\ (is_Some (MetricSummary.paired_delta_sample_sd s) <-> 2 <= MetricSummary.paired_observed s)
  /\ (is_Some (MetricSummary.paired_delta_ci95_low s) <-> 2 <= MetricSummary.paired_observed s)
  /\ (is_Some (MetricSummary.paired_delta_ci95_high s) <-> 2 <= MetricSummary.paired_observed s).

Lemma usize_len_map {A B} (f : A -> B) l : usize_len (map f l) = usize_len l.
Proof. unfold usize_len. by rewrite length_map. Qed.
Lemma summarize_ok metric pairs : metric_summary metric pairs (summarize metric pairs).
Proof.
  unfold summarize. rewrite loop_is_classified. cbn [arm_counts delta_counts Classified.observed
    Classified.unavailable Classified.invalidated].
  destruct (confidence_interval_95 _) as [low high] eqn:E.
  pose proof (interval_some (map f64_of_int (differences metric pairs))) as [Hlow Hhigh].
  rewrite E in Hlow, Hhigh. cbn [fst snd] in Hlow, Hhigh.
  pose proof (arm_accounts (map (retained_of metric) pairs)) as Hretained.
  pose proof (arm_accounts (map (reset_of metric) pairs)) as Hreset.
  pose proof (delta_accounts metric pairs) as Hdelta.
  pose proof (differences_le metric pairs) as [H1 H2].
  rewrite !usize_len_map in *. unfold metric_summary.
  cbn [MetricSummary.metric MetricSummary.retained_observed MetricSummary.reset_observed
    MetricSummary.paired_observed MetricSummary.retained_unavailable
    MetricSummary.retained_invalidated MetricSummary.reset_unavailable
    MetricSummary.reset_invalidated MetricSummary.delta_unavailable
    MetricSummary.delta_invalidated MetricSummary.retained_mean MetricSummary.reset_mean
    MetricSummary.paired_delta_mean MetricSummary.paired_delta_sample_sd
    MetricSummary.paired_delta_ci95_low MetricSummary.paired_delta_ci95_high].
  split; [done|]. split; [split_and!; [done..|lia]|]. split; [done|]. split; [done|].
  split_and!; [apply mean_some|apply mean_some| | |done|done].
  - by rewrite mean_f64_some, usize_len_map.
  - by rewrite sample_sd_some, usize_len_map.
Qed.

(** The summaries of an analysis account for every pair: there is one per metric, in the
    order of the metrics; in each arm, and for the differences, the observed, unavailable and
    invalidated pairs add up to all of them; the means and the deviation are those of the
    observed values and of the differences of the complete cases that fit an [i64], and there
    is an estimate exactly when there is a value for it, or two for a deviation. *)
Theorem summaries_account_for_every_pair pairs artifact :
  AnalysisArtifact.from_pairs pairs = Ok artifact ->
  AnalysisArtifact.pairs artifact = pairs
  /\ Forall2 (fun metric => metric_summary metric pairs) Cl001Metric.ALL
       (AnalysisArtifact.summaries artifact).
Proof.
  unfold AnalysisArtifact.from_pairs. destruct pairs as [|p pairs]; [done|].
  destruct (negb _); [done|]. intros H. apply Ok_inj in H as <-. split; [done|].
  cbn [AnalysisArtifact.summaries]. apply Forall2_fmap_r, Forall_Forall2_diag, Forall_true.
  intros metric. apply summarize_ok.
Qed.

(** ** Persisted pairs *)

(** What the analysis asks of a closed episode beyond what closes it. *)
Definition clean (e : StudyEpisodeObservation.t) : Prop :=
  inner (StudyEpisodeObservation.failed_actor_obligations e) = 0
  /\ StudyEpisodeObservation.runtime_bindings e
     = StudyEpisodeObservation.reconciled_runtime_bindings e
  /\ inner (StudyEpisodeObservation.decisions e) <= 2.
Definition comparable (p : StudyPairObservation.t) : Prop :=
  clean (StudyPairObservation.retained p) /\ clean (StudyPairObservation.reset p)
  /\ StudyMeasurementSlotCount.value
       (StudyEpisodeObservation.measurement_slot_count (StudyPairObservation.retained p))
     = metric_count.

(** The outcome of a metric is what the episode recorded in its slot. *)
Definition recorded (e : StudyEpisodeObservation.t) (metric : Cl001Metric.t)
  (outcome : MeasurementOutcome.t) : Prop :=
  exists m, m ∈ StudyEpisodeObservation.measurements e
  /\ slot_reported m = Z.of_nat (Cl001Metric.index metric) + 1
  /\ match outcome with
     | MeasurementOutcome.Observed value digest =>
         StudyMeasurementObservation.status m = StudyMeasurementStatus.Observed
         /\ StudyMeasurementObservation.value m = Some value
         /\ StudyMeasurementObservation.value_digest m = Some digest
     | MeasurementOutcome.Unavailable reason =>
         StudyMeasurementObservation.status m = StudyMeasurementStatus.Unavailable
         /\ StudyMeasurementObservation.reason_digest m = Some reason
     | MeasurementOutcome.Invalidated reason =>
         StudyMeasurementObservation.status m = StudyMeasurementStatus.Invalidated
         /\ StudyMeasurementObservation.reason_digest m = Some reason
     end.

Section Persisted.
Context {hash : Blake3}.

Lemma incomplete_iff e :
  fully_reported e -> episode_is_incomplete e = false <-> clean e.
Proof.
  intros (H1 & H2 & H3 & [s H4] & [h H5] & [r H6] & _). unfold episode_is_incomplete, clean.
  rewrite H1, H2, H3, H4, H5, H6. rewrite !bool_decide_eq_true_2 by done. cbn.
  rewrite !orb_false_iff, !negb_false_iff, Z.eqb_eq, bool_decide_eq_true, Z.ltb_ge. tauto.
Qed.

Lemma filter_map_length {A B} (p : B -> bool) (f : A -> B) l :
  length (List.filter (fun a => p (f a)) l) = length (List.filter p (map f l)).
Proof. induction l as [|a l IH]; [done|]. cbn. by destruct (p (f a)); cbn; rewrite IH. Qed.
Lemma exact_slots e :
  map slot_reported (StudyEpisodeObservation.measurements e) = seqZ 1 metric_count ->
  has_exact_measurement_slots e = true.
Proof.
  intros H. unfold has_exact_measurement_slots.
  rewrite <-(length_map slot_reported), H. apply andb_true_iff. split; [reflexivity|].
  apply forallb_forall. intros slot Hs. rewrite <-list_elem_of_In in Hs.
  rewrite (filter_map_length (fun z => z =? slot) slot_reported), H.
  revert slot Hs. apply Forall_forall. by repeat constructor.
Qed.

(** A pair as the reports of a completed run have it. *)
Definition reported (p : StudyPairObservation.t) : Prop :=
  exists id digest, pair_reported id digest p.

Lemma mismatched_iff p :
  reported p ->
  pair_is_mismatched (StudyPairObservation.retained p) (StudyPairObservation.reset p) = false
  <-> StudyMeasurementSlotCount.value
        (StudyEpisodeObservation.measurement_slot_count (StudyPairObservation.retained p))
      = metric_count.
Proof.
  intros (id & digest & _ & T1 & T2 & (C1 & C2 & C3 & C4 & C5 & C6) & _ & F1 & F2).
  unfold pair_is_mismatched. rewrite T1, T2, C1, C2, C3, C4, C5, C6.
  rewrite !bool_decide_eq_true_2 by done. cbn [negb orb].
  destruct F1 as (_ & _ & _ & _ & _ & _ & S1 & _), F2 as (_ & _ & _ & _ & _ & _ & S2 & _).
  rewrite C4 in S1. destruct (Z.eqb_spec (StudyMeasurementSlotCount.value
    (StudyEpisodeObservation.measurement_slot_count (StudyPairObservation.reset p))) metric_count)
    as [E|E]; cbn [negb orb]; [|done].
  rewrite E in S1, S2. by rewrite !exact_slots.
Qed.

Lemma validate_iff p :
  reported p ->
  match validate_persisted_pair p with
  | Ok _ => comparable p
  | Err e => ~ comparable p
      /\ (e = AnalysisInputError.IncompletePersistedPair
          \/ e = AnalysisInputError.MismatchedPersistedPair)
  end.
Proof.
  intros Hp. pose proof (mismatched_iff p Hp) as Hm.
  destruct Hp as (id & digest & _ & _ & _ & _ & _ & F1 & F2).
  pose proof (incomplete_iff _ F1) as H1. pose proof (incomplete_iff _ F2) as H2.
  unfold validate_persisted_pair, comparable.
  destruct (episode_is_incomplete _), (episode_is_incomplete _), (pair_is_mismatched _ _);
    cbn; intuition discriminate.
Qed.

(** *** The identity of a persisted pair *)

Lemma digit_is_pair_id_byte b : is_ascii_digit b = true -> AnalysisPairId.is_pair_id_byte b = true.
Proof. by destruct b as [[] [] [] [] [] [] [] []]. Qed.
Lemma pair_id_decimal fuel z : forallb AnalysisPairId.is_pair_id_byte (decimal fuel z []) = true.
Proof.
  pose proof (decimal_digits fuel z [] eq_refl) as H. rewrite forallb_forall in H |- *.
  intros b Hb. by apply digit_is_pair_id_byte, H.
Qed.
Lemma pair_id_parses (z : Z) : exists id,
  AnalysisPairId.parse (string_of_list_ascii (bytes "study-pair-" ++ show_i64 z)) = Ok id.
Proof.
  assert (forallb AnalysisPairId.is_pair_id_byte (bytes "study-pair-" ++ show_i64 z) = true) as Hb.
  { rewrite forallb_app. apply andb_true_iff. split; [reflexivity|]. unfold show_i64.
    destruct (z <? 0); cbn [forallb]; by rewrite ?andb_true_iff, pair_id_decimal. }
  pose proof (printable_i64 z) as [_ Hlen].
  unfold AnalysisPairId.parse.
  destruct (checked _) as [id|] eqn:E; [by exists id|exfalso].
  assert (AnalysisPairId.ok (string_of_list_ascii (bytes "study-pair-" ++ show_i64 z)) = true) as Hok.
  { unfold AnalysisPairId.ok. rewrite bytes_length. unfold bytes at 2 4.
    rewrite list_ascii_of_string_of_list_ascii, Hb, andb_true_r, length_app.
    change (length (bytes "study-pair-")) with 11%nat. cbn [is_empty bytes list_ascii_of_string
      app string_of_list_ascii orb]. rewrite negb_true_iff, Z.ltb_ge. lia. }
  unfold checked in E. by destruct (bool_dec _ _).
Qed.

(** *** The outcomes *)

Lemma persisted_outcome_recorded e metric :
  Forall has_shape (StudyEpisodeObservation.measurements e) ->
  map slot_reported (StudyEpisodeObservation.measurements e) = seqZ 1 metric_count ->
  recorded e metric (ArmAnalysisObservation.value (from_persisted_episode e) metric).
Proof.
  intros Hshape Hslots. unfold ArmAnalysisObservation.value, from_persisted_episode.
  cbn [ArmAnalysisObservation.values ArmAnalysisObservation.from_values].
  rewrite lookup_fun_to_vec. set (slot := Z.of_nat (Cl001Metric.index metric) + 1).
  assert (slot ∈ map slot_reported (StudyEpisodeObservation.measurements e)) as Hin.
  { rewrite Hslots, elem_of_seqZ. unfold slot. change metric_count with 11.
    pose proof (fin_to_nat_lt (Cl001Metric.index metric)). lia. }
  unfold persisted_outcome. destruct (List.find _ _) as [m|] eqn:Hm.
  - apply List.find_some in Hm as [Hm Hs]. rewrite <-list_elem_of_In in Hm.
    rewrite Forall_forall in Hshape. specialize (Hshape m Hm). apply Z.eqb_eq in Hs.
    unfold has_shape in Hshape.
    destruct (StudyMeasurementObservation.status m) eqn:?, (StudyMeasurementObservation.value m) eqn:?,
      (StudyMeasurementObservation.value_digest m) eqn:?,
      (StudyMeasurementObservation.reason_digest m) eqn:?; try done; exists m; by split_and!.
  - apply list_elem_of_fmap in Hin as (m & Hs & Hin%list_elem_of_In).
    apply (List.find_none _ _ Hm) in Hin. cbn in Hin. fold (slot_reported m) in Hin.
    by rewrite <-Hs, Z.eqb_refl in Hin.
Qed.

(** What an analysed pair says of the reported one. *)
Definition analysed (p : StudyPairObservation.t) (o : PairObservation.t) : Prop :=
  forall metric,
    recorded (StudyPairObservation.retained p) metric (retained_of metric o)
    /\ recorded (StudyPairObservation.reset p) metric (reset_of metric o).

Lemma persisted_pair_ok p :
  reported p ->
  match PairObservation.from_persisted_study_pair p with
  | Ok o => comparable p /\ analysed p o
      /\ exists provenance, PairObservation.provenance o = Some provenance
         /\ PairProvenance.randomization_digest provenance
            = StudyEpisodeObservation.randomization_digest (StudyPairObservation.retained p)
  | Err e => ~ comparable p
      /\ (e = AnalysisInputError.IncompletePersistedPair
          \/ e = AnalysisInputError.MismatchedPersistedPair)
  end.
Proof.
  intros Hp. pose proof (validate_iff p Hp) as Hv. unfold PairObservation.from_persisted_study_pair.
  destruct (validate_persisted_pair p) as [[]|e]; [|exact Hv].
  destruct Hp as (id & digest & _ & _ & _ & C & _ & F1 & F2).
  destruct F1 as (_ & _ & _ & [s1 ->] & [h1 ->] & [r1 ->] & M1 & S1).
  destruct F2 as (_ & _ & _ & [s2 ->] & [h2 ->] & [r2 ->] & M2 & S2). cbn [ok_or].
  destruct (pair_id_parses (StudyIdentifier.value (StudyPairObservation.pair_id p))) as [i ->].
  destruct Hv as (K1 & K2 & K3). pose proof K3 as K4.
  destruct C as (_ & _ & _ & C4 & _). rewrite K3 in M1. rewrite C4 in K4. rewrite K4 in M2.
  split; [by split_and!|]. split.
  - intros metric. split; by apply persisted_outcome_recorded.
  - by eexists.
Qed.

(** ** Preregistered runs *)

Definition seed_of (q : StudyRunPairRegistrationObservation.t) : Blake3Digest.t :=
  StudyRunPairRegistrationObservation.randomization_digest q.
(** The pair is drawn with the seed. *)
Definition drawn (o : PairObservation.t) (seed : Blake3Digest.t) : Prop :=
  exists provenance, PairObservation.provenance o = Some provenance
  /\ PairProvenance.randomization_digest provenance = seed.

Lemma join_ok n qs ps ids :
  Forall2 (fun q p => pair_reported (StudyRunPairRegistrationObservation.pair_id q) (seed_of q) p)
    qs ps ->
  map ordinal_reported qs = seqZ (n + 1) (usize_len qs) -> length ids = length qs ->
  match AnalysisArtifact.join_registrations n qs ps ids (map seed_of qs) with
  | Ok os => Forall comparable ps /\ Forall2 analysed ps os
      /\ map PairObservation.pair_id os = ids /\ Forall2 drawn os (map seed_of qs)
  | Err e => ~ Forall comparable ps
      /\ (e = AnalysisInputError.IncompletePersistedPair
          \/ e = AnalysisInputError.MismatchedPersistedPair)
  end.
Proof.
  intros H. revert n ids. induction H as [|q p qs ps Hp _ IH]; intros n ids Hn Hlen.
  { destruct ids; [|done]. cbn. by repeat constructor. }
  destruct ids as [|id ids]; [done|]. cbn [AnalysisArtifact.join_registrations map].
  assert (usize_len (q :: qs) = usize_len qs + 1) as E by (unfold usize_len; cbn; lia).
  rewrite E, seqZ_cons in Hn by (unfold usize_len; lia). cbn [map] in Hn. injection Hn as Ho Hn.
  pose proof Hp as (Hid & _ & _ & (_ & _ & _ & _ & _ & Hseeds) & Hseed & _).
  fold (ordinal_reported q). rewrite Ho, Hid, <-Hseeds, Hseed, Z.eqb_refl.
  unfold seed_of at 1. rewrite !bool_decide_eq_true_2 by done. cbn [negb orb].
  assert (reported p) as Hone by (by eexists _, _). apply persisted_pair_ok in Hone.
  destruct (PairObservation.from_persisted_study_pair p) as [o|e].
  2: { destruct Hone as [Hc He]. split; [|done]. by intros [? _]%Forall_cons. }
  destruct Hone as (Hc & Ha & provenance & Hpr & Hd).
  specialize (IH (n + 1) ids). replace (Z.succ (n + 1)) with (n + 1 + 1) in Hn by lia.
  replace (Z.pred (usize_len qs + 1)) with (usize_len qs) in Hn by lia.
  cbn in Hlen. specialize (IH Hn ltac:(lia)).
  destruct (AnalysisArtifact.join_registrations _ _ _ _ _) as [os|e].
  - destruct IH as (H1 & H2 & H3 & H4). split_and!; [by constructor|by constructor| |].
    + cbn. by rewrite H3.
    + constructor; [|done]. exists provenance. split; [done|]. by rewrite Hd, Hseed.
  - destruct IH as [H1 H2]. split; [|done]. by intros [_ ?]%Forall_cons.
Qed.

Lemma matches_plan_ok os ids seeds :
  map PairObservation.pair_id os = ids -> Forall2 drawn os seeds ->
  AnalysisArtifact.matches_plan os ids seeds = Ok ().
Proof.
  intros <- H. induction H as [|o seed os seeds (pr & Hpr & <-) _ IH]; [done|]. cbn.
  by rewrite bool_decide_eq_true_2, Hpr; cbn; rewrite ?bool_decide_eq_true_2.
Qed.

(** A loop that compares with all those before. *)
Lemma existsb_before {A} `{!EqDecision A} (before : list A) x :
  existsb (fun prior => bool_decide (prior = x)) before = false <-> x ∉ before.
Proof.
  rewrite <-not_true_iff_false, List.existsb_exists. split.
  - intros H Hx. apply H. exists x. rewrite <-list_elem_of_In. by rewrite bool_decide_eq_true.
  - intros H (y & Hy & ->%bool_decide_eq_true). by rewrite <-list_elem_of_In in Hy.
Qed.
Lemma all_different_ok ids seeds l :
  PreregisteredAnalysisPlan.all_different ids seeds l = Ok () ->
  NoDup (map fst l) /\ NoDup (map snd l)
  /\ Forall (fun x => x.1 ∉ ids /\ x.2 ∉ seeds) l.
Proof.
  revert ids seeds. induction l as [|[id seed] l IH]; intros ids seeds H; [by repeat constructor|].
  cbn in H. destruct (existsb _ ids) eqn:Hid; [done|]. destruct (existsb _ seeds) eqn:Hs; [done|].
  apply existsb_before in Hid, Hs. apply IH in H as (H1 & H2 & H3). cbn.
  rewrite !NoDup_cons, Forall_cons. rewrite Forall_forall in H3.
  assert (forall x, x ∈ l -> x.1 ∉ ids /\ x.2 ∉ seeds /\ x.1 <> id /\ x.2 <> seed) as Hl.
  { intros x [Hx Hy]%H3. rewrite elem_of_app, list_elem_of_singleton in Hx.
    rewrite elem_of_app, list_elem_of_singleton in Hy. split_and!; tauto. }
  split_and!; [|done| |done|done|done|].
  - rewrite list_elem_of_fmap. intros (x & -> & Hx). by destruct (Hl x Hx) as (_ & _ & ? & _).
  - rewrite list_elem_of_fmap. intros (x & -> & Hx). by destruct (Hl x Hx) as (_ & _ & _ & ?).
  - apply Forall_forall. intros x Hx. by destruct (Hl x Hx) as (? & ? & _).
Qed.
Lemma plan_ok ids seeds estimand policy targets plan :
  PreregisteredAnalysisPlan.new ids seeds estimand policy targets = Ok plan ->
  plan = PreregisteredAnalysisPlan.make ids seeds estimand policy targets
  /\ ids <> [] /\ length ids = length seeds /\ NoDup ids /\ NoDup seeds.
Proof.
  unfold PreregisteredAnalysisPlan.new. destruct (_ || _) eqn:E; [done|].
  apply orb_false_iff in E as [E1 E2%negb_false_iff%Nat.eqb_eq].
  destruct (PreregisteredAnalysisPlan.all_different _ _ _) as [[]|] eqn:E; [|done].
  intros [= <-]. apply all_different_ok in E as (H1 & H2 & _).
  change (map fst (zip ids seeds)) with (zip ids seeds).*1 in H1.
  change (map snd (zip ids seeds)) with (zip ids seeds).*2 in H2.
  rewrite fst_zip in H1 by lia. rewrite snd_zip in H2 by lia.
  split_and!; try done. by destruct ids.
Qed.

Lemma distinct_ids_ok before os :
  NoDup (map PairObservation.pair_id os) ->
  Forall (fun o => PairObservation.pair_id o ∉ map PairObservation.pair_id before) os ->
  AnalysisArtifact.distinct_ids before os = true.
Proof.
  revert before. induction os as [|o os IH]; intros before Hnd Hb; [done|]. cbn.
  apply Forall_cons in Hb as [Ho Hb]. apply NoDup_cons in Hnd as [Hin Hnd].
  apply andb_true_iff. split.
  - rewrite negb_true_iff, <-not_true_iff_false, List.existsb_exists.
    intros (x & Hx & Hid%bool_decide_eq_true). apply Ho. rewrite <-Hid.
    apply list_elem_of_fmap. exists x. by rewrite list_elem_of_In.
  - apply IH; [done|]. rewrite Forall_forall in Hb |- *. intros x Hx.
    rewrite map_app, elem_of_app. intros [H|H%list_elem_of_singleton]; [by apply (Hb x Hx)|].
    apply Hin. rewrite <-H. apply list_elem_of_fmap. by exists x.
Qed.

Lemma collect_pairs db id run persisted :
  study_inv (study_core db) -> run_observation db id = Ok run ->
  StudyRunObservation.lifecycle_state run = StudyRunLifecycleState.Completed ->
  collect (fun q => pair_observation db (StudyRunPairRegistrationObservation.pair_id q))
    (StudyRunObservation.pairs run) = Ok persisted ->
  Forall2 (fun q p => pair_reported (StudyRunPairRegistrationObservation.pair_id q) (seed_of q) p)
    (StudyRunObservation.pairs run) persisted.
Proof.
  intros I Hrun Hdone H%collect_ok_iff. apply Forall2_lookup. intros i.
  rewrite Forall2_lookup in H. specialize (H i).
  destruct (StudyRunObservation.pairs run !! i) as [q|] eqn:Hq; inversion H; subst; constructor.
  eapply completed_pairs_reported; [done..|by eapply list_elem_of_lookup_2|done].
Qed.

(** C9: the analysis of a preregistered run takes what the study reports: of a run that reports
    itself completed, with the reports of its pairs and a plan of its seeds, the analysis never
    says that the run is not ready or does not match its registrations or its plan; it succeeds
    exactly when in each pair no actor failed, each runtime binding was reconciled, there are
    at most two decisions per arm and the measurement has the metrics' slots; and then it
    analyses the recorded outcomes, under the identities of the plan. *)
Theorem completed_run_is_analysed db id run ids estimand policy targets plan persisted :
  study_reachable db -> run_observation db id = Ok run ->
  StudyRunObservation.lifecycle_state run = StudyRunLifecycleState.Completed ->
  PreregisteredAnalysisPlan.new ids (map seed_of (StudyRunObservation.pairs run))
    estimand policy targets = Ok plan ->
  collect (fun q => pair_observation db (StudyRunPairRegistrationObservation.pair_id q))
    (StudyRunObservation.pairs run) = Ok persisted ->
  match AnalysisArtifact.from_preregistered_study_run plan run persisted with
  | Ok artifact => Forall comparable persisted
      /\ AnalysisArtifact.plan artifact = Some plan
      /\ map PairObservation.pair_id (AnalysisArtifact.pairs artifact) = ids
      /\ Forall2 analysed persisted (AnalysisArtifact.pairs artifact)
  | Err e => ~ Forall comparable persisted
      /\ (e = AnalysisInputError.IncompletePersistedPair
          \/ e = AnalysisInputError.MismatchedPersistedPair)
  end.
Proof.
  intros I%reachable_study_inv Hrun Hdone (-> & Hne & Hlen & Hnd & _)%plan_ok Hpairs.
  pose proof (collect_pairs _ _ _ _ I Hrun Hdone Hpairs) as Hall.
  destruct (run_counts _ _ _ I Hrun) as [Hregistered Hnum]. rewrite Hdone in Hnum.
  destruct Hnum as [Hcount Hnum]; [done|]. rewrite length_map in Hlen.
  rewrite <-Hcount, <-Hregistered in Hnum.
  pose proof (Forall2_length _ _ _ Hall) as Hpersisted.
  unfold AnalysisArtifact.from_preregistered_study_run. cbn [PreregisteredAnalysisPlan.pair_ids
    PreregisteredAnalysisPlan.world_seed_digests].
  rewrite Hdone, <-Hcount, <-Hregistered. unfold usize_len. rewrite <-Hpersisted, Hlen, Z.eqb_refl.
  rewrite bool_decide_eq_true_2 by done. cbn [negb orb].
  pose proof (join_ok 0 _ _ ids Hall Hnum Hlen) as Hjoin.
  destruct (AnalysisArtifact.join_registrations _ _ _ _ _) as [os|e]; [|exact Hjoin].
  destruct Hjoin as (Hcomparable & Hanalysed & Hids & Hdrawn).
  unfold AnalysisArtifact.from_preregistered_plan. cbn [PreregisteredAnalysisPlan.pair_ids
    PreregisteredAnalysisPlan.world_seed_digests].
  rewrite <-(length_map PairObservation.pair_id os), Hids, Nat.eqb_refl. cbn [negb].
  rewrite matches_plan_ok by done. unfold AnalysisArtifact.from_pairs.
  rewrite <-Hids in Hnd. rewrite distinct_ids_ok; [|done|apply Forall_true; intros o; apply not_elem_of_nil].
  destruct os as [|o os]; [by rewrite <-Hids in Hne|]. by split_and!.
Qed.
End Persisted.

(** ** The table reads back *)

(** A field holds neither of the separators. *)
Definition field_ok (field : list byte) : Prop := TAB ∉ field /\ LINE_FEED ∉ field.
Lemma printable_field n field : printable n field -> field_ok field.
Proof. intros H. split; by eapply printable_avoids. Qed.

Definition row_ok (row : list (list byte)) : Prop := row <> [] /\ Forall field_ok row.

Lemma tabbed_avoids row : Forall field_ok row -> LINE_FEED ∉ tabbed row.
Proof.
  induction 1 as [|field row [_ H] _ IH]; cbn; [apply not_elem_of_nil|].
  destruct row; [done|]. rewrite elem_of_app, elem_of_cons. by intros [?|[?|?]].
Qed.
Lemma split_tabbed row : row <> [] -> Forall field_ok row -> split_on TAB (tabbed row) = row.
Proof.
  intros Hn H. induction H as [|field row [H _] _ IH]; [done|]. cbn.
  destruct row; [by rewrite split_on_no_sep|]. rewrite split_on_app by done. by rewrite IH.
Qed.
Lemma split_lines rows :
  Forall row_ok rows -> map (split_on TAB) (split_on LINE_FEED (flat_map line rows)) = rows ++ [[[]]].
Proof.
  induction 1 as [|row rows [Hn Hf] _ IH]; [done|]. cbn [flat_map].
  unfold line at 1. rewrite <-app_assoc. cbn [app].
  rewrite split_on_app by by apply tabbed_avoids. cbn. by rewrite split_tabbed, IH.
Qed.

(** *** The fields are printable *)

Lemma fields_of_words s :
  forallb (fun field => forallb (between 32 126) field) (words s) = true -> Forall field_ok (words s).
Proof.
  intros H. apply Forall_forall. intros field Hin%list_elem_of_In.
  rewrite forallb_forall in H. apply (printable_field (Z.of_nat (length field))).
  split; [by apply H|lia].
Qed.
Lemma field_bytes s : forallb (between 32 126) (bytes s) = true -> field_ok (bytes s).
Proof. intros H. by eapply printable_field, printable_bytes. Qed.
Lemma field_i64 z : field_ok (show_i64 z).
Proof. by eapply printable_field, printable_i64. Qed.
Lemma field_digest d : field_ok (hex_digest d).
Proof. by eapply printable_field, printable_digest. Qed.
Lemma field_id id : field_ok (id_bytes id).
Proof.
  apply (printable_field (Z.of_nat (length (id_bytes id)))). split; [|lia].
  unfold id_bytes, AnalysisPairId.as_str. destruct id as [s Hok]. cbn.
  unfold AnalysisPairId.ok in Hok. apply andb_true_iff in Hok as [_ Hok].
  rewrite forallb_forall in Hok |- *. intros b Hb%Hok. revert Hb.
  by destruct b as [[] [] [] [] [] [] [] []].
Qed.
Lemma field_f64 x : field_ok (show_fixed6 x).
Proof.
  assert (forall z, exists n, printable n (show_nat z)) as Hnat.
  { intros z. eexists. unfold show_nat. by apply printable_decimal with (n := 0). }
  assert (forall z, printable 6 (six_digits z)) as Hsix.
  { intros z. split; [|by cbn]. unfold six_digits. apply forallb_forall.
    intros b (p & <- & _)%in_map_iff. assert (0 <= z / p mod 10 < 10) as Hr by (apply Z.mod_pos_bound; lia).
    unfold between, byte_value. rewrite N_ascii_embedding by lia.
    rewrite andb_true_iff, !N.leb_le. lia. }
  assert (forall (negative : bool) n l, printable n l ->
    field_ok (if negative then "-"%char :: l else l)) as Hsigned.
  { intros negative n l H. destruct negative; [|by eapply printable_field].
    apply (printable_field (1 + n)). by apply (printable_app 1 n ["-"%char]). }
  assert (forall z, exists n,
    printable n (show_nat (z / 1000000) ++ "."%char :: six_digits (z mod 1000000))) as Hfixed.
  { intros z. destruct (Hnat (z / 1000000)) as [n Hn]. exists (n + (1 + 6)).
    apply printable_app; [done|]. by apply (printable_app 1 6 ["."%char]). }
  destruct x as [negative|negative| |negative m e]; cbn [show_fixed6].
  - destruct (Hfixed 0) as [n Hn]. by eapply Hsigned.
  - by eapply Hsigned, printable_bytes.
  - by apply field_bytes.
  - destruct (Hfixed (micros_of m e)) as [n Hn]. by eapply Hsigned.
Qed.

Create HintDb fields.
#[export] Hint Resolve field_i64 field_digest field_id field_f64 : fields.
#[export] Hint Extern 1 (field_ok (bytes _)) => (apply field_bytes; reflexivity) : fields.
Lemma field_metric metric : field_ok (Cl001Metric.name metric).
Proof. by destruct metric; apply field_bytes. Qed.
Lemma field_status status : field_ok (DeltaStatus.as_str status).
Proof. by destruct status; apply field_bytes. Qed.
Lemma field_optional_i64 o : field_ok (optional_i64 o).
Proof. destruct o; [apply field_i64|by apply (field_bytes "-")]. Qed.
Lemma field_optional_f64 o : field_ok (optional_f64 o).
Proof. destruct o; [apply field_f64|by apply (field_bytes "-")]. Qed.
#[export] Hint Resolve field_metric field_status field_optional_i64 field_optional_f64 : fields.
Lemma fields_map {A} (f : A -> list byte) l : (forall a, field_ok (f a)) -> Forall field_ok (map f l).
Proof. intros H. apply Forall_fmap, Forall_true. intros a. apply H. Qed.

(** By the structure of a row, and of a list of rows. *)
Ltac fields_step :=
  match goal with
  | |- Forall field_ok (words _) => apply fields_of_words; reflexivity
  | |- Forall field_ok (map _ _) => apply fields_map; intros ?
  | |- Forall field_ok (_ ++ _) => apply Forall_app; split
  | |- Forall field_ok (_ :: _) => apply Forall_cons; split
  | |- Forall field_ok [] => apply Forall_nil_2
  | |- _ => solve [auto with fields]
  end.
Lemma fields_of_outcome outcome : Forall field_ok (outcome_fields outcome).
Proof. destruct outcome; unfold outcome_fields, DASH; repeat fields_step. Qed.
#[export] Hint Resolve fields_of_outcome : fields.
Ltac rows_step :=
  match goal with
  | |- Forall row_ok (map _ _) => apply Forall_fmap, Forall_true; intros ?; unfold compose
  | |- Forall row_ok (_ ++ _) => apply Forall_app; split
  | |- Forall row_ok (_ :: _) => apply Forall_cons; split
  | |- Forall row_ok [] => apply Forall_nil_2
  | |- row_ok (let '(_, _) := ?x in _) => destruct x
  | |- row_ok _ => split; [try discriminate|repeat fields_step]
  end.

Lemma plan_rows_ok plan : Forall row_ok (plan_rows plan).
Proof. unfold plan_rows. repeat rows_step. Qed.
Lemma provenance_rows_ok p : Forall row_ok (provenance_rows p).
Proof.
  unfold provenance_rows, provenance_fields. destruct (PairObservation.provenance p);
    repeat rows_step.
Qed.
Lemma raw_fields_ok p metric : row_ok (raw_fields p metric).
Proof. unfold raw_fields. destruct (delta_cell _ _). rows_step. Qed.
Lemma summary_fields_ok s : row_ok (summary_fields s).
Proof. unfold summary_fields. rows_step. Qed.
Lemma Forall_flat_map {A B} (P : B -> Prop) (f : A -> list B) l :
  (forall a, Forall P (f a)) -> Forall P (flat_map f l).
Proof. intros H. induction l as [|a l IH]; [done|]. by apply Forall_app. Qed.
Lemma artifact_rows_ok a :
  AnalysisArtifact.revision a = ANALYSIS_REVISION -> Forall row_ok (AnalysisArtifact.rows a).
Proof.
  intros Hr. unfold AnalysisArtifact.rows. rewrite Hr.
  repeat (apply Forall_app; split).
  - unfold ANALYSIS_REVISION. repeat rows_step.
  - destruct (AnalysisArtifact.plan a); [apply plan_rows_ok|done].
  - unfold provenance_columns. repeat rows_step.
  - apply Forall_flat_map, provenance_rows_ok.
  - unfold raw_columns. repeat rows_step.
  - apply Forall_flat_map. intros p. apply Forall_fmap, Forall_true. apply raw_fields_ok.
  - unfold summary_columns. repeat rows_step.
  - apply Forall_fmap, Forall_true. apply summary_fields_ok.
Qed.

(** *** The outcomes in the table *)

Lemma hex_digest_inj d d' : hex_digest d = hex_digest d' -> d = d'.
Proof. intros H%hex_bytes_inj. by apply (inj inner). Qed.
Lemma i64_shown (n m : i64) : show_i64 (inner n) = show_i64 (inner m) -> n = m.
Proof.
  intros H. apply (inj inner). destruct n as [n Hn], m as [m Hm]. by apply show_i64_inj.
Qed.
Lemma outcome_fields_inj o o' : outcome_fields o = outcome_fields o' -> o = o'.
Proof.
  destruct o, o'; cbn [outcome_fields]; intros H; try discriminate H.
  - injection H as H1%i64_shown H2%hex_digest_inj. by subst.
  - by injection H as ->%hex_digest_inj.
  - by injection H as ->%hex_digest_inj.
Qed.
Lemma outcome_fields_length o : length (outcome_fields o) = 4%nat.
Proof. by destruct o. Qed.

(** The rows of the outcomes, by their first field. *)
Definition is_raw (row : list (list byte)) : bool :=
  match row with field :: _ => bool_decide (field = bytes "raw") | [] => false end.
Definition not_raw (row : list (list byte)) : Prop := is_raw row = false.
Definition raw_rows (p : PairObservation.t) : list (list (list byte)) :=
  map (raw_fields p) Cl001Metric.ALL.
Lemma filter_not_raw rows : Forall not_raw rows -> List.filter is_raw rows = [].
Proof. induction 1 as [|row rows H _ IH]; [done|]. cbn. by rewrite H. Qed.
Lemma filter_raw pairs :
  List.filter is_raw (flat_map raw_rows pairs) = flat_map raw_rows pairs.
Proof.
  apply List.forallb_filter_id, forallb_forall.
  intros row (p & _ & (metric & <- & _)%in_map_iff)%in_flat_map.
  unfold raw_fields. by destruct (delta_cell _ _).
Qed.
Lemma rows_raw a : List.filter is_raw (AnalysisArtifact.rows a)
                   = flat_map raw_rows (AnalysisArtifact.pairs a).
Proof.
  unfold AnalysisArtifact.rows. rewrite !List.filter_app. fold raw_rows. rewrite filter_raw.
  assert (Forall not_raw (match AnalysisArtifact.plan a with
                          | Some plan => plan_rows plan | None => [] end)) as H1.
  { destruct (AnalysisArtifact.plan a) as [plan|]; [|done]. unfold plan_rows.
    repeat (apply Forall_app; split); try by repeat constructor.
    all: apply Forall_fmap, Forall_true; by intros [? ?]. }
  assert (Forall not_raw (flat_map provenance_rows (AnalysisArtifact.pairs a))) as H2.
  { apply Forall_flat_map. intros p. unfold provenance_rows.
    destruct (PairObservation.provenance p); by repeat constructor. }
  assert (Forall not_raw (map summary_fields (AnalysisArtifact.summaries a))) as H3
    by by apply Forall_fmap, Forall_true.
  rewrite (filter_not_raw _ H1), (filter_not_raw _ H2), (filter_not_raw _ H3). cbn.
  by rewrite app_nil_r.
Qed.

(** Two pairs of one identity with the same outcomes. *)
Definition same_outcomes (p q : PairObservation.t) : Prop :=
  PairObservation.pair_id p = PairObservation.pair_id q
  /\ PairObservation.retained p = PairObservation.retained q
  /\ PairObservation.reset p = PairObservation.reset q.

Lemma raw_fields_inj p q metric :
  raw_fields p metric = raw_fields q metric ->
  PairObservation.pair_id p = PairObservation.pair_id q
  /\ retained_of metric p = retained_of metric q /\ reset_of metric p = reset_of metric q.
Proof.
  unfold raw_fields. fold (retained_of metric p) (retained_of metric q).
  fold (reset_of metric p) (reset_of metric q).
  destruct (delta_cell _ _), (delta_cell _ _). intros H. injection H as Hid H.
  apply app_inj_1 in H as [H1 H]; [|by rewrite !outcome_fields_length].
  apply app_inj_1 in H as [H2 _]; [|by rewrite !outcome_fields_length].
  split_and!; [|by apply outcome_fields_inj..].
  apply (inj inner). unfold id_bytes, AnalysisPairId.as_str in Hid.
  rewrite <-(string_of_list_ascii_of_string (inner (PairObservation.pair_id p))).
  unfold bytes in Hid. by rewrite Hid, string_of_list_ascii_of_string.
Qed.
Lemma index_surjective i : exists metric, Cl001Metric.index metric = i.
Proof.
  assert (i ∈ map Cl001Metric.index Cl001Metric.ALL) as Hi.
  { revert i. apply (bool_decide_unpack _). by vm_compute. }
  apply list_elem_of_fmap in Hi as (metric & -> & _). by exists metric.
Qed.
Lemma arms_equal (x y : ArmAnalysisObservation.t) :
  (forall metric, ArmAnalysisObservation.value x metric = ArmAnalysisObservation.value y metric) ->
  x = y.
Proof.
  destruct x as [v], y as [w]. intros H. f_equal. apply vec_eq. intros i.
  destruct (index_surjective i) as [metric <-]. apply (H metric).
Qed.
Lemma raw_rows_inj p q : raw_rows p = raw_rows q -> same_outcomes p q.
Proof.
  intros H. assert (forall metric, raw_fields p metric = raw_fields q metric) as Hm.
  { unfold raw_rows in H. cbn [map Cl001Metric.ALL] in H. injection H. intros.
    by destruct metric. }
  split; [by apply (raw_fields_inj p q Cl001Metric.FinalDecisionCorrect)|].
  split; apply arms_equal; intros metric; by apply (raw_fields_inj p q metric).
Qed.

(** The table of an analysis reads back: split into lines and fields it is the rows that
    were written, since no field holds a separator, and tables that are equal were made from
    pairs of the same identities with the same outcomes, values and digests. *)
Theorem table_reads_back a b :
  AnalysisArtifact.revision a = ANALYSIS_REVISION ->
  AnalysisArtifact.revision b = ANALYSIS_REVISION ->
  map (split_on TAB) (split_on LINE_FEED (AnalysisArtifact.render_tsv a))
  = AnalysisArtifact.rows a ++ [[[]]]
  /\ (AnalysisArtifact.render_tsv a = AnalysisArtifact.render_tsv b ->
      Forall2 same_outcomes (AnalysisArtifact.pairs a) (AnalysisArtifact.pairs b)).
Proof.
  intros Ha%artifact_rows_ok%split_lines Hb%artifact_rows_ok%split_lines.
  split; [exact Ha|]. unfold AnalysisArtifact.render_tsv. intros E. rewrite E, Hb in Ha.
  apply app_inv_tail in Ha. apply (f_equal (List.filter is_raw)) in Ha. rewrite !rows_raw in Ha.
  revert Ha. generalize (AnalysisArtifact.pairs a) (AnalysisArtifact.pairs b).
  induction l as [|p l IH]; intros [|q k]; try done. cbn [flat_map]. intros H.
  apply app_inj_1 in H as [Hp H]; [|done]. constructor; [by apply raw_rows_inj|by apply IH].
Qed.

(** ** Witnesses *)

Definition named_pair (name : string) : AnalysisPairId.t :=
  match AnalysisPairId.parse name with Ok id => id | Err _ => Newtype "pair" eq_refl end.
Definition observed_at (value : Z) : MeasurementOutcome.t :=
  MeasurementOutcome.Observed (ordinal_of value) sample_digest.
Definition arm_of (outcome : MeasurementOutcome.t) : ArmAnalysisObservation.t :=
  ArmAnalysisObservation.from_values (vreplicate 11 outcome).
(** Two complete cases, a case with a reason, and a difference that is no [i64]. *)
Definition sample_pairs : list PairObservation.t :=
  [PairObservation.make (named_pair "one") (arm_of (observed_at 5)) (arm_of (observed_at 2)) None;
   PairObservation.make (named_pair "two") (arm_of (observed_at 7)) (arm_of (observed_at 1)) None;
   PairObservation.make (named_pair "three") (arm_of (observed_at 7))
     (arm_of (MeasurementOutcome.Unavailable sample_digest)) None;
   PairObservation.make (named_pair "four") (arm_of (observed_at i64_max))
     (arm_of (observed_at (-1))) None].

Lemma summaries_account_for_every_pair_witness : exists artifact s,
  AnalysisArtifact.from_pairs sample_pairs = Ok artifact
  /\ s ∈ AnalysisArtifact.summaries artifact
  /\ MetricSummary.paired_observed s = 2
  /\ MetricSummary.paired_observed s + MetricSummary.delta_unavailable s
     + MetricSummary.delta_invalidated s = 4
  /\ is_Some (MetricSummary.paired_delta_sample_sd s).
Proof.
  assert (is_ok (AnalysisArtifact.from_pairs sample_pairs) = true) as Hok by computed.
  destruct (AnalysisArtifact.from_pairs sample_pairs) as [artifact|] eqn:E; [|discriminate].
  destruct (summaries_account_for_every_pair _ _ E) as [_ H].
  apply Forall2_cons_inv_l in H
    as (s & l & (_ & (_ & _ & Hsum & _) & (_ & _ & Hn) & _ & _ & _ & _ & Hsd & _) & _ & Hl).
  exists artifact, s. rewrite Hl.
  assert (MetricSummary.paired_observed s = 2) as H2 by (rewrite Hn; reflexivity).
  split; [reflexivity|]. split; [left|]. split; [exact H2|]. split; [exact Hsum|].
  apply Hsd. rewrite H2. discriminate.
Defined.

Definition measured_study : list study_action := completed_with 11.
Definition sample_targets : vec PrecisionTarget.t 11 :=
  vreplicate 11 (match PrecisionTarget.new 5 with Some t => t | None => Newtype 1 eq_refl end).

Lemma completed_run_is_analysed_witness : exists run plan persisted artifact,
  run_observation (after measured_study) (sid 1) = Ok run
  /\ AnalysisArtifact.from_preregistered_study_run plan run persisted = Ok artifact
  /\ map PairObservation.pair_id (AnalysisArtifact.pairs artifact) = [named_pair "pair-1"]
  /\ Forall2 analysed persisted (AnalysisArtifact.pairs artifact).
Proof.
  set (analysis :=
    let? run := run_observation (after measured_study) (sid 1) in
    let? plan := map_err (fun _ => StoreError.Database) (PreregisteredAnalysisPlan.new
      [named_pair "pair-1"] (map seed_of (StudyRunObservation.pairs run))
      AnalysisEstimand.RetainedMinusReset AnalysisExclusionPolicy.MetricwiseCompleteCase
      sample_targets) in
    let? persisted := collect (fun q => pair_observation (after measured_study)
      (StudyRunPairRegistrationObservation.pair_id q)) (StudyRunObservation.pairs run) in
    let? artifact := map_err (fun _ => StoreError.Database)
      (AnalysisArtifact.from_preregistered_study_run plan run persisted) in
    Ok (bool_decide (StudyRunObservation.lifecycle_state run = StudyRunLifecycleState.Completed))).
  assert (match analysis with Ok b => b | Err _ => false end = true) as Hok by computed.
  subst analysis. destruct (run_observation _ _) as [run|] eqn:Hrun; [|discriminate].
  destruct (PreregisteredAnalysisPlan.new _ _ _ _ _) as [plan|] eqn:Hplan; [|discriminate].
  cbn [map_err] in Hok. destruct (collect _ _) as [persisted|] eqn:Hpairs; [|discriminate].
  destruct (AnalysisArtifact.from_preregistered_study_run _ _ _) as [artifact|] eqn:Ha;
    [|discriminate].
  apply bool_decide_eq_true in Hok. exists run, plan, persisted, artifact.
  assert (study_reachable (after measured_study)) as Hr by sampled.
  pose proof (completed_run_is_analysed _ _ _ _ _ _ _ _ _ Hr Hrun Hok Hplan Hpairs) as H.
  rewrite Ha in H. destruct H as (_ & _ & Hids & Hanalysed).
  split; [reflexivity|]. split; [exact Ha|]. split; [exact Hids|exact Hanalysed].
Defined.

Definition sample_artifact (pairs : list PairObservation.t) : AnalysisArtifact.t :=
  AnalysisArtifact.new ANALYSIS_REVISION None pairs
    (map (fun metric => summarize metric pairs) Cl001Metric.ALL).
Lemma table_reads_back_witness :
  map (split_on TAB) (split_on LINE_FEED (AnalysisArtifact.render_tsv (sample_artifact sample_pairs)))
  = AnalysisArtifact.rows (sample_artifact sample_pairs) ++ [[[]]]
  /\ AnalysisArtifact.render_tsv (sample_artifact sample_pairs)
     <> AnalysisArtifact.render_tsv (sample_artifact (reverse sample_pairs)).
Proof.
  destruct (table_reads_back (sample_artifact sample_pairs)
    (sample_artifact (reverse sample_pairs)) eq_refl eq_refl) as [Hread Hsame].
  split; [exact Hread|]. intros H. apply Hsame in H.
  apply Forall2_cons_inv_l in H as (q & l & (Hid & _) & _ & Hl). vm_compute in Hl.
  injection Hl as <- _. discriminate Hid.
Defined.
