(* ===== verification/SocietydProtocol.v ===== *)
(** * The binary protocol of the daemon

    [societyd/src/protocol.rs]: the closed requests of the public and of the supervisor
    socket, the responses, and their frames: a length of four bytes and a payload that
    starts with the protocol version, a tag and a correlation.

    A payload is built by appending, so a writer is the list of bytes it appends; an
    encoder that can refuse returns a [result].  [Cursor] is a method on the bytes that
    remain.  [Reader] and [Writer] are the traits [io::Read] and [io::Write]: a source
    of bytes that ends or breaks, and a sink that may break. *)

From S2P Require Import Prelude.
From S2P Require Import Machine.
From S2P Require Import KernelScalars.
From S2P Require Import KernelEnums.
From S2P Require Import KernelCustody.
From S2P Require Import StudyTypes.
From S2P Require Import KernelCommands.
From S2P Require Import KernelCodes.

Definition PROTOCOL_VERSION : Z := 8.
Definition MAX_FRAME_BYTES : Z := 65536.

Definition PUBLIC_RECEIPT_TAG : Z := 33.
Definition PUBLIC_STATUS_TAG : Z := 34.
Definition PUBLIC_STUDY_PAIR_OBSERVATION_TAG : Z := 35.
Definition PUBLIC_STUDY_RUN_OBSERVATION_TAG : Z := 36.
Definition PUBLIC_STUDY_RUN_PAIR_REGISTRATION_TAG : Z := 37.
Definition SUPERVISOR_EXECUTE_TAG : Z := 65.
Definition SUPERVISOR_RECEIPT_TAG : Z := 66.
Definition SUPERVISOR_STATUS_TAG : Z := 67.
Definition SUPERVISOR_CAPABILITY_GRANT_TAG : Z := 68.

(** ** Input, output and errors *)

(** [io::Error], by its kind. *)
Module IoError.
Inductive t := UnexpectedEof | Other (code : Z).
#[global] Instance eq_dec : EqDecision t.
Proof. solve_decision. Defined.
End IoError.

(** [io::Read]: the bytes that are still to come, and whether the source then ends or
    breaks.  A broken source stays broken. *)
Module Reader.
Record t := new { unread : list byte; fault : option IoError.t }.
#[global] Instance fields : Fields t := fun r => new (unread r) (fault r).

(** [read] into a buffer of one byte: [None] is [Ok(0)]. *)
Definition read_one : method t IoError.t (option byte) := fun r =>
  match unread r, fault r with
  | b :: rest, _ => (Ok (Some b), r <| unread := rest |>)
  | [], None => (Ok None, r)
  | [], Some e => (Err e, r)
  end.
Definition read_exact (n : nat) : method t IoError.t (list byte) := fun r =>
  if (n <=? length (unread r))%nat
  then (Ok (take n (unread r)), r <| unread := drop n (unread r) |>)
  else (Err (default IoError.UnexpectedEof (fault r)), r <| unread := [] |>).
End Reader.

(** [io::Write]: what was written, how many more bytes the sink takes before it breaks, and
    whether flushing breaks. *)
Module Writer.
Record t := new {
  written : list byte;
  room : option (nat * IoError.t);
  flush_fault : option IoError.t;
}.
#[global] Instance fields : Fields t := fun w => new (written w) (room w) (flush_fault w).

Definition write_all (l : list byte) : method t IoError.t unit := fun w =>
  match room w with
  | None => (Ok (), w <| written := written w ++ l |>)
  | Some (n, e) =>
      if (length l <=? n)%nat
      then (Ok (), w <| written := written w ++ l |> <| room := Some ((n - length l)%nat, e) |>)
      else (Err e, w <| written := written w ++ take n l |> <| room := Some (0%nat, e) |>)
  end.
Definition flush : method t IoError.t unit := fun w =>
  match flush_fault w with None => (Ok (), w) | Some e => (Err e, w) end.
End Writer.

Module WireError.
Inductive t :=
| Io (e : IoError.t)
| EndOfStream | ShortFrame | FrameTooLarge | MissingField | UnsupportedVersion | UnknownTag
| InvalidCorrelation | InvalidBoolean | InvalidUtf8 | StringTooLong | BytesTooLong
| InvalidValue | TrailingBytes.
#[global] Instance eq_dec : EqDecision t.
Proof. solve_decision. Defined.
End WireError.

Abbreviation wire_result A := (result A WireError.t).

(** [.map_err(|_| WireError::InvalidValue)]. *)
Definition or_invalid {A E} (r : result A E) : wire_result A :=
  map_err (fun _ => WireError.InvalidValue) r.

(** ** Messages *)

Module CorrelationId.
Definition ok (value : Z) : bool := is_u64 value && negb (value =? 0).
Definition t : Type := newtype "CorrelationId" Z ok.
Definition new (value : Z) : option t := checked value.
Definition value (self : t) : Z := inner self.
End CorrelationId.

Module ClientCommandBody.
Inductive t :=
| CreateSocietyIdentity (name : SocietyName.t)
| InstallRootAuthorityOffice
| InstallFoundingMission (mission : ApplicationMissionInput.t)
    (source_rendering : MissionSourceRendering.t)
| AppointInitialRootAuthority (actor_display_name : PrincipalDisplayName.t)
| SetR0HardCeiling (ceiling : UsdMicros.t)
| BootstrapSociety
| ProposeOperatingCycle (treatment : OperatingCycleTreatment.t) (budget_ceiling : UsdMicros.t)
| AdmitOperatingCycle (cycle_id : OperatingCycleId)
| StartRootAuthorityOfficeSession (cycle_id : OperatingCycleId)
| OpenOfficeTurn (session_id : RootAuthorityOfficeSessionId) (purpose : OfficeTurnPurpose.t)
| QuiesceOperatingCycle (cycle_id : OperatingCycleId)
| ResumeOperatingCycle (cycle_id : OperatingCycleId)
| ReconcileOperatingCycle (cycle_id : OperatingCycleId)
| CloseOperatingCycle (cycle_id : OperatingCycleId)
| ReserveBudget (cycle_id : OperatingCycleId) (amount : UsdMicros.t)
| RequestCancellation (cycle_id : OperatingCycleId) (mode : CancellationMode.t)
| CloseCostPostmortem (postmortem_id : CostPostmortemId)
    (resolution : CostPostmortemResolution.t).

Definition tag (self : t) : Z :=
  match self with
  | CreateSocietyIdentity _ => 1
  | InstallRootAuthorityOffice => 2
  | InstallFoundingMission _ _ => 3
  | AppointInitialRootAuthority _ => 4
  | SetR0HardCeiling _ => 5
  | BootstrapSociety => 6
  | ProposeOperatingCycle _ _ => 7
  | AdmitOperatingCycle _ => 8
  | StartRootAuthorityOfficeSession _ => 9
  | OpenOfficeTurn _ _ => 11
  | QuiesceOperatingCycle _ => 13
  | ResumeOperatingCycle _ => 15
  | ReconcileOperatingCycle _ => 16
  | CloseOperatingCycle _ => 17
  | ReserveBudget _ _ => 18
  | RequestCancellation _ _ => 20
  | CloseCostPostmortem _ _ => 23
  end.

Definition into_kernel (self : t) : CommandBody.t :=
  match self with
  | CreateSocietyIdentity name => CommandBody.CreateSocietyIdentity name
  | InstallRootAuthorityOffice => CommandBody.InstallRootAuthorityOffice
  | InstallFoundingMission mission _ => CommandBody.InstallFoundingMission mission
  | AppointInitialRootAuthority actor_display_name =>
      CommandBody.AppointInitialRootAuthority actor_display_name
  | SetR0HardCeiling ceiling => CommandBody.SetR0HardCeiling ceiling
  | BootstrapSociety => CommandBody.BootstrapSociety
  | ProposeOperatingCycle treatment budget_ceiling =>
      CommandBody.ProposeOperatingCycle treatment budget_ceiling
  | AdmitOperatingCycle cycle_id => CommandBody.AdmitOperatingCycle cycle_id
  | StartRootAuthorityOfficeSession cycle_id =>
      CommandBody.StartRootAuthorityOfficeSession cycle_id
  | OpenOfficeTurn session_id purpose => CommandBody.OpenOfficeTurn session_id purpose
  | QuiesceOperatingCycle cycle_id => CommandBody.QuiesceOperatingCycle cycle_id
  | ResumeOperatingCycle cycle_id => CommandBody.ResumeOperatingCycle cycle_id
  | ReconcileOperatingCycle cycle_id => CommandBody.ReconcileOperatingCycle cycle_id
  | CloseOperatingCycle cycle_id => CommandBody.CloseOperatingCycle cycle_id
  | ReserveBudget cycle_id amount => CommandBody.ReserveBudget cycle_id amount
  | RequestCancellation cycle_id mode => CommandBody.RequestCancellation cycle_id mode
  | CloseCostPostmortem postmortem_id resolution =>
      CommandBody.CloseCostPostmortem postmortem_id resolution
  end.

Definition required_capability (self : t) : Capability.t :=
  match self with
  | CreateSocietyIdentity _ => Capability.CreateSocietyIdentity
  | InstallRootAuthorityOffice => Capability.InstallRootAuthorityOffice
  | InstallFoundingMission _ _ => Capability.InstallFoundingMission
  | AppointInitialRootAuthority _ => Capability.AppointInitialRootAuthority
  | SetR0HardCeiling _ => Capability.SetR0HardCeiling
  | BootstrapSociety => Capability.BootstrapSociety
  | ProposeOperatingCycle _ _ => Capability.ProposeOperatingCycle
  | AdmitOperatingCycle _ => Capability.AdmitOperatingCycle
  | StartRootAuthorityOfficeSession _ => Capability.StartRootAuthorityOfficeSession
  | OpenOfficeTurn _ _ => Capability.OpenOfficeTurn
  | QuiesceOperatingCycle _ => Capability.QuiesceOperatingCycle
  | ResumeOperatingCycle _ => Capability.ResumeOperatingCycle
  | ReconcileOperatingCycle _ => Capability.ReconcileOperatingCycle
  | CloseOperatingCycle _ => Capability.CloseOperatingCycle
  | ReserveBudget _ _ => Capability.ReserveBudget
  | RequestCancellation _ _ => Capability.RequestCancellation
  | CloseCostPostmortem _ _ => Capability.CloseCostPostmortem
  end.
End ClientCommandBody.

Module ClientCommandRequest.
Record t := new {
  command_id : CommandId.t;
  principal_id : PrincipalId;
  capability_grant_id : CapabilityGrantId;
  capability : Capability.t;
  expected_generation : ExpectedGeneration.t;
  body : ClientCommandBody.t;
}.
Definition into_kernel (self : t) : CommandRequest.t :=
  CommandRequest.new (command_id self) (principal_id self) (capability_grant_id self)
    (capability self) (expected_generation self) (ClientCommandBody.into_kernel (body self)).
End ClientCommandRequest.

Module PublicRequest.
Inductive t :=
| CommandReceipt (correlation : CorrelationId.t) (command_id : CommandId.t)
| Status (correlation : CorrelationId.t)
| StudyPairObservation (correlation : CorrelationId.t) (pair_id : StudyPairId)
| StudyRunObservation (correlation : CorrelationId.t) (study_run_id : StudyRunId)
| StudyRunPairRegistration (correlation : CorrelationId.t) (study_run_id : StudyRunId)
    (pair_ordinal : StudyRunPairOrdinal.t).
End PublicRequest.

Module SupervisorRequest.
Inductive t :=
| Execute (correlation : CorrelationId.t) (command : ClientCommandRequest.t)
| CommandReceipt (correlation : CorrelationId.t) (command_id : CommandId.t)
| Status (correlation : CorrelationId.t)
| ActiveCapabilityGrant (correlation : CorrelationId.t) (principal_id : PrincipalId)
    (capability : Capability.t).
End SupervisorRequest.

Module CommandReceiptView.
Inductive t :=
| Accepted (event_id : EventId) (idempotent : bool)
| Rejected (rejection : Rejection.t) (idempotent : bool).
(** [From<CommandReceipt>]. *)
Definition from (receipt : CommandReceipt.t) : t :=
  match CommandReceipt.disposition receipt with
  | CommandDisposition.Accepted event_id => Accepted event_id (CommandReceipt.idempotent receipt)
  | CommandDisposition.Rejected rejection =>
      Rejected rejection (CommandReceipt.idempotent receipt)
  end.
End CommandReceiptView.

Module DaemonStatus.
Inductive t := FreshServing (command_count : i64) | RecoveryFenced (command_count : i64).
End DaemonStatus.

Module StudyRunSummary.
Record t := new {
  study_run_id : StudyRunId;
  protocol_revision_id : StudyProtocolRevisionId;
  plan_content_object_id : ContentObjectId;
  plan_digest : Blake3Digest.t;
  pair_count : StudyRunPairCount.t;
  registered_pair_count : StudyRunRegisteredPairCount.t;
  lifecycle_state : StudyRunLifecycleState.t;
}.
(** [From<&StudyRunObservation>]. *)
Definition from (study_run : StudyRunObservation.t) : t :=
  new (StudyRunObservation.study_run_id study_run)
    (StudyRunObservation.protocol_revision_id study_run)
    (StudyRunObservation.plan_content_object_id study_run)
    (StudyRunObservation.plan_digest study_run) (StudyRunObservation.pair_count study_run)
    (StudyRunObservation.registered_pair_count study_run)
    (StudyRunObservation.lifecycle_state study_run).
End StudyRunSummary.

Module ProtocolErrorCode.
Inductive t :=
| MalformedFrame | UnsupportedVersion | UnknownTag | PeerNotAuthorized | RecoveryFenced
| IdempotencyConflict | KernelFailure | DaemonStopping | MissionSourceDigestMismatch.
#[global] Instance eq_dec : EqDecision t.
Proof. solve_decision. Defined.
Definition as_u8 (self : t) : Z :=
  match self with
  | MalformedFrame => 1 | UnsupportedVersion => 2 | UnknownTag => 3 | PeerNotAuthorized => 4
  | RecoveryFenced => 5 | IdempotencyConflict => 6 | KernelFailure => 7 | DaemonStopping => 8
  | MissionSourceDigestMismatch => 9
  end.
End ProtocolErrorCode.

Module Response.
Inductive t :=
| CommandReceipt (correlation : CorrelationId.t) (receipt : CommandReceiptView.t)
| CommandReceiptLookup (correlation : CorrelationId.t) (receipt : option CommandReceiptView.t)
| Status (correlation : CorrelationId.t) (status : DaemonStatus.t)
| StudyPairObservation (correlation : CorrelationId.t) (pair : option StudyPairObservation.t)
| StudyRunSummary (correlation : CorrelationId.t) (study_run : option StudyRunSummary.t)
| StudyRunPairRegistration (correlation : CorrelationId.t)
    (registration : option StudyRunPairRegistrationObservation.t)
| ActiveCapabilityGrant (correlation : CorrelationId.t)
    (capability_grant_id : option CapabilityGrantId)
| Error (correlation : CorrelationId.t) (code : ProtocolErrorCode.t).
End Response.

(** ** Codes of one byte *)

Definition study_treatment (value : Z) : wire_result StudyTreatment.t :=
  match value with
  | 1 => Ok StudyTreatment.Retained
  | 2 => Ok StudyTreatment.Reset
  | _ => Err WireError.InvalidValue
  end.

Definition study_episode_state (value : Z) : wire_result StudyEpisodeState.t :=
  match value with
  | 1 => Ok StudyEpisodeState.Admitted_
  | 2 => Ok StudyEpisodeState.SourceActive
  | 3 => Ok StudyEpisodeState.SourceReconciled
  | 4 => Ok StudyEpisodeState.SuccessorAdmitted
  | 5 => Ok StudyEpisodeState.CorrectionReleased
  | 6 => Ok StudyEpisodeState.SuccessorActive
  | 7 => Ok StudyEpisodeState.Closed
  | _ => Err WireError.InvalidValue
  end.

Definition study_measurement_status (value : Z) : wire_result StudyMeasurementStatus.t :=
  match value with
  | 1 => Ok StudyMeasurementStatus.Observed
  | 2 => Ok StudyMeasurementStatus.Unavailable
  | 3 => Ok StudyMeasurementStatus.Invalidated
  | _ => Err WireError.InvalidValue
  end.

Definition study_run_lifecycle_state (value : Z) : wire_result StudyRunLifecycleState.t :=
  match value with
  | 1 => Ok StudyRunLifecycleState.Pairing
  | 2 => Ok StudyRunLifecycleState.Ready
  | 3 => Ok StudyRunLifecycleState.Running
  | 4 => Ok StudyRunLifecycleState.Completed
  | _ => Err WireError.InvalidValue
  end.

Definition capability_from_u8 (value : Z) : wire_result Capability.t :=
  match value with
  | 1 => Ok Capability.CreateSocietyIdentity
  | 2 => Ok Capability.InstallRootAuthorityOffice
  | 3 => Ok Capability.InstallFoundingMission
  | 4 => Ok Capability.AppointInitialRootAuthority
  | 5 => Ok Capability.SetR0HardCeiling
  | 6 => Ok Capability.BootstrapSociety
  | 7 => Ok Capability.ProposeOperatingCycle
  | 8 => Ok Capability.AdmitOperatingCycle
  | 9 => Ok Capability.QuiesceOperatingCycle
  | 10 => Ok Capability.ResumeOperatingCycle
  | 11 => Ok Capability.ReconcileOperatingCycle
  | 12 => Ok Capability.CloseOperatingCycle
  | 13 => Ok Capability.StartRootAuthorityOfficeSession
  | 14 => Ok Capability.OpenOfficeTurn
  | 15 => Ok Capability.RequestCancellation
  | 16 => Ok Capability.ReserveBudget
  | 17 => Ok Capability.ReconcileBudget
  | 18 => Ok Capability.RecordCycleDrained
  | 19 => Ok Capability.RecordOfficeSessionReady
  | 20 => Ok Capability.SettleOfficeTurn
  | 21 => Ok Capability.ReconcileCancellation
  | 22 => Ok Capability.RecordOfficeSessionTerminal
  | 23 => Ok Capability.CloseCostPostmortem
  | _ => Err WireError.InvalidValue
  end.

Definition operating_cycle_treatment_from_u8 (value : Z) : wire_result OperatingCycleTreatment.t :=
  match value with
  | 1 => Ok OperatingCycleTreatment.PiSdkQualificationV1
  | 2 => Ok OperatingCycleTreatment.PinnedPiSdkLiveV1
  | 3 => Ok OperatingCycleTreatment.DeterministicPiHostFixtureV1
  | _ => Err WireError.InvalidValue
  end.

Definition mission_principle_kind_from_u8 (value : Z) : wire_result MissionPrincipleKind.t :=
  match value with
  | 1 => Ok MissionPrincipleKind.Purpose
  | 2 => Ok MissionPrincipleKind.Evidence
  | 3 => Ok MissionPrincipleKind.Boundary
  | 4 => Ok MissionPrincipleKind.Revision
  | _ => Err WireError.InvalidValue
  end.

Definition office_turn_purpose_from_u8 (value : Z) : wire_result OfficeTurnPurpose.t :=
  match value with
  | 1 => Ok OfficeTurnPurpose.OrdinaryWork
  | 2 => Ok OfficeTurnPurpose.Recovery
  | 3 => Ok OfficeTurnPurpose.Cancellation
  | 4 => Ok OfficeTurnPurpose.Closure
  | _ => Err WireError.InvalidValue
  end.

Definition cancellation_mode_from_u8 (value : Z) : wire_result CancellationMode.t :=
  match value with
  | 1 => Ok CancellationMode.Quiesce
  | 2 => Ok CancellationMode.GracefulCancel
  | 3 => Ok CancellationMode.EmergencyStop
  | _ => Err WireError.InvalidValue
  end.

Definition cost_postmortem_resolution_from_u8 (value : Z) : wire_result CostPostmortemResolution.t :=
  match value with
  | 1 => Ok CostPostmortemResolution.ConservativeFullReservation
  | 2 => Ok CostPostmortemResolution.ChargeObservedOverrun
  | _ => Err WireError.InvalidValue
  end.

Definition protocol_error_from_u8 (value : Z) : wire_result ProtocolErrorCode.t :=
  match value with
  | 1 => Ok ProtocolErrorCode.MalformedFrame
  | 2 => Ok ProtocolErrorCode.UnsupportedVersion
  | 3 => Ok ProtocolErrorCode.UnknownTag
  | 4 => Ok ProtocolErrorCode.PeerNotAuthorized
  | 5 => Ok ProtocolErrorCode.RecoveryFenced
  | 6 => Ok ProtocolErrorCode.IdempotencyConflict
  | 7 => Ok ProtocolErrorCode.KernelFailure
  | 8 => Ok ProtocolErrorCode.DaemonStopping
  | 9 => Ok ProtocolErrorCode.MissionSourceDigestMismatch
  | _ => Err WireError.InvalidValue
  end.

Definition rejection_from_u8 (value : Z) : wire_result Rejection.t :=
  or_invalid (Rejection.try_from_u8 value).

Definition supervisor_capability_is_representable (capability : Capability.t) : bool :=
  match capability with
  | Capability.CreateSocietyIdentity | Capability.InstallRootAuthorityOffice
  | Capability.InstallFoundingMission | Capability.AppointInitialRootAuthority
  | Capability.SetR0HardCeiling | Capability.BootstrapSociety
  | Capability.ProposeOperatingCycle | Capability.AdmitOperatingCycle
  | Capability.QuiesceOperatingCycle | Capability.ResumeOperatingCycle
  | Capability.ReconcileOperatingCycle | Capability.CloseOperatingCycle
  | Capability.StartRootAuthorityOfficeSession | Capability.OpenOfficeTurn
  | Capability.RequestCancellation | Capability.ReserveBudget
  | Capability.CloseCostPostmortem => true
  | _ => false
  end.

(** ** Writing fields *)

Module Wire.
Definition put_u8 (value : Z) : list byte := be_bytes 1 value.
Definition put_u16 (value : Z) : list byte := be_bytes 2 value.
Definition put_i64 (value : Z) : list byte := be_bytes 8 value.
Definition put_bool (value : bool) : list byte := put_u8 (if value then 1 else 0).
Definition put_correlation (correlation : CorrelationId.t) : list byte :=
  be_bytes 8 (CorrelationId.value correlation).
(** The [expect] cannot fail: every text and every byte field of the domain is bounded. *)
Definition put_bytes (value : list byte) : list byte :=
  be_bytes 4 (Z.of_nat (length value)) ++ value.
Definition put_string (value : string) : list byte := put_bytes (bytes value).
Definition put_digest (digest : Blake3Digest.t) : list byte := Blake3Digest.as_bytes digest.
Definition put_optional_i64 (value : option Z) : list byte :=
  match value with Some value => put_bool true ++ put_i64 value | None => put_bool false end.
Definition put_optional_digest (digest : option Blake3Digest.t) : list byte :=
  match digest with Some digest => put_bool true ++ put_digest digest | None => put_bool false end.
End Wire.
Import Wire.

(** ** Reading fields *)

Module Cursor.
Definition reads (A : Type) : Type := method (list byte) WireError.t A.

Definition take (length : nat) : reads (list byte) := fun remaining =>
  if (List.length remaining <? length)%nat then (Err WireError.MissingField, remaining)
  else (Ok (firstn length remaining), skipn length remaining).
Definition u8 : reads Z := let! l := take 1 in m_ret (from_be_bytes l).
Definition u16 : reads Z := let! l := take 2 in m_ret (from_be_bytes l).
Definition i64 : reads Z := let! l := take 8 in m_ret (i64_from_be_bytes l).
Definition correlation : reads CorrelationId.t :=
  let! l := take 8 in
  m_lift (ok_or (CorrelationId.new (from_be_bytes l)) WireError.InvalidCorrelation).
Definition bool : reads Datatypes.bool :=
  let! value := u8 in
  match value with
  | 0 => m_ret false
  | 1 => m_ret true
  | _ => m_fail WireError.InvalidBoolean
  end.
(** An array of 32 bytes is one that [Blake3Digest::from_bytes] accepts. *)
Definition digest : reads Blake3Digest.t :=
  let! l := take 32 in m_lift (ok_or (checked l) WireError.MissingField).
Definition optional_i64 : reads (option Z) :=
  let! present := bool in
  if present then let! value := i64 in m_ret (Some value) else m_ret None.
Definition optional_digest : reads (option Blake3Digest.t) :=
  let! present := bool in
  if present then let! value := digest in m_ret (Some value) else m_ret None.
Definition sized (maximum : Z) (e : WireError.t) : reads (list byte) :=
  let! l := take 4 in
  let length := from_be_bytes l in
  if maximum <? length then m_fail e else take (Z.to_nat length).
Definition string (maximum : Z) : reads String.string :=
  let! l := sized maximum WireError.StringTooLong in
  if utf8_valid l then m_ret (string_of_list_ascii l) else m_fail WireError.InvalidUtf8.
Definition bytes (maximum : Z) : reads (list byte) := sized maximum WireError.BytesTooLong.
Definition finish : reads unit := fun remaining =>
  match remaining with
  | [] => (Ok (), remaining)
  | _ => (Err WireError.TrailingBytes, remaining)
  end.
End Cursor.
Abbreviation reads := Cursor.reads.

(** [X::try_from(cursor.i64()?).map_err(|_| InvalidValue)?]. *)
Definition read_identifier {n} : reads (Identifier.t n) :=
  let! value := Cursor.i64 in m_lift (or_invalid (Identifier.try_from value)).
Definition read_study_identifier {n} : reads (StudyIdentifier.t n) :=
  let! value := Cursor.i64 in m_lift (or_invalid (StudyIdentifier.try_from value)).
Definition read_usd : reads UsdMicros.t :=
  let! value := Cursor.i64 in m_lift (or_invalid (UsdMicros.try_from value)).
(** [code(cursor.u8()?)?]. *)
Definition read_code {T} (from_u8 : Z -> wire_result T) : reads T :=
  let! value := Cursor.u8 in m_lift (from_u8 value).
(** [X::parse(cursor.string(maximum)?).map_err(|_| InvalidValue)?]. *)
Definition read_text {T E} (maximum : Z) (parse : string -> result T E) : reads T :=
  let! value := Cursor.string maximum in m_lift (or_invalid (parse value)).
Definition parse_command_id (value : string) : wire_result CommandId.t :=
  or_invalid (CommandId.parse value).
Definition read_command_id : reads CommandId.t :=
  let! value := Cursor.string 128 in m_lift (parse_command_id value).
Definition study_pair_id (value : Z) : wire_result StudyPairId :=
  or_invalid (StudyIdentifier.try_from value).
Definition study_episode_id (value : Z) : wire_result StudyEpisodeId :=
  or_invalid (StudyIdentifier.try_from value).
(** An [i64] field is any value of its width. *)
Definition read_i64 : reads i64 :=
  let! value := Cursor.i64 in m_lift (ok_or (checked value) WireError.MissingField).
Definition read_optional_i64 : reads (option i64) :=
  let! value := Cursor.optional_i64 in
  match value with
  | Some value => let! value := m_lift (ok_or (checked value) WireError.MissingField) in
                  m_ret (Some value)
  | None => m_ret None
  end.
(** [for _ in 0..count { values.push(read(cursor)?) }]. *)
Fixpoint read_many {T} (read : reads T) (count : nat) : reads (list T) :=
  match count with
  | O => m_ret []
  | S count => let! x := read in let! l := read_many read count in m_ret (x :: l)
  end.

(** ** Encoders and decoders of structures *)

Definition put_principle (principle : MissionPrinciple.t) : list byte :=
  put_u8 (MissionPrincipleKind.as_i64 (MissionPrinciple.kind principle)) ++
  put_string (MissionText.as_str (MissionPrinciple.text principle)).
Definition encode_application_mission_input (mission : ApplicationMissionInput.t) : list byte :=
  let principles := MissionPrinciples.as_slice (ApplicationMissionInput.principles mission) in
  let questions := ApplicationMissionInput.north_star_questions mission in
  put_string (ApplicationIdentity.as_str (ApplicationMissionInput.application_identity mission)) ++
  put_string (ApplicationName.as_str (ApplicationMissionInput.application_name mission)) ++
  put_i64 (ApplicationRevisionOrdinal.value (ApplicationMissionInput.revision_ordinal mission)) ++
  put_string (MissionText.as_str (ApplicationMissionInput.statement mission)) ++
  put_u8 (Z.of_nat (length principles)) ++
  flat_map put_principle principles ++
  put_string (MissionText.as_str (NorthStarQuestionSet.change questions)) ++
  put_string (MissionText.as_str (NorthStarQuestionSet.improvement_evidence questions)) ++
  put_string (MissionText.as_str (NorthStarQuestionSet.boundary_commitment questions)) ++
  put_string (MissionText.as_str (NorthStarQuestionSet.revisit questions)) ++
  put_digest (ApplicationMissionInput.source_rendering_digest mission).

Definition read_principle : reads MissionPrinciple.t :=
  let! kind := read_code mission_principle_kind_from_u8 in
  let! text := read_text 4096 MissionText.parse in
  m_ret (MissionPrinciple.new kind text).
Definition decode_application_mission_input : reads ApplicationMissionInput.t :=
  let! application_identity := read_text 128 ApplicationIdentity.parse in
  let! application_name := read_text 160 ApplicationName.parse in
  let! revision_ordinal :=
    let! value := Cursor.i64 in m_lift (or_invalid (ApplicationRevisionOrdinal.try_from value)) in
  let! statement := read_text 4096 MissionText.parse in
  let! principle_count := Cursor.u8 in
  if (principle_count =? 0) || (MissionPrinciples.MAX_COUNT <? principle_count)
  then m_fail WireError.InvalidValue else
  let! principles := read_many read_principle (Z.to_nat principle_count) in
  let! change := read_text 4096 MissionText.parse in
  let! improvement_evidence := read_text 4096 MissionText.parse in
  let! boundary_commitment := read_text 4096 MissionText.parse in
  let! revisit := read_text 4096 MissionText.parse in
  let! principles := m_lift (or_invalid (MissionPrinciples.new principles)) in
  let! source_rendering_digest := Cursor.digest in
  m_ret (ApplicationMissionInput.new application_identity application_name revision_ordinal
           statement principles
           (NorthStarQuestionSet.new change improvement_evidence boundary_commitment revisit)
           source_rendering_digest).

Definition encode_expected_generation (expected_generation : ExpectedGeneration.t) : list byte :=
  match expected_generation with
  | ExpectedGeneration.NotApplicable => put_u8 0
  | ExpectedGeneration.Exact generation =>
      put_u8 1 ++ put_i64 (AdmissionGeneration.value generation)
  end.
Definition decode_expected_generation : reads ExpectedGeneration.t :=
  let! value := Cursor.u8 in
  match value with
  | 0 => m_ret ExpectedGeneration.NotApplicable
  | 1 => let! generation :=
           let! value := Cursor.i64 in m_lift (or_invalid (AdmissionGeneration.try_from value)) in
         m_ret (ExpectedGeneration.Exact generation)
  | _ => m_fail WireError.InvalidValue
  end.

Definition encode_receipt (receipt : CommandReceiptView.t) : list byte :=
  match receipt with
  | CommandReceiptView.Accepted event_id idempotent =>
      put_u8 1 ++ put_i64 (Identifier.value event_id) ++ put_bool idempotent
  | CommandReceiptView.Rejected rejection idempotent =>
      put_u8 2 ++ put_u8 (Rejection.as_u8 rejection) ++ put_bool idempotent
  end.
Definition decode_receipt : reads CommandReceiptView.t :=
  let! value := Cursor.u8 in
  match value with
  | 1 => let! event_id := read_identifier in
         let! idempotent := Cursor.bool in
         m_ret (CommandReceiptView.Accepted event_id idempotent)
  | 2 => let! rejection := read_code rejection_from_u8 in
         let! idempotent := Cursor.bool in
         m_ret (CommandReceiptView.Rejected rejection idempotent)
  | _ => m_fail WireError.InvalidValue
  end.

(** ** Client commands *)

Definition put_client_command_body (body : ClientCommandBody.t) : list byte :=
  match body with
  | ClientCommandBody.CreateSocietyIdentity name => put_string (SocietyName.as_str name)
  | ClientCommandBody.InstallRootAuthorityOffice | ClientCommandBody.BootstrapSociety => []
  | ClientCommandBody.InstallFoundingMission mission source_rendering =>
      encode_application_mission_input mission ++
      put_bytes (MissionSourceRendering.as_bytes source_rendering)
  | ClientCommandBody.AppointInitialRootAuthority actor_display_name =>
      put_string (PrincipalDisplayName.as_str actor_display_name)
  | ClientCommandBody.SetR0HardCeiling ceiling => put_i64 (UsdMicros.value ceiling)
  | ClientCommandBody.ProposeOperatingCycle treatment budget_ceiling =>
      put_u8 (OperatingCycleTreatment.as_i64 treatment) ++
      put_i64 (UsdMicros.value budget_ceiling)
  | ClientCommandBody.AdmitOperatingCycle cycle_id
  | ClientCommandBody.StartRootAuthorityOfficeSession cycle_id
  | ClientCommandBody.QuiesceOperatingCycle cycle_id
  | ClientCommandBody.ResumeOperatingCycle cycle_id
  | ClientCommandBody.ReconcileOperatingCycle cycle_id
  | ClientCommandBody.CloseOperatingCycle cycle_id => put_i64 (Identifier.value cycle_id)
  | ClientCommandBody.OpenOfficeTurn session_id purpose =>
      put_i64 (Identifier.value session_id) ++ put_u8 (OfficeTurnPurpose.as_i64 purpose)
  | ClientCommandBody.ReserveBudget cycle_id amount =>
      put_i64 (Identifier.value cycle_id) ++ put_i64 (UsdMicros.value amount)
  | ClientCommandBody.RequestCancellation cycle_id mode =>
      put_i64 (Identifier.value cycle_id) ++ put_u8 (CancellationMode.as_i64 mode)
  | ClientCommandBody.CloseCostPostmortem postmortem_id resolution =>
      put_i64 (Identifier.value postmortem_id) ++
      put_u8 (CostPostmortemResolution.as_i64 resolution)
  end.

Definition encode_command_request (command : ClientCommandRequest.t) : wire_result (list byte) :=
  let capability := ClientCommandRequest.capability command in
  let body := ClientCommandRequest.body command in
  if negb (supervisor_capability_is_representable capability)
     || negb (bool_decide (capability = ClientCommandBody.required_capability body))
  then Err WireError.InvalidValue else
  Ok (put_string (CommandId.as_str (ClientCommandRequest.command_id command)) ++
      put_i64 (Identifier.value (ClientCommandRequest.principal_id command)) ++
      put_i64 (Identifier.value (ClientCommandRequest.capability_grant_id command)) ++
      put_u8 (Capability.as_i64 capability) ++
      encode_expected_generation (ClientCommandRequest.expected_generation command) ++
      put_u8 (ClientCommandBody.tag body) ++
      put_client_command_body body).

Definition decode_client_command_body (tag : Z) : reads ClientCommandBody.t :=
  match tag with
  | 1 => let! name := read_text 160 SocietyName.parse in
         m_ret (ClientCommandBody.CreateSocietyIdentity name)
  | 2 => m_ret ClientCommandBody.InstallRootAuthorityOffice
  | 3 => let! mission := decode_application_mission_input in
         let! source_rendering :=
           let! l := Cursor.bytes MissionSourceRendering.MAX_BYTES in
           m_lift (or_invalid (MissionSourceRendering.parse l)) in
         m_ret (ClientCommandBody.InstallFoundingMission mission source_rendering)
  | 4 => let! actor_display_name := read_text 160 PrincipalDisplayName.parse in
         m_ret (ClientCommandBody.AppointInitialRootAuthority actor_display_name)
  | 5 => let! ceiling := read_usd in m_ret (ClientCommandBody.SetR0HardCeiling ceiling)
  | 6 => m_ret ClientCommandBody.BootstrapSociety
  | 7 => let! treatment := read_code operating_cycle_treatment_from_u8 in
         let! budget_ceiling := read_usd in
         m_ret (ClientCommandBody.ProposeOperatingCycle treatment budget_ceiling)
  | 8 => let! cycle_id := read_identifier in
         m_ret (ClientCommandBody.AdmitOperatingCycle cycle_id)
  | 9 => let! cycle_id := read_identifier in
         m_ret (ClientCommandBody.StartRootAuthorityOfficeSession cycle_id)
  | 11 => let! session_id := read_identifier in
          let! purpose := read_code office_turn_purpose_from_u8 in
          m_ret (ClientCommandBody.OpenOfficeTurn session_id purpose)
  | 13 => let! cycle_id := read_identifier in
          m_ret (ClientCommandBody.QuiesceOperatingCycle cycle_id)
  | 15 => let! cycle_id := read_identifier in
          m_ret (ClientCommandBody.ResumeOperatingCycle cycle_id)
  | 16 => let! cycle_id := read_identifier in
          m_ret (ClientCommandBody.ReconcileOperatingCycle cycle_id)
  | 17 => let! cycle_id := read_identifier in
          m_ret (ClientCommandBody.CloseOperatingCycle cycle_id)
  | 18 => let! cycle_id := read_identifier in
          let! amount := read_usd in
          m_ret (ClientCommandBody.ReserveBudget cycle_id amount)
  | 20 => let! cycle_id := read_identifier in
          let! mode := read_code cancellation_mode_from_u8 in
          m_ret (ClientCommandBody.RequestCancellation cycle_id mode)
  | 23 => let! postmortem_id := read_identifier in
          let! resolution := read_code cost_postmortem_resolution_from_u8 in
          m_ret (ClientCommandBody.CloseCostPostmortem postmortem_id resolution)
  | _ => m_fail WireError.UnknownTag
  end.

(** The decoder compares neither the capability with the body nor with the ones a supervisor
    can represent. *)
Definition decode_command_request : reads ClientCommandRequest.t :=
  let! command_id := read_command_id in
  let! principal_id := read_identifier in
  let! capability_grant_id := read_identifier in
  let! capability := read_code capability_from_u8 in
  let! expected_generation := decode_expected_generation in
  let! body_tag := Cursor.u8 in
  let! body := decode_client_command_body body_tag in
  m_ret (ClientCommandRequest.new command_id principal_id capability_grant_id capability
           expected_generation body).

(** ** Study observations *)

Definition encode_study_measurement_observation (measurement : StudyMeasurementObservation.t) :
  list byte :=
  put_u8 (StudyMeasurementSlot.value (StudyMeasurementObservation.measurement_slot measurement)) ++
  put_u8 (StudyMeasurementStatus.as_i64 (StudyMeasurementObservation.status measurement)) ++
  put_optional_i64 (option_map inner (StudyMeasurementObservation.value measurement)) ++
  put_optional_digest (StudyMeasurementObservation.value_digest measurement) ++
  put_optional_digest (StudyMeasurementObservation.reason_digest measurement).
Definition decode_study_measurement_observation : reads StudyMeasurementObservation.t :=
  let! measurement_slot :=
    let! value := Cursor.u8 in m_lift (or_invalid (StudyMeasurementSlot.try_from value)) in
  let! status := read_code study_measurement_status in
  let! value := read_optional_i64 in
  let! value_digest := Cursor.optional_digest in
  let! reason_digest := Cursor.optional_digest in
  m_ret (StudyMeasurementObservation.new measurement_slot status value value_digest
           reason_digest).

Definition put_study_episode_fields (episode : StudyEpisodeObservation.t) : list byte :=
  put_i64 (StudyIdentifier.value (StudyEpisodeObservation.episode_id episode)) ++
  put_i64 (StudyIdentifier.value (StudyEpisodeObservation.protocol_revision_id episode)) ++
  put_i64 (StudyIdentifier.value (StudyEpisodeObservation.world_revision_id episode)) ++
  put_i64 (StudyIdentifier.value (StudyEpisodeObservation.measurement_revision_id episode)) ++
  put_u8 (StudyMeasurementSlotCount.value
            (StudyEpisodeObservation.measurement_slot_count episode)) ++
  put_i64 (StudyIdentifier.value (StudyEpisodeObservation.institution_revision_id episode)) ++
  put_i64 (StudyIdentifier.value
             (StudyEpisodeObservation.source_population_snapshot_id episode)) ++
  put_optional_i64 (option_map StudyIdentifier.value
                      (StudyEpisodeObservation.successor_population_snapshot_id episode)) ++
  put_digest (StudyEpisodeObservation.randomization_digest episode) ++
  put_u8 (StudyTreatment.as_i64 (StudyEpisodeObservation.treatment episode)) ++
  put_u8 (StudyEpisodeState.as_i64 (StudyEpisodeObservation.lifecycle_state episode)) ++
  put_i64 (inner (StudyEpisodeObservation.source_actor_obligations episode)) ++
  put_i64 (inner (StudyEpisodeObservation.source_terminal_actor_obligations episode)) ++
  put_i64 (inner (StudyEpisodeObservation.successor_actor_obligations episode)) ++
  put_i64 (inner (StudyEpisodeObservation.successor_terminal_actor_obligations episode)) ++
  put_i64 (inner (StudyEpisodeObservation.failed_actor_obligations episode)) ++
  put_i64 (inner (StudyEpisodeObservation.runtime_bindings episode)) ++
  put_i64 (inner (StudyEpisodeObservation.reconciled_runtime_bindings episode)) ++
  put_optional_i64 (option_map inner (StudyEpisodeObservation.frozen_forum_head episode)) ++
  put_i64 (inner (StudyEpisodeObservation.forum_messages episode)) ++
  put_i64 (inner (StudyEpisodeObservation.forum_reads episode)) ++
  put_i64 (inner (StudyEpisodeObservation.forum_returned_bytes episode)) ++
  put_i64 (inner (StudyEpisodeObservation.decisions episode)) ++
  put_optional_digest (StudyEpisodeObservation.ground_truth_reveal_digest episode).
Definition encode_study_episode_observation (episode : StudyEpisodeObservation.t) :
  wire_result (list byte) :=
  let measurements := StudyEpisodeObservation.measurements episode in
  let? count := ok_or (u8_try_from (Z.of_nat (length measurements))) WireError.InvalidValue in
  Ok (put_study_episode_fields episode ++ put_u8 count ++
      flat_map encode_study_measurement_observation measurements).

Definition read_successor_snapshot : reads (option StudyPopulationSnapshotId) :=
  let! value := Cursor.optional_i64 in
  match value with
  | Some value => let! id := m_lift (or_invalid (StudyIdentifier.try_from value)) in
                  m_ret (Some id)
  | None => m_ret None
  end.
Definition decode_study_episode_observation : reads StudyEpisodeObservation.t :=
  let! episode_id := let! value := Cursor.i64 in m_lift (study_episode_id value) in
  let! protocol_revision_id := read_study_identifier in
  let! world_revision_id := read_study_identifier in
  let! measurement_revision_id := read_study_identifier in
  let! measurement_slot_count :=
    let! value := Cursor.u8 in m_lift (or_invalid (StudyMeasurementSlotCount.try_from value)) in
  let! institution_revision_id := read_study_identifier in
  let! source_population_snapshot_id := read_study_identifier in
  let! successor_population_snapshot_id := read_successor_snapshot in
  let! randomization_digest := Cursor.digest in
  let! treatment := read_code study_treatment in
  let! lifecycle_state := read_code study_episode_state in
  let! source_actor_obligations := read_i64 in
  let! source_terminal_actor_obligations := read_i64 in
  let! successor_actor_obligations := read_i64 in
  let! successor_terminal_actor_obligations := read_i64 in
  let! failed_actor_obligations := read_i64 in
  let! runtime_bindings := read_i64 in
  let! reconciled_runtime_bindings := read_i64 in
  let! frozen_forum_head := read_optional_i64 in
  let! forum_messages := read_i64 in
  let! forum_reads := read_i64 in
  let! forum_returned_bytes := read_i64 in
  let! decisions := read_i64 in
  let! ground_truth_reveal_digest := Cursor.optional_digest in
  let! measurement_count := Cursor.u8 in
  if StudyMeasurementSlotCount.value measurement_slot_count <? measurement_count
  then m_fail WireError.InvalidValue else
  let! measurements :=
    read_many decode_study_measurement_observation (Z.to_nat measurement_count) in
  m_ret (StudyEpisodeObservation.new episode_id protocol_revision_id world_revision_id
           measurement_revision_id measurement_slot_count institution_revision_id
           source_population_snapshot_id successor_population_snapshot_id randomization_digest
           treatment lifecycle_state source_actor_obligations source_terminal_actor_obligations
           successor_actor_obligations successor_terminal_actor_obligations
           failed_actor_obligations runtime_bindings reconciled_runtime_bindings
           frozen_forum_head forum_messages forum_reads forum_returned_bytes decisions
           ground_truth_reveal_digest measurements).

Definition encode_study_pair_observation (pair : StudyPairObservation.t) :
  wire_result (list byte) :=
  let? retained := encode_study_episode_observation (StudyPairObservation.retained pair) in
  let? reset := encode_study_episode_observation (StudyPairObservation.reset pair) in
  Ok (put_i64 (StudyIdentifier.value (StudyPairObservation.pair_id pair)) ++ retained ++ reset).
Definition decode_study_pair_observation : reads StudyPairObservation.t :=
  let! pair_id := let! value := Cursor.i64 in m_lift (study_pair_id value) in
  let! retained := decode_study_episode_observation in
  let! reset := decode_study_episode_observation in
  m_ret (StudyPairObservation.new pair_id retained reset).

Definition encode_study_run_summary (study_run : StudyRunSummary.t) : list byte :=
  put_i64 (StudyIdentifier.value (StudyRunSummary.study_run_id study_run)) ++
  put_i64 (StudyIdentifier.value (StudyRunSummary.protocol_revision_id study_run)) ++
  put_i64 (Identifier.value (StudyRunSummary.plan_content_object_id study_run)) ++
  put_digest (StudyRunSummary.plan_digest study_run) ++
  put_u16 (StudyRunPairCount.value (StudyRunSummary.pair_count study_run)) ++
  put_u16 (StudyRunRegisteredPairCount.value (StudyRunSummary.registered_pair_count study_run)) ++
  put_u8 (StudyRunLifecycleState.as_i64 (StudyRunSummary.lifecycle_state study_run)).
Definition decode_study_run_summary : reads StudyRunSummary.t :=
  let! study_run_id := read_study_identifier in
  let! protocol_revision_id := read_study_identifier in
  let! plan_content_object_id := read_identifier in
  let! plan_digest := Cursor.digest in
  let! pair_count :=
    let! value := Cursor.u16 in m_lift (or_invalid (StudyRunPairCount.try_from value)) in
  let! registered_pair_count :=
    let! value := Cursor.u16 in
    m_lift (or_invalid (StudyRunRegisteredPairCount.try_from value)) in
  let! lifecycle_state := read_code study_run_lifecycle_state in
  m_ret (StudyRunSummary.new study_run_id protocol_revision_id plan_content_object_id plan_digest
           pair_count registered_pair_count lifecycle_state).

Definition encode_study_run_pair_registration
  (registration : StudyRunPairRegistrationObservation.t) : list byte :=
  put_u16 (StudyRunPairOrdinal.value
             (StudyRunPairRegistrationObservation.pair_ordinal registration)) ++
  put_i64 (StudyIdentifier.value (StudyRunPairRegistrationObservation.pair_id registration)) ++
  put_digest (StudyRunPairRegistrationObservation.randomization_digest registration).
Definition read_pair_ordinal : reads StudyRunPairOrdinal.t :=
  let! value := Cursor.u16 in m_lift (or_invalid (StudyRunPairOrdinal.try_from value)).
Definition decode_study_run_pair_registration : reads StudyRunPairRegistrationObservation.t :=
  let! pair_ordinal := read_pair_ordinal in
  let! pair_id := let! value := Cursor.i64 in m_lift (study_pair_id value) in
  let! randomization_digest := Cursor.digest in
  m_ret (StudyRunPairRegistrationObservation.new pair_ordinal pair_id randomization_digest).

(** ** Frames *)

Definition write_frame (payload : list byte) : method Writer.t WireError.t unit :=
  if MAX_FRAME_BYTES <? Z.of_nat (length payload) then m_fail WireError.FrameTooLarge else
  fun w =>
    let io {A} (r : result A IoError.t * Writer.t) : wire_result A * Writer.t :=
      (map_err WireError.Io r.1, r.2) in
    match io (Writer.write_all (be_bytes 4 (Z.of_nat (length payload))) w) with
    | (Ok _, w) =>
        match io (Writer.write_all payload w) with
        | (Ok _, w) => io (Writer.flush w)
        | (Err e, w) => (Err e, w)
        end
    | (Err e, w) => (Err e, w)
    end.

(** A failure of [read_exact]: an end of the source is a short frame. *)
Definition short_frame (e : IoError.t) : WireError.t :=
  match e with
  | IoError.UnexpectedEof => WireError.ShortFrame
  | e => WireError.Io e
  end.
Definition read_exact (n : nat) : method Reader.t WireError.t (list byte) := fun r =>
  let '(outcome, r) := Reader.read_exact n r in (map_err short_frame outcome, r).
Definition read_frame : method Reader.t WireError.t (list byte) := fun r =>
  match Reader.read_one r with
  | (Ok None, r) => (Err WireError.EndOfStream, r)
  | (Err e, r) => (Err (WireError.Io e), r)
  | (Ok (Some first), r) =>
      (let! rest := read_exact 3 in
       let length := from_be_bytes (first :: rest) in
       if MAX_FRAME_BYTES <? length then m_fail WireError.FrameTooLarge
       else read_exact (Z.to_nat length)) r
  end.

(** The cursor over a whole frame: version, tag, correlation, the rest, and nothing after. *)
Definition read_message {A} (body : Z -> CorrelationId.t -> reads A) : reads A :=
  let! version := Cursor.u16 in
  if negb (version =? PROTOCOL_VERSION) then m_fail WireError.UnsupportedVersion else
  let! tag := Cursor.u8 in
  let! correlation := Cursor.correlation in
  let! message := body tag correlation in
  Cursor.finish ;!
  m_ret message.
Definition read_framed {A} (body : Z -> CorrelationId.t -> reads A) :
  method Reader.t WireError.t A :=
  let! frame := read_frame in m_lift (fst (read_message body frame)).
Definition put_message (tag : Z) (correlation : CorrelationId.t) (fields : list byte) : list byte :=
  put_u16 PROTOCOL_VERSION ++ put_u8 tag ++ put_correlation correlation ++ fields.

(** ** The public socket *)

Definition put_public_request (request : PublicRequest.t) : list byte :=
  match request with
  | PublicRequest.CommandReceipt correlation command_id =>
      put_message PUBLIC_RECEIPT_TAG correlation (put_string (CommandId.as_str command_id))
  | PublicRequest.Status correlation => put_message PUBLIC_STATUS_TAG correlation []
  | PublicRequest.StudyPairObservation correlation pair_id =>
      put_message PUBLIC_STUDY_PAIR_OBSERVATION_TAG correlation
        (put_i64 (StudyIdentifier.value pair_id))
  | PublicRequest.StudyRunObservation correlation study_run_id =>
      put_message PUBLIC_STUDY_RUN_OBSERVATION_TAG correlation
        (put_i64 (StudyIdentifier.value study_run_id))
  | PublicRequest.StudyRunPairRegistration correlation study_run_id pair_ordinal =>
      put_message PUBLIC_STUDY_RUN_PAIR_REGISTRATION_TAG correlation
        (put_i64 (StudyIdentifier.value study_run_id) ++
         put_u16 (StudyRunPairOrdinal.value pair_ordinal))
  end.
Definition write_public_request (request : PublicRequest.t) : method Writer.t WireError.t unit :=
  write_frame (put_public_request request).

Definition public_request_body (tag : Z) (correlation : CorrelationId.t) : reads PublicRequest.t :=
  match tag with
  | 33 => let! command_id := read_command_id in
          m_ret (PublicRequest.CommandReceipt correlation command_id)
  | 34 => m_ret (PublicRequest.Status correlation)
  | 35 => let! pair_id := read_study_identifier in
          m_ret (PublicRequest.StudyPairObservation correlation pair_id)
  | 36 => let! study_run_id := read_study_identifier in
          m_ret (PublicRequest.StudyRunObservation correlation study_run_id)
  | 37 => let! study_run_id := read_study_identifier in
          let! pair_ordinal := read_pair_ordinal in
          m_ret (PublicRequest.StudyRunPairRegistration correlation study_run_id pair_ordinal)
  | _ => m_fail WireError.UnknownTag
  end.
Definition read_public_request : method Reader.t WireError.t PublicRequest.t :=
  read_framed public_request_body.

(** ** The supervisor stream *)

Definition encode_supervisor_request (request : SupervisorRequest.t) :
  wire_result (list byte) :=
  match request with
  | SupervisorRequest.Execute correlation command =>
      let? fields := encode_command_request command in
      Ok (put_message SUPERVISOR_EXECUTE_TAG correlation fields)
  | SupervisorRequest.CommandReceipt correlation command_id =>
      Ok (put_message SUPERVISOR_RECEIPT_TAG correlation
            (put_string (CommandId.as_str command_id)))
  | SupervisorRequest.Status correlation => Ok (put_message SUPERVISOR_STATUS_TAG correlation [])
  | SupervisorRequest.ActiveCapabilityGrant correlation principal_id capability =>
      if negb (supervisor_capability_is_representable capability)
      then Err WireError.InvalidValue
      else Ok (put_message SUPERVISOR_CAPABILITY_GRANT_TAG correlation
                 (put_i64 (Identifier.value principal_id) ++
                  put_u8 (Capability.as_i64 capability)))
  end.
Definition write_supervisor_request (request : SupervisorRequest.t) :
  method Writer.t WireError.t unit :=
  let! payload := m_lift (encode_supervisor_request request) in write_frame payload.

Definition supervisor_request_body (tag : Z) (correlation : CorrelationId.t) :
  reads SupervisorRequest.t :=
  match tag with
  | 65 => let! command := decode_command_request in
          m_ret (SupervisorRequest.Execute correlation command)
  | 66 => let! command_id := read_command_id in
          m_ret (SupervisorRequest.CommandReceipt correlation command_id)
  | 67 => m_ret (SupervisorRequest.Status correlation)
  | 68 => let! principal_id := read_identifier in
          let! capability := read_code capability_from_u8 in
          m_ret (SupervisorRequest.ActiveCapabilityGrant correlation principal_id capability)
  | _ => m_fail WireError.UnknownTag
  end.
Definition read_supervisor_request : method Reader.t WireError.t SupervisorRequest.t :=
  read_framed supervisor_request_body.

(** ** Responses *)

Definition put_present {A} (put : A -> list byte) (value : option A) : list byte :=
  match value with Some value => put_bool true ++ put value | None => put_bool false end.
Definition read_present {A} (read : reads A) : reads (option A) :=
  let! present := Cursor.bool in
  if present then let! value := read in m_ret (Some value) else m_ret None.

Definition put_daemon_status (status : DaemonStatus.t) : list byte :=
  match status with
  | DaemonStatus.FreshServing command_count => put_u8 1 ++ put_i64 (inner command_count)
  | DaemonStatus.RecoveryFenced command_count => put_u8 2 ++ put_i64 (inner command_count)
  end.
Definition encode_response (response : Response.t) : wire_result (list byte) :=
  match response with
  | Response.CommandReceipt correlation receipt =>
      Ok (put_message 1 correlation (encode_receipt receipt))
  | Response.CommandReceiptLookup correlation receipt =>
      Ok (put_message 2 correlation (put_present encode_receipt receipt))
  | Response.Status correlation status =>
      Ok (put_message 3 correlation (put_daemon_status status))
  | Response.StudyPairObservation correlation None =>
      Ok (put_message 6 correlation (put_bool false))
  | Response.StudyPairObservation correlation (Some observation) =>
      let? fields := encode_study_pair_observation observation in
      Ok (put_message 6 correlation (put_bool true ++ fields))
  | Response.StudyRunSummary correlation study_run =>
      Ok (put_message 7 correlation (put_present encode_study_run_summary study_run))
  | Response.StudyRunPairRegistration correlation registration =>
      Ok (put_message 8 correlation (put_present encode_study_run_pair_registration registration))
  | Response.Error correlation code =>
      Ok (put_message 4 correlation (put_u8 (ProtocolErrorCode.as_u8 code)))
  | Response.ActiveCapabilityGrant correlation capability_grant_id =>
      Ok (put_message 5 correlation
            (put_present (fun id => put_i64 (Identifier.value id)) capability_grant_id))
  end.
Definition write_response (response : Response.t) : method Writer.t WireError.t unit :=
  let! payload := m_lift (encode_response response) in write_frame payload.

Definition read_daemon_status : reads DaemonStatus.t :=
  let! state := Cursor.u8 in
  let! command_count := read_i64 in
  match state with
  | 1 => m_ret (DaemonStatus.FreshServing command_count)
  | 2 => m_ret (DaemonStatus.RecoveryFenced command_count)
  | _ => m_fail WireError.InvalidValue
  end.
Definition response_body (tag : Z) (correlation : CorrelationId.t) : reads Response.t :=
  match tag with
  | 1 => let! receipt := decode_receipt in m_ret (Response.CommandReceipt correlation receipt)
  | 2 => let! receipt := read_present decode_receipt in
         m_ret (Response.CommandReceiptLookup correlation receipt)
  | 3 => let! status := read_daemon_status in m_ret (Response.Status correlation status)
  | 4 => let! code := read_code protocol_error_from_u8 in m_ret (Response.Error correlation code)
  | 5 => let! capability_grant_id := read_present read_identifier in
         m_ret (Response.ActiveCapabilityGrant correlation capability_grant_id)
  | 6 => let! observation := read_present decode_study_pair_observation in
         m_ret (Response.StudyPairObservation correlation observation)
  | 7 => let! study_run := read_present decode_study_run_summary in
         m_ret (Response.StudyRunSummary correlation study_run)
  | 8 => let! registration := read_present decode_study_run_pair_registration in
         m_ret (Response.StudyRunPairRegistration correlation registration)
  | _ => m_fail WireError.UnknownTag
  end.
Definition read_response : method Reader.t WireError.t Response.t := read_framed response_body.
