(* ===== verification/SocietydProtocolSpec.v ===== *)
(** * The binary protocol: one message, one frame

    Reading back what was written, and the converse: a frame that is accepted is the frame
    its message is written as.  [Field] relates a reader and a writer in both directions;
    the structures of the protocol are fields made of fields. *)

From S2P Require Import Prelude.
From S2P Require Import Machine.
From S2P Require Import KernelScalars.
From S2P Require Import KernelEnums.
From S2P Require Import KernelCustody.
From S2P Require Import StudyTypes.
From S2P Require Import KernelCommands.
From S2P Require Import KernelCodes.
From S2P Require Import SocietydProtocol.
Import Wire.
#[local] Arguments be_bytes : simpl never.

(** ** Fields *)

(** [get] reads exactly what [put] writes, for the values [ok] holds of. *)
Class Field {A} (put : A -> list byte) (get : reads A) (ok : A -> Prop) : Prop := {
  field_reads a rest : ok a -> get (put a ++ rest) = (Ok a, rest);
  field_exact s a rest : get s = (Ok a, rest) -> s = put a ++ rest /\ ok a;
}.
#[global] Hint Mode Field + - + - : typeclass_instances.

(** A partial parser with the printer it inverts. *)
Class Parses {A B E} (parse : B -> result A E) (print : A -> B) (ok : A -> Prop) : Prop := {
  parse_print a : ok a -> parse (print a) = Ok a;
  parse_sound b a : parse b = Ok a -> print a = b /\ ok a;
}.
#[global] Hint Mode Parses + + + + - - : typeclass_instances.

(** The unsigned values of [n] bytes. *)
Definition is_unsigned (n : nat) (z : Z) : Prop := 0 <= z < 256 ^ Z.of_nat n.
Definition always {A} (_ : A) : Prop := True.

#[global] Instance parses_or_invalid {A B E} (parse : B -> result A E) print ok :
  Parses parse print ok -> Parses (fun b => or_invalid (parse b)) print ok.
Proof.
  intros [Hp Hs]. split.
  - intros a Ha. unfold or_invalid. by rewrite (Hp a Ha).
  - intros b a H. apply Hs. unfold or_invalid in H. destruct (parse b); [|done]. by injection H as ->.
Qed.

(** A newtype whose constructor only checks. *)
Lemma parses_checked {name B E} (check : B -> bool) (e : B -> E) :
  Parses (fun b => ok_or (@checked name B check b) (e b)) inner always.
Proof.
  split.
  - intros a _. by rewrite checked_inner.
  - intros b a H. destruct (checked b) as [x|] eqn:E'; [|done]. cbn in H. injection H as ->.
    apply checked_some in E'. by split.
Qed.

(** A bounded newtype that first narrows its argument. *)
Lemma parses_narrowed {name E} (check narrow : Z -> bool) (e : E) :
  (forall z, check z = true -> narrow z = true) ->
  Parses (fun z => ok_or (match (if narrow z then Some z else None) with
                          | Some z => @checked name Z check z | None => None end) e)
    inner always.
Proof.
  intros Hn. split.
  - intros a _. rewrite (Hn _ (inner_ok a)). by rewrite checked_inner.
  - intros b a H. destruct (narrow b); [|done]. destruct (checked b) as [x|] eqn:E'; [|done].
    cbn in H. injection H as ->. apply checked_some in E'. by split.
Qed.

(** A table of one-byte codes. *)
Lemma parses_table {T} (as_i64 : T -> Z) (from_u8 : Z -> wire_result T) (ok : T -> Prop) :
  (forall x, ok x -> from_u8 (as_i64 x) = Ok x) ->
  (forall z x, from_u8 z = Ok x -> as_i64 x = z /\ ok x) ->
  Parses from_u8 as_i64 ok.
Proof. by split. Qed.

(** ** Composing fields *)

Section Compose.
Context {A B : Type}.

Lemma bind_field (put : A -> list byte) (get : reads A) ok (k : A -> reads B) s a rest :
  Field put get ok -> s = put a ++ rest -> ok a -> m_bind get k s = k a rest.
Proof. intros ? -> Ha. unfold m_bind. by rewrite (field_reads a rest Ha). Qed.

Lemma bind_field_inv (put : A -> list byte) (get : reads A) ok (k : A -> reads B) s b rest :
  Field put get ok -> m_bind get k s = (Ok b, rest) ->
  exists a s1, s = put a ++ s1 /\ ok a /\ k a s1 = (Ok b, rest).
Proof.
  intros ? (a & s1 & H1 & H2)%bind_ok. apply field_exact in H1 as [-> Ha]. eauto.
Qed.
End Compose.

(** The same of a hypothesis: its value, and that it is in range. *)
Ltac field_inv H a Ha :=
  eapply bind_field_inv in H; [|typeclasses eauto]; destruct H as (a & ? & -> & Ha & H).

(** A value in range: by its type, by a hypothesis, or because it is a constant. *)
Ltac in_range :=
  lazymatch goal with
  | |- always _ => exact I
  | |- is_unsigned _ ?z => is_ground z; vm_compute; split; [discriminate|reflexivity]
  | |- _ => eassumption
  end.
(** One field of a read: what is left to show of it is that its value is in range. *)
Ltac read_field :=
  lazymatch goal with |- m_bind _ _ _ = _ => idtac end;
  etransitivity;
  [eapply bind_field; [typeclasses eauto|rewrite <-?app_assoc; reflexivity|try solve [in_range]]
  |cbv beta iota].

Lemma lift_field {A B} (put : B -> list byte) (get : reads B) okB
  (parse : B -> wire_result A) print okA :
  Field put get okB -> Parses parse print okA -> (forall a, okA a -> okB (print a)) ->
  Field (fun a => put (print a)) (m_bind get (fun v => m_lift (parse v))) okA.
Proof.
  intros Hf Hp Hok. split.
  - intros a rest HA. read_field; [by apply Hok|]. unfold m_lift. by rewrite parse_print.
  - intros s a rest H. field_inv H b Hb.
    apply lift_ok in H as [H ->]. by apply parse_sound in H as [<- Ha].
Qed.

(** ** The fields of [Cursor] *)

Lemma take_app n (l rest : list byte) :
  length l = n -> Cursor.take n (l ++ rest) = (Ok l, rest).
Proof.
  intros <-. unfold Cursor.take. rewrite length_app.
  destruct (Nat.ltb_spec (length l + length rest) (length l)); [lia|].
  by rewrite take_app_length, drop_app_length.
Qed.
Lemma take_ok n s l rest : Cursor.take n s = (Ok l, rest) -> s = l ++ rest /\ length l = n.
Proof.
  unfold Cursor.take. destruct (Nat.ltb_spec (length s) n); [done|]. intros [= <- <-].
  split; [symmetry; apply take_drop|]. rewrite length_take. lia.
Qed.

Lemma unsigned_field n :
  Field (be_bytes n) (m_bind (Cursor.take n) (fun l => m_ret (from_be_bytes l))) (is_unsigned n).
Proof.
  split.
  - intros z rest Hz. unfold m_bind. rewrite take_app by apply length_be_bytes.
    unfold m_ret. by rewrite u_be_bytes.
  - intros s z rest (l & s1 & [-> Hl]%take_ok & [-> ->]%ret_ok)%bind_ok.
    subst n. rewrite be_bytes_from_be_bytes. split; [done|]. apply from_be_bytes_range.
Qed.
#[global] Instance u8_field : Field put_u8 Cursor.u8 (is_unsigned 1) := unsigned_field 1.
#[global] Instance u16_field : Field put_u16 Cursor.u16 (is_unsigned 2) := unsigned_field 2.

Lemma be_bytes_to_signed n z : be_bytes n (to_signed (8 * Z.of_nat n) z) = be_bytes n z.
Proof.
  rewrite <-(be_bytes_from_be_bytes (be_bytes n z)).
  rewrite <-(be_bytes_from_be_bytes (be_bytes n (to_signed _ z))), !length_be_bytes.
  f_equal. rewrite !from_be_bytes_be_bytes. unfold to_signed.
  rewrite Z.pow_mul_r by lia. change (2 ^ 8) with 256.
  destruct (_ <? _); [done|].
  rewrite <-(Z_mod_plus_full (z - 256 ^ Z.of_nat n) 1). f_equal. lia.
Qed.
Lemma to_signed_range bits z :
  0 < bits -> 0 <= z < 2 ^ bits -> - 2 ^ (bits - 1) <= to_signed bits z < 2 ^ (bits - 1).
Proof.
  intros Hb Hz. unfold to_signed.
  assert (2 ^ bits = 2 * 2 ^ (bits - 1)) as E by (rewrite <-Z.pow_succ_r by lia; f_equal; lia).
  destruct (z <? 2 ^ (bits - 1)) eqn:L; bool_hyps; lia.
Qed.
Lemma i64_from_be_bytes_range l :
  length l = 8%nat -> is_i64 (i64_from_be_bytes l) = true.
Proof.
  intros Hl. pose proof (from_be_bytes_range l) as Hr. rewrite Hl in Hr.
  change (256 ^ Z.of_nat 8) with (2 ^ 64) in Hr.
  pose proof (to_signed_range 64 (from_be_bytes l) eq_refl Hr) as H.
  unfold is_i64, i64_min, i64_max, i64_from_be_bytes.
  apply andb_true_intro. split; apply Z.leb_le; lia.
Qed.
#[global] Instance i64_field : Field put_i64 Cursor.i64 (fun z => is_i64 z = true).
Proof.
  split.
  - intros z rest Hz. unfold Cursor.i64, m_bind. rewrite take_app by apply length_be_bytes.
    unfold m_ret. by rewrite i64_be_bytes.
  - intros s z rest (l & s1 & [-> Hl]%take_ok & [-> ->]%ret_ok)%bind_ok.
    split; [|by apply i64_from_be_bytes_range].
    unfold i64_from_be_bytes, put_i64. change 64 with (8 * Z.of_nat 8).
    by rewrite be_bytes_to_signed, <-Hl, be_bytes_from_be_bytes.
Qed.

#[global] Instance correlation_field : Field put_correlation Cursor.correlation always.
Proof.
  split.
  - intros c rest _. unfold Cursor.correlation, m_bind, put_correlation.
    rewrite take_app by apply length_be_bytes.
    assert (CorrelationId.ok (CorrelationId.value c) = true) as Hc by apply (inner_ok c).
    unfold CorrelationId.ok, is_u64, u64_max in Hc. bool_hyps.
    rewrite u_be_bytes by (change (256 ^ Z.of_nat 8) with 18446744073709551616; lia).
    unfold CorrelationId.new, CorrelationId.value. by rewrite checked_inner.
  - intros s c rest (l & s1 & [-> Hl]%take_ok & [H ->]%lift_ok)%bind_ok. split; [|done].
    destruct (CorrelationId.new _) as [x|] eqn:E; [|done]. injection H as ->.
    apply checked_some in E. unfold put_correlation, CorrelationId.value.
    by rewrite E, <-Hl, be_bytes_from_be_bytes.
Qed.

#[global] Instance bool_field : Field put_bool Cursor.bool always.
Proof.
  split.
  - intros b rest _. unfold Cursor.bool. read_field; by destruct b.
  - intros s b rest H. unfold Cursor.bool in H. field_inv H z Hz.
    destruct z as [|[]|]; try done; injection H as <- <-; by split.
Qed.

#[global] Instance digest_field : Field put_digest Cursor.digest always.
Proof.
  split.
  - intros d rest _. unfold Cursor.digest, m_bind, put_digest, Blake3Digest.as_bytes.
    rewrite take_app by apply Nat.eqb_eq, (inner_ok d). by rewrite checked_inner.
  - intros s d rest (l & s1 & [-> Hl]%take_ok & [H ->]%lift_ok)%bind_ok. split; [|done].
    destruct (checked _) as [x|] eqn:E; [|done]. injection H as ->. by apply checked_some in E as <-.
Qed.

(** [bool], then the value when it is there. *)
Lemma optional_field {A} (put : A -> list byte) (get : reads A) ok :
  Field put get ok ->
  Field (put_present put) (read_present get) (fun o => forall a, o = Some a -> ok a).
Proof.
  intros Hf. split.
  - intros o rest Ho. unfold read_present, put_present. destruct o as [a|].
    + read_field. read_field; by eauto.
    + by read_field.
  - intros s o rest H. unfold read_present in H. field_inv H b Hb. destruct b.
    + field_inv H a Ha. apply ret_ok in H as [-> ->].
      unfold put_present. rewrite app_assoc. split; [done|]. by intros ? [= <-].
    + apply ret_ok in H as [-> ->]. by split.
Qed.
#[global] Instance present_field {A} (put : A -> list byte) (get : reads A) :
  Field put get always -> Field (put_present put) (read_present get) always.
Proof.
  intros [H1 H2]%optional_field. split; [intros; by apply H1|].
  intros s a rest H. by apply H2 in H as [-> _].
Qed.
#[global] Instance optional_digest_field :
  Field put_optional_digest Cursor.optional_digest always :=
  present_field put_digest Cursor.digest _.
#[global] Instance optional_i64_field :
  Field put_optional_i64 Cursor.optional_i64 (fun o => forall z, o = Some z -> is_i64 z = true) :=
  optional_field put_i64 Cursor.i64 _ _.

(** A counted field. *)
Lemma sized_field maximum e :
  maximum < 2 ^ 32 ->
  Field put_bytes (Cursor.sized maximum e) (fun l => Z.of_nat (length l) <= maximum).
Proof.
  intros Hmax. split.
  - intros l rest Hl. unfold Cursor.sized, put_bytes, m_bind.
    rewrite <-app_assoc, take_app by apply length_be_bytes.
    rewrite u_be_bytes by (change (256 ^ Z.of_nat 4) with (2 ^ 32); lia).
    destruct (Z.ltb_spec maximum (Z.of_nat (length l))); [lia|].
    by rewrite Nat2Z.id, take_app.
  - intros s l rest (n & s1 & [-> Hn]%take_ok & H)%bind_ok. cbv zeta in H.
    destruct (Z.ltb_spec maximum (from_be_bytes n)) as [|Hle]; [done|].
    apply take_ok in H as [-> Hl]. pose proof (from_be_bytes_range n) as Hr.
    unfold put_bytes. rewrite Hl, Z2Nat.id by lia.
    by rewrite <-Hn, be_bytes_from_be_bytes, app_assoc.
Qed.
Lemma string_field maximum :
  maximum < 2 ^ 32 ->
  Field put_string (Cursor.string maximum) (fun s => is_str s = true /\ str_len s <= maximum).
Proof.
  intros Hmax. pose proof (sized_field maximum WireError.StringTooLong Hmax) as Hf. split.
  - intros s rest [Hs Hl]. unfold Cursor.string, put_string. rewrite bytes_length in Hl.
    read_field. unfold is_str in Hs. rewrite Hs.
    unfold bytes. by rewrite string_of_list_ascii_of_string.
  - intros s a rest H. unfold Cursor.string in H. field_inv H l Hl.
    destruct (utf8_valid l) eqn:Hu; [|done]. apply ret_ok in H as [-> ->].
    unfold put_string, is_str. rewrite bytes_length. unfold bytes.
    by rewrite list_ascii_of_string_of_list_ascii.
Qed.

(** Elements one after another, as many as were announced. *)
Lemma read_many_reads {T} (put : T -> list byte) (get : reads T) ok l rest :
  Field put get ok -> Forall ok l ->
  read_many get (length l) (flat_map put l ++ rest) = (Ok l, rest).
Proof.
  intros Hf. induction 1 as [|x l Hx Hl IH]; [done|]. cbn [flat_map length read_many].
  read_field. unfold m_bind. by rewrite IH.
Qed.
Lemma read_many_exact {T} (put : T -> list byte) (get : reads T) ok n s l rest :
  Field put get ok -> read_many get n s = (Ok l, rest) ->
  s = flat_map put l ++ rest /\ Forall ok l /\ length l = n.
Proof.
  intros Hf. revert s l. induction n as [|n IH]; intros s l H; cbn [read_many] in H.
  - apply ret_ok in H as [-> ->]. by repeat constructor.
  - field_inv H x Hx. apply bind_ok in H as (l' & s2 & H & [-> ->]%ret_ok).
    apply IH in H as (-> & Hl & <-). cbn [flat_map length]. rewrite <-app_assoc.
    by repeat constructor.
Qed.

(** ** Validated fields *)

Lemma i64_newtype_field {name E} (check : Z -> bool) (e : Z -> E) :
  (forall z, check z = true -> is_i64 z = true) ->
  Field (fun a : newtype name Z check => put_i64 (inner a))
    (m_bind Cursor.i64 (fun v => m_lift (or_invalid (ok_or (checked v) (e v))))) always.
Proof.
  intros Hw. eapply (lift_field put_i64 Cursor.i64); [apply _| |].
  - apply parses_or_invalid, parses_checked.
  - intros a _. apply Hw, inner_ok.
Qed.
Lemma narrow_newtype_field {name E} n get (check narrow : Z -> bool) (e : E) :
  Field (be_bytes n) get (is_unsigned n) ->
  (forall z, check z = true -> narrow z = true /\ is_unsigned n z) ->
  Field (fun a : newtype name Z check => be_bytes n (inner a))
    (m_bind get (fun v => m_lift (or_invalid
       (ok_or (match (if narrow v then Some v else None) with
               | Some z => checked z | None => None end) e)))) always.
Proof.
  intros Hf Hw. eapply (lift_field (be_bytes n) get); [done| |].
  - apply parses_or_invalid, parses_narrowed. intros z Hz. by apply Hw.
  - intros a _. apply Hw, inner_ok.
Qed.

(** A range against the width that holds it. *)
Ltac in_width :=
  intros z Hz; lazymatch type of Hz with ?f _ = true => unfold f in Hz end;
  unfold is_i64, is_u8, is_u16, i64_min, i64_max, is_unsigned in *;
  change (256 ^ Z.of_nat 1) with 256; change (256 ^ Z.of_nat 2) with 65536; bool_hyps;
  repeat split; try (apply andb_true_intro; split; apply Z.leb_le); lia.

#[global] Instance identifier_field {n} :
  Field (fun id : Identifier.t n => put_i64 (Identifier.value id)) read_identifier always.
Proof. apply i64_newtype_field. in_width. Qed.
#[global] Instance study_identifier_field {n} :
  Field (fun id : StudyIdentifier.t n => put_i64 (StudyIdentifier.value id))
    read_study_identifier always.
Proof. apply i64_newtype_field. in_width. Qed.
#[global] Instance study_pair_id_field :
  Field (fun id : StudyPairId => put_i64 (StudyIdentifier.value id))
    (m_bind Cursor.i64 (fun value => m_lift (study_pair_id value))) always :=
  study_identifier_field.
#[global] Instance study_episode_id_field :
  Field (fun id : StudyEpisodeId => put_i64 (StudyIdentifier.value id))
    (m_bind Cursor.i64 (fun value => m_lift (study_episode_id value))) always :=
  study_identifier_field.
#[global] Instance usd_field : Field (fun a => put_i64 (UsdMicros.value a)) read_usd always.
Proof. apply i64_newtype_field. in_width. Qed.
#[global] Instance generation_field :
  Field (fun a => put_i64 (AdmissionGeneration.value a))
    (m_bind Cursor.i64 (fun v => m_lift (or_invalid (AdmissionGeneration.try_from v)))) always.
Proof. apply i64_newtype_field. in_width. Qed.
#[global] Instance revision_ordinal_field :
  Field (fun a => put_i64 (ApplicationRevisionOrdinal.value a))
    (m_bind Cursor.i64 (fun v => m_lift (or_invalid (ApplicationRevisionOrdinal.try_from v))))
    always.
Proof. apply i64_newtype_field. in_width. Qed.
#[global] Instance plain_i64_field : Field (fun a : i64 => put_i64 (inner a)) read_i64 always.
Proof.
  eapply (lift_field put_i64 Cursor.i64); [apply _|apply parses_checked|].
  intros a _. apply inner_ok.
Qed.

#[global] Instance measurement_slot_field :
  Field (fun a => put_u8 (StudyMeasurementSlot.value a))
    (m_bind Cursor.u8 (fun v => m_lift (or_invalid (StudyMeasurementSlot.try_from v)))) always.
Proof. apply (narrow_newtype_field 1); [apply _|]. in_width. Qed.
#[global] Instance measurement_slot_count_field :
  Field (fun a => put_u8 (StudyMeasurementSlotCount.value a))
    (m_bind Cursor.u8 (fun v => m_lift (or_invalid (StudyMeasurementSlotCount.try_from v))))
    always.
Proof. apply (narrow_newtype_field 1); [apply _|]. in_width. Qed.
#[global] Instance pair_ordinal_field :
  Field (fun a => put_u16 (StudyRunPairOrdinal.value a)) read_pair_ordinal always.
Proof. apply (narrow_newtype_field 2); [apply _|]. in_width. Qed.
#[global] Instance pair_count_field :
  Field (fun a => put_u16 (StudyRunPairCount.value a))
    (m_bind Cursor.u16 (fun v => m_lift (or_invalid (StudyRunPairCount.try_from v)))) always.
Proof. apply (narrow_newtype_field 2); [apply _|]. in_width. Qed.
#[global] Instance registered_pair_count_field :
  Field (fun a => put_u16 (StudyRunRegisteredPairCount.value a))
    (m_bind Cursor.u16 (fun v => m_lift (or_invalid (StudyRunRegisteredPairCount.try_from v))))
    always.
Proof. apply (narrow_newtype_field 2); [apply _|]. in_width. Qed.

(** ** Codes *)

Lemma code_field {T} (as_i64 : T -> Z) (from_u8 : Z -> wire_result T) (ok : T -> Prop) :
  (forall x, ok x -> from_u8 (as_i64 x) = Ok x) ->
  (forall z x, from_u8 z = Ok x -> as_i64 x = z /\ ok x) ->
  (forall x, is_unsigned 1 (as_i64 x)) ->
  Field (fun x => put_u8 (as_i64 x)) (read_code from_u8) ok.
Proof. intros H1 H2 H3. eapply (lift_field put_u8 Cursor.u8); [apply _|by split|auto]. Qed.
(** By evaluating the table on every value, and on every byte. *)
Ltac code_reads := intros []; solve [reflexivity | intros H; by destruct H].
Ltac code_exact :=
  intros z x H; destruct z as [|z|z]; cbn in H; try discriminate H;
  repeat (destruct z as [z|z|]; cbn in H; try discriminate H);
  injection H as <-; split; solve [reflexivity | exact I | discriminate].
Ltac solve_code := apply code_field; [code_reads|code_exact|intros []; by vm_compute].

#[global] Instance study_treatment_field :
  Field (fun x => put_u8 (StudyTreatment.as_i64 x)) (read_code study_treatment) always.
Proof. solve_code. Qed.
#[global] Instance study_episode_state_field :
  Field (fun x => put_u8 (StudyEpisodeState.as_i64 x)) (read_code study_episode_state) always.
Proof. solve_code. Qed.
#[global] Instance study_measurement_status_field :
  Field (fun x => put_u8 (StudyMeasurementStatus.as_i64 x)) (read_code study_measurement_status)
    always.
Proof. solve_code. Qed.
#[global] Instance study_run_lifecycle_state_field :
  Field (fun x => put_u8 (StudyRunLifecycleState.as_i64 x)) (read_code study_run_lifecycle_state)
    always.
Proof. solve_code. Qed.
#[global] Instance mission_principle_kind_field :
  Field (fun x => put_u8 (MissionPrincipleKind.as_i64 x))
    (read_code mission_principle_kind_from_u8) always.
Proof. solve_code. Qed.
#[global] Instance office_turn_purpose_field :
  Field (fun x => put_u8 (OfficeTurnPurpose.as_i64 x)) (read_code office_turn_purpose_from_u8)
    always.
Proof. solve_code. Qed.
#[global] Instance cancellation_mode_field :
  Field (fun x => put_u8 (CancellationMode.as_i64 x)) (read_code cancellation_mode_from_u8) always.
Proof. solve_code. Qed.
#[global] Instance cost_postmortem_resolution_field :
  Field (fun x => put_u8 (CostPostmortemResolution.as_i64 x))
    (read_code cost_postmortem_resolution_from_u8) always.
Proof. solve_code. Qed.
#[global] Instance protocol_error_field :
  Field (fun x => put_u8 (ProtocolErrorCode.as_u8 x)) (read_code protocol_error_from_u8) always.
Proof. solve_code. Qed.

(** The one treatment that the encoder writes and the decoder does not know. *)
Definition known_treatment (treatment : OperatingCycleTreatment.t) : Prop :=
  treatment <> OperatingCycleTreatment.DeterministicEvaluatorFixtureV1.
#[global] Instance operating_cycle_treatment_field :
  Field (fun x => put_u8 (OperatingCycleTreatment.as_i64 x))
    (read_code operating_cycle_treatment_from_u8) known_treatment.
Proof. solve_code. Qed.

(** The capabilities a decoder knows: the encoder writes fewer. *)
Definition known_capability (capability : Capability.t) : Prop :=
  Capability.as_i64 capability <= 23.
Lemma representable_known capability :
  supervisor_capability_is_representable capability = true -> known_capability capability.
Proof. by destruct capability. Qed.
#[global] Instance capability_field :
  Field (fun x => put_u8 (Capability.as_i64 x)) (read_code capability_from_u8) known_capability.
Proof.
  apply code_field; [intros []; unfold known_capability; cbn; (reflexivity || lia)|code_exact|].
  intros []; by vm_compute.
Qed.

Lemma rejection_fits rejection : Rejection.as_u8 rejection = Rejection.as_i64 rejection.
Proof. by destruct rejection. Qed.
#[global] Instance rejection_field :
  Field (fun x => put_u8 (Rejection.as_u8 x)) (read_code rejection_from_u8) always.
Proof.
  apply code_field.
  - intros x _. rewrite rejection_fits. unfold rejection_from_u8, Rejection.try_from_u8.
    by rewrite table_exact.
  - intros z x H. split; [|done]. rewrite rejection_fits.
    unfold rejection_from_u8, Rejection.try_from_u8, or_invalid in H.
    destruct (Rejection.try_from_i64 z) eqn:E; [|done]. injection H as ->.
    by apply (table_sound (CodeTable := Rejection.table)) in E.
  - intros x. rewrite rejection_fits. by destruct x; vm_compute.
Qed.

(** ** Texts *)

Lemma text_newtype_field {name E} maximum (check : string -> bool) (e : E) :
  maximum < 2 ^ 32 ->
  (forall s, check s = true -> is_str s = true /\ str_len s <= maximum) ->
  Field (fun a : newtype name string check => put_string (inner a))
    (read_text maximum (fun s => ok_or (checked s) e)) always.
Proof.
  intros Hmax Hw. eapply (lift_field put_string (Cursor.string maximum)).
  - by apply string_field.
  - apply (parses_or_invalid (fun s => ok_or (checked s) e)), (parses_checked _ (fun _ => e)).
  - intros a _. apply Hw, inner_ok.
Qed.
Lemma ledger_text_range limit s :
  is_ledger_text limit s = true -> is_str s = true /\ str_len s <= limit.
Proof. unfold is_ledger_text. intros H. bool_hyps. by split. Qed.
Lemma portable_identity_range s :
  is_portable_identity s = true -> is_str s = true /\ str_len s <= 128.
Proof. unfold is_portable_identity. intros H. bool_hyps. by split. Qed.

#[global] Instance command_id_field :
  Field (fun id => put_string (CommandId.as_str id)) read_command_id always.
Proof.
  apply (text_newtype_field 128 CommandId.ok); [lia|]. intros s H. unfold CommandId.ok in H.
  bool_hyps. by split.
Qed.
#[global] Instance society_name_field :
  Field (fun a => put_string (SocietyName.as_str a)) (read_text 160 SocietyName.parse) always.
Proof. apply text_newtype_field; [lia|apply ledger_text_range]. Qed.
#[global] Instance principal_display_name_field :
  Field (fun a => put_string (PrincipalDisplayName.as_str a))
    (read_text 160 PrincipalDisplayName.parse) always.
Proof. apply text_newtype_field; [lia|apply ledger_text_range]. Qed.
#[global] Instance application_identity_field :
  Field (fun a => put_string (ApplicationIdentity.as_str a))
    (read_text 128 ApplicationIdentity.parse) always.
Proof. apply text_newtype_field; [lia|apply portable_identity_range]. Qed.
#[global] Instance application_name_field :
  Field (fun a => put_string (ApplicationName.as_str a)) (read_text 160 ApplicationName.parse)
    always.
Proof. apply text_newtype_field; [lia|apply ledger_text_range]. Qed.
#[global] Instance mission_text_field {n} :
  Field (fun a : MissionText.t n => put_string (MissionText.as_str a))
    (read_text 4096 MissionText.parse) always.
Proof. apply text_newtype_field; [lia|apply ledger_text_range]. Qed.

(** ** Structures *)

(** A sequence of fields is a field: both directions, field by field. *)
Ltac fields_read := repeat (read_field; []); try reflexivity.
Ltac fields_exact H :=
  repeat (let a := fresh "a" in let Ha := fresh "Ha" in field_inv H a Ha);
  apply ret_ok in H as [-> ->]; cbn; rewrite <-?app_assoc.

#[global] Instance principle_field : Field put_principle read_principle always.
Proof.
  split; [intros [kind text] rest _; unfold read_principle, put_principle; by fields_read|].
  intros s a rest H. unfold read_principle in H. by fields_exact H.
Qed.
#[global] Instance expected_generation_field :
  Field encode_expected_generation decode_expected_generation always.
Proof.
  split; intros *; unfold decode_expected_generation, encode_expected_generation.
  - intros _. destruct a; by fields_read.
  - intros H. field_inv H z Hz. destruct z as [|[]|]; try done; by fields_exact H.
Qed.
#[global] Instance receipt_field : Field encode_receipt decode_receipt always.
Proof.
  split; intros *; unfold decode_receipt, encode_receipt.
  - intros _. destruct a; by fields_read.
  - intros H. field_inv H z Hz. destruct z as [|[[]|[]|]|]; try done; by fields_exact H.
Qed.
#[global] Instance many_field {T} (put : T -> list byte) (get : reads T) ok n :
  Field put get ok ->
  Field (flat_map put) (read_many get n) (fun l => Forall ok l /\ length l = n).
Proof.
  intros Hf. split; [intros l rest [Hl <-]; by eapply read_many_reads|].
  intros s l rest. by apply read_many_exact.
Qed.
Lemma always_all {A} (l : list A) : Forall always l.
Proof. by induction l; constructor. Qed.

(** A value checked after it was read. *)
Lemma bind_lift {A B E} (a : A) (k : A -> reads B) (r : result A E) s :
  r = Ok a -> m_bind (m_lift (or_invalid r)) k s = k a s.
Proof. by intros ->. Qed.
Lemma bind_lift_inv {A B E} (k : A -> reads B) (r : result A E) s b rest :
  m_bind (m_lift (or_invalid r)) k s = (Ok b, rest) -> exists a, r = Ok a /\ k a s = (Ok b, rest).
Proof. destruct r as [a|]; [by eauto|done]. Qed.
Lemma guard_inv {S E B} (c : bool) (k : method S E B) e s b s' :
  (if c then m_fail e else k) s = (Ok b, s') -> c = false /\ k s = (Ok b, s').
Proof. by destruct c. Qed.

Lemma principles_fit (p : MissionPrinciples.t) :
  (length (MissionPrinciples.as_slice p) <= 16)%nat /\ MissionPrinciples.as_slice p <> [].
Proof.
  assert (MissionPrinciples.ok (MissionPrinciples.as_slice p) = true) as H by apply (inner_ok p).
  unfold MissionPrinciples.ok, MissionPrinciples.MAX_COUNT in H. bool_hyps.
  split; [lia|done].
Qed.

#[global] Instance mission_field :
  Field encode_application_mission_input decode_application_mission_input always.
Proof.
  unfold encode_application_mission_input, decode_application_mission_input. split.
  - intros m rest _. cbv zeta.
    pose proof (principles_fit (ApplicationMissionInput.principles m)) as [Hlen Hne].
    assert (Z.of_nat (length (MissionPrinciples.as_slice (ApplicationMissionInput.principles m)))
              <> 0) as Hpos by (by destruct (MissionPrinciples.as_slice _)).
    fields_read. read_field; [unfold is_unsigned; change (256 ^ Z.of_nat 1) with 256; lia|].
    replace (_ || _) with false.
    2:{ unfold MissionPrinciples.MAX_COUNT. symmetry. apply orb_false_iff.
        split; [apply Z.eqb_neq|apply Z.ltb_ge]; lia. }
    read_field; [split; [apply always_all|by rewrite Nat2Z.id]|]. fields_read.
    etransitivity; [apply (bind_lift (ApplicationMissionInput.principles m));
                    unfold MissionPrinciples.new, MissionPrinciples.as_slice;
                    by rewrite checked_inner|].
    fields_read. by destruct m as [? ? ? ? ? [] ?].
  - intros s m rest H. cbv zeta.
    field_inv H application Happlication. field_inv H name Hname. field_inv H ordinal Hordinal.
    field_inv H statement Hstatement. field_inv H count Hcount.
    apply guard_inv in H as [_ H]. field_inv H l Hl. destruct Hl as [_ Hl].
    do 4 (let a := fresh "q" in let Ha := fresh "Hq" in field_inv H a Ha).
    apply bind_lift_inv in H as (principles & Hp & H).
    unfold MissionPrinciples.new in Hp. destruct (checked l) as [p|] eqn:Ep; [|done].
    injection Hp as <-. apply checked_some in Ep as <-.
    field_inv H digest Hdigest. apply ret_ok in H as [-> ->].
    unfold is_unsigned in Hcount. cbn. unfold MissionPrinciples.as_slice.
    rewrite Hl, Z2Nat.id by lia. by rewrite <-!app_assoc.
Qed.

(** ** Client commands *)

#[global] Instance source_rendering_field :
  Field (fun a => put_bytes (MissionSourceRendering.as_bytes a))
    (m_bind (Cursor.bytes MissionSourceRendering.MAX_BYTES)
       (fun l => m_lift (or_invalid (MissionSourceRendering.parse l)))) always.
Proof.
  apply (lift_field put_bytes (Cursor.bytes MissionSourceRendering.MAX_BYTES)
           (fun l => Z.of_nat (length l) <= MissionSourceRendering.MAX_BYTES)).
  - by apply sized_field.
  - apply (parses_or_invalid MissionSourceRendering.parse).
    apply (parses_checked _ (fun _ => DomainValueError.InvalidMissionSourceRendering)).
  - intros a _.
    assert (MissionSourceRendering.ok (MissionSourceRendering.as_bytes a) = true) as H
      by apply (inner_ok a).
    unfold MissionSourceRendering.ok in H. bool_hyps. lia.
Qed.

(** A body that the decoder knows. *)
Definition known_body (body : ClientCommandBody.t) : Prop :=
  match body with
  | ClientCommandBody.ProposeOperatingCycle treatment _ => known_treatment treatment
  | _ => True
  end.
(** The body of a tag. *)
Definition body_of_tag (tag : Z) (body : ClientCommandBody.t) : Prop :=
  ClientCommandBody.tag body = tag /\ known_body body.

#[global] Instance client_command_body_field tag :
  Field put_client_command_body (decode_client_command_body tag) (body_of_tag tag).
Proof.
  split.
  - intros body rest [<- Hknown].
    destruct body; unfold put_client_command_body, decode_client_command_body;
      cbn [ClientCommandBody.tag]; by fields_read.
  - intros s body rest H. unfold decode_client_command_body in H.
    destruct tag as [|tag|tag]; try discriminate H;
    repeat (destruct tag as [tag|tag|]; try discriminate H);
    unfold body_of_tag; by fields_exact H.
Qed.

(** The fields of a request, and when the encoder writes them. *)
Definition put_command_request (command : ClientCommandRequest.t) : list byte :=
  put_string (CommandId.as_str (ClientCommandRequest.command_id command)) ++
  put_i64 (Identifier.value (ClientCommandRequest.principal_id command)) ++
  put_i64 (Identifier.value (ClientCommandRequest.capability_grant_id command)) ++
  put_u8 (Capability.as_i64 (ClientCommandRequest.capability command)) ++
  encode_expected_generation (ClientCommandRequest.expected_generation command) ++
  put_u8 (ClientCommandBody.tag (ClientCommandRequest.body command)) ++
  put_client_command_body (ClientCommandRequest.body command).
Definition written_request (command : ClientCommandRequest.t) : Prop :=
  supervisor_capability_is_representable (ClientCommandRequest.capability command) = true /\
  ClientCommandRequest.capability command =
    ClientCommandBody.required_capability (ClientCommandRequest.body command).
Definition known_request (command : ClientCommandRequest.t) : Prop :=
  known_capability (ClientCommandRequest.capability command) /\
  known_body (ClientCommandRequest.body command).

Lemma encode_command_request_ok command l :
  encode_command_request command = Ok l <->
  written_request command /\ l = put_command_request command.
Proof.
  unfold encode_command_request, written_request.
  destruct (supervisor_capability_is_representable _); [|by split; [|intros [[]]]].
  case_bool_decide as Hc; cbn [negb orb]; [|by split; [|intros [[]]]].
  split; [by intros [= <-]|]. by intros [_ ->].
Qed.

Lemma tag_unsigned body : is_unsigned 1 (ClientCommandBody.tag body).
Proof. by destruct body. Qed.

#[global] Instance command_request_field :
  Field put_command_request decode_command_request known_request.
Proof.
  unfold put_command_request, decode_command_request, known_request. split.
  - intros command rest [Hc Hb]. fields_read. read_field; [apply tag_unsigned|].
    read_field; [by split|]. by destruct command.
  - intros s command rest H.
    field_inv H command_id Hid. field_inv H principal Hp. field_inv H grant Hg.
    field_inv H capability Hc. field_inv H generation He. field_inv H tag Ht.
    field_inv H body Hb. apply ret_ok in H as [-> ->]. cbn. rewrite <-?app_assoc.
    by destruct Hb as [-> Hb].
Qed.

(** ** Study observations *)

(** An optional value, then its check. *)
Lemma optional_checked_field {A} (print : A -> Z) (parse : Z -> wire_result A) :
  Parses parse print always -> (forall a, is_i64 (print a) = true) ->
  Field (fun o => put_optional_i64 (option_map print o))
    (m_bind Cursor.optional_i64 (fun value =>
       match value with
       | Some value => m_bind (m_lift (parse value)) (fun a => m_ret (Some a))
       | None => m_ret None
       end)) always.
Proof.
  intros Hp Hw. split.
  - intros o rest _. read_field; [by intros z Hz; destruct o; [injection Hz as <-|]|].
    destruct o as [a|]; [|done]. cbn [option_map].
    unfold m_bind at 1, m_lift. by rewrite parse_print.
  - intros s o rest H. field_inv H v Hv. destruct v as [z|].
    + apply bind_ok in H as (a & s1 & [Ha ->]%lift_ok & [-> ->]%ret_ok).
      by apply parse_sound in Ha as [<- _].
    + by apply ret_ok in H as [-> ->].
Qed.
#[global] Instance optional_plain_i64_field :
  Field (fun o : option i64 => put_optional_i64 (option_map inner o)) read_optional_i64 always.
Proof.
  apply (optional_checked_field inner (fun z => ok_or (checked z) WireError.MissingField)).
  - apply (parses_checked _ (fun _ => WireError.MissingField)).
  - apply inner_ok.
Qed.
#[global] Instance successor_snapshot_field :
  Field (fun o => put_optional_i64 (option_map StudyIdentifier.value o)) read_successor_snapshot
    always.
Proof.
  apply (optional_checked_field StudyIdentifier.value
           (fun z => or_invalid (StudyIdentifier.try_from z))).
  - apply (parses_or_invalid StudyIdentifier.try_from). unfold StudyIdentifier.try_from.
    apply parses_checked.
  - intros a. assert (StudyIdentifier.ok (StudyIdentifier.value a) = true) as H
      by apply (inner_ok a).
    unfold StudyIdentifier.ok in H. bool_hyps. done.
Qed.
#[global] Instance measurement_field :
  Field encode_study_measurement_observation decode_study_measurement_observation always.
Proof.
  unfold encode_study_measurement_observation, decode_study_measurement_observation.
  split; [intros [] rest _; by fields_read|]. intros s a rest H. by fields_exact H.
Qed.

(** An episode that is written with as many measurements as it has slots, at most. *)
Definition put_study_episode (episode : StudyEpisodeObservation.t) : list byte :=
  put_study_episode_fields episode ++
  put_u8 (Z.of_nat (length (StudyEpisodeObservation.measurements episode))) ++
  flat_map encode_study_measurement_observation (StudyEpisodeObservation.measurements episode).
Definition measurements_fit (episode : StudyEpisodeObservation.t) : Prop :=
  Z.of_nat (length (StudyEpisodeObservation.measurements episode)) <=
    StudyMeasurementSlotCount.value (StudyEpisodeObservation.measurement_slot_count episode).

Lemma slot_count_range (count : StudyMeasurementSlotCount.t) :
  0 <= StudyMeasurementSlotCount.value count <= 255.
Proof.
  assert (StudyMeasurementSlotCount.ok (StudyMeasurementSlotCount.value count) = true) as H
    by apply (inner_ok count).
  unfold StudyMeasurementSlotCount.ok, is_u8 in H. bool_hyps. lia.
Qed.

#[global] Instance episode_field :
  Field put_study_episode decode_study_episode_observation measurements_fit.
Proof.
  unfold put_study_episode, put_study_episode_fields, decode_study_episode_observation,
    measurements_fit. split.
  - intros e rest Hfit.
    pose proof (slot_count_range (StudyEpisodeObservation.measurement_slot_count e)).
    fields_read.
    read_field; [unfold is_unsigned; change (256 ^ Z.of_nat 1) with 256; lia|].
    replace (_ <? _) with false by (symmetry; apply Z.ltb_ge; lia).
    read_field; [split; [apply always_all|by rewrite Nat2Z.id]|]. by destruct e.
  - intros s e rest H.
    do 24 (let a := fresh "a" in let Ha := fresh "Ha" in field_inv H a Ha).
    field_inv H count Hcount. apply guard_inv in H as [Hle H]. apply Z.ltb_ge in Hle.
    field_inv H l Hl. destruct Hl as [_ Hl]. apply ret_ok in H as [-> ->].
    unfold is_unsigned in Hcount. cbn.
    rewrite Hl, Z2Nat.id by lia. rewrite <-!app_assoc. by split.
Qed.

Definition put_study_pair (pair : StudyPairObservation.t) : list byte :=
  put_i64 (StudyIdentifier.value (StudyPairObservation.pair_id pair)) ++
  put_study_episode (StudyPairObservation.retained pair) ++
  put_study_episode (StudyPairObservation.reset pair).
Definition pair_fits (pair : StudyPairObservation.t) : Prop :=
  measurements_fit (StudyPairObservation.retained pair) /\
  measurements_fit (StudyPairObservation.reset pair).
#[global] Instance pair_field : Field put_study_pair decode_study_pair_observation pair_fits.
Proof.
  unfold put_study_pair, decode_study_pair_observation, pair_fits. split.
  - intros [] rest [H1 H2]. by fields_read.
  - intros s a rest H. by fields_exact H.
Qed.

Lemma encode_episode_ok episode :
  measurements_fit episode ->
  encode_study_episode_observation episode = Ok (put_study_episode episode).
Proof.
  unfold measurements_fit, encode_study_episode_observation. intros Hfit.
  pose proof (slot_count_range (StudyEpisodeObservation.measurement_slot_count episode)) as Hc.
  unfold u8_try_from, is_u8.
  destruct (_ && _) eqn:E; [done|].
  apply andb_false_iff in E as [E|E]; apply Z.leb_gt in E; lia.
Qed.
Lemma encode_pair_ok pair :
  pair_fits pair -> encode_study_pair_observation pair = Ok (put_study_pair pair).
Proof.
  intros [H1 H2]. unfold encode_study_pair_observation. by rewrite !encode_episode_ok.
Qed.

#[global] Instance run_summary_field :
  Field encode_study_run_summary decode_study_run_summary always.
Proof.
  unfold encode_study_run_summary, decode_study_run_summary.
  split; [intros [] rest _; by fields_read|]. intros s a rest H. by fields_exact H.
Qed.
#[global] Instance pair_registration_field :
  Field encode_study_run_pair_registration decode_study_run_pair_registration always.
Proof.
  unfold encode_study_run_pair_registration, decode_study_run_pair_registration.
  split; [intros [] rest _; by fields_read|]. intros s a rest H. by fields_exact H.
Qed.
#[global] Instance daemon_status_field : Field put_daemon_status read_daemon_status always.
Proof.
  unfold put_daemon_status, read_daemon_status. split.
  - intros a rest _. destruct a; by fields_read.
  - intros s a rest H. field_inv H state Hs. field_inv H count Hc.
    destruct state as [|[|[]|]|]; try done; apply ret_ok in H as [-> ->];
      by rewrite <-app_assoc.
Qed.

(** ** Messages

    The fields of a message under its tag; [ok] is what the reader knows. *)

Class Vocabulary {A} (tag : A -> Z) (correlation : A -> CorrelationId.t)
    (fields : A -> list byte) (body : Z -> CorrelationId.t -> reads A) (ok : A -> Prop) : Prop := {
  vocabulary_field t c :
    Field fields (body t c) (fun a => (tag a = t /\ correlation a = c) /\ ok a);
  vocabulary_tag a : is_unsigned 1 (tag a);
}.
#[global] Existing Instance vocabulary_field.
#[global] Hint Mode Vocabulary + - - - - - : typeclass_instances.

Definition message {A} (tag : A -> Z) (correlation : A -> CorrelationId.t)
  (fields : A -> list byte) (a : A) : list byte :=
  put_message (tag a) (correlation a) (fields a).

Section Vocabulary.
Context {A} {tag : A -> Z} {correlation : A -> CorrelationId.t} {fields : A -> list byte}
  {body : Z -> CorrelationId.t -> reads A} {ok : A -> Prop}
  {vocabulary : Vocabulary tag correlation fields body ok}.

Lemma message_reads a : ok a -> fst (read_message body (message tag correlation fields a)) = Ok a.
Proof.
  intros Ha.
  enough (read_message body (message tag correlation fields a ++ []) = (Ok a, [])) as E
    by (rewrite app_nil_r in E; by rewrite E).
  unfold read_message, message, put_message. read_field. cbn [Z.eqb PROTOCOL_VERSION negb Pos.eqb].
  read_field; [apply vocabulary_tag|]. read_field. read_field; [by split|]. done.
Qed.

Lemma message_exact s a :
  fst (read_message body s) = Ok a -> s = message tag correlation fields a /\ ok a.
Proof.
  destruct (read_message body s) as [r rest] eqn:H. cbn. intros ->.
  unfold read_message in H. field_inv H version Hversion.
  apply guard_inv in H as [Hv H]. field_inv H t Ht. field_inv H c Hc.
  field_inv H b Hb. destruct Hb as [[<- <-] Hb].
  apply bind_ok in H as ([] & s1 & Hfinish & [-> ->]%ret_ok).
  unfold Cursor.finish in Hfinish.
  match type of Hfinish with match ?l with _ => _ end = _ => destruct l; [|done] end.
  injection Hfinish as <-. apply negb_false_iff, Z.eqb_eq in Hv as ->.
  unfold message, put_message. by rewrite app_nil_r.
Qed.
End Vocabulary.
