(* ===== verification/SocietydProtocolSafety.v ===== *)
(** * The binary protocol: frames, round trips and closed vocabularies

    A frame on a stream of bytes; then, for each of the three vocabularies, what a reader
    makes of a written message, which frames it accepts, and what it says of the others. *)

From S2P Require Import Prelude.
From S2P Require Import Machine.
From S2P Require Import KernelScalars.
From S2P Require Import KernelEnums.
From S2P Require Import KernelCustody.
From S2P Require Import StudyTypes.
From S2P Require Import KernelCommands.
From S2P Require Import KernelCodes.
From S2P Require Import SocietydProtocol.
From S2P Require Import SocietydProtocolSpec.
Import Wire.
#[local] Arguments be_bytes : simpl never.

(** ** Frames *)

Definition frame (payload : list byte) : list byte :=
  be_bytes 4 (Z.of_nat (length payload)) ++ payload.
Definition frameable (payload : list byte) : Prop :=
  Z.of_nat (length payload) <= MAX_FRAME_BYTES.

Lemma be_bytes_4 z :
  exists a b c d, be_bytes 4 z = [a; b; c; d].
Proof. unfold be_bytes. eauto. Qed.

Lemma write_frame_ok payload w w' :
  write_frame payload w = (Ok (), w') ->
  frameable payload /\ Writer.written w' = Writer.written w ++ frame payload.
Proof.
  unfold write_frame, frameable. destruct (Z.ltb_spec MAX_FRAME_BYTES (Z.of_nat (length payload)))
    as [|Hlen]; [done|].
  assert (forall l w1 r w2, Writer.write_all l w1 = (r, w2) -> map_err WireError.Io r = Ok () ->
            Writer.written w2 = Writer.written w1 ++ l) as Hw.
  { intros l w1 r w2 H. unfold Writer.write_all in H.
    repeat case_match; injection H as <- <-; done. }
  assert (forall w1 r w2, Writer.flush w1 = (r, w2) -> w2 = w1) as Hf.
  { intros w1 r w2 H. unfold Writer.flush in H. by case_match; injection H as <- <-. }
  destruct (Writer.write_all (be_bytes 4 _) w) as [r1 w1] eqn:E1. cbn.
  destruct r1 as [[]|]; [|done]. cbn.
  destruct (Writer.write_all payload w1) as [r2 w2] eqn:E2. cbn.
  destruct r2 as [[]|]; [|done]. cbn.
  destruct (Writer.flush w2) as [r3 w3] eqn:E3. cbn. intros [= _ <-].
  apply Hf in E3 as ->. apply Hw in E1; [|done]. apply Hw in E2; [|done].
  split; [done|]. unfold frame. by rewrite E2, E1, app_assoc.
Qed.
Lemma write_frame_sound payload written :
  frameable payload ->
  write_frame payload (Writer.new written None None) =
    (Ok (), Writer.new (written ++ frame payload) None None).
Proof.
  unfold frameable, write_frame. intros H.
  destruct (Z.ltb_spec MAX_FRAME_BYTES (Z.of_nat (length payload))); [lia|]. cbn.
  by rewrite <-app_assoc.
Qed.

Lemma read_exact_app n l rest fault :
  length l = n -> read_exact n (Reader.new (l ++ rest) fault) = (Ok l, Reader.new rest fault).
Proof.
  intros <-. unfold read_exact, Reader.read_exact. cbn. rewrite length_app.
  destruct (Nat.leb_spec (length l) (length l + length rest)); [|lia]. cbn.
  by rewrite take_app_length, drop_app_length.
Qed.
Lemma read_exact_ok n r l r' :
  read_exact n r = (Ok l, r') ->
  Reader.unread r = l ++ Reader.unread r' /\ length l = n /\ Reader.fault r' = Reader.fault r.
Proof.
  unfold read_exact, Reader.read_exact. destruct (Nat.leb_spec n (length (Reader.unread r)));
    [|done]. intros [= <- <-]. cbn. split; [symmetry; apply take_drop|].
  split; [|done]. rewrite length_take. lia.
Qed.

Lemma read_one_cons b rest fault :
  Reader.read_one (Reader.new (b :: rest) fault) = (Ok (Some b), Reader.new rest fault).
Proof. done. Qed.

Lemma read_frame_sound payload rest fault :
  frameable payload ->
  read_frame (Reader.new (frame payload ++ rest) fault) = (Ok payload, Reader.new rest fault).
Proof.
  unfold frameable, frame, MAX_FRAME_BYTES. intros Hlen. rewrite <-app_assoc.
  assert (from_be_bytes (be_bytes 4 (Z.of_nat (length payload))) = Z.of_nat (length payload))
    as Hvalue by (apply u_be_bytes; change (256 ^ Z.of_nat 4) with 4294967296; lia).
  destruct (be_bytes_4 (Z.of_nat (length payload))) as (a & b & c & d & E).
  rewrite E in Hvalue |- *. unfold read_frame.
  change ([a; b; c; d] ++ payload ++ rest) with (a :: [b; c; d] ++ payload ++ rest).
  rewrite read_one_cons. unfold m_bind. rewrite read_exact_app by done. cbv zeta. rewrite Hvalue.
  unfold MAX_FRAME_BYTES. destruct (Z.ltb_spec 65536 (Z.of_nat (length payload))); [lia|].
  by rewrite Nat2Z.id, read_exact_app.
Qed.
Lemma read_frame_ok r payload r' :
  read_frame r = (Ok payload, r') ->
  r = Reader.new (frame payload ++ Reader.unread r') (Reader.fault r') /\ frameable payload.
Proof.
  destruct r as [[|a l] fault]; unfold read_frame; [by destruct fault|].
  rewrite read_one_cons. intros (tl & r1 & (H1 & Htl & F1)%read_exact_ok & H)%bind_ok.
  cbv zeta in H. apply guard_inv in H as [Hlen H]. apply Z.ltb_ge in Hlen.
  apply read_exact_ok in H as (H2 & Hpayload & F2). cbn in H1, F1. subst l.
  pose proof (from_be_bytes_range (a :: tl)) as Hrange. unfold frameable, frame.
  rewrite F2, F1, Hpayload, Z2Nat.id by lia. split; [|done]. f_equal.
  assert (length (a :: tl) = 4%nat) as <- by (cbn; lia).
  rewrite be_bytes_from_be_bytes. cbn. by rewrite H2, app_assoc.
Qed.

Section Framed.
Context {A} {tag : A -> Z} {correlation : A -> CorrelationId.t} {fields : A -> list byte}
  {body : Z -> CorrelationId.t -> reads A} {ok : A -> Prop}
  {vocabulary : Vocabulary tag correlation fields body ok}.
Implicit Types (rest : list byte) (fault : option IoError.t) (r : Reader.t).

Lemma framed_reads a rest fault :
  ok a -> frameable (message tag correlation fields a) ->
  read_framed body (Reader.new (frame (message tag correlation fields a) ++ rest) fault) =
    (Ok a, Reader.new rest fault).
Proof.
  intros Ha Hlen. unfold read_framed, m_bind, m_lift. rewrite read_frame_sound by done.
  by rewrite message_reads.
Qed.

Lemma framed_exact r a r' :
  read_framed body r = (Ok a, r') ->
  r = Reader.new (frame (message tag correlation fields a) ++ Reader.unread r')
        (Reader.fault r') /\
  ok a /\ frameable (message tag correlation fields a).
Proof.
  intros (payload & r1 & [-> Hlen]%read_frame_ok & [H ->]%lift_ok)%bind_ok.
  by apply message_exact in H as [-> Ha].
Qed.

(** A frame of this vocabulary, to a reader that has no such tag. *)
Lemma framed_foreign {B} (other : Z -> CorrelationId.t -> reads B) r a r' :
  (forall c, other (tag a) c = m_fail WireError.UnknownTag) ->
  read_framed body r = (Ok a, r') -> read_framed other r = (Err WireError.UnknownTag, r').
Proof.
  intros Hother (-> & Ha & Hlen)%framed_exact. unfold read_framed, m_bind at 1, m_lift.
  rewrite read_frame_sound by done. destruct r' as [rest fault]. cbn [Reader.unread Reader.fault].
  f_equal. unfold read_message, message, put_message.
  enough (forall s, s = (Err WireError.UnknownTag, fields a) ->
    fst s = Err (A := B) WireError.UnknownTag)
    as E.
  { apply E. read_field. cbn [Z.eqb PROTOCOL_VERSION negb Pos.eqb].
    read_field; [apply vocabulary_tag|]. read_field. by rewrite Hother. }
  by intros ? ->.
Qed.
End Framed.

(** ** The three vocabularies *)

Definition public_tag (request : PublicRequest.t) : Z :=
  match request with
  | PublicRequest.CommandReceipt _ _ => PUBLIC_RECEIPT_TAG
  | PublicRequest.Status _ => PUBLIC_STATUS_TAG
  | PublicRequest.StudyPairObservation _ _ => PUBLIC_STUDY_PAIR_OBSERVATION_TAG
  | PublicRequest.StudyRunObservation _ _ => PUBLIC_STUDY_RUN_OBSERVATION_TAG
  | PublicRequest.StudyRunPairRegistration _ _ _ => PUBLIC_STUDY_RUN_PAIR_REGISTRATION_TAG
  end.
Definition public_correlation (request : PublicRequest.t) : CorrelationId.t :=
  match request with
  | PublicRequest.CommandReceipt c _ | PublicRequest.Status c
  | PublicRequest.StudyPairObservation c _ | PublicRequest.StudyRunObservation c _
  | PublicRequest.StudyRunPairRegistration c _ _ => c
  end.
Definition public_fields (request : PublicRequest.t) : list byte :=
  match request with
  | PublicRequest.CommandReceipt _ command_id => put_string (CommandId.as_str command_id)
  | PublicRequest.Status _ => []
  | PublicRequest.StudyPairObservation _ pair_id => put_i64 (StudyIdentifier.value pair_id)
  | PublicRequest.StudyRunObservation _ study_run_id =>
      put_i64 (StudyIdentifier.value study_run_id)
  | PublicRequest.StudyRunPairRegistration _ study_run_id pair_ordinal =>
      put_i64 (StudyIdentifier.value study_run_id) ++
      put_u16 (StudyRunPairOrdinal.value pair_ordinal)
  end.

(** A body, tag by tag. *)
Ltac body_reads := intros a rest [[<- <-] Ha]; destruct a; cbn in Ha |- *; by fields_read.
Ltac body_exact body :=
  intros s a rest H; unfold body in H;
  match type of H with (match ?t with _ => _ end) _ = _ =>
    destruct t as [|t|t]; try discriminate H; repeat (destruct t as [t|t|]; try discriminate H)
  end; by fields_exact H.
Ltac vocabulary body :=
  split; [intros t c; split; [body_reads|body_exact body]|intros []; by vm_compute].

#[global] Instance public_vocabulary :
  Vocabulary public_tag public_correlation public_fields public_request_body always.
Proof. vocabulary public_request_body. Qed.

Definition supervisor_tag (request : SupervisorRequest.t) : Z :=
  match request with
  | SupervisorRequest.Execute _ _ => SUPERVISOR_EXECUTE_TAG
  | SupervisorRequest.CommandReceipt _ _ => SUPERVISOR_RECEIPT_TAG
  | SupervisorRequest.Status _ => SUPERVISOR_STATUS_TAG
  | SupervisorRequest.ActiveCapabilityGrant _ _ _ => SUPERVISOR_CAPABILITY_GRANT_TAG
  end.
Definition supervisor_correlation (request : SupervisorRequest.t) : CorrelationId.t :=
  match request with
  | SupervisorRequest.Execute c _ | SupervisorRequest.CommandReceipt c _
  | SupervisorRequest.Status c | SupervisorRequest.ActiveCapabilityGrant c _ _ => c
  end.
Definition supervisor_fields (request : SupervisorRequest.t) : list byte :=
  match request with
  | SupervisorRequest.Execute _ command => put_command_request command
  | SupervisorRequest.CommandReceipt _ command_id => put_string (CommandId.as_str command_id)
  | SupervisorRequest.Status _ => []
  | SupervisorRequest.ActiveCapabilityGrant _ principal_id capability =>
      put_i64 (Identifier.value principal_id) ++ put_u8 (Capability.as_i64 capability)
  end.
(** What the reader knows, and what the writer writes. *)
Definition known_supervisor (request : SupervisorRequest.t) : Prop :=
  match request with
  | SupervisorRequest.Execute _ command => known_request command
  | SupervisorRequest.ActiveCapabilityGrant _ _ capability => known_capability capability
  | _ => True
  end.
Definition written_supervisor (request : SupervisorRequest.t) : Prop :=
  match request with
  | SupervisorRequest.Execute _ command => written_request command
  | SupervisorRequest.ActiveCapabilityGrant _ _ capability =>
      supervisor_capability_is_representable capability = true
  | _ => True
  end.

#[global] Instance supervisor_vocabulary :
  Vocabulary supervisor_tag supervisor_correlation supervisor_fields supervisor_request_body
    known_supervisor.
Proof. vocabulary supervisor_request_body. Qed.

Lemma encode_supervisor_request_ok request l :
  encode_supervisor_request request = Ok l <->
  written_supervisor request /\
  l = message supervisor_tag supervisor_correlation supervisor_fields request.
Proof.
  destruct request as [c command| | |c principal_id capability]; cbn [written_supervisor].
  2-3: split; [by intros [= <-]|by intros [_ ->]].
  - cbn [encode_supervisor_request]. destruct (encode_command_request command) as [f|] eqn:E.
    + apply encode_command_request_ok in E as [Hw ->].
      split; [by intros [= <-]|by intros [_ ->]].
    + split; [done|]. intros [Hw _].
      by rewrite (proj2 (encode_command_request_ok _ _) (conj Hw eq_refl)) in E.
  - cbn [encode_supervisor_request]. destruct (supervisor_capability_is_representable capability).
    + split; [by intros [= <-]|by intros [_ ->]].
    + by split; [|intros []].
Qed.

Definition response_tag (response : Response.t) : Z :=
  match response with
  | Response.CommandReceipt _ _ => 1 | Response.CommandReceiptLookup _ _ => 2
  | Response.Status _ _ => 3 | Response.Error _ _ => 4
  | Response.ActiveCapabilityGrant _ _ => 5 | Response.StudyPairObservation _ _ => 6
  | Response.StudyRunSummary _ _ => 7 | Response.StudyRunPairRegistration _ _ => 8
  end.
Definition response_correlation (response : Response.t) : CorrelationId.t :=
  match response with
  | Response.CommandReceipt c _ | Response.CommandReceiptLookup c _ | Response.Status c _
  | Response.Error c _ | Response.ActiveCapabilityGrant c _ | Response.StudyPairObservation c _
  | Response.StudyRunSummary c _ | Response.StudyRunPairRegistration c _ => c
  end.
Definition response_fields (response : Response.t) : list byte :=
  match response with
  | Response.CommandReceipt _ receipt => encode_receipt receipt
  | Response.CommandReceiptLookup _ receipt => put_present encode_receipt receipt
  | Response.Status _ status => put_daemon_status status
  | Response.Error _ code => put_u8 (ProtocolErrorCode.as_u8 code)
  | Response.ActiveCapabilityGrant _ grant =>
      put_present (fun id => put_i64 (Identifier.value id)) grant
  | Response.StudyPairObservation _ observed => put_present put_study_pair observed
  | Response.StudyRunSummary _ study_run => put_present encode_study_run_summary study_run
  | Response.StudyRunPairRegistration _ registration =>
      put_present encode_study_run_pair_registration registration
  end.
(** The episodes of a response have no more measurements than slots. *)
Definition response_fits (response : Response.t) : Prop :=
  match response with
  | Response.StudyPairObservation _ observed => forall p, observed = Some p -> pair_fits p
  | _ => True
  end.

#[global] Instance present_pair_field :
  Field (put_present put_study_pair) (read_present decode_study_pair_observation)
    (fun o => forall p, o = Some p -> pair_fits p) := optional_field put_study_pair _ _ _.
#[global] Instance response_vocabulary :
  Vocabulary response_tag response_correlation response_fields response_body response_fits.
Proof. vocabulary response_body. Qed.

Lemma encode_response_ok response :
  response_fits response ->
  encode_response response =
    Ok (message response_tag response_correlation response_fields response).
Proof.
  destruct response as [| | |c [observed|]| | | |]; try done. cbn. intros Hfit.
  by rewrite encode_pair_ok by by apply Hfit.
Qed.

(** ** Round trips *)

Section RoundTrip.
Context (w w' : Writer.t) (rest : list byte) (fault : option IoError.t).

(** A public request that was written is what the next read returns, and the bytes after it
    are left for the one after. *)
Theorem public_request_round_trip request :
  write_public_request request w = (Ok (), w') ->
  exists sent, Writer.written w' = Writer.written w ++ sent /\
    read_public_request (Reader.new (sent ++ rest) fault) = (Ok request, Reader.new rest fault).
Proof.
  intros [Hlen Hw]%write_frame_ok. eexists. split; [exact Hw|].
  replace (put_public_request request)
    with (message public_tag public_correlation public_fields request) in * by by destruct request.
  by apply framed_reads.
Qed.

(** C22: a supervisor request that was written is what the next read returns, unless it proposes a
    cycle of the deterministic evaluator. *)
Theorem supervisor_request_round_trip request :
  (forall correlation command,
     request = SupervisorRequest.Execute correlation command ->
     known_body (ClientCommandRequest.body command)) ->
  write_supervisor_request request w = (Ok (), w') ->
  exists sent, Writer.written w' = Writer.written w ++ sent /\
    read_supervisor_request (Reader.new (sent ++ rest) fault) =
      (Ok request, Reader.new rest fault).
Proof.
  intros Hknown (payload & w1 & [Hp ->]%lift_ok & [Hlen Hw]%write_frame_ok)%bind_ok.
  apply encode_supervisor_request_ok in Hp as [Hwritten ->].
  eexists. split; [exact Hw|]. apply framed_reads; [|done].
  destruct request as [c command| | |c principal_id capability]; try done.
  - split; [by apply representable_known, Hwritten|by eapply Hknown].
  - by apply representable_known.
Qed.

(** A response whose episodes have no more measurements than slots is written within one
    frame, and is what the next read returns. *)
Theorem response_round_trip response :
  response_fits response ->
  write_response response w = (Ok (), w') ->
  exists sent, Writer.written w' = Writer.written w ++ sent /\
    read_response (Reader.new (sent ++ rest) fault) = (Ok response, Reader.new rest fault).
Proof.
  intros Hfits (payload & w1 & [Hp ->]%lift_ok & [Hlen Hw]%write_frame_ok)%bind_ok.
  rewrite encode_response_ok in Hp by done. injection Hp as <-.
  eexists. split; [exact Hw|]. by apply framed_reads.
Qed.
End RoundTrip.

(** ** The evaluator's treatment *)

Lemma bind_fails {S E A B} (m : method S E A) (k : A -> method S E B) s e s' :
  m s = (Err e, s') -> m_bind m k s = (Err e, s').
Proof. unfold m_bind. by intros ->. Qed.

(** A request to propose a cycle of the deterministic evaluator can be written, and is refused
    as an invalid value by the reader it is written for. *)
Theorem evaluator_proposal_is_never_read correlation command budget w w' rest fault :
  ClientCommandRequest.body command =
    ClientCommandBody.ProposeOperatingCycle OperatingCycleTreatment.DeterministicEvaluatorFixtureV1
      budget ->
  write_supervisor_request (SupervisorRequest.Execute correlation command) w = (Ok (), w') ->
  exists sent, Writer.written w' = Writer.written w ++ sent /\
    read_supervisor_request (Reader.new (sent ++ rest) fault) =
      (Err WireError.InvalidValue, Reader.new rest fault).
Proof.
  intros Hbody (payload & w1 & [Hp ->]%lift_ok & [Hlen Hw]%write_frame_ok)%bind_ok.
  apply encode_supervisor_request_ok in Hp as [[Hcap _] ->].
  eexists. split; [exact Hw|]. unfold read_supervisor_request, read_framed, m_bind at 1, m_lift.
  rewrite read_frame_sound by done. f_equal.
  enough (exists s, read_message supervisor_request_body
            (message supervisor_tag supervisor_correlation supervisor_fields
               (SupervisorRequest.Execute correlation command)) = (Err WireError.InvalidValue, s))
    as [s ->] by done.
  eexists. unfold read_message, message, put_message. read_field.
  cbn [Z.eqb PROTOCOL_VERSION negb Pos.eqb]. read_field. read_field.
  cbn [supervisor_request_body supervisor_tag SUPERVISOR_EXECUTE_TAG supervisor_fields].
  apply bind_fails, bind_fails. unfold decode_command_request, put_command_request.
  fields_read. read_field; [by apply representable_known|]. fields_read. rewrite Hbody.
  cbn [ClientCommandBody.tag]. read_field.
  cbn [decode_client_command_body put_client_command_body].
  apply bind_fails, bind_fails. unfold read_code. read_field. done.
Qed.

(** ** What a reader accepts *)

(** A frame the supervisor's reader accepts is the frame its request is written as: one message
    has one encoding. *)
Theorem supervisor_frames_are_canonical r request r' :
  read_supervisor_request r = (Ok request, r') ->
  r = Reader.new (frame (message supervisor_tag supervisor_correlation supervisor_fields request)
                    ++ Reader.unread r') (Reader.fault r') /\
  (written_supervisor request ->
   write_supervisor_request request (Writer.new [] None None) =
     (Ok (), Writer.new (frame (message supervisor_tag supervisor_correlation supervisor_fields
                                  request)) None None)).
Proof.
  intros (-> & _ & Hlen)%framed_exact. split; [done|]. intros Hwritten.
  unfold write_supervisor_request, m_bind, m_lift.
  rewrite (proj2 (encode_supervisor_request_ok request _) (conj Hwritten eq_refl)).
  by apply write_frame_sound.
Qed.

(** The three vocabularies are disjoint: what one reader accepts, the two others refuse by its
    tag, and they leave the stream where the first one does. *)
Theorem vocabularies_are_disjoint r r' :
  (forall request, read_public_request r = (Ok request, r') ->
     read_supervisor_request r = (Err WireError.UnknownTag, r') /\
     read_response r = (Err WireError.UnknownTag, r')) /\
  (forall request, read_supervisor_request r = (Ok request, r') ->
     read_public_request r = (Err WireError.UnknownTag, r') /\
     read_response r = (Err WireError.UnknownTag, r')) /\
  (forall response, read_response r = (Ok response, r') ->
     read_public_request r = (Err WireError.UnknownTag, r') /\
     read_supervisor_request r = (Err WireError.UnknownTag, r')).
Proof. split_and!; intros a H; split; revert H; apply framed_foreign; by destruct a. Qed.

(** ** Truncated and oversized frames *)

Lemma read_exact_short n l :
  (length l < n)%nat ->
  read_exact n (Reader.new l None) = (Err WireError.ShortFrame, Reader.new [] None).
Proof.
  intros H. unfold read_exact, Reader.read_exact. cbn.
  by destruct (Nat.leb_spec n (length l)); [lia|].
Qed.

(** A stream that ends inside a frame is never taken for a message: it is an end of the stream
    before the first byte, and a short frame after it. *)
Theorem truncated_frame_is_refused {A} (body : Z -> CorrelationId.t -> reads A) payload l tl :
  frameable payload -> frame payload = l ++ tl -> tl <> [] ->
  read_framed body (Reader.new l None) =
    (Err (if decide (l = []) then WireError.EndOfStream else WireError.ShortFrame),
     Reader.new [] None).
Proof.
  unfold frameable, frame, MAX_FRAME_BYTES. intros Hlen E Htl.
  assert (from_be_bytes (be_bytes 4 (Z.of_nat (length payload))) = Z.of_nat (length payload))
    as Hvalue by (apply u_be_bytes; change (256 ^ Z.of_nat 4) with 4294967296; lia).
  destruct (be_bytes_4 (Z.of_nat (length payload))) as (b1 & b2 & b3 & b4 & Eb).
  rewrite Eb in E, Hvalue. destruct l as [|b l]; [done|]. injection E as <- E.
  unfold read_framed, m_bind at 1, read_frame. rewrite read_one_cons. unfold m_bind.
  destruct (Nat.ltb_spec (length l) 3) as [|Hl].
  { by rewrite read_exact_short. }
  destruct l as [|? [|? [|? l]]]; try (cbn in Hl; lia). injection E as <- <- <- E.
  change (b2 :: b3 :: b4 :: l) with ([b2; b3; b4] ++ l).
  rewrite read_exact_app by done. cbv zeta. rewrite Hvalue.
  unfold MAX_FRAME_BYTES. destruct (Z.ltb_spec 65536 (Z.of_nat (length payload))); [lia|].
  rewrite Nat2Z.id, read_exact_short; [done|].
  rewrite E, length_app. destruct tl; [done|]. cbn. lia.
Qed.

(** A length past the limit is refused once it is read: nothing of the payload is. *)
Theorem oversized_frame_is_refused {A} (body : Z -> CorrelationId.t -> reads A) n rest fault :
  MAX_FRAME_BYTES < n < 2 ^ 32 ->
  read_framed body (Reader.new (be_bytes 4 n ++ rest) fault) =
    (Err WireError.FrameTooLarge, Reader.new rest fault).
Proof.
  unfold MAX_FRAME_BYTES. intros Hn.
  assert (from_be_bytes (be_bytes 4 n) = n) as Hvalue
    by (apply u_be_bytes; change (256 ^ Z.of_nat 4) with (2 ^ 32); lia).
  destruct (be_bytes_4 n) as (b1 & b2 & b3 & b4 & Eb). rewrite Eb in Hvalue |- *.
  unfold read_framed, m_bind at 1, read_frame.
  change ([b1; b2; b3; b4] ++ rest) with (b1 :: [b2; b3; b4] ++ rest).
  rewrite read_one_cons. unfold m_bind. rewrite read_exact_app by done. cbv zeta. rewrite Hvalue.
  unfold MAX_FRAME_BYTES. by destruct (Z.ltb_spec 65536 n); [|lia].
Qed.

(** ** Responses fit in a frame *)

(** At most [n] bytes. *)
Definition at_most (n : Z) (l : list byte) : Prop := Z.of_nat (length l) <= n.
Lemma at_most_app m n k l : at_most m k -> at_most n l -> at_most (m + n) (k ++ l).
Proof. unfold at_most. rewrite length_app. lia. Qed.
Lemma at_most_be_bytes n z : at_most (Z.of_nat n) (be_bytes n z).
Proof. unfold at_most. by rewrite length_be_bytes. Qed.
Lemma at_most_digest d : at_most 32 (put_digest d).
Proof.
  unfold at_most, put_digest, Blake3Digest.as_bytes. pose proof (inner_ok d) as H.
  apply Nat.eqb_eq in H. lia.
Qed.
Lemma at_most_flat_map {A} (put : A -> list byte) n k l :
  (forall a, at_most n (put a)) -> 0 <= n -> Z.of_nat (length l) <= k ->
  at_most (k * n) (flat_map put l).
Proof.
  unfold at_most. intros Hput Hn Hl. transitivity (Z.of_nat (length l) * n); [|nia].
  clear Hl. induction l as [|a l IH]; [done|]. cbn [flat_map length]. rewrite length_app.
  specialize (Hput a). lia.
Qed.
Lemma at_most_present {A} (put : A -> list byte) n o :
  0 <= n -> (forall a, o = Some a -> at_most n (put a)) -> at_most (1 + n) (put_present put o).
Proof.
  intros Hn H. destruct o as [a|]; cbn [put_present].
  - apply (at_most_app 1); [apply (at_most_be_bytes 1)|by apply H].
  - pose proof (at_most_be_bytes 1 0). unfold at_most, put_bool, put_u8 in *. lia.
Qed.
Lemma at_most_optional_i64 o : at_most 9 (put_optional_i64 o).
Proof. apply (at_most_present put_i64 8); [done|]. intros. apply (at_most_be_bytes 8). Qed.
Lemma at_most_optional_digest o : at_most 33 (put_optional_digest o).
Proof. apply (at_most_present put_digest 32); [done|]. intros. apply at_most_digest. Qed.
Lemma at_most_le m n l : at_most m l -> m <= n -> at_most n l.
Proof. unfold at_most. lia. Qed.
(** The sum of the sizes of the fields, against the bound. *)
Ltac sum_fields :=
  lazymatch goal with
  | |- at_most _ (_ ++ _) => eapply at_most_app; sum_fields
  | |- at_most _ (put_digest _) => apply at_most_digest
  | |- at_most _ (put_optional_i64 _) => apply at_most_optional_i64
  | |- at_most _ (put_optional_digest _) => apply at_most_optional_digest
  | |- at_most _ (put_study_episode_fields _) => unfold put_study_episode_fields; sum_fields
  | |- _ => apply at_most_be_bytes
  end.
Ltac measure := eapply at_most_le; [sum_fields|cbn; lia].

Lemma at_most_measurement m : at_most 77 (encode_study_measurement_observation m).
Proof. unfold encode_study_measurement_observation. measure. Qed.
Lemma at_most_episode e : measurements_fit e -> at_most 5151 (put_study_episode e).
Proof.
  intros Hfit. unfold put_study_episode. apply (at_most_app 222 4929); [measure|].
  apply (at_most_app 1 4928); [measure|].
  apply (at_most_flat_map _ 77 64); [apply at_most_measurement|done|].
  assert (StudyMeasurementSlotCount.ok
            (StudyMeasurementSlotCount.value (StudyEpisodeObservation.measurement_slot_count e))
          = true) as H by apply inner_ok.
  unfold measurements_fit in Hfit. unfold StudyMeasurementSlotCount.ok in H. bool_hyps. lia.
Qed.
Lemma at_most_pair p : pair_fits p -> at_most 10310 (put_study_pair p).
Proof.
  intros [H1 H2]. unfold put_study_pair. apply (at_most_app 8 10302); [measure|].
  apply (at_most_app 5151 5151); by apply at_most_episode.
Qed.
Lemma at_most_receipt r : at_most 10 (encode_receipt r).
Proof. destruct r; cbn [encode_receipt]; measure. Qed.
Lemma at_most_run_summary r : at_most 61 (encode_study_run_summary r).
Proof. unfold encode_study_run_summary. measure. Qed.
Lemma at_most_registration r : at_most 42 (encode_study_run_pair_registration r).
Proof. unfold encode_study_run_pair_registration. measure. Qed.

Lemma at_most_response response :
  response_fits response -> at_most 10311 (response_fields response).
Proof.
  intros Hfit. destruct response; cbn [response_fields response_fits] in *.
  - by eapply at_most_le; [apply at_most_receipt|lia].
  - eapply at_most_le; [apply (at_most_present _ 10); [done|intros; apply at_most_receipt]|lia].
  - destruct status; cbn [put_daemon_status]; measure.
  - apply (at_most_present _ 10310); [done|]. intros p H. by apply at_most_pair, Hfit.
  - eapply at_most_le; [apply (at_most_present _ 61); [done|intros; apply at_most_run_summary]|lia].
  - eapply at_most_le; [apply (at_most_present _ 42); [done|intros; apply at_most_registration]|lia].
  - eapply at_most_le; [apply (at_most_present _ 8); [done|intros; apply (at_most_be_bytes 8)]|lia].
  - measure.
Qed.

(** Every response whose episodes have no more measurements than slots is written: its payload
    is less than a sixth of the largest one. *)
Theorem responses_fit_in_a_frame response written :
  response_fits response ->
  exists payload, Z.of_nat (length payload) <= 10322 /\
    write_response response (Writer.new written None None) =
      (Ok (), Writer.new (written ++ frame payload) None None).
Proof.
  intros Hfit.
  exists (message response_tag response_correlation response_fields response).
  assert (at_most 10322 (message response_tag response_correlation response_fields response))
    as Hlen.
  { unfold message, put_message. apply (at_most_app 2 10320); [measure|].
    apply (at_most_app 1 10319); [measure|]. apply (at_most_app 8 10311); [measure|].
    by apply at_most_response. }
  split; [exact Hlen|]. unfold write_response. rewrite encode_response_ok by done.
  apply write_frame_sound. unfold frameable, at_most, MAX_FRAME_BYTES in *. lia.
Qed.

(** ** Witnesses *)

Definition sample_correlation : CorrelationId.t := Newtype 7 eq_refl.
Definition sample_command_id : CommandId.t := Newtype "client-1"%string eq_refl.
Definition sample_admission : SupervisorRequest.t :=
  SupervisorRequest.Execute sample_correlation
    (ClientCommandRequest.new sample_command_id (Newtype 2 eq_refl) (Newtype 3 eq_refl)
       Capability.AdmitOperatingCycle ExpectedGeneration.NotApplicable
       (ClientCommandBody.AdmitOperatingCycle (Newtype 4 eq_refl))).
Definition sample_proposal : ClientCommandRequest.t :=
  ClientCommandRequest.new sample_command_id (Newtype 2 eq_refl) (Newtype 3 eq_refl)
    Capability.ProposeOperatingCycle ExpectedGeneration.NotApplicable
    (ClientCommandBody.ProposeOperatingCycle
       OperatingCycleTreatment.DeterministicEvaluatorFixtureV1 (Newtype 500 eq_refl)).
Definition sample_digest : Blake3Digest.t := Newtype (repeat "a"%char 32) eq_refl.
Definition sample_measurement : StudyMeasurementObservation.t :=
  StudyMeasurementObservation.new (Newtype 1 eq_refl) StudyMeasurementStatus.Observed
    (Some (Newtype (-5) eq_refl)) (Some sample_digest) None.
Definition sample_episode (id : StudyEpisodeId) : StudyEpisodeObservation.t :=
  let n : i64 := Newtype 3 eq_refl in
  StudyEpisodeObservation.new id (Newtype 11 eq_refl) (Newtype 12 eq_refl) (Newtype 13 eq_refl)
    (Newtype 2 eq_refl) (Newtype 14 eq_refl) (Newtype 15 eq_refl) (Some (Newtype 16 eq_refl))
    sample_digest StudyTreatment.Retained StudyEpisodeState.Closed n n n n n n n (Some n) n n n n
    None [sample_measurement; sample_measurement].
Definition sample_observation : Response.t :=
  Response.StudyPairObservation sample_correlation
    (Some (StudyPairObservation.new (Newtype 31 eq_refl) (sample_episode (Newtype 41 eq_refl))
             (sample_episode (Newtype 42 eq_refl)))).
Lemma sample_observation_fits : response_fits sample_observation.
Proof. intros p [= <-]. by vm_compute. Qed.

Definition sink : Writer.t := Writer.new [] None None.
Definition source (l : list byte) : Reader.t := Reader.new l None.

Lemma public_request_round_trip_witness :
  let request := PublicRequest.Status sample_correlation in
  let w' := (write_public_request request sink).2 in
  write_public_request request sink = (Ok (), w') /\
  exists sent, Writer.written w' = sent /\
    read_public_request (source (sent ++ ["x"%char])) = (Ok request, source ["x"%char]).
Proof.
  intros request w'. assert (write_public_request request sink = (Ok (), w')) as H
    by (vm_compute; reflexivity).
  split; [exact H|exact (public_request_round_trip sink w' ["x"%char] None request H)].
Defined.

Lemma supervisor_request_round_trip_witness :
  let w' := (write_supervisor_request sample_admission sink).2 in
  write_supervisor_request sample_admission sink = (Ok (), w') /\
  exists sent, Writer.written w' = sent /\
    read_supervisor_request (source (sent ++ ["x"%char])) =
      (Ok sample_admission, source ["x"%char]).
Proof.
  intros w'. assert (write_supervisor_request sample_admission sink = (Ok (), w')) as H
    by (vm_compute; reflexivity).
  split; [exact H|].
  apply (supervisor_request_round_trip sink w' ["x"%char] None sample_admission); [|exact H].
  by intros ? ? [= <- <-].
Defined.

Lemma response_round_trip_witness :
  let w' := (write_response sample_observation sink).2 in
  write_response sample_observation sink = (Ok (), w') /\
  exists sent, Writer.written w' = sent /\
    read_response (source (sent ++ ["x"%char])) = (Ok sample_observation, source ["x"%char]).
Proof.
  intros w'. assert (write_response sample_observation sink = (Ok (), w')) as H
    by (vm_compute; reflexivity).
  split; [exact H|].
  exact (response_round_trip sink w' ["x"%char] None _ sample_observation_fits H).
Defined.

Lemma evaluator_proposal_is_never_read_witness :
  let request := SupervisorRequest.Execute sample_correlation sample_proposal in
  let w' := (write_supervisor_request request sink).2 in
  write_supervisor_request request sink = (Ok (), w') /\
  exists sent, Writer.written w' = sent /\
    read_supervisor_request (source (sent ++ ["x"%char])) =
      (Err WireError.InvalidValue, source ["x"%char]).
Proof.
  intros request w'. assert (write_supervisor_request request sink = (Ok (), w')) as H
    by (vm_compute; reflexivity).
  split; [exact H|].
  exact (evaluator_proposal_is_never_read _ sample_proposal _ sink w' ["x"%char] None eq_refl H).
Defined.

Definition sample_frame : list byte :=
  frame (message supervisor_tag supervisor_correlation supervisor_fields sample_admission).
Lemma supervisor_frames_are_canonical_witness :
  read_supervisor_request (source sample_frame) = (Ok sample_admission, source []) /\
  write_supervisor_request sample_admission sink = (Ok (), Writer.new sample_frame None None).
Proof.
  assert (read_supervisor_request (source sample_frame) = (Ok sample_admission, source [])) as H
    by (vm_compute; reflexivity).
  split; [exact H|]. apply (supervisor_frames_are_canonical _ _ _ H). by split.
Defined.

Lemma vocabularies_are_disjoint_witness :
  read_supervisor_request (source sample_frame) = (Ok sample_admission, source []) /\
  read_public_request (source sample_frame) = (Err WireError.UnknownTag, source []) /\
  read_response (source sample_frame) = (Err WireError.UnknownTag, source []).
Proof.
  assert (read_supervisor_request (source sample_frame) = (Ok sample_admission, source [])) as H
    by (vm_compute; reflexivity).
  split; [exact H|].
  exact (proj1 (proj2 (vocabularies_are_disjoint (source sample_frame) (source []))) _ H).
Defined.

Lemma truncated_frame_is_refused_witness :
  read_supervisor_request (source (take 9 sample_frame)) = (Err WireError.ShortFrame, source []) /\
  read_supervisor_request (source []) = (Err WireError.EndOfStream, source []).
Proof.
  split.
  - apply (truncated_frame_is_refused supervisor_request_body
             (message supervisor_tag supervisor_correlation supervisor_fields sample_admission)
             (take 9 sample_frame) (drop 9 sample_frame)); [by vm_compute|by vm_compute|].
    vm_compute. discriminate.
  - apply (truncated_frame_is_refused supervisor_request_body [] [] (frame [])); by vm_compute.
Defined.

Lemma oversized_frame_is_refused_witness :
  read_response (source (be_bytes 4 65537 ++ ["x"%char])) =
    (Err WireError.FrameTooLarge, source ["x"%char]).
Proof. apply (oversized_frame_is_refused response_body 65537). by vm_compute. Defined.

Lemma responses_fit_in_a_frame_witness :
  response_fits sample_observation /\
  exists payload, Z.of_nat (length payload) <= 10322 /\
    write_response sample_observation sink = (Ok (), Writer.new (frame payload) None None).
Proof.
  split; [exact sample_observation_fits|].
  exact (responses_fit_in_a_frame _ [] sample_observation_fits).
Defined.
