(* ===== verification/Json.v ===== *)
(** * JSON values at the Pi SDK-host boundary

    The values of [miniserde::json] the adapter protocol handles
    ([Value], [Number], [Object]), their structural equality from
    [society-pi/src/protocol.rs], and the interface of the third-party parser
    and printer.  An [Object] is a [BTreeMap<String, Value>]: an association
    list in strictly increasing key order, which is also the order the library
    prints. *)

From S2P Require Import Prelude.

Module Number.
(** [F64] carries the IEEE-754 bit pattern. *)
Inductive t : Set := U64 (value : Z) | I64 (value : Z) | F64 (bits : Z).
#[global] Instance eq_dec : EqDecision t.
Proof. solve_decision. Defined.
End Number.

Module Value.
Inductive t : Set :=
| Null
| Bool (b : bool)
| Number (n : Number.t)
| String (s : string)
| Array (elements : list t)
| Object (fields : list (string * t)).

(** Induction through the arrays and the objects. *)
Section Induction.
Variable P : t -> Prop.
Hypothesis HNull : P Null.
Hypothesis HBool : forall b, P (Bool b).
Hypothesis HNumber : forall n, P (Number n).
Hypothesis HString : forall s, P (String s).
Hypothesis HArray : forall l, Forall P l -> P (Array l).
Hypothesis HObject : forall o, Forall (fun kv => P kv.2) o -> P (Object o).

Fixpoint nested_ind (v : t) : P v :=
  match v with
  | Null => HNull
  | Bool b => HBool b
  | Number n => HNumber n
  | String s => HString s
  | Array l =>
      HArray l ((fix go l := match l return Forall P l with
                 | [] => Forall_nil_2 _
                 | x :: l => Forall_cons_2 _ x l (nested_ind x) (go l)
                 end) l)
  | Object o =>
      HObject o ((fix go o := match o return Forall (fun kv => P kv.2) o with
                  | [] => Forall_nil_2 _
                  | kv :: o => Forall_cons_2 _ kv o (nested_ind kv.2) (go o)
                  end) o)
  end.
End Induction.
End Value.

(** ** Objects: ordered maps from strings *)

Module Object.
Abbreviation t := (list (string * Value.t)).

Definition new : t := [].

Fixpoint get (key : string) (o : t) : option Value.t :=
  match o with
  | [] => None
  | (k, v) :: o => if (key =? k)%string then Some v else get key o
  end.

Fixpoint insert (key : string) (value : Value.t) (o : t) : t :=
  match o with
  | [] => [(key, value)]
  | (k, v) :: rest =>
      match String.compare key k with
      | Lt => (key, value) :: o
      | Eq => (k, value) :: rest
      | Gt => (k, v) :: insert key value rest
      end
  end.

Definition contains_key (key : string) (o : t) : bool :=
  match get key o with Some _ => true | None => false end.
Definition len (o : t) : nat := length o.
Definition keys (o : t) : list string := o.*1.

(** The order a [BTreeMap] keeps. *)
Definition key_lt (a b : string) : Prop := String.compare a b = Lt.
Definition sorted (o : t) : Prop := StronglySorted key_lt (keys o).
End Object.

(** [json_object!("k" => v, ...)]: insertions from left to right. *)
Definition json_object (l : list (string * Value.t)) : Value.t :=
  Value.Object (fold_left (fun o kv => Object.insert kv.1 kv.2 o) l Object.new).
Definition json_string (value : string) : Value.t := Value.String value.
Definition json_u64 (value : Z) : Value.t := Value.Number (Number.U64 value).
Definition json_bool (value : bool) : Value.t := Value.Bool value.

(** ** Structural equality *)

(** [f64] equality on bit patterns: a NaN is equal to nothing, the two zeros
    are equal. *)
Definition f64_is_nan (b : Z) : bool :=
  (Z.land (Z.shiftr b 52) 2047 =? 2047) && negb (Z.land b (2 ^ 52 - 1) =? 0).
Definition f64_is_zero (b : Z) : bool := Z.land b (2 ^ 63 - 1) =? 0.
Definition f64_eq (a b : Z) : bool :=
  negb (f64_is_nan a) && negb (f64_is_nan b)
  && ((a =? b) || (f64_is_zero a && f64_is_zero b)).

Definition number_equal (left right : Number.t) : bool :=
  match left, right with
  | Number.U64 l, Number.U64 r => l =? r
  | Number.I64 l, Number.I64 r => l =? r
  | Number.F64 l, Number.F64 r => f64_eq l r
  | _, _ => false
  end.

Fixpoint json_value_equal (left right : Value.t) : bool :=
  match left, right with
  | Value.Null, Value.Null => true
  | Value.Bool l, Value.Bool r => eqb l r
  | Value.String l, Value.String r => (l =? r)%string
  | Value.Number l, Value.Number r => number_equal l r
  | Value.Array l, Value.Array r =>
      (length l =? length r)%nat && zip_all json_value_equal l r
  | Value.Object l, Value.Object r =>
      (Object.len l =? Object.len r)%nat
      && forallb (fun '(key, value) =>
                    match Object.get key r with
                    | Some other => json_value_equal value other
                    | None => false
                    end) l
  | _, _ => false
  end.

(** ** The parser and printer of [miniserde] (third-party code) *)

Class JsonLibrary := {
  (** [miniserde::json::from_str::<Value>]; [None] is its error. *)
  from_str : string -> option Value.t;
  (** [miniserde::json::to_string]. *)
  to_string : Value.t -> string;
}.

(** The library reads back what it printed for [v]. *)
Definition reads_back `{JsonLibrary} (v : Value.t) : Prop :=
  from_str (to_string v) = Some v.

(** [json_values_equal]: equality of the printed texts. *)
Definition json_values_equal `{JsonLibrary} (left right : Value.t) : bool :=
  (to_string left =? to_string right)%string.

(** ** Order lemmas for string keys *)

Lemma string_compare_refl s : String.compare s s = Eq.
Proof.
  induction s as [|a s IH]; cbn; [done|].
  unfold Ascii.compare. by rewrite N.compare_refl.
Qed.

Lemma key_lt_trans a b c : Object.key_lt a b -> Object.key_lt b c -> Object.key_lt a c.
Proof.
  unfold Object.key_lt. revert b c.
  induction a as [|x a IH]; intros [|y b] [|z c]; cbn; try done.
  destruct (Ascii.compare x y) eqn:E1; try done;
    destruct (Ascii.compare y z) eqn:E2; try done; intros H1 H2.
  - apply Ascii.compare_eq_iff in E1 as ->. rewrite E2. eauto.
  - apply Ascii.compare_eq_iff in E1 as ->. by rewrite E2.
  - apply Ascii.compare_eq_iff in E2 as ->. by rewrite E1.
  - unfold Ascii.compare in *. rewrite N.compare_lt_iff in E1, E2.
    destruct (N.compare_spec (N_of_ascii x) (N_of_ascii z)); [lia|done|lia].
Qed.

Lemma key_lt_irrefl a : ~ Object.key_lt a a.
Proof. unfold Object.key_lt. by rewrite string_compare_refl. Qed.

Lemma key_lt_gt a b : String.compare a b = Gt -> Object.key_lt b a.
Proof. unfold Object.key_lt. rewrite String.compare_antisym. by destruct (String.compare b a). Qed.

(** ** Objects behave as finite maps *)

Lemma get_insert_eq k v o : Object.get k (Object.insert k v o) = Some v.
Proof.
  induction o as [|[k' w] o IH]; cbn; [by rewrite String.eqb_refl|].
  destruct (String.compare k k') eqn:E; cbn.
  - apply String.compare_eq_iff in E as ->. by rewrite String.eqb_refl.
  - by rewrite String.eqb_refl.
  - destruct (String.eqb_spec k k') as [->|]; [|done].
    by rewrite string_compare_refl in E.
Qed.

Lemma get_insert_ne k k' v o :
  k <> k' -> Object.get k' (Object.insert k v o) = Object.get k' o.
Proof.
  intros Hne. induction o as [|[k'' w] o IH]; cbn.
  - by destruct (String.eqb_spec k' k) as [->|].
  - destruct (String.compare k k'') eqn:E; cbn; [| |by rewrite IH].
    + apply String.compare_eq_iff in E as <-.
      by destruct (String.eqb_spec k' k) as [->|].
    + by destruct (String.eqb_spec k' k) as [->|].
Qed.

Lemma elem_of_keys_insert k v o k' :
  k' ∈ Object.keys (Object.insert k v o) -> k' = k \/ k' ∈ Object.keys o.
Proof.
  unfold Object.keys. induction o as [|[k'' w] o IH]; cbn.
  - intros ->%list_elem_of_singleton. by left.
  - destruct (String.compare k k''); cbn; rewrite !elem_of_cons; intuition.
Qed.

Lemma insert_sorted k v o :
  Object.sorted o -> Object.sorted (Object.insert k v o).
Proof.
  unfold Object.sorted. induction o as [|[k' w] o IH]; cbn; intros Hs.
  - repeat constructor.
  - inversion Hs as [|?? Hs' Hall]; subst.
    destruct (String.compare k k') eqn:E; cbn; [by constructor| |].
    + constructor; [done|]. constructor; [done|].
      eapply Forall_impl; [exact Hall|]. intros x Hx. by eapply key_lt_trans.
    + constructor; [by apply IH|]. apply Forall_forall. intros k'' Hin.
      apply elem_of_keys_insert in Hin as [->|Hin]; [by apply key_lt_gt|].
      rewrite Forall_forall in Hall. by apply Hall.
Qed.

Lemma get_elem k o v : Object.get k o = Some v -> (k, v) ∈ o.
Proof.
  induction o as [|[k' w] o IH]; cbn; [done|].
  destruct (String.eqb_spec k k') as [->|]; intros H; simplify_eq; set_solver.
Qed.

Lemma elem_get k v o : Object.sorted o -> (k, v) ∈ o -> Object.get k o = Some v.
Proof.
  unfold Object.sorted. induction o as [|[k' w] o IH]; cbn; intros Hs Hin; [set_solver|].
  inversion Hs as [|?? Hs' Hall]; subst.
  apply elem_of_cons in Hin as [[= -> ->]|Hin]; [by rewrite String.eqb_refl|].
  destruct (String.eqb_spec k k') as [->|]; [|by apply IH].
  rewrite Forall_forall in Hall. exfalso. eapply key_lt_irrefl, Hall.
  by apply (list_elem_of_fmap_2 fst o (k', v)).
Qed.

Lemma json_object_sorted l o : json_object l = Value.Object o -> Object.sorted o.
Proof.
  unfold json_object. intros [= <-].
  assert (Object.sorted Object.new) as H by constructor.
  revert H. generalize Object.new. induction l as [|[k v] l IH]; cbn; eauto using insert_sorted.
Qed.

#[export] Hint Resolve get_insert_eq get_insert_ne insert_sorted : rust.

(** ** What the structural equality decides *)

(** Values without floats whose objects are in map order: the values the
    protocol's own encoder builds. *)
Inductive canonical : Value.t -> Prop :=
| canonical_null : canonical Value.Null
| canonical_bool b : canonical (Value.Bool b)
| canonical_number n : (forall b, n <> Number.F64 b) -> canonical (Value.Number n)
| canonical_string s : canonical (Value.String s)
| canonical_array l : Forall canonical l -> canonical (Value.Array l)
| canonical_object o :
    Object.sorted o -> Forall (fun kv => canonical kv.2) o -> canonical (Value.Object o).

#[export] Hint Constructors canonical : rust.

Lemma sorted_keys_nodup o : Object.sorted o -> NoDup o.
Proof.
  unfold Object.sorted. induction o as [|[k v] o IH]; cbn; intros Hs; [constructor|].
  inversion Hs as [|?? Hs' Hall]; subst. constructor; [|by apply IH].
  intros Hin. rewrite Forall_forall in Hall. eapply key_lt_irrefl, Hall.
  by apply (list_elem_of_fmap_2 fst o (k, v)).
Qed.

Lemma sorted_nodup_keys (o : Object.t) : Object.sorted o -> NoDup (Object.keys o).
Proof.
  unfold Object.sorted. generalize (Object.keys o) as ks. intros ks Hs.
  induction Hs as [|k ks _ IH Hall]; constructor; [|done].
  rewrite Forall_forall in Hall. intros Hin. destruct (key_lt_irrefl k). by apply Hall.
Qed.

Lemma contains_key_elem k (o : Object.t) :
  Object.contains_key k o = true <-> k ∈ Object.keys o.
Proof.
  unfold Object.contains_key, Object.keys. induction o as [|[k' v] o IH]; cbn.
  - split; [done|]. by intros ?%elem_of_nil.
  - rewrite elem_of_cons. destruct (String.eqb_spec k k') as [->|]; [by intuition|].
    rewrite IH. intuition congruence.
Qed.

(** Two objects in map order with the same size, one included in the other,
    are the same list. *)
Lemma sorted_objects_eq (l r : Object.t) :
  Object.sorted l -> Object.sorted r -> length l = length r ->
  (forall kv, kv ∈ l -> kv ∈ r) -> l = r.
Proof.
  intros Hl Hr Hlen Hsub.
  assert (l ≡ₚ r) as Hp.
  { apply submseteq_length_Permutation; [|lia].
    apply NoDup_submseteq; [by apply sorted_keys_nodup|done]. }
  clear Hlen Hsub. revert r Hr Hp. unfold Object.sorted in *.
  induction l as [|[k v] l IH]; intros r Hr Hp; [by apply Permutation_nil_l in Hp|].
  destruct r as [|[k' v'] r]; [by apply Permutation_nil_r in Hp|].
  inversion Hl as [|?? Hl' Hkl]; inversion Hr as [|?? Hr' Hkr]; subst; cbn in *.
  rewrite Forall_forall in Hkl, Hkr.
  assert ((k, v) = (k', v')) as [= <- <-].
  { assert ((k, v) ∈ (k', v') :: r) as H1 by (rewrite <-Hp; left).
    assert ((k', v') ∈ (k, v) :: l) as H2 by (rewrite Hp; left).
    apply elem_of_cons in H1 as [|H1]; [done|].
    apply elem_of_cons in H2 as [|H2]; [done|].
    apply (list_elem_of_fmap_2 fst) in H1, H2.
    destruct (key_lt_irrefl k). eauto using key_lt_trans. }
  f_equal. apply IH; [done|done|]. by apply Permutation_cons_inv in Hp.
Qed.

Lemma number_equal_spec m n :
  (forall b, m <> Number.F64 b) -> number_equal m n = true <-> m = n.
Proof.
  intros Hm. destruct m as [z|z|b], n as [z'|z'|b']; cbn; try (by destruct (Hm b));
    rewrite ?Z.eqb_eq; naive_solver.
Qed.

Lemma arrays_equal_spec (f : Value.t -> Value.t -> bool) l r :
  Forall (fun x => forall y, canonical x -> canonical y -> f x y = true <-> x = y) l ->
  Forall canonical l -> Forall canonical r ->
  Forall2 (fun x y => f x y = true) l r <-> l = r.
Proof.
  intros Hf. revert r. induction Hf as [|x l Hx _ IH]; intros [|y r] Hl Hr;
    try (by split; inversion 1).
  apply Forall_cons in Hl as [Hcx Hl]. apply Forall_cons in Hr as [Hcy Hr].
  rewrite Forall2_cons, IH by done. rewrite Hx by done.
  split; [by intros [-> ->]|by intros [= -> ->]].
Qed.

Lemma objects_equal_spec (f : Value.t -> Value.t -> bool) (l r : Object.t) :
  (forall kv, kv ∈ l -> forall y, canonical y -> f kv.2 y = true <-> kv.2 = y) ->
  Object.sorted l -> Object.sorted r -> Forall (fun kv => canonical kv.2) r ->
  length l = length r ->
  (forall k v, (k, v) ∈ l ->
     match Object.get k r with Some other => f v other | None => false end = true)
  <-> l = r.
Proof.
  intros Hf Hl Hr Hcr Hlen. rewrite Forall_forall in Hcr. split.
  - intros Hall. apply sorted_objects_eq; [done..|]. intros [k v] Hin.
    specialize (Hall k v Hin). destruct (Object.get k r) as [w|] eqn:E; [|done].
    apply get_elem in E. apply (Hf (k, v)) in Hall; cbn in *; [by subst|done|].
    by apply (Hcr (k, w)).
  - intros <- k v Hin. rewrite (elem_get k v) by done.
    apply (Hf (k, v)); [done| |done]. by apply (Hcr (k, v)).
Qed.

Lemma json_value_equal_sound l r :
  canonical l -> canonical r -> json_value_equal l r = true <-> l = r.
Proof.
  revert r. induction l as [|b|n|s|l IH|o IH] using Value.nested_ind;
    intros [|b'|n'|s'|l'|o'] Hl Hr; inversion Hl; inversion Hr; subst; cbn;
    try (by split).
  - rewrite eqb_true_iff. naive_solver.
  - rewrite number_equal_spec by done. naive_solver.
  - rewrite String.eqb_eq. naive_solver.
  - rewrite andb_true_iff, Nat.eqb_eq.
    pose proof (arrays_equal_spec json_value_equal l l') as Hspec.
    split.
    + intros [Hlen Hz]. f_equal. apply Hspec; [done..|]. by apply zip_all_true.
    + intros [= <-]. split; [done|]. apply zip_all_true; [done|]. by apply Hspec.
  - rewrite andb_true_iff, Nat.eqb_eq, forallb_forall. unfold Object.len.
    rewrite Forall_forall in IH.
    pose proof (objects_equal_spec json_value_equal o o') as Hspec.
    assert (forall kv, kv ∈ o -> forall y, canonical y ->
      json_value_equal kv.2 y = true <-> kv.2 = y) as Hf.
    { intros kv Hin y Hy. apply IH; [done| |done].
      match goal with H : Forall _ o |- _ => rewrite Forall_forall in H; by apply H end. }
    split.
    + intros [Hlen Hall]. f_equal. apply Hspec; [done..|]. intros k v Hin.
      apply (Hall (k, v)). by apply list_elem_of_In.
    + intros [= <-]. split; [done|]. intros [k v] Hin%list_elem_of_In.
      by eapply Hspec.
Qed.
