(* ===== verification/JsonReference.v ===== *)
(** * A concrete JSON library

    An executable instance of [JsonLibrary], used to evaluate the development on
    concrete lines: a compact printer and a fuelled reader of the values the
    protocol's own encoder builds (no floating-point numbers, no escapes beyond
    the one-character ones).  It stands in for [miniserde] in the examples only;
    the theorems hold for every instance. *)

From S2P Require Import Prelude Json.

Local Open Scope char_scope.

(** ** Printing *)

Definition dquote : byte := "034".
Definition escape (b : byte) : list byte :=
  if Ascii.eqb b dquote then ["\"; dquote]
  else if Ascii.eqb b "\" then ["\"; "\"]
  else if Ascii.eqb b "010" then ["\"; "n"]
  else if Ascii.eqb b "009" then ["\"; "t"]
  else [b].

Definition print_string (s : string) : list byte :=
  dquote :: flat_map escape (bytes s) ++ [dquote].

Definition print_number (n : Number.t) : list byte :=
  match n with
  | Number.U64 z => decimal 20 z []
  | Number.I64 z => show_i64 z
  | Number.F64 _ => bytes "null"
  end.

Definition joined (parts : list (list byte)) : list byte :=
  match parts with
  | [] => []
  | p :: ps => p ++ flat_map (fun q => "," :: q) ps
  end.

Fixpoint print_value (v : Value.t) : list byte :=
  match v with
  | Value.Null => bytes "null"
  | Value.Bool b => bytes (if b then "true" else "false")
  | Value.Number n => print_number n
  | Value.String s => print_string s
  | Value.Array l => "[" :: joined (map print_value l) ++ ["]"]
  | Value.Object o =>
      "{" :: joined (map (fun '(k, v) => print_string k ++ ":" :: print_value v) o) ++ ["}"]
  end.

(** ** Reading *)

(** The characters up to the closing quote, and what follows it. *)
Fixpoint read_string (l : list byte) : option (list byte * list byte) :=
  match l with
  | [] => None
  | b :: l =>
      if Ascii.eqb b dquote then Some ([], l)
      else if Ascii.eqb b "\" then
        match l with
        | e :: l =>
            let c := if Ascii.eqb e "n" then "010" else if Ascii.eqb e "t" then "009" else e in
            match read_string l with Some (s, l) => Some (c :: s, l) | None => None end
        | [] => None
        end
      else match read_string l with Some (s, l) => Some (b :: s, l) | None => None end
  end.

Fixpoint read_digits (acc : Z) (l : list byte) : Z * list byte :=
  match l with
  | b :: rest =>
      if is_ascii_digit b then read_digits (acc * 10 + digit_value b) rest else (acc, l)
  | [] => (acc, [])
  end.

Definition read_literal (l : list byte) : option (Value.t * list byte) :=
  match strip_prefix_bytes (bytes "true") l with
  | Some l => Some (Value.Bool true, l)
  | None =>
      match strip_prefix_bytes (bytes "false") l with
      | Some l => Some (Value.Bool false, l)
      | None =>
          match strip_prefix_bytes (bytes "null") l with
          | Some l => Some (Value.Null, l)
          | None => None
          end
      end
  end.

Fixpoint read_value (fuel : nat) (l : list byte) : option (Value.t * list byte) :=
  match fuel with
  | O => None
  | S fuel =>
      match l with
      | [] => None
      | b :: rest =>
          if Ascii.eqb b dquote then
            match read_string rest with
            | Some (s, l) => Some (Value.String (string_of_list_ascii s), l)
            | None => None
            end
          else if is_ascii_digit b then
            let '(z, l) := read_digits 0 l in Some (Value.Number (Number.U64 z), l)
          else if Ascii.eqb b "-" then
            let '(z, l) := read_digits 0 rest in Some (Value.Number (Number.I64 (- z)), l)
          else if Ascii.eqb b "[" then
            match rest with
            | c :: after =>
                if Ascii.eqb c "]" then Some (Value.Array [], after)
                else match read_elements fuel rest with
                     | Some (vs, l) => Some (Value.Array vs, l)
                     | None => None
                     end
            | [] => None
            end
          else if Ascii.eqb b "{" then
            match rest with
            | c :: after =>
                if Ascii.eqb c "}" then Some (Value.Object [], after)
                else match read_fields fuel rest with
                     | Some (o, l) => Some (Value.Object o, l)
                     | None => None
                     end
            | [] => None
            end
          else read_literal l
      end
  end
with read_elements (fuel : nat) (l : list byte) : option (list Value.t * list byte) :=
  match fuel with
  | O => None
  | S fuel =>
      match read_value fuel l with
      | Some (v, b :: l) =>
          if Ascii.eqb b "]" then Some ([v], l)
          else if Ascii.eqb b "," then
            match read_elements fuel l with
            | Some (vs, l) => Some (v :: vs, l)
            | None => None
            end
          else None
      | _ => None
      end
  end
with read_fields (fuel : nat) (l : list byte) : option (Object.t * list byte) :=
  match fuel with
  | O => None
  | S fuel =>
      match l with
      | q :: l =>
          if Ascii.eqb q dquote then
            match read_string l with
            | Some (k, c :: l) =>
                if Ascii.eqb c ":" then
                  match read_value fuel l with
                  | Some (v, b :: l) =>
                      if Ascii.eqb b "}" then
                        Some (Object.insert (string_of_list_ascii k) v [], l)
                      else if Ascii.eqb b "," then
                        match read_fields fuel l with
                        | Some (o, l) => Some (Object.insert (string_of_list_ascii k) v o, l)
                        | None => None
                        end
                      else None
                  | _ => None
                  end
                else None
            | _ => None
            end
          else None
      | [] => None
      end
  end.

Definition reference_from_str (s : string) : option Value.t :=
  match read_value (S (String.length s)) (bytes s) with
  | Some (v, []) => Some v
  | _ => None
  end.

Definition reference_to_string (v : Value.t) : string := string_of_list_ascii (print_value v).

#[export] Instance reference_library : JsonLibrary :=
  {| from_str := reference_from_str; to_string := reference_to_string |}.
