(* ===== verification/PiText.v ===== *)
(** * Closed scalar types of the Pi SDK-host boundary

    The newtypes of [society-pi/src/protocol.rs] whose only constructor is a
    validating [parse]: the identifiers of [closed_string!], the safe integers,
    digests, absolute paths, rate decimals and the Node version.  Each Rust type
    is a Module with its representation and its [parse]. *)

From S2P Require Import Prelude Json.

Definition MAX_JSONL_FRAME_BYTES : Z := 1024 * 1024.
Definition MAX_JSON_NESTING : Z := 128.
Definition MAX_SAFE_INTEGER : Z := 9007199254740991.

Module ProtocolError.
Inductive t : Set :=
| FrameTooLarge
| InvalidJson
| NestingTooDeep
| InvalidJsonlLine
| InvalidUtf8
| DuplicateObjectKey
| NegativeZero
| InvalidFrame (what : string).
#[global] Instance eq_dec : EqDecision t.
Proof. solve_decision. Defined.
End ProtocolError.

Abbreviation protocol_result A := (result A ProtocolError.t).
Definition invalid_frame {A} (what : string) : protocol_result A :=
  Err (ProtocolError.InvalidFrame what).

(** ** Identifiers *)

Definition identifier_edge (b : byte) : bool := is_ascii_alphanumeric b.
Definition is_identifier (value : string) : bool :=
  match bytes value with
  | [] => false
  | (first :: _) as all =>
      if negb (identifier_edge first)
         || negb (match list.last all with Some l => identifier_edge l | None => false end)
      then false
      else forallb (fun b => identifier_edge b || Ascii.eqb b "." || Ascii.eqb b "_"
                             || Ascii.eqb b "-") all
  end.

(** [closed_string!($name, $what)]: one opaque string type per [$what]. *)
Record closed_string (what : string) := ClosedString { as_str : string }.
Arguments ClosedString {what} as_str.
Arguments as_str {what} c.
#[global] Instance closed_string_eq_dec what : EqDecision (closed_string what).
Proof. solve_decision. Defined.
#[global] Program Instance closed_string_countable what : Countable (closed_string what) :=
  inj_countable' as_str ClosedString _.
Next Obligation. by intros what []. Qed.

Definition closed_string_parse {what} (value : string) :
  protocol_result (closed_string what) :=
  if is_identifier value then Ok (ClosedString value) else invalid_frame what.

Abbreviation SessionIdentity := (closed_string "session identity").
Abbreviation CorrelationIdentity := (closed_string "correlation identity").
Abbreviation SpawnNonce := (closed_string "spawn nonce").
Abbreviation ToolCallIdentity := (closed_string "tool call identity").
Abbreviation BashExecutionIdentity := (closed_string "bash execution identity").

(** ** Integers a JSON number can carry exactly *)

Module BoundarySequence.
Record t := new { value : Z }.
Definition parse (value : Z) : protocol_result t :=
  if (value =? 0) || (MAX_SAFE_INTEGER <? value)
  then invalid_frame "boundary sequence" else Ok (new value).
#[global] Instance eq_dec : EqDecision t.
Proof. solve_decision. Defined.
End BoundarySequence.

Module LedgerFrontier.
Record t := new { value : Z }.
Definition parse (value : Z) : protocol_result t :=
  if MAX_SAFE_INTEGER <? value then invalid_frame "ledger frontier" else Ok (new value).
#[global] Instance eq_dec : EqDecision t.
Proof. solve_decision. Defined.
End LedgerFrontier.

Module NonNegativeInteger.
Record t := new { value : Z }.
Definition parse (value : Z) : protocol_result t :=
  if MAX_SAFE_INTEGER <? value then invalid_frame "nonnegative integer" else Ok (new value).
#[global] Instance eq_dec : EqDecision t.
Proof. solve_decision. Defined.
End NonNegativeInteger.

Module PositiveInteger.
Record t := new { value : Z }.
Definition parse (value : Z) : protocol_result t :=
  if (value =? 0) || (MAX_SAFE_INTEGER <? value)
  then invalid_frame "positive integer" else Ok (new value).
#[global] Instance eq_dec : EqDecision t.
Proof. solve_decision. Defined.
End PositiveInteger.

(** The supervised OS child's pid, distinct from other positive quantities. *)
Module HostProcessId.
Record t := new { inner : PositiveInteger.t }.
Definition parse (value : Z) : protocol_result t :=
  let? p := PositiveInteger.parse value in Ok (new p).
Definition value (p : t) : Z := PositiveInteger.value (inner p).
#[global] Instance eq_dec : EqDecision t.
Proof. solve_decision. Defined.
End HostProcessId.

(** ** Digests, paths, decimals, versions *)

Definition is_lower_hex (b : byte) : bool := is_ascii_digit b || is_lower_hex_letter b.

Module Blake3Digest.
Record t := new { as_str : string }.
Definition parse (value : string) : protocol_result t :=
  if negb (str_len value =? 64) || negb (forallb is_lower_hex (bytes value))
  then invalid_frame "blake3 digest" else Ok (new value).
#[global] Instance eq_dec : EqDecision t.
Proof. solve_decision. Defined.
End Blake3Digest.

Module Binary64BigEndianHex.
Record t := new { as_str : string }.
Definition parse (value : string) : protocol_result t :=
  if negb (str_len value =? 16) || negb (forallb is_lower_hex (bytes value))
  then invalid_frame "binary64 cost" else Ok (new value).
#[global] Instance eq_dec : EqDecision t.
Proof. solve_decision. Defined.
End Binary64BigEndianHex.

Module AbsolutePath.
Record t := new { as_str : string }.

(** A part that [.any(|part| ...)] refuses. *)
Definition forbidden_part (part : list byte) : bool :=
  match part with
  | [] => true
  | [a] => Ascii.eqb a "."
  | [a; b] => Ascii.eqb a "." && Ascii.eqb b "."
  | _ => false
  end.

Definition parse (value : string) : protocol_result t :=
  let b := bytes value in
  if (str_len value <? 2)
     || negb (starts_with_bytes ["/"%char] b)
     || contains_byte "000" b
     || ends_with_byte "/" b
  then invalid_frame "absolute path"
  else if existsb forbidden_part (drop 1 (split_on "/" b))
  then invalid_frame "absolute path"
  else Ok (new value).

Definition is_strict_descendant_of (self base : t) : bool :=
  let base := bytes (as_str base) in
  starts_with_bytes base (bytes (as_str self))
  && match bytes (as_str self) !! length base with
     | Some b => Ascii.eqb b "/"
     | None => false
     end.
#[global] Instance eq_dec : EqDecision t.
Proof. solve_decision. Defined.
End AbsolutePath.

Module UsdPerMillionDecimal.
Record t := new { as_str : string }.

Fixpoint take_while (p : byte -> bool) (l : list byte) : list byte :=
  match l with
  | [] => []
  | b :: l => if p b then b :: take_while p l else []
  end.

Definition nonzero (value : string) : bool :=
  match split_once "." (bytes value) with
  | Some (whole, fraction) =>
      negb (bool_decide (whole = [])) && negb (bool_decide (fraction = []))
      && forallb is_ascii_digit fraction
      && existsb (fun b => negb (Ascii.eqb b "0")) fraction
  | None => negb (value =? "0")%string
  end.

Definition canonical_whole (value : string) : bool :=
  let b := bytes value in
  match b with
  | c :: _ =>
      if Ascii.eqb c "0" then (value =? "0")%string || starts_with_bytes (bytes "0.") b
      else if is_ascii_digit c
      then forallb is_ascii_digit (take_while (fun c => negb (Ascii.eqb c ".")) b)
      else false
  | [] => false
  end.

Definition parse (value : string) : protocol_result t :=
  let b := bytes value in
  if negb (nonzero value)
     || negb (canonical_whole value)
     || (starts_with_bytes (bytes "0") b && negb (starts_with_bytes (bytes "0.") b)
         && negb (value =? "0")%string)
     || (1 <? Z.of_nat (length (List.filter (Ascii.eqb ".") b)))
     || negb (forallb (fun c => is_ascii_digit c || Ascii.eqb c ".") b)
  then invalid_frame "USD per million decimal"
  else Ok (new value).
#[global] Instance eq_dec : EqDecision t.
Proof. solve_decision. Defined.
End UsdPerMillionDecimal.

Module NodeRuntimeVersion.
Record t := new { as_str : string }.

Definition parse_part (part : list byte) : option Z :=
  match parse_u64 part with
  | Some number => if number <=? MAX_SAFE_INTEGER then Some number else None
  | None => None
  end.

Definition parse (value : string) : protocol_result t :=
  let without_v := default (bytes value) (strip_prefix_bytes ["v"%char] (bytes value)) in
  match split_on "." without_v with
  | [major; minor; patch] =>
      match parse_part major, parse_part minor, parse_part patch with
      | Some major, Some minor, Some _ =>
          if (major <? 22) || ((major =? 22) && (minor <? 19))
          then invalid_frame "Node runtime version"
          else Ok (new value)
      | _, _, _ => invalid_frame "Node runtime version"
      end
  | _ => invalid_frame "Node runtime version"
  end.
#[global] Instance eq_dec : EqDecision t.
Proof. solve_decision. Defined.
End NodeRuntimeVersion.

(** ** The newtypes keep the text they parsed *)

(** [parse] returns the constructor on its argument wherever it returns. *)
Ltac newtype_codec :=
  apply text_codec_newtype;
    [ intros s a H; unfold closed_string_parse, invalid_frame in H; inv_ok H; reflexivity
    | intros [] [] H; cbn in H; congruence ].

#[export] Instance closed_string_text what :
  TextCodec (@closed_string_parse what) as_str (fun a => closed_string_parse (as_str a) = Ok a).
Proof. newtype_codec. Qed.
#[export] Instance blake3_digest_text :
  TextCodec Blake3Digest.parse Blake3Digest.as_str
    (fun a => Blake3Digest.parse (Blake3Digest.as_str a) = Ok a).
Proof. unfold Blake3Digest.parse. newtype_codec. Qed.
#[export] Instance absolute_path_text :
  TextCodec AbsolutePath.parse AbsolutePath.as_str
    (fun a => AbsolutePath.parse (AbsolutePath.as_str a) = Ok a).
Proof. unfold AbsolutePath.parse. newtype_codec. Qed.
#[export] Instance usd_per_million_text :
  TextCodec UsdPerMillionDecimal.parse UsdPerMillionDecimal.as_str
    (fun a => UsdPerMillionDecimal.parse (UsdPerMillionDecimal.as_str a) = Ok a).
Proof. unfold UsdPerMillionDecimal.parse. newtype_codec. Qed.
