(* ===== verification/PiTextSpec.v ===== *)
(** * The texts the boundary accepts

    Declarative grammars for the validating [parse] functions of the boundary:
    identifiers, absolute paths, USD rates, digests, and the meaning of the path
    order [is_strict_descendant_of]. *)

From S2P Require Import Prelude Json PiText.

(** ** Absolute paths *)

Definition slash : byte := "/".
Definition NUL : byte := "000".

(** A path component: not empty, not [.] or [..], without a separator or NUL. *)
Definition component (part : list byte) : Prop :=
  part <> [] /\ part <> bytes "." /\ part <> bytes ".." /\ slash ∉ part /\ NUL ∉ part.

Definition components (p : AbsolutePath.t) : list (list byte) :=
  drop 1 (split_on slash (bytes (AbsolutePath.as_str p))).

Lemma forbidden_part_spec part :
  AbsolutePath.forbidden_part part = false <->
  part <> [] /\ part <> bytes "." /\ part <> bytes "..".
Proof.
  destruct part as [|a [|b [|c part]]]; cbn.
  - naive_solver.
  - destruct (Ascii.eqb_spec a "."); naive_solver.
  - destruct (Ascii.eqb_spec a "."), (Ascii.eqb_spec b "."); naive_solver.
  - naive_solver.
Qed.

Lemma contains_byte_spec b l : contains_byte b l = true <-> b ∈ l.
Proof.
  unfold contains_byte. rewrite existsb_exists. split.
  - intros (x & Hin & ->%Ascii.eqb_eq). by apply list_elem_of_In.
  - intros Hin. exists b. by rewrite list_elem_of_In, Ascii.eqb_refl in *.
Qed.

Lemma nul_parts parts : NUL ∈ prefixed slash parts <-> exists part, part ∈ parts /\ NUL ∈ part.
Proof.
  unfold prefixed. induction parts as [|p ps IH]; cbn; [set_solver|].
  rewrite elem_of_cons, elem_of_app, IH. split.
  - intros [Hs|[|(part & ? & ?)]]; [discriminate Hs|eauto using list_elem_of_here|].
    exists part. split; [by right|done].
  - intros (part & [->|Hin]%elem_of_cons & Hn); eauto.
Qed.

Lemma ends_with_snoc c l b : ends_with_byte c (l ++ [b]) = Ascii.eqb c b.
Proof. unfold ends_with_byte. by rewrite last_snoc. Qed.

Lemma ends_with_prefixed parts part :
  slash ∉ part ->
  ends_with_byte slash (prefixed slash (parts ++ [part])) = bool_decide (part = []).
Proof.
  intros Hp. unfold prefixed. rewrite flat_map_app. cbn [flat_map]. rewrite app_nil_r.
  destruct part as [|b part _] using rev_ind.
  - rewrite ends_with_snoc, Ascii.eqb_refl. by rewrite bool_decide_eq_true_2.
  - rewrite app_comm_cons, app_assoc, ends_with_snoc, bool_decide_eq_false_2
      by (intros Hnil; by apply app_eq_nil in Hnil as [_ ?]).
    destruct (Ascii.eqb_spec slash b) as [<-|]; [|done].
    destruct Hp. apply elem_of_app. right. by left.
Qed.

(** A text that starts with a slash is the slash-prefixed sequence of its parts. *)
Lemma starts_with_slash s :
  starts_with_bytes ["/"%char] (bytes s) = true ->
  exists parts, parts <> [] /\ bytes s = prefixed slash parts /\
    split_on slash (bytes s) = [] :: parts /\ Forall (fun part => slash ∉ part) parts.
Proof.
  unfold starts_with_bytes. destruct (bytes s) as [|b l]; [done|]. cbn [strip_prefix_bytes].
  destruct (Ascii.eqb_spec "/" b) as [<-|]; [|done]. intros _.
  pose proof (split_on_nonempty slash l) as Hne. pose proof (split_on_parts slash l) as Hparts.
  exists (split_on slash l). split_and!; [done| |done|done].
  by rewrite split_on_join.
Qed.

(** ** The grammar of [AbsolutePath::parse] *)

Definition absolute (b : list byte) : Prop :=
  exists parts, parts <> [] /\ Forall component parts /\ b = prefixed slash parts.

Lemma component_no_slash parts : Forall component parts -> Forall (fun part => slash ∉ part) parts.
Proof. intros Hc. eapply Forall_impl; [exact Hc|]. unfold component. tauto. Qed.

Lemma forbidden_parts parts :
  existsb AbsolutePath.forbidden_part parts = false <->
  Forall (fun part => part <> [] /\ part <> bytes "." /\ part <> bytes "..") parts.
Proof.
  rewrite <-not_true_iff_false, existsb_exists, List.Forall_forall. split.
  - intros Hno part Hin. apply forbidden_part_spec, not_true_iff_false. intros Hbad.
    destruct Hno. by exists part.
  - intros Hall (part & Hin & Hbad). apply Hall, forbidden_part_spec in Hin. congruence.
Qed.

Lemma components_Forall parts :
  Forall component parts <->
  Forall (fun part => part <> [] /\ part <> bytes "." /\ part <> bytes "..") parts /\
  Forall (fun part => slash ∉ part) parts /\ NUL ∉ prefixed slash parts.
Proof.
  rewrite nul_parts, !Forall_forall. unfold component. split.
  - intros Hall. split_and!; [firstorder|firstorder|].
    intros (part & Hin & Hnul). by apply Hall in Hin as (? & ? & ? & ? & ?).
  - intros (Hdots & Hslash & Hnul) part Hin.
    split_and!; [by apply Hdots..|by apply Hslash|]. intros Hin'. apply Hnul. eauto.
Qed.

Lemma str_len_two s parts :
  bytes s = prefixed slash parts -> parts <> [] -> Forall (fun part => part <> []) parts ->
  (str_len s <? 2) = false.
Proof.
  intros Hs Hne Hparts. rewrite bytes_length, Hs. destruct parts as [|p ps]; [done|].
  apply Forall_cons in Hparts as [Hp _]. destruct p; [done|]. cbn.
  rewrite length_app. apply Z.ltb_ge. lia.
Qed.

Lemma absolute_path_parse s :
  (absolute (bytes s) /\ AbsolutePath.parse s = Ok (AbsolutePath.new s)) \/
  (~ absolute (bytes s) /\ AbsolutePath.parse s = invalid_frame "absolute path").
Proof.
  unfold AbsolutePath.parse.
  destruct (starts_with_bytes ["/"%char] (bytes s)) eqn:Hstart.
  2: { right. rewrite orb_true_r. split; [|done].
       intros (parts & Hne & _ & Hb). rewrite Hb in Hstart. by destruct parts. }
  apply starts_with_slash in Hstart as (parts & Hne & Hb & Hsplit & Hslash).
  assert (Hiff : absolute (bytes s) <-> Forall component parts).
  { split; [|by exists parts]. intros (parts' & Hne' & Hc & Hb').
    rewrite Hb', split_on_prefixed in Hsplit by (done || by apply component_no_slash).
    by injection Hsplit as ->. }
  rewrite Hiff. clear Hiff.
  change (split_on "/" (bytes s)) with (split_on slash (bytes s)). rewrite Hsplit.
  change (drop 1 ([] :: parts)) with parts. rewrite components_Forall, <-Hb.
  rewrite <-contains_byte_spec, <-forbidden_parts. change "000"%char with NUL.
  destruct (existsb AbsolutePath.forbidden_part parts) eqn:Hdots.
  { right. split; [naive_solver|]. by destruct (_ || _). }
  destruct (contains_byte NUL (bytes s)) eqn:Hnul.
  { right. split; [naive_solver|]. by rewrite !orb_true_r. }
  left. split; [done|]. pose proof Hdots as Hdots'%forbidden_parts.
  assert (Hfull : Forall (fun part => part <> []) parts)
    by (eapply Forall_impl; [exact Hdots'|by intros ? [? _]]).
  rewrite (str_len_two _ _ Hb Hne Hfull), Hb. cbn [negb orb].
  destruct parts as [|part parts _] using rev_ind; [done|].
  apply Forall_app in Hfull as [_ [Hfull _]%Forall_cons].
  apply Forall_app in Hslash as [_ [Hslash _]%Forall_cons].
  change "/"%char with slash. by rewrite ends_with_prefixed, bool_decide_eq_false_2.
Qed.

(** [AbsolutePath::parse] accepts exactly the texts that are one or more
    slash-prefixed components, no component empty, [.] or [..] or holding a
    slash or NUL: so no accepted path can climb out of a directory by [..], end
    in a slash or be [/] itself.  Every refusal is the absolute-path error. *)
Theorem absolute_path_grammar s :
  (AbsolutePath.parse s = Ok (AbsolutePath.new s) <-> absolute (bytes s)) /\
  (~ absolute (bytes s) -> AbsolutePath.parse s = invalid_frame "absolute path").
Proof.
  destruct (absolute_path_parse s) as [[Ha ->]|[Ha ->]]; tauto || (split; [split|]; done).
Qed.

(** ** Strict descent *)

Lemma strip_prefix_spec p l rest : strip_prefix_bytes p l = Some rest <-> l = p ++ rest.
Proof.
  revert l. induction p as [|a p IH]; intros l; cbn; [by split; [intros [= <-]|intros <-]|].
  destruct l as [|b l]; [done|]. destruct (Ascii.eqb_spec a b) as [<-|].
  - rewrite IH. split; [by intros ->|by intros [= ->]].
  - split; [done|congruence].
Qed.

(** The order at the level of bytes: the base, a slash, and a rest. *)
Lemma descendant_bytes child base :
  AbsolutePath.is_strict_descendant_of child base = true <->
  exists rest, bytes (AbsolutePath.as_str child) = bytes (AbsolutePath.as_str base) ++ slash :: rest.
Proof.
  unfold AbsolutePath.is_strict_descendant_of, starts_with_bytes.
  destruct (strip_prefix_bytes _ _) as [rest|] eqn:Hstrip.
  - apply strip_prefix_spec in Hstrip as ->. rewrite andb_true_l.
    rewrite lookup_app_r, Nat.sub_diag by lia. destruct rest as [|b rest]; cbn.
    + split; [done|]. intros (rest & Hnil%app_inv_head). done.
    + change "/"%char with slash. destruct (Ascii.eqb_spec b slash) as [->|].
      * split; [by eexists|done].
      * split; [done|]. intros (rest' & [= ->]%app_inv_head). done.
  - split; [done|]. intros (rest & Heq).
    apply strip_prefix_spec in Heq. congruence.
Qed.

Lemma parsed_components s p :
  AbsolutePath.parse s = Ok p ->
  components p <> [] /\ Forall (fun part => slash ∉ part) (components p) /\
  bytes (AbsolutePath.as_str p) = prefixed slash (components p).
Proof.
  intros Hp. destruct (absolute_path_parse s) as [[Ha Hs]|[_ Hs]]; [|by rewrite Hs in Hp].
  rewrite Hp in Hs. apply Ok_inj in Hs as ->. destruct Ha as (parts & Hne & Hc%component_no_slash & Hb).
  unfold components. cbn [AbsolutePath.as_str]. by rewrite Hb, split_on_prefixed.
Qed.

Lemma prefixed_app sep l k : prefixed sep (l ++ k) = prefixed sep l ++ prefixed sep k.
Proof. apply flat_map_app. Qed.

Lemma prefixed_inj sep l k :
  Forall (fun part => sep ∉ part) l -> Forall (fun part => sep ∉ part) k ->
  prefixed sep l = prefixed sep k -> l = k.
Proof.
  intros Hl Hk Heq. destruct l as [|p l], k as [|q k]; [done..|].
  apply (f_equal (split_on sep)) in Heq. rewrite !split_on_prefixed in Heq by done.
  by injection Heq as -> ->.
Qed.

(** The path order of the boundary is the order on components: one parsed
    path is a strict descendant of another exactly when its components are the
    other's followed by at least one more.  A sibling whose name merely extends
    the base's last component is not below it. *)
Theorem strict_descent_extends_components c b child base :
  AbsolutePath.parse c = Ok child -> AbsolutePath.parse b = Ok base ->
  AbsolutePath.is_strict_descendant_of child base = true <->
  exists below, below <> [] /\ components child = components base ++ below.
Proof.
  intros (_ & Hcslash & Hc)%parsed_components (_ & Hbslash & Hb)%parsed_components.
  rewrite descendant_bytes, Hc, Hb. split.
  - intros (rest & Heq). exists (split_on slash rest). split; [apply split_on_nonempty|].
    rewrite <-split_on_join, <-prefixed_app in Heq.
    apply prefixed_inj in Heq; [done|done|].
    apply Forall_app. split; [done|apply split_on_parts].
  - intros ([|p below] & Hne & Heq); [done|]. rewrite Heq, prefixed_app. by eexists.
Qed.

Lemma strict_descent_extends_components_witness :
  exists child base,
    AbsolutePath.parse "/work/run-1" = Ok child /\ AbsolutePath.parse "/work/run" = Ok base /\
    (AbsolutePath.is_strict_descendant_of child base = true <->
     exists below, below <> [] /\ components child = components base ++ below).
Proof.
  exists (AbsolutePath.new "/work/run-1"), (AbsolutePath.new "/work/run").
  split; [vm_compute; reflexivity|]. split; [vm_compute; reflexivity|].
  apply (strict_descent_extends_components "/work/run-1" "/work/run"); vm_compute; reflexivity.
Defined.

(** ** USD rates *)

Definition dot : byte := ".".
Definition zero : byte := "0".
Definition digit (b : byte) : Prop := is_ascii_digit b = true.

(** [0], or digits of which the first is not [0]. *)
Definition whole_part (w : list byte) : Prop :=
  w = [zero] \/ exists d ds, w = d :: ds /\ d <> zero /\ Forall digit w.

Definition usd_rate (b : list byte) : Prop :=
  (whole_part b /\ b <> [zero]) \/
  exists whole fraction, b = whole ++ dot :: fraction /\ whole_part whole /\
    Forall digit fraction /\ exists d, d ∈ fraction /\ d <> zero.

Lemma split_once_spec c l w f : split_once c l = Some (w, f) <-> l = w ++ c :: f /\ c ∉ w.
Proof.
  revert w f. induction l as [|b l IH]; intros w f; cbn.
  - split; [done|]. by intros [Hnil _]; destruct w.
  - destruct (Ascii.eqb_spec b c) as [->|Hne].
    + split; [intros [= <- <-]; split; [done|apply not_elem_of_nil]|].
      intros [Heq Hw]. destruct w as [|a w]; cbn in Heq; [by injection Heq as ->|].
      injection Heq as -> _. destruct Hw. by left.
    + split.
      * destruct (split_once c l) as [[w' f']|]; [|done]. intros [= <- <-].
        destruct (proj1 (IH w' f') eq_refl) as [-> Hw]. split; [done|].
        rewrite elem_of_cons. by intros [->|].
      * intros [Heq Hw]. destruct w as [|a w]; cbn in Heq; [congruence|].
        injection Heq as -> Heq. apply not_elem_of_cons in Hw as [_ Hw].
        by rewrite (proj2 (IH w f) (conj Heq Hw)).
Qed.

Lemma split_once_none c l : split_once c l = None <-> c ∉ l.
Proof.
  split.
  - intros Hs Hin. apply list_elem_of_split_l in Hin as (w & f & -> & Hw).
    by assert (None = Some (w, f)) by (rewrite <-Hs; by apply split_once_spec).
  - intros Hn. destruct (split_once c l) as [[w f]|] eqn:Hs; [|done].
    apply split_once_spec in Hs as [-> _]. destruct Hn. apply elem_of_app. right. by left.
Qed.

Lemma forallb_Forall {A} (p : A -> bool) l : forallb p l = true <-> Forall (fun a => p a = true) l.
Proof. by rewrite forallb_forall, List.Forall_forall. Qed.

Lemma no_dots l : dot ∉ l -> List.filter (Ascii.eqb ".") l = [].
Proof.
  induction l as [|b l IH]; [done|]. rewrite not_elem_of_cons. intros [Hb Hl]. cbn [List.filter].
  change "."%char with dot. destruct (Ascii.eqb_spec dot b) as [<-|]; [done|]. by apply IH.
Qed.

Lemma digit_not_dot l : Forall digit l -> dot ∉ l.
Proof. rewrite Forall_forall. intros Hl Hin. apply Hl in Hin. done. Qed.

Lemma whole_part_digits w : whole_part w -> Forall digit w /\ w <> [].
Proof.
  intros [->|(d & ds & -> & _ & Hd)]; (split; [|done]); [by repeat constructor|done].
Qed.

Lemma take_whole w f : dot ∉ w -> UsdPerMillionDecimal.take_while (fun c => negb (Ascii.eqb c dot))
    (w ++ dot :: f) = w.
Proof.
  induction w as [|b w IH]; [done|]. rewrite not_elem_of_cons. intros [Hb Hw]. cbn [app UsdPerMillionDecimal.take_while].
  destruct (Ascii.eqb_spec b dot) as [->|]; [done|]. cbn.
  by rewrite IH.
Qed.

Lemma take_all w :
  dot ∉ w -> UsdPerMillionDecimal.take_while (fun c => negb (Ascii.eqb c dot)) w = w.
Proof.
  induction w as [|b w IH]; [done|]. rewrite not_elem_of_cons. intros [Hb Hw].
  cbn [UsdPerMillionDecimal.take_while].
  destruct (Ascii.eqb_spec b dot) as [->|]; [done|]. cbn. by rewrite IH.
Qed.

Lemma is_zero_spec s : (s =? "0")%string = true <-> bytes s = [zero].
Proof.
  rewrite String.eqb_eq. split; [by intros ->|].
  intros Hb. apply (f_equal string_of_list_ascii) in Hb.
  by rewrite string_of_list_ascii_of_string in Hb.
Qed.

Lemma starts_zero_dot b :
  starts_with_bytes (bytes "0.") b = true <-> exists f, b = zero :: dot :: f.
Proof.
  unfold starts_with_bytes. destruct (strip_prefix_bytes _ b) as [f|] eqn:Hs.
  - apply strip_prefix_spec in Hs as ->. split; [by eexists|done].
  - split; [done|]. intros [f ->]. done.
Qed.

Lemma digit_or_dot b :
  Forall (fun c => is_ascii_digit c || Ascii.eqb c "." = true) b -> dot ∉ b -> Forall digit b.
Proof.
  rewrite !Forall_forall. intros Hall Hdot c Hin. unfold digit. specialize (Hall c Hin).
  apply orb_true_iff in Hall as [|Hc]; [done|]. apply Ascii.eqb_eq in Hc as ->. done.
Qed.

Lemma canonical_whole_spec s w tail :
  bytes s = w ++ tail -> dot ∉ w -> tail = [] \/ head tail = Some dot ->
  UsdPerMillionDecimal.canonical_whole s = true -> Forall (fun c => is_ascii_digit c || Ascii.eqb c "." = true) (bytes s) ->
  whole_part w.
Proof.
  unfold UsdPerMillionDecimal.canonical_whole. intros Hb Hw Htail Hcanon Hall.
  assert (Hdigits : Forall digit w).
  { apply digit_or_dot; [|done]. rewrite Hb in Hall. by apply Forall_app in Hall as [? _]. }
  destruct w as [|c w]; rewrite Hb in Hcanon.
  - destruct Htail as [->|Htail]; [done|]. destruct tail as [|? tail]; [done|]. by injection Htail as ->.
  - cbn [app] in Hcanon. destruct (Ascii.eqb_spec c "0") as [->|Hc]; [|right; eauto].
    left. apply orb_true_iff in Hcanon as [Hz%is_zero_spec|[f Hf]%starts_zero_dot].
    + rewrite Hb in Hz. injection Hz as Hz. by apply app_eq_nil in Hz as [-> _].
    + injection Hf as Hf. destruct w as [|d w]; [done|]. injection Hf as -> _.
      destruct Hw. right. by left.
Qed.

Lemma rate_sound s a : UsdPerMillionDecimal.parse s = Ok a -> a = UsdPerMillionDecimal.new s /\ usd_rate (bytes s).
Proof.
  unfold UsdPerMillionDecimal.parse. destruct (_ || _) eqn:Hok; [done|].
  intros <-%Ok_inj. split; [done|].
  apply orb_false_iff in Hok as [Hok Hall%negb_false_iff%forallb_Forall].
  apply orb_false_iff in Hok as [Hok _]. apply orb_false_iff in Hok as [Hok _].
  apply orb_false_iff in Hok as [Hnz%negb_false_iff Hcanon%negb_false_iff].
  unfold UsdPerMillionDecimal.nonzero in Hnz.
  destruct (split_once "." (bytes s)) as [[w f]|] eqn:Hs.
  - apply split_once_spec in Hs as [Hb Hw]. right. exists w, f. split; [done|].
    apply andb_true_iff in Hnz as [[_ Hf%forallb_Forall]%andb_true_iff Hex].
    split; [|split; [done|]].
    + apply (canonical_whole_spec s w (dot :: f)); [done|done|by right|done|done].
    + apply existsb_exists in Hex as (d & Hin & Hd). exists d.
      split; [by apply list_elem_of_In|]. intros ->. done.
  - apply split_once_none in Hs. left. split.
    + apply (canonical_whole_spec s _ []); [by rewrite app_nil_r|done|by left|done|done].
    + intros Hz%is_zero_spec. by rewrite Hz in Hnz.
Qed.

Lemma whole_part_canonical s w tail :
  bytes s = w ++ tail -> tail = [] /\ w <> [zero] \/ head tail = Some dot -> whole_part w ->
  UsdPerMillionDecimal.canonical_whole s = true /\
  starts_with_bytes (bytes "0") (bytes s) && negb (starts_with_bytes (bytes "0.") (bytes s)) = false.
Proof.
  intros Hb Htail Hw. unfold UsdPerMillionDecimal.canonical_whole. rewrite Hb.
  destruct Hw as [->|(d & ds & -> & Hd & Hds)]; cbn [app].
  - destruct Htail as [[-> ?]|Htail]; [done|]. destruct tail as [|? tail]; [done|].
    injection Htail as ->. by rewrite orb_true_r.
  - destruct (Ascii.eqb_spec d "0") as [->|_]; [done|]. split.
    + apply Forall_cons in Hds as [Hd' Hds]. rewrite Hd'. apply forallb_Forall.
      change (d :: ds ++ tail) with ((d :: ds) ++ tail). destruct Htail as [[-> _]|Htail].
      * rewrite app_nil_r, take_all; [by constructor|]. apply digit_not_dot. by constructor.
      * destruct tail as [|? tail]; [done|]. injection Htail as ->.
        rewrite take_whole; [by constructor|]. apply digit_not_dot. by constructor.
    + unfold starts_with_bytes. cbn [bytes list_ascii_of_string strip_prefix_bytes].
      destruct (Ascii.eqb_spec "0" d) as [<-|]; done.
Qed.

Lemma digits_or_dots l : Forall digit l -> forallb (fun c => is_ascii_digit c || Ascii.eqb c ".") l = true.
Proof. intros Hl. apply forallb_Forall. eapply Forall_impl; [exact Hl|]. by intros c ->. Qed.

Lemma rate_complete s : usd_rate (bytes s) -> UsdPerMillionDecimal.parse s = Ok (UsdPerMillionDecimal.new s).
Proof.
  unfold UsdPerMillionDecimal.parse, UsdPerMillionDecimal.nonzero.
  intros [[Hw Hz]|(w & f & Hb & Hw & Hf & d & Hin & Hd)].
  - pose proof Hw as [Hdigits _]%whole_part_digits.
    pose proof (digit_not_dot _ Hdigits) as Hdot.
    destruct (whole_part_canonical s (bytes s) []) as [-> ->]; [by rewrite app_nil_r|by left|done|].
    rewrite (proj2 (split_once_none "." _) Hdot), no_dots, digits_or_dots by done.
    destruct (_ =? "0")%string eqn:Hs; [|done]. by apply is_zero_spec in Hs.
  - pose proof Hw as [Hdigits Hne]%whole_part_digits.
    destruct (whole_part_canonical s w (dot :: f)) as [-> ->]; [done|by right|done|].
    pose proof (digit_not_dot _ Hdigits). pose proof (digit_not_dot _ Hf).
    rewrite (proj2 (split_once_spec "." (bytes s) w f)) by done.
    rewrite Hb, List.filter_app, forallb_app, no_dots, digits_or_dots by done.
    cbn [List.filter forallb]. rewrite no_dots, digits_or_dots by done.
    rewrite bool_decide_eq_false_2 by done.
    rewrite bool_decide_eq_false_2 by (intros ->; by apply elem_of_nil in Hin).
    rewrite (proj2 (forallb_Forall _ _) Hf).
    replace (existsb _ f) with true; [done|]. symmetry. apply existsb_exists.
    exists d. split; [by apply list_elem_of_In|]. by destruct (Ascii.eqb_spec d "0").
Qed.

(** [UsdPerMillionDecimal::parse] accepts exactly the rates written in the
    decimal grammar: a whole part without a superfluous leading zero, alone and
    not [0], or followed by a point and a fraction with a digit that is not [0].
    Zero, and a whole rate written with a zero fraction, are refused, always
    with the decimal error. *)
Theorem usd_rate_grammar s :
  (UsdPerMillionDecimal.parse s = Ok (UsdPerMillionDecimal.new s) <-> usd_rate (bytes s)) /\
  (~ usd_rate (bytes s) ->
   UsdPerMillionDecimal.parse s = invalid_frame "USD per million decimal").
Proof.
  split; [split; [by intros [_ ?]%rate_sound|apply rate_complete]|].
  intros Hno. destruct (UsdPerMillionDecimal.parse s) as [a|e] eqn:Hp.
  - by apply rate_sound in Hp as [_ ?].
  - unfold UsdPerMillionDecimal.parse in Hp. destruct (_ || _); [|done]. by rewrite <-Hp.
Qed.
