(* ===== verification/PiWire.v ===== *)
(** * Closed enumerations of the Pi boundary and their wire texts

    The payload-free enums of [society-pi/src/protocol.rs], one Module each, and
    the two families of tables the file generates by macro: [wire!] (enum to
    text) and [closed_enum!] (text to enum).  A pair of tables is an instance of
    [TextCodec], which the codec's theorems use without looking at the tables. *)

From S2P Require Import Prelude Json PiText.

(** ** The enumerations *)

Module SessionKind.
Inductive t : Set := TaskAttempt | RootAuthorityOffice.
#[global] Instance eq_dec : EqDecision t.
Proof. solve_decision. Defined.
End SessionKind.

Module ToolProfile.
Inductive t : Set :=
| ReadExecuteV1
| ReadWriteV1
| WorkspaceMutationV1
| WorkspaceIsolatedV1
| ForumIsolatedV1.
#[global] Instance eq_dec : EqDecision t.
Proof. solve_decision. Defined.
End ToolProfile.

Module PiToolName.
Inductive t : Set :=
| Read
| Bash
| Edit
| Write
| Grep
| Find
| Ls
| SocietyForumRead
| SocietyForumPost.
#[global] Instance eq_dec : EqDecision t.
Proof. solve_decision. Defined.
End PiToolName.

Module QueueMode.
Inductive t : Set := All | OneAtATime.
#[global] Instance eq_dec : EqDecision t.
Proof. solve_decision. Defined.
End QueueMode.

Module CompactionMode.
Inductive t : Set := Enabled | Disabled.
#[global] Instance eq_dec : EqDecision t.
Proof. solve_decision. Defined.
End CompactionMode.

Module PromptPurpose.
Inductive t : Set := TaskAssignment | OfficeTurn.
#[global] Instance eq_dec : EqDecision t.
Proof. solve_decision. Defined.
End PromptPurpose.

Module SteerReason.
Inductive t : Set := UrgentStalePremise | UrgentUnsafePremise.
#[global] Instance eq_dec : EqDecision t.
Proof. solve_decision. Defined.
End SteerReason.

Module AbortReason.
Inductive t : Set := GracefulCancellation | EmergencyStop | BudgetGuardrail | DaemonRecovery.
#[global] Instance eq_dec : EqDecision t.
Proof. solve_decision. Defined.
End AbortReason.

Module DisposeReason.
Inductive t : Set := CycleReconciliation | ProcessRecovery | ProtocolFailure.
#[global] Instance eq_dec : EqDecision t.
Proof. solve_decision. Defined.
End DisposeReason.

Module Provider.
Inductive t : Set := OpenRouter.
#[global] Instance eq_dec : EqDecision t.
Proof. solve_decision. Defined.
End Provider.

Module ModelId.
Inductive t : Set :=
| DeepseekV4Flash0731
| InclusionAiLing30TinyFree
| PoolsideLagunaXs21Free
| InclusionAiLing26Flash.
#[global] Instance eq_dec : EqDecision t.
Proof. solve_decision. Defined.
End ModelId.

Module CanonicalModelSlug.
Inductive t : Set :=
| DeepseekV4Flash20260731
| InclusionAiLing30TinyFree
| PoolsideLagunaXs21Free
| InclusionAiLing26Flash.
#[global] Instance eq_dec : EqDecision t.
Proof. solve_decision. Defined.
End CanonicalModelSlug.

Module OpenRouterBaseUrl.
Inductive t : Set := ApiV1.
#[global] Instance eq_dec : EqDecision t.
Proof. solve_decision. Defined.
End OpenRouterBaseUrl.

Module ModelApi.
Inductive t : Set := OpenAiCompletions.
#[global] Instance eq_dec : EqDecision t.
Proof. solve_decision. Defined.
End ModelApi.

Module ModelInput.
Inductive t : Set := TextOnly.
#[global] Instance eq_dec : EqDecision t.
Proof. solve_decision. Defined.
End ModelInput.

Module Transport.
Inductive t : Set := Sse.
#[global] Instance eq_dec : EqDecision t.
Proof. solve_decision. Defined.
End Transport.

Module ProjectTrust.
Inductive t : Set := Never.
#[global] Instance eq_dec : EqDecision t.
Proof. solve_decision. Defined.
End ProjectTrust.

Module Disabled.
Inductive t : Set := Disabled.
#[global] Instance eq_dec : EqDecision t.
Proof. solve_decision. Defined.
End Disabled.

Module Images.
Inductive t : Set := Blocked.
#[global] Instance eq_dec : EqDecision t.
Proof. solve_decision. Defined.
End Images.

Module AdapterVersion.
Inductive t : Set := V1.
#[global] Instance eq_dec : EqDecision t.
Proof. solve_decision. Defined.
End AdapterVersion.

Module PiSdkVersion.
Inductive t : Set := V0841.
#[global] Instance eq_dec : EqDecision t.
Proof. solve_decision. Defined.
End PiSdkVersion.

Module CommandName.
Inductive t : Set :=
| CreateSession
| Prompt
| FollowUp
| Steer
| Abort
| GetState
| Dispose
| ForumToolResult.
#[global] Instance eq_dec : EqDecision t.
Proof. solve_decision. Defined.
End CommandName.

Module AdapterPhase.
Inductive t : Set := Inert | Creating | Ready | Closing | Disposed | Fatal.
#[global] Instance eq_dec : EqDecision t.
Proof. solve_decision. Defined.
End AdapterPhase.

Module AdapterFailureCode.
Inductive t : Set :=
| InvalidCommand
| InvalidState
| SequenceGap
| SessionIdentityMismatch
| ExecutionProfileDrift
| SdkOperationFailed
| MissingAgentSettled
| MissingFinalAssistantOutcome
| ProtocolDecodeFailed
| OutboundFrameTooLarge.
#[global] Instance eq_dec : EqDecision t.
Proof. solve_decision. Defined.
End AdapterFailureCode.

Module UsageUnavailableReason.
Inductive t : Set := InvalidSdkUsage | UsageRegressed | UsageInconsistent.
#[global] Instance eq_dec : EqDecision t.
Proof. solve_decision. Defined.
End UsageUnavailableReason.

Module CompactionReason.
Inductive t : Set := Manual | Threshold | Overflow.
#[global] Instance eq_dec : EqDecision t.
Proof. solve_decision. Defined.
End CompactionReason.

Module ThinkingLevel.
Inductive t : Set := Off | Minimal | Low | Medium | High | Xhigh | Max.
#[global] Instance eq_dec : EqDecision t.
Proof. solve_decision. Defined.
End ThinkingLevel.

Module SummarizationSource.
Inductive t : Set := BranchSummary | Compaction.
#[global] Instance eq_dec : EqDecision t.
Proof. solve_decision. Defined.
End SummarizationSource.

Module SessionLiveness.
Inductive t : Set := Inert | Creating | Idle | Active | Closing | Disposed | Fatal.
#[global] Instance eq_dec : EqDecision t.
Proof. solve_decision. Defined.
End SessionLiveness.

Module SettledClassification.
Inductive t : Set := Completed | Length | Error | Aborted | Failed | ProtocolFailed.
#[global] Instance eq_dec : EqDecision t.
Proof. solve_decision. Defined.
End SettledClassification.

Module AssistantStopReason.
Inductive t : Set := Stop | Length | Error | Aborted.
#[global] Instance eq_dec : EqDecision t.
Proof. solve_decision. Defined.
End AssistantStopReason.

Module FinalAssistantUnavailableReason.
Inductive t : Set := SdkPromiseRejected | MissingFinalAssistantOutcome.
#[global] Instance eq_dec : EqDecision t.
Proof. solve_decision. Defined.
End FinalAssistantUnavailableReason.

(** ** Text tables *)

(** [closed_enum!]: the first entry with the given text, or a typed error. *)
Definition closed_enum {A} (name : string) (table : list (string * A))
    (value : string) : protocol_result A :=
  match List.find (fun entry => (value =? entry.1)%string) table with
  | Some entry => Ok entry.2
  | None => invalid_frame name
  end.

Definition session_kind_wire (value : SessionKind.t) : string :=
  match value with
  | SessionKind.TaskAttempt => "TaskAttempt"
  | SessionKind.RootAuthorityOffice => "RootAuthorityOffice"
  end.

Definition tool_profile_wire (value : ToolProfile.t) : string :=
  match value with
  | ToolProfile.ReadExecuteV1 => "read_execute_v1"
  | ToolProfile.ReadWriteV1 => "read_write_v1"
  | ToolProfile.WorkspaceMutationV1 => "workspace_mutation_v1"
  | ToolProfile.WorkspaceIsolatedV1 => "workspace_isolated_v1"
  | ToolProfile.ForumIsolatedV1 => "forum_isolated_v1"
  end.

Definition queue_mode_wire (value : QueueMode.t) : string :=
  match value with
  | QueueMode.All => "all"
  | QueueMode.OneAtATime => "one-at-a-time"
  end.

Definition compaction_mode_wire (value : CompactionMode.t) : string :=
  match value with
  | CompactionMode.Enabled => "enabled"
  | CompactionMode.Disabled => "disabled"
  end.

Definition prompt_purpose_wire (value : PromptPurpose.t) : string :=
  match value with
  | PromptPurpose.TaskAssignment => "TaskAssignment"
  | PromptPurpose.OfficeTurn => "OfficeTurn"
  end.

Definition steer_reason_wire (value : SteerReason.t) : string :=
  match value with
  | SteerReason.UrgentStalePremise => "UrgentStalePremise"
  | SteerReason.UrgentUnsafePremise => "UrgentUnsafePremise"
  end.

Definition abort_reason_wire (value : AbortReason.t) : string :=
  match value with
  | AbortReason.GracefulCancellation => "GracefulCancellation"
  | AbortReason.EmergencyStop => "EmergencyStop"
  | AbortReason.BudgetGuardrail => "BudgetGuardrail"
  | AbortReason.DaemonRecovery => "DaemonRecovery"
  end.

Definition dispose_reason_wire (value : DisposeReason.t) : string :=
  match value with
  | DisposeReason.CycleReconciliation => "CycleReconciliation"
  | DisposeReason.ProcessRecovery => "ProcessRecovery"
  | DisposeReason.ProtocolFailure => "ProtocolFailure"
  end.

Definition command_name_wire (value : CommandName.t) : string :=
  match value with
  | CommandName.CreateSession => "CreateSession"
  | CommandName.Prompt => "Prompt"
  | CommandName.FollowUp => "FollowUp"
  | CommandName.Steer => "Steer"
  | CommandName.Abort => "Abort"
  | CommandName.GetState => "GetState"
  | CommandName.Dispose => "Dispose"
  | CommandName.ForumToolResult => "ForumToolResult"
  end.

Definition provider_wire (value : Provider.t) : string :=
  match value with
  | Provider.OpenRouter => "openrouter"
  end.

Definition model_id_wire (value : ModelId.t) : string :=
  match value with
  | ModelId.DeepseekV4Flash0731 => "deepseek/deepseek-v4-flash-0731"
  | ModelId.InclusionAiLing30TinyFree => "inclusionai/ling-3.0-tiny:free"
  | ModelId.PoolsideLagunaXs21Free => "poolside/laguna-xs-2.1:free"
  | ModelId.InclusionAiLing26Flash => "inclusionai/ling-2.6-flash"
  end.

Definition thinking_level_wire (value : ThinkingLevel.t) : string :=
  match value with
  | ThinkingLevel.Off => "off"
  | ThinkingLevel.Minimal => "minimal"
  | ThinkingLevel.Low => "low"
  | ThinkingLevel.Medium => "medium"
  | ThinkingLevel.High => "high"
  | ThinkingLevel.Xhigh => "xhigh"
  | ThinkingLevel.Max => "max"
  end.

Definition base_url_wire (value : OpenRouterBaseUrl.t) : string :=
  match value with
  | OpenRouterBaseUrl.ApiV1 => "https://openrouter.ai/api/v1"
  end.

Definition model_api_wire (value : ModelApi.t) : string :=
  match value with
  | ModelApi.OpenAiCompletions => "openai-completions"
  end.

Definition canonical_slug_wire (value : CanonicalModelSlug.t) : string :=
  match value with
  | CanonicalModelSlug.DeepseekV4Flash20260731 => "deepseek/deepseek-v4-flash-20260731"
  | CanonicalModelSlug.InclusionAiLing30TinyFree => "inclusionai/ling-3.0-tiny:free"
  | CanonicalModelSlug.PoolsideLagunaXs21Free => "poolside/laguna-xs-2.1:free"
  | CanonicalModelSlug.InclusionAiLing26Flash => "inclusionai/ling-2.6-flash"
  end.

Definition model_input_wire (value : ModelInput.t) : string :=
  match value with
  | ModelInput.TextOnly => "text_only"
  end.

Definition transport_wire (value : Transport.t) : string :=
  match value with
  | Transport.Sse => "sse"
  end.

Definition project_trust_wire (value : ProjectTrust.t) : string :=
  match value with
  | ProjectTrust.Never => "never"
  end.

Definition images_wire (value : Images.t) : string :=
  match value with
  | Images.Blocked => "blocked"
  end.

Definition session_kind : string -> protocol_result SessionKind.t :=
  closed_enum "SessionKind" [
    ("TaskAttempt", SessionKind.TaskAttempt);
    ("RootAuthorityOffice", SessionKind.RootAuthorityOffice)].

Definition tool_profile : string -> protocol_result ToolProfile.t :=
  closed_enum "ToolProfile" [
    ("read_execute_v1", ToolProfile.ReadExecuteV1);
    ("read_write_v1", ToolProfile.ReadWriteV1);
    ("workspace_mutation_v1", ToolProfile.WorkspaceMutationV1);
    ("workspace_isolated_v1", ToolProfile.WorkspaceIsolatedV1);
    ("forum_isolated_v1", ToolProfile.ForumIsolatedV1)].

Definition pi_tool_name : string -> protocol_result PiToolName.t :=
  closed_enum "PiToolName" [
    ("read", PiToolName.Read);
    ("bash", PiToolName.Bash);
    ("edit", PiToolName.Edit);
    ("write", PiToolName.Write);
    ("grep", PiToolName.Grep);
    ("find", PiToolName.Find);
    ("ls", PiToolName.Ls);
    ("society_forum_read", PiToolName.SocietyForumRead);
    ("society_forum_post", PiToolName.SocietyForumPost)].

Definition queue_mode : string -> protocol_result QueueMode.t :=
  closed_enum "QueueMode" [
    ("all", QueueMode.All);
    ("one-at-a-time", QueueMode.OneAtATime)].

Definition compaction_mode : string -> protocol_result CompactionMode.t :=
  closed_enum "CompactionMode" [
    ("enabled", CompactionMode.Enabled);
    ("disabled", CompactionMode.Disabled)].

Definition prompt_purpose : string -> protocol_result PromptPurpose.t :=
  closed_enum "PromptPurpose" [
    ("TaskAssignment", PromptPurpose.TaskAssignment);
    ("OfficeTurn", PromptPurpose.OfficeTurn)].

Definition steer_reason : string -> protocol_result SteerReason.t :=
  closed_enum "SteerReason" [
    ("UrgentStalePremise", SteerReason.UrgentStalePremise);
    ("UrgentUnsafePremise", SteerReason.UrgentUnsafePremise)].

Definition abort_reason : string -> protocol_result AbortReason.t :=
  closed_enum "AbortReason" [
    ("GracefulCancellation", AbortReason.GracefulCancellation);
    ("EmergencyStop", AbortReason.EmergencyStop);
    ("BudgetGuardrail", AbortReason.BudgetGuardrail);
    ("DaemonRecovery", AbortReason.DaemonRecovery)].

Definition dispose_reason : string -> protocol_result DisposeReason.t :=
  closed_enum "DisposeReason" [
    ("CycleReconciliation", DisposeReason.CycleReconciliation);
    ("ProcessRecovery", DisposeReason.ProcessRecovery);
    ("ProtocolFailure", DisposeReason.ProtocolFailure)].

Definition provider : string -> protocol_result Provider.t :=
  closed_enum "Provider" [
    ("openrouter", Provider.OpenRouter)].

Definition model_id : string -> protocol_result ModelId.t :=
  closed_enum "ModelId" [
    ("deepseek/deepseek-v4-flash-0731", ModelId.DeepseekV4Flash0731);
    ("inclusionai/ling-3.0-tiny:free", ModelId.InclusionAiLing30TinyFree);
    ("poolside/laguna-xs-2.1:free", ModelId.PoolsideLagunaXs21Free);
    ("inclusionai/ling-2.6-flash", ModelId.InclusionAiLing26Flash)].

Definition canonical_model_slug : string -> protocol_result CanonicalModelSlug.t :=
  closed_enum "CanonicalModelSlug" [
    ("deepseek/deepseek-v4-flash-20260731", CanonicalModelSlug.DeepseekV4Flash20260731);
    ("inclusionai/ling-3.0-tiny:free", CanonicalModelSlug.InclusionAiLing30TinyFree);
    ("poolside/laguna-xs-2.1:free", CanonicalModelSlug.PoolsideLagunaXs21Free);
    ("inclusionai/ling-2.6-flash", CanonicalModelSlug.InclusionAiLing26Flash)].

Definition open_router_base_url : string -> protocol_result OpenRouterBaseUrl.t :=
  closed_enum "OpenRouterBaseUrl" [
    ("https://openrouter.ai/api/v1", OpenRouterBaseUrl.ApiV1)].

Definition model_api : string -> protocol_result ModelApi.t :=
  closed_enum "ModelApi" [
    ("openai-completions", ModelApi.OpenAiCompletions)].

Definition model_input : string -> protocol_result ModelInput.t :=
  closed_enum "ModelInput" [
    ("text_only", ModelInput.TextOnly)].

Definition transport : string -> protocol_result Transport.t :=
  closed_enum "Transport" [
    ("sse", Transport.Sse)].

Definition project_trust : string -> protocol_result ProjectTrust.t :=
  closed_enum "ProjectTrust" [
    ("never", ProjectTrust.Never)].

Definition images : string -> protocol_result Images.t :=
  closed_enum "Images" [
    ("blocked", Images.Blocked)].

Definition adapter_version : string -> protocol_result AdapterVersion.t :=
  closed_enum "AdapterVersion" [
    ("1", AdapterVersion.V1)].

Definition pi_sdk_version : string -> protocol_result PiSdkVersion.t :=
  closed_enum "PiSdkVersion" [
    ("0.84.1", PiSdkVersion.V0841)].

Definition command_name : string -> protocol_result CommandName.t :=
  closed_enum "CommandName" [
    ("CreateSession", CommandName.CreateSession);
    ("Prompt", CommandName.Prompt);
    ("FollowUp", CommandName.FollowUp);
    ("Steer", CommandName.Steer);
    ("Abort", CommandName.Abort);
    ("GetState", CommandName.GetState);
    ("Dispose", CommandName.Dispose);
    ("ForumToolResult", CommandName.ForumToolResult)].

Definition adapter_phase : string -> protocol_result AdapterPhase.t :=
  closed_enum "AdapterPhase" [
    ("Inert", AdapterPhase.Inert);
    ("Creating", AdapterPhase.Creating);
    ("Ready", AdapterPhase.Ready);
    ("Closing", AdapterPhase.Closing);
    ("Disposed", AdapterPhase.Disposed);
    ("Fatal", AdapterPhase.Fatal)].

Definition session_liveness : string -> protocol_result SessionLiveness.t :=
  closed_enum "SessionLiveness" [
    ("inert", SessionLiveness.Inert);
    ("creating", SessionLiveness.Creating);
    ("idle", SessionLiveness.Idle);
    ("active", SessionLiveness.Active);
    ("closing", SessionLiveness.Closing);
    ("disposed", SessionLiveness.Disposed);
    ("fatal", SessionLiveness.Fatal)].

Definition failure_code : string -> protocol_result AdapterFailureCode.t :=
  closed_enum "AdapterFailureCode" [
    ("invalid_command", AdapterFailureCode.InvalidCommand);
    ("invalid_state", AdapterFailureCode.InvalidState);
    ("sequence_gap", AdapterFailureCode.SequenceGap);
    ("session_identity_mismatch", AdapterFailureCode.SessionIdentityMismatch);
    ("execution_profile_drift", AdapterFailureCode.ExecutionProfileDrift);
    ("sdk_operation_failed", AdapterFailureCode.SdkOperationFailed);
    ("missing_agent_settled", AdapterFailureCode.MissingAgentSettled);
    ("missing_final_assistant_outcome", AdapterFailureCode.MissingFinalAssistantOutcome);
    ("protocol_decode_failed", AdapterFailureCode.ProtocolDecodeFailed);
    ("outbound_frame_too_large", AdapterFailureCode.OutboundFrameTooLarge)].

Definition usage_unavailable_reason : string -> protocol_result UsageUnavailableReason.t :=
  closed_enum "UsageUnavailableReason" [
    ("invalid_sdk_usage", UsageUnavailableReason.InvalidSdkUsage);
    ("usage_regressed", UsageUnavailableReason.UsageRegressed);
    ("usage_inconsistent", UsageUnavailableReason.UsageInconsistent)].

Definition compaction_reason : string -> protocol_result CompactionReason.t :=
  closed_enum "CompactionReason" [
    ("manual", CompactionReason.Manual);
    ("threshold", CompactionReason.Threshold);
    ("overflow", CompactionReason.Overflow)].

Definition thinking_level : string -> protocol_result ThinkingLevel.t :=
  closed_enum "ThinkingLevel" [
    ("off", ThinkingLevel.Off);
    ("minimal", ThinkingLevel.Minimal);
    ("low", ThinkingLevel.Low);
    ("medium", ThinkingLevel.Medium);
    ("high", ThinkingLevel.High);
    ("xhigh", ThinkingLevel.Xhigh);
    ("max", ThinkingLevel.Max)].

Definition summarization_source : string -> protocol_result SummarizationSource.t :=
  closed_enum "SummarizationSource" [
    ("branchSummary", SummarizationSource.BranchSummary);
    ("compaction", SummarizationSource.Compaction)].

Definition settled_classification : string -> protocol_result SettledClassification.t :=
  closed_enum "SettledClassification" [
    ("completed", SettledClassification.Completed);
    ("length", SettledClassification.Length);
    ("error", SettledClassification.Error);
    ("aborted", SettledClassification.Aborted);
    ("failed", SettledClassification.Failed);
    ("protocol_failed", SettledClassification.ProtocolFailed)].

Definition assistant_stop_reason : string -> protocol_result AssistantStopReason.t :=
  closed_enum "AssistantStopReason" [
    ("stop", AssistantStopReason.Stop);
    ("length", AssistantStopReason.Length);
    ("error", AssistantStopReason.Error);
    ("aborted", AssistantStopReason.Aborted)].

Definition final_unavailable_reason : string -> protocol_result FinalAssistantUnavailableReason.t :=
  closed_enum "FinalAssistantUnavailableReason" [
    ("sdk_promise_rejected", FinalAssistantUnavailableReason.SdkPromiseRejected);
    ("missing_final_assistant_outcome", FinalAssistantUnavailableReason.MissingFinalAssistantOutcome)].

Definition disabled (value : bool) : protocol_result Disabled.t :=
  if value then invalid_frame "disabled setting" else Ok Disabled.Disabled.

(** ** The tables are inverse *)

Lemma closed_enum_ok {A} name (table : list (string * A)) value a :
  closed_enum name table value = Ok a -> (value, a) ∈ table.
Proof.
  unfold closed_enum. intros H. inv_ok H.
  match goal with E : List.find _ _ = Some _ |- _ => apply List.find_some in E as [Hin Heq] end.
  cbn in Heq. apply String.eqb_eq in Heq as ->.
  apply list_elem_of_In. by destruct p.
Qed.

(** An entry of a closed table: one of the entries, by computation. *)
Ltac table_entry H :=
  apply closed_enum_ok in H;
  repeat (apply elem_of_cons in H as [[= -> ->]|H]; [reflexivity|]);
  by apply elem_of_nil in H.

Ltac wire_laws :=
  apply text_codec_total; [intros []; reflexivity | intros s a H; table_entry H].

#[export] Instance session_kind_text : TextCodec session_kind session_kind_wire (fun _ => True).
Proof. wire_laws. Qed.

#[export] Instance tool_profile_text : TextCodec tool_profile tool_profile_wire (fun _ => True).
Proof. wire_laws. Qed.

#[export] Instance queue_mode_text : TextCodec queue_mode queue_mode_wire (fun _ => True).
Proof. wire_laws. Qed.

#[export] Instance compaction_mode_text : TextCodec compaction_mode compaction_mode_wire (fun _ => True).
Proof. wire_laws. Qed.

#[export] Instance prompt_purpose_text : TextCodec prompt_purpose prompt_purpose_wire (fun _ => True).
Proof. wire_laws. Qed.

#[export] Instance steer_reason_text : TextCodec steer_reason steer_reason_wire (fun _ => True).
Proof. wire_laws. Qed.

#[export] Instance abort_reason_text : TextCodec abort_reason abort_reason_wire (fun _ => True).
Proof. wire_laws. Qed.

#[export] Instance dispose_reason_text : TextCodec dispose_reason dispose_reason_wire (fun _ => True).
Proof. wire_laws. Qed.

#[export] Instance provider_text : TextCodec provider provider_wire (fun _ => True).
Proof. wire_laws. Qed.

#[export] Instance model_id_text : TextCodec model_id model_id_wire (fun _ => True).
Proof. wire_laws. Qed.

#[export] Instance canonical_model_slug_text : TextCodec canonical_model_slug canonical_slug_wire (fun _ => True).
Proof. wire_laws. Qed.

#[export] Instance open_router_base_url_text : TextCodec open_router_base_url base_url_wire (fun _ => True).
Proof. wire_laws. Qed.

#[export] Instance model_api_text : TextCodec model_api model_api_wire (fun _ => True).
Proof. wire_laws. Qed.

#[export] Instance model_input_text : TextCodec model_input model_input_wire (fun _ => True).
Proof. wire_laws. Qed.

#[export] Instance transport_text : TextCodec transport transport_wire (fun _ => True).
Proof. wire_laws. Qed.

#[export] Instance project_trust_text : TextCodec project_trust project_trust_wire (fun _ => True).
Proof. wire_laws. Qed.

#[export] Instance images_text : TextCodec images images_wire (fun _ => True).
Proof. wire_laws. Qed.

#[export] Instance command_name_text : TextCodec command_name command_name_wire (fun _ => True).
Proof. wire_laws. Qed.

#[export] Instance thinking_level_text : TextCodec thinking_level thinking_level_wire (fun _ => True).
Proof. wire_laws. Qed.

(** [disabled] accepts only [false]. *)
Lemma disabled_ok value d : disabled value = Ok d -> value = false.
Proof. by destruct value. Qed.
