(* ===== verification/PiForumSpec.v ===== *)
(** * The typed arguments of Forum calls

    What [decode_forum_tool_arguments] of [society-pi/src/forum.rs] accepts, and
    which error it gives for an absent field. *)

From S2P Require Import Prelude Json PiText PiForum.

(** ** The accepted shapes *)

Definition ordinal_field (o : Object.t) (field : string) (z : Z) : Prop :=
  0 < z /\
  (Object.get field o = Some (Value.Number (Number.U64 z)) /\ z <= i64_max \/
   Object.get field o = Some (Value.Number (Number.I64 z))).

Definition text_field (o : Object.t) (field : string) (s : string) : Prop :=
  Object.get field o = Some (Value.String s) /\ s <> "".

(** A reference is absent when it is [null] or the empty text. *)
Definition reference_field (o : Object.t) (field : string) (reference : option string) : Prop :=
  match reference with
  | Some s => text_field o field s
  | None => Object.get field o = Some Value.Null \/ Object.get field o = Some (Value.String "")
  end.

Inductive well_formed_arguments (o : Object.t) : ForumToolName.t -> ForumToolArguments.t -> Prop :=
| read_arguments first through :
    Object.keys o ≡ₚ ["first_message_ordinal"; "through_message_ordinal"] ->
    ordinal_field o "first_message_ordinal" first ->
    ordinal_field o "through_message_ordinal" through ->
    well_formed_arguments o ForumToolName.SocietyForumRead
      (ForumToolArguments.Read first through)
| post_arguments kind body in_reply_to supersedes :
    Object.keys o ≡ₚ
      ["message_kind"; "body_utf8"; "in_reply_to_message_id"; "supersedes_message_id"] ->
    Object.get "message_kind" o = Some (Value.String (ForumMessageKind.as_str kind)) ->
    text_field o "body_utf8" body ->
    reference_field o "in_reply_to_message_id" in_reply_to ->
    reference_field o "supersedes_message_id" supersedes ->
    well_formed_arguments o ForumToolName.SocietyForumPost
      (ForumToolArguments.Post kind body in_reply_to supersedes).

Lemma is_empty_spec s : is_empty s = true <-> s = "".
Proof. by destruct s. Qed.

Lemma positive_integer_exact o field z :
  positive_integer o field = Ok z <-> ordinal_field o field z.
Proof.
  unfold positive_integer, ordinal_field, absent_or.
  destruct (Object.get field o) as [[| |[value|value|]| | |]|] eqn:Hget;
    try (split; [done|]; naive_solver).
  - destruct (value <=? i64_max) eqn:Hmax; [destruct (0 <? value) eqn:Hpos|]; split; try done.
    + intros <-%Ok_inj. naive_solver lia.
    + intros (_ & [[[= ->] _]|]); done.
    + intros (? & [[[= ->] _]|]); [lia|done].
    + intros (? & [[[= ->] ?]|]); [lia|done].
  - destruct (0 <? value) eqn:Hpos; split; try done.
    + intros <-%Ok_inj. naive_solver lia.
    + intros (_ & [[]|[= ->]]); done.
    + intros (? & [[]|[= ->]]); [done|lia].
Qed.

Lemma required_string_exact o field invalid s :
  required_string o field invalid = Ok s <-> text_field o field s.
Proof.
  unfold required_string, text_field, absent_or.
  destruct (Object.get field o) as [[| | |value| |]|]; try (split; [done|]; naive_solver).
  destruct value as [|b value]; cbn; naive_solver.
Qed.

Lemma optional_string_exact o field reference :
  optional_string o field = Ok reference <-> reference_field o field reference.
Proof.
  unfold optional_string, reference_field, text_field.
  destruct (Object.get field o) as [[| | |[|b value]| |]|], reference; cbn; naive_solver.
Qed.

Lemma message_kind_exact o field kind :
  message_kind o field = Ok kind <->
  Object.get field o = Some (Value.String (ForumMessageKind.as_str kind)).
Proof.
  unfold message_kind, absent_or.
  destruct (Object.get field o) as [[| | |value| |]|]; try (split; done).
  destruct (String.eqb_spec value "finding") as [->|]; [destruct kind; by split|].
  destruct (String.eqb_spec value "correction") as [->|]; [destruct kind; by split|].
  destruct (String.eqb_spec value "question") as [->|]; [destruct kind; by split|].
  destruct (String.eqb_spec value "challenge") as [->|]; [destruct kind; by split|].
  destruct (String.eqb_spec value "synthesis") as [->|]; [destruct kind; by split|].
  split; [done|]. intros [= ->]. by destruct kind.
Qed.

(** States what the reads of the context found. *)
Ltac exact_reads :=
  repeat match goal with
  | H : positive_integer _ _ = Ok _ |- _ => apply positive_integer_exact in H
  | H : message_kind _ _ = Ok _ |- _ => apply message_kind_exact in H
  | H : required_string _ _ _ = Ok _ |- _ => apply required_string_exact in H
  | H : optional_string _ _ = Ok _ |- _ => apply optional_string_exact in H
  end.

(** ** The closed field sets *)

Definition argument_fields (tool : ForumToolName.t) : list string :=
  match tool with
  | ForumToolName.SocietyForumRead => ["first_message_ordinal"; "through_message_ordinal"]
  | ForumToolName.SocietyForumPost =>
      ["message_kind"; "body_utf8"; "in_reply_to_message_id"; "supersedes_message_id"]
  end.

(** The test that comes before every field is read. *)
Definition fields_refused (tool : ForumToolName.t) (o : Object.t) : bool :=
  existsb (fun key => negb (existsb (String.eqb key) (expected_fields tool))) (Object.keys o)
  || negb (Object.len o =? length (argument_fields tool))%nat.

Lemma decode_object tool o :
  decode_forum_tool_arguments tool (Value.Object o) =
  if fields_refused tool o then Err ForumToolArgumentsError.UnknownField
  else match tool with
       | ForumToolName.SocietyForumRead =>
           let? first := positive_integer o "first_message_ordinal" in
           let? through := positive_integer o "through_message_ordinal" in
           Ok (ForumToolArguments.Read first through)
       | ForumToolName.SocietyForumPost =>
           let? kind := message_kind o "message_kind" in
           let? body := required_string o "body_utf8" ForumToolArgumentsError.InvalidBody in
           let? in_reply_to := optional_string o "in_reply_to_message_id" in
           let? supersedes := optional_string o "supersedes_message_id" in
           Ok (ForumToolArguments.Post kind body in_reply_to supersedes)
       end.
Proof. by destruct tool. Qed.

Lemma len_keys (o : Object.t) : Object.len o = length (Object.keys o).
Proof. unfold Object.len, Object.keys. by rewrite length_fmap. Qed.

Lemma fields_admitted tool o :
  fields_refused tool o = false <->
  (forall key, key ∈ Object.keys o -> key ∈ expected_fields tool) /\
  length (Object.keys o) = length (argument_fields tool).
Proof.
  unfold fields_refused. rewrite orb_false_iff, negb_false_iff, Nat.eqb_eq, len_keys.
  rewrite <-not_true_iff_false, existsb_exists. apply and_iff_compat_r. split.
  - intros Hno key Hin. destruct (existsb (String.eqb key) (expected_fields tool)) eqn:He.
    + apply existsb_exists in He as (k & Hk & ->%String.eqb_eq). by apply list_elem_of_In.
    + destruct Hno. exists key. rewrite He. split; [by apply list_elem_of_In|done].
  - intros Hall (key & Hin%list_elem_of_In & Hneg).
    apply Hall, list_elem_of_In in Hin. apply negb_true_iff, not_true_iff_false in Hneg.
    destruct Hneg. apply existsb_exists. exists key. split; [done|apply String.eqb_refl].
Qed.

(** Fields in number and each present: exactly the argument fields. *)
Lemma fields_exact tool o :
  Object.sorted o -> (forall key, key ∈ argument_fields tool -> key ∈ Object.keys o) ->
  length (Object.keys o) = length (argument_fields tool) ->
  Object.keys o ≡ₚ argument_fields tool.
Proof.
  intros Hs Hall Hlen. symmetry. apply submseteq_length_Permutation; [|lia].
  apply NoDup_submseteq; [|done].
  apply (bool_decide_unpack _). by destruct tool; vm_compute.
Qed.

Lemma exact_fields_admitted tool o :
  Object.keys o ≡ₚ argument_fields tool -> fields_refused tool o = false.
Proof.
  intros Hp. apply fields_admitted. split; [|by rewrite Hp].
  intros key. rewrite Hp. destruct tool; [|exact (fun Hin => Hin)]. intros [->|[->|[]%elem_of_nil]%elem_of_cons]%elem_of_cons.
  - by left.
  - by right; left.
Qed.

Lemma get_present (o : Object.t) key v : Object.get key o = Some v -> key ∈ Object.keys o.
Proof. intros Hget. apply contains_key_elem. unfold Object.contains_key. by rewrite Hget. Qed.

Lemma ordinal_present o key z : ordinal_field o key z -> key ∈ Object.keys o.
Proof. intros (_ & [[Hget _]|Hget]); by eapply get_present. Qed.

Lemma reference_present o key r : reference_field o key r -> key ∈ Object.keys o.
Proof. destruct r; [intros [Hget _]|intros [Hget|Hget]]; by eapply get_present. Qed.

(** [decode_forum_tool_arguments] accepts exactly the argument objects of the
    tool contract, and reads them exactly: the tool's own fields and no others,
    ordinals positive and within [i64] whichever integer form carries them, a
    message kind of the closed set, a body that is not empty, and references that
    are text or absent. *)
Theorem forum_arguments_exact (tool : ForumToolName.t) (o : Object.t)
    (args : ForumToolArguments.t) (Hsorted : Object.sorted o) :
  decode_forum_tool_arguments tool (Value.Object o) = Ok args <->
  well_formed_arguments o tool args.
Proof.
  rewrite decode_object. split.
  - destruct (fields_refused tool o) eqn:Hf; [done|].
    apply fields_admitted in Hf as [_ Hlen].
    destruct tool; intros Hok; inv_ok Hok.
    + exact_reads. constructor; [|done..].
      apply (fields_exact ForumToolName.SocietyForumRead); [done| |done].
      intros key [->|[->|[]%elem_of_nil]%elem_of_cons]%elem_of_cons; by eapply ordinal_present.
    + exact_reads.
      constructor; [|done..].
      apply (fields_exact ForumToolName.SocietyForumPost); [done| |done].
      intros key [->|[->|[->|[->|[]%elem_of_nil]%elem_of_cons]%elem_of_cons]%elem_of_cons]%elem_of_cons;
        [by eapply get_present| |by eapply reference_present..].
      match goal with H : text_field _ _ _ |- _ => destruct H end. by eapply get_present.
  - intros Hwf. rewrite exact_fields_admitted by (by inversion Hwf).
    destruct Hwf as [first through _ Hf Ht|kind body irt sup _ Hk Hb Hr Hs].
    + apply positive_integer_exact in Hf, Ht. by rewrite Hf, Ht.
    + apply message_kind_exact in Hk.
      apply (required_string_exact _ _ ForumToolArgumentsError.InvalidBody) in Hb.
      apply optional_string_exact in Hr, Hs. by rewrite Hk, Hb, Hr, Hs.
Qed.

Lemma forum_arguments_exact_witness :
  decode_forum_tool_arguments ForumToolName.SocietyForumRead
    (Value.Object [("first_message_ordinal", json_u64 1); ("through_message_ordinal", json_u64 8)])
  = Ok (ForumToolArguments.Read 1 8).
Proof.
  apply forum_arguments_exact; [repeat constructor|].
  constructor; [reflexivity| |]; (split; [lia|left; split; [reflexivity|vm_compute; discriminate]]).
Defined.

(** A Forum call that leaves out one of its tool's fields is refused as
    holding an unknown field, never as missing one: the size test comes first,
    and only an empty key, which the padding of the field table admits, lets a
    call through to the read that reports a missing field. *)
Theorem missing_field_is_reported_as_unknown (tool : ForumToolName.t) (o : Object.t)
    (field : string) (Hsorted : Object.sorted o) (Hempty : "" ∉ Object.keys o)
    (Hfield : field ∈ argument_fields tool) (Hmissing : field ∉ Object.keys o) :
  decode_forum_tool_arguments tool (Value.Object o) = Err ForumToolArgumentsError.UnknownField.
Proof.
  rewrite decode_object. destruct (fields_refused tool o) eqn:Hf; [done|].
  apply fields_admitted in Hf as [Hknown Hlen]. destruct Hmissing.
  assert (Object.keys o ≡ₚ argument_fields tool) as ->; [|done].
  apply submseteq_length_Permutation; [|lia].
  apply NoDup_submseteq; [by apply sorted_nodup_keys|]. intros key Hkey.
  specialize (Hknown key Hkey). destruct tool; [|exact Hknown]. unfold argument_fields in *.
  cbn [expected_fields] in Hknown. rewrite !elem_of_cons in *.
  destruct Hknown as [|[|[->|[->|[]%elem_of_nil]]]]; [by left|by right; left|by destruct Hempty..].
Qed.

Lemma missing_field_is_reported_as_unknown_witness :
  decode_forum_tool_arguments ForumToolName.SocietyForumRead
    (Value.Object [("first_message_ordinal", json_u64 1)])
  = Err ForumToolArgumentsError.UnknownField.
Proof.
  apply (missing_field_is_reported_as_unknown _ _ "through_message_ordinal").
  - repeat constructor.
  - apply (bool_decide_unpack _). vm_compute. exact I.
  - apply (bool_decide_unpack _). vm_compute. exact I.
  - apply (bool_decide_unpack _). vm_compute. exact I.
Defined.
