(* ===== verification/PiTypes.v ===== *)
(** * Structured values of the Pi boundary

    The structs and payload-carrying enums of [society-pi/src/protocol.rs] and
    the [assert_pinned] checks that tie a session to the admitted model, actor
    policy and Forum contract. *)

From S2P Require Import Prelude Json PiText PiWire PiForum.

Module ToolProfileTools.
Definition tools (self : ToolProfile.t) : list PiToolName.t :=
  match self with
  | ToolProfile.ReadExecuteV1 =>
      [PiToolName.Read; PiToolName.Bash; PiToolName.Grep; PiToolName.Find; PiToolName.Ls]
  | ToolProfile.ReadWriteV1 => [PiToolName.Read; PiToolName.Write]
  | ToolProfile.WorkspaceMutationV1 =>
      [PiToolName.Read; PiToolName.Bash; PiToolName.Edit; PiToolName.Write;
       PiToolName.Grep; PiToolName.Find; PiToolName.Ls]
  | ToolProfile.WorkspaceIsolatedV1 =>
      [PiToolName.Read; PiToolName.Edit; PiToolName.Write; PiToolName.Ls]
  | ToolProfile.ForumIsolatedV1 =>
      [PiToolName.SocietyForumRead; PiToolName.SocietyForumPost]
  end.
End ToolProfileTools.

Definition model_thinking_level_is_admitted (model_id : ModelId.t)
    (thinking_level : ThinkingLevel.t) : bool :=
  match model_id with
  | ModelId.InclusionAiLing26Flash => bool_decide (thinking_level = ThinkingLevel.Off)
  | _ => bool_decide (thinking_level = ThinkingLevel.High)
  end.

(** ** Actor policy *)

Module RetryPolicyV1.
Record t := new {
  max_retries : NonNegativeInteger.t;
  base_delay_milliseconds : NonNegativeInteger.t;
  provider_timeout_milliseconds : PositiveInteger.t;
  provider_max_retries : NonNegativeInteger.t;
  provider_max_retry_delay_milliseconds : PositiveInteger.t;
}.
#[global] Instance eq_dec : EqDecision t.
Proof. solve_decision. Defined.
End RetryPolicyV1.

Module CompactionPolicyV1.
Record t := new {
  mode : CompactionMode.t;
  reserve_tokens : NonNegativeInteger.t;
  keep_recent_tokens : NonNegativeInteger.t;
}.
#[global] Instance eq_dec : EqDecision t.
Proof. solve_decision. Defined.
End CompactionPolicyV1.

Module ActorModelPolicyV1.
Record t := new {
  retry : RetryPolicyV1.t;
  compaction : CompactionPolicyV1.t;
  steering_mode : QueueMode.t;
  follow_up_mode : QueueMode.t;
  transport : Transport.t;
  project_trust : ProjectTrust.t;
  install_telemetry : Disabled.t;
  analytics : Disabled.t;
  images : Images.t;
}.
#[global] Instance eq_dec : EqDecision t.
Proof. solve_decision. Defined.

Definition assert_pinned (self : t) : protocol_result unit :=
  let retry := retry self in
  let compaction := compaction self in
  if negb (NonNegativeInteger.value (RetryPolicyV1.max_retries retry) =? 2)
     || negb (NonNegativeInteger.value (RetryPolicyV1.base_delay_milliseconds retry) =? 2000)
     || negb (PositiveInteger.value (RetryPolicyV1.provider_timeout_milliseconds retry) =? 300000)
     || negb (NonNegativeInteger.value (RetryPolicyV1.provider_max_retries retry) =? 1)
     || negb (PositiveInteger.value
                (RetryPolicyV1.provider_max_retry_delay_milliseconds retry) =? 30000)
     || negb (bool_decide (CompactionPolicyV1.mode compaction = CompactionMode.Enabled))
     || negb (NonNegativeInteger.value (CompactionPolicyV1.reserve_tokens compaction) =? 16384)
     || negb (NonNegativeInteger.value (CompactionPolicyV1.keep_recent_tokens compaction) =? 20000)
     || negb (bool_decide (steering_mode self = QueueMode.OneAtATime))
     || negb (bool_decide (follow_up_mode self = QueueMode.OneAtATime))
     || negb (bool_decide (transport self = Transport.Sse))
     || negb (bool_decide (project_trust self = ProjectTrust.Never))
     || negb (bool_decide (install_telemetry self = Disabled.Disabled))
     || negb (bool_decide (analytics self = Disabled.Disabled))
     || negb (bool_decide (images self = Images.Blocked))
  then invalid_frame "pinned actor model policy"
  else Ok ().
End ActorModelPolicyV1.

(** ** Model selection and catalog *)

Module ModelSelection.
Record t := new {
  provider : Provider.t;
  model_id : ModelId.t;
  thinking_level : ThinkingLevel.t;
}.
#[global] Instance eq_dec : EqDecision t.
Proof. solve_decision. Defined.
End ModelSelection.

Module KnownPerMillionRateV1.
Record t := new { usd_per_million : UsdPerMillionDecimal.t }.
#[global] Instance eq_dec : EqDecision t.
Proof. solve_decision. Defined.
End KnownPerMillionRateV1.

Module CacheWritePerMillionRateV1.
Inductive t : Set := Known (rate : KnownPerMillionRateV1.t) | Absent.
#[global] Instance eq_dec : EqDecision t.
Proof. solve_decision. Defined.
End CacheWritePerMillionRateV1.

Module EffectiveModelDescriptorV1.
Record t := new {
  provider : Provider.t;
  base_url : OpenRouterBaseUrl.t;
  api : ModelApi.t;
  model_id : ModelId.t;
  canonical_slug : CanonicalModelSlug.t;
  input : ModelInput.t;
  context_window : PositiveInteger.t;
  max_tokens : PositiveInteger.t;
  input_usd_per_million : KnownPerMillionRateV1.t;
  output_usd_per_million : KnownPerMillionRateV1.t;
  cache_read_usd_per_million : KnownPerMillionRateV1.t;
  cache_write_usd_per_million : CacheWritePerMillionRateV1.t;
}.
#[global] Instance eq_dec : EqDecision t.
Proof. solve_decision. Defined.
End EffectiveModelDescriptorV1.

Module ModelCatalogPolicyV1.
Record t := new {
  catalog_blake3 : Blake3Digest.t;
  effective_model : EffectiveModelDescriptorV1.t;
}.
#[global] Instance eq_dec : EqDecision t.
Proof. solve_decision. Defined.

(** The admitted (window, max tokens, input, output, cache read) per model. *)
Definition expected (model_id : ModelId.t) (canonical_slug : CanonicalModelSlug.t) :
  option (Z * Z * string * string * string) :=
  match model_id, canonical_slug with
  | ModelId.DeepseekV4Flash0731, CanonicalModelSlug.DeepseekV4Flash20260731 =>
      Some (1048576, 384000, "0.09", "0.18", "0.018")
  | ModelId.InclusionAiLing30TinyFree, CanonicalModelSlug.InclusionAiLing30TinyFree
  | ModelId.PoolsideLagunaXs21Free, CanonicalModelSlug.PoolsideLagunaXs21Free =>
      Some (262144, 32768, "0", "0", "0")
  | ModelId.InclusionAiLing26Flash, CanonicalModelSlug.InclusionAiLing26Flash =>
      Some (262144, 32768, "0.01", "0.03", "0.002")
  | _, _ => None
  end%string.

Definition rate_text (rate : KnownPerMillionRateV1.t) : string :=
  UsdPerMillionDecimal.as_str (KnownPerMillionRateV1.usd_per_million rate).

Definition assert_pinned (self : t) : protocol_result unit :=
  let model := effective_model self in
  match expected (EffectiveModelDescriptorV1.model_id model)
          (EffectiveModelDescriptorV1.canonical_slug model) with
  | None => invalid_frame "pinned model catalog policy"
  | Some (window, tokens, input, output, cache_read) =>
      if negb (bool_decide (EffectiveModelDescriptorV1.provider model = Provider.OpenRouter))
         || negb (bool_decide (EffectiveModelDescriptorV1.base_url model = OpenRouterBaseUrl.ApiV1))
         || negb (bool_decide (EffectiveModelDescriptorV1.api model = ModelApi.OpenAiCompletions))
         || negb (bool_decide (EffectiveModelDescriptorV1.input model = ModelInput.TextOnly))
         || negb (PositiveInteger.value (EffectiveModelDescriptorV1.context_window model) =? window)
         || negb (PositiveInteger.value (EffectiveModelDescriptorV1.max_tokens model) =? tokens)
         || negb (rate_text (EffectiveModelDescriptorV1.input_usd_per_million model) =? input)%string
         || negb (rate_text (EffectiveModelDescriptorV1.output_usd_per_million model) =? output)%string
         || negb (rate_text (EffectiveModelDescriptorV1.cache_read_usd_per_million model)
                  =? cache_read)%string
         || negb (bool_decide (EffectiveModelDescriptorV1.cache_write_usd_per_million model
                               = CacheWritePerMillionRateV1.Absent))
      then invalid_frame "pinned model catalog policy"
      else Ok ()
  end.
End ModelCatalogPolicyV1.

(** ** Commands to the host *)

Module CreateSessionPayload.
Record t := new {
  session_kind : SessionKind.t;
  cwd : AbsolutePath.t;
  agent_directory : AbsolutePath.t;
  auth_path : AbsolutePath.t;
  models_path : AbsolutePath.t;
  session_directory : AbsolutePath.t;
  system_prompt : string;
  system_prompt_digest : Blake3Digest.t;
  model : ModelSelection.t;
  model_catalog : ModelCatalogPolicyV1.t;
  tool_profile : ToolProfile.t;
  settings : ActorModelPolicyV1.t;
  forum_contract : ForumSessionContractV1.t;
}.
End CreateSessionPayload.

Module PromptPayload.
Record t := new { purpose : PromptPurpose.t; text : string }.
End PromptPayload.

Module FollowUpPayload.
Record t := new {
  notice_delivery_identity : CorrelationIdentity;
  ledger_frontier : LedgerFrontier.t;
  text : string;
}.
End FollowUpPayload.

Module SteerPayload.
Record t := new { reason : SteerReason.t; text : string }.
End SteerPayload.

Module AbortPayload.
Record t := new { reason : AbortReason.t }.
End AbortPayload.

Module DisposePayload.
Record t := new { reason : DisposeReason.t }.
End DisposePayload.

Module ForumToolResultPayload.
Record t := new {
  tool_call_identity : ToolCallIdentity;
  result : Value.t;
  is_error : bool;
}.
End ForumToolResultPayload.

Module InboundCommand.
Inductive t :=
| CreateSession (payload : CreateSessionPayload.t)
| Prompt (payload : PromptPayload.t)
| FollowUp (payload : FollowUpPayload.t)
| Steer (payload : SteerPayload.t)
| Abort (payload : AbortPayload.t)
| GetState
| Dispose (payload : DisposePayload.t)
| ForumToolResult (payload : ForumToolResultPayload.t).

Definition name (self : t) : CommandName.t :=
  match self with
  | CreateSession _ => CommandName.CreateSession
  | Prompt _ => CommandName.Prompt
  | FollowUp _ => CommandName.FollowUp
  | Steer _ => CommandName.Steer
  | Abort _ => CommandName.Abort
  | GetState => CommandName.GetState
  | Dispose _ => CommandName.Dispose
  | ForumToolResult _ => CommandName.ForumToolResult
  end.
End InboundCommand.

Module InboundFrame.
Record t := new {
  sequence : BoundarySequence.t;
  session_identity : SessionIdentity;
  correlation_identity : CorrelationIdentity;
  command : InboundCommand.t;
}.
End InboundFrame.

(** ** Host runtime and effective session *)

Module RuntimeIdentity.
Record t := new {
  node_version : NodeRuntimeVersion.t;
  adapter_version : AdapterVersion.t;
  pi_sdk_version : PiSdkVersion.t;
  node_executable_blake3 : Blake3Digest.t;
  lockfile_blake3 : Blake3Digest.t;
  adapter_build_blake3 : Blake3Digest.t;
  pi_transitive_package_set_blake3 : Blake3Digest.t;
}.
#[global] Instance eq_dec : EqDecision t.
Proof. solve_decision. Defined.

Definition assert_v1 (self : t) : protocol_result unit :=
  if negb (bool_decide (adapter_version self = AdapterVersion.V1))
     || negb (bool_decide (pi_sdk_version self = PiSdkVersion.V0841))
  then invalid_frame "runtime identity"
  else Ok ().
End RuntimeIdentity.

Module EffectiveSessionConfiguration.
Record t := new {
  session_kind : SessionKind.t;
  cwd : AbsolutePath.t;
  session_directory : AbsolutePath.t;
  session_file : AbsolutePath.t;
  model : ModelSelection.t;
  model_catalog : ModelCatalogPolicyV1.t;
  tool_profile : ToolProfile.t;
  tools : list PiToolName.t;
  settings : ActorModelPolicyV1.t;
  forum_contract : ForumSessionContractV1.t;
}.

Definition assert_pinned (self : t) : protocol_result unit :=
  check? ModelCatalogPolicyV1.assert_pinned (model_catalog self);
  check? ActorModelPolicyV1.assert_pinned (settings self);
  check? ForumSessionContractV1.assert_pinned (forum_contract self);
  if negb (bool_decide (ModelSelection.provider (model self) = Provider.OpenRouter))
     || negb (bool_decide (ModelSelection.model_id (model self)
          = EffectiveModelDescriptorV1.model_id
              (ModelCatalogPolicyV1.effective_model (model_catalog self))))
     || negb (model_thinking_level_is_admitted (ModelSelection.model_id (model self))
                (ModelSelection.thinking_level (model self)))
     || negb (bool_decide (tools self = ToolProfileTools.tools (tool_profile self)))
  then invalid_frame "effective session configuration"
  else Ok ().
End EffectiveSessionConfiguration.

(** ** Usage, lifecycle events and results from the host *)

Module ProviderCostObservationV1.
Record t := new { binary64_big_endian_hex : Binary64BigEndianHex.t }.
End ProviderCostObservationV1.

Module UsageTotals.
Record t := new {
  input_tokens : NonNegativeInteger.t;
  output_tokens : NonNegativeInteger.t;
  cache_read_tokens : NonNegativeInteger.t;
  cache_write_tokens : NonNegativeInteger.t;
  total_tokens : NonNegativeInteger.t;
  provider_cost : ProviderCostObservationV1.t;
}.
End UsageTotals.

Module UsageObservation.
Inductive t :=
| Known (totals : UsageTotals.t)
| Unavailable (reason : UsageUnavailableReason.t).
End UsageObservation.

Module ProjectedAgentEvent.
Inductive t :=
| AgentStart
| AgentEnd (messages : list Value.t) (will_retry : bool)
| AgentSettled
| TurnStart
| TurnEnd (message : Value.t) (tool_results : list Value.t)
| MessageStart (message : Value.t)
| MessageUpdate (message assistant_message_event : Value.t)
| MessageEnd (message : Value.t)
| ToolExecutionStart (tool_call_identity : ToolCallIdentity) (tool_name : PiToolName.t)
    (args : Value.t)
| ToolExecutionUpdate (tool_call_identity : ToolCallIdentity) (tool_name : PiToolName.t)
    (args partial_result : Value.t)
| ToolExecutionEnd (tool_call_identity : ToolCallIdentity) (tool_name : PiToolName.t)
    (result : Value.t) (is_error : bool)
| QueueUpdate (steering follow_up : list string)
| EntryAppended (entry : Value.t)
| BashExecutionUpdate (execution_identity : option BashExecutionIdentity) (delta : string)
| CompactionStart (reason : CompactionReason.t)
| SessionInfoChanged (name : option string)
| ThinkingLevelChanged (level : ThinkingLevel.t)
| CompactionEnd (reason : CompactionReason.t) (result : option Value.t)
    (aborted will_retry : bool) (error_message : option string)
| AutoRetryStart (attempt max_attempts delay_milliseconds : NonNegativeInteger.t)
    (error_message : string)
| AutoRetryEnd (success : bool) (attempt : NonNegativeInteger.t)
    (final_error : option string)
| SummarizationRetryScheduled
    (attempt max_attempts delay_milliseconds : NonNegativeInteger.t) (error_message : string)
| SummarizationRetryAttemptStart (source : SummarizationSource.t)
    (reason : option CompactionReason.t)
| SummarizationRetryFinished.
End ProjectedAgentEvent.

Module CommandResultDetail.
Inductive t :=
| Acknowledged
| State (phase : AdapterPhase.t) (liveness : SessionLiveness.t)
    (session_file : option AbsolutePath.t).
End CommandResultDetail.

Module CommandResult.
Inductive t :=
| Accepted (command : CommandName.t) (detail : CommandResultDetail.t)
| Rejected (command : CommandName.t) (failure_code : AdapterFailureCode.t).
End CommandResult.

Module FinalAssistantOutcome.
Inductive t : Set :=
| Observed (stop_reason : AssistantStopReason.t)
| Unavailable (reason : FinalAssistantUnavailableReason.t).
#[global] Instance eq_dec : EqDecision t.
Proof. solve_decision. Defined.
End FinalAssistantOutcome.

Module FirstUserPromptReceipt.
Inductive t : Set := Absent | Verified (digest : Blake3Digest.t).
#[global] Instance eq_dec : EqDecision t.
Proof. solve_decision. Defined.
End FirstUserPromptReceipt.

Module TranscriptFlushReceiptV1.
Inductive t :=
| Materialized (session_identity : SessionIdentity) (session_file : AbsolutePath.t)
    (session_file_blake3 : Blake3Digest.t) (header_cwd : AbsolutePath.t)
    (first_user_prompt : FirstUserPromptReceipt.t)
| UnmaterializedNoPrompt (session_identity : SessionIdentity)
    (session_file : AbsolutePath.t).
End TranscriptFlushReceiptV1.

Module OutboundEvent.
Inductive t :=
| AdapterReady (pid : HostProcessId.t) (spawn_nonce : SpawnNonce)
    (runtime : RuntimeIdentity.t)
| SessionReady (configuration : EffectiveSessionConfiguration.t)
| CommandResult (r : CommandResult.t)
| AgentEvent (agent_event : ProjectedAgentEvent.t)
| ForumToolCall (tool_call_identity : ToolCallIdentity) (tool_name : ForumToolName.t)
    (args : Value.t)
| UsageSnapshot (usage : UsageObservation.t)
| Settled (classification : SettledClassification.t)
    (final_assistant_outcome : FinalAssistantOutcome.t)
| Disposed (transcript_flush_receipt : TranscriptFlushReceiptV1.t)
| Fatal (failure_code : AdapterFailureCode.t).
End OutboundEvent.

Module OutboundFrame.
Record t := new {
  sequence : BoundarySequence.t;
  session_identity : SessionIdentity;
  correlation_identity : option CorrelationIdentity;
  event : OutboundEvent.t;
}.
End OutboundFrame.
