(* ===== verification/PiScanner.v ===== *)
(** * The bounded duplicate-key scanner

    [reject_duplicate_object_keys] of [society-pi/src/protocol.rs]: the pre-scan
    that bounds nesting, rejects duplicate decoded keys and negative zero before
    the JSON library sees a frame.  The scanner's position [at] is the suffix
    [bytes\[at..\]] still to read.  [value], [object] and [array] recurse with
    fuel; [Err None] is fuel exhaustion, which [scanner_terminates] rules out for
    the fuel [reject_duplicate_object_keys] passes.  The declarative grammar
    [text] says which inputs are accepted. *)

From S2P Require Import Prelude Json PiText.

(** ** Negative zero *)

(** One run of ASCII digits: how many, whether all are ['0'], what follows. *)
Fixpoint digit_run (digits : nat) (zero : bool) (l : list byte) : nat * bool * list byte :=
  match l with
  | b :: rest =>
      if is_ascii_digit b then digit_run (S digits) (zero && Ascii.eqb b "0") rest
      else (digits, zero, l)
  | [] => (digits, zero, [])
  end.

(** The optional fraction: whether it is well formed, all zeros, and the rest. *)
Definition fraction_run (l : list byte) : bool * bool * list byte :=
  match l with
  | c :: l' =>
      if Ascii.eqb c "." then
        let '(fraction_digits, fraction_zero, l') := digit_run 0 true l' in
        (negb (fraction_digits =? 0)%nat, fraction_zero, l')
      else (true, true, l)
  | [] => (true, true, l)
  end.

(** The optional exponent: whether it is well formed, and the rest. *)
Definition exponent_run (l : list byte) : bool * list byte :=
  match l with
  | c :: l' =>
      if Ascii.eqb c "e" || Ascii.eqb c "E" then
        let l' := match l' with
                  | s :: l'' => if Ascii.eqb s "+" || Ascii.eqb s "-" then l'' else l'
                  | [] => l'
                  end in
        let '(exponent_digits, _, l') := digit_run 0 true l' in
        (negb (exponent_digits =? 0)%nat, l')
      else (true, l)
  | [] => (true, l)
  end.

Definition is_negative_zero_number (value : list byte) : bool :=
  match value with
  | b :: l =>
      if negb (Ascii.eqb b "-") then false else
      let '(integer_digits, integer_zero, l) := digit_run 0 true l in
      if (integer_digits =? 0)%nat then false else
      let '(fraction_ok, fraction_zero, l) := fraction_run l in
      if negb fraction_ok then false else
      let '(exponent_ok, l) := exponent_run l in
      if negb exponent_ok then false else
      bool_decide (l = []) && integer_zero && fraction_zero
  | [] => false
  end.

(** ** The scanner *)

Definition is_json_space (b : byte) : bool :=
  Ascii.eqb b " " || Ascii.eqb b "010" || Ascii.eqb b "013" || Ascii.eqb b "009".
(** Bytes that end a primitive token. *)
Definition ends_primitive (b : byte) : bool :=
  Ascii.eqb b "," || Ascii.eqb b "]" || Ascii.eqb b "}" || is_json_space b.
Definition quote : byte := "034".
Definition backslash : byte := "\".

Abbreviation scan_result A := (result A (option ProtocolError.t)).
Definition scan_error {A} (e : ProtocolError.t) : scan_result A := Err (Some e).
Definition out_of_fuel {A} : scan_result A := Err None.

Section Scanner.
Context `{JsonLibrary}.

Fixpoint whitespace (l : list byte) : list byte :=
  match l with
  | b :: rest => if is_json_space b then whitespace rest else l
  | [] => []
  end.

(** The loop of [string] after the opening quote: the body and the closing
    quote, and the rest. *)
Fixpoint string_body (l : list byte) : scan_result (list byte * list byte) :=
  match l with
  | [] => scan_error ProtocolError.InvalidJson
  | b :: rest =>
      if Ascii.eqb b quote then Ok ([b], rest)
      else if Ascii.eqb b backslash then
        match rest with
        | [] => scan_error ProtocolError.InvalidJson
        | c :: rest =>
            let? '(body, rest) := string_body rest in Ok (b :: c :: body, rest)
        end
      else if (byte_value b <=? 31)%N then scan_error ProtocolError.InvalidJson
      else let? '(body, rest) := string_body rest in Ok (b :: body, rest)
  end.

(** The decoded text of a quoted token, as the JSON library reads it. *)
Definition decode_string_token (raw : list byte) : scan_result string :=
  if negb (utf8_valid raw) then scan_error ProtocolError.InvalidJson
  else match from_str (string_of_list_ascii raw) with
       | Some (Value.String value) => Ok value
       | _ => scan_error ProtocolError.InvalidJson
       end.

Definition scan_string (l : list byte) : scan_result (string * list byte) :=
  match l with
  | b :: rest =>
      if Ascii.eqb b quote then
        let? '(body, rest) := string_body rest in
        let? value := decode_string_token (b :: body) in
        Ok (value, rest)
      else scan_error ProtocolError.InvalidJson
  | [] => scan_error ProtocolError.InvalidJson
  end.

Fixpoint primitive_token (l : list byte) : list byte * list byte :=
  match l with
  | b :: rest =>
      if ends_primitive b then ([], l)
      else let '(token, rest) := primitive_token rest in (b :: token, rest)
  | [] => ([], [])
  end.

Definition scan_primitive (l : list byte) : scan_result (list byte) :=
  let '(token, rest) := primitive_token l in
  match token with
  | [] => scan_error ProtocolError.InvalidJson
  | _ => if is_negative_zero_number token then scan_error ProtocolError.NegativeZero
         else Ok rest
  end.

(** [value(depth)], and the loops of [object(depth)] and [array(depth)] after
    their opening byte.  [object] and [array] check the depth they are
    entered with, and close at once on an empty container. *)
Fixpoint scan_value (fuel : nat) (depth : Z) (l : list byte) : scan_result (list byte) :=
  match fuel with
  | O => out_of_fuel
  | S fuel =>
      if MAX_JSON_NESTING <? depth then scan_error ProtocolError.NestingTooDeep else
      match whitespace l with
      | [] => scan_error ProtocolError.InvalidJson
      | (b :: rest) as l =>
          if Ascii.eqb b quote then
            let? '(_, rest) := scan_string l in Ok rest
          else if Ascii.eqb b "{" then
            if MAX_JSON_NESTING <? depth + 1 then scan_error ProtocolError.NestingTooDeep
            else match whitespace rest with
                 | c :: rest' =>
                     if Ascii.eqb c "}" then Ok rest'
                     else scan_fields fuel (depth + 1) [] (c :: rest')
                 | [] => scan_fields fuel (depth + 1) [] []
                 end
          else if Ascii.eqb b "[" then
            if MAX_JSON_NESTING <? depth + 1 then scan_error ProtocolError.NestingTooDeep
            else match whitespace rest with
                 | c :: rest' =>
                     if Ascii.eqb c "]" then Ok rest'
                     else scan_elements fuel (depth + 1) (c :: rest')
                 | [] => scan_elements fuel (depth + 1) []
                 end
          else scan_primitive l
      end
  end
with scan_fields (fuel : nat) (depth : Z) (keys : list string) (l : list byte) :
  scan_result (list byte) :=
  match fuel with
  | O => out_of_fuel
  | S fuel =>
      let? '(key, l) := scan_string (whitespace l) in
      if existsb (String.eqb key) keys then scan_error ProtocolError.DuplicateObjectKey else
      match whitespace l with
      | b :: l =>
          if negb (Ascii.eqb b ":") then scan_error ProtocolError.InvalidJson else
          let? l := scan_value fuel depth l in
          match whitespace l with
          | c :: l =>
              if Ascii.eqb c "}" then Ok l
              else if Ascii.eqb c "," then scan_fields fuel depth (key :: keys) l
              else scan_error ProtocolError.InvalidJson
          | [] => scan_error ProtocolError.InvalidJson
          end
      | [] => scan_error ProtocolError.InvalidJson
      end
  end
with scan_elements (fuel : nat) (depth : Z) (l : list byte) : scan_result (list byte) :=
  match fuel with
  | O => out_of_fuel
  | S fuel =>
      let? l := scan_value fuel depth l in
      match whitespace l with
      | c :: l =>
          if Ascii.eqb c "]" then Ok l
          else if Ascii.eqb c "," then scan_elements fuel depth l
          else scan_error ProtocolError.InvalidJson
      | [] => scan_error ProtocolError.InvalidJson
      end
  end.

(** Fuel that suffices: two units per byte and one for the call. *)
Definition scan_fuel (l : list byte) : nat := S (2 * length l).

Definition scan (input : string) : scan_result unit :=
  let l := bytes input in
  let? rest := scan_value (scan_fuel l) 0 l in
  match whitespace rest with
  | [] => Ok ()
  | _ => scan_error ProtocolError.InvalidJson
  end.

Definition reject_duplicate_object_keys (input : string) : protocol_result unit :=
  map_err (default ProtocolError.InvalidJson) (scan input).
End Scanner.

#[local] Arguments scan_string : simpl never.
#[local] Arguments scan_primitive : simpl never.

(** ** Termination: the fuel is never exhausted *)

Section Termination.
Context `{JsonLibrary}.

Lemma whitespace_length l : (length (whitespace l) <= length l)%nat.
Proof. induction l as [|b l IH]; cbn; [done|]. destruct (is_json_space b); cbn; lia. Qed.

Lemma string_body_split l body rest :
  string_body l = Ok (body, rest) -> l = body ++ rest /\ body <> [].
Proof.
  revert body rest. induction l as [l IH] using (induction_ltof1 _ (@length byte)).
  unfold ltof in IH. intros body rest Hb. destruct l as [|b l]; cbn in Hb; [done|].
  destruct (Ascii.eqb b quote); [by simplify_eq|].
  destruct (Ascii.eqb b backslash).
  - destruct l as [|c l]; [done|]. inv_ok Hb.
    match goal with E : string_body _ = _ |- _ => apply IH in E as [-> _]; [done|cbn; lia] end.
  - destruct (byte_value b <=? 31)%N; [done|]. inv_ok Hb.
    match goal with E : string_body _ = _ |- _ => apply IH in E as [-> _]; [done|cbn; lia] end.
Qed.

Lemma string_body_fuel l : string_body l <> out_of_fuel.
Proof.
  induction l as [l IH] using (induction_ltof1 _ (@length byte)). unfold ltof in IH.
  destruct l as [|b l]; cbn; [done|].
  destruct (Ascii.eqb b quote); [done|]. destruct (Ascii.eqb b backslash).
  - destruct l as [|c l]; [done|].
    destruct (string_body l) as [[]|e] eqn:E; [done|].
    intros [= ->]. by eapply (IH l); cbn; [lia|].
  - destruct (byte_value b <=? 31)%N; [done|].
    destruct (string_body l) as [[]|e] eqn:E; [done|].
    intros [= ->]. by eapply (IH l); cbn; [lia|].
Qed.

Lemma decode_string_token_fuel raw : decode_string_token raw <> out_of_fuel.
Proof. unfold decode_string_token. by repeat case_match. Qed.

Lemma scan_string_fuel l : scan_string l <> out_of_fuel.
Proof.
  unfold scan_string. destruct l as [|b l]; [done|]. destruct (Ascii.eqb b quote); [|done].
  pose proof (string_body_fuel l) as Hf. unfold out_of_fuel in *.
  destruct (string_body l) as [[body rest]|e]; [|congruence].
  pose proof (decode_string_token_fuel (b :: body)) as Hd. unfold out_of_fuel in *.
  destruct (decode_string_token _); congruence.
Qed.

Lemma scan_string_length l key rest :
  scan_string l = Ok (key, rest) -> (length rest < length l)%nat.
Proof.
  unfold scan_string. intros Hs. inv_ok Hs.
  match goal with E : string_body _ = _ |- _ => apply string_body_split in E as [-> _] end.
  cbn. rewrite length_app. lia.
Qed.

Lemma primitive_token_split l token rest :
  primitive_token l = (token, rest) -> l = token ++ rest.
Proof.
  revert token rest. induction l as [|b l IH]; cbn; intros token rest Hp; [by simplify_eq|].
  destruct (ends_primitive b); [by simplify_eq|].
  destruct (primitive_token l) as [t r]. simplify_eq/=. f_equal. eauto.
Qed.

Lemma scan_primitive_length l rest :
  scan_primitive l = Ok rest -> (length rest < length l)%nat.
Proof.
  unfold scan_primitive. destruct (primitive_token l) as [token r] eqn:E. intros Hs.
  apply primitive_token_split in E as ->. inv_ok Hs. rewrite length_app. cbn. lia.
Qed.

Lemma scan_primitive_fuel l : scan_primitive l <> out_of_fuel.
Proof.
  unfold scan_primitive. destruct (primitive_token l) as [[|? ?] r]; [done|].
  by destruct (is_negative_zero_number _).
Qed.

(** Every bound on a suffix the scanner moved to. *)
Ltac suffix_lengths :=
  repeat match goal with
  | E : whitespace ?l = _ |- _ =>
      pose proof (whitespace_length l); rewrite E in *; revert E
  | E : scan_string _ = Ok _ |- _ => apply scan_string_length in E
  | E : scan_primitive _ = Ok _ |- _ => apply scan_primitive_length in E
  end; intros; cbn [length] in *.

Lemma scan_consumes fuel :
  (forall d l r, scan_value fuel d l = Ok r -> (length r < length l)%nat) /\
  (forall d keys l r, scan_fields fuel d keys l = Ok r -> (length r < length l)%nat) /\
  (forall d l r, scan_elements fuel d l = Ok r -> (length r < length l)%nat).
Proof.
  induction fuel as [|fuel (IHv & IHf & IHe)]; [done|].
  split_and!; [intros d l r Hs|intros d keys l r Hs|intros d l r Hs]; cbn in Hs;
    inv_ok Hs;
    repeat match goal with
    | E : scan_value _ _ _ = Ok _ |- _ => apply IHv in E
    | E : scan_fields _ _ _ _ = Ok _ |- _ => apply IHf in E
    | E : scan_elements _ _ _ = Ok _ |- _ => apply IHe in E
    end; suffix_lengths; try lia.
  all: pose proof (whitespace_length l); suffix_lengths; lia.
Qed.

(** A step that returned an error did not run out of fuel. *)
Ltac no_fuel_error :=
  match goal with
  | E : scan_string ?l = Err ?e |- _ =>
      intros [= ->]; by destruct (scan_string_fuel l)
  | |- scan_primitive _ <> _ => apply scan_primitive_fuel
  end.

Lemma scan_fuel_suffices fuel :
  (forall d l, (2 * length l + 1 <= fuel)%nat -> scan_value fuel d l <> out_of_fuel) /\
  (forall d keys l, (2 * length l + 2 <= fuel)%nat ->
     scan_fields fuel d keys l <> out_of_fuel) /\
  (forall d l, (2 * length l + 2 <= fuel)%nat -> scan_elements fuel d l <> out_of_fuel).
Proof.
  unfold out_of_fuel. induction fuel as [|fuel (IHv & IHf & IHe)]; [split_and!; lia|].
  split_and!; [intros d l Hfuel|intros d keys l Hfuel|intros d l Hfuel]; cbn.
  - pose proof (whitespace_length l) as Hw.
    destruct (_ <? d); [done|]. destruct (whitespace l) as [|b rest]; [done|].
    cbn [length] in Hw. pose proof (whitespace_length rest) as Hw'.
    destruct (Ascii.eqb b quote).
    { destruct (scan_string _) as [[]|] eqn:E; [done|no_fuel_error]. }
    destruct (Ascii.eqb b "{").
    { destruct (_ <? d + 1); [done|]. destruct (whitespace rest) as [|c rest'];
        [apply IHf; cbn; lia|]. destruct (Ascii.eqb c "}"); [done|].
      apply IHf. cbn in *. lia. }
    destruct (Ascii.eqb b "[").
    { destruct (_ <? d + 1); [done|]. destruct (whitespace rest) as [|c rest'];
        [apply IHe; cbn; lia|]. destruct (Ascii.eqb c "]"); [done|].
      apply IHe. cbn in *. lia. }
    no_fuel_error.
  - pose proof (whitespace_length l) as Hw.
    destruct (scan_string (whitespace l)) as [[key l1]|] eqn:E1; [|no_fuel_error].
    apply scan_string_length in E1. destruct (existsb _ keys); [done|].
    pose proof (whitespace_length l1) as Hw1.
    destruct (whitespace l1) as [|b l2]; [done|]. destruct (negb _); [done|].
    cbn in Hw1. destruct (scan_value fuel d l2) as [l3|] eqn:E2.
    2:{ intros [= ->]. eapply IHv; [|done]. lia. }
    apply (proj1 (scan_consumes fuel)) in E2. pose proof (whitespace_length l3) as Hw3.
    destruct (whitespace l3) as [|c l4]; [done|]. cbn in Hw3.
    destruct (Ascii.eqb c "}"); [done|]. destruct (Ascii.eqb c ","); [|done].
    apply IHf. lia.
  - destruct (scan_value fuel d l) as [l3|] eqn:E2.
    2:{ intros [= ->]. eapply IHv; [|done]. lia. }
    apply (proj1 (scan_consumes fuel)) in E2. pose proof (whitespace_length l3) as Hw3.
    destruct (whitespace l3) as [|c l4]; [done|]. cbn in Hw3.
    destruct (Ascii.eqb c "]"); [done|]. destruct (Ascii.eqb c ","); [|done].
    apply IHe. lia.
Qed.

Lemma scan_never_out_of_fuel input : scan input <> out_of_fuel.
Proof.
  unfold scan, out_of_fuel.
  pose proof (proj1 (scan_fuel_suffices (scan_fuel (bytes input))) 0 (bytes input)) as Hf.
  destruct (scan_value _ 0 _) as [rest|e].
  - by destruct (whitespace rest).
  - intros [= ->]. apply Hf; [unfold scan_fuel; lia|done].
Qed.
End Termination.
