(* ===== verification/PiScannerSpec.v ===== *)
(** * What the duplicate-key scanner accepts

    The declarative side of [PiScanner]: a grammar of the texts the scanner lets
    through (nesting bounded, decoded keys distinct, no negative zero), the
    grammar of the negative-zero spellings, and the proofs that the code
    implements both, in both directions. *)

From S2P Require Import Prelude Json PiText PiScanner.

#[local] Arguments scan_string : simpl never.
#[local] Arguments scan_primitive : simpl never.

(** ** The accepted texts *)

Section Grammar.
Context `{JsonLibrary}.

Definition spaces (l : list byte) : Prop := Forall (fun b => is_json_space b = true) l.

(** A quoted token and the key it decodes to. *)
Definition quoted (raw : list byte) (key : string) : Prop :=
  exists body, raw = quote :: body /\ string_body body = Ok (body, [])
               /\ decode_string_token raw = Ok key.

Definition primitive (p : list byte) : Prop :=
  exists b p', p = b :: p' /\ b <> quote /\ b <> "{"%char /\ b <> "["%char
    /\ Forall (fun c => ends_primitive c = false) p
    /\ is_negative_zero_number p = false.

(** [text k t]: a JSON-shaped text whose containers nest at most [k] deep and
    whose objects have pairwise distinct decoded keys. *)
Inductive text : nat -> list byte -> Prop :=
| text_string k raw key : quoted raw key -> text k raw
| text_primitive k p : primitive p -> text k p
| text_empty_object k w : spaces w -> text (S k) ("{"%char :: w ++ ["}"%char])
| text_object k keys body :
    fields k keys body -> NoDup keys -> text (S k) ("{"%char :: body ++ ["}"%char])
| text_empty_array k w : spaces w -> text (S k) ("["%char :: w ++ ["]"%char])
| text_array k body : elements k body -> text (S k) ("["%char :: body ++ ["]"%char])
with fields : nat -> list string -> list byte -> Prop :=
| fields_one k key f : field k key f -> fields k [key] f
| fields_cons k key keys f fs :
    field k key f -> fields k keys fs -> fields k (key :: keys) (f ++ ","%char :: fs)
with field : nat -> string -> list byte -> Prop :=
| field_intro k key w1 raw w2 w3 v w4 :
    spaces w1 -> quoted raw key -> spaces w2 -> spaces w3 -> text k v -> spaces w4 ->
    field k key (w1 ++ raw ++ w2 ++ ":"%char :: w3 ++ v ++ w4)
with elements : nat -> list byte -> Prop :=
| elements_one k w1 v w2 :
    spaces w1 -> text k v -> spaces w2 -> elements k (w1 ++ v ++ w2)
| elements_cons k w1 v w2 es :
    spaces w1 -> text k v -> spaces w2 -> elements k es ->
    elements k ((w1 ++ v ++ w2) ++ ","%char :: es).

(** A whole accepted frame. *)
Definition document (l : list byte) : Prop :=
  exists w1 t w2, l = w1 ++ t ++ w2 /\ spaces w1 /\ spaces w2
                  /\ text (Z.to_nat MAX_JSON_NESTING) t.
End Grammar.

Scheme text_mut := Induction for text Sort Prop
  with fields_mut := Induction for fields Sort Prop
  with field_mut := Induction for field Sort Prop
  with elements_mut := Induction for elements Sort Prop.
Combined Scheme text_fields_elements_ind from text_mut, fields_mut, field_mut, elements_mut.

Section Tokens.
Context `{JsonLibrary}.

Lemma whitespace_split l :
  exists w, l = w ++ whitespace l /\ spaces w.
Proof.
  induction l as [|b l (w & Hl & Hw)]; cbn;
    [exists []; by split; [|constructor]|].
  destruct (is_json_space b) eqn:E; [|exists []; by split; [|constructor]].
  exists (b :: w). split; [cbn; by f_equal|by constructor].
Qed.

Lemma whitespace_app w l : spaces w -> whitespace (w ++ l) = whitespace l.
Proof. induction 1 as [|b w Hb _ IH]; cbn; [done|]. by rewrite Hb. Qed.

Lemma whitespace_cons b l : is_json_space b = false -> whitespace (b :: l) = b :: l.
Proof. intros Hb. cbn. by rewrite Hb. Qed.

Lemma string_body_app l body rest x :
  string_body l = Ok (body, rest) -> string_body (body ++ x) = Ok (body, x).
Proof.
  revert body rest. induction l as [l IH] using (induction_ltof1 _ (@length byte)).
  unfold ltof in IH. intros body rest Hb. destruct l as [|b l]; cbn in Hb; [done|].
  destruct (Ascii.eqb b quote) eqn:Eq; [simplify_eq; cbn; by rewrite Eq|].
  destruct (Ascii.eqb b backslash) eqn:Es.
  - destruct l as [|c l]; [done|]. inv_ok Hb. cbn. rewrite Eq, Es.
    match goal with E : string_body _ = _ |- _ => apply IH in E; [|cbn; lia] end.
    by match goal with E : string_body _ = _ |- _ => rewrite E end.
  - destruct (byte_value b <=? 31)%N eqn:Ec; [done|]. inv_ok Hb. cbn. rewrite Eq, Es, Ec.
    match goal with E : string_body _ = _ |- _ => apply IH in E; [|cbn; lia] end.
    by match goal with E : string_body _ = _ |- _ => rewrite E end.
Qed.

Lemma scan_string_sound l key rest :
  scan_string l = Ok (key, rest) -> exists raw, l = raw ++ rest /\ quoted raw key.
Proof.
  unfold scan_string. intros Hs. inv_ok Hs.
  match goal with E : Ascii.eqb _ quote = true |- _ => apply Ascii.eqb_eq in E as -> end.
  match goal with E : string_body ?l = Ok (?body, ?rest) |- _ =>
    exists (quote :: body); pose proof (string_body_app _ _ _ [] E) as Hb;
    apply string_body_split in E as [-> _] end.
  rewrite app_nil_r in Hb. split; [done|]. by eexists.
Qed.

Lemma scan_string_complete raw key x :
  quoted raw key -> scan_string (raw ++ x) = Ok (key, x).
Proof.
  intros (body & -> & Hb & Hd). unfold scan_string. cbn.
  apply (string_body_app _ _ _ x) in Hb. rewrite Hb. by rewrite Hd.
Qed.

Lemma quoted_head raw key : quoted raw key -> exists body, raw = quote :: body.
Proof. intros (body & -> & _). by eexists. Qed.

(** What may follow a primitive token. *)
Definition follows (x : list byte) : Prop :=
  match x with [] => True | c :: _ => ends_primitive c = true end.

Lemma primitive_token_app p x :
  Forall (fun c => ends_primitive c = false) p -> follows x ->
  primitive_token (p ++ x) = (p, x).
Proof.
  intros Hp Hx. induction Hp as [|c p Hc _ IH]; cbn.
  - destruct x as [|c x]; cbn in *; [done|by rewrite Hx].
  - by rewrite Hc, IH.
Qed.

Lemma primitive_token_sound l token rest :
  primitive_token l = (token, rest) -> Forall (fun c => ends_primitive c = false) token.
Proof.
  revert token rest. induction l as [|b l IH]; cbn; intros token rest Hp;
    [by simplify_eq|].
  destruct (ends_primitive b) eqn:E; [by simplify_eq|].
  destruct (primitive_token l) as [t r]. simplify_eq/=. constructor; eauto.
Qed.

Lemma scan_primitive_sound b l rest :
  scan_primitive (b :: l) = Ok rest -> b <> quote -> b <> "{"%char -> b <> "["%char ->
  exists p, b :: l = p ++ rest /\ primitive p.
Proof.
  unfold scan_primitive. destruct (primitive_token (b :: l)) as [token r] eqn:E.
  intros Hs ???. pose proof (primitive_token_sound _ _ _ E) as Hf.
  apply primitive_token_split in E. destruct token as [|a p]; [done|].
  destruct (is_negative_zero_number _) eqn:Ez; [done|]. injection Hs as ->.
  injection E as <- ->. exists (b :: p). split; [done|]. exists b, p. by split_and!.
Qed.

Lemma scan_primitive_complete p x :
  primitive p -> follows x -> scan_primitive (p ++ x) = Ok x.
Proof.
  intros (b & p' & -> & _ & _ & _ & Hf & Hz) Hx. unfold scan_primitive.
  rewrite primitive_token_app by done. by rewrite Hz.
Qed.

Lemma space_or_delimiter_follows w c x :
  spaces w -> ends_primitive c = true -> follows (w ++ c :: x).
Proof.
  intros Hw Hc. destruct Hw as [|b w Hb]; cbn; [done|].
  unfold ends_primitive. rewrite Hb. by rewrite !orb_true_r.
Qed.

Lemma primitive_not_space b : ends_primitive b = false -> is_json_space b = false.
Proof. unfold ends_primitive. by intros [_ ?]%orb_false_iff. Qed.

(** A text starts with a byte that ends no primitive. *)
Lemma text_head k t : text k t -> exists b t', t = b :: t' /\ ends_primitive b = false.
Proof.
  destruct 1 as [??? (body & ->)%quoted_head|?? (b & p' & -> & _ & _ & _ & Hf & _)| | | |];
    try (by do 2 eexists).
  do 2 eexists. split; [done|]. by apply Forall_cons in Hf as [Hb _].
Qed.

Lemma whitespace_text k w t x :
  spaces w -> text k t -> whitespace (w ++ t ++ x) = t ++ x.
Proof.
  intros Hw (b & t' & -> & Hb)%text_head. rewrite whitespace_app by done.
  by apply whitespace_cons, primitive_not_space.
Qed.
End Tokens.

(** ** The scanner implements the grammar *)

Section Correctness.
Context `{JsonLibrary}.

(** Nesting still allowed at a depth. *)
Definition nesting (d : Z) : nat := Z.to_nat (MAX_JSON_NESTING - d).

Lemma nesting_succ d : 0 <= d -> d + 1 <= MAX_JSON_NESTING -> nesting d = S (nesting (d + 1)).
Proof. unfold nesting. lia. Qed.

Lemma existsb_eqb_false key keys : existsb (String.eqb key) keys = false -> key ∉ keys.
Proof.
  intros He Hin. apply not_true_iff_false in He. apply He, existsb_exists.
  exists key. by rewrite String.eqb_refl, <-list_elem_of_In.
Qed.

Lemma fields_space k ks w body :
  spaces w -> fields k ks body -> fields k ks (w ++ body).
Proof.
  intros Hw Hf. destruct Hf as [? ? ? Hf|? ? ? ? ? Hf Hfs].
  - apply fields_one. destruct Hf. rewrite (app_assoc w). constructor; try done.
    by apply Forall_app.
  - rewrite (app_assoc w). apply fields_cons; [|done]. destruct Hf.
    rewrite (app_assoc w). constructor; try done. by apply Forall_app.
Qed.

Lemma elements_space k w body :
  spaces w -> elements k body -> elements k (w ++ body).
Proof.
  intros Hw He. destruct He.
  - rewrite (app_assoc w). constructor; try done. by apply Forall_app.
  - rewrite (app_assoc w), (app_assoc w). constructor; try done. by apply Forall_app.
Qed.

Definition value_scanned (fuel : nat) (d : Z) : Prop :=
  forall l r, scan_value fuel d l = Ok r ->
    exists w t, l = w ++ t ++ r /\ spaces w /\ text (nesting d) t.
Definition fields_scanned (fuel : nat) (d : Z) : Prop :=
  forall keys l r, scan_fields fuel d keys l = Ok r ->
    exists ks body, l = body ++ "}"%char :: r /\ fields (nesting d) ks body
                    /\ NoDup ks /\ ks ## keys.
Definition elements_scanned (fuel : nat) (d : Z) : Prop :=
  forall l r, scan_elements fuel d l = Ok r ->
    exists body, l = body ++ "]"%char :: r /\ elements (nesting d) body.

Lemma fields_sound fuel d :
  value_scanned fuel d -> fields_scanned fuel d -> fields_scanned (S fuel) d.
Proof.
  intros IHv IHf keys l r Hs. cbn in Hs.
  destruct (whitespace_split l) as (w1 & Hl & Hw1).
  destruct (scan_string (whitespace l)) as [[key l1]|] eqn:E1; [|done].
  apply scan_string_sound in E1 as (raw & Hl1 & Hq).
  destruct (existsb _ keys) eqn:Ek; [done|]. apply existsb_eqb_false in Ek.
  destruct (whitespace_split l1) as (w2 & Hl2 & Hw2).
  destruct (whitespace l1) as [|b l2] eqn:Ew1; [done|].
  destruct (Ascii.eqb b ":") eqn:Eb; [|done]. apply Ascii.eqb_eq in Eb as ->. cbn in Hs.
  destruct (scan_value fuel d l2) as [l3|] eqn:E2; [|done].
  apply IHv in E2 as (w3 & v & -> & Hw3 & Hv).
  destruct (whitespace_split l3) as (w4 & Hl3 & Hw4).
  destruct (whitespace l3) as [|c l4] eqn:Ew3; [done|].
  assert (Hfield : field (nesting d) key (w1 ++ raw ++ w2 ++ ":"%char :: w3 ++ v ++ w4))
    by by constructor.
  destruct (Ascii.eqb c "}") eqn:Ec.
  - apply Ascii.eqb_eq in Ec as ->. injection Hs as ->. exists [key]. eexists. split_and!.
    2:{ apply fields_one. exact Hfield. }
    + rewrite Hl, Hl1, Hl2, Hl3. by simplify_list_eq.
    + apply NoDup_singleton.
    + set_solver.
  - destruct (Ascii.eqb c ",") eqn:Ec'; [|done]. apply Ascii.eqb_eq in Ec' as ->.
    apply IHf in Hs as (ks & body & -> & Hfs & Hnd & Hdisj).
    exists (key :: ks). eexists. split_and!.
    2:{ apply fields_cons; [exact Hfield|exact Hfs]. }
    + rewrite Hl, Hl1, Hl2, Hl3. by simplify_list_eq.
    + constructor; [set_solver|done].
    + set_solver.
Qed.

Lemma elements_sound fuel d :
  value_scanned fuel d -> elements_scanned fuel d -> elements_scanned (S fuel) d.
Proof.
  intros IHv IHe l r Hs. cbn in Hs.
  destruct (scan_value fuel d l) as [l1|] eqn:E1; [|done].
  apply IHv in E1 as (w1 & v & -> & Hw1 & Hv).
  destruct (whitespace_split l1) as (w2 & Hl & Hw).
  destruct (whitespace l1) as [|c l2] eqn:Ew; [done|].
  destruct (Ascii.eqb c "]") eqn:Ec.
  - apply Ascii.eqb_eq in Ec as ->. injection Hs as ->. eexists. split.
    2:{ apply elements_one; [exact Hw1|exact Hv|exact Hw]. }
    rewrite Hl. by simplify_list_eq.
  - destruct (Ascii.eqb c ",") eqn:Ec'; [|done]. apply Ascii.eqb_eq in Ec' as ->.
    apply IHe in Hs as (body & -> & He). eexists. split.
    2:{ apply elements_cons; [exact Hw1|exact Hv|exact Hw|exact He]. }
    rewrite Hl. by simplify_list_eq.
Qed.

(** An entered container: closed at once, or scanned by its loop. *)
Lemma object_entered fuel d rest r :
  fields_scanned fuel d ->
  match whitespace rest with
  | c :: rest' => if Ascii.eqb c "}" then Ok rest' else scan_fields fuel d [] (c :: rest')
  | [] => scan_fields fuel d [] []
  end = Ok r ->
  exists body, rest = body ++ "}"%char :: r
               /\ text (S (nesting d)) ("{"%char :: body ++ ["}"%char]).
Proof.
  intros IHf Hs. destruct (whitespace_split rest) as (w & Hrest & Hw).
  assert (scan_fields fuel d [] (whitespace rest) = Ok r \/ whitespace rest = "}"%char :: r)
    as [Hf|He].
  { destruct (whitespace rest) as [|c rest']; [by left|].
    destruct (Ascii.eqb_spec c "}") as [->|]; [right; by simplify_eq|by left]. }
  - apply IHf in Hf as (ks & body & Hb & Hf & Hnd & _). exists (w ++ body). split.
    + rewrite Hrest, Hb. by simplify_list_eq.
    + eapply text_object; [by apply fields_space|done].
  - exists w. rewrite Hrest, He. split; [done|by constructor].
Qed.

Lemma array_entered fuel d rest r :
  elements_scanned fuel d ->
  match whitespace rest with
  | c :: rest' => if Ascii.eqb c "]" then Ok rest' else scan_elements fuel d (c :: rest')
  | [] => scan_elements fuel d []
  end = Ok r ->
  exists body, rest = body ++ "]"%char :: r
               /\ text (S (nesting d)) ("["%char :: body ++ ["]"%char]).
Proof.
  intros IHe Hs. destruct (whitespace_split rest) as (w & Hrest & Hw).
  assert (scan_elements fuel d (whitespace rest) = Ok r \/ whitespace rest = "]"%char :: r)
    as [Hf|He].
  { destruct (whitespace rest) as [|c rest']; [by left|].
    destruct (Ascii.eqb_spec c "]") as [->|]; [right; by simplify_eq|by left]. }
  - apply IHe in Hf as (body & Hb & He). exists (w ++ body). split.
    + rewrite Hrest, Hb. by simplify_list_eq.
    + eapply text_array. by apply elements_space.
  - exists w. rewrite Hrest, He. split; [done|by constructor].
Qed.

Lemma value_sound fuel d :
  0 <= d -> fields_scanned fuel (d + 1) -> elements_scanned fuel (d + 1) ->
  value_scanned (S fuel) d.
Proof.
  intros Hd IHf IHe l r Hs. cbn in Hs.
  destruct (whitespace_split l) as (w & Hl & Hw). exists w.
  destruct (MAX_JSON_NESTING <? d); [done|].
  destruct (whitespace l) as [|b rest] eqn:Ew; [done|].
  destruct (Ascii.eqb_spec b quote) as [->|Hq].
  { destruct (scan_string _) as [[key rest']|] eqn:E; [|done]. injection Hs as ->.
    apply scan_string_sound in E as (raw & Hraw & Hk). exists raw.
    rewrite Hl, Hraw. split_and!; [done..|by econstructor]. }
  destruct (Ascii.eqb_spec b "{") as [->|Ho].
  { destruct (MAX_JSON_NESTING <? d + 1) eqn:Ed'; [done|]. bool_hyps.
    apply object_entered in Hs as (body & -> & Ht); [|done].
    exists ("{"%char :: body ++ ["}"%char]). rewrite nesting_succ by done.
    rewrite Hl. split_and!; [by simplify_list_eq|done..]. }
  destruct (Ascii.eqb_spec b "[") as [->|Ha].
  { destruct (MAX_JSON_NESTING <? d + 1) eqn:Ed'; [done|]. bool_hyps.
    apply array_entered in Hs as (body & -> & Ht); [|done].
    exists ("["%char :: body ++ ["]"%char]). rewrite nesting_succ by done.
    rewrite Hl. split_and!; [by simplify_list_eq|done..]. }
  apply scan_primitive_sound in Hs as (p & Hp & Hprim); [|done..].
  exists p. rewrite Hl, Hp. split_and!; [done..|by constructor].
Qed.

Lemma scan_sound fuel d :
  0 <= d -> value_scanned fuel d /\ fields_scanned fuel d /\ elements_scanned fuel d.
Proof.
  revert d. induction fuel as [|fuel IH]; intros d Hd.
  - by split_and!; intros ? **.
  - destruct (IH d Hd) as (IHv & IHf & IHe).
    destruct (IH (d + 1)) as (_ & IHf' & IHe'); [lia|].
    split_and!; auto using value_sound, fields_sound, elements_sound.
Qed.
End Correctness.

Section Completeness.
Context `{JsonLibrary}.

Lemma whitespace_idemp l : whitespace (whitespace l) = whitespace l.
Proof.
  induction l as [|b l IH]; cbn; [done|]. destruct (is_json_space b) eqn:E; [done|].
  cbn. by rewrite E.
Qed.

Lemma scan_value_whitespace fuel d l :
  scan_value fuel d (whitespace l) = scan_value fuel d l.
Proof. destruct fuel; cbn; [done|]. by rewrite whitespace_idemp. Qed.

Lemma scan_fields_whitespace fuel d keys l :
  scan_fields fuel d keys (whitespace l) = scan_fields fuel d keys l.
Proof. destruct fuel; cbn; [done|]. by rewrite whitespace_idemp. Qed.

Lemma scan_elements_whitespace fuel d l :
  scan_elements fuel d (whitespace l) = scan_elements fuel d l.
Proof. destruct fuel; cbn; [done|]. by rewrite scan_value_whitespace. Qed.

Lemma fields_head k ks body y :
  fields k ks body -> exists rest, whitespace (body ++ y) = quote :: rest.
Proof.
  intros Hf. assert (exists key f z, body = f ++ z /\ field k key f) as (key & f & z & -> & Hk).
  { destruct Hf as [k key f Hk|k key ks f fs Hk _]; [|by do 3 eexists].
    exists key, f, []. by rewrite app_nil_r. }
  destruct Hk as [k key w1 raw w2 w3 v w4 Hw (b & ->)%quoted_head _ _ _ _].
  rewrite <-!app_assoc, whitespace_app by done. by eexists.
Qed.

Lemma elements_head k body y :
  elements k body -> exists b rest, whitespace (body ++ y) = b :: rest /\ b <> "]"%char.
Proof.
  intros He. assert (exists w v z, body = w ++ v ++ z /\ spaces w /\ text k v)
    as (w & v & z & -> & Hw & (b & v' & -> & Hb)%text_head).
  { destruct He as [? w v ? Hw Hv _|? w v w' es Hw Hv _ _];
      [by do 3 eexists|exists w, v, (w' ++ ","%char :: es)].
    split_and!; [by simplify_list_eq|done..]. }
  rewrite <-!app_assoc, whitespace_app by done. cbn.
  rewrite primitive_not_space by done. do 2 eexists. split; [done|]. by intros ->.
Qed.

Definition value_accepted (k : nat) (t : list byte) : Prop :=
  forall fuel d w x, 0 <= d <= MAX_JSON_NESTING -> k = nesting d -> spaces w ->
    follows x -> (2 * length (w ++ t ++ x) + 1 <= fuel)%nat ->
    scan_value fuel d (w ++ t ++ x) = Ok x.
Definition field_accepted (k : nat) (key : string) (f : list byte) : Prop :=
  forall fuel d keys c x, 0 <= d <= MAX_JSON_NESTING -> k = nesting d ->
    key ∉ keys -> c = "}"%char \/ c = ","%char ->
    (2 * length (f ++ c :: x) + 2 <= S fuel)%nat ->
    scan_fields (S fuel) d keys (f ++ c :: x) =
      if Ascii.eqb c "}" then Ok x else scan_fields fuel d (key :: keys) x.
Definition fields_accepted (k : nat) (ks : list string) (body : list byte) : Prop :=
  forall fuel d keys x, 0 <= d <= MAX_JSON_NESTING -> k = nesting d ->
    NoDup ks -> ks ## keys -> (2 * length (body ++ "}"%char :: x) + 2 <= fuel)%nat ->
    scan_fields fuel d keys (body ++ "}"%char :: x) = Ok x.
Definition elements_accepted (k : nat) (body : list byte) : Prop :=
  forall fuel d x, 0 <= d <= MAX_JSON_NESTING -> k = nesting d ->
    (2 * length (body ++ "]"%char :: x) + 2 <= fuel)%nat ->
    scan_elements fuel d (body ++ "]"%char :: x) = Ok x.

Lemma existsb_eqb_not_in key keys : key ∉ keys -> existsb (String.eqb key) keys = false.
Proof.
  intros Hk. apply not_true_iff_false. intros (k & Hin & Heq)%existsb_exists.
  apply String.eqb_eq in Heq as ->. by apply Hk, list_elem_of_In.
Qed.

Lemma accept_leaf k t :
  ((exists key, quoted t key) \/ primitive t) -> value_accepted k t.
Proof.
  intros Ht fuel d w x Hd _ Hw Hx Hfuel. destruct fuel as [|fuel]; [lia|]. cbn.
  rewrite whitespace_app by done.
  assert (exists b t', t = b :: t' /\ is_json_space b = false) as (b & t' & -> & Hb).
  { destruct Ht as [[key (body & ->)%quoted_head]|(b & t' & -> & _ & _ & _ & Hf & _)].
    - by do 2 eexists.
    - do 2 eexists. split; [done|]. apply Forall_cons in Hf as [? _].
      by apply primitive_not_space. }
  cbn [app]. rewrite whitespace_cons by done.
  destruct (Z.ltb_spec MAX_JSON_NESTING d); [lia|].
  destruct Ht as [[key Hq]|Hp].
  - pose proof (scan_string_complete _ _ x Hq) as Hs. cbn in Hs.
    apply quoted_head in Hq as (body & [= -> ->]). cbn -[scan_string]. by rewrite Hs.
  - pose proof (scan_primitive_complete _ x Hp Hx) as Hs. cbn in Hs.
    destruct Hp as (b' & p' & [= <- <-] & Hq & Ho & Ha & _ & _).
    destruct (Ascii.eqb_spec b quote); [done|]. destruct (Ascii.eqb_spec b "{"); [done|].
    by destruct (Ascii.eqb_spec b "[").
Qed.

Lemma nesting_S k d :
  0 <= d <= MAX_JSON_NESTING -> S k = nesting d ->
  0 <= d + 1 <= MAX_JSON_NESTING /\ k = nesting (d + 1).
Proof. unfold nesting. lia. Qed.

(** Entering a container: white space, the opening byte, the depth checks. *)
Lemma scan_open_object fuel d w rest :
  0 <= d -> d + 1 <= MAX_JSON_NESTING -> spaces w ->
  scan_value (S fuel) d (w ++ "{"%char :: rest) =
    match whitespace rest with
    | c :: rest' => if Ascii.eqb c "}" then Ok rest'
                    else scan_fields fuel (d + 1) [] (c :: rest')
    | [] => scan_fields fuel (d + 1) [] []
    end.
Proof.
  intros ???. cbn. rewrite whitespace_app, whitespace_cons by done.
  destruct (Z.ltb_spec MAX_JSON_NESTING d); [lia|].
  by destruct (Z.ltb_spec MAX_JSON_NESTING (d + 1)); [lia|].
Qed.

Lemma scan_open_array fuel d w rest :
  0 <= d -> d + 1 <= MAX_JSON_NESTING -> spaces w ->
  scan_value (S fuel) d (w ++ "["%char :: rest) =
    match whitespace rest with
    | c :: rest' => if Ascii.eqb c "]" then Ok rest'
                    else scan_elements fuel (d + 1) (c :: rest')
    | [] => scan_elements fuel (d + 1) []
    end.
Proof.
  intros ???. cbn. rewrite whitespace_app, whitespace_cons by done.
  destruct (Z.ltb_spec MAX_JSON_NESTING d); [lia|].
  by destruct (Z.ltb_spec MAX_JSON_NESTING (d + 1)); [lia|].
Qed.

Lemma accept_empty_object k w : spaces w -> value_accepted (S k) ("{"%char :: w ++ ["}"%char]).
Proof.
  intros Hw fuel d w' x Hd Hk Hw' Hx Hfuel. destruct fuel as [|fuel]; [lia|].
  apply nesting_S in Hk as [[_ ?] _]; [|done]. cbn [app]. rewrite scan_open_object by lia || done.
  rewrite <-app_assoc, whitespace_app by done. done.
Qed.

Lemma accept_empty_array k w : spaces w -> value_accepted (S k) ("["%char :: w ++ ["]"%char]).
Proof.
  intros Hw fuel d w' x Hd Hk Hw' Hx Hfuel. destruct fuel as [|fuel]; [lia|].
  apply nesting_S in Hk as [[_ ?] _]; [|done]. cbn [app]. rewrite scan_open_array by lia || done.
  rewrite <-app_assoc, whitespace_app by done. done.
Qed.

Lemma accept_object k ks body :
  fields k ks body -> fields_accepted k ks body -> NoDup ks ->
  value_accepted (S k) ("{"%char :: body ++ ["}"%char]).
Proof.
  intros Hf IH Hnd fuel d w x Hd Hk Hw Hx Hfuel. destruct fuel as [|fuel]; [lia|].
  apply nesting_S in Hk as [[??] Hk]; [|done].
  cbn [app]. rewrite scan_open_object by lia || done.
  rewrite <-app_assoc. cbn [app].
  destruct (fields_head k ks body ("}"%char :: x) Hf) as [rest Hr].
  rewrite Hr. cbn. rewrite <-Hr, scan_fields_whitespace. apply IH; [done..| |].
  - by intros key _ ?%elem_of_nil.
  - length_lia.
Qed.

Lemma accept_array k body :
  elements k body -> elements_accepted k body ->
  value_accepted (S k) ("["%char :: body ++ ["]"%char]).
Proof.
  intros He IH fuel d w x Hd Hk Hw Hx Hfuel. destruct fuel as [|fuel]; [lia|].
  apply nesting_S in Hk as [[??] Hk]; [|done].
  cbn [app]. rewrite scan_open_array by lia || done.
  rewrite <-app_assoc. cbn [app].
  destruct (elements_head k body ("]"%char :: x) He) as (b & rest & Hr & Hb).
  rewrite Hr. destruct (Ascii.eqb_spec b "]"); [done|].
  rewrite <-Hr, scan_elements_whitespace. apply IH; [done..|].
  length_lia.
Qed.

Lemma accept_field k key w1 raw w2 w3 v w4 :
  spaces w1 -> quoted raw key -> spaces w2 -> spaces w3 -> value_accepted k v ->
  spaces w4 -> field_accepted k key (w1 ++ raw ++ w2 ++ ":"%char :: w3 ++ v ++ w4).
Proof.
  intros Hw1 Hq Hw2 Hw3 IHv Hw4 fuel d keys c x Hd Hk Hkey Hc Hfuel.
  cbn [scan_fields]. simplify_list_eq.
  assert (whitespace (w1 ++ raw ++ w2 ++ ":"%char :: w3 ++ v ++ w4 ++ c :: x)
          = raw ++ w2 ++ ":"%char :: w3 ++ v ++ w4 ++ c :: x) as ->.
  { rewrite whitespace_app by done. by destruct (quoted_head _ _ Hq) as [b ->]. }
  rewrite (scan_string_complete raw key) by done.
  rewrite existsb_eqb_not_in by done. rewrite whitespace_app by done. cbn.
  rewrite IHv; [|done..| |].
  - rewrite whitespace_app by done. by destruct Hc as [-> | ->].
  - apply space_or_delimiter_follows; [done|]. by destruct Hc as [-> | ->].
  - length_lia.
Qed.

Lemma accept_fields_one k key f : field_accepted k key f -> fields_accepted k [key] f.
Proof.
  intros IH fuel d keys x Hd Hk _ Hdisj Hfuel. destruct fuel as [|fuel]; [lia|].
  rewrite IH; [done..| |by left|done]. set_solver.
Qed.

Lemma accept_fields_cons k key ks f fs :
  field_accepted k key f -> fields_accepted k ks fs ->
  fields_accepted k (key :: ks) (f ++ ","%char :: fs).
Proof.
  intros IH IHs fuel d keys x Hd Hk [Hkey Hnd]%NoDup_cons Hdisj Hfuel.
  destruct fuel as [|fuel]; [lia|]. rewrite <-app_assoc in *. cbn [app] in *.
  rewrite IH; [|done..| |by right|].
  - cbn. apply IHs; [done..| |].
    + set_solver.
    + length_lia.
  - set_solver.
  - length_lia.
Qed.

Lemma accept_elements k w1 v w2 c x fuel d :
  spaces w1 -> value_accepted k v -> spaces w2 -> c = "]"%char \/ c = ","%char ->
  0 <= d <= MAX_JSON_NESTING -> k = nesting d ->
  (2 * length ((w1 ++ v ++ w2) ++ c :: x) + 2 <= S fuel)%nat ->
  scan_elements (S fuel) d ((w1 ++ v ++ w2) ++ c :: x) =
    if Ascii.eqb c "]" then Ok x else scan_elements fuel d x.
Proof.
  intros Hw1 IHv Hw2 Hc Hd Hk Hfuel. cbn [scan_elements]. simplify_list_eq.
  rewrite IHv; [|done..| |].
  - rewrite whitespace_app by done. by destruct Hc as [-> | ->].
  - apply space_or_delimiter_follows; [done|]. by destruct Hc as [-> | ->].
  - length_lia.
Qed.

Lemma grammar_accepted :
  (forall k t, text k t -> value_accepted k t) /\
  (forall k ks b, fields k ks b -> fields_accepted k ks b) /\
  (forall k key f, field k key f -> field_accepted k key f) /\
  (forall k b, elements k b -> elements_accepted k b).
Proof.
  apply text_fields_elements_ind; intros.
  - apply accept_leaf. left. by eexists.
  - apply accept_leaf. by right.
  - by apply accept_empty_object.
  - by eapply accept_object.
  - by apply accept_empty_array.
  - by apply accept_array.
  - by apply accept_fields_one.
  - by apply accept_fields_cons.
  - by apply accept_field.
  - intros fuel d x Hd Hk Hfuel. destruct fuel as [|fuel]; [lia|].
    by rewrite (accept_elements k) by eauto.
  - intros fuel d x Hd Hk Hfuel. destruct fuel as [|fuel]; [lia|].
    rewrite <-app_assoc. cbn [app]. rewrite (accept_elements k); eauto.
    + cbn. apply H1; [done..|]. length_lia.
    + length_lia.
Qed.
End Completeness.

Lemma scan_accepts_document `{JsonLibrary} input :
  scan input = Ok () <-> document (bytes input).
Proof.
  unfold scan. split.
  - destruct (scan_value _ 0 _) as [rest|] eqn:E; [|done].
    destruct (whitespace rest) eqn:Ew; [|done]. intros _.
    apply (scan_sound _ 0) in E as (w1 & t & Hin & Hw1 & Ht); [|lia].
    exists w1, t, rest. split_and!; [done..| |done].
    destruct (whitespace_split rest) as (w & -> & Hw). by rewrite Ew, app_nil_r.
  - intros (w1 & t & w2 & -> & Hw1 & Hw2 & Ht).
    rewrite (proj1 grammar_accepted _ _ Ht); [|by cbn|done..| |].
    + rewrite <-(app_nil_r w2), whitespace_app by done. done.
    + destruct Hw2 as [|b w2 Hb]; cbn; [done|]. unfold ends_primitive.
      by rewrite Hb, !orb_true_r.
    + unfold scan_fuel. lia.
Qed.

(** ** Spellings of negative zero *)

Definition zeros (l : list byte) : Prop := l <> [] /\ Forall (fun b => b = "0"%char) l.
Definition digits (l : list byte) : Prop :=
  l <> [] /\ Forall (fun b => is_ascii_digit b = true) l.

Inductive optional_fraction : list byte -> Prop :=
| no_fraction : optional_fraction []
| zero_fraction f : zeros f -> optional_fraction ("."%char :: f).
Inductive optional_exponent : list byte -> Prop :=
| no_exponent : optional_exponent []
| some_exponent e s ds :
    e = "e"%char \/ e = "E"%char -> s = [] \/ s = ["+"%char] \/ s = ["-"%char] ->
    digits ds -> optional_exponent (e :: s ++ ds).

Definition negative_zero (l : list byte) : Prop :=
  exists i f e, l = "-"%char :: i ++ f ++ e /\ zeros i
                /\ optional_fraction f /\ optional_exponent e.

Definition no_digit_head (l : list byte) : Prop :=
  match l with [] => True | b :: _ => is_ascii_digit b = false end.

Lemma digit_run_split n z l :
  exists ds rest, l = ds ++ rest /\ Forall (fun b => is_ascii_digit b = true) ds
    /\ no_digit_head rest
    /\ digit_run n z l = (n + length ds, z && forallb (fun b => Ascii.eqb b "0") ds, rest)%nat.
Proof.
  revert n z. induction l as [|b l IH]; intros n z; cbn.
  - exists [], []. by rewrite Nat.add_0_r, andb_true_r.
  - destruct (is_ascii_digit b) eqn:E.
    + destruct (IH (S n) (z && Ascii.eqb b "0")) as (ds & rest & -> & Hds & Hr & ->).
      exists (b :: ds), rest. split_and!; [done|by constructor|done|]. cbn.
      by rewrite andb_assoc, Nat.add_succ_r.
    + exists [], (b :: l). split_and!; [done|constructor|done|]. cbn.
      by rewrite Nat.add_0_r, andb_true_r.
Qed.

Lemma digit_run_app n z ds rest :
  Forall (fun b => is_ascii_digit b = true) ds -> no_digit_head rest ->
  digit_run n z (ds ++ rest)
    = (n + length ds, z && forallb (fun b => Ascii.eqb b "0") ds, rest)%nat.
Proof.
  intros Hds Hr. revert n z. induction Hds as [|b ds Hb _ IH]; intros n z; cbn.
  - rewrite Nat.add_0_r, andb_true_r. destruct rest as [|b rest]; cbn in *; [done|].
    by rewrite Hr.
  - by rewrite Hb, IH, andb_assoc, Nat.add_succ_r.
Qed.

Lemma forallb_zeros l :
  forallb (fun b => Ascii.eqb b "0") l = true <-> Forall (fun b => b = "0"%char) l.
Proof.
  rewrite forallb_forall, Forall_forall. setoid_rewrite list_elem_of_In.
  split; intros Hl b Hb; specialize (Hl b Hb); by apply Ascii.eqb_eq.
Qed.

Lemma zeros_digits l : zeros l -> digits l.
Proof. intros [? Hl]. split; [done|]. eapply Forall_impl; [exact Hl|]. by intros ? ->. Qed.

Lemma zeros_run l : zeros l -> forallb (fun b => Ascii.eqb b "0") l = true.
Proof. intros [_ Hl]. by apply forallb_zeros. Qed.

Lemma length_zero_digits (l : list byte) : l <> [] -> (length l =? 0)%nat = false.
Proof. by destruct l. Qed.

Lemma digit_run_all ds :
  Forall (fun b => is_ascii_digit b = true) ds ->
  digit_run 0 true ds = (length ds, forallb (fun b => Ascii.eqb b "0") ds, []).
Proof.
  intros Hds. pose proof (digit_run_app 0 true ds [] Hds I) as Hr. by rewrite app_nil_r in Hr.
Qed.

Lemma digit_not_sign b :
  is_ascii_digit b = true -> Ascii.eqb b "+" || Ascii.eqb b "-" = false.
Proof.
  intros Hb. destruct (Ascii.eqb_spec b "+") as [->|]; [done|].
  by destruct (Ascii.eqb_spec b "-") as [->|].
Qed.

Lemma exponent_run_complete e : optional_exponent e -> exponent_run e = (true, []).
Proof.
  destruct 1 as [|e s ds Hc Hs [Hds1 Hds2]]; [done|]. unfold exponent_run.
  assert (Ascii.eqb e "e" || Ascii.eqb e "E" = true) as -> by (by destruct Hc as [-> | ->]).
  assert (match s ++ ds with
          | [] => s ++ ds
          | a :: l'' => if Ascii.eqb a "+" || Ascii.eqb a "-" then l'' else s ++ ds
          end = ds) as ->.
  { destruct Hs as [-> |[-> | ->]]; [|done..]. destruct Hds2 as [|b ds Hb _]; [done|].
    cbn -[Ascii.eqb]. by rewrite digit_not_sign. }
  rewrite digit_run_all by done. by rewrite length_zero_digits.
Qed.

Lemma exponent_run_sound l : exponent_run l = (true, []) -> optional_exponent l.
Proof.
  unfold exponent_run. destruct l as [|c l]; [constructor|].
  destruct (Ascii.eqb c "e" || Ascii.eqb c "E") eqn:Hc; [|done].
  assert (c = "e"%char \/ c = "E"%char) as Hc'.
  { apply orb_true_iff in Hc as [Hc|Hc]; apply Ascii.eqb_eq in Hc; auto. }
  assert (exists s l', l = s ++ l' /\ (s = [] \/ s = ["+"%char] \/ s = ["-"%char]) /\
    match l with
    | [] => l
    | a :: l'' => if Ascii.eqb a "+" || Ascii.eqb a "-" then l'' else l
    end = l') as (s & l' & Hl & Hs & ->).
  { destruct l as [|a l]; [by exists [], []; auto|].
    destruct (Ascii.eqb_spec a "+") as [->|]; [by exists ["+"%char], l; auto|].
    destruct (Ascii.eqb_spec a "-") as [->|]; [by exists ["-"%char], l; auto|].
    exists [], (a :: l). auto. }
  intros Hr. rewrite Hl. clear Hl.
  destruct (digit_run_split 0 true l') as (ds & rest & -> & Hds & _ & Hrun).
  rewrite Hrun in Hr. injection Hr as Hn ->. rewrite app_nil_r.
  constructor; [done..|]. split; [|done]. by intros ->.
Qed.

Lemma fraction_run_complete f e :
  optional_fraction f -> optional_exponent e -> fraction_run (f ++ e) = (true, true, e).
Proof.
  intros [|fs Hf] He; cbn -[digit_run is_ascii_digit].
  - destruct He as [|c s ds [-> | ->] _ _]; done.
  - destruct (zeros_digits _ Hf) as [Hf1 Hf2].
    rewrite digit_run_app; [|done|by destruct He as [|c s ds [-> | ->] _ _]].
    cbn -[forallb]. by rewrite zeros_run, length_zero_digits.
Qed.

Lemma fraction_run_sound l e :
  fraction_run l = (true, true, e) -> exists f, l = f ++ e /\ optional_fraction f.
Proof.
  unfold fraction_run. destruct l as [|c l].
  { intros [= <-]. exists []. by split; [|constructor]. }
  destruct (Ascii.eqb_spec c ".") as [->|].
  2:{ intros [= <-]. exists []. by split; [|constructor]. }
  destruct (digit_run_split 0 true l) as (ds & rest & -> & Hds & _ & ->). cbn.
  intros [= Hn Hz ->]. exists ("."%char :: ds). split; [done|]. constructor.
  split; [by intros ->|]. by apply forallb_zeros.
Qed.

Lemma is_negative_zero_number_iff l :
  is_negative_zero_number l = true <-> negative_zero l.
Proof.
  unfold is_negative_zero_number, negative_zero. split.
  - destruct l as [|b l]; [done|]. destruct (Ascii.eqb_spec b "-") as [->|]; [|done].
    destruct (digit_run_split 0 true l) as (i & rest & -> & Hi & _ & ->).
    cbn [negb fst snd]. destruct (_ =? 0)%nat eqn:Hn; [done|].
    destruct (fraction_run rest) as [[[] fz] l1] eqn:Ef; [|done].
    destruct (exponent_run l1) as [[] l2] eqn:Ee; [|done]. cbn. intros Hz. bool_hyps. subst.
    apply fraction_run_sound in Ef as (f & -> & Hf). apply exponent_run_sound in Ee.
    exists i, f, l1. split_and!; [done| |done..]. split; [by intros ->|].
    by apply forallb_zeros.
  - intros (i & f & e & -> & Hi & Hf & He). cbn -[digit_run].
    destruct (zeros_digits _ Hi) as [Hi1 Hi2].
    assert (no_digit_head (f ++ e)) as Hfe.
    { destruct Hf; [destruct He as [|e s ds [-> | ->] _ _]|]; done. }
    rewrite digit_run_app by done. cbn -[forallb].
    rewrite zeros_run, length_zero_digits by done.
    by rewrite fraction_run_complete, exponent_run_complete.
Qed.

(** ** Properties *)

(** C37: the pre-scan accepts a frame exactly when the frame is a document of the
    grammar: one JSON-shaped text between white space, containers nested at
    most [MAX_JSON_NESTING] deep, every object's decoded keys pairwise
    distinct, no primitive spelled as a negative zero. *)
Theorem scanner_accepts_exactly_the_grammar `{JsonLibrary} (input : string) :
  reject_duplicate_object_keys input = Ok () <-> document (bytes input).
Proof.
  rewrite <-scan_accepts_document. unfold reject_duplicate_object_keys.
  destruct (scan input) as [[]|[e|]]; done.
Qed.

(** C40: the scan always ends with a verdict of its own: for every input and
    every JSON library the fuel the definition passes is enough, so the result
    is the scanner's acceptance or one of its typed errors. *)
Theorem scanner_terminates `{JsonLibrary} (input : string) :
  scan input = Ok () /\ reject_duplicate_object_keys input = Ok ()
  \/ exists e, scan input = scan_error e /\ reject_duplicate_object_keys input = Err e.
Proof.
  unfold reject_duplicate_object_keys. pose proof (scan_never_out_of_fuel input) as Hf.
  destruct (scan input) as [[]|[e|]] eqn:E; [by left|right; by exists e|done].
Qed.

(** A token is classified as negative zero exactly when it is a minus sign,
    zeros, optionally a point and zeros, and optionally an exponent: every JSON
    spelling whose value is -0 and nothing else. *)
Theorem negative_zero_exact (token : list byte) :
  is_negative_zero_number token = true <-> negative_zero token.
Proof. apply is_negative_zero_number_iff. Qed.
