(* ===== verification/PiDecode.v ===== *)
(** * Decoding the frames of the Pi boundary

    The decoders of [society-pi/src/protocol.rs]: the field accessors, one
    decoder per payload and the two frame decoders [decode_inbound_jsonl] and
    [decode_outbound_jsonl].  Fields are read in the order of the source, so the
    first error is the source's first error.  The JSON library is the
    [JsonLibrary] argument of the frame decoders. *)

From S2P Require Import Prelude Json PiText PiWire PiForum PiTypes PiScanner.

Definition ADAPTER_PROTOCOL_VERSION : string := "society-pi-host/v4".
Definition PINNED_PROVIDER : string := "openrouter".

(** ** Field accessors *)

Module Field.
Definition object (value : Value.t) : protocol_result Object.t :=
  match value with Value.Object object => Ok object | _ => invalid_frame "object" end.

Definition array (value : Value.t) : protocol_result (list Value.t) :=
  match value with Value.Array array => Ok array | _ => invalid_frame "array" end.

Definition required (object : Object.t) (key : string) : protocol_result Value.t :=
  ok_or (Object.get key object) (ProtocolError.InvalidFrame "missing field").

Definition string (object : Object.t) (key : String.string) :
  protocol_result String.string :=
  let? value := required object key in
  match value with Value.String value => Ok value | _ => invalid_frame "string field" end.

Definition value_string (value : Value.t) : protocol_result String.string :=
  match value with
  | Value.String value => Ok value
  | _ => invalid_frame "string array member"
  end.

Definition nonempty (object : Object.t) (key : String.string) :
  protocol_result String.string :=
  let? value := string object key in
  if is_empty value then invalid_frame "nonempty string" else Ok value.

Definition boolean (object : Object.t) (key : String.string) : protocol_result bool :=
  let? value := required object key in
  match value with Value.Bool value => Ok value | _ => invalid_frame "boolean field" end.

Definition unsigned (object : Object.t) (key : String.string) : protocol_result Z :=
  let? value := required object key in
  match value with
  | Value.Number (Number.U64 value) =>
      if value <=? MAX_SAFE_INTEGER then Ok value else invalid_frame "safe unsigned integer"
  | _ => invalid_frame "safe unsigned integer"
  end.

Definition boundary_sequence (object : Object.t) (key : String.string) :
  protocol_result BoundarySequence.t :=
  let? value := unsigned object key in BoundarySequence.parse value.

Definition nonnegative (object : Object.t) (key : String.string) :
  protocol_result NonNegativeInteger.t :=
  let? value := unsigned object key in NonNegativeInteger.parse value.

Definition positive (object : Object.t) (key : String.string) :
  protocol_result PositiveInteger.t :=
  let? value := unsigned object key in PositiveInteger.parse value.

Definition path (object : Object.t) (key : String.string) :
  protocol_result AbsolutePath.t :=
  let? value := string object key in AbsolutePath.parse value.

(** [X::parse(string(object, key)?)?] and [x(string(object, key)?)?]. *)
Definition parsed {A} (parse : String.string -> protocol_result A) (object : Object.t)
    (key : String.string) : protocol_result A :=
  let? value := string object key in parse value.

(** [decode(object(required(object, key)?)?)?]. *)
Definition nested {A} (decode : Object.t -> protocol_result A) (parent : Object.t)
    (key : String.string) : protocol_result A :=
  let? value := required parent key in
  let? inner := object value in
  decode inner.

Definition optional_correlation (object : Object.t) :
  protocol_result (option CorrelationIdentity) :=
  match Object.get "correlationIdentity" object with
  | None => Ok None
  | Some value =>
      let? text := value_string value in
      let? identity := closed_string_parse text in
      Ok (Some identity)
  end.

Definition json_array (object : Object.t) (key : String.string) :
  protocol_result (list Value.t) :=
  let? value := required object key in array value.

Definition string_array (object : Object.t) (key : String.string) :
  protocol_result (list String.string) :=
  let? value := required object key in
  let? elements := array value in
  collect value_string elements.

Definition exact_keys (object : Object.t) (expected : list String.string) :
  protocol_result unit :=
  if negb (Object.len object =? length expected)%nat
     || existsb (fun key => negb (Object.contains_key key object)) expected
  then invalid_frame "exact object keys"
  else Ok ().

Definition literal (object : Object.t) (key expected : String.string) :
  protocol_result unit :=
  let? value := string object key in
  if (value =? expected)%string then Ok () else invalid_frame "literal field".

(** An optional field that the key check has already admitted. *)
Definition optional {A} (get : Object.t -> String.string -> protocol_result A)
    (object : Object.t) (key : String.string) : protocol_result (option A) :=
  if Object.contains_key key object
  then let? value := get object key in Ok (Some value)
  else Ok None.
End Field.

Definition forum_tool_name (value : string) : protocol_result ForumToolName.t :=
  if (value =? "society_forum_read")%string then Ok ForumToolName.SocietyForumRead
  else if (value =? "society_forum_post")%string then Ok ForumToolName.SocietyForumPost
  else invalid_frame "Forum tool name".

(** ** Payload decoders *)

Definition decode_model_selection (value : Object.t) : protocol_result ModelSelection.t :=
  let? provider := Field.parsed provider value "provider" in
  let? model_id := Field.parsed model_id value "modelId" in
  let? thinking_level := Field.parsed thinking_level value "thinkingLevel" in
  Ok (ModelSelection.new provider model_id thinking_level).

Definition decode_forum_session_contract (value : Object.t) :
  protocol_result ForumSessionContractV1.t :=
  let? kind := Field.string value "kind" in
  if (kind =? "forum_enabled_v1")%string then
    check? Field.exact_keys value ["kind"; "awarenessBlake3"; "toolContractBlake3"];
    let? awareness_blake3 := Field.parsed Blake3Digest.parse value "awarenessBlake3" in
    let? tool_contract_blake3 := Field.parsed Blake3Digest.parse value "toolContractBlake3" in
    let contract := ForumSessionContractV1.ForumEnabledV1 awareness_blake3 tool_contract_blake3 in
    check? ForumSessionContractV1.assert_pinned contract;
    Ok contract
  else if (kind =? "sequestered_v1")%string then
    check? Field.exact_keys value ["kind"];
    Ok ForumSessionContractV1.SequesteredV1
  else invalid_frame "Forum session contract".

Definition decode_known_rate (value : Object.t) : protocol_result KnownPerMillionRateV1.t :=
  check? Field.exact_keys value ["kind"; "usdPerMillion"];
  check? Field.literal value "kind" "Known";
  let? rate := Field.parsed UsdPerMillionDecimal.parse value "usdPerMillion" in
  Ok (KnownPerMillionRateV1.new rate).

Definition decode_cache_write_rate (value : Object.t) :
  protocol_result CacheWritePerMillionRateV1.t :=
  let? kind := Field.string value "kind" in
  if (kind =? "Absent")%string then
    check? Field.exact_keys value ["kind"];
    Ok CacheWritePerMillionRateV1.Absent
  else if (kind =? "Known")%string then
    let? rate := decode_known_rate value in
    Ok (CacheWritePerMillionRateV1.Known rate)
  else invalid_frame "cache write rate".

Definition effective_model_keys : list string :=
  ["provider"; "baseUrl"; "api"; "modelId"; "canonicalSlug"; "input"; "contextWindow";
   "maxTokens"; "inputUsdPerMillion"; "outputUsdPerMillion"; "cacheReadUsdPerMillion";
   "cacheWriteUsdPerMillion"].

Definition decode_model_catalog (value : Object.t) : protocol_result ModelCatalogPolicyV1.t :=
  check? Field.exact_keys value ["catalogBlake3"; "effectiveModel"];
  let? model := Field.required value "effectiveModel" in
  let? model := Field.object model in
  check? Field.exact_keys model effective_model_keys;
  let? catalog_blake3 := Field.parsed Blake3Digest.parse value "catalogBlake3" in
  let? provider := Field.parsed provider model "provider" in
  let? base_url := Field.parsed open_router_base_url model "baseUrl" in
  let? api := Field.parsed model_api model "api" in
  let? model_id := Field.parsed model_id model "modelId" in
  let? canonical_slug := Field.parsed canonical_model_slug model "canonicalSlug" in
  let? input := Field.parsed model_input model "input" in
  let? context_window := Field.positive model "contextWindow" in
  let? max_tokens := Field.positive model "maxTokens" in
  let? input_rate := Field.nested decode_known_rate model "inputUsdPerMillion" in
  let? output_rate := Field.nested decode_known_rate model "outputUsdPerMillion" in
  let? cache_read_rate := Field.nested decode_known_rate model "cacheReadUsdPerMillion" in
  let? cache_write_rate :=
    Field.nested decode_cache_write_rate model "cacheWriteUsdPerMillion" in
  Ok (ModelCatalogPolicyV1.new catalog_blake3
        (EffectiveModelDescriptorV1.new provider base_url api model_id canonical_slug input
           context_window max_tokens input_rate output_rate cache_read_rate cache_write_rate)).

Definition decode_retry (retry : Object.t) : protocol_result RetryPolicyV1.t :=
  let? max_retries := Field.nonnegative retry "maxRetries" in
  let? base_delay := Field.nonnegative retry "baseDelayMilliseconds" in
  let? provider_timeout := Field.positive retry "providerTimeoutMilliseconds" in
  let? provider_max_retries := Field.nonnegative retry "providerMaxRetries" in
  let? provider_max_retry_delay :=
    Field.positive retry "providerMaxRetryDelayMilliseconds" in
  Ok (RetryPolicyV1.new max_retries base_delay provider_timeout provider_max_retries
        provider_max_retry_delay).

Definition decode_compaction (compaction : Object.t) : protocol_result CompactionPolicyV1.t :=
  let? mode := Field.parsed compaction_mode compaction "mode" in
  let? reserve_tokens := Field.nonnegative compaction "reserveTokens" in
  let? keep_recent_tokens := Field.nonnegative compaction "keepRecentTokens" in
  Ok (CompactionPolicyV1.new mode reserve_tokens keep_recent_tokens).

Definition decode_settings (value : Object.t) : protocol_result ActorModelPolicyV1.t :=
  check? Field.exact_keys value
    ["retry"; "compaction"; "steeringMode"; "followUpMode"; "transport"; "projectTrust";
     "installTelemetryEnabled"; "analyticsEnabled"; "images"];
  let? retry := Field.required value "retry" in
  let? retry := Field.object retry in
  check? Field.exact_keys retry
    ["maxRetries"; "baseDelayMilliseconds"; "providerTimeoutMilliseconds";
     "providerMaxRetries"; "providerMaxRetryDelayMilliseconds"];
  let? compaction := Field.required value "compaction" in
  let? compaction := Field.object compaction in
  check? Field.exact_keys compaction ["mode"; "reserveTokens"; "keepRecentTokens"];
  let? retry := decode_retry retry in
  let? compaction := decode_compaction compaction in
  let? steering_mode := Field.parsed queue_mode value "steeringMode" in
  let? follow_up_mode := Field.parsed queue_mode value "followUpMode" in
  let? transport := Field.parsed transport value "transport" in
  let? project_trust := Field.parsed project_trust value "projectTrust" in
  let? telemetry := Field.boolean value "installTelemetryEnabled" in
  let? install_telemetry := disabled telemetry in
  let? analytics := Field.boolean value "analyticsEnabled" in
  let? analytics := disabled analytics in
  let? images := Field.parsed images value "images" in
  Ok (ActorModelPolicyV1.new retry compaction steering_mode follow_up_mode transport
        project_trust install_telemetry analytics images).

Definition model_keys : list string := ["provider"; "modelId"; "thinkingLevel"].

(** The pairing of the isolated tool profiles with their Forum contract. *)
Definition forum_pairing_mismatch (decoded : CreateSessionPayload.t) : bool :=
  let sequestered := match CreateSessionPayload.forum_contract decoded with
                     | ForumSessionContractV1.SequesteredV1 => true
                     | ForumSessionContractV1.ForumEnabledV1 _ _ => false
                     end in
  bool_decide (CreateSessionPayload.tool_profile decoded = ToolProfile.WorkspaceIsolatedV1)
    && negb sequestered
  || bool_decide (CreateSessionPayload.tool_profile decoded = ToolProfile.ForumIsolatedV1)
    && sequestered.

Definition decode_create_session (value : Object.t) :
  protocol_result CreateSessionPayload.t :=
  check? Field.exact_keys value
    ["sessionKind"; "cwd"; "agentDirectory"; "authPath"; "modelsPath"; "sessionDirectory";
     "systemPrompt"; "systemPromptDigest"; "model"; "modelCatalog"; "toolProfile";
     "settings"; "forumContract"];
  let? model := Field.required value "model" in
  let? model := Field.object model in
  check? Field.exact_keys model model_keys;
  check? Field.literal model "provider" PINNED_PROVIDER;
  let? selection := decode_model_selection model in
  if negb (bool_decide (ModelSelection.provider selection = Provider.OpenRouter))
     || negb (model_thinking_level_is_admitted (ModelSelection.model_id selection)
                (ModelSelection.thinking_level selection))
  then invalid_frame "pinned model selection"
  else
    let? session_kind := Field.parsed session_kind value "sessionKind" in
    let? cwd := Field.path value "cwd" in
    let? agent_directory := Field.path value "agentDirectory" in
    let? auth_path := Field.path value "authPath" in
    let? models_path := Field.path value "modelsPath" in
    let? session_directory := Field.path value "sessionDirectory" in
    let? system_prompt := Field.nonempty value "systemPrompt" in
    let? system_prompt_digest := Field.parsed Blake3Digest.parse value "systemPromptDigest" in
    let? model_catalog := Field.nested decode_model_catalog value "modelCatalog" in
    let? tool_profile := Field.parsed tool_profile value "toolProfile" in
    let? settings := Field.nested decode_settings value "settings" in
    let? forum_contract := Field.nested decode_forum_session_contract value "forumContract" in
    let decoded := CreateSessionPayload.new session_kind cwd agent_directory auth_path
      models_path session_directory system_prompt system_prompt_digest selection
      model_catalog tool_profile settings forum_contract in
    if negb (bool_decide (ModelSelection.model_id (CreateSessionPayload.model decoded)
              = EffectiveModelDescriptorV1.model_id (ModelCatalogPolicyV1.effective_model
                  (CreateSessionPayload.model_catalog decoded))))
    then invalid_frame "model catalog selection"
    else if forum_pairing_mismatch decoded then invalid_frame "isolated Forum pairing"
    else
      check? ModelCatalogPolicyV1.assert_pinned (CreateSessionPayload.model_catalog decoded);
      check? ActorModelPolicyV1.assert_pinned (CreateSessionPayload.settings decoded);
      check? ForumSessionContractV1.assert_pinned (CreateSessionPayload.forum_contract decoded);
      Ok decoded.

Definition decode_prompt (value : Object.t) : protocol_result PromptPayload.t :=
  check? Field.exact_keys value ["purpose"; "text"];
  let? purpose := Field.parsed prompt_purpose value "purpose" in
  let? text := Field.nonempty value "text" in
  Ok (PromptPayload.new purpose text).

Definition decode_follow_up (value : Object.t) : protocol_result FollowUpPayload.t :=
  check? Field.exact_keys value ["noticeDeliveryIdentity"; "ledgerFrontier"; "text"];
  let? notice_delivery_identity :=
    Field.parsed closed_string_parse value "noticeDeliveryIdentity" in
  let? frontier := Field.unsigned value "ledgerFrontier" in
  let? ledger_frontier := LedgerFrontier.parse frontier in
  let? text := Field.nonempty value "text" in
  Ok (FollowUpPayload.new notice_delivery_identity ledger_frontier text).

Definition decode_steer (value : Object.t) : protocol_result SteerPayload.t :=
  check? Field.exact_keys value ["reason"; "text"];
  let? reason := Field.parsed steer_reason value "reason" in
  let? text := Field.nonempty value "text" in
  Ok (SteerPayload.new reason text).

Definition decode_abort (value : Object.t) : protocol_result AbortPayload.t :=
  check? Field.exact_keys value ["reason"];
  let? reason := Field.parsed abort_reason value "reason" in
  Ok (AbortPayload.new reason).

Definition decode_dispose (value : Object.t) : protocol_result DisposePayload.t :=
  check? Field.exact_keys value ["reason"];
  let? reason := Field.parsed dispose_reason value "reason" in
  Ok (DisposePayload.new reason).

Definition decode_forum_tool_result (payload : Object.t) :
  protocol_result ForumToolResultPayload.t :=
  check? Field.exact_keys payload ["toolCallIdentity"; "result"; "isError"];
  let? tool_call_identity := Field.parsed closed_string_parse payload "toolCallIdentity" in
  let? result := Field.required payload "result" in
  let? is_error := Field.boolean payload "isError" in
  Ok (ForumToolResultPayload.new tool_call_identity result is_error).

Definition decode_runtime (value : Object.t) : protocol_result RuntimeIdentity.t :=
  check? Field.exact_keys value
    ["nodeVersion"; "adapterVersion"; "piSdkVersion"; "nodeExecutableBlake3";
     "lockfileBlake3"; "adapterBuildBlake3"; "piTransitivePackageSetBlake3"];
  let? node_version := Field.parsed NodeRuntimeVersion.parse value "nodeVersion" in
  let? adapter_version := Field.parsed adapter_version value "adapterVersion" in
  let? pi_sdk_version := Field.parsed pi_sdk_version value "piSdkVersion" in
  let? node_executable_blake3 :=
    Field.parsed Blake3Digest.parse value "nodeExecutableBlake3" in
  let? lockfile_blake3 := Field.parsed Blake3Digest.parse value "lockfileBlake3" in
  let? adapter_build_blake3 := Field.parsed Blake3Digest.parse value "adapterBuildBlake3" in
  let? pi_transitive_package_set_blake3 :=
    Field.parsed Blake3Digest.parse value "piTransitivePackageSetBlake3" in
  let runtime := RuntimeIdentity.new node_version adapter_version pi_sdk_version
    node_executable_blake3 lockfile_blake3 adapter_build_blake3
    pi_transitive_package_set_blake3 in
  check? RuntimeIdentity.assert_v1 runtime;
  Ok runtime.

Definition decode_tool (item : Value.t) : protocol_result PiToolName.t :=
  let? name := Field.value_string item in pi_tool_name name.

Definition decode_effective_configuration (value : Object.t) :
  protocol_result EffectiveSessionConfiguration.t :=
  check? Field.exact_keys value
    ["sessionKind"; "cwd"; "sessionDirectory"; "sessionFile"; "model"; "modelCatalog";
     "toolProfile"; "tools"; "settings"; "forumContract"];
  let? model := Field.required value "model" in
  let? model := Field.object model in
  check? Field.exact_keys model model_keys;
  let? profile := Field.parsed tool_profile value "toolProfile" in
  let? tools := Field.required value "tools" in
  let? tools := Field.array tools in
  let? tools := collect decode_tool tools in
  let? session_kind := Field.parsed session_kind value "sessionKind" in
  let? cwd := Field.path value "cwd" in
  let? session_directory := Field.path value "sessionDirectory" in
  let? session_file := Field.path value "sessionFile" in
  let? model := decode_model_selection model in
  let? model_catalog := Field.nested decode_model_catalog value "modelCatalog" in
  let? settings := Field.nested decode_settings value "settings" in
  let? forum_contract := Field.nested decode_forum_session_contract value "forumContract" in
  let config := EffectiveSessionConfiguration.new session_kind cwd session_directory
    session_file model model_catalog profile tools settings forum_contract in
  check? EffectiveSessionConfiguration.assert_pinned config;
  Ok config.

Definition decode_command_result_detail (value : Object.t) :
  protocol_result CommandResultDetail.t :=
  let? kind := Field.string value "kind" in
  if (kind =? "acknowledged")%string then
    check? Field.exact_keys value ["kind"];
    Ok CommandResultDetail.Acknowledged
  else if (kind =? "state")%string then
    let has := Object.contains_key "sessionFile" value in
    check? Field.exact_keys value
      (if has then ["kind"; "phase"; "liveness"; "sessionFile"]
       else ["kind"; "phase"; "liveness"]);
    let? phase := Field.parsed adapter_phase value "phase" in
    let? liveness := Field.parsed session_liveness value "liveness" in
    let? session_file := Field.optional Field.path value "sessionFile" in
    Ok (CommandResultDetail.State phase liveness session_file)
  else invalid_frame "CommandResult detail".

Definition decode_usage (value : Object.t) : protocol_result UsageObservation.t :=
  let? kind := Field.string value "kind" in
  if (kind =? "Known")%string then
    check? Field.exact_keys value ["kind"; "totals"];
    let? totals := Field.required value "totals" in
    let? totals := Field.object totals in
    check? Field.exact_keys totals
      ["inputTokens"; "outputTokens"; "cacheReadTokens"; "cacheWriteTokens";
       "totalTokens"; "providerCost"];
    let? cost := Field.required totals "providerCost" in
    let? cost := Field.object cost in
    check? Field.exact_keys cost ["encoding"; "binary64BigEndianHex"; "rounding"];
    check? Field.literal cost "encoding" "ieee754_binary64_be_hex_v1";
    check? Field.literal cost "rounding" "ceil_to_micro_usd";
    let? input_tokens := Field.nonnegative totals "inputTokens" in
    let? output_tokens := Field.nonnegative totals "outputTokens" in
    let? cache_read_tokens := Field.nonnegative totals "cacheReadTokens" in
    let? cache_write_tokens := Field.nonnegative totals "cacheWriteTokens" in
    let? total_tokens := Field.nonnegative totals "totalTokens" in
    let? hex := Field.parsed Binary64BigEndianHex.parse cost "binary64BigEndianHex" in
    Ok (UsageObservation.Known
          (UsageTotals.new input_tokens output_tokens cache_read_tokens cache_write_tokens
             total_tokens (ProviderCostObservationV1.new hex)))
  else if (kind =? "Unavailable")%string then
    check? Field.exact_keys value ["kind"; "reason"];
    let? reason := Field.parsed usage_unavailable_reason value "reason" in
    Ok (UsageObservation.Unavailable reason)
  else invalid_frame "usage observation".

Definition decode_final_outcome (value : Object.t) :
  protocol_result FinalAssistantOutcome.t :=
  let? kind := Field.string value "kind" in
  if (kind =? "Observed")%string then
    check? Field.exact_keys value ["kind"; "stopReason"];
    let? stop_reason := Field.parsed assistant_stop_reason value "stopReason" in
    Ok (FinalAssistantOutcome.Observed stop_reason)
  else if (kind =? "Unavailable")%string then
    check? Field.exact_keys value ["kind"; "reason"];
    let? reason := Field.parsed final_unavailable_reason value "reason" in
    Ok (FinalAssistantOutcome.Unavailable reason)
  else invalid_frame "final assistant outcome".

Definition decode_first_user_prompt (value : Object.t) :
  protocol_result FirstUserPromptReceipt.t :=
  let? kind := Field.string value "kind" in
  if (kind =? "absent")%string then
    check? Field.exact_keys value ["kind"];
    Ok FirstUserPromptReceipt.Absent
  else if (kind =? "verified")%string then
    check? Field.exact_keys value ["kind"; "digest"];
    let? digest := Field.parsed Blake3Digest.parse value "digest" in
    Ok (FirstUserPromptReceipt.Verified digest)
  else invalid_frame "first user prompt receipt".

Definition decode_transcript_receipt (value : Object.t) :
  protocol_result TranscriptFlushReceiptV1.t :=
  check? Field.literal value "format" "pi_session_manager_jsonl_v3";
  let? materialization := Field.string value "materialization" in
  if (materialization =? "observed")%string then
    check? Field.exact_keys value
      ["format"; "sessionIdentity"; "sessionFile"; "materialization"; "sessionFileBlake3";
       "headerCwd"; "firstUserPrompt"];
    let? session_identity := Field.parsed closed_string_parse value "sessionIdentity" in
    let? session_file := Field.path value "sessionFile" in
    let? session_file_blake3 := Field.parsed Blake3Digest.parse value "sessionFileBlake3" in
    let? header_cwd := Field.path value "headerCwd" in
    let? first_user_prompt := Field.nested decode_first_user_prompt value "firstUserPrompt" in
    Ok (TranscriptFlushReceiptV1.Materialized session_identity session_file
          session_file_blake3 header_cwd first_user_prompt)
  else if (materialization =? "unmaterialized_no_prompt")%string then
    check? Field.exact_keys value
      ["format"; "sessionIdentity"; "sessionFile"; "materialization"; "firstUserPrompt"];
    let? prompt := Field.required value "firstUserPrompt" in
    let? prompt := Field.object prompt in
    check? Field.exact_keys prompt ["kind"];
    check? Field.literal prompt "kind" "absent";
    let? session_identity := Field.parsed closed_string_parse value "sessionIdentity" in
    let? session_file := Field.path value "sessionFile" in
    Ok (TranscriptFlushReceiptV1.UnmaterializedNoPrompt session_identity session_file)
  else invalid_frame "transcript materialization".

(** ** The agent-event projection *)

(** [keys!(...)]: the fields of an event are [type] and the named ones. *)
Definition event_keys (value : Object.t) (keys : list string) : protocol_result unit :=
  Field.exact_keys value ("type" :: keys)%string.

Definition decode_tool_execution_start (value : Object.t) :
  protocol_result ProjectedAgentEvent.t :=
  check? event_keys value ["toolCallIdentity"; "toolName"; "args"];
  let? tool_call_identity := Field.parsed closed_string_parse value "toolCallIdentity" in
  let? tool_name := Field.parsed pi_tool_name value "toolName" in
  let? args := Field.required value "args" in
  Ok (ProjectedAgentEvent.ToolExecutionStart tool_call_identity tool_name args).

Definition decode_tool_execution_update (value : Object.t) :
  protocol_result ProjectedAgentEvent.t :=
  check? event_keys value ["toolCallIdentity"; "toolName"; "args"; "partialResult"];
  let? tool_call_identity := Field.parsed closed_string_parse value "toolCallIdentity" in
  let? tool_name := Field.parsed pi_tool_name value "toolName" in
  let? args := Field.required value "args" in
  let? partial_result := Field.required value "partialResult" in
  Ok (ProjectedAgentEvent.ToolExecutionUpdate tool_call_identity tool_name args
        partial_result).

Definition decode_tool_execution_end (value : Object.t) :
  protocol_result ProjectedAgentEvent.t :=
  check? event_keys value ["toolCallIdentity"; "toolName"; "result"; "isError"];
  let? tool_call_identity := Field.parsed closed_string_parse value "toolCallIdentity" in
  let? tool_name := Field.parsed pi_tool_name value "toolName" in
  let? result := Field.required value "result" in
  let? is_error := Field.boolean value "isError" in
  Ok (ProjectedAgentEvent.ToolExecutionEnd tool_call_identity tool_name result is_error).

Definition decode_bash_execution_update (value : Object.t) :
  protocol_result ProjectedAgentEvent.t :=
  let has_identity := Object.contains_key "executionIdentity" value in
  check? event_keys value
    (if has_identity then ["executionIdentity"; "delta"] else ["delta"])%string;
  let? execution_identity :=
    Field.optional (Field.parsed closed_string_parse) value "executionIdentity" in
  let? delta := Field.string value "delta" in
  Ok (ProjectedAgentEvent.BashExecutionUpdate execution_identity delta).

Definition decode_session_info_changed (value : Object.t) :
  protocol_result ProjectedAgentEvent.t :=
  let has_name := Object.contains_key "name" value in
  check? event_keys value (if has_name then ["name"] else [])%string;
  let? name := Field.optional Field.string value "name" in
  Ok (ProjectedAgentEvent.SessionInfoChanged name).

Definition decode_compaction_end (value : Object.t) :
  protocol_result ProjectedAgentEvent.t :=
  let result := Object.contains_key "result" value in
  let error := Object.contains_key "errorMessage" value in
  check? event_keys value
    (match result, error with
     | false, false => ["reason"; "aborted"; "willRetry"]
     | true, false => ["reason"; "result"; "aborted"; "willRetry"]
     | false, true => ["reason"; "aborted"; "willRetry"; "errorMessage"]
     | true, true => ["reason"; "result"; "aborted"; "willRetry"; "errorMessage"]
     end)%string;
  let? reason := Field.parsed compaction_reason value "reason" in
  let? result := Field.optional Field.required value "result" in
  let? aborted := Field.boolean value "aborted" in
  let? will_retry := Field.boolean value "willRetry" in
  let? error_message := Field.optional Field.string value "errorMessage" in
  Ok (ProjectedAgentEvent.CompactionEnd reason result aborted will_retry error_message).

(** The fields of [auto_retry_start] and [summarization_retry_scheduled]. *)
Definition decode_retry_schedule (value : Object.t)
    (event : NonNegativeInteger.t -> NonNegativeInteger.t -> NonNegativeInteger.t ->
             string -> ProjectedAgentEvent.t) : protocol_result ProjectedAgentEvent.t :=
  check? event_keys value ["attempt"; "maxAttempts"; "delayMilliseconds"; "errorMessage"];
  let? attempt := Field.nonnegative value "attempt" in
  let? max_attempts := Field.nonnegative value "maxAttempts" in
  let? delay_milliseconds := Field.nonnegative value "delayMilliseconds" in
  let? error_message := Field.string value "errorMessage" in
  Ok (event attempt max_attempts delay_milliseconds error_message).

Definition decode_auto_retry_end (value : Object.t) :
  protocol_result ProjectedAgentEvent.t :=
  let error := Object.contains_key "finalError" value in
  check? event_keys value
    (if error then ["success"; "attempt"; "finalError"] else ["success"; "attempt"])%string;
  let? success := Field.boolean value "success" in
  let? attempt := Field.nonnegative value "attempt" in
  let? final_error := Field.optional Field.string value "finalError" in
  Ok (ProjectedAgentEvent.AutoRetryEnd success attempt final_error).

Definition decode_summarization_retry_attempt_start (value : Object.t) :
  protocol_result ProjectedAgentEvent.t :=
  let? source := Field.parsed summarization_source value "source" in
  match source with
  | SummarizationSource.BranchSummary =>
      check? event_keys value ["source"];
      Ok (ProjectedAgentEvent.SummarizationRetryAttemptStart source None)
  | SummarizationSource.Compaction =>
      check? event_keys value ["source"; "reason"];
      let? reason := Field.parsed compaction_reason value "reason" in
      Ok (ProjectedAgentEvent.SummarizationRetryAttemptStart source (Some reason))
  end.

Definition decode_agent_event (value : Object.t) : protocol_result ProjectedAgentEvent.t :=
  let? kind := Field.string value "type" in
  let named text := (kind =? text)%string in
  if named "agent_start" then
    check? event_keys value [];
    Ok ProjectedAgentEvent.AgentStart
  else if named "agent_end" then
    check? event_keys value ["messages"; "willRetry"];
    let? messages := Field.json_array value "messages" in
    let? will_retry := Field.boolean value "willRetry" in
    Ok (ProjectedAgentEvent.AgentEnd messages will_retry)
  else if named "agent_settled" then
    check? event_keys value [];
    Ok ProjectedAgentEvent.AgentSettled
  else if named "turn_start" then
    check? event_keys value [];
    Ok ProjectedAgentEvent.TurnStart
  else if named "turn_end" then
    check? event_keys value ["message"; "toolResults"];
    let? message := Field.required value "message" in
    let? tool_results := Field.json_array value "toolResults" in
    Ok (ProjectedAgentEvent.TurnEnd message tool_results)
  else if named "message_start" then
    check? event_keys value ["message"];
    let? message := Field.required value "message" in
    Ok (ProjectedAgentEvent.MessageStart message)
  else if named "message_update" then
    check? event_keys value ["message"; "assistantMessageEvent"];
    let? message := Field.required value "message" in
    let? assistant_message_event := Field.required value "assistantMessageEvent" in
    Ok (ProjectedAgentEvent.MessageUpdate message assistant_message_event)
  else if named "message_end" then
    check? event_keys value ["message"];
    let? message := Field.required value "message" in
    Ok (ProjectedAgentEvent.MessageEnd message)
  else if named "tool_execution_start" then decode_tool_execution_start value
  else if named "tool_execution_update" then decode_tool_execution_update value
  else if named "tool_execution_end" then decode_tool_execution_end value
  else if named "queue_update" then
    check? event_keys value ["steering"; "followUp"];
    let? steering := Field.string_array value "steering" in
    let? follow_up := Field.string_array value "followUp" in
    Ok (ProjectedAgentEvent.QueueUpdate steering follow_up)
  else if named "entry_appended" then
    check? event_keys value ["entry"];
    let? entry := Field.required value "entry" in
    Ok (ProjectedAgentEvent.EntryAppended entry)
  else if named "bash_execution_update" then decode_bash_execution_update value
  else if named "compaction_start" then
    check? event_keys value ["reason"];
    let? reason := Field.parsed compaction_reason value "reason" in
    Ok (ProjectedAgentEvent.CompactionStart reason)
  else if named "session_info_changed" then decode_session_info_changed value
  else if named "thinking_level_changed" then
    check? event_keys value ["level"];
    let? level := Field.parsed thinking_level value "level" in
    Ok (ProjectedAgentEvent.ThinkingLevelChanged level)
  else if named "compaction_end" then decode_compaction_end value
  else if named "auto_retry_start" then
    decode_retry_schedule value ProjectedAgentEvent.AutoRetryStart
  else if named "auto_retry_end" then decode_auto_retry_end value
  else if named "summarization_retry_scheduled" then
    decode_retry_schedule value ProjectedAgentEvent.SummarizationRetryScheduled
  else if named "summarization_retry_attempt_start" then
    decode_summarization_retry_attempt_start value
  else if named "summarization_retry_finished" then
    check? event_keys value [];
    Ok ProjectedAgentEvent.SummarizationRetryFinished
  else invalid_frame "AgentSession event variant".

(** ** Frames *)

Section Frames.
Context `{JsonLibrary}.

Definition decode_frame_value (line : string) : protocol_result Value.t :=
  if MAX_JSONL_FRAME_BYTES <? str_len line then Err ProtocolError.FrameTooLarge
  else
    check? reject_duplicate_object_keys line;
    ok_or (from_str line) ProtocolError.InvalidJson.

Definition decode_inbound_command (name : CommandName.t) (payload : Object.t) :
  protocol_result InboundCommand.t :=
  match name with
  | CommandName.CreateSession =>
      let? payload := decode_create_session payload in
      Ok (InboundCommand.CreateSession payload)
  | CommandName.Prompt =>
      let? payload := decode_prompt payload in Ok (InboundCommand.Prompt payload)
  | CommandName.FollowUp =>
      let? payload := decode_follow_up payload in Ok (InboundCommand.FollowUp payload)
  | CommandName.Steer =>
      let? payload := decode_steer payload in Ok (InboundCommand.Steer payload)
  | CommandName.Abort =>
      let? payload := decode_abort payload in Ok (InboundCommand.Abort payload)
  | CommandName.GetState =>
      check? Field.exact_keys payload []; Ok InboundCommand.GetState
  | CommandName.Dispose =>
      let? payload := decode_dispose payload in Ok (InboundCommand.Dispose payload)
  | CommandName.ForumToolResult =>
      let? payload := decode_forum_tool_result payload in
      Ok (InboundCommand.ForumToolResult payload)
  end.

Definition inbound_keys : list string :=
  ["protocolVersion"; "sequence"; "sessionIdentity"; "correlationIdentity"; "command";
   "payload"].

Definition decode_inbound_value (root : Value.t) : protocol_result InboundFrame.t :=
  let? frame := Field.object root in
  check? Field.exact_keys frame inbound_keys;
  check? Field.literal frame "protocolVersion" ADAPTER_PROTOCOL_VERSION;
  let? sequence := Field.boundary_sequence frame "sequence" in
  let? session_identity := Field.parsed closed_string_parse frame "sessionIdentity" in
  let? correlation_identity :=
    Field.parsed closed_string_parse frame "correlationIdentity" in
  let? name := Field.parsed command_name frame "command" in
  let? payload := Field.required frame "payload" in
  let? payload := Field.object payload in
  let? command := decode_inbound_command name payload in
  Ok (InboundFrame.new sequence session_identity correlation_identity command).

Definition decode_inbound_jsonl (line : string) : protocol_result InboundFrame.t :=
  let? root := decode_frame_value line in
  decode_inbound_value root.

(** The keys of every outbound frame, before those of its event. *)
Definition base_keys : list string :=
  ["protocolVersion"; "sequence"; "sessionIdentity"; "event"].

Abbreviation decoded_event := (option CorrelationIdentity * OutboundEvent.t)%type.

Definition correlation (frame : Object.t) : protocol_result CorrelationIdentity :=
  Field.parsed closed_string_parse frame "correlationIdentity".

Definition decode_adapter_ready (frame : Object.t) : protocol_result decoded_event :=
  check? Field.exact_keys frame (base_keys ++ ["pid"; "spawnNonce"; "runtime"]);
  let? pid := Field.positive frame "pid" in
  let? pid := HostProcessId.parse (PositiveInteger.value pid) in
  let? spawn_nonce := Field.parsed closed_string_parse frame "spawnNonce" in
  let? runtime := Field.nested decode_runtime frame "runtime" in
  Ok (None, OutboundEvent.AdapterReady pid spawn_nonce runtime).

Definition decode_session_ready (frame : Object.t) : protocol_result decoded_event :=
  check? Field.exact_keys frame (base_keys ++ ["correlationIdentity"; "configuration"]);
  let? correlation := correlation frame in
  let? configuration :=
    Field.nested decode_effective_configuration frame "configuration" in
  Ok (Some correlation, OutboundEvent.SessionReady configuration).

Definition decode_command_result (frame : Object.t) : protocol_result decoded_event :=
  let? accepted := Field.boolean frame "accepted" in
  if accepted : bool then
    check? Field.exact_keys frame
      (base_keys ++ ["correlationIdentity"; "command"; "accepted"; "detail"]);
    let? correlation := correlation frame in
    let? command := Field.parsed command_name frame "command" in
    let? detail := Field.nested decode_command_result_detail frame "detail" in
    Ok (Some correlation, OutboundEvent.CommandResult (CommandResult.Accepted command detail))
  else
    check? Field.exact_keys frame
      (base_keys ++ ["correlationIdentity"; "command"; "accepted"; "detail"; "failureCode"]);
    let? detail := Field.required frame "detail" in
    let? detail := Field.object detail in
    check? Field.exact_keys detail ["kind"];
    check? Field.literal detail "kind" "rejected";
    let? correlation := correlation frame in
    let? command := Field.parsed command_name frame "command" in
    let? failure_code := Field.parsed failure_code frame "failureCode" in
    Ok (Some correlation,
        OutboundEvent.CommandResult (CommandResult.Rejected command failure_code)).

(** [base_keys], the optional correlation when it is there, and [key]. *)
Definition correlated_keys (frame : Object.t) (key : string) : list string :=
  base_keys
  ++ (if Object.contains_key "correlationIdentity" frame
      then ["correlationIdentity"; key] else [key])%string.

Definition decode_agent_event_frame (frame : Object.t) : protocol_result decoded_event :=
  check? Field.exact_keys frame (correlated_keys frame "agentEvent");
  let? correlation := Field.optional_correlation frame in
  let? agent_event := Field.nested decode_agent_event frame "agentEvent" in
  Ok (correlation, OutboundEvent.AgentEvent agent_event).

Definition decode_forum_tool_call (frame : Object.t) : protocol_result decoded_event :=
  check? Field.exact_keys frame
    (base_keys ++ ["correlationIdentity"; "toolCallIdentity"; "toolName"; "args"]);
  let? correlation := correlation frame in
  let? tool_call_identity := Field.parsed closed_string_parse frame "toolCallIdentity" in
  let? tool_name := Field.parsed forum_tool_name frame "toolName" in
  let? args := Field.required frame "args" in
  Ok (Some correlation, OutboundEvent.ForumToolCall tool_call_identity tool_name args).

Definition decode_usage_snapshot (frame : Object.t) : protocol_result decoded_event :=
  check? Field.exact_keys frame (correlated_keys frame "usage");
  let? correlation := Field.optional_correlation frame in
  let? usage := Field.nested decode_usage frame "usage" in
  Ok (correlation, OutboundEvent.UsageSnapshot usage).

Definition decode_settled (frame : Object.t) : protocol_result decoded_event :=
  check? Field.exact_keys frame
    (base_keys ++ ["correlationIdentity"; "classification"; "finalAssistantOutcome"]);
  let? correlation := correlation frame in
  let? classification := Field.parsed settled_classification frame "classification" in
  let? outcome := Field.nested decode_final_outcome frame "finalAssistantOutcome" in
  Ok (Some correlation, OutboundEvent.Settled classification outcome).

Definition decode_disposed (frame : Object.t) : protocol_result decoded_event :=
  check? Field.exact_keys frame
    (base_keys ++ ["correlationIdentity"; "transcriptFlushReceipt"]);
  let? correlation := correlation frame in
  let? receipt := Field.nested decode_transcript_receipt frame "transcriptFlushReceipt" in
  Ok (Some correlation, OutboundEvent.Disposed receipt).

Definition decode_fatal (frame : Object.t) : protocol_result decoded_event :=
  check? Field.exact_keys frame (base_keys ++ ["failureCode"]);
  let? failure_code := Field.parsed failure_code frame "failureCode" in
  Ok (None, OutboundEvent.Fatal failure_code).

Definition decode_outbound_event (event_name : string) (frame : Object.t) :
  protocol_result decoded_event :=
  let named text := (event_name =? text)%string in
  if named "AdapterReady" then decode_adapter_ready frame
  else if named "SessionReady" then decode_session_ready frame
  else if named "CommandResult" then decode_command_result frame
  else if named "AgentEvent" then decode_agent_event_frame frame
  else if named "ForumToolCall" then decode_forum_tool_call frame
  else if named "UsageSnapshot" then decode_usage_snapshot frame
  else if named "Settled" then decode_settled frame
  else if named "Disposed" then decode_disposed frame
  else if named "Fatal" then decode_fatal frame
  else invalid_frame "outbound event".

Definition decode_outbound_value (root : Value.t) : protocol_result OutboundFrame.t :=
  let? frame := Field.object root in
  let? event_name := Field.string frame "event" in
  check? Field.literal frame "protocolVersion" ADAPTER_PROTOCOL_VERSION;
  let? sequence := Field.boundary_sequence frame "sequence" in
  let? session_identity := Field.parsed closed_string_parse frame "sessionIdentity" in
  let? decoded := decode_outbound_event event_name frame in
  let '(correlation_identity, event) := decoded in
  Ok (OutboundFrame.new sequence session_identity correlation_identity event).

Definition decode_outbound_jsonl (line : string) : protocol_result OutboundFrame.t :=
  let? root := decode_frame_value line in
  decode_outbound_value root.
End Frames.

#[global] Arguments Field.object value : simpl never.
#[global] Arguments Field.array value : simpl never.
#[global] Arguments Field.required object key : simpl never.
#[global] Arguments Field.string object key : simpl never.
#[global] Arguments Field.nonempty object key : simpl never.
#[global] Arguments Field.boolean object key : simpl never.
#[global] Arguments Field.unsigned object key : simpl never.
#[global] Arguments Field.boundary_sequence object key : simpl never.
#[global] Arguments Field.nonnegative object key : simpl never.
#[global] Arguments Field.positive object key : simpl never.
#[global] Arguments Field.path object key : simpl never.
#[global] Arguments Field.parsed {A} parse object key : simpl never.
#[global] Arguments Field.nested {A} decode parent key : simpl never.
#[global] Arguments Field.optional_correlation object : simpl never.
#[global] Arguments Field.exact_keys object expected : simpl never.
#[global] Arguments Field.literal object key expected : simpl never.
#[global] Arguments Field.optional {A} get object key : simpl never.
