(* ===== verification/PiEncode.v ===== *)
(** * Encoding the inbound frames, and the round trip

    [encode_inbound_jsonl] of [society-pi/src/protocol.rs] and the encoders it
    calls.  A pair of a decoder and an encoder is an instance of [FieldCodec]
    (the value of one field) or [ObjectCodec] (the fields of one object); the
    theorems about whole frames are put together from the instances. *)

From S2P Require Import Prelude Json PiText PiWire PiForum PiTypes PiScanner PiDecode.

(** ** Encoders *)

Definition encode_forum_session_contract (value : ForumSessionContractV1.t) : Value.t :=
  match value with
  | ForumSessionContractV1.ForumEnabledV1 awareness_blake3 tool_contract_blake3 =>
      json_object
        [("kind", json_string "forum_enabled_v1");
         ("awarenessBlake3", json_string (Blake3Digest.as_str awareness_blake3));
         ("toolContractBlake3", json_string (Blake3Digest.as_str tool_contract_blake3))]
  | ForumSessionContractV1.SequesteredV1 =>
      json_object [("kind", json_string "sequestered_v1")]
  end%string.

Definition encode_model_selection (value : ModelSelection.t) : Value.t :=
  json_object
    [("provider", json_string (provider_wire (ModelSelection.provider value)));
     ("modelId", json_string (model_id_wire (ModelSelection.model_id value)));
     ("thinkingLevel",
      json_string (thinking_level_wire (ModelSelection.thinking_level value)))]%string.

Definition encode_rate (value : KnownPerMillionRateV1.t) : Value.t :=
  json_object
    [("kind", json_string "Known");
     ("usdPerMillion",
      json_string (UsdPerMillionDecimal.as_str (KnownPerMillionRateV1.usd_per_million value)))
    ]%string.

Definition encode_cache_write_rate (value : CacheWritePerMillionRateV1.t) : Value.t :=
  match value with
  | CacheWritePerMillionRateV1.Known value => encode_rate value
  | CacheWritePerMillionRateV1.Absent => json_object [("kind", json_string "Absent")]
  end%string.

Definition encode_effective_model (model : EffectiveModelDescriptorV1.t) : Value.t :=
  json_object
    [("provider", json_string (provider_wire (EffectiveModelDescriptorV1.provider model)));
     ("baseUrl", json_string (base_url_wire (EffectiveModelDescriptorV1.base_url model)));
     ("api", json_string (model_api_wire (EffectiveModelDescriptorV1.api model)));
     ("modelId", json_string (model_id_wire (EffectiveModelDescriptorV1.model_id model)));
     ("canonicalSlug",
      json_string (canonical_slug_wire (EffectiveModelDescriptorV1.canonical_slug model)));
     ("input", json_string (model_input_wire (EffectiveModelDescriptorV1.input model)));
     ("contextWindow",
      json_u64 (PositiveInteger.value (EffectiveModelDescriptorV1.context_window model)));
     ("maxTokens",
      json_u64 (PositiveInteger.value (EffectiveModelDescriptorV1.max_tokens model)));
     ("inputUsdPerMillion",
      encode_rate (EffectiveModelDescriptorV1.input_usd_per_million model));
     ("outputUsdPerMillion",
      encode_rate (EffectiveModelDescriptorV1.output_usd_per_million model));
     ("cacheReadUsdPerMillion",
      encode_rate (EffectiveModelDescriptorV1.cache_read_usd_per_million model));
     ("cacheWriteUsdPerMillion",
      encode_cache_write_rate (EffectiveModelDescriptorV1.cache_write_usd_per_million model))
    ]%string.

Definition encode_model_catalog (value : ModelCatalogPolicyV1.t) : Value.t :=
  json_object
    [("catalogBlake3",
      json_string (Blake3Digest.as_str (ModelCatalogPolicyV1.catalog_blake3 value)));
     ("effectiveModel",
      encode_effective_model (ModelCatalogPolicyV1.effective_model value))]%string.

Definition encode_retry (retry : RetryPolicyV1.t) : Value.t :=
  json_object
    [("maxRetries", json_u64 (NonNegativeInteger.value (RetryPolicyV1.max_retries retry)));
     ("baseDelayMilliseconds",
      json_u64 (NonNegativeInteger.value (RetryPolicyV1.base_delay_milliseconds retry)));
     ("providerTimeoutMilliseconds",
      json_u64 (PositiveInteger.value (RetryPolicyV1.provider_timeout_milliseconds retry)));
     ("providerMaxRetries",
      json_u64 (NonNegativeInteger.value (RetryPolicyV1.provider_max_retries retry)));
     ("providerMaxRetryDelayMilliseconds",
      json_u64 (PositiveInteger.value
                  (RetryPolicyV1.provider_max_retry_delay_milliseconds retry)))]%string.

Definition encode_compaction (compaction : CompactionPolicyV1.t) : Value.t :=
  json_object
    [("mode", json_string (compaction_mode_wire (CompactionPolicyV1.mode compaction)));
     ("reserveTokens",
      json_u64 (NonNegativeInteger.value (CompactionPolicyV1.reserve_tokens compaction)));
     ("keepRecentTokens",
      json_u64 (NonNegativeInteger.value (CompactionPolicyV1.keep_recent_tokens compaction)))
    ]%string.

Definition encode_settings (value : ActorModelPolicyV1.t) : Value.t :=
  json_object
    [("retry", encode_retry (ActorModelPolicyV1.retry value));
     ("compaction", encode_compaction (ActorModelPolicyV1.compaction value));
     ("steeringMode", json_string (queue_mode_wire (ActorModelPolicyV1.steering_mode value)));
     ("followUpMode", json_string (queue_mode_wire (ActorModelPolicyV1.follow_up_mode value)));
     ("transport", json_string (transport_wire (ActorModelPolicyV1.transport value)));
     ("projectTrust", json_string (project_trust_wire (ActorModelPolicyV1.project_trust value)));
     ("installTelemetryEnabled", json_bool false);
     ("analyticsEnabled", json_bool false);
     ("images", json_string (images_wire (ActorModelPolicyV1.images value)))]%string.

Definition encode_create_session (payload : CreateSessionPayload.t) : Value.t :=
  json_object
    [("sessionKind", json_string (session_kind_wire (CreateSessionPayload.session_kind payload)));
     ("cwd", json_string (AbsolutePath.as_str (CreateSessionPayload.cwd payload)));
     ("agentDirectory",
      json_string (AbsolutePath.as_str (CreateSessionPayload.agent_directory payload)));
     ("authPath", json_string (AbsolutePath.as_str (CreateSessionPayload.auth_path payload)));
     ("modelsPath",
      json_string (AbsolutePath.as_str (CreateSessionPayload.models_path payload)));
     ("sessionDirectory",
      json_string (AbsolutePath.as_str (CreateSessionPayload.session_directory payload)));
     ("systemPrompt", json_string (CreateSessionPayload.system_prompt payload));
     ("systemPromptDigest",
      json_string (Blake3Digest.as_str (CreateSessionPayload.system_prompt_digest payload)));
     ("model", encode_model_selection (CreateSessionPayload.model payload));
     ("modelCatalog", encode_model_catalog (CreateSessionPayload.model_catalog payload));
     ("toolProfile", json_string (tool_profile_wire (CreateSessionPayload.tool_profile payload)));
     ("settings", encode_settings (CreateSessionPayload.settings payload));
     ("forumContract",
      encode_forum_session_contract (CreateSessionPayload.forum_contract payload))]%string.

(** The payload of a command. *)
Definition encode_command (command : InboundCommand.t) : Value.t :=
  match command with
  | InboundCommand.CreateSession payload => encode_create_session payload
  | InboundCommand.Prompt payload =>
      json_object
        [("purpose", json_string (prompt_purpose_wire (PromptPayload.purpose payload)));
         ("text", json_string (PromptPayload.text payload))]
  | InboundCommand.FollowUp payload =>
      json_object
        [("noticeDeliveryIdentity",
          json_string (as_str (FollowUpPayload.notice_delivery_identity payload)));
         ("ledgerFrontier",
          json_u64 (LedgerFrontier.value (FollowUpPayload.ledger_frontier payload)));
         ("text", json_string (FollowUpPayload.text payload))]
  | InboundCommand.Steer payload =>
      json_object
        [("reason", json_string (steer_reason_wire (SteerPayload.reason payload)));
         ("text", json_string (SteerPayload.text payload))]
  | InboundCommand.Abort payload =>
      json_object [("reason", json_string (abort_reason_wire (AbortPayload.reason payload)))]
  | InboundCommand.GetState => json_object []
  | InboundCommand.Dispose payload =>
      json_object [("reason", json_string (dispose_reason_wire (DisposePayload.reason payload)))]
  | InboundCommand.ForumToolResult payload =>
      json_object
        [("toolCallIdentity",
          json_string (as_str (ForumToolResultPayload.tool_call_identity payload)));
         ("result", ForumToolResultPayload.result payload);
         ("isError", json_bool (ForumToolResultPayload.is_error payload))]
  end%string.

Definition encode_inbound_value (frame : InboundFrame.t) : Value.t :=
  json_object
    [("protocolVersion", json_string ADAPTER_PROTOCOL_VERSION);
     ("sequence", json_u64 (BoundarySequence.value (InboundFrame.sequence frame)));
     ("sessionIdentity", json_string (as_str (InboundFrame.session_identity frame)));
     ("correlationIdentity", json_string (as_str (InboundFrame.correlation_identity frame)));
     ("command", json_string (command_name_wire (InboundCommand.name (InboundFrame.command frame))));
     ("payload", encode_command (InboundFrame.command frame))]%string.

Definition encode_inbound_jsonl `{JsonLibrary} (frame : InboundFrame.t) :
  protocol_result string :=
  let line := to_string (encode_inbound_value frame) in
  if MAX_JSONL_FRAME_BYTES <? str_len line then Err ProtocolError.FrameTooLarge
  else
    let? _frame := decode_inbound_jsonl line in
    Ok line.

(** ** Codecs of one field, and of the fields of one object *)

(** [get] reads the field [enc] wrote; [ok] is what the reader guarantees. *)
Class FieldCodec {A} (get : Object.t -> string -> protocol_result A) (enc : A -> Value.t)
    (ok : A -> Prop) : Prop := {
  field_sound : forall o k a, get o k = Ok a -> ok a;
  field_exact : forall o k a, Object.get k o = Some (enc a) -> ok a -> get o k = Ok a;
  field_inj : forall o k a b, Object.get k o = Some (enc a) -> get o k = Ok b -> b = a;
}.

Class ObjectCodec {A} (decode : Object.t -> protocol_result A) (enc : A -> Value.t)
    (ok : A -> Prop) : Prop := {
  object_sound : forall o a, decode o = Ok a -> ok a;
  object_exact : forall a, ok a -> exists o, enc a = Value.Object o /\ decode o = Ok a;
  object_inj : forall o a b, enc a = Value.Object o -> decode o = Ok b -> b = a;
}.

#[export] Instance required_codec : FieldCodec Field.required (fun v => v) (fun _ => True).
Proof.
  constructor; unfold Field.required; intros o k a; [done| |].
  - by intros ->.
  - by intros b -> [= <-].
Qed.

#[export] Instance boolean_codec : FieldCodec Field.boolean json_bool (fun _ => True).
Proof.
  constructor; unfold Field.boolean, Field.required; intros o k a; [done| |].
  - by intros ->.
  - by intros b -> [= <-].
Qed.

#[export] Instance parsed_codec {A} (parse : string -> protocol_result A) print ok :
  TextCodec parse print ok -> FieldCodec (Field.parsed parse) (fun a => json_string (print a)) ok.
Proof.
  intros C. constructor; unfold Field.parsed, Field.string, Field.required; intros o k a.
  - intros H. inv_ok H. by destruct (text_sound _ _ H).
  - intros ->. cbn. apply text_exact.
  - intros b ->. cbn. apply text_inj.
Qed.

#[export] Instance path_codec :
  FieldCodec Field.path (fun a => json_string (AbsolutePath.as_str a))
    (fun a => AbsolutePath.parse (AbsolutePath.as_str a) = Ok a) := parsed_codec _ _ _ _.

#[export] Instance nonempty_codec :
  FieldCodec Field.nonempty json_string (fun a => is_empty a = false).
Proof.
  constructor; unfold Field.nonempty, Field.string, Field.required; intros o k a.
  - intros H. by inv_ok H.
  - intros ->. cbn. by intros ->.
  - intros b ->. cbn. destruct (is_empty a); [done|]. by intros [= <-].
Qed.

#[export] Instance unsigned_codec :
  FieldCodec Field.unsigned json_u64 (fun z => z <= MAX_SAFE_INTEGER).
Proof.
  constructor; unfold Field.unsigned, Field.required; intros o k a.
  - intros H. inv_ok H. by apply Z.leb_le.
  - intros ->. cbn. by intros ->%Z.leb_le.
  - intros b ->. cbn. destruct (a <=? MAX_SAFE_INTEGER); [|done]. by intros [= <-].
Qed.

(** An integer newtype read through [Field.unsigned]. *)
Lemma unsigned_newtype_codec {A} (parse : Z -> protocol_result A) (value : A -> Z) :
  (forall z a, parse z = Ok a -> value a = z /\ value a <= MAX_SAFE_INTEGER) ->
  (forall a b, value a = value b -> a = b) ->
  FieldCodec (fun o k => let? z := Field.unsigned o k in parse z)
    (fun a => json_u64 (value a)) (fun a => parse (value a) = Ok a).
Proof.
  intros Hparse Hinj. constructor; intros o k a.
  - intros H. inv_ok H. by destruct (Hparse _ _ H) as [-> _].
  - intros Hget Ha. rewrite (field_exact o k (value a)); [done|done|].
    by destruct (Hparse _ _ Ha).
  - intros b Hget H. inv_ok H. apply (field_inj o k (value a)) in E; [|done]. subst.
    destruct (Hparse _ _ H). by apply Hinj.
Qed.

Ltac integer_codec :=
  apply unsigned_newtype_codec;
    [ intros z a H; unfold invalid_frame in H; inv_ok H; bool_hyps; split; [reflexivity|cbn; lia]
    | intros [] [] H; cbn in H; congruence ].

#[export] Instance boundary_sequence_codec :
  FieldCodec Field.boundary_sequence (fun a => json_u64 (BoundarySequence.value a))
    (fun a => BoundarySequence.parse (BoundarySequence.value a) = Ok a).
Proof. unfold Field.boundary_sequence, BoundarySequence.parse. integer_codec. Qed.
#[export] Instance nonnegative_codec :
  FieldCodec Field.nonnegative (fun a => json_u64 (NonNegativeInteger.value a))
    (fun a => NonNegativeInteger.parse (NonNegativeInteger.value a) = Ok a).
Proof. unfold Field.nonnegative, NonNegativeInteger.parse. integer_codec. Qed.
#[export] Instance positive_codec :
  FieldCodec Field.positive (fun a => json_u64 (PositiveInteger.value a))
    (fun a => PositiveInteger.parse (PositiveInteger.value a) = Ok a).
Proof. unfold Field.positive, PositiveInteger.parse. integer_codec. Qed.

#[export] Instance nested_codec {A} (decode : Object.t -> protocol_result A) enc ok :
  ObjectCodec decode enc ok -> FieldCodec (Field.nested decode) enc ok.
Proof.
  intros C. constructor; unfold Field.nested, Field.required; intros o k a.
  - intros H. inv_ok H. by eapply object_sound.
  - intros -> Ha. destruct (object_exact a Ha) as (o' & -> & Ho'). exact Ho'.
  - intros b -> H. cbn in H. destruct (enc a) eqn:E; try done. by eapply object_inj.
Qed.

(** ** What the types of the protocol guarantee

    The newtypes are built by their [parse] only, so every value that exists
    satisfies these; the pinned checks are what the decoders add. *)

Abbreviation digest_ok d := (Blake3Digest.parse (Blake3Digest.as_str d) = Ok d).
Abbreviation path_ok p := (AbsolutePath.parse (AbsolutePath.as_str p) = Ok p).
Abbreviation identity_ok i := (closed_string_parse (as_str i) = Ok i).
Abbreviation nonnegative_ok n := (NonNegativeInteger.parse (NonNegativeInteger.value n) = Ok n).
Abbreviation positive_ok n := (PositiveInteger.parse (PositiveInteger.value n) = Ok n).

Definition rate_ok (r : KnownPerMillionRateV1.t) : Prop :=
  UsdPerMillionDecimal.parse
    (UsdPerMillionDecimal.as_str (KnownPerMillionRateV1.usd_per_million r))
  = Ok (KnownPerMillionRateV1.usd_per_million r).

Definition cache_write_rate_ok (r : CacheWritePerMillionRateV1.t) : Prop :=
  match r with
  | CacheWritePerMillionRateV1.Known r => rate_ok r
  | CacheWritePerMillionRateV1.Absent => True
  end.

Definition model_catalog_ok (c : ModelCatalogPolicyV1.t) : Prop :=
  let m := ModelCatalogPolicyV1.effective_model c in
  digest_ok (ModelCatalogPolicyV1.catalog_blake3 c)
  /\ positive_ok (EffectiveModelDescriptorV1.context_window m)
  /\ positive_ok (EffectiveModelDescriptorV1.max_tokens m)
  /\ rate_ok (EffectiveModelDescriptorV1.input_usd_per_million m)
  /\ rate_ok (EffectiveModelDescriptorV1.output_usd_per_million m)
  /\ rate_ok (EffectiveModelDescriptorV1.cache_read_usd_per_million m)
  /\ cache_write_rate_ok (EffectiveModelDescriptorV1.cache_write_usd_per_million m).

Definition retry_ok (r : RetryPolicyV1.t) : Prop :=
  nonnegative_ok (RetryPolicyV1.max_retries r)
  /\ nonnegative_ok (RetryPolicyV1.base_delay_milliseconds r)
  /\ positive_ok (RetryPolicyV1.provider_timeout_milliseconds r)
  /\ nonnegative_ok (RetryPolicyV1.provider_max_retries r)
  /\ positive_ok (RetryPolicyV1.provider_max_retry_delay_milliseconds r).

Definition compaction_ok (c : CompactionPolicyV1.t) : Prop :=
  nonnegative_ok (CompactionPolicyV1.reserve_tokens c)
  /\ nonnegative_ok (CompactionPolicyV1.keep_recent_tokens c).

Definition settings_ok (p : ActorModelPolicyV1.t) : Prop :=
  retry_ok (ActorModelPolicyV1.retry p) /\ compaction_ok (ActorModelPolicyV1.compaction p).

Definition forum_contract_ok (c : ForumSessionContractV1.t) : Prop :=
  ForumSessionContractV1.assert_pinned c = Ok ().

(** ** The object codecs *)

(** Splits a successful decoding into its successful steps. *)
Ltac decoded H :=
  repeat match type of H with
  | (match ?x with Ok _ => _ | Err _ => _ end) = Ok _ =>
      let E := fresh "E" in destruct x eqn:E; [|discriminate H]
  | (if ?b then _ else _) = Ok _ =>
      let E := fresh "E" in destruct b eqn:E; try discriminate H
  | invalid_frame _ = Ok _ => discriminate H
  | (let _ := _ in _) = Ok _ => cbv zeta in H
  | Ok _ = Ok _ => apply Ok_inj in H; subst
  end.

(** The invariant of every field that was read. *)
Ltac fields_sound :=
  repeat match goal with
  | E : _ = Ok _ |- _ => apply field_sound in E
  end.

Lemma read_field {A B} {get : Object.t -> string -> protocol_result A} {enc ok}
    (C : FieldCodec get enc ok) o k a (f : A -> protocol_result B) r :
  Object.get k o = Some (enc a) -> ok a -> f a = r ->
  (let? x := get o k in f x) = r.
Proof. intros Hget Ha <-. by rewrite (field_exact o k a). Qed.

(** The fields an encoder wrote, in map order. *)
Ltac head_of t := lazymatch t with ?f _ => head_of f | _ => t end.
Ltac written :=
  lazymatch goal with
  | |- ?v = Value.Object _ => let f := head_of v in unfold f, json_object; cbn; reflexivity
  end.

Lemma read_object {B} v o (f : Object.t -> protocol_result B) r :
  v = Value.Object o -> f o = r -> (let? x := Field.object v in f x) = r.
Proof. by intros -> <-. Qed.

Lemma object_read {A} {decode : Object.t -> protocol_result A} {enc ok}
    {C : ObjectCodec decode enc ok} a o :
  enc a = Value.Object o -> ok a -> decode o = Ok a.
Proof. intros Ho Ha. destruct (object_exact a Ha) as (o' & Ho' & Hd). congruence. Qed.

Lemma object_written v o o' : Field.object v = Ok o' -> v = Value.Object o -> o' = o.
Proof. intros H ->. cbv in H. congruence. Qed.

(** Reads the fields of an object whose keys are known. *)
Ltac read_fields :=
  repeat match goal with
  | |- (match Field.exact_keys ?o ?ks with _ => _ end) = _ =>
      change (Field.exact_keys o ks) with (Ok (E := ProtocolError.t) ()); cbv iota beta
  | |- (match Field.literal ?o ?k ?e with _ => _ end) = _ =>
      change (Field.literal o k e) with (Ok (E := ProtocolError.t) ()); cbv iota beta
  | |- (match disabled false with _ => _ end) = _ =>
      change (disabled false) with (Ok (E := ProtocolError.t) Disabled.Disabled); cbv iota beta
  | |- (match Field.object _ with _ => _ end) = _ =>
      eapply read_object; [written|cbv beta]
  | |- (match ?get ?o ?k with Ok _ => _ | Err _ => _ end) = _ =>
      let C := constr:(_ : FieldCodec get _ _) in
      eapply (read_field C); [reflexivity|first [exact I|eassumption]|]
  end.

(** Takes the next step of the goal as [H] says, up to conversion. *)
Ltac take_step H :=
  lazymatch type of H with
  | _ = ?v =>
      lazymatch goal with
      | |- (if ?c then _ else _) = _ => replace c with v by (symmetry; exact H)
      | |- (match ?c with Ok _ => _ | Err _ => _ end) = _ =>
          replace c with v by (symmetry; exact H)
      end; cbv iota beta
  end.

(** Every field read from an encoded object is the one that was written. *)
Ltac fields_inj :=
  repeat match goal with
  | E : Field.object ?v = Ok ?o |- _ =>
      eapply object_written in E; [|written]; subst o
  | E : ?get ?o ?k = Ok ?b |- _ =>
      let C := constr:(_ : FieldCodec get _ _) in
      eapply (field_inj (FieldCodec := C)) in E; [|reflexivity]; subst b
  end.

#[export] Instance string_codec : FieldCodec Field.string json_string (fun _ => True).
Proof.
  constructor; unfold Field.string, Field.required; intros o k a; [done| |].
  - by intros ->.
  - by intros b -> [= <-].
Qed.

#[export] Instance rate_codec : ObjectCodec decode_known_rate encode_rate rate_ok.
Proof.
  constructor.
  - intros o a H. unfold decode_known_rate in H. decoded H. by fields_sound.
  - intros [r] Ha. unfold rate_ok in Ha. cbn in Ha. eexists. split; [written|].
    unfold decode_known_rate. by read_fields.
  - intros o [r] b [= <-] H. unfold decode_known_rate in H. decoded H. by fields_inj.
Qed.

#[export] Instance cache_write_rate_codec :
  ObjectCodec decode_cache_write_rate encode_cache_write_rate cache_write_rate_ok.
Proof.
  constructor.
  - intros o a H. unfold decode_cache_write_rate in H. decoded H; [done|].
    by eapply (object_sound (ObjectCodec := rate_codec)).
  - intros [r|] Ha.
    + destruct (object_exact r Ha) as (o & Ho & Hd). exists o. split; [exact Ho|].
      unfold encode_rate, json_object in Ho. cbn in Ho. injection Ho as <-.
      unfold decode_cache_write_rate. by rewrite Hd.
    + eexists. split; [written|]. reflexivity.
  - intros o [r|] b Ho H.
    + pose proof Ho as [= <-]. unfold decode_cache_write_rate in H. 
      change (Field.string _ _) with (Ok (E := ProtocolError.t) "Known"%string) in H.
      cbv iota beta in H. cbn [String.eqb Ascii.eqb eqb] in H. decoded H.
      f_equal. eapply object_inj; [|exact E]. exact Ho.
    + injection Ho as <-. by injection H.
Qed.

#[export] Instance model_catalog_codec :
  ObjectCodec decode_model_catalog encode_model_catalog model_catalog_ok.
Proof.
  constructor.
  - intros o a H. unfold decode_model_catalog in H. decoded H. by fields_sound.
  - intros [d [p u ap m c i w x r1 r2 r3 r4]] Ha. unfold model_catalog_ok in Ha. cbn in Ha.
    destruct Ha as (?&?&?&?&?&?&?). eexists. split; [written|].
    unfold decode_model_catalog. by read_fields.
  - intros o [d [p u ap m c i w x r1 r2 r3 r4]] b [= <-] H.
    unfold decode_model_catalog in H. decoded H. by fields_inj.
Qed.

#[export] Instance retry_codec : ObjectCodec decode_retry encode_retry retry_ok.
Proof.
  constructor.
  - intros o a H. unfold decode_retry in H. decoded H. by fields_sound.
  - intros [a b c d e] (?&?&?&?&?). eexists. split; [written|].
    unfold decode_retry. by read_fields.
  - intros o [a b c d e] r [= <-] H. unfold decode_retry in H. decoded H. by fields_inj.
Qed.

#[export] Instance compaction_codec :
  ObjectCodec decode_compaction encode_compaction compaction_ok.
Proof.
  constructor.
  - intros o a H. unfold decode_compaction in H. decoded H. by fields_sound.
  - intros [a b c] (?&?). eexists. split; [written|].
    unfold decode_compaction. by read_fields.
  - intros o [a b c] r [= <-] H. unfold decode_compaction in H. decoded H. by fields_inj.
Qed.

#[export] Instance settings_codec : ObjectCodec decode_settings encode_settings settings_ok.
Proof.
  constructor.
  - intros o a H. unfold decode_settings in H. decoded H.
    repeat match goal with E : _ = Ok _ |- _ => apply object_sound in E end. done.
  - intros [r c s f t p [] [] im] [Hr Hc]. cbn in Hr, Hc. eexists. split; [written|].
    unfold decode_settings. read_fields.
    rewrite (object_read r _ eq_refl Hr), (object_read c _ eq_refl Hc).
    by read_fields.
  - intros o [r c s f t p [] [] im] b [= <-] H.
    unfold decode_settings in H. decoded H. fields_inj.
    repeat match goal with E : disabled _ = Ok ?d |- _ => clear E; destruct d end.
    repeat match goal with E : _ = Ok ?d |- _ =>
      eapply object_inj in E; [|written]; subst d end. done.
Qed.

(** A pinned enabled contract carries the two registered digests. *)
Lemma pinned_contract d e :
  forum_contract_ok (ForumSessionContractV1.ForumEnabledV1 d e) ->
  d = Blake3Digest.new FORUM_F0_AWARENESS_BLAKE3
  /\ e = Blake3Digest.new FORUM_F0_TOOL_CONTRACT_BLAKE3.
Proof.
  unfold forum_contract_ok, ForumSessionContractV1.assert_pinned.
  destruct d as [d], e as [e]. intros H. decoded H. apply andb_true_iff in E as [E1 E2].
  apply String.eqb_eq in E1, E2. by split; f_equal.
Qed.

#[export] Instance forum_contract_codec :
  ObjectCodec decode_forum_session_contract encode_forum_session_contract forum_contract_ok.
Proof.
  constructor.
  - intros o a H. unfold decode_forum_session_contract in H. decoded H; [|done].
    by destruct a4.
  - intros [d e|] Ha; eexists; (split; [written|]); [|done].
    destruct (pinned_contract d e Ha) as [-> ->]. reflexivity.
  - intros o [d e|] b [= <-] H; unfold decode_forum_session_contract in H.
    + change (Field.string _ _) with (Ok (E := ProtocolError.t) "forum_enabled_v1"%string) in H.
      decoded H. by fields_inj.
    + by injection H.
Qed.

(** What a decoded [CreateSession] payload satisfies. *)
Definition create_session_ok (p : CreateSessionPayload.t) : Prop :=
  path_ok (CreateSessionPayload.cwd p)
  /\ path_ok (CreateSessionPayload.agent_directory p)
  /\ path_ok (CreateSessionPayload.auth_path p)
  /\ path_ok (CreateSessionPayload.models_path p)
  /\ path_ok (CreateSessionPayload.session_directory p)
  /\ is_empty (CreateSessionPayload.system_prompt p) = false
  /\ digest_ok (CreateSessionPayload.system_prompt_digest p)
  /\ model_catalog_ok (CreateSessionPayload.model_catalog p)
  /\ settings_ok (CreateSessionPayload.settings p)
  /\ model_thinking_level_is_admitted
       (ModelSelection.model_id (CreateSessionPayload.model p))
       (ModelSelection.thinking_level (CreateSessionPayload.model p)) = true
  /\ ModelSelection.model_id (CreateSessionPayload.model p)
     = EffectiveModelDescriptorV1.model_id
         (ModelCatalogPolicyV1.effective_model (CreateSessionPayload.model_catalog p))
  /\ forum_pairing_mismatch p = false
  /\ ModelCatalogPolicyV1.assert_pinned (CreateSessionPayload.model_catalog p) = Ok ()
  /\ ActorModelPolicyV1.assert_pinned (CreateSessionPayload.settings p) = Ok ()
  /\ ForumSessionContractV1.assert_pinned (CreateSessionPayload.forum_contract p) = Ok ().

#[export] Instance model_selection_codec :
  ObjectCodec decode_model_selection encode_model_selection (fun _ => True).
Proof.
  constructor.
  - done.
  - intros [p m l] _. eexists. split; [written|].
    unfold decode_model_selection. by read_fields.
  - intros o [p m l] b [= <-] H. unfold decode_model_selection in H. decoded H.
    by fields_inj.
Qed.

#[export] Instance create_session_codec :
  ObjectCodec decode_create_session encode_create_session create_session_ok.
Proof.
  constructor.
  - intros o a H. unfold decode_create_session in H. decoded H. fields_sound.
    repeat match goal with u : unit |- _ => destruct u end.
    bool_hyps. unfold create_session_ok. cbn in *. split_and!; assumption.
  - intros [k a b c d e s dg [[] mi l] mc tp st fc] Hp. pose proof Hp as Hp'.
    unfold create_session_ok in Hp'. cbn in Hp'.
    destruct Hp' as (?&?&?&?&?&?&?&?&?&Hadm&Heq&Hpair&Hc&Hs&Hf).
    eexists. split; [written|]. unfold decode_create_session. read_fields.
    match goal with |- context [decode_model_selection ?o] =>
      rewrite (object_read (ModelSelection.new Provider.OpenRouter mi l) o eq_refl I) end.
    cbn [ModelSelection.provider ModelSelection.model_id ModelSelection.thinking_level].
    rewrite Hadm, bool_decide_eq_true_2 by done. cbn [negb orb]. read_fields.
    cbn [CreateSessionPayload.model CreateSessionPayload.model_catalog].
    rewrite bool_decide_eq_true_2 by done. cbn [negb].
    by take_step Hpair; take_step Hc; take_step Hs; take_step Hf.
  - intros o [k a b c d e s dg [[] mi l] mc tp st fc] p [= <-] H.
    unfold decode_create_session in H. decoded H. fields_inj.
    apply (object_inj _ (ModelSelection.new Provider.OpenRouter mi l)) in E4; [|reflexivity].
    by subst.
Qed.

(** ** Commands *)

Section Payloads.
Context {P : Type} (command : P -> InboundCommand.t).
Definition payload_codec (decode : Object.t -> protocol_result P) (ok : P -> Prop) : Prop :=
  ObjectCodec decode (fun p => encode_command (command p)) ok.
End Payloads.

Ltac payload_codec decode :=
  constructor;
    [ intros o a H; unfold decode in H; decoded H; by fields_sound
    | intros []; intros; eexists; split; [written|]; unfold decode; cbn in *;
      destruct_and?; by read_fields
    | intros o [] b [= <-] H; unfold decode in H; decoded H; by fields_inj ].

Lemma prompt_codec :
  payload_codec InboundCommand.Prompt decode_prompt
    (fun p => is_empty (PromptPayload.text p) = false).
Proof. payload_codec decode_prompt. Qed.

Lemma steer_codec :
  payload_codec InboundCommand.Steer decode_steer
    (fun p => is_empty (SteerPayload.text p) = false).
Proof. payload_codec decode_steer. Qed.

Lemma abort_codec : payload_codec InboundCommand.Abort decode_abort (fun _ => True).
Proof. payload_codec decode_abort. Qed.

Lemma dispose_codec : payload_codec InboundCommand.Dispose decode_dispose (fun _ => True).
Proof. payload_codec decode_dispose. Qed.

Lemma forum_tool_result_codec :
  payload_codec InboundCommand.ForumToolResult decode_forum_tool_result
    (fun p => identity_ok (ForumToolResultPayload.tool_call_identity p)).
Proof. payload_codec decode_forum_tool_result. Qed.

Lemma ledger_frontier_parsed z a :
  LedgerFrontier.parse z = Ok a -> LedgerFrontier.value a = z /\ z <= MAX_SAFE_INTEGER.
Proof. unfold LedgerFrontier.parse. intros H. decoded H. by apply Z.ltb_ge in E. Qed.

Lemma follow_up_codec :
  payload_codec InboundCommand.FollowUp decode_follow_up
    (fun p => identity_ok (FollowUpPayload.notice_delivery_identity p)
              /\ LedgerFrontier.parse (LedgerFrontier.value (FollowUpPayload.ledger_frontier p))
                 = Ok (FollowUpPayload.ledger_frontier p)
              /\ is_empty (FollowUpPayload.text p) = false).
Proof.
  constructor.
  - intros o a H. unfold decode_follow_up in H. decoded H. fields_sound. cbn.
    split; [done|]. split; [|done]. by destruct (ledger_frontier_parsed _ _ E2) as [-> _].
  - intros [i [z] t] (Hi & Hl & Ht). cbn in *. eexists. split; [written|].
    unfold decode_follow_up. destruct (ledger_frontier_parsed _ _ Hl) as [_ Hz].
    read_fields. rewrite Hl. by read_fields.
  - intros o [i [z] t] b [= <-] H. unfold decode_follow_up in H. decoded H. fields_inj.
    match goal with l : LedgerFrontier.t |- _ => destruct l end.
    destruct (ledger_frontier_parsed _ _ E2) as [Hz _]. cbn in Hz. by subst.
Qed.

Definition command_ok (command : InboundCommand.t) : Prop :=
  match command with
  | InboundCommand.CreateSession p => create_session_ok p
  | InboundCommand.Prompt p => is_empty (PromptPayload.text p) = false
  | InboundCommand.FollowUp p =>
      identity_ok (FollowUpPayload.notice_delivery_identity p)
      /\ LedgerFrontier.parse (LedgerFrontier.value (FollowUpPayload.ledger_frontier p))
         = Ok (FollowUpPayload.ledger_frontier p)
      /\ is_empty (FollowUpPayload.text p) = false
  | InboundCommand.Steer p => is_empty (SteerPayload.text p) = false
  | InboundCommand.Abort _ | InboundCommand.GetState | InboundCommand.Dispose _ => True
  | InboundCommand.ForumToolResult p =>
      identity_ok (ForumToolResultPayload.tool_call_identity p)
  end.

Lemma command_sound name o c :
  decode_inbound_command name o = Ok c -> InboundCommand.name c = name /\ command_ok c.
Proof.
  destruct name; intros H; cbn in H; decoded H; (split; [done|]); cbn; try done;
    by first [ apply (object_sound (ObjectCodec := create_session_codec) _ _ E)
             | apply (object_sound (ObjectCodec := prompt_codec) _ _ E)
             | apply (object_sound (ObjectCodec := follow_up_codec) _ _ E)
             | apply (object_sound (ObjectCodec := steer_codec) _ _ E)
             | apply (object_sound (ObjectCodec := forum_tool_result_codec) _ _ E) ].
Qed.

Lemma command_exact c :
  command_ok c ->
  exists o, encode_command c = Value.Object o
            /\ decode_inbound_command (InboundCommand.name c) o = Ok c.
Proof.
  destruct c as [p|p|p|p|p| |p|p]; intros Hc;
    [ destruct (object_exact (ObjectCodec := create_session_codec) p Hc) as (o & Ho & Hd)
    | destruct (object_exact (ObjectCodec := prompt_codec) p Hc) as (o & Ho & Hd)
    | destruct (object_exact (ObjectCodec := follow_up_codec) p Hc) as (o & Ho & Hd)
    | destruct (object_exact (ObjectCodec := steer_codec) p Hc) as (o & Ho & Hd)
    | destruct (object_exact (ObjectCodec := abort_codec) p Hc) as (o & Ho & Hd)
    | by exists []
    | destruct (object_exact (ObjectCodec := dispose_codec) p Hc) as (o & Ho & Hd)
    | destruct (object_exact (ObjectCodec := forum_tool_result_codec) p Hc) as (o & Ho & Hd) ];
    exists o; (split; [exact Ho|]); cbn; by rewrite Hd.
Qed.

Lemma command_inj c o c' :
  encode_command c = Value.Object o ->
  decode_inbound_command (InboundCommand.name c) o = Ok c' -> c' = c.
Proof.
  destruct c as [p|p|p|p|p| |p|p]; intros Ho H; cbn in H; decoded H; f_equal; try done;
    by first [ apply (object_inj (ObjectCodec := create_session_codec) _ _ _ Ho E)
             | apply (object_inj (ObjectCodec := prompt_codec) _ _ _ Ho E)
             | apply (object_inj (ObjectCodec := follow_up_codec) _ _ _ Ho E)
             | apply (object_inj (ObjectCodec := steer_codec) _ _ _ Ho E)
             | apply (object_inj (ObjectCodec := abort_codec) _ _ _ Ho E)
             | apply (object_inj (ObjectCodec := dispose_codec) _ _ _ Ho E)
             | apply (object_inj (ObjectCodec := forum_tool_result_codec) _ _ _ Ho E) ].
Qed.

(** ** Frames *)

Definition inbound_frame_ok (f : InboundFrame.t) : Prop :=
  BoundarySequence.parse (BoundarySequence.value (InboundFrame.sequence f))
  = Ok (InboundFrame.sequence f)
  /\ identity_ok (InboundFrame.session_identity f)
  /\ identity_ok (InboundFrame.correlation_identity f)
  /\ command_ok (InboundFrame.command f).

Lemma inbound_value_sound v f : decode_inbound_value v = Ok f -> inbound_frame_ok f.
Proof.
  unfold decode_inbound_value. intros H. decoded H.
  match goal with E : decode_inbound_command _ _ = _ |- _ => apply command_sound in E as [_ ?] end.
  fields_sound. done.
Qed.

Lemma inbound_value_exact f :
  inbound_frame_ok f -> decode_inbound_value (encode_inbound_value f) = Ok f.
Proof.
  destruct f as [s i c cmd]. intros (?&?&?&Hcmd). cbn in *.
  destruct (command_exact cmd Hcmd) as (o & Ho & Hd).
  unfold decode_inbound_value. read_fields.
  eapply read_object; [exact Ho|]. by rewrite Hd.
Qed.

Lemma inbound_value_inj f f' :
  decode_inbound_value (encode_inbound_value f) = Ok f' -> f' = f.
Proof.
  destruct f as [s i c cmd]. unfold decode_inbound_value. intros H. decoded H. fields_inj.
  cbn in *. match goal with E : Field.object _ = Ok _ |- _ => unfold Field.object in E end.
  destruct (encode_command cmd) eqn:Ho; simplify_eq. f_equal. by eapply command_inj.
Qed.
