(* ===== verification/PiCodecSpec.v ===== *)
(** * What the Pi frame codec guarantees

    The properties of the decoders and of the inbound encoder: the round trip,
    the exact set of frames the encoder emits, the invariants of every accepted
    frame, the closed key sets and the path order. *)

From S2P Require Import Prelude Json JsonReference PiText PiWire PiForum PiTypes PiScanner.
From S2P Require Import PiDecode PiEncode.

(** ** Sample frames *)

(** Text with its apostrophes turned into quotation marks. *)
Definition quotes (s : string) : string :=
  string_of_list_ascii (map (fun b => if Ascii.eqb b "'" then dquote else b) (bytes s)).

Definition sample_path (s : string) : AbsolutePath.t := AbsolutePath.new s.
Definition sample_digest : Blake3Digest.t :=
  Blake3Digest.new "0123456789abcdef0123456789abcdef0123456789abcdef0123456789abcdef".
Definition sample_rate (s : string) : KnownPerMillionRateV1.t :=
  KnownPerMillionRateV1.new (UsdPerMillionDecimal.new s).

Definition sample_catalog : ModelCatalogPolicyV1.t :=
  ModelCatalogPolicyV1.new sample_digest
    (EffectiveModelDescriptorV1.new Provider.OpenRouter OpenRouterBaseUrl.ApiV1
       ModelApi.OpenAiCompletions ModelId.DeepseekV4Flash0731
       CanonicalModelSlug.DeepseekV4Flash20260731 ModelInput.TextOnly
       (PositiveInteger.new 1048576) (PositiveInteger.new 384000)
       (sample_rate "0.09") (sample_rate "0.18") (sample_rate "0.018")
       CacheWritePerMillionRateV1.Absent).

Definition pinned_settings : ActorModelPolicyV1.t :=
  ActorModelPolicyV1.new
    (RetryPolicyV1.new (NonNegativeInteger.new 2) (NonNegativeInteger.new 2000)
       (PositiveInteger.new 300000) (NonNegativeInteger.new 1) (PositiveInteger.new 30000))
    (CompactionPolicyV1.new CompactionMode.Enabled (NonNegativeInteger.new 16384)
       (NonNegativeInteger.new 20000))
    QueueMode.OneAtATime QueueMode.OneAtATime Transport.Sse ProjectTrust.Never
    Disabled.Disabled Disabled.Disabled Images.Blocked.

Definition sample_create_session : CreateSessionPayload.t :=
  CreateSessionPayload.new SessionKind.TaskAttempt (sample_path "/work/repo")
    (sample_path "/work/agent") (sample_path "/work/agent/auth.json")
    (sample_path "/work/agent/models.json") (sample_path "/work/sessions")
    (quotes "You are 'an actor'.") sample_digest
    (ModelSelection.new Provider.OpenRouter ModelId.DeepseekV4Flash0731 ThinkingLevel.High)
    sample_catalog ToolProfile.WorkspaceIsolatedV1 pinned_settings
    ForumSessionContractV1.SequesteredV1.

Definition sample_frame (command : InboundCommand.t) : InboundFrame.t :=
  InboundFrame.new (BoundarySequence.new 1) (ClosedString "session-1")
    (ClosedString "command-1") command.

Definition sample_line (command : InboundCommand.t) : string :=
  to_string (encode_inbound_value (sample_frame command)).

(** ** The round trip *)

Section Encoder.
Context `{JsonLibrary}.

Lemma decode_encoded line f :
  reads_back (encode_inbound_value f) ->
  line = to_string (encode_inbound_value f) ->
  str_len line <= MAX_JSONL_FRAME_BYTES ->
  reject_duplicate_object_keys line = Ok () ->
  decode_inbound_jsonl line = decode_inbound_value (encode_inbound_value f).
Proof.
  intros Hread -> Hlen Hdup. unfold decode_inbound_jsonl, decode_frame_value.
  destruct (Z.ltb_spec MAX_JSONL_FRAME_BYTES (str_len (to_string (encode_inbound_value f))));
    [lia|].
  rewrite Hdup. unfold reads_back in Hread. by rewrite Hread.
Qed.

Lemma frame_value_spec line v :
  decode_frame_value line = Ok v ->
  str_len line <= MAX_JSONL_FRAME_BYTES /\ reject_duplicate_object_keys line = Ok ()
  /\ from_str line = Some v.
Proof.
  unfold decode_frame_value, ok_or. intros Hv. decoded Hv; simplify_eq.
  apply Z.ltb_ge in E. match goal with u : unit |- _ => destruct u end.
  destruct (from_str line); simplify_eq. done.
Qed.

Lemma encode_inbound_spec f line :
  reads_back (encode_inbound_value f) ->
  encode_inbound_jsonl f = Ok line <->
  line = to_string (encode_inbound_value f)
  /\ str_len line <= MAX_JSONL_FRAME_BYTES
  /\ reject_duplicate_object_keys line = Ok ()
  /\ inbound_frame_ok f.
Proof.
  intros Hread. unfold encode_inbound_jsonl. split.
  - intros Henc. decoded Henc. apply Z.ltb_ge in E. split; [done|].
    pose proof E0 as Hd. unfold decode_inbound_jsonl in Hd. decoded Hd.
    apply frame_value_spec in E1 as (Hlen & Hdup & _). split; [done|]. split; [done|].
    rewrite (decode_encoded _ _ Hread eq_refl Hlen Hdup) in E0.
    rewrite <-(inbound_value_inj _ _ E0). by eapply inbound_value_sound.
  - intros (Hline & Hlen & Hdup & Hok).
    pose proof (decode_encoded _ _ Hread Hline Hlen Hdup) as Hd.
    rewrite inbound_value_exact in Hd by done. rewrite <-Hline.
    destruct (Z.ltb_spec MAX_JSONL_FRAME_BYTES (str_len line)); [lia|]. by rewrite Hd.
Qed.

(** C26: whatever frame the encoder emits as a line, the decoder reads that
    line back as the same frame (given that the JSON library reads back the
    text it printed for the frame's value). *)
Theorem encoded_frame_decodes_back (f : InboundFrame.t) (line : string)
    (Hread : reads_back (encode_inbound_value f))
    (Hencoded : encode_inbound_jsonl f = Ok line) :
  decode_inbound_jsonl line = Ok f.
Proof.
  apply encode_inbound_spec in Hencoded as (Hline & Hlen & Hdup & Hok); [|done].
  rewrite (decode_encoded _ _ Hread Hline Hlen Hdup). by apply inbound_value_exact.
Qed.

(** C27: the encoder emits exactly the admissible frames: those whose
    identifiers, numbers, paths and texts satisfy the wire contract, whose
    session is pinned, and whose printed line is short enough and passes the
    duplicate-key scan.  A frame built by hand cannot bypass the contract. *)
Theorem encoder_emits_exactly_admissible_frames (f : InboundFrame.t) (line : string)
    (Hread : reads_back (encode_inbound_value f)) :
  encode_inbound_jsonl f = Ok line <->
  line = to_string (encode_inbound_value f)
  /\ str_len line <= MAX_JSONL_FRAME_BYTES
  /\ reject_duplicate_object_keys line = Ok ()
  /\ inbound_frame_ok f.
Proof. by apply encode_inbound_spec. Qed.

(** Every accepted inbound line is at most the frame limit long and passed
    the scan, and the frame it denotes satisfies the wire contract: a sequence
    number within the safe range, well-formed identifiers, and for
    [CreateSession] the pinned model, catalog, actor policy, Forum contract
    and the pairing of isolated profiles. *)
Theorem accepted_inbound_frame_is_admissible (line : string) (f : InboundFrame.t)
    (Hdecoded : decode_inbound_jsonl line = Ok f) :
  str_len line <= MAX_JSONL_FRAME_BYTES
  /\ reject_duplicate_object_keys line = Ok ()
  /\ inbound_frame_ok f
  /\ decode_inbound_value (encode_inbound_value f) = Ok f.
Proof.
  unfold decode_inbound_jsonl in Hdecoded. decoded Hdecoded.
  apply frame_value_spec in E as (Hlen & Hdup & _).
  pose proof (inbound_value_sound _ _ Hdecoded).
  do 3 (split; [done|]). by apply inbound_value_exact.
Qed.
End Encoder.

Lemma encoded_frame_decodes_back_witness :
  let f := sample_frame (InboundCommand.CreateSession sample_create_session) in
  decode_inbound_jsonl (sample_line (InboundCommand.CreateSession sample_create_session)) = Ok f.
Proof.
  apply encoded_frame_decodes_back; vm_compute; reflexivity.
Defined.

Definition sample_follow_up : InboundCommand.t :=
  InboundCommand.FollowUp
    (FollowUpPayload.new (ClosedString "notice-7") (LedgerFrontier.new 41) "go on").

Lemma encoder_emits_exactly_admissible_frames_witness :
  encode_inbound_jsonl (sample_frame sample_follow_up) = Ok (sample_line sample_follow_up).
Proof.
  apply encoder_emits_exactly_admissible_frames; [vm_compute; reflexivity|].
  split; [reflexivity|]. split; [vm_compute; discriminate|].
  split; [vm_compute; reflexivity|]. repeat split; vm_compute; reflexivity.
Defined.

Lemma accepted_inbound_frame_is_admissible_witness :
  inbound_frame_ok (sample_frame sample_follow_up).
Proof.
  apply (accepted_inbound_frame_is_admissible (sample_line sample_follow_up)).
  vm_compute; reflexivity.
Defined.

(** ** Closed key sets *)

Lemma exact_keys_permutation (o : Object.t) expected :
  Object.sorted o -> NoDup expected ->
  Field.exact_keys o expected = Ok () <-> Object.keys o ≡ₚ expected.
Proof.
  intros Hs Hnd. apply sorted_nodup_keys in Hs. unfold Field.exact_keys, Object.len.
  assert (length o = length (Object.keys o)) as -> by (unfold Object.keys; by rewrite length_fmap).
  split.
  - intros H. destruct (_ || _) eqn:E; [done|]. bool_hyps.
    match goal with E : (_ =? _)%nat = true |- _ => apply Nat.eqb_eq in E end.
    symmetry. apply submseteq_length_Permutation; [|lia].
    apply NoDup_submseteq; [done|]. intros k Hk. apply contains_key_elem.
    match goal with E : existsb _ _ = false |- _ => rename E into Hex end.
    apply not_true_iff_false in Hex. destruct (Object.contains_key k o) eqn:Ek; [done|].
    destruct Hex. apply existsb_exists. exists k. rewrite Ek.
    split; [by apply list_elem_of_In|done].
  - intros Hp. rewrite Hp, Nat.eqb_refl. cbn.
    destruct (existsb _ _) eqn:Hex; [|done]. apply existsb_exists in Hex as (k & Hk & Hn).
    apply list_elem_of_In in Hk. rewrite <-Hp in Hk. apply contains_key_elem in Hk.
    by rewrite Hk in Hn.
Qed.

(** On an object as the JSON library builds it, [exact_keys] accepts exactly
    the expected key set: a missing key and an extra key are both refused. *)
Theorem exact_keys_is_key_set_equality (o : Object.t) (expected : list string)
    (Hsorted : Object.sorted o) (Hexpected : NoDup expected) :
  Field.exact_keys o expected = Ok () <-> Object.keys o ≡ₚ expected.
Proof. by apply exact_keys_permutation. Qed.

Lemma exact_keys_is_key_set_equality_witness :
  Object.keys [("reason", Value.Null); ("text", Value.Null)]%string ≡ₚ ["text"; "reason"]%string.
Proof.
  apply (exact_keys_is_key_set_equality
           [("reason", Value.Null); ("text", Value.Null)]%string ["text"; "reason"]%string).
  - repeat constructor.
  - apply (bool_decide_unpack _). vm_compute. exact I.
  - reflexivity.
Defined.

(** ** The free models *)

Definition is_free_model (m : ModelId.t) : bool :=
  match m with
  | ModelId.InclusionAiLing30TinyFree | ModelId.PoolsideLagunaXs21Free => true
  | ModelId.DeepseekV4Flash0731 | ModelId.InclusionAiLing26Flash => false
  end.

Lemma free_catalog_is_never_pinned c :
  model_catalog_ok c ->
  is_free_model (EffectiveModelDescriptorV1.model_id (ModelCatalogPolicyV1.effective_model c))
    = true ->
  ModelCatalogPolicyV1.assert_pinned c <> Ok ().
Proof.
  intros (_ & _ & _ & Hrate & _) Hfree Hpin. unfold ModelCatalogPolicyV1.assert_pinned in Hpin.
  set (m := ModelCatalogPolicyV1.effective_model c) in *.
  destruct (EffectiveModelDescriptorV1.model_id m); try discriminate Hfree;
    destruct (EffectiveModelDescriptorV1.canonical_slug m); try discriminate Hpin;
    cbn [ModelCatalogPolicyV1.expected] in Hpin;
    (destruct (_ || _) eqn:E in Hpin; [discriminate Hpin|]); bool_hyps;
    unfold rate_ok, ModelCatalogPolicyV1.rate_text in *;
    match goal with E : UsdPerMillionDecimal.as_str (KnownPerMillionRateV1.usd_per_million
        (EffectiveModelDescriptorV1.input_usd_per_million m)) = _ |- _ => rewrite E in Hrate end;
    discriminate Hrate.
Qed.

(** ** Outbound frames *)

Definition effective_configuration_ok (c : EffectiveSessionConfiguration.t) : Prop :=
  path_ok (EffectiveSessionConfiguration.cwd c)
  /\ path_ok (EffectiveSessionConfiguration.session_directory c)
  /\ path_ok (EffectiveSessionConfiguration.session_file c)
  /\ model_catalog_ok (EffectiveSessionConfiguration.model_catalog c)
  /\ settings_ok (EffectiveSessionConfiguration.settings c)
  /\ EffectiveSessionConfiguration.assert_pinned c = Ok ().

Definition usage_totals_ok (t : UsageTotals.t) : Prop :=
  let hex := ProviderCostObservationV1.binary64_big_endian_hex (UsageTotals.provider_cost t) in
  nonnegative_ok (UsageTotals.input_tokens t)
  /\ nonnegative_ok (UsageTotals.output_tokens t)
  /\ nonnegative_ok (UsageTotals.cache_read_tokens t)
  /\ nonnegative_ok (UsageTotals.cache_write_tokens t)
  /\ nonnegative_ok (UsageTotals.total_tokens t)
  /\ Binary64BigEndianHex.parse (Binary64BigEndianHex.as_str hex) = Ok hex.

Definition receipt_ok (r : TranscriptFlushReceiptV1.t) : Prop :=
  match r with
  | TranscriptFlushReceiptV1.Materialized identity file digest cwd prompt =>
      identity_ok identity /\ path_ok file /\ digest_ok digest /\ path_ok cwd
      /\ match prompt with
         | FirstUserPromptReceipt.Absent => True
         | FirstUserPromptReceipt.Verified d => digest_ok d
         end
  | TranscriptFlushReceiptV1.UnmaterializedNoPrompt identity file =>
      identity_ok identity /\ path_ok file
  end.

Definition outbound_event_ok (e : OutboundEvent.t) : Prop :=
  match e with
  | OutboundEvent.AdapterReady pid nonce runtime =>
      positive_ok (HostProcessId.inner pid) /\ identity_ok nonce
      /\ digest_ok (RuntimeIdentity.node_executable_blake3 runtime)
      /\ digest_ok (RuntimeIdentity.lockfile_blake3 runtime)
      /\ digest_ok (RuntimeIdentity.adapter_build_blake3 runtime)
      /\ digest_ok (RuntimeIdentity.pi_transitive_package_set_blake3 runtime)
  | OutboundEvent.SessionReady c => effective_configuration_ok c
  | OutboundEvent.ForumToolCall identity _ _ => identity_ok identity
  | OutboundEvent.UsageSnapshot (UsageObservation.Known t) => usage_totals_ok t
  | OutboundEvent.Disposed r => receipt_ok r
  | OutboundEvent.CommandResult (CommandResult.Accepted _ (CommandResultDetail.State _ _ f)) =>
      match f with Some f => path_ok f | None => True end
  | _ => True
  end.

(** Whether an event must, may or must not carry a correlation. *)
Definition correlation_shape (e : OutboundEvent.t) (c : option CorrelationIdentity) : Prop :=
  match e, c with
  | (OutboundEvent.AdapterReady _ _ _ | OutboundEvent.Fatal _), None => True
  | (OutboundEvent.AdapterReady _ _ _ | OutboundEvent.Fatal _), Some _ => False
  | (OutboundEvent.AgentEvent _ | OutboundEvent.UsageSnapshot _), None => True
  | _, None => False
  | _, Some c => identity_ok c
  end.

Definition event_admissible (d : option CorrelationIdentity * OutboundEvent.t) : Prop :=
  correlation_shape d.2 d.1 /\ outbound_event_ok d.2.

#[export] Instance binary64_hex_text :
  TextCodec Binary64BigEndianHex.parse Binary64BigEndianHex.as_str
    (fun a => Binary64BigEndianHex.parse (Binary64BigEndianHex.as_str a) = Ok a).
Proof. unfold Binary64BigEndianHex.parse. newtype_codec. Qed.

(** The invariant of one field of a decoded object, for readers that are only
    used for decoding. *)
Lemma nested_sound {A} (decode : Object.t -> protocol_result A) (ok : A -> Prop) :
  (forall o a, decode o = Ok a -> ok a) ->
  forall o k a, Field.nested decode o k = Ok a -> ok a.
Proof.
  intros Hdecode o k a H. unfold Field.nested in H. decoded H. by eapply Hdecode.
Qed.

Lemma optional_sound {A} (get : Object.t -> string -> protocol_result A) (ok : A -> Prop) :
  (forall o k a, get o k = Ok a -> ok a) ->
  forall o k a, Field.optional get o k = Ok a -> from_option ok True a.
Proof.
  intros Hget o k a H. unfold Field.optional in H. decoded H; [|done].
  cbn. by eapply Hget.
Qed.

Lemma optional_correlation_sound o c :
  Field.optional_correlation o = Ok c -> from_option (fun c => identity_ok c) True c.
Proof.
  unfold Field.optional_correlation. intros H. destruct (Object.get _ o); [|by injection H as <-].
  decoded H. by destruct (text_sound _ _ E0).
Qed.

Lemma effective_configuration_sound o c :
  decode_effective_configuration o = Ok c -> effective_configuration_ok c.
Proof.
  intros H. unfold decode_effective_configuration in H. decoded H.
  repeat match goal with u : unit |- _ => destruct u end.
  fields_sound. done.
Qed.

Lemma runtime_sound o r :
  decode_runtime o = Ok r ->
  digest_ok (RuntimeIdentity.node_executable_blake3 r)
  /\ digest_ok (RuntimeIdentity.lockfile_blake3 r)
  /\ digest_ok (RuntimeIdentity.adapter_build_blake3 r)
  /\ digest_ok (RuntimeIdentity.pi_transitive_package_set_blake3 r).
Proof.
  intros H. unfold decode_runtime in H. decoded H. fields_sound. done.
Qed.

Lemma usage_sound o u :
  decode_usage o = Ok u ->
  match u with UsageObservation.Known t => usage_totals_ok t | _ => True end.
Proof.
  intros H. unfold decode_usage in H. decoded H; [|done]. by fields_sound.
Qed.

Lemma first_user_prompt_sound o p :
  decode_first_user_prompt o = Ok p ->
  match p with
  | FirstUserPromptReceipt.Absent => True
  | FirstUserPromptReceipt.Verified d => digest_ok d
  end.
Proof.
  intros H. unfold decode_first_user_prompt in H. decoded H; [done|]. by fields_sound.
Qed.

Lemma receipt_sound o r : decode_transcript_receipt o = Ok r -> receipt_ok r.
Proof.
  intros H. unfold decode_transcript_receipt in H. decoded H; [|by fields_sound].
  match goal with E : Field.nested _ _ _ = _ |- _ =>
    apply (nested_sound _ _ first_user_prompt_sound) in E end. by fields_sound.
Qed.

Lemma command_result_detail_sound o d :
  decode_command_result_detail o = Ok d ->
  match d with
  | CommandResultDetail.State _ _ f => from_option (fun f => path_ok f) True f
  | CommandResultDetail.Acknowledged => True
  end.
Proof.
  intros H. unfold decode_command_result_detail in H. decoded H; [done|].
  match goal with E : Field.optional _ _ _ = _ |- _ =>
    by apply (optional_sound _ _ (field_sound (FieldCodec := path_codec))) in E end.
Qed.

Lemma adapter_ready_sound frame d : decode_adapter_ready frame = Ok d -> event_admissible d.
Proof.
  intros H. unfold decode_adapter_ready in H. decoded H.
  match goal with E : Field.nested decode_runtime _ _ = _ |- _ =>
    apply (nested_sound _ _ runtime_sound) in E end.
  match goal with E : HostProcessId.parse _ = _ |- _ => unfold HostProcessId.parse in E; decoded E end.
  fields_sound. split; [done|]. cbn.
  match goal with
  | E1 : positive_ok ?a, E2 : PositiveInteger.parse (PositiveInteger.value ?a) = Ok ?b |- _ =>
      rewrite E1 in E2; injection E2 as <-
  end. done.
Qed.

(** An event whose correlation is read as a plain field. *)
Ltac correlated_sound H :=
  unfold correlation in H; decoded H; split; cbn; fields_sound; try done.

Lemma outbound_event_sound name frame d :
  decode_outbound_event name frame = Ok d -> event_admissible d.
Proof.
  unfold decode_outbound_event. intros H. cbv zeta in H. decoded H.
  - by eapply adapter_ready_sound.
  - unfold decode_session_ready in H. unfold correlation in H. decoded H.
    match goal with E : Field.nested _ _ _ = _ |- _ =>
      apply (nested_sound _ _ effective_configuration_sound) in E end.
    fields_sound. done.
  - unfold decode_command_result, correlation in H. decoded H.
    + match goal with E : Field.nested _ _ _ = _ |- _ =>
        apply (nested_sound _ _ command_result_detail_sound) in E end.
      fields_sound. split; [done|]. cbn.
      match goal with d : CommandResultDetail.t |- _ => by destruct d as [|?? []] end.
    + fields_sound. done.
  - unfold decode_agent_event_frame in H. decoded H.
    match goal with E : Field.optional_correlation _ = _ |- _ =>
      apply optional_correlation_sound in E end.
    match goal with c : option CorrelationIdentity |- _ => by destruct c end.
  - unfold decode_forum_tool_call, correlation in H. decoded H. by fields_sound.
  - unfold decode_usage_snapshot in H. decoded H.
    match goal with E : Field.optional_correlation _ = _ |- _ =>
      apply optional_correlation_sound in E end.
    match goal with E : Field.nested _ _ _ = _ |- _ =>
      apply (nested_sound _ _ usage_sound) in E end.
    match goal with c : option CorrelationIdentity, u : UsageObservation.t |- _ =>
      by destruct c, u end.
  - unfold decode_settled, correlation in H. decoded H. by fields_sound.
  - unfold decode_disposed, correlation in H. decoded H.
    match goal with E : Field.nested _ _ _ = _ |- _ =>
      apply (nested_sound _ _ receipt_sound) in E end.
    by fields_sound.
  - unfold decode_fatal in H. by decoded H.
Qed.

Definition outbound_frame_ok (f : OutboundFrame.t) : Prop :=
  BoundarySequence.parse (BoundarySequence.value (OutboundFrame.sequence f))
  = Ok (OutboundFrame.sequence f)
  /\ identity_ok (OutboundFrame.session_identity f)
  /\ event_admissible (OutboundFrame.correlation_identity f, OutboundFrame.event f).

Lemma outbound_frame_sound `{JsonLibrary} line f :
  decode_outbound_jsonl line = Ok f ->
  str_len line <= MAX_JSONL_FRAME_BYTES
  /\ reject_duplicate_object_keys line = Ok ()
  /\ outbound_frame_ok f.
Proof.
  intros H'. unfold decode_outbound_jsonl, decode_outbound_value in H'. decoded H'.
  match goal with E : decode_frame_value _ = _ |- _ =>
    apply frame_value_spec in E as (? & ? & _) end.
  match goal with d : (_ * OutboundEvent.t)%type |- _ => destruct d as [c e] end.
  apply Ok_inj in H'. subst.
  match goal with E : decode_outbound_event _ _ = _ |- _ => apply outbound_event_sound in E end.
  fields_sound. done.
Qed.

(** C39: every accepted outbound line is within the frame limit, passed the scan,
    and denotes a frame with a safe sequence number and well-formed identifiers
    that carries a correlation exactly where the event has one (never on
    [AdapterReady] and [Fatal], optionally on agent events and usage snapshots,
    always on the others); a [SessionReady] reports the pinned configuration and
    usage totals are safe integers. *)
Theorem accepted_outbound_frame_is_admissible `{JsonLibrary} (line : string)
    (f : OutboundFrame.t) (Hdecoded : decode_outbound_jsonl line = Ok f) :
  str_len line <= MAX_JSONL_FRAME_BYTES
  /\ reject_duplicate_object_keys line = Ok ()
  /\ outbound_frame_ok f.
Proof. by apply outbound_frame_sound. Qed.

Definition sample_settled_line : string :=
  quotes "{'classification':'completed','correlationIdentity':'command-1','event':'Settled','finalAssistantOutcome':{'kind':'Observed','stopReason':'stop'},'protocolVersion':'society-pi-host/v4','sequence':9,'sessionIdentity':'session-1'}".

Definition sample_settled : OutboundFrame.t :=
  OutboundFrame.new (BoundarySequence.new 9) (ClosedString "session-1")
    (Some (ClosedString "command-1"))
    (OutboundEvent.Settled SettledClassification.Completed
       (FinalAssistantOutcome.Observed AssistantStopReason.Stop)).

Lemma accepted_outbound_frame_is_admissible_witness : outbound_frame_ok sample_settled.
Proof.
  apply (accepted_outbound_frame_is_admissible sample_settled_line).
  vm_compute. reflexivity.
Defined.

(** The two free models are unreachable: their pinned catalog has the rate
    ["0"], which the rate decimal refuses, so no [CreateSession] line for them
    is ever accepted and no [SessionReady] for them is either, although both
    models have an entry in the table of pinned catalogs. *)
Theorem free_models_are_never_admitted `{JsonLibrary} (line : string) :
  (forall (f : InboundFrame.t) (p : CreateSessionPayload.t),
      decode_inbound_jsonl line = Ok f ->
      InboundFrame.command f = InboundCommand.CreateSession p ->
      is_free_model (ModelSelection.model_id (CreateSessionPayload.model p)) = false)
  /\ (forall (f : OutboundFrame.t) (c : EffectiveSessionConfiguration.t),
      decode_outbound_jsonl line = Ok f ->
      OutboundFrame.event f = OutboundEvent.SessionReady c ->
      is_free_model (ModelSelection.model_id (EffectiveSessionConfiguration.model c)) = false).
Proof.
  split.
  - intros f p H' Hp. unfold decode_inbound_jsonl in H'. decoded H'.
    apply inbound_value_sound in H' as (_ & _ & _ & Hcmd). rewrite Hp in Hcmd.
    destruct Hcmd as (_&_&_&_&_&_&_&Hcat&_&_&Hid&_&Hpin&_). rewrite Hid.
    apply not_true_iff_false. intros Hfree. by apply (free_catalog_is_never_pinned _ Hcat Hfree).
  - intros f c H' Hc. apply outbound_frame_sound in H' as (_ & _ & _ & _ & _ & Hok).
    cbn in Hok. rewrite Hc in Hok. destruct Hok as (_ & _ & _ & Hcat & _ & Hpin).
    unfold EffectiveSessionConfiguration.assert_pinned in Hpin. decoded Hpin. bool_hyps.
    match goal with E : ModelSelection.model_id _ = _ |- _ => rewrite E end.
    apply not_true_iff_false. intros Hfree.
    apply (free_catalog_is_never_pinned _ Hcat Hfree).
    match goal with u : unit |- _ => by destruct u end.
Qed.
