(* ===== verification/PiCost.v ===== *)
(** * Exact provider-cost accounting

    [society-pi/src/cost.rs]: the provider's IEEE-754 cost is compared as a bit
    pattern and rounded up to micro-USD in integer arithmetic; cumulative usage
    snapshots become deltas.  The specification side gives the exact rational
    a bit pattern denotes and its integer ceiling. *)

From S2P Require Import Prelude Json PiText PiWire PiForum PiTypes.

Module CostDecodeError.
Inductive t : Set :=
| InvalidHex
| NonFiniteOrNegative
| Overflow
| InconsistentUsage
| RegressedUsage
| UnavailableUsage.
#[global] Instance eq_dec : EqDecision t.
Proof. solve_decision. Defined.
End CostDecodeError.

Abbreviation cost_result A := (result A CostDecodeError.t).

(** [u64::from_str_radix(text, 16)]. *)
Definition hex_value (b : byte) : option Z :=
  let v := Z.of_N (byte_value b) in
  if is_ascii_digit b then Some (v - 48)
  else if (65 <=? v) && (v <=? 70) then Some (v - 55)
  else if (97 <=? v) && (v <=? 102) then Some (v - 87)
  else None.
Fixpoint from_hex_digits (acc : Z) (l : list byte) : option Z :=
  match l with
  | [] => Some acc
  | b :: l =>
      match hex_value b with
      | Some d => let acc := acc * 16 + d in
                  if acc <=? u64_max then from_hex_digits acc l else None
      | None => None
      end
  end.
Definition from_str_radix_16 (text : string) : option Z :=
  match bytes text with
  | [] => None
  | b :: rest =>
      if Ascii.eqb b "+"
      then match rest with [] => None | _ => from_hex_digits 0 rest end
      else from_hex_digits 0 (b :: rest)
  end.

Module ProviderCost.
Record t := new { bits : Z }.
#[global] Instance eq_dec : EqDecision t.
Proof. solve_decision. Defined.

Definition from_observation (value : ProviderCostObservationV1.t) : cost_result t :=
  match from_str_radix_16 (Binary64BigEndianHex.as_str
          (ProviderCostObservationV1.binary64_big_endian_hex value)) with
  | None => Err CostDecodeError.InvalidHex
  | Some bits =>
      if negb (Z.shiftr bits 63 =? 0) || (Z.land (Z.shiftr bits 52) 2047 =? 2047)
      then Err CostDecodeError.NonFiniteOrNegative
      else Ok (new bits)
  end.

(** [UsdMicros(u128)] is its value. *)
Definition ceil_to_micro_usd (self : t) : cost_result Z :=
  let exponent := Z.land (Z.shiftr (bits self) 52) 2047 in
  let fraction := Z.land (bits self) (Z.shiftl 1 52 - 1) in
  if (exponent =? 0) && (fraction =? 0) then Ok 0 else
  let '(significand, binary_exponent) :=
    if exponent =? 0 then (fraction, -1074)
    else (Z.lor (Z.shiftl 1 52) fraction, exponent - 1023 - 52) in
  let? numerator := ok_or (checked_mul_u128 significand 1000000) CostDecodeError.Overflow in
  if 0 <=? binary_exponent then
    ok_or (checked_shl_u128 numerator binary_exponent) CostDecodeError.Overflow
  else
    let denominator_shift := - binary_exponent in
    if 128 <=? denominator_shift then Ok 1 else
    let denominator := Z.shiftl 1 denominator_shift in
    let quotient := numerator / denominator in
    let remainder := numerator mod denominator in
    Ok (quotient + (if remainder =? 0 then 0 else 1)).
End ProviderCost.

Module NormalizedUsage.
Record t := new {
  input_tokens : Z;
  output_tokens : Z;
  cache_read_tokens : Z;
  cache_write_tokens : Z;
  total_tokens : Z;
  provider_cost : ProviderCost.t;
  ceiling_micro_usd : Z;
}.
#[global] Instance eq_dec : EqDecision t.
Proof. solve_decision. Defined.

Definition from_totals (totals : UsageTotals.t) : cost_result t :=
  let input := NonNegativeInteger.value (UsageTotals.input_tokens totals) in
  let output := NonNegativeInteger.value (UsageTotals.output_tokens totals) in
  let cache_read := NonNegativeInteger.value (UsageTotals.cache_read_tokens totals) in
  let cache_write := NonNegativeInteger.value (UsageTotals.cache_write_tokens totals) in
  let? calculated_total :=
    ok_or (checked_add_u64 input output ≫= (fun value =>
           checked_add_u64 value cache_read ≫= (fun value =>
           checked_add_u64 value cache_write)))
      CostDecodeError.InconsistentUsage in
  if negb (calculated_total =? NonNegativeInteger.value (UsageTotals.total_tokens totals))
  then Err CostDecodeError.InconsistentUsage else
  let? provider_cost := ProviderCost.from_observation (UsageTotals.provider_cost totals) in
  let? ceiling_micro_usd := ProviderCost.ceil_to_micro_usd provider_cost in
  Ok (new input output cache_read cache_write calculated_total provider_cost
        ceiling_micro_usd).
End NormalizedUsage.

Module UsageDelta.
Record t := new {
  input_tokens : Z;
  output_tokens : Z;
  cache_read_tokens : Z;
  cache_write_tokens : Z;
  total_tokens : Z;
  micro_usd : Z;
  idempotent : bool;
}.
End UsageDelta.

Module UsageTracker.
Record t := new { latest : option NormalizedUsage.t }.
#[global] Instance fields : Fields t := fun s => new (latest s).
Definition default : t := new None.

(** [previous.map_or(0, |value| value.field)]. *)
Definition previous_or_zero (previous : option NormalizedUsage.t)
    (field : NormalizedUsage.t -> Z) : Z :=
  match previous with Some value => field value | None => 0 end.

Definition regressed (current previous : NormalizedUsage.t) : bool :=
  (NormalizedUsage.input_tokens current <? NormalizedUsage.input_tokens previous)
  || (NormalizedUsage.output_tokens current <? NormalizedUsage.output_tokens previous)
  || (NormalizedUsage.cache_read_tokens current <? NormalizedUsage.cache_read_tokens previous)
  || (NormalizedUsage.cache_write_tokens current <? NormalizedUsage.cache_write_tokens previous)
  || (NormalizedUsage.total_tokens current <? NormalizedUsage.total_tokens previous)
  || (ProviderCost.bits (NormalizedUsage.provider_cost current)
      <? ProviderCost.bits (NormalizedUsage.provider_cost previous))
  || (NormalizedUsage.ceiling_micro_usd current <? NormalizedUsage.ceiling_micro_usd previous).

Definition delta (previous : option NormalizedUsage.t) (current : NormalizedUsage.t) :
  UsageDelta.t :=
  let minus field := field current - previous_or_zero previous field in
  UsageDelta.new
    (minus NormalizedUsage.input_tokens)
    (minus NormalizedUsage.output_tokens)
    (minus NormalizedUsage.cache_read_tokens)
    (minus NormalizedUsage.cache_write_tokens)
    (minus NormalizedUsage.total_tokens)
    (minus NormalizedUsage.ceiling_micro_usd)
    (bool_decide (previous = Some current)).

Definition observe (observation : UsageObservation.t) :
  method t CostDecodeError.t (option UsageDelta.t) :=
  match observation with
  | UsageObservation.Unavailable _ => m_fail CostDecodeError.UnavailableUsage
  | UsageObservation.Known totals =>
      let! current := m_lift (NormalizedUsage.from_totals totals) in
      let! self := m_get in
      if match latest self with Some previous => regressed current previous
                              | None => false end
      then m_fail CostDecodeError.RegressedUsage
      else
        let d := delta (latest self) current in
        m_modify (fun self => self <| latest := Some current |>) ;!
        m_ret (Some d)
  end.
End UsageTracker.

(** ** What a bit pattern denotes

    The exact cost in micro-USD is the fraction [micro_num / micro_den]. *)

Definition cost_exponent (b : Z) : Z := Z.land (Z.shiftr b 52) 2047.
Definition cost_fraction (b : Z) : Z := Z.land b (Z.shiftl 1 52 - 1).
Definition significand (b : Z) : Z :=
  if cost_exponent b =? 0 then cost_fraction b else 2 ^ 52 + cost_fraction b.
Definition scale (b : Z) : Z :=
  if cost_exponent b =? 0 then -1074 else cost_exponent b - 1075.
Definition micro_num (b : Z) : Z := significand b * 1000000 * 2 ^ Z.max 0 (scale b).
Definition micro_den (b : Z) : Z := 2 ^ Z.max 0 (- scale b).

(** A nonnegative finite binary64. *)
Definition finite_nonnegative (b : Z) : Prop := 0 <= b < 2 ^ 63 /\ cost_exponent b < 2047.

(** [m] is the least integer at or above the exact cost. *)
Definition is_ceiling (b m : Z) : Prop := forall k, micro_num b <= k * micro_den b <-> m <= k.

Lemma cost_fraction_range b : 0 <= cost_fraction b < 2 ^ 52.
Proof.
  unfold cost_fraction. change (Z.shiftl 1 52 - 1) with (Z.ones 52).
  rewrite Z.land_ones by lia. apply Z.mod_pos_bound. lia.
Qed.

Lemma cost_exponent_range b : 0 <= cost_exponent b < 2048.
Proof.
  unfold cost_exponent. change 2047 with (Z.ones 11).
  rewrite Z.land_ones by lia. apply Z.mod_pos_bound. lia.
Qed.

Lemma significand_lor b :
  Z.lor (Z.shiftl 1 52) (cost_fraction b) = 2 ^ 52 + cost_fraction b.
Proof.
  rewrite <-Z.add_nocarry_lor; [by rewrite Z.shiftl_1_l|].
  apply Z.bits_inj'. intros n Hn. rewrite Z.land_spec, Z.shiftl_1_l, Z.bits_0.
  rewrite Z.pow2_bits_eqb by lia. destruct (Z.eqb_spec 52 n) as [<-|]; [|done].
  unfold cost_fraction. change (Z.shiftl 1 52 - 1) with (Z.ones 52).
  by rewrite Z.land_spec, (Z.ones_spec_high 52 52), !andb_false_r by lia.
Qed.

Lemma significand_range b : 0 <= significand b < 2 ^ 53.
Proof.
  pose proof (cost_fraction_range b). unfold significand.
  destruct (cost_exponent b =? 0); lia.
Qed.

Lemma numerator_fits b :
  checked_mul_u128 (significand b) 1000000 = Some (significand b * 1000000).
Proof.
  pose proof (significand_range b). unfold checked_mul_u128, u128_max.
  destruct (Z.leb_spec (significand b * 1000000) (2 ^ 128 - 1)); [done|lia].
Qed.

(** The code on the three shapes of a scale. *)
Lemma ceil_unfold b :
  ProviderCost.ceil_to_micro_usd (ProviderCost.new b) =
    if (cost_exponent b =? 0) && (cost_fraction b =? 0) then Ok 0
    else if 0 <=? scale b then
      ok_or (checked_shl_u128 (significand b * 1000000) (scale b)) CostDecodeError.Overflow
    else if 128 <=? - scale b then Ok 1
    else Ok (significand b * 1000000 / micro_den b
             + (if significand b * 1000000 mod micro_den b =? 0 then 0 else 1)).
Proof.
  unfold ProviderCost.ceil_to_micro_usd. cbn [ProviderCost.bits].
  fold (cost_exponent b) (cost_fraction b).
  destruct ((cost_exponent b =? 0) && (cost_fraction b =? 0)); [done|].
  rewrite significand_lor.
  assert ((if cost_exponent b =? 0 then (cost_fraction b, -1074)
           else (2 ^ 52 + cost_fraction b, cost_exponent b - 1023 - 52))
          = (significand b, scale b)) as ->.
  { unfold significand, scale. destruct (cost_exponent b =? 0); [done|].
    f_equal. lia. }
  rewrite numerator_fits. cbn [ok_or].
  destruct (Z.leb_spec 0 (scale b)); [done|].
  destruct (128 <=? - scale b); [done|].
  unfold micro_den. by rewrite Z.max_r, Z.shiftl_1_l by lia.
Qed.

(** ** The rounding is the exact ceiling where the value fits *)

Lemma micro_den_pos b : 0 < micro_den b.
Proof. unfold micro_den. apply Z.pow_pos_nonneg; lia. Qed.

Lemma div_ceiling n d k :
  0 < d -> n <= k * d <-> n / d + (if n mod d =? 0 then 0 else 1) <= k.
Proof.
  intros Hd. pose proof (Z.div_mod n d ltac:(lia)). pose proof (Z.mod_pos_bound n d Hd).
  destruct (Z.eqb_spec (n mod d) 0); nia.
Qed.

Lemma zero_cost b : cost_exponent b = 0 -> cost_fraction b = 0 -> micro_num b = 0.
Proof. intros He Hf. unfold micro_num, significand. by rewrite He, Hf. Qed.

Lemma significand_positive b :
  (cost_exponent b =? 0) && (cost_fraction b =? 0) = false -> 0 < significand b.
Proof.
  pose proof (cost_fraction_range b). unfold significand. intros Hz.
  destruct (Z.eqb_spec (cost_exponent b) 0); [|lia].
  destruct (Z.eqb_spec (cost_fraction b) 0); [done|lia].
Qed.

Lemma nonnegative_scale_significand b : 0 <= scale b -> 2 ^ 52 <= significand b.
Proof.
  pose proof (cost_fraction_range b). unfold scale, significand.
  destruct (cost_exponent b =? 0); lia.
Qed.

Lemma micro_num_scaled b : 0 <= scale b -> micro_num b = significand b * 1000000 * 2 ^ scale b.
Proof. intros Hs. unfold micro_num. by rewrite Z.max_r. Qed.

Lemma micro_num_unscaled b : scale b < 0 -> micro_num b = significand b * 1000000.
Proof. intros Hs. unfold micro_num. rewrite Z.max_l by lia. lia. Qed.

(** A shift past the width is a value past the width. *)
Lemma scale_small b : 0 <= scale b -> micro_num b < 2 ^ 128 -> scale b < 128.
Proof.
  intros Hs Hn. rewrite micro_num_scaled in Hn by done.
  pose proof (nonnegative_scale_significand b Hs).
  destruct (Z.lt_ge_cases (scale b) 128) as [|Hge]; [done|].
  pose proof (Z.pow_le_mono_r 2 128 (scale b) ltac:(lia) Hge). nia.
Qed.

Lemma is_ceiling_integer b m : micro_den b = 1 -> m = micro_num b -> is_ceiling b m.
Proof. intros Hd -> k. rewrite Hd. lia. Qed.

Lemma ceil_exact_lemma b :
  micro_num b < 2 ^ 128 ->
  exists m, ProviderCost.ceil_to_micro_usd (ProviderCost.new b) = Ok m /\ is_ceiling b m.
Proof.
  intros Hfit. rewrite ceil_unfold.
  destruct ((cost_exponent b =? 0) && (cost_fraction b =? 0)) eqn:Hz.
  - bool_hyps. exists 0. split; [done|]. intros k.
    rewrite zero_cost by done. pose proof (micro_den_pos b). nia.
  - pose proof (significand_positive b Hz). pose proof (significand_range b).
    destruct (Z.leb_spec 0 (scale b)) as [Hs|Hs].
    + pose proof (scale_small b Hs Hfit). unfold checked_shl_u128.
      destruct (Z.ltb_spec (scale b) 128); [|lia]. cbn. eexists. split; [done|].
      rewrite Z.shiftl_mul_pow2, <-micro_num_scaled by done.
      assert (0 <= micro_num b) by (rewrite micro_num_scaled by done; lia).
      apply is_ceiling_integer; [|by rewrite Z.mod_small].
      unfold micro_den. rewrite Z.max_l by lia. done.
    + destruct (Z.leb_spec 128 (- scale b)) as [Hbig|Hsmall].
      * exists 1. split; [done|]. intros k. rewrite micro_num_unscaled by done.
        assert (2 ^ 128 <= micro_den b).
        { unfold micro_den. apply Z.pow_le_mono_r; lia. }
        pose proof (micro_den_pos b). nia.
      * eexists. split; [done|]. intros k. rewrite micro_num_unscaled by done.
        apply div_ceiling, micro_den_pos.
Qed.

(** Past the width the shift drops bits instead of failing. *)
Lemma ceil_wraps_lemma b :
  0 <= scale b < 128 ->
  ProviderCost.ceil_to_micro_usd (ProviderCost.new b) = Ok (micro_num b mod 2 ^ 128).
Proof.
  intros [Hs Hs']. rewrite ceil_unfold. unfold checked_shl_u128.
  pose proof (nonnegative_scale_significand b Hs).
  assert ((cost_exponent b =? 0) && (cost_fraction b =? 0) = false) as ->.
  { unfold scale in Hs. destruct (cost_exponent b =? 0); [lia|done]. }
  destruct (Z.leb_spec 0 (scale b)); [|lia].
  destruct (Z.ltb_spec (scale b) 128); [|lia]. cbn.
  by rewrite Z.shiftl_mul_pow2, micro_num_scaled.
Qed.

(** ** Bit patterns are ordered as the costs they denote *)

(** The cost in units of [10^-6 * 2^-1074]. *)
Definition grid (b : Z) : Z :=
  if cost_exponent b =? 0 then cost_fraction b
  else (2 ^ 52 + cost_fraction b) * 2 ^ (cost_exponent b - 1).

Lemma micro_num_grid b : micro_num b * 2 ^ 1074 = 1000000 * grid b * micro_den b.
Proof.
  unfold micro_num, micro_den, grid, significand, scale.
  pose proof (cost_exponent_range b).
  destruct (Z.eqb_spec (cost_exponent b) 0).
  - rewrite Z.max_l, Z.max_r by lia. change (- -1074) with 1074. rewrite Z.pow_0_r. ring.
  - destruct (Z.le_ge_cases 0 (cost_exponent b - 1075)).
    + rewrite Z.max_r, Z.max_l by lia. rewrite Z.pow_0_r.
      replace (cost_exponent b - 1) with (cost_exponent b - 1075 + 1074) by lia.
      rewrite (Z.pow_add_r 2 _ 1074) by lia. ring.
    + rewrite Z.max_l, Z.max_r by lia. rewrite Z.pow_0_r.
      replace 1074 with (cost_exponent b - 1 + - (cost_exponent b - 1075)) at 1 by lia.
      rewrite Z.pow_add_r by lia. ring.
Qed.

Lemma finite_split b :
  finite_nonnegative b -> b = cost_exponent b * 2 ^ 52 + cost_fraction b.
Proof.
  intros [Hb _]. unfold cost_exponent, cost_fraction.
  change 2047 with (Z.ones 11). change (Z.shiftl 1 52 - 1) with (Z.ones 52).
  rewrite !Z.land_ones, Z.shiftr_div_pow2 by lia.
  rewrite (Z.mod_small (b / 2 ^ 52)).
  - pose proof (Z.div_mod b (2 ^ 52) ltac:(lia)). lia.
  - split; [apply Z.div_pos; lia|]. apply Z.div_lt_upper_bound; lia.
Qed.

Lemma grid_mono a b :
  finite_nonnegative a -> finite_nonnegative b -> a < b -> grid a < grid b.
Proof.
  intros Ha Hb Hlt. pose proof (finite_split a Ha) as Ea. pose proof (finite_split b Hb) as Eb.
  pose proof (cost_fraction_range a). pose proof (cost_fraction_range b).
  pose proof (cost_exponent_range a). pose proof (cost_exponent_range b).
  unfold grid.
  assert (cost_exponent a <= cost_exponent b) as Hle by nia.
  destruct (Z.eqb_spec (cost_exponent a) 0) as [Ha0|Ha0];
    destruct (Z.eqb_spec (cost_exponent b) 0) as [Hb0|Hb0]; [lia| |lia|].
  - assert (1 <= 2 ^ (cost_exponent b - 1)).
    { pose proof (Z.pow_pos_nonneg 2 (cost_exponent b - 1)). lia. }
    nia.
  - destruct (Z.eq_dec (cost_exponent a) (cost_exponent b)) as [Heq|Hne].
    + rewrite Heq. pose proof (Z.pow_pos_nonneg 2 (cost_exponent b - 1)). nia.
    + assert (2 * 2 ^ (cost_exponent a - 1) <= 2 ^ (cost_exponent b - 1)) as Hp.
      { rewrite <-(Z.pow_succ_r 2 (cost_exponent a - 1)) by lia.
        apply Z.pow_le_mono_r; lia. }
      pose proof (Z.pow_pos_nonneg 2 (cost_exponent a - 1)). nia.
Qed.

Lemma bits_order_lemma a b :
  finite_nonnegative a -> finite_nonnegative b ->
  a <= b <-> micro_num a * micro_den b <= micro_num b * micro_den a.
Proof.
  intros Ha Hb. pose proof (micro_num_grid a) as Ga. pose proof (micro_num_grid b) as Gb.
  pose proof (micro_den_pos a) as Da. pose proof (micro_den_pos b) as Db.
  assert (0 < 2 ^ 1074) as Hp by done. revert Ga Gb Hp. generalize (2 ^ 1074). intros p Ga Gb Hp.
  split.
  - intros Hle. destruct (Z.eq_dec a b) as [->|]; [lia|].
    pose proof (grid_mono a b Ha Hb ltac:(lia)).
    apply (Z.mul_le_mono_pos_r _ _ p); [done|].
    replace (micro_num a * micro_den b * p) with (1000000 * grid a * micro_den a * micro_den b)
      by (rewrite <-Ga; ring).
    replace (micro_num b * micro_den a * p) with (1000000 * grid b * micro_den b * micro_den a)
      by (rewrite <-Gb; ring).
    assert (0 < micro_den a * micro_den b) by nia. nia.
  - intros Hle. destruct (Z.le_gt_cases a b) as [|Hgt]; [done|].
    pose proof (grid_mono b a Hb Ha ltac:(lia)).
    apply (Z.mul_le_mono_pos_r _ _ p) in Hle; [|done].
    replace (micro_num a * micro_den b * p) with (1000000 * grid a * micro_den a * micro_den b)
      in Hle by (rewrite <-Ga; ring).
    replace (micro_num b * micro_den a * p) with (1000000 * grid b * micro_den b * micro_den a)
      in Hle by (rewrite <-Gb; ring).
    assert (0 < micro_den a * micro_den b) by nia. nia.
Qed.

(** ** Observations decode to finite nonnegative costs *)

Lemma from_hex_digits_range acc l v :
  0 <= acc -> from_hex_digits acc l = Some v -> 0 <= v.
Proof.
  revert acc. induction l as [|b l IH]; cbn; intros acc Hacc Hv; [by simplify_eq|].
  destruct (hex_value b) as [d|] eqn:Ed; [|done].
  assert (0 <= d).
  { unfold hex_value, is_ascii_digit in Ed. repeat case_match; simplify_eq; bool_hyps; lia. }
  destruct (_ <=? u64_max); [|done]. apply IH in Hv; [done|lia].
Qed.

Lemma from_hex_digits_u64 acc l v :
  acc <= u64_max -> from_hex_digits acc l = Some v -> v <= u64_max.
Proof.
  revert acc. induction l as [|b l IH]; cbn; intros acc Hacc Hv; [by simplify_eq|].
  destruct (hex_value b); [|done]. destruct (Z.leb_spec (acc * 16 + z) u64_max); [|done].
  by eapply IH.
Qed.

Lemma from_observation_finite v c :
  ProviderCost.from_observation v = Ok c -> finite_nonnegative (ProviderCost.bits c).
Proof.
  unfold ProviderCost.from_observation.
  destruct (from_str_radix_16 _) as [b|] eqn:E; [|done].
  destruct (negb _ || _) eqn:Ec; [done|]. intros [= <-]. bool_hyps. cbn.
  assert (0 <= b <= u64_max) as Hb.
  { unfold from_str_radix_16 in E. repeat case_match; try done.
    all: split; [by eapply (from_hex_digits_range 0)|by eapply (from_hex_digits_u64 0)]. }
  match goal with Hs : Z.shiftr b 63 = 0, He : Z.land _ _ <> _ |- _ =>
    rewrite Z.shiftr_div_pow2 in Hs by lia; apply Z.div_small_iff in Hs; [|lia];
    change (cost_exponent b <> 2047) in He end.
  pose proof (cost_exponent_range b). unfold finite_nonnegative. lia.
Qed.

(** ** Properties of the rounding *)

(** C38: an observed provider cost that fits the boundary's 128-bit micro-USD is
    charged exactly its integer ceiling: the charge is the least integer number
    of micro-USD at or above the exact binary64 value, so a positive cost is
    never charged zero. *)
Theorem cost_ceiling_exact (v : ProviderCostObservationV1.t) (c : ProviderCost.t)
    (Hobs : ProviderCost.from_observation v = Ok c)
    (Hfits : micro_num (ProviderCost.bits c) < 2 ^ 128) :
  exists m, ProviderCost.ceil_to_micro_usd c = Ok m
    /\ (forall k, micro_num (ProviderCost.bits c) <= k * micro_den (ProviderCost.bits c)
                  <-> m <= k)
    /\ (0 < micro_num (ProviderCost.bits c) -> 1 <= m).
Proof.
  destruct c as [b]. cbn in *. destruct (ceil_exact_lemma b Hfits) as (m & Hm & Hceil).
  exists m. split_and!; [done|exact Hceil|]. intros Hpos.
  destruct (Z.le_gt_cases 1 m) as [|Hlt]; [done|].
  assert (micro_num b <= 0 * micro_den b) by (apply Hceil; lia). lia.
Qed.

Definition sample_observation : ProviderCostObservationV1.t :=
  ProviderCostObservationV1.new (Binary64BigEndianHex.new "3eb0c6f7a0b5ed8e").

Lemma cost_ceiling_exact_witness :
  exists c m, ProviderCost.from_observation sample_observation = Ok c
    /\ ProviderCost.ceil_to_micro_usd c = Ok m /\ m = 2 /\ 1 <= m.
Proof.
  destruct (cost_ceiling_exact sample_observation (ProviderCost.new 4517329193108106638))
    as (m & Hm & _ & Hpos); [reflexivity|reflexivity|].
  exists (ProviderCost.new 4517329193108106638), m.
  split; [reflexivity|]. split; [exact Hm|]. split; [|apply Hpos; reflexivity].
  cbv in Hm. by injection Hm as <-.
Defined.

(** A cost whose micro-USD value does not fit 128 bits but whose binary
    scale is below 128 is not refused, as the comment on [ceil_to_micro_usd]
    says it is: [checked_shl] drops the high bits and the charge is the value
    modulo 2^128, strictly below the cost. *)
Theorem cost_past_width_is_undercharged (b : Z) (Hfinite : finite_nonnegative b)
    (Hscale : 0 <= scale b < 128) (Hpast : 2 ^ 128 <= micro_num b) :
  exists m, ProviderCost.ceil_to_micro_usd (ProviderCost.new b) = Ok m
    /\ m = micro_num b mod 2 ^ 128 /\ micro_den b = 1 /\ m < micro_num b.
Proof.
  exists (micro_num b mod 2 ^ 128). split_and!; [by apply ceil_wraps_lemma|done| |].
  - unfold micro_den. by rewrite Z.max_l by lia.
  - pose proof (Z.mod_pos_bound (micro_num b) (2 ^ 128)). lia.
Qed.

Lemma cost_past_width_is_undercharged_witness :
  exists b m, finite_nonnegative b /\ 2 ^ 128 <= micro_num b
    /\ ProviderCost.ceil_to_micro_usd (ProviderCost.new b) = Ok m /\ m = 0.
Proof.
  assert (finite_nonnegative (1202 * 2 ^ 52)) as Hf by (split; [lia|reflexivity]).
  assert (0 <= scale (1202 * 2 ^ 52) < 128) as Hs by (split; [discriminate|reflexivity]).
  assert (2 ^ 128 <= micro_num (1202 * 2 ^ 52)) as Hp by (vm_compute; discriminate).
  destruct (cost_past_width_is_undercharged (1202 * 2 ^ 52) Hf Hs Hp) as (m & Hm & Hmod & _).
  exists (1202 * 2 ^ 52), m. split; [exact Hf|]. split; [exact Hp|]. split; [exact Hm|].
  rewrite Hmod. reflexivity.
Defined.

(** Comparing provider costs by their bit patterns, as [UsageTracker] does,
    is comparing the exact costs, and the rounded charges keep that order. *)
Theorem cost_order_is_bit_order (a b : ProviderCost.t)
    (Ha : finite_nonnegative (ProviderCost.bits a))
    (Hb : finite_nonnegative (ProviderCost.bits b))
    (Hfits : micro_num (ProviderCost.bits b) < 2 ^ 128) :
  (ProviderCost.bits a <= ProviderCost.bits b <->
     micro_num (ProviderCost.bits a) * micro_den (ProviderCost.bits b)
     <= micro_num (ProviderCost.bits b) * micro_den (ProviderCost.bits a))
  /\ (ProviderCost.bits a <= ProviderCost.bits b ->
      exists ma mb, ProviderCost.ceil_to_micro_usd a = Ok ma
        /\ ProviderCost.ceil_to_micro_usd b = Ok mb /\ ma <= mb).
Proof.
  destruct a as [a], b as [b]. cbn in *. split; [by apply bits_order_lemma|].
  intros Hle. pose proof (proj1 (bits_order_lemma a b Ha Hb) Hle) as Hv.
  pose proof (micro_den_pos a) as Da. pose proof (micro_den_pos b) as Db.
  destruct (ceil_exact_lemma b Hfits) as (mb & Hmb & Cb).
  assert (micro_num b <= mb * micro_den b) as Hub by (by apply Cb).
  assert (micro_num a <= mb * micro_den a) as Hua by nia.
  assert (micro_num a < 2 ^ 128) as Hfita.
  { destruct (Z.lt_ge_cases (scale a) 0) as [Hs|Hs].
    - rewrite micro_num_unscaled by done. pose proof (significand_range a). lia.
    - assert (micro_den a = 1) as E by (unfold micro_den; by rewrite Z.max_l by lia).
      rewrite E in Hv. pose proof (significand_range b).
      assert (0 <= micro_num b) by (unfold micro_num; nia). nia. }
  destruct (ceil_exact_lemma a Hfita) as (ma & Hma & Ca).
  exists ma, mb. split_and!; [done..|]. by apply Ca.
Qed.

Lemma cost_order_is_bit_order_witness :
  exists ma mb,
    ProviderCost.ceil_to_micro_usd (ProviderCost.new 4517329193108106638) = Ok ma
    /\ ProviderCost.ceil_to_micro_usd (ProviderCost.new 4576918229304087675) = Ok mb
    /\ ma <= mb.
Proof.
  apply (cost_order_is_bit_order (ProviderCost.new 4517329193108106638)
           (ProviderCost.new 4576918229304087675)); by vm_compute.
Defined.

(** ** The usage tracker *)

(** A client that observes snapshots one after the other. *)
Fixpoint observe_all (observations : list UsageObservation.t) :
  method UsageTracker.t CostDecodeError.t (list UsageDelta.t) :=
  match observations with
  | [] => m_ret []
  | o :: observations =>
      let! d := UsageTracker.observe o in
      let! ds := observe_all observations in
      m_ret (option_list d ++ ds)
  end.

Definition total (field : UsageDelta.t -> Z) (ds : list UsageDelta.t) : Z :=
  foldr (fun d acc => field d + acc) 0 ds.

Lemma total_app field ds ds' : total field (ds ++ ds') = total field ds + total field ds'.
Proof. unfold total. induction ds as [|d ds IH]; cbn; [done|]. rewrite IH. lia. Qed.

(** [observe] either returns the delta to the new snapshot, or fails and leaves
    the tracker alone. *)
Lemma observe_spec o s :
  match UsageTracker.observe o s with
  | (Ok d, s') =>
      exists totals current, o = UsageObservation.Known totals
        /\ NormalizedUsage.from_totals totals = Ok current
        /\ s' = UsageTracker.new (Some current)
        /\ d = Some (UsageTracker.delta (UsageTracker.latest s) current)
        /\ (forall previous, UsageTracker.latest s = Some previous ->
              UsageTracker.regressed current previous = false)
  | (Err _, s') => s' = s
  end.
Proof.
  unfold UsageTracker.observe. destruct o as [totals|]; [|done].
  unfold m_bind, m_lift, m_get.
  destruct (NormalizedUsage.from_totals totals) as [current|] eqn:E; [|done].
  destruct s as [[previous|]]; cbn.
  - destruct (UsageTracker.regressed current previous) eqn:R; cbn; [done|].
    exists totals, current. split_and!; try done. by intros ? [= <-].
  - exists totals, current. by split_and!.
Qed.

Definition tracker_field (s : UsageTracker.t) (field : NormalizedUsage.t -> Z) : Z :=
  UsageTracker.previous_or_zero (UsageTracker.latest s) field.

(** What the deltas of a run add up to, field by field. *)
Definition accounts_for (before after : UsageTracker.t) (ds : list UsageDelta.t) : Prop :=
  total UsageDelta.input_tokens ds
    = tracker_field after NormalizedUsage.input_tokens
      - tracker_field before NormalizedUsage.input_tokens
  /\ total UsageDelta.output_tokens ds
    = tracker_field after NormalizedUsage.output_tokens
      - tracker_field before NormalizedUsage.output_tokens
  /\ total UsageDelta.cache_read_tokens ds
    = tracker_field after NormalizedUsage.cache_read_tokens
      - tracker_field before NormalizedUsage.cache_read_tokens
  /\ total UsageDelta.cache_write_tokens ds
    = tracker_field after NormalizedUsage.cache_write_tokens
      - tracker_field before NormalizedUsage.cache_write_tokens
  /\ total UsageDelta.total_tokens ds
    = tracker_field after NormalizedUsage.total_tokens
      - tracker_field before NormalizedUsage.total_tokens
  /\ total UsageDelta.micro_usd ds
    = tracker_field after NormalizedUsage.ceiling_micro_usd
      - tracker_field before NormalizedUsage.ceiling_micro_usd.

Lemma accounts_for_trans s1 s2 s3 ds ds' :
  accounts_for s1 s2 ds -> accounts_for s2 s3 ds' -> accounts_for s1 s3 (ds ++ ds').
Proof. unfold accounts_for. rewrite !total_app. lia. Qed.

(** No component of a delta is negative. *)
Definition delta_nonnegative (d : UsageDelta.t) : Prop :=
  0 <= UsageDelta.input_tokens d /\ 0 <= UsageDelta.output_tokens d
  /\ 0 <= UsageDelta.cache_read_tokens d /\ 0 <= UsageDelta.cache_write_tokens d
  /\ 0 <= UsageDelta.total_tokens d /\ 0 <= UsageDelta.micro_usd d.

(** The ranges the Rust types give a snapshot. *)
Definition usage_in_range (u : NormalizedUsage.t) : Prop :=
  0 <= NormalizedUsage.input_tokens u /\ 0 <= NormalizedUsage.output_tokens u
  /\ 0 <= NormalizedUsage.cache_read_tokens u /\ 0 <= NormalizedUsage.cache_write_tokens u
  /\ 0 <= NormalizedUsage.total_tokens u /\ 0 <= NormalizedUsage.ceiling_micro_usd u.

Definition totals_in_range (o : UsageObservation.t) : Prop :=
  match o with
  | UsageObservation.Known t =>
      0 <= NonNegativeInteger.value (UsageTotals.input_tokens t)
      /\ 0 <= NonNegativeInteger.value (UsageTotals.output_tokens t)
      /\ 0 <= NonNegativeInteger.value (UsageTotals.cache_read_tokens t)
      /\ 0 <= NonNegativeInteger.value (UsageTotals.cache_write_tokens t)
  | UsageObservation.Unavailable _ => True
  end.

Lemma ceil_nonnegative c m :
  ProviderCost.ceil_to_micro_usd c = Ok m -> 0 <= m.
Proof.
  destruct c as [b]. rewrite ceil_unfold. pose proof (significand_range b).
  pose proof (micro_den_pos b). unfold checked_shl_u128. intros Hm.
  destruct (_ && _); [apply Ok_inj in Hm as <-; lia|].
  destruct (0 <=? scale b).
  { destruct (scale b <? 128); [|done]. cbn [ok_or] in Hm. apply Ok_inj in Hm as <-.
    apply Z.mod_pos_bound. lia. }
  destruct (128 <=? - scale b); [apply Ok_inj in Hm as <-; lia|]. apply Ok_inj in Hm as <-.
  pose proof (Z.div_pos (significand b * 1000000) (micro_den b)).
  destruct (_ =? 0); lia.
Qed.

Lemma from_totals_spec t u :
  NormalizedUsage.from_totals t = Ok u ->
  NormalizedUsage.input_tokens u = NonNegativeInteger.value (UsageTotals.input_tokens t)
  /\ NormalizedUsage.output_tokens u = NonNegativeInteger.value (UsageTotals.output_tokens t)
  /\ NormalizedUsage.cache_read_tokens u
     = NonNegativeInteger.value (UsageTotals.cache_read_tokens t)
  /\ NormalizedUsage.cache_write_tokens u
     = NonNegativeInteger.value (UsageTotals.cache_write_tokens t)
  /\ NormalizedUsage.total_tokens u = NonNegativeInteger.value (UsageTotals.total_tokens t)
  /\ NormalizedUsage.total_tokens u
     = NormalizedUsage.input_tokens u + NormalizedUsage.output_tokens u
       + NormalizedUsage.cache_read_tokens u + NormalizedUsage.cache_write_tokens u
  /\ 0 <= NormalizedUsage.ceiling_micro_usd u.
Proof.
  unfold NormalizedUsage.from_totals, checked_add_u64. intros H.
  destruct (_ <=? u64_max); [|done]. cbn in H. destruct (_ <=? u64_max); [|done].
  cbn in H. destruct (_ <=? u64_max); [|done]. cbn in H.
  destruct (negb _) eqn:Et; [done|]. bool_hyps.
  destruct (ProviderCost.from_observation _) as [c|]; [|done].
  destruct (ProviderCost.ceil_to_micro_usd c) as [m|] eqn:Ec; [|done].
  injection H as <-. cbn. apply ceil_nonnegative in Ec. lia.
Qed.

Lemma from_totals_in_range t u :
  totals_in_range (UsageObservation.Known t) -> NormalizedUsage.from_totals t = Ok u ->
  usage_in_range u.
Proof. cbn. unfold usage_in_range. intros Ht Hu%from_totals_spec. lia. Qed.

Definition tracker_in_range (s : UsageTracker.t) : Prop :=
  forall u, UsageTracker.latest s = Some u -> usage_in_range u.

Lemma delta_step s current :
  tracker_in_range s -> usage_in_range current ->
  (forall previous, UsageTracker.latest s = Some previous ->
     UsageTracker.regressed current previous = false) ->
  let d := UsageTracker.delta (UsageTracker.latest s) current in
  delta_nonnegative d /\ accounts_for s (UsageTracker.new (Some current)) [d].
Proof.
  intros Hs Hc Hr. destruct s as [[previous|]]; cbn in *.
  - specialize (Hr previous eq_refl). specialize (Hs previous eq_refl).
    unfold UsageTracker.regressed in Hr. bool_hyps.
    unfold delta_nonnegative, accounts_for, tracker_field. cbn. lia.
  - unfold delta_nonnegative, accounts_for, tracker_field, usage_in_range in *. cbn. lia.
Qed.

Lemma observe_all_spec obs s ds s' :
  Forall totals_in_range obs -> tracker_in_range s ->
  observe_all obs s = (Ok ds, s') ->
  accounts_for s s' ds /\ Forall delta_nonnegative ds /\ length ds = length obs.
Proof.
  revert s ds. induction obs as [|o obs IH]; intros s ds Ho Hs; cbn.
  - intros [= <- <-]. unfold accounts_for. cbn. split_and!; try lia. constructor.
  - apply Forall_cons in Ho as [Hot Ho]. unfold m_bind.
    pose proof (observe_spec o s) as Hspec.
    destruct (UsageTracker.observe o s) as [[d|e] s1]; [|done].
    destruct Hspec as (totals & current & -> & Hn & -> & -> & Hr).
    pose proof (from_totals_in_range _ _ Hot Hn) as Hc.
    destruct (delta_step s current Hs Hc Hr) as [Hd Hacc].
    destruct (observe_all obs _) as [[ds'|e] s2] eqn:E; [|done].
    intros [= <- ->]. apply IH in E as (Hacc' & Hds & Hlen); [|done|by intros u [= <-]].
    split_and!; [|by constructor|cbn; by rewrite Hlen].
    by apply (accounts_for_trans s (UsageTracker.new (Some current)) s' [_] ds').
Qed.

(** Over any run of accepted cumulative snapshots, from a fresh tracker,
    each snapshot yields exactly one delta, no component of a delta is negative
    (so the unsigned subtractions never underflow), and the deltas of every
    token class and of the micro-USD charge add up to the latest cumulative
    snapshot: nothing is charged twice and nothing is lost. *)
Theorem usage_deltas_conserve_totals (obs : list UsageObservation.t)
    (ds : list UsageDelta.t) (s : UsageTracker.t)
    (Hrange : Forall totals_in_range obs)
    (Hrun : observe_all obs UsageTracker.default = (Ok ds, s)) :
  accounts_for UsageTracker.default s ds /\ Forall delta_nonnegative ds
  /\ length ds = length obs.
Proof. apply (observe_all_spec obs _ ds s Hrange); [by intros u [=]|exact Hrun]. Qed.

Definition sample_usage (n : Z) (hex : string) : UsageObservation.t :=
  let int v := NonNegativeInteger.new v in
  UsageObservation.Known (UsageTotals.new (int n) (int n) (int 0) (int 0) (int (2 * n))
    (ProviderCostObservationV1.new (Binary64BigEndianHex.new hex))).

Lemma usage_deltas_conserve_totals_witness :
  exists ds s, observe_all [sample_usage 1 "3f847ae147ae147b"; sample_usage 1 "3f847ae147ae147b";
                            sample_usage 3 "3f947ae147ae147b"] UsageTracker.default = (Ok ds, s)
    /\ map UsageDelta.micro_usd ds = [10001; 0; 10000]
    /\ accounts_for UsageTracker.default s ds.
Proof.
  eexists _, _. split; [vm_compute; reflexivity|]. split; [reflexivity|].
  apply (usage_deltas_conserve_totals
    [sample_usage 1 "3f847ae147ae147b"; sample_usage 1 "3f847ae147ae147b";
     sample_usage 3 "3f947ae147ae147b"]); [|vm_compute; reflexivity].
  repeat constructor; discriminate.
Defined.

(** [observe] is closed on errors: any rejection (unavailable, inconsistent,
    nonfinite or regressed usage) leaves the tracker unchanged, a known snapshot
    that decodes is rejected exactly when a component is below the previous
    snapshot, and a repeated snapshot is accepted with an idempotent zero
    delta. *)
Theorem usage_observe_outcomes (s : UsageTracker.t) :
  (forall o e s', UsageTracker.observe o s = (Err e, s') -> s' = s)
  /\ (forall totals current previous,
        NormalizedUsage.from_totals totals = Ok current ->
        UsageTracker.latest s = Some previous ->
        UsageTracker.observe (UsageObservation.Known totals) s
        = if UsageTracker.regressed current previous
          then (Err CostDecodeError.RegressedUsage, s)
          else (Ok (Some (UsageTracker.delta (Some previous) current)),
                UsageTracker.new (Some current)))
  /\ (forall totals current,
        NormalizedUsage.from_totals totals = Ok current ->
        UsageTracker.latest s = Some current ->
        UsageTracker.observe (UsageObservation.Known totals) s
        = (Ok (Some (UsageDelta.new 0 0 0 0 0 0 true)), s)).
Proof.
  split_and!.
  - intros o e s' H. pose proof (observe_spec o s) as Hspec. by rewrite H in Hspec.
  - intros totals current previous Hn Hp. unfold UsageTracker.observe, m_bind, m_lift, m_get.
    rewrite Hn, Hp. by destruct (UsageTracker.regressed current previous).
  - intros totals current Hn Hp. unfold UsageTracker.observe, m_bind, m_lift, m_get.
    rewrite Hn, Hp. destruct s as [l]. cbn in Hp. subst l.
    assert (UsageTracker.regressed current current = false) as ->.
    { unfold UsageTracker.regressed. by rewrite !Z.ltb_irrefl. }
    cbn. unfold UsageTracker.delta. cbn. rewrite !Z.sub_diag.
    by rewrite bool_decide_eq_true_2.
Qed.
