(* ===== verification/PiPeer.v ===== *)
(** * The boundary peer: one host process's sealed protocol stream

    [society-pi/src/peer.rs]: the state of [BoundaryPeer] and its methods.  A
    method runs in [method BoundaryPeer.t PeerError.t]; the writes made before an
    error stay, as in Rust, and [fence] is called where the source calls it.
    [blake3::hash] is third-party code: the class of [Hash]. *)

From S2P Require Import Prelude Hash Json PiText PiWire PiForum PiTypes PiScanner PiDecode.
From S2P Require Import PiCost.

(** ** Digests *)

Definition lower_hex (l : list byte) : string := string_of_list_ascii (flat_map hex_byte l).

(** The [expect] of the source never fails: 32 bytes print as 64 lowercase hexadecimal
    digits. *)
Definition digest `{Blake3} (l : list byte) : Blake3Digest.t :=
  Blake3Digest.new (lower_hex (blake3 l)).

(** ** Data *)

Module PeerPhase.
Inductive t : Set :=
| AwaitingAdapterReady
| Inert
| Creating
| Ready
| Closing
| Disposed
| Fatal.
#[global] Instance eq_dec : EqDecision t.
Proof. solve_decision. Defined.
End PeerPhase.

Module TurnDisposition.
Inductive t : Set :=
| Pending
| Completed
| Length
| Error
| Aborted
| Failed
| ProtocolFailed.
#[global] Instance eq_dec : EqDecision t.
Proof. solve_decision. Defined.
End TurnDisposition.

Module TurnReceipt.
Record t := new {
  correlation_identity : CorrelationIdentity;
  disposition : TurnDisposition.t;
  final_assistant_outcome : FinalAssistantOutcome.t;
}.
#[global] Instance eq_dec : EqDecision t.
Proof. solve_decision. Defined.
End TurnReceipt.

Module PeerObservation.
Inductive t :=
| Usage (delta : UsageDelta.t)
| UsageUnavailable (reason : UsageUnavailableReason.t)
| TurnSettled (receipt : TurnReceipt.t)
| ForumToolCall (correlation_identity : CorrelationIdentity)
    (tool_call_identity : ToolCallIdentity) (tool_name : ForumToolName.t) (args : Value.t)
| Disposed
| Fatal (failure_code : AdapterFailureCode.t).
End PeerObservation.

Module SealedLine.
Record t := new { blake3 : Blake3Digest.t }.
Definition of_bytes `{Blake3} (line : list byte) : t := new (digest line).
Definition of_utf8 `{Blake3} (line : string) : t := of_bytes (bytes line).
End SealedLine.

Module PeerError.
Inductive t : Set :=
| Protocol (e : ProtocolError.t)
| Cost (e : CostDecodeError.t)
| InboundSequence
| OutboundSequence
| SessionIdentity
| RuntimeIdentity
| UnknownCorrelation
| DuplicateCommandResult
| ResultCommandMismatch
| InvalidTransition
| ExecutionProfileDrift
| TranscriptReceipt
| MissingTerminalEvidence
| Fatal.
End PeerError.

Module PendingCommand.
Record t := new { name : CommandName.t; result_seen : bool; accepted : bool }.
End PendingCommand.

Module PendingPrompt.
Record t := new { correlation : CorrelationIdentity; abort_intent_admitted : bool }.
#[global] Instance fields_t : Fields t :=
  fun r => new (correlation r) (abort_intent_admitted r).
End PendingPrompt.

Module PendingDispose.
Record t := new { correlation : CorrelationIdentity }.
End PendingDispose.

Module ActiveDispose.
Record t := new {
  correlation : CorrelationIdentity;
  accepted_sequence : Z;
  final_usage_sequence : option Z;
}.
#[global] Instance fields_t : Fields t :=
  fun r => new (correlation r) (accepted_sequence r) (final_usage_sequence r).
End ActiveDispose.

Module TurnEvidencePhase.
Inductive t : Set :=
| AwaitingAgentStart
| ActiveAttempt
| RetryLifecycle
| AwaitingAgentSettled (final_stop_reason : AssistantStopReason.t)
| AwaitingFinalPromptUsage (final_stop_reason : AssistantStopReason.t)
    (agent_settled_sequence : Z)
| AwaitingSettledFrame (final_stop_reason : AssistantStopReason.t)
    (agent_settled_sequence final_usage_sequence : Z).
End TurnEvidencePhase.

Module ActiveTurn.
Record t := new {
  correlation : CorrelationIdentity;
  evidence_phase : TurnEvidencePhase.t;
  latest_prompt_usage_sequence : option Z;
  abort_intent_admitted : bool;
}.
#[global] Instance fields_t : Fields t :=
  fun r => new (correlation r) (evidence_phase r) (latest_prompt_usage_sequence r)
             (abort_intent_admitted r).
End ActiveTurn.

Module BoundaryPeer.
Record t := mk {
  session_identity : SessionIdentity;
  expected_process_id : HostProcessId.t;
  expected_spawn_nonce : SpawnNonce;
  expected_runtime : RuntimeIdentity.t;
  phase : PeerPhase.t;
  expected_inbound_sequence : Z;
  expected_outbound_sequence : Z;
  adapter_ready_seen : bool;
  fatal_frame_seen : bool;
  pending_commands : gmap CorrelationIdentity PendingCommand.t;
  completed_correlations : gset CorrelationIdentity;
  create : option CreateSessionPayload.t;
  create_candidate : option (CorrelationIdentity * CreateSessionPayload.t);
  configuration : option EffectiveSessionConfiguration.t;
  pending_prompt : option PendingPrompt.t;
  pending_forum_tool_calls : gset ToolCallIdentity;
  pending_dispose : option PendingDispose.t;
  active_dispose : option ActiveDispose.t;
  active_turn : option ActiveTurn.t;
  task_attempt_prompt_admitted : bool;
  prompt_candidates : gmap CorrelationIdentity Blake3Digest.t;
  first_prompt_digest : option Blake3Digest.t;
  settled_turns : list TurnReceipt.t;
  usage : UsageTracker.t;
  inbound_seals : list SealedLine.t;
  outbound_seals : list SealedLine.t;
}.
#[global] Instance fields_t : Fields t :=
  fun p => mk (session_identity p) (expected_process_id p) (expected_spawn_nonce p)
    (expected_runtime p) (phase p) (expected_inbound_sequence p)
    (expected_outbound_sequence p) (adapter_ready_seen p) (fatal_frame_seen p)
    (pending_commands p) (completed_correlations p) (create p) (create_candidate p)
    (configuration p) (pending_prompt p) (pending_forum_tool_calls p) (pending_dispose p)
    (active_dispose p) (active_turn p) (task_attempt_prompt_admitted p)
    (prompt_candidates p) (first_prompt_digest p) (settled_turns p) (usage p)
    (inbound_seals p) (outbound_seals p).

Definition new (session_identity : SessionIdentity) (expected_process_id : HostProcessId.t)
    (expected_spawn_nonce : SpawnNonce) (expected_runtime : RuntimeIdentity.t) :
  result t PeerError.t :=
  check? map_err PeerError.Protocol (RuntimeIdentity.assert_v1 expected_runtime);
  Ok (mk session_identity expected_process_id expected_spawn_nonce expected_runtime
        PeerPhase.AwaitingAdapterReady 1 1 false false ∅ ∅ None None None None ∅ None None
        None false ∅ None [] UsageTracker.default [] []).
End BoundaryPeer.

(** ** Free functions *)

Definition LF : byte := "010".
Definition CR : byte := "013".

Definition raw_jsonl_utf8 (line : list byte) : protocol_result string :=
  if MAX_JSONL_FRAME_BYTES <? Z.of_nat (length line) then Err ProtocolError.FrameTooLarge
  else if contains_byte LF line || contains_byte CR line
  then Err ProtocolError.InvalidJsonlLine
  else if utf8_valid line then Ok (string_of_list_ascii line)
  else Err ProtocolError.InvalidUtf8.

Definition is_assistant (object : Object.t) : bool :=
  match Object.get "role" object with
  | Some (Value.String role) => (role =? "assistant")%string
  | _ => false
  end.

Definition stop_reason_of (object : Object.t) : option AssistantStopReason.t :=
  match Object.get "stopReason" object with
  | Some (Value.String reason) =>
      if (reason =? "stop")%string then Some AssistantStopReason.Stop
      else if (reason =? "length")%string then Some AssistantStopReason.Length
      else if (reason =? "error")%string then Some AssistantStopReason.Error
      else if (reason =? "aborted")%string then Some AssistantStopReason.Aborted
      else None
  | _ => None
  end.

(** The body of the loop over [messages.iter().rev()]. *)
Fixpoint last_assistant_stop_reason (messages : list Value.t) : option AssistantStopReason.t :=
  match messages with
  | [] => None
  | Value.Object object :: messages =>
      if is_assistant object then stop_reason_of object
      else last_assistant_stop_reason messages
  | _ :: messages => last_assistant_stop_reason messages
  end.

Definition final_assistant_stop_reason (messages : list Value.t) :
  option AssistantStopReason.t :=
  last_assistant_stop_reason (rev messages).

(** The new evidence phase, or the error; an error leaves the phase as it was. *)
Definition observe_turn_evidence (state : TurnEvidencePhase.t)
    (event : ProjectedAgentEvent.t) (sequence : Z) : result TurnEvidencePhase.t PeerError.t :=
  match event with
  | ProjectedAgentEvent.AgentStart =>
      match state with
      | TurnEvidencePhase.AwaitingAgentStart | TurnEvidencePhase.RetryLifecycle =>
          Ok TurnEvidencePhase.ActiveAttempt
      | _ => Err PeerError.MissingTerminalEvidence
      end
  | ProjectedAgentEvent.AgentEnd messages will_retry =>
      match state with
      | TurnEvidencePhase.ActiveAttempt | TurnEvidencePhase.RetryLifecycle =>
          if will_retry : bool then Ok TurnEvidencePhase.RetryLifecycle
          else
            let? final_stop_reason :=
              ok_or (final_assistant_stop_reason messages) PeerError.MissingTerminalEvidence in
            Ok (TurnEvidencePhase.AwaitingAgentSettled final_stop_reason)
      | _ => Err PeerError.MissingTerminalEvidence
      end
  | ProjectedAgentEvent.AgentSettled =>
      match state with
      | TurnEvidencePhase.AwaitingAgentSettled final_stop_reason =>
          Ok (TurnEvidencePhase.AwaitingFinalPromptUsage final_stop_reason sequence)
      | _ => Err PeerError.MissingTerminalEvidence
      end
  | _ =>
      match state with
      | TurnEvidencePhase.AwaitingFinalPromptUsage _ _
      | TurnEvidencePhase.AwaitingSettledFrame _ _ _ => Err PeerError.MissingTerminalEvidence
      | _ => Ok state
      end
  end.

(** The matches the source writes with [matches!]. *)
Definition attempt_not_ended (evidence : TurnEvidencePhase.t) : bool :=
  match evidence with
  | TurnEvidencePhase.AwaitingAgentStart | TurnEvidencePhase.ActiveAttempt
  | TurnEvidencePhase.RetryLifecycle => true
  | _ => false
  end.
Definition attempt_in_progress (evidence : TurnEvidencePhase.t) : bool :=
  match evidence with
  | TurnEvidencePhase.ActiveAttempt | TurnEvidencePhase.RetryLifecycle => true
  | _ => false
  end.

(** The purpose a session kind accepts. *)
Definition purpose_matches (kind : SessionKind.t) (purpose : PromptPurpose.t) : bool :=
  match kind, purpose with
  | SessionKind.TaskAttempt, PromptPurpose.TaskAssignment
  | SessionKind.RootAuthorityOffice, PromptPurpose.OfficeTurn => true
  | _, _ => false
  end.

Definition classify (classification : SettledClassification.t)
    (outcome : FinalAssistantOutcome.t) (abort_intent_admitted : bool) :
  option TurnDisposition.t :=
  match classification, outcome with
  | SettledClassification.Completed, FinalAssistantOutcome.Observed AssistantStopReason.Stop =>
      Some TurnDisposition.Completed
  | SettledClassification.Length, FinalAssistantOutcome.Observed AssistantStopReason.Length =>
      Some TurnDisposition.Length
  | SettledClassification.Error, FinalAssistantOutcome.Observed AssistantStopReason.Error =>
      Some TurnDisposition.Error
  | SettledClassification.Aborted, FinalAssistantOutcome.Observed AssistantStopReason.Aborted =>
      Some TurnDisposition.Aborted
  | SettledClassification.Aborted, FinalAssistantOutcome.Observed AssistantStopReason.Stop =>
      if abort_intent_admitted then Some TurnDisposition.Aborted else None
  | SettledClassification.Failed,
      FinalAssistantOutcome.Unavailable FinalAssistantUnavailableReason.SdkPromiseRejected =>
      Some TurnDisposition.Failed
  | SettledClassification.ProtocolFailed,
      FinalAssistantOutcome.Unavailable
        FinalAssistantUnavailableReason.MissingFinalAssistantOutcome =>
      Some TurnDisposition.ProtocolFailed
  | _, _ => None
  end.

(** [n.checked_add(1) == Some(sequence)]. *)
Definition is_next (n sequence : Z) : bool :=
  bool_decide (checked_add_u64 n 1 = Some sequence).

Definition settled_evidence_is_closed (outcome : FinalAssistantOutcome.t)
    (evidence : TurnEvidencePhase.t) (sequence : Z) : bool :=
  match outcome, evidence with
  | FinalAssistantOutcome.Observed stop_reason,
      TurnEvidencePhase.AwaitingSettledFrame final_stop_reason agent_settled_sequence
        final_usage_sequence =>
      bool_decide (final_stop_reason = stop_reason)
      && (agent_settled_sequence <? final_usage_sequence)
      && is_next final_usage_sequence sequence
  | _, _ => false
  end.

Definition is_observed (outcome : FinalAssistantOutcome.t) : bool :=
  match outcome with FinalAssistantOutcome.Observed _ => true | _ => false end.

(** ** The methods *)

Section Peer.
Context `{Blake3} `{JsonLibrary}.

Abbreviation peer := (method BoundaryPeer.t PeerError.t).
Import BoundaryPeer.

Definition fenced (self : BoundaryPeer.t) : BoundaryPeer.t :=
  self <| phase := PeerPhase.Fatal |> <| pending_prompt := None |>
       <| pending_dispose := None |> <| active_dispose := None |> <| active_turn := None |>.
Definition fence {E} : method BoundaryPeer.t E unit := m_modify fenced.

(** [self.fence(); return Err(e);]. *)
Definition fence_fail {A} (e : PeerError.t) : peer A := fence ;! m_fail e.
(** [if c { self.fence(); return Err(e); }] and [if c { return Err(e); }]. *)
Definition fence_if (c : bool) (e : PeerError.t) : peer unit := m_when c (fence_fail e).
Definition fail_if (c : bool) (e : PeerError.t) : peer unit := m_when c (m_fail e).
(** [let Some(x) = o else { self.fence(); return Err(e) }]. *)
Definition some_or_fence {A} (o : option A) (e : PeerError.t) : peer A :=
  match o with Some a => m_ret a | None => fence_fail e end.
(** [.ok_or(e)?] and [let Some(x) = o else { return Err(e) }]. *)
Definition some_or_fail {A} (o : option A) (e : PeerError.t) : peer A :=
  match o with Some a => m_ret a | None => m_fail e end.
(** [r?] on a [ProtocolError]. *)
Definition m_protocol {A} (r : protocol_result A) : peer A :=
  m_lift (map_err PeerError.Protocol r).

Definition profile_drifts (payload : CreateSessionPayload.t) : bool :=
  negb (AbsolutePath.is_strict_descendant_of (CreateSessionPayload.auth_path payload)
          (CreateSessionPayload.agent_directory payload))
  || negb (AbsolutePath.is_strict_descendant_of (CreateSessionPayload.models_path payload)
             (CreateSessionPayload.agent_directory payload))
  || negb (bool_decide (digest (bytes (CreateSessionPayload.system_prompt payload))
                        = CreateSessionPayload.system_prompt_digest payload))
  || negb (bool_decide (ModelSelection.provider (CreateSessionPayload.model payload)
                        = Provider.OpenRouter))
  || negb (bool_decide (ModelSelection.model_id (CreateSessionPayload.model payload)
                        = EffectiveModelDescriptorV1.model_id
                            (ModelCatalogPolicyV1.effective_model
                               (CreateSessionPayload.model_catalog payload))))
  || negb (model_thinking_level_is_admitted
             (ModelSelection.model_id (CreateSessionPayload.model payload))
             (ModelSelection.thinking_level (CreateSessionPayload.model payload))).

Definition validate_create_session (payload : CreateSessionPayload.t) : peer unit :=
  let! self := m_get in
  fence_if (negb (adapter_ready_seen self)
            || negb (bool_decide (phase self = PeerPhase.Inert))
            || bool_decide (is_Some (create self))
            || bool_decide (is_Some (create_candidate self))) PeerError.InvalidTransition ;!
  fence_if (profile_drifts payload) PeerError.ExecutionProfileDrift ;!
  m_protocol (ModelCatalogPolicyV1.assert_pinned (CreateSessionPayload.model_catalog payload)) ;!
  m_protocol (ActorModelPolicyV1.assert_pinned (CreateSessionPayload.settings payload)) ;!
  m_protocol (ForumSessionContractV1.assert_pinned
                (CreateSessionPayload.forum_contract payload)).

Definition validate_prompt (payload : PromptPayload.t) : peer unit :=
  let! self := m_get in
  let! create := some_or_fence (create self) PeerError.InvalidTransition in
  let task_attempt :=
    bool_decide (CreateSessionPayload.session_kind create = SessionKind.TaskAttempt) in
  fence_if (negb (bool_decide (phase self = PeerPhase.Ready))
            || bool_decide (is_Some (active_turn self))
            || bool_decide (is_Some (pending_prompt self))
            || negb (purpose_matches (CreateSessionPayload.session_kind create)
                       (PromptPayload.purpose payload))
            || task_attempt && task_attempt_prompt_admitted self) PeerError.InvalidTransition ;!
  m_when task_attempt
    (m_modify (fun self => self <| task_attempt_prompt_admitted := true |>)).

Definition validate_follow_up_or_steer : peer unit :=
  let! self := m_get in
  fence_if (negb (bool_decide (phase self = PeerPhase.Ready))
            || negb match active_turn self with
                    | Some turn => attempt_in_progress (ActiveTurn.evidence_phase turn)
                    | None => false
                    end
            || negb (bool_decide (CreateSessionPayload.session_kind <$> create self
                                  = Some SessionKind.RootAuthorityOffice)))
    PeerError.InvalidTransition.

(** [pending_forum_tool_calls.remove] runs only when the guards before it in
    the disjunction are false. *)
Definition validate_forum_tool_result (payload : ForumToolResultPayload.t) : peer unit :=
  let! self := m_get in
  if negb (bool_decide (phase self = PeerPhase.Ready))
     || negb (bool_decide (is_Some (active_turn self)))
  then fence_fail PeerError.InvalidTransition
  else
    let call := ForumToolResultPayload.tool_call_identity payload in
    let removed := bool_decide (call ∈ pending_forum_tool_calls self) in
    m_modify (fun self => self <| pending_forum_tool_calls ::= fun s => s ∖ {[ call ]} |>) ;!
    fence_if (negb removed) PeerError.InvalidTransition.

Definition validate_command_admission (frame : InboundFrame.t) : peer unit :=
  let! self := m_get in
  fail_if (bool_decide (is_Some (pending_dispose self))) PeerError.InvalidTransition ;!
  match InboundFrame.command frame with
  | InboundCommand.CreateSession payload => validate_create_session payload
  | InboundCommand.Prompt payload => validate_prompt payload
  | InboundCommand.FollowUp _ | InboundCommand.Steer _ => validate_follow_up_or_steer
  | InboundCommand.ForumToolResult payload => validate_forum_tool_result payload
  | InboundCommand.Abort _ | InboundCommand.GetState =>
      fence_if (negb (bool_decide (phase self = PeerPhase.Ready))) PeerError.InvalidTransition
  | InboundCommand.Dispose _ =>
      fence_if (negb (bool_decide (phase self = PeerPhase.Ready))
                || bool_decide (is_Some (pending_prompt self))
                || bool_decide (is_Some (active_turn self))) PeerError.InvalidTransition
  end.

(** What an admitted command records, before its pending entry. *)
Definition record_command (frame : InboundFrame.t) : peer unit :=
  let correlation := InboundFrame.correlation_identity frame in
  match InboundFrame.command frame with
  | InboundCommand.CreateSession payload =>
      m_modify (fun self => self <| create_candidate := Some (correlation, payload) |>)
  | InboundCommand.Prompt payload =>
      m_modify (fun self =>
        self <| prompt_candidates ::= <[correlation := digest (bytes (PromptPayload.text payload))]> |>
             <| pending_prompt := Some (PendingPrompt.new correlation false) |>)
  | InboundCommand.Abort _ =>
      let! self := m_get in
      match active_turn self with
      | Some active =>
          m_when (attempt_not_ended (ActiveTurn.evidence_phase active))
            (m_modify (fun self =>
               self <| active_turn := Some (active <| ActiveTurn.abort_intent_admitted := true |>) |>))
      | None =>
          match pending_prompt self with
          | Some pending =>
              m_modify (fun self =>
                self <| pending_prompt :=
                          Some (pending <| PendingPrompt.abort_intent_admitted := true |>) |>)
          | None => m_ret ()
          end
      end
  | InboundCommand.Dispose _ =>
      m_modify (fun self => self <| pending_dispose := Some (PendingDispose.new correlation) |>)
  | _ => m_ret ()
  end.

Definition admit_inbound_inner (frame : InboundFrame.t) : peer unit :=
  let correlation := InboundFrame.correlation_identity frame in
  let! self := m_get in
  fail_if (bool_decide (phase self = PeerPhase.Fatal)) PeerError.Fatal ;!
  fence_if (negb (bool_decide (InboundFrame.session_identity frame = session_identity self)))
    PeerError.SessionIdentity ;!
  fence_if (negb (BoundarySequence.value (InboundFrame.sequence frame)
                  =? expected_inbound_sequence self)) PeerError.InboundSequence ;!
  m_modify (fun self => self <| expected_inbound_sequence ::= Z.succ |>) ;!
  fence_if (bool_decide (is_Some (pending_commands self !! correlation))
            || bool_decide (correlation ∈ completed_correlations self))
    PeerError.DuplicateCommandResult ;!
  validate_command_admission frame ;!
  record_command frame ;!
  m_modify (fun self =>
    self <| pending_commands ::=
              <[correlation := PendingCommand.new
                                 (InboundCommand.name (InboundFrame.command frame))
                                 false false]> |>).

(** [if result.is_err() { self.fence() }; result]. *)
Definition fence_on_error {A} (m : peer A) : peer A :=
  fun self => match m self with
              | (Ok a, self) => (Ok a, self)
              | (Err e, self) => (Err e, fenced self)
              end.

Definition admit_inbound (frame : InboundFrame.t) : peer unit :=
  fence_on_error (admit_inbound_inner frame).

(** [match r { Ok(x) => x, Err(error) => { self.fence(); return Err(error.into()) } }]. *)
Definition protocol_or_fence {A} (r : protocol_result A) : peer A :=
  match r with Ok a => m_ret a | Err e => fence_fail (PeerError.Protocol e) end.

Definition admit_inbound_jsonl_bytes (line : list byte) : peer InboundFrame.t :=
  m_modify (fun self => self <| inbound_seals ::= fun l => l ++ [SealedLine.of_bytes line] |>) ;!
  let! line := protocol_or_fence (raw_jsonl_utf8 line) in
  let! frame := protocol_or_fence (decode_inbound_jsonl line) in
  admit_inbound frame ;!
  m_ret frame.

Definition admit_inbound_jsonl (line : string) : peer InboundFrame.t :=
  admit_inbound_jsonl_bytes (bytes line).

(** *** Host frames *)

Definition observe_adapter_ready (pid : HostProcessId.t) (spawn_nonce : SpawnNonce)
    (runtime : RuntimeIdentity.t) : peer unit :=
  let! self := m_get in
  fence_if (adapter_ready_seen self
            || negb (bool_decide (phase self = PeerPhase.AwaitingAdapterReady))
            || negb (bool_decide (pid = expected_process_id self))
            || negb (bool_decide (spawn_nonce = expected_spawn_nonce self))
            || negb (bool_decide (runtime = expected_runtime self)))
    PeerError.RuntimeIdentity ;!
  m_protocol (RuntimeIdentity.assert_v1 runtime) ;!
  m_modify (fun self =>
    self <| adapter_ready_seen := true |> <| phase := PeerPhase.Inert |>).

(** The effects of an accepted result, by command. *)
Definition accept_result (sequence : Z) (correlation : CorrelationIdentity)
    (name : CommandName.t) : peer unit :=
  match name with
  | CommandName.CreateSession =>
      let! self := m_get in
      m_modify (fun self => self <| create_candidate := None |>) ;!
      let! candidate := some_or_fence (create_candidate self) PeerError.InvalidTransition in
      fence_if (negb (bool_decide (candidate.1 = correlation))) PeerError.InvalidTransition ;!
      m_modify (fun self =>
        self <| create := Some candidate.2 |> <| phase := PeerPhase.Creating |>)
  | CommandName.Prompt =>
      let! self := m_get in
      m_modify (fun self => self <| pending_prompt := None |>) ;!
      let! prompt := some_or_fail (pending_prompt self) PeerError.InvalidTransition in
      fail_if (negb (bool_decide (PendingPrompt.correlation prompt = correlation)))
        PeerError.InvalidTransition ;!
      m_when (negb (bool_decide (is_Some (first_prompt_digest self))))
        (m_modify (fun self =>
           self <| first_prompt_digest := prompt_candidates self !! correlation |>)) ;!
      m_modify (fun self =>
        self <| active_turn := Some (ActiveTurn.new correlation
                  TurnEvidencePhase.AwaitingAgentStart None
                  (PendingPrompt.abort_intent_admitted prompt)) |>)
  | CommandName.Dispose =>
      m_modify (fun self =>
        self <| phase := PeerPhase.Closing |>
             <| active_dispose := Some (ActiveDispose.new correlation sequence None) |>)
  | CommandName.FollowUp | CommandName.Steer | CommandName.Abort | CommandName.GetState
  | CommandName.ForumToolResult => m_ret ()
  end.

Definition result_command (r : CommandResult.t) : CommandName.t :=
  match r with
  | CommandResult.Accepted command _ | CommandResult.Rejected command _ => command
  end.
Definition result_accepted (r : CommandResult.t) : bool :=
  match r with CommandResult.Accepted _ _ => true | CommandResult.Rejected _ _ => false end.

(** [self.pending_prompt.take()] must be the prompt of [correlation]. *)
Definition take_rejected_prompt (correlation : CorrelationIdentity) : peer unit :=
  let! self := m_get in
  m_modify (fun self => self <| pending_prompt := None |>) ;!
  let! prompt := some_or_fail (pending_prompt self) PeerError.InvalidTransition in
  fail_if (negb (bool_decide (PendingPrompt.correlation prompt = correlation)))
    PeerError.InvalidTransition.

Definition take_accepted_dispose (correlation : CorrelationIdentity) : peer unit :=
  let! self := m_get in
  m_modify (fun self => self <| pending_dispose := None |>) ;!
  let! dispose := some_or_fail (pending_dispose self) PeerError.InvalidTransition in
  fail_if (negb (bool_decide (PendingDispose.correlation dispose = correlation)))
    PeerError.InvalidTransition.

Definition observe_command_result (sequence : Z)
    (correlation : option CorrelationIdentity) (r : CommandResult.t) : peer unit :=
  let! correlation := some_or_fence correlation PeerError.UnknownCorrelation in
  let! self := m_get in
  let! pending :=
    some_or_fence (pending_commands self !! correlation) PeerError.UnknownCorrelation in
  fence_if (PendingCommand.result_seen pending) PeerError.DuplicateCommandResult ;!
  let name := PendingCommand.name pending in
  fence_if (negb (bool_decide (name = result_command r))) PeerError.ResultCommandMismatch ;!
  let accepted := result_accepted r in
  m_modify (fun self =>
    self <| pending_commands ::= <[correlation := PendingCommand.new name true accepted]> |>
         <| completed_correlations ::= union {[ correlation ]} |>) ;!
  m_when accepted (accept_result sequence correlation name) ;!
  m_when (negb accepted && bool_decide (name = CommandName.Prompt))
    (take_rejected_prompt correlation) ;!
  m_when (accepted && bool_decide (name = CommandName.Dispose))
    (take_accepted_dispose correlation) ;!
  fail_if (negb accepted && bool_decide (name = CommandName.Dispose))
    PeerError.InvalidTransition.

Definition configuration_drifts (configuration : EffectiveSessionConfiguration.t)
    (create : CreateSessionPayload.t) : bool :=
  let differs {A} `{EqDecision A} (x y : A) := negb (bool_decide (x = y)) in
  differs (EffectiveSessionConfiguration.session_kind configuration)
          (CreateSessionPayload.session_kind create)
  || differs (EffectiveSessionConfiguration.cwd configuration) (CreateSessionPayload.cwd create)
  || differs (EffectiveSessionConfiguration.session_directory configuration)
             (CreateSessionPayload.session_directory create)
  || differs (EffectiveSessionConfiguration.model configuration)
             (CreateSessionPayload.model create)
  || differs (EffectiveSessionConfiguration.model_catalog configuration)
             (CreateSessionPayload.model_catalog create)
  || differs (EffectiveSessionConfiguration.tool_profile configuration)
             (CreateSessionPayload.tool_profile create)
  || differs (EffectiveSessionConfiguration.settings configuration)
             (CreateSessionPayload.settings create)
  || differs (EffectiveSessionConfiguration.forum_contract configuration)
             (CreateSessionPayload.forum_contract create)
  || negb (AbsolutePath.is_strict_descendant_of
             (EffectiveSessionConfiguration.session_file configuration)
             (CreateSessionPayload.session_directory create)).

Definition observe_session_ready (correlation : option CorrelationIdentity)
    (configuration : EffectiveSessionConfiguration.t) : peer unit :=
  let! correlation := some_or_fence correlation PeerError.UnknownCorrelation in
  let! self := m_get in
  let! pending :=
    some_or_fail (pending_commands self !! correlation) PeerError.UnknownCorrelation in
  fence_if (negb (bool_decide (PendingCommand.name pending = CommandName.CreateSession))
            || negb (PendingCommand.result_seen pending)
            || negb (bool_decide (phase self = PeerPhase.Creating)))
    PeerError.InvalidTransition ;!
  let! create := some_or_fence (create self) PeerError.ExecutionProfileDrift in
  m_protocol (EffectiveSessionConfiguration.assert_pinned configuration) ;!
  fence_if (configuration_drifts configuration create) PeerError.ExecutionProfileDrift ;!
  m_modify (fun self =>
    self <| BoundaryPeer.configuration := Some configuration |> <| phase := PeerPhase.Ready |>).

Definition observe_agent_event (sequence : Z) (correlation : option CorrelationIdentity)
    (event : ProjectedAgentEvent.t) : peer unit :=
  let! self := m_get in
  fence_if (negb (bool_decide (phase self = PeerPhase.Ready)
                  || bool_decide (phase self = PeerPhase.Closing)))
    PeerError.InvalidTransition ;!
  match active_turn self with
  | Some active =>
      fence_if (negb (bool_decide (correlation = Some (ActiveTurn.correlation active))))
        PeerError.UnknownCorrelation ;!
      let! evidence :=
        m_lift (observe_turn_evidence (ActiveTurn.evidence_phase active) event sequence) in
      m_modify (fun self =>
        self <| active_turn := Some (active <| ActiveTurn.evidence_phase := evidence |>) |>)
  | None => fence_if (bool_decide (is_Some correlation)) PeerError.UnknownCorrelation
  end.

Definition has_forum_profile (self : BoundaryPeer.t) : bool :=
  match configuration self with
  | Some configuration =>
      bool_decide (EffectiveSessionConfiguration.tool_profile configuration
                   = ToolProfile.ForumIsolatedV1)
      && bool_decide (EffectiveSessionConfiguration.tools configuration
                      = [PiToolName.SocietyForumRead; PiToolName.SocietyForumPost])
  | None => false
  end.

(** [pending_forum_tool_calls.insert] runs only when the two guards before it
    are false. *)
Definition observe_forum_tool_call (correlation : option CorrelationIdentity)
    (tool_call_identity : ToolCallIdentity) : peer unit :=
  let! self := m_get in
  let! active := some_or_fence (active_turn self) PeerError.InvalidTransition in
  if negb (bool_decide (correlation = Some (ActiveTurn.correlation active)))
     || negb (has_forum_profile self)
  then fence_fail PeerError.InvalidTransition
  else
    let inserted := bool_decide (tool_call_identity ∉ pending_forum_tool_calls self) in
    m_modify (fun self =>
      self <| pending_forum_tool_calls ::= union {[ tool_call_identity ]} |>) ;!
    fence_if (negb inserted) PeerError.InvalidTransition.

(** The commands a usage snapshot may belong to. *)
Definition usage_admits (turn_active : bool) (name : CommandName.t) : bool :=
  match name with
  | CommandName.Prompt | CommandName.FollowUp | CommandName.Steer => turn_active
  | CommandName.Abort | CommandName.GetState => true
  | CommandName.Dispose => negb turn_active
  | CommandName.CreateSession | CommandName.ForumToolResult => false
  end.

(** The evidence path after the prompt's own snapshot. *)
Definition usage_evidence (evidence : TurnEvidencePhase.t) (sequence : Z) :
  result TurnEvidencePhase.t PeerError.t :=
  match evidence with
  | TurnEvidencePhase.AwaitingFinalPromptUsage final_stop_reason agent_settled_sequence =>
      Ok (TurnEvidencePhase.AwaitingSettledFrame final_stop_reason agent_settled_sequence
            sequence)
  | TurnEvidencePhase.AwaitingSettledFrame _ _ _ => Err PeerError.MissingTerminalEvidence
  | _ => Ok evidence
  end.

Definition check_dispose_usage (sequence : Z) (correlation : CorrelationIdentity)
    (name : CommandName.t) : peer bool :=
  let! self := m_get in
  match active_dispose self with
  | Some dispose =>
      fence_if (negb (bool_decide (phase self = PeerPhase.Closing))
                || negb (bool_decide (correlation = ActiveDispose.correlation dispose))
                || negb (bool_decide (name = CommandName.Dispose))
                || bool_decide (is_Some (ActiveDispose.final_usage_sequence dispose))
                || negb (is_next (ActiveDispose.accepted_sequence dispose) sequence))
        PeerError.MissingTerminalEvidence ;!
      m_ret true
  | None => m_ret false
  end.

(** [match self.usage.observe(&usage)]: its error fences. *)
Definition track_usage (observation : UsageObservation.t) : peer (option UsageDelta.t) :=
  let! self := m_get in
  let outcome := UsageTracker.observe observation (usage self) in
  m_modify (fun self => self <| usage := outcome.2 |>) ;!
  match outcome.1 with
  | Ok delta => m_ret delta
  | Err error => fence_fail (PeerError.Cost error)
  end.

Definition record_dispose_usage (sequence : Z) : peer unit :=
  let! self := m_get in
  let! dispose := some_or_fence (active_dispose self) PeerError.MissingTerminalEvidence in
  m_modify (fun self =>
    self <| active_dispose :=
              Some (dispose <| ActiveDispose.final_usage_sequence := Some sequence |>) |>).

Definition record_prompt_usage (sequence : Z) (correlation : CorrelationIdentity) :
  peer unit :=
  let! self := m_get in
  match active_turn self with
  | Some active =>
      m_when (bool_decide (correlation = ActiveTurn.correlation active))
        (let! evidence := m_lift (usage_evidence (ActiveTurn.evidence_phase active) sequence) in
         m_modify (fun self =>
           self <| active_turn :=
                     Some (active <| ActiveTurn.evidence_phase := evidence |>
                                  <| ActiveTurn.latest_prompt_usage_sequence := Some sequence |>)
                |>))
  | None => m_ret ()
  end.

Definition observe_usage (sequence : Z) (correlation : option CorrelationIdentity)
    (observation : UsageObservation.t) : peer (option PeerObservation.t) :=
  let! correlation := some_or_fence correlation PeerError.UnknownCorrelation in
  let! self := m_get in
  let! command :=
    some_or_fence (pending_commands self !! correlation) PeerError.UnknownCorrelation in
  fence_if (negb (PendingCommand.result_seen command) || negb (PendingCommand.accepted command))
    PeerError.InvalidTransition ;!
  let name := PendingCommand.name command in
  let! is_final_dispose_usage := check_dispose_usage sequence correlation name in
  fence_if (negb (usage_admits (bool_decide (is_Some (active_turn self))) name))
    PeerError.InvalidTransition ;!
  match observation with
  | UsageObservation.Unavailable reason =>
      fence ;! m_ret (Some (PeerObservation.UsageUnavailable reason))
  | UsageObservation.Known _ =>
      let! delta := track_usage observation in
      m_when is_final_dispose_usage (record_dispose_usage sequence) ;!
      record_prompt_usage sequence correlation ;!
      m_ret (PeerObservation.Usage <$> delta)
  end.

Definition observe_settled (sequence : Z) (correlation : option CorrelationIdentity)
    (classification : SettledClassification.t) (outcome : FinalAssistantOutcome.t) :
  peer TurnReceipt.t :=
  let! correlation := some_or_fence correlation PeerError.UnknownCorrelation in
  let! self := m_get in
  let! active := some_or_fence (active_turn self) PeerError.InvalidTransition in
  fence_if (negb (bool_decide (correlation = ActiveTurn.correlation active)))
    PeerError.UnknownCorrelation ;!
  let! disposition :=
    some_or_fence (classify classification outcome (ActiveTurn.abort_intent_admitted active))
      PeerError.MissingTerminalEvidence in
  let final_usage_is_adjacent :=
    match ActiveTurn.latest_prompt_usage_sequence active with
    | Some usage => is_next usage sequence
    | None => false
    end in
  let closed :=
    settled_evidence_is_closed outcome (ActiveTurn.evidence_phase active) sequence in
  fail_if ((is_observed outcome && (negb closed || negb final_usage_is_adjacent))
           || (negb (is_observed outcome) && negb final_usage_is_adjacent))
    PeerError.MissingTerminalEvidence ;!
  let receipt := TurnReceipt.new correlation disposition outcome in
  m_modify (fun self =>
    self <| settled_turns ::= fun l => l ++ [receipt] |> <| active_turn := None |>) ;!
  m_when (bool_decide (disposition = TurnDisposition.ProtocolFailed)) fence ;!
  m_ret receipt.

Definition receipt_mismatch (self : BoundaryPeer.t) (create : CreateSessionPayload.t)
    (configuration : EffectiveSessionConfiguration.t) (receipt : TranscriptFlushReceiptV1.t) :
  bool :=
  let located identity file :=
    bool_decide (identity = session_identity self)
    && bool_decide (file = EffectiveSessionConfiguration.session_file configuration)
    && AbsolutePath.is_strict_descendant_of file
         (CreateSessionPayload.session_directory create) in
  match receipt with
  | TranscriptFlushReceiptV1.Materialized identity file _ header_cwd first_user_prompt =>
      negb (located identity file)
      || negb (bool_decide (header_cwd = CreateSessionPayload.cwd create))
      || match first_prompt_digest self with
         | Some expected =>
             negb (bool_decide (first_user_prompt = FirstUserPromptReceipt.Verified expected))
         | None => negb (bool_decide (first_user_prompt = FirstUserPromptReceipt.Absent))
         end
  | TranscriptFlushReceiptV1.UnmaterializedNoPrompt identity file =>
      bool_decide (is_Some (first_prompt_digest self)) || negb (located identity file)
  end.

Definition observe_disposed (sequence : Z) (correlation : option CorrelationIdentity)
    (receipt : TranscriptFlushReceiptV1.t) : peer unit :=
  let! correlation := some_or_fence correlation PeerError.UnknownCorrelation in
  let! self := m_get in
  let! pending :=
    some_or_fail (pending_commands self !! correlation) PeerError.UnknownCorrelation in
  fence_if (negb (bool_decide (PendingCommand.name pending = CommandName.Dispose))
            || negb (PendingCommand.result_seen pending)
            || negb (PendingCommand.accepted pending)
            || negb (bool_decide (phase self = PeerPhase.Closing))
            || bool_decide (is_Some (active_turn self))) PeerError.InvalidTransition ;!
  let! dispose := some_or_fence (active_dispose self) PeerError.MissingTerminalEvidence in
  fence_if (negb (bool_decide (ActiveDispose.correlation dispose = correlation))
            || match ActiveDispose.final_usage_sequence dispose with
               | Some usage => negb (is_next usage sequence)
               | None => true
               end) PeerError.MissingTerminalEvidence ;!
  let! create := some_or_fence (create self) PeerError.TranscriptReceipt in
  let! configuration := some_or_fence (configuration self) PeerError.TranscriptReceipt in
  fence_if (receipt_mismatch self create configuration receipt) PeerError.TranscriptReceipt ;!
  m_modify (fun self =>
    self <| active_dispose := None |> <| phase := PeerPhase.Disposed |>).

Definition is_fatal_event (event : OutboundEvent.t) : bool :=
  match event with OutboundEvent.Fatal _ => true | _ => false end.

(** The dispatch on the event, after the sequence was consumed. *)
Definition dispatch_event (frame : OutboundFrame.t) : peer (option PeerObservation.t) :=
  let sequence := BoundarySequence.value (OutboundFrame.sequence frame) in
  let correlation := OutboundFrame.correlation_identity frame in
  match OutboundFrame.event frame with
  | OutboundEvent.AdapterReady pid spawn_nonce runtime =>
      observe_adapter_ready pid spawn_nonce runtime ;! m_ret None
  | OutboundEvent.SessionReady configuration =>
      observe_session_ready correlation configuration ;! m_ret None
  | OutboundEvent.CommandResult r =>
      observe_command_result sequence correlation r ;! m_ret None
  | OutboundEvent.AgentEvent agent_event =>
      observe_agent_event sequence correlation agent_event ;! m_ret None
  | OutboundEvent.ForumToolCall tool_call_identity tool_name args =>
      let! identity := some_or_fence correlation PeerError.UnknownCorrelation in
      observe_forum_tool_call (Some identity) tool_call_identity ;!
      m_ret (Some (PeerObservation.ForumToolCall identity tool_call_identity tool_name args))
  | OutboundEvent.UsageSnapshot observation => observe_usage sequence correlation observation
  | OutboundEvent.Settled classification outcome =>
      let! receipt := observe_settled sequence correlation classification outcome in
      m_ret (Some (PeerObservation.TurnSettled receipt))
  | OutboundEvent.Disposed receipt =>
      observe_disposed sequence correlation receipt ;!
      m_ret (Some PeerObservation.Disposed)
  | OutboundEvent.Fatal failure_code =>
      let! self := m_get in
      fail_if (fatal_frame_seen self) PeerError.Fatal ;!
      m_modify (fun self => self <| fatal_frame_seen := true |>) ;!
      fence ;!
      m_ret (Some (PeerObservation.Fatal failure_code))
  end.

Definition observe_outbound_inner (frame : OutboundFrame.t) :
  peer (option PeerObservation.t) :=
  let! self := m_get in
  fail_if (bool_decide (phase self = PeerPhase.Fatal)
           && negb (is_fatal_event (OutboundFrame.event frame))) PeerError.Fatal ;!
  fence_if (negb (bool_decide (OutboundFrame.session_identity frame = session_identity self)))
    PeerError.SessionIdentity ;!
  fence_if (negb (BoundarySequence.value (OutboundFrame.sequence frame)
                  =? expected_outbound_sequence self)) PeerError.OutboundSequence ;!
  m_modify (fun self => self <| expected_outbound_sequence ::= Z.succ |>) ;!
  dispatch_event frame.

Definition observe_outbound (frame : OutboundFrame.t) : peer (option PeerObservation.t) :=
  fence_on_error (observe_outbound_inner frame).

Definition observe_outbound_jsonl_bytes (line : list byte) :
  peer (option PeerObservation.t) :=
  m_modify (fun self => self <| outbound_seals ::= fun l => l ++ [SealedLine.of_bytes line] |>) ;!
  let! line := protocol_or_fence (raw_jsonl_utf8 line) in
  let! frame := protocol_or_fence (decode_outbound_jsonl line) in
  observe_outbound frame.

Definition observe_outbound_jsonl (line : string) : peer (option PeerObservation.t) :=
  observe_outbound_jsonl_bytes (bytes line).

Definition observe_stdout_eof : peer unit :=
  let! self := m_get in
  fence_if (negb (bool_decide (phase self = PeerPhase.Disposed)
                  || bool_decide (phase self = PeerPhase.Fatal)))
    PeerError.MissingTerminalEvidence.
End Peer.
