(* ===== verification/PiEquality.v ===== *)
(** * Equality of events and observations

    The [PartialEq] implementations that [society-pi] writes by hand, because a
    JSON value has no equality of its own: [ProjectedAgentEvent] and
    [OutboundEvent] of [protocol.rs], [PeerObservation] of [peer.rs].  Each ends
    in a catch-all [_ => false], so a constructor left out would make an event
    different from itself. *)

From S2P Require Import Prelude Json JsonReference PiText PiWire PiForum PiTypes PiCost PiPeer.

(** ** Derived equalities the implementations call *)

#[export] Instance effective_configuration_eq_dec : EqDecision EffectiveSessionConfiguration.t.
Proof. solve_decision. Defined.
#[export] Instance provider_cost_observation_eq_dec : EqDecision ProviderCostObservationV1.t.
Proof. solve_decision. Defined.
#[export] Instance usage_totals_eq_dec : EqDecision UsageTotals.t.
Proof. solve_decision. Defined.
#[export] Instance command_result_detail_eq_dec : EqDecision CommandResultDetail.t.
Proof. solve_decision. Defined.
#[export] Instance command_result_eq_dec : EqDecision CommandResult.t.
Proof. solve_decision. Defined.
#[export] Instance transcript_flush_receipt_eq_dec : EqDecision TranscriptFlushReceiptV1.t.
Proof. solve_decision. Defined.
#[export] Instance usage_delta_eq_dec : EqDecision UsageDelta.t.
Proof. solve_decision. Defined.

(** [==] of a type whose equality is derived. *)
Definition same {A} `{EqDecision A} (left right : A) : bool := bool_decide (left = right).

(** ** The implementations *)

(** [left.len() == right.len() && left.iter().zip(right).all(...)]. *)
Definition values_equal (left right : list Value.t) : bool :=
  (length left =? length right)%nat && zip_all json_value_equal left right.

Definition optional_value_equal (left right : option Value.t) : bool :=
  match left, right with
  | Some l, Some r => json_value_equal l r
  | None, None => true
  | _, _ => false
  end.

Definition agent_event_equal (left right : ProjectedAgentEvent.t) : bool :=
  match left, right with
  | ProjectedAgentEvent.AgentStart, ProjectedAgentEvent.AgentStart
  | ProjectedAgentEvent.AgentSettled, ProjectedAgentEvent.AgentSettled
  | ProjectedAgentEvent.TurnStart, ProjectedAgentEvent.TurnStart
  | ProjectedAgentEvent.SummarizationRetryFinished,
    ProjectedAgentEvent.SummarizationRetryFinished => true
  | ProjectedAgentEvent.AgentEnd messages retry,
    ProjectedAgentEvent.AgentEnd messages' retry' =>
      same retry retry' && values_equal messages messages'
  | ProjectedAgentEvent.TurnEnd message results,
    ProjectedAgentEvent.TurnEnd message' results' =>
      json_value_equal message message' && values_equal results results'
  | ProjectedAgentEvent.MessageStart value, ProjectedAgentEvent.MessageStart value'
  | ProjectedAgentEvent.MessageEnd value, ProjectedAgentEvent.MessageEnd value'
  | ProjectedAgentEvent.EntryAppended value, ProjectedAgentEvent.EntryAppended value' =>
      json_value_equal value value'
  | ProjectedAgentEvent.MessageUpdate message event,
    ProjectedAgentEvent.MessageUpdate message' event' =>
      json_value_equal message message' && json_value_equal event event'
  | ProjectedAgentEvent.ToolExecutionStart id name args,
    ProjectedAgentEvent.ToolExecutionStart id' name' args' =>
      same id id' && same name name' && json_value_equal args args'
  | ProjectedAgentEvent.ToolExecutionUpdate id name args result,
    ProjectedAgentEvent.ToolExecutionUpdate id' name' args' result' =>
      same id id' && same name name' && json_value_equal args args'
      && json_value_equal result result'
  | ProjectedAgentEvent.ToolExecutionEnd id name result error,
    ProjectedAgentEvent.ToolExecutionEnd id' name' result' error' =>
      same id id' && same name name' && same error error'
      && json_value_equal result result'
  | ProjectedAgentEvent.QueueUpdate steering follow_up,
    ProjectedAgentEvent.QueueUpdate steering' follow_up' =>
      same steering steering' && same follow_up follow_up'
  | ProjectedAgentEvent.BashExecutionUpdate id delta,
    ProjectedAgentEvent.BashExecutionUpdate id' delta' => same id id' && same delta delta'
  | ProjectedAgentEvent.CompactionStart reason, ProjectedAgentEvent.CompactionStart reason' =>
      same reason reason'
  | ProjectedAgentEvent.ThinkingLevelChanged level,
    ProjectedAgentEvent.ThinkingLevelChanged level' => same level level'
  | ProjectedAgentEvent.SessionInfoChanged name,
    ProjectedAgentEvent.SessionInfoChanged name' => same name name'
  | ProjectedAgentEvent.CompactionEnd reason result aborted retry error,
    ProjectedAgentEvent.CompactionEnd reason' result' aborted' retry' error' =>
      same reason reason' && same aborted aborted' && same retry retry' && same error error'
      && optional_value_equal result result'
  | ProjectedAgentEvent.AutoRetryStart attempt max delay error,
    ProjectedAgentEvent.AutoRetryStart attempt' max' delay' error' =>
      same attempt attempt' && same max max' && same delay delay' && same error error'
  | ProjectedAgentEvent.AutoRetryEnd success attempt error,
    ProjectedAgentEvent.AutoRetryEnd success' attempt' error' =>
      same success success' && same attempt attempt' && same error error'
  | ProjectedAgentEvent.SummarizationRetryScheduled attempt max delay error,
    ProjectedAgentEvent.SummarizationRetryScheduled attempt' max' delay' error' =>
      same attempt attempt' && same max max' && same delay delay' && same error error'
  | ProjectedAgentEvent.SummarizationRetryAttemptStart source reason,
    ProjectedAgentEvent.SummarizationRetryAttemptStart source' reason' =>
      same source source' && same reason reason'
  | _, _ => false
  end.

Definition usage_observation_equal (left right : UsageObservation.t) : bool :=
  match left, right with
  | UsageObservation.Unavailable l, UsageObservation.Unavailable r => same l r
  | UsageObservation.Known l, UsageObservation.Known r => same l r
  | _, _ => false
  end.

Section WithJson.
Context `{JsonLibrary}.

Definition forum_tool_result_equal (left right : ForumToolResultPayload.t) : bool :=
same (ForumToolResultPayload.tool_call_identity left)
     (ForumToolResultPayload.tool_call_identity right)
&& same (ForumToolResultPayload.is_error left) (ForumToolResultPayload.is_error right)
&& json_values_equal (ForumToolResultPayload.result left)
     (ForumToolResultPayload.result right).

Definition outbound_event_equal (left right : OutboundEvent.t) : bool :=
match left, right with
| OutboundEvent.AdapterReady pid nonce runtime, OutboundEvent.AdapterReady pid' nonce' runtime' =>
    same pid pid' && same nonce nonce' && same runtime runtime'
| OutboundEvent.SessionReady configuration, OutboundEvent.SessionReady configuration' =>
    same configuration configuration'
| OutboundEvent.CommandResult result, OutboundEvent.CommandResult result' =>
    same result result'
| OutboundEvent.AgentEvent event, OutboundEvent.AgentEvent event' =>
    agent_event_equal event event'
| OutboundEvent.ForumToolCall id name args, OutboundEvent.ForumToolCall id' name' args' =>
    same id id' && same name name' && json_values_equal args args'
| OutboundEvent.UsageSnapshot usage, OutboundEvent.UsageSnapshot usage' =>
    usage_observation_equal usage usage'
| OutboundEvent.Settled classification outcome,
  OutboundEvent.Settled classification' outcome' =>
    same classification classification' && same outcome outcome'
| OutboundEvent.Disposed receipt, OutboundEvent.Disposed receipt' => same receipt receipt'
| OutboundEvent.Fatal failure, OutboundEvent.Fatal failure' => same failure failure'
| _, _ => false
end.

Definition peer_observation_equal (left right : PeerObservation.t) : bool :=
match left, right with
| PeerObservation.Usage delta, PeerObservation.Usage delta' => same delta delta'
| PeerObservation.UsageUnavailable reason, PeerObservation.UsageUnavailable reason' =>
    same reason reason'
| PeerObservation.TurnSettled receipt, PeerObservation.TurnSettled receipt' =>
    same receipt receipt'
| PeerObservation.ForumToolCall correlation id name args,
  PeerObservation.ForumToolCall correlation' id' name' args' =>
    same correlation correlation' && same id id' && same name name'
    && (to_string args =? to_string args')%string
| PeerObservation.Disposed, PeerObservation.Disposed => true
| PeerObservation.Fatal failure, PeerObservation.Fatal failure' => same failure failure'
| _, _ => false
end.

End WithJson.

(** ** What they decide *)

Lemma same_true {A} `{EqDecision A} (a b : A) : same a b = true <-> a = b.
Proof. apply bool_decide_eq_true. Qed.

Lemma values_equal_true l r :
  Forall canonical l -> Forall canonical r -> values_equal l r = true <-> l = r.
Proof.
  intros Hl Hr. unfold values_equal. rewrite andb_true_iff, Nat.eqb_eq.
  rewrite <-(arrays_equal_spec json_value_equal l r); [|..|done|done].
  - split; [intros [Hlen Hz]; by apply zip_all_true|].
    intros Hz. pose proof (Forall2_length _ _ _ Hz) as Hlen. split; [done|by apply zip_all_true].
  - apply Forall_forall. intros x _ y. apply json_value_equal_sound.
Qed.

Lemma optional_value_equal_true l r :
  (forall v, l = Some v -> canonical v) -> (forall v, r = Some v -> canonical v) ->
  optional_value_equal l r = true <-> l = r.
Proof.
  intros Hl Hr. destruct l as [l|], r as [r|]; cbn; try (by split).
  rewrite json_value_equal_sound by eauto. naive_solver.
Qed.

(** The JSON values an event carries. *)
Definition event_values (event : ProjectedAgentEvent.t) : list Value.t :=
  match event with
  | ProjectedAgentEvent.AgentEnd messages _ => messages
  | ProjectedAgentEvent.TurnEnd message results => message :: results
  | ProjectedAgentEvent.MessageStart value | ProjectedAgentEvent.MessageEnd value
  | ProjectedAgentEvent.EntryAppended value
  | ProjectedAgentEvent.ToolExecutionStart _ _ value
  | ProjectedAgentEvent.ToolExecutionEnd _ _ value _ => [value]
  | ProjectedAgentEvent.MessageUpdate value value'
  | ProjectedAgentEvent.ToolExecutionUpdate _ _ value value' => [value; value']
  | ProjectedAgentEvent.CompactionEnd _ result _ _ _ => option_list result
  | _ => []
  end.

Lemma agent_event_equal_true left right :
  Forall canonical (event_values left) -> Forall canonical (event_values right) ->
  agent_event_equal left right = true <-> left = right.
Proof.
  intros Hl Hr. destruct left, right; cbn [event_values agent_event_equal] in *;
    try (by split); rewrite ?Forall_cons in *; destruct_and?;
    rewrite ?andb_true_iff, ?same_true, ?json_value_equal_sound, ?values_equal_true by done;
    try naive_solver.
  rewrite optional_value_equal_true.
  - split; [by intros [[[[-> ->] ->] ->] ->]|by intros [= -> -> -> -> ->]].
  - intros v ->. by apply Forall_cons in Hl as [? _].
  - intros v ->. by apply Forall_cons in Hr as [? _].
Qed.

(** The handwritten equality of agent events is Leibniz equality, on events
    whose JSON values are canonical: two events compare equal exactly when they
    are the same event.  In particular no constructor falls to the catch-all
    against itself. *)
Theorem agent_event_equality_decides (l r : ProjectedAgentEvent.t)
    (Hl : Forall canonical (event_values l)) (Hr : Forall canonical (event_values r)) :
  agent_event_equal l r = true <-> l = r.
Proof. by apply agent_event_equal_true. Qed.

Lemma agent_event_equality_decides_witness :
  let message := json_object [("role", json_string "assistant"); ("turn", json_u64 3)] in
  let l := ProjectedAgentEvent.TurnEnd message [json_bool true] in
  let r := ProjectedAgentEvent.TurnEnd message [json_bool false] in
  agent_event_equal l l = true /\ agent_event_equal l r = false /\
  (agent_event_equal l r = true <-> l = r).
Proof.
  cbn zeta. split; [vm_compute; reflexivity|]. split; [vm_compute; reflexivity|].
  apply agent_event_equality_decides; repeat constructor.
  all: cbn; discriminate.
Defined.

Section WithJson.
Context `{JsonLibrary}.

Lemma json_values_equal_true l r :
  reads_back l -> reads_back r -> json_values_equal l r = true <-> l = r.
Proof.
  unfold json_values_equal, reads_back. intros Hl Hr. rewrite String.eqb_eq.
  split; [|by intros ->]. intros Heq. rewrite Heq in Hl. congruence.
Qed.

Lemma usage_observation_equal_true l r : usage_observation_equal l r = true <-> l = r.
Proof. destruct l, r; cbn; rewrite ?same_true; naive_solver. Qed.

(** The values of an event that its equality compares faithfully: structural
    equality for agent events, printed text for Forum arguments. *)
Definition comparable_event (event : OutboundEvent.t) : Prop :=
  match event with
  | OutboundEvent.AgentEvent event => Forall canonical (event_values event)
  | OutboundEvent.ForumToolCall _ _ args => reads_back args
  | _ => True
  end.

Definition comparable_observation (observation : PeerObservation.t) : Prop :=
  match observation with
  | PeerObservation.ForumToolCall _ _ _ args => reads_back args
  | _ => True
  end.

(** The equalities of boundary events, of peer observations and of Forum
    results are Leibniz equality wherever the JSON library reads back what it
    prints for the Forum values (and the agent events' values are canonical):
    same constructor, same fields, nothing ignored. *)
Theorem boundary_equality_decides (l r : OutboundEvent.t) (o p : PeerObservation.t)
    (a b : ForumToolResultPayload.t)
    (Hl : comparable_event l) (Hr : comparable_event r)
    (Ho : comparable_observation o) (Hp : comparable_observation p)
    (Ha : reads_back (ForumToolResultPayload.result a))
    (Hb : reads_back (ForumToolResultPayload.result b)) :
  (outbound_event_equal l r = true <-> l = r) /\
  (peer_observation_equal o p = true <-> o = p) /\
  (forum_tool_result_equal a b = true <-> a = b).
Proof.
  split; [|split].
  - destruct l, r; cbn [outbound_event_equal comparable_event] in *; try (by split);
      rewrite ?andb_true_iff, ?same_true, ?usage_observation_equal_true,
        ?json_values_equal_true, ?agent_event_equal_true by done; naive_solver.
  - destruct o, p; cbn [peer_observation_equal comparable_observation] in *; try (by split);
      rewrite ?andb_true_iff, ?same_true; [naive_solver..| |naive_solver].
    rewrite (json_values_equal_true args args0 Ho Hp). naive_solver.
  - unfold forum_tool_result_equal. rewrite !andb_true_iff, !same_true.
    rewrite json_values_equal_true by done. destruct a, b; cbn. naive_solver.
Qed.
End WithJson.

Lemma boundary_equality_decides_witness :
  let call := ClosedString "call-1" : ToolCallIdentity in
  let turn := ClosedString "turn-1" : CorrelationIdentity in
  let args n := json_object [("first_message_ordinal", json_u64 n)] in
  let event n := OutboundEvent.ForumToolCall call ForumToolName.SocietyForumRead (args n) in
  let fact n :=
    PeerObservation.ForumToolCall turn call ForumToolName.SocietyForumRead (args n) in
  let payload n := ForumToolResultPayload.new call (args n) false in
  (outbound_event_equal (event 1) (event 2) = true <-> event 1 = event 2) /\
  (peer_observation_equal (fact 1) (fact 2) = true <-> fact 1 = fact 2) /\
  (forum_tool_result_equal (payload 1) (payload 2) = true <-> payload 1 = payload 2).
Proof.
  cbn zeta. apply boundary_equality_decides; vm_compute; reflexivity.
Defined.
