(* ===== verification/PiPeerStep.v ===== *)
(** * The accepted steps of the boundary peer

    The methods of [BoundaryPeer] inverted: what must hold of the state for a
    call to return [Ok], and the state it leaves.  [command_step] and
    [event_step] are the step relations of accepted commands and host events,
    one constructor per way a frame is accepted; [admit_inbound_sound] and
    [observe_outbound_sound] show that every accepted call is such a step, so
    that the properties of the peer are proved by cases on the relations. *)

From S2P Require Import Prelude Hash Json PiText PiWire PiForum PiTypes PiScanner PiDecode.
From S2P Require Import PiCost.
From S2P Require Import PiPeer.

(** ** Inverting the combinators of the peer *)

Lemma fence_fail_not_ok {A} e p (a : A) p' : fence_fail e p = (Ok a, p') -> False.
Proof. done. Qed.

Lemma fence_if_ok c e p a p' : fence_if c e p = (Ok a, p') -> c = false /\ p' = p.
Proof. unfold fence_if, m_when. destruct c; [done|]. by intros [= _ ->]. Qed.

Lemma fail_if_ok c e p a p' : fail_if c e p = (Ok a, p') -> c = false /\ p' = p.
Proof. unfold fail_if, m_when. destruct c; [done|]. by intros [= _ ->]. Qed.

Lemma some_or_fence_ok {A} (o : option A) e p a p' :
  some_or_fence o e p = (Ok a, p') -> o = Some a /\ p' = p.
Proof. destruct o; [|done]. by intros [= -> ->]. Qed.

Lemma some_or_fail_ok {A} (o : option A) e p a p' :
  some_or_fail o e p = (Ok a, p') -> o = Some a /\ p' = p.
Proof. destruct o; [|done]. by intros [= -> ->]. Qed.

Lemma protocol_ok {A} (r : protocol_result A) p a p' :
  m_protocol r p = (Ok a, p') -> r = Ok a /\ p' = p.
Proof. unfold m_protocol. destruct r; [|done]. by intros [= -> ->]. Qed.

Lemma protocol_or_fence_ok {A} (r : protocol_result A) p a p' :
  protocol_or_fence r p = (Ok a, p') -> r = Ok a /\ p' = p.
Proof. destruct r; [|done]. by intros [= -> ->]. Qed.

(** An accepted call, step by step. *)
Ltac accepted H :=
  lazymatch type of H with
  | m_bind _ _ _ = (Ok _, _) =>
      let H1 := fresh "Hstep" in
      apply bind_ok in H as (? & ? & H1 & H); accepted H1; accepted H
  | m_ret _ _ = _ => apply ret_ok in H as [? ?]; subst
  | m_get _ = _ => apply get_ok in H as [? ?]; subst
  | m_modify _ _ = _ => apply modify_ok in H; subst
  | m_lift _ _ = _ => apply lift_ok in H as [H ?]; subst
  | m_fail _ _ = _ => by apply fail_not_ok in H
  | fence_fail _ _ = _ => by apply fence_fail_not_ok in H
  | fence _ = _ => apply modify_ok in H; subst
  | fence_if _ _ _ = _ => apply fence_if_ok in H as [H ?]; subst
  | fail_if _ _ _ = _ => apply fail_if_ok in H as [H ?]; subst
  | some_or_fence _ _ _ = _ => apply some_or_fence_ok in H as [H ?]; subst
  | some_or_fail _ _ _ = _ => apply some_or_fail_ok in H as [H ?]; subst
  | m_protocol _ _ = _ => apply protocol_ok in H as [H ?]; subst
  | protocol_or_fence _ _ = _ => apply protocol_or_fence_ok in H as [H ?]; subst
  | m_when ?c _ _ = _ =>
      let E := fresh "Hwhen" in
      destruct c eqn:E; cbn [m_when] in H; accepted H
  | (if ?c then _ else _) _ = _ =>
      let E := fresh "Hif" in destruct c eqn:E; accepted H
  | (match ?c with _ => _ end) _ = _ =>
      let E := fresh "Hcase" in destruct c eqn:E; accepted H
  | (let _ := _ in _) _ = _ => cbv zeta in H; accepted H
  | (fun _ => _) _ = _ => cbv beta in H; accepted H
  | _ => idtac
  end.

(** Turns the boolean guards of the context into propositions. *)
Lemma bool_decide_is_Some_false {A} (o : option A) : bool_decide (is_Some o) = false <-> o = None.
Proof. rewrite bool_decide_eq_false. by rewrite eq_None_not_Some. Qed.

Ltac guards :=
  repeat match goal with
  | H : bool_decide (is_Some _) = false |- _ => apply bool_decide_is_Some_false in H
  | H : _ || _ = false |- _ => apply orb_false_iff in H as [? ?]
  | H : _ && _ = true |- _ => apply andb_true_iff in H as [? ?]
  | H : negb _ = false |- _ => apply negb_false_iff in H
  | H : negb _ = true |- _ => apply negb_true_iff in H
  | H : bool_decide _ = true |- _ => apply bool_decide_eq_true in H
  | H : bool_decide _ = false |- _ => apply bool_decide_eq_false in H
  | H : (_ =? _) = true |- _ => apply Z.eqb_eq in H
  | u : unit |- _ => destruct u
  end.

Section Steps.
Context `{Blake3} `{JsonLibrary}.
Import BoundaryPeer.

(** ** Accepted commands *)

Inductive command_step (correlation : CorrelationIdentity) (p : BoundaryPeer.t) :
  InboundCommand.t -> BoundaryPeer.t -> Prop :=
| step_create payload :
    adapter_ready_seen p = true -> phase p = PeerPhase.Inert ->
    create p = None -> create_candidate p = None ->
    profile_drifts payload = false ->
    ModelCatalogPolicyV1.assert_pinned (CreateSessionPayload.model_catalog payload) = Ok () ->
    ActorModelPolicyV1.assert_pinned (CreateSessionPayload.settings payload) = Ok () ->
    ForumSessionContractV1.assert_pinned (CreateSessionPayload.forum_contract payload) = Ok () ->
    command_step correlation p (InboundCommand.CreateSession payload)
      (p <| create_candidate := Some (correlation, payload) |>)
| step_prompt payload c :
    create p = Some c -> phase p = PeerPhase.Ready ->
    active_turn p = None -> pending_prompt p = None ->
    purpose_matches (CreateSessionPayload.session_kind c) (PromptPayload.purpose payload) = true ->
    (CreateSessionPayload.session_kind c = SessionKind.TaskAttempt ->
     task_attempt_prompt_admitted p = false) ->
    command_step correlation p (InboundCommand.Prompt payload)
      (p <| task_attempt_prompt_admitted ::=
              orb (bool_decide (CreateSessionPayload.session_kind c = SessionKind.TaskAttempt)) |>
         <| prompt_candidates ::=
              <[correlation := digest (bytes (PromptPayload.text payload))]> |>
         <| pending_prompt := Some (PendingPrompt.new correlation false) |>)
| step_office_input turn command :
    match command with
    | InboundCommand.FollowUp _ | InboundCommand.Steer _ => True
    | _ => False
    end ->
    phase p = PeerPhase.Ready -> active_turn p = Some turn ->
    attempt_in_progress (ActiveTurn.evidence_phase turn) = true ->
    CreateSessionPayload.session_kind <$> create p = Some SessionKind.RootAuthorityOffice ->
    command_step correlation p command p
| step_forum_result payload turn :
    phase p = PeerPhase.Ready -> active_turn p = Some turn ->
    ForumToolResultPayload.tool_call_identity payload ∈ pending_forum_tool_calls p ->
    command_step correlation p (InboundCommand.ForumToolResult payload)
      (p <| pending_forum_tool_calls ::= fun s =>
              s ∖ {[ ForumToolResultPayload.tool_call_identity payload ]} |>)
| step_abort_turn payload turn :
    phase p = PeerPhase.Ready -> active_turn p = Some turn ->
    command_step correlation p (InboundCommand.Abort payload)
      (p <| active_turn :=
              Some (turn <| ActiveTurn.abort_intent_admitted ::=
                      orb (attempt_not_ended (ActiveTurn.evidence_phase turn)) |>) |>)
| step_abort_prompt payload prompt :
    phase p = PeerPhase.Ready -> active_turn p = None -> pending_prompt p = Some prompt ->
    command_step correlation p (InboundCommand.Abort payload)
      (p <| pending_prompt :=
              Some (prompt <| PendingPrompt.abort_intent_admitted := true |>) |>)
| step_abort_idle payload :
    phase p = PeerPhase.Ready -> active_turn p = None -> pending_prompt p = None ->
    command_step correlation p (InboundCommand.Abort payload) p
| step_get_state :
    phase p = PeerPhase.Ready -> command_step correlation p InboundCommand.GetState p
| step_dispose payload :
    phase p = PeerPhase.Ready -> pending_prompt p = None -> active_turn p = None ->
    command_step correlation p (InboundCommand.Dispose payload)
      (p <| pending_dispose := Some (PendingDispose.new correlation) |>).

Lemma command_step_eq correlation p command p1 p2 :
  command_step correlation p command p1 -> p1 = p2 -> command_step correlation p command p2.
Proof. by intros ? <-. Qed.

(** A record update that writes back what was there. *)
Lemma abort_turn_same (turn : ActiveTurn.t) :
  attempt_not_ended (ActiveTurn.evidence_phase turn) = false ->
  turn <| ActiveTurn.abort_intent_admitted ::=
            orb (attempt_not_ended (ActiveTurn.evidence_phase turn)) |> = turn.
Proof. intros E. destruct turn. cbn in *. by rewrite E. Qed.

Lemma active_turn_same (p : BoundaryPeer.t) turn :
  active_turn p = Some turn -> p <| active_turn := Some turn |> = p.
Proof. destruct p. cbn. by intros ->. Qed.

Definition inbound_guard (frame : InboundFrame.t) (p : BoundaryPeer.t) : Prop :=
  phase p <> PeerPhase.Fatal
  /\ InboundFrame.session_identity frame = session_identity p
  /\ BoundarySequence.value (InboundFrame.sequence frame) = expected_inbound_sequence p
  /\ pending_commands p !! InboundFrame.correlation_identity frame = None
  /\ InboundFrame.correlation_identity frame ∉ completed_correlations p
  /\ pending_dispose p = None.

(** The pending entry of an admitted command. *)
Definition register (frame : InboundFrame.t) (p : BoundaryPeer.t) : BoundaryPeer.t :=
  p <| pending_commands ::=
         <[InboundFrame.correlation_identity frame :=
             PendingCommand.new (InboundCommand.name (InboundFrame.command frame))
               false false]> |>.

Definition next_inbound (p : BoundaryPeer.t) : BoundaryPeer.t :=
  p <| expected_inbound_sequence ::= Z.succ |>.

Lemma fence_on_error_ok {A} (m : method BoundaryPeer.t PeerError.t A) p a p' :
  fence_on_error m p = (Ok a, p') -> m p = (Ok a, p').
Proof. unfold fence_on_error. by destruct (m p) as [[|] ?]. Qed.

Lemma validated_command_step frame p p1 p2 u v :
  validate_command_admission frame p = (Ok u, p1) ->
  record_command frame p1 = (Ok v, p2) ->
  pending_dispose p = None
  /\ command_step (InboundFrame.correlation_identity frame) p (InboundFrame.command frame) p2.
Proof.
  intros Hv Hr. unfold validate_command_admission in Hv. 
  apply bind_ok in Hv as (? & ? & Hget & Hv). apply get_ok in Hget as [-> ->].
  apply bind_ok in Hv as (? & ? & Hdisp & Hv). apply fail_if_ok in Hdisp as [Hdisp ->].
  guards. split; [done|]. unfold record_command in Hr.
  destruct (InboundFrame.command frame) as [payload|payload|payload|payload|payload| |payload|payload].
  - unfold validate_create_session in Hv. accepted Hv. accepted Hr. guards.
    by apply step_create.
  - unfold validate_prompt in Hv. accepted Hv; accepted Hr; guards.
    + eapply command_step_eq; [by eapply step_prompt|].
      by rewrite bool_decide_eq_true_2 by done.
    + eapply command_step_eq; [by eapply step_prompt|].
      rewrite bool_decide_eq_false_2 by done. by destruct p.
  - unfold validate_follow_up_or_steer in Hv. accepted Hv. accepted Hr. guards.
    destruct (active_turn p) as [turn|] eqn:E; [|done]. by eapply step_office_input.
  - unfold validate_follow_up_or_steer in Hv. accepted Hv. accepted Hr. guards.
    destruct (active_turn p) as [turn|] eqn:E; [|done]. by eapply step_office_input.
  - accepted Hv. accepted Hr; guards; cbn [m_when] in *.
    + eapply command_step_eq; [by eapply step_abort_turn|]. cbn. by rewrite Hwhen.
    + eapply command_step_eq; [by eapply step_abort_turn|].
      rewrite abort_turn_same by done. by apply active_turn_same.
    + by eapply step_abort_prompt.
    + by eapply step_abort_idle.
  - accepted Hv. accepted Hr. guards. by apply step_get_state.
  - accepted Hv. accepted Hr. guards. by apply step_dispose.
  - unfold validate_forum_tool_result in Hv. accepted Hv. accepted Hr. guards.
    match goal with H : is_Some (active_turn _) |- _ => destruct H as [turn Hturn] end.
    by eapply step_forum_result.
Qed.

Lemma admit_inbound_sound frame p u p' :
  admit_inbound frame p = (Ok u, p') ->
  exists p2,
    inbound_guard frame p
    /\ command_step (InboundFrame.correlation_identity frame) (next_inbound p)
         (InboundFrame.command frame) p2
    /\ p' = register frame p2.
Proof.
  intros H1. apply fence_on_error_ok in H1. unfold admit_inbound_inner in H1.
  accepted H1. guards.
  match goal with
  | Hv : validate_command_admission _ _ = _, Hr : record_command _ _ = _ |- _ =>
      destruct (validated_command_step _ _ _ _ _ _ Hv Hr) as [Hd Hs] end.
  eexists. split; [|split; [exact Hs|done]]. by repeat split.
Qed.

(** ** Accepted host events *)

(** The pending entry after its result. *)
Definition seen (c : CorrelationIdentity) (name : CommandName.t) (ok : bool)
    (p : BoundaryPeer.t) : BoundaryPeer.t :=
  p <| pending_commands ::= <[c := PendingCommand.new name true ok]> |>
    <| completed_correlations ::= union {[ c ]} |>.

(** What the result of command [name], accepted or not, does to the session. *)
Inductive result_step (sequence : Z) (c : CorrelationIdentity) (p : BoundaryPeer.t) :
  CommandName.t -> bool -> BoundaryPeer.t -> Prop :=
| result_create payload :
    create_candidate p = Some (c, payload) ->
    result_step sequence c p CommandName.CreateSession true
      (p <| create_candidate := None |> <| create := Some payload |>
         <| phase := PeerPhase.Creating |>)
| result_prompt prompt :
    pending_prompt p = Some prompt -> PendingPrompt.correlation prompt = c ->
    result_step sequence c p CommandName.Prompt true
      (p <| pending_prompt := None |>
         <| first_prompt_digest ::=
              fun first => match first with
                           | Some d => Some d
                           | None => prompt_candidates p !! c
                           end |>
         <| active_turn :=
              Some (ActiveTurn.new c TurnEvidencePhase.AwaitingAgentStart None
                      (PendingPrompt.abort_intent_admitted prompt)) |>)
| result_dispose :
    pending_dispose p = Some (PendingDispose.new c) ->
    result_step sequence c p CommandName.Dispose true
      (p <| phase := PeerPhase.Closing |>
         <| active_dispose := Some (ActiveDispose.new c sequence None) |>
         <| pending_dispose := None |>)
| result_prompt_rejected prompt :
    pending_prompt p = Some prompt -> PendingPrompt.correlation prompt = c ->
    result_step sequence c p CommandName.Prompt false (p <| pending_prompt := None |>)
| result_other name ok :
    match name, ok with
    | CommandName.Prompt, _ | CommandName.Dispose, _ | CommandName.CreateSession, true => False
    | _, _ => True
    end ->
    result_step sequence c p name ok p.

(** The effect of a known snapshot on the dispose chain and on the turn. *)
Definition dispose_usage (sequence : Z) (c : CorrelationIdentity) (name : CommandName.t)
    (p : BoundaryPeer.t) (after : option ActiveDispose.t) : Prop :=
  match active_dispose p with
  | None => after = None
  | Some d =>
      phase p = PeerPhase.Closing /\ c = ActiveDispose.correlation d
      /\ name = CommandName.Dispose /\ ActiveDispose.final_usage_sequence d = None
      /\ is_next (ActiveDispose.accepted_sequence d) sequence = true
      /\ after = Some (d <| ActiveDispose.final_usage_sequence := Some sequence |>)
  end.

Definition prompt_usage (sequence : Z) (c : CorrelationIdentity) (p : BoundaryPeer.t)
    (after : option ActiveTurn.t) : Prop :=
  match active_turn p with
  | None => after = None
  | Some turn =>
      if bool_decide (c = ActiveTurn.correlation turn) then
        exists evidence,
          usage_evidence (ActiveTurn.evidence_phase turn) sequence = Ok evidence
          /\ after = Some (turn <| ActiveTurn.evidence_phase := evidence |>
                                <| ActiveTurn.latest_prompt_usage_sequence := Some sequence |>)
      else after = Some turn
  end.

(** When a snapshot may be reported for [c]. *)
Definition usage_guard (c : CorrelationIdentity) (command : PendingCommand.t)
    (p : BoundaryPeer.t) : Prop :=
  pending_commands p !! c = Some command
  /\ PendingCommand.result_seen command = true
  /\ PendingCommand.accepted command = true
  /\ usage_admits (bool_decide (is_Some (active_turn p))) (PendingCommand.name command) = true.

(** When a turn may settle, and the receipt it gives. *)
Definition settles (sequence : Z) (turn : ActiveTurn.t)
    (classification : SettledClassification.t) (outcome : FinalAssistantOutcome.t)
    (receipt : TurnReceipt.t) : Prop :=
  classify classification outcome (ActiveTurn.abort_intent_admitted turn)
    = Some (TurnReceipt.disposition receipt)
  /\ TurnReceipt.correlation_identity receipt = ActiveTurn.correlation turn
  /\ TurnReceipt.final_assistant_outcome receipt = outcome
  /\ (exists usage, ActiveTurn.latest_prompt_usage_sequence turn = Some usage
                    /\ is_next usage sequence = true)
  /\ (is_observed outcome = true ->
      settled_evidence_is_closed outcome (ActiveTurn.evidence_phase turn) sequence = true).

Inductive event_step (sequence : Z) (correlation : option CorrelationIdentity)
    (p : BoundaryPeer.t) :
  OutboundEvent.t -> option PeerObservation.t -> BoundaryPeer.t -> Prop :=
| event_adapter_ready :
    adapter_ready_seen p = false -> phase p = PeerPhase.AwaitingAdapterReady ->
    RuntimeIdentity.assert_v1 (expected_runtime p) = Ok () ->
    event_step sequence correlation p
      (OutboundEvent.AdapterReady (expected_process_id p) (expected_spawn_nonce p)
         (expected_runtime p)) None
      (p <| adapter_ready_seen := true |> <| phase := PeerPhase.Inert |>)
| event_session_ready c command payload configuration :
    correlation = Some c -> pending_commands p !! c = Some command ->
    PendingCommand.name command = CommandName.CreateSession ->
    PendingCommand.result_seen command = true -> phase p = PeerPhase.Creating ->
    create p = Some payload ->
    EffectiveSessionConfiguration.assert_pinned configuration = Ok () ->
    configuration_drifts configuration payload = false ->
    event_step sequence correlation p (OutboundEvent.SessionReady configuration) None
      (p <| BoundaryPeer.configuration := Some configuration |> <| phase := PeerPhase.Ready |>)
| event_result c command r p' :
    correlation = Some c -> pending_commands p !! c = Some command ->
    PendingCommand.result_seen command = false ->
    PendingCommand.name command = result_command r ->
    result_step sequence c (seen c (result_command r) (result_accepted r) p)
      (result_command r) (result_accepted r) p' ->
    event_step sequence correlation p (OutboundEvent.CommandResult r) None p'
| event_agent_turn turn event evidence :
    active_turn p = Some turn -> correlation = Some (ActiveTurn.correlation turn) ->
    phase p = PeerPhase.Ready \/ phase p = PeerPhase.Closing ->
    observe_turn_evidence (ActiveTurn.evidence_phase turn) event sequence = Ok evidence ->
    event_step sequence correlation p (OutboundEvent.AgentEvent event) None
      (p <| active_turn := Some (turn <| ActiveTurn.evidence_phase := evidence |>) |>)
| event_agent_idle event :
    active_turn p = None -> correlation = None ->
    phase p = PeerPhase.Ready \/ phase p = PeerPhase.Closing ->
    event_step sequence correlation p (OutboundEvent.AgentEvent event) None p
| event_forum_call turn call tool_name args :
    active_turn p = Some turn -> correlation = Some (ActiveTurn.correlation turn) ->
    has_forum_profile p = true -> call ∉ pending_forum_tool_calls p ->
    event_step sequence correlation p (OutboundEvent.ForumToolCall call tool_name args)
      (Some (PeerObservation.ForumToolCall (ActiveTurn.correlation turn) call tool_name args))
      (p <| pending_forum_tool_calls ::= union {[ call ]} |>)
| event_usage_unavailable c command reason :
    correlation = Some c -> usage_guard c command p ->
    event_step sequence correlation p
      (OutboundEvent.UsageSnapshot (UsageObservation.Unavailable reason))
      (Some (PeerObservation.UsageUnavailable reason)) (fenced p)
| event_usage c command totals delta tracker dispose turn :
    correlation = Some c -> usage_guard c command p ->
    UsageTracker.observe (UsageObservation.Known totals) (usage p) = (Ok delta, tracker) ->
    dispose_usage sequence c (PendingCommand.name command) p dispose ->
    prompt_usage sequence c p turn ->
    event_step sequence correlation p
      (OutboundEvent.UsageSnapshot (UsageObservation.Known totals))
      (PeerObservation.Usage <$> delta)
      (p <| usage := tracker |> <| active_dispose := dispose |> <| active_turn := turn |>)
| event_settled turn classification outcome receipt :
    active_turn p = Some turn -> correlation = Some (ActiveTurn.correlation turn) ->
    settles sequence turn classification outcome receipt ->
    event_step sequence correlation p (OutboundEvent.Settled classification outcome)
      (Some (PeerObservation.TurnSettled receipt))
      (let settled :=
         p <| settled_turns ::= fun l => l ++ [receipt] |> <| active_turn := None |> in
       if bool_decide (TurnReceipt.disposition receipt = TurnDisposition.ProtocolFailed)
       then fenced settled else settled)
| event_disposed c command dispose usage payload configuration receipt :
    correlation = Some c -> pending_commands p !! c = Some command ->
    PendingCommand.name command = CommandName.Dispose ->
    PendingCommand.result_seen command = true -> PendingCommand.accepted command = true ->
    phase p = PeerPhase.Closing -> active_turn p = None ->
    active_dispose p = Some dispose -> ActiveDispose.correlation dispose = c ->
    ActiveDispose.final_usage_sequence dispose = Some usage -> is_next usage sequence = true ->
    create p = Some payload -> BoundaryPeer.configuration p = Some configuration ->
    receipt_mismatch p payload configuration receipt = false ->
    event_step sequence correlation p (OutboundEvent.Disposed receipt)
      (Some PeerObservation.Disposed)
      (p <| active_dispose := None |> <| phase := PeerPhase.Disposed |>)
| event_fatal failure_code :
    fatal_frame_seen p = false ->
    event_step sequence correlation p (OutboundEvent.Fatal failure_code)
      (Some (PeerObservation.Fatal failure_code))
      (fenced (p <| fatal_frame_seen := true |>)).

Definition outbound_guard (frame : OutboundFrame.t) (p : BoundaryPeer.t) : Prop :=
  (phase p = PeerPhase.Fatal -> is_fatal_event (OutboundFrame.event frame) = true)
  /\ OutboundFrame.session_identity frame = session_identity p
  /\ BoundarySequence.value (OutboundFrame.sequence frame) = expected_outbound_sequence p.

Definition next_outbound (p : BoundaryPeer.t) : BoundaryPeer.t :=
  p <| expected_outbound_sequence ::= Z.succ |>.

Lemma event_step_eq n c p e o p1 p2 :
  event_step n c p e o p1 -> p1 = p2 -> event_step n c p e o p2.
Proof. by intros ? <-. Qed.

Lemma adapter_ready_step n c pid nonce runtime p u p' :
  observe_adapter_ready pid nonce runtime p = (Ok u, p') ->
  event_step n c p (OutboundEvent.AdapterReady pid nonce runtime) None p'.
Proof.
  intros Hr. unfold observe_adapter_ready in Hr. accepted Hr. guards. subst.
  by apply event_adapter_ready.
Qed.

Lemma session_ready_step n c configuration p u p' :
  observe_session_ready c configuration p = (Ok u, p') ->
  event_step n c p (OutboundEvent.SessionReady configuration) None p'.
Proof.
  intros Hr. unfold observe_session_ready in Hr. accepted Hr. guards.
  by eapply event_session_ready.
Qed.

Lemma result_step_eq n c p name ok p1 p2 :
  result_step n c p name ok p1 -> p1 = p2 -> result_step n c p name ok p2.
Proof. by intros ? <-. Qed.

Lemma accept_result_step n c name p u p1 :
  name <> CommandName.Dispose ->
  accept_result n c name p = (Ok u, p1) -> result_step n c p name true p1.
Proof.
  intros Hne Hr. destruct name; cbn in Hr; try done; accepted Hr; guards; subst;
    try by apply result_other.
  - match goal with x : (_ * _)%type |- _ => destruct x; cbn in *; subst end.
    by apply result_create.
  - eapply result_step_eq; [by eapply result_prompt|]. destruct p. cbn in *.
    by destruct first_prompt_digest0.
  - eapply result_step_eq; [by eapply result_prompt|]. destruct p. cbn in *.
    by destruct first_prompt_digest0.
Qed.

Lemma result_effects_step n c name ok p u p' :
  (m_when ok (accept_result n c name) ;!
   m_when (negb ok && bool_decide (name = CommandName.Prompt)) (take_rejected_prompt c) ;!
   m_when (ok && bool_decide (name = CommandName.Dispose)) (take_accepted_dispose c) ;!
   fail_if (negb ok && bool_decide (name = CommandName.Dispose)) PeerError.InvalidTransition) p
  = (Ok u, p') ->
  result_step n c p name ok p'.
Proof.
  intros Hr. destruct (decide (name = CommandName.Dispose)) as [->|Hne].
  - change (bool_decide (CommandName.Dispose = CommandName.Prompt)) with false in Hr.
    change (bool_decide (CommandName.Dispose = CommandName.Dispose)) with true in Hr.
    destruct ok; cbn [negb andb m_when accept_result] in Hr; [|by accepted Hr].
    unfold take_accepted_dispose in Hr. accepted Hr. guards. subst. cbn in *.
    match goal with d : PendingDispose.t |- _ => destruct d; cbn in * end.
    eapply result_step_eq; [by apply result_dispose|done].
  - rewrite (bool_decide_eq_false_2 (name = CommandName.Dispose)), !andb_false_r in Hr by done.
    destruct ok; cbn [negb andb m_when] in Hr.
    + apply bind_ok in Hr as (? & ? & Ha & Hr). accepted Hr.
      by eapply accept_result_step.
    + destruct (decide (name = CommandName.Prompt)) as [->|Hp].
      * change (bool_decide (CommandName.Prompt = CommandName.Prompt)) with true in Hr.
        cbn [m_when] in Hr. unfold take_rejected_prompt in Hr. accepted Hr. guards.
        by eapply result_prompt_rejected.
      * rewrite bool_decide_eq_false_2 in Hr by done. cbn [m_when] in Hr. accepted Hr.
        apply result_other. by destruct name.
Qed.

Lemma command_result_step n c r p u p' :
  observe_command_result n c r p = (Ok u, p') ->
  event_step n c p (OutboundEvent.CommandResult r) None p'.
Proof.
  intros Hr. unfold observe_command_result in Hr.
  do 5 (let Hs := fresh "Hs" in apply bind_ok in Hr as (? & ? & Hs & Hr); accepted Hs).
  cbv zeta in Hr. apply bind_ok in Hr as (? & ? & Hm & Hr). accepted Hm. guards.
  apply result_effects_step in Hr. subst.
  match goal with H : PendingCommand.name _ = _ |- _ => rewrite H in Hr end.
  by eapply event_result.
Qed.

Lemma agent_event_step n c event p u p' :
  observe_agent_event n c event p = (Ok u, p') ->
  event_step n c p (OutboundEvent.AgentEvent event) None p'.
Proof.
  intros Hr. unfold observe_agent_event in Hr. accepted Hr; guards;
    match goal with H : _ || _ = true |- _ =>
      apply orb_true_iff in H; rewrite !bool_decide_eq_true in H end.
  - by eapply event_agent_turn.
  - by apply event_agent_idle.
Qed.

Lemma forum_tool_call_step n c call name args p u p' :
  observe_forum_tool_call (Some c) call p = (Ok u, p') ->
  event_step n (Some c) p (OutboundEvent.ForumToolCall call name args)
    (Some (PeerObservation.ForumToolCall c call name args)) p'.
Proof.
  intros Hr. unfold observe_forum_tool_call in Hr. accepted Hr. guards.
  match goal with H : Some _ = Some _ |- _ => injection H as -> end.
  by eapply event_forum_call.
Qed.

Lemma check_dispose_usage_ok n c name p b p' :
  check_dispose_usage n c name p = (Ok b, p') ->
  p' = p /\ b = bool_decide (is_Some (active_dispose p))
  /\ forall d, active_dispose p = Some d ->
       dispose_usage n c name p (Some (d <| ActiveDispose.final_usage_sequence := Some n |>)).
Proof.
  intros Hr. unfold check_dispose_usage in Hr. accepted Hr; guards.
  - split; [done|]. split; [done|]. intros d' [= <-].
    unfold dispose_usage. rewrite Hcase. by split_and!.
  - done.
Qed.

Lemma track_usage_ok o p delta p' :
  track_usage o p = (Ok delta, p') ->
  exists tracker, UsageTracker.observe o (usage p) = (Ok delta, tracker)
                  /\ p' = p <| usage := tracker |>.
Proof.
  intros Hr. unfold track_usage in Hr. accepted Hr.
  destruct (UsageTracker.observe o (usage p)) as [r tracker]. cbn in *. subst.
  by exists tracker.
Qed.

Lemma record_dispose_usage_ok n p u p' :
  record_dispose_usage n p = (Ok u, p') ->
  exists d, active_dispose p = Some d
            /\ p' = p <| active_dispose :=
                            Some (d <| ActiveDispose.final_usage_sequence := Some n |>) |>.
Proof. intros Hr. unfold record_dispose_usage in Hr. accepted Hr. by eexists. Qed.

Lemma record_prompt_usage_ok n c p u p' :
  record_prompt_usage n c p = (Ok u, p') ->
  exists after, prompt_usage n c p after /\ p' = p <| active_turn := after |>.
Proof.
  intros Hr. unfold record_prompt_usage in Hr. accepted Hr; unfold prompt_usage; rewrite Hcase.
  - rewrite Hwhen. by eauto.
  - rewrite Hwhen. eexists. split; [done|]. by destruct p.
  - eexists. split; [done|]. destruct p. cbn in *. by subst.
Qed.

Lemma prompt_usage_other n c p after tracker dispose :
  prompt_usage n c (p <| usage := tracker |> <| active_dispose := dispose |>) after ->
  prompt_usage n c p after.
Proof. done. Qed.

Lemma usage_step n c observation p o p' :
  observe_usage n c observation p = (Ok o, p') ->
  event_step n c p (OutboundEvent.UsageSnapshot observation) o p'.
Proof.
  intros Hr. unfold observe_usage in Hr.
  do 4 (let Hs := fresh "Hs" in apply bind_ok in Hr as (? & ? & Hs & Hr); accepted Hs).
  cbv zeta in Hr. apply bind_ok in Hr as (? & ? & Hd & Hr).
  apply check_dispose_usage_ok in Hd as (-> & -> & Hd).
  apply bind_ok in Hr as (? & ? & Ha & Hr). accepted Ha. guards.
  destruct observation as [totals|reason].
  2: { accepted Hr. by eapply event_usage_unavailable. }
  apply bind_ok in Hr as (delta & p1 & Ht & Hr).
  apply track_usage_ok in Ht as (tracker & Ht & ->).
  apply bind_ok in Hr as (? & p2 & Hdisp & Hr). apply bind_ok in Hr as (? & p3 & Hp & Hr).
  accepted Hr.
  assert (exists dispose, dispose_usage n x (PendingCommand.name x0) p dispose
    /\ p2 = p <| usage := tracker |> <| active_dispose := dispose |>) as (dispose & Hdu & ->).
  { destruct (active_dispose p) as [d|] eqn:Ed.
    - rewrite bool_decide_eq_true_2 in Hdisp by eauto. cbn [m_when] in Hdisp.
      apply record_dispose_usage_ok in Hdisp as (d' & Hd' & ->). cbn in Hd'.
      rewrite Ed in Hd'. injection Hd' as <-. eauto.
    - rewrite bool_decide_eq_false_2 in Hdisp by (by intros [? ?]). cbn [m_when] in Hdisp.
      accepted Hdisp. exists None. split; [unfold dispose_usage; by rewrite Ed|].
      destruct p. cbn in *. by subst. }
  apply record_prompt_usage_ok in Hp as (turn & Hpu & ->).
  apply prompt_usage_other in Hpu. by eapply event_usage.
Qed.

Lemma settles_intro n turn classification outcome disposition :
  classify classification outcome (ActiveTurn.abort_intent_admitted turn) = Some disposition ->
  let adjacent := match ActiveTurn.latest_prompt_usage_sequence turn with
                  | Some usage => is_next usage n
                  | None => false
                  end in
  is_observed outcome
    && (negb (settled_evidence_is_closed outcome (ActiveTurn.evidence_phase turn) n)
        || negb adjacent) = false ->
  negb (is_observed outcome) && negb adjacent = false ->
  settles n turn classification outcome
    (TurnReceipt.new (ActiveTurn.correlation turn) disposition outcome).
Proof.
  intros Hc adjacent H1 H2. assert (adjacent = true) as Hadj.
  { destruct (is_observed outcome), adjacent; try done. by rewrite orb_true_r in H1. }
  split_and!; try done.
  - subst adjacent. destruct (ActiveTurn.latest_prompt_usage_sequence turn); [by eauto|done].
  - intros Ho. rewrite Ho, Hadj, orb_false_r in H1. by apply negb_false_iff in H1.
Qed.

Lemma settled_step n c classification outcome p receipt p' :
  observe_settled n c classification outcome p = (Ok receipt, p') ->
  event_step n c p (OutboundEvent.Settled classification outcome)
    (Some (PeerObservation.TurnSettled receipt)) p'.
Proof.
  intros Hr. unfold observe_settled in Hr. accepted Hr; guards; subst;
    (eapply event_step_eq;
      [eapply event_settled; [done|done|by apply settles_intro] | cbn [TurnReceipt.disposition]]).
  - done.
  - by rewrite bool_decide_eq_false_2 by done.
Qed.

Lemma disposed_step n c receipt p u p' :
  observe_disposed n c receipt p = (Ok u, p') ->
  event_step n c p (OutboundEvent.Disposed receipt) (Some PeerObservation.Disposed) p'.
Proof.
  intros Hr. unfold observe_disposed in Hr. accepted Hr; guards; subst.
  destruct (ActiveDispose.final_usage_sequence _) eqn:E; guards; [|done].
  by eapply event_disposed.
Qed.

Lemma dispatch_event_sound frame p o p' :
  dispatch_event frame p = (Ok o, p') ->
  event_step (BoundarySequence.value (OutboundFrame.sequence frame))
    (OutboundFrame.correlation_identity frame) p (OutboundFrame.event frame) o p'.
Proof.
  unfold dispatch_event. intros Hr.
  destruct (OutboundFrame.event frame) as
    [pid nonce runtime|configuration|r|event|call name args|usage|classification outcome
    |receipt|code].
  - accepted Hr. by eapply adapter_ready_step.
  - accepted Hr. by eapply session_ready_step.
  - accepted Hr. by eapply command_result_step.
  - accepted Hr. by eapply agent_event_step.
  - accepted Hr. match goal with H : _ = Some _ |- _ => rewrite H end.
    by eapply forum_tool_call_step.
  - by apply usage_step.
  - accepted Hr. by eapply settled_step.
  - accepted Hr. by eapply disposed_step.
  - accepted Hr. guards. by apply event_fatal.
Qed.

Lemma observe_outbound_sound frame p o p' :
  observe_outbound frame p = (Ok o, p') ->
  outbound_guard frame p
  /\ event_step (BoundarySequence.value (OutboundFrame.sequence frame))
       (OutboundFrame.correlation_identity frame) (next_outbound p)
       (OutboundFrame.event frame) o p'.
Proof.
  intros Hr. apply fence_on_error_ok in Hr. unfold observe_outbound_inner in Hr.
  do 5 (let Hs := fresh "Hs" in apply bind_ok in Hr as (? & ? & Hs & Hr); accepted Hs).
  guards. apply dispatch_event_sound in Hr. split; [|exact Hr].
  split; [|done]. intros Hf.
  match goal with H : _ && _ = false |- _ => rewrite bool_decide_eq_true_2 in H by done end.
  by destruct (is_fatal_event _).
Qed.
End Steps.
