(* ===== verification/PiPeerLifecycle.v ===== *)
(** * The lifecycle a boundary peer implements

    [Lifecycle] is the abstract specification of [BoundaryPeer]: one sum type for
    the phase together with the operation in flight, and the moves a sent command
    ([sends]) and a received event ([hears]) may make.  [peer_ok] is the
    consistency invariant of the peer's fields, [lifecycle] the abstraction
    function; every accepted exchange of a consistent peer is a move of the
    lifecycle, and [replay] lifts this to whole conversations. *)

From S2P Require Import Prelude Hash Json PiText PiWire PiForum PiTypes PiScanner PiDecode.
From S2P Require Import PiCost.
From S2P Require Import PiPeer PiPeerStep.

(** ** Conversations *)

Module Traffic.
Inductive t := Sent (frame : InboundFrame.t) | Received (frame : OutboundFrame.t).
End Traffic.

Section Conversation.
Context `{Blake3} `{JsonLibrary}.

(** One frame handed to the peer. *)
Definition exchange (t : Traffic.t) :
  method BoundaryPeer.t PeerError.t (option PeerObservation.t) :=
  match t with
  | Traffic.Sent frame => admit_inbound frame ;! m_ret None
  | Traffic.Received frame => observe_outbound frame
  end.

(** A conversation, up to its first error; the observations in order. *)
Fixpoint replay (ts : list Traffic.t) :
  method BoundaryPeer.t PeerError.t (list (option PeerObservation.t)) :=
  match ts with
  | [] => m_ret []
  | t :: ts =>
      let! o := exchange t in
      let! os := replay ts in
      m_ret (o :: os)
  end.

Lemma replay_app ts ts' p os p' :
  replay (ts ++ ts') p = (Ok os, p') <->
  exists os1 os2 p1,
    replay ts p = (Ok os1, p1) /\ replay ts' p1 = (Ok os2, p') /\ os = os1 ++ os2.
Proof.
  revert p os. induction ts as [|t ts IH]; intros p os; cbn.
  - split; [intros Hr; by exists [], os, p|].
    intros (os1 & os2 & p1 & Ho & Hr & ->). accepted Ho. exact Hr.
  - split.
    + intros Hr. accepted Hr.
      match goal with H : replay (ts ++ ts') _ = _ |- _ => apply IH in H end.
      destruct_and?. destruct Hstep0 as (os1 & os2 & p1 & H1 & H2 & ->).
      eexists (_ :: os1), os2, p1. split; [|done].
      unfold m_bind. by rewrite Hstep, H1.
    + intros (os1 & os2 & p1 & Ho & Hr & ->). accepted Ho. unfold m_bind.
      rewrite Hstep. rewrite (proj2 (IH _ (_ ++ os2))) by eauto 6. done.
Qed.

Lemma replay_snoc ts t p os p' :
  replay (ts ++ [t]) p = (Ok os, p') <->
  exists os1 o p1, replay ts p = (Ok os1, p1) /\ exchange t p1 = (Ok o, p') /\ os = os1 ++ [o].
Proof.
  rewrite replay_app. split.
  - intros (os1 & os2 & p1 & Hr & Ho & ->). cbn in Ho. accepted Ho. eauto 7.
  - intros (os1 & o & p1 & Hr & Ho & ->). exists os1, [o], p1. split; [done|].
    cbn. unfold m_bind. by rewrite Ho.
Qed.

(** Induction along an accepted conversation and its observations. *)
Lemma replay_ind_observed
    (P : list Traffic.t -> list (option PeerObservation.t) -> BoundaryPeer.t -> Prop) p0 :
  P [] [] p0 ->
  (forall ts os p t o p', P ts os p -> exchange t p = (Ok o, p') ->
     P (ts ++ [t]) (os ++ [o]) p') ->
  forall ts os p, replay ts p0 = (Ok os, p) -> P ts os p.
Proof.
  intros Hnil Hstep ts. induction ts as [|t ts IH] using rev_ind; intros os p Hr.
  - cbn in Hr. by accepted Hr.
  - apply replay_snoc in Hr as (os1 & o & p1 & Hr & Ho & ->). eauto.
Qed.

Lemma replay_ind (P : list Traffic.t -> BoundaryPeer.t -> Prop) p0 :
  P [] p0 ->
  (forall ts p t o p', P ts p -> exchange t p = (Ok o, p') -> P (ts ++ [t]) p') ->
  forall ts os p, replay ts p0 = (Ok os, p) -> P ts p.
Proof.
  intros Hnil Hstep ts os p. apply (replay_ind_observed (fun ts _ p => P ts p)); eauto.
Qed.
End Conversation.

(** ** The abstract lifecycle *)

Module Lifecycle.
Inductive t :=
| Awaiting
| Inert
| Creating
| Idle
| PromptPending (c : CorrelationIdentity)
| Turn (c : CorrelationIdentity) (evidence : TurnEvidencePhase.t)
| DisposePending (c : CorrelationIdentity)
| Closing (c : CorrelationIdentity) (accepted : Z) (usage : option Z)
| Disposed
| Fatal.

(** States in which Abort and GetState are admitted. *)
Definition controllable (s : t) : Prop :=
  match s with Idle | PromptPending _ | Turn _ _ => True | _ => False end.

(** States whose usage has no turn or dispose chain to update. *)
Definition no_chain (s : t) : Prop :=
  match s with Turn _ _ | Closing _ _ _ => False | _ => True end.

(** States of an open session without a turn. *)
Definition quiet (s : t) : Prop :=
  match s with
  | Idle | PromptPending _ | DisposePending _ | Closing _ _ _ => True
  | _ => False
  end.

(** Results that do not move the session. *)
Definition inert_result (r : CommandResult.t) : Prop :=
  match result_command r, result_accepted r with
  | CommandName.Prompt, _ | CommandName.Dispose, _ | CommandName.CreateSession, true => False
  | _, _ => True
  end.

Inductive sends (c : CorrelationIdentity) : CommandName.t -> t -> t -> Prop :=
| sends_create : sends c CommandName.CreateSession Inert Inert
| sends_prompt : sends c CommandName.Prompt Idle (PromptPending c)
| sends_follow_up d e :
    attempt_in_progress e = true -> sends c CommandName.FollowUp (Turn d e) (Turn d e)
| sends_steer d e :
    attempt_in_progress e = true -> sends c CommandName.Steer (Turn d e) (Turn d e)
| sends_forum_result d e : sends c CommandName.ForumToolResult (Turn d e) (Turn d e)
| sends_abort s : controllable s -> sends c CommandName.Abort s s
| sends_get_state s : controllable s -> sends c CommandName.GetState s s
| sends_dispose : sends c CommandName.Dispose Idle (DisposePending c).

Inductive hears (n : Z) (correlation : option CorrelationIdentity) :
  OutboundEvent.t -> t -> t -> Prop :=
| hears_adapter_ready pid nonce runtime :
    hears n correlation (OutboundEvent.AdapterReady pid nonce runtime) Awaiting Inert
| hears_created detail :
    hears n correlation
      (OutboundEvent.CommandResult (CommandResult.Accepted CommandName.CreateSession detail))
      Inert Creating
| hears_session_ready configuration :
    hears n correlation (OutboundEvent.SessionReady configuration) Creating Idle
| hears_prompt_accepted c detail :
    correlation = Some c ->
    hears n correlation
      (OutboundEvent.CommandResult (CommandResult.Accepted CommandName.Prompt detail))
      (PromptPending c) (Turn c TurnEvidencePhase.AwaitingAgentStart)
| hears_prompt_rejected c code :
    correlation = Some c ->
    hears n correlation
      (OutboundEvent.CommandResult (CommandResult.Rejected CommandName.Prompt code))
      (PromptPending c) Idle
| hears_dispose_accepted c detail :
    correlation = Some c ->
    hears n correlation
      (OutboundEvent.CommandResult (CommandResult.Accepted CommandName.Dispose detail))
      (DisposePending c) (Closing c n None)
| hears_result r s :
    inert_result r -> hears n correlation (OutboundEvent.CommandResult r) s s
| hears_turn_event c event e e' :
    correlation = Some c -> observe_turn_evidence e event n = Ok e' ->
    hears n correlation (OutboundEvent.AgentEvent event) (Turn c e) (Turn c e')
| hears_idle_event event s :
    correlation = None -> quiet s ->
    hears n correlation (OutboundEvent.AgentEvent event) s s
| hears_forum_call c e call name args :
    correlation = Some c ->
    hears n correlation (OutboundEvent.ForumToolCall call name args) (Turn c e) (Turn c e)
| hears_turn_usage c totals e e' :
    correlation = Some c -> usage_evidence e n = Ok e' ->
    hears n correlation (OutboundEvent.UsageSnapshot (UsageObservation.Known totals))
      (Turn c e) (Turn c e')
| hears_control_usage c d totals e :
    correlation = Some d -> d <> c ->
    hears n correlation (OutboundEvent.UsageSnapshot (UsageObservation.Known totals))
      (Turn c e) (Turn c e)
| hears_dispose_usage c totals m :
    correlation = Some c -> is_next m n = true ->
    hears n correlation (OutboundEvent.UsageSnapshot (UsageObservation.Known totals))
      (Closing c m None) (Closing c m (Some n))
| hears_other_usage totals s :
    no_chain s ->
    hears n correlation (OutboundEvent.UsageSnapshot (UsageObservation.Known totals)) s s
| hears_usage_unavailable reason s :
    hears n correlation (OutboundEvent.UsageSnapshot (UsageObservation.Unavailable reason))
      s Fatal
| hears_settled c e classification outcome s' :
    correlation = Some c ->
    (is_observed outcome = true -> settled_evidence_is_closed outcome e n = true) ->
    s' = (if bool_decide (classification = SettledClassification.ProtocolFailed)
          then Fatal else Idle) ->
    hears n correlation (OutboundEvent.Settled classification outcome) (Turn c e) s'
| hears_disposed c m u receipt :
    correlation = Some c -> is_next u n = true ->
    hears n correlation (OutboundEvent.Disposed receipt) (Closing c m (Some u)) Disposed
| hears_fatal code s : hears n correlation (OutboundEvent.Fatal code) s Fatal.

Definition moves (t : Traffic.t) (s s' : Lifecycle.t) : Prop :=
  match t with
  | Traffic.Sent f =>
      sends (InboundFrame.correlation_identity f)
        (InboundCommand.name (InboundFrame.command f)) s s'
  | Traffic.Received f =>
      hears (BoundarySequence.value (OutboundFrame.sequence f))
        (OutboundFrame.correlation_identity f) (OutboundFrame.event f) s s'
  end.

(** A conversation is a run of the lifecycle. *)
Inductive run : list Traffic.t -> t -> t -> Prop :=
| run_nil s : run [] s s
| run_snoc ts t s s1 s' : run ts s s1 -> moves t s1 s' -> run (ts ++ [t]) s s'.
End Lifecycle.

(** ** The invariant and the abstraction function *)

Import BoundaryPeer.

(** No operation is in flight. *)
Definition nothing_in_flight (p : BoundaryPeer.t) : Prop :=
  pending_prompt p = None /\ pending_dispose p = None /\ active_dispose p = None
  /\ active_turn p = None.

(** What the fields of a peer satisfy in each phase: at most one of a pending
    prompt, an active turn, a pending dispose and an active dispose is in flight,
    each only in its own phase. *)
Definition peer_ok (p : BoundaryPeer.t) : Prop :=
  match phase p with
  | PeerPhase.AwaitingAdapterReady =>
      nothing_in_flight p /\ create p = None /\ create_candidate p = None
  | PeerPhase.Inert => nothing_in_flight p /\ create p = None
  | PeerPhase.Creating => nothing_in_flight p /\ create p <> None /\ create_candidate p = None
  | PeerPhase.Ready =>
      create p <> None /\ create_candidate p = None /\ configuration p <> None
      /\ active_dispose p = None
      /\ match active_turn p, pending_prompt p, pending_dispose p with
         | Some _, None, None | None, Some _, None | None, None, _ => True
         | _, _, _ => False
         end
  | PeerPhase.Closing =>
      create p <> None /\ create_candidate p = None /\ configuration p <> None
      /\ active_dispose p <> None /\ pending_prompt p = None /\ pending_dispose p = None
      /\ active_turn p = None
  | PeerPhase.Disposed =>
      nothing_in_flight p /\ create p <> None /\ create_candidate p = None
      /\ configuration p <> None
  | PeerPhase.Fatal => nothing_in_flight p
  end.

Definition lifecycle (p : BoundaryPeer.t) : Lifecycle.t :=
  match phase p with
  | PeerPhase.AwaitingAdapterReady => Lifecycle.Awaiting
  | PeerPhase.Inert => Lifecycle.Inert
  | PeerPhase.Creating => Lifecycle.Creating
  | PeerPhase.Ready =>
      match active_turn p, pending_prompt p, pending_dispose p with
      | Some turn, _, _ =>
          Lifecycle.Turn (ActiveTurn.correlation turn) (ActiveTurn.evidence_phase turn)
      | None, Some prompt, _ => Lifecycle.PromptPending (PendingPrompt.correlation prompt)
      | None, None, Some dispose =>
          Lifecycle.DisposePending (PendingDispose.correlation dispose)
      | None, None, None => Lifecycle.Idle
      end
  | PeerPhase.Closing =>
      match active_dispose p with
      | Some dispose =>
          Lifecycle.Closing (ActiveDispose.correlation dispose)
            (ActiveDispose.accepted_sequence dispose)
            (ActiveDispose.final_usage_sequence dispose)
      | None => Lifecycle.Fatal
      end
  | PeerPhase.Disposed => Lifecycle.Disposed
  | PeerPhase.Fatal => Lifecycle.Fatal
  end.

Lemma new_ok s i n r p : BoundaryPeer.new s i n r = Ok p -> peer_ok p /\ lifecycle p = Lifecycle.Awaiting.
Proof.
  unfold BoundaryPeer.new. destruct (map_err _ _); [|done]. intros [= <-].
  by split.
Qed.

(** ** Every accepted exchange is a move *)

Section Refinement.
Context `{Blake3} `{JsonLibrary}.

Lemma command_step_ok c p command p' :
  peer_ok p -> pending_dispose p = None -> command_step c p command p' -> peer_ok p'.
Proof.
  intros Hok Hd Hs. unfold peer_ok, nothing_in_flight in *.
  inversion Hs; subst; cbn in *;
    repeat match goal with E : ?x = _ |- _ => rewrite E in * end;
    try done; try (destruct_and?; split_and!; by subst).
Qed.

Lemma command_step_moves c p command p' :
  peer_ok p -> pending_dispose p = None -> command_step c p command p' ->
  Lifecycle.sends c (InboundCommand.name command) (lifecycle p) (lifecycle p').
Proof.
  intros Hok Hd Hs. unfold peer_ok, lifecycle in *.
  inversion Hs; subst; cbn in *;
    repeat match goal with E : ?x = _ |- _ => rewrite E in * end;
    try (by constructor).
  - destruct command; try done; by constructor.
  - destruct (active_turn _), (pending_prompt _); by constructor.
Qed.

Lemma result_step_ok n c p name ok p' :
  peer_ok p -> result_step n c p name ok p' -> peer_ok p'.
Proof.
  intros Hok Hs. unfold peer_ok, nothing_in_flight in *.
  inversion Hs; subst; try done; cbn in *;
    destruct (phase p); destruct_and?; simplify_eq; try congruence;
    repeat match goal with E : ?x = _ |- _ => rewrite E in * end;
    try done; try (by split_and!);
    repeat case_match; try done; by split_and!.
Qed.

(** Resolves the phase of a consistent peer from what is in flight. *)
Ltac by_phase :=
  destruct (phase _); destruct_and?; simplify_eq; try done;
  repeat match goal with E : ?x = _ |- _ => rewrite E in * end; simplify_eq; try done;
  try by split_and!.

Lemma result_step_moves n c p r p' :
  peer_ok p -> phase p <> PeerPhase.Fatal ->
  result_step n c p (result_command r) (result_accepted r) p' ->
  Lifecycle.hears n (Some c) (OutboundEvent.CommandResult r) (lifecycle p) (lifecycle p').
Proof.
  intros Hok Hlive Hs. unfold peer_ok, nothing_in_flight, lifecycle in *.
  inversion Hs as [payload Hc|prompt Hp Hcorr|Hd|prompt Hp Hcorr|name ok Hother];
    subst; destruct r as [command detail|command code]; cbn in *; simplify_eq.
  - by_phase. by constructor.
  - by_phase. repeat case_match; try done; by constructor.
  - by_phase. repeat case_match; try done; by constructor.
  - by_phase. repeat case_match; try done; by constructor.
  - by apply Lifecycle.hears_result.
  - by apply Lifecycle.hears_result.
Qed.

Ltac destruct_exists := repeat match goal with H : exists _, _ |- _ => destruct H end.

Lemma fenced_ok p : peer_ok (fenced p).
Proof. done. Qed.

(** Replacing what is in flight by something of the same kind. *)
Lemma peer_ok_in_flight p tracker dispose turn :
  (dispose = None <-> active_dispose p = None) -> (turn = None <-> active_turn p = None) ->
  peer_ok p ->
  peer_ok (p <| usage := tracker |> <| active_dispose := dispose |> <| active_turn := turn |>).
Proof.
  intros Hd Ht. unfold peer_ok, nothing_in_flight. cbn.
  destruct dispose, (active_dispose p); try (by destruct Hd; intuition discriminate);
    destruct turn, (active_turn p); try (by destruct Ht; intuition discriminate);
    destruct (phase p); intros; destruct_and?; split_and?; done.
Qed.

Lemma dispose_usage_kind n c name p dispose :
  dispose_usage n c name p dispose -> dispose = None <-> active_dispose p = None.
Proof.
  unfold dispose_usage. destruct (active_dispose p); [|by intros ->].
  intros (_ & _ & _ & _ & _ & ->). done.
Qed.

Lemma prompt_usage_kind n c p turn :
  prompt_usage n c p turn -> turn = None <-> active_turn p = None.
Proof.
  unfold prompt_usage. destruct (active_turn p); [|by intros ->].
  destruct (bool_decide _); [intros (? & _ & ->)|intros ->]; done.
Qed.

Lemma turn_update_ok p turn turn' :
  active_turn p = Some turn -> peer_ok p -> peer_ok (p <| active_turn := Some turn' |>).
Proof.
  intros E Hok. apply (peer_ok_in_flight p (usage p) (active_dispose p) (Some turn'));
    [done|by rewrite E|done].
Qed.

(** The phases in which a turn is active. *)
Lemma turn_phase p turn :
  peer_ok p -> active_turn p = Some turn ->
  phase p = PeerPhase.Ready /\ pending_prompt p = None /\ pending_dispose p = None
  /\ active_dispose p = None.
Proof.
  intros Hok Ht. unfold peer_ok, nothing_in_flight in Hok. rewrite Ht in Hok.
  destruct (phase p); destruct_and?; try done.
  destruct (pending_prompt p), (pending_dispose p); done.
Qed.

Lemma settled_ok p turn receipts :
  active_turn p = Some turn -> peer_ok p ->
  peer_ok (p <| settled_turns := receipts |> <| active_turn := None |>).
Proof.
  intros Ht Hok. destruct (turn_phase p turn Hok Ht) as (Hph & Hp & Hd & Ha).
  unfold peer_ok in *. cbn in *. rewrite Hph, Hp, Hd, Ht in *. by destruct_and?.
Qed.

Lemma event_step_ok n c p event o p' :
  peer_ok p -> event_step n c p event o p' -> peer_ok p'.
Proof.
  intros Hok Hs. destruct Hs as
    [Hseen Hph Hv|c' command payload configuration Hc Hcmd Hname Hseen Hph
    |c' command r p' Hc Hcmd Hseen Hname Hr|turn event evidence Ht
    | | | |c' command totals delta tracker dispose turn Hc Hg Htr Hd Hp
    |turn classification outcome receipt Ht
    |c' command dispose usage payload configuration receipt Hc Hcmd Hname Hseen Hacc Hph Ht| ].
  - unfold peer_ok, nothing_in_flight in *. cbn in *. by rewrite Hph in Hok; destruct_and?.
  - unfold peer_ok, nothing_in_flight in *. cbn in *. rewrite Hph in Hok. destruct_and?.
    repeat match goal with E : ?x p = _ |- _ => rewrite E; clear E end. by split_and!.
  - eapply result_step_ok; [|exact Hr]. exact Hok.
  - by eapply turn_update_ok.
  - exact Hok.
  - exact Hok.
  - apply fenced_ok.
  - apply peer_ok_in_flight; [by eapply dispose_usage_kind|by eapply prompt_usage_kind|done].
  - cbv zeta. case_bool_decide; [apply fenced_ok|]. by eapply settled_ok.
  - unfold peer_ok, nothing_in_flight in *. cbn in *. rewrite Hph in Hok. by destruct_and?.
  - apply fenced_ok.
Qed.

Lemma lifecycle_turn p turn :
  peer_ok p -> active_turn p = Some turn ->
  lifecycle p = Lifecycle.Turn (ActiveTurn.correlation turn) (ActiveTurn.evidence_phase turn).
Proof.
  intros Hok Ht. destruct (turn_phase p turn Hok Ht) as (Hph & _).
  unfold lifecycle. by rewrite Hph, Ht.
Qed.

Lemma lifecycle_quiet p :
  peer_ok p -> active_turn p = None ->
  phase p = PeerPhase.Ready \/ phase p = PeerPhase.Closing -> Lifecycle.quiet (lifecycle p).
Proof.
  intros Hok Ht Hph. unfold peer_ok, lifecycle in *.
  destruct Hph as [Hph|Hph]; rewrite Hph in *; rewrite ?Ht in *.
  - by destruct (pending_prompt p), (pending_dispose p).
  - destruct_and?. by destruct (active_dispose p).
Qed.

Lemma lifecycle_no_chain p :
  peer_ok p -> active_turn p = None -> active_dispose p = None ->
  Lifecycle.no_chain (lifecycle p).
Proof.
  intros Hok Ht Hd. unfold peer_ok, lifecycle in *. rewrite Ht, Hd in *.
  destruct (phase p); try done. by destruct (pending_prompt p), (pending_dispose p).
Qed.

Lemma session_ready_moves n c p configuration payload :
  peer_ok p -> phase p = PeerPhase.Creating ->
  Lifecycle.hears n c (OutboundEvent.SessionReady configuration) (lifecycle p)
    (lifecycle (p <| BoundaryPeer.configuration := Some payload |>
                  <| phase := PeerPhase.Ready |>)).
Proof.
  intros Hok Hph. unfold peer_ok, nothing_in_flight, lifecycle in *. cbn.
  rewrite Hph in *. destruct Hok as ((Hp & Hd & _ & Ht) & _). rewrite Hp, Hd, Ht.
  by constructor.
Qed.

Lemma usage_moves n c p name totals tracker dispose turn :
  peer_ok p -> dispose_usage n c name p dispose -> prompt_usage n c p turn ->
  Lifecycle.hears n (Some c) (OutboundEvent.UsageSnapshot (UsageObservation.Known totals))
    (lifecycle p)
    (lifecycle (p <| usage := tracker |> <| active_dispose := dispose |>
                  <| active_turn := turn |>)).
Proof.
  intros Hok Hd Hp.
  pose proof (peer_ok_in_flight p tracker dispose turn (dispose_usage_kind _ _ _ _ _ Hd)
                (prompt_usage_kind _ _ _ _ Hp) Hok) as Hok'.
  unfold dispose_usage, prompt_usage in Hd, Hp. destruct (active_turn p) as [t|] eqn:Et.
  - destruct (turn_phase p t Hok Et) as (_ & _ & _ & Hda). rewrite Hda in Hd. subst dispose.
    rewrite (lifecycle_turn p t Hok Et). case_bool_decide as Hc.
    + destruct Hp as (e & He & ->). erewrite lifecycle_turn by done. cbn. subst c.
      by apply Lifecycle.hears_turn_usage.
    + subst turn. erewrite lifecycle_turn by done.
      by eapply Lifecycle.hears_control_usage.
  - subst turn. destruct (active_dispose p) as [d|] eqn:Ed.
    + destruct Hd as (Hph & -> & _ & Hu & Hnext & ->). unfold lifecycle. cbn.
      rewrite Hph, Ed, Hu. by apply Lifecycle.hears_dispose_usage.
    + subst dispose.
      replace (lifecycle (_ <| active_turn := None |>)) with (lifecycle p)
        by (unfold lifecycle; cbn; by rewrite Et, Ed).
      apply Lifecycle.hears_other_usage. by apply lifecycle_no_chain.
Qed.

Lemma protocol_failed_classification classification outcome abort disposition :
  classify classification outcome abort = Some disposition ->
  bool_decide (disposition = TurnDisposition.ProtocolFailed)
  = bool_decide (classification = SettledClassification.ProtocolFailed).
Proof.
  intros Hc. apply bool_decide_ext.
  destruct classification, outcome as [[]|[]]; cbn in Hc; simplify_eq; try (by split);
    destruct abort; by simplify_eq.
Qed.

Lemma settled_moves n p turn classification outcome receipt :
  peer_ok p -> active_turn p = Some turn ->
  settles n turn classification outcome receipt ->
  let settled :=
    p <| settled_turns ::= fun l => l ++ [receipt] |> <| active_turn := None |> in
  Lifecycle.hears n (Some (ActiveTurn.correlation turn))
    (OutboundEvent.Settled classification outcome) (lifecycle p)
    (lifecycle (if bool_decide (TurnReceipt.disposition receipt
                                = TurnDisposition.ProtocolFailed)
                then fenced settled else settled)).
Proof.
  intros Hok Ht (Hc & _ & _ & _ & Hclosed) settled.
  rewrite (lifecycle_turn p turn Hok Ht), (protocol_failed_classification _ _ _ _ Hc).
  eapply Lifecycle.hears_settled; [done|done|]. case_bool_decide; [done|].
  destruct (turn_phase p turn Hok Ht) as (Hph & Hp & Hd & _).
  unfold lifecycle, settled. cbn. by rewrite Hph, Hp, Hd.
Qed.

Lemma event_step_moves n c p event o p' :
  peer_ok p -> (phase p = PeerPhase.Fatal -> is_fatal_event event = true) ->
  event_step n c p event o p' ->
  Lifecycle.hears n c event (lifecycle p) (lifecycle p').
Proof.
  intros Hok Hlive Hs. destruct Hs as
    [Hseen Hph Hv|c' command payload configuration Hc Hcmd Hname Hseen Hph
    |c' command r p' Hc Hcmd Hseen Hname Hr|turn event evidence Ht Hc Hph Hev
    |event Ht Hc Hph|turn call name args Ht Hc|
    |c' command totals delta tracker dispose turn Hc Hg Htr Hd Hp
    |turn classification outcome receipt Ht Hc Hsettles
    |c' command dispose usage payload configuration receipt Hc Hcmd Hname Hseen Hacc Hph Ht
       Hact Hdc Hu Hnext| code Hf].
  - unfold lifecycle. cbn. rewrite Hph. by constructor.
  - by apply session_ready_moves.
  - subst c. eapply (result_step_moves n c' (seen c' _ _ p)); [exact Hok| |exact Hr].
    intros Hfatal. by specialize (Hlive Hfatal).
  - rewrite (lifecycle_turn p turn Hok Ht).
    erewrite lifecycle_turn; [|by eapply turn_update_ok|done]. cbn. subst c.
    by apply Lifecycle.hears_turn_event.
  - apply Lifecycle.hears_idle_event; [done|]. by apply lifecycle_quiet.
  - replace (lifecycle (p <| pending_forum_tool_calls ::= union {[call]} |>))
      with (lifecycle p) by done.
    rewrite (lifecycle_turn p turn Hok Ht). by apply Lifecycle.hears_forum_call.
  - apply Lifecycle.hears_usage_unavailable.
  - subst c. by eapply usage_moves.
  - subst c. by apply settled_moves.
  - unfold lifecycle. cbn. rewrite Hph, Hact, Hu. by apply Lifecycle.hears_disposed; subst.
  - apply Lifecycle.hears_fatal.
Qed.

(** ** Conversations are runs of the lifecycle *)

Lemma exchange_moves t p o p' :
  peer_ok p -> exchange t p = (Ok o, p') ->
  peer_ok p' /\ Lifecycle.moves t (lifecycle p) (lifecycle p').
Proof.
  intros Hok Hx. destruct t as [frame|frame]; cbn in Hx.
  - accepted Hx. apply admit_inbound_sound in Hstep as (p2 & Hg & Hs & ->).
    destruct Hg as (_ & _ & _ & _ & _ & Hd). split.
    + exact (command_step_ok _ (next_inbound p) _ p2 Hok Hd Hs).
    + exact (command_step_moves _ (next_inbound p) _ p2 Hok Hd Hs).
  - apply observe_outbound_sound in Hx as [(Hf & _) Hs]. split.
    + eapply (event_step_ok _ _ (next_outbound p)); [exact Hok|exact Hs].
    + eapply (event_step_moves _ _ (next_outbound p)); [exact Hok|exact Hf|exact Hs].
Qed.

Lemma replay_run s i nonce runtime p0 ts os p :
  BoundaryPeer.new s i nonce runtime = Ok p0 -> replay ts p0 = (Ok os, p) ->
  peer_ok p /\ Lifecycle.run ts Lifecycle.Awaiting (lifecycle p).
Proof.
  intros Hnew. apply new_ok in Hnew as [Hok0 Habs]. revert ts os p.
  apply (replay_ind (fun ts p => peer_ok p /\ Lifecycle.run ts Lifecycle.Awaiting (lifecycle p))).
  - split; [done|]. rewrite Habs. constructor.
  - intros ts p t o p' [Hok Hrun] Hx. apply exchange_moves in Hx as [Hok' Hm]; [|done].
    split; [done|]. by econstructor.
Qed.
End Refinement.
