(* ===== verification/PiPeerSample.v ===== *)
(** * A complete sample conversation with the boundary peer

    A concrete session, from [AdapterReady] to [Disposed], with a constant stand-in
    for BLAKE3.  The witnesses of the peer's properties evaluate it. *)

From S2P Require Import Prelude Hash Json JsonReference PiText PiWire PiForum PiTypes PiScanner.
From S2P Require Import PiDecode PiEncode PiCodecSpec PiCost PiPeer PiPeerStep PiPeerLifecycle.

(** A 32-byte constant in place of the hash. *)
#[export] Instance sample_blake3 : Blake3 :=
  {| blake3 := fun _ => replicate 32 ("000"%char : byte); blake3_length := fun _ => eq_refl |}.

Definition sample_identity : SessionIdentity := ClosedString "session-1".
Definition sample_pid : HostProcessId.t := HostProcessId.new (PositiveInteger.new 4242).
Definition sample_nonce : SpawnNonce := ClosedString "nonce-1".
Definition sample_runtime : RuntimeIdentity.t :=
  RuntimeIdentity.new (NodeRuntimeVersion.new "v22.19.0") AdapterVersion.V1 PiSdkVersion.V0841
    sample_digest sample_digest sample_digest sample_digest.

Definition fresh_peer : BoundaryPeer.t :=
  match BoundaryPeer.new sample_identity sample_pid sample_nonce sample_runtime with
  | Ok p => p
  | Err _ => BoundaryPeer.mk sample_identity sample_pid sample_nonce sample_runtime
      PeerPhase.Fatal 1 1 false false ∅ ∅ None None None None ∅ None None
      None false ∅ None [] UsageTracker.default [] []
  end.

Lemma fresh_peer_new :
  BoundaryPeer.new sample_identity sample_pid sample_nonce sample_runtime = Ok fresh_peer.
Proof. vm_compute. reflexivity. Qed.

Definition sent (n : Z) (c : string) (command : InboundCommand.t) : Traffic.t :=
  Traffic.Sent
    (InboundFrame.new (BoundarySequence.new n) sample_identity (ClosedString c) command).

Definition heard_event (n : Z) (c : option string) (event : OutboundEvent.t) : OutboundFrame.t :=
  OutboundFrame.new (BoundarySequence.new n) sample_identity (ClosedString <$> c) event.

Definition received (n : Z) (c : option string) (event : OutboundEvent.t) : Traffic.t :=
  Traffic.Received (heard_event n c event).

Definition session_payload : CreateSessionPayload.t :=
  let p := sample_create_session in
  CreateSessionPayload.new (CreateSessionPayload.session_kind p) (CreateSessionPayload.cwd p)
    (CreateSessionPayload.agent_directory p) (CreateSessionPayload.auth_path p)
    (CreateSessionPayload.models_path p) (CreateSessionPayload.session_directory p)
    (CreateSessionPayload.system_prompt p)
    (digest (bytes (CreateSessionPayload.system_prompt p)))
    (CreateSessionPayload.model p) (CreateSessionPayload.model_catalog p)
    (CreateSessionPayload.tool_profile p) (CreateSessionPayload.settings p)
    (CreateSessionPayload.forum_contract p).

Definition session_file : AbsolutePath.t := sample_path "/work/sessions/s1.jsonl".

(** The configuration that repeats a payload. *)
Definition configuration_of (p : CreateSessionPayload.t) : EffectiveSessionConfiguration.t :=
  EffectiveSessionConfiguration.new (CreateSessionPayload.session_kind p)
    (CreateSessionPayload.cwd p) (CreateSessionPayload.session_directory p) session_file
    (CreateSessionPayload.model p) (CreateSessionPayload.model_catalog p)
    (CreateSessionPayload.tool_profile p)
    (ToolProfileTools.tools (CreateSessionPayload.tool_profile p))
    (CreateSessionPayload.settings p) (CreateSessionPayload.forum_contract p).
Definition session_configuration : EffectiveSessionConfiguration.t :=
  configuration_of session_payload.

(** The same session with the Forum tools. *)
Definition forum_payload : CreateSessionPayload.t :=
  let p := session_payload in
  CreateSessionPayload.new (CreateSessionPayload.session_kind p) (CreateSessionPayload.cwd p)
    (CreateSessionPayload.agent_directory p) (CreateSessionPayload.auth_path p)
    (CreateSessionPayload.models_path p) (CreateSessionPayload.session_directory p)
    (CreateSessionPayload.system_prompt p) (CreateSessionPayload.system_prompt_digest p)
    (CreateSessionPayload.model p) (CreateSessionPayload.model_catalog p)
    ToolProfile.ForumIsolatedV1 (CreateSessionPayload.settings p)
    (ForumSessionContractV1.ForumEnabledV1 (Blake3Digest.new FORUM_F0_AWARENESS_BLAKE3)
       (Blake3Digest.new FORUM_F0_TOOL_CONTRACT_BLAKE3)).

Definition ok_result (name : CommandName.t) : OutboundEvent.t :=
  OutboundEvent.CommandResult (CommandResult.Accepted name CommandResultDetail.Acknowledged).

Definition final_message : Value.t :=
  Value.Object [("role", Value.String "assistant"); ("stopReason", Value.String "stop")]%string.

Definition snapshot (n : Z) (hex : string) : OutboundEvent.t :=
  OutboundEvent.UsageSnapshot (sample_usage n hex).

(** Opening the session and running one prompt up to its settlement. *)
Definition opening_of (payload : CreateSessionPayload.t) : list Traffic.t :=
  [received 1 None (OutboundEvent.AdapterReady sample_pid sample_nonce sample_runtime);
   sent 1 "create" (InboundCommand.CreateSession payload);
   received 2 (Some "create") (ok_result CommandName.CreateSession);
   received 3 (Some "create") (OutboundEvent.SessionReady (configuration_of payload))]%string.
Definition opening : list Traffic.t := opening_of session_payload.

Definition prompting : list Traffic.t :=
  [sent 2 "prompt" (InboundCommand.Prompt
                      (PromptPayload.new PromptPurpose.TaskAssignment "do it"));
   received 4 (Some "prompt") (ok_result CommandName.Prompt);
   received 5 (Some "prompt") (OutboundEvent.AgentEvent ProjectedAgentEvent.AgentStart);
   received 6 (Some "prompt")
     (OutboundEvent.AgentEvent (ProjectedAgentEvent.AgentEnd [final_message] false));
   received 7 (Some "prompt") (OutboundEvent.AgentEvent ProjectedAgentEvent.AgentSettled);
   received 8 (Some "prompt") (snapshot 3 "3f847ae147ae147b")]%string.

Definition settlement : OutboundFrame.t :=
  heard_event 9 (Some "prompt"%string)
    (OutboundEvent.Settled SettledClassification.Completed
       (FinalAssistantOutcome.Observed AssistantStopReason.Stop)).

Definition disposing : list Traffic.t :=
  [sent 3 "dispose" (InboundCommand.Dispose (DisposePayload.new DisposeReason.CycleReconciliation));
   received 10 (Some "dispose") (ok_result CommandName.Dispose);
   received 11 (Some "dispose") (snapshot 5 "3f947ae147ae147b")]%string.

Definition disposal : OutboundFrame.t :=
  heard_event 12 (Some "dispose"%string)
    (OutboundEvent.Disposed
       (TranscriptFlushReceiptV1.Materialized sample_identity session_file sample_digest
          (CreateSessionPayload.cwd session_payload)
          (FirstUserPromptReceipt.Verified (digest [])))).

Definition until_settled : list Traffic.t := opening ++ prompting.
Definition until_disposed : list Traffic.t :=
  until_settled ++ [Traffic.Received settlement] ++ disposing.

(** A Forum session: one call answered, one open. *)
Definition sample_call (n : Z) (c : string) : Traffic.t :=
  received n (Some "prompt"%string)
    (OutboundEvent.ForumToolCall (ClosedString c) ForumToolName.SocietyForumRead Value.Null).
Definition forum_conversation : list Traffic.t :=
  opening_of forum_payload ++
  [sent 2 "prompt" (InboundCommand.Prompt
                      (PromptPayload.new PromptPurpose.TaskAssignment "do it"));
   received 4 (Some "prompt") (ok_result CommandName.Prompt);
   sample_call 5 "call-1";
   sent 3 "answer" (InboundCommand.ForumToolResult
                      (ForumToolResultPayload.new (ClosedString "call-1") Value.Null false));
   received 6 (Some "answer") (ok_result CommandName.ForumToolResult);
   sample_call 7 "call-2"]%string.

(** The peer after a conversation. *)
Definition after (ts : list Traffic.t) : BoundaryPeer.t := (replay ts fresh_peer).2.
Definition observations (ts : list Traffic.t) : list (option PeerObservation.t) :=
  match (replay ts fresh_peer).1 with Ok os => os | Err _ => [] end.

(** The whole conversation is accepted. *)
Definition accepts (ts : list Traffic.t) : bool := is_ok (replay ts fresh_peer).1.

Lemma accepted_replay ts :
  accepts ts = true -> replay ts fresh_peer = (Ok (observations ts), after ts).
Proof.
  unfold accepts, observations, after. by destruct (replay ts fresh_peer) as [[|] ?].
Qed.
