(* ===== verification/PiPeerHistory.v ===== *)
(** * What a boundary peer's terminal facts prove about the past

    The host's terminal claims are accepted only at the end of a fixed chain of
    earlier frames.  [earlier] states such a chain over the conversation; the
    chain is read off the runs of [Lifecycle], and the refinement carries it to
    the peer itself. *)

From S2P Require Import Prelude Hash Json JsonReference PiText PiWire PiForum PiTypes PiScanner.
From S2P Require Import PiDecode PiEncode PiCodecSpec PiCost PiPeer PiPeerStep PiPeerLifecycle.
From S2P Require Import PiPeerSample.

(** [earlier P K ts]: some frame of [ts] satisfies [P] and [K] holds of the
    conversation before that frame. *)
Definition earlier (P : Traffic.t -> Prop) (K : list Traffic.t -> Prop)
    (ts : list Traffic.t) : Prop :=
  exists before t after, ts = before ++ t :: after /\ P t /\ K before.

Lemma earlier_snoc P K ts t : earlier P K ts -> earlier P K (ts ++ [t]).
Proof.
  intros (before & t' & after & -> & HP & HK). exists before, t', (after ++ [t]).
  split; [by rewrite <-app_assoc|done].
Qed.

Lemma earlier_last P K ts (t : Traffic.t) : P t -> K ts -> earlier P K (ts ++ [t]).
Proof. intros HP HK. by exists ts, t, []. Qed.

Lemma earlier_weaken (P Q : Traffic.t -> Prop) (K L : list Traffic.t -> Prop) ts :
  (forall t, P t -> Q t) -> (forall ts, K ts -> L ts) -> earlier P K ts -> earlier Q L ts.
Proof. intros HPQ HKL (b & t & a & Hts & HP & HK). exists b, t, a. auto. Qed.

(** ** The frames of the chains *)

Definition sent_command (c : CorrelationIdentity) (name : CommandName.t) (t : Traffic.t) :
  Prop :=
  match t with
  | Traffic.Sent f =>
      InboundFrame.correlation_identity f = c
      /\ InboundCommand.name (InboundFrame.command f) = name
  | Traffic.Received _ => False
  end.

(** A received frame with its correlation, sequence number and event. *)
Definition heard (c : CorrelationIdentity) (n : Z) (P : OutboundEvent.t -> Prop)
    (t : Traffic.t) : Prop :=
  match t with
  | Traffic.Received f =>
      OutboundFrame.correlation_identity f = Some c
      /\ BoundarySequence.value (OutboundFrame.sequence f) = n
      /\ P (OutboundFrame.event f)
  | Traffic.Sent _ => False
  end.

Definition accepted_result (name : CommandName.t) (e : OutboundEvent.t) : Prop :=
  exists detail, e = OutboundEvent.CommandResult (CommandResult.Accepted name detail).
Definition final_agent_end (reason : AssistantStopReason.t) (e : OutboundEvent.t) : Prop :=
  exists messages,
    e = OutboundEvent.AgentEvent (ProjectedAgentEvent.AgentEnd messages false)
    /\ final_assistant_stop_reason messages = Some reason.
Definition agent_settled (e : OutboundEvent.t) : Prop :=
  e = OutboundEvent.AgentEvent ProjectedAgentEvent.AgentSettled.
Definition known_usage (e : OutboundEvent.t) : Prop :=
  exists totals, e = OutboundEvent.UsageSnapshot (UsageObservation.Known totals).

(** The prompt was admitted, then accepted. *)
Definition prompt_sent c := earlier (sent_command c CommandName.Prompt) (fun _ => True).
Definition prompt_accepted c :=
  earlier (fun t => exists n, heard c n (accepted_result CommandName.Prompt) t) (prompt_sent c).
(** The last, non-retried [agent_end] reported [reason]. *)
Definition agent_ended c reason :=
  earlier (fun t => exists n, heard c n (final_agent_end reason) t) (prompt_accepted c).
Definition agent_has_settled c reason n :=
  earlier (heard c n agent_settled) (agent_ended c reason).
Definition final_usage_reported c reason n m :=
  earlier (heard c m known_usage) (agent_has_settled c reason n).

Definition dispose_sent c := earlier (sent_command c CommandName.Dispose) (fun _ => True).
Definition dispose_accepted c n :=
  earlier (heard c n (accepted_result CommandName.Dispose)) (dispose_sent c).
Definition dispose_usage_reported c n m :=
  earlier (heard c m known_usage) (dispose_accepted c n).

(** ** The chain behind each state of the lifecycle *)

Definition turn_chain (ts : list Traffic.t) (c : CorrelationIdentity)
    (e : TurnEvidencePhase.t) : Prop :=
  prompt_accepted c ts
  /\ match e with
     | TurnEvidencePhase.AwaitingAgentSettled reason => agent_ended c reason ts
     | TurnEvidencePhase.AwaitingFinalPromptUsage reason n => agent_has_settled c reason n ts
     | TurnEvidencePhase.AwaitingSettledFrame reason n m => final_usage_reported c reason n m ts
     | _ => True
     end.

Definition chain (ts : list Traffic.t) (s : Lifecycle.t) : Prop :=
  match s with
  | Lifecycle.PromptPending c => prompt_sent c ts
  | Lifecycle.Turn c e => turn_chain ts c e
  | Lifecycle.DisposePending c => dispose_sent c ts
  | Lifecycle.Closing c n None => dispose_accepted c n ts
  | Lifecycle.Closing c n (Some m) => dispose_usage_reported c n m ts /\ m = n + 1
  | _ => True
  end.

Lemma chain_snoc ts t s : chain ts s -> chain (ts ++ [t]) s.
Proof.
  destruct s as [| | | |c|c e|c|c n [m|]| |]; cbn; try done; try apply earlier_snoc.
  - intros [Hp He]. split; [by apply earlier_snoc|]. destruct e; try done; by apply earlier_snoc.
  - intros [Hu Hn]. split; [by apply earlier_snoc|done].
Qed.

Lemma agent_end_chain ts f c messages reason :
  OutboundFrame.correlation_identity f = Some c ->
  OutboundFrame.event f
    = OutboundEvent.AgentEvent (ProjectedAgentEvent.AgentEnd messages false) ->
  ok_or (final_assistant_stop_reason messages) PeerError.MissingTerminalEvidence = Ok reason ->
  prompt_accepted c ts -> agent_ended c reason (ts ++ [Traffic.Received f]).
Proof.
  intros Hc He Hr Hp. apply earlier_last; [|done]. eexists. split; [done|]. split; [done|].
  exists messages. split; [done|]. by destruct (final_assistant_stop_reason messages); simplify_eq/=.
Qed.

Lemma turn_event_chain ts f c e event e' :
  OutboundFrame.correlation_identity f = Some c ->
  OutboundFrame.event f = OutboundEvent.AgentEvent event ->
  observe_turn_evidence e event (BoundarySequence.value (OutboundFrame.sequence f)) = Ok e' ->
  turn_chain ts c e -> turn_chain (ts ++ [Traffic.Received f]) c e'.
Proof.
  intros Hc He Ho [Hp Hchain]. split; [by apply earlier_snoc|].
  destruct event, e; cbn in Ho; simplify_eq; try done;
    repeat (case_match; simplify_eq; try done); try by apply earlier_snoc.
  - by eapply agent_end_chain.
  - by eapply agent_end_chain.
  - by apply earlier_last.
Qed.

Lemma turn_usage_chain ts f c e totals e' :
  OutboundFrame.correlation_identity f = Some c ->
  OutboundFrame.event f = OutboundEvent.UsageSnapshot (UsageObservation.Known totals) ->
  usage_evidence e (BoundarySequence.value (OutboundFrame.sequence f)) = Ok e' ->
  turn_chain ts c e -> turn_chain (ts ++ [Traffic.Received f]) c e'.
Proof.
  intros Hc He Ho [Hp Hchain]. split; [by apply earlier_snoc|].
  destruct e; cbn in Ho; simplify_eq; try done; try by apply earlier_snoc.
  apply earlier_last; [|done]. split; [done|]. split; [done|]. by exists totals.
Qed.

Lemma is_next_spec n m : is_next n m = true -> m = n + 1.
Proof.
  unfold is_next, checked_add_u64. rewrite bool_decide_eq_true. destruct (_ <=? _); congruence.
Qed.

Lemma moves_chain ts t s s' : Lifecycle.moves t s s' -> chain ts s -> chain (ts ++ [t]) s'.
Proof.
  intros Hm Hc. destruct t as [f|f]; cbn in Hm.
  - inversion Hm; subst; try (by apply chain_snoc); try (by apply earlier_last).
  - remember (OutboundFrame.event f) as event eqn:He. symmetry in He.
    destruct Hm; subst; try done; try (by apply chain_snoc); cbn in Hc.
    + split; [|done]. apply earlier_last; [|done].
      eexists. split; [done|]. split; [done|]. by exists detail.
    + apply earlier_last; [|done]. split; [done|]. split; [done|]. by exists detail.
    + by eapply turn_event_chain.
    + by eapply turn_usage_chain.
    + split; [|by apply is_next_spec].
      apply earlier_last; [|done]. split; [done|]. split; [done|]. by exists totals.
    + by case_bool_decide.
Qed.

Lemma run_chain ts s : Lifecycle.run ts Lifecycle.Awaiting s -> chain ts s.
Proof.
  intros Hrun. remember Lifecycle.Awaiting as s0 eqn:Hs0.
  induction Hrun as [|ts t s s1 s' _ IH Hm]; [by subst|]. eauto using moves_chain.
Qed.

Section History.
Context `{Blake3} `{JsonLibrary}.
Context (identity : SessionIdentity) (pid : HostProcessId.t) (nonce : SpawnNonce)
  (runtime : RuntimeIdentity.t) (p0 : BoundaryPeer.t).
Context (Hnew : BoundaryPeer.new identity pid nonce runtime = Ok p0).

(** The move that ends an accepted conversation, and the chain before it. *)
Lemma last_received ts f os p :
  replay (ts ++ [Traffic.Received f]) p0 = (Ok os, p) ->
  exists s s',
    chain ts s
    /\ Lifecycle.hears (BoundarySequence.value (OutboundFrame.sequence f))
         (OutboundFrame.correlation_identity f) (OutboundFrame.event f) s s'.
Proof.
  intros Hr. apply replay_snoc in Hr as (os1 & o & p1 & Hr & Hx & ->).
  destruct (replay_run _ _ _ _ _ _ _ _ Hnew Hr) as [Hok Hrun].
  destruct (exchange_moves _ _ _ _ Hok Hx) as [_ Hm].
  do 2 eexists. split; [by eapply run_chain|exact Hm].
Qed.

(** C23: a turn is accepted as settled with an observed assistant outcome only at
    the end of the complete terminal chain of its own prompt: the prompt was
    admitted, its acceptance was heard, a final (non-retried) [agent_end]
    carried exactly the claimed stop reason, then [agent_settled] was heard, then
    a known usage snapshot, and that snapshot is the frame directly before the
    settlement. *)
Theorem observed_settlement_has_terminal_chain ts f os p classification reason
    (Hrun : replay (ts ++ [Traffic.Received f]) p0 = (Ok os, p))
    (Hevent : OutboundFrame.event f
              = OutboundEvent.Settled classification (FinalAssistantOutcome.Observed reason)) :
  exists c settled_at usage_at,
    OutboundFrame.correlation_identity f = Some c
    /\ final_usage_reported c reason settled_at usage_at ts
    /\ settled_at < usage_at
    /\ BoundarySequence.value (OutboundFrame.sequence f) = usage_at + 1.
Proof.
  destruct (last_received _ _ _ _ Hrun) as (s & s' & Hchain & Hm).
  rewrite Hevent in Hm. inversion Hm as [| | | | | | | | | | | | | | |c e ?? ? Hc Hclosed| |];
    subst. specialize (Hclosed eq_refl). destruct e; try done. cbn in Hclosed. bool_hyps.
  destruct Hchain as [_ Hu]. subst. exists c, agent_settled_sequence, final_usage_sequence.
  split_and!; [done|done|lia|by apply is_next_spec].
Qed.

(** Disposal is accepted only at the end of the closed dispose chain: the
    dispose command was admitted, its acceptance was heard, exactly one frame
    later a known usage snapshot for it, and exactly one frame later the
    transcript receipt. *)
Theorem disposal_has_terminal_chain ts f os p receipt
    (Hrun : replay (ts ++ [Traffic.Received f]) p0 = (Ok os, p))
    (Hevent : OutboundFrame.event f = OutboundEvent.Disposed receipt) :
  exists c n,
    OutboundFrame.correlation_identity f = Some c
    /\ dispose_usage_reported c n (n + 1) ts
    /\ BoundarySequence.value (OutboundFrame.sequence f) = n + 2.
Proof.
  destruct (last_received _ _ _ _ Hrun) as (s & s' & Hchain & Hm).
  rewrite Hevent in Hm. inversion Hm as [| | | | | | | | | | | | | | | |c n u ? Hc Hnext|];
    subst. destruct Hchain as [Hu ->]. apply is_next_spec in Hnext.
  exists c, n. split; [done|]. split; [done|]. lia.
Qed.

(** C24: every accepted conversation, whatever its interleaving of commands and
    host events, is a run of the lifecycle automaton, and the peer's fields stay
    consistent with its state: at most one of a pending prompt, an active turn, a
    pending dispose and an active dispose is in flight. *)
Theorem conversation_refines_lifecycle ts os p
    (Hrun : replay ts p0 = (Ok os, p)) :
  peer_ok p /\ Lifecycle.run ts Lifecycle.Awaiting (lifecycle p).
Proof. exact (replay_run _ _ _ _ _ _ _ _ Hnew Hrun). Qed.
End History.

Lemma observed_settlement_has_terminal_chain_witness :
  exists c settled_at usage_at,
    OutboundFrame.correlation_identity settlement = Some c
    /\ final_usage_reported c AssistantStopReason.Stop settled_at usage_at until_settled
    /\ settled_at < usage_at
    /\ BoundarySequence.value (OutboundFrame.sequence settlement) = usage_at + 1.
Proof.
  eapply (observed_settlement_has_terminal_chain _ _ _ _ _ fresh_peer_new).
  - apply accepted_replay. vm_compute. reflexivity.
  - reflexivity.
Defined.

Lemma disposal_has_terminal_chain_witness :
  exists c n,
    OutboundFrame.correlation_identity disposal = Some c
    /\ dispose_usage_reported c n (n + 1) until_disposed
    /\ BoundarySequence.value (OutboundFrame.sequence disposal) = n + 2.
Proof.
  eapply (disposal_has_terminal_chain _ _ _ _ _ fresh_peer_new).
  - apply accepted_replay. vm_compute. reflexivity.
  - reflexivity.
Defined.

Lemma conversation_refines_lifecycle_witness :
  peer_ok (after until_disposed)
  /\ Lifecycle.run until_disposed Lifecycle.Awaiting
       (Lifecycle.Closing (ClosedString "dispose") 10 (Some 11)).
Proof.
  apply (conversation_refines_lifecycle _ _ _ _ _ fresh_peer_new until_disposed
           (observations until_disposed)).
  apply accepted_replay. vm_compute. reflexivity.
Defined.
