(* ===== verification/PiPeerSpec.v ===== *)
(** * What the boundary peer guarantees on every call and conversation

    Error containment, the absorbing fence, the seals, the sequence numbers, the
    command/result correlation, the task-attempt prompt bound, the admitted
    configuration, the Forum answers and the usage accounting of [BoundaryPeer]. *)

From S2P Require Import Prelude Hash Json JsonReference PiText PiWire PiForum PiTypes PiScanner.
From S2P Require Import PiDecode PiEncode PiCodecSpec PiCost PiPeer PiPeerStep PiPeerLifecycle.
From S2P Require Import PiPeerSample PrintableText.

Import BoundaryPeer.

(** ** Errors fence *)

Definition is_fenced (p : BoundaryPeer.t) : Prop :=
  phase p = PeerPhase.Fatal /\ nothing_in_flight p.

Section Fencing.
Context `{Blake3} `{JsonLibrary}.

Lemma fenced_is_fenced p : is_fenced (fenced p).
Proof. by repeat split. Qed.

Lemma fence_on_error_err {A} (m : method BoundaryPeer.t PeerError.t A) p e p' :
  fence_on_error m p = (Err e, p') -> is_fenced p'.
Proof.
  unfold fence_on_error. destruct (m p) as [[|] p1]; [done|].
  intros [= <- <-]. apply fenced_is_fenced.
Qed.

Lemma bind_err {S E A B} (m : method S E A) (k : A -> method S E B) s e s' :
  m_bind m k s = (Err e, s') ->
  m s = (Err e, s') \/ exists a s1, m s = (Ok a, s1) /\ k a s1 = (Err e, s').
Proof. unfold m_bind. destruct (m s) as [[|] ?]; [by eauto|]. intros [= -> ->]. by left. Qed.

Lemma protocol_or_fence_err {A} (r : protocol_result A) p e p' :
  protocol_or_fence r p = (Err e, p') -> is_fenced p'.
Proof. destruct r; [done|]. intros [= <- <-]. apply fenced_is_fenced. Qed.

Lemma admit_bytes_err line p e p' :
  admit_inbound_jsonl_bytes line p = (Err e, p') -> is_fenced p'.
Proof.
  unfold admit_inbound_jsonl_bytes. intros Hr.
  apply bind_err in Hr as [Hr|(? & ? & _ & Hr)]; [done|].
  apply bind_err in Hr as [Hr|(? & ? & _ & Hr)]; [by apply protocol_or_fence_err in Hr|].
  apply bind_err in Hr as [Hr|(? & ? & _ & Hr)]; [by apply protocol_or_fence_err in Hr|].
  apply bind_err in Hr as [Hr|(? & ? & _ & Hr)]; [|done].
  by apply fence_on_error_err in Hr.
Qed.

Lemma observe_bytes_err line p e p' :
  observe_outbound_jsonl_bytes line p = (Err e, p') -> is_fenced p'.
Proof.
  unfold observe_outbound_jsonl_bytes. intros Hr.
  apply bind_err in Hr as [Hr|(? & ? & _ & Hr)]; [done|].
  apply bind_err in Hr as [Hr|(? & ? & _ & Hr)]; [by apply protocol_or_fence_err in Hr|].
  apply bind_err in Hr as [Hr|(? & ? & _ & Hr)]; [by apply protocol_or_fence_err in Hr|].
  by apply fence_on_error_err in Hr.
Qed.

(** C25: any error of any entry point of the peer fences it: the phase is Fatal
    and no prompt, turn or disposal is left in flight, whatever the state and
    the bytes were. *)
Theorem every_error_fences (p : BoundaryPeer.t) :
  (forall frame e p', admit_inbound frame p = (Err e, p') -> is_fenced p')
  /\ (forall line e p', admit_inbound_jsonl_bytes line p = (Err e, p') -> is_fenced p')
  /\ (forall frame e p', observe_outbound frame p = (Err e, p') -> is_fenced p')
  /\ (forall line e p', observe_outbound_jsonl_bytes line p = (Err e, p') -> is_fenced p')
  /\ (forall e p', observe_stdout_eof p = (Err e, p') -> is_fenced p').
Proof.
  split_and!; intros *.
  - apply fence_on_error_err.
  - apply admit_bytes_err.
  - apply fence_on_error_err.
  - apply observe_bytes_err.
  - unfold observe_stdout_eof, fence_if, m_when, m_bind, m_get. case_match; [|done].
    intros [= <- <-]. apply fenced_is_fenced.
Qed.

(** ** The fence is absorbing *)

Lemma fatal_admits_nothing frame p :
  phase p = PeerPhase.Fatal -> admit_inbound frame p = (Err PeerError.Fatal, fenced p).
Proof.
  intros Hf. unfold admit_inbound, fence_on_error, admit_inbound_inner, m_bind, m_get.
  by rewrite bool_decide_eq_true_2.
Qed.

Lemma fatal_hears_one_fatal frame p o p' :
  phase p = PeerPhase.Fatal -> observe_outbound frame p = (Ok o, p') ->
  exists code, OutboundFrame.event frame = OutboundEvent.Fatal code
    /\ o = Some (PeerObservation.Fatal code)
    /\ fatal_frame_seen p = false /\ fatal_frame_seen p' = true /\ is_fenced p'.
Proof.
  intros Hf Hr. apply observe_outbound_sound in Hr as [(Hfatal & _) Hs].
  specialize (Hfatal Hf). destruct (OutboundFrame.event frame) as [| | | | | | | |code]; try done.
  inversion Hs; subst. exists code. by split_and!.
Qed.

(** The outcome of a call on a fenced peer. *)
Definition stays_fenced {A} (r : result A PeerError.t * BoundaryPeer.t) : Prop :=
  is_fenced r.2 /\ is_ok r.1 = false.

(** A fence cannot be undone: a peer in phase Fatal refuses every command
    and every line of commands, hears nothing but the first Fatal frame of the
    host (which it reports once), and stays Fatal through every call. *)
Theorem fence_is_absorbing (p : BoundaryPeer.t) (Hfatal : phase p = PeerPhase.Fatal) :
  (forall frame, stays_fenced (admit_inbound frame p))
  /\ (forall line, stays_fenced (admit_inbound_jsonl_bytes line p))
  /\ (forall frame, stays_fenced (observe_outbound frame p)
       \/ exists code, OutboundFrame.event frame = OutboundEvent.Fatal code
            /\ fatal_frame_seen p = false
            /\ (observe_outbound frame p).1 = Ok (Some (PeerObservation.Fatal code))
            /\ is_fenced (observe_outbound frame p).2
            /\ fatal_frame_seen (observe_outbound frame p).2 = true)
  /\ observe_stdout_eof p = (Ok (), p).
Proof.
  split_and!.
  - intros frame. rewrite fatal_admits_nothing by done. split; [apply fenced_is_fenced|done].
  - intros line. destruct (admit_inbound_jsonl_bytes line p) as [[f|e] p'] eqn:Hr.
    + exfalso. unfold admit_inbound_jsonl_bytes in Hr. accepted Hr.
      by rewrite fatal_admits_nothing in Hstep1.
    + split; [by apply admit_bytes_err in Hr|done].
  - intros frame. destruct (observe_outbound frame p) as [[o|e] p'] eqn:Hr; cbn.
    + right. apply fatal_hears_one_fatal in Hr as (code & He & -> & Hs & Hs' & Hfe); [|done].
      by exists code.
    + left. split; [by apply fence_on_error_err in Hr|done].
  - unfold observe_stdout_eof, fence_if, m_bind, m_get, m_when.
    rewrite (bool_decide_eq_true_2 (phase p = PeerPhase.Fatal)) by done. by rewrite orb_true_r.
Qed.
End Fencing.

(** A peer whose host reported a failure. *)
Definition failed_peer : BoundaryPeer.t :=
  after [received 1 None (OutboundEvent.Fatal AdapterFailureCode.SdkOperationFailed)].

Lemma fence_is_absorbing_witness :
  stays_fenced (observe_outbound settlement failed_peer)
  /\ observe_stdout_eof failed_peer = (Ok (), failed_peer).
Proof.
  destruct (fence_is_absorbing failed_peer) as (_ & _ & Hout & Heof).
  - vm_compute. reflexivity.
  - split; [|exact Heof]. destruct (Hout settlement) as [Hs|(code & He & _)]; [exact Hs|done].
Defined.

(** ** The seals *)

(** A method leaves an observation of the state as it was, on every outcome. *)
Definition keeps {S E A X} (f : S -> X) (m : method S E A) : Prop := forall s, f (m s).2 = f s.

Section Keeps.
Context {S E X : Type} (f : S -> X).

Lemma method_keeps_bind {A B} (m : method S E A) (k : A -> method S E B) :
  keeps f m -> (forall a, keeps f (k a)) -> keeps f (m_bind m k).
Proof.
  intros Hm Hk s. unfold m_bind. specialize (Hm s). destruct (m s) as [[a|e] s1]; cbn in *; [|done].
  by rewrite Hk.
Qed.
Lemma method_keeps_ret {A} (a : A) : keeps f (m_ret (E := E) a).
Proof. done. Qed.
Lemma method_keeps_fail {A} (e : E) : keeps f (m_fail (A := A) e).
Proof. done. Qed.
Lemma keeps_get : keeps f (m_get (E := E)).
Proof. done. Qed.
Lemma method_keeps_lift {A} (r : result A E) : keeps f (m_lift r).
Proof. done. Qed.
Lemma keeps_modify (g : S -> S) : (forall s, f (g s) = f s) -> keeps f (m_modify (E := E) g).
Proof. intros Hg s. apply Hg. Qed.
Lemma method_keeps_when (c : bool) (m : method S E unit) : keeps f m -> keeps f (m_when c m).
Proof. by destruct c. Qed.
End Keeps.

Create HintDb keeps.
#[export] Hint Resolve method_keeps_ret method_keeps_fail keeps_get method_keeps_lift : keeps.

(** Follows the structure of a method body. *)
Ltac keeps_body :=
  repeat match goal with
  | |- keeps _ (m_bind _ _) => apply method_keeps_bind; [|intros ?]
  | |- keeps _ (m_when _ _) => apply method_keeps_when
  | |- keeps _ (m_modify _) => apply keeps_modify; intros ?; reflexivity
  | |- keeps _ (fence_if _ _) => apply method_keeps_when
  | |- keeps _ (fail_if _ _) => apply method_keeps_when
  | |- keeps _ (fence_fail _) => apply method_keeps_bind; [|intros ?]
  | |- keeps _ fence => apply keeps_modify; intros ?; reflexivity
  | |- keeps _ (if ?c then _ else _) => destruct c
  | |- keeps _ (match ?c with _ => _ end) => destruct c
  | |- keeps _ (let _ := _ in _) => cbv zeta
  | |- keeps _ (some_or_fence ?o _) => destruct o; cbn [some_or_fence]
  | |- keeps _ (some_or_fail ?o _) => destruct o; cbn [some_or_fail]
  | |- keeps _ (m_protocol _) => apply method_keeps_lift
  | |- keeps _ _ => solve [auto with keeps]
  end.

Section Seals.
Context `{Blake3} `{JsonLibrary}.

Definition seals (p : BoundaryPeer.t) : list SealedLine.t * list SealedLine.t :=
  (inbound_seals p, outbound_seals p).

Lemma keeps_fence_on_error {A} (m : method BoundaryPeer.t PeerError.t A) :
  keeps seals m -> keeps seals (fence_on_error m).
Proof.
  intros Hm p. unfold fence_on_error. specialize (Hm p).
  by destruct (m p) as [[a|e] p1].
Qed.

Lemma admit_keeps_seals frame : keeps seals (admit_inbound frame).
Proof.
  apply keeps_fence_on_error.
  unfold admit_inbound_inner, validate_command_admission, record_command,
    validate_create_session, validate_prompt, validate_follow_up_or_steer,
    validate_forum_tool_result.
  keeps_body.
Qed.

Lemma observe_usage_keeps_seals n c u : keeps seals (observe_usage n c u).
Proof.
  unfold observe_usage, check_dispose_usage, track_usage, record_dispose_usage,
    record_prompt_usage. keeps_body.
Qed.

Lemma observe_result_keeps_seals n c r : keeps seals (observe_command_result n c r).
Proof.
  unfold observe_command_result, accept_result, take_rejected_prompt, take_accepted_dispose.
  keeps_body.
Qed.

Lemma observe_keeps_seals frame : keeps seals (observe_outbound frame).
Proof.
  apply keeps_fence_on_error. unfold observe_outbound_inner, dispatch_event.
  keeps_body;
    try apply observe_usage_keeps_seals; try apply observe_result_keeps_seals;
    unfold observe_adapter_ready, observe_session_ready, observe_agent_event,
      observe_forum_tool_call, observe_settled, observe_disposed; keeps_body.
Qed.

Lemma eof_keeps_seals : keeps seals observe_stdout_eof.
Proof. unfold observe_stdout_eof. keeps_body. Qed.

(** The entry points, whatever their outcome. *)
Inductive Call :=
| CommandLine (line : list byte)
| HostLine (line : list byte)
| CommandFrame (frame : InboundFrame.t)
| HostFrame (frame : OutboundFrame.t)
| StdoutEof.

Definition call (c : Call) (p : BoundaryPeer.t) : BoundaryPeer.t :=
  match c with
  | CommandLine line => (admit_inbound_jsonl_bytes line p).2
  | HostLine line => (observe_outbound_jsonl_bytes line p).2
  | CommandFrame frame => (admit_inbound frame p).2
  | HostFrame frame => (observe_outbound frame p).2
  | StdoutEof => (observe_stdout_eof p).2
  end.

Definition calls (cs : list Call) (p : BoundaryPeer.t) : BoundaryPeer.t :=
  fold_left (fun p c => call c p) cs p.

Definition command_lines (cs : list Call) : list (list byte) :=
  omap (fun c => match c with CommandLine l => Some l | _ => None end) cs.
Definition host_lines (cs : list Call) : list (list byte) :=
  omap (fun c => match c with HostLine l => Some l | _ => None end) cs.

Lemma admit_bytes_seals line p :
  seals (call (CommandLine line) p)
  = (inbound_seals p ++ [SealedLine.of_bytes line], outbound_seals p).
Proof.
  unfold call, admit_inbound_jsonl_bytes, protocol_or_fence. unfold m_bind at 1. cbn [m_modify].
  set (p1 := p <| inbound_seals ::= _ |>).
  change (inbound_seals p ++ [SealedLine.of_bytes line], outbound_seals p) with (seals p1).
  generalize p1 as q. intros q. unfold m_bind. destruct (raw_jsonl_utf8 line) as [l|]; [|done]. cbn [m_ret].
  destruct (decode_inbound_jsonl l) as [f|]; [|done]. cbn [m_ret].
  pose proof (admit_keeps_seals f q) as Hk. by destruct (admit_inbound f q) as [[]].
Qed.

Lemma observe_bytes_seals line p :
  seals (call (HostLine line) p)
  = (inbound_seals p, outbound_seals p ++ [SealedLine.of_bytes line]).
Proof.
  unfold call, observe_outbound_jsonl_bytes, protocol_or_fence. unfold m_bind at 1.
  cbn [m_modify]. set (p1 := p <| outbound_seals ::= _ |>).
  change (inbound_seals p, outbound_seals p ++ [SealedLine.of_bytes line]) with (seals p1).
  generalize p1 as q. intros q. unfold m_bind.
  destruct (raw_jsonl_utf8 line) as [l|]; [|done]. cbn [m_ret].
  destruct (decode_outbound_jsonl l) as [f|]; [|done]. cbn [m_ret].
  apply observe_keeps_seals.
Qed.

(** The peer's seals are the digests of exactly the lines it was handed, in
    order and per direction, whatever became of each line: accepted, refused,
    malformed, oversized or not UTF-8, before or after a fence.  Calls that carry
    no line add nothing. *)
Theorem seals_record_every_line (cs : list Call) (p : BoundaryPeer.t) :
  inbound_seals (calls cs p) = inbound_seals p ++ map SealedLine.of_bytes (command_lines cs)
  /\ outbound_seals (calls cs p) = outbound_seals p ++ map SealedLine.of_bytes (host_lines cs).
Proof.
  revert p. induction cs as [|c cs IH]; intros p; [cbn; by rewrite !app_nil_r|].
  change (calls (c :: cs) p) with (calls cs (call c p)).
  destruct (IH (call c p)) as [-> ->].
  assert (seals (call c p) = match c with
    | CommandLine line => (inbound_seals p ++ [SealedLine.of_bytes line], outbound_seals p)
    | HostLine line => (inbound_seals p, outbound_seals p ++ [SealedLine.of_bytes line])
    | _ => seals p end) as Hs.
  { destruct c; [apply admit_bytes_seals|apply observe_bytes_seals|apply admit_keeps_seals
                |apply observe_keeps_seals|apply eof_keeps_seals]. }
  pose proof (f_equal fst Hs) as Hin. pose proof (f_equal snd Hs) as Hout.
  destruct c; cbn [seals fst snd] in Hin, Hout; rewrite Hin, Hout; by rewrite <-?app_assoc.
Qed.
End Seals.

(** ** Digests *)

Lemma hex_byte_hex b : forallb is_lower_hex (hex_byte b) = true.
Proof. by destruct b as [[] [] [] [] [] [] [] []]. Qed.

Lemma hex_bytes_hex l :
  forallb is_lower_hex (flat_map hex_byte l) = true /\
  length (flat_map hex_byte l) = (2 * length l)%nat.
Proof.
  induction l as [|b l [IHhex IHlen]]; [done|]. cbn [flat_map].
  rewrite forallb_app, length_app, hex_byte_hex, IHhex, IHlen. split; [done|]. cbn. lia.
Qed.

Lemma lower_hex_inj l k : lower_hex l = lower_hex k -> l = k.
Proof.
  unfold lower_hex. intros Heq. apply (f_equal list_ascii_of_string) in Heq.
  rewrite !list_ascii_of_string_of_list_ascii in Heq. by apply hex_bytes_inj.
Qed.

Lemma str_len_of_list l : str_len (string_of_list_ascii l) = Z.of_nat (length l).
Proof. unfold str_len. f_equal. induction l; cbn; [done|]. by rewrite IHl. Qed.

(** Every digest the peer computes is an admissible BLAKE3 digest, so the
    source's [expect] cannot fail, and its hexadecimal text loses nothing: two
    lines have the same digest exactly when BLAKE3 gives them the same 32 bytes. *)
Theorem digest_is_a_digest `{Blake3} (l k : list byte) :
  Blake3Digest.parse (Blake3Digest.as_str (digest l)) = Ok (digest l) /\
  (digest l = digest k <-> blake3 l = blake3 k).
Proof.
  split.
  - unfold digest, Blake3Digest.parse, lower_hex, bytes. cbn [Blake3Digest.as_str].
    destruct (hex_bytes_hex (blake3 l)) as [Hhex Hlen].
    rewrite list_ascii_of_string_of_list_ascii, Hhex, str_len_of_list, Hlen, blake3_length.
    done.
  - unfold digest. split; [|by intros ->]. intros [= Heq]. by apply lower_hex_inj.
Qed.
