(* ===== verification/PiPeerTrace.v ===== *)
(** * Invariants of accepted conversations

    Properties of every conversation a boundary peer accepts from its creation on,
    by induction along [replay]: the sequence numbers, the pairing of commands and
    results, the prompt bound of a task attempt, the admitted configuration, the
    Forum answers and the usage accounting. *)

From S2P Require Import Prelude Hash Json JsonReference PiText PiWire PiForum PiTypes PiScanner.
From S2P Require Import PiDecode PiEncode PiCodecSpec PiCost PiPeer PiPeerStep PiPeerLifecycle.
From S2P Require Import PiPeerSample.

Import BoundaryPeer.

(** ** The frames of a conversation, per direction *)

Definition sent_frames (ts : list Traffic.t) : list InboundFrame.t :=
  omap (fun t => match t with Traffic.Sent f => Some f | _ => None end) ts.
Definition received_frames (ts : list Traffic.t) : list OutboundFrame.t :=
  omap (fun t => match t with Traffic.Received f => Some f | _ => None end) ts.

Lemma sent_frames_snoc ts t :
  sent_frames (ts ++ [t])
  = sent_frames ts ++ match t with Traffic.Sent f => [f] | _ => [] end.
Proof. unfold sent_frames. rewrite omap_app. by destruct t. Qed.

Lemma received_frames_snoc ts t :
  received_frames (ts ++ [t])
  = received_frames ts ++ match t with Traffic.Received f => [f] | _ => [] end.
Proof. unfold received_frames. rewrite omap_app. by destruct t. Qed.

Section Trace.
Context `{Blake3} `{JsonLibrary}.

Lemma exchange_sent f p o p' :
  exchange (Traffic.Sent f) p = (Ok o, p') ->
  exists p2, inbound_guard f p
    /\ command_step (InboundFrame.correlation_identity f) (next_inbound p)
         (InboundFrame.command f) p2
    /\ p' = register f p2.
Proof. intros Hx. cbn in Hx. accepted Hx. by eapply admit_inbound_sound. Qed.

Lemma exchange_received f p o p' :
  exchange (Traffic.Received f) p = (Ok o, p') ->
  outbound_guard f p
  /\ event_step (BoundarySequence.value (OutboundFrame.sequence f))
       (OutboundFrame.correlation_identity f) (next_outbound p) (OutboundFrame.event f) o p'.
Proof. intros Hx. by apply observe_outbound_sound. Qed.

(** ** Sequence numbers *)

Lemma command_step_sequences c p command p' :
  command_step c p command p' ->
  expected_inbound_sequence p' = expected_inbound_sequence p
  /\ expected_outbound_sequence p' = expected_outbound_sequence p.
Proof. by intros []. Qed.

Lemma result_step_sequences n c p name ok p' :
  result_step n c p name ok p' ->
  expected_inbound_sequence p' = expected_inbound_sequence p
  /\ expected_outbound_sequence p' = expected_outbound_sequence p.
Proof. by intros []. Qed.

Lemma event_step_sequences n c p event o p' :
  event_step n c p event o p' ->
  expected_inbound_sequence p' = expected_inbound_sequence p
  /\ expected_outbound_sequence p' = expected_outbound_sequence p.
Proof.
  intros []; try done.
  - by match goal with H : result_step _ _ _ _ _ _ |- _ => apply result_step_sequences in H end.
  - cbv zeta. by case_bool_decide.
Qed.

Definition sequences_ok (ts : list Traffic.t) (p : BoundaryPeer.t) : Prop :=
  map (fun f => BoundarySequence.value (InboundFrame.sequence f)) (sent_frames ts)
    = seqZ 1 (Z.of_nat (length (sent_frames ts)))
  /\ map (fun f => BoundarySequence.value (OutboundFrame.sequence f)) (received_frames ts)
    = seqZ 1 (Z.of_nat (length (received_frames ts)))
  /\ expected_inbound_sequence p = 1 + Z.of_nat (length (sent_frames ts))
  /\ expected_outbound_sequence p = 1 + Z.of_nat (length (received_frames ts)).

Lemma seqZ_snoc {A} (g : A -> Z) (l : list A) x :
  map g l = seqZ 1 (Z.of_nat (length l)) -> g x = 1 + Z.of_nat (length l) ->
  map g (l ++ [x]) = seqZ 1 (Z.of_nat (length (l ++ [x]))).
Proof.
  intros Hl Hx. rewrite map_app, Hl, length_app. cbn [length map].
  rewrite Nat2Z.inj_add, seqZ_app by lia. rewrite Hx. f_equal.
Qed.

Lemma exchange_sequences ts p t o p' :
  sequences_ok ts p -> exchange t p = (Ok o, p') -> sequences_ok (ts ++ [t]) p'.
Proof.
  unfold sequences_ok. intros (Hs & Hr & Hi & Ho) Hx.
  rewrite sent_frames_snoc, received_frames_snoc. destruct t as [f|f].
  - apply exchange_sent in Hx as (p2 & (_ & _ & Hseq & _) & Hstep & ->).
    apply command_step_sequences in Hstep as [Hi' Ho'].
    rewrite app_nil_r. split_and!; [apply seqZ_snoc; [done|congruence]|done| |].
    + cbn in *. rewrite Hi', length_app. cbn. lia.
    + cbn in *. by rewrite Ho'.
  - apply exchange_received in Hx as [(_ & _ & Hseq) Hstep].
    apply event_step_sequences in Hstep as [Hi' Ho'].
    rewrite app_nil_r. split_and!; [done|apply seqZ_snoc; [done|congruence]| |].
    + cbn in *. by rewrite Hi'.
    + cbn in *. rewrite Ho', length_app. cbn. lia.
Qed.

(** ** Commands and results *)

Definition commands (ts : list Traffic.t) : list (CorrelationIdentity * CommandName.t) :=
  map (fun f => (InboundFrame.correlation_identity f,
                 InboundCommand.name (InboundFrame.command f))) (sent_frames ts).

Definition result_of (f : OutboundFrame.t) :
  option (CorrelationIdentity * CommandResult.t) :=
  match OutboundFrame.event f, OutboundFrame.correlation_identity f with
  | OutboundEvent.CommandResult r, Some c => Some (c, r)
  | _, _ => None
  end.
Definition results (ts : list Traffic.t) : list (CorrelationIdentity * CommandResult.t) :=
  omap result_of (received_frames ts).

Lemma command_step_pending c p command p' :
  command_step c p command p' ->
  pending_commands p' = pending_commands p
  /\ completed_correlations p' = completed_correlations p.
Proof. by intros []. Qed.

Lemma result_step_pending n c p name ok p' :
  result_step n c p name ok p' -> pending_commands p' = pending_commands p.
Proof. by intros []. Qed.

(** Only a result changes the pending entries, and only the one it answers. *)
Lemma event_step_pending n correlation p event o p' :
  event_step n correlation p event o p' ->
  match event with
  | OutboundEvent.CommandResult r =>
      exists c command, correlation = Some c /\ pending_commands p !! c = Some command
        /\ PendingCommand.result_seen command = false
        /\ PendingCommand.name command = result_command r
        /\ pending_commands p'
           = <[c := PendingCommand.new (result_command r) true (result_accepted r)]>
               (pending_commands p)
  | _ => pending_commands p' = pending_commands p
  end.
Proof.
  intros []; try done.
  - do 2 eexists. split_and!; [done..|].
    match goal with H : result_step _ _ _ _ _ _ |- _ => apply result_step_pending in H end. done.
  - cbv zeta. by case_bool_decide.
Qed.

Definition pairing_ok (ts : list Traffic.t) (p : BoundaryPeer.t) : Prop :=
  NoDup (commands ts).*1 /\ NoDup (results ts).*1
  /\ (forall c command, pending_commands p !! c = Some command ->
        (c, PendingCommand.name command) ∈ commands ts)
  /\ (forall c, c ∈ (commands ts).*1 -> is_Some (pending_commands p !! c))
  /\ (forall c r, (c, r) ∈ results ts ->
        pending_commands p !! c
        = Some (PendingCommand.new (result_command r) true (result_accepted r))).

Lemma commands_snoc_sent ts f :
  commands (ts ++ [Traffic.Sent f])
  = commands ts ++ [(InboundFrame.correlation_identity f,
                     InboundCommand.name (InboundFrame.command f))].
Proof. unfold commands. by rewrite sent_frames_snoc, map_app. Qed.

Lemma sent_pairing ts f p p2 :
  pending_commands p !! InboundFrame.correlation_identity f = None ->
  pending_commands p2 = pending_commands p ->
  pairing_ok ts p -> pairing_ok (ts ++ [Traffic.Sent f]) (register f p2).
Proof.
  intros Hfresh Hp2 (Hc & Hr & Hpend & Hdom & Hres).
  unfold pairing_ok. rewrite commands_snoc_sent.
  replace (results (ts ++ [Traffic.Sent f])) with (results ts)
    by (unfold results; by rewrite received_frames_snoc, app_nil_r).
  rewrite fmap_app. cbn. rewrite Hp2. split_and!; [|done| | |].
  - apply NoDup_app. split_and!; [done| |apply NoDup_singleton].
    intros c Hin ->%list_elem_of_singleton. apply Hdom in Hin as [? Hin]. congruence.
  - intros c command. rewrite lookup_insert_Some. intros [[<- <-]|[_ Hl]].
    + apply elem_of_app. right. by apply list_elem_of_singleton.
    + apply elem_of_app. left. by apply Hpend.
  - intros c [Hin| ->%list_elem_of_singleton]%elem_of_app.
    + apply lookup_insert_is_Some'. right. by apply Hdom.
    + rewrite lookup_insert_eq. by eexists.
  - intros c r Hin. rewrite lookup_insert_ne; [by apply Hres|].
    intros <-. apply Hres in Hin. congruence.
Qed.

Lemma received_other_pairing ts f p p' :
  result_of f = None -> pending_commands p' = pending_commands p ->
  pairing_ok ts p -> pairing_ok (ts ++ [Traffic.Received f]) p'.
Proof.
  intros Hf Hp' Hok. unfold pairing_ok, commands, results.
  rewrite sent_frames_snoc, received_frames_snoc, app_nil_r, omap_app, Hp'. cbn.
  rewrite Hf, app_nil_r. exact Hok.
Qed.

Lemma received_result_pairing ts f p p' c command r :
  result_of f = Some (c, r) -> pending_commands p !! c = Some command ->
  PendingCommand.result_seen command = false ->
  PendingCommand.name command = result_command r ->
  pending_commands p'
    = <[c := PendingCommand.new (result_command r) true (result_accepted r)]>
        (pending_commands p) ->
  pairing_ok ts p -> pairing_ok (ts ++ [Traffic.Received f]) p'.
Proof.
  intros Hf Hl Hseen Hname Hp' (Hc & Hr & Hpend & Hdom & Hres).
  unfold pairing_ok.
  replace (commands (ts ++ [Traffic.Received f])) with (commands ts)
    by (unfold commands; by rewrite sent_frames_snoc, app_nil_r).
  replace (results (ts ++ [Traffic.Received f])) with (results ts ++ [(c, r)])
    by (unfold results; rewrite received_frames_snoc, omap_app; cbn; by rewrite Hf).
  rewrite fmap_app, Hp'. cbn. split_and!; [done| | | |].
  - apply NoDup_app. split_and!; [done| |apply NoDup_singleton].
    intros c' Hin ->%list_elem_of_singleton.
    apply list_elem_of_fmap in Hin as ([c' r'] & -> & Hin). apply Hres in Hin. cbn in *.
    rewrite Hl in Hin. by simplify_eq/=.
  - intros c' command'. rewrite lookup_insert_Some. intros [[<- <-]|[_ Hl']]; cbn.
    + rewrite <-Hname. by apply Hpend.
    + by apply Hpend.
  - intros c' Hin. apply lookup_insert_is_Some'. right. by apply Hdom.
  - intros c' r' [Hin|Hin%list_elem_of_singleton]%elem_of_app.
    + rewrite lookup_insert_ne; [by apply Hres|]. intros <-. apply Hres in Hin.
      rewrite Hl in Hin. by simplify_eq/=.
    + injection Hin as -> ->. by rewrite lookup_insert_eq.
Qed.

Lemma exchange_pairing ts p t o p' :
  pairing_ok ts p -> exchange t p = (Ok o, p') -> pairing_ok (ts ++ [t]) p'.
Proof.
  intros Hok Hx. destruct t as [f|f].
  - apply exchange_sent in Hx as (p2 & (_ & _ & _ & Hfresh & _) & Hstep & ->).
    apply command_step_pending in Hstep as [Hp2 _]. by eapply sent_pairing.
  - apply exchange_received in Hx as [_ Hstep]. apply event_step_pending in Hstep.
    destruct (OutboundFrame.event f) as [| |r| | | | | | ] eqn:He;
      try (eapply received_other_pairing; [unfold result_of; by rewrite He|exact Hstep|exact Hok]).
    destruct Hstep as (c & command & Hc & Hl & Hseen & Hname & Hp').
    eapply received_result_pairing; [|exact Hl|done|done|exact Hp'|exact Hok].
    unfold result_of. by rewrite He, Hc.
Qed.

(** ** The session's creation and its prompts *)

(** How the creation fields may change. *)
Lemma event_step_create n c p event o p' :
  event_step n c p event o p' ->
  (create p' = create p /\ create_candidate p' = create_candidate p
   \/ exists correlation payload, create_candidate p = Some (correlation, payload)
       /\ create p' = Some payload /\ create_candidate p' = None)
  /\ task_attempt_prompt_admitted p' = task_attempt_prompt_admitted p.
Proof.
  intros []; try (by split; [left|]).
  - match goal with H : result_step _ _ _ _ _ _ |- _ => destruct H end;
      try (by split; [left|]). split; [right|done]. by do 2 eexists.
  - cbv zeta. case_bool_decide; (by split; [left|]).
Qed.

Definition prompts (ts : list Traffic.t) : nat :=
  length (List.filter (fun c => bool_decide (c.2 = CommandName.Prompt)) (commands ts)).

Lemma prompts_snoc_received ts f : prompts (ts ++ [Traffic.Received f]) = prompts ts.
Proof. unfold prompts, commands. by rewrite sent_frames_snoc, app_nil_r. Qed.

Lemma prompts_snoc_sent ts f :
  prompts (ts ++ [Traffic.Sent f])
  = (prompts ts
     + if bool_decide (InboundCommand.name (InboundFrame.command f) = CommandName.Prompt)
       then 1 else 0)%nat.
Proof.
  unfold prompts. rewrite commands_snoc_sent, List.filter_app, length_app. cbn.
  by case_bool_decide.
Qed.

Definition prompt_bound (ts : list Traffic.t) (p : BoundaryPeer.t) : Prop :=
  match create p with
  | None => prompts ts = 0%nat
  | Some payload =>
      CreateSessionPayload.session_kind payload = SessionKind.TaskAttempt ->
      (prompts ts <= if task_attempt_prompt_admitted p then 1 else 0)%nat
  end.

Lemma command_step_prompts c p command p' ts f :
  InboundFrame.command f = command -> command_step c p command p' ->
  prompt_bound ts p -> prompt_bound (ts ++ [Traffic.Sent f]) p'.
Proof.
  intros Hf Hs. unfold prompt_bound. rewrite prompts_snoc_sent, Hf.
  destruct Hs; cbn; try (by rewrite Nat.add_0_r).
  - match goal with E : create p = Some _ |- _ => rewrite E end. intros Hb Hkind.
    rewrite !bool_decide_eq_true_2 by done. specialize (Hb Hkind). cbn.
    match goal with E : _ -> task_attempt_prompt_admitted p = false |- _ =>
      rewrite (E Hkind) in Hb end. lia.
  - match goal with c : InboundCommand.t |- _ => destruct c end; try done;
      cbn; by rewrite Nat.add_0_r.
Qed.

Lemma candidate_uncreated p x :
  peer_ok p -> phase p <> PeerPhase.Fatal -> create_candidate p = Some x -> create p = None.
Proof.
  intros Hok Hlive Hc. unfold peer_ok in Hok.
  destruct (phase p); try done; destruct_and?; congruence.
Qed.

Lemma exchange_prompts ts p t o p' :
  peer_ok p -> prompt_bound ts p -> exchange t p = (Ok o, p') ->
  prompt_bound (ts ++ [t]) p'.
Proof.
  intros Hok Hb Hx. destruct t as [f|f].
  - apply exchange_sent in Hx as (p2 & _ & Hs & ->).
    by eapply (command_step_prompts _ (next_inbound p) _ p2 ts f eq_refl Hs) in Hb.
  - apply exchange_received in Hx as [(Hlive & _) Hs].
    destruct (event_step_create _ _ _ _ _ _ Hs) as [[[Hc _]|(c & payload & Hcand & Hc & Hnone)] Ht];
      unfold prompt_bound in *; rewrite prompts_snoc_received, Hc, Ht; cbn in *; [done|].
    intros _. rewrite (candidate_uncreated p (c, payload)) in Hb; [lia|done| |done].
    intros Hf. specialize (Hlive Hf).
    destruct (OutboundFrame.event f); try done. inversion Hs; subst. cbn in *. congruence.
Qed.

(** ** The admitted session *)

Definition created_by (ts : list Traffic.t) (payload : CreateSessionPayload.t) : Prop :=
  (exists f, f ∈ sent_frames ts
             /\ InboundFrame.command f = InboundCommand.CreateSession payload)
  /\ profile_drifts payload = false
  /\ ModelCatalogPolicyV1.assert_pinned (CreateSessionPayload.model_catalog payload) = Ok ()
  /\ ActorModelPolicyV1.assert_pinned (CreateSessionPayload.settings payload) = Ok ()
  /\ ForumSessionContractV1.assert_pinned (CreateSessionPayload.forum_contract payload) = Ok ().

Definition session_admitted (ts : list Traffic.t) (p : BoundaryPeer.t) : Prop :=
  (forall c payload, create_candidate p = Some (c, payload) -> created_by ts payload)
  /\ (forall payload, create p = Some payload -> created_by ts payload)
  /\ (forall configuration, BoundaryPeer.configuration p = Some configuration ->
        EffectiveSessionConfiguration.assert_pinned configuration = Ok ()
        /\ exists payload, create p = Some payload
              /\ configuration_drifts configuration payload = false).

Lemma created_by_snoc ts t payload : created_by ts payload -> created_by (ts ++ [t]) payload.
Proof.
  intros [(f & Hin & Hf) Hrest]. split; [|done]. exists f. split; [|done].
  rewrite sent_frames_snoc. apply elem_of_app. by left.
Qed.

Lemma session_admitted_snoc ts t p : session_admitted ts p -> session_admitted (ts ++ [t]) p.
Proof.
  intros (Hcd & Hcr & Hcf). split_and!; eauto using created_by_snoc.
Qed.

Lemma command_step_session c p command p' ts f :
  InboundFrame.command f = command -> command_step c p command p' ->
  session_admitted ts p -> session_admitted (ts ++ [Traffic.Sent f]) p'.
Proof.
  intros Hf Hs Hok. destruct Hs; try by apply session_admitted_snoc.
  destruct (session_admitted_snoc ts (Traffic.Sent f) p Hok) as (Hcd & Hcr & Hcf).
  split_and!; [|done|done]. intros c' payload' [= <- <-]. split; [|done].
  exists f. split; [|done]. rewrite sent_frames_snoc. apply elem_of_app. right.
  by apply list_elem_of_singleton.
Qed.

Lemma event_step_configuration n c p event o p' :
  event_step n c p event o p' ->
  BoundaryPeer.configuration p' = BoundaryPeer.configuration p
  \/ create p' = create p
     /\ exists configuration payload, BoundaryPeer.configuration p' = Some configuration
        /\ EffectiveSessionConfiguration.assert_pinned configuration = Ok ()
        /\ create p = Some payload /\ configuration_drifts configuration payload = false.
Proof.
  intros []; try (by left).
  - right. split; [done|]. by do 2 eexists.
  - match goal with H : result_step _ _ _ _ _ _ |- _ => by destruct H; left end.
  - cbv zeta. left. by case_bool_decide.
Qed.

(** A live peer whose candidate is open has neither a session nor a
    configuration to drift from. *)
Lemma event_step_session n c p event o p' ts t :
  peer_ok p -> (phase p = PeerPhase.Fatal -> is_fatal_event event = true) ->
  event_step n c p event o p' -> session_admitted ts p -> session_admitted (ts ++ [t]) p'.
Proof.
  intros Hok Hlive Hs Hadm.
  destruct (session_admitted_snoc ts t p Hadm) as (Hcd & Hcr & Hcf).
  destruct (event_step_create _ _ _ _ _ _ Hs) as [[[Hc Hcand]|(c' & payload & Hcand & Hc & Hnone)] _].
  - destruct (event_step_configuration _ _ _ _ _ _ Hs) as [Hcfg|[_ (cfg & pay & Hcfg & Hp & Hpay & Hd)]].
    + unfold session_admitted. rewrite Hc, Hcand, Hcfg. done.
    + unfold session_admitted. rewrite Hc, Hcand, Hcfg. split_and!; [done|done|].
      intros cfg' [= <-]. split; [done|]. by exists pay.
  - assert (create p = None) as Hnew.
    { eapply candidate_uncreated; [done| |done]. intros Hf. specialize (Hlive Hf).
      destruct event; try done. inversion Hs; subst. cbn in *. congruence. }
    destruct (event_step_configuration _ _ _ _ _ _ Hs) as [Hcfg|[Hc' _]]; [|congruence].
    unfold session_admitted. rewrite Hc, Hnone, Hcfg. split_and!; [done| |].
    + intros payload' [= <-]. by eapply Hcd.
    + intros cfg Hsome. destruct (Hcf cfg Hsome) as (_ & pay & Hpay & _). congruence.
Qed.

Lemma exchange_session ts p t o p' :
  peer_ok p -> session_admitted ts p -> exchange t p = (Ok o, p') ->
  session_admitted (ts ++ [t]) p'.
Proof.
  intros Hok Hadm Hx. destruct t as [f|f].
  - apply exchange_sent in Hx as (p2 & _ & Hs & ->).
    exact (command_step_session _ (next_inbound p) _ _ ts f eq_refl Hs Hadm).
  - apply exchange_received in Hx as [(Hlive & _) Hs].
    exact (event_step_session _ _ (next_outbound p) _ _ _ ts (Traffic.Received f) Hok Hlive Hs Hadm).
Qed.

(** ** Forum calls and their answers *)

Definition forum_calls (call : ToolCallIdentity) (ts : list Traffic.t) : nat :=
  length (List.filter (fun f =>
    match OutboundFrame.event f with
    | OutboundEvent.ForumToolCall c _ _ => bool_decide (c = call)
    | _ => false
    end) (received_frames ts)).
Definition forum_answers (call : ToolCallIdentity) (ts : list Traffic.t) : nat :=
  length (List.filter (fun f =>
    match InboundFrame.command f with
    | InboundCommand.ForumToolResult p =>
        bool_decide (ForumToolResultPayload.tool_call_identity p = call)
    | _ => false
    end) (sent_frames ts)).

Definition forum_balanced (ts : list Traffic.t) (p : BoundaryPeer.t) : Prop :=
  forall call, forum_calls call ts
    = (forum_answers call ts
       + if bool_decide (call ∈ pending_forum_tool_calls p) then 1 else 0)%nat.

Lemma command_step_forum c p command p' :
  command_step c p command p' ->
  match command with
  | InboundCommand.ForumToolResult payload =>
      ForumToolResultPayload.tool_call_identity payload ∈ pending_forum_tool_calls p
      /\ pending_forum_tool_calls p'
         = pending_forum_tool_calls p
           ∖ {[ ForumToolResultPayload.tool_call_identity payload ]}
  | _ => pending_forum_tool_calls p' = pending_forum_tool_calls p
  end.
Proof. intros []; try done. by match goal with c : InboundCommand.t |- _ => destruct c end. Qed.

Lemma event_step_forum n c p event o p' :
  event_step n c p event o p' ->
  match event with
  | OutboundEvent.ForumToolCall call _ _ =>
      call ∉ pending_forum_tool_calls p
      /\ pending_forum_tool_calls p' = {[ call ]} ∪ pending_forum_tool_calls p
  | _ => pending_forum_tool_calls p' = pending_forum_tool_calls p
  end.
Proof.
  intros []; try done.
  - match goal with H : result_step _ _ _ _ _ _ |- _ => by destruct H end.
  - cbv zeta. by case_bool_decide.
Qed.

Lemma exchange_forum ts p t o p' :
  forum_balanced ts p -> exchange t p = (Ok o, p') -> forum_balanced (ts ++ [t]) p'.
Proof.
  intros Hb Hx call. specialize (Hb call). unfold forum_calls, forum_answers in *.
  rewrite sent_frames_snoc, received_frames_snoc, !List.filter_app, !length_app.
  destruct t as [f|f]; cbn [List.filter length].
  - apply exchange_sent in Hx as (p2 & _ & Hs & ->). apply command_step_forum in Hs.
    cbn [register] in *. cbn. destruct (InboundFrame.command f) as [| | | | | | |payload];
      cbn; try (rewrite Hs; cbn in *; lia).
    destruct Hs as [Hin ->]. cbn in *.
    destruct (decide (ForumToolResultPayload.tool_call_identity payload = call)) as [<-|Hne].
    + rewrite (bool_decide_eq_true_2 (_ = _)) by done.
      rewrite bool_decide_eq_true_2 in Hb by done.
      rewrite bool_decide_eq_false_2 by set_solver. cbn. lia.
    + rewrite (bool_decide_eq_false_2 (_ = _)) by done. cbn.
      rewrite (bool_decide_ext (call ∈ _ ∖ _) (call ∈ pending_forum_tool_calls p))
        by set_solver. lia.
  - apply exchange_received in Hx as [_ Hs]. apply event_step_forum in Hs.
    destruct (OutboundFrame.event f) as [| | | |call' name args| | | | ];
      cbn; try (rewrite Hs; cbn in *; lia).
    destruct Hs as [Hnin ->]. cbn in *. destruct (decide (call' = call)) as [<-|Hne].
    + rewrite (bool_decide_eq_true_2 (_ = _)) by done.
      rewrite bool_decide_eq_false_2 in Hb by done.
      rewrite bool_decide_eq_true_2 by set_solver. cbn. lia.
    + rewrite (bool_decide_eq_false_2 (_ = _)) by done. cbn.
      rewrite (bool_decide_ext (call ∈ _ ∪ _) (call ∈ pending_forum_tool_calls p))
        by set_solver. lia.
Qed.

(** ** Usage accounting *)

Definition delta_of (o : option PeerObservation.t) : option UsageDelta.t :=
  match o with Some (PeerObservation.Usage d) => Some d | _ => None end.
Definition deltas (os : list (option PeerObservation.t)) : list UsageDelta.t :=
  omap delta_of os.

Definition snapshot_of (f : OutboundFrame.t) : option UsageTotals.t :=
  match OutboundFrame.event f with
  | OutboundEvent.UsageSnapshot (UsageObservation.Known totals) => Some totals
  | _ => None
  end.
Definition snapshots (ts : list Traffic.t) : list UsageTotals.t :=
  omap snapshot_of (received_frames ts).

Definition usage_accounted (ts : list Traffic.t) (os : list (option PeerObservation.t))
    (p : BoundaryPeer.t) : Prop :=
  Forall (fun t => totals_in_range (UsageObservation.Known t)) (snapshots ts) ->
  accounts_for UsageTracker.default (usage p) (deltas os)
  /\ Forall delta_nonnegative (deltas os)
  /\ length (deltas os) = length (snapshots ts)
  /\ tracker_in_range (usage p).

Lemma command_step_usage c p command p' : command_step c p command p' -> usage p' = usage p.
Proof. by intros []. Qed.

Lemma event_step_usage n c p event o p' :
  event_step n c p event o p' ->
  match event with
  | OutboundEvent.UsageSnapshot (UsageObservation.Known totals) =>
      exists delta,
        UsageTracker.observe (UsageObservation.Known totals) (usage p) = (Ok delta, usage p')
        /\ o = PeerObservation.Usage <$> delta
  | _ => usage p' = usage p /\ delta_of o = None
  end.
Proof.
  intros []; try done.
  - match goal with H : result_step _ _ _ _ _ _ |- _ => by destruct H end.
  - by eexists.
  - cbv zeta. by case_bool_decide.
Qed.

Lemma usage_unchanged ts os p t o p' :
  snapshots (ts ++ [t]) = snapshots ts -> usage p' = usage p -> delta_of o = None ->
  usage_accounted ts os p -> usage_accounted (ts ++ [t]) (os ++ [o]) p'.
Proof.
  intros Hs Hu Hd Hok. unfold usage_accounted, deltas in *.
  rewrite Hs, Hu, omap_app. cbn. by rewrite Hd, app_nil_r.
Qed.

Lemma usage_observed ts os p f p' totals delta :
  snapshot_of f = Some totals ->
  UsageTracker.observe (UsageObservation.Known totals) (usage p) = (Ok delta, usage p') ->
  usage_accounted ts os p ->
  usage_accounted (ts ++ [Traffic.Received f]) (os ++ [PeerObservation.Usage <$> delta]) p'.
Proof.
  intros Hf Ho Hok. unfold usage_accounted.
  replace (snapshots (ts ++ [Traffic.Received f])) with (snapshots ts ++ [totals])
    by (unfold snapshots; rewrite received_frames_snoc, omap_app; cbn; by rewrite Hf).
  intros [Hrange Ht]%Forall_app. apply Forall_cons in Ht as [Ht _].
  destruct (Hok Hrange) as (Hacc & Hnn & Hlen & Htr).
  pose proof (observe_spec (UsageObservation.Known totals) (usage p)) as Hspec.
  rewrite Ho in Hspec. destruct Hspec as (totals' & current & [= <-] & Hn & Hu & -> & Hreg).
  pose proof (from_totals_in_range _ _ Ht Hn) as Hcur.
  destruct (delta_step (usage p) current Htr Hcur Hreg) as [Hd Hstep].
  unfold deltas in *. rewrite omap_app. cbn. rewrite Hu. split_and!.
  - by eapply accounts_for_trans.
  - apply Forall_app. split; [done|]. by constructor.
  - rewrite !length_app. cbn. by rewrite Hlen.
  - by intros u [= <-].
Qed.

Lemma exchange_usage ts os p t o p' :
  usage_accounted ts os p -> exchange t p = (Ok o, p') ->
  usage_accounted (ts ++ [t]) (os ++ [o]) p'.
Proof.
  intros Hok Hx. destruct t as [f|f].
  - assert (o = None) as -> by (cbn in Hx; by accepted Hx).
    apply exchange_sent in Hx as (p2 & _ & Hs & ->). apply command_step_usage in Hs.
    eapply usage_unchanged; [|exact Hs|done|exact Hok].
    unfold snapshots. by rewrite received_frames_snoc, app_nil_r.
  - apply exchange_received in Hx as [_ Hs]. apply event_step_usage in Hs.
    assert (snapshot_of f = None -> snapshots (ts ++ [Traffic.Received f]) = snapshots ts) as Hn.
    { intros Hf. unfold snapshots. rewrite received_frames_snoc, omap_app. cbn.
      by rewrite Hf, app_nil_r. }
    destruct (OutboundFrame.event f) as [| | | | |[totals|reason]| | | ] eqn:He;
      try (destruct Hs as [Hu Hd];
           eapply usage_unchanged; [apply Hn; unfold snapshot_of; by rewrite He|exact Hu|exact Hd|exact Hok]).
    destruct Hs as (delta & Hobs & ->).
    eapply usage_observed; [unfold snapshot_of; by rewrite He|exact Hobs|exact Hok].
Qed.

Context (identity : SessionIdentity) (pid : HostProcessId.t) (nonce : SpawnNonce)
  (runtime : RuntimeIdentity.t) (p0 : BoundaryPeer.t).
Context (Hnew : BoundaryPeer.new identity pid nonce runtime = Ok p0).

Lemma new_fields :
  p0 = BoundaryPeer.mk identity pid nonce runtime
         PeerPhase.AwaitingAdapterReady 1 1 false false ∅ ∅ None None None None ∅ None None
         None false ∅ None [] UsageTracker.default [] [].
Proof. unfold BoundaryPeer.new in Hnew. destruct (map_err _ _); by simplify_eq. Qed.

(** The type invariant of the sequence numbers of a conversation. *)
Definition sequences_typed (ts : list Traffic.t) : Prop :=
  Forall (fun f => BoundarySequence.value (InboundFrame.sequence f) <= MAX_SAFE_INTEGER)
    (sent_frames ts)
  /\ Forall (fun f => BoundarySequence.value (OutboundFrame.sequence f) <= MAX_SAFE_INTEGER)
       (received_frames ts).

Lemma last_sequence {A} (g : A -> Z) (l : list A) :
  map g l = seqZ 1 (Z.of_nat (length l)) -> Forall (fun x => g x <= MAX_SAFE_INTEGER) l ->
  Z.of_nat (length l) <= MAX_SAFE_INTEGER.
Proof.
  destruct l as [|x l _] using rev_ind; intros Hm Hall; [unfold MAX_SAFE_INTEGER; cbn; lia|].
  apply Forall_app in Hall as [_ Hx]. apply Forall_cons in Hx as [Hx _].
  rewrite map_app, length_app in Hm. cbn in Hm.
  rewrite Nat2Z.inj_add, seqZ_app in Hm by lia.
  apply app_inj_2 in Hm as [_ Hm]; [|done]. cbn in Hm. injection Hm as Hm.
  rewrite length_app. cbn. lia.
Qed.

(** In each direction the frames of an accepted conversation are numbered
    1, 2, 3, ... without a gap, a repetition or a reordering, and the peer expects
    the next number; the counters never exceed the safe-integer range by more
    than one, so their 64-bit increments cannot overflow. *)
Theorem accepted_sequences_are_consecutive ts os p
    (Hrun : replay ts p0 = (Ok os, p)) (Htyped : sequences_typed ts) :
  sequences_ok ts p
  /\ 1 <= expected_inbound_sequence p <= MAX_SAFE_INTEGER + 1
  /\ 1 <= expected_outbound_sequence p <= MAX_SAFE_INTEGER + 1
  /\ MAX_SAFE_INTEGER + 1 < u64_max.
Proof.
  assert (sequences_ok ts p) as Hok.
  { revert ts os p Hrun Htyped. intros ts os p Hrun _. revert ts os p Hrun.
    apply (replay_ind sequences_ok); [by rewrite new_fields|].
    intros ts p t o p'. apply exchange_sequences. }
  split; [done|]. destruct Hok as (Hs & Hr & -> & ->), Htyped as [Hts Htr].
  pose proof (last_sequence _ _ Hs Hts). pose proof (last_sequence _ _ Hr Htr).
  split_and!; try lia. by vm_compute.
Qed.

(** In an accepted conversation every command has a correlation of its own,
    every command gets at most one result, and every result names a correlation
    that was admitted and the very command admitted under it.  (Each prefix of
    an accepted conversation is accepted, so the command came first.) *)
Theorem results_answer_their_commands ts os p
    (Hrun : replay ts p0 = (Ok os, p)) :
  NoDup (commands ts).*1
  /\ NoDup (results ts).*1
  /\ forall c r, (c, r) ∈ results ts -> (c, result_command r) ∈ commands ts.
Proof.
  assert (pairing_ok ts p) as (Hc & Hr & Hpend & _ & Hres).
  { revert ts os p Hrun. apply (replay_ind pairing_ok); [|by intros; eapply exchange_pairing].
    rewrite new_fields. split_and!; cbn; try constructor; intros *; set_solver. }
  split; [done|]. split; [done|]. intros c r Hin. apply Hres, Hpend in Hin. done.
Qed.

(** Before a session is created no prompt is admitted, and a session created
    for a task attempt admits at most one prompt in its whole life, however its
    commands, results and settlements interleave. *)
Theorem task_attempt_admits_one_prompt ts os p
    (Hrun : replay ts p0 = (Ok os, p)) :
  match create p with
  | None => prompts ts = 0%nat
  | Some payload =>
      CreateSessionPayload.session_kind payload = SessionKind.TaskAttempt ->
      (prompts ts <= 1)%nat
  end.
Proof.
  assert (peer_ok p /\ prompt_bound ts p) as [_ Hb].
  { revert ts os p Hrun. apply (replay_ind (fun ts p => peer_ok p /\ prompt_bound ts p)).
    - split; [by eapply new_ok|]. by rewrite new_fields.
    - intros ts p t o p' [Hok Hb] Hx. split; [by eapply exchange_moves|].
      by eapply exchange_prompts. }
  unfold prompt_bound in Hb. destruct (create p); [|done]. intros Hk. specialize (Hb Hk).
  destruct (task_attempt_prompt_admitted p); lia.
Qed.

(** The configuration a host reports is accepted only when it is pinned and
    repeats, field by field, the session this peer was asked to create: kind,
    working and session directory, model, catalog, tool profile, settings and
    Forum contract; the session file lies strictly inside the session directory;
    and that creation was itself a sent command with pinned policies whose system
    prompt has the claimed digest. *)
Theorem reported_configuration_is_the_admitted_one ts os p configuration
    (Hrun : replay ts p0 = (Ok os, p))
    (Hconf : BoundaryPeer.configuration p = Some configuration) :
  EffectiveSessionConfiguration.assert_pinned configuration = Ok ()
  /\ exists payload f,
       create p = Some payload
       /\ f ∈ sent_frames ts /\ InboundFrame.command f = InboundCommand.CreateSession payload
       /\ digest (bytes (CreateSessionPayload.system_prompt payload))
          = CreateSessionPayload.system_prompt_digest payload
       /\ EffectiveSessionConfiguration.session_kind configuration
          = CreateSessionPayload.session_kind payload
       /\ EffectiveSessionConfiguration.cwd configuration = CreateSessionPayload.cwd payload
       /\ EffectiveSessionConfiguration.session_directory configuration
          = CreateSessionPayload.session_directory payload
       /\ EffectiveSessionConfiguration.model configuration
          = CreateSessionPayload.model payload
       /\ EffectiveSessionConfiguration.model_catalog configuration
          = CreateSessionPayload.model_catalog payload
       /\ EffectiveSessionConfiguration.tool_profile configuration
          = CreateSessionPayload.tool_profile payload
       /\ EffectiveSessionConfiguration.settings configuration
          = CreateSessionPayload.settings payload
       /\ EffectiveSessionConfiguration.forum_contract configuration
          = CreateSessionPayload.forum_contract payload
       /\ AbsolutePath.is_strict_descendant_of
            (EffectiveSessionConfiguration.session_file configuration)
            (CreateSessionPayload.session_directory payload) = true.
Proof.
  assert (peer_ok p /\ session_admitted ts p) as [_ (_ & Hcreated & Hconfigured)].
  { revert ts os p Hrun Hconf. intros ts os p Hrun _. revert ts os p Hrun.
    apply (replay_ind (fun ts p => peer_ok p /\ session_admitted ts p)).
    - split; [by eapply new_ok|]. rewrite new_fields. by split_and!.
    - intros ts p t o p' [Hok Ha] Hx. split; [by eapply exchange_moves|].
      by eapply exchange_session. }
  destruct (Hconfigured _ Hconf) as (Hp & payload & Hpay & Hd). split; [done|].
  destruct (Hcreated _ Hpay) as ((f & Hin & Hf) & Hdrift & _). exists payload, f.
  unfold configuration_drifts in Hd. unfold profile_drifts in Hdrift. guards.
  by split_and!.
Qed.

(** Forum answers and calls are in one-to-one correspondence: for every tool
    call identity the host's calls number exactly the answers sent, plus one
    while a call is open.  No call is answered twice and none is answered that
    was not made. *)
Theorem forum_answers_match_calls ts os p (Hrun : replay ts p0 = (Ok os, p)) :
  forall call, forum_calls call ts
    = (forum_answers call ts
       + if bool_decide (call ∈ pending_forum_tool_calls p) then 1 else 0)%nat.
Proof.
  revert ts os p Hrun. apply (replay_ind forum_balanced); [|by intros; eapply exchange_forum].
  rewrite new_fields. intros call. cbn. by rewrite bool_decide_eq_false_2 by set_solver.
Qed.

(** Over any accepted conversation the usage observations handed to the
    caller are one per known snapshot, none has a negative component, and they
    add up, token class by token class and in micro-USD, to the latest cumulative
    snapshot: a caller that charges every delta charges each unit exactly once. *)
Theorem peer_usage_is_conserved ts os p
    (Hrun : replay ts p0 = (Ok os, p))
    (Hrange : Forall (fun t => totals_in_range (UsageObservation.Known t)) (snapshots ts)) :
  accounts_for UsageTracker.default (usage p) (deltas os)
  /\ Forall delta_nonnegative (deltas os)
  /\ length (deltas os) = length (snapshots ts).
Proof.
  assert (usage_accounted ts os p) as Hacc.
  { revert ts os p Hrun Hrange. intros ts os p Hrun _. revert ts os p Hrun.
    apply (replay_ind_observed usage_accounted); [|by intros; eapply exchange_usage].
    rewrite new_fields. intros _. cbn. split_and!; [|constructor|done|by intros u [=]].
    unfold accounts_for. cbn. lia. }
  destruct (Hacc Hrange) as (? & ? & ? & _). done.
Qed.
End Trace.

Lemma accepted_sequences_are_consecutive_witness :
  sequences_ok until_disposed (after until_disposed)
  /\ expected_outbound_sequence (after until_disposed) = 12.
Proof.
  destruct (accepted_sequences_are_consecutive _ _ _ _ _ fresh_peer_new until_disposed
              (observations until_disposed) (after until_disposed)) as (Hs & _).
  - apply accepted_replay. vm_compute. reflexivity.
  - split; repeat constructor; vm_compute; discriminate.
  - split; [exact Hs|]. vm_compute. reflexivity.
Defined.

Lemma results_answer_their_commands_witness :
  NoDup (commands until_disposed).*1 /\ length (results until_disposed) = 3%nat.
Proof.
  split; [|vm_compute; reflexivity].
  apply (results_answer_their_commands _ _ _ _ _ fresh_peer_new until_disposed
           (observations until_disposed) (after until_disposed)).
  apply accepted_replay. vm_compute. reflexivity.
Defined.

Lemma task_attempt_admits_one_prompt_witness : (prompts until_disposed <= 1)%nat.
Proof.
  pose proof (task_attempt_admits_one_prompt _ _ _ _ _ fresh_peer_new until_disposed
                (observations until_disposed) (after until_disposed)) as Hp.
  assert (create (after until_disposed) = Some session_payload) as Hc
    by (vm_compute; reflexivity).
  rewrite Hc in Hp. apply Hp; [|reflexivity].
  apply accepted_replay. vm_compute. reflexivity.
Defined.

Lemma reported_configuration_is_the_admitted_one_witness :
  EffectiveSessionConfiguration.assert_pinned session_configuration = Ok ().
Proof.
  apply (reported_configuration_is_the_admitted_one _ _ _ _ _ fresh_peer_new until_disposed
           (observations until_disposed) (after until_disposed)).
  - apply accepted_replay. vm_compute. reflexivity.
  - vm_compute. reflexivity.
Defined.

Lemma forum_answers_match_calls_witness :
  forum_calls (ClosedString "call-1") forum_conversation
  = (forum_answers (ClosedString "call-1") forum_conversation + 0)%nat
  /\ forum_calls (ClosedString "call-2") forum_conversation
     = (forum_answers (ClosedString "call-2") forum_conversation + 1)%nat
  /\ forum_calls (ClosedString "call-1") forum_conversation = 1%nat.
Proof.
  assert (replay forum_conversation fresh_peer
          = (Ok (observations forum_conversation), after forum_conversation)) as Hrun
    by (apply accepted_replay; vm_compute; reflexivity).
  pose proof (forum_answers_match_calls _ _ _ _ _ fresh_peer_new _ _ _ Hrun
                (ClosedString "call-1")) as Hone.
  pose proof (forum_answers_match_calls _ _ _ _ _ fresh_peer_new _ _ _ Hrun
                (ClosedString "call-2")) as Htwo.
  split; [exact Hone|]. split; [exact Htwo|]. vm_compute. reflexivity.
Defined.

Lemma peer_usage_is_conserved_witness :
  total UsageDelta.micro_usd (deltas (observations until_disposed)) = 20001.
Proof.
  destruct (peer_usage_is_conserved _ _ _ _ _ fresh_peer_new until_disposed
              (observations until_disposed) (after until_disposed)) as [Hacc _].
  - apply accepted_replay. vm_compute. reflexivity.
  - repeat constructor; vm_compute; discriminate.
  - destruct Hacc as (_ & _ & _ & _ & _ & ->). vm_compute. reflexivity.
Defined.

(** ** After the transcript receipt *)

(** A snapshot for the finished Dispose command, one frame after the receipt. *)
Definition late_snapshot : Traffic.t :=
  received 13 (Some "dispose"%string) (snapshot 9 "3fa47ae147ae147b").
Definition until_late : list Traffic.t :=
  until_disposed ++ [Traffic.Received disposal; late_snapshot].

(** The dispose chain is closed before the receipt but not after it: on a peer
    in phase Disposed a further usage snapshot for the finished Dispose command is
    still accepted, stays in phase Disposed, raises the tracked usage and is
    reported to the caller as a new non-zero charge. *)
Theorem disposed_peer_still_reports_charges :
  phase (after (until_disposed ++ [Traffic.Received disposal])) = PeerPhase.Disposed
  /\ accepts until_late = true
  /\ phase (after until_late) = PeerPhase.Disposed
  /\ exists d, last (observations until_late) = Some (Some (PeerObservation.Usage d))
               /\ 0 < UsageDelta.micro_usd d.
Proof.
  repeat split; try (vm_compute; reflexivity).
  eexists. split; vm_compute; reflexivity.
Qed.
